(* ===== verification/_CoqProject ===== *)
-Q . S2P
Prelude.v
Contracts.v
Conditions.v
Graph.v
WorkerContracts.v
Journal.v
JournalSafety.v
ReviewContracts.v
Schema.v
Records.v
Auth.v
Samples.v
MissionTree.v
Missions.v
MissionInvariant.v
MissionProperties.v
Ledger.v
Usage.v
Watchdog.v
Capacity.v
Queue.v
Sessions.v
Assignments.v
Deliveries.v
Settlement.v
Runs.v
Workspaces.v
Labels.v
Objectives.v
Cancellation.v
Phases.v
Demand.v
Launch.v
Leases.v
Admission.v
AdmissionSafety.v
Panel.v
PanelSafety.v
Decisions.v
Packets.v
Invocations.v
ProviderEvents.v
ObservationSafety.v
WorkerEvents.v
WorkerReports.v
Gates.v
Communications.v
Chat.v
Outbox.v
GateSafety.v
InvocationSafety.v
Preparation.v
CommunicationSafety.v
OutboxSafety.v
Sync.v
SyncSafety.v
