(* ===== verification/Prelude.v ===== *)
(** * Archon Horizon: a verification library of the pipeline control plane

    Archon Horizon coordinates model sessions that prove and formalize mathematics.  A control
    plane (src/archon_horizon/pipeline, on PostgreSQL) owns the missions, the runs, their queue
    of assignments and the record of what was delivered; hosts poll it, run the sessions and
    report back.  A host keeps what it must still deliver in a journal of its own.  The library
    models the control plane's domain services and the worker's journal, and proves what they
    promise to each other.

    ** Parts and how they interact

    A [mission] is a node of a tree with a delegated scope.  A [run] executes a mission; its
    [assignment]s are the sessions, each owing [obligation]s and waiting for a start condition.
    A host's poll is [Admission.claim]: it chooses a due assignment, checks the category, the
    slots and the shared limits ([Capacity]), finds a workspace ([Workspaces]) and starts an
    [execution] with claims on the limits and a token.  The execution renews its lease by
    [Leases.heartbeat] and ends by [finish]; what the session still owes ([Settlement], over
    [Ledger] and the outbox) decides whether it is complete, waits or pauses.  An objective is
    a run with a planner that recurs ([Objectives]) and phases that a maintainer accepts
    ([Phases]).  Operators repair runs, sessions and deliveries with commands ([Runs],
    [Sessions], [Queue], [Deliveries], [Cancellation]).  The host delivers its reports through
    the journal ([Journal]), which retries, fences and compacts them, and the control plane
    takes them by [WorkerEvents.handle].

    Work is reviewed on the pull requests of a forge.  A label asks for a round of review
    ([Demand]), which a session of the objective owns; reviewers submit typed assessments
    ([ReviewContracts]), which become queued operations ([Decisions]).  The outbox delivers them
    under leases ([Outbox]) and records what the forge answers ([Gates]): the maintainer's
    approval opens the gate of a head whose panel ([Panel]) lacks nothing, a moved head closes
    it, and a merge needs it.  Review sessions of a maintainer are prepared with a bounded packet
    ([Packets]) and bound to the child that runs them ([Invocations]); what a provider shows of its
    children and their use is projected into records ([ProviderEvents]).

    Sessions talk in the topics of a chat.  Its messages are mirrored ([Chat], [Sync]) and routed to
    the sessions that they concern, which acknowledge what they read before they reply
    ([Communications]).

    ** The model

    A table is a finite map from identifiers to records; [Schema.DB] has one field per table
    and is generated from persistence/schema.py, column by column.  An operation is a
    computation [M A := DB -> result (A * DB)]: [Records] has the primitives of
    persistence/records.py ([get], [create], [change] with its revision check, [emit], [snapshot])
    and a query is a filter over the rows.  An error discards the writes, as the caller's
    transaction does.  The journal is a state of its own with the same shape.  [Keeps R m] says
    that [m] relates the states before and after it by [R]; [Frame p m] that it leaves a part [p]
    alone.  The tactic [frame] proves both from the structure of [m].  What spans several
    transactions, with a server read between them, is a [Sync.Job], which keeps what was committed
    when it fails.

    Identifiers are positives ([uid]): [uuid4] hands out the next unused one, and [uuid_str] is
    the canonical text.  Instants and durations are microseconds in [Z].  JSON documents are
    typed records where operations read them, and texts elsewhere.  Rows are the keys' own
    ([a_id] is the key) as hypotheses of the theorems that need it, since the database
    guarantees it.  Unique indexes that an operation can meet are checks that raise.

    Code outside the sources is an argument of the definitions that use it: SHA-256,
    [uuid5], random tokens and [random.uniform], the JSON encoder of hashes, PostgreSQL's
    [hashtextextended], the texts of templates, prompts and catalogs, the parsed answers of forge
    and chat, the parsed output of providers and the regular expression that finds mentions.  So are
    the read-only
    observations of a start condition ([service.readiness]) and the storage probe of the host
    that runs the control plane.

    ** Files

    - Prelude: record update, results, booleans, texts and sorting shared by all.
    - Contracts: models.py, the boundary contracts and their validators.
    - Conditions, Graph: missions/conditions.py; the readers of conditions in
      execution/refill.py and review/backlog.py; the cycle check.
    - WorkerContracts, Journal, JournalSafety: worker/contracts.py, worker/journal.py,
      worker/transport.py.
    - Schema, Records, Auth, Samples: persistence/schema.py, persistence/records.py, auth.py, and
      sample rows.
    - MissionTree, Missions, MissionInvariant, MissionProperties: missions/mission_tree.py, the
      mission part of missions/service.py and its commands.
    - Ledger: obligations and activities of missions/service.py.
    - Usage: providers/usage_accounting.py.  Watchdog: operations/watchdog.py.
    - Capacity: execution/queue_policies.py, execution/admission.py, the capacity methods of
      execution/scheduler.py.
    - Queue, Sessions, Runs, Deliveries: the commands of commands.py, with
      execution/notifications.py.
    - Assignments, Settlement: the assignment part of missions/service.py.
    - Workspaces, Admission, AdmissionSafety: [claim], [start] and the placement of
      execution/scheduler.py.
    - Objectives, Phases, Launch: execution/objectives.py, with [Scheduler.run] for objectives.
    - Leases: [heartbeat] and [finish] of execution/scheduler.py, [finish_values].
    - Cancellation: [cancel] and [cancel_run] with the reconsideration of waiting work.
    - WorkerEvents, WorkerReports: execution/worker_events.py and its theorems.
    - Labels, Demand: review/labels.py, review/demand.py.
    - ReviewContracts: review/contracts.py, the forge operations of models.py, the reports of
      projects/lean_checks.py.
    - Panel, PanelSafety: the panel part of review/decisions.py, projects/lean_checks.py,
      [review_panel] and [accepted_gate] of projects/milestones.py.
    - Decisions: readiness and the queued decisions of review/decisions.py.
    - Packets, Invocations, InvocationSafety, Preparation: review/packets.py and
      review/invocations.py.
    - ProviderEvents, ObservationSafety: the projection of observed events in
      providers/provider_events.py.
    - Gates, GateSafety: the recording part of integrations/connectors.py, with
      [route_subject_event] of integrations/communications.py.
    - Communications, CommunicationSafety: integrations/communications.py.
    - Outbox, OutboxSafety: the life of a delivery in integrations/connectors.py.
    - Chat, Sync, SyncSafety: the messages of a chat and the synchronisation of chat and forge in
      integrations/connectors.py.

    ** What the theorems show

    - Missions: the tree stays well formed, budgets and scopes included
      ([mission_tree_invariant]); decisions need authority and spend a revision.
    - Work owed: handed-over obligations never form a cycle ([ledger_stays_acyclic]), nor do
      start conditions ([conditions_never_deadlock]); evaluation is Kleene's logic and stands
      until its next check; a session completes exactly when nothing is owed
      ([completion_requires_accounting]).
    - Runs and phases: a run completes over settled work only, phases are accepted in the
      requested order and change over settled work only.
    - Executions: two processes never share a workspace, nothing is oversubscribed, a finished
      execution is fenced, a failure preserves the session and backs off within its policy.
    - Recovery: contexts are replaced and workspaces resumed only when that is safe.
    - Journal: operations persist until acknowledged, a claim settles once, an ended lease stays
      ended, publications precede the end they belong to, and a replay turn settles the row that it
      delivered if its claim still holds after the exchange ([replay_one_delivers]).
    - Reports of hosts: a fenced execution cannot touch the work, outcomes of requests are final, a
      stop receipt frees what the execution held, inputs are applied once
      ([consumed_input_applied]), preserved work stays preserved.
    - Review: one owner per item and one generation for each appearance of the label
      ([rounds_follow_label]), generations only advance; a submission that parses is well typed; a
      complete panel of specialists covers every reviewer and every objection; a gate
      opens exactly for a ready head, an accepted gate always names the head, and a merge needs
      both; compiler receipts are sound.
    - Outbox: deliveries of one target are claimed in order, only the holder of the lease settles,
      and a delivery of unknown outcome is only reconciled until an administrator confirms that
      nothing was delivered; an item that is closed again stays labelled
      ([reclosed_item_stays_labelled], a finding).
    - Reviewer invocations: a review has one owner, replaced only when it is settled; children stay
      within the capacity of their parent; a prepared review is returned, not prepared twice; a
      binding is permanent; cancelling releases only what was never launched; packets are bounded
      and link what they leave out.
    - Communications: a session replies only to what it has read ([reply_read_everything]), its
      first receipts cover the window of a discussion, and a message reaches its audience and nobody
      else ([message_reaches_audience]).
    - Synchronisation: a reconciled discussion mirrors its topic ([reconciled_topic_mirrored]), an
      observed message lives in the discussions whose rows have its topic and in no other, and an
      unchanged message changes nothing.
    - Usage is counted once whatever the order of the reports, and the stored records refine that
      accounting; observations grant nothing to the children that they show; the watchdog restarts
      only after the failures it counts.

    ** Fuel

    Recursion over the mission tree and over graphs takes the number of stored rows as fuel;
    a walk without repetition is no longer than that, and the theorems on [reject_cycle] and on
    the tree show that the answer is the reference one.  Condition trees have their own depth
    bound ([Condition.bounded_tree]).  Dropping the inline code of a line takes its length
    ([drop_spans_enough]).  Nothing else needs fuel.

    ** Not modelled

    The legacy branches of [finish], the scheduler's tick and the recurrence of legacy
    automations; the observations behind [service.readiness] and the memo of observations within a
    poll; the location of blobs; the headings of a free-text report (an argument); the accounts and
    guidance texts of reviewers; the HTTP clients of forge and chat and the delivery between claim
    and settlement; the worker's processes and builds, the parsers of provider output, the
    dashboard, the HTTP layer, migrations and the search index.  These are input and output around
    the services modelled here, except for the legacy branches, which serve runs created before
    objectives.
*)

From Stdlib Require Export ZArith Ascii String Lia.
From stdpp Require Export base gmap strings list sorting relations pretty.

#[global] Open Scope Z_scope.

(** ** Record updates

    [r <| f := v |>] is the record [r] with field [f] set to [v].  A record
    takes part by an [Eta] instance that rebuilds it from its projections; the
    setter of a field is found by resolution. *)

Class Eta (R : Type) := eta : R -> R.
Class Field {R T : Type} (p : R -> T) := put_field : T -> R -> R.
Arguments put_field {R T} p {_} v r : simpl nomatch.

Ltac derive_field :=
  lazymatch goal with
  | |- @Field ?R ?T ?p =>
      let inst := constr:(_ : Eta R) in
      let body := eval hnf in inst in
      let s := constr:(fun (v : T) (r : R) => ltac:(
        let e := eval cbv beta in (body r) in
        let e' := eval pattern (p r) in e in
        lazymatch e' with
        | ?g _ => let res := eval cbv beta in (g v) in exact res
        end)) in
      exact s
  end.

#[export] Hint Extern 0 (Field _) => derive_field : typeclass_instances.

Declare Scope horizon_scope.
Delimit Scope horizon_scope with horizon.
#[global] Open Scope horizon_scope.

Notation "r <| p := v |>" := (put_field p v r)
  (at level 1, left associativity, p at level 0, only parsing) : horizon_scope.

(** ** Identifiers and instants

    A UUID is a 128-bit number; [uid] keeps its numeric value, so that the order
    of identifiers is the order of their canonical lower-case text.  An instant
    is a number of microseconds since 1970-01-01T00:00:00Z. *)

Abbreviation uid := positive (only parsing).
Abbreviation instant := Z (only parsing).

Definition seconds (s : Z) : Z := s * 1000000.

(** ** Errors

    [DomainError] (src/archon_horizon/pipeline/errors.py) carries a code and an
    HTTP status; [ValidationError] stands for the [ValueError] that a rejected
    contract or argument raises.  [FencedExecution] and [JournalFull] are the two
    exceptions of worker/contracts.py, [ConnectorFailure] that of integrations/connectors.py,
    [RuntimeFailure] a plain [RuntimeError].  The
    human-readable message and the detail fields of a [DomainError] are not kept. *)

Inductive error : Type :=
| DomainError (code : string) (status : Z)
| ValidationError (reason : string)
| FencedExecution (reason : string)
| JournalFull (reason : string)
| ConnectorFailure (code : string) (transient uncertain : bool) (retry_after : Z)
| RuntimeFailure (reason : string).

#[export] Instance error_eq_dec : EqDecision error.
Proof. solve_decision. Defined.

Inductive result (A : Type) : Type :=
| Ok (a : A)
| Err (e : error).
Arguments Ok {A} a.
Arguments Err {A} e.

#[export] Instance result_eq_dec {A} `{EqDecision A} : EqDecision (result A).
Proof. solve_decision. Defined.

Definition is_ok {A} (r : result A) : bool :=
  match r with Ok _ => true | Err _ => false end.

Lemma is_ok_true {A} (r : result A) : is_ok r = true -> exists a, r = Ok a.
Proof. destruct r; [by eexists|done]. Qed.

Definition rbind {A B} (r : result A) (k : A -> result B) : result B :=
  match r with Ok a => k a | Err e => Err e end.

Notation "'let?' x ':=' r 'in' k" := (rbind r (fun x => k))
  (at level 10, x pattern, r at level 100, k at level 200) : horizon_scope.

(** [guard b e] raises [e] when the code's condition [b] for raising holds. *)
Definition guard (b : bool) (e : error) : result unit :=
  if b then Err e else Ok tt.

Fixpoint rmap {A B} (f : A -> result B) (l : list A) : result (list B) :=
  match l with
  | [] => Ok []
  | a :: l => let? b := f a in let? bs := rmap f l in Ok (b :: bs)
  end.

Fixpoint rforeach {A} (f : A -> result unit) (l : list A) : result unit :=
  match l with
  | [] => Ok tt
  | a :: l => let? _ := f a in rforeach f l
  end.

Lemma rbind_Ok {A B} (r : result A) (k : A -> result B) b :
  rbind r k = Ok b <-> exists a, r = Ok a /\ k a = Ok b.
Proof. destruct r; cbn; [naive_solver | split; [done | by intros (?&?&_)]]. Qed.

Lemma Ok_inj {A} (a b : A) : Ok a = Ok b -> a = b.
Proof. congruence. Qed.

Lemma guard_Ok b e u : guard b e = Ok u <-> b = false.
Proof. destruct b, u; cbn; naive_solver. Qed.

Lemma rforeach_Ok {A} (f : A -> result unit) l u :
  rforeach f l = Ok u <-> Forall (fun a => f a = Ok tt) l.
Proof.
  destruct u; induction l as [|a l IH]; cbn; [naive_solver|].
  rewrite rbind_Ok, Forall_cons, <- IH.
  split; [intros ([] & ? & ?) | intros [??]; exists tt]; done.
Qed.

Lemma rmap_Ok {A B} (f : A -> result B) l bs :
  rmap f l = Ok bs <-> Forall2 (fun a b => f a = Ok b) l bs.
Proof.
  revert bs; induction l as [|a l IH]; intros bs; cbn.
  - split; [intros [= <-]; constructor | by intros ->%Forall2_nil_inv_l].
  - rewrite rbind_Ok. split.
    + intros (b & Hb & H). apply rbind_Ok in H as (bs' & ? & [= <-]).
      constructor; [done|]. by apply IH.
    + intros H. inversion H as [|? b ? bs' Hb Hbs]; subst.
      exists b. split; [done|]. apply rbind_Ok. exists bs'.
      split; [by apply IH | done].
Qed.

(** [invert_ok] opens every successful step of a result computation in the
    hypotheses and turns passed guards into the equations they establish. *)
Ltac invert_ok :=
  repeat match goal with
  | H : rbind _ _ = Ok _ |- _ => apply rbind_Ok in H as (? & ? & H)
  | H : guard _ _ = Ok _ |- _ => apply guard_Ok in H
  | H : Ok _ = Ok _ |- _ => apply Ok_inj in H
  | H : Err _ = Ok _ |- _ => discriminate H
  | H : Ok _ = Err _ |- _ => discriminate H
  | u : unit |- _ => destruct u
  end.

(** [bsolve] moves between boolean tests and the propositions they decide. *)
Ltac bools :=
  repeat match goal with
  | H : _ && _ = true |- _ => apply andb_true_iff in H as [? H]
  | H : _ || _ = false |- _ => apply orb_false_iff in H as [? H]
  | H : negb _ = true |- _ => apply negb_true_iff in H
  | H : negb _ = false |- _ => apply negb_false_iff in H
  | H : bool_decide _ = true |- _ => apply bool_decide_eq_true in H
  | H : bool_decide _ = false |- _ => apply bool_decide_eq_false in H
  | H : (_ =? _) = true |- _ => apply Z.eqb_eq in H
  | H : (_ =? _) = false |- _ => apply Z.eqb_neq in H
  | H : (_ <? _) = true |- _ => apply Z.ltb_lt in H
  | H : (_ <? _) = false |- _ => apply Z.ltb_ge in H
  | H : (_ <=? _) = true |- _ => apply Z.leb_le in H
  | H : (_ <=? _) = false |- _ => apply Z.leb_gt in H
  end.

(** ** Text

    Python text is a list of code points; the model keeps the code points below
    256.  [blank] is [not s.strip()], with the characters [str.isspace] accepts
    in that range. *)

Definition chars (s : string) : list ascii := list_ascii_of_string s.

Definition code (c : ascii) : Z := Z.of_N (N_of_ascii c).

Definition is_space (c : ascii) : bool :=
  ((9 <=? code c) && (code c <=? 13)) || ((28 <=? code c) && (code c <=? 32))
  || (code c =? 133) || (code c =? 160).

Definition blank (s : string) : bool := forallb is_space (chars s).

(** [text.strip()]. *)
Fixpoint lstrip (l : list ascii) : list ascii :=
  match l with
  | c :: l' => if is_space c then lstrip l' else l
  | [] => []
  end.

Definition strip (s : string) : string :=
  string_of_list_ascii (rev (lstrip (rev (lstrip (chars s))))).

Definition between (lo hi : ascii) (c : ascii) : bool :=
  (code lo <=? code c) && (code c <=? code hi).

Definition is_lower : ascii -> bool := between "a" "z".
Definition is_upper : ascii -> bool := between "A" "Z".
Definition is_digit : ascii -> bool := between "0" "9".
Definition is_hex (c : ascii) : bool := is_digit c || between "a" "f" c.
Definition is_hex_any (c : ascii) : bool := is_hex c || between "A" "F" c.

Definition has_char (c : ascii) (s : string) : bool := existsb (Ascii.eqb c) (chars s).

Definition starts_with (p s : string) : bool := String.prefix p s.

Definition rev_string (s : string) : string :=
  string_of_list_ascii (rev (chars s)).

Definition ends_with (p s : string) : bool :=
  String.prefix (rev_string p) (rev_string s).

Fixpoint contains (sub s : string) : bool :=
  starts_with sub s ||
  match s with
  | EmptyString => false
  | String _ s => contains sub s
  end.

(** [s.split(sep)] for a one-character separator: never the empty list. *)
Fixpoint split_on (sep : ascii) (s : string) : list string :=
  match s with
  | EmptyString => [EmptyString]
  | String c s =>
      match split_on sep s with
      | [] => []
      | w :: ws => if Ascii.eqb c sep then EmptyString :: w :: ws
                   else String c w :: ws
      end
  end.

Arguments split_on sep%_char_scope s%_string_scope.
Arguments has_char c%_char_scope s%_string_scope.

Definition join (sep : string) (l : list string) : string := String.concat sep l.

(** A string all of whose characters satisfy [f] and whose length is [n]. *)
Definition exactly (f : ascii -> bool) (n : nat) (s : string) : bool :=
  bool_decide (String.length s = n) && forallb f (chars s).

Definition hex_char (n : Z) : ascii :=
  ascii_of_N (Z.to_N (if n <? 10 then 48 + n else 87 + n)).

(** [str] of a UUID: 32 hexadecimal digits in groups of 8, 4, 4, 4 and 12. *)
Definition uuid_digits (u : uid) (first count : Z) : string :=
  string_of_list_ascii (map (fun k => hex_char (Z.shiftr (Zpos u) (4 * (31 - k)) mod 16))
                            (seqZ first count)).

Definition uuid_str (u : uid) : string :=
  join "-" [uuid_digits u 0 8; uuid_digits u 8 4; uuid_digits u 12 4; uuid_digits u 16 4; uuid_digits u 20 12].

Definition hex_digest (s : string) : bool := exactly is_hex 64 s.
Definition git_oid (s : string) : bool := exactly is_hex 40 s || exactly is_hex 64 s.

(** ** Text of an instant

    [isoformat] is [datetime.isoformat] of an instant in UTC: the civil date is
    recovered from the day number by the era/day-of-era computation of the
    proleptic Gregorian calendar. *)

Definition civil_of_days (d : Z) : Z * Z * Z :=
  let z := d + 719468 in
  let era := z / 146097 in
  let doe := z mod 146097 in
  let yoe := (doe - doe / 1460 + doe / 36524 - doe / 146096) / 365 in
  let doy := doe - (365 * yoe + yoe / 4 - yoe / 100) in
  let mp := (5 * doy + 2) / 153 in
  let day := doy - (153 * mp + 2) / 5 + 1 in
  let month := if mp <? 10 then mp + 3 else mp - 9 in
  let year := yoe + era * 400 + (if month <=? 2 then 1 else 0) in
  (year, month, day).

Fixpoint zeros (n : nat) : string :=
  match n with O => "" | S n => String "0" (zeros n) end.

Definition pad (w : nat) (n : Z) : string :=
  let s := pretty n in (zeros (w - String.length s) +:+ s)%string.

Definition isoformat (t : instant) : string :=
  let us := t mod 1000000 in
  let secs := t / 1000000 in
  let sod := secs mod 86400 in
  let '(y, m, d) := civil_of_days (secs / 86400) in
  (pad 4 y +:+ "-" +:+ pad 2 m +:+ "-" +:+ pad 2 d +:+ "T" +:+
   pad 2 (sod / 3600)%Z +:+ ":" +:+ pad 2 (sod / 60 mod 60)%Z +:+ ":" +:+ pad 2 (sod mod 60)%Z +:+
   (if (us =? 0)%Z then "" else "." +:+ pad 6 us) +:+ "+00:00")%string.

(** ** Lists *)

Definition mem {A} `{EqDecision A} (a : A) (l : list A) : bool := bool_decide (a ∈ l).

(** [set(a) <= set(b)] and [len(set(l)) == len(l)]. *)
Definition subset_of {A} `{EqDecision A} (a b : list A) : bool :=
  forallb (fun x => mem x b) a.

Definition unique {A} `{EqDecision A} (l : list A) : bool := bool_decide (NoDup l).

(** Truth of an optional value and of a list. *)
Definition present {A} (o : option A) : bool := match o with Some _ => true | None => false end.
Definition nonempty {A} (l : list A) : bool := match l with [] => false | _ => true end.

Lemma nonempty_false {A} (l : list A) : nonempty l = false -> l = [].
Proof. by destruct l. Qed.

(** [sorted(l)] by a boolean order; the sort is stable. *)
Definition sort_by {A} (leb : A -> A -> bool) (l : list A) : list A :=
  merge_sort (fun a b => Is_true (leb a b)) l.

Lemma mem_true {A} `{EqDecision A} (a : A) l : mem a l = true <-> a ∈ l.
Proof. apply bool_decide_eq_true. Qed.

Lemma mem_false {A} `{EqDecision A} (a : A) l : mem a l = false <-> a ∉ l.
Proof. apply bool_decide_eq_false. Qed.

Lemma forallb_true {A} (f : A -> bool) l : forallb f l = true <-> Forall (fun a => f a = true) l.
Proof. rewrite forallb_forall, Forall_forall. by setoid_rewrite list_elem_of_In. Qed.

Lemma existsb_true {A} (f : A -> bool) l : existsb f l = true <-> Exists (fun a => f a = true) l.
Proof. rewrite existsb_exists, Exists_exists. by setoid_rewrite list_elem_of_In. Qed.

Lemma subset_of_true {A} `{EqDecision A} (a b : list A) : subset_of a b = true <-> a ⊆ b.
Proof.
  unfold subset_of. rewrite forallb_true, Forall_forall. by setoid_rewrite mem_true.
Qed.

Lemma unique_true {A} `{EqDecision A} (l : list A) : unique l = true <-> NoDup l.
Proof. apply bool_decide_eq_true. Qed.

Lemma filter_sublist {A} (p : A -> bool) l : sublist (List.filter p l) l.
Proof. induction l as [|a l IH]; cbn; [done|]. destruct (p a); by constructor. Qed.

Lemma Forall_rev_iff {A} (P : A -> Prop) l : Forall P (rev l) <-> Forall P l.
Proof.
  rewrite !Forall_forall. setoid_rewrite list_elem_of_In. by setoid_rewrite <- in_rev.
Qed.
