(* ===== verification/Contracts.v ===== *)
(** * Value contracts of the API, scheduler and worker

    The closed contracts of src/archon_horizon/pipeline/models.py that the
    mission, run and queue services consume.  A contract is a record of typed
    fields with a boolean [*_valid] that holds exactly when the field constraints
    and the model validators of the class accept the value.  Inductive types stand
    for the [Literal] fields and for the discriminated unions. *)

From S2P Require Import Prelude.

(** ** Scalars *)

(** [_nonblank], the constraint of [Text]. *)
Definition nonblank (value : string) : bool :=
  negb (blank value || has_char "000" value).

(** The pattern of [Slug], [^[a-z][a-z0-9_-]{0,63}$], on a nonblank text. *)
Definition slug_valid (s : string) : bool :=
  nonblank s &&
  match chars s with
  | c :: rest =>
      is_lower c && (Z.of_nat (List.length rest) <=? 63)
      && forallb (fun c => is_lower c || is_digit c || Ascii.eqb c "_" || Ascii.eqb c "-") rest
  | [] => false
  end.

(** [Count] and [Positive]: strict integers bounded by a signed 64-bit word. *)
Definition count_valid (n : Z) : bool := (0 <=? n) && (n <=? 2 ^ 63 - 1).
Definition positive_valid (n : Z) : bool := (0 <? n) && (n <=? 2 ^ 63 - 1).

Definition opt_valid {A} (f : A -> bool) (o : option A) : bool :=
  match o with None => true | Some a => f a end.

(** [str(PurePosixPath(value))] of a relative path: empty and ["."] components
    are dropped; nothing left is written ["."]. *)
Definition posix_components (value : string) : list string :=
  List.filter (fun p => negb (mem p [""; "."]%string)) (split_on "/" value).

Definition posix_str (value : string) : string :=
  match posix_components value with
  | [] => "."
  | ps => join "/" ps
  end.

(** [_relative_path], the constraint of [RelativePath]. *)
Definition relative_path (value : string) : result string :=
  let? _ := guard (starts_with "/" value || has_char "\" value || mem ".."%string (split_on "/" value))
                  (ValidationError "path must remain within its repository") in
  let? _ := guard (negb (bool_decide (posix_str value = value)) || bool_decide (value = "."%string))
                  (ValidationError "path must be normalized and name a repository entry") in
  Ok value.

Definition relative_path_valid (value : string) : bool :=
  nonblank value && is_ok (relative_path value).

(** [_absolute_path], the constraint of [AbsolutePath]. *)
Definition absolute_path (value : string) : result string :=
  let? _ := guard (negb (starts_with "/" value) || mem ".."%string (split_on "/" value))
                  (ValidationError "path must be absolute without parent traversal") in
  Ok value.

Definition absolute_path_valid (value : string) : bool :=
  nonblank value && is_ok (absolute_path value).

(** [_timestamp] and [Instant]: a number is not a timestamp, and a text or
    datetime must carry a zone; accepted values are instants in UTC. *)
Inductive timestamp_input : Type :=
| NumberInput (n : Z)
| DatetimeInput (wall : Z) (utcoffset : option Z).

Definition timestamp (value : timestamp_input) : result instant :=
  match value with
  | NumberInput _ => Err (ValidationError "timestamp must be an aware datetime or RFC3339 string")
  | DatetimeInput _ None => Err (ValidationError "timezone_aware")
  | DatetimeInput wall (Some offset) => Ok (wall - offset)
  end.

(** ** Literals *)

Inductive phase_kind : Type := PreprocessingKind | FormalizationKind | PostprocessingKind.
#[export] Instance phase_kind_eq_dec : EqDecision phase_kind.
Proof. solve_decision. Defined.

Inductive role : Type := Worker | Maintainer.
#[export] Instance role_eq_dec : EqDecision role.
Proof. solve_decision. Defined.

(** [RecordKind], with the [milestone_job] kind that [RecordRef] adds. *)
Inductive kind : Type :=
| Kproject | Krepository | Kmission | Krun | Kassignment | Kexecution
| Kprovider_thread | Kprovider_request | Kautomation | Kobligation | Kactivity
| Knode | Kdocument | Kreference | Kroadmap_snapshot | Kreview_policy
| Kreviewer_descriptor | Kintegration_identity | Kreview_gate | Kforge_review
| Kforge_item | Kdiscussion | Kmessage | Kartifact | Kpublication | Khost
| Kharness | Kworkspace | Kverification | Kmilestone_job.
#[export] Instance kind_eq_dec : EqDecision kind.
Proof. solve_decision. Defined.

Definition kind_str (k : kind) : string :=
  match k with
  | Kproject => "project" | Krepository => "repository" | Kmission => "mission" | Krun => "run"
  | Kassignment => "assignment" | Kexecution => "execution" | Kprovider_thread => "provider_thread"
  | Kprovider_request => "provider_request" | Kautomation => "automation" | Kobligation => "obligation"
  | Kactivity => "activity" | Knode => "node" | Kdocument => "document" | Kreference => "reference"
  | Kroadmap_snapshot => "roadmap_snapshot" | Kreview_policy => "review_policy"
  | Kreviewer_descriptor => "reviewer_descriptor" | Kintegration_identity => "integration_identity"
  | Kreview_gate => "review_gate" | Kforge_review => "forge_review" | Kforge_item => "forge_item"
  | Kdiscussion => "discussion" | Kmessage => "message" | Kartifact => "artifact"
  | Kpublication => "publication" | Khost => "host" | Kharness => "harness"
  | Kworkspace => "workspace" | Kverification => "verification" | Kmilestone_job => "milestone_job"
  end.

(** ** References *)

Record RecordRef := { ref_kind : kind; ref_id : uid }.
#[export] Instance RecordRef_eq_dec : EqDecision RecordRef.
Proof. solve_decision. Defined.

(** [StoredRecordRef]: only [RecordRef] may name a milestone job. *)
Definition stored_record_ref (r : RecordRef) : bool := negb (bool_decide (ref_kind r = Kmilestone_job)).

Inductive path_kind : Type := FilePath | DirectoryPath.
#[export] Instance path_kind_eq_dec : EqDecision path_kind.
Proof. solve_decision. Defined.

(** [ObjectRef] is the union of a stored record and a repository path. *)
Inductive ObjectRef : Type :=
| StoredRef (r : RecordRef)
| PathRef (k : path_kind) (repository_id : uid) (path : string).
#[export] Instance ObjectRef_eq_dec : EqDecision ObjectRef.
Proof. solve_decision. Defined.

Definition object_ref_valid (o : ObjectRef) : bool :=
  match o with
  | StoredRef r => stored_record_ref r
  | PathRef _ _ p => relative_path_valid p
  end.

(** ** Conditions

    The expression language of start conditions.  [All] of the source holds both
    connectives, selected by its [op] field. *)

Inductive connective : Type := OpAll | OpAny.
#[export] Instance connective_eq_dec : EqDecision connective.
Proof. solve_decision. Defined.

Inductive item_kind : Type := PullRequest | Issue.
#[export] Instance item_kind_eq_dec : EqDecision item_kind.
Proof. solve_decision. Defined.

(** The fields [ForgeOpenCount] and [ForgeActionableCount] share. *)
Record ForgeCount := {
  fc_project_id : uid;
  fc_origin_run_id : option uid;
  fc_review_phase : option phase_kind;
  fc_repository_ids : list uid;
  fc_kinds : list item_kind;
  fc_labels : list string;
  fc_match_all : bool;
  fc_at_least : Z }.
#[export] Instance ForgeCount_eq_dec : EqDecision ForgeCount.
Proof. solve_decision. Defined.

(** A datetime as a condition stores it: aware ones are normalised to UTC. *)
Record stamp := { st_at : instant; st_aware : bool }.
#[export] Instance stamp_eq_dec : EqDecision stamp.
Proof. solve_decision. Defined.

#[warnings="-register-all"]
Inductive expr : Type :=
| All (op : connective) (args : list expr)
| Not (arg : expr)
| StatusIn (target : RecordRef) (values : list string)
| ObligationAccounted (obligation_id : uid)
| PublicationVerified (publication_id : uid)
| After (at_ : stamp)
| QueueBelow (run_id : uid) (count : Z)
| RevisionAfter (target : RecordRef) (revision : Z)
| PlanningNeeded (run_id : uid)
| DiscussionChanged (discussion_id : uid) (fingerprint : string)
| ForgeOpenCount (f : ForgeCount)
| ForgeActionableCount (f : ForgeCount).

(** The induction principle that reaches the arguments of [All]. *)
Section expr_induction.
Context (P : expr -> Prop)
  (HAll : forall op args, Forall P args -> P (All op args))
  (HNot : forall arg, P arg -> P (Not arg))
  (HLeaf : forall e, (forall op args, e <> All op args) -> (forall arg, e <> Not arg) -> P e).

Fixpoint expr_deep_ind (e : expr) : P e :=
  match e with
  | All op args =>
      HAll op args ((fix go (l : list expr) : Forall P l :=
                       match l with
                       | [] => Forall_nil_2 _
                       | a :: l => Forall_cons_2 _ _ _ (expr_deep_ind a) (go l)
                       end) args)
  | Not arg => HNot arg (expr_deep_ind arg)
  | e => HLeaf e ltac:(discriminate) ltac:(discriminate)
  end.
End expr_induction.

#[export] Instance expr_eq_dec : EqDecision expr.
Proof.
  unfold EqDecision. fix go 1. intros x y. unfold Decision.
  destruct x, y; try (right; discriminate);
    [ destruct (decide (op = op0)) as [->|]; [|right; congruence];
      destruct (@list_eq_dec expr go args args0) as [->|]; [by left|right; congruence]
    | destruct (go x y) as [->|]; [by left|right; congruence]
    | .. ];
    repeat match goal with
    | |- {?c ?a ?b = ?c ?a' ?b'} + {_} =>
        destruct (decide (a = a')) as [->|]; [|right; congruence];
        destruct (decide (b = b')) as [->|]; [by left|right; congruence]
    | |- {?c ?a = ?c ?a'} + {_} =>
        destruct (decide (a = a')) as [->|]; [by left|right; congruence]
    end.
Defined.

(** [_STATUSES]: the lifecycle vocabulary a [StatusIn] target accepts. *)
Definition statuses (k : kind) : option (list string) :=
  match k with
  | Kmission => Some ["open"; "completed"; "cancelled"]
  | Krun => Some ["active"; "paused"; "draining"; "stopping"; "completed"; "cancelled"]
  | Kassignment => Some ["pending"; "running"; "stopping"; "completed"; "failed"; "cancelled"]
  | Kpublication => Some ["pending"; "running"; "verified"; "failed"; "cancelled"]
  | Kworkspace => Some ["preparing"; "ready"; "unavailable"; "retired"]
  | Kmilestone_job => Some ["queued"; "running"; "completed"; "failed"]
  | _ => None
  end%string.

(** [StatusIn.valid_statuses]. *)
Definition valid_statuses (target : RecordRef) (values : list string) : bool :=
  match statuses (ref_kind target) with
  | None => false
  | Some allowed => subset_of values allowed
  end.

Definition forge_count_valid (f : ForgeCount) : bool :=
  negb (bool_decide (fc_kinds f = [])) && forallb nonblank (fc_labels f) && count_valid (fc_at_least f).

(** Field constraints of every node of an expression. *)
Fixpoint expr_valid (e : expr) : bool :=
  match e with
  | All _ args =>
      (1 <=? Z.of_nat (List.length args)) && (Z.of_nat (List.length args) <=? 128)
      && forallb expr_valid args
  | Not arg => expr_valid arg
  | StatusIn target values =>
      negb (bool_decide (values = [])) && forallb nonblank values && valid_statuses target values
  | After at_ => st_aware at_
  | QueueBelow _ count => count_valid count
  | RevisionAfter _ revision => positive_valid revision
  | DiscussionChanged _ fingerprint => hex_digest fingerprint
  | ForgeOpenCount f | ForgeActionableCount f => forge_count_valid f
  | ObligationAccounted _ | PublicationVerified _ | PlanningNeeded _ => true
  end.

Record Condition := { cond_version : Z; cond_expression : expr }.
#[export] Instance Condition_eq_dec : EqDecision Condition.
Proof. solve_decision. Defined.

(** [Condition.bounded_tree]: the validator's worklist loop, whose stack has its
    top first.  Each iteration increments [count] and a count of 129 rejects, so
    129 iterations decide every tree. *)
Definition push_children (node : expr) (depth : Z) (pending : list (expr * Z)) : list (expr * Z) :=
  match node with
  | All _ args => rev (map (fun child => (child, depth + 1)) args) ++ pending
  | Not arg => (arg, depth + 1) :: pending
  | _ => pending
  end.

Fixpoint bounded_tree_loop (fuel : nat) (count : Z) (pending : list (expr * Z)) : bool :=
  match fuel, pending with
  | _, [] => true
  | O, _ => false
  | S fuel, (node, depth) :: pending =>
      let count := count + 1 in
      if (128 <? count) || (8 <? depth) then false
      else bounded_tree_loop fuel count (push_children node depth pending)
  end.

Definition bounded_tree (e : expr) : bool := bounded_tree_loop 129 0 [(e, 1)].

Definition condition_valid (c : Condition) : bool :=
  (cond_version c =? 1) && expr_valid (cond_expression c) && bounded_tree (cond_expression c).

(** ** Run phases, options and policies *)

Inductive RunPhase : Type :=
| Preprocessing (roadmap_document_id : uid) (orchestrated : bool)
| Formalization (roadmap_snapshot_id : option uid) (orchestrated : bool)
| Postprocessing (source_workspace_id : uid) (source_commit_oid : string)
                 (target_repository_id : uid) (orchestrated : bool).
#[export] Instance RunPhase_eq_dec : EqDecision RunPhase.
Proof. solve_decision. Defined.

Definition phase_kind_of (p : RunPhase) : phase_kind :=
  match p with
  | Preprocessing _ _ => PreprocessingKind
  | Formalization _ _ => FormalizationKind
  | Postprocessing _ _ _ _ => PostprocessingKind
  end.

Definition phase_orchestrated (p : RunPhase) : bool :=
  match p with
  | Preprocessing _ o | Formalization _ o | Postprocessing _ _ _ o => o
  end.

Definition run_phase_valid (p : RunPhase) : bool :=
  match p with
  | Postprocessing _ oid _ _ => nonblank oid
  | _ => true
  end.

(** [ModelOptions]: absent options are inherited; an explicit null is refused
    before parsing, so [None] here always means omitted. *)
Record ModelOptions := { mo_model : option string; mo_reasoning_effort : option string }.
#[export] Instance ModelOptions_eq_dec : EqDecision ModelOptions.
Proof. solve_decision. Defined.

Definition model_options_valid (o : ModelOptions) : bool :=
  opt_valid nonblank (mo_model o) && opt_valid nonblank (mo_reasoning_effort o).

(** [ModelOptions.no_explicit_null] on the raw mapping. *)
Definition no_explicit_null (values : list (string * option string)) : bool :=
  forallb (fun kv => match kv.2 with None => false | Some _ => true end) values.

(** [ModelOptions.supplied_options], the serialised form. *)
Definition supplied_options (o : ModelOptions) : list (string * string) :=
  match mo_model o with Some m => [("model"%string, m)] | None => [] end ++
  match mo_reasoning_effort o with Some e => [("reasoning_effort"%string, e)] | None => [] end.

(** [a | b] on serialised options: the right operand wins where it is present. *)
Definition merge_options (base over : ModelOptions) : ModelOptions :=
  {| mo_model := match mo_model over with Some m => Some m | None => mo_model base end;
     mo_reasoning_effort := match mo_reasoning_effort over with
                            | Some e => Some e | None => mo_reasoning_effort base end |}.

Definition no_options : ModelOptions := {| mo_model := None; mo_reasoning_effort := None |}.

Record RetryPolicy := {
  max_recovery_attempts : Z;
  initial_delay_seconds : Z;
  max_delay_seconds : Z;
  max_no_progress_requests : Z }.
#[export] Instance RetryPolicy_eq_dec : EqDecision RetryPolicy.
Proof. solve_decision. Defined.

Definition default_retry_policy : RetryPolicy :=
  {| max_recovery_attempts := 5; initial_delay_seconds := 5;
     max_delay_seconds := 300; max_no_progress_requests := 3 |}.

(** The field constraints and [RetryPolicy.ordered_delay]. *)
Definition retry_policy_valid (r : RetryPolicy) : bool :=
  positive_valid (max_recovery_attempts r) && positive_valid (initial_delay_seconds r)
  && positive_valid (max_delay_seconds r) && positive_valid (max_no_progress_requests r)
  && negb (max_delay_seconds r <? initial_delay_seconds r).

Record QueuePolicy := {
  qp_role : role;
  qp_slots : Z;
  qp_max_pending : Z;
  qp_max_sessions : option Z;
  qp_token_budget : option Z;
  qp_reserved_slots : Z;
  qp_harness_id : option uid;
  qp_model_options : ModelOptions;
  qp_retry_policy : RetryPolicy }.
#[export] Instance QueuePolicy_eq_dec : EqDecision QueuePolicy.
Proof. solve_decision. Defined.

(** The field constraints and [QueuePolicy.valid_reservation]. *)
Definition queue_policy_valid (q : QueuePolicy) : bool :=
  positive_valid (qp_slots q) && positive_valid (qp_max_pending q)
  && opt_valid positive_valid (qp_max_sessions q) && opt_valid count_valid (qp_token_budget q)
  && count_valid (qp_reserved_slots q) && model_options_valid (qp_model_options q)
  && retry_policy_valid (qp_retry_policy q) && negb (qp_slots q <? qp_reserved_slots q).

Definition default_queue_policy : QueuePolicy :=
  {| qp_role := Worker; qp_slots := 4; qp_max_pending := 32; qp_max_sessions := None;
     qp_token_budget := None; qp_reserved_slots := 0; qp_harness_id := None;
     qp_model_options := no_options; qp_retry_policy := default_retry_policy |}.

#[export] Instance QueuePolicy_eta : Eta QueuePolicy := fun q =>
  Build_QueuePolicy (qp_role q) (qp_slots q) (qp_max_pending q) (qp_max_sessions q) (qp_token_budget q)
    (qp_reserved_slots q) (qp_harness_id q) (qp_model_options q) (qp_retry_policy q).

Definition default_queue_policies : gmap string QueuePolicy :=
  {[ "work"%string := default_queue_policy;
     "maintenance"%string := default_queue_policy <| qp_role := Maintainer |> <| qp_slots := 2 |>
                                                  <| qp_reserved_slots := 1 |> ]}.

(** ** Failures and obligation resolutions *)

Inductive failure_kind : Type :=
| ProviderFailure | TransportFailure | HostFailure | StorageFailure | ConfigurationFailure
| ExecutionFailure | LifecycleFailure.
#[export] Instance failure_kind_eq_dec : EqDecision failure_kind.
Proof. solve_decision. Defined.

(** [Failure]; the [lifecycle] kind is written by the goal-update reconciliation
    without passing the contract. *)
Record Failure := {
  fail_kind : failure_kind;
  fail_code : string;
  fail_message : string;
  fail_diagnostic_artifact_id : option uid }.
#[export] Instance Failure_eq_dec : EqDecision Failure.
Proof. solve_decision. Defined.
#[export] Instance Failure_eta : Eta Failure := fun f =>
  Build_Failure (fail_kind f) (fail_code f) (fail_message f) (fail_diagnostic_artifact_id f).

Definition failure_valid (f : Failure) : bool :=
  negb (bool_decide (fail_kind f = LifecycleFailure)) && slug_valid (fail_code f)
  && nonblank (fail_message f).

Inductive Resolution : Type :=
| Completed (note : string) (evidence : list ObjectRef)
| Delegated (note : string) (assignment_ids : list uid)
| Scheduled (note : string) (assignment_id : uid)
| Reconsider (note : string) (assignment_id : uid) (evidence : list ObjectRef)
| Superseded (note : string) (replacement_obligation_ids : list uid).
#[export] Instance Resolution_eq_dec : EqDecision Resolution.
Proof. solve_decision. Defined.

Definition resolution_note (r : Resolution) : string :=
  match r with
  | Completed n _ | Delegated n _ | Scheduled n _ | Reconsider n _ _ | Superseded n _ => n
  end.

(** [resolution.get("evidence", [])]. *)
Definition resolution_evidence (r : Resolution) : list ObjectRef :=
  match r with Completed _ e | Reconsider _ _ e => e | _ => [] end.

(** [resolution.get("assignment_ids", []) + ([resolution["assignment_id"]] if ...)]. *)
Definition resolution_targets (r : Resolution) : list uid :=
  match r with
  | Delegated _ ids => ids
  | Scheduled _ a | Reconsider _ a _ => [a]
  | _ => []
  end.

(** [resolution.get("replacement_obligation_ids", [])]. *)
Definition resolution_replacements (r : Resolution) : list uid :=
  match r with Superseded _ ids => ids | _ => [] end.

Definition resolution_valid (r : Resolution) : bool :=
  nonblank (resolution_note r) && forallb object_ref_valid (resolution_evidence r)
  && match r with Delegated _ [] => false | _ => true end.

Inductive obligation_status : Type := ObOpen | ObDone | ObHandled | ObSuperseded.
#[export] Instance obligation_status_eq_dec : EqDecision obligation_status.
Proof. solve_decision. Defined.

(** The status [ObligationResolve.consistent_resolution] expects. *)
Definition resolution_status (r : Resolution) : obligation_status :=
  match r with
  | Completed _ _ => ObDone
  | Superseded _ _ => ObSuperseded
  | _ => ObHandled
  end.

Record ObligationResolve := {
  or_expected_revision : Z;
  or_status : obligation_status;
  or_resolution : Resolution }.

Definition obligation_resolve_valid (o : ObligationResolve) : bool :=
  positive_valid (or_expected_revision o) && resolution_valid (or_resolution o)
  && bool_decide (or_status o = resolution_status (or_resolution o)).

Inductive obligation_kind : Type := Deliverable | Decision_ | Delegation | Blocker | Review.
#[export] Instance obligation_kind_eq_dec : EqDecision obligation_kind.
Proof. solve_decision. Defined.

Record ObligationCreate := {
  oc_assignment_id : uid;
  oc_created_by_execution_id : option uid;
  oc_kind : obligation_kind;
  oc_description : string }.

Definition obligation_create_valid (o : ObligationCreate) : bool := nonblank (oc_description o).

(** ** Projects and missions *)

Inductive workflow : Type := GraphFlow | LegacyFlow | MilestonesFlow.
#[export] Instance workflow_eq_dec : EqDecision workflow.
Proof. solve_decision. Defined.

Record ProjectCreate := {
  pc_slug : string; pc_title : string; pc_description : string; pc_workflow : workflow }.

Definition project_create_valid (p : ProjectCreate) : bool :=
  slug_valid (pc_slug p) && nonblank (pc_title p).

(** [MissionScope] and its [MissionRepositoryScope] entries, a repository with an
    optional path. *)
Record Scope := {
  node_ids : list uid;
  document_ids : list uid;
  repository_paths : list (uid * option string) }.
#[export] Instance Scope_eq_dec : EqDecision Scope.
Proof. solve_decision. Defined.

Definition at_most {A} (n : nat) (l : list A) : bool := Nat.leb (List.length l) n.

Definition mission_scope_valid (s : Scope) : bool :=
  at_most 256 (node_ids s) && at_most 256 (document_ids s) && at_most 256 (repository_paths s)
  && forallb (fun rp => opt_valid relative_path_valid rp.2) (repository_paths s).

Record MissionCreate := {
  mc_project_id : uid;
  mc_parent_id : option uid;
  mc_expected_parent_revision : option Z;
  mc_roadmap_document_id : option uid;
  mc_title : string;
  mc_objective : string;
  mc_acceptance_criteria : list string;
  mc_delegation_note : option string;
  mc_scope : option Scope;
  mc_max_open_children : Z;
  mc_node_ids : list uid;
  mc_document_ids : list uid }.

Definition mission_create_valid (m : MissionCreate) : bool :=
  opt_valid positive_valid (mc_expected_parent_revision m) && nonblank (mc_title m)
  && nonblank (mc_objective m) && at_most 64 (mc_acceptance_criteria m)
  && forallb nonblank (mc_acceptance_criteria m) && opt_valid nonblank (mc_delegation_note m)
  && opt_valid mission_scope_valid (mc_scope m) && positive_valid (mc_max_open_children m).

(** A patch: the outer [option] says whether the caller set the field, the inner
    one whether it holds null. *)
Record MissionUpdate := {
  mu_expected_revision : Z;
  mu_parent_id : option (option uid);
  mu_expected_parent_revision : option Z;
  mu_title : option (option string);
  mu_objective : option (option string);
  mu_acceptance_criteria : option (option (list string));
  mu_delegation_note : option (option string);
  mu_scope : option (option Scope);
  mu_max_open_children : option (option Z);
  mu_roadmap_document_id : option (option uid) }.

Definition not_null {A} (o : option (option A)) : bool :=
  match o with Some None => false | _ => true end.

Definition field_valid {A} (f : A -> bool) (o : option (option A)) : bool :=
  opt_valid (opt_valid f) o.

(** The field constraints and [MissionUpdate.preserve_required_text]. *)
Definition mission_update_valid (m : MissionUpdate) : bool :=
  not_null (mu_title m) && not_null (mu_objective m) && not_null (mu_acceptance_criteria m)
  && not_null (mu_scope m) && not_null (mu_max_open_children m)
  && positive_valid (mu_expected_revision m)
  && opt_valid positive_valid (mu_expected_parent_revision m)
  && field_valid nonblank (mu_title m) && field_valid nonblank (mu_objective m)
  && field_valid (fun l => at_most 64 l && forallb nonblank l) (mu_acceptance_criteria m)
  && field_valid nonblank (mu_delegation_note m) && field_valid mission_scope_valid (mu_scope m)
  && field_valid positive_valid (mu_max_open_children m).

(** ** Runs, assignments and automations *)

Inductive orchestration : Type := ObjectiveRun | LegacyRun.
#[export] Instance orchestration_eq_dec : EqDecision orchestration.
Proof. solve_decision. Defined.

Record RunCreate := {
  rc_mission_id : option uid;
  rc_objective_id : option uid;
  rc_phase : option RunPhase;
  rc_host_ids : list uid;
  rc_orchestration : orchestration;
  rc_queue_policies : gmap string QueuePolicy;
  rc_requested_phases : list phase_kind;
  rc_auto_advance : bool;
  rc_max_assignments : option Z;
  rc_token_budget : option Z;
  rc_expires_at : option instant;
  rc_retry_policy : RetryPolicy }.

(** [RunCreate.valid_objective], one guard per check of the validator. *)
Definition valid_objective (r : RunCreate) : result RunCreate :=
  let legacy := bool_decide (rc_orchestration r = LegacyRun) in
  let? _ := guard (bool_decide (rc_mission_id r = None) && bool_decide (rc_objective_id r = None))
                  (ValidationError "supply objective_id or an existing mission_id") in
  let? _ := guard (legacy && (bool_decide (rc_mission_id r = None) || bool_decide (rc_phase r = None)
                              || bool_decide (rc_host_ids r = [])))
                  (ValidationError "legacy launches require mission_id, phase and host_ids") in
  let? _ := guard (legacy && match rc_phase r with Some (Formalization None _) => true | _ => false end)
                  (ValidationError "legacy formalization requires roadmap_snapshot_id") in
  match rc_queue_policies r !! "work"%string, rc_queue_policies r !! "maintenance"%string with
  | Some work, Some maintenance =>
      let? _ := guard (negb (bool_decide (qp_role work = Worker))
                       || negb (bool_decide (qp_role maintenance = Maintainer)))
                      (ValidationError "work and maintenance retain their worker/maintainer roles") in
      let? _ := guard (negb (unique (rc_requested_phases r)))
                      (ValidationError "requested_phases must be unique") in
      Ok r
  | _, _ => Err (ValidationError "work and maintenance queue policies are required")
  end.

Definition run_create_valid (r : RunCreate) : bool :=
  opt_valid run_phase_valid (rc_phase r)
  && bool_decide (map_Forall (fun name q => slug_valid name && queue_policy_valid q) (rc_queue_policies r))
  && at_most 3 (rc_requested_phases r) && opt_valid positive_valid (rc_max_assignments r)
  && opt_valid count_valid (rc_token_budget r) && retry_policy_valid (rc_retry_policy r)
  && is_ok (valid_objective r).

Record AssignmentCreate := {
  ac_run_id : uid;
  ac_mission_id : uid;
  ac_parent_id : option uid;
  ac_reviewer_descriptor_id : option uid;
  ac_role : role;
  ac_category : option string;
  ac_functions : list string;
  ac_instructions : option string;
  ac_harness_id : option uid;
  ac_model_options : ModelOptions;
  ac_not_before : option instant;
  ac_expires_at : option instant;
  ac_start_condition : option Condition }.

(** [AssignmentCreate.valid_window]. *)
Definition valid_window (a : AssignmentCreate) : result AssignmentCreate :=
  let? _ := guard (match ac_not_before a, ac_expires_at a with
                   | Some nb, Some ex => ex <=? nb
                   | _, _ => false
                   end) (ValidationError "not_before must precede expires_at") in
  let? _ := guard (negb (unique (ac_functions a))) (ValidationError "functions must be unique") in
  Ok a.

Definition assignment_create_valid (a : AssignmentCreate) : bool :=
  opt_valid slug_valid (ac_category a) && forallb slug_valid (ac_functions a)
  && opt_valid nonblank (ac_instructions a) && model_options_valid (ac_model_options a)
  && opt_valid condition_valid (ac_start_condition a) && is_ok (valid_window a).

Record AutomationCreate := {
  auc_run_id : uid;
  auc_name : string;
  auc_mission_id : uid;
  auc_role : role;
  auc_functions : list string;
  auc_instructions : option string;
  auc_start_condition : option Condition;
  auc_not_before : option instant;
  auc_cooldown_seconds : Z }.

Definition automation_create_valid (a : AutomationCreate) : bool :=
  slug_valid (auc_name a) && forallb slug_valid (auc_functions a)
  && opt_valid nonblank (auc_instructions a) && opt_valid condition_valid (auc_start_condition a)
  && positive_valid (auc_cooldown_seconds a).

(** ** Publication targets and sandbox policies *)

Inductive PublicationTarget : Type :=
| GitTarget (repository_id : uid) (ref_name : string) (expected_old_oid : option string)
| ArtifactStoreTarget.
#[export] Instance PublicationTarget_eq_dec : EqDecision PublicationTarget.
Proof. solve_decision. Defined.

(** The character class of the search in [GitTarget.valid_ref]. *)
Definition forbidden_ref_char (c : ascii) : bool :=
  (code c <=? 32) || (code c =? 127) || mem c ["~"; "^"; ":"; "?"; "*"; "["; "\"]%char.

(** [GitTarget.valid_ref]. *)
Definition valid_ref (ref : string) : bool :=
  negb (negb (starts_with "refs/" ref) || ends_with "/" ref || ends_with "." ref || contains ".." ref
        || contains "@{" ref || contains "//" ref || existsb forbidden_ref_char (chars ref)
        || existsb (fun part => starts_with "." part || ends_with ".lock" part) (split_on "/" ref)).

Definition publication_target_valid (t : PublicationTarget) : bool :=
  match t with
  | GitTarget _ ref old => nonblank ref && opt_valid nonblank old && valid_ref ref
  | ArtifactStoreTarget => true
  end.

Inductive sandbox_mode : Type := RootlessContainer | Unrestricted.
#[export] Instance sandbox_mode_eq_dec : EqDecision sandbox_mode.
Proof. solve_decision. Defined.

Record SandboxMount := { mount_source : string; mount_target : string; mount_read_write : bool }.
#[export] Instance SandboxMount_eq_dec : EqDecision SandboxMount.
Proof. solve_decision. Defined.

Record SandboxPolicy := {
  sp_mode : sandbox_mode;
  sp_image_digest : option string;
  sp_network_outbound : bool;
  sp_extra_mounts : list SandboxMount;
  sp_memory_limit_bytes : option Z;
  sp_cpu_limit : option Z;
  sp_process_limit : option Z }.
#[export] Instance SandboxPolicy_eq_dec : EqDecision SandboxPolicy.
Proof. solve_decision. Defined.

(** The last [n] characters, in order. *)
Definition last_chars (n : nat) (s : string) : string :=
  string_of_list_ascii (rev (take n (rev (chars s)))).

Definition pinned_suffix (s : string) : bool :=
  starts_with "@sha256:" (last_chars 72 s) && hex_digest (last_chars 64 s).

(** [re.search(r"@sha256:[0-9a-f]{64}$", digest)]: [$] also matches before a final
    newline. *)
Definition pinned_digest (s : string) : bool :=
  pinned_suffix s ||
  match rev (chars s) with
  | c :: rest => Ascii.eqb c "010" && pinned_suffix (string_of_list_ascii (rev rest))
  | [] => false
  end.

(** [SandboxPolicy.pinned_image]. *)
Definition pinned_image (p : SandboxPolicy) : bool :=
  negb (bool_decide (sp_mode p = RootlessContainer)
        && negb (match sp_image_digest p with Some d => pinned_digest d | None => false end))
  && unique (map mount_target (sp_extra_mounts p)).

Definition sandbox_policy_valid (p : SandboxPolicy) : bool :=
  opt_valid nonblank (sp_image_digest p)
  && forallb (fun m => absolute_path_valid (mount_source m) && absolute_path_valid (mount_target m)) (sp_extra_mounts p)
  && opt_valid positive_valid (sp_memory_limit_bytes p) && opt_valid positive_valid (sp_cpu_limit p)
  && opt_valid positive_valid (sp_process_limit p) && pinned_image p.

(** ** Artifact contents *)

Inductive artifact_content : Type :=
| CommitContent (repository_id : uid) (commit_oid : string)
| BlobContent (sha256 : string) (size_bytes : Z) (media_type : string)
| ExternalContent (url description : string).
#[export] Instance artifact_content_eq_dec : EqDecision artifact_content.
Proof. solve_decision. Defined.

(** ** Health of a host *)

Inductive health_status : Type := HealthReady | StoragePressure | ResourcePressure.
#[export] Instance health_status_eq_dec : EqDecision health_status.
Proof. solve_decision. Defined.

Inductive storage_status : Type := StorageReady | StorageLow.
#[export] Instance storage_status_eq_dec : EqDecision storage_status.
Proof. solve_decision. Defined.

Record HostCapabilities := {
  hc_workspace_preparation : option Z;
  hc_lean_verification : option Z;
  hc_milestone_verification : option Z }.

Definition host_capabilities_valid (c : HostCapabilities) : bool :=
  opt_valid (Z.eqb 1) (hc_workspace_preparation c) && opt_valid (Z.eqb 1) (hc_lean_verification c)
  && opt_valid (Z.eqb 1) (hc_milestone_verification c).

Record StorageRootHealth := {
  srh_name : string;
  srh_path : string;
  srh_filesystem : string;
  srh_total_bytes : Z;
  srh_free_bytes : Z;
  srh_required_free_bytes : Z;
  srh_cleanup_target_percent : Z;
  srh_cleanup_target_bytes : Z;
  srh_cleanup_recommended : bool;
  srh_status : storage_status }.

Definition percent_valid (n : Z) : bool := (0 <=? n) && (n <=? 90).

Definition storage_root_health_valid (r : StorageRootHealth) : bool :=
  nonblank (srh_name r) && absolute_path_valid (srh_path r) && absolute_path_valid (srh_filesystem r)
  && positive_valid (srh_total_bytes r) && count_valid (srh_free_bytes r) && count_valid (srh_required_free_bytes r)
  && percent_valid (srh_cleanup_target_percent r) && count_valid (srh_cleanup_target_bytes r).

Record StorageHealth := {
  sh_status : storage_status;
  sh_cleanup_target_percent : Z;
  sh_cleanup_target_bytes : Z;
  sh_cleanup_recommended : bool;
  sh_roots : list StorageRootHealth;
  sh_free_bytes : Z;
  sh_required_free_bytes : Z }.

Definition storage_health_valid (s : StorageHealth) : bool :=
  percent_valid (sh_cleanup_target_percent s) && count_valid (sh_cleanup_target_bytes s)
  && bool_decide (List.length (sh_roots s) <= 128)%nat && forallb storage_root_health_valid (sh_roots s)
  && count_valid (sh_free_bytes s) && count_valid (sh_required_free_bytes s).

(** The [resources] of a report are kept as the text of their JSON. *)
Record HostHealth := {
  hh_capabilities : HostCapabilities;
  hh_status : health_status;
  hh_resources : option string;
  hh_free_bytes : Z;
  hh_required_free_bytes : Z;
  hh_storage : option StorageHealth }.

Definition host_health_valid (h : HostHealth) : bool :=
  host_capabilities_valid (hh_capabilities h) && count_valid (hh_free_bytes h) && count_valid (hh_required_free_bytes h)
  && opt_valid storage_health_valid (hh_storage h).
