(* ===== verification/Conditions.v ===== *)
(** * Three-valued start conditions

    src/archon_horizon/pipeline/missions/conditions.py ([evaluate],
    [referenced_objects]), the bound of [models.Condition], and the two readers of
    condition trees, [_capacity_wait] of execution/refill.py and
    [_terminal_review_dependencies] of review/backlog.py.

    The observation callback of [evaluate] is a parameter of the definitions, as it
    is in the source; the services instantiate it. *)

From S2P Require Import Prelude Contracts.

(** ** Truth values and evaluations *)

Inductive Truth : Type := FALSE | TRUE | UNKNOWN.
#[export] Instance Truth_eq_dec : EqDecision Truth.
Proof. solve_decision. Defined.

Record Evaluation := { truth : Truth; reason : string; next_check_at : option instant }.
#[export] Instance Evaluation_eq_dec : EqDecision Evaluation.
Proof. solve_decision. Defined.

Definition evaluation (t : Truth) (r : string) : Evaluation :=
  {| truth := t; reason := r; next_check_at := None |}.

(** [Evaluation.ready]. *)
Definition ready (ev : Evaluation) : bool := bool_decide (truth ev = TRUE).

(** [min(dates) if dates else None] over the children's dates. *)
Fixpoint earliest (l : list Evaluation) : option instant :=
  match l with
  | [] => None
  | ev :: l =>
      match next_check_at ev, earliest l with
      | Some a, Some b => Some (Z.min a b)
      | Some a, None => Some a
      | None, o => o
      end
  end.

Definition has_truth (t : Truth) (ev : Evaluation) : bool := bool_decide (truth ev = t).

(** The combination of the children of [all] and [any]. *)
Definition combine (op : connective) (children : list Evaluation) : Evaluation :=
  let decisive := match op with OpAll => FALSE | OpAny => TRUE end in
  match List.find (has_truth decisive) children with
  | Some selected => selected
  | None =>
      match List.find (has_truth UNKNOWN) children with
      | Some unknown =>
          {| truth := UNKNOWN; reason := reason unknown; next_check_at := earliest children |}
      | None =>
          {| truth := match op with OpAll => TRUE | OpAny => FALSE end;
             reason := join "; " (map reason children); next_check_at := earliest children |}
      end
  end.

Definition negate_truth (t : Truth) : Truth :=
  match t with TRUE => FALSE | FALSE => TRUE | UNKNOWN => UNKNOWN end.

Definition negate (ev : Evaluation) : Evaluation :=
  {| truth := negate_truth (truth ev); reason := ("Not: " +:+ reason ev)%string;
     next_check_at := next_check_at ev |}.

Definition evaluate_after (now : instant) (at_ : stamp) : Evaluation :=
  if st_aware at_ then
    if st_at at_ <=? now then evaluation TRUE "Ready"
    else {| truth := FALSE; reason := ("Waiting until " +:+ isoformat (st_at at_))%string;
            next_check_at := Some (st_at at_) |}
  else evaluation UNKNOWN "Condition timestamp has no timezone".

(** [op in ("after", "queue_below", "planning_needed")]. *)
Definition scheduling_threshold (e : expr) : bool :=
  match e with After _ | QueueBelow _ _ | PlanningNeeded _ => true | _ => false end.

(** ** [evaluate]

    [visit] threads the [remaining] counter the source keeps in a closure, in the
    left-to-right order of the list comprehension over the arguments.  The
    observation may raise, which aborts the evaluation. *)
Section evaluate.
Context (now : instant) (observe : expr -> result Evaluation) (events_only : bool).

Definition out_of_bounds : Evaluation := evaluation UNKNOWN "Condition exceeds its evaluation bound".

Fixpoint visit (e : expr) (depth remaining : Z) {struct e} : result (Evaluation * Z) :=
  let remaining := remaining - 1 in
  if (8 <? depth) || (remaining <? 0) then Ok (out_of_bounds, remaining)
  else if events_only && scheduling_threshold e then
    Ok (evaluation UNKNOWN "Scheduling threshold is not an external event", remaining)
  else
    match e with
    | All op args =>
        match args with
        | [] => Ok (evaluation UNKNOWN "Empty condition", remaining)
        | _ =>
            let? (children, remaining) :=
              (fix visits (l : list expr) (remaining : Z) : result (list Evaluation * Z) :=
                 match l with
                 | [] => Ok ([], remaining)
                 | child :: l =>
                     let? (ev, remaining) := visit child (depth + 1) remaining in
                     let? (evs, remaining) := visits l remaining in
                     Ok (ev :: evs, remaining)
                 end) args remaining in
            Ok (combine op children, remaining)
        end
    | Not arg =>
        let? (ev, remaining) := visit arg (depth + 1) remaining in
        Ok (negate ev, remaining)
    | After at_ => Ok (evaluate_after now at_, remaining)
    | e => let? ev := observe e in Ok (ev, remaining)
    end.

(** The list comprehension of [visit] on its own. *)
Fixpoint visits (depth : Z) (l : list expr) (remaining : Z) : result (list Evaluation * Z) :=
  match l with
  | [] => Ok ([], remaining)
  | child :: l =>
      let? (ev, remaining) := visit child (depth + 1) remaining in
      let? (evs, remaining) := visits depth l remaining in
      Ok (ev :: evs, remaining)
  end.

Definition evaluate (condition : option Condition) : result Evaluation :=
  match condition with
  | None => Ok (evaluation TRUE "Ready")
  | Some c =>
      if negb (cond_version c =? 1) then Ok (evaluation UNKNOWN "Unsupported condition version")
      else let? (ev, _) := visit (cond_expression c) 0 128 in Ok ev
  end.

Lemma visits_eq depth l remaining :
  (fix visits (l : list expr) (remaining : Z) : result (list Evaluation * Z) :=
     match l with
     | [] => Ok ([], remaining)
     | child :: l =>
         let? (ev, remaining) := visit child (depth + 1) remaining in
         let? (evs, remaining) := visits l remaining in
         Ok (ev :: evs, remaining)
     end) l remaining = visits depth l remaining.
Proof.
  revert remaining; induction l as [|a l IH]; intros r; [done|]. cbn [visits].
  destruct (visit a (depth + 1) r) as [[ev r']|]; [|done]. cbn. by rewrite IH.
Qed.

(** One unfolding of [visit], with the comprehension named. *)
Lemma visit_All op args depth remaining :
  visit (All op args) depth remaining =
    if (8 <? depth) || (remaining - 1 <? 0) then Ok (out_of_bounds, remaining - 1)
    else match args with
         | [] => Ok (evaluation UNKNOWN "Empty condition", remaining - 1)
         | _ => let? (children, remaining) := visits depth args (remaining - 1) in
                Ok (combine op children, remaining)
         end.
Proof.
  cbn [visit scheduling_threshold]. rewrite andb_false_r.
  by rewrite visits_eq.
Qed.

Lemma visit_Not arg depth remaining :
  visit (Not arg) depth remaining =
    if (8 <? depth) || (remaining - 1 <? 0) then Ok (out_of_bounds, remaining - 1)
    else let? (ev, remaining) := visit arg (depth + 1) (remaining - 1) in Ok (negate ev, remaining).
Proof. cbn [visit scheduling_threshold]. by rewrite andb_false_r. Qed.

(** The evaluation of an expression without arguments, past the bounds. *)
Definition visit_leaf (e : expr) : result Evaluation :=
  if events_only && scheduling_threshold e
  then Ok (evaluation UNKNOWN "Scheduling threshold is not an external event")
  else match e with After at_ => Ok (evaluate_after now at_) | e => observe e end.

Lemma visit_Leaf e depth remaining :
  (forall op args, e <> All op args) -> (forall arg, e <> Not arg) ->
  visit e depth remaining =
    if (8 <? depth) || (remaining - 1 <? 0) then Ok (out_of_bounds, remaining - 1)
    else let? ev := visit_leaf e in Ok (ev, remaining - 1).
Proof.
  intros HA HN. unfold visit_leaf.
  destruct e; try (by edestruct HA); try (by edestruct HN); cbn [visit scheduling_threshold];
    rewrite ?andb_false_r, ?andb_true_r; repeat case_match; done.
Qed.
End evaluate.

(** ** Two evaluations side by side

    Any relation on evaluations that the connectives preserve relates two runs of
    [evaluate] whose leaves it relates: both runs walk the same nodes and spend the
    same budget. *)
Section related.
Context (R : Evaluation -> Evaluation -> Prop)
  (R_constant : forall r, R (evaluation UNKNOWN r) (evaluation UNKNOWN r))
  (R_combine : forall op l l', Forall2 R l l' -> R (combine op l) (combine op l'))
  (R_negate : forall ev ev', R ev ev' -> R (negate ev) (negate ev')).
Context (now now' : instant) (events_only : bool) (observe observe' : expr -> result Evaluation)
  (leaves : forall e, exists ev ev',
      visit_leaf now observe events_only e = Ok ev /\
      visit_leaf now' observe' events_only e = Ok ev' /\ R ev ev').

Lemma visit_related e depth remaining :
  exists ev ev' r, visit now observe events_only e depth remaining = Ok (ev, r) /\
    visit now' observe' events_only e depth remaining = Ok (ev', r) /\ R ev ev'.
Proof.
  revert depth remaining.
  induction e as [op args IH|arg IH|e HA HN] using expr_deep_ind; intros depth remaining.
  - rewrite !visit_All.
    destruct ((8 <? depth) || (remaining - 1 <? 0)); [by eauto 10|].
    assert (exists evs evs' r, visits now observe events_only depth args (remaining - 1) = Ok (evs, r) /\
      visits now' observe' events_only depth args (remaining - 1) = Ok (evs', r) /\ Forall2 R evs evs')
      as (evs & evs' & r & -> & -> & HR).
    { generalize (remaining - 1). induction IH as [|a l Ha _ IHl]; intros r; cbn [visits]; [by eauto 10|].
      destruct (Ha (depth + 1) r) as (ev & ev' & r1 & -> & -> & ?). cbn.
      destruct (IHl r1) as (evs & evs' & r2 & -> & -> & ?). cbn. eauto 10. }
    destruct args; [by eauto 10|]. cbn. eauto 10.
  - rewrite !visit_Not. destruct ((8 <? depth) || (remaining - 1 <? 0)); [by eauto 10|].
    destruct (IH (depth + 1) (remaining - 1)) as (ev & ev' & r & -> & -> & ?). cbn. eauto 10.
  - rewrite !visit_Leaf by done. destruct ((8 <? depth) || (remaining - 1 <? 0)); [by eauto 10|].
    destruct (leaves e) as (ev & ev' & -> & -> & ?). cbn. eauto 10.
Qed.

Lemma evaluate_related c :
  R (evaluation TRUE "Ready") (evaluation TRUE "Ready") ->
  exists ev ev', evaluate now observe events_only c = Ok ev /\
    evaluate now' observe' events_only c = Ok ev' /\ R ev ev'.
Proof.
  intros HT. destruct c as [c|]; cbn; [|by eauto].
  destruct (negb (cond_version c =? 1)); [by eauto|].
  destruct (visit_related (cond_expression c) 0 128) as (ev & ev' & r & -> & -> & ?). cbn. eauto.
Qed.
End related.

(** ** The connectives compute strong Kleene logic *)

Definition kand (a b : Truth) : Truth :=
  match a, b with
  | FALSE, _ | _, FALSE => FALSE
  | TRUE, TRUE => TRUE
  | _, _ => UNKNOWN
  end.

Definition kor (a b : Truth) : Truth :=
  match a, b with
  | TRUE, _ | _, TRUE => TRUE
  | FALSE, FALSE => FALSE
  | _, _ => UNKNOWN
  end.

Lemma combine_cases op l :
  (exists ev, ev ∈ l /\ truth ev = match op with OpAll => FALSE | OpAny => TRUE end /\ combine op l = ev) \/
  (Forall (fun ev => truth ev <> match op with OpAll => FALSE | OpAny => TRUE end) l /\
   next_check_at (combine op l) = earliest l /\
   truth (combine op l) = (if existsb (has_truth UNKNOWN) l then UNKNOWN
                           else match op with OpAll => TRUE | OpAny => FALSE end)).
Proof.
  unfold combine. set (d := match op with OpAll => FALSE | OpAny => TRUE end).
  destruct (List.find (has_truth d) l) as [ev|] eqn:E.
  - left. apply find_some in E as [Hin Ht]. unfold has_truth in Ht. bools.
    exists ev. by rewrite list_elem_of_In.
  - right. assert (Forall (fun ev => truth ev <> d) l).
    { apply Forall_forall. intros ev Hev Ht. rewrite list_elem_of_In in Hev.
      eapply (find_none _ _ E) in Hev. unfold has_truth in Hev. bools. done. }
    destruct (List.find (has_truth UNKNOWN) l) as [u|] eqn:E2.
    + apply find_some in E2 as [Hin Ht].
      assert (existsb (has_truth UNKNOWN) l = true) as -> by (apply existsb_exists; eauto). done.
    + assert (existsb (has_truth UNKNOWN) l = false) as ->; [|done].
      apply not_true_is_false. rewrite existsb_exists. intros (x & Hx & Hx').
      by rewrite (find_none _ _ E2 x Hx) in Hx'.
Qed.

Lemma kand_list l :
  List.fold_right kand TRUE l =
    if mem FALSE l then FALSE else if mem UNKNOWN l then UNKNOWN else TRUE.
Proof.
  induction l as [|t l IH]; [done|]. cbn [List.fold_right]. rewrite IH.
  unfold mem in *. repeat case_bool_decide; destruct t; set_solver.
Qed.

Lemma kor_list l :
  List.fold_right kor FALSE l =
    if mem TRUE l then TRUE else if mem UNKNOWN l then UNKNOWN else FALSE.
Proof.
  induction l as [|t l IH]; [done|]. cbn [List.fold_right]. rewrite IH.
  unfold mem in *. repeat case_bool_decide; destruct t; set_solver.
Qed.

Lemma existsb_has_truth t l : existsb (has_truth t) l = mem t (map truth l).
Proof.
  apply Bool.eq_iff_eq_true. rewrite existsb_true, Exists_exists, mem_true, list_elem_of_fmap.
  unfold has_truth. setoid_rewrite bool_decide_eq_true. naive_solver.
Qed.

Lemma combine_truth op l :
  truth (combine op l) =
    match op with
    | OpAll => List.fold_right kand TRUE (map truth l)
    | OpAny => List.fold_right kor FALSE (map truth l)
    end.
Proof.
  destruct (combine_cases op l) as [(ev & Hin & Ht & ->)|(Hn & _ & ->)].
  - rewrite Ht. destruct op; rewrite ?kand_list, ?kor_list.
    + assert (mem FALSE (map truth l) = true) as ->; [|done].
      apply mem_true, list_elem_of_fmap. eauto.
    + assert (mem TRUE (map truth l) = true) as ->; [|done].
      apply mem_true, list_elem_of_fmap. eauto.
  - rewrite existsb_has_truth. destruct op; rewrite ?kand_list, ?kor_list.
    + assert (mem FALSE (map truth l) = false) as ->; [|done].
      apply mem_false. rewrite list_elem_of_fmap. intros (ev & ? & Hev).
      rewrite Forall_forall in Hn. by eapply Hn.
    + assert (mem TRUE (map truth l) = false) as ->; [|done].
      apply mem_false. rewrite list_elem_of_fmap. intros (ev & ? & Hev).
      rewrite Forall_forall in Hn. by eapply Hn.
Qed.

(** The reference semantics: no budget, no depth, no reasons. *)
Section kleene.
Context (leaf : expr -> Truth).

Fixpoint kleene (e : expr) : Truth :=
  match e with
  | All _ [] => UNKNOWN
  | All OpAll args => List.fold_right kand TRUE (map kleene args)
  | All OpAny args => List.fold_right kor FALSE (map kleene args)
  | Not arg => negate_truth (kleene arg)
  | e => leaf e
  end.
End kleene.

(** Nodes and levels of a tree. *)
Fixpoint expr_size (e : expr) : Z :=
  match e with
  | All _ args => 1 + List.fold_right Z.add 0 (map expr_size args)
  | Not arg => 1 + expr_size arg
  | _ => 1
  end.

Fixpoint expr_depth (e : expr) : Z :=
  match e with
  | All _ args => 1 + List.fold_right Z.max 0 (map expr_depth args)
  | Not arg => 1 + expr_depth arg
  | _ => 1
  end.

Lemma leaf_measures e :
  (forall op args, e <> All op args) -> (forall arg, e <> Not arg) -> expr_size e = 1 /\ expr_depth e = 1.
Proof. intros HA HN. destruct e; try (by edestruct HA); try (by edestruct HN); done. Qed.

Lemma expr_size_pos e : 1 <= expr_size e.
Proof.
  induction e as [op args IH|arg IH|e HA HN] using expr_deep_ind; [|cbn; lia|].
  - cbn. enough (0 <= List.fold_right Z.add 0 (map expr_size args)) by lia.
    induction IH; cbn; lia.
  - by rewrite (proj1 (leaf_measures e HA HN)).
Qed.

Lemma expr_depth_pos e : 1 <= expr_depth e.
Proof.
  induction e as [op args IH|arg IH|e HA HN] using expr_deep_ind; [|cbn; lia|].
  - cbn. enough (0 <= List.fold_right Z.max 0 (map expr_depth args)) by lia.
    induction IH; cbn; lia.
  - by rewrite (proj2 (leaf_measures e HA HN)).
Qed.

Section evaluate_kleene.
Context (now : instant) (observe : expr -> result Evaluation) (events_only : bool)
  (obs : expr -> Evaluation)
  (leaves : forall e, visit_leaf now observe events_only e = Ok (obs e)).

Lemma visit_kleene e depth remaining :
  depth + expr_depth e <= 9 -> expr_size e <= remaining ->
  exists ev, visit now observe events_only e depth remaining = Ok (ev, remaining - expr_size e) /\
    truth ev = kleene (fun e => truth (obs e)) e.
Proof.
  revert depth remaining.
  induction e as [op args IH|arg IH|e HA HN] using expr_deep_ind; intros depth remaining Hd Hs.
  all: match type of Hd with _ + expr_depth ?e <= 9 =>
         pose proof (expr_size_pos e); pose proof (expr_depth_pos e) end.
  all: assert ((8 <? depth) || (remaining - 1 <? 0) = false) as Hb
    by (apply orb_false_iff; split; apply Z.ltb_ge; lia).
  - rewrite visit_All, Hb. cbn in Hd, Hs.
    assert (exists evs, visits now observe events_only depth args (remaining - 1) =
        Ok (evs, remaining - 1 - List.fold_right Z.add 0 (map expr_size args)) /\
        map truth evs = map (kleene (fun e => truth (obs e))) args) as (evs & -> & Hevs).
    { assert (Hs' : List.fold_right Z.add 0 (map expr_size args) <= remaining - 1) by lia.
      revert Hs'. generalize (remaining - 1). clear - IH Hd leaves.
      induction IH as [|a l Ha _ IHl]; intros r Hs; cbn [visits].
      - exists []. cbn. by rewrite Z.sub_0_r.
      - cbn in Hd, Hs. pose proof (expr_size_pos a).
        assert (0 <= List.fold_right Z.add 0 (map expr_size l)).
        { clear. induction l as [|x l IH]; cbn; [lia|]. pose proof (expr_size_pos x). lia. }
        destruct (Ha (depth + 1) r) as (ev & -> & Hev); [lia..|]. cbn.
        edestruct IHl as (evs & -> & Hevs); [lia| |]; [lia|]. cbn.
        eexists. split; [by rewrite Z.sub_add_distr|]. cbn. congruence. }
    destruct args as [|a args].
    { eexists. cbn [kleene expr_size map List.fold_right].
      split; [by rewrite Z.add_0_r|]. by destruct op. }
    cbn. eexists. split; [f_equal; f_equal; cbn; lia|].
    rewrite combine_truth, Hevs. by destruct op.
  - rewrite visit_Not, Hb. cbn in Hd, Hs |- *.
    destruct (IH (depth + 1) (remaining - 1)) as (ev & -> & Hev); [lia..|]. cbn.
    eexists. split; [f_equal; f_equal; lia|]. cbn. by rewrite Hev.
  - rewrite visit_Leaf, Hb, leaves by done. cbn.
    rewrite (proj1 (leaf_measures e HA HN)). eexists. split; [done|].
    destruct e; try (by edestruct HA); try (by edestruct HN); done.
Qed.
End evaluate_kleene.

(** ** The validator's worklist computes the size and the depth of the tree *)

Definition pending_size (pending : list (expr * Z)) : Z :=
  List.fold_right Z.add 0 (map (fun p => expr_size p.1) pending).

Definition pending_shallow (pending : list (expr * Z)) : Prop :=
  Forall (fun p => p.2 + expr_depth p.1 <= 9) pending.

Lemma sum_app l k : List.fold_right Z.add 0 (l ++ k) = List.fold_right Z.add 0 l + List.fold_right Z.add 0 k.
Proof. induction l; cbn; lia. Qed.

Lemma sum_rev l : List.fold_right Z.add 0 (rev l) = List.fold_right Z.add 0 l.
Proof. induction l as [|a l IH]; [done|]. cbn. rewrite sum_app, IH. cbn. lia. Qed.

Lemma push_children_size e d pending :
  pending_size (push_children e d pending) = expr_size e - 1 + pending_size pending.
Proof.
  unfold pending_size. destruct e; cbn; try lia.
  rewrite map_app, sum_app, map_rev, sum_rev, map_map.
  change (map (fun x => expr_size (x, d + 1).1) args) with (map expr_size args). lia.
Qed.

Lemma depth_bound args d :
  d + 1 <= 9 -> (d + (1 + List.fold_right Z.max 0 (map expr_depth args)) <= 9 <->
  Forall (fun e => d + 1 + expr_depth e <= 9) args).
Proof.
  intros Hd. induction args as [|a l IH]; cbn; [split; [constructor | lia]|].
  rewrite Forall_cons, <- IH. lia.
Qed.

Lemma push_children_shallow e d pending :
  d <= 8 -> pending_shallow (push_children e d pending) <->
  (d + expr_depth e <= 9 /\ pending_shallow pending).
Proof.
  intros Hd. unfold pending_shallow. destruct e; cbn; rewrite ?Forall_cons; cbn;
    try (rewrite Z.add_assoc; tauto); try (split; [split; [lia|done] | by intros [_ ?]]).
  rewrite Forall_app, depth_bound by lia.
  rewrite Forall_rev_iff. by rewrite List.Forall_map.
Qed.

Lemma pending_size_pos pending : 0 <= pending_size pending.
Proof.
  induction pending as [|p l IH]; cbn; [lia|]. pose proof (expr_size_pos p.1).
  unfold pending_size in IH. lia.
Qed.

Lemma bounded_tree_loop_spec fuel count pending :
  Z.of_nat fuel = 129 - count ->
  bounded_tree_loop fuel count pending = true <->
  (pending = [] \/ (count + pending_size pending <= 128 /\ pending_shallow pending)).
Proof.
  revert count pending; induction fuel as [|fuel IH]; intros count pending Hf.
  - destruct pending as [|p pending]; cbn; [tauto|]. split; [done|intros [?|[? _]]]; [done|].
    pose proof (pending_size_pos (p :: pending)). cbn in *. lia.
  - destruct pending as [|[e d] pending]; cbn [bounded_tree_loop]; [tauto|].
    assert (pending_size ((e, d) :: pending) = expr_size e + pending_size pending) as Hsz by done.
    pose proof (expr_size_pos e). pose proof (expr_depth_pos e). pose proof (pending_size_pos pending).
    destruct ((128 <? count + 1) || (8 <? d)) eqn:Hb.
    + split; [done|]. intros [?|[Hs Hd]]; [done|]. exfalso.
      apply Forall_cons in Hd as [Hd _]. cbn in Hd.
      apply orb_true_iff in Hb as [?|?]; bools; lia.
    + bools. rewrite IH by lia. rewrite push_children_size, push_children_shallow by done.
      unfold pending_shallow. rewrite Forall_cons. cbn [fst snd].
      split; [|intros [?|[??]]; [done|right; split; [lia|tauto]]].
      intros [Hnil|[Hs [??]]]; right; [|split; [lia|tauto]].
      pose proof (push_children_size e d pending) as Hp. rewrite Hnil in Hp. cbn in Hp.
      assert (pending_shallow []) as Hsh by constructor.
      rewrite <- Hnil, push_children_shallow in Hsh by done. split; [lia|done].
Qed.

(** ** Properties of conditions *)

(** The truth a leaf contributes when observations never raise. *)
Definition leaf_truth (now : instant) (obs : expr -> Evaluation) (events_only : bool) (e : expr) : Truth :=
  if events_only && scheduling_threshold e then UNKNOWN
  else match e with After at_ => truth (evaluate_after now at_) | e => truth (obs e) end.

Lemma kleene_ext f g e :
  (forall e, (forall op args, e <> All op args) -> (forall arg, e <> Not arg) -> f e = g e) ->
  kleene f e = kleene g e.
Proof.
  intros Hfg. induction e as [op args IH|arg IH|e HA HN] using expr_deep_ind.
  - assert (map (kleene f) args = map (kleene g) args) as Hm.
    { clear -IH. induction IH; cbn; congruence. }
    cbn. rewrite Hm. by destruct op, args.
  - cbn. by rewrite IH.
  - destruct e; try (by edestruct HA); try (by edestruct HN); by apply Hfg.
Qed.

Lemma visit_leaf_total now obs events_only e :
  exists ev, visit_leaf now (fun e => Ok (obs e)) events_only e = Ok ev /\
    truth ev = leaf_truth now obs events_only e /\
    (forall t, next_check_at ev = Some t ->
      (exists a, e = After a /\ st_at a = t /\ now < t) \/ (ev = obs e)).
Proof.
  unfold visit_leaf, leaf_truth.
  destruct (events_only && scheduling_threshold e); [by eexists|].
  destruct e; eexists; (split; [done|]); (split; [done|]); intros t Ht; try (by right).
  left. exists at_. unfold evaluate_after in Ht. repeat case_match; try done.
  injection Ht as <-. bools. by auto.
Qed.

Lemma bounded_tree_spec e :
  bounded_tree e = true <-> expr_size e <= 128 /\ expr_depth e <= 8.
Proof.
  unfold bounded_tree. rewrite bounded_tree_loop_spec by done.
  unfold pending_size, pending_shallow. rewrite Forall_singleton. cbn [map List.fold_right fst snd].
  split; [intros [?|?]; [done|lia] | intros; right; lia].
Qed.

(** The worklist of [Condition.bounded_tree] accepts a tree exactly when it has
    at most 128 nodes and at most 8 levels. *)
Theorem bounded_tree_iff e :
  bounded_tree e = true <-> expr_size e <= 128 /\ expr_depth e <= 8.
Proof. apply bounded_tree_spec. Qed.

(** C36. Evaluating an accepted condition never meets the evaluator's own bounds:
    it returns, and its truth is the strong Kleene value of the whole tree over the
    leaves' observations, in both admission and events-only mode. *)
Theorem evaluate_is_kleene c now obs events_only
  (Hvalid : condition_valid c = true) :
  exists ev, evaluate now (fun e => Ok (obs e)) events_only (Some c) = Ok ev /\
    truth ev = kleene (leaf_truth now obs events_only) (cond_expression c).
Proof.
  unfold condition_valid in Hvalid. bools.
  apply bounded_tree_spec in Hvalid as [Hs Hd].
  cbn [evaluate]. replace (cond_version c =? 1) with true by (symmetry; apply Z.eqb_eq; lia). cbn [negb].
  edestruct (visit_kleene now (fun e => Ok (obs e)) events_only
    (fun e => match visit_leaf now (fun e => Ok (obs e)) events_only e with
              | Ok ev => ev | Err _ => out_of_bounds end))
    with (e := cond_expression c) (depth := 0) (remaining := 128) as (ev & -> & Hev); [|lia..|].
  { intros e. by destruct (visit_leaf_total now obs events_only e) as (ev & -> & _). }
  cbn. eexists. split; [done|]. rewrite Hev. apply kleene_ext. intros e _ _.
  by destruct (visit_leaf_total now obs events_only e) as (ev' & -> & ? & _).
Qed.

Definition sample_condition : Condition :=
  {| cond_version := 1;
     cond_expression := All OpAny [Not (QueueBelow 7%positive 2); After {| st_at := 50; st_aware := true |};
                                   PublicationVerified 3%positive] |}.

Lemma evaluate_is_kleene_witness :
  condition_valid sample_condition = true /\
  exists ev, evaluate 10 (fun _ => Ok (evaluation UNKNOWN "unobserved")) false (Some sample_condition) = Ok ev /\
    truth ev = UNKNOWN.
Proof.
  split; [vm_compute; reflexivity|].
  apply (evaluate_is_kleene sample_condition 10 (fun _ => evaluation UNKNOWN "unobserved") false).
  vm_compute; reflexivity.
Defined.

(** The information order: an unknown observation may turn into any other. *)
Definition less_defined (t t' : Truth) : Prop := t = UNKNOWN \/ t = t'.

Definition less_observed (obs obs' : expr -> Evaluation) : Prop :=
  forall e, less_defined (truth (obs e)) (truth (obs' e)).

Lemma kleene_fold_mono (k : Truth -> Truth -> Truth) z ts ts' :
  (forall a b a' b', less_defined a a' -> less_defined b b' -> less_defined (k a b) (k a' b')) ->
  Forall2 less_defined ts ts' ->
  less_defined (List.fold_right k z ts) (List.fold_right k z ts').
Proof. intros Hk. induction 1; cbn; [by right|]. by apply Hk. Qed.

Lemma combine_mono op l l' :
  Forall2 (fun ev ev' => less_defined (truth ev) (truth ev')) l l' ->
  less_defined (truth (combine op l)) (truth (combine op l')).
Proof.
  intros H. rewrite !combine_truth.
  assert (Forall2 less_defined (map truth l) (map truth l')) by (induction H; by constructor).
  destruct op; apply kleene_fold_mono; try done;
    unfold less_defined; intros [] [] [] []; naive_solver.
Qed.

(** Missing observations cannot admit or refuse work that better information
    would decide otherwise: refining unknown observations into known ones never
    changes a TRUE or FALSE result, for every condition, in both modes. *)
Theorem evaluate_monotone c now obs obs' events_only
  (Hobs : less_observed obs obs') :
  exists ev ev', evaluate now (fun e => Ok (obs e)) events_only c = Ok ev /\
    evaluate now (fun e => Ok (obs' e)) events_only c = Ok ev' /\
    less_defined (truth ev) (truth ev').
Proof.
  apply (evaluate_related (fun ev ev' => less_defined (truth ev) (truth ev'))); try by right.
  - apply combine_mono.
  - intros ev ev' [Ht|Ht]; unfold negate; cbn; rewrite Ht; [by left|by right].
  - intros e.
    destruct (visit_leaf_total now obs events_only e) as (ev & -> & Hev & _).
    destruct (visit_leaf_total now obs' events_only e) as (ev' & -> & Hev' & _).
    exists ev, ev'. split; [done|]. split; [done|]. rewrite Hev, Hev'. unfold leaf_truth.
    destruct (events_only && scheduling_threshold e); [by right|].
    destruct e; try apply Hobs. by right.
Qed.

Lemma evaluate_monotone_witness :
  less_observed (fun _ => evaluation UNKNOWN "") (fun _ => evaluation FALSE "") /\
  exists ev ev', evaluate 99 (fun _ => Ok (evaluation UNKNOWN "")) false (Some sample_condition) = Ok ev /\
    evaluate 99 (fun _ => Ok (evaluation FALSE "")) false (Some sample_condition) = Ok ev' /\
    less_defined (truth ev) (truth ev').
Proof.
  split; [by left|].
  apply (evaluate_monotone (Some sample_condition) 99
    (fun _ => evaluation UNKNOWN "") (fun _ => evaluation FALSE "") false).
  intros e. by left.
Defined.

(** [next_check_at] bounds the time for which a result stands. *)
Definition unexpired (now' : instant) (ev : Evaluation) : Prop :=
  forall t, next_check_at ev = Some t -> now' < t.

Definition stands_until (now' : instant) (ev ev' : Evaluation) : Prop :=
  unexpired now' ev -> truth ev = truth ev'.

Lemma earliest_unexpired now' l :
  (forall t, earliest l = Some t -> now' < t) -> Forall (unexpired now') l.
Proof.
  induction l as [|ev l IH]; cbn; [by constructor|]. intros H.
  unfold unexpired. destruct (next_check_at ev) as [a|] eqn:Ea, (earliest l) as [b|] eqn:Eb; constructor.
  all: first [ by naive_solver
             | intros t; rewrite Ea; intros [= ->]; specialize (H _ eq_refl); lia
             | apply IH; intros t [= ->]; specialize (H _ eq_refl); lia
             | by rewrite Ea
             | apply IH; intros ? [= ->]; by apply H
             | apply IH; done ].
Qed.

Lemma combine_decisive op l ev :
  ev ∈ l -> truth ev = match op with OpAll => FALSE | OpAny => TRUE end ->
  truth (combine op l) = match op with OpAll => FALSE | OpAny => TRUE end.
Proof.
  intros Hin Ht. destruct (combine_cases op l) as [(ev' & _ & Ht' & ->)|(Hn & _)]; [done|].
  rewrite Forall_forall in Hn. by destruct (Hn ev Hin).
Qed.

Lemma combine_stands now' op l l' :
  Forall2 (stands_until now') l l' -> stands_until now' (combine op l) (combine op l').
Proof.
  intros HR Hu. destruct (combine_cases op l) as [(ev & Hin & Ht & Heq)|(_ & Hn & _)].
  - rewrite Heq in Hu |- *. rewrite Ht. symmetry.
    apply list_elem_of_lookup in Hin as [i Hi].
    destruct (Forall2_lookup_l _ _ _ _ _ HR Hi) as (ev' & Hi' & HR').
    apply (combine_decisive op l' ev'); [by eapply list_elem_of_lookup_2|].
    rewrite <- Ht. symmetry. by apply HR'.
  - rewrite !combine_truth. unfold unexpired in Hu. rewrite Hn in Hu.
    apply earliest_unexpired in Hu.
    assert (map truth l = map truth l') as ->; [|done].
    clear Hn. induction HR as [|ev ev' l l' H HR IH]; [done|].
    apply Forall_cons in Hu as [??]. cbn. f_equal; auto.
Qed.

(** A recorded result stands until its [next_check_at]: with unchanged
    observations, re-evaluating at any later instant before that date (or at any
    later instant, when no date is given) yields the same truth, so a scheduler that
    sleeps until [next_check_at] misses no change that time alone can bring. *)
Theorem evaluate_stands_until_next_check c now now' obs events_only
  (Hlater : now <= now') :
  exists ev ev', evaluate now (fun e => Ok (obs e)) events_only c = Ok ev /\
    evaluate now' (fun e => Ok (obs e)) events_only c = Ok ev' /\
    ((forall t, next_check_at ev = Some t -> now' < t) -> truth ev = truth ev').
Proof.
  apply (evaluate_related (stands_until now')); try done.
  - apply combine_stands.
  - intros ev ev' HR Hu. cbn. by rewrite HR.
  - intros e. unfold visit_leaf.
    destruct (events_only && scheduling_threshold e); [by do 2 eexists|].
    destruct e; try by do 2 eexists.
    do 2 eexists. split; [done|]. split; [done|]. unfold evaluate_after, stands_until, unexpired.
    destruct (st_aware at_); [|done].
    destruct (Z.leb_spec (st_at at_) now), (Z.leb_spec (st_at at_) now'); try done; cbn; intros Hu.
    + lia.
    + specialize (Hu _ eq_refl). lia.
Qed.

Lemma evaluate_stands_until_next_check_witness :
  10 <= 49 /\
  exists ev ev', evaluate 10 (fun _ => Ok (evaluation TRUE "")) false (Some sample_condition) = Ok ev /\
    evaluate 49 (fun _ => Ok (evaluation TRUE "")) false (Some sample_condition) = Ok ev' /\
    ((forall t, next_check_at ev = Some t -> 49 < t) -> truth ev = truth ev').
Proof.
  split; [lia|].
  apply (evaluate_stands_until_next_check (Some sample_condition) 10 49 (fun _ => evaluation TRUE "") false).
  lia.
Defined.

(** ** Readers of condition trees *)

Definition project_ref (k : kind) (i : uid) : RecordRef := {| ref_kind := k; ref_id := i |}.

(** [referenced_objects]: the concrete edges for authorisation and cycle checks. *)
Fixpoint referenced (e : expr) : list RecordRef :=
  match e with
  | All _ args => List.concat (map referenced args)
  | Not arg => referenced arg
  | StatusIn target _ | RevisionAfter target _ => [target]
  | DiscussionChanged i _ => [project_ref Kdiscussion i]
  | ObligationAccounted i => [project_ref Kobligation i]
  | PublicationVerified i => [project_ref Kpublication i]
  | QueueBelow i _ | PlanningNeeded i => [project_ref Krun i]
  | ForgeOpenCount f | ForgeActionableCount f =>
      project_ref Kproject (fc_project_id f)
        :: match fc_origin_run_id f with Some r => [project_ref Krun r] | None => [] end
        ++ map (project_ref Krepository) (fc_repository_ids f)
  | After _ => []
  end.

Definition referenced_objects (condition : option Condition) : list RecordRef :=
  match condition with None => [] | Some c => referenced (cond_expression c) end.

(** [_capacity_wait]: a stack walk that stops at the first leaf which is neither a
    time gate nor a capacity observation.  The fuel is the number of nodes. *)
Fixpoint capacity_wait_loop (fuel : nat) (pending : list expr) (capacity : bool) : bool :=
  match fuel, pending with
  | _, [] => capacity
  | O, _ => false
  | S fuel, e :: pending =>
      match e with
      | All _ args => capacity_wait_loop fuel (rev args ++ pending) capacity
      | Not arg => capacity_wait_loop fuel (arg :: pending) capacity
      | PlanningNeeded _ | QueueBelow _ _ => capacity_wait_loop fuel pending true
      | After _ => capacity_wait_loop fuel pending capacity
      | _ => false
      end
  end.

Definition capacity_wait (condition : option Condition) : bool :=
  match condition with
  | None => false
  | Some c =>
      (cond_version c =? 1) &&
      capacity_wait_loop (Z.to_nat (expr_size (cond_expression c))) [cond_expression c] false
  end.

(** [_terminal_review_dependencies]: the assignments a pure review handoff waits
    for, or [None] when the condition is anything else. *)
Fixpoint terminal_dependencies (e : expr) : option (gset uid) :=
  match e with
  | All OpAll args =>
      List.fold_right
        (fun found acc =>
           match found, acc with
           | Some s, Some t => Some (s ∪ t)
           | _, _ => None
           end) (Some ∅) (map terminal_dependencies args)
  | StatusIn target values =>
      match ref_kind target with
      | Kassignment =>
          if subset_of values ["completed"; "failed"; "cancelled"]%string then Some {[ref_id target]} else None
      | Kmilestone_job => if subset_of values ["completed"; "failed"]%string then Some ∅ else None
      | _ => None
      end
  | _ => None
  end.

Definition terminal_review_dependencies (condition : option Condition) : option (gset uid) :=
  match condition with None => None | Some c => terminal_dependencies (cond_expression c) end.

Fixpoint leaves (e : expr) : list expr :=
  match e with
  | All _ args => List.concat (map leaves args)
  | Not arg => leaves arg
  | e => [e]
  end.

Definition capacity_leaf (e : expr) : Prop :=
  match e with PlanningNeeded _ | QueueBelow _ _ => True | _ => False end.

Definition waiting_leaf (e : expr) : Prop :=
  match e with PlanningNeeded _ | QueueBelow _ _ | After _ => True | _ => False end.

Definition sizes (pending : list expr) : Z := List.fold_right Z.add 0 (map expr_size pending).

Lemma sizes_pos pending : 0 <= sizes pending.
Proof.
  unfold sizes. induction pending as [|e l IH]; cbn; [lia|]. pose proof (expr_size_pos e). lia.
Qed.

Lemma sizes_push args pending : sizes (rev args ++ pending) = sizes args + sizes pending.
Proof. unfold sizes. by rewrite map_app, sum_app, map_rev, sum_rev. Qed.

Definition frontier_leaves (pending : list expr) : list expr := List.concat (map leaves pending).

Lemma elem_of_frontier x pending : x ∈ frontier_leaves pending <-> exists e, e ∈ pending /\ x ∈ leaves e.
Proof.
  unfold frontier_leaves. rewrite list_elem_of_In, in_concat. setoid_rewrite in_map_iff.
  setoid_rewrite list_elem_of_In. naive_solver.
Qed.

Lemma frontier_push x args pending :
  x ∈ frontier_leaves (rev args ++ pending) <-> x ∈ frontier_leaves args \/ x ∈ frontier_leaves pending.
Proof.
  rewrite !elem_of_frontier. setoid_rewrite elem_of_app. setoid_rewrite list_elem_of_In.
  setoid_rewrite <- in_rev. naive_solver.
Qed.

Lemma frontier_cons x e pending :
  x ∈ frontier_leaves (e :: pending) <-> x ∈ leaves e \/ x ∈ frontier_leaves pending.
Proof. rewrite !elem_of_frontier. setoid_rewrite elem_of_cons. naive_solver. Qed.

Lemma capacity_wait_loop_spec fuel pending capacity :
  sizes pending <= Z.of_nat fuel ->
  capacity_wait_loop fuel pending capacity = true <->
  ((forall x, x ∈ frontier_leaves pending -> waiting_leaf x) /\
   (capacity = true \/ exists x, x ∈ frontier_leaves pending /\ capacity_leaf x)).
Proof.
  revert pending capacity; induction fuel as [|fuel IH]; intros pending capacity Hf.
  - destruct pending as [|e l]; cbn.
    + setoid_rewrite elem_of_nil. naive_solver.
    + exfalso. unfold sizes in Hf. cbn in Hf. pose proof (expr_size_pos e). pose proof (sizes_pos l).
      unfold sizes in *. lia.
  - destruct pending as [|e l].
    { cbn. setoid_rewrite elem_of_nil. naive_solver. }
    pose proof (expr_size_pos e). pose proof (sizes_pos l).
    assert (sizes (e :: l) = expr_size e + sizes l) as Hsz by done. rewrite Hsz in Hf.
    setoid_rewrite frontier_cons.
    destruct e; cbn [capacity_wait_loop leaves]; try setoid_rewrite list_elem_of_singleton.
    all: try (split; [done|]; intros [Hall _]; by destruct (Hall _ (or_introl eq_refl))).
    + rewrite IH; [|rewrite sizes_push; cbn in Hf; unfold sizes in *; lia].
      setoid_rewrite frontier_push. done.
    + rewrite IH; [|unfold sizes in *; cbn in *; lia]. setoid_rewrite frontier_cons. done.
    + rewrite IH by lia. naive_solver.
    + rewrite IH by lia. naive_solver.
    + rewrite IH by lia. naive_solver.
Qed.

(** [_capacity_wait] holds exactly for a version 1 condition whose leaves are
    all time gates or capacity observations, at least one of them a capacity
    observation: an idle recheck never overrides a wait on an owner, a publication,
    a review or another external event. *)
Theorem capacity_wait_iff c :
  capacity_wait (Some c) = true <->
  cond_version c = 1 /\ Forall waiting_leaf (leaves (cond_expression c)) /\
  Exists capacity_leaf (leaves (cond_expression c)).
Proof.
  unfold capacity_wait. rewrite andb_true_iff, Z.eqb_eq.
  pose proof (expr_size_pos (cond_expression c)).
  rewrite capacity_wait_loop_spec by (unfold sizes; cbn; lia).
  assert (forall x, x ∈ frontier_leaves [cond_expression c] <-> x ∈ leaves (cond_expression c)) as Hl.
  { intros x. unfold frontier_leaves. cbn. by rewrite app_nil_r. }
  setoid_rewrite Hl. rewrite Forall_forall, Exists_exists. naive_solver.
Qed.
