(* ===== verification/Graph.v ===== *)
(** * Dependency cycles

    [reject_cycle] of src/archon_horizon/pipeline/missions/conditions.py: the
    iterative depth-first search that the queue and the obligation ledger use to
    refuse a cyclic dependency.  The graph is the source's mapping from a node to its
    set of successors, kept as the list of its items in iteration order. *)

From S2P Require Import Prelude.

Section reject_cycle.
Context (edges : list (uid * list uid)).

(** [edges.get(node, ())]. *)
Definition successors (node : uid) : list uid :=
  match List.find (fun kv => bool_decide (kv.1 = node)) edges with
  | Some kv => kv.2
  | None => []
  end.

Definition edge (x y : uid) : Prop := y ∈ successors x.

Definition nodes : gset uid :=
  list_to_set (map fst edges ++ List.concat (map snd edges)).

(** One pass over the stack, whose top is first.  An entry carries the [leaving]
    flag of the source. *)
Inductive outcome : Type :=
| CycleFound
| Finished (done : gset uid)
| OutOfFuel.

Fixpoint walk (fuel : nat) (stack : list (uid * bool)) (active done : gset uid) : outcome :=
  match fuel, stack with
  | _, [] => Finished done
  | O, _ => OutOfFuel
  | S fuel, (node, leaving) :: stack =>
      if (leaving : bool) then walk fuel stack (active ∖ {[node]}) ({[node]} ∪ done)
      else if bool_decide (node ∈ active) then CycleFound
      else if bool_decide (node ∈ done) then walk fuel stack active done
      else walk fuel (rev (map (fun child => (child, false)) (successors node)) ++ (node, true) :: stack)
                ({[node]} ∪ active) done
  end.

(** Entries that expanding every node of [s] once can push. *)
Definition weight (s : gset uid) : nat :=
  sum_list (map (fun n => S (List.length (successors n))) (elements s)).

Definition walk_fuel : nat := S (S (weight nodes)).

Fixpoint walk_roots (roots : list uid) (done : gset uid) : outcome :=
  match roots with
  | [] => Finished done
  | root :: roots =>
      match walk walk_fuel [(root, false)] ∅ done with
      | Finished done => walk_roots roots done
      | o => o
      end
  end.

Definition reject_cycle : result unit :=
  match walk_roots (map fst edges) ∅ with
  | CycleFound => Err (DomainError "dependency_cycle" 409)
  | _ => Ok tt
  end.

Definition acyclic : Prop := forall x, ~ tc edge x x.

(** ** The fuel is never exhausted *)

Definition potential (stack : list (uid * bool)) (active done : gset uid) : nat :=
  List.length stack + weight (nodes ∖ (active ∪ done)).

Lemma weight_remove (s : gset uid) n :
  n ∈ s -> weight s = (S (List.length (successors n)) + weight (s ∖ {[n]}))%nat.
Proof.
  intros Hn. unfold weight.
  rewrite (union_difference_L {[n]} s) at 1 by set_solver.
  rewrite elements_disj_union by set_solver. rewrite elements_singleton. done.
Qed.

Lemma weight_mono s t : s ⊆ t -> (weight s <= weight t)%nat.
Proof.
  intros H. unfold weight. rewrite (union_difference_L s t) by done.
  rewrite elements_disj_union by set_solver.
  rewrite map_app, sum_list_with_app. lia.
Qed.

Lemma elem_of_nodes n :
  n ∈ nodes <-> In n (map fst edges) \/ exists v, In v (map snd edges) /\ In n v.
Proof.
  unfold nodes. rewrite elem_of_list_to_set, elem_of_app, !list_elem_of_In. by rewrite in_concat.
Qed.

Lemma successors_nodes x y : y ∈ successors x -> x ∈ nodes /\ y ∈ nodes.
Proof.
  unfold successors. destruct (List.find _ edges) as [[k v]|] eqn:E; [|set_solver].
  apply find_some in E as [Hin Hk]. cbn in Hk |- *. bools. subst k. intros Hy%list_elem_of_In.
  rewrite !elem_of_nodes.
  split; [left | right; exists v; split; [|done]].
  - by apply (in_map fst) in Hin.
  - by apply (in_map snd) in Hin.
Qed.

Lemma walk_terminates fuel stack active done :
  (forall e, e ∈ stack -> e.1 ∈ nodes) ->
  (potential stack active done < fuel)%nat -> walk fuel stack active done <> OutOfFuel.
Proof.
  revert stack active done; induction fuel as [|fuel IH]; intros stack active done Hn Hp; [lia|].
  destruct stack as [|[node leaving] stack]; [done|]. unfold potential in Hp. cbn in Hp.
  assert (Hn' : forall e, e ∈ stack -> e.1 ∈ nodes) by (intros e He; apply Hn; by right).
  assert (node ∈ nodes) by (apply (Hn (node, leaving)); by left).
  clear Hn.
  cbn. destruct leaving; [|repeat case_bool_decide; [done| |]].
  - apply IH; [done|]. unfold potential.
    enough (weight (nodes ∖ (active ∖ {[node]} ∪ ({[node]} ∪ done))) <=
            weight (nodes ∖ (active ∪ done)))%nat by lia.
    apply weight_mono. intros x.
    rewrite !elem_of_difference, !elem_of_union, elem_of_difference, elem_of_singleton.
    destruct (decide (x = node)); tauto.
  - apply IH; [done|]. unfold potential. lia.
  - apply IH.
    + intros e. rewrite elem_of_app, elem_of_cons, list_elem_of_In, <- in_rev, in_map_iff.
      intros [(c & <- & Hc)|[->|?]]; [|done|by apply Hn'].
      cbn. by apply (successors_nodes node), list_elem_of_In.
    + unfold potential. rewrite length_app, length_rev, length_map. cbn [List.length].
      rewrite (weight_remove (nodes ∖ (active ∪ done)) node) in Hp by set_solver.
      replace (nodes ∖ ({[node]} ∪ active ∪ done)) with (nodes ∖ (active ∪ done) ∖ {[node]})
        by (clear; set_solver).
      lia.
Qed.

(** ** Invariants of the search *)

(** The innermost node still being expanded. *)
Fixpoint innermost (stack : list (uid * bool)) : option uid :=
  match stack with
  | [] => None
  | (n, true) :: _ => Some n
  | (_, false) :: stack => innermost stack
  end.

(** Every entry was pushed by the innermost open node below it. *)
Fixpoint chained (stack : list (uid * bool)) : Prop :=
  match stack with
  | [] => True
  | (n, _) :: stack => (forall m, innermost stack = Some m -> edge m n) /\ chained stack
  end.

(** Every successor of an open node is closed or still above its marker. *)
Fixpoint covered (above : list uid) (stack : list (uid * bool)) (done : gset uid) : Prop :=
  match stack with
  | [] => True
  | (n, leaving) :: stack =>
      (leaving = true -> forall c, edge n c -> c ∈ done \/ c ∈ above) /\ covered (n :: above) stack done
  end.

Definition open_nodes (stack : list (uid * bool)) : list uid :=
  map fst (List.filter snd stack).

(** Closed nodes start no infinite path. *)
Definition settled (done : gset uid) : Prop := forall x, x ∈ done -> Acc (fun y x => edge x y) x.

Record invariant (stack : list (uid * bool)) (active done : gset uid) : Prop := {
  inv_chained : chained stack;
  inv_covered : covered [] stack done;
  inv_active : forall n, n ∈ active <-> n ∈ open_nodes stack;
  inv_nodup : NoDup (open_nodes stack);
  inv_settled : settled done }.

Lemma innermost_none stack : innermost stack = None -> open_nodes stack = [].
Proof. induction stack as [|[k []] stack IH]; done. Qed.

Lemma chained_path stack x y :
  chained stack -> x ∈ open_nodes stack -> innermost stack = Some y -> rtc edge x y.
Proof.
  revert y; induction stack as [|[n []] stack IH]; intros y Hch Hx Hy; [done|..];
    destruct Hch as [Hn Hc].
  - cbn in Hy. injection Hy as ->. unfold open_nodes in Hx. cbn in Hx.
    apply elem_of_cons in Hx as [->|Hx]; [done|].
    destruct (innermost stack) as [m|] eqn:Em.
    + eapply rtc_r; [by apply IH | by apply Hn].
    + change (x ∈ open_nodes stack) in Hx. rewrite innermost_none in Hx by done.
      by apply elem_of_nil in Hx.
  - apply IH; done.
Qed.

Lemma covered_weaken above above' stack done done' :
  (forall c, c ∈ above -> c ∈ above' \/ c ∈ done') -> done ⊆ done' ->
  covered above stack done -> covered above' stack done'.
Proof.
  revert above above'; induction stack as [|[n b] stack IH]; intros above above' Ha Hd; [done|].
  intros [Hl Hc]. split.
  - intros -> c Hc'. destruct (Hl eq_refl c Hc') as [?|[?|?]%Ha]; auto.
  - eapply IH; [|done..]. intros c [->|Hc']%elem_of_cons; [set_solver|].
    destruct (Ha c Hc'); set_solver.
Qed.

Lemma settled_add done n :
  settled done -> (forall c, edge n c -> c ∈ done) -> settled ({[n]} ∪ done).
Proof.
  intros Hs Hc x [->%elem_of_singleton|?]%elem_of_union; [|by apply Hs].
  constructor. intros y Hy. apply Hs, Hc, Hy.
Qed.

Lemma covered_leave n stack active done :
  invariant ((n, true) :: stack) active done ->
  invariant stack (active ∖ {[n]}) ({[n]} ∪ done).
Proof.
  intros [[_ Hch] [Hn Hcov] Hact Hnd Hset]. unfold open_nodes in *. cbn in *.
  apply NoDup_cons in Hnd as [Hnot Hnd]. split; [exact Hch| | |exact Hnd|].
  - eapply covered_weaken; [..|exact Hcov]; clear; set_solver.
  - intros m. rewrite elem_of_difference, Hact, elem_of_cons, elem_of_singleton.
    split; [tauto|]. intros Hm. split; [by right|]. by intros ->.
  - apply settled_add; [done|]. intros c Hc. destruct (Hn eq_refl c Hc) as [?|?%elem_of_nil]; done.
Qed.

Lemma covered_skip n stack active done :
  n ∈ done -> invariant ((n, false) :: stack) active done -> invariant stack active done.
Proof.
  intros Hn [[_ Hch] [_ Hcov] Hact Hnd Hset]. split; [exact Hch| |exact Hact|exact Hnd|exact Hset].
  eapply covered_weaken; [..|exact Hcov]; [|done]. intros c ->%list_elem_of_singleton. by right.
Qed.

Lemma open_children cs rest :
  open_nodes (rev (map (fun c => (c, false)) cs) ++ rest) = open_nodes rest.
Proof.
  unfold open_nodes. rewrite List.filter_app.
  assert (List.filter snd (rev (map (fun c : uid => (c, false)) cs)) = []) as ->; [|done].
  rewrite <- map_rev. induction (rev cs); [done|]. cbn. done.
Qed.

Lemma chained_children n cs rest :
  (forall c, c ∈ cs -> edge n c) -> chained ((n, true) :: rest) ->
  chained (rev (map (fun c => (c, false)) cs) ++ (n, true) :: rest).
Proof.
  intros Hcs Hch. rewrite <- map_rev.
  assert (Hrev : forall c, c ∈ rev cs -> edge n c).
  { intros c. rewrite list_elem_of_In, <- in_rev, <- list_elem_of_In. apply Hcs. }
  clear Hcs. induction (rev cs) as [|c l IH]; [done|]. cbn [map app chained].
  split; [|apply IH; intros x Hx; apply Hrev; by right]. intros m Hm.
  assert (innermost (map (fun c => (c, false)) l ++ (n, true) :: rest) = Some n) as Hi.
  { clear. induction l; done. }
  rewrite Hi in Hm. injection Hm as <-. apply Hrev. by left.
Qed.

Lemma covered_children above cs rest done :
  covered (rev (rev cs) ++ above) rest done ->
  covered above (rev (map (fun c => (c, false)) cs) ++ rest) done.
Proof.
  rewrite <- map_rev. revert above. induction (rev cs) as [|c l IH]; intros above H; [done|].
  cbn. split; [done|]. apply IH. eapply covered_weaken; [..|exact H]; [|done].
  intros x Hx. left. revert Hx. cbn. clear. set_solver.
Qed.

Lemma covered_enter n stack active done :
  n ∉ active -> invariant ((n, false) :: stack) active done ->
  invariant (rev (map (fun c => (c, false)) (successors n)) ++ (n, true) :: stack) ({[n]} ∪ active) done.
Proof.
  intros Hn [[Hp Hch] [_ Hcov] Hact Hnd Hset]. split.
  - apply chained_children; [done|]. done.
  - apply covered_children. cbn. split.
    + intros _ c Hc. right. rewrite rev_involutive, app_nil_r. done.
    + eapply covered_weaken; [..|exact Hcov]; [|done]. intros c Hc. left.
      rewrite rev_involutive, app_nil_r. apply list_elem_of_singleton in Hc as ->. by left.
  - intros m. rewrite open_children. unfold open_nodes in *. cbn in *.
    by rewrite elem_of_union, Hact, elem_of_cons, elem_of_singleton.
  - rewrite open_children. unfold open_nodes in *. cbn in *. apply NoDup_cons. by rewrite <- Hact.
  - done.
Qed.

Lemma closed_cons n b (stack : list (uid * bool)) (done : gset uid) :
  (forall e, e ∈ stack -> e.1 ∈ done) -> n ∈ done -> forall e, e ∈ (n, b) :: stack -> e.1 ∈ done.
Proof. intros H Hn e [->|?]%elem_of_cons; auto. Qed.

Lemma walk_spec fuel stack active done :
  invariant stack active done ->
  match walk fuel stack active done with
  | CycleFound => exists x, tc edge x x
  | Finished done' => settled done' /\ done ⊆ done' /\ (forall e, e ∈ stack -> e.1 ∈ done')
  | OutOfFuel => True
  end.
Proof.
  revert stack active done; induction fuel as [|fuel IH]; intros stack active done Hinv;
    (destruct stack as [|[n b] stack];
      [cbn; split; [apply Hinv|]; split; [done|]; by intros e ?%elem_of_nil|]); [done|].
  cbn [walk]. destruct b; [|repeat case_bool_decide].
  - specialize (IH _ _ _ (covered_leave _ _ _ _ Hinv)).
    destruct (walk fuel _ _ _) as [|done'|]; [done| |done]. destruct IH as (Hs & Hd & Hst).
    split; [done|]. split; [etrans; [|exact Hd]; clear; set_solver|].
    apply closed_cons; [done|]. apply Hd. clear; set_solver.
  - destruct Hinv as [[Hp Hch] _ Hact _ _]. apply Hact in H.
    change (n ∈ open_nodes stack) in H. destruct (innermost stack) as [y|] eqn:Ey.
    + exists n. eapply tc_rtc_l; [by apply (chained_path stack n y)|]. apply tc_once. by apply Hp.
    + rewrite innermost_none in H by done. by apply elem_of_nil in H.
  - specialize (IH _ _ _ (covered_skip _ _ _ _ H0 Hinv)).
    destruct (walk fuel _ _ _) as [|done'|]; [done| |done]. destruct IH as (Hs & Hd & Hst).
    split; [done|]. split; [done|]. apply closed_cons; [done|]. by apply Hd.
  - specialize (IH _ _ _ (covered_enter _ _ _ _ H Hinv)).
    destruct (walk fuel _ _ _) as [|done'|]; [done| |done]. destruct IH as (Hs & Hd & Hst).
    split; [done|]. split; [done|]. apply closed_cons.
    + intros e He. apply Hst. apply elem_of_app. right. by right.
    + apply (Hst (n, true)). apply elem_of_app. right. by left.
Qed.

Lemma walk_roots_spec roots done :
  settled done -> (forall r, r ∈ roots -> r ∈ nodes) ->
  match walk_roots roots done with
  | CycleFound => exists x, tc edge x x
  | Finished done' => settled done' /\ done ⊆ done' /\ (forall r, r ∈ roots -> r ∈ done')
  | OutOfFuel => False
  end.
Proof.
  revert done; induction roots as [|r roots IH]; intros done Hs Hr; cbn [walk_roots].
  { split; [done|]. split; [done|]. by intros r ?%elem_of_nil. }
  assert (invariant [(r, false)] ∅ done) as Hinv.
  { split; [| | |by constructor|done]; cbn; [|done|clear; set_solver]. split; [|done]. by intros ??. }
  pose proof (walk_spec walk_fuel _ _ _ Hinv) as Hw.
  destruct (walk walk_fuel [(r, false)] ∅ done) as [|done'|] eqn:E; [done| |].
  - destruct Hw as (Hs' & Hd & Hst). specialize (IH done' Hs').
    destruct (walk_roots roots done') as [|done''|];
      [apply IH; intros ??; apply Hr; by right | | apply IH; intros ??; apply Hr; by right].
    destruct IH as (Hs'' & Hd' & Hr'); [intros ??; apply Hr; by right|].
    split; [done|]. split; [by etrans|]. intros x [->|Hx]%elem_of_cons; [|by apply Hr'].
    apply Hd'. apply (Hst (r, false)). by left.
  - revert E. apply walk_terminates.
    + intros e ->%list_elem_of_singleton. apply Hr. by left.
    + unfold potential, walk_fuel. cbn. pose proof (weight_mono (nodes ∖ (∅ ∪ done)) nodes).
      assert (nodes ∖ (∅ ∪ done) ⊆ nodes) by (clear; set_solver). specialize (H H0). lia.
Qed.

Lemma acc_acyclic x : Acc (fun y x => edge x y) x -> ~ tc edge x x.
Proof.
  induction 1 as [x _ IH]. intros Hc. inversion Hc as [? ? He|? y ? He Ht]; subst.
  - by apply (IH x He).
  - apply (IH y He). eapply tc_r; [exact Ht|exact He].
Qed.

Lemma edge_root x y : edge x y -> x ∈ map fst edges.
Proof.
  unfold edge, successors. destruct (List.find _ edges) as [[k v]|] eqn:E; [|by intros ?%elem_of_nil].
  apply find_some in E as [Hin Hk]. cbn in Hk. bools. subst k. intros _.
  apply list_elem_of_In. by apply (in_map fst) in Hin.
Qed.

Lemma reject_cycle_spec :
  (reject_cycle = Ok tt /\ acyclic) \/
  (reject_cycle = Err (DomainError "dependency_cycle" 409) /\ exists x, tc edge x x).
Proof.
  unfold reject_cycle. pose proof (walk_roots_spec (map fst edges) ∅) as H.
  destruct (walk_roots (map fst edges) ∅) as [|done|].
  - right. split; [done|]. apply H; [by intros ?|].
    intros r Hr. apply elem_of_nodes. left. by apply list_elem_of_In.
  - left. split; [done|]. destruct H as (Hs & _ & Hr); [by intros ?| |].
    { intros r Hr. apply elem_of_nodes. left. by apply list_elem_of_In. }
    intros x Hx. refine (acc_acyclic x _ Hx). apply Hs, Hr.
    inversion Hx; subst; by eapply edge_root.
  - exfalso. apply H; [by intros ?|].
    intros r Hr. apply elem_of_nodes. left. by apply list_elem_of_In.
Qed.
End reject_cycle.

(** C37. [reject_cycle] terminates and is exact: it accepts precisely the acyclic
    dependency graphs and raises [dependency_cycle] precisely when some node reaches
    itself, whatever the iteration order of the mapping and of its sets. *)
Theorem reject_cycle_exact edges :
  (reject_cycle edges = Ok tt <-> acyclic edges) /\
  (reject_cycle edges = Err (DomainError "dependency_cycle" 409) <-> exists x, tc (edge edges) x x).
Proof.
  destruct (reject_cycle_spec edges) as [[-> Ha]|[-> [x Hx]]].
  - split; [done|]. split; [done|]. intros [x Hx]. by destruct (Ha x).
  - split; [|by split; [eauto|]]. split; [done|]. intros Ha. by destruct (Ha x).
Qed.

Example reject_cycle_diamond :
  reject_cycle [(1, [2; 3]); (2, [4]); (3, [4; 2])]%positive = Ok tt /\
  reject_cycle [(1, [2; 3]); (3, [4]); (4, [1])]%positive = Err (DomainError "dependency_cycle" 409).
Proof. split; vm_compute; reflexivity. Qed.
