(* ===== verification/WorkerContracts.v ===== *)
(** * Contracts of the worker

    src/archon_horizon/pipeline/worker/contracts.py: the canonical JSON of a payload,
    the operation that a worker journals and replays, the execution grant, and the
    validators of tool environments and identifiers.

    A [float] of the source is a whole number of microseconds here; the values that are
    not finite do not occur, so the [isfinite] tests of the source have nothing to
    reject. *)

From S2P Require Import Prelude.

(** ** JSON values *)

Inductive json : Type :=
| JNull
| JBool (b : bool)
| JInt (n : Z)
| JFloat (micros : Z)
| JString (s : string)
| JList (l : list json)
| JObject (fields : list (string * json)).

(** [value.get(key)] of an object. *)
Definition json_get (key : string) (fields : list (string * json)) : json :=
  match List.find (fun kv => bool_decide (kv.1 = key)) fields with
  | Some kv => kv.2
  | None => JNull
  end.

(** [bool(value)]. *)
Definition truthy (j : json) : bool :=
  match j with
  | JNull => false
  | JBool b => b
  | JInt n | JFloat n => negb (n =? 0)
  | JString s => negb (bool_decide (s = EmptyString))
  | JList l => negb (bool_decide (List.length l = 0%nat))
  | JObject l => negb (bool_decide (List.length l = 0%nat))
  end.

(** The escapes of [json.dumps] with its default [ensure_ascii]. *)
Definition escape_char (c : ascii) : string :=
  let n := code c in
  if n =? 34 then String "\" (String c EmptyString)
  else if n =? 92 then "\\"
  else if n =? 10 then "\n"
  else if n =? 13 then "\r"
  else if n =? 9 then "\t"
  else if n =? 8 then "\b"
  else if n =? 12 then "\f"
  else if (32 <=? n) && (n <=? 126) then String c EmptyString
  else ("\u00" +:+ String (hex_char (n / 16)) (String (hex_char (n mod 16)) EmptyString))%string.

Definition quote : string := String (ascii_of_nat 34) EmptyString.

Definition json_string (s : string) : string :=
  (quote +:+ join "" (map escape_char (chars s)) +:+ quote)%string.

Fixpoint strip_zeros (l : list ascii) : list ascii :=
  match l with
  | [] => []
  | [c] => [c]
  | c :: l' => if Ascii.eqb c "0" then strip_zeros l' else l
  end.

(** The shortest text of a float with at most six decimals. *)
Definition json_float (micros : Z) : string :=
  let m := Z.abs micros in
  ((if (micros <? 0)%Z then "-" else "") +:+ pretty (m / 1000000)%Z +:+ "." +:+
   string_of_list_ascii (rev (strip_zeros (rev (chars (pad 6 (m mod 1000000)%Z))))))%string.

(** [json.dumps(value, sort_keys=True, separators=(",", ":"), allow_nan=False)]. *)
Fixpoint canonical_json (j : json) : string :=
  match j with
  | JNull => "null"
  | JBool true => "true"
  | JBool false => "false"
  | JInt n => pretty n
  | JFloat m => json_float m
  | JString s => json_string s
  | JList l => ("[" +:+ join "," (map canonical_json l) +:+ "]")%string
  | JObject fields =>
      let texts := map (fun kv => (kv.1, canonical_json kv.2)) fields in
      let ordered := sort_by (fun a b => String.leb a.1 b.1) texts in
      ("{" +:+ join "," (map (fun kv => json_string kv.1 +:+ ":" +:+ kv.2) ordered) +:+ "}")%string
  end.

Definition byte_length (s : string) : Z := Z.of_nat (String.length s).

(** ** Validators *)

Definition identifier_char (c : ascii) : bool :=
  is_lower c || is_upper c || is_digit c || Ascii.eqb c "-" || Ascii.eqb c "_".

Definition require_identifier (value : string) : result string :=
  let? _ := guard (bool_decide (value = EmptyString) || (200 <? byte_length value))
                  (ValidationError "identifier must be nonempty and at most 200 characters") in
  let? _ := guard (negb (forallb identifier_char (chars value)))
                  (ValidationError "identifier contains unsafe characters") in
  Ok value.

Definition validate_subagent_limit (value : option Z) : result unit :=
  guard (match value with Some n => n <? 0 | None => false end)
        (ValidationError "native subagent limit must be null or a nonnegative integer").

Definition path_list_keys : list string := ["PATH"; "LEAN_PATH"; "LEAN_SRC_PATH"].
Definition directory_keys : list string := ["ELAN_HOME"; "LAKE_HOME"; "XDG_CACHE_HOME"].
Definition locale_keys : list string := ["LANG"; "LC_ALL"; "TZ"].

Definition control_char (c : ascii) : bool := (code c <? 32) || (code c =? 127).

Definition explicit_path (entry : string) : bool :=
  starts_with "/" entry && negb (mem ".." (split_on "/" entry)) && negb (has_char "$" entry).

Definition validate_tool_value (key value : string) : result unit :=
  let? _ := guard (negb (mem key (path_list_keys ++ directory_keys ++ locale_keys)))
                  (ValidationError "environment supports only explicit tool paths and locale settings") in
  let? _ := guard (bool_decide (value = EmptyString) || (16384 <? byte_length value)
                   || existsb control_char (chars value))
                  (ValidationError "environment values must be bounded nonempty single-line strings") in
  if mem key (path_list_keys ++ directory_keys) then
    guard (negb (forallb explicit_path
                  (if mem key path_list_keys then split_on ":" value else [value])))
          (ValidationError "tool paths must be explicit absolute paths without empty entries or variable expansion")
  else Ok tt.

Definition validate_tool_environment (values : list (string * string)) : result (list (string * string)) :=
  let? _ := rforeach (fun kv => validate_tool_value kv.1 kv.2) values in Ok values.

(** ** Operations *)

Definition OPERATION_KINDS : list string :=
  ["activity"; "execution_finished"; "publication_discovered"; "publication_verified";
   "publication_failed"; "provider_observed"; "workspace_prepared"].

Definition EXECUTION_OUTCOMES : list string :=
  ["succeeded"; "failed"; "cancelled"; "lost"; "yielded"].

Record Operation := {
  operation_id : string;
  execution_id : string;
  epoch : Z;
  op_kind : string;
  payload : list (string * json);
  occurred_at : instant }.

Definition as_dict (o : Operation) : json :=
  JObject [("operation_id", JString (operation_id o)); ("execution_id", JString (execution_id o));
           ("epoch", JInt (epoch o)); ("kind", JString (op_kind o));
           ("payload", JObject (payload o)); ("occurred_at", JFloat (occurred_at o))].

Definition json_status_in (values : list string) (j : json) : bool :=
  match j with JString s => mem s values | _ => false end.

Definition publication_kinds : list string :=
  ["publication_discovered"; "publication_verified"; "publication_failed"].

(** [Operation.__post_init__]. *)
Definition validate_operation (o : Operation) : result Operation :=
  let? _ := require_identifier (operation_id o) in
  let? _ := require_identifier (execution_id o) in
  let? _ := guard (epoch o <? 1) (ValidationError "epoch must be a positive integer") in
  let? _ := guard (negb (mem (op_kind o) OPERATION_KINDS)) (ValidationError "unknown worker operation kind") in
  let? _ := guard (occurred_at o <=? 0) (ValidationError "occurred_at must be a positive Unix timestamp") in
  let? _ := guard (bool_decide (op_kind o = "execution_finished")
                   && negb (json_status_in EXECUTION_OUTCOMES (json_get "status" (payload o))))
                  (ValidationError "invalid execution outcome") in
  let? _ := guard (mem (op_kind o) publication_kinds
                   && negb (forallb (fun k => truthy (json_get k (payload o)))
                                    ["repository_id"; "commit_oid"; "recovery_ref"]))
                  (ValidationError "publication discovery requires repository, commit, and recovery ref") in
  let? _ := guard (bool_decide (op_kind o = "publication_verified")
                   && negb (forallb (fun k => truthy (json_get k (payload o))) ["remote"; "remote_ref"]))
                  (ValidationError "publication verification requires configured remote and verified ref") in
  Ok o.

(** [Operation.create]; the [uuid4] and the clock are arguments. *)
Definition create_operation (uuid4 : string) (time : instant) (execution : string) (ep : Z) (k : string)
    (body : list (string * json)) (identifier : option string) (at_ : option instant) : result Operation :=
  validate_operation
    {| operation_id := match identifier with
                       | Some i => if bool_decide (i = EmptyString) then uuid4 else i
                       | None => uuid4
                       end;
       execution_id := execution; epoch := ep; op_kind := k; payload := body;
       occurred_at := default time at_ |}.

Record ClaimedOperation := {
  claimed : Operation;
  claim_token : string;
  attempts : Z }.

(** ** Execution grants

    The fields of [ExecutionGrant] that its constructor validates. *)
Record ExecutionGrant := {
  g_execution_id : string;
  g_assignment_id : string;
  g_epoch : Z;
  g_lease_seconds : Z;
  g_harness_id : string;
  g_workspace_id : string;
  g_workspace_path : string;
  g_repository_id : string;
  g_goal : string;
  g_max_offline_replay_seconds : Z;
  g_max_parallel_subagents : option Z;
  g_goal_artifact_id : option string }.

Definition validate_grant (g : ExecutionGrant) : result ExecutionGrant :=
  let? _ := rforeach (fun v => let? _ := require_identifier v in Ok tt)
              [g_execution_id g; g_assignment_id g; g_harness_id g; g_repository_id g; g_workspace_id g] in
  let? _ := guard ((g_epoch g <? 1) || (g_lease_seconds g <? 0)) (ValidationError "invalid execution lease") in
  let? _ := guard (g_max_offline_replay_seconds g <? 1)
                  (ValidationError "offline replay horizon must be positive") in
  let? _ := validate_subagent_limit (g_max_parallel_subagents g) in
  let? _ := guard (negb (starts_with "/" (g_workspace_path g))
                   || (blank (g_goal g) &&
                       match g_goal_artifact_id g with
                       | Some a => bool_decide (a = EmptyString)
                       | None => true
                       end))
                  (ValidationError "grant requires an absolute workspace and nonempty goal") in
  Ok g.

Example canonical_json_sorts :
  canonical_json (JObject [("b", JList [JInt 1; JNull]); ("a", JFloat 1500000)])
  = String.concat quote ["{"; "a"; ":1.5,"; "b"; ":[1,null]}"].
Proof. vm_compute. reflexivity. Qed.

(** An accepted identifier is a single path component: it names a file below a directory
    and never escapes it. *)
Lemma require_identifier_component value i :
  require_identifier value = Ok i -> i = value /\ split_on "/" value = [value] /\ value <> "..".
Proof.
  unfold require_identifier. intros H. invert_ok. subst i. split; [done|]. bools.
  assert (forall s, forallb identifier_char (chars s) = true -> split_on "/" s = [s]) as Hs.
  { induction s as [|c s IH]; cbn; [done|]. intros Hc. apply andb_true_iff in Hc as [Hc Hr].
    rewrite (IH Hr). destruct (Ascii.eqb c "/") eqn:E; [|done].
    apply Ascii.eqb_eq in E. subst c. discriminate Hc. }
  split; [by apply Hs|]. intros ->. discriminate.
Qed.
