(* ===== verification/Journal.v ===== *)
(** * The durable journal of a worker

    src/archon_horizon/pipeline/worker/journal.py ([DurableJournal]) and the replay loop
    body of worker/transport.py ([replay_one]: a claim, the exchange with the server, during which
    other calls may change the journal, and the settlement of the claim).

    The SQLite tables are the fields of [Journal]: [operations] is kept in sequence order,
    the tables with a primary key are finite maps.  A transaction is a function of the
    journal into [result]: an exception rolls back, so the caller keeps the journal it had.
    What the code reads from outside (clocks, the boot identity, [uuid4], page counts, free
    disk space, and whether SQLite reports a full database) is the record [Env].  SHA-256 is
    the parameter [sha256]; no theorem needs anything of it.  The envelope column is
    the operation itself: [canonical_json (as_dict o)] is its text, and [json_extract]
    reads its fields. *)

From S2P Require Import Prelude WorkerContracts.

(** ** Tables *)

Inductive destination : Type := Api | LocalGit.
#[export] Instance destination_eq_dec : EqDecision destination.
Proof. solve_decision. Defined.

Inductive delivery : Type := Pending | Inflight | Acknowledged | Blocked | Recovery.
#[export] Instance delivery_eq_dec : EqDecision delivery.
Proof. solve_decision. Defined.

Record operation_row := {
  sequence : Z;
  envelope : Operation;
  digest : string;
  created_at : instant;
  dest : destination;
  state : delivery;
  row_attempts : Z;
  retry_at : instant;
  row_claim_token : option string;
  claim_until : option instant;
  acknowledged_at : option instant;
  row_error : option string }.

#[export] Instance operation_row_eta : Eta operation_row := fun r =>
  Build_operation_row (sequence r) (envelope r) (digest r) (created_at r) (dest r) (state r)
    (row_attempts r) (retry_at r) (row_claim_token r) (claim_until r) (acknowledged_at r) (row_error r).

Inductive execution_status : Type := Running | Succeeded | Failed | Cancelled | Lost | Yielded.
#[export] Instance execution_status_eq_dec : EqDecision execution_status.
Proof. solve_decision. Defined.

Record execution_row := {
  e_epoch : Z;
  boot_id : string;
  deadline : instant;
  e_status : execution_status;
  checkpoint : list (string * json) }.

#[export] Instance execution_row_eta : Eta execution_row := fun r =>
  Build_execution_row (e_epoch r) (boot_id r) (deadline r) (e_status r) (checkpoint r).

Inductive request_state : Type := ReqCompleted | ReqFailed | ReqInterrupted | ReqUncertain.
#[export] Instance request_state_eq_dec : EqDecision request_state.
Proof. solve_decision. Defined.

Record request_row := {
  q_execution_id : string;
  q_epoch : Z;
  input_hash : string;
  q_state : request_state;
  q_provider_thread_id : option string;
  q_result : option json;
  q_created_at : instant }.

#[export] Instance request_row_eta : Eta request_row := fun r =>
  Build_request_row (q_execution_id r) (q_epoch r) (input_hash r) (q_state r)
    (q_provider_thread_id r) (q_result r) (q_created_at r).

Record reservation_row := {
  v_execution_id : string;
  v_epoch : Z;
  reserved_bytes : Z;
  v_created_at : instant }.

Inductive claim_state : Type := ClaimPending | ClaimResolved | ClaimReconciled.
#[export] Instance claim_state_eq_dec : EqDecision claim_state.
Proof. solve_decision. Defined.

Record claim_payload := {
  host_id : string;
  harness_ids : list string;
  resolution_note : option string }.

#[export] Instance claim_payload_eta : Eta claim_payload := fun r =>
  Build_claim_payload (host_id r) (harness_ids r) (resolution_note r).

Record claim_row := {
  c_request_id : string;
  c_payload : claim_payload;
  c_state : claim_state;
  c_created_at : instant }.

#[export] Instance claim_row_eta : Eta claim_row := fun r =>
  Build_claim_row (c_request_id r) (c_payload r) (c_state r) (c_created_at r).

Record health_row := {
  checked_at : instant;
  succeeded_at : option instant;
  h_error : option string }.

Record Journal := {
  operations : list operation_row;
  last_sequence : Z;
  execution_state : gmap string execution_row;
  provider_requests : gmap string request_row;
  diagnostic_reservations : gmap string reservation_row;
  diagnostic_tombstones : gmap string instant;
  claim_attempts : list claim_row;
  recovery_health : gmap string health_row }.

#[export] Instance Journal_eta : Eta Journal := fun j =>
  Build_Journal (operations j) (last_sequence j) (execution_state j) (provider_requests j)
    (diagnostic_reservations j) (diagnostic_tombstones j) (claim_attempts j) (recovery_health j).

Definition empty_journal : Journal :=
  {| operations := []; last_sequence := 0; execution_state := ∅; provider_requests := ∅;
     diagnostic_reservations := ∅; diagnostic_tombstones := ∅; claim_attempts := [];
     recovery_health := ∅ |}.

(** The configuration of the constructor, and what the code reads from outside. *)
Record Config := {
  max_bytes : Z;
  minimum_free_bytes : Z;
  max_offline : Z;
  diagnostic_max_bytes : Z;
  diagnostic_retention : Z;
  failure_diagnostic_retention : Z }.

Definition valid_config (state_root : string) (c : Config) : result Config :=
  let? _ := guard (negb (starts_with "/" state_root) || (max_bytes c <? 256 * 1024)
                   || (minimum_free_bytes c <? 0))
                  (ValidationError "an absolute state_root and valid storage budgets are required") in
  let? _ := guard (max_offline c <=? 0) (ValidationError "offline replay horizon must be positive") in
  let? _ := guard ((diagnostic_max_bytes c <? 2048)
                   || (Z.min (diagnostic_retention c) (failure_diagnostic_retention c) <? 0))
                  (ValidationError "invalid diagnostic storage limits") in
  Ok c.

Record Env := {
  wall : instant;
  monotonic : instant;
  boot_identity : string;
  uuid4 : string;
  page_size : Z;
  page_count : Z;
  freelist_count : Z;
  free_bytes : Z;
  database_full : bool }.

(** [UPDATE ... WHERE p]: the rows and the row count. *)
Definition update_where {R} (p : R -> bool) (f : R -> R) (rows : list R) : list R :=
  map (fun r => if p r then f r else r) rows.

Definition rowcount {R} (p : R -> bool) (rows : list R) : nat := List.length (List.filter p rows).

Definition row_id (r : operation_row) : string := operation_id (envelope r).
Definition row_kind (r : operation_row) : string := op_kind (envelope r).

(** ** Delivery *)

Definition envelope_text (o : Operation) : string := canonical_json (as_dict o).

(** The growth reserve that producers leave for acknowledgements and fencing. *)
Definition growth_reserve (c : Config) : Z := Z.max 32768 (max_bytes c / 20).

Definition new_row (sha256 : string -> string) (v : Env) (j : Journal) (o : Operation) (d : destination) : operation_row :=
  {| sequence := last_sequence j + 1; envelope := o; digest := sha256 (envelope_text o);
     created_at := wall v; dest := d; state := Pending; row_attempts := 0; retry_at := 0;
     row_claim_token := None; claim_until := None; acknowledged_at := None; row_error := None |}.

Definition enqueue (sha256 : string -> string) (c : Config) (v : Env) (o : Operation) (d : destination)
    (j : Journal) : result (bool * Journal) :=
  let size := byte_length (envelope_text o) in
  match List.find (fun r => bool_decide (row_id r = operation_id o)) (operations j) with
  | Some previous =>
      let? _ := guard (negb (bool_decide (digest previous = sha256 (envelope_text o)))
                       || negb (bool_decide (dest previous = d)))
                      (ValidationError "idempotency key was reused with different content") in
      Ok (false, j)
  | None =>
      let? _ := guard (Z.min (max_bytes c / 4) (1024 * 1024) <? size)
                      (JournalFull "operation exceeds payload budget; use a durable artifact") in
      let? _ := guard (max_bytes c / 2 <?
                       (page_count v - freelist_count v) * page_size v + size * 2 + growth_reserve c)
                      (JournalFull "journal growth reserve reached; pause producers") in
      let? _ := guard (free_bytes v <? minimum_free_bytes c + size * 2 + 65536)
                      (JournalFull "reserved disk space is threatened; pause producers") in
      let? _ := guard (database_full v)
                      (JournalFull "journal budget exhausted; protected records retained") in
      Ok (true, j <| operations := operations j ++ [new_row sha256 v j o d] |>
                  <| last_sequence := last_sequence j + 1 |>)
  end.

(** The kinds that outlive the offline replay horizon. *)
Definition durable_kinds : list string :=
  ["publication_discovered"; "publication_verified"; "publication_failed"; "execution_finished";
   "workspace_prepared"].

Definition stale (cutoff : instant) (r : operation_row) : bool :=
  (bool_decide (state r = Pending) || bool_decide (state r = Inflight))
  && bool_decide (dest r = Api) && (created_at r <? cutoff) && negb (mem (row_kind r) durable_kinds).

Definition to_recovery (r : operation_row) : operation_row :=
  r <| state := Recovery |> <| row_error := Some "offline replay horizon exceeded" |>
    <| row_claim_token := None |> <| claim_until := None |>.

(** [json_extract(checkpoint,'$.recovery_pending')=1]. *)
Definition recovery_pending_flag (cp : list (string * json)) : bool :=
  match json_get "recovery_pending" cp with
  | JBool b => b
  | JInt n => n =? 1
  | JFloat m => m =? 1000000
  | _ => false
  end.

Definition awaits_publication (ops : list operation_row) (o : operation_row) : bool :=
  bool_decide (row_kind o = "execution_finished") &&
  existsb (fun p => bool_decide (dest p = Api) && negb (bool_decide (state p = Acknowledged))
                    && bool_decide (row_kind p = "publication_discovered")
                    && bool_decide (execution_id (envelope p) = execution_id (envelope o))) ops.

Definition awaits_recovery (executions : gmap string execution_row) (o : operation_row) : bool :=
  bool_decide (row_kind o = "execution_finished") &&
  match executions !! execution_id (envelope o) with
  | Some e => bool_decide (e_epoch e = epoch (envelope o)) && recovery_pending_flag (checkpoint e)
  | None => false
  end.

Definition due (now : instant) (r : operation_row) : bool :=
  (bool_decide (state r = Pending) && (retry_at r <=? now))
  || (bool_decide (state r = Inflight)
      && match claim_until r with Some u => u <=? now | None => false end).

Definition deliverable (now : instant) (d : destination) (j : Journal) (r : operation_row) : bool :=
  bool_decide (dest r = d) && due now r && negb (awaits_publication (operations j) r)
  && negb (awaits_recovery (execution_state j) r).

Definition has_id (i : string) (r : operation_row) : bool := bool_decide (row_id r = i).

Definition take_claim (token : string) (until : instant) (r : operation_row) : operation_row :=
  r <| state := Inflight |> <| row_claim_token := Some token |> <| claim_until := Some until |>
    <| row_attempts := row_attempts r + 1 |>.

Definition expire_stale (c : Config) (now : instant) (j : Journal) : Journal :=
  j <| operations := update_where (stale (now - max_offline c)) to_recovery (operations j) |>.

Definition claim (c : Config) (v : Env) (now : instant) (claim_duration : Z) (d : destination)
    (j : Journal) : result (option ClaimedOperation * Journal) :=
  let j := expire_stale c now j in
  match List.find (deliverable now d j) (operations j) with
  | None => Ok (None, j)
  | Some row =>
      let j' := j <| operations := update_where (has_id (row_id row))
                       (take_claim (uuid4 v) (now + claim_duration)) (operations j) |> in
      let? o := validate_operation (envelope row) in
      Ok (Some {| claimed := o; claim_token := uuid4 v; attempts := row_attempts row + 1 |}, j')
  end.

Definition holds_claim (co : ClaimedOperation) (r : operation_row) : bool :=
  has_id (operation_id (claimed co)) r && bool_decide (row_claim_token r = Some (claim_token co)).

Definition dispose (s : delivery) (retry : instant) (error : option string) (at_ : instant)
    (r : operation_row) : operation_row :=
  r <| state := s |> <| retry_at := retry |> <| row_error := error |>
    <| acknowledged_at := if bool_decide (s = Acknowledged) then Some at_ else None |>
    <| row_claim_token := None |> <| claim_until := None |>.

Definition settle (v : Env) (co : ClaimedOperation) (s : delivery) (retry : instant)
    (error : option string) (now : option instant) (j : Journal) : result Journal :=
  let? _ := guard (bool_decide (s = Inflight)) (ValidationError "invalid delivery disposition") in
  let? _ := guard (negb (bool_decide (rowcount (holds_claim co) (operations j) = 1%nat)))
                  (FencedExecution "delivery claim was superseded") in
  Ok (j <| operations := update_where (holds_claim co)
             (dispose s retry error (default (wall v) now)) (operations j) |>).

Definition renew_delivery (v : Env) (co : ClaimedOperation) (duration : Z) (j : Journal) : bool * Journal :=
  let held r := holds_claim co r && bool_decide (state r = Inflight) in
  (bool_decide (rowcount held (operations j) = 1%nat),
   j <| operations := update_where held (fun r => r <| claim_until := Some (wall v + duration) |>)
          (operations j) |>).

Definition records (s : option delivery) (j : Journal) : list operation_row :=
  match s with
  | Some s => List.filter (fun r => bool_decide (state r = s)) (operations j)
  | None => operations j
  end.

Definition operation (i : string) (j : Journal) : option Operation :=
  envelope <$> List.find (has_id i) (operations j).

Definition retryable (i : string) (r : operation_row) : bool :=
  has_id i r
  && (bool_decide (dest r = LocalGit)
      || (bool_decide (dest r = Api) && mem (row_kind r) publication_kinds))
  && (bool_decide (state r = Blocked) || bool_decide (state r = Recovery)).

Definition requeue (error : option string) (r : operation_row) : operation_row :=
  r <| state := Pending |> <| retry_at := 0 |> <| row_error := error |>
    <| row_claim_token := None |> <| claim_until := None |>.

Definition retry_publication (i : string) (note : option string) (j : Journal) : result (operation_row * Journal) :=
  let? _ := guard (match note with
                   | Some n => negb ((1 <=? byte_length (strip n)) && (byte_length (strip n) <=? 1000))
                   | None => false
                   end) (ValidationError "retry note must contain 1..1000 characters") in
  match List.find (retryable i) (operations j) with
  | None => Err (ValidationError "only blocked publication jobs or evidence receipts can be retried")
  | Some row =>
      let error := (fun n => "retry_requested: " +:+ strip n)%string <$> note in
      Ok (row <| state := Pending |> <| retry_at := 0 |> <| row_error := error |>,
          j <| operations := update_where (has_id i) (requeue error) (operations j) |>)
  end.

Definition record_recovery_health (v : Env) (execution : string) (error : option string) (j : Journal) : Journal :=
  let fresh := match error with None => Some (wall v) | Some _ => None end in
  let kept := match recovery_health j !! execution with Some h => succeeded_at h | None => None end in
  j <| recovery_health := <[execution :=
         {| checked_at := wall v;
            succeeded_at := match fresh with Some t => Some t | None => kept end;
            h_error := error |}]> (recovery_health j) |>.

(** A terminal receipt protects the diagnostics of its execution until they are pruned. *)
Definition receipt_needed (j : Journal) (r : operation_row) : bool :=
  bool_decide (row_kind r = "execution_finished") &&
  existsb (fun kq => bool_decide (q_execution_id kq.2 = execution_id (envelope r))
                     && bool_decide (q_epoch kq.2 = epoch (envelope r))
                     && bool_decide (diagnostic_tombstones j !! kq.1 = None))
          (map_to_list (provider_requests j)).

Definition compactable (j : Journal) (before : instant) (r : operation_row) : bool :=
  bool_decide (state r = Acknowledged)
  && match acknowledged_at r with Some t => t <? before | None => false end
  && negb (receipt_needed j r).

Definition compact (before : instant) (j : Journal) : nat * Journal :=
  (rowcount (compactable j before) (operations j),
   j <| operations := List.filter (fun r => negb (compactable j before r)) (operations j) |>).

(** ** Leases and claim attempts *)

Definition grant_lease (v : Env) (execution : string) (ep : Z) (duration : Z)
    (boot : option string) (at_ : option instant) (j : Journal) : result Journal :=
  let? _ := guard ((ep <? 1) || (duration <=? 0)) (ValidationError "invalid lease") in
  let now := default (monotonic v) at_ in
  let boot := default (boot_identity v) boot in
  let old := execution_state j !! execution in
  let? _ := guard (match old with
                   | Some o => (ep <? e_epoch o)
                               || ((ep =? e_epoch o) && negb (bool_decide (e_status o = Running)))
                   | None => false
                   end) (FencedExecution "cannot renew a fenced execution") in
  let? _ := guard (match old with
                   | Some o => (ep =? e_epoch o)
                               && (negb (bool_decide (boot_id o = boot)) || (deadline o <=? now))
                   | None => false
                   end) (FencedExecution "expired local ownership requires a new execution epoch") in
  Ok (j <| execution_state := <[execution :=
             {| e_epoch := ep; boot_id := boot; deadline := now + duration; e_status := Running;
                checkpoint := match old with
                              | Some o => if e_epoch o <? ep then [] else checkpoint o
                              | None => []
                              end |}]> (execution_state j) |>).

Definition pending_attempt (r : claim_row) : bool := bool_decide (c_state r = ClaimPending).

Definition claim_attempt (c : Config) (v : Env) (host : string) (harnesses : list string) (j : Journal)
    : result (string * claim_payload * Journal) :=
  match List.find pending_attempt (claim_attempts j) with
  | Some old =>
      let? _ := guard (c_created_at old <? wall v - max_offline c)
                      (RuntimeFailure "Pending claim exceeds replay horizon") in
      Ok (c_request_id old, c_payload old, j)
  | None =>
      let body := {| host_id := host;
                     harness_ids := sort_by String.leb harnesses;
                     resolution_note := None |} in
      Ok (uuid4 v, body,
          j <| claim_attempts := claim_attempts j ++
                 [{| c_request_id := uuid4 v; c_payload := body; c_state := ClaimPending;
                     c_created_at := wall v |}] |>)
  end.

Definition pending_claim (j : Journal) : option claim_row := List.find pending_attempt (claim_attempts j).

Definition has_request (i : string) (r : claim_row) : bool := bool_decide (c_request_id r = i).

Definition abandon_claim (i : string) (note : string) (j : Journal) : result Journal :=
  let? _ := guard (blank note || (16000 <? byte_length note))
                  (ValidationError "claim reconciliation requires an operator note") in
  match List.find (fun r => has_request i r && pending_attempt r) (claim_attempts j) with
  | None => Err (ValidationError "claim is no longer pending")
  | Some row =>
      Ok (j <| claim_attempts := update_where (has_request i)
                 (fun r => r <| c_state := ClaimReconciled |>
                             <| c_payload := (c_payload row) <| resolution_note := Some note |> |>)
                 (claim_attempts j) |>)
  end.

(** [ORDER BY created_at DESC LIMIT 1000]. *)
Definition latest_attempts (rows : list claim_row) : list string :=
  map c_request_id
    (take 1000 (sort_by (fun a b => c_created_at b <=? c_created_at a) rows)).

Definition resolve_claim (v : Env) (i : string) (execution : option string) (ep : Z) (duration : Z)
    (j : Journal) : bool * Journal :=
  match List.find (has_request i) (claim_attempts j) with
  | None => (false, j)
  | Some attempt =>
      if negb (pending_attempt attempt) then (false, j)
      else
        let fresh := match execution with
                     | Some x => bool_decide (execution_state j !! x = None)
                     | None => false
                     end in
        let owned := match execution with
                     | Some x =>
                         if fresh then
                           j <| execution_state := <[x :=
                                  {| e_epoch := ep; boot_id := boot_identity v;
                                     deadline := monotonic v + Z.max 0 duration;
                                     e_status := if 0 <? duration then Running else Lost;
                                     checkpoint := [] |}]> (execution_state j) |>
                         else j
                     | None => j
                     end in
        let resolved := update_where (has_request i) (fun r => r <| c_state := ClaimResolved |>)
                          (claim_attempts owned) in
        (fresh,
         owned <| claim_attempts :=
           List.filter (fun r => negb (bool_decide (c_state r = ClaimResolved)
                                       && negb (mem (c_request_id r) (latest_attempts resolved))))
             resolved |>)
  end.

Definition lease_holds (execution : string) (ep : Z) (boot : string) (now : instant) (j : Journal) : bool :=
  match execution_state j !! execution with
  | Some e => (e_epoch e =? ep) && bool_decide (boot_id e = boot)
              && bool_decide (e_status e = Running) && (now <? deadline e)
  | None => false
  end.

Definition assert_lease (v : Env) (execution : string) (ep : Z) (boot : option string)
    (at_ : option instant) (j : Journal) : result unit :=
  guard (negb (lease_holds execution ep (default (boot_identity v) boot) (default (monotonic v) at_) j))
        (FencedExecution "execution lease is absent, expired, or superseded").

(** [UPDATE execution_state SET ... WHERE execution_id=? AND epoch=?]. *)
Definition update_execution (execution : string) (ep : Z) (f : execution_row -> execution_row)
    (j : Journal) : Journal :=
  match execution_state j !! execution with
  | Some e => if e_epoch e =? ep
              then j <| execution_state := <[execution := f e]> (execution_state j) |> else j
  | None => j
  end.

Definition owns_epoch (execution : string) (ep : Z) (j : Journal) : bool :=
  match execution_state j !! execution with Some e => e_epoch e =? ep | None => false end.

Definition save_checkpoint (execution : string) (ep : Z) (value : list (string * json)) (j : Journal)
    : result Journal :=
  let? _ := guard (65536 <? byte_length (canonical_json (JObject value)))
                  (ValidationError "checkpoint too large") in
  let? _ := guard (negb (owns_epoch execution ep j))
                  (FencedExecution "checkpoint belongs to a superseded execution") in
  Ok (update_execution execution ep (fun e => e <| checkpoint := value |>) j).

Definition fence (execution : string) (ep : Z) (status : execution_status) (j : Journal) : result Journal :=
  let? _ := guard (bool_decide (status = Running)) (ValidationError "invalid execution outcome") in
  Ok (update_execution execution ep (fun e => e <| e_status := status |>) j).

(** ** Provider requests *)

Definition begin_request (sha256 : string -> string) (v : Env) (i execution : string) (ep : Z)
    (prompt : string) (j : Journal) : result (bool * Journal) :=
  let? _ := assert_lease v execution ep None None j in
  match provider_requests j !! i with
  | Some old =>
      let? _ := guard (negb (bool_decide (input_hash old = sha256 prompt))
                       || negb (bool_decide (q_execution_id old = execution))
                       || negb (q_epoch old =? ep))
                      (ValidationError "provider request identity reused") in
      Ok (false, j)
  | None =>
      Ok (true, j <| provider_requests := <[i :=
                       {| q_execution_id := execution; q_epoch := ep; input_hash := sha256 prompt;
                          q_state := ReqUncertain; q_provider_thread_id := None; q_result := None;
                          q_created_at := wall v |}]> (provider_requests j) |>)
  end.

(** The source's [state] argument is one of the four states of [request_state]. *)
Definition finish_request (i : string) (s : request_state) (thread : option string)
    (value : json) (j : Journal) : Journal :=
  j <| provider_requests := alter (fun q => q <| q_state := s |> <| q_provider_thread_id := thread |>
                                              <| q_result := Some value |>) i (provider_requests j) |>.

Definition request (i : string) (j : Journal) : option (request_row * option instant) :=
  (fun q => (q, diagnostic_tombstones j !! i)) <$> provider_requests j !! i.

(** ** Diagnostics

    The files below [state_root/requests]: a real directory with the sizes of its regular
    files ([None] for any other entry), or an entry that is not a directory of its own. *)

Inductive entry : Type :=
| RealDirectory (files : gmap string (option Z))
| ForeignEntry.

Record Files := { root_symlink : bool; requests : gmap string entry }.

Definition directory_size (files : gmap string (option Z)) : Z :=
  map_fold (fun _ size total => total + default 0 size) 0 files.

Definition sizes (fs : Files) : gmap string Z :=
  if root_symlink fs then ∅
  else omap (fun e => match e with RealDirectory files => Some (directory_size files) | ForeignEntry => None end)
            (requests fs).

(** [_diagnostic_usage]: each request counts the larger of its files and its reservation. *)
Definition diagnostic_usage (fs : Files) (j : Journal) : Z :=
  let reserved := reserved_bytes <$> diagnostic_reservations j in
  let keys := dom (sizes fs) ∪ dom reserved in
  set_fold (fun k total => total + Z.max (default 0 (sizes fs !! k)) (default 0 (reserved !! k))) 0 keys.

Definition diagnostic_capacity (c : Config) (v : Env) (fs : Files) (required : Z) (j : Journal) : bool :=
  (diagnostic_usage fs j + required <=? diagnostic_max_bytes c)
  && (minimum_free_bytes c + required <=? free_bytes v).

Definition reserve_diagnostics (c : Config) (v : Env) (fs : Files) (i execution : string) (ep required : Z)
    (j : Journal) : result Journal :=
  match diagnostic_reservations j !! i with
  | Some _ => Ok j
  | None =>
      let? _ := guard (negb (diagnostic_capacity c v fs required j))
                      (JournalFull "protected request diagnostics exhaust their byte budget; pause admission") in
      Ok (j <| diagnostic_reservations := <[i :=
                 {| v_execution_id := execution; v_epoch := ep; reserved_bytes := required;
                    v_created_at := wall v |}]> (diagnostic_reservations j) |>)
  end.

Definition release_diagnostics (i : string) (j : Journal) : Journal :=
  j <| diagnostic_reservations := delete i (diagnostic_reservations j) |>.

(** The rows of the join of [prune_diagnostics], oldest request first. *)
Definition prune_candidates (j : Journal) : list (string * request_row * execution_row) :=
  let joined := omap (fun kq =>
        match execution_state j !! q_execution_id kq.2 with
        | Some e => if (q_epoch kq.2 =? e_epoch e)
                       && negb (bool_decide (q_state kq.2 = ReqUncertain))
                       && negb (bool_decide (e_status e = Running))
                       && bool_decide (diagnostic_tombstones j !! kq.1 = None)
                    then Some (kq.1, kq.2, e) else None
        | None => None
        end) (map_to_list (provider_requests j)) in
  sort_by (fun a b => (q_created_at a.1.2 <? q_created_at b.1.2)
                      || ((q_created_at a.1.2 =? q_created_at b.1.2) && String.leb a.1.1 b.1.1)) joined.

Definition execution_operations (j : Journal) (execution : string) (ep : Z) : list operation_row :=
  List.filter (fun r => bool_decide (execution_id (envelope r) = execution)
                        && (epoch (envelope r) =? ep)) (operations j).

Definition receipts (ops : list operation_row) : list instant :=
  omap acknowledged_at (List.filter (fun r => bool_decide (row_kind r = "execution_finished")) ops).

(** The tests of the loop body, up to the directory. *)
Definition prunable (c : Config) (now : instant) (j : Journal) (q : request_row) (e : execution_row) : bool :=
  let ops := execution_operations j (q_execution_id q) (q_epoch q) in
  let retention := if bool_decide (e_status e = Succeeded) then diagnostic_retention c
                   else failure_diagnostic_retention c in
  negb (truthy (json_get "recovery_pending" (checkpoint e)))
  && forallb (fun r => bool_decide (state r = Acknowledged)) ops
  && match receipts ops with
     | [] => false
     | t :: ts => List.fold_left Z.max ts t <=? now - retention
     end.

(** A request name that stays a child of [requests].  Request identifiers are UUIDs; of the
    other texts only [..], which the source would let through, is treated differently. *)
Definition own_directory (fs : Files) (i : string) : bool :=
  negb (has_char "/" i) && negb (mem i [""; "."; ".."])
  && match requests fs !! i with Some ForeignEntry => false | _ => true end.

Definition log_names : list string := ["stdout.jsonl"; "stderr.log"].

Definition log_bytes (files : gmap string (option Z)) : Z :=
  List.fold_right Z.add 0 (map (fun n => match files !! n with Some (Some s) => s | _ => 0 end) log_names).

Definition remove_logs (files : gmap string (option Z)) : gmap string (option Z) :=
  List.fold_right (fun n m => match m !! n with Some (Some _) => delete n m | _ => m end) files log_names.

(** [INSERT OR IGNORE]. *)
Definition insert_or_ignore (i : string) (t : instant) (m : gmap string instant) : gmap string instant :=
  match m !! i with Some _ => m | None => <[i := t]> m end.

Definition prune_one (c : Config) (now : instant) (row : string * request_row * execution_row)
    (acc : Z * Journal * Files) : Z * Journal * Files :=
  let '(i, q, e) := row in
  let '(removed, j, fs) := acc in
  if negb (prunable c now j q e) || negb (own_directory fs i) then acc
  else
    let '(amount, fs) :=
      match requests fs !! i with
      | Some (RealDirectory files) =>
          (log_bytes files,
           {| root_symlink := root_symlink fs;
              requests := <[i := RealDirectory (remove_logs files)]> (requests fs) |})
      | _ => (0, fs)
      end in
    let j := release_diagnostics i j in
    (removed + amount,
     j <| diagnostic_tombstones := insert_or_ignore i now (diagnostic_tombstones j) |>, fs).

Definition prune_diagnostics (c : Config) (now : instant) (j : Journal) (fs : Files) : Z * Journal * Files :=
  List.fold_left (fun acc row => prune_one c now row acc) (prune_candidates j) (0, j, fs).

(** ** Replay

    One turn of [WorkerTransport.replay_one]: the transaction that claims, the HTTP exchange, and the
    transaction that settles.  The exchange is the argument [post]: no answer, or a status with the
    delay its [Retry-After] header asks for; [between] is what other calls make of the journal
    meanwhile.  [wait] is the backoff of the retry library.  The result is the answer of the turn and
    the journal that it leaves, also when the settlement is refused. *)

Inductive reply : Type :=
| NoAnswer
| Answer (status : Z) (retry_after : Z).

Definition reply_error (r : reply) : string :=
  match r with NoAnswer => "transport_unavailable" | Answer s _ => ("http_" +:+ pretty s)%string end.

Definition disposition_of (max_attempts : Z) (wait : Z -> Z) (now : instant) (co : ClaimedOperation)
    (r : reply) : delivery * instant * option string :=
  let exhausted := (max_attempts <=? attempts co) && negb (mem (op_kind (claimed co)) durable_kinds) in
  let again retry_after :=
    if exhausted then (Recovery, 0, Some ("retry_budget_exhausted:" +:+ reply_error r)%string)
    else (Pending, now + Z.max retry_after (wait (Z.min (attempts co) 32)), Some (reply_error r)) in
  match r with
  | NoAnswer => again 0
  | Answer s retry_after =>
      if (200 <=? s) && (s <? 300) then (Acknowledged, 0, None)
      else if mem s [409; 410] then (Recovery, 0, Some "fenced_or_conflicting_operation")
      else if negb (mem s [408; 425; 429]) && (s <? 500) then (Blocked, 0, Some (reply_error r))
      else again retry_after
  end.

(** The second transaction. *)
Definition settle_reply (v : Env) (max_attempts : Z) (wait : Z -> Z) (now : instant) (co : ClaimedOperation) (r : reply)
    (j : Journal) : result (delivery * Journal) :=
  let '(s, retry, error) := disposition_of max_attempts wait now co r in
  let? j := settle v co s retry error (if bool_decide (s = Acknowledged) then Some now else None) j in
  Ok (s, j).

Definition replay_one (c : Config) (v v' : Env) (max_attempts : Z) (wait : Z -> Z) (now : instant)
    (post : Operation -> reply) (between : Journal -> Journal) (j : Journal) : result (option delivery) * Journal :=
  match claim c v now (seconds 60) Api j with
  | Err e => (Err e, j)
  | Ok (None, j) => (Ok None, j)
  | Ok (Some co, j) =>
      let j := between j in
      match settle_reply v' max_attempts wait now co (post (claimed co)) j with
      | Ok (s, j) => (Ok (Some s), j)
      | Err e => (Err e, j)
      end
  end.
