(* ===== verification/JournalSafety.v ===== *)
(** * Safety of the durable journal

    The operations of Journal.v as a step relation, what every step preserves, and the
    delivery, ownership and retention guarantees that follow, also when other calls come between
    the two transactions of a replay turn. *)

From S2P Require Import Prelude WorkerContracts Journal.

Section journal.
Context (sha256 : string -> string) (c : Config).

(** One call of the journal in the environment [v].  A [uuid4] that names a new claim attempt
    is not the name of an earlier one, which is what the primary key enforces. *)
Inductive step (v : Env) : Journal -> Journal -> Prop :=
| step_enqueue o d b j j' :
    validate_operation o = Ok o -> enqueue sha256 c v o d j = Ok (b, j') -> step v j j'
| step_claim now t d co j j' : claim c v now t d j = Ok (co, j') -> step v j j'
| step_settle co s retry e now j j' : settle v co s retry e now j = Ok j' -> step v j j'
| step_renew co t j : step v j (renew_delivery v co t j).2
| step_retry i note row j j' : retry_publication i note j = Ok (row, j') -> step v j j'
| step_health x e j : step v j (record_recovery_health v x e j)
| step_compact before j : step v j (compact before j).2
| step_grant x ep t at_ j j' :
    (forall m, at_ = Some m -> monotonic v <= m) ->
    grant_lease v x ep t None at_ j = Ok j' -> step v j j'
| step_attempt host hs i p j j' :
    uuid4 v ∉ map c_request_id (claim_attempts j) ->
    claim_attempt c v host hs j = Ok (i, p, j') -> step v j j'
| step_abandon i note j j' : abandon_claim i note j = Ok j' -> step v j j'
| step_resolve i x ep t j : step v j (resolve_claim v i x ep t j).2
| step_checkpoint x ep value j j' : save_checkpoint x ep value j = Ok j' -> step v j j'
| step_fence x ep s j j' : fence x ep s j = Ok j' -> step v j j'
| step_begin i x ep prompt b j j' : begin_request sha256 v i x ep prompt j = Ok (b, j') -> step v j j'
| step_finish i s t r j : step v j (finish_request i s t r j)
| step_reserve fs i x ep n j j' : reserve_diagnostics c v fs i x ep n j = Ok j' -> step v j j'
| step_release i j : step v j (release_diagnostics i j)
| step_prune now fs j : step v j (prune_diagnostics c now j fs).1.2.

(** Any number of calls, each in an environment that satisfies [P]. *)
Definition steps (P : Env -> Prop) : relation Journal :=
  rtc (fun j j' => exists v, P v /\ step v j j').

(** ** Rows of the delivery table *)

(** What no operation changes of a row. *)
Definition same (r r' : operation_row) : Prop :=
  sequence r' = sequence r /\ envelope r' = envelope r /\ digest r' = digest r
  /\ created_at r' = created_at r /\ dest r' = dest r.

(** A row holds a claim exactly while it is in flight, is acknowledged exactly when it has
    a receipt time, and carries the digest of the valid operation it envelopes. *)
Record row_wf (r : operation_row) : Prop := {
  wf_token : is_Some (row_claim_token r) <-> state r = Inflight;
  wf_until : is_Some (claim_until r) <-> state r = Inflight;
  wf_receipt : is_Some (acknowledged_at r) <-> state r = Acknowledged;
  wf_digest : digest r = sha256 (envelope_text (envelope r));
  wf_operation : validate_operation (envelope r) = Ok (envelope r);
  wf_attempts : 0 <= row_attempts r }.

Record evolves (v : Env) (r r' : operation_row) : Prop := {
  ev_same : same r r';
  ev_wf : row_wf r -> row_wf r';
  ev_token : forall t, row_claim_token r' = Some t -> row_claim_token r = Some t \/ t = uuid4 v }.

(** What a step does to the delivery table. *)
Inductive effect (v : Env) (j j' : Journal) : Prop :=
| eff_rows :
    Forall2 (evolves v) (operations j) (operations j') -> last_sequence j' = last_sequence j ->
    effect v j j'
| eff_append r :
    operations j' = operations j ++ [r] -> sequence r = last_sequence j + 1 ->
    last_sequence j' = last_sequence j + 1 -> row_id r ∉ map row_id (operations j) ->
    row_claim_token r = None -> row_wf r -> effect v j j'
| eff_drop (p : operation_row -> bool) :
    operations j' = List.filter p (operations j) -> last_sequence j' = last_sequence j ->
    (forall r, r ∈ operations j -> p r = false ->
       state r = Acknowledged /\ receipt_needed j r = false) -> effect v j j'.

Lemma same_refl r : same r r.
Proof. by repeat split. Qed.

Lemma same_trans r1 r2 r3 : same r1 r2 -> same r2 r3 -> same r1 r3.
Proof. unfold same. intuition congruence. Qed.

Lemma evolves_refl v r : evolves v r r.
Proof. split; [apply same_refl | done | by left]. Qed.

Lemma evolves_trans v r1 r2 r3 : evolves v r1 r2 -> evolves v r2 r3 -> evolves v r1 r3.
Proof.
  intros [S1 W1 T1] [S2 W2 T2]. split; [by eapply same_trans | tauto |].
  intros t [Ht| ->]%T2; [by apply T1 | by right].
Qed.

Lemma Forall2_update_where {R} (P : R -> R -> Prop) (p : R -> bool) f rows :
  (forall r, P r r) -> (forall r, r ∈ rows -> p r = true -> P r (f r)) ->
  Forall2 P rows (update_where p f rows).
Proof.
  intros Hr Hf. unfold update_where. induction rows as [|r rows IH]; cbn; constructor.
  - destruct (p r) eqn:E; [|apply Hr]. apply Hf; [by left|done].
  - apply IH. intros ??. apply Hf. by right.
Qed.

Lemma effect_update v j j' p f :
  operations j' = update_where p f (operations j) -> last_sequence j' = last_sequence j ->
  (forall r, r ∈ operations j -> p r = true -> evolves v r (f r)) -> effect v j j'.
Proof.
  intros Ho Hs Hf. apply eff_rows; [|done]. rewrite Ho.
  apply Forall2_update_where; [apply evolves_refl | done].
Qed.

Lemma effect_none v j j' :
  operations j' = operations j -> last_sequence j' = last_sequence j -> effect v j j'.
Proof.
  intros Ho Hs. apply eff_rows; [|done]. rewrite Ho. clear.
  induction (operations j); constructor; [apply evolves_refl | done].
Qed.

Lemma find_none_ids i rows :
  List.find (fun r => bool_decide (row_id r = i)) rows = None -> i ∉ map row_id rows.
Proof.
  intros Hf Hin. apply list_elem_of_In, in_map_iff in Hin as (r & Hr & Hin).
  apply (find_none _ _ Hf) in Hin. cbn in Hin. by bools.
Qed.

Ltac row_cases :=
  repeat match goal with
  | |- evolves _ _ _ => split
  | |- same _ _ => by repeat split
  | H : row_wf _ |- row_wf _ => destruct H as [Htok Hunt Hack Hdig Hop Hatt]; split
  end; cbn in *; try done.

Lemma evolves_recovery v cutoff r : stale cutoff r = true -> evolves v r (to_recovery r).
Proof.
  unfold stale. intros Hs. row_cases. intros Hw. row_cases; [split; [by intros [??]|done]..|].
  rewrite Hack. apply andb_true_iff in Hs as [Hs _]. apply andb_true_iff in Hs as [Hs _].
  apply andb_true_iff in Hs as [Hs _].
  apply orb_true_iff in Hs as [Hs|Hs]; bools; rewrite Hs; split; done.
Qed.

Lemma evolves_claim v now until r :
  due now r = true -> evolves v r (take_claim (uuid4 v) until r).
Proof.
  unfold due. intros Hd. row_cases; [intros Hw | intros t [= <-]; by right].
  row_cases; try lia.
  rewrite Hack. apply orb_true_iff in Hd as [Hd|Hd]; apply andb_true_iff in Hd as [Hd _];
    bools; rewrite Hd; split; done.
Qed.

Lemma evolves_dispose v s retry e at_ r :
  s <> Inflight -> evolves v r (dispose s retry e at_ r).
Proof.
  intros Hs. row_cases. intros Hw. row_cases; try (split; [by intros [??]|done]).
  case_bool_decide; split; try done; by intros [??].
Qed.

Lemma evolves_renew v u r :
  state r = Inflight -> evolves v r (r <| claim_until := Some u |>).
Proof. intros Hs. row_cases; [intros Hw; row_cases | intros t Ht; by left]. Qed.

Lemma evolves_requeue v e r :
  state r = Blocked \/ state r = Recovery -> evolves v r (requeue e r).
Proof.
  intros Hs. row_cases. intros Hw. row_cases; try (split; [by intros [??]|done]).
  rewrite Hack. destruct Hs as [-> | ->]; done.
Qed.

Lemma deliverable_due now d j r : deliverable now d j r = true -> due now r = true.
Proof. unfold deliverable. intros H. by bools. Qed.

Definition ids_unique (j : Journal) : Prop := NoDup (map row_id (operations j)).

Lemma NoDup_map_inj {A B} (g : A -> B) l a b :
  NoDup (map g l) -> a ∈ l -> b ∈ l -> g a = g b -> a = b.
Proof.
  induction l as [|x l IH]; cbn; [by intros _ ?%elem_of_nil|].
  intros [Hx Hl]%NoDup_cons Ha Hb Hg.
  apply elem_of_cons in Ha as [->|Ha]; apply elem_of_cons in Hb as [->|Hb]; [done| | |by apply IH].
  - exfalso. apply Hx. rewrite Hg. by apply list_elem_of_fmap_2.
  - exfalso. apply Hx. rewrite <- Hg. by apply list_elem_of_fmap_2.
Qed.

Lemma Forall2_map_eq {A B} (P : A -> A -> Prop) (g : A -> B) l l' :
  (forall a b, P a b -> g b = g a) -> Forall2 P l l' -> map g l' = map g l.
Proof. intros Hg. induction 1; cbn; f_equal; auto. Qed.

Lemma Forall2_compose {A} (P : A -> A -> Prop) l1 l2 l3 :
  (forall a b d, P a b -> P b d -> P a d) -> Forall2 P l1 l2 -> Forall2 P l2 l3 -> Forall2 P l1 l3.
Proof.
  intros Ht H. revert l3. induction H; intros l3 H3; inversion H3; subst; constructor; eauto.
Qed.

Lemma evolves_id v r r' : evolves v r r' -> row_id r' = row_id r.
Proof. intros [(_ & He & _) _ _]. unfold row_id. by rewrite He. Qed.

Lemma expire_stale_rows v now j :
  Forall2 (evolves v) (operations j) (operations (expire_stale c now j)).
Proof.
  apply Forall2_update_where; [apply evolves_refl|]. intros r _. apply evolves_recovery.
Qed.

Lemma expire_stale_unique (v : Env) now j : ids_unique j -> ids_unique (expire_stale c now j).
Proof.
  unfold ids_unique. intros H. erewrite Forall2_map_eq; [exact H| |apply (expire_stale_rows v)].
  apply evolves_id.
Qed.

Lemma has_id_unique j r r' :
  ids_unique j -> r ∈ operations j -> r' ∈ operations j -> has_id (row_id r) r' = true -> r' = r.
Proof. unfold has_id. intros Hu Hr Hr' H. bools. by eapply NoDup_map_inj. Qed.

Lemma claim_effect v now t d co j j' :
  ids_unique j -> claim c v now t d j = Ok (co, j') -> effect v j j'.
Proof.
  unfold claim. set (j1 := expire_stale c now j). intros Hu H.
  assert (ids_unique j1) as Hu1 by by apply expire_stale_unique.
  destruct (List.find _ _) as [row|] eqn:E.
  - invert_ok. injection H as _ <-. apply eff_rows; [cbn|done].
    apply find_some in E as [Hin Hd]. apply list_elem_of_In in Hin.
    eapply Forall2_compose; [apply evolves_trans | apply (expire_stale_rows v now) |].
    apply Forall2_update_where; [apply evolves_refl|]. intros r Hr Hi.
    rewrite (has_id_unique j1 row r Hu1 Hin Hr Hi).
    by eapply evolves_claim, deliverable_due.
  - injection H as _ <-. apply eff_rows; [apply expire_stale_rows|done].
Qed.

Lemma enqueue_effect v o d b j j' :
  validate_operation o = Ok o -> enqueue sha256 c v o d j = Ok (b, j') -> effect v j j'.
Proof.
  unfold enqueue. intros Hv H. destruct (List.find _ _) as [r|] eqn:E.
  - invert_ok. injection H as _ <-. by apply effect_none.
  - invert_ok. injection H as _ <-. eapply eff_append; [done..| |done|].
    + by apply find_none_ids.
    + split; cbn; try done; split; try done; by intros [??].
Qed.

(** A step whose operation leaves the delivery table alone. *)
Lemma prune_operations now rows acc :
  let acc' := List.fold_left (fun a row => prune_one c now row a) rows acc in
  operations acc'.1.2 = operations acc.1.2 /\ last_sequence acc'.1.2 = last_sequence acc.1.2
  /\ execution_state acc'.1.2 = execution_state acc.1.2
  /\ provider_requests acc'.1.2 = provider_requests acc.1.2
  /\ claim_attempts acc'.1.2 = claim_attempts acc.1.2.
Proof.
  revert acc. induction rows as [|[[i q] e] rows IH]; intros [[n j] fs]; [done|].
  cbn [List.fold_left]. destruct (IH (prune_one c now (i, q, e) (n, j, fs))) as (-> & -> & -> & -> & ->).
  cbn. destruct (negb _ || negb _); [done|].
  by destruct (requests fs !! i) as [[]|].
Qed.

Lemma step_effect v j j' : ids_unique j -> step v j j' -> effect v j j'.
Proof.
  intros Hu Hs. destruct Hs.
  - by eapply enqueue_effect.
  - by eapply claim_effect.
  - unfold settle in H. invert_ok. subst j'. eapply effect_update; [done..|].
    intros r _ _. apply evolves_dispose. by bools.
  - eapply effect_update; [done..|]. intros r _ Hr. cbn in Hr. bools. by apply evolves_renew.
  - unfold retry_publication in H. invert_ok. destruct (List.find _ _) as [r0|] eqn:E; [|done].
    injection H as _ <-. apply find_some in E as [Hin Hr]. apply list_elem_of_In in Hin.
    unfold retryable in Hr. bools.
    eapply effect_update; [done..|]. intros r Hr' Hi. apply evolves_requeue.
    assert (r = r0) as -> by (eapply has_id_unique; [done..|]; unfold has_id in *; bools; apply bool_decide_eq_true; congruence).
    apply orb_true_iff in Hr as [Hr|Hr]; bools; auto.
  - by apply effect_none.
  - eapply eff_drop; [done..|]. intros r _ Hr. unfold compactable in Hr. by bools.
  - unfold grant_lease in H0. invert_ok. subst j'. by apply effect_none.
  - unfold claim_attempt in H0. destruct (List.find _ _); invert_ok; injection H0 as _ _ <-; by apply effect_none.
  - unfold abandon_claim in H. invert_ok. destruct (List.find _ _); [|done]. invert_ok. subst j'. by apply effect_none.
  - unfold resolve_claim. destruct (List.find _ _) as [a|]; [|by apply effect_none].
    destruct (negb _); [by apply effect_none|]. destruct x; [case_match|]; by apply effect_none.
  - unfold save_checkpoint, update_execution in H. invert_ok. subst j'.
    apply effect_none; repeat case_match; done.
  - unfold fence, update_execution in H. invert_ok. subst j'.
    apply effect_none; repeat case_match; done.
  - unfold begin_request in H. invert_ok. destruct (_ !! i); invert_ok; injection H as _ <-; by apply effect_none.
  - by apply effect_none.
  - unfold reserve_diagnostics in H. destruct (_ !! i); invert_ok; subst; by apply effect_none.
  - by apply effect_none.
  - destruct (prune_operations now (prune_candidates j) (0, j, fs)) as (Ho & Hl & _).
    by apply effect_none.
Qed.

(** ** The invariant *)

Record wf (j : Journal) : Prop := {
  wf_ids : ids_unique j;
  wf_rows : Forall row_wf (operations j);
  wf_order : StronglySorted Z.lt (map sequence (operations j));
  wf_last : Forall (fun n => n <= last_sequence j) (map sequence (operations j));
  wf_claims : NoDup (map c_request_id (claim_attempts j));
  wf_one_pending : (rowcount pending_attempt (claim_attempts j) <= 1)%nat;
  wf_requests : forall i q, provider_requests j !! i = Some q ->
    exists e, execution_state j !! q_execution_id q = Some e /\ q_epoch q <= e_epoch e }.

Lemma Forall_filter_map {A B} (P : B -> Prop) (g : A -> B) (p : A -> bool) l :
  Forall P (map g l) -> Forall P (map g (List.filter p l)).
Proof.
  induction l as [|a l IH]; cbn; [done|]. intros [??]%Forall_cons.
  destruct (p a); cbn; [constructor|]; auto.
Qed.

Lemma StronglySorted_filter_map {A} (R : relation Z) (g : A -> Z) (p : A -> bool) l :
  StronglySorted R (map g l) -> StronglySorted R (map g (List.filter p l)).
Proof.
  induction l as [|a l IH]; cbn; [done|]. intros H. inversion H as [|?? Hs Hf]; subst.
  destruct (p a); cbn; [|by apply IH]. constructor; [by apply IH|].
  by apply Forall_filter_map.
Qed.

Lemma StronglySorted_snoc (l : list Z) n :
  StronglySorted Z.lt l -> Forall (fun x => x <= n) l -> StronglySorted Z.lt (l ++ [n + 1]).
Proof.
  induction l as [|a l IH]; cbn; [by repeat constructor|].
  intros H Hf. inversion H as [|?? Hs Ha]; inversion Hf as [|?? Hn Hl]; subst.
  constructor; [by apply IH|]. apply Forall_app. split; [done|]. constructor; [lia|done].
Qed.

(** The delivery table's part of the invariant. *)
Definition table_wf (j : Journal) : Prop :=
  ids_unique j /\ Forall row_wf (operations j) /\ StronglySorted Z.lt (map sequence (operations j))
  /\ Forall (fun n => n <= last_sequence j) (map sequence (operations j)).

Lemma effect_table_wf v j j' : table_wf j -> effect v j j' -> table_wf j'.
Proof.
  intros (Hi & Hr & Ho & Hl) He. unfold table_wf, ids_unique in *.
  destruct He as [Hf ->|r Hops Hs -> Hid _ Hw|p Hops -> _].
  - assert (map row_id (operations j') = map row_id (operations j)) as ->
      by (eapply Forall2_map_eq; [apply evolves_id | done]).
    assert (map sequence (operations j') = map sequence (operations j)) as ->
      by (eapply Forall2_map_eq; [|done]; by intros a b [(? & _) _ _]).
    repeat split; try done. clear -Hf Hr.
    induction Hf as [|???? [_ Hw _]]; [done|]. apply Forall_cons in Hr as [??]. constructor; auto.
  - rewrite Hops, !map_app. cbn. repeat split.
    + apply NoDup_app. repeat split; [done| |apply NoDup_singleton].
      by intros x Hx ->%list_elem_of_singleton.
    + apply Forall_app. split; [done|]. by constructor.
    + rewrite Hs. by apply StronglySorted_snoc.
    + apply Forall_app. split; [eapply Forall_impl; [exact Hl|]; cbn; lia|]. constructor; [lia|done].
  - rewrite Hops. repeat split.
    + eapply sublist_NoDup; [exact Hi|]. apply fmap_sublist, filter_sublist.
    + rewrite <- (map_id (operations j)) in Hr. apply (Forall_filter_map _ _ p) in Hr.
      by rewrite map_id in Hr.
    + by apply StronglySorted_filter_map.
    + by apply Forall_filter_map.
Qed.

(** ** Ownership *)

(** How the ownership record of one execution may change in one step: a higher epoch takes
    it over, or the epoch and the boot stay, a status that has left [running] does not
    return to it, and the deadline moves only while the lease is live. *)
Definition succeeds (v : Env) (e e' : execution_row) : Prop :=
  e_epoch e < e_epoch e' \/
  (e_epoch e' = e_epoch e /\ boot_id e' = boot_id e
   /\ (e_status e <> Running -> e_status e' <> Running)
   /\ (deadline e' = deadline e
       \/ (boot_id e = boot_identity v /\ monotonic v < deadline e))).

Lemma succeeds_refl v e : succeeds v e e.
Proof. right. auto. Qed.

Lemma grant_executions v x ep t at_ j j' y e :
  (forall m, at_ = Some m -> monotonic v <= m) ->
  grant_lease v x ep t None at_ j = Ok j' -> execution_state j !! y = Some e ->
  exists e', execution_state j' !! y = Some e' /\ succeeds v e e'.
Proof.
  intros Hat H He. unfold grant_lease in H. invert_ok. subst j'. cbn.
  destruct (decide (x = y)) as [->|Hne];
    [|rewrite lookup_insert_ne by done; eauto using succeeds_refl].
  rewrite lookup_insert_eq. eexists. split; [done|]. rewrite He in *.
  apply orb_false_iff in H1 as [Hlt Hf]. bools. unfold succeeds. cbn.
  destruct (decide (ep = e_epoch e)) as [->|]; [|left; lia]. right.
  rewrite Z.eqb_refl in *. cbn in *. bools. repeat split; [done|done|].
  right. split; [done|]. destruct at_ as [m|]; cbn in *; [specialize (Hat m eq_refl)|]; lia.
Qed.

Lemma update_executions v x ep f j y e :
  (forall e, succeeds v e (f e)) -> execution_state j !! y = Some e ->
  exists e', execution_state (update_execution x ep f j) !! y = Some e' /\ succeeds v e e'.
Proof.
  intros Hf He. unfold update_execution.
  destruct (execution_state j !! x) as [e0|] eqn:E; [|eauto using succeeds_refl].
  destruct (e_epoch e0 =? ep); [cbn|eauto using succeeds_refl].
  destruct (decide (x = y)) as [->|Hne].
  - rewrite lookup_insert_eq. simplify_eq. eauto.
  - rewrite lookup_insert_ne by done. eauto using succeeds_refl.
Qed.

Lemma resolve_executions v i x ep t j y e :
  execution_state j !! y = Some e -> execution_state (resolve_claim v i x ep t j).2 !! y = Some e.
Proof.
  intros He. unfold resolve_claim. destruct (List.find _ _); [|done].
  destruct (negb _); [done|]. destruct x as [x|]; cbn; [|done]. case_bool_decide; [|done].
  cbn. rewrite lookup_insert_ne by congruence. done.
Qed.

(** The steps by the tables other than the delivery table that they write. *)
Inductive ownership (v : Env) (j : Journal) : Journal -> Prop :=
| own_frame j' :
    execution_state j' = execution_state j -> provider_requests j' = provider_requests j ->
    claim_attempts j' = claim_attempts j -> ownership v j j'
| own_grant x ep t at_ j' :
    (forall m, at_ = Some m -> monotonic v <= m) ->
    grant_lease v x ep t None at_ j = Ok j' -> ownership v j j'
| own_attempt host hs i p j' :
    uuid4 v ∉ map c_request_id (claim_attempts j) ->
    claim_attempt c v host hs j = Ok (i, p, j') -> ownership v j j'
| own_abandon i note j' : abandon_claim i note j = Ok j' -> ownership v j j'
| own_resolve i x ep t : ownership v j (resolve_claim v i x ep t j).2
| own_update x ep f :
    (forall e, succeeds v e (f e)) -> ownership v j (update_execution x ep f j)
| own_begin i x ep prompt b j' : begin_request sha256 v i x ep prompt j = Ok (b, j') -> ownership v j j'
| own_finish i s t r : ownership v j (finish_request i s t r j).

Lemma step_ownership v j j' : step v j j' -> ownership v j j'.
Proof.
  destruct 1; try (by apply own_frame); try (by econstructor).
  - unfold enqueue in H0. destruct (List.find _ _); invert_ok; injection H0 as _ <-; by apply own_frame.
  - unfold claim in H. destruct (List.find _ _); invert_ok; injection H as _ <-; by apply own_frame.
  - unfold settle in H. invert_ok. subst. by apply own_frame.
  - unfold retry_publication in H. invert_ok. destruct (List.find _ _); invert_ok.
    injection H as _ <-. by apply own_frame.
  - unfold save_checkpoint in H. invert_ok. subst. apply own_update. intros ?. right. auto.
  - unfold fence in H. invert_ok. subst. bools. apply own_update. intros ?. right. auto.
  - unfold reserve_diagnostics in H. destruct (_ !! i); invert_ok; subst; by apply own_frame.
  - apply own_frame; apply (prune_operations now (prune_candidates j) (0, j, fs)).
Qed.

Lemma step_executions v j j' x e :
  step v j j' -> execution_state j !! x = Some e ->
  exists e', execution_state j' !! x = Some e' /\ succeeds v e e'.
Proof.
  intros Hs%step_ownership He. destruct Hs as [? Hx _ _| | | | | | |].
  - rewrite Hx. eauto using succeeds_refl.
  - by eapply grant_executions.
  - unfold claim_attempt in H0. destruct (List.find _ _); invert_ok; injection H0 as _ _ <-;
      eauto using succeeds_refl.
  - unfold abandon_claim in H. invert_ok. destruct (List.find _ _); invert_ok. subst.
    eauto using succeeds_refl.
  - exists e. split; [by apply resolve_executions | apply succeeds_refl].
  - by apply update_executions.
  - unfold begin_request in H. invert_ok. destruct (provider_requests j !! i); invert_ok;
      injection H as _ <-; eauto using succeeds_refl.
  - eauto using succeeds_refl.
Qed.

(** ** Provider requests and claim attempts *)

(** A journalled request keeps the execution, epoch and input it was begun with. *)
Definition same_request (q q' : request_row) : Prop :=
  q_execution_id q' = q_execution_id q /\ q_epoch q' = q_epoch q /\ input_hash q' = input_hash q.

Lemma step_requests v j j' i q :
  step v j j' -> provider_requests j !! i = Some q ->
  exists q', provider_requests j' !! i = Some q' /\ same_request q q'.
Proof.
  intros Hs%step_ownership Hq. destruct Hs as [? _ Hx _| | | | | | |].
  - rewrite Hx. by exists q.
  - unfold grant_lease in H0. invert_ok. subst. by exists q.
  - unfold claim_attempt in H0. destruct (List.find _ _); invert_ok; injection H0 as _ _ <-; by exists q.
  - unfold abandon_claim in H. invert_ok. destruct (List.find _ _); invert_ok. subst. by exists q.
  - exists q. split; [|done]. unfold resolve_claim. repeat case_match; done.
  - exists q. split; [|done]. unfold update_execution. repeat case_match; done.
  - unfold begin_request in H. invert_ok. destruct (provider_requests j !! i0) eqn:E; invert_ok;
      injection H as _ <-; [by exists q|]. exists q. cbn. rewrite lookup_insert_ne by congruence. done.
  - cbn. destruct (decide (i0 = i)) as [->|].
    + rewrite lookup_alter_eq, Hq. by eexists.
    + rewrite lookup_alter_ne by done. by exists q.
Qed.

(** Where the requests of a step come from: an earlier request, or a live lease. *)
Lemma step_requests_back v j j' i q' :
  step v j j' -> provider_requests j' !! i = Some q' ->
  (exists q, provider_requests j !! i = Some q /\ same_request q q') \/
  (exists e, execution_state j !! q_execution_id q' = Some e /\ e_epoch e = q_epoch q').
Proof.
  intros Hs%step_ownership Hq. destruct Hs as [? _ Hx _| | | | | | |].
  - rewrite Hx in Hq. left. by exists q'.
  - left. exists q'. unfold grant_lease in H0. invert_ok. by subst.
  - left. exists q'. unfold claim_attempt in H0. destruct (List.find _ _); invert_ok; by injection H0 as _ _ <-.
  - left. exists q'. unfold abandon_claim in H. invert_ok. destruct (List.find _ _); invert_ok. by subst.
  - left. exists q'. split; [|done]. revert Hq. unfold resolve_claim. repeat case_match; done.
  - left. exists q'. split; [|done]. revert Hq. unfold update_execution. repeat case_match; done.
  - unfold begin_request, assert_lease, lease_holds in H. invert_ok.
    destruct (provider_requests j !! i0) eqn:E; invert_ok; injection H as _ <-; [left; by exists q'|].
    cbn in Hq. destruct (decide (i0 = i)) as [->|];
      [|rewrite lookup_insert_ne in Hq by done; left; by exists q'].
    rewrite lookup_insert_eq in Hq. injection Hq as <-. right. cbn.
    destruct (execution_state j !! x) as [e|]; bools; [|done]. by exists e.
  - cbn in Hq. destruct (decide (i0 = i)) as [->|].
    + rewrite lookup_alter_eq in Hq. destruct (provider_requests j !! i) as [q|] eqn:E; [|done].
      injection Hq as <-. left. by exists q.
    + rewrite lookup_alter_ne in Hq by done. left. by exists q'.
Qed.

Definition attempts_wf (rows : list claim_row) : Prop :=
  NoDup (map c_request_id rows) /\ (rowcount pending_attempt rows <= 1)%nat.

Lemma rowcount_update_where {R} (p q : R -> bool) f rows :
  (forall r, p (f r) = false) -> (rowcount p (update_where q f rows) <= rowcount p rows)%nat.
Proof.
  intros Hf. unfold rowcount, update_where. induction rows as [|r rows IH]; cbn; [done|].
  destruct (q r); [rewrite Hf|]; destruct (p r); cbn; lia.
Qed.

Lemma rowcount_filter {R} (p q : R -> bool) rows :
  (rowcount p (List.filter q rows) <= rowcount p rows)%nat.
Proof.
  unfold rowcount. induction rows as [|r rows IH]; cbn; [done|].
  destruct (q r); cbn; destruct (p r); cbn; lia.
Qed.

Lemma map_update_where {R B} (g : R -> B) (p : R -> bool) f rows :
  (forall r, g (f r) = g r) -> map g (update_where p f rows) = map g rows.
Proof.
  intros Hg. unfold update_where. rewrite map_map. apply map_ext. intros r. by destruct (p r).
Qed.

Lemma attempts_wf_update p f rows :
  (forall r, c_request_id (f r) = c_request_id r) -> (forall r, c_state (f r) <> ClaimPending) ->
  attempts_wf rows -> attempts_wf (update_where p f rows).
Proof.
  intros Hi Hs [Hn Hp]. split; [by rewrite map_update_where|].
  etrans; [|exact Hp]. apply rowcount_update_where. intros r. by apply bool_decide_eq_false.
Qed.

Lemma attempts_wf_filter p rows : attempts_wf rows -> attempts_wf (List.filter p rows).
Proof.
  intros [Hn Hp]. split.
  - eapply sublist_NoDup; [exact Hn|]. apply fmap_sublist, filter_sublist.
  - etrans; [apply rowcount_filter | exact Hp].
Qed.

Lemma find_none_rowcount {R} (p : R -> bool) rows : List.find p rows = None -> rowcount p rows = 0%nat.
Proof.
  unfold rowcount. induction rows as [|r rows IH]; cbn; [done|]. by destruct (p r).
Qed.

Lemma step_attempts v j j' :
  step v j j' -> attempts_wf (claim_attempts j) -> attempts_wf (claim_attempts j').
Proof.
  intros Hs%step_ownership Hw. destruct Hs as [? _ _ Hx| | | | | | |].
  - by rewrite Hx.
  - unfold grant_lease in H0. invert_ok. by subst.
  - unfold claim_attempt in H0. destruct (List.find _ _) eqn:E; invert_ok; injection H0 as _ _ <-; [done|].
    destruct Hw as [Hn _]. cbn. split.
    + rewrite map_app. apply NoDup_app. repeat split; [done| |apply NoDup_singleton].
      by intros y Hy ->%list_elem_of_singleton.
    + apply find_none_rowcount in E. unfold rowcount in *. rewrite List.filter_app, length_app, E.
      cbn [List.filter]. destruct (pending_attempt _); cbn; lia.
  - unfold abandon_claim in H. invert_ok. destruct (List.find _ _); invert_ok. subst. by apply attempts_wf_update.
  - unfold resolve_claim. destruct (List.find _ _); [|done]. destruct (negb _); [done|].
    cbn. apply attempts_wf_filter, attempts_wf_update; [done..|]. by destruct x; [case_match|].
  - unfold update_execution. repeat case_match; done.
  - unfold begin_request in H. invert_ok. destruct (_ !! i); invert_ok; by injection H as _ <-.
  - done.
Qed.

Lemma wf_empty : wf empty_journal.
Proof. split; try done; try (apply NoDup_nil_2); try (apply SSorted_nil). cbn. lia. Qed.

Lemma wf_table j : wf j -> table_wf j.
Proof. by intros []. Qed.

Lemma step_wf v j j' : step v j j' -> wf j -> wf j'.
Proof.
  intros Hs Hw. pose proof (wf_table j Hw) as Ht. destruct Hw as [Hi _ _ _ Hc Hp Hq].
  destruct (effect_table_wf v j j' Ht (step_effect v j j' Hi Hs)) as (? & ? & ? & ?).
  destruct (step_attempts v j j' Hs (conj Hc Hp)) as [??].
  split; try done. intros i q' Hq'.
  destruct (step_requests_back v j j' i q' Hs Hq') as [(q & E & Hx & Hep & _)|(e & He & Hep)].
  - destruct (Hq i q E) as (e & He & Hle).
    destruct (step_executions v j j' _ e Hs He) as (e' & He' & Hsc).
    exists e'. rewrite Hx, Hep. split; [done|]. destruct Hsc as [?|[? _]]; lia.
  - destruct (step_executions v j j' _ e Hs He) as (e' & He' & Hsc).
    exists e'. split; [done|]. destruct Hsc as [?|[? _]]; lia.
Qed.

Lemma steps_wf P j j' : steps P j j' -> wf j -> wf j'.
Proof. induction 1 as [|j j1 j' (v & _ & Hs) _ IH]; [done|]. intros Hw. by eapply IH, step_wf. Qed.

(** ** Persistence of undelivered operations *)

Lemma step_row v j j' r :
  ids_unique j -> step v j j' -> r ∈ operations j ->
  state r = Acknowledged \/ exists r', r' ∈ operations j' /\ evolves v r r'.
Proof.
  intros Hu Hs Hr. destruct (step_effect v j j' Hu Hs) as [Hf _|r0 Ho _ _ _ _ _|p Ho _ Hp].
  - right. apply list_elem_of_lookup in Hr as [n Hn].
    destruct (Forall2_lookup_l _ _ _ _ _ Hf Hn) as (r' & Hn' & He).
    exists r'. split; [by eapply list_elem_of_lookup_2|done].
  - right. exists r. rewrite Ho. split; [apply elem_of_app; by left | apply evolves_refl].
  - destruct (p r) eqn:E; [right|left; by apply (Hp r)]. exists r. split; [|apply evolves_refl].
    rewrite Ho. apply list_elem_of_In, filter_In. split; [by apply list_elem_of_In | done].
Qed.

Lemma steps_row P j j' r :
  wf j -> steps P j j' -> r ∈ operations j ->
  (exists r', r' ∈ operations j' /\ same r r') \/
  (exists j1 r', steps P j j1 /\ steps P j1 j' /\ r' ∈ operations j1 /\ same r r' /\ state r' = Acknowledged).
Proof.
  intros Hw Hs. revert r. induction Hs as [j|j j1 j' Hst Hs IH]; intros r Hr.
  - left. exists r. split; [done|apply same_refl].
  - destruct Hst as (v & Hv & Hst).
    destruct (step_row v j j1 r (wf_ids _ Hw) Hst Hr) as [Ha|(r1 & Hr1 & [He _ _])].
    { right. exists j, r. split; [apply rtc_refl|].
      split; [eapply rtc_l; [by exists v|done]|]. split; [done|]. split; [apply same_refl|done]. }
    destruct (IH (step_wf v j j1 Hst Hw) r1 Hr1) as [(r' & ? & ?)|(j2 & r' & H1 & H2 & ? & ? & ?)].
    + left. exists r'. split; [done|by eapply same_trans].
    + right. exists j2, r'. split; [eapply rtc_l; [by exists v|done]|].
      repeat (split; [done|]). split; [by eapply same_trans|done].
Qed.

(** ** Claims *)

Definition spent (co : ClaimedOperation) (j : Journal) : Prop :=
  Forall (fun r => holds_claim co r = false) (operations j).

Lemma holds_claim_true co r :
  holds_claim co r = true <->
  row_id r = operation_id (claimed co) /\ row_claim_token r = Some (claim_token co).
Proof. unfold holds_claim, has_id. by rewrite andb_true_iff, !bool_decide_eq_true. Qed.

Lemma evolves_spent v co r r' :
  evolves v r r' -> uuid4 v <> claim_token co -> holds_claim co r = false -> holds_claim co r' = false.
Proof.
  intros He Hv Hh. apply not_true_iff_false. apply not_true_iff_false in Hh. intros H. apply Hh.
  apply holds_claim_true in H as [Hi Ht]. apply holds_claim_true.
  rewrite (evolves_id _ _ _ He) in Hi. split; [done|].
  destruct He as [_ _ Hev]. by destruct (Hev _ Ht).
Qed.

Lemma step_spent v co j j' :
  ids_unique j -> step v j j' -> uuid4 v <> claim_token co -> spent co j -> spent co j'.
Proof.
  intros Hu Hs Hv Hd. unfold spent in *.
  destruct (step_effect v j j' Hu Hs) as [Hf _|r0 Ho _ _ _ Ht _|p Ho _ _].
  - clear -Hf Hd Hv. induction Hf as [|r r' l l' He Hf IH]; [done|].
    apply Forall_cons in Hd as [??]. constructor; [by eapply evolves_spent|auto].
  - rewrite Ho. apply Forall_app. split; [done|]. constructor; [|done].
    apply not_true_iff_false. rewrite holds_claim_true, Ht. by intros [_ ?].
  - rewrite Ho. rewrite <- (map_id (operations j)) in Hd. apply (Forall_filter_map _ _ p) in Hd.
    by rewrite map_id in Hd.
Qed.

Lemma steps_spent co j j' :
  wf j -> steps (fun v => uuid4 v <> claim_token co) j j' -> spent co j -> spent co j'.
Proof.
  intros Hw Hs. induction Hs as [|j j1 j' (v & Hv & Hst) Hs IH]; [done|].
  intros Hd. apply IH; [by eapply step_wf|]. eapply step_spent; [apply Hw|done..].
Qed.

Lemma settle_spent v co s retry e now j :
  s <> Inflight -> spent co j ->
  settle v co s retry e now j = Err (FencedExecution "delivery claim was superseded").
Proof.
  intros Hs Hd. unfold settle. rewrite bool_decide_eq_false_2 by done. cbn.
  assert (rowcount (holds_claim co) (operations j) = 0%nat) as ->; [|done].
  unfold rowcount, spent in *. clear -Hd. induction Hd as [|r l Hr _ IH]; cbn; [done|]. by rewrite Hr.
Qed.

Lemma settle_spends v co s retry e now j j' :
  settle v co s retry e now j = Ok j' -> spent co j'.
Proof.
  unfold settle. intros H. invert_ok. subst j'. unfold spent. cbn. unfold update_where.
  rewrite Forall_fmap. apply Forall_true. intros r. cbn.
  destruct (holds_claim co r) eqn:E; [|done].
  apply not_true_iff_false. rewrite holds_claim_true. cbn. by intros [_ ?].
Qed.

Lemma claim_spends v now t d co' j j' co :
  claim c v now t d j = Ok (Some co', j') ->
  operation_id (claimed co') = operation_id (claimed co) -> claim_token co' <> claim_token co -> spent co j'.
Proof.
  unfold claim. intros H Hi Ht. destruct (List.find _ _) as [row|] eqn:E; [|by invert_ok].
  invert_ok. injection H as <- <-. cbn in *.
  assert (x = envelope row) as -> by (unfold validate_operation in H0; by invert_ok).
  unfold spent. cbn. unfold update_where. rewrite Forall_fmap. apply Forall_true. intros r. cbn.
  destruct (has_id (row_id row) r) eqn:Eh; apply not_true_iff_false; rewrite holds_claim_true; cbn.
  - by intros [_ [= ?]].
  - intros [Hr _]. unfold has_id in Eh. bools. apply Eh. unfold row_id at 2. congruence.
Qed.

(** ** Leases *)

(** No call in boot [boot] at monotonic time [t] or later can hold epoch [ep]. *)
Definition lease_dead (x : string) (ep : Z) (boot : string) (t : instant) (j : Journal) : Prop :=
  exists e, execution_state j !! x = Some e /\
    (ep < e_epoch e \/
     (e_epoch e = ep /\ (e_status e <> Running \/ boot_id e <> boot \/ deadline e <= t))).

Lemma step_lease_dead v j j' x ep boot t :
  step v j j' -> boot_identity v = boot -> t <= monotonic v ->
  lease_dead x ep boot t j -> lease_dead x ep boot t j'.
Proof.
  intros Hs Hb Ht (e & He & Hd). destruct (step_executions v j j' x e Hs He) as (e' & He' & Hsc).
  exists e'. split; [done|]. destruct Hsc as [Hlt|(Hep & Hbt & Hst & Hdl)]; [left; lia|].
  destruct Hd as [Hlt|[Heq Hd]]; [left; lia|]. right. split; [lia|].
  destruct Hd as [Hr|[Hne|Hle]]; [by left; apply Hst | by right; left; rewrite Hbt | right].
  destruct Hdl as [->|[Heb Hlt]]; [by right | lia].
Qed.

Lemma lease_dead_not_held x ep boot t now j :
  lease_dead x ep boot t j -> t <= now -> lease_holds x ep boot now j = false.
Proof.
  intros (e & He & Hd) Hn. unfold lease_holds. rewrite He. apply not_true_iff_false. intros H. bools.
  destruct Hd as [?|[_ [?|[?|?]]]]; [lia|done|done|lia].
Qed.

Lemma not_held_lease_dead x ep boot now j :
  is_Some (execution_state j !! x) -> lease_holds x ep boot now j = false ->
  (forall e, execution_state j !! x = Some e -> ep <= e_epoch e) -> lease_dead x ep boot now j.
Proof.
  intros [e He] Hl Hep. exists e. split; [done|]. specialize (Hep e He).
  unfold lease_holds in Hl. rewrite He in Hl.
  destruct (decide (e_epoch e = ep)) as [Heq|]; [right|left; lia]. split; [done|].
  rewrite Heq, Z.eqb_refl in Hl. cbn in Hl.
  apply andb_false_iff in Hl as [Hl|Hl]; [apply andb_false_iff in Hl as [Hl|Hl]|]; bools; auto.
Qed.

(** ** Retention of diagnostics *)

(** What one turn of the pruning loop requires of a request before it drops its logs. *)
Definition log_spent (now : instant) (j : Journal) (i : string) : Prop :=
  exists q e, provider_requests j !! i = Some q /\ execution_state j !! q_execution_id q = Some e
    /\ e_epoch e = q_epoch q /\ e_status e <> Running /\ q_state q <> ReqUncertain
    /\ (forall r, r ∈ execution_operations j (q_execution_id q) (q_epoch q) -> state r = Acknowledged)
    /\ exists r t, r ∈ execution_operations j (q_execution_id q) (q_epoch q)
         /\ row_kind r = "execution_finished" /\ acknowledged_at r = Some t
         /\ t <= now - (if bool_decide (e_status e = Succeeded) then diagnostic_retention c
                        else failure_diagnostic_retention c).

(** A request whose logs the pruning may have touched. *)
Definition touched (now : instant) (j : Journal) (i : string) (before after : option entry) : Prop :=
  after = before \/
  (log_spent now j i /\ exists files,
     before = Some (RealDirectory files) /\ after = Some (RealDirectory (remove_logs files))).

Lemma fold_max_ge l a : a <= List.fold_left Z.max l a.
Proof.
  revert a. induction l as [|b l IH]; intros a; cbn; [lia|]. specialize (IH (Z.max a b)). lia.
Qed.

Lemma prunable_spent now j i q e :
  provider_requests j !! i = Some q -> execution_state j !! q_execution_id q = Some e ->
  e_epoch e = q_epoch q -> e_status e <> Running -> q_state q <> ReqUncertain ->
  prunable c now j q e = true -> log_spent now j i.
Proof.
  intros Hq He Hep Hr Hu Hp. unfold prunable in Hp.
  apply andb_true_iff in Hp as [Hp Hm]. apply andb_true_iff in Hp as [_ Hall].
  set (ops := execution_operations j (q_execution_id q) (q_epoch q)) in *.
  exists q, e. repeat (split; [done|]). split.
  - intros r Hin. apply forallb_true, Forall_forall with (x := r) in Hall; [|done]. by bools.
  - destruct (receipts ops) as [|t ts] eqn:Er; [done|]. bools.
    assert (t ∈ receipts ops) as Ht by (rewrite Er; by left).
    unfold receipts in Ht. apply list_elem_of_omap in Ht as (r & Hin & Ha).
    apply list_elem_of_In, filter_In in Hin as [Hin Hk]. bools.
    exists r, t. split; [by apply list_elem_of_In|]. do 2 (split; [done|]).
    pose proof (fold_max_ge ts t). lia.
Qed.

Definition candidate (j : Journal) (row : string * request_row * execution_row) : Prop :=
  provider_requests j !! row.1.1 = Some row.1.2
  /\ execution_state j !! q_execution_id row.1.2 = Some row.2
  /\ e_epoch row.2 = q_epoch row.1.2 /\ e_status row.2 <> Running /\ q_state row.1.2 <> ReqUncertain
  /\ diagnostic_tombstones j !! row.1.1 = None.

Lemma prune_candidates_sound j : Forall (candidate j) (prune_candidates j).
Proof.
  unfold prune_candidates, sort_by. apply Forall_forall. intros row Hin.
  rewrite merge_sort_Permutation in Hin. apply list_elem_of_omap in Hin as ([i q] & Hin & Hrow).
  apply elem_of_map_to_list in Hin. cbn in Hrow.
  destruct (execution_state j !! q_execution_id q) as [e|] eqn:E; [|done].
  destruct (_ && _) eqn:Hc; [|done]. injection Hrow as <-. bools. by repeat split.
Qed.

(** The part of the journal that the pruning loop reads. *)
Definition reads_as (j j1 : Journal) : Prop :=
  operations j1 = operations j /\ execution_state j1 = execution_state j
  /\ provider_requests j1 = provider_requests j.

(** The state of the pruning loop: the files and tombstones that differ are accounted for. *)
Definition prune_inv (now : instant) (j : Journal) (fs : Files) (acc : Z * Journal * Files) : Prop :=
  reads_as j acc.1.2
  /\ (forall i t, diagnostic_tombstones acc.1.2 !! i = Some t ->
        diagnostic_tombstones j !! i = Some t \/ (t = now /\ log_spent now j i))
  /\ (forall i t, diagnostic_tombstones j !! i = Some t -> diagnostic_tombstones acc.1.2 !! i = Some t)
  /\ (forall i, touched now j i (requests fs !! i) (requests acc.2 !! i)).

Lemma remove_logs_idem files : remove_logs (remove_logs files) = remove_logs files.
Proof.
  apply map_eq. intros n. unfold remove_logs, log_names. cbn.
  repeat (case_match; simplify_map_eq; try done).
Qed.

Lemma insert_or_ignore_back i t m k u :
  insert_or_ignore i t m !! k = Some u -> m !! k = Some u \/ (k = i /\ u = t).
Proof.
  unfold insert_or_ignore. destruct (m !! i) eqn:E; [by left|].
  intros [[<- <-]|[_ ?]]%lookup_insert_Some; [by right|by left].
Qed.

Lemma insert_or_ignore_kept i t m k u :
  m !! k = Some u -> insert_or_ignore i t m !! k = Some u.
Proof.
  unfold insert_or_ignore. destruct (m !! i) eqn:E; [done|]. intros H.
  by rewrite lookup_insert_ne by congruence.
Qed.

#[local] Arguments remove_logs files : simpl never.

Lemma prune_one_inv now j fs row acc :
  candidate j row -> prune_inv now j fs acc -> prune_inv now j fs (prune_one c now row acc).
Proof.
  destruct row as [[i q] e], acc as [[n j1] fs1].
  intros (Hq & He & Hep & Hr & Hu & _) ((Ho & Hx & Hp) & Ht & Hm & Hf). cbn in *.
  destruct (prunable c now j1 q e) eqn:Epr; cbn; [|done].
  destruct (own_directory fs1 i); cbn; [|done].
  assert (log_spent now j i) as Hsp.
  { eapply prunable_spent; [done..|]. revert Epr. unfold prunable, execution_operations. by rewrite Ho. }
  assert (forall k t, insert_or_ignore i now (diagnostic_tombstones j1) !! k = Some t ->
            diagnostic_tombstones j !! k = Some t \/ (t = now /\ log_spent now j k)) as Ht'.
  { intros k t [Hk|[-> ->]]%insert_or_ignore_back; [by apply Ht|by right]. }
  assert (forall k t, diagnostic_tombstones j !! k = Some t ->
            insert_or_ignore i now (diagnostic_tombstones j1) !! k = Some t) as Hm'
    by (intros k t Hk%Hm; by apply insert_or_ignore_kept).
  destruct (requests fs1 !! i) as [[files|]|] eqn:Ef; cbn; split; try done; split; try done; split; try done.
  intros k. cbn. destruct (decide (i = k)) as [->|]; [|rewrite lookup_insert_ne by done; apply Hf].
  rewrite lookup_insert_eq. right. split; [done|].
  destruct (Hf k) as [E|(_ & files0 & E0 & E1)]; rewrite Ef in *.
  - exists files. by rewrite <- E.
  - exists files0. split; [done|]. injection E1 as E1. by rewrite E1, remove_logs_idem.
Qed.

Lemma prune_spec now j fs : prune_inv now j fs (prune_diagnostics c now j fs).
Proof.
  unfold prune_diagnostics. pose proof (prune_candidates_sound j) as Hc.
  assert (prune_inv now j fs (0, j, fs)) as Hi.
  { split; [done|]. split; [by left|]. split; [done|]. by left. }
  revert Hi. generalize (0, j, fs). induction Hc as [|row rows Hr _ IH]; intros acc Hi; [done|].
  cbn. by apply IH, prune_one_inv.
Qed.

Lemma step_tombstones v j j' i t :
  step v j j' -> diagnostic_tombstones j !! i = Some t -> diagnostic_tombstones j' !! i = Some t.
Proof.
  intros Hs Ht. destruct Hs; try done.
  - unfold enqueue in H0. destruct (List.find _ _); invert_ok; by injection H0 as _ <-.
  - unfold claim in H. destruct (List.find _ _); invert_ok; by injection H as _ <-.
  - unfold settle in H. invert_ok. by subst.
  - unfold retry_publication in H. invert_ok. destruct (List.find _ _); invert_ok. by injection H as _ <-.
  - unfold grant_lease in H0. invert_ok. by subst.
  - unfold claim_attempt in H0. destruct (List.find _ _); invert_ok; by injection H0 as _ _ <-.
  - unfold abandon_claim in H. invert_ok. destruct (List.find _ _); invert_ok. by subst.
  - unfold resolve_claim. repeat case_match; done.
  - unfold save_checkpoint, update_execution in H. invert_ok. subst. repeat case_match; done.
  - unfold fence, update_execution in H. invert_ok. subst. repeat case_match; done.
  - unfold begin_request in H. invert_ok. destruct (provider_requests j !! _); invert_ok; by injection H as _ <-.
  - unfold reserve_diagnostics in H. destruct (diagnostic_reservations j !! _); invert_ok; by subst.
  - by apply (prune_spec now j fs).
Qed.

Lemma steps_tombstones P j j' i t :
  steps P j j' -> diagnostic_tombstones j !! i = Some t -> diagnostic_tombstones j' !! i = Some t.
Proof. induction 1 as [|j j1 j' (v & _ & Hs) _ IH]; [done|]. intros H. by eapply IH, step_tombstones. Qed.

Lemma step_receipt v j j' i q r :
  ids_unique j -> step v j j' -> provider_requests j !! i = Some q -> r ∈ operations j ->
  row_kind r = "execution_finished" -> execution_id (envelope r) = q_execution_id q ->
  epoch (envelope r) = q_epoch q -> diagnostic_tombstones j !! i = None ->
  exists r', r' ∈ operations j' /\ same r r'.
Proof.
  intros Hu Hs Hq Hr Hk Hx Hep Ht.
  destruct (step_effect v j j' Hu Hs) as [Hf _|r0 Ho _ _ _ _ _|p Ho _ Hp].
  - apply list_elem_of_lookup in Hr as [n Hn].
    destruct (Forall2_lookup_l _ _ _ _ _ Hf Hn) as (r' & Hn' & [He _ _]).
    exists r'. split; [by eapply list_elem_of_lookup_2|done].
  - exists r. rewrite Ho. split; [apply elem_of_app; by left | apply same_refl].
  - destruct (p r) eqn:E.
    + exists r. split; [|apply same_refl].
      rewrite Ho. apply list_elem_of_In, filter_In. split; [by apply list_elem_of_In | done].
    + destruct (Hp r Hr E) as [_ Hn]. exfalso. revert Hn. apply not_false_iff_true.
      unfold receipt_needed. rewrite bool_decide_eq_true_2 by done. cbn.
      apply existsb_exists. exists (i, q). split; [by apply list_elem_of_In, elem_of_map_to_list|].
      cbn. rewrite Hx, Hep, Ht. by rewrite !bool_decide_eq_true_2 by done.
Qed.

Lemma steps_receipt P j j' i q r :
  wf j -> steps P j j' -> provider_requests j !! i = Some q -> r ∈ operations j ->
  row_kind r = "execution_finished" -> execution_id (envelope r) = q_execution_id q ->
  epoch (envelope r) = q_epoch q -> diagnostic_tombstones j' !! i = None ->
  exists r', r' ∈ operations j' /\ same r r'.
Proof.
  intros Hw Hs. revert q r. induction Hs as [j|j j1 j' Hst Hs IH]; intros q r Hq Hr Hk Hx Hep Ht.
  { exists r. split; [done|apply same_refl]. }
  destruct Hst as (v & _ & Hst).
  assert (diagnostic_tombstones j !! i = None) as Ht0.
  { destruct (diagnostic_tombstones j !! i) as [t|] eqn:E; [|done].
    rewrite (steps_tombstones P j1 j' i t Hs (step_tombstones v j j1 i t Hst E)) in Ht. done. }
  destruct (step_requests v j j1 i q Hst Hq) as (q1 & Hq1 & Hx1 & Hep1 & _).
  destruct (step_receipt v j j1 i q r (wf_ids _ Hw) Hst Hq Hr Hk Hx Hep Ht0) as (r1 & Hr1 & Hsm).
  pose proof Hsm as (_ & Hen & _).
  destruct (IH (step_wf v j j1 Hst Hw) q1 r1) as (r' & Hr' & Hs'); try done.
  - unfold row_kind. by rewrite Hen.
  - by rewrite Hen, Hx1.
  - by rewrite Hen, Hep1.
  - exists r'. split; [done|by eapply same_trans].
Qed.

(** ** Guarantees *)

(** C2. Every journal that its operations can produce is well formed: operation identifiers are
    unique, sequence numbers increase, a row holds a claim exactly while it is in flight and a
    receipt exactly when it is acknowledged, at most one claim attempt is pending, and every
    provider request belongs to an epoch its execution has reached. *)
Theorem journal_invariant j : steps (fun _ => True) empty_journal j -> wf j.
Proof. intros Hs. by eapply steps_wf, wf_empty. Qed.

(** C3. Protected records are never lost: in any sequence of operations on a reachable journal,
    compaction and expiry included, an operation stays recorded with its envelope unchanged
    unless a point of the sequence had it acknowledged. *)
Theorem operations_persist_until_acknowledged j j' r :
  steps (fun _ => True) empty_journal j -> steps (fun _ => True) j j' -> r ∈ operations j ->
  (exists r', r' ∈ operations j' /\ same r r') \/
  (exists j1 r', steps (fun _ => True) j j1 /\ steps (fun _ => True) j1 j' /\
     r' ∈ operations j1 /\ same r r' /\ state r' = Acknowledged).
Proof. intros H0 Hs Hr. eapply steps_row; [by eapply steps_wf, wf_empty | done..]. Qed.

(** A delivery claim is settled at most once: after a successful settlement, whatever
    operations follow, settling the same claim again is refused as superseded, provided no
    later [uuid4] repeats its token. *)
Theorem claim_settles_once v co s retry e now j j1 j2 v' s' retry' e' now' :
  steps (fun _ => True) empty_journal j ->
  settle v co s retry e now j = Ok j1 ->
  steps (fun v => uuid4 v <> claim_token co) j1 j2 -> s' <> Inflight ->
  settle v' co s' retry' e' now' j2 = Err (FencedExecution "delivery claim was superseded").
Proof.
  intros H0 H1 Hs Hs'. apply settle_spent; [done|]. eapply steps_spent; [|done|].
  - eapply step_wf; [by eapply step_settle | by eapply steps_wf, wf_empty].
  - by eapply settle_spends.
Qed.

(** A claim that has been taken over is fenced: once the same operation is claimed again
    with another token, the earlier claimant can never settle it. *)
Theorem reclaimed_delivery_is_fenced v now t d co co' j j1 j2 v' s retry e at_ :
  steps (fun _ => True) empty_journal j ->
  claim c v now t d j = Ok (Some co', j1) ->
  operation_id (claimed co') = operation_id (claimed co) -> claim_token co' <> claim_token co ->
  steps (fun v => uuid4 v <> claim_token co) j1 j2 -> s <> Inflight ->
  settle v' co s retry e at_ j2 = Err (FencedExecution "delivery claim was superseded").
Proof.
  intros H0 H1 Hi Ht Hs Hs'. apply settle_spent; [done|]. eapply steps_spent; [|done|].
  - eapply step_wf; [by eapply step_claim | by eapply steps_wf, wf_empty].
  - by eapply claim_spends.
Qed.

(** A lease that has ended stays ended: if the ownership check of an epoch the execution has
    reached fails at some monotonic time, then no sequence of operations of the same boot at
    that time or later makes it succeed for that epoch, renewals included. *)
Theorem ended_lease_stays_ended x ep boot t j j' v now :
  steps (fun _ => True) empty_journal j ->
  (exists e, execution_state j !! x = Some e /\ ep <= e_epoch e) ->
  assert_lease v x ep (Some boot) (Some t) j <> Ok tt ->
  steps (fun v => boot_identity v = boot /\ t <= monotonic v) j j' -> t <= now ->
  assert_lease v x ep (Some boot) (Some now) j' =
    Err (FencedExecution "execution lease is absent, expired, or superseded").
Proof.
  intros _ (e & He & Hle) Ha Hs Hn. unfold assert_lease in *. cbn in *.
  assert (lease_dead x ep boot t j) as Hd.
  { apply not_held_lease_dead; [by eexists| |by intros ? [= <-]%(eq_trans (eq_sym He))].
    destruct (lease_holds x ep boot t j); [by destruct Ha|done]. }
  assert (lease_dead x ep boot t j') as Hd'.
  { clear Ha He. induction Hs as [|j j1 j' (w & [??] & Hst) _ IH]; [done|]. by eapply IH, step_lease_dead. }
  by rewrite (lease_dead_not_held _ _ _ _ _ _ Hd' Hn).
Qed.

(** A provider request starts at most once: after [begin_request] has answered that the
    request is new, every later call for the same identifier, whatever happened in between,
    either reports that it is not new or is refused. *)
Theorem request_begins_once v i x ep prompt j j1 j2 v' x' ep' prompt' b j3 :
  begin_request sha256 v i x ep prompt j = Ok (true, j1) ->
  steps (fun _ => True) j1 j2 ->
  begin_request sha256 v' i x' ep' prompt' j2 = Ok (b, j3) ->
  b = false /\ x' = x /\ ep' = ep /\ sha256 prompt' = sha256 prompt.
Proof.
  intros H1 Hs H2.
  assert (exists q, provider_requests j1 !! i = Some q /\ q_execution_id q = x /\ q_epoch q = ep
                    /\ input_hash q = sha256 prompt) as Hq.
  { unfold begin_request in H1. invert_ok. destruct (_ !! i); invert_ok; [done|].
    injection H1 as <-. eexists. cbn. by rewrite lookup_insert_eq. }
  clear H1. induction Hs as [j1|j1 j0 j2 (w & _ & Hst) _ IH].
  - destruct Hq as (q & Hq & Hx & Hep & Hh). unfold begin_request in H2. rewrite Hq in H2. invert_ok. bools.
    injection H2 as <- _. repeat split; congruence.
  - apply IH; [done|]. destruct Hq as (q & Hq & Hx & Hep & Hh).
    destruct (step_requests w j1 j0 i q Hst Hq) as (q' & ? & ? & ? & ?). exists q'. repeat split; congruence.
Qed.

Lemma existsb_false {A} (f : A -> bool) l a : existsb f l = false -> a ∈ l -> f a = false.
Proof.
  intros H Ha. apply not_true_iff_false in H. apply not_true_iff_false. intros Hf. apply H.
  apply existsb_exists. exists a. split; [by apply list_elem_of_In|done].
Qed.

Lemma rowcount_unique rows r :
  NoDup (map row_id rows) -> r ∈ rows -> rowcount (has_id (row_id r)) rows = 1%nat.
Proof.
  unfold rowcount, has_id. induction rows as [|x rows IH]; [by intros _ ?%elem_of_nil|]. cbn.
  intros [Hx Hn]%NoDup_cons [->|Hr]%elem_of_cons.
  - rewrite bool_decide_eq_true_2 by done. cbn. f_equal.
    apply (find_none_rowcount (fun y => bool_decide (row_id y = row_id x))).
    destruct (List.find _ _) as [y|] eqn:E; [exfalso|done]. apply find_some in E as [Hin Hb]. bools.
    apply Hx. rewrite <- Hb. by apply list_elem_of_fmap_2, list_elem_of_In.
  - rewrite bool_decide_eq_false_2; [by apply IH|]. intros E. apply Hx. rewrite E.
    by apply list_elem_of_fmap_2.
Qed.

Lemma rowcount_map {R} (p q : R -> bool) (f : R -> R) rows :
  (forall r, r ∈ rows -> q (f r) = p r) -> rowcount q (map f rows) = rowcount p rows.
Proof.
  unfold rowcount. induction rows as [|r rows IH]; intros H; cbn; [done|].
  rewrite (H r) by by left. destruct (p r); cbn; rewrite IH; try done; intros ??; apply H; by right.
Qed.

(** A claim is settled exactly when a row still holds it, and only that row changes. *)
Lemma settle_held v co s retry e at_ j :
  ids_unique j -> s <> Inflight ->
  settle v co s retry e at_ j =
    if existsb (holds_claim co) (operations j)
    then Ok (j <| operations := update_where (has_id (operation_id (claimed co))) (dispose s retry e (default (wall v) at_)) (operations j) |>)
    else Err (FencedExecution "delivery claim was superseded").
Proof.
  intros Hu Hs. unfold settle. rewrite bool_decide_eq_false_2 by done. cbn [guard rbind].
  destruct (existsb (holds_claim co) (operations j)) eqn:E.
  - apply existsb_exists in E as (row & Hin%list_elem_of_In & Hh). pose proof Hh as [Hi _]%holds_claim_true.
    assert (forall r, r ∈ operations j -> holds_claim co r = has_id (operation_id (claimed co)) r) as Heq.
    { intros r Hr. apply eq_true_iff_eq. split; [by unfold holds_claim; intros [? _]%andb_true_iff|]. intros Hid.
      rewrite <- Hi in Hid. by rewrite (has_id_unique j row r Hu Hin Hr Hid). }
    assert (rowcount (holds_claim co) (operations j) = 1%nat) as ->.
    { rewrite <- (map_id (operations j)), (rowcount_map (has_id (operation_id (claimed co)))) by exact Heq. rewrite <- Hi. by apply rowcount_unique. }
    assert (forall f, update_where (holds_claim co) f (operations j) = update_where (has_id (operation_id (claimed co))) f (operations j)) as ->; [|done].
    intros f. unfold update_where. apply map_ext_in. intros r Hr%list_elem_of_In. by rewrite Heq.
  - assert (rowcount (holds_claim co) (operations j) = 0%nat) as ->; [|done]. apply find_none_rowcount.
    destruct (List.find _ _) as [r|] eqn:Ef; [|done]. apply find_some in Ef as [Hin Hh].
    exfalso. apply not_true_iff_false in E. apply E, existsb_exists. eauto.
Qed.

Lemma disposition_settled ma wait now co r : (disposition_of ma wait now co r).1.1 <> Inflight.
Proof. unfold disposition_of. repeat (case_match; try done). Qed.

Lemma disposition_durable ma wait now co r :
  mem (op_kind (claimed co)) durable_kinds = true -> (disposition_of ma wait now co r).1.1 = Recovery ->
  exists status after, r = Answer status after /\ (status = 409 \/ status = 410).
Proof.
  unfold disposition_of. intros ->. rewrite andb_false_r. destruct r as [|status after]; [done|].
  destruct (_ && _); [done|]. destruct (mem status [409; 410]) eqn:Em; [intros _|by destruct (_ && _)].
  exists status, after. split; [done|]. apply mem_true in Em.
  apply elem_of_cons in Em as [->|Em]; [by left|]. apply list_elem_of_singleton in Em. by right.
Qed.

(** C35. One replay turn delivers the earliest due row and settles it, if its claim still holds.  On a
    reachable journal, in which overdue deliveries are first given up to recovery, the turn reports
    nothing to do exactly when no row is due; otherwise it claims the earliest due row, and no other,
    for sixty seconds.  Whatever other calls do to the journal during the exchange, the turn then moves
    that row, and no other, to the disposition the answer calls for when the row still holds the claim,
    as it does when there were no such calls; and it is refused as fenced, and changes nothing more,
    when the claim was taken over or settled.  The turn itself gives durable evidence up to recovery
    only when the server answers 409 or 410. *)
Theorem replay_one_delivers v v' ma wait now post between j :
  steps (fun _ => True) empty_journal j -> (forall j1, steps (fun _ => True) j1 (between j1)) ->
  let j0 := expire_stale c now j in
  match List.find (deliverable now Api j0) (operations j0) with
  | None => replay_one c v v' ma wait now post between j = (Ok None, j0)
  | Some row =>
      let co := {| claimed := envelope row; claim_token := uuid4 v; attempts := row_attempts row + 1 |} in
      let j1 := j0 <| operations := update_where (has_id (row_id row)) (take_claim (uuid4 v) (now + seconds 60)) (operations j0) |> in
      exists s retry e at_,
        disposition_of ma wait now co (post (envelope row)) = (s, retry, e) /\ (s = Acknowledged -> at_ = now)
        /\ replay_one c v v' ma wait now post between j
           = (if existsb (holds_claim co) (operations (between j1))
              then (Ok (Some s), (between j1) <| operations := update_where (has_id (row_id row)) (dispose s retry e at_) (operations (between j1)) |>)
              else (Err (FencedExecution "delivery claim was superseded"), between j1))
        /\ (operations (between j1) = operations j1 -> existsb (holds_claim co) (operations (between j1)) = true)
        /\ (mem (row_kind row) durable_kinds = true -> s = Recovery ->
            exists status after, post (envelope row) = Answer status after /\ (status = 409 \/ status = 410))
  end.
Proof.
  intros Hs0 Hb j0. pose proof (steps_wf _ _ _ Hs0 wf_empty) as Hw. unfold replay_one, claim. fold j0.
  destruct (List.find (deliverable now Api j0) (operations j0)) as [row|] eqn:E; [|done]. pose proof E as [Hin%list_elem_of_In _]%find_some.
  set (co := {| claimed := envelope row; claim_token := uuid4 v; attempts := row_attempts row + 1 |}).
  set (j1 := j0 <| operations := update_where _ _ (operations j0) |>).
  assert (validate_operation (envelope row) = Ok (envelope row)) as Hv.
  { assert (table_wf j0) as (_ & Hr & _).
    { eapply (effect_table_wf v j); [by apply wf_table|]. apply eff_rows; [apply expire_stale_rows|done]. }
    rewrite Forall_forall in Hr. by apply Hr. }
  assert (claim c v now (seconds 60) Api j = Ok (Some co, j1)) as Hc by (unfold claim; fold j0; by rewrite E, Hv).
  assert (wf (between j1)) as Hw2.
  { eapply steps_wf; [apply Hb|]. eapply (steps_wf (fun _ => True) j); [|exact Hw]. eapply rtc_once. exists v. split; [done|]. by eapply step_claim. }
  rewrite Hv. cbn [rbind claimed co]. unfold settle_reply.
  pose proof (disposition_durable ma wait now co (post (envelope row))) as Hdur. pose proof (disposition_settled ma wait now co (post (envelope row))) as Hset.
  destruct (disposition_of ma wait now co (post (envelope row))) as [[s retry] e] eqn:Ed. cbn [fst] in Hset, Hdur.
  exists s, retry, e, (default (wall v') (if bool_decide (s = Acknowledged) then Some now else None)). split; [done|].
  split; [by intros ->|]. split; [|split; [|exact Hdur]].
  - fold co. rewrite Ed, settle_held by (done || apply Hw2). by destruct (existsb _ _).
  - intros ->. apply existsb_exists. exists (take_claim (uuid4 v) (now + seconds 60) row). split; [|by apply holds_claim_true].
    unfold j1. cbn. unfold update_where. apply in_map_iff. exists row. unfold has_id. rewrite bool_decide_eq_true_2 by done. split; [done|by apply list_elem_of_In].
Qed.

(** Terminal receipts wait for publication evidence: an [execution_finished] operation is
    handed out for delivery only when every discovered publication of its execution has been
    acknowledged and its execution has no recovery pending at that epoch. *)
Theorem finish_follows_publications v now t d co j j' :
  steps (fun _ => True) empty_journal j ->
  claim c v now t d j = Ok (Some co, j') -> op_kind (claimed co) = "execution_finished" ->
  (forall p, p ∈ operations j' -> dest p = Api -> row_kind p = "publication_discovered" ->
     execution_id (envelope p) = execution_id (claimed co) -> state p = Acknowledged) /\
  (forall e, execution_state j' !! execution_id (claimed co) = Some e ->
     e_epoch e = epoch (claimed co) -> recovery_pending_flag (checkpoint e) = false).
Proof.
  intros Hs. pose proof (steps_wf _ _ _ Hs wf_empty) as Hw. clear Hs.
  unfold claim. set (j1 := expire_stale c now j). intros H Hk.
  assert (ids_unique j1) as Hu by (apply expire_stale_unique; [done|apply Hw]).
  destruct (List.find _ _) as [row|] eqn:E; [|by invert_ok].
  invert_ok. injection H as <- <-. cbn in *.
  assert (x = envelope row) as -> by (unfold validate_operation in H0; by invert_ok).
  apply find_some in E as [Hrow%list_elem_of_In Hd].
  unfold deliverable, awaits_publication, awaits_recovery, row_kind in Hd.
  rewrite !(bool_decide_eq_true_2 _ Hk) in Hd. cbn in Hd.
  apply andb_true_iff in Hd as [Hd Hrec]. apply andb_true_iff in Hd as [_ Hpub].
  apply negb_true_iff in Hrec, Hpub. split.
  - intros p Hp Hdst Hpk Hpx. apply list_elem_of_In, in_map_iff in Hp as (p0 & <- & Hin%list_elem_of_In).
    destruct (has_id (row_id row) p0) eqn:Eh.
    + rewrite (has_id_unique _ row p0 Hu Hrow Hin Eh) in Hpk. unfold row_kind in Hpk. cbn in Hpk. congruence.
    + apply (existsb_false _ _ p0) in Hpub; [|done].
      unfold row_kind in Hpk. cbv beta in Hpub. rewrite Hdst, Hpk, Hpx in Hpub. rewrite !bool_decide_eq_true_2 in Hpub by done.
      rewrite (bool_decide_eq_true_2 (execution_id _ = _)), !andb_true_r in Hpub by done. cbn in Hpub. by bools.
  - intros e He Hep. rewrite He in Hrec. by rewrite bool_decide_eq_true_2 in Hrec by done.
Qed.

(** Enqueueing is idempotent by identifier: for an operation whose identifier is already
    recorded the journal is left as it is, the answer is that nothing was added when content
    and destination agree with the record, and the call is refused when they do not. *)
Theorem enqueue_recorded v o d j r :
  steps (fun _ => True) empty_journal j -> r ∈ operations j -> row_id r = operation_id o ->
  enqueue sha256 c v o d j =
    if bool_decide (sha256 (envelope_text (envelope r)) = sha256 (envelope_text o)) && bool_decide (dest r = d)
    then Ok (false, j) else Err (ValidationError "idempotency key was reused with different content").
Proof.
  intros Hs Hr Hi. pose proof (steps_wf _ _ _ Hs wf_empty) as Hw.
  assert (List.find (fun r => bool_decide (row_id r = operation_id o)) (operations j) = Some r) as E.
  { destruct (List.find _ _) as [r'|] eqn:E.
    - apply find_some in E as [Hin Hb]. bools. f_equal.
      eapply NoDup_map_inj; [apply Hw | by apply list_elem_of_In | done | congruence].
    - apply find_none_ids in E. exfalso. apply E. rewrite <- Hi. by apply list_elem_of_fmap_2. }
  unfold enqueue. rewrite E.
  assert (digest r = sha256 (envelope_text (envelope r))) as ->.
  { destruct Hw as [_ Hrows _ _ _ _ _]. rewrite Forall_forall in Hrows. by apply Hrows. }
  by destruct (bool_decide _), (bool_decide _).
Qed.

(** Diagnostics are pruned only when they are spent: every directory that pruning changes
    loses only its two logs, and it, like every request newly marked as pruned, belongs to a
    finished request of a finished execution all of whose operations are acknowledged, with a
    terminal receipt older than the retention period of its outcome. *)
Theorem prune_only_spent_logs now j fs n j' fs' i :
  prune_diagnostics c now j fs = (n, j', fs') ->
  touched now j i (requests fs !! i) (requests fs' !! i) /\
  (diagnostic_tombstones j !! i = None -> is_Some (diagnostic_tombstones j' !! i) -> log_spent now j i) /\
  operations j' = operations j /\ execution_state j' = execution_state j.
Proof.
  intros E. pose proof (prune_spec now j fs) as ((Ho & Hx & _) & Ht & _ & Hf). rewrite E in *. cbn in *.
  split; [apply Hf|]. split; [|done]. intros Hn [t Ht']. apply Ht in Ht' as [?|[_ ?]]; [congruence|done].
Qed.

(** A terminal receipt outlives the logs it protects: the [execution_finished] operation of a
    request's execution and epoch stays in the journal as long as the request is not marked as
    pruned, however often the journal is compacted. *)
Theorem receipt_outlives_logs j j' i q r :
  steps (fun _ => True) empty_journal j -> steps (fun _ => True) j j' ->
  provider_requests j !! i = Some q -> r ∈ operations j ->
  row_kind r = "execution_finished" -> execution_id (envelope r) = q_execution_id q ->
  epoch (envelope r) = q_epoch q -> diagnostic_tombstones j' !! i = None ->
  exists r', r' ∈ operations j' /\ same r r'.
Proof. intros H0. eapply steps_receipt. by eapply steps_wf, wf_empty. Qed.
End journal.

(** ** A sample journal

    One execution begins a provider request, discovers a publication, finishes, and delivers
    both operations. *)

Definition sample_config : Config :=
  {| max_bytes := 67108864; minimum_free_bytes := 16777216; max_offline := seconds 604800;
     diagnostic_max_bytes := 536870912; diagnostic_retention := seconds 10;
     failure_diagnostic_retention := seconds 20 |}.

Definition sample_env (token : string) (at_ : Z) : Env :=
  {| wall := seconds at_; monotonic := seconds at_; boot_identity := "boot"; uuid4 := token;
     page_size := 4096; page_count := 10; freelist_count := 0; free_bytes := 10 ^ 12;
     database_full := false |}.

Definition sample_found : Operation :=
  {| operation_id := "op-1"; execution_id := "x"; epoch := 1; op_kind := "publication_discovered";
     payload := [("repository_id", JString "r"); ("commit_oid", JString "c"); ("recovery_ref", JString "f")];
     occurred_at := seconds 2 |}.

Definition sample_finished : Operation :=
  {| operation_id := "op-2"; execution_id := "x"; epoch := 1; op_kind := "execution_finished";
     payload := [("status", JString "succeeded")]; occurred_at := seconds 3 |}.

Definition sha (s : string) : string := s.

(** A call that must succeed, for building samples. *)
Definition after {A} (f : A -> Journal) (r : result A) : Journal :=
  match r with Ok a => f a | Err _ => empty_journal end.

Definition claim_of (r : result (option ClaimedOperation * Journal)) : ClaimedOperation :=
  match r with
  | Ok (Some co, _) => co
  | _ => {| claimed := sample_found; claim_token := ""; attempts := 0 |}
  end.

Definition sample_leased : Journal :=
  after id (grant_lease (sample_env "" 1) "x" 1 (seconds 100) None None empty_journal).
Definition sample_begun : Journal :=
  after snd (begin_request sha (sample_env "" 1) "q" "x" 1 "prompt" sample_leased).
Definition sample_one : Journal :=
  after snd (enqueue sha sample_config (sample_env "" 2) sample_found Api sample_begun).
Definition sample_two : Journal :=
  after snd (enqueue sha sample_config (sample_env "" 3) sample_finished Api sample_one).
Definition sample_claim : result (option ClaimedOperation * Journal) :=
  claim sample_config (sample_env "t1" 4) (seconds 4) (seconds 60) Api sample_two.
Definition sample_claimed : Journal := after snd sample_claim.
Definition sample_acknowledged : Journal :=
  after id (settle (sample_env "" 5) (claim_of sample_claim) Acknowledged 0 None None sample_claimed).
Definition sample_finish : result (option ClaimedOperation * Journal) :=
  claim sample_config (sample_env "t2" 6) (seconds 6) (seconds 60) Api sample_acknowledged.
Definition sample_delivered : Journal :=
  after id (settle (sample_env "" 7) (claim_of sample_finish) Acknowledged 0 None None (after snd sample_finish)).
Definition sample_stopped : Journal :=
  finish_request "q" ReqCompleted None JNull (after id (fence "x" 1 Succeeded sample_delivered)).

Abbreviation sample_steps := (steps sha sample_config) (only parsing).

Ltac one_step v := eapply rtc_l; [exists v; split; [done|] | ].

Lemma sample_steps_two P : (forall at_, P (sample_env "" at_)) -> sample_steps P empty_journal sample_two.
Proof.
  intros HP.
  one_step (sample_env "" 1); [apply step_grant with "x" 1 (seconds 100) None; [done|reflexivity] |].
  one_step (sample_env "" 1); [apply step_begin with "q" "x" 1 "prompt" true; reflexivity |].
  one_step (sample_env "" 2); [apply step_enqueue with sample_found Api true; [done|vm_compute; reflexivity] |].
  one_step (sample_env "" 3); [apply step_enqueue with sample_finished Api true; [done|vm_compute; reflexivity] |].
  apply rtc_refl.
Qed.

Lemma sample_steps_delivered : sample_steps (fun _ => True) empty_journal sample_delivered.
Proof.
  unfold steps; etrans; [by apply sample_steps_two|].
  one_step (sample_env "t1" 4).
  { apply step_claim with (seconds 4) (seconds 60) Api (Some (claim_of sample_claim)). vm_compute; reflexivity. }
  one_step (sample_env "" 5).
  { apply step_settle with (claim_of sample_claim) Acknowledged 0 None None. vm_compute; reflexivity. }
  one_step (sample_env "t2" 6).
  { apply step_claim with (seconds 6) (seconds 60) Api (Some (claim_of sample_finish)). vm_compute; reflexivity. }
  one_step (sample_env "" 7).
  { apply step_settle with (claim_of sample_finish) Acknowledged 0 None None. vm_compute; reflexivity. }
  apply rtc_refl.
Qed.

Lemma sample_steps_claimed : sample_steps (fun _ => True) empty_journal sample_claimed.
Proof.
  unfold steps; etrans; [by apply sample_steps_two|].
  one_step (sample_env "t1" 4); [|apply rtc_refl].
  apply step_claim with (seconds 4) (seconds 60) Api (Some (claim_of sample_claim)). vm_compute; reflexivity.
Qed.

Lemma sample_steps_acknowledged : sample_steps (fun _ => True) empty_journal sample_acknowledged.
Proof.
  unfold steps; etrans; [apply sample_steps_claimed|].
  one_step (sample_env "" 5); [|apply rtc_refl].
  apply step_settle with (claim_of sample_claim) Acknowledged 0 None None. vm_compute; reflexivity.
Qed.

Lemma journal_invariant_witness : wf sha sample_delivered.
Proof. apply (journal_invariant sha sample_config). exact sample_steps_delivered. Defined.

Lemma operations_persist_witness :
  exists r, r ∈ operations sample_two /\
  ((exists r', r' ∈ operations sample_two /\ same r r') \/
   (exists j1 r', sample_steps (fun _ => True) sample_two j1 /\ sample_steps (fun _ => True) j1 sample_two /\
      r' ∈ operations j1 /\ same r r' /\ state r' = Acknowledged)).
Proof.
  eexists (new_row sha (sample_env "" 2) sample_begun sample_found Api).
  assert (new_row sha (sample_env "" 2) sample_begun sample_found Api ∈ operations sample_two) as Hr
    by (vm_compute; left).
  split; [exact Hr|].
  exact (operations_persist_until_acknowledged sha sample_config sample_two sample_two _
           (sample_steps_two _ (fun _ => I)) (rtc_refl _ _) Hr).
Defined.

Lemma claim_settles_once_witness :
  settle (sample_env "" 9) (claim_of sample_claim) Pending 0 None None sample_acknowledged
  = Err (FencedExecution "delivery claim was superseded").
Proof.
  refine (claim_settles_once sha sample_config (sample_env "" 5) (claim_of sample_claim) Acknowledged 0 None None
            sample_claimed sample_acknowledged sample_acknowledged (sample_env "" 9) Pending 0 None None
            sample_steps_claimed _ _ _); [vm_compute; reflexivity | apply rtc_refl | discriminate].
Defined.

Definition sample_reclaim : result (option ClaimedOperation * Journal) :=
  claim sample_config (sample_env "t3" 100) (seconds 100) (seconds 60) Api sample_claimed.

Lemma reclaimed_delivery_is_fenced_witness :
  settle (sample_env "" 101) (claim_of sample_claim) Acknowledged 0 None None (after snd sample_reclaim)
  = Err (FencedExecution "delivery claim was superseded").
Proof.
  refine (reclaimed_delivery_is_fenced sha sample_config (sample_env "t3" 100) (seconds 100) (seconds 60) Api
            (claim_of sample_claim) (claim_of sample_reclaim) sample_claimed (after snd sample_reclaim)
            (after snd sample_reclaim) (sample_env "" 101) Acknowledged 0 None None
            sample_steps_claimed _ _ _ _ _);
    [vm_compute; reflexivity | vm_compute; reflexivity | vm_compute; discriminate | apply rtc_refl | discriminate].
Defined.

Lemma ended_lease_stays_ended_witness :
  assert_lease (sample_env "" 200) "x" 1 (Some "boot") (Some (seconds 300)) sample_two
  = Err (FencedExecution "execution lease is absent, expired, or superseded").
Proof.
  refine (ended_lease_stays_ended sha sample_config "x" 1 "boot" (seconds 200) sample_two sample_two
            (sample_env "" 200) (seconds 300) (sample_steps_two _ (fun _ => I)) _ _ _ _).
  - eexists. split; [vm_compute; reflexivity | vm_compute; discriminate].
  - vm_compute. discriminate.
  - apply rtc_refl.
  - vm_compute. discriminate.
Defined.

Lemma request_begins_once_witness :
  false = false /\ "x" = "x" /\ 1 = 1 /\ sha "prompt" = sha "prompt".
Proof.
  refine (request_begins_once sha sample_config (sample_env "" 1) "q" "x" 1 "prompt" sample_leased sample_begun
            sample_begun (sample_env "" 2) "x" 1 "prompt" false sample_begun _ _ _);
    [vm_compute; reflexivity | apply rtc_refl | vm_compute; reflexivity].
Defined.

(** The exchange outlives the claim: another lane takes the row over meanwhile. *)
Definition retaken (j : Journal) : Journal :=
  match claim sample_config (sample_env "t9" 100) (seconds 100) (seconds 60) Api j with Ok (_, j') => j' | Err _ => j end.

Lemma retaken_steps j : sample_steps (fun _ => True) j (retaken j).
Proof.
  unfold retaken. destruct (claim _ _ _ _ _ j) as [[co j']|e] eqn:E; [|apply rtc_refl].
  apply rtc_once. exists (sample_env "t9" 100). split; [done|]. by eapply step_claim.
Qed.

Definition sample_replay (between : Journal -> Journal) : result (option delivery) * Journal :=
  replay_one sample_config (sample_env "t" 4) (sample_env "u" 5) 20 (fun _ => 1) (seconds 4) (fun _ => Answer 200 0) between sample_two.

Lemma replay_one_delivers_witness :
  (exists j', sample_replay id = (Ok (Some Acknowledged), j'))
  /\ exists j', sample_replay retaken = (Err (FencedExecution "delivery claim was superseded"), j').
Proof.
  split.
  - pose proof (replay_one_delivers sha sample_config (sample_env "t" 4) (sample_env "u" 5) 20 (fun _ => 1) (seconds 4) (fun _ => Answer 200 0) id
      sample_two (sample_steps_two _ (fun _ => I)) (fun j => rtc_refl _ j)) as H.
    cbv zeta in H. destruct (List.find _ _) as [row|] eqn:E in H; [|vm_compute in E; discriminate E].
    destruct H as (s & retry & e & at_ & Hd & _ & Hr & Hh & _). rewrite Hh in Hr by reflexivity.
    unfold sample_replay. rewrite Hr. injection Hd as <- _ _. eexists. reflexivity.
  - pose proof (replay_one_delivers sha sample_config (sample_env "t" 4) (sample_env "u" 5) 20 (fun _ => 1) (seconds 4) (fun _ => Answer 200 0) retaken
      sample_two (sample_steps_two _ (fun _ => I)) retaken_steps) as H.
    cbv zeta in H. destruct (List.find _ _) as [row|] eqn:E in H; [|vm_compute in E; discriminate E].
    destruct H as (s & retry & e & at_ & _ & _ & Hr & _). unfold sample_replay. rewrite Hr.
    vm_compute in E. injection E as <-. match goal with |- context [if ?b then _ else _] => assert (b = false) as -> by (by vm_compute) end.
    eexists. reflexivity.
Defined.

Lemma finish_follows_publications_witness :
  op_kind (claimed (claim_of sample_finish)) = "execution_finished" /\
  forall p, p ∈ operations (after snd sample_finish) -> dest p = Api -> row_kind p = "publication_discovered" ->
     execution_id (envelope p) = "x" -> state p = Acknowledged.
Proof.
  assert (op_kind (claimed (claim_of sample_finish)) = "execution_finished") as Hk by (vm_compute; reflexivity).
  split; [exact Hk|].
  refine (proj1 (finish_follows_publications sha sample_config (sample_env "t2" 6) (seconds 6) (seconds 60) Api
            (claim_of sample_finish) sample_acknowledged (after snd sample_finish)
            sample_steps_acknowledged _ Hk)). vm_compute; reflexivity.
Defined.

Lemma enqueue_recorded_witness :
  enqueue sha sample_config (sample_env "" 8) sample_found LocalGit sample_two
  = Err (ValidationError "idempotency key was reused with different content").
Proof.
  refine (enqueue_recorded sha sample_config (sample_env "" 8) sample_found LocalGit sample_two
            (new_row sha (sample_env "" 2) sample_begun sample_found Api)
            (sample_steps_two _ (fun _ => I)) _ _); [vm_compute; left | vm_compute; reflexivity].
Defined.

Definition sample_files : Files :=
  {| root_symlink := false;
     requests := {["q" := RealDirectory {["stdout.jsonl" := Some 10; "request.json" := Some 5]}]} |}.

Definition sample_pruned : Z * Journal * Files :=
  prune_diagnostics sample_config (seconds 20) sample_stopped sample_files.

Lemma triple_eta {A B C} (p : A * B * C) : p = (p.1.1, p.1.2, p.2).
Proof. by destruct p as [[??]?]. Qed.

Lemma prune_only_spent_logs_witness :
  sample_pruned.1.1 = 10 /\ log_spent sample_config (seconds 20) sample_stopped "q".
Proof.
  split; [vm_compute; reflexivity|].
  refine (proj1 (proj2 (prune_only_spent_logs sample_config (seconds 20) sample_stopped sample_files
    sample_pruned.1.1 sample_pruned.1.2 sample_pruned.2 "q" (triple_eta sample_pruned))) _ _).
  - vm_compute. reflexivity.
  - vm_compute. eexists. reflexivity.
Defined.

Definition sample_receipt : operation_row :=
  List.nth 1 (operations sample_delivered) (new_row sha (sample_env "" 2) sample_begun sample_found Api).

Lemma receipt_outlives_logs_witness :
  exists r', r' ∈ operations sample_delivered /\ same sample_receipt r'.
Proof.
  refine (receipt_outlives_logs sha sample_config sample_delivered sample_delivered "q"
    {| q_execution_id := "x"; q_epoch := 1; input_hash := "prompt"; q_state := ReqUncertain;
       q_provider_thread_id := None; q_result := None; q_created_at := seconds 1 |} sample_receipt
    sample_steps_delivered (rtc_refl _ _) _ _ _ _ _ _);
    [vm_compute; reflexivity | vm_compute; right; left | vm_compute; reflexivity ..].
Defined.
