(* ===== verification/ReviewContracts.v ===== *)
(** * Contracts of reviews and of forge operations

    src/archon_horizon/pipeline/review/contracts.py, the operations on a forge of models.py
    (ForgeLabel, ForgeReview, ForgeMerge, ForgeCreate, ForgeComment, ForgeEdit, ForgeChange), and
    the compiler receipts of projects/lean_checks.py.  A text is the value after pydantic has stripped it. *)

From S2P Require Import Prelude Contracts.

Local Open Scope string_scope.
Local Open Scope Z_scope.

(** ** Review questions and assessments *)

Definition len (s : string) : Z := Z.of_nat (String.length s).

(** [ReviewText]. *)
Definition review_text_valid (s : string) : bool := bool_decide (strip s = s) && (1 <=? len s) && (len s <=? 8000).

(** [Field(min_length, max_length)] of a list. *)
Definition sized {A} (lo hi : Z) (f : A -> bool) (l : list A) : bool :=
  let n := Z.of_nat (List.length l) in (lo <=? n) && (n <=? hi) && forallb f l.

Inductive Dimension : Type :=
| MathematicalContract | PublicDesign | ProofTrust | ComputationalCost | Distributability | ScholarlyTraceability.
#[export] Instance Dimension_eq_dec : EqDecision Dimension.
Proof. solve_decision. Defined.

Record ReviewQuestion := { rq_dimension : Dimension; rq_question : string }.
#[export] Instance ReviewQuestion_eq_dec : EqDecision ReviewQuestion.
Proof. solve_decision. Defined.

Record ReviewPlan := {
  pl_base_commit_oid : string;
  pl_scope_paths : list string;
  pl_questions : list ReviewQuestion;
  pl_risk_triggers : list string }.
#[export] Instance ReviewPlan_eq_dec : EqDecision ReviewPlan.
Proof. solve_decision. Defined.

Definition review_question_valid (q : ReviewQuestion) : bool := review_text_valid (rq_question q).

Definition review_plan_valid (p : ReviewPlan) : bool :=
  git_oid (pl_base_commit_oid p) && sized 1 256 review_text_valid (pl_scope_paths p)
  && sized 1 6 review_question_valid (pl_questions p) && sized 0 32 review_text_valid (pl_risk_triggers p)
  && bool_decide (NoDup (map rq_dimension (pl_questions p))).

Inductive severity : Type := Blocking | Improvement.
#[export] Instance severity_eq_dec : EqDecision severity.
Proof. solve_decision. Defined.

Definition severity_str (s : severity) : string := match s with Blocking => "blocking" | Improvement => "improvement" end.

Record ReviewFinding := {
  rn_key : string;
  rn_dimension : Dimension;
  rn_severity : severity;
  rn_scope : string;
  rn_finding : string;
  rn_evidence : list string;
  rn_requested_change : string }.
#[export] Instance ReviewFinding_eq_dec : EqDecision ReviewFinding.
Proof. solve_decision. Defined.

(** The pattern [^[A-Za-z0-9][A-Za-z0-9_.-]{0,63}$]. *)
Definition alphanumeric (c : ascii) : bool := is_lower c || is_upper c || is_digit c.

Definition finding_key_valid (s : string) : bool :=
  match chars s with
  | c :: rest => alphanumeric c && (Z.of_nat (List.length rest) <=? 63)
                 && forallb (fun c => alphanumeric c || Ascii.eqb c "_" || Ascii.eqb c "." || Ascii.eqb c "-") rest
  | [] => false
  end.

Definition review_finding_valid (f : ReviewFinding) : bool :=
  finding_key_valid (rn_key f) && review_text_valid (rn_scope f) && review_text_valid (rn_finding f)
  && sized 1 16 review_text_valid (rn_evidence f) && review_text_valid (rn_requested_change f).

Inductive resolution_disposition : Type := Repaired | Withdrawn.
#[export] Instance resolution_disposition_eq_dec : EqDecision resolution_disposition.
Proof. solve_decision. Defined.

Definition resolution_disposition_str (d : resolution_disposition) : string :=
  match d with Repaired => "repaired" | Withdrawn => "withdrawn" end.

Record ReviewResolution := {
  rz_review_id : uid;
  rz_disposition : resolution_disposition;
  rz_explanation : string;
  rz_evidence : list string }.
#[export] Instance ReviewResolution_eq_dec : EqDecision ReviewResolution.
Proof. solve_decision. Defined.

Definition review_resolution_valid (r : ReviewResolution) : bool :=
  review_text_valid (rz_explanation r) && sized 1 16 review_text_valid (rz_evidence r).

Record ReviewAssessment := {
  as_scope : string;
  as_dimensions : list Dimension;
  as_complete : bool;
  as_classification_confirmed : bool;
  as_evidence : list string;
  as_limitations : list string;
  as_findings : list ReviewFinding;
  as_resolutions : list ReviewResolution }.
#[export] Instance ReviewAssessment_eq_dec : EqDecision ReviewAssessment.
Proof. solve_decision. Defined.

(** [distinct_entries]. *)
Definition distinct_entries (a : ReviewAssessment) : bool :=
  bool_decide (NoDup (as_dimensions a)) && bool_decide (NoDup (map rn_key (as_findings a)))
  && bool_decide (NoDup (map rz_review_id (as_resolutions a)))
  && forallb (fun f => mem (rn_dimension f) (as_dimensions a)) (as_findings a).

Definition review_assessment_valid (a : ReviewAssessment) : bool :=
  review_text_valid (as_scope a) && sized 1 6 (fun _ => true) (as_dimensions a) && sized 1 32 review_text_valid (as_evidence a)
  && sized 0 16 review_text_valid (as_limitations a) && sized 0 100 review_finding_valid (as_findings a)
  && sized 0 100 review_resolution_valid (as_resolutions a) && distinct_entries a.

(** The verdicts that a submission can carry. *)
Inductive decision : Type := Approve | RequestChanges | Comment.
#[export] Instance decision_eq_dec : EqDecision decision.
Proof. solve_decision. Defined.

Definition is_blocking (f : ReviewFinding) : bool := bool_decide (rn_severity f = Blocking).

Definition check_verdict (verdict : decision) (a : ReviewAssessment) : result unit :=
  let blockers := existsb is_blocking (as_findings a) in
  let? _ := guard (bool_decide (verdict = Approve) && (negb (as_complete a) || blockers)) (ValidationError "incomplete approval") in
  let? _ := guard (bool_decide (verdict = RequestChanges) && negb blockers) (ValidationError "no blocking finding") in
  guard (nonempty (as_resolutions a) && negb (bool_decide (verdict = Approve))) (ValidationError "resolution without approval").

Definition blank_line : string := String (ascii_of_nat 10) (String (ascii_of_nat 10) EmptyString).

Definition render_finding (f : ReviewFinding) : string :=
  "- **" +:+ rn_key f +:+ " (" +:+ severity_str (rn_severity f) +:+ ")**: " +:+ rn_finding f +:+ " "
  +:+ "Scope: " +:+ rn_scope f +:+ ". Requested change: " +:+ rn_requested_change f +:+ " "
  +:+ "Evidence: " +:+ join "; " (rn_evidence f).

Definition render_resolution (r : ReviewResolution) : string :=
  "- Review `" +:+ uuid_str (rz_review_id r) +:+ "` " +:+ resolution_disposition_str (rz_disposition r) +:+ ": " +:+ rz_explanation r
  +:+ " Evidence: " +:+ join "; " (rz_evidence r).

(** [ReviewAssessment.render]. *)
Definition render (verdict : decision) (a : ReviewAssessment) : string :=
  let heading := match verdict with Approve => "Approved" | RequestChanges => "Changes requested" | Comment => "Incomplete assessment" end in
  join blank_line
    ((("**" +:+ heading +:+ ".**") :: map render_finding (as_findings a) ++ map render_resolution (as_resolutions a))
     ++ ["Scope: " +:+ as_scope a; "Evidence: " +:+ join "; " (as_evidence a)]
     ++ (if nonempty (as_limitations a) then ["Limits: " +:+ join "; " (as_limitations a)] else [])).

(** ** Operations on a forge *)

Definition bounded_text (n : Z) (s : string) : bool := nonblank s && (len s <=? n).

Record ForgeLabel := { fl_forge_item_id : uid; fl_add : list string; fl_remove : list string }.

Definition forge_label_valid (l : ForgeLabel) : bool :=
  sized 0 100 (bounded_text 200) (fl_add l) && sized 0 100 (bounded_text 200) (fl_remove l)
  && forallb (fun x => negb (mem x (fl_remove l))) (fl_add l).

Record ForgeReviewComment := { fv_path : string; fv_body : string; fv_new_position : Z; fv_old_position : Z }.
#[export] Instance ForgeReviewComment_eq_dec : EqDecision ForgeReviewComment.
Proof. solve_decision. Defined.

Definition forge_review_comment_valid (c : ForgeReviewComment) : bool :=
  relative_path_valid (fv_path c) && bounded_text 16000 (fv_body c) && count_valid (fv_new_position c) && count_valid (fv_old_position c)
  && negb (Bool.eqb (negb (fv_new_position c =? 0)) (negb (fv_old_position c =? 0))).

Record ReviewCarryForward := { cf_source_review_id : uid; cf_evidence_artifact_id : uid }.

Record ReviewCarryForwardEvidence := {
  ce_forge_item_id : uid;
  ce_source_review_id : uid;
  ce_source_commit_oid : string;
  ce_head_commit_oid : string;
  ce_target_branch : string;
  ce_base_commit_oid : string;
  ce_scope_paths : list string;
  ce_delta_analysis : string;
  ce_dependency_analysis : string;
  ce_rationale : string }.
#[export] Instance ReviewCarryForwardEvidence_eq_dec : EqDecision ReviewCarryForwardEvidence.
Proof. solve_decision. Defined.

Definition carry_evidence_valid (e : ReviewCarryForwardEvidence) : bool :=
  git_oid (ce_source_commit_oid e) && git_oid (ce_head_commit_oid e) && nonblank (ce_target_branch e) && git_oid (ce_base_commit_oid e)
  && sized 1 256 relative_path_valid (ce_scope_paths e) && bounded_text 8000 (ce_delta_analysis e)
  && bounded_text 8000 (ce_dependency_analysis e) && bounded_text 4000 (ce_rationale e).

(** The [policy_revision_id] of a submission is not kept: [queue_review] replaces it. *)
Record ForgeReview := {
  fw_forge_item_id : uid;
  fw_commit_oid : string;
  fw_verdict : decision;
  fw_summary : option string;
  fw_assessment : option ReviewAssessment;
  fw_comments : list ForgeReviewComment;
  fw_reviewer_descriptor_id : option uid;
  fw_reviewer_descriptor_revision_id : option uid;
  fw_provider_request_id : option uid;
  fw_integration_identity_id : option uid;
  fw_historical : bool;
  fw_carry_forward : list ReviewCarryForward }.

#[export] Instance ForgeReview_eta : Eta ForgeReview := fun r =>
  Build_ForgeReview (fw_forge_item_id r) (fw_commit_oid r) (fw_verdict r) (fw_summary r) (fw_assessment r) (fw_comments r)
    (fw_reviewer_descriptor_id r) (fw_reviewer_descriptor_revision_id r) (fw_provider_request_id r) (fw_integration_identity_id r)
    (fw_historical r) (fw_carry_forward r).

(** The rules of [historical_feedback] on historical feedback and on evidence that is carried forward. *)
Definition feedback_rules (r : ForgeReview) : result ForgeReview :=
  let? _ := guard (fw_historical r && (negb (bool_decide (fw_verdict r = Comment)) || negb (present (fw_provider_request_id r))
                                       || nonempty (fw_comments r))) (ValidationError "historical feedback") in
  let? _ := guard (nonempty (fw_carry_forward r)
                   && (fw_historical r || negb (bool_decide (fw_verdict r = Approve)) || present (fw_reviewer_descriptor_id r)
                       || present (fw_provider_request_id r) || present (fw_reviewer_descriptor_revision_id r)))
                  (ValidationError "carry forward") in
  let? _ := guard (negb (bool_decide (NoDup (map cf_source_review_id (fw_carry_forward r))))) (ValidationError "duplicate source") in
  Ok r.

(** [ForgeReview.historical_feedback]: the summary of a typed assessment is rendered from it. *)
Definition historical_feedback (r : ForgeReview) : result ForgeReview :=
  let? r := match fw_assessment r with
            | Some a =>
                let? _ := check_verdict (fw_verdict r) a in
                let? _ := guard (fw_historical r && nonempty (as_resolutions a)) (ValidationError "historical resolution") in
                Ok (r <| fw_summary := Some (render (fw_verdict r) a) |>)
            | None => let? _ := guard (negb (present (fw_summary r))) (ValidationError "summary") in Ok r
            end in
  feedback_rules r.

(** [ForgeReview.model_validate]. *)
Definition forge_review_parse (r : ForgeReview) : result ForgeReview :=
  let? _ := guard (negb (nonblank (fw_commit_oid r) && opt_valid nonblank (fw_summary r) && opt_valid review_assessment_valid (fw_assessment r)
                         && sized 0 100 forge_review_comment_valid (fw_comments r) && sized 0 32 (fun _ => true) (fw_carry_forward r)))
                  (ValidationError "ForgeReview") in
  historical_feedback r.

Record ForgeMerge := {
  fm_forge_item_id : uid;
  fm_review_gate_id : uid;
  fm_expected_head_oid : string;
  fm_integration_identity_id : option uid }.
#[export] Instance ForgeMerge_eq_dec : EqDecision ForgeMerge.
Proof. solve_decision. Defined.

Record ForgeCreate := {
  fk_repository_id : uid;
  fk_origin_run_id : uid;
  fk_review_phase : phase_kind;
  fk_kind : item_kind;
  fk_title : string;
  fk_body : string;
  fk_head : option string;
  fk_base : option string;
  fk_stack_reason : option string }.
#[export] Instance ForgeCreate_eq_dec : EqDecision ForgeCreate.
Proof. solve_decision. Defined.

Definition any_hex (c : ascii) : bool := is_digit c || between "a" "f" c || between "A" "F" c.
Definition commit_like (s : string) : bool := exactly any_hex 40 s || exactly any_hex 64 s.

Definition forge_create_valid (c : ForgeCreate) : bool :=
  nonblank (fk_title c) && nonblank (fk_body c) && opt_valid nonblank (fk_head c) && opt_valid nonblank (fk_base c)
  && opt_valid nonblank (fk_stack_reason c)
  && match fk_kind c with
     | PullRequest => present (fk_head c) && opt_valid (fun s => negb (commit_like s)) (fk_head c)
                      && opt_valid (fun s => negb (commit_like s)) (fk_base c)
     | Issue => negb (present (fk_head c)) && negb (present (fk_base c))
     end.

Record ForgeComment := { ft_forge_item_id : uid; ft_body : string }.
#[export] Instance ForgeComment_eq_dec : EqDecision ForgeComment.
Proof. solve_decision. Defined.

Inductive edit_state : Type := EditOpen | EditClosed.
#[export] Instance edit_state_eq_dec : EqDecision edit_state.
Proof. solve_decision. Defined.

Record ForgeEdit := {
  fe_forge_item_id : uid;
  fe_expected_head_oid : string;
  fe_expected_base : string;
  fe_base : option string;
  fe_state : option edit_state }.
#[export] Instance ForgeEdit_eq_dec : EqDecision ForgeEdit.
Proof. solve_decision. Defined.

Definition forge_edit_valid (e : ForgeEdit) : bool :=
  nonblank (fe_expected_head_oid e) && nonblank (fe_expected_base e) && opt_valid nonblank (fe_base e)
  && (present (fe_base e) || present (fe_state e)).

Inductive file_operation : Type := CreateFile | UpdateFile | DeleteFile.
#[export] Instance file_operation_eq_dec : EqDecision file_operation.
Proof. solve_decision. Defined.

Record ForgeFileChange := {
  ff_operation : file_operation;
  ff_path : string;
  ff_content_artifact_id : option uid;
  ff_sha : option string }.
#[export] Instance ForgeFileChange_eq_dec : EqDecision ForgeFileChange.
Proof. solve_decision. Defined.

Definition forge_file_change_valid (f : ForgeFileChange) : bool :=
  relative_path_valid (ff_path f) && opt_valid git_oid (ff_sha f)
  && match ff_operation f with
     | CreateFile => present (ff_content_artifact_id f) && negb (present (ff_sha f))
     | UpdateFile => present (ff_content_artifact_id f) && present (ff_sha f)
     | DeleteFile => negb (present (ff_content_artifact_id f)) && present (ff_sha f)
     end.

Record ForgeChange := {
  fx_repository_id : uid;
  fx_origin_run_id : uid;
  fx_base_commit_oid : string;
  fx_message : string;
  fx_files : list ForgeFileChange;
  fx_forge_item_id : option uid }.
#[export] Instance ForgeChange_eq_dec : EqDecision ForgeChange.
Proof. solve_decision. Defined.

Definition forge_change_valid (c : ForgeChange) : bool :=
  git_oid (fx_base_commit_oid c) && nonblank (fx_message c) && sized 1 200 forge_file_change_valid (fx_files c)
  && bool_decide (NoDup (map ff_path (fx_files c))).

(** ** Compiler receipts *)

Inductive check_kind : Type := RouteCheck | ContractCheck | GraphCheck | ProofCheck | LibraryCheck.
#[export] Instance check_kind_eq_dec : EqDecision check_kind.
Proof. solve_decision. Defined.

(** [LeanName]: identifiers separated by dots, at most 512 characters. *)
Definition lean_component (s : string) : bool :=
  match chars s with
  | c :: rest => (is_lower c || is_upper c || Ascii.eqb c "_") && forallb (fun c => alphanumeric c || Ascii.eqb c "_" || Ascii.eqb c "'") rest
  | [] => false
  end.

Definition lean_name (s : string) : bool := forallb lean_component (split_on "." s) && (len s <=? 512).

Record ProofClaim := { pc_complete : bool; pc_check_id : option uid; pc_declarations : list string }.

Definition proof_claim_valid (c : ProofClaim) : bool := sized 1 100 lean_name (pc_declarations c).

Record CheckReport := {
  ck_source_commit_oid : string;
  ck_base_commit_oid : string;
  ck_kind : check_kind;
  ck_manifest_digest : string;
  ck_base_manifest_digest : string;
  ck_ancestor_commits : list string;
  ck_milestone_keys : list string;
  ck_objective_paths : list string;
  ck_compiled : bool;
  ck_targets : gmap string (list string);
  ck_definitions : gmap string (list string);
  ck_types : gmap string (list string);
  ck_declaration_modules : gmap string string;
  ck_direct_admissions : list string;
  ck_proof_claims : gmap string ProofClaim;
  ck_implementation_commit_oid : option string;
  ck_comparator_passed : bool;
  ck_toolchain : string }.

#[export] Instance CheckReport_eta : Eta CheckReport := fun r =>
  Build_CheckReport (ck_source_commit_oid r) (ck_base_commit_oid r) (ck_kind r) (ck_manifest_digest r) (ck_base_manifest_digest r)
    (ck_ancestor_commits r) (ck_milestone_keys r) (ck_objective_paths r) (ck_compiled r) (ck_targets r) (ck_definitions r) (ck_types r)
    (ck_declaration_modules r) (ck_direct_admissions r) (ck_proof_claims r) (ck_implementation_commit_oid r) (ck_comparator_passed r)
    (ck_toolchain r).

Definition check_report_valid (r : CheckReport) : bool :=
  git_oid (ck_source_commit_oid r) && git_oid (ck_base_commit_oid r) && hex_digest (ck_manifest_digest r)
  && hex_digest (ck_base_manifest_digest r) && sized 0 10000 git_oid (ck_ancestor_commits r)
  && sized 0 1000 (fun _ => true) (ck_milestone_keys r) && sized 0 100 (fun _ => true) (ck_objective_paths r)
  && forallb (fun c => proof_claim_valid c.2) (map_to_list (ck_proof_claims r)) && opt_valid git_oid (ck_implementation_commit_oid r)
  && nonblank (ck_toolchain r).

(** ** Stored payloads *)

(** An entry of [carry_forward_evidence]. *)
Record Carry := {
  cw_source_review_id : uid;
  cw_evidence_artifact_id : uid;
  cw_evidence_sha256 : string;
  cw_evidence : ReviewCarryForwardEvidence;
  cw_reviewer_descriptor_id : uid;
  cw_reviewer_descriptor_revision_id : uid;
  cw_guidance_revisions : gmap uid Z;
  cw_policy_revision_id : option uid }.
#[export] Instance Carry_eq_dec : EqDecision Carry.
Proof. solve_decision. Defined.

Record Blocker := { bk_code : string; bk_requirement : option string }.
#[export] Instance Blocker_eq_dec : EqDecision Blocker.
Proof. solve_decision. Defined.

(** [gate_result]: whether the delivered review opened the gate, and the blockers of its readiness. *)
Record GateResult := { gr_accepted_gate : option uid; gr_blockers : list Blocker }.
#[export] Instance GateResult_eq_dec : EqDecision GateResult.
Proof. solve_decision. Defined.

(** The payload of a review. *)
Record ReviewPayload := {
  py_forge_item_id : uid;
  py_commit_oid : string;
  py_verdict : decision;
  py_summary : string;
  py_assessment : option ReviewAssessment;
  py_comments : list ForgeReviewComment;
  py_policy_revision_id : option uid;
  py_reviewer_descriptor_id : option uid;
  py_reviewer_descriptor_revision_id : option uid;
  py_provider_request_id : option uid;
  py_integration_identity_id : option uid;
  py_historical : bool;
  py_reviewer_submission : bool;
  py_target_branch : option string;
  py_review_plan : option ReviewPlan;
  py_review_base_verified : bool;
  py_expected_base_oid : option string;
  py_rubric_approved : bool;
  py_carry_forward_evidence : option (list Carry);
  py_gate_result : option GateResult }.
#[export] Instance ReviewPayload_eq_dec : EqDecision ReviewPayload.
Proof. solve_decision. Defined.

#[export] Instance ReviewPayload_eta : Eta ReviewPayload := fun r =>
  Build_ReviewPayload (py_forge_item_id r) (py_commit_oid r) (py_verdict r) (py_summary r) (py_assessment r) (py_comments r)
    (py_policy_revision_id r) (py_reviewer_descriptor_id r) (py_reviewer_descriptor_revision_id r) (py_provider_request_id r)
    (py_integration_identity_id r) (py_historical r) (py_reviewer_submission r) (py_target_branch r) (py_review_plan r)
    (py_review_base_verified r) (py_expected_base_oid r) (py_rubric_approved r) (py_carry_forward_evidence r) (py_gate_result r).

(** The payload of a post: the messages read before it, with their revisions. *)
Record PostPayload := {
  po_discussion_id : uid;
  po_body_artifact_id : uid;
  po_read_messages : list (uid * Z);
  po_source_assignment_id : option uid;
  po_read_start_remote_id : option Z;
  po_require_read_receipts : bool }.
#[export] Instance PostPayload_eq_dec : EqDecision PostPayload.
Proof. solve_decision. Defined.

(** ** What a parsed submission shows *)

(** A submission as [queue_review] takes it. *)
Record well_typed (r : ForgeReview) : Prop := {
  wt_approved a : fw_verdict r = Approve -> fw_assessment r = Some a -> as_complete a = true /\ Forall (fun f => rn_severity f = Improvement) (as_findings a);
  wt_changes a : fw_verdict r = RequestChanges -> fw_assessment r = Some a -> Exists (fun f => rn_severity f = Blocking) (as_findings a);
  wt_resolutions a : fw_assessment r = Some a -> as_resolutions a <> [] -> fw_verdict r = Approve /\ fw_historical r = false;
  wt_findings a : fw_assessment r = Some a -> Forall (fun f => rn_dimension f ∈ as_dimensions a) (as_findings a);
  wt_distinct a : fw_assessment r = Some a ->
    NoDup (as_dimensions a) /\ NoDup (map rn_key (as_findings a)) /\ NoDup (map rz_review_id (as_resolutions a));
  wt_summary : fw_summary r = match fw_assessment r with Some a => Some (render (fw_verdict r) a) | None => fw_summary r end /\ is_Some (fw_summary r);
  wt_historical : fw_historical r = true -> fw_verdict r = Comment /\ is_Some (fw_provider_request_id r) /\ fw_comments r = [];
  wt_carry : fw_carry_forward r <> [] ->
    fw_verdict r = Approve /\ fw_historical r = false /\ fw_reviewer_descriptor_id r = None /\ fw_provider_request_id r = None;
  wt_sources : NoDup (map cf_source_review_id (fw_carry_forward r)) }.

Lemma check_verdict_Ok v a u :
  check_verdict v a = Ok u ->
  (v = Approve -> as_complete a = true /\ existsb is_blocking (as_findings a) = false)
  /\ (v = RequestChanges -> existsb is_blocking (as_findings a) = true) /\ (as_resolutions a <> [] -> v = Approve).
Proof.
  unfold check_verdict. destruct v, (as_complete a), (existsb is_blocking (as_findings a)), (as_resolutions a); cbn; naive_solver.
Qed.

Lemma not_blocking l : existsb is_blocking l = false -> Forall (fun f => rn_severity f = Improvement) l.
Proof.
  intros H. apply Forall_forall. intros f Hf. destruct (rn_severity f) eqn:E; [|done]. apply not_true_iff_false in H. destruct H.
  apply existsb_exists. exists f. unfold is_blocking. rewrite E. split; [by apply list_elem_of_In|done].
Qed.

Lemma some_blocking l : existsb is_blocking l = true -> Exists (fun f => rn_severity f = Blocking) l.
Proof. intros (f & Hf & Hb)%existsb_exists. apply Exists_exists. exists f. split; [by apply list_elem_of_In|]. by apply bool_decide_eq_true in Hb. Qed.

Lemma feedback_rules_Ok r r' :
  feedback_rules r = Ok r' ->
  r' = r /\ (fw_historical r = true -> fw_verdict r = Comment /\ is_Some (fw_provider_request_id r) /\ fw_comments r = [])
  /\ (fw_carry_forward r <> [] ->
      fw_verdict r = Approve /\ fw_historical r = false /\ fw_reviewer_descriptor_id r = None /\ fw_provider_request_id r = None)
  /\ NoDup (map cf_source_review_id (fw_carry_forward r)).
Proof.
  unfold feedback_rules. intros H. apply rbind_Ok in H as (? & E1%guard_Ok & H). apply rbind_Ok in H as (? & E2%guard_Ok & H).
  apply rbind_Ok in H as (? & E3%guard_Ok & [= <-]). bools. split; [done|]. split; [|split; [|done]].
  - intros Hh. rewrite Hh in E1. cbn in E1. bools. split; [done|]. destruct (fw_provider_request_id r); [|done]. destruct (fw_comments r); [|done].
    split; [by eexists|done].
  - intros Hc. destruct (fw_carry_forward r); [done|]. cbn in E2. bools. destruct (fw_historical r); [done|].
    by destruct (fw_reviewer_descriptor_id r), (fw_provider_request_id r).
Qed.

Lemma assessment_typed a :
  review_assessment_valid a = true ->
  Forall (fun f => rn_dimension f ∈ as_dimensions a) (as_findings a)
  /\ NoDup (as_dimensions a) /\ NoDup (map rn_key (as_findings a)) /\ NoDup (map rz_review_id (as_resolutions a)).
Proof.
  unfold review_assessment_valid, distinct_entries. intros H. bools. split_and!; try done. apply Forall_forall. intros f Hf.
  match goal with Hall : forallb _ _ = true |- _ => rewrite forallb_forall in Hall; apply mem_true, Hall; by apply list_elem_of_In end.
Qed.

(** C32. What a parsed submission of a review promises.  A submission carries a typed assessment or a
    summary.  When it carries an assessment, an approval has a complete one with no blocking finding, a
    change request one with a blocking finding; resolutions come only with an approval that is not
    historical, findings only in assessed dimensions, each entry once; and the summary is the rendered
    assessment.  Without an assessment, which an approval may also lack, there is a summary and none of
    these rules applies.  In both cases historical feedback is a comment of an invocation without inline
    comments, and evidence is carried forward only by an approval that is neither historical nor a
    specialist's, each source once. *)
Theorem parsed_review_well_typed r r' : forge_review_parse r = Ok r' -> well_typed r'.
Proof.
  unfold forge_review_parse, historical_feedback. intros H. apply rbind_Ok in H as (? & E%guard_Ok & H). apply negb_false_iff in E.
  repeat (apply andb_true_iff in E as [E ?]). apply rbind_Ok in H as (s & Hs & (-> & Hh & Hc & Hd)%feedback_rules_Ok).
  destruct (fw_assessment r) as [a|] eqn:Ea.
  - apply rbind_Ok in Hs as (? & (Hv1 & Hv2 & Hv3)%check_verdict_Ok & Hs). apply rbind_Ok in Hs as (? & Hg%guard_Ok & [= <-]). cbn in *.
    assert (review_assessment_valid a = true) as (Hf & Hn)%assessment_typed by done.
    split; cbn; rewrite ?Ea; try done; try (intros a' Heq; injection Heq as <-; done).
    + intros a' Hv [= <-]. destruct (Hv1 Hv) as [? ?]. split; [done|by apply not_blocking].
    + intros a' Hv [= <-]. by apply some_blocking, Hv2.
    + intros a' [= <-] Hne. split; [by apply Hv3|]. destruct (fw_historical r); [|done]. by destruct (as_resolutions a).
  - apply rbind_Ok in Hs as (? & Hg%guard_Ok & [= <-]).
    split; rewrite ?Ea; try done. destruct (fw_summary r); [by split; [|eexists]|done].
Qed.

(** A reviewer's approval of [beef] with a typed assessment. *)
Definition sample_submission : ForgeReview :=
  {| fw_forge_item_id := 60; fw_commit_oid := "beef"; fw_verdict := Approve; fw_summary := None;
     fw_assessment := Some {| as_scope := "the lemma"; as_dimensions := [ProofTrust]; as_complete := true; as_classification_confirmed := true;
                              as_evidence := ["compiled"]; as_limitations := []; as_findings := []; as_resolutions := [] |};
     fw_comments := []; fw_reviewer_descriptor_id := Some 42%positive; fw_reviewer_descriptor_revision_id := None;
     fw_provider_request_id := Some 45%positive; fw_integration_identity_id := None; fw_historical := false; fw_carry_forward := [] |}.

Lemma parsed_review_well_typed_witness : exists r', forge_review_parse sample_submission = Ok r' /\ well_typed r'.
Proof.
  destruct (is_ok_true (forge_review_parse sample_submission)) as [r' E]; [by vm_compute|].
  exists r'. split; [exact E|]. exact (parsed_review_well_typed _ _ E).
Defined.
