(* ===== verification/Schema.v ===== *)
(** * The relational state of the control plane

    src/archon_horizon/pipeline/persistence/schema.py: one record per table, with the columns
    of the table under a prefix of its own, and the database as a record of finite maps from
    identifiers to rows.  Join tables are finite sets or maps on their keys.

    An [object_reference] row is a canonical selector, so its identifier is represented by the
    selector itself ([ObjectRef]).  JSON columns that the modelled operations read are typed;
    the others are the text of their canonical JSON ([json_text]).  [db_now] is the
    transaction time of PostgreSQL, [db_clock] the clock of the process, and [db_next] supplies
    the next identifier; [tb_milestone_acceptance] keeps the snapshots that an acceptance
    record names.  Unique indexes and CHECK constraints of PostgreSQL abort a
    transaction that violates them; they are not part of the operations here. *)

From S2P Require Import Prelude Contracts ReviewContracts.

(** ** Column types *)

Abbreviation json_text := string (only parsing).

Inductive mission_status : Type :=
  | MissionOpen | MissionCompleted | MissionCancelled.
#[export] Instance mission_status_eq_dec : EqDecision mission_status.
Proof. solve_decision. Defined.

Definition mission_status_str (s : mission_status) : string :=
  match s with
  | MissionOpen => "open"
  | MissionCompleted => "completed"
  | MissionCancelled => "cancelled"
  end.

Inductive run_status : Type :=
  | RunActive | RunPaused | RunDraining | RunStopping | RunCompleted | RunCancelled.
#[export] Instance run_status_eq_dec : EqDecision run_status.
Proof. solve_decision. Defined.

Definition run_status_str (s : run_status) : string :=
  match s with
  | RunActive => "active"
  | RunPaused => "paused"
  | RunDraining => "draining"
  | RunStopping => "stopping"
  | RunCompleted => "completed"
  | RunCancelled => "cancelled"
  end.

Inductive assignment_status : Type :=
  | Pending | Running | Stopping | Completed_ | Failed | Cancelled.
#[export] Instance assignment_status_eq_dec : EqDecision assignment_status.
Proof. solve_decision. Defined.

Definition assignment_status_str (s : assignment_status) : string :=
  match s with
  | Pending => "pending"
  | Running => "running"
  | Stopping => "stopping"
  | Completed_ => "completed"
  | Failed => "failed"
  | Cancelled => "cancelled"
  end.

Inductive execution_status : Type :=
  | XStarting | XRunning | XStopping | XSucceeded | XFailed | XCancelled | XLost.
#[export] Instance execution_status_eq_dec : EqDecision execution_status.
Proof. solve_decision. Defined.

Definition execution_status_str (s : execution_status) : string :=
  match s with
  | XStarting => "starting"
  | XRunning => "running"
  | XStopping => "stopping"
  | XSucceeded => "succeeded"
  | XFailed => "failed"
  | XCancelled => "cancelled"
  | XLost => "lost"
  end.

Inductive thread_kind : Type :=
  | Primary | Child.
#[export] Instance thread_kind_eq_dec : EqDecision thread_kind.
Proof. solve_decision. Defined.

Inductive thread_status : Type :=
  | Creating | Available | Unavailable | ThreadClosed.
#[export] Instance thread_status_eq_dec : EqDecision thread_status.
Proof. solve_decision. Defined.

Definition thread_status_str (s : thread_status) : string :=
  match s with
  | Creating => "creating"
  | Available => "available"
  | Unavailable => "unavailable"
  | ThreadClosed => "closed"
  end.

Inductive request_reason : Type :=
  | ForAssignment | Continuation | ForNotification | MissionUpdated | NativeGoal |
  ForReview.
#[export] Instance request_reason_eq_dec : EqDecision request_reason.
Proof. solve_decision. Defined.

Inductive request_status : Type :=
  | QPending | QSubmitted | QRunning | QCompleted | QFailed | QInterrupted | QUncertain.
#[export] Instance request_status_eq_dec : EqDecision request_status.
Proof. solve_decision. Defined.

Definition request_status_str (s : request_status) : string :=
  match s with
  | QPending => "pending"
  | QSubmitted => "submitted"
  | QRunning => "running"
  | QCompleted => "completed"
  | QFailed => "failed"
  | QInterrupted => "interrupted"
  | QUncertain => "uncertain"
  end.

Inductive publication_status : Type :=
  | PubPending | PubRunning | PubVerified | PubFailed | PubCancelled.
#[export] Instance publication_status_eq_dec : EqDecision publication_status.
Proof. solve_decision. Defined.

Definition publication_status_str (s : publication_status) : string :=
  match s with
  | PubPending => "pending"
  | PubRunning => "running"
  | PubVerified => "verified"
  | PubFailed => "failed"
  | PubCancelled => "cancelled"
  end.

Inductive outbox_kind : Type :=
  | ProviderInputOp | GoalUpdateOp | ZulipPostOp | ForgeLabelOp | ForgeReviewOp |
  ForgeMergeOp | ForgeCreateOp | ForgeCommentOp | ForgeChangeOp | ForgeEditOp |
  PublicationOp | WorkerEventOp.
#[export] Instance outbox_kind_eq_dec : EqDecision outbox_kind.
Proof. solve_decision. Defined.

Inductive outbox_status : Type :=
  | OutPending | OutRunning | OutCompleted | OutFailed | OutUncertain | OutCancelled.
#[export] Instance outbox_status_eq_dec : EqDecision outbox_status.
Proof. solve_decision. Defined.

Inductive workspace_status : Type :=
  | WPreparing | WReady | WUnavailable | WRetired.
#[export] Instance workspace_status_eq_dec : EqDecision workspace_status.
Proof. solve_decision. Defined.

Definition workspace_status_str (s : workspace_status) : string :=
  match s with
  | WPreparing => "preparing"
  | WReady => "ready"
  | WUnavailable => "unavailable"
  | WRetired => "retired"
  end.

Inductive job_status : Type :=
  | JobQueued | JobRunning | JobCompleted | JobFailed.
#[export] Instance job_status_eq_dec : EqDecision job_status.
Proof. solve_decision. Defined.

Definition job_status_str (s : job_status) : string :=
  match s with
  | JobQueued => "queued"
  | JobRunning => "running"
  | JobCompleted => "completed"
  | JobFailed => "failed"
  end.

Inductive host_mode : Type :=
  | HostEnabled | HostDraining | HostDisabled.
#[export] Instance host_mode_eq_dec : EqDecision host_mode.
Proof. solve_decision. Defined.

Inductive adapter : Type :=
  | CodexAppServer | CodexExec | ClaudeExec.
#[export] Instance adapter_eq_dec : EqDecision adapter.
Proof. solve_decision. Defined.

Inductive urgency : Type :=
  | Routine | Direct | Control.
#[export] Instance urgency_eq_dec : EqDecision urgency.
Proof. solve_decision. Defined.

Inductive disposition : Type :=
  | DispPending | DispHandled | DispDismissed.
#[export] Instance disposition_eq_dec : EqDecision disposition.
Proof. solve_decision. Defined.

Inductive principal_kind : Type :=
  | Human | HostPrincipal | Agent | ServicePrincipal.
#[export] Instance principal_kind_eq_dec : EqDecision principal_kind.
Proof. solve_decision. Defined.

Inductive credential_kind : Type :=
  | BrowserSession | ApiKey | HostKey | ExecutionToken.
#[export] Instance credential_kind_eq_dec : EqDecision credential_kind.
Proof. solve_decision. Defined.

Inductive grant_role : Type :=
  | ViewerGrant | WorkerGrant | MaintainerGrant.
#[export] Instance grant_role_eq_dec : EqDecision grant_role.
Proof. solve_decision. Defined.

Inductive document_kind : Type :=
  | Roadmap | Specification | Notes | ReferenceList.
#[export] Instance document_kind_eq_dec : EqDecision document_kind.
Proof. solve_decision. Defined.

Inductive purpose : Type :=
  | WorkspaceRepo | KnowledgeRepo | ReferenceRepo | LibraryRepo.
#[export] Instance purpose_eq_dec : EqDecision purpose.
Proof. solve_decision. Defined.

Inductive snapshot_status : Type :=
  | Provisional | Frozen.
#[export] Instance snapshot_status_eq_dec : EqDecision snapshot_status.
Proof. solve_decision. Defined.

Inductive item_status : Type :=
  | ItemOpen | ItemMerged | ItemClosed | ItemResolved.
#[export] Instance item_status_eq_dec : EqDecision item_status.
Proof. solve_decision. Defined.

Definition item_status_str (s : item_status) : string :=
  match s with
  | ItemOpen => "open"
  | ItemMerged => "merged"
  | ItemClosed => "closed"
  | ItemResolved => "resolved"
  end.

Inductive verdict : Type :=
  | Approved | ChangesRequested | Commented | Dismissed.
#[export] Instance verdict_eq_dec : EqDecision verdict.
Proof. solve_decision. Defined.

Inductive gate_status : Type :=
  | GatePending | GateAccepted | GateRejected | GateStale.
#[export] Instance gate_status_eq_dec : EqDecision gate_status.
Proof. solve_decision. Defined.

Definition gate_status_str (s : gate_status) : string :=
  match s with
  | GatePending => "pending"
  | GateAccepted => "accepted"
  | GateRejected => "rejected"
  | GateStale => "stale"
  end.

Inductive artifact_purpose : Type :=
  | Evidence | ReviewerManifest.
#[export] Instance artifact_purpose_eq_dec : EqDecision artifact_purpose.
Proof. solve_decision. Defined.

Inductive specialist_mode : Type :=
  | SpecialistRequired | SpecialistAdvisory.
#[export] Instance specialist_mode_eq_dec : EqDecision specialist_mode.
Proof. solve_decision. Defined.

Inductive invocation : Type :=
  | Subrequest | AsAssignment.
#[export] Instance invocation_eq_dec : EqDecision invocation.
Proof. solve_decision. Defined.

Inductive artifact_kind : Type :=
  | CommitArtifact | BlobArtifact | ExternalArtifact.
#[export] Instance artifact_kind_eq_dec : EqDecision artifact_kind.
Proof. solve_decision. Defined.

Inductive activity_kind : Type :=
  | CheckpointActivity | ProgressActivity | ToolUse | CompletionActivity | FailureActivity.
#[export] Instance activity_kind_eq_dec : EqDecision activity_kind.
Proof. solve_decision. Defined.

Inductive verification_kind : Type :=
  | LeanBuild | KernelCheck | TestCheck | ReviewCheck.
#[export] Instance verification_kind_eq_dec : EqDecision verification_kind.
Proof. solve_decision. Defined.

Inductive verification_result : Type :=
  | Passed | FailedCheck | Inconclusive.
#[export] Instance verification_result_eq_dec : EqDecision verification_result.
Proof. solve_decision. Defined.

Inductive reference_kind : Type :=
  | Article | Book | Inproceedings | Thesis | Report | Webpage | Dataset | OtherReference.
#[export] Instance reference_kind_eq_dec : EqDecision reference_kind.
Proof. solve_decision. Defined.

Inductive reference_status : Type :=
  | RefActive | RefIncomplete | RefWithdrawn.
#[export] Instance reference_status_eq_dec : EqDecision reference_status.
Proof. solve_decision. Defined.

Definition reference_status_str (s : reference_status) : string :=
  match s with
  | RefActive => "active"
  | RefIncomplete => "incomplete"
  | RefWithdrawn => "withdrawn"
  end.

Inductive message_purpose : Type :=
  | LinkPurpose | MentionPurpose.
#[export] Instance message_purpose_eq_dec : EqDecision message_purpose.
Proof. solve_decision. Defined.

Inductive sync_status : Type :=
  | SyncCurrent | SyncReconciling | SyncUnavailable.
#[export] Instance sync_status_eq_dec : EqDecision sync_status.
Proof. solve_decision. Defined.

Inductive usage_status : Type :=
  | Measured | InitialSessionTotal | OutOfOrder | CounterResetUnknown | UnknownScope |
  PartialBaseline.
#[export] Instance usage_status_eq_dec : EqDecision usage_status.
Proof. solve_decision. Defined.

Inductive limit_kind : Type :=
  | ProviderAccount | BuildPool.
#[export] Instance limit_kind_eq_dec : EqDecision limit_kind.
Proof. solve_decision. Defined.

Inductive integration_kind : Type :=
  | ForgeIntegration | ZulipIntegration.
#[export] Instance integration_kind_eq_dec : EqDecision integration_kind.
Proof. solve_decision. Defined.

Inductive api_status : Type :=
  | ApiPending | ApiCompleted | ApiFailed.
#[export] Instance api_status_eq_dec : EqDecision api_status.
Proof. solve_decision. Defined.

Inductive subscription_mode : Type :=
  | Digest | Prompt | Muted.
#[export] Instance subscription_mode_eq_dec : EqDecision subscription_mode.
Proof. solve_decision. Defined.

Inductive subscription_origin : Type :=
  | AssignmentOrigin | ExplicitOrigin.
#[export] Instance subscription_origin_eq_dec : EqDecision subscription_origin.
Proof. solve_decision. Defined.

Record comment := { cm_author : uid; cm_markdown : string; cm_created_at : instant }.

(** An entry of [run.phase_history]. *)
Record phase_acceptance := {
  pa_phase : RunPhase;
  pa_objective_commit : string;
  pa_accepted_by : uid;
  pa_note : string;
  pa_evidence : list ObjectRef }.

(** [run.pending_phase]: the next phase, or the end of the run when there is none, with the
    session that accepted the phase. *)
Record pending_phase := { pp_next : option RunPhase; pp_owner_session : option uid }.

Record host_harness := {
  hx_executable_path : string;
  hx_provider_home : string;
  hx_credential_ref : string;
  hx_execution_slots : Z;
  hx_max_parallel_subagents : option Z;
  hx_enabled : bool;
  hx_updated_at : instant;
  hx_revision : Z }.

Record run_coordination := {
  rc_frontier_hash : string;
  rc_last_progress_at : instant;
  rc_checked_at : instant;
  rc_audit_obligation_id : option uid;
  rc_audit_frontier_hash : option string }.

Record review_demand := {
  dm_run_id : uid;
  dm_generation : Z;
  dm_fingerprint : string;
  dm_attention : bool;
  dm_observed_label : bool;
  dm_assignment_id : option uid;
  dm_handled_generation : Z;
  dm_owner_generation : Z;
  dm_note : option string;
  dm_requested_at : instant }.

#[export] Instance review_demand_eta : Eta review_demand := fun r =>
  Build_review_demand (dm_run_id r) (dm_generation r) (dm_fingerprint r) (dm_attention r) (dm_observed_label r)
    (dm_assignment_id r) (dm_handled_generation r) (dm_owner_generation r) (dm_note r) (dm_requested_at r).

(** The owner of the review of a head by one reviewer under one policy, keyed by the item, the
    head, the revisions of reviewer and policy, and the target branch. *)
Record review_work := {
  wk_provider_request_id : option uid;
  wk_assignment_id : option uid;
  wk_obligation_id : uid;
  wk_attempts : Z }.

(** [outbox_operation.failure]: a failure, with the attempts that were put off. *)
Record DeliveryFailure := { df_failure : Failure; df_deferred_attempts : option Z }.

Definition plain_failure (f : Failure) : DeliveryFailure := {| df_failure := f; df_deferred_attempts := None |}.

(** The counters of a usage sample; a cost is a number of 10^-12 dollars, the scale of the column. *)
Record counters := {
  c_input_tokens : option Z;
  c_cached_input_tokens : option Z;
  c_output_tokens : option Z;
  c_cost_usd : option Z }.
#[export] Instance counters_eq_dec : EqDecision counters.
Proof. solve_decision. Defined.

(** [usage_record.accounting]: the evidence of a native counter; the stored observation time is
    the text [isoformat] of the instant. *)
Record Accounting := {
  ua_scope : string;
  ua_identity : option string;
  ua_epoch : option string;
  ua_raw : counters;
  ua_checkpoint : option counters;
  ua_observed_at : instant;
  ua_status : usage_status }.

(** The payload of an event, one constructor per [kind]: the two that [records.emit] writes,
    the control notice of execution/notifications.py, and the provider evidence of
    execution/worker_events.py. *)
Inductive event_payload : Type :=
| RecordChanged (revision : Z) (changed_fields : list string) (note : option string)
| StatusChanged (revision : Z) (previous current : string) (note : option string)
| ControlNotice (category : string) (operation_id : option uid) (message : string)
| ProviderObservedEvent (provider_thread_id : uid) (provider_event_id : string) (body_artifact_id : uid).

(** The payload of an outbox operation, one constructor per kind that the modelled operations
    read, or another operation's JSON. *)
Inductive payload : Type :=
| PGoalUpdate (provider_thread_id mission_revision_id : uid) (run_revision : Z) (roadmap_snapshot_id : option uid)
| PLabel (forge_item_id : uid) (add remove : list string) (integration_identity_id : option uid) (review_generation : option Z)
| PReview (body : ReviewPayload)
| PMerge (body : ForgeMerge) (expected_base expected_base_oid : option string)
| PEdit (body : ForgeEdit)
| PComment (body : ForgeComment) (integration_identity_id : option uid)
| PCreate (body : ForgeCreate)
| PChange (body : ForgeChange)
| PPost (body : PostPayload)
| POther (body : json_text).
#[export] Instance payload_eq_dec : EqDecision payload.
Proof. solve_decision. Defined.

(** ** Tables *)

Record project := {
  p_id : uid;
  p_created_at : instant;
  p_updated_at : instant;
  p_revision : Z;
  p_number : Z;
  p_slug : string;
  p_title : string;
  p_description : string;
  p_workflow : workflow;
  p_archived_at : option instant }.

#[export] Instance project_eta : Eta project := fun r =>
  Build_project (p_id r) (p_created_at r) (p_updated_at r) (p_revision r) (p_number r) (p_slug r)
    (p_title r) (p_description r) (p_workflow r) (p_archived_at r).

Record integration := {
  ig_id : uid;
  ig_created_at : instant;
  ig_updated_at : instant;
  ig_revision : Z;
  ig_kind : integration_kind;
  ig_endpoint : string;
  ig_credential_ref : string;
  ig_enabled : bool }.

#[export] Instance integration_eta : Eta integration := fun r =>
  Build_integration (ig_id r) (ig_created_at r) (ig_updated_at r) (ig_revision r) (ig_kind r)
    (ig_endpoint r) (ig_credential_ref r) (ig_enabled r).

Record repository := {
  rp_id : uid;
  rp_created_at : instant;
  rp_updated_at : instant;
  rp_revision : Z;
  rp_project_id : uid;
  rp_slug : string;
  rp_integration_id : uid;
  rp_remote_id : string;
  rp_remote_path : option string;
  rp_default_branch : string;
  rp_purpose : purpose;
  rp_archived_at : option instant }.

#[export] Instance repository_eta : Eta repository := fun r =>
  Build_repository (rp_id r) (rp_created_at r) (rp_updated_at r) (rp_revision r) (rp_project_id r)
    (rp_slug r) (rp_integration_id r) (rp_remote_id r) (rp_remote_path r) (rp_default_branch r)
    (rp_purpose r) (rp_archived_at r).

Record document := {
  d_id : uid;
  d_created_at : instant;
  d_updated_at : instant;
  d_revision : Z;
  d_project_id : uid;
  d_number : Z;
  d_kind : document_kind;
  d_title : string;
  d_source_repository_id : uid;
  d_source_path : string;
  d_source_commit_oid : string;
  d_archived_at : option instant }.

#[export] Instance document_eta : Eta document := fun r =>
  Build_document (d_id r) (d_created_at r) (d_updated_at r) (d_revision r) (d_project_id r)
    (d_number r) (d_kind r) (d_title r) (d_source_repository_id r) (d_source_path r)
    (d_source_commit_oid r) (d_archived_at r).

Record node := {
  n_id : uid;
  n_created_at : instant;
  n_updated_at : instant;
  n_revision : Z;
  n_project_id : uid;
  n_number : Z;
  n_title : string;
  n_source_repository_id : uid;
  n_source_path : string;
  n_source_commit_oid : string;
  n_archived_at : option instant }.

#[export] Instance node_eta : Eta node := fun r =>
  Build_node (n_id r) (n_created_at r) (n_updated_at r) (n_revision r) (n_project_id r) (n_number
    r) (n_title r) (n_source_repository_id r) (n_source_path r) (n_source_commit_oid r)
    (n_archived_at r).

Record mission := {
  m_id : uid;
  m_created_at : instant;
  m_updated_at : instant;
  m_revision : Z;
  m_project_id : uid;
  m_number : Z;
  m_parent_id : option uid;
  m_roadmap_document_id : option uid;
  m_title : string;
  m_objective : string;
  m_status : mission_status;
  m_acceptance_criteria : list string;
  m_delegation_note : option string;
  m_scope : Scope;
  m_max_open_children : Z;
  m_closed_at : option instant;
  m_closure_note : option string;
  m_archived_at : option instant }.

#[export] Instance mission_eta : Eta mission := fun r =>
  Build_mission (m_id r) (m_created_at r) (m_updated_at r) (m_revision r) (m_project_id r)
    (m_number r) (m_parent_id r) (m_roadmap_document_id r) (m_title r) (m_objective r) (m_status
    r) (m_acceptance_criteria r) (m_delegation_note r) (m_scope r) (m_max_open_children r)
    (m_closed_at r) (m_closure_note r) (m_archived_at r).

Record reference := {
  rf_id : uid;
  rf_created_at : instant;
  rf_updated_at : instant;
  rf_revision : Z;
  rf_project_id : uid;
  rf_cite_key : string;
  rf_kind : reference_kind;
  rf_title : string;
  rf_authors : list string;
  rf_issued_year : option Z;
  rf_venue : option string;
  rf_identifiers : json_text;
  rf_urls : list string;
  rf_abstract : option string;
  rf_metadata_source : option string;
  rf_status : reference_status;
  rf_archived_at : option instant }.

#[export] Instance reference_eta : Eta reference := fun r =>
  Build_reference (rf_id r) (rf_created_at r) (rf_updated_at r) (rf_revision r) (rf_project_id r)
    (rf_cite_key r) (rf_kind r) (rf_title r) (rf_authors r) (rf_issued_year r) (rf_venue r)
    (rf_identifiers r) (rf_urls r) (rf_abstract r) (rf_metadata_source r) (rf_status r)
    (rf_archived_at r).

Record review_policy := {
  rv_id : uid;
  rv_created_at : instant;
  rv_updated_at : instant;
  rv_revision : Z;
  rv_project_id : uid;
  rv_slug : string;
  rv_specialist_mode : specialist_mode;
  rv_maintainer_identity_id : option uid;
  rv_phases : list phase_kind;
  rv_instructions : string;
  rv_required_checks : list string;
  rv_attention_labels : list string;
  rv_enabled : bool }.

#[export] Instance review_policy_eta : Eta review_policy := fun r =>
  Build_review_policy (rv_id r) (rv_created_at r) (rv_updated_at r) (rv_revision r) (rv_project_id
    r) (rv_slug r) (rv_specialist_mode r) (rv_maintainer_identity_id r) (rv_phases r)
    (rv_instructions r) (rv_required_checks r) (rv_attention_labels r) (rv_enabled r).

Record reviewer_descriptor := {
  rd_id : uid;
  rd_created_at : instant;
  rd_updated_at : instant;
  rd_revision : Z;
  rd_project_id : uid;
  rd_slug : string;
  rd_functions : list string;
  rd_instructions : string;
  rd_harness_id : option uid;
  rd_model_options : ModelOptions;
  rd_invocation : invocation;
  rd_integration_identity_id : option uid;
  rd_enabled : bool }.

#[export] Instance reviewer_descriptor_eta : Eta reviewer_descriptor := fun r =>
  Build_reviewer_descriptor (rd_id r) (rd_created_at r) (rd_updated_at r) (rd_revision r)
    (rd_project_id r) (rd_slug r) (rd_functions r) (rd_instructions r) (rd_harness_id r)
    (rd_model_options r) (rd_invocation r) (rd_integration_identity_id r) (rd_enabled r).

Record integration_identity := {
  ii_id : uid;
  ii_created_at : instant;
  ii_updated_at : instant;
  ii_revision : Z;
  ii_integration_id : uid;
  ii_principal_id : uid;
  ii_remote_user_id : string;
  ii_credential_ref : string;
  ii_enabled : bool }.

#[export] Instance integration_identity_eta : Eta integration_identity := fun r =>
  Build_integration_identity (ii_id r) (ii_created_at r) (ii_updated_at r) (ii_revision r)
    (ii_integration_id r) (ii_principal_id r) (ii_remote_user_id r) (ii_credential_ref r)
    (ii_enabled r).

Record forge_review := {
  fr_id : uid;
  fr_created_at : instant;
  fr_forge_item_id : uid;
  fr_remote_id : string;
  fr_reviewer_remote_id : string;
  fr_reviewer_principal_id : option uid;
  fr_reviewer_descriptor_id : option uid;
  fr_reviewer_descriptor_revision_id : option uid;
  fr_provider_request_id : option uid;
  fr_integration_identity_id : option uid;
  fr_reviewer_functions : list string;
  fr_verdict : verdict;
  fr_summary : string;
  fr_commit_oid : string;
  fr_observed_at : instant }.

#[export] Instance forge_review_eta : Eta forge_review := fun r =>
  Build_forge_review (fr_id r) (fr_created_at r) (fr_forge_item_id r) (fr_remote_id r)
    (fr_reviewer_remote_id r) (fr_reviewer_principal_id r) (fr_reviewer_descriptor_id r)
    (fr_reviewer_descriptor_revision_id r) (fr_provider_request_id r) (fr_integration_identity_id
    r) (fr_reviewer_functions r) (fr_verdict r) (fr_summary r) (fr_commit_oid r) (fr_observed_at
    r).

Record review_gate := {
  rg_id : uid;
  rg_created_at : instant;
  rg_updated_at : instant;
  rg_revision : Z;
  rg_forge_item_id : uid;
  rg_policy_id : uid;
  rg_policy_revision_id : uid;
  rg_maintainer_review_id : option uid;
  rg_status : gate_status;
  rg_accepted_commit_oid : option string;
  rg_evaluated_at : option instant }.

#[export] Instance review_gate_eta : Eta review_gate := fun r =>
  Build_review_gate (rg_id r) (rg_created_at r) (rg_updated_at r) (rg_revision r)
    (rg_forge_item_id r) (rg_policy_id r) (rg_policy_revision_id r) (rg_maintainer_review_id r)
    (rg_status r) (rg_accepted_commit_oid r) (rg_evaluated_at r).

Record roadmap_snapshot := {
  rs_id : uid;
  rs_created_at : instant;
  rs_project_id : uid;
  rs_roadmap_document_id : uid;
  rs_source_commit_oid : string;
  rs_graph_manifest_artifact_id : uid;
  rs_acceptance_artifact_id : option uid;
  rs_status : snapshot_status;
  rs_frozen_at : option instant }.

#[export] Instance roadmap_snapshot_eta : Eta roadmap_snapshot := fun r =>
  Build_roadmap_snapshot (rs_id r) (rs_created_at r) (rs_project_id r) (rs_roadmap_document_id r)
    (rs_source_commit_oid r) (rs_graph_manifest_artifact_id r) (rs_acceptance_artifact_id r)
    (rs_status r) (rs_frozen_at r).

Record milestone_check := {
  mk_id : uid;
  mk_created_at : instant;
  mk_project_id : uid;
  mk_repository_id : uid;
  mk_principal_id : uid;
  mk_source_commit_oid : string;
  mk_base_commit_oid : string;
  mk_kind : check_kind;
  mk_report : CheckReport;
  mk_report_sha256 : string }.

#[export] Instance milestone_check_eta : Eta milestone_check := fun r =>
  Build_milestone_check (mk_id r) (mk_created_at r) (mk_project_id r) (mk_repository_id r)
    (mk_principal_id r) (mk_source_commit_oid r) (mk_base_commit_oid r) (mk_kind r) (mk_report r)
    (mk_report_sha256 r).

Record milestone_job := {
  mj_id : uid;
  mj_created_at : instant;
  mj_updated_at : instant;
  mj_revision : Z;
  mj_project_id : uid;
  mj_host_id : uid;
  mj_workspace_id : uid;
  mj_principal_id : uid;
  mj_request : json_text;
  mj_status : job_status;
  mj_attempts : Z;
  mj_claim_token : option uid;
  mj_lease_until : option instant;
  mj_check_id : option uid;
  mj_error : option string }.

#[export] Instance milestone_job_eta : Eta milestone_job := fun r =>
  Build_milestone_job (mj_id r) (mj_created_at r) (mj_updated_at r) (mj_revision r) (mj_project_id
    r) (mj_host_id r) (mj_workspace_id r) (mj_principal_id r) (mj_request r) (mj_status r)
    (mj_attempts r) (mj_claim_token r) (mj_lease_until r) (mj_check_id r) (mj_error r).

Record run := {
  r_id : uid;
  r_created_at : instant;
  r_updated_at : instant;
  r_revision : Z;
  r_number : Z;
  r_mission_id : uid;
  r_phase : RunPhase;
  r_objective_id : option uid;
  r_orchestration : orchestration;
  r_queue_policies : gmap string QueuePolicy;
  r_requested_phases : list phase_kind;
  r_phase_history : list phase_acceptance;
  r_pending_phase : option pending_phase;
  r_auto_advance : bool;
  r_adopted_roadmap_snapshot_id : option uid;
  r_status : run_status;
  r_status_note : option string;
  r_started_at : option instant;
  r_finished_at : option instant;
  r_max_assignments : option Z;
  r_token_budget : option Z;
  r_expires_at : option instant;
  r_retry_policy : RetryPolicy }.

#[export] Instance run_eta : Eta run := fun r =>
  Build_run (r_id r) (r_created_at r) (r_updated_at r) (r_revision r) (r_number r) (r_mission_id
    r) (r_phase r) (r_objective_id r) (r_orchestration r) (r_queue_policies r) (r_requested_phases
    r) (r_phase_history r) (r_pending_phase r) (r_auto_advance r) (r_adopted_roadmap_snapshot_id
    r) (r_status r) (r_status_note r) (r_started_at r) (r_finished_at r) (r_max_assignments r)
    (r_token_budget r) (r_expires_at r) (r_retry_policy r).

Record automation := {
  au_id : uid;
  au_created_at : instant;
  au_updated_at : instant;
  au_revision : Z;
  au_run_id : uid;
  au_name : string;
  au_mission_id : uid;
  au_frontier_hash : option string;
  au_pause_reason : option string;
  au_role : role;
  au_functions : list string;
  au_instructions : option string;
  au_enabled : bool;
  au_start_condition : option Condition;
  au_not_before : option instant;
  au_cooldown_seconds : Z;
  au_no_progress_count : Z }.

#[export] Instance automation_eta : Eta automation := fun r =>
  Build_automation (au_id r) (au_created_at r) (au_updated_at r) (au_revision r) (au_run_id r)
    (au_name r) (au_mission_id r) (au_frontier_hash r) (au_pause_reason r) (au_role r)
    (au_functions r) (au_instructions r) (au_enabled r) (au_start_condition r) (au_not_before r)
    (au_cooldown_seconds r) (au_no_progress_count r).

Record assignment := {
  a_id : uid;
  a_created_at : instant;
  a_updated_at : instant;
  a_revision : Z;
  a_run_id : uid;
  a_number : Z;
  a_mission_id : uid;
  a_category : option string;
  a_recurrence_key : option string;
  a_pause_reason : option string;
  a_parent_id : option uid;
  a_automation_id : option uid;
  a_reviewer_descriptor_id : option uid;
  a_role : role;
  a_functions : list string;
  a_instructions : option string;
  a_harness_id : option uid;
  a_model_options : ModelOptions;
  a_status : assignment_status;
  a_status_note : option string;
  a_queue_rank : Z;
  a_not_before : option instant;
  a_expires_at : option instant;
  a_start_condition : option Condition;
  a_checkpoint_requested_at : option instant;
  a_retry_at : option instant;
  a_started_at : option instant;
  a_finished_at : option instant;
  a_recovery_attempts : Z }.

#[export] Instance assignment_eta : Eta assignment := fun r =>
  Build_assignment (a_id r) (a_created_at r) (a_updated_at r) (a_revision r) (a_run_id r)
    (a_number r) (a_mission_id r) (a_category r) (a_recurrence_key r) (a_pause_reason r)
    (a_parent_id r) (a_automation_id r) (a_reviewer_descriptor_id r) (a_role r) (a_functions r)
    (a_instructions r) (a_harness_id r) (a_model_options r) (a_status r) (a_status_note r)
    (a_queue_rank r) (a_not_before r) (a_expires_at r) (a_start_condition r)
    (a_checkpoint_requested_at r) (a_retry_at r) (a_started_at r) (a_finished_at r)
    (a_recovery_attempts r).

Record execution := {
  x_id : uid;
  x_created_at : instant;
  x_updated_at : instant;
  x_revision : Z;
  x_native_capacity : option Z;
  x_assignment_id : uid;
  x_number : Z;
  x_host_id : uid;
  x_workspace_id : uid;
  x_harness_id : uid;
  x_assignment_revision_id : uid;
  x_mission_revision_id : uid;
  x_harness_revision_id : uid;
  x_skill_bundle_artifact_id : uid;
  x_roadmap_snapshot_id : option uid;
  x_sandbox_manifest_artifact_id : uid;
  x_status : execution_status;
  x_lease_expires_at : instant;
  x_heartbeat_at : option instant;
  x_started_at : option instant;
  x_finished_at : option instant;
  x_stop_confirmed_at : option instant;
  x_failure : option Failure }.

#[export] Instance execution_eta : Eta execution := fun r =>
  Build_execution (x_id r) (x_created_at r) (x_updated_at r) (x_revision r) (x_native_capacity r)
    (x_assignment_id r) (x_number r) (x_host_id r) (x_workspace_id r) (x_harness_id r)
    (x_assignment_revision_id r) (x_mission_revision_id r) (x_harness_revision_id r)
    (x_skill_bundle_artifact_id r) (x_roadmap_snapshot_id r) (x_sandbox_manifest_artifact_id r)
    (x_status r) (x_lease_expires_at r) (x_heartbeat_at r) (x_started_at r) (x_finished_at r)
    (x_stop_confirmed_at r) (x_failure r).

Record provider_thread := {
  t_id : uid;
  t_created_at : instant;
  t_updated_at : instant;
  t_revision : Z;
  t_assignment_id : uid;
  t_number : Z;
  t_label : option string;
  t_description : option string;
  t_kind : thread_kind;
  t_parent_request_id : option uid;
  t_workspace_id : uid;
  t_harness_revision_id : uid;
  t_skill_bundle_artifact_id : uid;
  t_provider_thread_id : option string;
  t_provider_state_ref : string;
  t_predecessor_id : option uid;
  t_recovery_note : option string;
  t_applied_mission_revision_id : option uid;
  t_applied_roadmap_snapshot_id : option uid;
  t_applied_run_revision : option Z;
  t_applied_model_options : ModelOptions;
  t_status : thread_status }.

#[export] Instance provider_thread_eta : Eta provider_thread := fun r =>
  Build_provider_thread (t_id r) (t_created_at r) (t_updated_at r) (t_revision r) (t_assignment_id
    r) (t_number r) (t_label r) (t_description r) (t_kind r) (t_parent_request_id r)
    (t_workspace_id r) (t_harness_revision_id r) (t_skill_bundle_artifact_id r)
    (t_provider_thread_id r) (t_provider_state_ref r) (t_predecessor_id r) (t_recovery_note r)
    (t_applied_mission_revision_id r) (t_applied_roadmap_snapshot_id r) (t_applied_run_revision r)
    (t_applied_model_options r) (t_status r).

Record provider_request := {
  q_id : uid;
  q_created_at : instant;
  q_updated_at : instant;
  q_revision : Z;
  q_provider_thread_id : uid;
  q_execution_id : uid;
  q_number : Z;
  q_reason : request_reason;
  q_reviewer_descriptor_id : option uid;
  q_reviewer_descriptor_revision_id : option uid;
  q_guidance_manifest_artifact_id : option uid;
  q_input_artifact_id : option uid;
  q_provider_turn_id : option string;
  q_native_background : option bool;
  q_status : request_status;
  q_submitted_at : option instant;
  q_started_at : option instant;
  q_finished_at : option instant;
  q_failure : option Failure }.

#[export] Instance provider_request_eta : Eta provider_request := fun r =>
  Build_provider_request (q_id r) (q_created_at r) (q_updated_at r) (q_revision r)
    (q_provider_thread_id r) (q_execution_id r) (q_number r) (q_reason r)
    (q_reviewer_descriptor_id r) (q_reviewer_descriptor_revision_id r)
    (q_guidance_manifest_artifact_id r) (q_input_artifact_id r) (q_provider_turn_id r)
    (q_native_background r) (q_status r) (q_submitted_at r) (q_started_at r) (q_finished_at r)
    (q_failure r).

Record obligation := {
  o_id : uid;
  o_created_at : instant;
  o_updated_at : instant;
  o_revision : Z;
  o_assignment_id : uid;
  o_created_by_execution_id : option uid;
  o_comments : list comment;
  o_number : Z;
  o_kind : obligation_kind;
  o_description : string;
  o_status : obligation_status;
  o_resolution : option Resolution }.

#[export] Instance obligation_eta : Eta obligation := fun r =>
  Build_obligation (o_id r) (o_created_at r) (o_updated_at r) (o_revision r) (o_assignment_id r)
    (o_created_by_execution_id r) (o_comments r) (o_number r) (o_kind r) (o_description r)
    (o_status r) (o_resolution r).

Record artifact := {
  ar_id : uid;
  ar_created_at : instant;
  ar_project_id : uid;
  ar_created_by_execution_id : option uid;
  ar_kind : artifact_kind;
  ar_content : artifact_content }.

#[export] Instance artifact_eta : Eta artifact := fun r =>
  Build_artifact (ar_id r) (ar_created_at r) (ar_project_id r) (ar_created_by_execution_id r)
    (ar_kind r) (ar_content r).

Record artifact_location := {
  al_id : uid;
  al_created_at : instant;
  al_updated_at : instant;
  al_revision : Z;
  al_artifact_id : uid;
  al_host_id : option uid;
  al_locator : string;
  al_verified_at : option instant;
  al_missing_since : option instant;
  al_removed_at : option instant;
  al_removal_reason : option string }.

#[export] Instance artifact_location_eta : Eta artifact_location := fun r =>
  Build_artifact_location (al_id r) (al_created_at r) (al_updated_at r) (al_revision r)
    (al_artifact_id r) (al_host_id r) (al_locator r) (al_verified_at r) (al_missing_since r)
    (al_removed_at r) (al_removal_reason r).

Record publication := {
  pb_id : uid;
  pb_created_at : instant;
  pb_updated_at : instant;
  pb_revision : Z;
  pb_artifact_id : uid;
  pb_requested_by_assignment_id : uid;
  pb_target : PublicationTarget;
  pb_review_gate_id : option uid;
  pb_status : publication_status;
  pb_retry_count : Z;
  pb_retry_at : option instant;
  pb_lease_owner_host_id : option uid;
  pb_lease_epoch : Z;
  pb_lease_expires_at : option instant;
  pb_verified_at : option instant;
  pb_failure : option Failure }.

#[export] Instance publication_eta : Eta publication := fun r =>
  Build_publication (pb_id r) (pb_created_at r) (pb_updated_at r) (pb_revision r) (pb_artifact_id
    r) (pb_requested_by_assignment_id r) (pb_target r) (pb_review_gate_id r) (pb_status r)
    (pb_retry_count r) (pb_retry_at r) (pb_lease_owner_host_id r) (pb_lease_epoch r)
    (pb_lease_expires_at r) (pb_verified_at r) (pb_failure r).

Record forge_item := {
  fi_id : uid;
  fi_created_at : instant;
  fi_updated_at : instant;
  fi_revision : Z;
  fi_repository_id : uid;
  fi_remote_number : Z;
  fi_kind : item_kind;
  fi_origin_run_id : option uid;
  fi_review_phase : option phase_kind;
  fi_target_branch : option string;
  fi_title : string;
  fi_status : item_status;
  fi_head_commit_oid : option string;
  fi_author_remote_id : option string;
  fi_labels : list string;
  fi_observed_at : instant }.

#[export] Instance forge_item_eta : Eta forge_item := fun r =>
  Build_forge_item (fi_id r) (fi_created_at r) (fi_updated_at r) (fi_revision r) (fi_repository_id
    r) (fi_remote_number r) (fi_kind r) (fi_origin_run_id r) (fi_review_phase r) (fi_target_branch
    r) (fi_title r) (fi_status r) (fi_head_commit_oid r) (fi_author_remote_id r) (fi_labels r)
    (fi_observed_at r).

Record verification := {
  vf_id : uid;
  vf_created_at : instant;
  vf_artifact_id : uid;
  vf_execution_id : uid;
  vf_kind : verification_kind;
  vf_result : verification_result;
  vf_description : string;
  vf_log_artifact_id : option uid }.

#[export] Instance verification_eta : Eta verification := fun r =>
  Build_verification (vf_id r) (vf_created_at r) (vf_artifact_id r) (vf_execution_id r) (vf_kind
    r) (vf_result r) (vf_description r) (vf_log_artifact_id r).

Record usage_record := {
  us_id : uid;
  us_created_at : instant;
  us_execution_id : uid;
  us_provider_thread_id : option uid;
  us_provider_record_id : string;
  us_input_tokens : option Z;
  us_cached_input_tokens : option Z;
  us_output_tokens : option Z;
  us_cost_usd : option Z;
  us_accounting : option Accounting }.

#[export] Instance usage_record_eta : Eta usage_record := fun r =>
  Build_usage_record (us_id r) (us_created_at r) (us_execution_id r) (us_provider_thread_id r)
    (us_provider_record_id r) (us_input_tokens r) (us_cached_input_tokens r) (us_output_tokens r)
    (us_cost_usd r) (us_accounting r).

Record activity := {
  ac_id : uid;
  ac_created_at : instant;
  ac_assignment_id : uid;
  ac_execution_id : uid;
  ac_provider_thread_id : option uid;
  ac_provider_request_id : option uid;
  ac_kind : activity_kind;
  ac_summary : option string;
  ac_skills_used : list string;
  ac_usage_record_id : option uid;
  ac_occurred_at : instant }.

#[export] Instance activity_eta : Eta activity := fun r =>
  Build_activity (ac_id r) (ac_created_at r) (ac_assignment_id r) (ac_execution_id r)
    (ac_provider_thread_id r) (ac_provider_request_id r) (ac_kind r) (ac_summary r)
    (ac_skills_used r) (ac_usage_record_id r) (ac_occurred_at r).

Record host := {
  h_id : uid;
  h_created_at : instant;
  h_updated_at : instant;
  h_revision : Z;
  h_slug : string;
  h_display_name : string;
  h_workspace_root : string;
  h_scratch_root : string;
  h_sandbox : SandboxPolicy;
  h_mode : host_mode;
  h_heartbeat_at : option instant;
  h_agent_version : option string;
  h_health : option HostHealth }.

#[export] Instance host_eta : Eta host := fun r =>
  Build_host (h_id r) (h_created_at r) (h_updated_at r) (h_revision r) (h_slug r) (h_display_name
    r) (h_workspace_root r) (h_scratch_root r) (h_sandbox r) (h_mode r) (h_heartbeat_at r)
    (h_agent_version r) (h_health r).

Record harness := {
  hs_id : uid;
  hs_created_at : instant;
  hs_updated_at : instant;
  hs_revision : Z;
  hs_slug : string;
  hs_adapter : adapter;
  hs_adapter_version : string;
  hs_provider_version : string;
  hs_model_options : ModelOptions;
  hs_settings : json_text;
  hs_enabled : bool }.

#[export] Instance harness_eta : Eta harness := fun r =>
  Build_harness (hs_id r) (hs_created_at r) (hs_updated_at r) (hs_revision r) (hs_slug r)
    (hs_adapter r) (hs_adapter_version r) (hs_provider_version r) (hs_model_options r)
    (hs_settings r) (hs_enabled r).

Record workspace := {
  w_id : uid;
  w_created_at : instant;
  w_updated_at : instant;
  w_revision : Z;
  w_cleaned_at : option instant;
  w_cleanup_error : option string;
  w_project_id : uid;
  w_host_id : uid;
  w_repository_id : uid;
  w_path : string;
  w_branch_name : string;
  w_base_commit_oid : string;
  w_head_commit_oid : option string;
  w_status : workspace_status }.

#[export] Instance workspace_eta : Eta workspace := fun r =>
  Build_workspace (w_id r) (w_created_at r) (w_updated_at r) (w_revision r) (w_cleaned_at r)
    (w_cleanup_error r) (w_project_id r) (w_host_id r) (w_repository_id r) (w_path r)
    (w_branch_name r) (w_base_commit_oid r) (w_head_commit_oid r) (w_status r).

Record resource_limit := {
  rl_id : uid;
  rl_created_at : instant;
  rl_updated_at : instant;
  rl_revision : Z;
  rl_kind : limit_kind;
  rl_slug : string;
  rl_max_concurrent : option Z;
  rl_cooldown_until : option instant;
  rl_failure_count : Z;
  rl_circuit_open : bool;
  rl_circuit_reason : option string }.

#[export] Instance resource_limit_eta : Eta resource_limit := fun r =>
  Build_resource_limit (rl_id r) (rl_created_at r) (rl_updated_at r) (rl_revision r) (rl_kind r)
    (rl_slug r) (rl_max_concurrent r) (rl_cooldown_until r) (rl_failure_count r) (rl_circuit_open
    r) (rl_circuit_reason r).

Record resource_claim := {
  cl_id : uid;
  cl_created_at : instant;
  cl_updated_at : instant;
  cl_revision : Z;
  cl_resource_limit_id : uid;
  cl_execution_id : uid;
  cl_provider_request_id : option uid;
  cl_units : Z;
  cl_released_at : option instant }.

#[export] Instance resource_claim_eta : Eta resource_claim := fun r =>
  Build_resource_claim (cl_id r) (cl_created_at r) (cl_updated_at r) (cl_revision r)
    (cl_resource_limit_id r) (cl_execution_id r) (cl_provider_request_id r) (cl_units r)
    (cl_released_at r).

Record discussion := {
  ds_id : uid;
  ds_created_at : instant;
  ds_updated_at : instant;
  ds_revision : Z;
  ds_project_id : uid;
  ds_integration_id : uid;
  ds_channel_remote_id : string;
  ds_topic : string;
  ds_sync_status : sync_status;
  ds_observed_at : instant }.

#[export] Instance discussion_eta : Eta discussion := fun r =>
  Build_discussion (ds_id r) (ds_created_at r) (ds_updated_at r) (ds_revision r) (ds_project_id r)
    (ds_integration_id r) (ds_channel_remote_id r) (ds_topic r) (ds_sync_status r) (ds_observed_at
    r).

Record message := {
  ms_id : uid;
  ms_created_at : instant;
  ms_updated_at : instant;
  ms_revision : Z;
  ms_discussion_id : uid;
  ms_remote_id : string;
  ms_remote_author_id : string;
  ms_author_principal_id : option uid;
  ms_source_assignment_id : option uid;
  ms_body : string;
  ms_posted_at : instant;
  ms_edited_at : option instant;
  ms_deleted_at : option instant }.

#[export] Instance message_eta : Eta message := fun r =>
  Build_message (ms_id r) (ms_created_at r) (ms_updated_at r) (ms_revision r) (ms_discussion_id r)
    (ms_remote_id r) (ms_remote_author_id r) (ms_author_principal_id r) (ms_source_assignment_id
    r) (ms_body r) (ms_posted_at r) (ms_edited_at r) (ms_deleted_at r).

Record notification := {
  nt_id : uid;
  nt_created_at : instant;
  nt_updated_at : instant;
  nt_revision : Z;
  nt_assignment_id : uid;
  nt_event_id : uid;
  nt_urgency : urgency;
  nt_delivered_at : option instant;
  nt_disposition : disposition;
  nt_disposition_note : option string;
  nt_obligation_id : option uid }.

#[export] Instance notification_eta : Eta notification := fun r =>
  Build_notification (nt_id r) (nt_created_at r) (nt_updated_at r) (nt_revision r)
    (nt_assignment_id r) (nt_event_id r) (nt_urgency r) (nt_delivered_at r) (nt_disposition r)
    (nt_disposition_note r) (nt_obligation_id r).

Record subscription := {
  sb_id : uid;
  sb_created_at : instant;
  sb_updated_at : instant;
  sb_revision : Z;
  sb_assignment_id : uid;
  sb_subject_id : ObjectRef;
  sb_mode : subscription_mode;
  sb_origin : subscription_origin;
  sb_expires_at : option instant }.

#[export] Instance subscription_eta : Eta subscription := fun r =>
  Build_subscription (sb_id r) (sb_created_at r) (sb_updated_at r) (sb_revision r)
    (sb_assignment_id r) (sb_subject_id r) (sb_mode r) (sb_origin r) (sb_expires_at r).

Record connector_cursor := {
  cc_id : uid;
  cc_created_at : instant;
  cc_updated_at : instant;
  cc_revision : Z;
  cc_integration_id : uid;
  cc_consumer : string;
  cc_queue_remote_id : option string;
  cc_last_event_remote_id : option string;
  cc_last_message_remote_id : option string;
  cc_status : sync_status;
  cc_last_synced_at : option instant }.

#[export] Instance connector_cursor_eta : Eta connector_cursor := fun r =>
  Build_connector_cursor (cc_id r) (cc_created_at r) (cc_updated_at r) (cc_revision r)
    (cc_integration_id r) (cc_consumer r) (cc_queue_remote_id r) (cc_last_event_remote_id r)
    (cc_last_message_remote_id r) (cc_status r) (cc_last_synced_at r).

Record principal := {
  pr_id : uid;
  pr_created_at : instant;
  pr_updated_at : instant;
  pr_revision : Z;
  pr_kind : principal_kind;
  pr_display_name : string;
  pr_username : option string;
  pr_host_id : option uid;
  pr_execution_id : option uid;
  pr_service_name : option string;
  pr_disabled_at : option instant }.

#[export] Instance principal_eta : Eta principal := fun r =>
  Build_principal (pr_id r) (pr_created_at r) (pr_updated_at r) (pr_revision r) (pr_kind r)
    (pr_display_name r) (pr_username r) (pr_host_id r) (pr_execution_id r) (pr_service_name r)
    (pr_disabled_at r).

Record credential := {
  cr_id : uid;
  cr_created_at : instant;
  cr_updated_at : instant;
  cr_revision : Z;
  cr_principal_id : uid;
  cr_kind : credential_kind;
  cr_name : string;
  cr_token_hash : string;
  cr_display_prefix : string;
  cr_expires_at : option instant;
  cr_revoked_at : option instant;
  cr_last_used_at : option instant }.

#[export] Instance credential_eta : Eta credential := fun r =>
  Build_credential (cr_id r) (cr_created_at r) (cr_updated_at r) (cr_revision r) (cr_principal_id
    r) (cr_kind r) (cr_name r) (cr_token_hash r) (cr_display_prefix r) (cr_expires_at r)
    (cr_revoked_at r) (cr_last_used_at r).

Record event := {
  ev_id : uid;
  ev_created_at : instant;
  ev_project_id : option uid;
  ev_subject_id : option ObjectRef;
  ev_actor_principal_id : option uid;
  ev_execution_id : option uid;
  ev_schema_version : Z;
  ev_source : string;
  ev_source_event_id : option string;
  ev_occurred_at : instant;
  ev_payload : event_payload }.

#[export] Instance event_eta : Eta event := fun r =>
  Build_event (ev_id r) (ev_created_at r) (ev_project_id r) (ev_subject_id r)
    (ev_actor_principal_id r) (ev_execution_id r) (ev_schema_version r) (ev_source r)
    (ev_source_event_id r) (ev_occurred_at r) (ev_payload r).

Record outbox_operation := {
  ob_id : uid;
  ob_created_at : instant;
  ob_updated_at : instant;
  ob_revision : Z;
  ob_project_id : option uid;
  ob_actor_principal_id : uid;
  ob_kind : outbox_kind;
  ob_idempotency_key : string;
  ob_payload : payload;
  ob_schema_version : Z;
  ob_status : outbox_status;
  ob_retry_count : Z;
  ob_retry_at : option instant;
  ob_lease_owner : option string;
  ob_lease_epoch : Z;
  ob_lease_expires_at : option instant;
  ob_result_ref_id : option ObjectRef;
  ob_failure : option DeliveryFailure }.

#[export] Instance outbox_operation_eta : Eta outbox_operation := fun r =>
  Build_outbox_operation (ob_id r) (ob_created_at r) (ob_updated_at r) (ob_revision r)
    (ob_project_id r) (ob_actor_principal_id r) (ob_kind r) (ob_idempotency_key r) (ob_payload r)
    (ob_schema_version r) (ob_status r) (ob_retry_count r) (ob_retry_at r) (ob_lease_owner r)
    (ob_lease_epoch r) (ob_lease_expires_at r) (ob_result_ref_id r) (ob_failure r).

Record api_request := {
  aq_id : uid;
  aq_created_at : instant;
  aq_updated_at : instant;
  aq_revision : Z;
  aq_principal_id : uid;
  aq_project_id : option uid;
  aq_operation : string;
  aq_idempotency_key : string;
  aq_request_sha256 : string;
  aq_response : option json_text;
  aq_response_artifact_id : option uid;
  aq_status : api_status;
  aq_expires_at : instant }.

#[export] Instance api_request_eta : Eta api_request := fun r =>
  Build_api_request (aq_id r) (aq_created_at r) (aq_updated_at r) (aq_revision r) (aq_principal_id
    r) (aq_project_id r) (aq_operation r) (aq_idempotency_key r) (aq_request_sha256 r)
    (aq_response r) (aq_response_artifact_id r) (aq_status r) (aq_expires_at r).

(** The content of a business revision: the row, with its relations in identifier order. *)
Inductive revision_content : Type :=
| CProject (row : project)
| CMission (row : mission) (node_ids document_ids : list uid)
| CNode (row : node) (parent_node_ids : list uid)
| CDocument (row : document)
| CReference (row : reference)
| CAssignment (row : assignment)
| CAutomation (row : automation)
| CHarness (row : harness)
| CReviewPolicy (row : review_policy) (repository_ids reviewer_descriptor_ids : list uid)
| CReviewerDescriptor (row : reviewer_descriptor) (guidance_document_ids : list uid).

Record record_revision := {
  rr_id : uid;
  rr_created_at : instant;
  rr_object_id : ObjectRef;
  rr_object_revision : Z;
  rr_schema_version : Z;
  rr_actor_principal_id : uid;
  rr_content : revision_content }.

#[export] Instance record_revision_eta : Eta record_revision := fun r =>
  Build_record_revision (rr_id r) (rr_created_at r) (rr_object_id r) (rr_object_revision r)
    (rr_schema_version r) (rr_actor_principal_id r) (rr_content r).

(** ** The database *)

Record DB := {
  db_now : instant;
  db_clock : instant;
  db_next : uid;
  tb_project : gmap uid project;
  tb_integration : gmap uid integration;
  tb_repository : gmap uid repository;
  tb_document : gmap uid document;
  tb_node : gmap uid node;
  tb_mission : gmap uid mission;
  tb_reference : gmap uid reference;
  tb_review_policy : gmap uid review_policy;
  tb_reviewer_descriptor : gmap uid reviewer_descriptor;
  tb_integration_identity : gmap uid integration_identity;
  tb_forge_review : gmap uid forge_review;
  tb_review_gate : gmap uid review_gate;
  tb_roadmap_snapshot : gmap uid roadmap_snapshot;
  tb_milestone_check : gmap uid milestone_check;
  tb_milestone_job : gmap uid milestone_job;
  tb_run : gmap uid run;
  tb_automation : gmap uid automation;
  tb_assignment : gmap uid assignment;
  tb_execution : gmap uid execution;
  tb_provider_thread : gmap uid provider_thread;
  tb_provider_request : gmap uid provider_request;
  tb_obligation : gmap uid obligation;
  tb_artifact : gmap uid artifact;
  tb_artifact_location : gmap uid artifact_location;
  tb_publication : gmap uid publication;
  tb_forge_item : gmap uid forge_item;
  tb_verification : gmap uid verification;
  tb_usage_record : gmap uid usage_record;
  tb_activity : gmap uid activity;
  tb_host : gmap uid host;
  tb_harness : gmap uid harness;
  tb_workspace : gmap uid workspace;
  tb_resource_limit : gmap uid resource_limit;
  tb_resource_claim : gmap uid resource_claim;
  tb_discussion : gmap uid discussion;
  tb_message : gmap uid message;
  tb_notification : gmap uid notification;
  tb_subscription : gmap uid subscription;
  tb_connector_cursor : gmap uid connector_cursor;
  tb_principal : gmap uid principal;
  tb_credential : gmap uid credential;
  tb_event : gmap uid event;
  tb_outbox_operation : gmap uid outbox_operation;
  tb_api_request : gmap uid api_request;
  tb_record_revision : gmap uid record_revision;
  tb_mission_node : gset (uid * uid);
  tb_mission_document : gset (uid * uid);
  tb_node_dependency : gset (uid * uid);
  tb_review_policy_repository : gset (uid * uid);
  tb_review_policy_reviewer : gset (uid * uid);
  tb_reviewer_guidance : gset (uid * uid);
  tb_run_host : gmap (uid * uid) bool;
  tb_host_harness : gmap (uid * uid) host_harness;
  tb_host_harness_limit : gset (uid * uid * uid);
  tb_project_grant : gmap (uid * uid) grant_role;
  tb_system_grant : gset uid;
  tb_run_coordination : gmap uid run_coordination;
  tb_review_demand : gmap uid review_demand;
  tb_milestone_acceptance : gset uid;
  tb_assignment_artifact : gmap (uid * uid) artifact_purpose;
  tb_activity_artifact : gset (uid * uid);
  tb_message_read : gmap (uid * uid * Z) instant;
  tb_discussion_subject : list (uid * ObjectRef);
  tb_message_reference : list (uid * ObjectRef * message_purpose);
  tb_review_work : gmap (uid * string * uid * uid * string) review_work }.

#[export] Instance DB_eta : Eta DB := fun d =>
  Build_DB (db_now d) (db_clock d) (db_next d) (tb_project d) (tb_integration d) (tb_repository d)
    (tb_document d) (tb_node d) (tb_mission d) (tb_reference d) (tb_review_policy d)
    (tb_reviewer_descriptor d) (tb_integration_identity d) (tb_forge_review d) (tb_review_gate d)
    (tb_roadmap_snapshot d) (tb_milestone_check d) (tb_milestone_job d) (tb_run d) (tb_automation
    d) (tb_assignment d) (tb_execution d) (tb_provider_thread d) (tb_provider_request d)
    (tb_obligation d) (tb_artifact d) (tb_artifact_location d) (tb_publication d) (tb_forge_item
    d) (tb_verification d) (tb_usage_record d) (tb_activity d) (tb_host d) (tb_harness d)
    (tb_workspace d) (tb_resource_limit d) (tb_resource_claim d) (tb_discussion d) (tb_message d)
    (tb_notification d) (tb_subscription d) (tb_connector_cursor d) (tb_principal d)
    (tb_credential d) (tb_event d) (tb_outbox_operation d) (tb_api_request d) (tb_record_revision
    d) (tb_mission_node d) (tb_mission_document d) (tb_node_dependency d)
    (tb_review_policy_repository d) (tb_review_policy_reviewer d) (tb_reviewer_guidance d)
    (tb_run_host d) (tb_host_harness d) (tb_host_harness_limit d) (tb_project_grant d)
    (tb_system_grant d) (tb_run_coordination d) (tb_review_demand d) (tb_milestone_acceptance d)
    (tb_assignment_artifact d) (tb_activity_artifact d) (tb_message_read d) (tb_discussion_subject
    d) (tb_message_reference d) (tb_review_work d).

(** The empty installation. *)
Definition empty_db (now : instant) : DB := {|
  db_now := now;
  db_clock := now;
  db_next := 1%positive;
  tb_project := ∅;
  tb_integration := ∅;
  tb_repository := ∅;
  tb_document := ∅;
  tb_node := ∅;
  tb_mission := ∅;
  tb_reference := ∅;
  tb_review_policy := ∅;
  tb_reviewer_descriptor := ∅;
  tb_integration_identity := ∅;
  tb_forge_review := ∅;
  tb_review_gate := ∅;
  tb_roadmap_snapshot := ∅;
  tb_milestone_check := ∅;
  tb_milestone_job := ∅;
  tb_run := ∅;
  tb_automation := ∅;
  tb_assignment := ∅;
  tb_execution := ∅;
  tb_provider_thread := ∅;
  tb_provider_request := ∅;
  tb_obligation := ∅;
  tb_artifact := ∅;
  tb_artifact_location := ∅;
  tb_publication := ∅;
  tb_forge_item := ∅;
  tb_verification := ∅;
  tb_usage_record := ∅;
  tb_activity := ∅;
  tb_host := ∅;
  tb_harness := ∅;
  tb_workspace := ∅;
  tb_resource_limit := ∅;
  tb_resource_claim := ∅;
  tb_discussion := ∅;
  tb_message := ∅;
  tb_notification := ∅;
  tb_subscription := ∅;
  tb_connector_cursor := ∅;
  tb_principal := ∅;
  tb_credential := ∅;
  tb_event := ∅;
  tb_outbox_operation := ∅;
  tb_api_request := ∅;
  tb_record_revision := ∅;
  tb_mission_node := ∅;
  tb_mission_document := ∅;
  tb_node_dependency := ∅;
  tb_review_policy_repository := ∅;
  tb_review_policy_reviewer := ∅;
  tb_reviewer_guidance := ∅;
  tb_run_host := ∅;
  tb_host_harness := ∅;
  tb_host_harness_limit := ∅;
  tb_project_grant := ∅;
  tb_system_grant := ∅;
  tb_run_coordination := ∅;
  tb_review_demand := ∅;
  tb_milestone_acceptance := ∅;
  tb_assignment_artifact := ∅;
  tb_activity_artifact := ∅;
  tb_message_read := ∅;
  tb_discussion_subject := [];
  tb_message_reference := [];
  tb_review_work := ∅ |}.

(** ** Access to a table

    [Table] says where the rows of a type are kept; [Mutable] adds the revision counter that
    every change of a mutable record increments. *)

Class Table (R : Type) := {
  rows : DB -> gmap uid R;
  put_rows : gmap uid R -> DB -> DB;
  row_id : R -> uid }.

Class Mutable (R : Type) := {
  row_revision : R -> Z;
  touch : instant -> R -> R }.

#[export] Instance project_table : Table project := {|
  rows := tb_project;
  put_rows m d := d <| tb_project := m |>;
  row_id := p_id |}.

#[export] Instance project_mutable : Mutable project := {|
  row_revision := p_revision;
  touch now r := r <| p_updated_at := now |> <| p_revision := p_revision r + 1 |> |}.

#[export] Instance integration_table : Table integration := {|
  rows := tb_integration;
  put_rows m d := d <| tb_integration := m |>;
  row_id := ig_id |}.

#[export] Instance integration_mutable : Mutable integration := {|
  row_revision := ig_revision;
  touch now r := r <| ig_updated_at := now |> <| ig_revision := ig_revision r + 1 |> |}.

#[export] Instance repository_table : Table repository := {|
  rows := tb_repository;
  put_rows m d := d <| tb_repository := m |>;
  row_id := rp_id |}.

#[export] Instance repository_mutable : Mutable repository := {|
  row_revision := rp_revision;
  touch now r := r <| rp_updated_at := now |> <| rp_revision := rp_revision r + 1 |> |}.

#[export] Instance document_table : Table document := {|
  rows := tb_document;
  put_rows m d := d <| tb_document := m |>;
  row_id := d_id |}.

#[export] Instance document_mutable : Mutable document := {|
  row_revision := d_revision;
  touch now r := r <| d_updated_at := now |> <| d_revision := d_revision r + 1 |> |}.

#[export] Instance node_table : Table node := {|
  rows := tb_node;
  put_rows m d := d <| tb_node := m |>;
  row_id := n_id |}.

#[export] Instance node_mutable : Mutable node := {|
  row_revision := n_revision;
  touch now r := r <| n_updated_at := now |> <| n_revision := n_revision r + 1 |> |}.

#[export] Instance mission_table : Table mission := {|
  rows := tb_mission;
  put_rows m d := d <| tb_mission := m |>;
  row_id := m_id |}.

#[export] Instance mission_mutable : Mutable mission := {|
  row_revision := m_revision;
  touch now r := r <| m_updated_at := now |> <| m_revision := m_revision r + 1 |> |}.

#[export] Instance reference_table : Table reference := {|
  rows := tb_reference;
  put_rows m d := d <| tb_reference := m |>;
  row_id := rf_id |}.

#[export] Instance reference_mutable : Mutable reference := {|
  row_revision := rf_revision;
  touch now r := r <| rf_updated_at := now |> <| rf_revision := rf_revision r + 1 |> |}.

#[export] Instance review_policy_table : Table review_policy := {|
  rows := tb_review_policy;
  put_rows m d := d <| tb_review_policy := m |>;
  row_id := rv_id |}.

#[export] Instance review_policy_mutable : Mutable review_policy := {|
  row_revision := rv_revision;
  touch now r := r <| rv_updated_at := now |> <| rv_revision := rv_revision r + 1 |> |}.

#[export] Instance reviewer_descriptor_table : Table reviewer_descriptor := {|
  rows := tb_reviewer_descriptor;
  put_rows m d := d <| tb_reviewer_descriptor := m |>;
  row_id := rd_id |}.

#[export] Instance reviewer_descriptor_mutable : Mutable reviewer_descriptor := {|
  row_revision := rd_revision;
  touch now r := r <| rd_updated_at := now |> <| rd_revision := rd_revision r + 1 |> |}.

#[export] Instance integration_identity_table : Table integration_identity := {|
  rows := tb_integration_identity;
  put_rows m d := d <| tb_integration_identity := m |>;
  row_id := ii_id |}.

#[export] Instance integration_identity_mutable : Mutable integration_identity := {|
  row_revision := ii_revision;
  touch now r := r <| ii_updated_at := now |> <| ii_revision := ii_revision r + 1 |> |}.

#[export] Instance forge_review_table : Table forge_review := {|
  rows := tb_forge_review;
  put_rows m d := d <| tb_forge_review := m |>;
  row_id := fr_id |}.

#[export] Instance review_gate_table : Table review_gate := {|
  rows := tb_review_gate;
  put_rows m d := d <| tb_review_gate := m |>;
  row_id := rg_id |}.

#[export] Instance review_gate_mutable : Mutable review_gate := {|
  row_revision := rg_revision;
  touch now r := r <| rg_updated_at := now |> <| rg_revision := rg_revision r + 1 |> |}.

#[export] Instance roadmap_snapshot_table : Table roadmap_snapshot := {|
  rows := tb_roadmap_snapshot;
  put_rows m d := d <| tb_roadmap_snapshot := m |>;
  row_id := rs_id |}.

#[export] Instance milestone_check_table : Table milestone_check := {|
  rows := tb_milestone_check;
  put_rows m d := d <| tb_milestone_check := m |>;
  row_id := mk_id |}.

#[export] Instance milestone_job_table : Table milestone_job := {|
  rows := tb_milestone_job;
  put_rows m d := d <| tb_milestone_job := m |>;
  row_id := mj_id |}.

#[export] Instance milestone_job_mutable : Mutable milestone_job := {|
  row_revision := mj_revision;
  touch now r := r <| mj_updated_at := now |> <| mj_revision := mj_revision r + 1 |> |}.

#[export] Instance run_table : Table run := {|
  rows := tb_run;
  put_rows m d := d <| tb_run := m |>;
  row_id := r_id |}.

#[export] Instance run_mutable : Mutable run := {|
  row_revision := r_revision;
  touch now r := r <| r_updated_at := now |> <| r_revision := r_revision r + 1 |> |}.

#[export] Instance automation_table : Table automation := {|
  rows := tb_automation;
  put_rows m d := d <| tb_automation := m |>;
  row_id := au_id |}.

#[export] Instance automation_mutable : Mutable automation := {|
  row_revision := au_revision;
  touch now r := r <| au_updated_at := now |> <| au_revision := au_revision r + 1 |> |}.

#[export] Instance assignment_table : Table assignment := {|
  rows := tb_assignment;
  put_rows m d := d <| tb_assignment := m |>;
  row_id := a_id |}.

#[export] Instance assignment_mutable : Mutable assignment := {|
  row_revision := a_revision;
  touch now r := r <| a_updated_at := now |> <| a_revision := a_revision r + 1 |> |}.

#[export] Instance execution_table : Table execution := {|
  rows := tb_execution;
  put_rows m d := d <| tb_execution := m |>;
  row_id := x_id |}.

#[export] Instance execution_mutable : Mutable execution := {|
  row_revision := x_revision;
  touch now r := r <| x_updated_at := now |> <| x_revision := x_revision r + 1 |> |}.

#[export] Instance provider_thread_table : Table provider_thread := {|
  rows := tb_provider_thread;
  put_rows m d := d <| tb_provider_thread := m |>;
  row_id := t_id |}.

#[export] Instance provider_thread_mutable : Mutable provider_thread := {|
  row_revision := t_revision;
  touch now r := r <| t_updated_at := now |> <| t_revision := t_revision r + 1 |> |}.

#[export] Instance provider_request_table : Table provider_request := {|
  rows := tb_provider_request;
  put_rows m d := d <| tb_provider_request := m |>;
  row_id := q_id |}.

#[export] Instance provider_request_mutable : Mutable provider_request := {|
  row_revision := q_revision;
  touch now r := r <| q_updated_at := now |> <| q_revision := q_revision r + 1 |> |}.

#[export] Instance obligation_table : Table obligation := {|
  rows := tb_obligation;
  put_rows m d := d <| tb_obligation := m |>;
  row_id := o_id |}.

#[export] Instance obligation_mutable : Mutable obligation := {|
  row_revision := o_revision;
  touch now r := r <| o_updated_at := now |> <| o_revision := o_revision r + 1 |> |}.

#[export] Instance artifact_table : Table artifact := {|
  rows := tb_artifact;
  put_rows m d := d <| tb_artifact := m |>;
  row_id := ar_id |}.

#[export] Instance artifact_location_table : Table artifact_location := {|
  rows := tb_artifact_location;
  put_rows m d := d <| tb_artifact_location := m |>;
  row_id := al_id |}.

#[export] Instance artifact_location_mutable : Mutable artifact_location := {|
  row_revision := al_revision;
  touch now r := r <| al_updated_at := now |> <| al_revision := al_revision r + 1 |> |}.

#[export] Instance publication_table : Table publication := {|
  rows := tb_publication;
  put_rows m d := d <| tb_publication := m |>;
  row_id := pb_id |}.

#[export] Instance publication_mutable : Mutable publication := {|
  row_revision := pb_revision;
  touch now r := r <| pb_updated_at := now |> <| pb_revision := pb_revision r + 1 |> |}.

#[export] Instance forge_item_table : Table forge_item := {|
  rows := tb_forge_item;
  put_rows m d := d <| tb_forge_item := m |>;
  row_id := fi_id |}.

#[export] Instance forge_item_mutable : Mutable forge_item := {|
  row_revision := fi_revision;
  touch now r := r <| fi_updated_at := now |> <| fi_revision := fi_revision r + 1 |> |}.

#[export] Instance verification_table : Table verification := {|
  rows := tb_verification;
  put_rows m d := d <| tb_verification := m |>;
  row_id := vf_id |}.

#[export] Instance usage_record_table : Table usage_record := {|
  rows := tb_usage_record;
  put_rows m d := d <| tb_usage_record := m |>;
  row_id := us_id |}.

#[export] Instance activity_table : Table activity := {|
  rows := tb_activity;
  put_rows m d := d <| tb_activity := m |>;
  row_id := ac_id |}.

#[export] Instance host_table : Table host := {|
  rows := tb_host;
  put_rows m d := d <| tb_host := m |>;
  row_id := h_id |}.

#[export] Instance host_mutable : Mutable host := {|
  row_revision := h_revision;
  touch now r := r <| h_updated_at := now |> <| h_revision := h_revision r + 1 |> |}.

#[export] Instance harness_table : Table harness := {|
  rows := tb_harness;
  put_rows m d := d <| tb_harness := m |>;
  row_id := hs_id |}.

#[export] Instance harness_mutable : Mutable harness := {|
  row_revision := hs_revision;
  touch now r := r <| hs_updated_at := now |> <| hs_revision := hs_revision r + 1 |> |}.

#[export] Instance workspace_table : Table workspace := {|
  rows := tb_workspace;
  put_rows m d := d <| tb_workspace := m |>;
  row_id := w_id |}.

#[export] Instance workspace_mutable : Mutable workspace := {|
  row_revision := w_revision;
  touch now r := r <| w_updated_at := now |> <| w_revision := w_revision r + 1 |> |}.

#[export] Instance resource_limit_table : Table resource_limit := {|
  rows := tb_resource_limit;
  put_rows m d := d <| tb_resource_limit := m |>;
  row_id := rl_id |}.

#[export] Instance resource_limit_mutable : Mutable resource_limit := {|
  row_revision := rl_revision;
  touch now r := r <| rl_updated_at := now |> <| rl_revision := rl_revision r + 1 |> |}.

#[export] Instance resource_claim_table : Table resource_claim := {|
  rows := tb_resource_claim;
  put_rows m d := d <| tb_resource_claim := m |>;
  row_id := cl_id |}.

#[export] Instance resource_claim_mutable : Mutable resource_claim := {|
  row_revision := cl_revision;
  touch now r := r <| cl_updated_at := now |> <| cl_revision := cl_revision r + 1 |> |}.

#[export] Instance discussion_table : Table discussion := {|
  rows := tb_discussion;
  put_rows m d := d <| tb_discussion := m |>;
  row_id := ds_id |}.

#[export] Instance discussion_mutable : Mutable discussion := {|
  row_revision := ds_revision;
  touch now r := r <| ds_updated_at := now |> <| ds_revision := ds_revision r + 1 |> |}.

#[export] Instance message_table : Table message := {|
  rows := tb_message;
  put_rows m d := d <| tb_message := m |>;
  row_id := ms_id |}.

#[export] Instance message_mutable : Mutable message := {|
  row_revision := ms_revision;
  touch now r := r <| ms_updated_at := now |> <| ms_revision := ms_revision r + 1 |> |}.

#[export] Instance notification_table : Table notification := {|
  rows := tb_notification;
  put_rows m d := d <| tb_notification := m |>;
  row_id := nt_id |}.

#[export] Instance notification_mutable : Mutable notification := {|
  row_revision := nt_revision;
  touch now r := r <| nt_updated_at := now |> <| nt_revision := nt_revision r + 1 |> |}.

#[export] Instance subscription_table : Table subscription := {|
  rows := tb_subscription;
  put_rows m d := d <| tb_subscription := m |>;
  row_id := sb_id |}.

#[export] Instance subscription_mutable : Mutable subscription := {|
  row_revision := sb_revision;
  touch now r := r <| sb_updated_at := now |> <| sb_revision := sb_revision r + 1 |> |}.

#[export] Instance connector_cursor_table : Table connector_cursor := {|
  rows := tb_connector_cursor;
  put_rows m d := d <| tb_connector_cursor := m |>;
  row_id := cc_id |}.

#[export] Instance connector_cursor_mutable : Mutable connector_cursor := {|
  row_revision := cc_revision;
  touch now r := r <| cc_updated_at := now |> <| cc_revision := cc_revision r + 1 |> |}.

#[export] Instance principal_table : Table principal := {|
  rows := tb_principal;
  put_rows m d := d <| tb_principal := m |>;
  row_id := pr_id |}.

#[export] Instance principal_mutable : Mutable principal := {|
  row_revision := pr_revision;
  touch now r := r <| pr_updated_at := now |> <| pr_revision := pr_revision r + 1 |> |}.

#[export] Instance credential_table : Table credential := {|
  rows := tb_credential;
  put_rows m d := d <| tb_credential := m |>;
  row_id := cr_id |}.

#[export] Instance credential_mutable : Mutable credential := {|
  row_revision := cr_revision;
  touch now r := r <| cr_updated_at := now |> <| cr_revision := cr_revision r + 1 |> |}.

#[export] Instance event_table : Table event := {|
  rows := tb_event;
  put_rows m d := d <| tb_event := m |>;
  row_id := ev_id |}.

#[export] Instance outbox_operation_table : Table outbox_operation := {|
  rows := tb_outbox_operation;
  put_rows m d := d <| tb_outbox_operation := m |>;
  row_id := ob_id |}.

#[export] Instance outbox_operation_mutable : Mutable outbox_operation := {|
  row_revision := ob_revision;
  touch now r := r <| ob_updated_at := now |> <| ob_revision := ob_revision r + 1 |> |}.

#[export] Instance api_request_table : Table api_request := {|
  rows := tb_api_request;
  put_rows m d := d <| tb_api_request := m |>;
  row_id := aq_id |}.

#[export] Instance api_request_mutable : Mutable api_request := {|
  row_revision := aq_revision;
  touch now r := r <| aq_updated_at := now |> <| aq_revision := aq_revision r + 1 |> |}.

#[export] Instance record_revision_table : Table record_revision := {|
  rows := tb_record_revision;
  put_rows m d := d <| tb_record_revision := m |>;
  row_id := rr_id |}.

(** The laws of a table: writing its rows is reading them back, and leaves the identifier
    supply and the clocks alone. *)
Class TableLaws (R : Type) `{Table R} := {
  rows_put m d : rows (put_rows m d) = m;
  put_next m d : db_next (put_rows m d) = db_next d;
  put_now m d : db_now (put_rows m d) = db_now d }.

#[export] Hint Extern 0 (TableLaws _) => (split; intros; reflexivity) : typeclass_instances.

Class MutableLaws (R : Type) `{Table R, Mutable R} := {
  touch_id now r : row_id (touch now r) = row_id r;
  touch_revision now r : row_revision (touch now r) = row_revision r + 1 }.

#[export] Hint Extern 0 (MutableLaws _) => (split; intros; reflexivity) : typeclass_instances.
