(* ===== verification/Records.v ===== *)
(** * Relational primitives

    src/archon_horizon/pipeline/persistence/records.py over the tables of Schema.v.  An
    operation of a domain service is a computation of [M]: it reads and writes the database
    and may raise.  The caller of the services owns the transaction, so an error discards the
    writes; [M] returns no database then. *)

From S2P Require Import Prelude Contracts Schema.

(** ** The transaction monad *)

Definition M (A : Type) : Type := DB -> result (A * DB).

#[export] Instance M_ret : MRet M := fun A a d => Ok (a, d).
#[export] Instance M_bind : MBind M := fun A B k m d =>
  match m d with
  | Ok (a, d') => k a d'
  | Err e => Err e
  end.

Definition throw {A} (e : error) : M A := fun _ => Err e.

(** [refuse b code status]: raise a [DomainError] when the condition [b] holds. *)
Definition refuse (b : bool) (code : string) (status : Z) : M unit :=
  fun d => if b then Err (DomainError code status) else Ok (tt, d).

(** Read the database. *)
Definition ask {A} (f : DB -> A) : M A := fun d => Ok (f d, d).

Definition modify (f : DB -> DB) : M unit := fun d => Ok (tt, f d).

Definition when (b : bool) (m : M unit) : M unit := if b then m else mret tt.

Fixpoint for_each {A} (f : A -> M unit) (l : list A) : M unit :=
  match l with
  | [] => mret tt
  | a :: l => f a ;; for_each f l
  end.

(** Lift a computation that does not touch the database. *)
Definition lift {A} (r : result A) : M A := fun d =>
  match r with Ok a => Ok (a, d) | Err e => Err e end.

Lemma bind_Ok {A B} (m : M A) (k : A -> M B) d b d' :
  (m ≫= k) d = Ok (b, d') <-> exists a d1, m d = Ok (a, d1) /\ k a d1 = Ok (b, d').
Proof.
  unfold mbind, M_bind. destruct (m d) as [[a d1]|e]; [|naive_solver].
  split; [eauto|]. by intros (?&?&[= <- <-]&?).
Qed.

Lemma refuse_Ok b c s d u d' : refuse b c s d = Ok (u, d') <-> b = false /\ d' = d.
Proof. unfold refuse. destruct b, u; naive_solver. Qed.

Lemma ask_Ok {A} (f : DB -> A) d a d' : ask f d = Ok (a, d') <-> a = f d /\ d' = d.
Proof. unfold ask. naive_solver. Qed.

Lemma ret_Ok {A} (x : A) d a d' : (mret x : M A) d = Ok (a, d') <-> a = x /\ d' = d.
Proof. unfold mret, M_ret. naive_solver. Qed.

Lemma modify_Ok f d u d' : modify f d = Ok (u, d') <-> d' = f d.
Proof. unfold modify. destruct u. naive_solver. Qed.

Lemma lift_Ok {A} (r : result A) d a d' : lift r d = Ok (a, d') <-> r = Ok a /\ d' = d.
Proof. unfold lift. destruct r; naive_solver. Qed.

(** ** Rows *)

Section rows.
Context {R : Type} `{Table R}.

Definition get (i : uid) : M R := fun d =>
  match rows d !! i with
  | Some r => Ok (r, d)
  | None => Err (DomainError "not_found" 404)
  end.

(** [create]: the values of the new row given its identifier and the transaction time. *)
Definition create (values : uid -> instant -> R) : M R := fun d =>
  let r := values (db_next d) (db_now d) in
  Ok (r, put_rows (<[db_next d := r]> (rows d)) (d <| db_next := Pos.succ (db_next d) |>)).

(** [create] with the identifier given.  The identifiers that [create] draws stay fresh. *)
Definition create_with (i : uid) (values : uid -> instant -> R) : M R := fun d =>
  match rows d !! i with
  | Some _ => Err (RuntimeFailure "pkey")
  | None => let r := values i (db_now d) in
            Ok (r, put_rows (<[i := r]> (rows d)) (d <| db_next := Pos.max (db_next d) (Pos.succ i) |>))
  end.

Definition select (p : R -> bool) : M (list R) := ask (fun d => List.filter p (map snd (map_to_list (rows d)))).

Definition any (p : R -> bool) : M bool := ask (fun d => existsb p (map snd (map_to_list (rows d)))).

Definition count (p : R -> bool) : M Z :=
  ask (fun d => Z.of_nat (List.length (List.filter p (map snd (map_to_list (rows d)))))).

(** [coalesce(max(f), 0)] over the selected rows. *)
Definition max_of (f : R -> Z) (p : R -> bool) : M Z :=
  ask (fun d => match map f (List.filter p (map snd (map_to_list (rows d)))) with
                | [] => 0
                | n :: l => List.fold_left Z.max l n
                end).

(** [UPDATE ... WHERE p SET f]. *)
Definition update_rows (p : R -> bool) (f : R -> R) : M unit :=
  modify (fun d => put_rows ((fun r => if p r then f r else r) <$> rows d) d).

Definition next_number (number : R -> Z) (p : R -> bool) : M Z :=
  n ← max_of number p; mret (n + 1).

Context `{Mutable R}.

Definition change (i : uid) (expected : option Z) (values : R -> R) : M R := fun d =>
  match rows d !! i with
  | None => Err (DomainError "not_found" 404)
  | Some r =>
      if match expected with Some n => row_revision r =? n | None => true end
      then let r' := touch (db_now d) (values r) in Ok (r', put_rows (<[i := r']> (rows d)) d)
      else Err (DomainError "revision_conflict" 409)
  end.

(** [UPDATE ... WHERE p SET f] on a table with a revision: the trigger [touch_revision] of the
    table stamps every updated row. *)
Definition update_where (p : R -> bool) (f : R -> R) : M unit := fun d =>
  update_rows p (fun r => touch (db_now d) (f r)) d.

Lemma get_Ok i d r d' : get i d = Ok (r, d') <-> rows d !! i = Some r /\ d' = d.
Proof. unfold get. destruct (rows d !! i); naive_solver. Qed.

Lemma select_Ok p d l d' :
  select p d = Ok (l, d') <-> l = List.filter p (map snd (map_to_list (rows d))) /\ d' = d.
Proof. unfold select. by rewrite ask_Ok. Qed.

Lemma elem_of_rows (d : DB) r : r ∈ map snd (map_to_list (rows d)) <-> exists i, rows d !! i = Some r.
Proof.
  rewrite list_elem_of_fmap. split.
  - intros ([i r'] & -> & Hin). exists i. by apply elem_of_map_to_list.
  - intros [i Hi]. exists (i, r). split; [done|]. by apply elem_of_map_to_list.
Qed.

Lemma elem_of_select p (d : DB) r :
  r ∈ List.filter p (map snd (map_to_list (rows d))) <-> p r = true /\ exists i, rows d !! i = Some r.
Proof.
  rewrite list_elem_of_In, filter_In, <- list_elem_of_In, elem_of_rows. naive_solver.
Qed.

(** The rows of a table kept under their own identifiers are selected once each. *)
Lemma select_NoDup p (d : DB) :
  (forall i r, rows d !! i = Some r -> row_id r = i) -> NoDup (map row_id (List.filter p (map snd (map_to_list (rows d))))).
Proof.
  intros Hk. eapply sublist_NoDup; [|apply (fmap_sublist row_id), filter_sublist].
  rewrite <- list_fmap_compose. rewrite (list_fmap_ext _ fst).
  - apply NoDup_fst_map_to_list.
  - intros k [i r] Hr%list_elem_of_lookup_2%elem_of_map_to_list. cbn. by apply Hk.
Qed.

Lemma any_Ok p d b d' :
  any p d = Ok (b, d') <-> d' = d /\ (b = true <-> exists i r, rows d !! i = Some r /\ p r = true).
Proof.
  unfold any. rewrite ask_Ok. split.
  - intros [-> ->]. split; [done|]. rewrite existsb_true, Exists_exists. setoid_rewrite elem_of_rows. naive_solver.
  - intros [-> Hb]. split; [|done]. apply eq_iff_eq_true. rewrite Hb, existsb_true, Exists_exists.
    setoid_rewrite elem_of_rows. naive_solver.
Qed.

Lemma change_Ok i expected f d r' d' :
  change i expected f d = Ok (r', d') <->
  exists r, rows d !! i = Some r /\ (forall n, expected = Some n -> row_revision r = n)
    /\ r' = touch (db_now d) (f r) /\ d' = put_rows (<[i := r']> (rows d)) d.
Proof.
  unfold change. destruct (rows d !! i) as [r|]; [|naive_solver].
  destruct expected as [n|]; [destruct (Z.eqb_spec (row_revision r) n)|]; naive_solver.
Qed.
End rows.

(** ** Frames

    [Keeps R m]: whatever [m] does, the databases before and after it are related by [R].
    [Frame p m] is the case in which the part [p] of the database is left as it was.  The
    tactic [frame] proves them structurally from those of the primitives. *)

Class Keeps (R : relation DB) {A} (m : M A) : Prop :=
  keeps d a d' : m d = Ok (a, d') -> R d d'.

(** [Quiet R T]: writing the table [T] is within [R], whether or not a row is created. *)
Class Quiet (R : relation DB) (T : Type) `{Table T} : Prop := {
  quiet_put m d : R d (put_rows m d);
  quiet_create m d : R d (put_rows m (d <| db_next := Pos.succ (db_next d) |>)) }.

Definition same_part {T} (p : DB -> T) (d d' : DB) : Prop := p d' = p d.

#[export] Instance same_part_preorder {T} (p : DB -> T) : PreOrder (same_part p).
Proof. unfold same_part. split; [done|]. intros ??? H1 H2. congruence. Qed.

Abbreviation Frame p m := (Keeps (same_part p) m) (only parsing).

#[export] Hint Extern 0 (Quiet (same_part _) _) => (split; intros; reflexivity) : typeclass_instances.

Section frames.
Context (R : relation DB) `{!PreOrder R}.

Lemma keeps_bind {A B} (m : M A) (k : A -> M B) :
  Keeps R m -> (forall a, Keeps R (k a)) -> Keeps R (m ≫= k).
Proof.
  intros Hm Hk d b d' (a & d1 & H1 & H2)%bind_Ok.
  transitivity d1; [by eapply Hm | by eapply Hk].
Qed.

Lemma keeps_ret {A} (a : A) : Keeps R (mret a : M A).
Proof. by intros ??? [_ ->]%ret_Ok. Qed.

Lemma keeps_throw {A} e : Keeps R (throw e : M A).
Proof. by intros ???. Qed.

Lemma keeps_refuse b c s : Keeps R (refuse b c s).
Proof. by intros ??? [_ ->]%refuse_Ok. Qed.

Lemma keeps_ask {A} (f : DB -> A) : Keeps R (ask f).
Proof. by intros ??? [_ ->]%ask_Ok. Qed.

Lemma keeps_lift {A} (r : result A) : Keeps R (lift r).
Proof. by intros ??? [_ ->]%lift_Ok. Qed.

Lemma keeps_get {T} `{Table T} i : Keeps R (get i : M T).
Proof. by intros ??? [_ ->]%get_Ok. Qed.

Lemma keeps_for_each {A} (f : A -> M unit) l : (forall a, Keeps R (f a)) -> Keeps R (for_each f l).
Proof. intros Hf. induction l; cbn; [apply keeps_ret | by apply keeps_bind]. Qed.

Lemma keeps_create {T} `{Table T, !Quiet R T} (v : uid -> instant -> T) : Keeps R (create v).
Proof. intros ??? [= <- <-]. apply quiet_create. Qed.

Lemma keeps_create_with {T} `{Table T} i (v : uid -> instant -> T) :
  (forall m d n, R d (put_rows m (d <| db_next := n |>))) -> Keeps R (create_with i v).
Proof. intros Hq d r d'. unfold create_with. destruct (rows d !! i); [done|]. intros [= <- <-]. apply Hq. Qed.

Lemma keeps_change {T} `{Table T, !Mutable T, !Quiet R T} i e (v : T -> T) : Keeps R (change i e v).
Proof. intros ??? (?&_&_&_&->)%change_Ok. apply quiet_put. Qed.

Lemma keeps_update {T} `{Table T, !Quiet R T} (q : T -> bool) (v : T -> T) : Keeps R (update_rows q v).
Proof. intros ??? ->%modify_Ok. apply quiet_put. Qed.

Lemma keeps_update_where {T} `{Table T, !Mutable T, !Quiet R T} (q : T -> bool) (v : T -> T) :
  Keeps R (update_where q v).
Proof. intros d a d' Hu. by eapply keeps_update in Hu. Qed.

Lemma keeps_modify f : (forall d, R d (f d)) -> Keeps R (modify f).
Proof. intros Hf ??? ->%modify_Ok. apply Hf. Qed.
End frames.

Create HintDb frame discriminated.
#[export] Hint Resolve keeps_ret keeps_throw keeps_refuse keeps_ask keeps_lift keeps_get : frame.
#[export] Hint Extern 0 (PreOrder _) => typeclasses eauto : frame.
#[export] Hint Extern 1 (Keeps _ (create _)) => (apply keeps_create; typeclasses eauto) : frame.
#[export] Hint Extern 1 (Keeps (same_part _) (create_with _ _)) => (apply keeps_create_with; intros; reflexivity) : frame.
#[export] Hint Extern 1 (Keeps _ (change _ _ _)) => (apply keeps_change; typeclasses eauto) : frame.
#[export] Hint Extern 1 (Keeps _ (update_rows _ _)) => (apply keeps_update; typeclasses eauto) : frame.
#[export] Hint Extern 1 (Keeps _ (update_where _ _)) => (apply keeps_update_where; typeclasses eauto) : frame.
#[export] Hint Extern 1 (Keeps _ (select _)) => (apply keeps_ask; typeclasses eauto) : frame.
#[export] Hint Extern 1 (Keeps _ (any _)) => (apply keeps_ask; typeclasses eauto) : frame.
#[export] Hint Extern 1 (Keeps _ (count _)) => (apply keeps_ask; typeclasses eauto) : frame.
#[export] Hint Extern 1 (Keeps _ (max_of _ _)) => (apply keeps_ask; typeclasses eauto) : frame.

Ltac frame :=
  repeat match goal with
  | |- Keeps _ (_ ≫= _) => apply keeps_bind; [typeclasses eauto| |intros ?]
  | |- Keeps _ (for_each _ _) => apply keeps_for_each; [typeclasses eauto|intros ?]
  | |- Keeps _ (when _ _) => unfold when
  | |- Keeps _ (next_number _ _) => unfold next_number
  | |- Keeps _ (match ?x with _ => _ end) => destruct x
  | |- Keeps _ _ => solve [auto with frame | typeclasses eauto]
  end.

(** [m_inv]: open every successful step of a transaction in the hypotheses. *)
Ltac m_inv :=
  repeat match goal with
  | H : (_ ≫= _) _ = Ok _ |- _ => apply bind_Ok in H as (? & ? & ? & H)
  | H : refuse _ _ _ _ = Ok _ |- _ => apply refuse_Ok in H as [? ?]
  | H : ask _ _ = Ok _ |- _ => apply ask_Ok in H as [? ?]
  | H : mret _ _ = Ok _ |- _ => apply ret_Ok in H as [? ?]
  | H : get _ _ = Ok _ |- _ => apply get_Ok in H as [? ?]
  | H : throw _ _ = Ok _ |- _ => discriminate H
  | H : lift _ _ = Ok _ |- _ => apply lift_Ok in H as [? ?]
  | u : unit |- _ => destruct u
  | d : DB, H : ?d' = ?d |- _ => first [ is_var d'; subst d' | is_var d; subst d | constr_eq d d'; clear H ]
  end.

(** ** Scopes

    [project_of] climbs [SCOPE_PARENT]; a row with a [project_id] of its own stops the climb,
    and an installation-wide row has no project. *)

Definition project_of_mission (i : uid) : M (option uid) :=
  m ← get i; mret (Some (m_project_id m)).

Definition project_of_run (i : uid) : M (option uid) :=
  r ← get i; project_of_mission (r_mission_id r).

Definition project_of_assignment (i : uid) : M (option uid) :=
  a ← get i; project_of_run (a_run_id a).

Definition project_of_execution (i : uid) : M (option uid) :=
  x ← get i; project_of_assignment (x_assignment_id x).

Definition project_of_artifact (i : uid) : M (option uid) :=
  a ← get i; mret (Some (ar_project_id a)).

Definition project_of_repository (i : uid) : M (option uid) :=
  r ← get i; mret (Some (rp_project_id r)).

Definition project_of_forge_item (i : uid) : M (option uid) :=
  f ← get i; project_of_repository (fi_repository_id f).

Definition project_of_discussion (i : uid) : M (option uid) :=
  d ← get i; mret (Some (ds_project_id d)).

Definition project_of (k : kind) (i : uid) : M (option uid) :=
  match k with
  | Kproject => p ← (get i : M project); mret (Some (p_id p))
  | Krepository => project_of_repository i
  | Kmission => project_of_mission i
  | Krun => project_of_run i
  | Kassignment => project_of_assignment i
  | Kexecution => project_of_execution i
  | Kprovider_thread => t ← (get i : M provider_thread); project_of_assignment (t_assignment_id t)
  | Kprovider_request => q ← (get i : M provider_request); project_of_execution (q_execution_id q)
  | Kautomation => a ← (get i : M automation); project_of_run (au_run_id a)
  | Kobligation => o ← (get i : M obligation); project_of_assignment (o_assignment_id o)
  | Kactivity => a ← (get i : M activity); project_of_assignment (ac_assignment_id a)
  | Knode => n ← (get i : M node); mret (Some (n_project_id n))
  | Kdocument => d ← (get i : M document); mret (Some (d_project_id d))
  | Kreference => r ← (get i : M reference); mret (Some (rf_project_id r))
  | Kroadmap_snapshot => r ← (get i : M roadmap_snapshot); mret (Some (rs_project_id r))
  | Kreview_policy => r ← (get i : M review_policy); mret (Some (rv_project_id r))
  | Kreviewer_descriptor => r ← (get i : M reviewer_descriptor); mret (Some (rd_project_id r))
  | Kintegration_identity => _ ← (get i : M integration_identity); mret None
  | Kreview_gate => g ← (get i : M review_gate); project_of_forge_item (rg_forge_item_id g)
  | Kforge_review => f ← (get i : M forge_review); project_of_forge_item (fr_forge_item_id f)
  | Kforge_item => project_of_forge_item i
  | Kdiscussion => project_of_discussion i
  | Kmessage => m ← (get i : M message); project_of_discussion (ms_discussion_id m)
  | Kartifact => project_of_artifact i
  | Kpublication => p ← (get i : M publication); project_of_artifact (pb_artifact_id p)
  | Khost => _ ← (get i : M host); mret None
  | Kharness => _ ← (get i : M harness); mret None
  | Kworkspace => w ← (get i : M workspace); mret (Some (w_project_id w))
  | Kverification => v ← (get i : M verification); project_of_artifact (vf_artifact_id v)
  | Kmilestone_job => j ← (get i : M milestone_job); mret (Some (mj_project_id j))
  end.

(** The scope test of [same_project]. *)
Definition in_project (k : kind) (i : uid) (project : uid) : M unit :=
  p ← project_of k i; refuse (negb (bool_decide (p = Some project))) "scope_mismatch" 422.

Definition same_project {R} `{Table R} (k : kind) (i project : uid) : M R :=
  in_project k i project ;; get i.

(** [get] of a column that may be null. *)
Definition get_opt {R} `{Table R} (i : option uid) : M R :=
  match i with Some i => get i | None => throw (DomainError "invalid_identifier" 422) end.

(** [try] around a read: the errors that the services catch are values. *)
Definition caught (e : error) : bool := match e with DomainError _ _ | ValidationError _ => true | _ => false end.

Definition attempt {A} (m : M A) : M (error + A) := fun d =>
  match m d with
  | Ok (a, d') => Ok (inr a, d')
  | Err e => if caught e then Ok (inl e, d) else Err e
  end.

(** ** Revisions and events *)

(** A row that business revisions record, with the relations of [models.RELATIONS]. *)
Class Revisioned (R : Type) := {
  rev_ref : R -> ObjectRef;
  rev_number : R -> Z;
  rev_content : R -> DB -> revision_content }.

(** [SELECT other WHERE own = i ORDER BY other]. *)
Definition related (i : uid) (relation : gset (uid * uid)) : list uid :=
  sort_by Pos.leb (map snd (List.filter (fun p => bool_decide (p.1 = i)) (elements relation))).

Definition stored (k : kind) (i : uid) : ObjectRef := StoredRef {| ref_kind := k; ref_id := i |}.

#[export] Instance project_revisioned : Revisioned project :=
  {| rev_ref r := stored Kproject (p_id r); rev_number := p_revision; rev_content r _ := CProject r |}.
#[export] Instance mission_revisioned : Revisioned mission :=
  {| rev_ref r := stored Kmission (m_id r); rev_number := m_revision;
     rev_content r d := CMission r (related (m_id r) (tb_mission_node d)) (related (m_id r) (tb_mission_document d)) |}.
#[export] Instance assignment_revisioned : Revisioned assignment :=
  {| rev_ref r := stored Kassignment (a_id r); rev_number := a_revision; rev_content r _ := CAssignment r |}.
#[export] Instance automation_revisioned : Revisioned automation :=
  {| rev_ref r := stored Kautomation (au_id r); rev_number := au_revision; rev_content r _ := CAutomation r |}.

#[export] Instance harness_revisioned : Revisioned harness :=
  {| rev_ref r := stored Kharness (hs_id r); rev_number := hs_revision; rev_content r _ := CHarness r |}.

Definition is_revision (ref : ObjectRef) (n : Z) (r : record_revision) : bool :=
  bool_decide (rr_object_id r = ref) && (rr_object_revision r =? n).

Definition snapshot {R} `{Revisioned R} (row : R) (actor : uid) : M uid :=
  current ← select (is_revision (rev_ref row) (rev_number row));
  match current with
  | r :: _ => mret (rr_id r)
  | [] =>
      content ← ask (rev_content row);
      r ← create (fun i now =>
        {| rr_id := i; rr_created_at := now; rr_object_id := rev_ref row; rr_object_revision := rev_number row;
           rr_schema_version := 1; rr_actor_principal_id := actor; rr_content := content |});
      mret (rr_id r)
  end.

(** The subject of an event: what [emit] reads of the row it is about. *)
Record Subject := {
  sub_ref : option ObjectRef;
  sub_revision : Z;
  sub_status : string;
  sub_note : option string }.

Definition project_subject (r : project) : Subject :=
  {| sub_ref := Some (stored Kproject (p_id r)); sub_revision := p_revision r; sub_status := ""; sub_note := None |}.
Definition mission_subject (r : mission) : Subject :=
  {| sub_ref := Some (stored Kmission (m_id r)); sub_revision := m_revision r;
     sub_status := mission_status_str (m_status r); sub_note := m_closure_note r |}.
Definition run_subject (r : run) : Subject :=
  {| sub_ref := Some (stored Krun (r_id r)); sub_revision := r_revision r;
     sub_status := run_status_str (r_status r); sub_note := r_status_note r |}.
Definition assignment_subject (r : assignment) : Subject :=
  {| sub_ref := Some (stored Kassignment (a_id r)); sub_revision := a_revision r;
     sub_status := assignment_status_str (a_status r); sub_note := a_status_note r |}.
Definition automation_subject (r : automation) : Subject :=
  {| sub_ref := Some (stored Kautomation (au_id r)); sub_revision := au_revision r; sub_status := ""; sub_note := None |}.

Definition obligation_status_str (s : obligation_status) : string :=
  match s with ObOpen => "open" | ObDone => "done" | ObHandled => "handled" | ObSuperseded => "superseded" end.

Definition obligation_subject (r : obligation) : Subject :=
  {| sub_ref := Some (stored Kobligation (o_id r)); sub_revision := o_revision r;
     sub_status := obligation_status_str (o_status r); sub_note := None |}.
Definition thread_subject (r : provider_thread) : Subject :=
  {| sub_ref := Some (stored Kprovider_thread (t_id r)); sub_revision := t_revision r;
     sub_status := thread_status_str (t_status r); sub_note := None |}.
Definition workspace_subject (r : workspace) : Subject :=
  {| sub_ref := Some (stored Kworkspace (w_id r)); sub_revision := w_revision r;
     sub_status := workspace_status_str (w_status r); sub_note := None |}.
Definition publication_subject (r : publication) : Subject :=
  {| sub_ref := Some (stored Kpublication (pb_id r)); sub_revision := pb_revision r;
     sub_status := publication_status_str (pb_status r); sub_note := None |}.

Definition request_subject (q : provider_request) : Subject :=
  {| sub_ref := Some (stored Kprovider_request (q_id q)); sub_revision := q_revision q;
     sub_status := request_status_str (q_status q); sub_note := None |}.
Definition activity_subject (a : activity) : Subject :=
  {| sub_ref := Some (stored Kactivity (ac_id a)); sub_revision := 1; sub_status := ""; sub_note := None |}.

Definition or_else {A} (o o' : option A) : option A := match o with Some _ => o | None => o' end.

(** [emit]; the source and the generated [source_event_id] are those of the control plane. *)
Definition emit (actor project : option uid) (s : Subject) (changed : list string)
    (previous : option string) (execution : option uid) (note : option string) : M event :=
  clock ← ask db_clock;
  create (fun i now =>
    {| ev_id := i; ev_created_at := now; ev_project_id := project; ev_subject_id := sub_ref s;
       ev_actor_principal_id := actor; ev_execution_id := execution; ev_schema_version := 1;
       ev_source := "control_plane"; ev_source_event_id := None; ev_occurred_at := clock;
       ev_payload := match previous with
                     | None => RecordChanged (sub_revision s) changed note
                     | Some before => StatusChanged (sub_revision s) before (sub_status s) (or_else note (sub_note s))
                     end |}).

(** [save_blob], given the content that the store returns for the value; the store's location
    of the blob is not modelled. *)
(** A blob of the store: digest, size and media type. *)
Record Blob := { bl_sha256 : string; bl_size : Z; bl_media_type : string }.

Definition same_blob (project : uid) (sha256 : string) (a : artifact) : bool :=
  bool_decide (ar_project_id a = project) && bool_decide (ar_kind a = BlobArtifact)
  && match ar_content a with BlobContent s _ _ => bool_decide (s = sha256) | _ => false end.

Definition save_blob (project : uid) (sha256 : string) (size : Z) (media_type : string) (execution : option uid) : M artifact :=
  existing ← select (same_blob project sha256);
  match existing with
  | a :: _ => mret a
  | [] => create (fun i now =>
      {| ar_id := i; ar_created_at := now; ar_project_id := project; ar_created_by_execution_id := execution;
         ar_kind := BlobArtifact; ar_content := BlobContent sha256 size media_type |})
  end.

(** A row of the activity stream. *)
Definition new_activity (x : execution) (t q : option uid) (k : activity_kind) (summary : option string) (skills : list string)
    (observed : instant) (i : uid) (now : instant) : activity :=
  {| ac_id := i; ac_created_at := now; ac_assignment_id := x_assignment_id x; ac_execution_id := x_id x;
     ac_provider_thread_id := t; ac_provider_request_id := q; ac_kind := k; ac_summary := summary; ac_skills_used := skills;
     ac_usage_record_id := None; ac_occurred_at := observed |}.

(** [INSERT INTO assignment_artifact ... ON CONFLICT DO NOTHING]. *)
Definition attach_artifact (a artifact : uid) : M unit :=
  modify (fun d => d <| tb_assignment_artifact := <[(a, artifact) := default Evidence (tb_assignment_artifact d !! (a, artifact))]>
                                                     (tb_assignment_artifact d) |>).

Section frame_records.
Context (R : relation DB) `{!PreOrder R}.

Lemma keeps_project_of k i : Keeps R (project_of k i).
Proof.
  destruct k; cbn; repeat first [ progress frame
    | progress unfold project_of_repository, project_of_mission, project_of_run, project_of_assignment,
        project_of_execution, project_of_artifact, project_of_forge_item, project_of_discussion ].
Qed.

Lemma keeps_in_project k i q : Keeps R (in_project k i q).
Proof. pose proof keeps_project_of. unfold in_project. frame. Qed.

Lemma keeps_same_project {T} `{Table T} k i q : Keeps R (same_project k i q : M T).
Proof. pose proof keeps_in_project. unfold same_project. frame. Qed.

Lemma keeps_snapshot {T} `{Revisioned T} `{!Quiet R record_revision} (row : T) actor :
  Keeps R (snapshot row actor).
Proof. unfold snapshot. frame. Qed.

Lemma keeps_emit `{!Quiet R event} actor project s changed previous execution note :
  Keeps R (emit actor project s changed previous execution note).
Proof. unfold emit. frame. Qed.

Lemma keeps_save_blob `{!Quiet R artifact} p s n m x : Keeps R (save_blob p s n m x).
Proof. unfold save_blob. frame. Qed.
End frame_records.

#[export] Hint Resolve keeps_project_of keeps_in_project keeps_same_project : frame.
#[export] Hint Extern 1 (Keeps _ (attach_artifact _ _)) => (unfold attach_artifact; solve [auto with frame]) : frame.
#[export] Hint Extern 1 (Keeps _ (snapshot _ _)) => (apply keeps_snapshot; typeclasses eauto) : frame.
#[export] Hint Extern 1 (Keeps _ (save_blob _ _ _ _ _)) => (apply keeps_save_blob; typeclasses eauto) : frame.
#[export] Hint Extern 1 (Keeps _ (emit _ _ _ _ _ _ _)) => (apply keeps_emit; typeclasses eauto) : frame.

(** A computation that reads only. *)
Lemma read_only {A} (m : M A) d a d' : Keeps eq m -> m d = Ok (a, d') -> d' = d.
Proof. intros Hf H. symmetry. by eapply Hf. Qed.

Lemma project_of_reads k i d p d' : project_of k i d = Ok (p, d') -> d' = d.
Proof. apply read_only, keeps_project_of, _. Qed.

Lemma in_project_reads k i q d u d' : in_project k i q d = Ok (u, d') -> d' = d.
Proof. apply read_only, keeps_in_project, _. Qed.

Lemma same_project_Ok {R} `{Table R} k i q d (r : R) d' :
  same_project k i q d = Ok (r, d') -> d' = d /\ rows d !! i = Some r /\ project_of k i d = Ok (Some q, d).
Proof.
  unfold same_project, in_project. intros Hs. m_inv.
  match goal with Hp : project_of _ _ _ = Ok _ |- _ => pose proof (project_of_reads _ _ _ _ _ Hp); subst end.
  bools. subst. done.
Qed.
