(* ===== verification/Auth.v ===== *)
(** * Credentials and scoped authorization

    src/archon_horizon/pipeline/auth.py: who an actor is, and what it may do in a project.
    SHA-256 and the random token of a new credential are arguments.  [login] is not modelled:
    it rests on the Argon2 library. *)

From S2P Require Import Prelude Contracts Schema Records.

(** The credential of an actor that the process itself creates is not a stored kind
    ([None]); [owner] keeps the identifiers that the operations read. *)
Record Actor := {
  actor_id : uid;
  actor_kind : principal_kind;
  actor_execution : option uid;
  actor_host : option uid;
  actor_credential_kind : option credential_kind;
  actor_credential_id : option uid }.

Definition is_agent (a : Actor) : bool := bool_decide (actor_kind a = Agent).

(** [ROLE_ORDER], on grants and on the roles of executions. *)
Definition grant_order (r : grant_role) : Z :=
  match r with ViewerGrant => 0 | WorkerGrant => 1 | MaintainerGrant => 2 end.

Definition role_grant (r : role) : grant_role :=
  match r with Worker => WorkerGrant | Maintainer => MaintainerGrant end.

Section credentials.
Context (sha256 : string -> string).

Definition token_digest (token : string) : string := sha256 token.

Definition issue_credential (random : string) (principal : uid) (k : credential_kind) (name : string)
    (expires : option instant) : M (credential * string) :=
  let token := ("hz_" +:+ random)%string in
  row ← create (fun i now =>
    {| cr_id := i; cr_created_at := now; cr_updated_at := now; cr_revision := 1; cr_principal_id := principal;
       cr_kind := k; cr_name := name; cr_token_hash := token_digest token;
       cr_display_prefix := String.substring 0 10 token; cr_expires_at := expires; cr_revoked_at := None;
       cr_last_used_at := None |});
  mret (row, token).

Definition usable_credential (d : DB) (hash : string) (c : credential) : bool :=
  bool_decide (cr_token_hash c = hash) && bool_decide (cr_revoked_at c = None)
  && match cr_expires_at c with Some t => db_now d <? t | None => true end
  && match tb_principal d !! cr_principal_id c with
     | Some p => bool_decide (pr_disabled_at p = None)
     | None => false
     end.

Definition authenticate (token : option string) : M Actor :=
  match token with
  | None => throw (DomainError "unauthenticated" 401)
  | Some token =>
      refuse (bool_decide (token = EmptyString) || (512 <? Z.of_nat (String.length token))) "unauthenticated" 401 ;;
      d ← ask id;
      found ← select (usable_credential d (token_digest token));
      match found with
      | [] => throw (DomainError "unauthenticated" 401)
      | c :: _ =>
          p ← get (cr_principal_id c);
          mret {| actor_id := pr_id p; actor_kind := pr_kind p; actor_execution := pr_execution_id p;
                  actor_host := pr_host_id p; actor_credential_kind := Some (cr_kind c);
                  actor_credential_id := Some (cr_id c) |}
      end
  end.
End credentials.

Definition is_admin (a : Actor) (d : DB) : bool :=
  (bool_decide (actor_kind a = Human) || bool_decide (actor_kind a = ServicePrincipal))
  && bool_decide (actor_id a ∈ tb_system_grant d).

Definition require_admin (a : Actor) : M unit :=
  admin ← ask (is_admin a); refuse (negb admin) "forbidden" 403.

(** The row that [live_execution] selects: the execution with columns of its assignment and
    of the mission of its run. *)
Record LiveExecution := {
  lx_execution : execution;
  lx_run_id : uid;
  lx_role : role;
  lx_mission_id : uid;
  lx_project_id : uid }.

Definition lx_assignment_id (l : LiveExecution) : uid := x_assignment_id (lx_execution l).

Definition live_row (d : DB) (i : uid) : option LiveExecution :=
  x ← tb_execution d !! i;
  a ← tb_assignment d !! x_assignment_id x;
  r ← tb_run d !! a_run_id a;
  m ← tb_mission d !! r_mission_id r;
  if mem (x_status x) [XStarting; XRunning] && (db_now d <? x_lease_expires_at x)
     && bool_decide (a_status a = Running) && mem (r_status r) [RunActive; RunPaused; RunDraining]
  then Some {| lx_execution := x; lx_run_id := a_run_id a; lx_role := a_role a;
               lx_mission_id := a_mission_id a; lx_project_id := m_project_id m |}
  else None.

Definition live_execution (a : Actor) : M LiveExecution :=
  refuse (negb (is_agent a) || negb (bool_decide (actor_credential_kind a = Some ExecutionToken)))
         "forbidden" 403 ;;
  match actor_execution a with
  | None => throw (RuntimeFailure "execution_id")
  | Some i =>
      found ← ask (fun d => live_row d i);
      match found with
      | Some l => mret l
      | None => throw (DomainError "stale_epoch" 409)
      end
  end.

Definition require_project (a : Actor) (project : uid) (needed : grant_role) : M unit :=
  admin ← ask (is_admin a);
  if (admin : bool) then mret tt
  else match actor_kind a with
  | Agent =>
      l ← live_execution a;
      refuse (negb (bool_decide (lx_project_id l = project)
                    && (grant_order needed <=? grant_order (role_grant (lx_role l))))) "forbidden" 403
  | Human | ServicePrincipal =>
      actual ← ask (fun d => tb_project_grant d !! (actor_id a, project));
      refuse (negb match actual with
                   | Some g => grant_order needed <=? grant_order g
                   | None => false
                   end) "forbidden" 403
  | HostPrincipal => throw (DomainError "forbidden" 403)
  end.

Definition require_host (a : Actor) (h : uid) : M unit :=
  refuse (negb (bool_decide (actor_kind a = HostPrincipal))
          || negb (bool_decide (actor_credential_kind a = Some HostKey))
          || negb (bool_decide (actor_host a = Some h))) "forbidden" 403.

(** ** Frames and meaning *)

Lemma keeps_live_execution R `{!PreOrder R} a : Keeps R (live_execution a).
Proof. unfold live_execution. frame. Qed.
#[export] Hint Resolve keeps_live_execution : frame.

Lemma keeps_require_project R `{!PreOrder R} a q g : Keeps R (require_project a q g).
Proof. unfold require_project. frame. Qed.
#[export] Hint Resolve keeps_require_project : frame.

Lemma keeps_require_admin R `{!PreOrder R} a : Keeps R (require_admin a).
Proof. unfold require_admin. frame. Qed.
#[export] Hint Resolve keeps_require_admin : frame.

Lemma live_execution_reads a d l d' : live_execution a d = Ok (l, d') -> d' = d.
Proof. apply read_only, keeps_live_execution, _. Qed.

Lemma require_project_reads a q g d u d' : require_project a q g d = Ok (u, d') -> d' = d.
Proof. apply read_only, keeps_require_project, _. Qed.

Lemma live_execution_Ok a d l d' :
  live_execution a d = Ok (l, d') ->
  d' = d /\ is_agent a = true /\ actor_credential_kind a = Some ExecutionToken
  /\ exists i, actor_execution a = Some i /\ live_row d i = Some l.
Proof.
  intros H. pose proof (live_execution_reads _ _ _ _ H) as ->. unfold live_execution in H. m_inv.
  apply orb_false_iff in H0 as [Ha Hc]. bools.
  destruct (actor_execution a) as [i|]; [|by m_inv]. m_inv.
  destruct (live_row d i) as [l'|] eqn:E; m_inv. split; [done|]. split; [done|].
  split; [done|]. by exists i.
Qed.
