(* ===== verification/Samples.v ===== *)
(** * Sample rows

    Small concrete databases on which the operations are evaluated. *)

From S2P Require Import Prelude Contracts Schema Records Auth.

Definition sample_mission (i : uid) (parent : option uid) (s : mission_status) : mission :=
  {| m_id := i; m_created_at := 0; m_updated_at := 0; m_revision := 1; m_project_id := 2; m_number := Zpos i;
     m_parent_id := parent; m_roadmap_document_id := None; m_title := "Mission"; m_objective := "Prove it";
     m_status := s; m_acceptance_criteria := ["builds"]; m_delegation_note := Some "handoff";
     m_scope := {| node_ids := []; document_ids := []; repository_paths := [] |}; m_max_open_children := 1;
     m_closed_at := None; m_closure_note := None; m_archived_at := None |}.

Definition sample_run (i mission : uid) (s : run_status) : run :=
  {| r_id := i; r_created_at := 0; r_updated_at := 0; r_revision := 1; r_number := 1; r_mission_id := mission;
     r_phase := Formalization None true; r_objective_id := None; r_orchestration := LegacyRun;
     r_queue_policies := ∅; r_requested_phases := []; r_phase_history := []; r_pending_phase := None;
     r_auto_advance := false; r_adopted_roadmap_snapshot_id := None; r_status := s; r_status_note := None;
     r_started_at := None; r_finished_at := None; r_max_assignments := None; r_token_budget := None;
     r_expires_at := None; r_retry_policy := default_retry_policy |}.

Definition sample_assignment (i run mission : uid) (s : assignment_status) : assignment :=
  {| a_id := i; a_created_at := 0; a_updated_at := 0; a_revision := 1; a_run_id := run; a_number := Zpos i;
     a_mission_id := mission; a_category := None; a_recurrence_key := None; a_pause_reason := None;
     a_parent_id := None; a_automation_id := None; a_reviewer_descriptor_id := None; a_role := Worker;
     a_functions := ["prove"]; a_instructions := None; a_harness_id := None; a_model_options := no_options;
     a_status := s; a_status_note := None; a_queue_rank := 1024; a_not_before := None; a_expires_at := None;
     a_start_condition := None; a_checkpoint_requested_at := None; a_retry_at := None; a_started_at := None;
     a_finished_at := None; a_recovery_attempts := 0 |}.

Definition sample_execution (i assignment : uid) (s : Schema.execution_status) : execution :=
  {| x_id := i; x_created_at := 0; x_updated_at := 0; x_revision := 1; x_native_capacity := None;
     x_assignment_id := assignment; x_number := 1; x_host_id := 90; x_workspace_id := 91; x_harness_id := 92;
     x_assignment_revision_id := 93; x_mission_revision_id := 94; x_harness_revision_id := 95;
     x_skill_bundle_artifact_id := 96; x_roadmap_snapshot_id := None; x_sandbox_manifest_artifact_id := 97;
     x_status := s; x_lease_expires_at := 1000; x_heartbeat_at := None; x_started_at := None;
     x_finished_at := None; x_stop_confirmed_at := None; x_failure := None |}.

(** An administrator, and the agent of execution 7. *)
Definition admin : Actor :=
  {| actor_id := 1; actor_kind := Human; actor_execution := None; actor_host := None;
     actor_credential_kind := Some ApiKey; actor_credential_id := None |}.

Definition agent : Actor :=
  {| actor_id := 8; actor_kind := Agent; actor_execution := Some 7%positive; actor_host := None;
     actor_credential_kind := Some ExecutionToken; actor_credential_id := None |}.

(** Mission 3 with its child 4; run 5 of mission 3 with assignment 6, executing as 7. *)
Definition sample_db : DB :=
  (empty_db 500) <| db_next := 100%positive |> <| tb_system_grant := {[1%positive]} |>
    <| tb_mission := <[4%positive := sample_mission 4 (Some 3%positive) MissionOpen]>
                       {[3%positive := sample_mission 3 None MissionOpen]} |>
    <| tb_run := {[5%positive := sample_run 5 3 RunActive]} |>
    <| tb_assignment := {[6%positive := sample_assignment 6 5 3 Running]} |>
    <| tb_execution := {[7%positive := sample_execution 7 6 XRunning]} |>.

Definition sample_thread (i assignment workspace : uid) (s : thread_status) : provider_thread :=
  {| t_id := i; t_created_at := 0; t_updated_at := 0; t_revision := 1; t_assignment_id := assignment; t_number := 1;
     t_label := None; t_description := None; t_kind := Primary; t_parent_request_id := None; t_workspace_id := workspace;
     t_harness_revision_id := 95; t_skill_bundle_artifact_id := 96; t_provider_thread_id := None;
     t_provider_state_ref := "state"; t_predecessor_id := None; t_recovery_note := None;
     t_applied_mission_revision_id := None; t_applied_roadmap_snapshot_id := None; t_applied_run_revision := None;
     t_applied_model_options := no_options; t_status := s |}.

Definition sample_request (i thread execution : uid) (s : request_status) : provider_request :=
  {| q_id := i; q_created_at := 0; q_updated_at := 0; q_revision := 1; q_provider_thread_id := thread;
     q_execution_id := execution; q_number := 1; q_reason := ForAssignment; q_reviewer_descriptor_id := None;
     q_reviewer_descriptor_revision_id := None; q_guidance_manifest_artifact_id := None; q_input_artifact_id := None;
     q_provider_turn_id := None; q_native_background := None; q_status := s; q_submitted_at := None;
     q_started_at := None; q_finished_at := None; q_failure := None |}.

Definition sample_claim (i limit execution : uid) : resource_claim :=
  {| cl_id := i; cl_created_at := 0; cl_updated_at := 0; cl_revision := 1; cl_resource_limit_id := limit;
     cl_execution_id := execution; cl_provider_request_id := None; cl_units := 1; cl_released_at := None |}.

Definition sample_automation (i run mission : uid) (enabled : bool) : automation :=
  {| au_id := i; au_created_at := 0; au_updated_at := 0; au_revision := 1; au_run_id := run; au_name := "plan";
     au_mission_id := mission; au_frontier_hash := None; au_pause_reason := None; au_role := Worker;
     au_functions := []; au_instructions := None; au_enabled := enabled; au_start_condition := None;
     au_not_before := None; au_cooldown_seconds := 60; au_no_progress_count := 0 |}.

Definition sample_project : project :=
  {| p_id := 2; p_created_at := 0; p_updated_at := 0; p_revision := 1; p_number := 1; p_slug := "demo"; p_title := "Demo";
     p_description := ""; p_workflow := GraphFlow; p_archived_at := None |}.

Definition sample_document (i project : uid) : document :=
  {| d_id := i; d_created_at := 0; d_updated_at := 0; d_revision := 1; d_project_id := project; d_number := 1;
     d_kind := Roadmap; d_title := "Roadmap"; d_source_repository_id := 31; d_source_path := "objectives/main.md";
     d_source_commit_oid := "c0ffee"; d_archived_at := None |}.

Definition sample_host (i : uid) (health : option HostHealth) : host :=
  {| h_id := i; h_created_at := 0; h_updated_at := 0; h_revision := 1; h_slug := "alpha"; h_display_name := "Alpha";
     h_workspace_root := "/srv/horizon"; h_scratch_root := "/tmp";
     h_sandbox := {| sp_mode := Unrestricted; sp_image_digest := None; sp_network_outbound := true; sp_extra_mounts := [];
                     sp_memory_limit_bytes := None; sp_cpu_limit := None; sp_process_limit := None |};
     h_mode := HostEnabled; h_heartbeat_at := Some 400; h_agent_version := None; h_health := health |}.

Definition sample_repository : repository :=
  {| rp_id := 31; rp_created_at := 0; rp_updated_at := 0; rp_revision := 1; rp_project_id := 2; rp_slug := "work";
     rp_integration_id := 80; rp_remote_id := "1"; rp_remote_path := None; rp_default_branch := "main";
     rp_purpose := WorkspaceRepo; rp_archived_at := None |}.

Definition sample_workspace (i : uid) (path : string) : workspace :=
  {| w_id := i; w_created_at := 0; w_updated_at := 0; w_revision := 1; w_cleaned_at := None; w_cleanup_error := None;
     w_project_id := 2; w_host_id := 90; w_repository_id := 31; w_path := path; w_branch_name := "main";
     w_base_commit_oid := "c0ffee"; w_head_commit_oid := None; w_status := WReady |}.

Definition sample_harness : harness :=
  {| hs_id := 92; hs_created_at := 0; hs_updated_at := 0; hs_revision := 1; hs_slug := "codex"; hs_adapter := CodexAppServer;
     hs_adapter_version := "1"; hs_provider_version := "1"; hs_model_options := no_options; hs_settings := ""; hs_enabled := true |}.

Definition sample_slots : host_harness :=
  {| hx_executable_path := "/bin/codex"; hx_provider_home := "/home"; hx_credential_ref := "main"; hx_execution_slots := 4;
     hx_max_parallel_subagents := Some 9; hx_enabled := true; hx_updated_at := 0; hx_revision := 1 |}.
