(* ===== verification/MissionTree.v ===== *)
(** * The mission tree

    src/archon_horizon/pipeline/missions/mission_tree.py: scopes and their containment, the
    recursive queries over parents and descendants, and the checks that guard delegation,
    movement and closure of missions.

    The two recursive common table expressions are computed as PostgreSQL does for [UNION]:
    rows already seen are not expanded again, so the computation ends on any table. *)

From S2P Require Import Prelude Contracts Schema Records Auth.

(** ** Scopes *)

Definition empty_scope : Scope := {| node_ids := []; document_ids := []; repository_paths := [] |}.

(** The sort key [(repository_id, path or "")]. *)
Definition path_leb (a b : uid * option string) : bool :=
  (a.1 <? b.1)%positive || (bool_decide (a.1 = b.1) && String.leb (default "" a.2) (default "" b.2)).

Definition normalized_scope (value : option Scope) : Scope :=
  let value := default empty_scope value in
  {| node_ids := sort_by Pos.leb (remove_dups (node_ids value));
     document_ids := sort_by Pos.leb (remove_dups (document_ids value));
     repository_paths := sort_by path_leb (repository_paths value) |}.

(** [any(scope.values())]. *)
Definition scope_explicit (s : Scope) : bool :=
  negb (bool_decide (node_ids s = [])) || negb (bool_decide (document_ids s = []))
  || negb (bool_decide (repository_paths s = [])).

(** Whether an entry of a child is covered by the entries [allowed] of its parent. *)
Definition path_allowed (allowed : list (uid * option string)) (row : uid * option string) : bool :=
  mem row allowed || mem (row.1, None) allowed
  || match row.2 with
     | None => false
     | Some path => existsb (fun a => bool_decide (a.1 = row.1)
                                      && match a.2 with
                                         | Some prefix => starts_with (prefix +:+ "/") path
                                         | None => false
                                         end) allowed
     end.

Definition scope_contains (parent child : option Scope) : bool :=
  let parent := normalized_scope parent in
  let child := normalized_scope child in
  if negb (scope_explicit parent) then true
  else if negb (scope_explicit child) then false
  else subset_of (node_ids child) (node_ids parent)
       && subset_of (document_ids child) (document_ids parent)
       && forallb (path_allowed (repository_paths parent)) (repository_paths child).

Definition validate_scope_references (project : uid) (scope : Scope) : M unit :=
  for_each (fun i => in_project Knode i project) (node_ids scope) ;;
  for_each (fun i => in_project Kdocument i project) (document_ids scope) ;;
  for_each (fun rp => in_project Krepository rp.1 project) (repository_paths scope).

Definition validate_scope_links (scope : Scope) (nodes documents : list uid) : M unit :=
  if negb (scope_explicit scope) then mret tt
  else refuse (negb (subset_of nodes (node_ids scope))) "scope_link_mismatch" 422 ;;
       refuse (negb (subset_of documents (document_ids scope))) "scope_link_mismatch" 422.

(** ** Ancestors and descendants *)

Definition parent_of (d : DB) (i : uid) : option uid := m ← tb_mission d !! i; m_parent_id m.

(** The rows of the [mission_lineage] query: the mission and its ancestors. *)
Fixpoint lineage (fuel : nat) (d : DB) (seen : gset uid) (i : uid) : gset uid :=
  match fuel with
  | O => seen
  | S fuel =>
      if bool_decide (i ∈ seen) then seen
      else match tb_mission d !! i with
           | None => seen
           | Some m =>
               match m_parent_id m with
               | None => {[i]} ∪ seen
               | Some p => lineage fuel d ({[i]} ∪ seen) p
               end
           end
  end.

Definition contains_mission (d : DB) (ancestor child : uid) : bool :=
  bool_decide (ancestor ∈ lineage (S (size (tb_mission d))) d ∅ child).

(** One expansion of the [mission_descendants] query. *)
Definition parent_in (s : gset uid) (m : mission) : bool :=
  match m_parent_id m with Some p => bool_decide (p ∈ s) | None => false end.

Definition children_of (d : DB) (s : gset uid) : gset uid :=
  dom (omap (fun m => if parent_in s m then Some tt else None) (tb_mission d)).

Fixpoint saturate (fuel : nat) (d : DB) (s : gset uid) : gset uid :=
  match fuel with
  | O => s
  | S fuel => let s' := s ∪ children_of d s in
              if bool_decide (s' = s) then s else saturate fuel d s'
  end.

Definition descendants (d : DB) (i : uid) : gset uid :=
  saturate (S (size (tb_mission d))) d (children_of d {[i]}).

Definition open_child_of (p : uid) (exclude : option uid) (m : mission) : bool :=
  bool_decide (m_parent_id m = Some p) && bool_decide (m_status m = MissionOpen)
  && match exclude with Some x => negb (bool_decide (m_id m = x)) | None => true end.

Definition open_children (p : uid) (exclude : option uid) : M Z := count (open_child_of p exclude).

(** ** Delegation *)

Definition parent_for_child (project : uid) (parent : option uid) (expected : option Z) : M (option mission) :=
  match parent with
  | None =>
      refuse (match expected with Some _ => true | None => false end) "invalid_parent_revision" 422 ;;
      mret None
  | Some i =>
      p ← (same_project Kmission i project : M mission);
      refuse (negb (bool_decide (m_status p = MissionOpen))) "parent_closed" 409 ;;
      match expected with
      | None => throw (DomainError "parent_revision_required" 422)
      | Some n =>
          refuse (negb (m_revision p =? n)) "revision_conflict" 409 ;;
          open ← open_children i None;
          refuse (m_max_open_children p <=? open) "child_budget_exhausted" 409 ;;
          mret (Some p)
      end
  end.

Definition validate_child (parent : mission) (scope : option Scope) (criteria : list string)
    (note : option string) : M Scope :=
  let inherited := m_scope parent in
  let effective := normalized_scope (Some (default inherited scope)) in
  refuse (negb (scope_contains (Some inherited) (Some effective))) "scope_widening" 422 ;;
  refuse (bool_decide (criteria = [])) "acceptance_criteria_required" 422 ;;
  refuse (match note with Some n => blank n | None => true end) "delegation_note_required" 422 ;;
  mret effective.

Definition validate_reparent (m : mission) (parent : option uid) : M unit :=
  match parent with
  | None => mret tt
  | Some p => d ← ask id; refuse (contains_mission d (m_id m) p) "mission_cycle" 422
  end.

(** ** Authority *)

(** The name of the automation that plans an objective ([objectives.PLANNER]). *)
Definition objective_planner : string := "objective-planner".

(** The mission that an execution's assignment owns. *)
Definition owned_mission (a : assignment) : M uid :=
  r ← get (a_run_id a);
  let objective := bool_decide (r_orchestration r = ObjectiveRun) in
  planned ← match a_automation_id a with
            | Some i => if (objective : bool)
                        then au ← get i;
                             mret (if bool_decide (au_name au = objective_planner) then r_mission_id r
                                   else a_mission_id a)
                        else mret (a_mission_id a)
            | None => mret (a_mission_id a)
            end;
  mret (if bool_decide (a_role a = Maintainer) && objective then r_mission_id r else planned).

Definition require_mission_authority (actor : Actor) (i : uid) (needed : role) : M mission :=
  m ← get i;
  if negb (is_agent actor) then mret m
  else
    l ← live_execution actor;
    refuse (negb (bool_decide (lx_project_id l = m_project_id m))) "forbidden" 403 ;;
    refuse (negb (mem (lx_role l) [Maintainer; needed])) "forbidden" 403 ;;
    a ← get (lx_assignment_id l);
    owned ← owned_mission a;
    d ← ask id;
    refuse (negb (contains_mission d owned i)) "forbidden" 403 ;;
    mret m.

Definition require_assignment_authority (actor : Actor) (a : assignment) : M unit :=
  if negb (is_agent actor) then mret tt
  else
    l ← live_execution actor;
    refuse (negb (bool_decide (a_run_id a = lx_run_id l))) "forbidden" 403 ;;
    _ ← require_mission_authority actor (a_mission_id a) Worker;
    mret tt.

(** ** Closure *)

Definition live_assignment (a : assignment) : bool := mem (a_status a) [Pending; Running; Stopping].

Definition ensure_closure_allowed (m : mission) (cancel : bool) : M unit :=
  d ← ask id;
  let below := descendants d (m_id m) in
  open ← any (fun c => bool_decide (m_id c ∈ below) && bool_decide (m_status c = MissionOpen));
  refuse open "open_children" 409 ;;
  if negb cancel then mret tt
  else
    live ← any (fun a => (bool_decide (a_mission_id a = m_id m) || bool_decide (a_mission_id a ∈ below))
                         && live_assignment a);
    refuse live "active_assignments" 409.

Definition bump_parent (parent : mission) (actor : uid) : M mission :=
  row ← change (m_id parent) (Some (m_revision parent))
               (fun m => m <| m_delegation_note := m_delegation_note parent |>);
  _ ← snapshot row actor;
  _ ← emit (Some actor) (Some (m_project_id row)) (mission_subject row) ["child_ids"] None None None;
  mret row.

(** ** What a scope covers *)

(** The objects a scope speaks about: graph nodes, documents, and paths of repositories. *)
Inductive thing : Type :=
| ANode (i : uid)
| ADocument (i : uid)
| APath (repository : uid) (path : string).

Definition entry_covers (repository : uid) (path : string) (e : uid * option string) : Prop :=
  e.1 = repository /\ match e.2 with
                      | None => True
                      | Some q => path = q \/ starts_with (q +:+ "/") path = true
                      end.

Definition covers (s : Scope) (x : thing) : Prop :=
  scope_explicit s = false \/
  match x with
  | ANode i => i ∈ node_ids s
  | ADocument i => i ∈ document_ids s
  | APath r p => Exists (entry_covers r p) (repository_paths s)
  end.

Lemma sort_by_Permutation {A} (leb : A -> A -> bool) l : sort_by leb l ≡ₚ l.
Proof. apply merge_sort_Permutation. Qed.

Lemma normalized_nil {A} (leb : A -> A -> bool) l : sort_by leb l = [] <-> l = [].
Proof.
  split; [|by intros ->]. intros E. apply Permutation_nil. symmetry. rewrite <- E. symmetry. apply sort_by_Permutation.
Qed.

Lemma remove_dups_nil {A} `{EqDecision A} (l : list A) : remove_dups l = [] <-> l = [].
Proof.
  split; [|by intros ->]. destruct l as [|a l]; [done|]. intros E. exfalso.
  apply (not_elem_of_nil a). rewrite <- E. apply elem_of_remove_dups. by left.
Qed.

Lemma normalized_explicit s : scope_explicit (normalized_scope (Some s)) = scope_explicit s.
Proof.
  unfold scope_explicit, normalized_scope. cbn.
  repeat f_equal; apply bool_decide_ext; by rewrite normalized_nil, ?remove_dups_nil.
Qed.

Lemma normalized_covers s x : covers (normalized_scope (Some s)) x <-> covers s x.
Proof.
  unfold covers. rewrite normalized_explicit. destruct x; cbn.
  1,2: by rewrite sort_by_Permutation, elem_of_remove_dups.
  by rewrite sort_by_Permutation.
Qed.

#[local] Arguments String.append !s1 s2 : simpl nomatch.

(** A path that no finite list of path entries covers. *)
Fixpoint long_name (n : nat) : string := match n with O => "a" | S n => String "a" (long_name n) end.

Lemma long_name_length n : String.length (long_name n) = S n.
Proof. induction n; cbn; congruence. Qed.

Lemma starts_with_split p s : starts_with p s = true -> exists t, s = (p +:+ t)%string.
Proof.
  unfold starts_with. revert s. induction p as [|c p IH]; intros s; [by exists s|].
  destruct s as [|c' s]; cbn; [done|]. destruct (Ascii.ascii_dec c c') as [->|]; [|done].
  intros (t & ->)%IH. by exists t.
Qed.

Lemma starts_with_app p t : starts_with p (p +:+ t)%string = true.
Proof.
  unfold starts_with. induction p as [|c p IH]; cbn; [by destruct t|].
  destruct (Ascii.ascii_dec c c); [exact IH|done].
Qed.

Lemma app_assoc_string (a b c : string) : ((a +:+ b) +:+ c)%string = (a +:+ (b +:+ c))%string.
Proof. induction a; cbn; congruence. Qed.

Lemma length_app_string (a b : string) : String.length (a +:+ b) = (String.length a + String.length b)%nat.
Proof. induction a; cbn; congruence. Qed.

Lemma long_name_no_slash n q t : long_name n <> (q +:+ "/" +:+ t)%string.
Proof. revert q; induction n; intros [|c q]; cbn; try done; intros [= _ H]; [by destruct q|by eapply IHn]. Qed.

Lemma fresh_path (l : list (uid * option string)) r :
  exists p, forall e, e ∈ l -> e.1 = r -> entry_covers r p e -> e.2 = None.
Proof.
  set (bound := List.fold_right (fun e n => (n + String.length (default "" e.2))%nat) O l).
  exists (long_name bound). intros [r' [q|]] Hin Hr [_ Hc]; [|done]. cbn in *. exfalso.
  destruct Hc as [Hq|Hq].
  - assert (String.length q <= bound)%nat as Hle.
    { subst bound. clear -Hin. induction l as [|e l IH]; [by apply elem_of_nil in Hin|].
      apply elem_of_cons in Hin as [<-|Hin]; cbn; [lia|]. specialize (IH Hin). lia. }
    rewrite <- Hq, long_name_length in Hle. lia.
  - apply starts_with_split in Hq as (t & Hq). rewrite app_assoc_string in Hq.
    by eapply long_name_no_slash.
Qed.

Lemma path_allowed_true allowed r o :
  path_allowed allowed (r, o) = true <->
  match o with
  | None => (r, None) ∈ allowed
  | Some p => Exists (entry_covers r p) allowed
  end.
Proof.
  unfold path_allowed. cbn. rewrite !orb_true_iff, !mem_true. destruct o as [p|]; [|naive_solver].
  rewrite Exists_exists, existsb_true, Exists_exists. split.
  - intros [[H|H]|((r' & o) & Hin & Hb)].
    + exists (r, Some p). split; [done|]. split; [done|]. by left.
    + exists (r, None). by split.
    + cbn in Hb. bools. destruct o as [q|]; [|done]. exists (r', Some q). split; [done|]. by split; [|right].
  - intros ([r' o] & Hin & Hr & Hc). cbn in *. subst r'. destruct o as [q|]; [|by left; right].
    destruct Hc as [->|Hc]; [by left; left|]. right. exists (r, Some q). split; [done|]. cbn.
    by rewrite bool_decide_eq_true_2.
Qed.

Lemma entry_covers_trans r p q e :
  entry_covers r q e -> starts_with (q +:+ "/") p = true -> entry_covers r p e.
Proof.
  intros [Hr Hc] Hp. split; [done|]. destruct (e.2) as [q'|]; [right|done].
  destruct Hc as [->|Hc]; [done|].
  apply starts_with_split in Hp as (t & ->). apply starts_with_split in Hc as (t' & ->).
  rewrite !app_assoc_string. rewrite <- (app_assoc_string q'). apply starts_with_app.
Qed.

Lemma covers_entry s r p e :
  e ∈ repository_paths s -> entry_covers r p e -> covers s (APath r p).
Proof. intros. right. apply Exists_exists. eauto. Qed.

Lemma explicit_false s : scope_explicit s = false <-> s = empty_scope.
Proof.
  destruct s as [n dd p]. unfold scope_explicit, empty_scope. cbn. split.
  - intros H. bools. congruence.
  - by intros [= -> -> ->].
Qed.

(** The lists of an explicit scope, related entry by entry. *)
Definition lists_within (child parent : Scope) : Prop :=
  (forall i, i ∈ node_ids child -> i ∈ node_ids parent)
  /\ (forall i, i ∈ document_ids child -> i ∈ document_ids parent)
  /\ (forall e, e ∈ repository_paths child -> path_allowed (repository_paths parent) e = true).

Lemma within_covers child parent x :
  scope_explicit child = true -> lists_within child parent -> covers child x -> covers parent x.
Proof.
  intros Hc (Hn & Hd & Hp) [Hx|Hx]; [congruence|]. destruct x as [i|i|r p]; [right; auto..|].
  apply Exists_exists in Hx as ([r' o] & Hin & Hr & He). cbn in Hr, He. subst r'.
  specialize (Hp _ Hin). apply path_allowed_true in Hp. destruct o as [q|].
  - apply Exists_exists in Hp as (e & Hin' & Hcov). destruct He as [->|He]; [by eapply covers_entry|].
    eapply covers_entry; [done|]. by eapply entry_covers_trans.
  - by eapply covers_entry.
Qed.

Lemma covers_within child parent :
  scope_explicit child = true -> scope_explicit parent = true ->
  (forall x, covers child x -> covers parent x) -> lists_within child parent.
Proof.
  intros Hc Hp H. unfold covers in H. rewrite Hc, Hp in H. repeat split.
  - intros i Hi. destruct (H (ANode i)) as [?|?]; [by right|done|done].
  - intros i Hi. destruct (H (ADocument i)) as [?|?]; [by right|done|done].
  - intros [r [p|]] Hin; apply path_allowed_true.
    + destruct (H (APath r p)) as [?|?]; [right|done|done].
      apply Exists_exists. exists (r, Some p). split; [done|]. split; [done|]. by left.
    + destruct (fresh_path (repository_paths parent) r) as [p Hfresh].
      destruct (H (APath r p)) as [?|Hx]; [right|done|].
      { apply Exists_exists. exists (r, None). by split. }
      apply Exists_exists in Hx as ([r' o] & Hin' & Hcov). pose proof Hcov as [Hr _]. cbn in Hr. subst r'.
      apply Hfresh in Hcov; [|done|done]. cbn in Hcov. by subst o.
Qed.

(** An explicit scope leaves something out. *)
Lemma explicit_partial s : scope_explicit s = true -> exists x, ~ covers s x.
Proof.
  intros Hs. exists (ANode (fresh (list_to_set (node_ids s) : gset uid))). intros [?|Hin]; [congruence|].
  apply (is_fresh (list_to_set (node_ids s) : gset uid)). by apply elem_of_list_to_set.
Qed.

Lemma scope_contains_spec parent child :
  scope_contains (Some parent) (Some child) = true <-> forall x, covers child x -> covers parent x.
Proof.
  unfold scope_contains. rewrite !normalized_explicit.
  destruct (scope_explicit parent) eqn:Ep; cbn [negb]; [|split; [by intros _ ??; left|done]].
  destruct (scope_explicit child) eqn:Ec; cbn [negb].
  - assert (subset_of (node_ids (normalized_scope (Some child))) (node_ids (normalized_scope (Some parent)))
            && subset_of (document_ids (normalized_scope (Some child))) (document_ids (normalized_scope (Some parent)))
            && forallb (path_allowed (repository_paths (normalized_scope (Some parent))))
                 (repository_paths (normalized_scope (Some child))) = true
            <-> lists_within (normalized_scope (Some child)) (normalized_scope (Some parent))) as ->.
    { unfold lists_within. rewrite !andb_true_iff, !subset_of_true, forallb_true, Forall_forall. naive_solver. }
    split.
    + intros Hw x Hx. apply normalized_covers, (within_covers (normalized_scope (Some child))); [|done|].
      * by rewrite normalized_explicit.
      * by apply normalized_covers.
    + intros H. apply covers_within; [by rewrite normalized_explicit..|].
      intros x. rewrite !normalized_covers. apply H.
  - split; [done|]. intros H. destruct (explicit_partial parent Ep) as [x Hx]. exfalso. apply Hx, H. by left.
Qed.

(** ** Reachability *)

Definition climbs (d : DB) (i j : uid) : Prop := parent_of d i = Some j.

Lemma climbs_row d i j : climbs d i j <-> exists m, tb_mission d !! i = Some m /\ m_parent_id m = Some j.
Proof.
  unfold climbs, parent_of. destruct (tb_mission d !! i) as [m|]; cbn; naive_solver.
Qed.

Definition known (d : DB) (i : uid) : Prop := is_Some (tb_mission d !! i).

Lemma size_remove (s : gset uid) (i : uid) : i ∈ s -> size s = S (size (s ∖ {[i]})).
Proof.
  intros Hi. rewrite (union_difference_singleton_L i s) at 1 by done.
  rewrite size_union by set_solver. by rewrite size_singleton.
Qed.

Lemma lineage_spec fuel d seen i :
  (size (dom (tb_mission d) ∖ seen) < fuel)%nat -> seen ⊆ dom (tb_mission d) ->
  (forall j k, j ∈ seen -> climbs d j k -> k ∈ seen \/ k = i) ->
  forall a, a ∈ lineage fuel d seen i <-> a ∈ seen \/ (known d a /\ rtc (climbs d) i a).
Proof.
  revert seen i. induction fuel as [|fuel IH]; intros seen i Hf Hsub Hclosed a; [lia|]. cbn [lineage].
  assert (forall b c, b ∈ seen -> rtc (climbs d) b c -> c ∈ seen \/ rtc (climbs d) i c) as Hescape.
  { intros b c Hb Hr. induction Hr as [|b b' c Hbb' Hr IHr]; [by left|].
    destruct (Hclosed b b' Hb Hbb') as [?| ->]; [by apply IHr|by right]. }
  case_bool_decide as Hi.
  { split; [by left|]. intros [?|[Hk Hr]]; [done|].
    assert (forall b c, b ∈ seen -> rtc (climbs d) b c -> c ∈ seen) as Hin.
    { intros b c Hb H. induction H as [|b b' c Hbb' _ IHr]; [done|]. apply IHr.
      by destruct (Hclosed b b' Hb Hbb') as [?| ->]. }
    by eapply Hin. }
  destruct (tb_mission d !! i) as [m|] eqn:E.
  - assert (i ∈ dom (tb_mission d)) as Hdom by (apply elem_of_dom; by eexists).
    assert (size (dom (tb_mission d) ∖ seen) = S (size (dom (tb_mission d) ∖ ({[i]} ∪ seen)))) as Hsz.
    { rewrite (size_remove (dom (tb_mission d) ∖ seen) i) by set_solver. do 2 f_equal. set_solver. }
    destruct (m_parent_id m) as [p|] eqn:Ep.
    + assert (climbs d i p) as Hip by (apply climbs_row; eauto).
      rewrite IH; [|lia|set_solver|].
      * split.
        -- intros [[->%elem_of_singleton|?]%elem_of_union|[Hk Hr]];
             [right; split; [by eexists|done] | by left | right; split; [done|by eapply rtc_l]].
        -- intros [?|[Hk Hr]]; [left; set_solver|]. inversion Hr as [|? p' ? Hp' Hr']; subst.
           ++ left. set_solver.
           ++ right. split; [done|]. unfold climbs in *. congruence.
      * intros j k [->%elem_of_singleton|Hj]%elem_of_union Hjk.
        -- right. unfold climbs in *. congruence.
        -- left. destruct (Hclosed j k Hj Hjk) as [?| ->]; set_solver.
    + split.
      * intros [->%elem_of_singleton|?]%elem_of_union; [right; split; [by eexists|done] | by left].
      * intros [?|[Hk Hr]]; [set_solver|]. inversion Hr as [|? p' ? Hp' Hr']; subst; [set_solver|].
        apply climbs_row in Hp' as (m' & ? & ?). congruence.
  - split; [by left|]. intros [?|[Hk Hr]]; [done|]. exfalso.
    inversion Hr as [|? p' ? Hp' Hr']; subst; [by destruct Hk; congruence|].
    apply climbs_row in Hp' as (m' & ? & ?). congruence.
Qed.

Lemma contains_mission_spec d a i :
  contains_mission d a i = true <-> known d a /\ rtc (climbs d) i a.
Proof.
  unfold contains_mission. rewrite bool_decide_eq_true, lineage_spec.
  - set_solver.
  - rewrite <- size_dom. assert (dom (tb_mission d) ∖ ∅ = dom (tb_mission d)) as -> by set_solver. lia.
  - set_solver.
  - set_solver.
Qed.

Lemma elem_of_children_of d s i : i ∈ children_of d s <-> exists p, climbs d i p /\ p ∈ s.
Proof.
  unfold children_of. rewrite elem_of_dom, lookup_omap. unfold climbs, parent_of.
  destruct (tb_mission d !! i) as [m|]; cbn; [|split; [by intros [??]|naive_solver]].
  unfold parent_in. destruct (m_parent_id m) as [p|]; [|split; [by intros [??]|naive_solver]].
  case_bool_decide; split; [eauto| by eexists | by intros [??] | naive_solver].
Qed.

Lemma children_of_dom d s : children_of d s ⊆ dom (tb_mission d).
Proof. intros i (p & (m & Hm & _)%climbs_row & _)%elem_of_children_of. apply elem_of_dom. by eexists. Qed.

(** Saturation ends in a set closed under children, and adds only descendants. *)
Lemma saturate_spec fuel d s :
  (size (dom (tb_mission d) ∖ s) < fuel)%nat -> s ⊆ dom (tb_mission d) ->
  s ⊆ saturate fuel d s
  /\ (forall i p, climbs d i p -> p ∈ saturate fuel d s -> i ∈ saturate fuel d s)
  /\ (forall i, i ∈ saturate fuel d s -> exists j, j ∈ s /\ rtc (climbs d) i j).
Proof.
  revert s. induction fuel as [|fuel IH]; intros s Hf Hsub; [lia|]. cbn [saturate].
  case_bool_decide as E.
  - split; [done|]. split; [|intros i Hi; exists i; by split].
    intros i p Hip Hp. rewrite <- E. apply elem_of_union. right. apply elem_of_children_of. eauto.
  - pose proof (children_of_dom d s) as Hch.
    destruct (IH (s ∪ children_of d s)) as (H1 & H2 & H3).
    + assert (size (dom (tb_mission d) ∖ (s ∪ children_of d s)) < size (dom (tb_mission d) ∖ s))%nat; [|lia].
      apply subset_size. split; [set_solver|]. intros Hc. apply E. apply set_eq. intros i.
      rewrite elem_of_union. split; [|by left]. intros [?|Hi]; [done|].
      destruct (decide (i ∈ s)); [done|]. set_solver.
    + set_solver.
    + split; [set_solver|]. split; [done|]. intros i Hi. destruct (H3 i Hi) as (j & Hj & Hr).
      apply elem_of_union in Hj as [Hj|Hj]; [by exists j|].
      apply elem_of_children_of in Hj as (p & Hjp & Hp). exists p. split; [done|]. by eapply rtc_r.
Qed.

Lemma descendants_spec d r i : i ∈ descendants d r <-> tc (climbs d) i r.
Proof.
  unfold descendants. destruct (saturate_spec (S (size (tb_mission d))) d (children_of d {[r]})) as (H1 & H2 & H3).
  { rewrite <- size_dom. assert (size (dom (tb_mission d) ∖ children_of d {[r]}) <= size (dom (tb_mission d)))%nat
      by (apply subseteq_size; set_solver). lia. }
  { apply children_of_dom. }
  split.
  - intros Hi. destruct (H3 i Hi) as (j & Hj & Hr). apply elem_of_children_of in Hj as (p & Hjp & ->%elem_of_singleton).
    eapply tc_rtc_l; [done|by apply tc_once].
  - intros Ht. induction Ht as [i j Hij|i j k Hij Ht IHt].
    + apply H1, elem_of_children_of. exists j. split; [done|by apply elem_of_singleton].
    + eapply H2; [done|]. by apply IHt.
Qed.

(** ** Frames *)

Lemma keeps_owned_mission R `{!PreOrder R} a : Keeps R (owned_mission a).
Proof. unfold owned_mission. frame. Qed.
#[export] Hint Resolve keeps_owned_mission : frame.

Lemma keeps_require_mission_authority R `{!PreOrder R} a i r : Keeps R (require_mission_authority a i r).
Proof. unfold require_mission_authority. frame. Qed.
#[export] Hint Resolve keeps_require_mission_authority : frame.

Lemma keeps_require_assignment_authority R `{!PreOrder R} a x : Keeps R (require_assignment_authority a x).
Proof. unfold require_assignment_authority. frame. Qed.
#[export] Hint Resolve keeps_require_assignment_authority : frame.

Lemma keeps_parent_for_child R `{!PreOrder R} q i e : Keeps R (parent_for_child q i e).
Proof. unfold parent_for_child, open_children. frame. Qed.
#[export] Hint Resolve keeps_parent_for_child : frame.

Lemma keeps_validate_child R `{!PreOrder R} m s c n : Keeps R (validate_child m s c n).
Proof. unfold validate_child. frame. Qed.
#[export] Hint Resolve keeps_validate_child : frame.

Lemma keeps_validate_reparent R `{!PreOrder R} m i : Keeps R (validate_reparent m i).
Proof. unfold validate_reparent. frame. Qed.
#[export] Hint Resolve keeps_validate_reparent : frame.

Lemma keeps_validate_scope_references R `{!PreOrder R} q s : Keeps R (validate_scope_references q s).
Proof. unfold validate_scope_references. frame. Qed.
#[export] Hint Resolve keeps_validate_scope_references : frame.

Lemma keeps_validate_scope_links R `{!PreOrder R} s n l : Keeps R (validate_scope_links s n l).
Proof. unfold validate_scope_links. frame. Qed.
#[export] Hint Resolve keeps_validate_scope_links : frame.

Lemma keeps_ensure_closure_allowed R `{!PreOrder R} m c : Keeps R (ensure_closure_allowed m c).
Proof. unfold ensure_closure_allowed. frame. Qed.
#[export] Hint Resolve keeps_ensure_closure_allowed : frame.

(** Property: what containment of scopes means. *)

(** [scope_contains] is exact: it answers yes precisely when every node, document and
    repository path that the child scope covers is covered by the parent scope, where a scope
    with no entries covers everything. *)
Theorem scope_contains_exact parent child :
  scope_contains (Some parent) (Some child) = true <-> forall x, covers child x -> covers parent x.
Proof. apply scope_contains_spec. Qed.

(** [contains_mission] terminates on every mission table and answers yes exactly when the
    ancestor exists and is reached from the child by following parents. *)
Theorem contains_mission_exact d ancestor child :
  contains_mission d ancestor child = true <->
  is_Some (tb_mission d !! ancestor) /\ rtc (fun i j => parent_of d i = Some j) child ancestor.
Proof. apply contains_mission_spec. Qed.
