(* ===== verification/Missions.v ===== *)
(** * Mission commands

    The project and mission operations of src/archon_horizon/pipeline/missions/service.py
    ([project], [mission], [update_mission], [goal_updates], [reconcile_goal_updates]) and the
    mission branch of commands.py ([complete_mission], [cancel_mission], [reopen_mission]). *)

From S2P Require Import Prelude Contracts Schema Records Auth MissionTree.

(** ** Projects *)

(** [number] of a project is an identity column; the model takes the next free number.
    [fields] are the fields the caller set. *)
Definition create_project (actor : Actor) (data : ProjectCreate) (fields : list string) : M project :=
  require_admin actor ;;
  n ← next_number p_number (fun _ => true);
  row ← create (fun i now =>
    {| p_id := i; p_created_at := now; p_updated_at := now; p_revision := 1; p_number := n;
       p_slug := pc_slug data; p_title := pc_title data; p_description := pc_description data;
       p_workflow := pc_workflow data; p_archived_at := None |});
  _ ← snapshot row (actor_id actor);
  _ ← emit (Some (actor_id actor)) (Some (p_id row)) (project_subject row) fields None None None;
  mret row.

(** ** Goal updates *)

Definition goal_thread (t : provider_thread) : bool :=
  bool_decide (t_kind t = Primary) && mem (t_status t) [Creating; Available].

(** The threads that work on the mission, each with its run. *)
Definition goal_rows (d : DB) (i : uid) : list (provider_thread * run) :=
  omap (fun t =>
    a ← tb_assignment d !! t_assignment_id t;
    r ← tb_run d !! a_run_id a;
    if bool_decide (a_mission_id a = i) && goal_thread t then Some (t, r) else None)
  (map snd (map_to_list (tb_provider_thread d))).

Definition goal_of_thread (t : uid) (o : outbox_operation) : bool :=
  bool_decide (ob_kind o = GoalUpdateOp) && bool_decide (ob_status o = OutPending)
  && match ob_payload o with PGoalUpdate th _ _ _ => bool_decide (th = t) | _ => false end.

(** [revision=revision + 1, updated_at=now()] of a bulk update. *)
Definition bump_outbox (now : instant) (o : outbox_operation) : outbox_operation :=
  o <| ob_revision := ob_revision o + 1 |> <| ob_updated_at := now |>.

Definition goal_key (t revision : uid) (n : Z) : string :=
  ("goal:" +:+ uuid_str t +:+ ":" +:+ uuid_str revision +:+ ":" +:+ pretty n)%string.

(** [INSERT ... ON CONFLICT DO NOTHING] on (actor, kind, idempotency key). *)
Definition insert_outbox (project : option uid) (actor : uid) (k : outbox_kind) (key : string) (body : payload) : M unit :=
  taken ← any (fun o => bool_decide (ob_actor_principal_id o = actor) && bool_decide (ob_kind o = k)
                        && bool_decide (ob_idempotency_key o = key));
  if (taken : bool) then mret tt
  else
    _ ← create (fun i now =>
      {| ob_id := i; ob_created_at := now; ob_updated_at := now; ob_revision := 1; ob_project_id := project;
         ob_actor_principal_id := actor; ob_kind := k; ob_idempotency_key := key; ob_payload := body;
         ob_schema_version := 1; ob_status := OutPending; ob_retry_count := 0; ob_retry_at := None;
         ob_lease_owner := None; ob_lease_epoch := 0; ob_lease_expires_at := None; ob_result_ref_id := None;
         ob_failure := None |});
    mret tt.

Definition goal_update_one (actor : Actor) (revision : uid) (tr : provider_thread * run) : M unit :=
  let '(t, r) := tr in
  now ← ask db_now;
  update_rows (goal_of_thread (t_id t)) (fun o => bump_outbox now (o <| ob_status := OutCompleted |>)) ;;
  project ← project_of Krun (r_id r);
  insert_outbox project (actor_id actor) GoalUpdateOp (goal_key (t_id t) revision (r_revision r))
    (PGoalUpdate (t_id t) revision (r_revision r) (r_adopted_roadmap_snapshot_id r)).

Definition goal_updates (actor : Actor) (i revision : uid) : M unit :=
  d ← ask id;
  for_each (goal_update_one actor revision) (goal_rows d i).

(** The revision a row of [record_revision] records, when it is one of a mission. *)
Definition mission_revision (d : DB) (i : uid) : option (uid * Z) :=
  r ← tb_record_revision d !! i;
  match rr_object_id r with
  | StoredRef {| ref_kind := Kmission; ref_id := m |} => Some (m, rr_object_revision r)
  | _ => None
  end.

(** The [consumed] query: the goal's thread has applied the same mission at this or a later
    revision, the run revision, and exactly the same roadmap baseline. *)
Definition consumed (d : DB) (thread : option uid) (o : outbox_operation) : bool :=
  bool_decide (ob_kind o = GoalUpdateOp) && bool_decide (ob_status o = OutPending) &&
  match ob_payload o with
  | PGoalUpdate th desired n snapshot =>
      match (t ← tb_provider_thread d !! th;
             a ← tb_assignment d !! t_assignment_id t;
             want ← mission_revision d desired;
             applied ← t_applied_mission_revision_id t;
             got ← mission_revision d applied;
             run ← t_applied_run_revision t;
             Some (t, a, want, got, run)) with
      | Some (t, a, want, got, run) =>
          bool_decide (want.1 = got.1) && bool_decide (want.1 = a_mission_id a) && (want.2 <=? got.2)
          && (n <=? run) && bool_decide (snapshot = t_applied_roadmap_snapshot_id t)
          && match thread with Some i => bool_decide (t_id t = i) | None => true end
      | None => false
      end
  | _ => false
  end.

Definition terminal_assignment (a : assignment) : bool := mem (a_status a) [Completed_; Failed; Cancelled].

Definition target_terminal (d : DB) (thread : option uid) (o : outbox_operation) : bool :=
  bool_decide (ob_kind o = GoalUpdateOp) && bool_decide (ob_status o = OutPending) &&
  match ob_payload o with
  | PGoalUpdate th _ _ _ =>
      match (t ← tb_provider_thread d !! th; a ← tb_assignment d !! t_assignment_id t; Some (t, a)) with
      | Some (t, a) => terminal_assignment a
                       && match thread with Some i => bool_decide (t_id t = i) | None => true end
      | None => false
      end
  | _ => false
  end.

Definition settle_outbox (now : instant) (s : outbox_status) (f : option Failure) (o : outbox_operation) : outbox_operation :=
  bump_outbox now (o <| ob_status := s |> <| ob_retry_at := None |> <| ob_lease_owner := None |>
                     <| ob_lease_expires_at := None |> <| ob_failure := plain_failure <$> f |>).

Definition superseded_goal : Failure :=
  {| fail_kind := LifecycleFailure; fail_code := "target_terminal";
     fail_message := "Goal update superseded because its assignment is terminal";
     fail_diagnostic_artifact_id := None |}.

Definition reconcile_goal_updates (thread : option uid) : M Z :=
  d ← ask id;
  settled ← count (consumed d thread);
  update_rows (consumed d thread) (settle_outbox (db_now d) OutCompleted None) ;;
  d' ← ask id;
  cancelled ← count (target_terminal d' thread);
  update_rows (target_terminal d' thread) (settle_outbox (db_now d) OutCancelled (Some superseded_goal)) ;;
  mret (settled + cancelled).

(** ** Creating a mission *)

(** [get(connection, Mission, old.parent_id) if old.parent_id else None]. *)
Definition parent_row (m : mission) : M (option mission) :=
  match m_parent_id m with
  | Some p => q ← get p; mret (Some q)
  | None => mret None
  end.

(** [if parent: bump_parent(connection, actor, parent)]. *)
Definition bump_some (o : option mission) (a : uid) : M unit :=
  match o with Some p => _ ← bump_parent p a; mret tt | None => mret tt end.

Definition roadmap_document (i project : uid) : M unit :=
  doc ← (same_project Kdocument i project : M document);
  refuse (negb (bool_decide (d_kind doc = Roadmap))) "invalid_roadmap" 422.

Definition link_mission (m : uid) (nodes documents : list uid) : M unit :=
  modify (fun d => d <| tb_mission_node := list_to_set (map (fun n => (m, n)) nodes) ∪ tb_mission_node d |>
                     <| tb_mission_document := list_to_set (map (fun n => (m, n)) documents) ∪ tb_mission_document d |>).

Definition mission_fields : list string :=
  ["project_id"; "roadmap_document_id"; "title"; "objective"; "acceptance_criteria"; "delegation_note";
   "scope"; "max_open_children"; "parent_id"; "number"].

Definition new_mission (data : MissionCreate) (scope : Scope) (n : Z) (i : uid) (now : instant) : mission :=
  {| m_id := i; m_created_at := now; m_updated_at := now; m_revision := 1; m_project_id := mc_project_id data;
     m_number := n; m_parent_id := mc_parent_id data; m_roadmap_document_id := mc_roadmap_document_id data;
     m_title := mc_title data; m_objective := mc_objective data; m_status := MissionOpen;
     m_acceptance_criteria := mc_acceptance_criteria data; m_delegation_note := mc_delegation_note data;
     m_scope := scope; m_max_open_children := mc_max_open_children data; m_closed_at := None;
     m_closure_note := None; m_archived_at := None |}.

(** The checks of [mission], up to the insertion: the parent and the effective scope. *)
Definition check_mission (actor : Actor) (data : MissionCreate) : M (option mission * Scope) :=
  require_project actor (mc_project_id data) WorkerGrant ;;
  refuse (is_agent actor && bool_decide (mc_parent_id data = None)) "forbidden" 403 ;;
  parent ← parent_for_child (mc_project_id data) (mc_parent_id data) (mc_expected_parent_revision data);
  scope ← match parent with
          | Some p => validate_child p (mc_scope data) (mc_acceptance_criteria data) (mc_delegation_note data)
          | None => mret (normalized_scope (mc_scope data))
          end;
  validate_scope_references (mc_project_id data) scope ;;
  validate_scope_links scope (mc_node_ids data) (mc_document_ids data) ;;
  match parent with
  | Some p => _ ← require_mission_authority actor (m_id p) Worker; mret tt
  | None => mret tt
  end ;;
  match mc_roadmap_document_id data with
  | Some i => roadmap_document i (mc_project_id data)
  | None => mret tt
  end ;;
  for_each (fun i => in_project Knode i (mc_project_id data)) (mc_node_ids data) ;;
  for_each (fun i => in_project Kdocument i (mc_project_id data)) (mc_document_ids data) ;;
  mret (parent, scope).

Definition create_mission (actor : Actor) (data : MissionCreate) : M mission :=
  ps ← check_mission actor data;
  n ← next_number m_number (fun m => bool_decide (m_project_id m = mc_project_id data));
  row ← create (new_mission data ps.2 n);
  link_mission (m_id row) (mc_node_ids data) (mc_document_ids data) ;;
  _ ← snapshot row (actor_id actor);
  _ ← emit (Some (actor_id actor)) (Some (mc_project_id data)) (mission_subject row) mission_fields None None None;
  bump_some ps.1 (actor_id actor) ;;
  mret row.

(** ** Revising a mission *)

(** [values.get(name, old)] for a field that cannot be cleared. *)
Definition given {A} (old : A) (o : option (option A)) : A :=
  match o with Some (Some v) => v | _ => old end.

(** [values.get(name, old)] for a field that may hold null. *)
Definition given_null {A} (old : option A) (o : option (option A)) : option A :=
  match o with Some v => v | None => old end.

(** The row after the patch, and the names of the fields whose value it changes. *)
Definition patch (data : MissionUpdate) (scope : Scope) (m : mission) : mission :=
  m <| m_parent_id := given_null (m_parent_id m) (mu_parent_id data) |>
    <| m_title := given (m_title m) (mu_title data) |>
    <| m_objective := given (m_objective m) (mu_objective data) |>
    <| m_acceptance_criteria := given (m_acceptance_criteria m) (mu_acceptance_criteria data) |>
    <| m_delegation_note := given_null (m_delegation_note m) (mu_delegation_note data) |>
    <| m_scope := match mu_scope data with Some _ => scope | None => m_scope m end |>
    <| m_max_open_children := given (m_max_open_children m) (mu_max_open_children data) |>
    <| m_roadmap_document_id := given_null (m_roadmap_document_id m) (mu_roadmap_document_id data) |>.

Definition differs {A} `{EqDecision A} (name : string) (a b : A) : list string :=
  if bool_decide (a = b) then [] else [name].

Definition patched_fields (old new : mission) : list string :=
  differs "parent_id" (m_parent_id old) (m_parent_id new) ++ differs "title" (m_title old) (m_title new)
  ++ differs "objective" (m_objective old) (m_objective new)
  ++ differs "acceptance_criteria" (m_acceptance_criteria old) (m_acceptance_criteria new)
  ++ differs "delegation_note" (m_delegation_note old) (m_delegation_note new)
  ++ differs "scope" (m_scope old) (m_scope new)
  ++ differs "max_open_children" (m_max_open_children old) (m_max_open_children new)
  ++ differs "roadmap_document_id" (m_roadmap_document_id old) (m_roadmap_document_id new).

(** A worker session of an objective may add acceptance criteria but not drop any. *)
Definition check_criteria (actor : Actor) (old : mission) (data : MissionUpdate) : M unit :=
  match is_agent actor, mu_acceptance_criteria data with
  | true, Some criteria =>
      l ← live_execution actor;
      a ← get (lx_assignment_id l);
      r ← get (a_run_id a);
      refuse (bool_decide (r_orchestration r = ObjectiveRun) && negb (bool_decide (a_role a = Maintainer))
              && negb (subset_of (m_acceptance_criteria old) (default [] criteria)))
             "acceptance_decision_required" 403
  | _, _ => mret tt
  end.

Definition parent_changed (old : mission) (data : MissionUpdate) : bool :=
  match mu_parent_id data with
  | Some p => negb (bool_decide (p = m_parent_id old))
  | None => false
  end.

(** The checks of a movement, and the parent the mission has afterwards. *)
Definition check_parent (actor : Actor) (i : uid) (old : mission) (old_parent : option mission)
    (data : MissionUpdate) : M (option mission) :=
  if parent_changed old data then
    (if is_agent actor then
       l ← live_execution actor;
       a ← (get (lx_assignment_id l) : M assignment);
       refuse (bool_decide (a_mission_id a = i)) "forbidden" 403
     else mret tt) ;;
    let target := given_null None (mu_parent_id data) in
    validate_reparent old target ;;
    parent ← parent_for_child (m_project_id old) target (mu_expected_parent_revision data);
    refuse (is_agent actor && match parent with None => true | Some _ => false end) "forbidden" 403 ;;
    match parent with
    | Some p => _ ← require_mission_authority actor (m_id p) Worker; mret tt
    | None => mret tt
    end ;;
    mret parent
  else
    refuse (match mu_expected_parent_revision data with Some _ => true | None => false end)
           "invalid_parent_revision" 422 ;;
    mret old_parent.

(** The effective scope, checked against the parent, the linked records and the children. *)
Definition check_scope (i : uid) (old : mission) (parent : option mission) (data : MissionUpdate) : M Scope :=
  let wanted := normalized_scope (Some (given (m_scope old) (mu_scope data))) in
  validate_scope_references (m_project_id old) wanted ;;
  scope ← match parent with
          | Some p => validate_child p (Some wanted) (given (m_acceptance_criteria old) (mu_acceptance_criteria data))
                        (given_null (m_delegation_note old) (mu_delegation_note data))
          | None => mret wanted
          end;
  match mu_scope data with
  | None => mret tt
  | Some _ =>
      d ← ask id;
      validate_scope_links scope (related i (tb_mission_node d)) (related i (tb_mission_document d)) ;;
      outside ← any (fun c => bool_decide (m_parent_id c = Some i)
                              && negb (scope_contains (Some scope) (Some (m_scope c))));
      refuse outside "child_scope_conflict" 409
  end ;;
  mret scope.

Definition check_budget (i : uid) (data : MissionUpdate) : M unit :=
  match mu_max_open_children data with
  | Some (Some n) =>
      open ← open_children i None;
      refuse (n <? open) "child_budget_conflict" 409
  | _ => mret tt
  end.

(** The write of a patch that changes [fields]. *)
Definition write_mission (actor : Actor) (i : uid) (data : MissionUpdate) (scope : Scope) (fields : list string)
    (moved : bool) (old_parent parent : option mission) : M mission :=
  row ← change i (Some (mu_expected_revision data)) (patch data scope);
  revision ← snapshot row (actor_id actor);
  goal_updates actor i revision ;;
  _ ← emit (Some (actor_id actor)) (Some (m_project_id row)) (mission_subject row) fields None None None;
  (if moved then bump_some old_parent (actor_id actor) ;; bump_some parent (actor_id actor) else mret tt) ;;
  mret row.

Definition update_mission (actor : Actor) (i : uid) (data : MissionUpdate) : M mission :=
  old ← get i;
  require_project actor (m_project_id old) WorkerGrant ;;
  _ ← require_mission_authority actor i Worker;
  refuse (negb (m_revision old =? mu_expected_revision data)) "revision_conflict" 409 ;;
  refuse (negb (bool_decide (m_status old = MissionOpen))) "mission_closed" 409 ;;
  check_criteria actor old data ;;
  old_parent ← parent_row old;
  parent ← check_parent actor i old old_parent data;
  scope ← check_scope i old parent data;
  check_budget i data ;;
  match given_null None (mu_roadmap_document_id data) with
  | Some doc => roadmap_document doc (m_project_id old)
  | None => mret tt
  end ;;
  let fields := patched_fields old (patch data scope old) in
  if bool_decide (fields = []) then mret old
  else write_mission actor i data scope fields (parent_changed old data) old_parent parent.

(** ** Closing and reopening a mission *)

Inductive mission_command : Type := CompleteMission | CancelMission | ReopenMission.

Definition close_mission (now : instant) (s : mission_status) (note : string) (m : mission) : mission :=
  m <| m_status := s |> <| m_closed_at := Some now |> <| m_closure_note := Some note |>.

Definition open_mission (m : mission) : mission :=
  m <| m_status := MissionOpen |> <| m_closed_at := None |> <| m_closure_note := None |>.

(** The checks that a reopened child needs of its parent. *)
Definition check_reopen (i : uid) (parent : option mission) : M unit :=
  match parent with
  | None => mret tt
  | Some p =>
      refuse (negb (bool_decide (m_status p = MissionOpen))) "parent_closed" 409 ;;
      siblings ← open_children (m_id p) (Some i);
      refuse (m_max_open_children p <=? siblings) "child_budget_exhausted" 409
  end.

(** The decision itself: its guards on the row [old] and the new row. *)
Definition settle_mission (op : mission_command) (i : uid) (expected : Z) (note : string)
    (old : mission) (parent : option mission) : M mission :=
  now ← ask db_now;
  match op with
  | CompleteMission =>
      refuse (negb (bool_decide (m_status old = MissionOpen))) "mission_settled" 409 ;;
      ensure_closure_allowed old false ;;
      change i (Some expected) (close_mission now MissionCompleted note)
  | CancelMission =>
      refuse (negb (bool_decide (m_status old = MissionOpen))) "mission_settled" 409 ;;
      ensure_closure_allowed old true ;;
      change i (Some expected) (close_mission now MissionCancelled note)
  | ReopenMission =>
      refuse (bool_decide (m_status old = MissionOpen)) "mission_open" 409 ;;
      check_reopen i parent ;;
      change i (Some expected) open_mission
  end.

(** The mission branch of [commands.execute], from the target's row on. *)
Definition mission_decision (actor : Actor) (op : mission_command) (i : uid) (expected : Z) (note : string) : M mission :=
  old ← get i;
  project ← project_of Kmission i;
  require_project actor (default 1%positive project) WorkerGrant ;;
  refuse (negb (m_revision old =? expected)) "revision_conflict" 409 ;;
  refuse (blank note) "invalid_decision" 422 ;;
  _ ← require_mission_authority actor i Worker;
  parent ← parent_row old;
  row ← settle_mission op i expected note old parent;
  _ ← snapshot row (actor_id actor);
  bump_some parent (actor_id actor) ;;
  _ ← emit (Some (actor_id actor)) project (mission_subject row) ["note"]
        (if bool_decide (m_status row = m_status old) then None else Some (mission_status_str (m_status old)))
        None (Some note);
  mret row.
