(* ===== verification/MissionInvariant.v ===== *)
(** * The invariant of the mission tree

    What the mission operations promise together, and the proof that each of them keeps it:
    parents exist in the same project, the tree has no cycle, a child's scope lies within its
    parent's, delegated missions carry criteria and a handoff note, an open mission has an open
    parent, and no mission has more open children than its budget. *)

From S2P Require Import Prelude Contracts Schema Records Auth MissionTree Missions.

(** ** The tree of a mission table *)

Definition up (ms : gmap uid mission) (i j : uid) : Prop :=
  exists m, ms !! i = Some m /\ m_parent_id m = Some j.

(** The open children of [p], leaving out [x]. *)
Definition kids (ms : gmap uid mission) (p : uid) (x : option uid) : gset uid :=
  dom (omap (fun m => if open_child_of p x m then Some tt else None) ms).

Record delegated (p m : mission) : Prop := {
  dg_project : m_project_id p = m_project_id m;
  dg_open : m_status m = MissionOpen -> m_status p = MissionOpen;
  dg_scope : scope_contains (Some (m_scope p)) (Some (m_scope m)) = true;
  dg_criteria : m_acceptance_criteria m <> [];
  dg_note : match m_delegation_note m with Some n => blank n = false | None => False end }.

Record tree (ms : gmap uid mission) : Prop := {
  tr_ids : forall i m, ms !! i = Some m -> m_id m = i;
  tr_parent : forall i m p, ms !! i = Some m -> m_parent_id m = Some p ->
    exists pm, ms !! p = Some pm /\ delegated pm m;
  tr_acyclic : forall i, ~ tc (up ms) i i;
  tr_budget : forall i m, ms !! i = Some m -> Z.of_nat (size (kids ms i None)) <= m_max_open_children m }.

(** Every known mission is below the supply of identifiers. *)
Definition fresh_ids (d : DB) : Prop := forall i, is_Some (tb_mission d !! i) -> (i < db_next d)%positive.

Definition tree_wf (d : DB) : Prop := tree (tb_mission d) /\ fresh_ids d.

Lemma climbs_up d i j : climbs d i j <-> up (tb_mission d) i j.
Proof. apply climbs_row. Qed.

Lemma elem_of_kids ms p x i :
  i ∈ kids ms p x <-> exists m, ms !! i = Some m /\ open_child_of p x m = true.
Proof.
  unfold kids. rewrite elem_of_dom, lookup_omap. destruct (ms !! i) as [m|]; cbn;
    [|split; [by intros [??] | by intros (?&?&?)]].
  destruct (open_child_of p x m) eqn:E; split; [eauto | by eexists | by intros [??] | intros (?&?&?); congruence].
Qed.

Lemma open_child_of_true p x m :
  open_child_of p x m = true <->
  m_parent_id m = Some p /\ m_status m = MissionOpen /\ (forall y, x = Some y -> m_id m <> y).
Proof.
  unfold open_child_of. rewrite !andb_true_iff, !bool_decide_eq_true.
  destruct x as [y|]; [rewrite negb_true_iff, bool_decide_eq_false|]; naive_solver.
Qed.

Lemma kids_without ms p i : kids ms p (Some i) ⊆ kids ms p None.
Proof.
  intros k (mk & ? & Ho)%elem_of_kids. apply elem_of_kids. exists mk. split; [done|].
  apply open_child_of_true in Ho. apply open_child_of_true. naive_solver.
Qed.

Lemma filter_Permutation_bool {A} (f : A -> bool) l l' : l ≡ₚ l' -> List.filter f l ≡ₚ List.filter f l'.
Proof.
  induction 1 as [|x l l' _ IH|x y l|l l' l'' _ IH1 _ IH2]; cbn; [done| | |by etrans].
  - destruct (f x); [by constructor|done].
  - destruct (f x), (f y); try done. constructor.
Qed.

Lemma count_filter_dom (f : mission -> bool) (ms : gmap uid mission) :
  List.length (List.filter f (map snd (map_to_list ms)))
  = size (dom (omap (fun m => if f m then Some tt else None) ms)).
Proof.
  induction ms as [|i m ms Hi IH] using map_ind; [by rewrite map_to_list_empty, omap_empty, dom_empty_L, size_empty|].
  transitivity (List.length (List.filter f (map snd ((i, m) :: map_to_list ms)))).
  { apply Permutation_length, filter_Permutation_bool, (fmap_Permutation snd). by apply map_to_list_insert. }
  cbn. destruct (f m) eqn:E.
  - rewrite (omap_insert_Some _ _ _ _ tt) by by rewrite E.
    rewrite dom_insert_L, size_union, size_singleton; [cbn; by rewrite IH|].
    apply disjoint_singleton_l. rewrite elem_of_dom, lookup_omap, Hi. by intros [??].
  - rewrite omap_insert_None by by rewrite E. rewrite IH. do 2 f_equal.
    apply map_eq. intros k. rewrite lookup_delete. case_decide; [subst|done]. by rewrite lookup_omap, Hi.
Qed.

Lemma tc_first {A} (R : relation A) x y : tc R x y -> exists z, R x z /\ rtc R z y.
Proof.
  intros H. inversion H as [? ? Hxy|? z ? Hxz Hzy]; subst; [by exists y|]. exists z. split; [done|by apply tc_rtc].
Qed.

(** ** Replacing one row *)

Section put.
Context (ms : gmap uid mission) (i : uid) (m : mission).

Lemma up_put_ne a b : a <> i -> up (<[i := m]> ms) a b <-> up ms a b.
Proof. intros Hne. unfold up. by rewrite lookup_insert_ne by done. Qed.

Lemma up_put_eq b : up (<[i := m]> ms) i b <-> m_parent_id m = Some b.
Proof. unfold up. rewrite lookup_insert_eq. naive_solver. Qed.

(** A path after the replacement either is a path before it, or passes through [i]. *)
Lemma rtc_put a b :
  rtc (up (<[i := m]> ms)) a b ->
  rtc (up ms) a b \/ (rtc (up ms) a i /\ rtc (up (<[i := m]> ms)) a i /\ rtc (up (<[i := m]> ms)) i b).
Proof.
  induction 1 as [a|a a' b Haa' Hr IH]; [by left|].
  destruct (decide (a = i)) as [->|Hne].
  - right. split; [done|]. split; [done|]. by eapply rtc_l.
  - pose proof Haa' as H'. rewrite up_put_ne in Haa' by done.
    destruct IH as [IH|(H1 & H2 & H3)]; [left; by eapply rtc_l|]. right.
    split; [by eapply rtc_l|]. split; [by eapply rtc_l|done].
Qed.

Lemma acyclic_put :
  (forall x, ~ tc (up ms) x x) -> (forall p, m_parent_id m = Some p -> ~ rtc (up ms) p i) ->
  forall x, ~ tc (up (<[i := m]> ms)) x x.
Proof.
  intros Ha Hp.
  assert (~ tc (up (<[i := m]> ms)) i i) as Hi.
  { intros Hc. apply tc_first in Hc as (p & Hpi%up_put_eq & Hr). apply (Hp p Hpi).
    apply rtc_put in Hr as [?|(? & _ & _)]; done. }
  intros x Hc. destruct (decide (x = i)) as [->|Hne]; [done|].
  apply tc_first in Hc as (y & Hxy & Hr). pose proof Hxy as Hxy'. rewrite up_put_ne in Hxy by done.
  apply rtc_put in Hr as [Hr|(_ & H2 & H3)].
  - apply (Ha x). eapply tc_rtc_r; [by apply tc_once|done].
  - apply Hi. eapply tc_rtc_l; [exact H3|]. eapply tc_rtc_r; [by apply tc_once|done].
Qed.

Lemma kids_put_other p :
  (forall k mk, ms !! k = Some mk -> m_id mk = k) ->
  kids (<[i := m]> ms) p None ⊆ (if open_child_of p None m then {[i]} else ∅) ∪ kids ms p (Some i).
Proof.
  intros Hids k (mk & Hk & Ho)%elem_of_kids. apply elem_of_union.
  destruct (decide (k = i)) as [->|Hne].
  - rewrite lookup_insert_eq in Hk. injection Hk as <-. left. rewrite Ho. set_solver.
  - rewrite lookup_insert_ne in Hk by done. right. apply elem_of_kids. exists mk. split; [done|].
    apply open_child_of_true in Ho as (? & ? & _). apply open_child_of_true. split; [done|]. split; [done|].
    intros y [= <-]. by rewrite (Hids k mk Hk).
Qed.

(** Replacing row [i] keeps the tree when the new row fits its children and its parent. *)
Lemma tree_put :
  tree ms -> m_id m = i ->
  (forall c cm, ms !! c = Some cm -> m_parent_id cm = Some i -> delegated m cm) ->
  (forall p, m_parent_id m = Some p -> p <> i /\ ~ rtc (up ms) p i /\
     exists pm, ms !! p = Some pm /\ delegated pm m
       /\ (m_status m = MissionOpen -> Z.of_nat (size (kids ms p (Some i))) + 1 <= m_max_open_children pm)) ->
  Z.of_nat (size (kids ms i None)) <= m_max_open_children m ->
  tree (<[i := m]> ms).
Proof.
  intros [Hids Hpar Hac Hbud] Hid Hch Hp Hb.
  assert (m_parent_id m <> Some i) as Hself by (intros E; by destruct (Hp i E)).
  split.
  - intros k mk [[<- <-]|[_ ?]]%lookup_insert_Some; [done|eauto].
  - intros k mk p [[<- <-]|[Hne Hk]]%lookup_insert_Some Hkp.
    + destruct (Hp p Hkp) as (Hpi & _ & pm & Hpm & Hd & _). exists pm. by rewrite lookup_insert_ne by done.
    + destruct (Hpar k mk p Hk Hkp) as (pm & Hpm & Hd). destruct (decide (i = p)) as [<-|].
      * exists m. rewrite lookup_insert_eq. split; [done|]. by eapply Hch.
      * exists pm. by rewrite lookup_insert_ne by done.
  - apply acyclic_put; [done|]. intros p Hmp. by destruct (Hp p Hmp) as (_ & ? & _).
  - intros k mk Hk. pose proof (subseteq_size _ _ (kids_put_other k Hids)) as Hsz.
    destruct (decide (i = k)) as [<-|Hne].
    + rewrite lookup_insert_eq in Hk. injection Hk as <-.
      assert (open_child_of i None m = false) as E.
      { apply not_true_iff_false. rewrite open_child_of_true. naive_solver. }
      rewrite E in Hsz. pose proof (subseteq_size _ _ (kids_without ms i i)) as Hsub.
      rewrite union_empty_l_L in Hsz. lia.
    + rewrite lookup_insert_ne in Hk by done. destruct (open_child_of k None m) eqn:E.
      * apply open_child_of_true in E as (Hmp & Ho & _). destruct (Hp k Hmp) as (_ & _ & pm & Hpm & _ & Hle).
        rewrite Hk in Hpm. injection Hpm as <-. specialize (Hle Ho).
        rewrite size_union_alt, size_singleton in Hsz.
        assert (size (kids ms k (Some i) ∖ {[i]}) <= size (kids ms k (Some i)))%nat
          by (apply subseteq_size; set_solver). lia.
      * rewrite union_empty_l_L in Hsz. pose proof (subseteq_size _ _ (kids_without ms k i)) as Hsub.
        specialize (Hbud k mk Hk). lia.
Qed.
End put.

(** ** Rows that the tree does not tell apart *)

Record similar (m m' : mission) : Prop := {
  si_id : m_id m' = m_id m;
  si_project : m_project_id m' = m_project_id m;
  si_parent : m_parent_id m' = m_parent_id m;
  si_status : m_status m' = m_status m;
  si_scope : m_scope m' = m_scope m;
  si_budget : m_max_open_children m' = m_max_open_children m;
  si_criteria : m_acceptance_criteria m' = m_acceptance_criteria m;
  si_note : m_delegation_note m' = m_delegation_note m }.

Lemma similar_refl m : similar m m.
Proof. by split. Qed.

Lemma similar_touch now m : similar m (touch now m).
Proof. by split. Qed.

Lemma similar_trans m1 m2 m3 : similar m1 m2 -> similar m2 m3 -> similar m1 m3.
Proof. intros [] []. split; congruence. Qed.

Lemma delegated_similar p p' m m' : similar p p' -> similar m m' -> delegated p m -> delegated p' m'.
Proof.
  intros [_ Pj _ Ps Psc _ _ _] [_ Mj _ Ms Msc _ Mc Mn] [Dj Do Ds Dc Dn].
  split; [congruence | by rewrite Ms, Ps | by rewrite Psc, Msc | congruence | by rewrite Mn].
Qed.

(** Where a mission of the tree stands. *)
Lemma parent_place ms i m p :
  tree ms -> ms !! i = Some m -> m_parent_id m = Some p ->
  p <> i /\ ~ rtc (up ms) p i /\ exists pm, ms !! p = Some pm /\ delegated pm m
    /\ (m_status m = MissionOpen -> Z.of_nat (size (kids ms p (Some i))) + 1 <= m_max_open_children pm).
Proof.
  intros [Hids Hpar Hac Hbud] Hm Hp. assert (up ms i p) as Hup by by exists m.
  split; [intros ->; apply (Hac i); by apply tc_once|].
  split; [intros Hr; apply (Hac i); eapply tc_rtc_r; [by apply tc_once|done]|].
  destruct (Hpar i m p Hm Hp) as (pm & Hpm & Hd). exists pm. split; [done|]. split; [done|].
  intros Ho. specialize (Hbud p pm Hpm).
  assert (i ∈ kids ms p None) as Hin by (apply elem_of_kids; exists m; split; [done|]; by apply open_child_of_true).
  assert (kids ms p (Some i) ⊆ kids ms p None ∖ {[i]}) as Hsub.
  { intros k Hk. apply elem_of_difference. split; [by eapply kids_without|].
    apply elem_of_kids in Hk as (mk & Hk & (_ & _ & Hne)%open_child_of_true).
    rewrite elem_of_singleton. intros ->. apply (Hne i); [done|]. by apply Hids. }
  apply subseteq_size in Hsub. pose proof (size_remove (kids ms p None) i Hin). lia.
Qed.

(** A similar row in place of one row. *)
Lemma tree_bump ms i m m' : tree ms -> ms !! i = Some m -> similar m m' -> tree (<[i := m']> ms).
Proof.
  intros Ht Hm Hs. pose proof Ht as [Hids Hpar Hac Hbud].
  apply tree_put; [done| | | |].
  - rewrite (si_id _ _ Hs). by apply Hids.
  - intros c cm Hc Hci. destruct (Hpar c cm i Hc Hci) as (pm & Hpm & Hd). rewrite Hm in Hpm. injection Hpm as <-.
    eapply delegated_similar; [done|apply similar_refl|done].
  - intros p Hp. rewrite (si_parent _ _ Hs) in Hp.
    destruct (parent_place ms i m p Ht Hm Hp) as (? & ? & pm & Hpm & Hd & Hb). split; [done|]. split; [done|].
    exists pm. split; [done|]. split; [eapply delegated_similar; [apply similar_refl|done|done]|].
    by rewrite (si_status _ _ Hs).
  - rewrite (si_budget _ _ Hs). by apply Hbud.
Qed.

(** ** Effects of the operations on the mission table *)

(** Steps that leave the missions alone and never take identifiers back. *)
Definition quiet (d d' : DB) : Prop :=
  tb_mission d' = tb_mission d /\ (db_next d <= db_next d')%positive.

#[export] Instance quiet_preorder : PreOrder quiet.
Proof.
  unfold quiet. split; [intros d; split; [done|lia]|].
  intros d1 d2 d3 [H1 L1] [H2 L2]. split; [congruence|lia].
Qed.

#[local] Hint Extern 0 (Quiet quiet _) =>
  (split; intros; (split; [reflexivity | cbn; lia])) : typeclass_instances.

Lemma quiet_tree d d' : quiet d d' -> tree_wf d -> tree_wf d'.
Proof.
  intros [E L] [Ht Hf]. split; [by rewrite E|]. intros i Hi. rewrite E in Hi. specialize (Hf i Hi). lia.
Qed.

Lemma keeps_insert_outbox p a k key b : Keeps quiet (insert_outbox p a k key b).
Proof. unfold insert_outbox. frame. Qed.

Lemma keeps_goal_updates a i r : Keeps quiet (goal_updates a i r).
Proof. pose proof keeps_insert_outbox. unfold goal_updates, goal_update_one. frame. Qed.

Lemma keeps_link_mission i n l : Keeps quiet (link_mission i n l).
Proof. apply keeps_modify. intros d. split; [done|cbn; lia]. Qed.

Lemma keeps_roadmap_document R `{!PreOrder R} i p : Keeps R (roadmap_document i p).
Proof. unfold roadmap_document. frame. Qed.
#[local] Hint Resolve keeps_roadmap_document : frame.

Lemma check_mission_reads a data d ps d' : check_mission a data d = Ok (ps, d') -> d' = d.
Proof. apply read_only. unfold check_mission. frame. Qed.

Lemma check_criteria_reads a o data d u d' : check_criteria a o data d = Ok (u, d') -> d' = d.
Proof. apply read_only. unfold check_criteria. frame. Qed.

Lemma check_parent_reads a i o op data d u d' : check_parent a i o op data d = Ok (u, d') -> d' = d.
Proof. apply read_only. unfold check_parent. frame. Qed.

Lemma check_scope_reads i o p data d u d' : check_scope i o p data d = Ok (u, d') -> d' = d.
Proof. apply read_only. unfold check_scope. frame. Qed.

Lemma check_budget_reads i data d u d' : check_budget i data d = Ok (u, d') -> d' = d.
Proof. apply read_only. unfold check_budget, open_children. frame. Qed.

Lemma check_reopen_reads i p d u d' : check_reopen i p d = Ok (u, d') -> d' = d.
Proof. apply read_only. unfold check_reopen, open_children. frame. Qed.

Lemma open_children_Ok p x d n d' :
  open_children p x d = Ok (n, d') -> n = Z.of_nat (size (kids (tb_mission d) p x)) /\ d' = d.
Proof. intros [-> ->]%ask_Ok. split; [|done]. f_equal. apply count_filter_dom. Qed.

Lemma project_of_mission_Ok i d p d' :
  project_of Kmission i d = Ok (p, d') -> exists m, tb_mission d !! i = Some m /\ p = Some (m_project_id m) /\ d' = d.
Proof. cbn. unfold project_of_mission. intros H. m_inv. eauto. Qed.

Lemma parent_for_child_Ok project parent expected d o d' :
  parent_for_child project parent expected d = Ok (o, d') ->
  d' = d /\ match o with
            | None => parent = None
            | Some p => exists i, parent = Some i /\ tb_mission d !! i = Some p /\ m_status p = MissionOpen
                /\ m_project_id p = project
                /\ Z.of_nat (size (kids (tb_mission d) i None)) < m_max_open_children p
            end.
Proof.
  unfold parent_for_child. destruct parent as [i|]; intros H; [|by m_inv].
  apply bind_Ok in H as (p & d1 & (-> & Hp & Hproj)%same_project_Ok & H).
  apply project_of_mission_Ok in Hproj as (m & Hm & Hq & _). cbn in Hp. rewrite Hp in Hm. injection Hm as <-.
  apply bind_Ok in H as (? & ? & [Ho ->]%refuse_Ok & H). destruct expected as [n|]; [|by m_inv].
  apply bind_Ok in H as (? & ? & [_ ->]%refuse_Ok & H).
  apply bind_Ok in H as (k & ? & [-> ->]%open_children_Ok & H).
  apply bind_Ok in H as (? & ? & [Hb ->]%refuse_Ok & [-> ->]%ret_Ok). bools.
  split; [done|]. exists i. injection Hq as <-. by repeat split.
Qed.

Lemma validate_child_Ok p s cr note d e d' :
  validate_child p s cr note d = Ok (e, d') ->
  d' = d /\ scope_contains (Some (m_scope p)) (Some e) = true /\ cr <> []
  /\ (match note with Some n => blank n = false | None => False end)
  /\ e = normalized_scope (Some (default (m_scope p) s)).
Proof.
  unfold validate_child. intros H. m_inv. bools. repeat split; try done.
  by destruct note.
Qed.

(** [quietly H]: the rest [H] of a transaction is quiet. *)
Ltac quietly H :=
  lazymatch type of H with
  | ?m _ = Ok _ => let K := fresh in assert (Keeps quiet m) as K by frame; apply K in H; clear K
  end.

(** Row [i] becomes [m'], and nothing else changes that the tree depends on. *)
Definition puts (i : uid) (m' : mission) (d d' : DB) : Prop :=
  tb_mission d' = <[i := m']> (tb_mission d) /\ (db_next d <= db_next d')%positive /\ (i < db_next d')%positive.

Lemma puts_quiet i m d d1 d' : puts i m d d1 -> quiet d1 d' -> puts i m d d'.
Proof. intros (E & L & Hi) [E' L']. repeat split; [congruence|lia..]. Qed.

Lemma puts_tree i m d d' : puts i m d d' -> tree_wf d -> tree (<[i := m]> (tb_mission d)) -> tree_wf d'.
Proof.
  intros (E & L & Hi) [_ Hf] Ht. split; [by rewrite E|].
  intros j. rewrite E, lookup_insert_is_Some'. intros [<-|Hj]; [done|]. specialize (Hf j Hj). lia.
Qed.

Lemma change_puts i e (f : mission -> mission) d row d' (H : change i e f d = Ok (row, d')) :
  fresh_ids d ->
  exists r, tb_mission d !! i = Some r /\ (forall n, e = Some n -> m_revision r = n)
    /\ row = touch (db_now d) (f r) /\ puts i row d d'.
Proof.
  intros Hf. apply change_Ok in H as (r & Hr & He & -> & ->). exists r.
  split; [done|]. split; [done|]. split; [done|]. split; [done|]. cbn. split; [lia|]. apply Hf. by eexists.
Qed.

(** [bump_parent] of rows read earlier puts similar rows in their place. *)
Lemma bump_some_tree o a d u d' :
  bump_some o a d = Ok (u, d') -> tree_wf d -> (forall p, o = Some p -> tb_mission d !! m_id p = Some p) ->
  tree_wf d' /\ forall j, (forall p, o = Some p -> j <> m_id p) -> tb_mission d' !! j = tb_mission d !! j.
Proof.
  unfold bump_some. intros H Hw Hr. destruct o as [p|]; [|by m_inv]. specialize (Hr p eq_refl).
  apply bind_Ok in H as (row' & d1 & H & [_ ->]%ret_Ok). unfold bump_parent in H.
  apply bind_Ok in H as (row & d2 & Hch & H). quietly H.
  apply change_puts in Hch as (r' & Hr' & _ & -> & Hp); [|apply Hw].
  rewrite Hr in Hr'. injection Hr' as <-. eapply puts_quiet in H; [|exact Hp]. split.
  - eapply puts_tree; [done|done|]. eapply tree_bump; [apply Hw|done|]. by split.
  - intros j Hj. destruct H as [-> _]. by rewrite lookup_insert_ne by (intros <-; by eapply Hj).
Qed.

(** A row that changes its status only. *)
Lemma tree_status ms i m m' :
  tree ms -> ms !! i = Some m -> similar m (m' <| m_status := m_status m |>) ->
  (m_status m' <> MissionOpen -> forall c cm, ms !! c = Some cm -> m_parent_id cm = Some i -> m_status cm <> MissionOpen) ->
  (m_status m' = MissionOpen -> forall p, m_parent_id m = Some p -> exists pm, ms !! p = Some pm
     /\ m_status pm = MissionOpen /\ Z.of_nat (size (kids ms p (Some i))) + 1 <= m_max_open_children pm) ->
  tree (<[i := m']> ms).
Proof.
  intros Ht Hm [Sid Spr Spa _ Ssc Sbu Scr Sno] Hclose Hopen. cbn in *. pose proof Ht as [Hids Hpar Hac Hbud].
  apply tree_put; [done| | | |].
  - rewrite Sid. by apply Hids.
  - intros c cm Hc Hci. destruct (Hpar c cm i Hc Hci) as (pm & Hpm & [Dj Do Ds Dc Dn]).
    rewrite Hm in Hpm. injection Hpm as <-. split; [congruence| |by rewrite Ssc|done|done].
    intros Ho. destruct (decide (m_status m' = MissionOpen)) as [|Hn]; [done|].
    by destruct (Hclose Hn c cm Hc Hci).
  - intros p Hp. rewrite Spa in Hp.
    destruct (parent_place ms i m p Ht Hm Hp) as (? & ? & pm & Hpm & [Dj Do Ds Dc Dn] & _).
    split; [done|]. split; [done|]. exists pm. split; [done|].
    assert (m_status m' = MissionOpen -> m_status pm = MissionOpen
            /\ Z.of_nat (size (kids ms p (Some i))) + 1 <= m_max_open_children pm) as Ho.
    { intros Ho. destruct (Hopen Ho p Hp) as (pm' & Hpm' & ?). rewrite Hpm in Hpm'. by injection Hpm' as <-. }
    split; [split; [congruence|apply Ho|by rewrite Ssc|congruence|by rewrite Sno]|apply Ho].
  - rewrite Sbu. by apply Hbud.
Qed.

(** ** Closing and reopening *)

Lemma ensure_closure_allowed_Ok m c d u d' :
  ensure_closure_allowed m c d = Ok (u, d') -> tree (tb_mission d) ->
  d' = d /\ (forall j mj, tb_mission d !! j = Some mj -> tc (climbs d) j (m_id m) -> m_status mj <> MissionOpen)
  /\ (c = true -> forall k a, tb_assignment d !! k = Some a -> live_assignment a = true ->
      ~ rtc (climbs d) (a_mission_id a) (m_id m)).
Proof.
  intros H Ht. assert (d' = d) as ->.
  { eapply read_only; [|done]. typeclasses eauto with frame. }
  unfold ensure_closure_allowed in H. split; [done|].
  apply bind_Ok in H as (d0 & ? & [-> ->]%ask_Ok & H).
  apply bind_Ok in H as (open & d0 & [-> Hopen]%any_Ok & H).
  apply bind_Ok in H as (? & ? & [-> ->]%refuse_Ok & H). split.
  - intros j mj Hj Hd Hs. apply descendants_spec in Hd. assert (false = true); [|done]. apply Hopen.
    exists j, mj. split; [exact Hj|]. rewrite (tr_ids _ Ht j mj Hj). by rewrite !bool_decide_eq_true_2.
  - intros -> k a Hk Hl Hr. cbn [negb] in H.
    apply bind_Ok in H as (live & d0 & [-> Hlive]%any_Ok & [-> _]%refuse_Ok).
    assert (false = true); [|done]. apply Hlive. exists k, a. split; [exact Hk|]. unfold id.
    rewrite Hl, andb_true_r, orb_true_iff, !bool_decide_eq_true, descendants_spec.
    inversion Hr; subst; [by left|]. right. by eapply tc_rtc_r; [by apply tc_once|].
Qed.

Lemma check_reopen_Ok i o d u d' :
  check_reopen i o d = Ok (u, d') ->
  d' = d /\ forall p, o = Some p -> m_status p = MissionOpen
    /\ Z.of_nat (size (kids (tb_mission d) (m_id p) (Some i))) < m_max_open_children p.
Proof.
  unfold check_reopen. intros H. destruct o as [p|]; [|by m_inv].
  apply bind_Ok in H as (? & ? & [Ho ->]%refuse_Ok & H).
  apply bind_Ok in H as (k & ? & [-> ->]%open_children_Ok & [Hb ->]%refuse_Ok). bools.
  split; [done|]. by intros ? [= <-].
Qed.

Lemma parent_row_Ok m d o d' :
  parent_row m d = Ok (o, d') -> tree (tb_mission d) ->
  d' = d /\ (forall p, o = Some p -> m_parent_id m = Some (m_id p) /\ tb_mission d !! m_id p = Some p)
  /\ (o = None -> m_parent_id m = None).
Proof.
  unfold parent_row. intros H Ht. destruct (m_parent_id m) as [p|]; [|by m_inv; subst].
  apply bind_Ok in H as (q & ? & [Hq ->]%get_Ok & [-> ->]%ret_Ok). cbn in Hq.
  pose proof (tr_ids _ Ht p q Hq) as <-. split; [done|]. split; [by intros ? [= <-]|done].
Qed.

(** What each decision needs of the tree, and the row it makes. *)
Record decision_allowed (op : mission_command) (i : uid) (m : mission) (d : DB) : Prop := {
  da_from : m_status m = MissionOpen <-> op <> ReopenMission;
  da_below : op <> ReopenMission ->
    forall j mj, tb_mission d !! j = Some mj -> tc (climbs d) j i -> m_status mj <> MissionOpen;
  da_idle : op = CancelMission ->
    forall k a, tb_assignment d !! k = Some a -> live_assignment a = true -> ~ rtc (climbs d) (a_mission_id a) i;
  da_parent : op = ReopenMission ->
    forall p, m_parent_id m = Some p -> exists pm, tb_mission d !! p = Some pm /\ m_status pm = MissionOpen
      /\ Z.of_nat (size (kids (tb_mission d) p (Some i))) < m_max_open_children pm }.

Definition decided (op : mission_command) (now : instant) (note : string) (m : mission) : mission :=
  match op with
  | CompleteMission => close_mission now MissionCompleted note m
  | CancelMission => close_mission now MissionCancelled note m
  | ReopenMission => open_mission m
  end.

Lemma settle_mission_Ok op i e note m o d row d1 :
  settle_mission op i e note m o d = Ok (row, d1) -> tree_wf d -> tb_mission d !! i = Some m ->
  (forall p, o = Some p -> m_parent_id m = Some (m_id p) /\ tb_mission d !! m_id p = Some p) ->
  (o = None -> m_parent_id m = None) ->
  decision_allowed op i m d /\ row = touch (db_now d) (decided op (db_now d) note m) /\ puts i row d d1.
Proof.
  unfold settle_mission. intros H [Ht Hf] Hm Hpar Hnone. pose proof (tr_ids _ Ht i m Hm) as Hid.
  apply bind_Ok in H as (now & ? & [-> ->]%ask_Ok & H). destruct op.
  1,2: apply bind_Ok in H as (? & ? & [Ho ->]%refuse_Ok & H); apply bind_Ok in H as (? & ? & He & H);
    apply ensure_closure_allowed_Ok in He as (-> & Hb & Hi); [|done]; rewrite Hid in Hb, Hi;
    apply change_puts in H as (r & Hr & _ & -> & Hp); [|done]; rewrite Hm in Hr; injection Hr as <-; bools;
    (split; [|done]); split; [done|by intros _|first [done|by intros _; apply Hi]|done].
  apply bind_Ok in H as (? & ? & [Ho ->]%refuse_Ok & H). apply bind_Ok in H as (? & ? & He & H).
  apply check_reopen_Ok in He as [-> Hr].
  apply change_puts in H as (r & Hr' & _ & -> & Hp); [|done]. rewrite Hm in Hr'. injection Hr' as <-. bools.
  split; [|done]. split; [by split; [intros ?; by destruct Ho|intros []]|done|done|].
  intros _ p Hmp. destruct o as [q|]; [|by rewrite Hnone in Hmp].
  destruct (Hpar q eq_refl) as [E Hq]. rewrite Hmp in E. injection E as ->. exists q. split; [done|]. by apply Hr.
Qed.

Lemma decided_tree op i m note d now :
  tree (tb_mission d) -> tb_mission d !! i = Some m -> decision_allowed op i m d ->
  tree (<[i := touch now (decided op now note m)]> (tb_mission d)).
Proof.
  intros Ht Hm [Hf Hb _ Hp]. eapply tree_status; [done|done|by destruct op| |].
  - intros Hn c cm Hc Hci. apply (Hb ltac:(by intros ->) c cm Hc). apply tc_once, climbs_row. eauto.
  - intros Ho p Hmp. destruct op; [done..|]. destruct (Hp eq_refl p Hmp) as (pm & ? & ? & ?).
    exists pm. repeat split; [done..|lia].
Qed.

Lemma puts_lookup i m d d' : puts i m d d' -> tb_mission d' !! i = Some m.
Proof. intros (-> & _). apply lookup_insert_eq. Qed.

(** What a decision does to the mission table. *)
Lemma mission_decision_spec a op i e note d row d' :
  mission_decision a op i e note d = Ok (row, d') -> tree_wf d ->
  exists m, tb_mission d !! i = Some m /\ m_revision m = e /\ blank note = false /\ decision_allowed op i m d
    /\ row = touch (db_now d) (decided op (db_now d) note m) /\ tb_mission d' !! i = Some row /\ tree_wf d'.
Proof.
  unfold mission_decision. intros H Hw. destruct (Hw) as [Ht Hf].
  apply bind_Ok in H as (m & ? & [Hm ->]%get_Ok & H). cbn in Hm.
  apply bind_Ok in H as (pj & ? & Hx & H). apply project_of_reads in Hx as ->.
  apply bind_Ok in H as (? & ? & Hx & H). apply require_project_reads in Hx as ->.
  apply bind_Ok in H as (? & ? & [He ->]%refuse_Ok & H).
  apply bind_Ok in H as (? & ? & [Hb ->]%refuse_Ok & H).
  apply bind_Ok in H as (? & ? & Hx & H). apply read_only in Hx as ->; [|apply keeps_require_mission_authority, _].
  apply bind_Ok in H as (o & ? & Ho & H). apply parent_row_Ok in Ho as (-> & Hpar & Hnone); [|done].
  apply bind_Ok in H as (row' & d1 & Hs & H).
  apply settle_mission_Ok in Hs as (Hal & Erow & Hput); [|done..].
  apply bind_Ok in H as (? & d2 & Hq & H). quietly Hq. eapply puts_quiet in Hq; [|exact Hput]. clear Hput.
  assert (tree_wf d2) as Hw2.
  { eapply puts_tree; [done|done|]. subst row'. by apply decided_tree. }
  apply bind_Ok in H as (? & d3 & Hbump & H).
  assert (forall p, o = Some p -> i <> m_id p) as Hne.
  { intros p Hp Eq. destruct (Hpar p Hp) as [E _]. apply (tr_acyclic _ Ht i). apply tc_once. exists m. by rewrite Eq at 2. }
  apply bump_some_tree in Hbump as [Hw3 Hother]; [|done|].
  - apply bind_Ok in H as (? & d4 & H & [-> ->]%ret_Ok). quietly H. bools.
    exists m. split; [done|]. split; [done|]. split; [done|]. split; [done|]. split; [done|].
    split; [|by eapply quiet_tree]. destruct H as [-> _]. rewrite (Hother i Hne). by eapply puts_lookup.
  - intros p Hp. destruct Hq as [-> _]. rewrite lookup_insert_ne by by apply Hne. by apply Hpar.
Qed.

(** ** Creating *)

Lemma check_mission_Ok a data d o s d' :
  check_mission a data d = Ok ((o, s), d') -> tree (tb_mission d) ->
  d' = d /\ match o with
            | None => mc_parent_id data = None
            | Some p => mc_parent_id data = Some (m_id p) /\ tb_mission d !! m_id p = Some p
                /\ m_status p = MissionOpen /\ m_project_id p = mc_project_id data
                /\ Z.of_nat (size (kids (tb_mission d) (m_id p) None)) < m_max_open_children p
                /\ scope_contains (Some (m_scope p)) (Some s) = true /\ mc_acceptance_criteria data <> []
                /\ match mc_delegation_note data with Some n => blank n = false | None => False end
            end.
Proof.
  intros H Ht. pose proof (check_mission_reads _ _ _ _ _ H) as ->. split; [done|].
  unfold check_mission in H. apply bind_Ok in H as (? & ? & Hx & H). apply require_project_reads in Hx as ->.
  apply bind_Ok in H as (? & ? & [_ ->]%refuse_Ok & H).
  apply bind_Ok in H as (o' & ? & [-> Hp]%parent_for_child_Ok & H).
  apply bind_Ok in H as (s' & d1 & Hs & H).
  assert (o' = o /\ s' = s) as [-> ->] by by m_inv; simplify_eq.
  destruct o as [p|]; [|done]. destruct Hp as (i & Hi & Hpi & Ho & Hpr & Hb).
  pose proof (tr_ids _ Ht i p Hpi) as <-. apply validate_child_Ok in Hs as (_ & Hsc & Hcr & Hn & _).
  by repeat split.
Qed.

(** A row at a fresh identifier has no children. *)
Lemma tree_new ms i m :
  tree ms -> ms !! i = None -> m_id m = i -> 0 <= m_max_open_children m ->
  (forall p, m_parent_id m = Some p -> exists pm, ms !! p = Some pm /\ delegated pm m
     /\ Z.of_nat (size (kids ms p None)) < m_max_open_children pm) ->
  tree (<[i := m]> ms).
Proof.
  intros Ht Hi Hid Hn Hp. pose proof Ht as [Hids Hpar Hac Hbud].
  assert (forall c cm, ms !! c = Some cm -> m_parent_id cm <> Some i) as Hno.
  { intros c cm Hc Hci. destruct (Hpar c cm i Hc Hci) as (pm & Hpm & _). congruence. }
  apply tree_put; [done|done| | |].
  - intros c cm Hc Hci. by destruct (Hno c cm Hc).
  - intros p Hmp. destruct (Hp p Hmp) as (pm & Hpm & Hd & Hb). split; [congruence|]. split.
    + intros Hr. apply rtc_inv_r in Hr as [->|(k & _ & mk & Hk & Hki)]; [congruence|]. by apply (Hno k mk Hk).
    + exists pm. split; [done|]. split; [done|]. intros _. pose proof (subseteq_size _ _ (kids_without ms p i)). lia.
  - assert (kids ms i None = ∅) as ->; [|by rewrite size_empty].
    apply set_eq. intros k. split; [|set_solver]. intros (mk & Hk & (Hpk & _)%open_child_of_true)%elem_of_kids.
    by destruct (Hno k mk Hk).
Qed.

Lemma create_mission_spec a data d row d' :
  create_mission a data d = Ok (row, d') -> tree_wf d -> mission_create_valid data = true ->
  tb_mission d !! m_id row = None /\ tb_mission d' !! m_id row = Some row
  /\ m_parent_id row = mc_parent_id data /\ m_status row = MissionOpen /\ tree_wf d'.
Proof.
  unfold create_mission. intros H Hw Hv. destruct (Hw) as [Ht Hf].
  apply bind_Ok in H as ([o s] & ? & [-> Hc]%check_mission_Ok & H); [|done].
  apply bind_Ok in H as (n & ? & Hn & H). apply read_only in Hn as ->; [|frame].
  apply bind_Ok in H as (row' & d1 & Hcr & H). cbn in Hcr. injection Hcr as Erow Ed1.
  assert (tb_mission d !! db_next d = None) as Hfr.
  { apply eq_None_not_Some. intros Hs. specialize (Hf _ Hs). lia. }
  assert (puts (db_next d) row' d d1) as Hput by (rewrite <- Ed1; subst row'; split; [done|cbn; lia]).
  clear Ed1.
  apply bind_Ok in H as (? & d2 & Hq & H). apply keeps_link_mission in Hq.
  apply bind_Ok in H as (? & d3 & Hq' & H). quietly Hq'. pose proof (transitivity Hq Hq') as Hq''. clear Hq Hq'.
  apply bind_Ok in H as (? & d4 & Hq & H). quietly Hq. pose proof (transitivity Hq'' Hq) as Hq'. clear Hq Hq''.
  eapply puts_quiet in Hq'; [|exact Hput]. clear Hput.
  apply bind_Ok in H as (? & d5 & Hbump & [-> ->]%ret_Ok).
  assert (m_id row' = db_next d) as Hid by by subst row'. rewrite Hid.
  assert (forall p, o = Some p -> tb_mission d !! m_id p = Some p /\ db_next d <> m_id p) as Hop.
  { intros p ->. destruct Hc as (_ & Hp & _). split; [done|]. intros E. congruence. }
  apply bump_some_tree in Hbump as [Hw5 Hother].
  - split; [done|]. split; [|by subst row'].
    rewrite Hother by (intros p Hp; by apply Hop). by eapply puts_lookup.
  - eapply puts_tree; [done|done|]. apply tree_new; [done|done|done| |].
    + unfold mission_create_valid, positive_valid in Hv. bools. subst row'. cbn. lia.
    + subst row'. cbn. intros p Hp. destruct o as [q|]; [|congruence].
      destruct Hc as (E & Hq & Ho & Hpr & Hb & Hsc & Hcr & Hnote). rewrite Hp in E. injection E as ->.
      exists q. split; [done|]. split; [|done]. by split.
  - intros p Hp. destruct (Hop p Hp) as [Hp1 Hp2]. destruct Hq' as [-> _]. by rewrite lookup_insert_ne.
Qed.

(** ** Revising *)

Lemma check_parent_Ok a i old o data d o' d' :
  check_parent a i old o data d = Ok (o', d') -> tree (tb_mission d) -> m_id old = i -> tb_mission d !! i = Some old ->
  d' = d /\ if parent_changed old data then
    match o' with
    | None => given_null (m_parent_id old) (mu_parent_id data) = None
    | Some p => given_null (m_parent_id old) (mu_parent_id data) = Some (m_id p) /\ tb_mission d !! m_id p = Some p
        /\ m_status p = MissionOpen /\ m_project_id p = m_project_id old
        /\ Z.of_nat (size (kids (tb_mission d) (m_id p) None)) < m_max_open_children p
        /\ ~ rtc (up (tb_mission d)) (m_id p) i
    end
  else o' = o.
Proof.
  intros H Ht Hid Hold. pose proof (check_parent_reads _ _ _ _ _ _ _ _ H) as ->. split; [done|].
  unfold check_parent in H. destruct (parent_changed old data) eqn:Ec; [|by m_inv].
  assert (exists t, mu_parent_id data = Some t) as [t Et].
  { unfold parent_changed in Ec. destruct (mu_parent_id data); eauto; done. }
  rewrite Et in *. cbn [given_null] in *.
  apply bind_Ok in H as (? & d0 & Hx & H). apply read_only in Hx as ->; [|frame].
  apply bind_Ok in H as (? & d0 & Hr & H). pose proof Hr as Hx. apply read_only in Hx as ->; [|frame].
  apply bind_Ok in H as (q & ? & [-> Hp]%parent_for_child_Ok & H).
  assert (q = o') as -> by by m_inv.
  destruct o' as [p|]; [|done]. destruct Hp as (j & -> & Hj & Ho & Hpr & Hb).
  pose proof (tr_ids _ Ht j p Hj) as <-. split; [done|]. split; [done|]. split; [done|]. split; [done|].
  split; [done|]. intros Hup. clear H.
  apply bind_Ok in Hr as (? & ? & [-> ->]%ask_Ok & [Hr _]%refuse_Ok).
  assert (contains_mission d (m_id old) (m_id p) = true); [|unfold id in *; congruence].
  apply contains_mission_spec. split; [rewrite Hid; by eexists|]. rewrite Hid.
  eapply rtc_subrel; [|exact Hup]. intros ??. by rewrite climbs_up.
Qed.

(** Containment does not depend on the order or the repetition of a scope's entries. *)
Lemma contains_normalized p s :
  scope_contains p (Some (normalized_scope (Some s))) = scope_contains p (Some s).
Proof.
  destruct p as [p|]; [|reflexivity]. apply eq_iff_eq_true. rewrite !scope_contains_spec.
  by setoid_rewrite normalized_covers.
Qed.

Lemma check_scope_Ok i old o data d s d' :
  check_scope i old o data d = Ok (s, d') ->
  d' = d
  /\ (forall p, o = Some p -> scope_contains (Some (m_scope p)) (Some (m_scope (patch data s old))) = true
       /\ given (m_acceptance_criteria old) (mu_acceptance_criteria data) <> []
       /\ match given_null (m_delegation_note old) (mu_delegation_note data) with
          | Some n => blank n = false | None => False end)
  /\ (mu_scope data <> None -> forall c cm, tb_mission d !! c = Some cm -> m_parent_id cm = Some i ->
       scope_contains (Some s) (Some (m_scope cm)) = true).
Proof.
  intros H. pose proof (check_scope_reads _ _ _ _ _ _ _ H) as ->. split; [done|].
  unfold check_scope in H.
  apply bind_Ok in H as (? & d0 & Hx & H). apply read_only in Hx as ->; [|frame].
  apply bind_Ok in H as (s' & d0 & Hs & H). pose proof Hs as Hx. apply read_only in Hx as ->; [|frame].
  apply bind_Ok in H as (? & d0 & Hk & [-> _]%ret_Ok). split.
  - intros p ->. apply validate_child_Ok in Hs as (_ & Hsc & Hcr & Hn & ->). split; [|done].
    cbn in Hsc |- *. rewrite !contains_normalized in Hsc.
    destruct (mu_scope data) as [v|]; cbn; by rewrite ?contains_normalized.
  - intros Hsome c cm Hc Hci. destruct (mu_scope data) as [v|]; [|done].
    apply bind_Ok in Hk as (? & ? & [-> ->]%ask_Ok & Hk).
    apply bind_Ok in Hk as (? & d1 & Hx & Hk). apply read_only in Hx as ->; [|frame].
    apply bind_Ok in Hk as (out & ? & [-> Hout]%any_Ok & [-> _]%refuse_Ok).
    apply not_false_iff_true. intros E. assert (false = true); [|done]. apply Hout.
    exists c, cm. split; [done|]. by rewrite bool_decide_eq_true_2, E.
Qed.

Lemma check_budget_Ok i data d u d' :
  check_budget i data d = Ok (u, d') ->
  d' = d /\ forall n, mu_max_open_children data = Some (Some n) -> Z.of_nat (size (kids (tb_mission d) i None)) <= n.
Proof.
  unfold check_budget. intros H. destruct (mu_max_open_children data) as [[n|]|]; [|by m_inv..].
  apply bind_Ok in H as (k & ? & [-> ->]%open_children_Ok & [Hb ->]%refuse_Ok). bools.
  split; [done|]. by intros ? [= <-].
Qed.

(** The row that a checked patch makes fits the tree. *)
Lemma patch_tree ms i old data s m' :
  tree ms -> ms !! i = Some old -> m_status old = MissionOpen ->
  similar (patch data s old) m' ->
  (forall p, m_parent_id (patch data s old) = Some p -> exists pm, ms !! p = Some pm
     /\ scope_contains (Some (m_scope pm)) (Some (m_scope (patch data s old))) = true
     /\ m_acceptance_criteria (patch data s old) <> []
     /\ match m_delegation_note (patch data s old) with Some n => blank n = false | None => False end
     /\ (m_parent_id old <> Some p -> m_status pm = MissionOpen /\ m_project_id pm = m_project_id old
         /\ Z.of_nat (size (kids ms p None)) < m_max_open_children pm /\ ~ rtc (up ms) p i)) ->
  (mu_scope data <> None -> forall c cm, ms !! c = Some cm -> m_parent_id cm = Some i ->
     scope_contains (Some s) (Some (m_scope cm)) = true) ->
  (forall n, mu_max_open_children data = Some (Some n) -> Z.of_nat (size (kids ms i None)) <= n) ->
  tree (<[i := m']> ms).
Proof.
  intros Ht Hold Ho [Sid Spr Spa Sst Ssc Sbu Scr Sno] Hp Hsc Hbu. cbn in Sid, Spr, Sst, Ssc, Sbu.
  apply tree_put; [done| | | |].
  - rewrite Sid. by apply Ht.
  - intros c cm Hc Hci. destruct (tr_parent _ Ht c cm i Hc Hci) as (pm & Hpm & [Dj Do Ds Dc Dn]).
    rewrite Hold in Hpm. injection Hpm as <-. split; [congruence|congruence| |done|done].
    rewrite Ssc. destruct (mu_scope data) as [v|]; [by eapply Hsc|done].
  - intros p Hmp. rewrite Spa in Hmp. destruct (Hp p Hmp) as (pm & Hpm & H1 & H2 & H3 & H4).
    destruct (decide (m_parent_id old = Some p)) as [E|E].
    + destruct (parent_place ms i old p Ht Hold E) as (? & ? & pm' & Hpm' & [Dj Do _ _ _] & Hb).
      rewrite Hpm in Hpm'. injection Hpm' as <-. split; [done|]. split; [done|]. exists pm. split; [done|].
      split; [|intros _; by apply Hb]. split; [congruence|auto|by rewrite Ssc|by rewrite Scr|by rewrite Sno].
    + destruct (H4 E) as (Hop & Hpr & Hb & Hr). split; [intros ->; by apply Hr|]. split; [done|].
      exists pm. split; [done|]. split; [split; [congruence|done|by rewrite Ssc|by rewrite Scr|by rewrite Sno]|].
      intros _. pose proof (subseteq_size _ _ (kids_without ms p i)). lia.
  - rewrite Sbu. pose proof (tr_budget _ Ht i old Hold) as Hb.
    destruct (mu_max_open_children data) as [[n|]|]; cbn; [by apply Hbu|done|done].
Qed.

Lemma given_unchanged old data :
  parent_changed old data = false -> given_null (m_parent_id old) (mu_parent_id data) = m_parent_id old.
Proof. unfold parent_changed. destruct (mu_parent_id data); [|done]. intros H. by bools. Qed.

Lemma given_changed old data :
  parent_changed old data = true -> given_null (m_parent_id old) (mu_parent_id data) <> m_parent_id old.
Proof. unfold parent_changed. destruct (mu_parent_id data); [|done]. intros H. by bools. Qed.

(** The checks of [update_mission] that precede the write establish what the tree needs. *)
Lemma update_checks_tree a i old o o' data s d d1 d2 m' :
  tree (tb_mission d) -> tb_mission d !! i = Some old -> m_status old = MissionOpen ->
  (forall p, o = Some p -> m_parent_id old = Some (m_id p) /\ tb_mission d !! m_id p = Some p) ->
  (o = None -> m_parent_id old = None) ->
  check_parent a i old o data d = Ok (o', d1) -> check_scope i old o' data d = Ok (s, d2) ->
  (forall n, mu_max_open_children data = Some (Some n) -> Z.of_nat (size (kids (tb_mission d) i None)) <= n) ->
  similar (patch data s old) m' ->
  tree (<[i := m']> (tb_mission d)).
Proof.
  intros Ht Hold Ho Hpar Hnone Hcp Hcs Hbu Hs. pose proof (tr_ids _ Ht i old Hold) as Hid.
  apply check_parent_Ok in Hcp as [_ Hcp]; [|done..]. apply check_scope_Ok in Hcs as (_ & Hsc & Hch).
  eapply patch_tree; [done|done|done|done| |done|done].
  intros p Hp. change (given_null (m_parent_id old) (mu_parent_id data) = Some p) in Hp.
  destruct (parent_changed old data) eqn:Ec.
  - destruct o' as [q|]; [|congruence]. destruct Hcp as (E & Hq & Hqo & Hqp & Hqb & Hqr).
    rewrite Hp in E. injection E as ->. destruct (Hsc q eq_refl) as (? & ? & ?). exists q. done.
  - subst o'. rewrite (given_unchanged _ _ Ec) in Hp. destruct o as [q|]; [|by rewrite Hnone in Hp].
    destruct (Hpar q eq_refl) as [E Hq]. rewrite Hp in E. injection E as ->.
    destruct (Hsc q eq_refl) as (? & ? & ?). exists q. done.
Qed.

(** The bumps of the two parents of a moved mission. *)
Lemma bump_both_tree o o' a d u d' :
  (bump_some o a ;; bump_some o' a) d = Ok (u, d') -> tree_wf d ->
  (forall p, o = Some p -> tb_mission d !! m_id p = Some p) ->
  (forall p, o' = Some p -> tb_mission d !! m_id p = Some p) ->
  (forall p q, o = Some p -> o' = Some q -> m_id q <> m_id p) ->
  tree_wf d' /\ forall j, (forall p, o = Some p \/ o' = Some p -> j <> m_id p) -> tb_mission d' !! j = tb_mission d !! j.
Proof.
  intros H Hw Ho Ho' Hne. apply bind_Ok in H as (? & d1 & H1 & H2).
  apply bump_some_tree in H1 as [Hw1 E1]; [|done..].
  apply bump_some_tree in H2 as [Hw2 E2]; [|done|].
  - split; [done|]. intros j Hj. rewrite E2, E1; naive_solver.
  - intros p Hp. rewrite E1; [by apply Ho'|]. intros q Hq. by eapply Hne.
Qed.

Lemma write_mission_Ok a i data s fields moved o o' d row d' old :
  write_mission a i data s fields moved o o' d = Ok (row, d') -> tree_wf d -> tb_mission d !! i = Some old ->
  (forall m', similar (patch data s old) m' -> tree (<[i := m']> (tb_mission d))) ->
  (forall p, o = Some p -> m_id p <> i /\ tb_mission d !! m_id p = Some p) ->
  (moved = true -> forall p, o' = Some p -> m_id p <> i /\ tb_mission d !! m_id p = Some p) ->
  (moved = true -> forall p q, o = Some p -> o' = Some q -> m_id q <> m_id p) ->
  row = touch (db_now d) (patch data s old) /\ tree_wf d' /\ tb_mission d' !! i = Some row.
Proof.
  unfold write_mission. intros H Hw Hold Ht' Ho Ho' Hne.
  apply bind_Ok in H as (row' & d1 & Hch & H). apply change_puts in Hch as (r & Hr & _ & Erow & Hput); [|apply Hw].
  rewrite Hold in Hr. injection Hr as <-.
  assert (tree (<[i := row']> (tb_mission d))) as Ht by (apply Ht'; rewrite Erow; apply similar_touch). clear Ht'.
  apply bind_Ok in H as (rv & d2 & Hq & H). quietly Hq. eapply puts_quiet in Hq; [|exact Hput]. clear Hput.
  apply bind_Ok in H as (? & d3 & Hq' & H). apply keeps_goal_updates in Hq'. eapply puts_quiet in Hq'; [|exact Hq]. clear Hq.
  apply bind_Ok in H as (? & d4 & Hq & H). quietly Hq. eapply puts_quiet in Hq; [|exact Hq']. clear Hq'.
  pose proof (puts_tree _ _ _ _ Hq Hw Ht) as Hw4.
  apply bind_Ok in H as (? & d5 & Hb & [-> ->]%ret_Ok). split; [exact Erow|]. clear Erow.
  destruct moved; [|apply ret_Ok in Hb as [_ ->]; split; [done|by eapply puts_lookup]].
  specialize (Ho' eq_refl). specialize (Hne eq_refl).
  destruct Hq as [Em _]. apply bump_both_tree in Hb as [Hw5 Hrest]; [|done|..|done].
  - split; [done|]. rewrite Hrest, Em; [apply lookup_insert_eq|].
    intros p [Hp|Hp]; apply not_eq_sym; [by apply Ho|by apply Ho'].
  - intros p Hp. destruct (Ho p Hp). by rewrite Em, lookup_insert_ne by by apply not_eq_sym.
  - intros p Hp. destruct (Ho' p Hp) as [? ?]. by rewrite Em, lookup_insert_ne by by apply not_eq_sym.
Qed.

Lemma update_mission_spec a i data d row d' :
  update_mission a i data d = Ok (row, d') -> tree_wf d ->
  exists old, tb_mission d !! i = Some old /\ m_revision old = mu_expected_revision data /\ m_status old = MissionOpen
    /\ tree_wf d' /\ tb_mission d' !! i = Some row
    /\ ((row = old /\ d' = d) \/ exists s, row = touch (db_now d) (patch data s old)).
Proof.
  unfold update_mission. intros H Hw. destruct (Hw) as [Ht Hf].
  apply bind_Ok in H as (old & ? & [Hold ->]%get_Ok & H). cbn [rows mission_table] in Hold.
  apply bind_Ok in H as (? & ? & Hx & H). apply require_project_reads in Hx as ->.
  apply bind_Ok in H as (? & ? & Hx & H). apply read_only in Hx as ->; [|frame].
  apply bind_Ok in H as (? & ? & [He ->]%refuse_Ok & H).
  apply bind_Ok in H as (? & ? & [Ho ->]%refuse_Ok & H).
  apply bind_Ok in H as (? & ? & Hx & H). apply check_criteria_reads in Hx as ->.
  apply bind_Ok in H as (o & ? & Hpr & H). apply parent_row_Ok in Hpr as (-> & Hpar & Hnone); [|done].
  apply bind_Ok in H as (o' & d1 & Hcp & H). pose proof (check_parent_reads _ _ _ _ _ _ _ _ Hcp) as ->.
  apply bind_Ok in H as (s & d1 & Hcs & H). pose proof (check_scope_reads _ _ _ _ _ _ _ Hcs) as ->.
  apply bind_Ok in H as (? & d1 & [-> Hbu]%check_budget_Ok & H).
  apply bind_Ok in H as (? & d1 & Hx & H). apply read_only in Hx as ->; [|frame].
  bools. exists old. split; [done|]. split; [done|]. split; [done|].
  cbv zeta in H. destruct (bool_decide (patched_fields old (patch data s old) = []));
    [apply ret_Ok in H as [-> ->]; by split; [|split; [|left]]|].
  eapply write_mission_Ok in H as (-> & Hw' & Hrow); [eauto 6|done|exact Hold|..].
  - intros m' Hm'. exact (update_checks_tree a i old o o' data s d d d m' Ht Hold Ho Hpar Hnone Hcp Hcs Hbu Hm').
  - intros p Hp. destruct (Hpar p Hp) as [E Hp']. split; [|done]. intros E'.
    apply (tr_acyclic _ Ht i), tc_once. exists old. by rewrite <- E' at 2.
  - intros Ec p ->. apply check_parent_Ok in Hcp as [_ Hcp]; [|done|by apply (tr_ids _ Ht)|done]. rewrite Ec in Hcp.
    destruct Hcp as (_ & Hp & _ & _ & _ & Hr). split; [|done]. intros E. apply Hr. by rewrite E.
  - intros Ec p q Hp -> E. apply check_parent_Ok in Hcp as [_ Hcp]; [|done|by apply (tr_ids _ Ht)|done].
    rewrite Ec in Hcp. destruct Hcp as (Eq & _). apply (given_changed _ _ Ec).
    rewrite Eq, E. symmetry. by apply Hpar.
Qed.
