(* ===== verification/MissionProperties.v ===== *)
(** * What the mission operations guarantee

    The step relation of the mission operations, their invariant over every sequence of steps,
    the fencing of stale revisions, and the confinement of agents to their own subtree. *)

From S2P Require Import Prelude Contracts Schema Records Auth Samples MissionTree Missions MissionInvariant.

(** ** Steps

    One transaction at a time: creation, revision and decision of a mission, and any other
    transaction, which leaves the missions as they are. *)

Inductive mission_step : relation DB :=
| StepCreate a data d row d' :
    mission_create_valid data = true -> create_mission a data d = Ok (row, d') -> mission_step d d'
| StepUpdate a i data d row d' : update_mission a i data d = Ok (row, d') -> mission_step d d'
| StepDecide a op i e note d row d' : mission_decision a op i e note d = Ok (row, d') -> mission_step d d'
| StepOther d d' : quiet d d' -> mission_step d d'.

Lemma mission_step_tree d d' : mission_step d d' -> tree_wf d -> tree_wf d'.
Proof.
  intros [a data d0 row d1 Hv H|a i data d0 row d1 H|a op i e note d0 row d1 H|d0 d1 H] Hw.
  - by eapply create_mission_spec in H as (_ & _ & _ & _ & ?).
  - by eapply update_mission_spec in H as (? & _ & _ & _ & ? & _).
  - by eapply mission_decision_spec in H as (? & _ & _ & _ & _ & _ & _ & ?).
  - by eapply quiet_tree.
Qed.

Lemma mission_steps_tree d d' : rtc mission_step d d' -> tree_wf d -> tree_wf d'.
Proof. induction 1 as [|d1 d2 d3 H _ IH]; [done|]. intros Hw. by apply IH, (mission_step_tree d1). Qed.

Lemma empty_tree now : tree_wf (empty_db now).
Proof.
  split; [split|]; try done.
  - intros i H. apply tc_first in H as (? & (m & Hm & _) & _). done.
  - intros i [m Hm]. done.
Qed.

(** ** Revisions only grow *)

Definition grows (d d' : DB) : Prop :=
  fresh_ids d -> fresh_ids d' /\
  forall i m, tb_mission d !! i = Some m -> exists m', tb_mission d' !! i = Some m' /\ m_revision m <= m_revision m'.

#[export] Instance grows_preorder : PreOrder grows.
Proof.
  split.
  - intros d Hf. split; [done|]. intros i m Hm. exists m. split; [done|lia].
  - intros d1 d2 d3 H1 H2 Hf. destruct (H1 Hf) as [Hf2 G1]. destruct (H2 Hf2) as [Hf3 G2]. split; [done|].
    intros i m Hm. destruct (G1 i m Hm) as (m' & Hm' & ?). destruct (G2 i m' Hm') as (m'' & ? & ?).
    exists m''. split; [done|lia].
Qed.

Lemma quiet_grows d d' : quiet d d' -> grows d d'.
Proof.
  intros [E L] Hf. split; [|intros i m Hm; rewrite E; exists m; split; [done|lia]].
  intros i Hi. rewrite E in Hi. specialize (Hf i Hi). lia.
Qed.

#[local] Hint Extern 0 (Quiet grows _) =>
  (split; intros; apply quiet_grows; (split; [reflexivity | cbn; lia])) : typeclass_instances.

Lemma keeps_change_mission i e f : (forall m, m_revision (f m) = m_revision m) -> Keeps grows (change i e f).
Proof.
  intros Hrev d row d' Hch Hf. apply change_puts in Hch as (r & Hr & _ & -> & (E & L & Hi)); [|done]. split.
  - intros j. rewrite E, lookup_insert_is_Some'. intros [<-|Hj]; [done|]. specialize (Hf j Hj). lia.
  - intros j m Hm. rewrite E. destruct (decide (i = j)) as [<-|Hne].
    + rewrite lookup_insert_eq. eexists. split; [done|]. rewrite Hr in Hm. injection Hm as <-.
      cbn. rewrite Hrev. lia.
    + rewrite lookup_insert_ne by done. exists m. split; [done|lia].
Qed.

Lemma keeps_create_mission data s n : Keeps grows (create (new_mission data s n)).
Proof.
  intros d row d' H Hf. injection H as <- <-. cbn. split.
  - intros i. cbn. rewrite lookup_insert_is_Some'. intros [<-|Hi]; [lia|]. specialize (Hf i Hi). lia.
  - intros i m Hm. exists m. split; [|lia]. rewrite lookup_insert_ne; [done|]. intros <-.
    assert (db_next d < db_next d)%positive; [|lia]. apply Hf. by eexists.
Qed.

Lemma keeps_bump_some o a : Keeps grows (bump_some o a).
Proof.
  unfold bump_some, bump_parent. destruct o as [p|]; [|frame].
  apply keeps_bind; [typeclasses eauto|apply keeps_bind; [typeclasses eauto|by apply keeps_change_mission|intros; frame]
    |intros; frame].
Qed.
#[local] Hint Resolve keeps_bump_some keeps_create_mission : frame.

Lemma keeps_link R `{!PreOrder R} i n l : (forall d d', quiet d d' -> R d d') -> Keeps R (link_mission i n l).
Proof. intros HR d u d' H. by apply keeps_link_mission, HR in H. Qed.

Lemma create_mission_grows a data : Keeps grows (create_mission a data).
Proof.
  unfold create_mission. apply keeps_bind; [typeclasses eauto| |].
  - intros d ps d' ->%check_mission_reads. done.
  - intros ps. pose proof (fun i n l => keeps_link grows i n l quiet_grows). frame.
Qed.

Lemma write_mission_grows a i data s fields moved o o' : Keeps grows (write_mission a i data s fields moved o o').
Proof.
  unfold write_mission. apply keeps_bind; [typeclasses eauto|by apply keeps_change_mission|intros row].
  assert (forall r, Keeps grows (goal_updates a i r)) by (intros r d u d' H; by apply keeps_goal_updates, quiet_grows in H).
  frame.
Qed.

Lemma update_mission_grows a i data : Keeps grows (update_mission a i data).
Proof.
  assert (forall o, Keeps grows (check_criteria a o data)) by (intros ???? ->%check_criteria_reads; done).
  assert (forall o p, Keeps grows (check_parent a i o p data)) by (intros ????? ->%check_parent_reads; done).
  assert (forall o p, Keeps grows (check_scope i o p data)) by (intros ????? ->%check_scope_reads; done).
  assert (Keeps grows (check_budget i data)) by (intros ??? ->%check_budget_reads; done).
  assert (forall m, Keeps grows (parent_row m)) by (intros; unfold parent_row; frame).
  pose proof write_mission_grows. unfold update_mission. frame. unfold roadmap_document. frame.
Qed.

Lemma settle_mission_grows op i e note m o : Keeps grows (settle_mission op i e note m o).
Proof.
  assert (Keeps grows (check_reopen i o)) by (intros ??? ->%check_reopen_reads; done).
  assert (forall e f, (forall m, m_revision (f m) = m_revision m) -> Keeps grows (change i e f))
    by (intros; by apply keeps_change_mission).
  unfold settle_mission. frame; eauto.
Qed.

Lemma mission_decision_grows a op i e note : Keeps grows (mission_decision a op i e note).
Proof.
  assert (forall m, Keeps grows (parent_row m)) by (intros; unfold parent_row; frame).
  pose proof settle_mission_grows. unfold mission_decision. frame.
Qed.

Lemma mission_step_grows d d' : mission_step d d' -> grows d d'.
Proof.
  intros [a data d0 row d1 Hv H|a i data d0 row d1 H|a op i e note d0 row d1 H|d0 d1 H].
  - by eapply create_mission_grows.
  - by eapply update_mission_grows.
  - by eapply mission_decision_grows.
  - by apply quiet_grows.
Qed.

Lemma mission_steps_grow d d' : rtc mission_step d d' -> grows d d'.
Proof. induction 1 as [|d1 d2 d3 H _ IH]; [done|]. etrans; [by apply mission_step_grows|done]. Qed.

(** ** Authority *)

Lemma require_mission_authority_Ok a i r d m d' :
  require_mission_authority a i r d = Ok (m, d') -> is_agent a = true ->
  exists l asg owned, live_execution a d = Ok (l, d) /\ tb_assignment d !! lx_assignment_id l = Some asg
    /\ owned_mission asg d = Ok (owned, d) /\ tb_mission d !! i = Some m
    /\ lx_project_id l = m_project_id m /\ (lx_role l = Maintainer \/ lx_role l = r) /\ rtc (climbs d) i owned.
Proof.
  intros H Ha. unfold require_mission_authority in H.
  apply bind_Ok in H as (m' & ? & [Hm ->]%get_Ok & H). rewrite Ha in H. cbn [negb] in H.
  apply bind_Ok in H as (l & d1 & Hl & H). pose proof (live_execution_reads _ _ _ _ Hl) as ->.
  apply bind_Ok in H as (? & ? & [Hp ->]%refuse_Ok & H).
  apply bind_Ok in H as (? & ? & [Hr ->]%refuse_Ok & H).
  apply bind_Ok in H as (asg & ? & [Hasg ->]%get_Ok & H).
  apply bind_Ok in H as (owned & d1 & Ho & H). pose proof Ho as E. apply read_only in E as ->; [|frame].
  apply bind_Ok in H as (? & ? & [-> ->]%ask_Ok & H).
  apply bind_Ok in H as (? & ? & [Hc ->]%refuse_Ok & [-> ->]%ret_Ok). bools.
  apply contains_mission_spec in Hc as [_ Hc]. apply mem_true in Hr.
  exists l, asg, owned. repeat split; try done.
  apply elem_of_cons in Hr as [?|?%list_elem_of_singleton]; auto.
Qed.

(** A mission that an operation of the actor concerns: the one it decides or revises, or the
    parent it delegates from. *)
Inductive acts_on (a : Actor) (d : DB) : uid -> Prop :=
| ActDecide op i e note row d' : mission_decision a op i e note d = Ok (row, d') -> acts_on a d i
| ActUpdate i data row d' : update_mission a i data d = Ok (row, d') -> acts_on a d i
| ActMove i q data m row d' : update_mission a i data d = Ok (row, d') -> tb_mission d !! i = Some m ->
    mu_parent_id data = Some (Some q) -> m_parent_id m <> Some q -> acts_on a d q
| ActDelegate data p row d' : create_mission a data d = Ok (row, d') -> mc_parent_id data = Some p -> acts_on a d p.

(** The missions within an agent's reach: those at or below the mission its assignment owns, in
    the project of its run, while its execution is live. *)
Definition within_reach (a : Actor) (d : DB) (i : uid) : Prop :=
  exists l asg owned m, live_execution a d = Ok (l, d) /\ tb_assignment d !! lx_assignment_id l = Some asg
    /\ owned_mission asg d = Ok (owned, d) /\ tb_mission d !! i = Some m
    /\ lx_project_id l = m_project_id m /\ (lx_role l = Maintainer \/ lx_role l = Worker) /\ rtc (climbs d) i owned.

Lemma authority_reach a i d m d' :
  require_mission_authority a i Worker d = Ok (m, d') -> is_agent a = true -> within_reach a d i.
Proof.
  intros H Ha. eapply require_mission_authority_Ok in H as (l & asg & owned & H); [|done].
  exists l, asg, owned, m. exact H.
Qed.

Lemma check_parent_reach a i old o data d o' d' q :
  check_parent a i old o data d = Ok (o', d') -> is_agent a = true -> tree (tb_mission d) ->
  mu_parent_id data = Some (Some q) -> m_parent_id old <> Some q -> within_reach a d q.
Proof.
  intros H Ha Ht Hq Hne. unfold check_parent, parent_changed in H. rewrite Hq in H.
  rewrite bool_decide_eq_false_2 in H by congruence. cbn [negb given_null] in H.
  apply bind_Ok in H as (? & d0 & Hx & H). apply read_only in Hx as ->; [|frame].
  apply bind_Ok in H as (? & d0 & Hx & H). apply read_only in Hx as ->; [|frame].
  apply bind_Ok in H as (p & ? & [-> Hp]%parent_for_child_Ok & H).
  apply bind_Ok in H as (? & ? & [Hx ->]%refuse_Ok & H). rewrite Ha in Hx.
  destruct p as [p|]; [|done]. destruct Hp as (j & [= ->] & Hj & _). pose proof (tr_ids _ Ht _ _ Hj) as <-.
  apply bind_Ok in H as (? & d1 & Hr & _). apply bind_Ok in Hr as (? & ? & Hr & _). by eapply authority_reach.
Qed.

Lemma check_mission_reach a data d ps d' p :
  check_mission a data d = Ok (ps, d') -> is_agent a = true -> tree (tb_mission d) ->
  mc_parent_id data = Some p -> within_reach a d p.
Proof.
  intros H Ha Ht Hp. unfold check_mission in H.
  apply bind_Ok in H as (? & ? & ->%require_project_reads & H).
  apply bind_Ok in H as (? & ? & [_ ->]%refuse_Ok & H).
  apply bind_Ok in H as (o & ? & [-> Ho]%parent_for_child_Ok & H).
  destruct o as [q|]; [|congruence]. destruct Ho as (j & E & Hj & _). pose proof (tr_ids _ Ht _ _ Hj) as <-.
  rewrite Hp in E. injection E as ->.
  apply bind_Ok in H as (? & d0 & Hx & H). apply read_only in Hx as ->; [|frame].
  apply bind_Ok in H as (? & d0 & Hx & H). apply read_only in Hx as ->; [|frame].
  apply bind_Ok in H as (? & d0 & Hx & H). apply read_only in Hx as ->; [|frame].
  apply bind_Ok in H as (? & ? & Hr & _). apply bind_Ok in Hr as (? & ? & Hr & _). by eapply authority_reach.
Qed.

Lemma acts_on_reach a d i : acts_on a d i -> is_agent a = true -> tree (tb_mission d) -> within_reach a d i.
Proof.
  intros [op i' e note row d' H|i' data row d' H|i' q data m row d' H Hm Hq Hne|data p row d' H Hp] Ha Ht.
  - unfold mission_decision in H.
    apply bind_Ok in H as (? & ? & [_ ->]%get_Ok & H).
    apply bind_Ok in H as (? & ? & ->%project_of_reads & H).
    apply bind_Ok in H as (? & ? & ->%require_project_reads & H).
    apply bind_Ok in H as (? & ? & [_ ->]%refuse_Ok & H).
    apply bind_Ok in H as (? & ? & [_ ->]%refuse_Ok & H).
    apply bind_Ok in H as (? & ? & Hx & H). by eapply authority_reach.
  - unfold update_mission in H.
    apply bind_Ok in H as (? & ? & [_ ->]%get_Ok & H).
    apply bind_Ok in H as (? & ? & ->%require_project_reads & H).
    apply bind_Ok in H as (? & ? & Hx & H). by eapply authority_reach.
  - unfold update_mission in H.
    apply bind_Ok in H as (old & ? & [Hold ->]%get_Ok & H).
    apply bind_Ok in H as (? & ? & ->%require_project_reads & H).
    apply bind_Ok in H as (? & ? & Hx & H). apply read_only in Hx as ->; [|frame].
    apply bind_Ok in H as (? & ? & [_ ->]%refuse_Ok & H).
    apply bind_Ok in H as (? & ? & [_ ->]%refuse_Ok & H).
    apply bind_Ok in H as (? & ? & ->%check_criteria_reads & H).
    apply bind_Ok in H as (o & ? & Hx & H). apply parent_row_Ok in Hx as (-> & _ & _); [|done].
    apply bind_Ok in H as (o' & ? & H & _). cbn in Hold. rewrite Hm in Hold. injection Hold as <-.
    by eapply check_parent_reach.
  - unfold create_mission in H. apply bind_Ok in H as (? & ? & H & _). by eapply check_mission_reach.
Qed.

Lemma sample_tree : tree_wf sample_db.
Proof.
  split.
  - cbn. apply tree_new; [apply tree_new| | | |]; try done; [apply (empty_tree 0)|].
    intros p [= <-]. eexists. split; [reflexivity|]. split; [by split|]. by vm_compute.
  - intros i. cbn. rewrite lookup_insert_is_Some'. intros [<-|[m [<- _]%lookup_singleton_Some]]; done.
Qed.

(** ** Properties *)

(** C1. The mission tree is an invariant: from a database whose tree is well formed, no sequence
    of mission creations, revisions, moves, completions, cancellations and reopenings makes a
    parent missing or from another project, closes a cycle, widens a child's scope, drops its
    criteria or handoff note, leaves an open child under a closed parent or exceeds a budget. *)
Theorem mission_tree_invariant d d' : tree_wf d -> rtc mission_step d d' -> tree_wf d'.
Proof. intros Hw H. by eapply mission_steps_tree. Qed.

Lemma mission_tree_invariant_witness :
  exists d', rtc mission_step sample_db d' /\ is_ok (mission_decision admin ReopenMission 4 2 "again" d') = true /\ tree_wf d'.
Proof.
  destruct (is_ok_true (mission_decision admin CompleteMission 4 1 "proved" sample_db)) as [[row d'] E]; [by vm_compute|].
  assert (rtc mission_step sample_db d') as Hs by (apply rtc_once; by eapply StepDecide).
  exists d'. split; [exact Hs|]. split; [|exact (mission_tree_invariant sample_db d' sample_tree Hs)].
  vm_compute in E. injection E as _ <-. by vm_compute.
Defined.

(** A completed or cancelled decision was allowed: the note is not blank, the revision is the
    one the caller saw, no descendant was open, a cancelled subtree had no live assignment, a
    reopened child has an open parent with budget; and the mission's row is the old one with the
    decision's status and its revision advanced by one. *)
Theorem mission_decision_allowed a op i e note d row d' :
  tree_wf d -> mission_decision a op i e note d = Ok (row, d') ->
  exists m, tb_mission d !! i = Some m /\ m_revision m = e /\ blank note = false /\ decision_allowed op i m d
    /\ row = touch (db_now d) (decided op (db_now d) note m) /\ m_revision row = e + 1
    /\ tb_mission d' !! i = Some row.
Proof.
  intros Hw (m & Hm & He & Hb & Hal & -> & Hrow & _)%mission_decision_spec; [|done].
  exists m. repeat (split; [done|]). split; [|done]. destruct op; cbn; lia.
Qed.

Lemma mission_decision_allowed_witness :
  exists row d', mission_decision agent CancelMission 4 1 "obsolete" sample_db = Ok (row, d')
    /\ m_revision row = 2 /\ m_status row = MissionCancelled.
Proof.
  destruct (is_ok_true (mission_decision agent CancelMission 4 1 "obsolete" sample_db)) as [[row d'] E]; [by vm_compute|].
  exists row, d'. split; [exact E|].
  destruct (mission_decision_allowed agent CancelMission 4 1 "obsolete" sample_db row d' sample_tree E)
    as (m & _ & _ & _ & _ & -> & H & _).
  split; [exact H|reflexivity].
Defined.

(** A revision is spent once: after a decision on a mission at revision [e] succeeds, no later
    decision or revision of that mission succeeds with the same expected revision. *)
Theorem mission_revision_spent a op i e note d row d1 d2 :
  tree_wf d -> mission_decision a op i e note d = Ok (row, d1) -> rtc mission_step d1 d2 ->
  (forall a' op' note', is_ok (mission_decision a' op' i e note' d2) = false)
  /\ (forall a' data, mu_expected_revision data = e -> is_ok (update_mission a' i data d2) = false).
Proof.
  intros Hw H Hs. pose proof H as (m & Hm & He & _ & _ & Erow & Hrow & Hw1)%mission_decision_spec; [|done].
  assert (m_revision row = e + 1) as Hrev by (rewrite Erow; destruct op; cbn; lia).
  destruct (mission_steps_grow _ _ Hs (proj2 Hw1)) as [_ Hg].
  destruct (Hg i row Hrow) as (m2 & Hm2 & Hle). pose proof (mission_steps_tree _ _ Hs Hw1) as Hw2. split.
  - intros a' op' note'. destruct (mission_decision a' op' i e note' d2) as [[r d3]|] eqn:E; [|done].
    apply mission_decision_spec in E as (m' & Hm' & He' & _); [|done]. rewrite Hm2 in Hm'. injection Hm' as <-. lia.
  - intros a' data Hd. destruct (update_mission a' i data d2) as [[r d3]|] eqn:E; [|done].
    apply update_mission_spec in E as (m' & Hm' & He' & _); [|done]. rewrite Hm2 in Hm'. injection Hm' as <-. lia.
Qed.

Lemma mission_revision_spent_witness :
  exists row d1, mission_decision admin CompleteMission 4 1 "proved" sample_db = Ok (row, d1)
    /\ is_ok (mission_decision admin ReopenMission 4 1 "again" d1) = false
    /\ is_ok (mission_decision admin ReopenMission 4 2 "again" d1) = true.
Proof.
  destruct (is_ok_true (mission_decision admin CompleteMission 4 1 "proved" sample_db)) as [[row d1] E]; [by vm_compute|].
  exists row, d1. split; [exact E|]. split.
  - apply (mission_revision_spent admin CompleteMission 4 1 "proved" sample_db row d1 d1 sample_tree E (rtc_refl _ _)).
  - vm_compute in E. injection E as _ <-. by vm_compute.
Defined.

(** An agent stays in its subtree: every mission that it completes, cancels, reopens, revises,
    moves a mission under or delegates from is, while its execution is live, at or below the
    mission that its assignment owns, in the project of its run. *)
Theorem agent_acts_within_reach a d i :
  tree_wf d -> is_agent a = true -> acts_on a d i -> within_reach a d i.
Proof. intros [Ht _] Ha H. by apply acts_on_reach. Qed.

Lemma agent_acts_within_reach_witness : acts_on agent sample_db 4 /\ within_reach agent sample_db 4.
Proof.
  assert (acts_on agent sample_db 4) as H.
  { destruct (is_ok_true (mission_decision agent CancelMission 4 1 "obsolete" sample_db)) as [[row d'] E];
      [by vm_compute|]. by eapply ActDecide. }
  split; [exact H|]. exact (agent_acts_within_reach agent sample_db 4 sample_tree eq_refl H).
Defined.
