(* ===== verification/Ledger.v ===== *)
(** * The obligation ledger

    The obligations of src/archon_horizon/pipeline/missions/service.py ([require_ledger_owner],
    [obligation], [resolve_obligation]) and the obligation branch of commands.py
    ([comment_obligation], [edit_obligation], [reopen_obligation]).  A resolution may hand an
    obligation to other assignments or replace it by other obligations; both graphs are checked
    for cycles over the whole project before a resolution is written. *)

From S2P Require Import Prelude Contracts Graph Schema Records Auth Samples MissionTree Missions.

(** The project of a record that always has one. *)
Definition scoped (k : kind) (i : uid) : M uid :=
  p ← project_of k i;
  match p with
  | Some q => mret q
  | None => throw (RuntimeFailure "project")
  end.

(** ** Authority *)

Definition require_ledger_owner (actor : Actor) (assignment : uid) (allow_settled : bool) : M unit :=
  p ← scoped Kassignment assignment;
  require_project actor p WorkerGrant ;;
  if is_agent actor then
    l ← live_execution actor;
    if bool_decide (lx_assignment_id l = assignment) then mret tt
    else
      settled ← (if allow_settled then a ← get assignment; mret (terminal_assignment a) else mret false);
      if (settled : bool) then require_project actor p MaintainerGrant
      else throw (DomainError "forbidden" 403)
  else mret tt.

(** ** Recording *)

Definition obligation_fields : list string := ["assignment_id"; "created_by_execution_id"; "kind"; "description"].

Definition new_obligation (data : ObligationCreate) (by_ : option uid) (n : Z) (i : uid) (now : instant) : obligation :=
  {| o_id := i; o_created_at := now; o_updated_at := now; o_revision := 1;
     o_assignment_id := oc_assignment_id data; o_created_by_execution_id := by_; o_comments := [];
     o_number := n; o_kind := oc_kind data; o_description := oc_description data; o_status := ObOpen;
     o_resolution := None |}.

Definition create_obligation (actor : Actor) (data : ObligationCreate) : M obligation :=
  require_ledger_owner actor (oc_assignment_id data) false ;;
  a ← (get (oc_assignment_id data) : M assignment);
  refuse (terminal_assignment a) "assignment_settled" 409 ;;
  by_ ← (if is_agent actor then l ← live_execution actor; mret (Some (x_id (lx_execution l)))
         else match oc_created_by_execution_id data with
              | None => mret None
              | Some x =>
                  e ← get x;
                  refuse (negb (bool_decide (x_assignment_id e = oc_assignment_id data))) "scope_mismatch" 422 ;;
                  mret (Some x)
              end);
  n ← next_number o_number (fun o => bool_decide (o_assignment_id o = oc_assignment_id data));
  row ← create (new_obligation data by_ n);
  p ← scoped Kassignment (oc_assignment_id data);
  _ ← emit (Some (actor_id actor)) (Some p) (obligation_subject row) obligation_fields None None None;
  mret row.

(** ** Dependencies

    The two graphs that a resolution extends: [edges] between assignments and [supersessions]
    between obligations. *)

(** [edges.setdefault(k, set()).update(vs)] on the items of a dict. *)
Fixpoint add_edges (k : uid) (vs : list uid) (edges : list (uid * list uid)) : list (uid * list uid) :=
  match edges with
  | [] => [(k, remove_dups vs)]
  | (k', ws) :: edges => if bool_decide (k' = k) then (k', remove_dups (ws ++ vs)) :: edges
                         else (k', ws) :: add_edges k vs edges
  end.

(** Whether the row of an obligation is joined to a mission of the project. *)
Definition owned_in (d : DB) (p : uid) (o : obligation) : bool :=
  match (a ← tb_assignment d !! o_assignment_id o; tb_mission d !! a_mission_id a) with
  | Some m => bool_decide (m_project_id m = p)
  | None => false
  end.

Definition dependent_kind (r : option Resolution) : bool :=
  match r with
  | Some (Delegated _ _) | Some (Scheduled _ _) | Some (Reconsider _ _ _) | Some (Superseded _ _) => true
  | _ => false
  end.

Definition is_related (d : DB) (p i : uid) (o : obligation) : bool :=
  owned_in d p o && (bool_decide (o_id o = i) || dependent_kind (o_resolution o)).

(** The resolution that counts for a row while [i] is being resolved by [r]. *)
Definition current_resolution (i : uid) (r : Resolution) (o : obligation) : option Resolution :=
  if bool_decide (o_id o = i) then Some r else o_resolution o.

Definition targets_of (r : option Resolution) : list uid :=
  match r with Some r => resolution_targets r | None => [] end.

Definition replacements_of (r : option Resolution) : list uid :=
  match r with Some r => resolution_replacements r | None => [] end.

Definition delegations (cur : obligation -> option Resolution) (rows : list obligation) : list (uid * list uid) :=
  List.fold_left (fun edges o => add_edges (o_assignment_id o) (targets_of (cur o)) edges) rows [].

Definition supersessions (cur : obligation -> option Resolution) (rows : list obligation) : list (uid * list uid) :=
  map (fun o => (o_id o, remove_dups (replacements_of (cur o)))) rows.

(** ** Resolving *)

Definition audits (i : uid) (rc : run_coordination) : bool := bool_decide (rc_audit_obligation_id rc = Some i).

Definition is_completed (r : Resolution) : bool := match r with Completed _ _ => true | _ => false end.
Definition is_scheduled (r : Resolution) : bool := match r with Scheduled _ _ => true | _ => false end.
Definition is_superseded (r : Resolution) : bool := match r with Superseded _ _ => true | _ => false end.

Definition check_recovery (recovery : bool) (r : Resolution) : M unit :=
  refuse (recovery && is_completed r && bool_decide (resolution_evidence r = [])) "coordination_evidence_required" 422 ;;
  refuse (recovery && is_superseded r && bool_decide (resolution_replacements r = [])) "coordination_owner_required" 422.

Definition check_target (recovery : bool) (r : Resolution) (project own target : uid) : M unit :=
  owner ← (same_project Kassignment target project : M assignment);
  refuse (bool_decide (a_id owner = own)) "self_delegation" 422 ;;
  refuse (mem (a_status owner) [Failed; Cancelled]) "unavailable_owner" 422 ;;
  refuse (recovery && bool_decide (a_status owner = Completed_)) "unavailable_owner" 422 ;;
  refuse (is_scheduled r && negb (bool_decide (a_status owner = Pending))) "invalid_schedule" 422.

Definition check_replacement (project i replacement : uid) : M unit :=
  other ← (same_project Kobligation replacement project : M obligation);
  refuse (bool_decide (o_id other = i)) "self_delegation" 422.

Definition check_evidence (project : uid) (e : ObjectRef) : M unit :=
  match e with
  | StoredRef r => in_project (ref_kind r) (ref_id r) project
  | PathRef _ repository _ => in_project Krepository repository project
  end.

Definition resolve_obligation (actor : Actor) (i : uid) (data : ObligationResolve) : M obligation :=
  old ← get i;
  require_ledger_owner actor (o_assignment_id old) true ;;
  p ← scoped Kassignment (o_assignment_id old);
  let r := or_resolution data in
  recovery ← ask (fun d => existsb (audits i) (map snd (map_to_list (tb_run_coordination d))));
  check_recovery recovery r ;;
  for_each (check_target recovery r p (o_assignment_id old)) (resolution_targets r) ;;
  for_each (check_replacement p i) (resolution_replacements r) ;;
  for_each (check_evidence p) (resolution_evidence r) ;;
  d ← ask id;
  rows ← select (is_related d p i);
  lift (reject_cycle (delegations (current_resolution i r) rows)) ;;
  lift (reject_cycle (supersessions (current_resolution i r) rows)) ;;
  row ← change i (Some (or_expected_revision data))
               (fun o => o <| o_status := or_status data |> <| o_resolution := Some r |>);
  _ ← emit (Some (actor_id actor)) (Some p) (obligation_subject row) ["status"; "resolution"]
        (Some (obligation_status_str (o_status old))) None None;
  mret row.

(** ** Commands on an obligation *)

Inductive ledger_command : Type :=
| CommentObligation (note : string)
| EditObligation (description : string) (k : option obligation_kind)
| ReopenObligation (note : string).

(** The argument contracts [LedgerComment], [EditObligation] and [Note]. *)
Definition ledger_args_valid (c : ledger_command) : bool :=
  match c with
  | CommentObligation note => nonblank note && (Z.of_nat (String.length note) <=? 8000)
  | EditObligation description _ => nonblank description
  | ReopenObligation _ => true
  end.

Definition ledger_args (c : ledger_command) : list string :=
  match c with
  | CommentObligation _ | ReopenObligation _ => ["note"]
  | EditObligation _ None => ["description"]
  | EditObligation _ (Some _) => ["description"; "kind"]
  end.

Definition ledger_note (c : ledger_command) : option string :=
  match c with CommentObligation n | ReopenObligation n => Some n | EditObligation _ _ => None end.

Definition amend_obligation (actor : Actor) (c : ledger_command) (i : uid) (expected : Z) (old : obligation) : M obligation :=
  match c with
  | CommentObligation note =>
      refuse (128 <=? Z.of_nat (List.length (o_comments old))) "comment_limit" 409 ;;
      now ← ask db_clock;
      change i (Some expected) (fun o => o <| o_comments := o_comments old ++
        [{| cm_author := actor_id actor; cm_markdown := note; cm_created_at := now |}] |>)
  | EditObligation description k =>
      refuse (negb (bool_decide (o_status old = ObOpen))) "obligation_settled" 409 ;;
      change i (Some expected) (fun o => o <| o_description := description |> <| o_kind := default (o_kind old) k |>)
  | ReopenObligation note =>
      refuse (blank note) "missing_note" 422 ;;
      change i (Some expected) (fun o => o <| o_status := ObOpen |> <| o_resolution := None |>)
  end.

Definition obligation_command (actor : Actor) (c : ledger_command) (i : uid) (expected : Z) : M obligation :=
  refuse (negb (ledger_args_valid c)) "invalid_arguments" 422 ;;
  old ← get i;
  p ← scoped Kobligation i;
  require_project actor p WorkerGrant ;;
  refuse (negb (o_revision old =? expected)) "revision_conflict" 409 ;;
  require_ledger_owner actor (o_assignment_id old) false ;;
  row ← amend_obligation actor c i expected old;
  _ ← emit (Some (actor_id actor)) (Some p) (obligation_subject row) (ledger_args c)
        (if bool_decide (o_status row = o_status old) then None else Some (obligation_status_str (o_status old)))
        None (ledger_note c);
  mret row.

(** ** The graphs of the ledger *)

(** [owes d p x y]: in project [p], an obligation of assignment [x] is handed to [y]. *)
Definition owes (d : DB) (p x y : uid) : Prop :=
  exists i o, tb_obligation d !! i = Some o /\ owned_in d p o = true /\ o_assignment_id o = x
    /\ y ∈ targets_of (o_resolution o).

(** [replaced d p x y]: in project [p], obligation [x] is replaced by [y]. *)
Definition replaced (d : DB) (p x y : uid) : Prop :=
  exists o, tb_obligation d !! x = Some o /\ owned_in d p o = true /\ y ∈ replacements_of (o_resolution o).

Definition irreflexive {A} (R : relation A) : Prop := forall x, ~ tc R x x.

(** The project of an assignment, through its run. *)
Definition assignment_project (d : DB) (i : uid) : option uid :=
  a ← tb_assignment d !! i; r ← tb_run d !! a_run_id a; m ← tb_mission d !! r_mission_id r; Some (m_project_id m).

(** No project's work is handed round in a circle. *)
Record ledger_wf (d : DB) : Prop := {
  lw_ids : forall i o, tb_obligation d !! i = Some o -> o_id o = i;
  lw_projects : forall i a, tb_assignment d !! i = Some a ->
    exists m, tb_mission d !! a_mission_id a = Some m /\ assignment_project d i = Some (m_project_id m);
  lw_owes : forall p, irreflexive (owes d p);
  lw_replaced : forall p, irreflexive (replaced d p) }.

Lemma elem_of_remove_dups_app {A} `{EqDecision A} (x : A) l k : x ∈ remove_dups (l ++ k) <-> x ∈ l \/ x ∈ k.
Proof. by rewrite elem_of_remove_dups, elem_of_app. Qed.

Lemma add_edges_spec k vs edges x y :
  edge (add_edges k vs edges) x y <-> edge edges x y \/ (x = k /\ y ∈ vs).
Proof.
  unfold edge, successors. induction edges as [|[k' ws] edges IH]; cbn.
  - case_bool_decide as E; cbn; rewrite ?elem_of_remove_dups, ?elem_of_nil; naive_solver.
  - destruct (bool_decide (k' = k)) eqn:Ek; cbn; bools; subst.
    + destruct (bool_decide (k = x)) eqn:Ex; cbn; bools; subst; [rewrite elem_of_remove_dups_app|]; naive_solver.
    + destruct (bool_decide (k' = x)) eqn:Ex; cbn; bools; subst; [naive_solver|]. apply IH.
Qed.

Lemma delegations_edge cur rows x y :
  edge (delegations cur rows) x y <-> exists o, o ∈ rows /\ o_assignment_id o = x /\ y ∈ targets_of (cur o).
Proof.
  unfold delegations.
  assert (forall acc, edge (List.fold_left (fun e o => add_edges (o_assignment_id o) (targets_of (cur o)) e) rows acc) x y
    <-> edge acc x y \/ exists o, o ∈ rows /\ o_assignment_id o = x /\ y ∈ targets_of (cur o)) as H.
  { induction rows as [|o rows IH]; intros acc; cbn; [set_solver|].
    rewrite IH, add_edges_spec. setoid_rewrite elem_of_cons. naive_solver. }
  rewrite H. unfold edge, successors. cbn. set_solver.
Qed.

Lemma supersessions_edge cur rows x y :
  (forall o o', o ∈ rows -> o' ∈ rows -> o_id o = o_id o' -> o = o') ->
  edge (supersessions cur rows) x y <-> exists o, o ∈ rows /\ o_id o = x /\ y ∈ replacements_of (cur o).
Proof.
  unfold edge, successors, supersessions. intros Hinj.
  destruct (List.find _ _) as [[k v]|] eqn:E.
  - apply find_some in E as [Hin Hk]. cbn in Hk. bools. subst k.
    apply in_map_iff in Hin as (o & [= <- <-] & Ho%list_elem_of_In). cbn. rewrite elem_of_remove_dups.
    split; [eauto|]. intros (o' & Ho' & Hx & Hy). by rewrite (Hinj o o' Ho Ho' (eq_sym Hx)).
  - split; [set_solver|]. intros (o & Ho & <- & Hy). exfalso.
    eapply find_none in E; [|apply in_map_iff; exists o; split; [done|]; by apply list_elem_of_In].
    cbn in E. by rewrite bool_decide_eq_true_2 in E.
Qed.

Lemma scoped_assignment_Ok i d p d' :
  scoped Kassignment i d = Ok (p, d') -> assignment_project d i = Some p /\ d' = d.
Proof.
  unfold scoped, assignment_project. cbn. unfold project_of_assignment, project_of_run, project_of_mission.
  intros H. m_inv. repeat match goal with E : rows _ !! _ = Some _ |- _ => cbn in E; rewrite E; clear E; cbn end.
  subst. by m_inv; subst.
Qed.

Lemma keeps_scoped R `{!PreOrder R} k i : Keeps R (scoped k i).
Proof. unfold scoped. frame. Qed.
#[export] Hint Resolve keeps_scoped : frame.

Lemma keeps_require_ledger_owner R `{!PreOrder R} a i b : Keeps R (require_ledger_owner a i b).
Proof. unfold require_ledger_owner. frame. Qed.
#[export] Hint Resolve keeps_require_ledger_owner : frame.

Lemma keeps_check_evidence R `{!PreOrder R} p e : Keeps R (check_evidence p e).
Proof. unfold check_evidence. frame. Qed.
#[export] Hint Resolve keeps_check_evidence : frame.

(** ** Effects *)

(** The tables that the ledger reads. *)
Definition ledger_part (d : DB) := (tb_obligation d, tb_assignment d, tb_run d, tb_mission d).

Definition ledger_puts (i : uid) (o : obligation) (d d' : DB) : Prop :=
  ledger_part d' = (<[i := o]> (tb_obligation d), tb_assignment d, tb_run d, tb_mission d).

Ltac untouched H :=
  lazymatch type of H with
  | ?m _ = Ok _ => let K := fresh in assert (Frame ledger_part m) as K by frame; apply K in H; clear K
  end.

Lemma change_ledger i e (f : obligation -> obligation) d row d' :
  change i e f d = Ok (row, d') ->
  exists o, tb_obligation d !! i = Some o /\ row = touch (db_now d) (f o) /\ ledger_puts i row d d'.
Proof. intros (o & Ho & _ & -> & ->)%change_Ok. by exists o. Qed.

(** What a successful resolution has checked and written. *)
Lemma resolve_obligation_spec a i data d row d' :
  resolve_obligation a i data d = Ok (row, d') ->
  exists o p, tb_obligation d !! i = Some o /\ assignment_project d (o_assignment_id o) = Some p
    /\ acyclic (delegations (current_resolution i (or_resolution data))
                  (List.filter (is_related d p i) (map snd (map_to_list (tb_obligation d)))))
    /\ acyclic (supersessions (current_resolution i (or_resolution data))
                  (List.filter (is_related d p i) (map snd (map_to_list (tb_obligation d)))))
    /\ row = touch (db_now d) (o <| o_status := or_status data |> <| o_resolution := Some (or_resolution data) |>)
    /\ ledger_puts i row d d'.
Proof.
  unfold resolve_obligation. intros H.
  apply bind_Ok in H as (o & ? & [Ho ->]%get_Ok & H). cbn in Ho.
  apply bind_Ok in H as (? & d1 & Hx & H). apply read_only in Hx as ->; [|frame].
  apply bind_Ok in H as (p & ? & [Hp ->]%scoped_assignment_Ok & H).
  apply bind_Ok in H as (rec & ? & [_ ->]%ask_Ok & H).
  apply bind_Ok in H as (? & d1 & Hx & H). apply read_only in Hx as ->; [|unfold check_recovery; frame].
  apply bind_Ok in H as (? & d1 & Hx & H). apply read_only in Hx as ->; [|unfold check_target; frame].
  apply bind_Ok in H as (? & d1 & Hx & H). apply read_only in Hx as ->; [|unfold check_replacement; frame].
  apply bind_Ok in H as (? & d1 & Hx & H). apply read_only in Hx as ->; [|frame].
  apply bind_Ok in H as (? & ? & [-> ->]%ask_Ok & H).
  apply bind_Ok in H as (rows & ? & [-> ->]%select_Ok & H).
  apply bind_Ok in H as (u1 & ? & [Hc1 ->]%lift_Ok & H).
  apply bind_Ok in H as (u2 & ? & [Hc2 ->]%lift_Ok & H).
  apply bind_Ok in H as (row' & d1 & Hch & H).
  apply bind_Ok in H as (? & d2 & Hq & [-> ->]%ret_Ok). untouched Hq.
  apply change_ledger in Hch as (o' & Ho' & Erow & Hput). rewrite Ho in Ho'. injection Ho' as <-.
  exists o, p. split; [done|]. split; [done|].
  destruct (reject_cycle_spec (delegations (current_resolution i (or_resolution data))
    (List.filter (is_related d p i) (map snd (map_to_list (tb_obligation d)))))) as [[_ Ha]|[E _]];
    [|cbn in Hc1; unfold id in Hc1; congruence].
  destruct (reject_cycle_spec (supersessions (current_resolution i (or_resolution data))
    (List.filter (is_related d p i) (map snd (map_to_list (tb_obligation d)))))) as [[_ Hb]|[E _]];
    [|cbn in Hc2; unfold id in Hc2; congruence].
  split; [done|]. split; [done|]. split; [exact Erow|].
  unfold ledger_puts in *. by rewrite Hq.
Qed.

(** ** The invariant *)

(** [owned_in] and [assignment_project] read only the tables the ledger leaves alone. *)
Lemma owned_in_part d d' p o :
  tb_assignment d' = tb_assignment d -> tb_mission d' = tb_mission d -> owned_in d' p o = owned_in d p o.
Proof. intros Ha Hm. unfold owned_in. by rewrite Ha, Hm. Qed.

Lemma owned_in_assignment d p o o' : o_assignment_id o' = o_assignment_id o -> owned_in d p o' = owned_in d p o.
Proof. unfold owned_in. by intros ->. Qed.

Lemma owned_in_project d p q o :
  ledger_wf d -> assignment_project d (o_assignment_id o) = Some p -> (owned_in d q o = true <-> p = q).
Proof.
  intros Hw Hp. unfold owned_in. unfold assignment_project in Hp.
  destruct (tb_assignment d !! o_assignment_id o) as [a|] eqn:Ea; [|done].
  destruct (lw_projects d Hw _ _ Ea) as (m & Hm & Hm'). unfold assignment_project in Hm'. rewrite Ea in Hm'.
  cbn in Hp, Hm' |- *. rewrite Hm. rewrite Hp in Hm'. injection Hm' as ->. by rewrite bool_decide_eq_true.
Qed.

Lemma irreflexive_sub {A} (R S : relation A) : (forall x y, S x y -> R x y) -> irreflexive R -> irreflexive S.
Proof.
  intros Hsub Hr x Hx. apply (Hr x). clear Hr. revert Hx. generalize x at 2 4 as y. intros y.
  induction 1 as [x y H|x y z H _ IH]; [by apply tc_once, Hsub|]. eapply tc_l; [by apply Hsub|done].
Qed.

Lemma elem_of_obligations f d o :
  o ∈ List.filter f (map snd (map_to_list (tb_obligation d))) <-> f o = true /\ exists i, tb_obligation d !! i = Some o.
Proof. exact (elem_of_select f d o). Qed.

Lemma targets_dependent r y : y ∈ targets_of r -> dependent_kind r = true.
Proof. destruct r as [[]|]; cbn; done || by intros ?%elem_of_nil. Qed.

Lemma replacements_dependent r y : y ∈ replacements_of r -> dependent_kind r = true.
Proof. destruct r as [[]|]; cbn; done || by intros ?%elem_of_nil. Qed.

(** A row put at [i] that keeps its owner, with both graphs still acyclic in its project. *)
Lemma ledger_put d d' i o' p :
  ledger_wf d -> ledger_puts i o' d d' -> o_id o' = i ->
  (forall q, q <> p -> owned_in d q o' = false) ->
  irreflexive (owes d' p) -> irreflexive (replaced d' p) -> ledger_wf d'.
Proof.
  intros Hw Hput Hid Hown Hd Hs. unfold ledger_puts, ledger_part in Hput. injection Hput as Eo Ea Er Em.
  assert (forall q o, owned_in d' q o = owned_in d q o) as Hoi by (intros; by apply owned_in_part).
  split.
  - intros j o. rewrite Eo. intros [[<- <-]|[_ ?]]%lookup_insert_Some; [done|]. by apply (lw_ids d Hw).
  - intros j a. unfold assignment_project. rewrite Ea, Er, Em. apply (lw_projects d Hw).
  - intros q. destruct (decide (q = p)) as [->|Hq]; [done|].
    eapply irreflexive_sub; [|apply (lw_owes d Hw q)].
    intros x y (j & o & Hj & Ho & Hx & Hy). rewrite Hoi in Ho. rewrite Eo in Hj.
    apply lookup_insert_Some in Hj as [[<- <-]|[_ Hj]]; [by rewrite Hown in Ho|]. by exists j, o.
  - intros q. destruct (decide (q = p)) as [->|Hq]; [done|].
    eapply irreflexive_sub; [|apply (lw_replaced d Hw q)].
    intros x y (o & Hj & Ho & Hy). rewrite Hoi in Ho. rewrite Eo in Hj.
    apply lookup_insert_Some in Hj as [[<- <-]|[_ Hj]]; [by rewrite Hown in Ho|]. by exists o.
Qed.

(** The rows that the checks of [resolve_obligation] see, after the write. *)
Lemma related_after d d' i o' p r j o :
  ledger_wf d -> ledger_puts i o' d d' -> o_id o' = i -> o_resolution o' = Some r ->
  tb_obligation d !! i <> None -> tb_obligation d' !! j = Some o -> owned_in d' p o = true ->
  (forall old, tb_obligation d !! i = Some old -> o_assignment_id o' = o_assignment_id old) ->
  dependent_kind (o_resolution o) = true ->
  exists o0, o0 ∈ List.filter (is_related d p i) (map snd (map_to_list (tb_obligation d)))
    /\ o_assignment_id o0 = o_assignment_id o /\ o_id o0 = j /\ current_resolution i r o0 = o_resolution o.
Proof.
  intros Hw Hput Hid Hres Hsome Hj Ho Hsame Hdep. unfold ledger_puts, ledger_part in Hput. injection Hput as Eo Ea Er Em.
  rewrite (owned_in_part d d') in Ho by done. rewrite Eo in Hj.
  apply lookup_insert_Some in Hj as [[<- <-]|[Hne Hj]].
  - destruct (tb_obligation d !! i) as [old|] eqn:E; [|done]. exists old. specialize (Hsame old eq_refl).
    rewrite (owned_in_assignment d p old o') in Ho by done.
    pose proof (lw_ids d Hw i old E) as Hidold. split; [|split; [done|split; [done|]]].
    + apply elem_of_obligations. unfold is_related. rewrite Ho, bool_decide_eq_true_2 by done. eauto.
    + unfold current_resolution. by rewrite bool_decide_eq_true_2.
  - pose proof (lw_ids d Hw j o Hj) as Hidj. exists o. split; [|split; [done|split; [done|]]].
    + apply elem_of_obligations. unfold is_related. rewrite Ho, Hdep, orb_true_r. eauto.
    + unfold current_resolution. rewrite bool_decide_eq_false_2; [done|]. congruence.
Qed.

Lemma resolve_obligation_wf a i data d row d' :
  resolve_obligation a i data d = Ok (row, d') -> ledger_wf d -> ledger_wf d'.
Proof.
  intros (o & p & Ho & Hp & Hd & Hs & Erow & Hput)%resolve_obligation_spec Hw.
  assert (o_id row = i) as Hid by (rewrite Erow; apply (lw_ids d Hw i o Ho)).
  assert (o_assignment_id row = o_assignment_id o) as Has by by rewrite Erow.
  assert (o_resolution row = Some (or_resolution data)) as Hres by by rewrite Erow.
  assert (forall j oj, tb_obligation d' !! j = Some oj -> owned_in d' p oj = true ->
    dependent_kind (o_resolution oj) = true -> exists o0,
    o0 ∈ List.filter (is_related d p i) (map snd (map_to_list (tb_obligation d)))
    /\ o_assignment_id o0 = o_assignment_id oj /\ o_id o0 = j
    /\ current_resolution i (or_resolution data) o0 = o_resolution oj) as Hrel.
  { intros j oj Hj Hoj Hdep. eapply related_after; try done; [by rewrite Ho|].
    intros old Hold. congruence. }
  clear Erow. eapply (ledger_put d d' i row p); [done|done|done| | |].
  - intros q Hq. apply not_true_iff_false. rewrite (owned_in_assignment d q o row) by done.
    rewrite (owned_in_project d p q o) by done. congruence.
  - eapply irreflexive_sub; [|exact Hd]. intros x y (j & oj & Hj & Hoj & <- & Hy).
    destruct (Hrel j oj Hj Hoj (targets_dependent _ _ Hy)) as (o0 & Hin & Ha & _ & Hc).
    apply delegations_edge. exists o0. split; [done|]. split; [done|]. by rewrite Hc.
  - eapply irreflexive_sub; [|exact Hs]. intros x y (oj & Hj & Hoj & Hy).
    destruct (Hrel x oj Hj Hoj (replacements_dependent _ _ Hy)) as (o0 & Hin & _ & Hi & Hc).
    apply supersessions_edge; [|exists o0; split; [done|]; split; [done|]; by rewrite Hc].
    intros o1 o2 [_ [j1 H1]]%elem_of_obligations [_ [j2 H2]]%elem_of_obligations E.
    cbn in H1, H2. rewrite (lw_ids d Hw _ _ H1), (lw_ids d Hw _ _ H2) in E. subst j2. congruence.
Qed.

(** A row that hands over nothing new. *)
Lemma ledger_put_less d d' i o' :
  ledger_wf d -> ledger_puts i o' d d' -> o_id o' = i ->
  (o_resolution o' = None \/ exists old, tb_obligation d !! i = Some old
     /\ o_assignment_id o' = o_assignment_id old /\ o_resolution o' = o_resolution old) ->
  ledger_wf d'.
Proof.
  intros Hw Hput Hid Hless. unfold ledger_puts, ledger_part in Hput. injection Hput as Eo Ea Er Em.
  assert (forall q o, owned_in d' q o = owned_in d q o) as Hoi by (intros; by apply owned_in_part).
  assert (forall j o q, tb_obligation d' !! j = Some o -> owned_in d' q o = true -> dependent_kind (o_resolution o) = true ->
    exists o0, tb_obligation d !! j = Some o0 /\ owned_in d q o0 = true /\ o_assignment_id o0 = o_assignment_id o
      /\ o_resolution o0 = o_resolution o) as Hback.
  { intros j o q Hj Ho Hdep. rewrite Hoi in Ho. rewrite Eo in Hj.
    apply lookup_insert_Some in Hj as [[<- <-]|[_ Hj]]; [|by exists o].
    destruct Hless as [E|(old & Hold & Ha & Hr)]; [by rewrite E in Hdep|].
    exists old. rewrite <- (owned_in_assignment d q old o') by done. by repeat split. }
  split.
  - intros j o. rewrite Eo. intros [[<- <-]|[_ ?]]%lookup_insert_Some; [done|]. by apply (lw_ids d Hw).
  - intros j a. unfold assignment_project. rewrite Ea, Er, Em. apply (lw_projects d Hw).
  - intros q. eapply irreflexive_sub; [|apply (lw_owes d Hw q)].
    intros x y (j & o & Hj & Ho & <- & Hy).
    destruct (Hback j o q Hj Ho (targets_dependent _ _ Hy)) as (o0 & ? & ? & ? & Er0). exists j, o0. by rewrite Er0.
  - intros q. eapply irreflexive_sub; [|apply (lw_replaced d Hw q)].
    intros x y (o & Hj & Ho & Hy).
    destruct (Hback x o q Hj Ho (replacements_dependent _ _ Hy)) as (o0 & ? & ? & ? & Er0). exists o0. by rewrite Er0.
Qed.

Lemma ledger_part_wf d d' : ledger_part d' = ledger_part d -> ledger_wf d -> ledger_wf d'.
Proof.
  unfold ledger_part. intros [= Eo Ea Er Em] [H1 H2 H3 H4].
  assert (forall q o, owned_in d' q o = owned_in d q o) as Hoi by (intros; by apply owned_in_part).
  split; unfold assignment_project, owes, replaced; rewrite ?Eo, ?Ea, ?Er, ?Em; [done|done| |].
  - intros q. eapply irreflexive_sub; [|apply (H3 q)]. intros x y (j & o & ? & Ho & ? & ?). exists j, o. by rewrite <- Hoi.
  - intros q. eapply irreflexive_sub; [|apply (H4 q)]. intros x y (o & ? & Ho & ?). exists o. by rewrite <- Hoi.
Qed.

Lemma ledger_puts_quiet i o d d1 d' : ledger_puts i o d d1 -> ledger_part d' = ledger_part d1 -> ledger_puts i o d d'.
Proof. unfold ledger_puts. congruence. Qed.

Lemma obligation_command_wf a c i e d row d' :
  obligation_command a c i e d = Ok (row, d') -> ledger_wf d -> ledger_wf d'.
Proof.
  unfold obligation_command. intros H Hw.
  apply bind_Ok in H as (? & ? & [_ ->]%refuse_Ok & H).
  apply bind_Ok in H as (o & ? & [Ho ->]%get_Ok & H). cbn in Ho.
  apply bind_Ok in H as (p & d1 & Hx & H). apply read_only in Hx as ->; [|frame].
  apply bind_Ok in H as (? & ? & ->%require_project_reads & H).
  apply bind_Ok in H as (? & ? & [_ ->]%refuse_Ok & H).
  apply bind_Ok in H as (? & d1 & Hx & H). apply read_only in Hx as ->; [|frame].
  apply bind_Ok in H as (row' & d1 & Ham & H).
  apply bind_Ok in H as (? & d2 & Hq & [-> ->]%ret_Ok). untouched Hq.
  assert (exists f, change i (Some e) f d = Ok (row', d1) /\ o_id (f o) = o_id o
    /\ (o_resolution (f o) = None \/ (o_assignment_id (f o) = o_assignment_id o /\ o_resolution (f o) = o_resolution o)))
    as (f & Hch & Hf1 & Hf2).
  { unfold amend_obligation in Ham. destruct c; apply bind_Ok in Ham as (? & ? & [_ ->]%refuse_Ok & Ham).
    - apply bind_Ok in Ham as (? & ? & [-> ->]%ask_Ok & Ham). eexists. split; [exact Ham|]. cbn. auto.
    - eexists. split; [exact Ham|]. cbn. auto.
    - eexists. split; [exact Ham|]. cbn. auto. }
  apply change_ledger in Hch as (o' & Ho' & -> & Hput). rewrite Ho in Ho'. injection Ho' as <-.
  eapply ledger_put_less; [done|by eapply ledger_puts_quiet| |].
  - cbn. rewrite Hf1. by apply (lw_ids d Hw).
  - cbn. destruct Hf2 as [?|[? ?]]; [by left|]. right. by exists o.
Qed.

Lemma create_obligation_wf a data d row d' :
  create_obligation a data d = Ok (row, d') -> ledger_wf d -> ledger_wf d'.
Proof.
  unfold create_obligation. intros H Hw.
  apply bind_Ok in H as (? & d1 & Hx & H). apply read_only in Hx as ->; [|frame].
  apply bind_Ok in H as (asg & ? & [_ ->]%get_Ok & H).
  apply bind_Ok in H as (? & ? & [_ ->]%refuse_Ok & H).
  apply bind_Ok in H as (by_ & d1 & Hx & H). apply read_only in Hx as ->; [|frame].
  apply bind_Ok in H as (n & d1 & Hx & H). apply read_only in Hx as ->; [|frame].
  apply bind_Ok in H as (row' & d1 & Hcr & H).
  assert (ledger_puts (db_next d) row' d d1 /\ row' = new_obligation data by_ n (db_next d) (db_now d)) as [Hput Erow].
  { cbn in Hcr. injection Hcr as <- <-. by split. }
  apply bind_Ok in H as (? & d2 & Hx & H). apply read_only in Hx as ->; [|frame].
  apply bind_Ok in H as (? & d2 & Hq & [-> ->]%ret_Ok). untouched Hq.
  eapply ledger_put_less; [done|by eapply ledger_puts_quiet|by rewrite Erow|]. left. by rewrite Erow.
Qed.

(** One transaction at a time: the ledger's operations, and any other transaction, which leaves
    the ledger's tables as they are. *)
Inductive ledger_step : relation DB :=
| LedgerCreate a data d row d' : create_obligation a data d = Ok (row, d') -> ledger_step d d'
| LedgerResolve a i data d row d' : resolve_obligation a i data d = Ok (row, d') -> ledger_step d d'
| LedgerAmend a c i e d row d' : obligation_command a c i e d = Ok (row, d') -> ledger_step d d'
| LedgerOther d d' : ledger_part d' = ledger_part d -> ledger_step d d'.

Lemma ledger_step_wf d d' : ledger_step d d' -> ledger_wf d -> ledger_wf d'.
Proof.
  intros []; eauto using create_obligation_wf, resolve_obligation_wf, obligation_command_wf, ledger_part_wf.
Qed.

(** ** Properties *)

(** C5. Responsibility never goes round in a circle: over any sequence of recorded, resolved,
    commented, edited and reopened obligations, in every project the relation between assignments
    that handed work to each other and the relation between obligations that replaced each other
    stay acyclic. *)
Theorem ledger_stays_acyclic d d' :
  ledger_wf d -> rtc ledger_step d d' ->
  forall p, (forall x, ~ tc (owes d' p) x x) /\ (forall x, ~ tc (replaced d' p) x x).
Proof.
  intros Hw Hs. assert (ledger_wf d') as Hw'.
  { induction Hs as [|d1 d2 d3 H _ IH]; [done|]. by apply IH, (ledger_step_wf d1). }
  intros p. split; [apply (lw_owes d' Hw' p)|apply (lw_replaced d' Hw' p)].
Qed.

Definition sample_obligation (i a : uid) : obligation :=
  new_obligation {| oc_assignment_id := a; oc_created_by_execution_id := None; oc_kind := Deliverable;
                    oc_description := "Prove the lemma" |} None 1 i 0.

Definition ledger_db : DB :=
  sample_db <| tb_assignment := <[9%positive := sample_assignment 9 5 4 Pending]> (tb_assignment sample_db) |>
            <| tb_obligation := <[21%positive := sample_obligation 21 9]> {[20%positive := sample_obligation 20 6]} |>.

Lemma ledger_db_wf : ledger_wf ledger_db.
Proof.
  assert (forall i o, tb_obligation ledger_db !! i = Some o -> o_id o = i /\ o_resolution o = None) as Ho.
  { intros i o. cbn. intros [[<- <-]|[_ [<- <-]%lookup_singleton_Some]]%lookup_insert_Some; done. }
  split.
  - intros i o H. by apply Ho.
  - intros i a. cbn. intros [[<- <-]|[_ [<- <-]%lookup_singleton_Some]]%lookup_insert_Some; eexists; by split.
  - intros p x Hx. assert (exists y, owes ledger_db p x y) as (y & i & o & Hi & _ & _ & Hy) by (inversion Hx; eauto).
    apply Ho in Hi as [_ E]. rewrite E in Hy. by apply elem_of_nil in Hy.
  - intros p x Hx. assert (exists y, replaced ledger_db p x y) as (y & o & Hi & _ & Hy) by (inversion Hx; eauto).
    apply Ho in Hi as [_ E]. rewrite E in Hy. by apply elem_of_nil in Hy.
Qed.

Definition hand_to (a : uid) : ObligationResolve :=
  {| or_expected_revision := 1; or_status := ObHandled; or_resolution := Delegated "please" [a] |}.

Lemma ledger_stays_acyclic_witness :
  exists row d', resolve_obligation admin 20 (hand_to 9) ledger_db = Ok (row, d')
    /\ (forall x, ~ tc (owes d' 2) x x)
    /\ is_ok (resolve_obligation admin 21 (hand_to 6) d') = false
    /\ is_ok (resolve_obligation admin 21 (hand_to 6) ledger_db) = true.
Proof.
  destruct (is_ok_true (resolve_obligation admin 20 (hand_to 9) ledger_db)) as [[row d'] E]; [by vm_compute|].
  exists row, d'. split; [exact E|]. split.
  - apply (ledger_stays_acyclic ledger_db d' ledger_db_wf). apply rtc_once. by eapply LedgerResolve.
  - vm_compute in E. injection E as _ <-. split; by vm_compute.
Defined.
