(* ===== verification/Usage.v ===== *)
(** * Provider usage accounting

    src/archon_horizon/pipeline/providers/usage_accounting.py and the native-counter part of
    [record_usage] in providers/provider_events.py.  A provider reports running totals of a
    session; the control plane records the raw total as evidence and the difference to the last
    trusted total as the additive amount.  The history of one counter epoch is the list of its
    records, the newest first. *)

From S2P Require Import Prelude Contracts Schema.

(** ** Counters *)

Definition no_counters : counters :=
  {| c_input_tokens := None; c_cached_input_tokens := None; c_output_tokens := None; c_cost_usd := None |}.

(** The names [COUNTERS] of the fields. *)
Inductive counter : Type := InputTokens | CachedInputTokens | OutputTokens | CostUsd.

Definition field (k : counter) (c : counters) : option Z :=
  match k with
  | InputTokens => c_input_tokens c
  | CachedInputTokens => c_cached_input_tokens c
  | OutputTokens => c_output_tokens c
  | CostUsd => c_cost_usd c
  end.

Definition each (f : counter -> option Z) : counters :=
  {| c_input_tokens := f InputTokens; c_cached_input_tokens := f CachedInputTokens;
     c_output_tokens := f OutputTokens; c_cost_usd := f CostUsd |}.

Definition any_counter (f : counter -> bool) : bool :=
  f InputTokens || f CachedInputTokens || f OutputTokens || f CostUsd.

(** ** Reconciliation *)

(** The accounting keys that reconciliation reads and writes. *)
Record evidence := {
  e_raw : counters;
  e_checkpoint : option counters;
  e_observed_at : string;
  e_status : usage_status }.

(** [previous.get("checkpoint", previous["raw"])]. *)
Definition checkpoint (e : evidence) : counters := default (e_raw e) (e_checkpoint e).

(** [value is not None and prior.get(key) is not None and test(value, prior[key])]. *)
Definition both (test : Z -> Z -> bool) (value prior : option Z) : bool :=
  match value, prior with Some v, Some p => test v p | _, _ => false end.

Definition reconcile_counter (values : counters) (previous : option evidence) (observed_at : string) : counters * evidence :=
  let record status ck := {| e_raw := values; e_checkpoint := Some ck; e_observed_at := observed_at; e_status := status |} in
  match previous with
  | None => (values, record InitialSessionTotal values)
  | Some p =>
      let prior := checkpoint p in
      if String.ltb observed_at (e_observed_at p) then
        let contradicts := any_counter (fun k => both Z.gtb (field k values) (field k prior)) in
        (no_counters, record (if contradicts then CounterResetUnknown else OutOfOrder) values)
      else if bool_decide (e_status p = CounterResetUnknown)
              || any_counter (fun k => both Z.ltb (field k values) (field k prior)) then
        (no_counters, record CounterResetUnknown values)
      else
        (each (fun k => match field k values with Some v => Some (v - default 0 (field k prior)) | None => None end),
         record Measured (each (fun k => match field k values with Some v => Some v | None => field k prior end)))
  end.

(** ** The history of an epoch *)

Record usage_entry := { ue_amount : counters; ue_evidence : evidence }.

Definition is_reset (e : evidence) : bool := bool_decide (e_status e = CounterResetUnknown).

(** The order of the query that finds the previous evidence: resets first, then the latest
    observation, then the latest record. *)
Definition outranks (b e : evidence) : bool :=
  (is_reset b && negb (is_reset e))
  || (Bool.eqb (is_reset b) (is_reset e) && String.ltb (e_observed_at e) (e_observed_at b)).

Fixpoint latest (history : list usage_entry) : option evidence :=
  match history with
  | [] => None
  | u :: history =>
      let e := ue_evidence u in
      if bool_decide (e_status e = OutOfOrder) then latest history
      else match latest history with
           | Some b => if outranks b e then Some b else Some e
           | None => Some e
           end
  end.

(** A repeated sample adds nothing; the recorded cost is text and never equals a sampled one. *)
Definition duplicate (values : counters) (observed_at : string) (previous : option evidence) : bool :=
  match previous with
  | None => false
  | Some p => bool_decide (e_raw p = values) && bool_decide (c_cost_usd values = None)
              && negb (is_reset p) && String.leb observed_at (e_observed_at p)
  end.

Definition record_usage (values : counters) (observed_at : string) (history : list usage_entry) : list usage_entry :=
  let previous := latest history in
  if duplicate values observed_at previous then history
  else let '(amount, e) := reconcile_counter values previous observed_at in
       {| ue_amount := amount; ue_evidence := e |} :: history.

Definition record_all (samples : list (counters * string)) : list usage_entry :=
  List.fold_left (fun h s => record_usage s.1 s.2 h) samples [].

(** The additive total of a counter. *)
Definition total (k : counter) (history : list usage_entry) : Z :=
  List.fold_right (fun u n => default 0 (field k (ue_amount u)) + n) 0 history.

Definition clean (history : list usage_entry) : bool := negb (existsb (fun u => is_reset (ue_evidence u)) history).

(** ** What the totals mean *)

Lemma field_each k f : field k (each f) = f k.
Proof. by destruct k. Qed.

Lemma field_none k : field k no_counters = None.
Proof. by destruct k. Qed.

Lemma any_counter_false f : any_counter f = false <-> forall k, f k = false.
Proof.
  unfold any_counter. rewrite !orb_false_iff. split; [|intros H; by rewrite !H].
  intros [[[? ?] ?] ?] k. by destruct k.
Qed.

(** Every total is at most the largest raw value that some record shows, and with no reset it
    is the checkpoint of the latest record. *)
Record accounted (history : list usage_entry) : Prop := {
  ac_nonneg : forall u k v, u ∈ history -> field k (ue_amount u) = Some v -> 0 <= v;
  ac_raw : forall u k v, u ∈ history -> field k (checkpoint (ue_evidence u)) = Some v -> 0 <= v;
  ac_bound : forall k, total k history = 0 \/ exists u v, u ∈ history /\ field k (e_raw (ue_evidence u)) = Some v /\ total k history <= v;
  ac_latest_in : forall p, latest history = Some p -> exists u, u ∈ history /\ ue_evidence u = p;
  ac_clean : clean history = true -> forall k, total k history = match latest history with
                                                                 | Some p => default 0 (field k (checkpoint p))
                                                                 | None => 0 end }.

Lemma latest_reset history : clean history = false -> exists p, latest history = Some p /\ is_reset p = true.
Proof.
  unfold clean. rewrite negb_false_iff. induction history as [|u h IH]; [done|]. cbn.
  destruct (is_reset (ue_evidence u)) eqn:E; cbn.
  - intros _. rewrite bool_decide_eq_false_2 by (intros E'; unfold is_reset in E; bools; congruence).
    destruct (latest h) as [b|]; [|eauto]. unfold outranks. rewrite E.
    destruct (is_reset b) eqn:Eb; cbn; [|eauto]. destruct (String.ltb _ _); eauto.
  - intros H. destruct (IH H) as (b & -> & Hb). case_bool_decide; [eauto|].
    unfold outranks. rewrite Hb, E. cbn. eauto.
Qed.

(** The cases of a reconciliation. *)
Lemma reconcile_cases values previous at_ :
  let r := reconcile_counter values previous at_ in
  e_raw r.2 = values /\ e_observed_at r.2 = at_ /\
  ( (previous = None /\ r.1 = values /\ checkpoint r.2 = values /\ e_status r.2 = InitialSessionTotal)
  \/ (r.1 = no_counters /\ checkpoint r.2 = values /\ (e_status r.2 = OutOfOrder \/ e_status r.2 = CounterResetUnknown))
  \/ (exists p, previous = Some p /\ is_reset p = false /\ String.ltb at_ (e_observed_at p) = false
        /\ e_status r.2 = Measured
        /\ forall k, both Z.ltb (field k values) (field k (checkpoint p)) = false
           /\ field k r.1 = match field k values with Some v => Some (v - default 0 (field k (checkpoint p))) | None => None end
           /\ field k (checkpoint r.2) = match field k values with Some v => Some v | None => field k (checkpoint p) end)).
Proof.
  unfold reconcile_counter. destruct previous as [p|]; cbn; [|by repeat split; left].
  destruct (String.ltb at_ (e_observed_at p)) eqn:Eo; cbn.
  { split; [done|]. split; [done|]. right; left. destruct (any_counter _); auto. }
  destruct (_ || _) eqn:Er; cbn; [split; [done|]; split; [done|]; right; left; auto|].
  split; [done|]. split; [done|]. right; right. exists p. apply orb_false_iff in Er as [Er Ed].
  rewrite any_counter_false in Ed. split; [done|]. split; [done|]. split; [done|]. split; [done|].
  intros k. split; [apply Ed|]. unfold checkpoint at 2. cbn. by rewrite !field_each.
Qed.

Lemma total_cons k u h : total k (u :: h) = default 0 (field k (ue_amount u)) + total k h.
Proof. done. Qed.

(** A record that adds nothing. *)
Lemma accounted_silent u h :
  accounted h -> ue_amount u = no_counters ->
  (forall k v, field k (checkpoint (ue_evidence u)) = Some v -> 0 <= v) ->
  e_status (ue_evidence u) = OutOfOrder \/ e_status (ue_evidence u) = CounterResetUnknown -> accounted (u :: h).
Proof.
  intros [H1 H2 H3 H4 H5] Ha Hr Hs.
  assert (forall k, total k (u :: h) = total k h) as Ht by (intros k; rewrite total_cons, Ha, field_none; cbn; lia).
  split.
  - intros w k v [->|Hw]%elem_of_cons; [by rewrite Ha, field_none|eauto].
  - intros w k v [->|Hw]%elem_of_cons; eauto.
  - intros k. rewrite Ht. destruct (H3 k) as [?|(w & v & ? & ? & ?)]; [by left|].
    right. exists w, v. split; [by right|done].
  - cbn. intros p. case_bool_decide; [intros Hp; destruct (H4 p Hp) as (w & ? & ?); exists w; split; [by right|done]|].
    destruct (latest h) as [b|] eqn:El; [|intros [= <-]; exists u; split; [by left|done]].
    destruct (outranks b _); intros [= <-]; [|exists u; split; [by left|done]].
    destruct (H4 b eq_refl) as (w & ? & ?). exists w. split; [by right|done].
  - intros Hc k. rewrite Ht. unfold clean in Hc. cbn [existsb] in Hc. bools.
    unfold is_reset in *. bools. destruct Hs as [Hs|Hs]; [|done]. cbn [latest]. rewrite Hs.
    rewrite bool_decide_eq_true_2 by done. apply H5. unfold clean. apply negb_true_iff. done.
Qed.

(** A record that continues the counter. *)
Lemma accounted_measured u h :
  accounted h -> clean h = true ->
  (forall k v, field k (e_raw (ue_evidence u)) = Some v -> 0 <= v) ->
  (forall k, field k (ue_amount u) = match field k (e_raw (ue_evidence u)) with
                                     | Some v => Some (v - total k h) | None => None end) ->
  (forall k v, field k (e_raw (ue_evidence u)) = Some v -> total k h <= v) ->
  (forall k, default 0 (field k (checkpoint (ue_evidence u)))
             = match field k (e_raw (ue_evidence u)) with Some v => v | None => total k h end) ->
  (forall k v, field k (checkpoint (ue_evidence u)) = Some v -> 0 <= v) ->
  is_reset (ue_evidence u) = false -> e_status (ue_evidence u) <> OutOfOrder ->
  (forall b, latest h = Some b -> String.ltb (e_observed_at (ue_evidence u)) (e_observed_at b) = false) ->
  accounted (u :: h).
Proof.
  intros [H1 H2 H3 H4 H5] Hc Hpos Ha Hle Hck Hck0 Hr Ho Hlast.
  assert (forall k, total k (u :: h) = match field k (e_raw (ue_evidence u)) with Some v => v | None => total k h end) as Ht.
  { intros k. rewrite total_cons, Ha. destruct (field k _); cbn; lia. }
  assert (latest (u :: h) = Some (ue_evidence u)) as El.
  { cbn [latest]. rewrite bool_decide_eq_false_2 by done. destruct (latest h) as [b|] eqn:E; [|done].
    assert (is_reset b = false) as Hb.
    { apply not_true_iff_false. intros Hb. destruct (H4 b eq_refl) as (w & Hw & <-).
      unfold clean in Hc. apply negb_true_iff, not_true_iff_false in Hc. apply Hc. apply existsb_true, Exists_exists. eauto. }
    unfold outranks. rewrite Hb, Hr, (Hlast b eq_refl). done. }
  split.
  - intros w k v [->|Hw]%elem_of_cons; [|eauto]. rewrite Ha. destruct (field k (e_raw (ue_evidence u))) as [x|] eqn:E; [|done].
    intros [= <-]. specialize (Hle k x E). lia.
  - intros w k v [->|Hw]%elem_of_cons; eauto.
  - intros k. rewrite Ht. destruct (field k (e_raw (ue_evidence u))) as [x|] eqn:E.
    + right. exists u, x. split; [by left|]. by split.
    + destruct (H3 k) as [?|(w & v & ? & ? & ?)]; [by left|]. right. exists w, v. split; [by right|done].
  - rewrite El. intros p [= <-]. exists u. split; [by left|done].
  - intros _ k. rewrite El, Ht. symmetry. apply Hck.
Qed.

Definition nonnegative (values : counters) : Prop := forall k v, field k values = Some v -> 0 <= v.

Lemma record_usage_accounted values at_ h :
  accounted h -> nonnegative values -> accounted (record_usage values at_ h).
Proof.
  intros Hac Hn. unfold record_usage. destruct (duplicate _ _ _); [done|].
  pose proof (reconcile_cases values (latest h) at_) as Hcases.
  destruct (reconcile_counter values (latest h) at_) as [amount e]. cbn in Hcases.
  destruct Hcases as (Hraw & Hobs & [(Hp & -> & Hck & Hs)|[(-> & Hck & Hs)|(p & Hp & Hpr & Hord & Hs & Hk)]]).
  - assert (clean h = true) as Hc.
    { apply not_false_iff_true. intros (b & E & _)%latest_reset. congruence. }
    assert (forall k, total k h = 0) as H0 by (intros k; rewrite (ac_clean h Hac Hc), Hp; done).
    apply accounted_measured; cbn; try done; rewrite ?Hraw, ?Hck; try done.
    + intros k. rewrite H0. destruct (field k values); [f_equal; lia|done].
    + intros k v Hv. rewrite H0. by eapply Hn.
    + intros k. rewrite H0. by destruct (field k values).
    + unfold is_reset. by rewrite Hs.
    + by rewrite Hs.
    + by rewrite Hp.
  - apply accounted_silent; cbn; try done. intros k v. rewrite Hck. apply Hn.
  - assert (clean h = true) as Hc.
    { apply not_false_iff_true. intros (b & E & Hb)%latest_reset. congruence. }
    assert (forall k, total k h = default 0 (field k (checkpoint p))) as H0
      by (intros k; rewrite (ac_clean h Hac Hc), Hp; done).
    assert (forall k v, field k (checkpoint p) = Some v -> 0 <= v) as Hpos.
    { intros k v Hv. destruct (ac_latest_in h Hac p Hp) as (w & Hw & <-). by eapply (ac_raw h Hac). }
    apply accounted_measured; cbn; rewrite ?Hraw; try done.
    + intros k. destruct (Hk k) as (_ & -> & _). by rewrite H0.
    + intros k v Hv. rewrite H0. destruct (Hk k) as (Hd & _ & _). rewrite Hv in Hd.
      destruct (field k (checkpoint p)) as [x|]; cbn in *; [by bools|]. by eapply Hn.
    + intros k. destruct (Hk k) as (_ & _ & ->). rewrite H0. by destruct (field k values).
    + intros k v. destruct (Hk k) as (_ & _ & ->). destruct (field k values) as [x|] eqn:E; [|apply Hpos].
      intros [= <-]. by eapply Hn.
    + unfold is_reset. by rewrite Hs.
    + by rewrite Hs.
    + intros b Hb. rewrite Hp in Hb. injection Hb as <-. by rewrite Hobs.
Qed.

Lemma record_all_accounted samples :
  Forall (fun s => nonnegative s.1) samples -> accounted (record_all samples).
Proof.
  unfold record_all. assert (accounted []) as H0.
  { split; [by intros ??? ?%elem_of_nil..|by left|done|done]. }
  revert H0. generalize (@nil usage_entry) as h. induction samples as [|s l IH]; intros h Hh Hs; [done|].
  apply Forall_cons in Hs as [Hs Hl]. cbn. apply IH; [|done]. by apply record_usage_accounted.
Qed.

(** ** Trust in a stored record *)

Definition legacy_codex (u : usage_record) : bool :=
  bool_decide (us_accounting u = None) && starts_with "codex:" (us_provider_record_id u)
  && negb (starts_with "codex:cumulative:" (us_provider_record_id u)).

Definition stored_field (k : counter) (u : usage_record) : option Z :=
  match k with
  | InputTokens => us_input_tokens u
  | CachedInputTokens => us_cached_input_tokens u
  | OutputTokens => us_output_tokens u
  | CostUsd => us_cost_usd u
  end.

Definition trusted_amount (k : counter) (u : usage_record) : option Z :=
  if legacy_codex u then None else stored_field k u.

(** [coalesce(accounting.identity, the native identity of its thread)]. *)
Definition usage_identity (d : DB) (u : usage_record) : option string :=
  match (a ← us_accounting u; ua_identity a) with
  | Some s => Some s
  | None => i ← us_provider_thread_id u; t ← tb_provider_thread d !! i; t_provider_thread_id t
  end.

Definition native_scope (a : Accounting) : bool := bool_decide (ua_scope a = "native_thread_cumulative").

(** A trusted native counter that was observed after [u] covers it. *)
Definition covers_usage (d : DB) (u : usage_record) (authority : usage_record) : bool :=
  match us_accounting authority, usage_identity d u with
  | Some a, Some identity =>
      bool_decide (ua_identity a = Some identity) && native_scope a
      && bool_decide (ua_epoch a = Some (default "session" (b ← us_accounting u; ua_epoch b)))
      && mem (ua_status a) [Measured; InitialSessionTotal]
      && (us_created_at u <=? ua_observed_at a)
      && present (c_input_tokens (ua_raw a)) && present (c_output_tokens (ua_raw a))
  | _, _ => false
  end.

Definition covered (d : DB) (u : usage_record) : bool :=
  existsb (covers_usage d u) (map snd (map_to_list (tb_usage_record d))).

Definition checkpoint_field (f : counters -> option Z) (a : Accounting) : option Z := c ← ua_checkpoint a; f c.

Definition uncertain_usage (d : DB) (u : usage_record) : bool :=
  (legacy_codex u && negb (covered d u))
  || match us_accounting u with
     | None => false
     | Some a =>
         (native_scope a && (negb (present (checkpoint_field c_input_tokens a))
                             || negb (present (checkpoint_field c_output_tokens a))) && negb (covered d u))
         || (mem (ua_status a) [UnknownScope; CounterResetUnknown; PartialBaseline]
             && (negb (bool_decide (ua_status a = UnknownScope)) || negb (covered d u)))
     end.

(** ** Properties *)

(** C4. Usage is counted exactly and never twice: whatever the order and repetition of the reported
    session totals, the recorded amount of a counter is never negative, never exceeds a total
    that was really reported, and, while no reset was seen, equals the latest trusted total. *)
Theorem usage_counts_session_totals samples k :
  Forall (fun s => nonnegative s.1) samples ->
  (total k (record_all samples) = 0 \/
   exists u v, u ∈ record_all samples /\ field k (e_raw (ue_evidence u)) = Some v /\ total k (record_all samples) <= v)
  /\ 0 <= total k (record_all samples)
  /\ (clean (record_all samples) = true ->
      total k (record_all samples) = match latest (record_all samples) with
                                     | Some p => default 0 (field k (checkpoint p)) | None => 0 end).
Proof.
  intros Hs%record_all_accounted. split; [apply (ac_bound _ Hs)|]. split; [|intros Hc; apply (ac_clean _ Hs Hc)].
  pose proof (fun u v H => ac_nonneg _ Hs u k v H) as Hn. clear Hs. induction (record_all samples) as [|u h IH]; [done|].
  rewrite total_cons. assert (0 <= total k h) by (apply IH; intros; eapply Hn; [by right|done]).
  destruct (field k (ue_amount u)) as [v|] eqn:E; cbn; [|lia].
  assert (0 <= v) by (eapply Hn; [by left|done]). lia.
Qed.

Definition sample_total (i o : Z) : counters :=
  {| c_input_tokens := Some i; c_cached_input_tokens := None; c_output_tokens := Some o; c_cost_usd := None |}.

Lemma usage_counts_session_totals_witness :
  let h := record_all [(sample_total 100 10, "2026-01-01T00:00:00+00:00"); (sample_total 150 30, "2026-01-01T00:00:09+00:00");
                       (sample_total 120 20, "2026-01-01T00:00:05+00:00"); (sample_total 150 30, "2026-01-01T00:00:09+00:00")] in
  total InputTokens h = 150 /\ List.length h = 3%nat /\ 0 <= total OutputTokens h.
Proof.
  cbv zeta. split; [by vm_compute|]. split; [by vm_compute|].
  apply usage_counts_session_totals. repeat constructor; intros [] v; cbn; intros [= <-]; lia.
Defined.

(** A reset freezes the count: after evidence that a counter was reset, no later sample of that
    epoch adds anything, and the history stays marked. *)
Theorem usage_reset_freezes values at_ history k :
  clean history = false ->
  total k (record_usage values at_ history) = total k history /\ clean (record_usage values at_ history) = false.
Proof.
  intros Hc. destruct (latest_reset history Hc) as (p & Hp & Hr). unfold record_usage.
  destruct (duplicate values at_ (latest history)); [done|].
  pose proof (reconcile_cases values (latest history) at_) as H.
  destruct (reconcile_counter values (latest history) at_) as [amount e]. cbn in H.
  destruct H as (_ & _ & [(E & _)|[(-> & _)|(q & E & Hq & _)]]); [congruence| |congruence].
  split; [rewrite total_cons; cbn [ue_amount]; rewrite field_none; cbn; lia|].
  unfold clean in *. cbn. bools. rewrite Hc. by destruct (is_reset e).
Qed.

Lemma usage_reset_freezes_witness :
  let h := record_all [(sample_total 100 10, "2026-01-01T00:00:00+00:00"); (sample_total 40 5, "2026-01-01T00:00:09+00:00")] in
  clean h = false /\ total InputTokens (record_usage (sample_total 900 90) "2026-01-01T00:01:00+00:00" h) = total InputTokens h.
Proof.
  cbv zeta. assert (clean (record_all [(sample_total 100 10, "2026-01-01T00:00:00+00:00");
    (sample_total 40 5, "2026-01-01T00:00:09+00:00")]) = false) as H by by vm_compute.
  split; [exact H|]. exact (proj1 (usage_reset_freezes _ _ _ InputTokens H)).
Defined.
