(* ===== verification/Watchdog.v ===== *)
(** * The liveness watchdog

    src/archon_horizon/pipeline/operations/watchdog.py: the checks of a supervised service's name
    and limits, and [_record_check], which counts consecutive failures in a small file and
    decides when to ask the service manager for a restart.  The probe of the service is an
    argument ([healthy]); times are instants. *)

From S2P Require Import Prelude.

(** ** Arguments *)

Definition name_char (c : ascii) : bool := is_lower c || is_digit c || Ascii.eqb c "-".

(** [re.fullmatch(prefix + "[a-z0-9-]+\.service", service)]. *)
Definition named_service (prefix service : string) : bool :=
  starts_with prefix service && ends_with ".service" service
  && (String.length prefix + 8 <? String.length service)%nat
  && forallb name_char (chars (String.substring (String.length prefix)
       (String.length service - String.length prefix - 8) service)).

Definition api_service (service : string) : bool := named_service "archon-horizon-pipeline-" service.

(** The worker's pattern, [(?:archon-)?horizon-pipeline-worker(?:-[a-z0-9-]+)?\.service]. *)
Definition worker_service (service : string) : bool :=
  existsb (fun base => bool_decide (service = base +:+ ".service")%string || named_service (base +:+ "-") service)
          ["horizon-pipeline-worker"; "archon-horizon-pipeline-worker"].

Definition limits_valid (threshold cooldown_seconds : Z) : bool :=
  (1 <=? threshold) && (threshold <=? 20) && (30 <=? cooldown_seconds) && (cooldown_seconds <=? 86400).

Definition local_listener (host : string) : bool := mem host ["localhost"; "127.0.0.1"; "0.0.0.0"; "::1"; "::"].

(** ** The counter file *)

(** The file of a service: absent, unreadable, or with the two counters. *)
Inductive stored : Type :=
| NoFile
| Unreadable
| Counters (failures : Z) (last_restart : option instant).

Definition previous (file : stored) : Z * option instant :=
  match file with
  | Counters failures last => if 0 <=? failures then (failures, last) else (0, None)
  | NoFile | Unreadable => (0, None)
  end.

(** The new file, and whether a restart is requested. *)
Definition record_check (threshold cooldown_seconds : Z) (healthy : bool) (now : instant) (file : stored) : stored * bool :=
  let '(failed, last) := previous file in
  let failures := if healthy then 0 else failed + 1 in
  let restart := (threshold <=? failures)
                 && match last with None => true | Some t => seconds cooldown_seconds <=? now - t end in
  (Counters failures (if restart then Some now else last), restart).

Definition check_api (service host : string) (threshold cooldown_seconds : Z) (healthy : bool) (now : instant)
    (file : stored) : result (stored * bool) :=
  let? _ := guard (negb (api_service service)) (ValidationError "service") in
  let? _ := guard (negb (limits_valid threshold cooldown_seconds)) (ValidationError "limits") in
  let? _ := guard (negb (local_listener host)) (ValidationError "listener") in
  Ok (record_check threshold cooldown_seconds healthy now file).

(** ** Sequences of checks *)

Section checks.
Context (threshold cooldown_seconds : Z).

(** The checks [(healthy, now)] in order, and the times of the restarts, the latest first. *)
Definition supervise (checks : list (bool * instant)) (file : stored) : stored * list instant :=
  List.fold_left (fun '(file, restarts) '(healthy, now) =>
    let '(file', restart) := record_check threshold cooldown_seconds healthy now file in
    (file', if restart then now :: restarts else restarts)) checks (file, []).

(** The failed checks at the end of a sequence. *)
Fixpoint trailing (checks : list (bool * instant)) : Z :=
  match checks with
  | [] => 0
  | (healthy, _) :: checks => if forallb (fun c => negb c.1) ((healthy, 0) :: checks)
                              then Z.of_nat (S (List.length checks)) else trailing checks
  end.

(** Restarts are a cooldown apart, the latest first. *)
Fixpoint spaced (restarts : list instant) : Prop :=
  match restarts with
  | [] => True
  | t :: l => match l with [] => True | t' :: _ => seconds cooldown_seconds <= t - t' end /\ spaced l
  end.

Lemma trailing_app checks healthy now :
  trailing (checks ++ [(healthy, now)]) = if healthy then 0 else trailing checks + 1.
Proof.
  induction checks as [|[h t] l IH]; cbn; [by destruct healthy|].
  rewrite forallb_app. cbn. rewrite length_app. cbn.
  destruct healthy; cbn in *; rewrite ?andb_false_r, ?andb_true_r; [apply IH|].
  destruct (negb h && forallb (fun c => negb c.1) l); [lia|apply IH].
Qed.

Lemma supervise_snoc checks healthy now file :
  supervise (checks ++ [(healthy, now)]) file =
  let '(file', restarts) := supervise checks file in
  let '(file'', restart) := record_check threshold cooldown_seconds healthy now file' in
  (file'', if restart then now :: restarts else restarts).
Proof. unfold supervise. rewrite fold_left_app. cbn. by destruct (List.fold_left _ _ _). Qed.

(** What the file says after a sequence that started without one. *)
Lemma supervise_spec checks :
  previous (supervise checks NoFile).1 = (trailing checks, head (supervise checks NoFile).2)
  /\ spaced (supervise checks NoFile).2 /\ 0 <= trailing checks.
Proof.
  induction checks as [|[healthy now] l IH] using rev_ind; [done|].
  rewrite supervise_snoc, trailing_app. destruct (supervise l NoFile) as [file restarts]. cbn [fst snd] in IH.
  destruct IH as (Hp & Hs & Ht). unfold record_check. rewrite Hp. cbn [fst snd].
  set (n := if healthy then 0 else trailing l + 1).
  assert (0 <= n) as Hn by (unfold n; destruct healthy; lia).
  destruct ((threshold <=? n) && _) eqn:E; cbn [previous fst snd head];
    (split; [by rewrite (proj2 (Z.leb_le 0 n))|]; split; [|done]); [|done].
  bools. destruct restarts as [|t rs]; cbn in *; [done|]. by bools.
Qed.
End checks.

(** ** Property *)

(** The watchdog is patient: starting with no counter file, a check asks for a restart exactly
    when it ends a run of at least [threshold] consecutive failed checks and the last restart, if
    there was one, is at least the cooldown ago; so restarts are never closer than the cooldown. *)
Theorem watchdog_restarts_sparingly threshold cooldown checks healthy now :
  let '(file, restarts) := supervise threshold cooldown checks NoFile in
  ((record_check threshold cooldown healthy now file).2 = true <->
     threshold <= trailing (checks ++ [(healthy, now)])
     /\ match head restarts with None => True | Some t => seconds cooldown <= now - t end)
  /\ spaced cooldown restarts.
Proof.
  destruct (supervise threshold cooldown checks NoFile) as [file restarts] eqn:E.
  pose proof (supervise_spec threshold cooldown checks) as (Hp & Hs & _). rewrite E in Hp, Hs. cbn in Hp, Hs.
  split; [|done]. unfold record_check. rewrite Hp, trailing_app. cbn [snd].
  rewrite andb_true_iff, Z.leb_le. destruct (head restarts); [rewrite Z.leb_le|]; naive_solver.
Qed.

Example watchdog_third_failure :
  supervise 3 300 [(false, seconds 0); (false, seconds 60); (false, seconds 120); (false, seconds 180)] NoFile
  = (Counters 4 (Some (seconds 120)), [seconds 120]).
Proof. reflexivity. Qed.
