(* ===== verification/Capacity.v ===== *)
(** * Shared capacity and admission budgets

    The physical and logical limits that decide whether a session may start:
    [execution_busy_condition], [capacity], [two_usable_slots], [limits_available] and
    [budget_exhausted] of src/archon_horizon/pipeline/execution/scheduler.py, all of
    execution/queue_policies.py, and [run_usage] and [reason] of execution/admission.py.
    [Slot] is a row of [host_harness] with the limits that [capacity] attaches to it. *)

From S2P Require Import Prelude Contracts Schema Records Auth Samples Usage.

(** ** Executions that hold resources *)

Definition live_status (x : execution) : bool := mem (x_status x) [XStarting; XRunning; XStopping].

Definition unsettled_request (q : provider_request) : bool := mem (q_status q) [QPending; QSubmitted; QRunning; QUncertain].

Definition objective_assignment (d : DB) (i : uid) : bool :=
  match (a ← tb_assignment d !! i; tb_run d !! a_run_id a) with
  | Some r => bool_decide (r_orchestration r = ObjectiveRun)
  | None => false
  end.

(** [execution_busy_condition], for its default grace of 300 seconds. *)
Definition execution_busy (d : DB) (x : execution) : bool :=
  live_status x
  || (negb (live_status x) && bool_decide (x_stop_confirmed_at x = None)
      && (objective_assignment d (x_assignment_id x)
          || match or_else (x_finished_at x) (x_started_at x) with
             | Some t => db_now d - seconds 300 <? t
             | None => false
             end))
  || existsb (fun q => bool_decide (q_execution_id q = x_id x) && unsettled_request q)
       (map snd (map_to_list (tb_provider_request d))).

(** [sum(1 + coalesce(native_capacity, 0))] over the busy executions that [p] selects. *)
Definition x_weight (x : execution) : Z := 1 + default 0 (x_native_capacity x).

Definition sum_by {A} (f : A -> Z) (l : list A) : Z := List.fold_right (fun a n => f a + n) 0 l.

Definition busy_weight (p : execution -> bool) (d : DB) : Z :=
  sum_by x_weight (List.filter (fun x => p x && execution_busy d x) (map snd (map_to_list (tb_execution d)))).

Definition in_category (d : DB) (run : uid) (name : string) (x : execution) : bool :=
  match tb_assignment d !! x_assignment_id x with
  | Some a => bool_decide (a_run_id a = run) && bool_decide (a_category a = Some name)
  | None => false
  end.

Definition on_harness (host harness : uid) (x : execution) : bool :=
  bool_decide (x_host_id x = host) && bool_decide (x_harness_id x = harness).

Definition by_role (d : DB) (r : role) (x : execution) : bool :=
  match tb_assignment d !! x_assignment_id x with Some a => bool_decide (a_role a = r) | None => false end.

(** ** Slots *)

(** [Scheduler.CLAIM_SCAN_LIMIT], the rows that one scan reads. *)
Definition CLAIM_SCAN_LIMIT : nat := 512.

Record Slot := {
  sl_host_id : uid;
  sl_harness_id : uid;
  sl_execution_slots : Z;
  sl_max_parallel_subagents : option Z;
  sl_limits : list resource_limit }.

Definition host_usable (d : DB) (stale_seconds : Z) (h : host) : bool :=
  bool_decide (h_mode h = HostEnabled)
  && match h_health h with None => true | Some e => negb (mem (hh_status e) [StoragePressure; ResourcePressure]) end
  && match h_heartbeat_at h with Some t => db_now d - seconds stale_seconds <? t | None => false end.

Definition slot_limits (d : DB) (host harness : uid) : list resource_limit :=
  List.filter (fun l => bool_decide ((host, harness, rl_id l) ∈ tb_host_harness_limit d))
    (map snd (map_to_list (tb_resource_limit d))).

Definition limit_blocked (d : DB) (l : resource_limit) : bool :=
  rl_circuit_open l || match rl_cooldown_until l with Some t => db_now d <? t | None => false end.

Definition capacity (d : DB) (stale_seconds : Z) (hosts : list uid) : list Slot :=
  List.filter (fun s => negb (existsb (limit_blocked d) (sl_limits s)))
    (omap (fun '((h, x), row) =>
       host ← tb_host d !! h;
       harness ← tb_harness d !! x;
       if mem h hosts && hx_enabled row && host_usable d stale_seconds host && hs_enabled harness
       then Some {| sl_host_id := h; sl_harness_id := x; sl_execution_slots := hx_execution_slots row;
                    sl_max_parallel_subagents := hx_max_parallel_subagents row; sl_limits := slot_limits d h x |}
       else None)
    (map_to_list (tb_host_harness d))).

(** After a provider failure one request probes the account. *)
Definition maximum (l : resource_limit) : option Z := if rl_failure_count l =? 0 then rl_max_concurrent l else Some 1.

(** The needs and maxima of two executions placed on the rows [first] and [second]. *)
Definition note_limit (dicts : gmap uid Z * gmap uid Z) (l : resource_limit) : gmap uid Z * gmap uid Z :=
  match maximum l with
  | None => dicts
  | Some m => (<[rl_id l := default 0 (dicts.1 !! rl_id l) + 1]> dicts.1, <[rl_id l := m]> dicts.2)
  end.

Definition pair_fits (first second : Slot) : bool :=
  let '(needed, maxima) := List.fold_left note_limit (sl_limits first ++ sl_limits second) (∅, ∅) in
  forallb (fun '(i, used) => match maxima !! i with Some m => used <=? m | None => false end) (map_to_list needed).

Fixpoint two_usable_slots (capacity : list Slot) : bool :=
  match capacity with
  | [] => false
  | first :: rest =>
      ((2 <=? sl_execution_slots first) && pair_fits first first)
      || existsb (pair_fits first) rest || two_usable_slots rest
  end.

(** ** Shared limits *)

Definition claimed (d : DB) (limit : uid) : Z :=
  sum_by cl_units (List.filter (fun c => bool_decide (cl_resource_limit_id c = limit) && bool_decide (cl_released_at c = None))
    (map snd (map_to_list (tb_resource_claim d)))).

Definition limits_available (d : DB) (limits : list resource_limit) : bool :=
  forallb (fun l => negb (rl_circuit_open l)
                    && match maximum l with Some m => claimed d (rl_id l) <? m | None => true end) limits.

(** ** Category policies *)

Definition default_category (r : role) : string := match r with Maintainer => "maintenance" | Worker => "work" end.

Definition category_or (given : option string) (r : role) : string :=
  match given with
  | Some name => if bool_decide (name = EmptyString) then default_category r else name
  | None => default_category r
  end.

Definition category (a : assignment) : string := category_or (a_category a) (a_role a).

Definition policy (r : run) (name : string) : result (option QueuePolicy) :=
  if bool_decide (r_orchestration r = ObjectiveRun) then
    match r_queue_policies r !! name with
    | Some q => Ok (Some q)
    | None => Err (DomainError "unknown_category" 422)
    end
  else Ok None.

Definition validate_enqueue (r : run) (data : AssignmentCreate) : M (string * ModelOptions * option uid) :=
  let name := category_or (ac_category data) (ac_role data) in
  settings ← lift (policy r name);
  match settings with
  | None => mret (name, ac_model_options data, ac_harness_id data)
  | Some q =>
      refuse (negb (bool_decide (qp_role q = ac_role data))) "category_role_mismatch" 422 ;;
      queued ← count (fun a => bool_decide (a_run_id a = r_id r) && bool_decide (a_category a = Some name)
                               && bool_decide (a_status a = Pending));
      refuse (qp_max_pending q <=? queued) "queue_full" 409 ;;
      mret (name, merge_options (qp_model_options q) (ac_model_options data), or_else (ac_harness_id data) (qp_harness_id q))
  end.

(** The slots that the run's maintenance categories reserve. *)
Definition reserve (r : run) : Z :=
  List.fold_right (fun kv n => Z.max (if bool_decide (qp_role kv.2 = Maintainer) then qp_reserved_slots kv.2 else 0) n) 0
    (map_to_list (r_queue_policies r)).

(** The recorded tokens of the executions that [p] selects, and whether any is uncertain. *)
Definition usage_of (d : DB) (p : assignment -> bool) : list usage_record :=
  List.filter (fun u => match (x ← tb_execution d !! us_execution_id u; tb_assignment d !! x_assignment_id x) with
                        | Some a => p a
                        | None => false
                        end) (map snd (map_to_list (tb_usage_record d))).

Definition tokens (u : usage_record) : Z :=
  default 0 (trusted_amount InputTokens u) + default 0 (trusted_amount OutputTokens u).

Definition blocker_slots (d : DB) (r : run) (name : string) (q : QueuePolicy) : option string :=
  let busy := busy_weight (in_category d (r_id r) name) d in
  if qp_slots q <=? busy
  then Some (name +:+ " category slots occupied (" +:+ pretty busy +:+ "/" +:+ pretty (qp_slots q) +:+ ")")%string
  else None.

Definition in_run_category (r : run) (name : string) (a : assignment) : bool :=
  bool_decide (a_run_id a = r_id r) && bool_decide (a_category a = Some name).

Definition blocker_sessions (d : DB) (item : assignment) (r : run) (name : string) (q : QueuePolicy) : option string :=
  let admitted := Z.of_nat (List.length (List.filter (fun a => in_run_category r name a && present (a_started_at a))
                                           (map snd (map_to_list (tb_assignment d))))) in
  if negb (present (a_started_at item)) && match qp_max_sessions q with Some m => m <=? admitted | None => false end
  then Some (name +:+ " category session budget reached")%string
  else None.

Definition blocker_tokens (d : DB) (r : run) (name : string) (q : QueuePolicy) : option string :=
  match qp_token_budget q with
  | None => None
  | Some budget =>
      let used := usage_of d (in_run_category r name) in
      if existsb (uncertain_usage d) used then Some (name +:+ " category usage needs reconciliation")%string
      else if budget <=? sum_by tokens used then Some (name +:+ " category token budget reached")%string
      else None
  end.

(** [host]: the host, harness and execution slots of the candidate placement. *)
Definition blocker_host (d : DB) (r : run) (q : QueuePolicy) (host : option (uid * uid * Z)) : option string :=
  match host with
  | Some (h, x, slots) =>
      if negb (slots =? 0) && bool_decide (qp_role q = Worker) then
        let allowed := Z.max 1 (slots - reserve r) in
        let workers := busy_weight (fun e => on_harness h x e && by_role d Worker e) d in
        if allowed <=? workers then Some "Host capacity reserved for maintenance"%string else None
      else None
  | None => None
  end.

(** A text that Python takes as true. *)
Definition truthy (o : option string) : option string :=
  match o with Some EmptyString | None => None | Some s => Some s end.

Definition blocker (d : DB) (item : assignment) (r : run) (host : option (uid * uid * Z)) : result (option string) :=
  match truthy (a_pause_reason item) with
  | Some why => Ok (Some ("Session paused: " +:+ why)%string)
  | None =>
      let name := category item in
      let? settings := policy r name in
      match settings with
      | None => Ok None
      | Some q => Ok (or_else (blocker_slots d r name q)
                     (or_else (blocker_sessions d item r name q)
                     (or_else (blocker_tokens d r name q) (blocker_host d r q host))))
      end
  end.

(** ** Native children *)

Definition limit_room (d : DB) (n : Z) (l : resource_limit) : Z :=
  match maximum l with Some m => Z.min n (m - claimed d (rl_id l) - 1) | None => n end.

Definition native_capacity (d : DB) (item : assignment) (r : run) (slot : Slot) : result (option Z) :=
  match sl_max_parallel_subagents slot with
  | None => Ok None
  | Some most =>
      let? settings := policy r (category item) in
      match settings with
      | None => Ok (Some most)
      | Some q =>
          if mem "planner" (a_functions item) then Ok (Some 0)
          else
            let used := busy_weight (in_category d (r_id r) (category item)) d in
            let host_used := busy_weight (on_harness (sl_host_id slot) (sl_harness_id slot)) d in
            let kept := if bool_decide (a_role item = Worker) then reserve r else 0 in
            let room := Z.min (Z.min most (qp_slots q - used - 1))
                              (Z.max 1 (sl_execution_slots slot - kept) - host_used - 1) in
            Ok (Some (Z.max 0 (List.fold_left (limit_room d) (sl_limits slot) room)))
      end
  end.

(** The children that [start] reserves. *)
Definition reserved_children (r : run) (child_capacity : option Z) : option Z :=
  if bool_decide (r_orchestration r = ObjectiveRun) then child_capacity else Some 0.

(** ** Run budgets *)

Record RunUsage := {
  ru_admitted_assignments : Z;
  ru_supervision_assignments : Z;
  ru_observed_tokens : option Z;
  ru_usage_uncertain : bool }.

Definition run_usage (d : DB) (r : run) : RunUsage :=
  let started := List.filter (fun a => bool_decide (a_run_id a = r_id r) && present (a_started_at a))
                   (map snd (map_to_list (tb_assignment d))) in
  let supervisor a := mem "orchestrator" (a_functions a) in
  let used := usage_of d (fun a => bool_decide (a_run_id a = r_id r)) in
  {| ru_admitted_assignments := Z.of_nat (List.length (List.filter (fun a => negb (supervisor a)) started));
     ru_supervision_assignments := Z.of_nat (List.length (List.filter supervisor started));
     ru_observed_tokens := if present (r_token_budget r) then Some (sum_by tokens used) else None;
     ru_usage_uncertain := present (r_token_budget r) && existsb (uncertain_usage d) used |}.

(** A missing total would raise; [run_usage] always has one for a run with a budget. *)
Definition reason (r : run) (u : RunUsage) (now : instant) (already_started supervisory : bool) : option string :=
  if match r_expires_at r with Some t => t <=? now | None => false end then Some "Run admission deadline reached"%string
  else if match r_token_budget r, ru_observed_tokens u with Some b, Some n => b <=? n | _, _ => false end
  then Some "Run token budget reached; unfinished work remains recorded"%string
  else if present (r_token_budget r) && ru_usage_uncertain u
  then Some "Provider usage needs reconciliation before token-budgeted work can resume"%string
  else if negb supervisory && negb already_started
          && match r_max_assignments r with Some m => m <=? ru_admitted_assignments u | None => false end
  then Some "Run assignment limit reached; existing contexts may still resume"%string
  else None.

Definition budget_exhausted (d : DB) (r : run) : bool :=
  match r_token_budget r, ru_observed_tokens (run_usage d r) with Some b, Some n => b <=? n | _, _ => false end.

(** ** What the checks establish *)

Lemma limit_room_le d l n : limit_room d n l <= n.
Proof. unfold limit_room. destruct (maximum l); lia. Qed.

Lemma limit_rooms_le d ls n : List.fold_left (limit_room d) ls n <= n.
Proof.
  revert n. induction ls as [|l ls IH]; intros n; cbn; [lia|].
  specialize (IH (limit_room d n l)). pose proof (limit_room_le d l n). lia.
Qed.

Lemma limit_rooms_each d ls n l m :
  l ∈ ls -> maximum l = Some m -> List.fold_left (limit_room d) ls n <= m - claimed d (rl_id l) - 1.
Proof.
  revert n. induction ls as [|l' ls IH]; intros n; [by intros ?%elem_of_nil|].
  intros [<-|Hin]%elem_of_cons Hm; cbn; [|by apply IH].
  pose proof (limit_rooms_le d ls (limit_room d n l)). unfold limit_room in *. rewrite Hm in *. lia.
Qed.

Lemma blocker_slots_free d item r host q :
  policy r (category item) = Ok (Some q) -> blocker d item r host = Ok None ->
  busy_weight (in_category d (r_id r) (category item)) d < qp_slots q.
Proof.
  intros Hq. unfold blocker. destruct (truthy (a_pause_reason item)); [done|]. rewrite Hq. cbn [rbind].
  unfold blocker_slots. destruct (qp_slots q <=? _) eqn:E; [done|]. intros _. by bools.
Qed.

Lemma limits_available_room d ls l m :
  limits_available d ls = true -> l ∈ ls -> maximum l = Some m -> claimed d (rl_id l) + 1 <= m.
Proof.
  unfold limits_available. rewrite forallb_true, Forall_forall. intros H Hin Hm. specialize (H l Hin).
  rewrite Hm in H. bools. lia.
Qed.

Lemma reserve_nonneg r : 0 <= reserve r.
Proof. unfold reserve. induction (map_to_list (r_queue_policies r)); cbn; lia. Qed.

(** The children a session may run fit beside it in what is free. *)
Lemma native_capacity_room d item r slot c q :
  native_capacity d item r slot = Ok c -> policy r (category item) = Ok (Some q) ->
  0 <= default 0 c
  /\ (default 0 c = 0 \/
      (default 0 c <= qp_slots q - busy_weight (in_category d (r_id r) (category item)) d - 1
       /\ default 0 c <= Z.max 1 (sl_execution_slots slot) - busy_weight (on_harness (sl_host_id slot) (sl_harness_id slot)) d - 1
       /\ forall l m, l ∈ sl_limits slot -> maximum l = Some m -> default 0 c <= m - claimed d (rl_id l) - 1)).
Proof.
  intros H Hq. unfold native_capacity in H. destruct (sl_max_parallel_subagents slot) as [most|]; [|injection H as <-; split; [done|by left]].
  rewrite Hq in H. cbn [rbind] in H. destruct (mem "planner" (a_functions item)); injection H as <-; [split; [done|by left]|].
  split; [cbn; lia|]. set (room := Z.min _ _). set (n := List.fold_left _ _ room).
  destruct (Z.le_gt_cases n 0); [left; cbn; lia|]. right.
  pose proof (limit_rooms_le d (sl_limits slot) room) as Hle. fold n in Hle.
  pose proof (reserve_nonneg r) as Hr.
  repeat split.
  - cbn. subst room. lia.
  - cbn. subst room. destruct (bool_decide (a_role item = Worker)); lia.
  - intros l m Hl Hm. pose proof (limit_rooms_each d (sl_limits slot) room l m Hl Hm) as He. fold n in He. cbn. lia.
Qed.

(** ** Two placements *)

Definition uses (i : uid) (l : resource_limit) : bool := bool_decide (rl_id l = i) && present (maximum l).

Definition uses_of (i : uid) (ls : list resource_limit) : Z := Z.of_nat (List.length (List.filter (uses i) ls)).

(** Limits with one identifier are one row. *)
Definition consistent (ls : list resource_limit) : Prop :=
  forall l l', l ∈ ls -> l' ∈ ls -> rl_id l = rl_id l' -> maximum l = maximum l'.

Definition place (ls : list resource_limit) : gmap uid Z * gmap uid Z := List.fold_left note_limit ls (∅, ∅).

Lemma uses_of_snoc i ls l : uses_of i (ls ++ [l]) = uses_of i ls + if uses i l then 1 else 0.
Proof. unfold uses_of. rewrite List.filter_app, length_app. cbn. destruct (uses i l); cbn; lia. Qed.

Lemma place_spec ls :
  consistent ls ->
  (forall i, (place ls).1 !! i = if 0 <? uses_of i ls then Some (uses_of i ls) else None)
  /\ (forall l m, l ∈ ls -> maximum l = Some m -> (place ls).2 !! rl_id l = Some m).
Proof.
  induction ls as [|l ls IH] using rev_ind; intros Hc.
  - split; [intros i; unfold uses_of; cbn; apply lookup_empty|by intros ?? ?%elem_of_nil].
  - destruct IH as [H1 H2].
    { intros a b Ha Hb. apply Hc; apply elem_of_app; by left. }
    assert (place (ls ++ [l]) = note_limit (place ls) l) as -> by (unfold place; by rewrite fold_left_app).
    unfold note_limit. destruct (maximum l) as [m|] eqn:Em; cbn.
    + split.
      * intros i. rewrite uses_of_snoc. unfold uses. rewrite Em. cbn [present]. rewrite andb_true_r.
        rewrite lookup_insert. case_decide as Ei.
        -- subst i. rewrite bool_decide_eq_true_2, H1 by done.
           assert (0 <= uses_of (rl_id l) ls) by (unfold uses_of; lia).
           destruct (0 <? uses_of (rl_id l) ls) eqn:E; bools; cbn [default];
             (destruct (0 <? uses_of (rl_id l) ls + 1) eqn:E'; bools; [f_equal; cbn; lia|lia]).
        -- rewrite bool_decide_eq_false_2, Z.add_0_r by done. apply H1.
      * intros l' m' Hin Hm'. rewrite lookup_insert. case_decide as Ei.
        -- assert (maximum l = maximum l') as E; [|congruence].
           apply Hc; [apply elem_of_app; right; by apply list_elem_of_singleton|done|done].
        -- apply H2; [|done]. apply elem_of_app in Hin as [?| ->%list_elem_of_singleton]; done.
    + split.
      * intros i. rewrite uses_of_snoc. unfold uses. rewrite Em. cbn [present].
        rewrite andb_false_r, Z.add_0_r. apply H1.
      * intros l' m' Hin Hm'. apply H2; [|done].
        apply elem_of_app in Hin as [?| ->%list_elem_of_singleton]; [done|congruence].
Qed.

Lemma uses_of_in ls l m : l ∈ ls -> maximum l = Some m -> 0 < uses_of (rl_id l) ls.
Proof.
  intros Hin Hm. unfold uses_of. assert (In l (List.filter (uses (rl_id l)) ls)) as H.
  { apply filter_In. split; [by apply list_elem_of_In|]. unfold uses. rewrite Hm. by rewrite bool_decide_eq_true_2. }
  destruct (List.filter _ ls); cbn in *; [done|lia].
Qed.

Lemma pair_fits_spec first second :
  consistent (sl_limits first ++ sl_limits second) ->
  pair_fits first second = true <->
  forall l m, l ∈ sl_limits first ++ sl_limits second -> maximum l = Some m ->
    uses_of (rl_id l) (sl_limits first ++ sl_limits second) <= m.
Proof.
  intros Hc. unfold pair_fits. destruct (place_spec _ Hc) as [H1 H2]. unfold place in *.
  set (ls := sl_limits first ++ sl_limits second) in *. destruct (List.fold_left note_limit ls (∅, ∅)) as [needed maxima].
  cbn in H1, H2. rewrite forallb_true, Forall_forall. split.
  - intros H l m Hin Hm. specialize (H (rl_id l, uses_of (rl_id l) ls)). rewrite elem_of_map_to_list in H.
    rewrite (H2 l m Hin Hm), Z.leb_le in H. apply H. rewrite H1.
    pose proof (uses_of_in ls l m Hin Hm). by rewrite (proj2 (Z.ltb_lt _ _)).
  - intros H [i n]. rewrite elem_of_map_to_list, H1. destruct (0 <? uses_of i ls) eqn:E; [|done]. intros [= <-].
    assert (exists l, l ∈ ls /\ uses i l = true) as (l & Hin & Hu).
    { bools. unfold uses_of in E. destruct (List.filter (uses i) ls) as [|l k] eqn:Ef; cbn in E; [lia|]. exists l.
      assert (In l (List.filter (uses i) ls)) as [? ?]%filter_In by (rewrite Ef; by left). by rewrite list_elem_of_In. }
    unfold uses, present in Hu. bools. subst i. destruct (maximum l) as [m|] eqn:Em; [|done].
    rewrite (H2 l m Hin Em), Z.leb_le. by apply H.
Qed.

(** ** Properties *)

(** The session with the children that [start] reserves for it fits in the free slots of its
    category, of its host's harness, and of every shared limit attached to the slot, when the
    checks of [claim] found one free place in each. *)
Lemma start_fits d item r slot c :
  0 < sl_execution_slots slot ->
  (forall q, policy r (category item) = Ok (Some q) -> busy_weight (in_category d (r_id r) (category item)) d < qp_slots q) ->
  busy_weight (on_harness (sl_host_id slot) (sl_harness_id slot)) d < sl_execution_slots slot ->
  limits_available d (sl_limits slot) = true -> native_capacity d item r slot = Ok c ->
  let n := default 0 (reserved_children r c) in
  0 <= n
  /\ (forall q, policy r (category item) = Ok (Some q) ->
        busy_weight (in_category d (r_id r) (category item)) d + (1 + n) <= qp_slots q)
  /\ busy_weight (on_harness (sl_host_id slot) (sl_harness_id slot)) d + (1 + n) <= sl_execution_slots slot
  /\ forall l m, l ∈ sl_limits slot -> maximum l = Some m -> claimed d (rl_id l) + (1 + n) <= m.
Proof.
  intros Hs Hc Hb Hl Hn. assert (forall l m, l ∈ sl_limits slot -> maximum l = Some m -> claimed d (rl_id l) + 1 <= m) as Hl1.
  { intros l m. by apply limits_available_room. }
  unfold reserved_children. case_bool_decide as Ho.
  - destruct (policy r (category item)) as [[q|]|e] eqn:Hq.
    + destruct (native_capacity_room d item r slot c q Hn Hq) as (H0 & H1). specialize (Hc q eq_refl).
      split; [done|]. split; [intros q' [= <-]; lia|]. split; [lia|]. intros l m Hin Hm. specialize (Hl1 l m Hin Hm).
      destruct H1 as [?|(_ & _ & H1)]; [lia|]. specialize (H1 l m Hin Hm). lia.
    + unfold policy in Hq. rewrite bool_decide_eq_true_2 in Hq by done. by destruct (r_queue_policies r !! category item).
    + unfold native_capacity in Hn. rewrite Hq in Hn. destruct (sl_max_parallel_subagents slot); [done|]. injection Hn as <-. cbn.
      split; [done|]. split; [done|]. split; [lia|]. intros l m Hin Hm. specialize (Hl1 l m Hin Hm). lia.
  - cbn. split; [done|]. split; [intros q Hq; specialize (Hc q Hq); lia|]. split; [lia|]. intros l m Hin Hm.
    specialize (Hl1 l m Hin Hm). lia.
Qed.

(** A candidate that nothing blocks leaves room in its category. *)
Lemma blocker_truthy d item r host o : blocker d item r host = Ok o -> truthy o = None -> o = None.
Proof.
  assert (forall (a b : string), b <> EmptyString -> truthy (Some (a +:+ b)%string) <> None) as Hs.
  { intros [|] b Hb E; [by destruct b|done]. }
  intros H Ht. destruct o as [s|]; [exfalso|done]. unfold blocker in H.
  destruct (truthy (a_pause_reason item)); [by injection H as <-|]. destruct (policy r (category item)) as [[q|]|]; cbn in H; try done.
  injection H as H. unfold blocker_slots, blocker_sessions, blocker_tokens, blocker_host in H.
  repeat (case_match || cbn [or_else] in H || simplify_eq); (discriminate || (revert Ht; apply Hs; discriminate)).
Qed.

Definition sample_slot : Slot :=
  {| sl_host_id := 90; sl_harness_id := 92; sl_execution_slots := 4; sl_max_parallel_subagents := Some 9;
     sl_limits := [{| rl_id := 30; rl_created_at := 0; rl_updated_at := 0; rl_revision := 1; rl_kind := ProviderAccount;
                      rl_slug := "main"; rl_max_concurrent := Some 3; rl_cooldown_until := None;
                      rl_failure_count := 0; rl_circuit_open := false; rl_circuit_reason := None |}] |}.

(** [two_usable_slots] is exact: it answers yes precisely when two executions can be placed at
    once, on two rows or twice on a row with two slots, so that no shared limit is used more
    often than it allows; a limit recovering from a failure allows one. *)
Theorem two_usable_slots_exact capacity :
  (forall a b, a ∈ capacity -> b ∈ capacity -> consistent (sl_limits a ++ sl_limits b)) ->
  two_usable_slots capacity = true <->
  exists i j a b, (i <= j)%nat /\ capacity !! i = Some a /\ capacity !! j = Some b
    /\ (i = j -> 2 <= sl_execution_slots a)
    /\ forall l m, l ∈ sl_limits a ++ sl_limits b -> maximum l = Some m ->
         uses_of (rl_id l) (sl_limits a ++ sl_limits b) <= m.
Proof.
  induction capacity as [|s rest IH]; intros Hc.
  { split; [done|]. intros (i & j & a & b & _ & Hi & _). by rewrite lookup_nil in Hi. }
  cbn [two_usable_slots]. rewrite !orb_true_iff, andb_true_iff, Z.leb_le, existsb_true, Exists_exists, IH.
  2: { intros a b Ha Hb. apply Hc; by right. }
  split.
  - intros [[[Hs Hp]|(b & Hb & Hp)]|(i & j & a & b & Hij & Hi & Hj & Hs & Hf)].
    + exists O, O, s, s. rewrite pair_fits_spec in Hp by (apply Hc; by left). repeat split; try done; lia.
    + apply list_elem_of_lookup in Hb as [j Hj]. exists O, (S j), s, b.
      rewrite pair_fits_spec in Hp by (apply Hc; [by left|right; by eapply list_elem_of_lookup_2]). repeat split; try done; lia.
    + exists (S i), (S j), a, b. split; [lia|]. split; [done|]. split; [done|]. split; [|done]. intros E. apply Hs. lia.
  - intros (i & j & a & b & Hij & Hi & Hj & Hs & Hf). destruct i as [|i].
    + injection Hi as <-. left. destruct j as [|j].
      * injection Hj as <-. left. split; [by apply Hs|]. rewrite pair_fits_spec by (apply Hc; by left). done.
      * right. exists b. cbn in Hj. apply list_elem_of_lookup_2 in Hj. split; [done|].
        rewrite pair_fits_spec by (apply Hc; [by left|by right]). done.
    + destruct j as [|j]; [lia|]. right. exists i, j, a, b.
      split; [lia|]. split; [done|]. split; [done|]. split; [|done]. intros E. apply Hs. lia.
Qed.

Lemma two_usable_slots_exact_witness :
  two_usable_slots [sample_slot] = true
  /\ exists i j a b, (i <= j)%nat /\ [sample_slot] !! i = Some a /\ [sample_slot] !! j = Some b
    /\ (i = j -> 2 <= sl_execution_slots a)
    /\ forall l m, l ∈ sl_limits a ++ sl_limits b -> maximum l = Some m ->
         uses_of (rl_id l) (sl_limits a ++ sl_limits b) <= m.
Proof.
  split; [reflexivity|]. apply two_usable_slots_exact; [|reflexivity].
  intros a b ->%list_elem_of_singleton ->%list_elem_of_singleton l l' Hl Hl' _. cbn in Hl, Hl'.
  repeat (apply elem_of_cons in Hl as [->|Hl]; [|]); try by apply elem_of_nil in Hl.
  all: repeat (apply elem_of_cons in Hl' as [->|Hl']; [reflexivity|]); by apply elem_of_nil in Hl'.
Defined.
