(* ===== verification/Queue.v ===== *)
(** * The assignment queue

    The queue order of a run and the commands [move_before] and [move_after] of
    src/archon_horizon/pipeline/commands.py. *)

From S2P Require Import Prelude Contracts Schema Records Auth Samples MissionTree Missions Ledger.

(** ** Order *)

(** [ORDER BY queue_rank, id]. *)
Definition rank_leb (a b : assignment) : bool :=
  (a_queue_rank a <? a_queue_rank b) || ((a_queue_rank a =? a_queue_rank b) && (a_id a <=? a_id b)%positive).

Definition pending_in (run : uid) (a : assignment) : bool :=
  bool_decide (a_run_id a = run) && bool_decide (a_status a = Pending).

Definition queue (d : DB) (run : uid) : list assignment :=
  sort_by rank_leb (List.filter (pending_in run) (map snd (map_to_list (tb_assignment d)))).

Definition queue_ids (d : DB) (run : uid) : list uid := map a_id (queue d run).

(** [order.index(x)]. *)
Fixpoint index_of (x : uid) (l : list uid) : option nat :=
  match l with
  | [] => None
  | y :: l => if bool_decide (y = x) then Some O else S <$> index_of x l
  end.

(** [order.insert(n, x)]. *)
Definition insert_at (n : nat) (x : uid) (l : list uid) : list uid := take n l ++ x :: drop n l.

(** ** Moving *)

Definition set_rank (n : Z) (a : assignment) : assignment := a <| a_queue_rank := n |>.

(** [for index, item_id in enumerate(order): change(..., queue_rank=(index + 1) * 1024)]. *)
Fixpoint renumber (n : Z) (order : list uid) : M unit :=
  match order with
  | [] => mret tt
  | i :: order => _ ← change i None (set_rank ((n + 1) * 1024)); renumber (n + 1) order
  end.

Definition reorder (after : bool) (i other : uid) (run : uid) : M unit :=
  ids ← ask (fun d => queue_ids d run);
  let order := List.filter (fun j => negb (bool_decide (j = i))) ids in
  match index_of other order with
  | None => throw (RuntimeFailure "index")
  | Some n => renumber 0 (insert_at (if after then S n else n) i order)
  end.

Definition move_assignment (actor : Actor) (after : bool) (i : uid) (expected : Z) (other : uid) : M assignment :=
  old ← get i;
  p ← scoped Kassignment i;
  require_project actor p WorkerGrant ;;
  require_assignment_authority actor old ;;
  refuse (negb (a_revision old =? expected)) "revision_conflict" 409 ;;
  refuse (negb (bool_decide (a_status old = Pending))) "not_pending" 409 ;;
  target ← get other;
  refuse (negb (bool_decide (a_run_id target = a_run_id old)) || negb (bool_decide (a_status target = Pending))
          || bool_decide (a_id target = i)) "invalid_neighbor" 422 ;;
  require_assignment_authority actor target ;;
  reorder after i other (a_run_id old) ;;
  row ← get i;
  _ ← emit (Some (actor_id actor)) (Some p) (assignment_subject row) ["other_id"]
        (if bool_decide (a_status row = a_status old) then None else Some (assignment_status_str (a_status old)))
        None None;
  mret row.

(** ** What a move does *)

#[local] Instance rank_total : Total (fun a b => Is_true (rank_leb a b)).
Proof.
  intros a b. unfold rank_leb. rewrite !Is_true_true, !orb_true_iff, !andb_true_iff, !Z.ltb_lt, !Z.eqb_eq, !Pos.leb_le.
  destruct (Z.lt_total (a_queue_rank a) (a_queue_rank b)) as [?|[?|?]]; [auto| |auto].
  destruct (Pos.le_total (a_id a) (a_id b)); [left|right]; right; auto.
Qed.

#[local] Instance rank_trans : Transitive (fun a b => Is_true (rank_leb a b)).
Proof.
  intros a b c. unfold rank_leb. rewrite !Is_true_true, !orb_true_iff, !andb_true_iff, !Z.ltb_lt, !Z.eqb_eq, !Pos.leb_le. lia.
Qed.

Definition ids_wf (d : DB) : Prop := forall i a, tb_assignment d !! i = Some a -> a_id a = i.

Lemma elem_of_queue d run a : a ∈ queue d run <-> pending_in run a = true /\ exists i, tb_assignment d !! i = Some a.
Proof. unfold queue. rewrite (sort_by_Permutation rank_leb). exact (elem_of_select (pending_in run) d a). Qed.

Lemma queue_NoDup d run : ids_wf d -> NoDup (queue_ids d run).
Proof.
  intros Hw. unfold queue_ids, queue. rewrite (sort_by_Permutation rank_leb).
  exact (select_NoDup (pending_in run) d Hw).
Qed.

(** A list of rows in rank order is the queue when it has the queue's rows. *)
Lemma queue_unique d run l :
  ids_wf d -> (forall a, a ∈ l <-> a ∈ queue d run) -> NoDup l -> StronglySorted (fun a b => Is_true (rank_leb a b)) l ->
  l = queue d run.
Proof.
  intros Hw Hin Hnd Hs. eapply StronglySorted_unique_strong; [|exact Hs|apply StronglySorted_merge_sort; apply _|].
  - intros a b [_ [i Hi]]%Hin%elem_of_queue [_ [j Hj]]%elem_of_queue.
    unfold rank_leb. rewrite !Is_true_true, !orb_true_iff, !andb_true_iff, !Z.ltb_lt, !Z.eqb_eq, !Pos.leb_le.
    intros H1 H2. assert (a_id a = a_id b) as E by lia. rewrite (Hw i a Hi), (Hw j b Hj) in E. congruence.
  - apply NoDup_Permutation; [done| |done]. apply (NoDup_fmap_1 a_id). by apply queue_NoDup.
Qed.

Lemma renumber_spec n order d u d' :
  renumber n order d = Ok (u, d') -> NoDup order ->
  exists l, Forall2 (fun i a' => tb_assignment d' !! i = Some a' /\
                       exists a m, tb_assignment d !! i = Some a /\ a' = touch (db_now d) (set_rank m a)) order l
    /\ StronglySorted (fun a b => Is_true (rank_leb a b)) l
    /\ Forall (fun a => (n + 1) * 1024 <= a_queue_rank a) l
    /\ (forall j, j ∉ order -> tb_assignment d' !! j = tb_assignment d !! j).
Proof.
  revert n d. induction order as [|i order IH]; intros n d H Hnd; cbn in H.
  { apply ret_Ok in H as [_ ->]. exists []. repeat split; constructor. }
  apply NoDup_cons in Hnd as [Hi Hnd].
  apply bind_Ok in H as (row & d1 & (a & Ha & _ & -> & ->)%change_Ok & H). cbn in Ha.
  destruct (IH (n + 1) _ H Hnd) as (l & Hl & Hs & Hr & Hrest). cbn in Hl, Hrest.
  exists (touch (db_now d) (set_rank ((n + 1) * 1024) a) :: l). repeat split.
  - constructor.
    + split; [|by exists a, ((n + 1) * 1024)]. rewrite Hrest by done. apply lookup_insert_eq.
    + eapply Forall2_impl; [|intros x y Hxy; exact Hxy].
      apply Forall2_same_length_lookup. split; [by eapply Forall2_length|].
      intros k x y Hx Hy. destruct (Forall2_lookup_lr _ _ _ _ _ _ Hl Hx Hy) as (H1 & b & m & Hb & ->).
      split; [done|]. exists b, m. split; [|done]. rewrite lookup_insert_ne in Hb; [done|].
      intros ->. apply Hi. by eapply list_elem_of_lookup_2.
  - constructor; [done|]. eapply Forall_impl; [exact Hr|]. intros b Hb. cbn in Hb.
    unfold rank_leb. apply Is_true_true. cbn. apply orb_true_iff. left. apply Z.ltb_lt. lia.
  - constructor; [cbn; lia|]. eapply Forall_impl; [exact Hr|]. cbn. intros b Hb. lia.
  - intros j [Hj Hj']%not_elem_of_cons. rewrite Hrest by done. by rewrite lookup_insert_ne.
Qed.

(** The queue after ranks were dealt to [order], a rearrangement of the queue. *)
Lemma renumber_queue order run d u d' :
  renumber 0 order d = Ok (u, d') -> ids_wf d -> order ≡ₚ queue_ids d run ->
  ids_wf d' /\ queue_ids d' run = order /\ forall run', run' <> run -> queue_ids d' run' = queue_ids d run'.
Proof.
  intros H Hw Hp. pose proof (queue_NoDup d run Hw) as Hnd.
  destruct (renumber_spec 0 order d u d' H) as (l & Hl & Hs & _ & Hrest); [by rewrite Hp|].
  assert (ids_wf d') as Hw'.
  { intros i a Hi. destruct (decide (i ∈ order)) as [Hin|Hin]; [|rewrite Hrest in Hi by done; by apply Hw].
    apply list_elem_of_lookup in Hin as [k Hk]. destruct (Forall2_lookup_l _ _ _ _ _ Hl Hk) as (a' & _ & Ha' & b & m & Hb & ->).
    rewrite Hi in Ha'. injection Ha' as ->. cbn. by apply Hw. }
  assert (map a_id l = order) as Hids.
  { clear -Hl Hw'. induction Hl as [|i a order l [Ha _] _ IH]; [done|]. cbn. f_equal; [by apply Hw'|done]. }
  assert (forall i a', tb_assignment d' !! i = Some a' -> exists a, tb_assignment d !! i = Some a
    /\ a_run_id a' = a_run_id a /\ a_status a' = a_status a) as Hback.
  { intros i a' Hi. destruct (decide (i ∈ order)) as [Hin|Hin]; [|rewrite Hrest in Hi by done; by exists a'].
    apply list_elem_of_lookup in Hin as [k Hk]. destruct (Forall2_lookup_l _ _ _ _ _ Hl Hk) as (b' & _ & Hb' & b & m & Hb & ->).
    rewrite Hi in Hb'. injection Hb' as ->. by exists b. }
  assert (forall j, j ∈ order <-> exists a, tb_assignment d !! j = Some a /\ pending_in run a = true) as Hord.
  { intros j. rewrite Hp. unfold queue_ids. rewrite list_elem_of_fmap. split.
    - intros (a & -> & [Hq [i Hi]]%elem_of_queue). exists a. by rewrite (Hw i a Hi).
    - intros (a & Hj & Hq). exists a. rewrite (Hw j a Hj). split; [done|]. apply elem_of_queue. eauto. }
  split; [done|]. split.
  - unfold queue_ids. rewrite <- Hids. f_equal. symmetry. apply queue_unique; [done| | |done].
    + intros a'. rewrite elem_of_queue. split.
      * intros Hin. apply list_elem_of_lookup in Hin as [k Hk].
        destruct (Forall2_lookup_r _ _ _ _ _ Hl Hk) as (i & Hi & Ha' & a & m & Ha & ->).
        apply list_elem_of_lookup_2, Hord in Hi as (b & Hb & Hq). rewrite Ha in Hb. injection Hb as <-. eauto.
      * intros (Hq & i & Hi). destruct (Hback i a' Hi) as (a & Ha & Hr & Hst).
        assert (i ∈ order) as Hin by (apply Hord; exists a; split; [done|]; unfold pending_in in *; by rewrite <- Hr, <- Hst).
        apply list_elem_of_lookup in Hin as [k Hk]. destruct (Forall2_lookup_l _ _ _ _ _ Hl Hk) as (b & Hb & Hb' & _).
        rewrite Hi in Hb'. injection Hb' as <-. by eapply list_elem_of_lookup_2.
    + apply (NoDup_fmap_1 a_id). change (NoDup (map a_id l)). rewrite Hids. by rewrite Hp.
  - intros run' Hne. unfold queue_ids. f_equal. symmetry. apply queue_unique; [done| | |].
    + intros a'. rewrite !elem_of_queue. split.
      * intros (Hq & i & Hi). split; [done|]. exists i. rewrite Hrest; [done|].
        intros (b & Hb & Hq')%Hord. rewrite Hi in Hb. injection Hb as <-. unfold pending_in in *. bools. congruence.
      * intros (Hq & i & Hi). split; [done|]. exists i. rewrite <- Hi. symmetry. apply Hrest.
        intros (b & Hb & Hq')%Hord. destruct (Hback i a' Hi) as (a & Ha & Hr & Hst). rewrite Ha in Hb. injection Hb as <-.
        unfold pending_in in *. bools. congruence.
    + apply (NoDup_fmap_1 a_id). by apply queue_NoDup.
    + apply StronglySorted_merge_sort; apply _.
Qed.

Lemma index_of_split x l n : index_of x l = Some n -> exists l1 l2, l = l1 ++ x :: l2 /\ List.length l1 = n.
Proof.
  revert n. induction l as [|y l IH]; intros n; cbn; [done|]. case_bool_decide as E; subst.
  - intros [= <-]. by exists [], l.
  - destruct (index_of x l) as [k|] eqn:Ek; cbn; [|done]. intros [= <-]. destruct (IH k eq_refl) as (l1 & l2 & -> & <-).
    by exists (y :: l1), l2.
Qed.

Lemma insert_at_split x (after : bool) other l1 l2 :
  insert_at (if after then S (List.length l1) else List.length l1) x (l1 ++ other :: l2)
  = if after then l1 ++ other :: x :: l2 else l1 ++ x :: other :: l2.
Proof.
  unfold insert_at. destruct after.
  - rewrite (take_app_ge l1), (drop_app_ge l1) by lia.
    assert (S (List.length l1) - List.length l1 = 1)%nat as -> by lia. cbn. by rewrite <- app_assoc.
  - rewrite take_app_length, drop_app_length. done.
Qed.

Lemma without_Permutation (i : uid) l : NoDup l -> i ∈ l -> l ≡ₚ i :: List.filter (fun j => negb (bool_decide (j = i))) l.
Proof.
  induction l as [|x l IH]; intros Hnd Hi; [by apply elem_of_nil in Hi|]. apply NoDup_cons in Hnd as [Hx Hnd]. cbn.
  destruct (bool_decide (x = i)) eqn:E; bools; cbn.
  - subst x. constructor. clear IH Hi. induction l as [|y l IH]; [done|]. cbn.
    apply not_elem_of_cons in Hx as [Hy Hx]. apply NoDup_cons in Hnd as [_ Hnd].
    rewrite bool_decide_eq_false_2 by done. cbn. constructor. by apply IH.
  - apply elem_of_cons in Hi as [->|Hi]; [done|]. etrans; [constructor; by apply IH|]. constructor.
Qed.

(** ** Properties *)

(** A move does exactly what it says: the run's pending queue afterwards is the old queue with
    the assignment taken out and put back directly before (or after) its new neighbour, and the
    queue of every other run is unchanged. *)
Theorem move_assignment_places actor after i expected other d row d' :
  ids_wf d -> move_assignment actor after i expected other d = Ok (row, d') ->
  exists a l1 l2, tb_assignment d !! i = Some a
    /\ List.filter (fun j => negb (bool_decide (j = i))) (queue_ids d (a_run_id a)) = l1 ++ other :: l2
    /\ queue_ids d' (a_run_id a) = (if after then l1 ++ other :: i :: l2 else l1 ++ i :: other :: l2)
    /\ forall run, run <> a_run_id a -> queue_ids d' run = queue_ids d run.
Proof.
  unfold move_assignment. intros Hw H.
  apply bind_Ok in H as (a & ? & [Ha ->]%get_Ok & H). cbn in Ha.
  apply bind_Ok in H as (p & d1 & Hx & H). apply read_only in Hx as ->; [|frame].
  apply bind_Ok in H as (? & ? & ->%require_project_reads & H).
  apply bind_Ok in H as (? & d1 & Hx & H). apply read_only in Hx as ->; [|frame].
  apply bind_Ok in H as (? & ? & [_ ->]%refuse_Ok & H).
  apply bind_Ok in H as (? & ? & [Hst ->]%refuse_Ok & H).
  apply bind_Ok in H as (target & ? & [Ht ->]%get_Ok & H).
  apply bind_Ok in H as (? & ? & [Hn ->]%refuse_Ok & H).
  apply bind_Ok in H as (? & d1 & Hx & H). apply read_only in Hx as ->; [|frame].
  apply bind_Ok in H as (? & d1 & Hre & H). unfold reorder in Hre.
  apply bind_Ok in Hre as (ids & ? & [-> ->]%ask_Ok & Hre).
  destruct (index_of other _) as [n|] eqn:Ei; [|done].
  apply index_of_split in Ei as (l1 & l2 & E & <-). rewrite E in Hre.
  assert (i ∈ queue_ids d (a_run_id a)) as Hin.
  { unfold queue_ids. apply list_elem_of_fmap. exists a. rewrite (Hw i a Ha). split; [done|].
    apply elem_of_queue. unfold pending_in. bools. rewrite !bool_decide_eq_true_2 by done. eauto. }
  rewrite insert_at_split in Hre.
  eapply (renumber_queue _ (a_run_id a)) in Hre as (Hw' & Hq & Hother); [|done|].
  - apply bind_Ok in H as (row' & ? & [_ ->]%get_Ok & H).
    apply bind_Ok in H as (? & d2 & Hem & [_ ->]%ret_Ok).
    assert (tb_assignment d2 = tb_assignment d1) as Eq.
    { assert (Frame tb_assignment (emit (Some (actor_id actor)) (Some p) (assignment_subject row') ["other_id"]
        (if bool_decide (a_status row' = a_status a) then None else Some (assignment_status_str (a_status a))) None None)) as K by frame.
      by apply K in Hem. }
    exists a, l1, l2. split; [done|]. split; [done|]. unfold queue_ids, queue in *. rewrite Eq. by split.
  - rewrite (without_Permutation i (queue_ids d (a_run_id a))) by (done || by apply queue_NoDup). rewrite E.
    destruct after; [|by rewrite Permutation_middle].
    transitivity (i :: (l1 ++ [other]) ++ l2); [|by rewrite <- app_assoc]. by rewrite Permutation_middle, <- app_assoc.
Qed.

Definition queue_db : DB :=
  sample_db <| tb_assignment := <[11%positive := sample_assignment 11 5 4 Pending]>
                                (<[10%positive := sample_assignment 10 5 4 Pending]>
                                (<[9%positive := sample_assignment 9 5 4 Pending]> (tb_assignment sample_db))) |>.

Lemma queue_db_ids : ids_wf queue_db.
Proof.
  intros i a. cbn. intros [[<- <-]|[_ [[<- <-]|[_ [[<- <-]|[_ [<- <-]%lookup_singleton_Some]]%lookup_insert_Some]]%lookup_insert_Some]]%lookup_insert_Some; done.
Qed.

Lemma move_assignment_places_witness :
  exists row d', move_assignment admin false 11 1 9 queue_db = Ok (row, d')
    /\ queue_ids queue_db 5 = [9; 10; 11]%positive /\ queue_ids d' 5 = [11; 9; 10]%positive
    /\ (forall run, run <> 5%positive -> queue_ids d' run = queue_ids queue_db run).
Proof.
  destruct (is_ok_true (move_assignment admin false 11 1 9 queue_db)) as [[row d'] E]; [by vm_compute|].
  destruct (move_assignment_places admin false 11 1 9 queue_db row d' queue_db_ids E) as (a & l1 & l2 & Ha & _ & _ & Ho).
  exists row, d'. split; [exact E|]. split; [by vm_compute|].
  vm_compute in Ha. injection Ha as <-. split; [|exact Ho]. vm_compute in E. injection E as _ <-. by vm_compute.
Defined.
