(* ===== verification/Sessions.v ===== *)
(** * Recovering sessions

    The lifecycle commands of src/archon_horizon/pipeline/commands.py that stop, resume or
    replace a session: [confirm_host_stopped], [recover_context], [resume_session],
    [retry_assignment], [resume_assignment], [reset_circuit] and [retry_publication], with
    [restore_recurring_assignment].  Each definition is the whole command: the argument
    contract, the common head of [execute] (lookup, scope, authority, expected revision), the
    branch and the closing event.

    Two partial unique indexes of persistence/schema.py bear on these commands and are part of
    the model: a live recurrence key names one assignment, and an assignment has one live
    primary context.  A violation is an integrity error of the database. *)

From S2P Require Import Prelude Contracts Schema Records Auth Samples MissionTree Missions Ledger Usage Capacity.

(** ** Shared steps *)

Definition open_assignment (actor : Actor) (i : uid) (expected : Z) : M (assignment * uid) :=
  old ← get i;
  p ← scoped Kassignment i;
  require_project actor p WorkerGrant ;;
  require_assignment_authority actor old ;;
  refuse (negb (a_revision old =? expected)) "revision_conflict" 409 ;;
  mret (old, p).

(** The [emit] that ends [execute], on an assignment. *)
Definition report_assignment (actor : Actor) (p : uid) (old row : assignment) (args : list string)
    (note : option string) : M unit :=
  _ ← emit (Some (actor_id actor)) (Some p) (assignment_subject row)
        (match args with [] => ["status"] | _ => args end)
        (if bool_decide (a_status row = a_status old) then None else Some (assignment_status_str (a_status old)))
        None note;
  mret tt.

Definition is_objective (r : run) : bool := bool_decide (r_orchestration r = ObjectiveRun).

(** The index [uq_assignment_recurrence]. *)
Definition same_recurrence (row a : assignment) : bool :=
  negb (bool_decide (a_id a = a_id row)) && live_assignment a && present (a_recurrence_key a)
  && bool_decide (a_recurrence_key a = a_recurrence_key row).

Definition check_recurrence (row : assignment) : M unit :=
  clash ← any (same_recurrence row);
  if (clash && live_assignment row : bool) then throw (RuntimeFailure "uq_assignment_recurrence") else mret tt.

Definition change_assignment (i : uid) (expected : option Z) (f : assignment -> assignment) : M assignment :=
  row ← change i expected f;
  check_recurrence row ;;
  mret row.

(** ** Physical stops *)

Definition unsettled_of (i : uid) (q : provider_request) : bool :=
  bool_decide (q_execution_id q = i) && unsettled_request q.

Definition open_claim (i : uid) (c : resource_claim) : bool :=
  bool_decide (cl_execution_id c = i) && negb (present (cl_released_at c)).

Definition live_thread (t : provider_thread) : bool := mem (t_status t) [Creating; Available].

Definition is_primary (t : provider_thread) : bool := bool_decide (t_kind t = Primary).

(** A context of the execution that the provider never acknowledged. *)
Definition prelaunch_thread (d : DB) (i assignment : uid) (t : provider_thread) : bool :=
  bool_decide (t_assignment_id t = assignment) && is_primary t && negb (present (t_provider_thread_id t)) && live_thread t
  && existsb (fun q => bool_decide (q_execution_id q = i) && bool_decide (q_provider_thread_id q = t_id t))
       (map snd (map_to_list (tb_provider_request d))).

Definition newline : string := String (Ascii.ascii_of_nat 10) EmptyString.

Definition over (n : Z) (s : string) : bool := n <? Z.of_nat (String.length s).

Definition confirm_host_stopped (actor : Actor) (i : uid) (expected : Z) (note evidence : string) (machine_fenced : bool)
    : M execution :=
  refuse (negb (nonblank evidence)) "invalid_arguments" 422 ;;
  old ← (get i : M execution);
  p ← scoped Kexecution i;
  require_project actor p WorkerGrant ;;
  refuse (negb (x_revision old =? expected)) "revision_conflict" 409 ;;
  require_admin actor ;;
  refuse (negb machine_fenced || blank note || over 16000 note || blank evidence || over 16000 evidence)
         "physical_fencing_required" 422 ;;
  refuse (negb (mem (x_status old) [XLost; XCancelled]) || present (x_stop_confirmed_at old))
         "invalid_stop_confirmation" 409 ;;
  now ← ask db_now;
  row ← change i (Some expected) (fun x => x <| x_stop_confirmed_at := Some now |>);
  update_where (unsettled_of i) (fun q => q <| q_status := QInterrupted |> <| q_finished_at := Some now |>) ;;
  update_where (open_claim i) (fun c => c <| cl_released_at := Some now |>) ;;
  d ← ask id;
  update_where (prelaunch_thread d i (x_assignment_id old)) (fun t => t <| t_status := Unavailable |>) ;;
  a ← get (x_assignment_id old);
  _ ← emit (Some (actor_id actor)) (Some p) (assignment_subject a) ["physical_stop_confirmed"] None (Some i)
        (Some ("Operator confirmed physical fencing: " +:+ note +:+ newline +:+ "Evidence: " +:+ evidence)%string);
  mret row.

(** ** Replacing a provider context *)

Definition execution_of (assignment : uid) (x : execution) : bool := bool_decide (x_assignment_id x = assignment).

Definition outstanding_request (d : DB) (assignment : uid) (q : provider_request) : bool :=
  match tb_provider_thread d !! q_provider_thread_id q with
  | Some t => bool_decide (t_assignment_id t = assignment) && unsettled_request q
  | None => false
  end.

Definition replacement_thread (old : provider_thread) (a : uid) (note : string) (n : Z) (i : uid) (now : instant)
    : provider_thread :=
  {| t_id := i; t_created_at := now; t_updated_at := now; t_revision := 1; t_assignment_id := a; t_number := n;
     t_label := None; t_description := None; t_kind := Primary; t_parent_request_id := None;
     t_workspace_id := t_workspace_id old; t_harness_revision_id := t_harness_revision_id old;
     t_skill_bundle_artifact_id := t_skill_bundle_artifact_id old; t_provider_thread_id := None;
     t_provider_state_ref := ("assignments/" +:+ uuid_str a +:+ "/recovery/" +:+ uuid_str (t_id old))%string;
     t_predecessor_id := Some (t_id old); t_recovery_note := Some note; t_applied_mission_revision_id := None;
     t_applied_roadmap_snapshot_id := None; t_applied_run_revision := None;
     t_applied_model_options := t_applied_model_options old; t_status := Creating |}.

(** The index [uq_provider_thread_live_primary]. *)
Definition other_live_primary (row t : provider_thread) : bool :=
  negb (bool_decide (t_id t = t_id row)) && bool_decide (t_assignment_id t = t_assignment_id row)
  && is_primary t && live_thread t.

(** The index [uq_provider_request_active]. *)
Definition same_context (row q : provider_request) : bool :=
  negb (bool_decide (q_id q = q_id row)) && bool_decide (q_provider_thread_id q = q_provider_thread_id row) && unsettled_request q.

Definition check_active (row : provider_request) : M unit :=
  clash ← any (same_context row);
  if (clash && unsettled_request row : bool) then throw (RuntimeFailure "uq_provider_request_active") else mret tt.

Definition check_primary (row : provider_thread) : M unit :=
  clash ← any (other_live_primary row);
  if (clash && is_primary row && live_thread row : bool) then throw (RuntimeFailure "uq_provider_thread_live_primary")
  else mret tt.

Definition recover_context (actor : Actor) (i : uid) (expected : Z) (note : string) : M provider_thread :=
  old ← (get i : M provider_thread);
  p ← scoped Kprovider_thread i;
  require_project actor p WorkerGrant ;;
  refuse (negb (t_revision old =? expected)) "revision_conflict" 409 ;;
  require_project actor p MaintainerGrant ;;
  refuse (blank note || negb (is_primary old)) "invalid_recovery" 422 ;;
  a ← (get (t_assignment_id old) : M assignment);
  r ← (get (a_run_id a) : M run);
  unconfirmed ← any (fun x => execution_of (a_id a) x && negb (present (x_stop_confirmed_at x)));
  refuse (is_objective r && unconfirmed) "physical_stop_unconfirmed" 409 ;;
  active ← any (fun x => execution_of (a_id a) x && live_status x);
  refuse (negb (mem (a_status a) [Pending; Failed]) || active) "execution_active" 409 ;;
  replaced ← any (fun t => bool_decide (t_predecessor_id t = Some i));
  refuse replaced "context_replaced" 409 ;;
  d ← ask id;
  outstanding ← any (outstanding_request d (a_id a));
  refuse outstanding "request_unsettled" 409 ;;
  _ ← change i (Some expected) (fun t => t <| t_status := ThreadClosed |>);
  n ← next_number t_number (fun t => bool_decide (t_assignment_id t = a_id a));
  replacement ← create (replacement_thread old (a_id a) note n);
  check_primary replacement ;;
  row ← change_assignment (a_id a) None (fun b =>
    let b := b <| a_status := Pending |> <| a_finished_at := None |> <| a_retry_at := None |>
               <| a_status_note := Some "Provider context explicitly replaced; source and ledger retained" |> in
    if is_objective r then b <| a_pause_reason := None |> else b <| a_recovery_attempts := 0 |>);
  _ ← emit (Some (actor_id actor)) (Some p) (assignment_subject row) ["provider_thread"] None None (Some note);
  mret replacement.

(** ** Resuming an assignment *)

Definition resume_session (actor : Actor) (i : uid) (expected : Z) (note : string) : M assignment :=
  refuse (blank note) "decision_required" 422 ;;
  '(old, p) ← open_assignment actor i expected;
  require_project actor p MaintainerGrant ;;
  refuse (negb (bool_decide (a_status old = Pending)) || negb (present (truthy (a_pause_reason old)))) "session_not_paused" 409 ;;
  r ← (get (a_run_id old) : M run);
  refuse (negb (bool_decide (r_status r = RunActive))) "run_not_active" 409 ;;
  row ← change i (Some expected) (fun a => a <| a_pause_reason := None |> <| a_retry_at := None |>
                                             <| a_not_before := None |> <| a_status_note := Some note |>);
  _ ← snapshot row (actor_id actor);
  report_assignment actor p old row ["note"] (Some note) ;;
  mret row.

(** Another unfinished assignment of the automation. *)
Definition successor (automation own : uid) (a : assignment) : bool :=
  bool_decide (a_automation_id a = Some automation) && negb (bool_decide (a_id a = own)) && live_assignment a.

Definition restore_recurring_assignment (actor : Actor) (a : assignment) (p : uid) : M unit :=
  match a_automation_id a with
  | None => mret tt
  | Some k =>
      au ← (get k : M automation);
      active ← any (successor (au_id au) (a_id a));
      refuse active "active_successor" 409 ;;
      if au_enabled au then mret tt
      else
        resumed ← change (au_id au) (Some (au_revision au)) (fun x => x <| au_enabled := true |>);
        _ ← snapshot resumed (actor_id actor);
        _ ← emit (Some (actor_id actor)) (Some p) (automation_subject resumed) ["enabled"] None None
              (Some ("Explicit recovery of assignment " +:+ uuid_str (a_id a) +:+ " re-enabled its recurring rule")%string);
        mret tt
  end.

Definition retry_assignment (actor : Actor) (i : uid) (expected : Z) : M assignment :=
  '(old, p) ← open_assignment actor i expected;
  refuse (negb (bool_decide (a_status old = Failed))) "invalid_transition" 409 ;;
  r ← (get (a_run_id old) : M run);
  refuse (negb (mem (r_status r) [RunActive; RunPaused])) "run_not_active" 409 ;;
  refuse (is_objective r) "session_preserved" 409 ;;
  restore_recurring_assignment actor old p ;;
  row ← change_assignment i (Some expected) (fun a => a <| a_status := Pending |> <| a_finished_at := None |>
          <| a_retry_at := None |> <| a_recovery_attempts := 0 |> <| a_status_note := Some "Explicit recovery requested" |>);
  report_assignment actor p old row [] None ;;
  mret row.

(** The live primary context that an assignment retains. *)
Definition retained_by (i : uid) (t : provider_thread) : bool :=
  bool_decide (t_assignment_id t = i) && is_primary t && live_thread t.

(** A live primary context of another unfinished assignment in the same workspace. *)
Definition holds_workspace (d : DB) (own w : uid) (t : provider_thread) : bool :=
  bool_decide (t_workspace_id t = w) && is_primary t && live_thread t
  && match tb_assignment d !! t_assignment_id t with
     | Some a => negb (bool_decide (a_id a = own)) && live_assignment a
     | None => false
     end.

Definition check_workspace (i : uid) : M unit :=
  retained ← select (retained_by i);
  match retained with
  | [] => mret tt
  | t :: _ =>
      d ← ask id;
      taken ← any (holds_workspace d i (t_workspace_id t));
      refuse taken "workspace_reassigned" 409
  end.

Definition resume_assignment (actor : Actor) (i : uid) (expected : Z) (note : string) : M assignment :=
  '(old, p) ← open_assignment actor i expected;
  r ← (get (a_run_id old) : M run);
  refuse (is_objective r) "session_settled" 409 ;;
  require_admin actor ;;
  refuse (negb (mem (a_status old) [Completed_; Failed])) "invalid_transition" 409 ;;
  refuse (negb (mem (r_status r) [RunActive; RunPaused])) "run_not_active" 409 ;;
  check_workspace i ;;
  restore_recurring_assignment actor old p ;;
  row ← change_assignment i (Some expected) (fun a => a <| a_status := Pending |> <| a_finished_at := None |>
          <| a_not_before := None |> <| a_start_condition := None |> <| a_checkpoint_requested_at := None |>
          <| a_retry_at := None |> <| a_status_note := Some note |>);
  _ ← snapshot row (actor_id actor);
  report_assignment actor p old row ["note"] (Some note) ;;
  mret row.

(** ** Circuits and publications *)

(** [require_project] on a record of the installation, which has no project. *)
Definition require_installation (actor : Actor) : M unit :=
  admin ← ask (is_admin actor);
  if (admin : bool) then mret tt
  else when (is_agent actor) (_ ← live_execution actor; mret tt) ;; throw (DomainError "forbidden" 403).

Definition reset_circuit (actor : Actor) (i : uid) (expected : Z) (note : string) : M resource_limit :=
  refuse (blank note) "decision_required" 422 ;;
  old ← (get i : M resource_limit);
  require_installation actor ;;
  refuse (negb (rl_revision old =? expected)) "revision_conflict" 409 ;;
  require_admin actor ;;
  row ← change i (Some expected) (fun l => l <| rl_circuit_open := false |> <| rl_circuit_reason := None |>
                                             <| rl_failure_count := 0 |> <| rl_cooldown_until := None |>);
  _ ← emit (Some (actor_id actor)) None {| sub_ref := None; sub_revision := rl_revision row; sub_status := ""; sub_note := None |}
        ["circuit_open"] None None (Some note);
  mret row.

Definition worker_ref (t : PublicationTarget) : bool :=
  match t with
  | GitTarget _ ref _ => starts_with "refs/horizon/" ref || starts_with "refs/heads/horizon/recovery/" ref
  | ArtifactStoreTarget => false
  end.

Definition retry_publication (actor : Actor) (i : uid) (expected : Z) : M publication :=
  old ← (get i : M publication);
  p ← scoped Kpublication i;
  require_project actor p WorkerGrant ;;
  refuse (negb (pb_revision old =? expected)) "revision_conflict" 409 ;;
  refuse (negb (bool_decide (pb_status old = PubFailed))) "invalid_transition" 409 ;;
  refuse (worker_ref (pb_target old)) "worker_repair_required" 409 ;;
  row ← change i (Some expected) (fun b => b <| pb_status := PubPending |> <| pb_retry_at := None |> <| pb_failure := None |>);
  _ ← emit (Some (actor_id actor)) (Some p) (publication_subject row) ["status"]
        (Some (publication_status_str (pb_status old))) None None;
  mret row.

(** ** Frames *)

(** [skip H]: the first step of the transaction [H] only reads. *)
Ltac skip H :=
  let a := fresh in let d := fresh in let Hx := fresh in
  apply bind_Ok in H as (a & d & Hx & H); apply read_only in Hx as ->; [|frame].

(** [within R H]: the transaction [H] stays within the relation [R]. *)
Ltac within R H :=
  lazymatch type of H with
  | ?m _ = Ok _ => let K := fresh in assert (Keeps R m) as K by frame; specialize (K _ _ _ H); clear H; rename K into H
  end.

(** [leaves p H]: the transaction [H] leaves the part [p] of the database as it was. *)
Ltac leaves p H :=
  lazymatch type of H with
  | ?m _ = Ok _ => let K := fresh in assert (Frame p m) as K by frame; apply K in H; clear K
  end.

(** The part [p] is left as it was while identifiers are only consumed. *)
Definition grows {T} (p : DB -> T) (d d' : DB) : Prop := p d' = p d /\ (db_next d <= db_next d')%positive.

#[export] Instance grows_preorder {T} (p : DB -> T) : PreOrder (grows p).
Proof.
  split; [by intros d|]. intros d1 d2 d3 [E1 L1] [E2 L2]. split; [congruence|lia].
Qed.
#[export] Hint Extern 0 (Quiet (grows _) _) => (split; (intros; split; [reflexivity|cbn; lia])) : typeclass_instances.

(** [grown p H]: as [leaves p H], with the identifiers that [H] consumes. *)
Ltac grown p H :=
  lazymatch type of H with
  | ?m _ = Ok _ => let K := fresh in assert (Keeps (grows p) m) as K by frame; apply K in H; clear K
  end.

Lemma keeps_open_assignment R `{!PreOrder R} actor i n : Keeps R (open_assignment actor i n).
Proof. unfold open_assignment. frame. Qed.
#[export] Hint Resolve keeps_open_assignment : frame.

Lemma keeps_check_recurrence R `{!PreOrder R} a : Keeps R (check_recurrence a).
Proof. unfold check_recurrence. frame. Qed.
#[export] Hint Resolve keeps_check_recurrence : frame.

Lemma keeps_check_active R `{!PreOrder R} q : Keeps R (check_active q).
Proof. unfold check_active. frame. Qed.
#[export] Hint Resolve keeps_check_active : frame.

Lemma keeps_check_primary R `{!PreOrder R} t : Keeps R (check_primary t).
Proof. unfold check_primary. frame. Qed.
#[export] Hint Resolve keeps_check_primary : frame.

Lemma keeps_check_workspace R `{!PreOrder R} i : Keeps R (check_workspace i).
Proof. unfold check_workspace. frame. Qed.
#[export] Hint Resolve keeps_check_workspace : frame.

Lemma require_admin_Ok a d u d' : require_admin a d = Ok (u, d') -> is_admin a d = true /\ d' = d.
Proof. unfold require_admin. intros H. m_inv. by bools. Qed.

Lemma update_where_Ok {R} `{Table R, !Mutable R} p (f : R -> R) d u d' :
  update_where p f d = Ok (u, d') <->
  d' = put_rows ((fun r => if p r then touch (db_now d) (f r) else r) <$> rows d) d.
Proof. unfold update_where, update_rows. by rewrite modify_Ok. Qed.

Lemma any_none {R} `{Table R} p d b d' :
  any p d = Ok (b, d') -> d' = d /\ (b = false -> forall i (r : R), rows d !! i = Some r -> p r = false).
Proof.
  intros [-> Hb]%any_Ok. split; [done|]. intros -> i r Hr. destruct (p r) eqn:E; [|done]. symmetry. apply Hb. eauto.
Qed.

Lemma change_assignment_Ok i e f d row d' :
  change_assignment i e f d = Ok (row, d') ->
  exists a, tb_assignment d !! i = Some a /\ (forall n, e = Some n -> a_revision a = n)
    /\ row = touch (db_now d) (f a) /\ d' = d <| tb_assignment := <[i := row]> (tb_assignment d) |>.
Proof.
  unfold change_assignment. intros H. apply bind_Ok in H as (r & d1 & Hc & H). skip H.
  apply ret_Ok in H as [-> ->]. by apply change_Ok in Hc.
Qed.

(** The index on recurrence keys: an unfinished row is alone under its key. *)
Lemma change_assignment_alone i e f d row d' :
  change_assignment i e f d = Ok (row, d') -> live_assignment row = true ->
  forall j a, tb_assignment d' !! j = Some a -> same_recurrence row a = false.
Proof.
  unfold change_assignment. intros H Hl. apply bind_Ok in H as (r & d1 & Hc & H).
  apply bind_Ok in H as (? & d2 & Hr & [-> ->]%ret_Ok). unfold check_recurrence in Hr.
  apply bind_Ok in Hr as (clash & d3 & [-> Ha]%any_none & Hr). rewrite Hl, andb_true_r in Hr.
  destruct clash; [done|]. apply ret_Ok in Hr as [_ ->]. exact (Ha eq_refl).
Qed.

(** ** Physical stops *)

(** What a physical stop touches, and what decides who is busy. *)
Definition stop_part (d : DB) :=
  (tb_execution d, tb_provider_request d, tb_resource_claim d, tb_assignment d, tb_run d, db_now d).

Definition interrupt (now : instant) (i : uid) (q : provider_request) : provider_request :=
  if unsettled_of i q then touch now (q <| q_status := QInterrupted |> <| q_finished_at := Some now |>) else q.

Definition release (now : instant) (i : uid) (c : resource_claim) : resource_claim :=
  if open_claim i c then touch now (c <| cl_released_at := Some now |>) else c.

Lemma confirm_host_stopped_spec actor i n note evidence fenced d row d' :
  confirm_host_stopped actor i n note evidence fenced d = Ok (row, d') ->
  exists x, tb_execution d !! i = Some x /\ is_admin actor d = true /\ fenced = true
    /\ mem (x_status x) [XLost; XCancelled] = true
    /\ row = touch (db_now d) (x <| x_stop_confirmed_at := Some (db_now d) |>)
    /\ stop_part d' = (<[i := row]> (tb_execution d), interrupt (db_now d) i <$> tb_provider_request d,
                       release (db_now d) i <$> tb_resource_claim d, tb_assignment d, tb_run d, db_now d).
Proof.
  unfold confirm_host_stopped. intros H. skip H.
  apply bind_Ok in H as (x & ? & [Hx ->]%get_Ok & H). skip H. skip H. skip H.
  apply bind_Ok in H as (? & ? & [Ha ->]%require_admin_Ok & H).
  apply bind_Ok in H as (? & ? & [Hf ->]%refuse_Ok & H).
  apply bind_Ok in H as (? & ? & [Hs ->]%refuse_Ok & H).
  apply bind_Ok in H as (now & ? & [-> ->]%ask_Ok & H).
  apply bind_Ok in H as (row' & d1 & (x' & Hx' & _ & Erow & E1)%change_Ok & H).
  apply bind_Ok in H as (? & d2 & E2%update_where_Ok & H).
  apply bind_Ok in H as (? & d3 & E3%update_where_Ok & H).
  apply bind_Ok in H as (? & ? & [-> ->]%ask_Ok & H).
  apply bind_Ok in H as (? & d4 & E4 & H).
  leaves stop_part E4. skip H.
  apply bind_Ok in H as (? & d5 & E5 & H). leaves stop_part E5.
  apply ret_Ok in H as [-> ->].
  exists x. cbn in Hx, Hx'. rewrite Hx in Hx'. injection Hx' as <-.
  split; [done|]. bools. split; [done|]. split; [done|]. split; [done|]. split; [done|].
  rewrite E5, E4, E3, E2, E1. done.
Qed.

Lemma values_fmap {A B} (f : A -> B) (m : gmap uid A) :
  map snd (map_to_list (f <$> m)) ≡ₚ map f (map snd (map_to_list m)).
Proof. rewrite map_to_list_fmap, map_map. unfold fmap, list_fmap. by rewrite map_map. Qed.

Lemma sum_by_Permutation {A} (f : A -> Z) l l' : l ≡ₚ l' -> sum_by f l = sum_by f l'.
Proof. unfold sum_by. induction 1; cbn; lia. Qed.

Lemma filter_values {A} (p : A -> bool) l l' : l ≡ₚ l' -> List.filter p l ≡ₚ List.filter p l'.
Proof.
  induction 1 as [|x ???|x y|? ? ? ? ? ? ?]; cbn; [done| | |by etrans].
  - destruct (p x); [by constructor|done].
  - destruct (p x), (p y); try done. constructor.
Qed.

(** The units of a limit that the execution still holds. *)
Definition held (d : DB) (i limit : uid) : Z :=
  sum_by cl_units (List.filter (fun c => bool_decide (cl_resource_limit_id c = limit) && open_claim i c)
    (map snd (map_to_list (tb_resource_claim d)))).

Lemma release_fields now i c :
  cl_resource_limit_id (release now i c) = cl_resource_limit_id c /\ cl_units (release now i c) = cl_units c
  /\ bool_decide (cl_released_at (release now i c) = None)
     = bool_decide (cl_released_at c = None) && negb (bool_decide (cl_execution_id c = i)).
Proof.
  unfold release, open_claim. destruct (cl_released_at c) as [t|] eqn:E; cbn; (case_bool_decide; cbn; rewrite ?E; cbn; auto).
Qed.

Lemma claimed_release d d' i limit :
  tb_resource_claim d' = release (db_now d) i <$> tb_resource_claim d ->
  claimed d' limit = claimed d limit - held d i limit.
Proof.
  intros E. unfold claimed, held. rewrite E.
  erewrite sum_by_Permutation; [|apply filter_values, values_fmap].
  generalize (map snd (map_to_list (tb_resource_claim d))) as l. unfold sum_by. induction l as [|c l IH]; cbn; [done|].
  destruct (release_fields (db_now d) i c) as (E1 & E2 & E3). rewrite E1, E3. clear E1 E3.
  unfold open_claim at 1. destruct (cl_released_at c) as [t|]; cbn; repeat (case_bool_decide; cbn); rewrite ?E2; try congruence; lia.
Qed.

Lemma interrupt_settles d d' i x :
  tb_provider_request d' = interrupt (db_now d) i <$> tb_provider_request d ->
  existsb (fun q => bool_decide (q_execution_id q = x_id x) && unsettled_request q)
    (map snd (map_to_list (tb_provider_request d')))
  = negb (bool_decide (x_id x = i)) &&
    existsb (fun q => bool_decide (q_execution_id q = x_id x) && unsettled_request q)
      (map snd (map_to_list (tb_provider_request d))).
Proof.
  intros E. rewrite E. apply eq_iff_eq_true. rewrite andb_true_iff, !existsb_true, !Exists_exists.
  setoid_rewrite (values_fmap (interrupt (db_now d) i)). split.
  - intros (q & (q0 & -> & Hq)%list_elem_of_fmap & Hp). unfold interrupt in Hp. destruct (unsettled_of i q0) eqn:Eq; [cbn in Hp; by rewrite andb_false_r in Hp|].
    split; [|by exists q0]. unfold unsettled_of in Eq. apply negb_true_iff, bool_decide_eq_false. intros <-. congruence.
  - intros [Hn (q & Hq & Hp)]. exists (interrupt (db_now d) i q). split; [apply list_elem_of_fmap; by exists q|].
    unfold interrupt. destruct (unsettled_of i q) eqn:Eq; [|done]. unfold unsettled_of in Eq. bools. congruence.
Qed.

(** An execution is busy by its own status or by its requests. *)
Lemma execution_busy_part d d' x :
  tb_assignment d' = tb_assignment d -> tb_run d' = tb_run d -> db_now d' = db_now d ->
  existsb (fun q => bool_decide (q_execution_id q = x_id x) && unsettled_request q)
    (map snd (map_to_list (tb_provider_request d')))
  = existsb (fun q => bool_decide (q_execution_id q = x_id x) && unsettled_request q)
    (map snd (map_to_list (tb_provider_request d))) ->
  execution_busy d' x = execution_busy d x.
Proof. intros E1 E2 E3 E4. unfold execution_busy, objective_assignment. by rewrite E1, E2, E3, E4. Qed.

(** Confirming a physical stop needs an administrator and a fenced machine, and frees
    exactly what the execution held: it is no longer busy, no other execution changes, every
    limit gets back the units of its open claims and of no other. *)
Theorem confirmed_stop_frees actor i n note evidence fenced d row d' :
  confirm_host_stopped actor i n note evidence fenced d = Ok (row, d') ->
  (forall j x, tb_execution d !! j = Some x -> x_id x = j) ->
  is_admin actor d = true /\ fenced = true
  /\ tb_execution d' !! i = Some row /\ execution_busy d' row = false
  /\ (forall j x, j <> i -> tb_execution d !! j = Some x ->
        tb_execution d' !! j = Some x /\ execution_busy d' x = execution_busy d x)
  /\ (forall limit, claimed d' limit = claimed d limit - held d i limit)
  /\ (forall limit, held d' i limit = 0).
Proof.
  intros (x & Hx & Ha & Hf & Hs & Erow & E)%confirm_host_stopped_spec Hid.
  injection E as E1 E2 E3 E4 E5 E6. split; [done|]. split; [done|]. rewrite E1.
  split; [by rewrite lookup_insert_eq|]. split; [|split; [|split]].
  - unfold execution_busy. rewrite (interrupt_settles d d' i row E2), Erow. cbn. rewrite (Hid i x Hx), bool_decide_true by done.
    unfold live_status, put_field. cbn. destruct (x_status x); done || discriminate Hs.
  - intros j y Hj Hy. rewrite lookup_insert_ne by done. split; [done|]. apply execution_busy_part; [done..|].
    rewrite (interrupt_settles d d' i y E2), (Hid j y Hy). by rewrite bool_decide_false by done.
  - intros l. by apply claimed_release.
  - intros l. unfold held. rewrite E3. erewrite sum_by_Permutation; [|apply filter_values, values_fmap].
    generalize (map snd (map_to_list (tb_resource_claim d))) as cs. induction cs as [|c cs IH]; cbn; [done|].
    assert (open_claim i (release (db_now d) i c) = false) as ->; [|by rewrite andb_false_r].
    unfold release. destruct (open_claim i c) eqn:Ec; [|done]. unfold open_claim. cbn. by rewrite andb_false_r.
Qed.

(** Execution 7 was lost with request 21 unsettled in context 20 and a unit of limit 30. *)
Definition lost_db : DB :=
  sample_db <| tb_execution := {[7%positive := sample_execution 7 6 XLost]} |>
            <| tb_provider_thread := {[20%positive := sample_thread 20 6 91 Creating]} |>
            <| tb_provider_request := {[21%positive := sample_request 21 20 7 QUncertain]} |>
            <| tb_resource_claim := {[22%positive := sample_claim 22 30 7]} |>.

Lemma confirmed_stop_frees_witness :
  exists row d', confirm_host_stopped admin 7 1 "fenced" "power cut" true lost_db = Ok (row, d')
    /\ execution_busy lost_db (sample_execution 7 6 XLost) = true /\ execution_busy d' row = false
    /\ claimed lost_db 30 = 1 /\ claimed d' 30 = 0.
Proof.
  destruct (is_ok_true (confirm_host_stopped admin 7 1 "fenced" "power cut" true lost_db)) as [[row d'] E]; [by vm_compute|].
  assert (forall j x, tb_execution lost_db !! j = Some x -> x_id x = j) as Hid
    by (intros j x; cbn; intros [<- <-]%lookup_singleton_Some; done).
  destruct (confirmed_stop_frees admin 7 1 _ _ true lost_db row d' E Hid) as (_ & _ & _ & Hb & _ & Hc & _).
  exists row, d'. split; [exact E|]. split; [by vm_compute|]. split; [exact Hb|]. split; [by vm_compute|].
  rewrite Hc. by vm_compute.
Defined.

(** ** Contexts *)

(** Contexts are keyed by their identifier below the next one, a context is replaced at most
    once, and an assignment has at most one live primary context. *)
Record contexts_wf (d : DB) : Prop := {
  cw_id : forall i t, tb_provider_thread d !! i = Some t -> t_id t = i /\ (i < db_next d)%positive;
  cw_owner : forall i a, tb_assignment d !! i = Some a -> a_id a = i;
  cw_once : forall i j t u p, tb_provider_thread d !! i = Some t -> tb_provider_thread d !! j = Some u ->
    t_predecessor_id t = Some p -> t_predecessor_id u = Some p -> i = j;
  cw_live : forall i j t u a, tb_provider_thread d !! i = Some t -> tb_provider_thread d !! j = Some u ->
    retained_by a t = true -> retained_by a u = true -> i = j }.

Definition context_part (d : DB) :=
  (tb_provider_thread d, tb_assignment d, tb_execution d, tb_provider_request d).

Definition close_thread (now : instant) (t : provider_thread) : provider_thread := touch now (t <| t_status := ThreadClosed |>).

Lemma check_primary_Ok row d u d' :
  check_primary row d = Ok (u, d') ->
  d' = d /\ (is_primary row = true -> live_thread row = true ->
             forall j t, tb_provider_thread d !! j = Some t -> other_live_primary row t = false).
Proof.
  unfold check_primary. intros H. apply bind_Ok in H as (b & ? & [-> Hf]%any_none & H).
  destruct (b && is_primary row && live_thread row) eqn:E; m_inv. split; [done|]. intros Hp Hl.
  rewrite Hp, Hl, !andb_true_r in E. by apply Hf.
Qed.

Lemma recover_context_spec actor i n note d row d' :
  recover_context actor i n note d = Ok (row, d') ->
  exists t a r k, tb_provider_thread d !! i = Some t /\ tb_assignment d !! t_assignment_id t = Some a
    /\ tb_run d !! a_run_id a = Some r /\ is_primary t = true
    /\ (forall j x, tb_execution d !! j = Some x -> execution_of (a_id a) x = true ->
          live_status x = false /\ (is_objective r = true -> present (x_stop_confirmed_at x) = true))
    /\ (forall j q, tb_provider_request d !! j = Some q -> outstanding_request d (a_id a) q = false)
    /\ (forall j u, tb_provider_thread d !! j = Some u -> t_predecessor_id u <> Some i)
    /\ row = replacement_thread t (a_id a) note k (db_next d) (db_now d)
    /\ (forall j u, <[i := close_thread (db_now d) t]> (tb_provider_thread d) !! j = Some u ->
          j <> db_next d -> other_live_primary row u = false)
    /\ tb_provider_thread d' = <[db_next d := row]> (<[i := close_thread (db_now d) t]> (tb_provider_thread d))
    /\ (exists b, tb_assignment d' = <[a_id a := b]> (tb_assignment d) /\ a_status b = Pending
                  /\ (forall a0, tb_assignment d !! a_id a = Some a0 -> a_id b = a_id a0))
    /\ (db_next d < db_next d')%positive.
Proof.
  unfold recover_context. intros H.
  apply bind_Ok in H as (t & ? & [Ht ->]%get_Ok & H). skip H. skip H. skip H. skip H.
  apply bind_Ok in H as (? & ? & [Hn ->]%refuse_Ok & H).
  apply bind_Ok in H as (a & ? & [Ha ->]%get_Ok & H).
  apply bind_Ok in H as (r & ? & [Hr ->]%get_Ok & H).
  apply bind_Ok in H as (b1 & ? & [-> Fu]%any_none & H).
  apply bind_Ok in H as (? & ? & [Hu ->]%refuse_Ok & H).
  apply bind_Ok in H as (b2 & ? & [-> Fl]%any_none & H).
  apply bind_Ok in H as (? & ? & [Hl ->]%refuse_Ok & H).
  apply bind_Ok in H as (b3 & ? & [-> Fr]%any_none & H).
  apply bind_Ok in H as (? & ? & [Hb3 ->]%refuse_Ok & H).
  apply bind_Ok in H as (? & ? & [-> ->]%ask_Ok & H).
  apply bind_Ok in H as (b4 & ? & [-> Fo]%any_none & H).
  apply bind_Ok in H as (? & ? & [Hb4 ->]%refuse_Ok & H).
  apply bind_Ok in H as (? & d1 & (t' & Ht' & _ & -> & E1)%change_Ok & H).
  apply bind_Ok in H as (k & ? & Hk & H). apply read_only in Hk as ->; [|frame].
  apply bind_Ok in H as (row' & d2 & E2 & H). injection E2 as Erow E2.
  apply bind_Ok in H as (? & ? & [-> Hp]%check_primary_Ok & H).
  apply bind_Ok in H as (b & d3 & (a0 & Ha0 & _ & Eb & E3)%change_assignment_Ok & H).
  apply bind_Ok in H as (? & d4 & E4 & H). apply ret_Ok in H as [-> ->].
  grown context_part E4. destruct E4 as [E4 L4]. injection E4 as T4 A4 _ _.
  cbn in Ht, Ht', Ha, Hr. rewrite Ht in Ht'. injection Ht' as <-. subst d1. cbn in Erow, E2. subst d2 d3. subst row'.
  cbn in Hp, Ha0, L4, T4, A4. exists t, a, r, k.
  apply orb_false_iff in Hn as [_ Hn]. bools. split; [done|]. split; [done|]. split; [done|]. split; [done|].
  split. { intros j x6 Hx Ho. specialize (Fl Hl j x6 Hx). rewrite Ho in Fl.
    split; [done|]. intros Hj. rewrite Hj in Hu. specialize (Fu Hu j x6 Hx). rewrite Ho in Fu. cbn in Fu. by bools. }
  split. { by intros j q; apply Fo. }
  split. { intros j u Hj. specialize (Fr Hb3 j u Hj). by bools. }
  split; [done|]. split. { intros j u Hj Hne. apply (Hp eq_refl eq_refl j). by rewrite lookup_insert_ne. }
  split; [done|]. split; [|lia]. exists b. split; [done|]. subst b.
  split; [by destruct (is_objective r)|]. intros a1 Ha1. rewrite Ha0 in Ha1. injection Ha1 as <-. by destruct (is_objective r).
Qed.

Lemma retained_other a row t :
  retained_by a row = true -> retained_by a t = true -> t_id t <> t_id row -> other_live_primary row t = true.
Proof.
  unfold retained_by, other_live_primary. rewrite !andb_true_iff, !bool_decide_eq_true.
  intros [[Er _] _] [[Et Hp] Hl] Hne. rewrite negb_true_iff, bool_decide_eq_false. split_and!; congruence.
Qed.

Lemma contexts_wf_replace d d' i t a note k b row :
  contexts_wf d -> tb_provider_thread d !! i = Some t -> tb_assignment d !! t_assignment_id t = Some a ->
  (forall j u, tb_provider_thread d !! j = Some u -> t_predecessor_id u <> Some i) ->
  row = replacement_thread t (a_id a) note k (db_next d) (db_now d) ->
  (forall j u, <[i := close_thread (db_now d) t]> (tb_provider_thread d) !! j = Some u ->
     j <> db_next d -> other_live_primary row u = false) ->
  tb_provider_thread d' = <[db_next d := row]> (<[i := close_thread (db_now d) t]> (tb_provider_thread d)) ->
  tb_assignment d' = <[a_id a := b]> (tb_assignment d) -> a_id b = a_id a -> (db_next d < db_next d')%positive ->
  contexts_wf d'.
Proof.
  intros [Hid Hown Honce Hlive] Ht Ha Hno Hrow Hothers Et Ea Hb Hnext.
  assert (t_id row = db_next d) as Hrid by by subst row.
  assert (forall j u, tb_provider_thread d' !! j = Some u ->
    (j = db_next d /\ u = row) \/ (j <> db_next d /\ <[i := close_thread (db_now d) t]> (tb_provider_thread d) !! j = Some u)) as Hc.
  { intros j u. rewrite Et, lookup_insert_Some. naive_solver. }
  assert (forall j u, <[i := close_thread (db_now d) t]> (tb_provider_thread d) !! j = Some u ->
    exists u0, tb_provider_thread d !! j = Some u0 /\ t_id u = t_id u0 /\ t_predecessor_id u = t_predecessor_id u0
      /\ (u = u0 \/ live_thread u = false)) as Hold.
  { intros j u [[<- <-]|[Hne Hj]]%lookup_insert_Some; [exists t|exists u]; auto. }
  assert (t_predecessor_id row = Some i) as Hpre by (subst row; cbn; f_equal; by apply (Hid i t)).
  split.
  - intros j u [[-> ->]|[Hne Hj]]%Hc; [split; [done|lia]|].
    apply Hold in Hj as (u0 & Hu0 & -> & _). apply Hid in Hu0 as [-> ?]. split; [done|lia].
  - intros j c. rewrite Ea. intros [[<- <-]|[_ Hj]]%lookup_insert_Some; [done|by apply Hown].
  - intros j1 j2 u1 u2 p H1 H2 P1 P2.
    destruct (Hc _ _ H1) as [[-> ->]|[_ H1']], (Hc _ _ H2) as [[-> ->]|[_ H2']]; [done|..].
    + apply Hold in H2' as (u0 & Hu0 & _ & E & _). exfalso. apply (Hno _ _ Hu0). congruence.
    + apply Hold in H1' as (u0 & Hu0 & _ & E & _). exfalso. apply (Hno _ _ Hu0). congruence.
    + apply Hold in H1' as (v1 & V1 & _ & E1 & _). apply Hold in H2' as (v2 & V2 & _ & E2 & _).
      eapply (Honce j1 j2 v1 v2 p); congruence.
  - intros j1 j2 u1 u2 o H1 H2 P1 P2.
    assert (forall j u, <[i := close_thread (db_now d) t]> (tb_provider_thread d) !! j = Some u ->
      j <> db_next d -> retained_by o u = true -> retained_by o row = true -> False) as Hx.
    { intros j u Hj Hne Hu Hr. destruct (Hold j u Hj) as (u0 & Hu0 & E & _).
      assert (other_live_primary row u = true) as K.
      { eapply retained_other; [done..|]. rewrite E. apply Hid in Hu0 as [-> ?]. by rewrite Hrid. }
      rewrite (Hothers j u Hj Hne) in K. done. }
    destruct (Hc _ _ H1) as [[-> ->]|[N1 H1']], (Hc _ _ H2) as [[-> ->]|[N2 H2']]; [done|exfalso; eauto..|].
    apply Hold in H1' as (v1 & V1 & _ & _ & [->|F1]); [|unfold retained_by in P1; rewrite F1, andb_false_r in P1; done].
    apply Hold in H2' as (v2 & V2 & _ & _ & [->|F2]); [|unfold retained_by in P2; rewrite F2, andb_false_r in P2; done].
    by eapply (Hlive j1 j2 v1 v2 o).
Qed.

(** A provider context is replaced only when no execution of its assignment is live, no
    request of any of its contexts is unsettled and, under an objective, every process is
    confirmed stopped.  The old context is closed, the replacement takes over its workspace
    and is the assignment's one live primary context, the assignment is pending again; no
    context is ever replaced twice. *)
Theorem context_replaced_safely actor i n note d row d' :
  contexts_wf d -> recover_context actor i n note d = Ok (row, d') ->
  contexts_wf d' /\ exists t a r, tb_provider_thread d !! i = Some t /\ tb_assignment d !! t_assignment_id t = Some a
    /\ tb_run d !! a_run_id a = Some r
    /\ (forall j x, tb_execution d !! j = Some x -> x_assignment_id x = t_assignment_id t ->
          live_status x = false /\ (r_orchestration r = ObjectiveRun -> x_stop_confirmed_at x <> None))
    /\ (forall j q u, tb_provider_request d !! j = Some q -> tb_provider_thread d !! q_provider_thread_id q = Some u ->
          t_assignment_id u = t_assignment_id t -> unsettled_request q = false)
    /\ tb_provider_thread d' !! t_id row = Some row /\ retained_by (t_assignment_id t) row = true
    /\ t_predecessor_id row = Some i /\ t_workspace_id row = t_workspace_id t
    /\ (exists t', tb_provider_thread d' !! i = Some t' /\ t_status t' = ThreadClosed)
    /\ (exists b, tb_assignment d' !! t_assignment_id t = Some b /\ a_status b = Pending).
Proof.
  intros Hw (t & a & r & k & Ht & Ha & Hr & Hpr & Hx & Hq & Hno & Hrow & Hothers & Et & (b & Ea & Hb & Hbid) & Hnext)%recover_context_spec.
  pose proof (cw_owner d Hw _ _ Ha) as Eid. destruct (cw_id d Hw i t Ht) as [Eti Lti].
  split. { eapply contexts_wf_replace; try done. apply Hbid. by rewrite Eid. }
  exists t, a, r. split; [done|]. split; [done|]. split; [done|].
  split. { intros j x Hj Eo. destruct (Hx j x Hj) as [H1 H2]; [unfold execution_of; by rewrite Eid, bool_decide_true|].
    split; [done|]. intros Hor. unfold is_objective in H2. rewrite bool_decide_true in H2 by done.
    specialize (H2 eq_refl). by destruct (x_stop_confirmed_at x). }
  split. { intros j q u Hj Hu Eo. specialize (Hq j q Hj). unfold outstanding_request in Hq. rewrite Hu, Eid in Hq.
    by rewrite bool_decide_true in Hq. }
  assert (t_id row = db_next d) as -> by by subst row. rewrite Et, Ea, Eid.
  split; [by rewrite lookup_insert_eq|]. split. { subst row. unfold retained_by. cbn. by rewrite Eid, bool_decide_true. }
  split; [subst row; cbn; congruence|]. split; [by subst row|].
  split; [|exists b; by rewrite lookup_insert_eq].
  exists (close_thread (db_now d) t). rewrite lookup_insert_ne by lia. by rewrite lookup_insert_eq.
Qed.

(** Assignment 6 failed; its context 20 waits for a replacement. *)
Definition stuck_db : DB :=
  sample_db <| tb_assignment := {[6%positive := sample_assignment 6 5 3 Failed]} |> <| tb_execution := ∅ |>
            <| tb_provider_thread := {[20%positive := sample_thread 20 6 91 Unavailable]} |>.

Lemma stuck_db_wf : contexts_wf stuck_db.
Proof.
  split; cbn.
  - intros i t [<- <-]%lookup_singleton_Some. by split.
  - intros i a [<- <-]%lookup_singleton_Some. done.
  - intros i j t u p [<- <-]%lookup_singleton_Some [<- <-]%lookup_singleton_Some. done.
  - intros i j t u a [<- <-]%lookup_singleton_Some [<- <-]%lookup_singleton_Some. done.
Qed.

Lemma context_replaced_safely_witness :
  exists row d', recover_context admin 20 1 "provider lost it" stuck_db = Ok (row, d')
    /\ contexts_wf d' /\ t_predecessor_id row = Some 20%positive
    /\ recover_context admin 20 2 "again" d' = Err (DomainError "context_replaced" 409).
Proof.
  destruct (is_ok_true (recover_context admin 20 1 "provider lost it" stuck_db)) as [[row d'] E]; [by vm_compute|].
  destruct (context_replaced_safely admin 20 1 _ stuck_db row d' stuck_db_wf E)
    as (Hw & t & a & r & _ & _ & _ & _ & _ & _ & _ & Hp & _).
  exists row, d'. split; [exact E|]. split; [exact Hw|]. split; [exact Hp|].
  vm_compute in E. injection E as _ <-. by vm_compute.
Defined.

(** ** Workspaces and recurrences *)

(** An unfinished assignment that holds a workspace through a live primary context. *)
Definition occupies (d : DB) (w o : uid) : Prop :=
  exists j t a, tb_provider_thread d !! j = Some t /\ retained_by o t = true /\ t_workspace_id t = w
    /\ tb_assignment d !! o = Some a /\ live_assignment a = true.

Definition workspace_exclusive (d : DB) : Prop := forall w o o', occupies d w o -> occupies d w o' -> o = o'.

Definition session_part (d : DB) := (tb_provider_thread d, tb_assignment d).

Lemma open_assignment_Ok actor i n d old p d' :
  open_assignment actor i n d = Ok ((old, p), d') -> d' = d /\ tb_assignment d !! i = Some old.
Proof.
  unfold open_assignment. intros H. apply bind_Ok in H as (a & ? & [Ha ->]%get_Ok & H). skip H. skip H. skip H. skip H.
  apply ret_Ok in H as [[= -> ->] ->]. done.
Qed.

Lemma restore_recurring_spec actor a p d u d' :
  restore_recurring_assignment actor a p d = Ok (u, d') ->
  same_part session_part d d' /\
  forall k, a_automation_id a = Some k -> (forall au, tb_automation d !! k = Some au -> au_id au = k) ->
    (exists au, tb_automation d' !! k = Some au /\ au_enabled au = true)
    /\ forall j b, tb_assignment d !! j = Some b -> successor k (a_id a) b = false.
Proof.
  unfold restore_recurring_assignment. destruct (a_automation_id a) as [k|]; [|intros [_ ->]%ret_Ok; by split].
  intros H. apply bind_Ok in H as (au & ? & [Hau ->]%get_Ok & H). cbn in Hau.
  apply bind_Ok in H as (b & ? & [-> Fs]%any_none & H). apply bind_Ok in H as (? & ? & [-> ->]%refuse_Ok & H).
  destruct (au_enabled au) eqn:En.
  - apply ret_Ok in H as [_ ->]. split; [done|]. intros k' [= <-] Hid. rewrite (Hid _ Hau) in Fs. eauto.
  - apply bind_Ok in H as (r & d1 & (au' & Hau' & _ & -> & E1)%change_Ok & H).
    apply bind_Ok in H as (? & d2 & E2 & H). leaves (fun d => (session_part d, tb_automation d)) E2.
    apply bind_Ok in H as (? & d3 & E3 & H). leaves (fun d => (session_part d, tb_automation d)) E3.
    apply ret_Ok in H as [_ ->]. rewrite E1 in E2. injection E2 as T2 A2 U2. injection E3 as T3 A3 U3.
    split; [unfold same_part, session_part; by rewrite T3, A3, T2, A2|]. intros k' [= <-] Hid. rewrite (Hid _ Hau) in *.
    split; [|by apply Fs]. rewrite U3, U2. eexists. by rewrite lookup_insert_eq.
Qed.

Lemma check_workspace_Ok i d u d' :
  contexts_wf d -> check_workspace i d = Ok (u, d') ->
  d' = d /\ forall j t, tb_provider_thread d !! j = Some t -> retained_by i t = true ->
    forall k v, tb_provider_thread d !! k = Some v -> holds_workspace d i (t_workspace_id t) v = false.
Proof.
  intros Hw. unfold check_workspace. intros H. apply bind_Ok in H as (l & ? & [-> ->]%select_Ok & H).
  assert (forall t, t ∈ List.filter (retained_by i) (map snd (map_to_list (tb_provider_thread d))) <->
    retained_by i t = true /\ exists j, tb_provider_thread d !! j = Some t) as Hel
    by (intros t; exact (elem_of_select (retained_by i) d t)).
  change (rows d) with (tb_provider_thread d) in H.
  destruct (List.filter _ _) as [|t0 l].
  - apply ret_Ok in H as [_ ->]. split; [done|]. intros j t Hj Ht. exfalso.
    assert (t ∈ (@nil provider_thread)) as Hn by (apply Hel; eauto). by apply elem_of_nil in Hn.
  - apply bind_Ok in H as (? & ? & [-> ->]%ask_Ok & H). apply bind_Ok in H as (b & ? & [-> Fh]%any_none & H).
    apply refuse_Ok in H as [-> ->]. split; [done|]. intros j t Hj Ht k v Hv.
    destruct (proj1 (Hel t0)) as [Ht0 [j0 Hj0]]; [left|].
    assert (j0 = j) as -> by by eapply (cw_live d Hw). rewrite Hj in Hj0. injection Hj0 as <-. by apply (Fh eq_refl k).
Qed.

(** What retrying or resuming an assignment leaves behind. *)
Definition reactivated (i : uid) (old row : assignment) (d d' : DB) : Prop :=
  tb_assignment d !! i = Some old /\ a_status row = Pending /\ a_id row = a_id old /\ a_automation_id row = a_automation_id old
  /\ session_part d' = (tb_provider_thread d, <[i := row]> (tb_assignment d))
  /\ forall k, a_automation_id old = Some k -> (forall au, tb_automation d !! k = Some au -> au_id au = k) ->
       (exists au, tb_automation d' !! k = Some au /\ au_enabled au = true)
       /\ forall j b, tb_assignment d !! j = Some b -> successor k (a_id old) b = false.

Lemma reactivated_by actor (old : assignment) p i e f d u d1 row d2 d' :
  tb_assignment d !! i = Some old ->
  restore_recurring_assignment actor old p d = Ok (u, d1) ->
  change_assignment i e f d1 = Ok (row, d2) ->
  (forall a, a_status (f a) = Pending /\ a_id (f a) = a_id a /\ a_automation_id (f a) = a_automation_id a) ->
  same_part (fun d => (session_part d, tb_automation d)) d2 d' ->
  reactivated i old row d d'.
Proof.
  intros Ho [Es Hk]%restore_recurring_spec (a & Ha & _ & Erow & E2)%change_assignment_Ok Hf E3.
  injection Es as Et Ea. injection E3 as T3 A3 U3. rewrite Ea, Ho in Ha. injection Ha as <-.
  destruct (Hf old) as (F1 & F2 & F3). unfold reactivated. rewrite Erow. split; [done|].
  split; [done|]. split; [done|]. split; [done|].
  subst d2. cbn in T3, A3, U3. unfold session_part. rewrite T3, A3, U3, Ea, Et, Erow. split; [done|]. exact Hk.
Qed.

Lemma retry_assignment_spec actor i n d row d' :
  retry_assignment actor i n d = Ok (row, d') -> exists old, reactivated i old row d d'.
Proof.
  unfold retry_assignment. intros H. apply bind_Ok in H as ([old p] & ? & [-> Ho]%open_assignment_Ok & H).
  skip H. skip H. skip H. skip H.
  apply bind_Ok in H as (? & d1 & K1 & H). apply bind_Ok in H as (row' & d2 & K2 & H).
  apply bind_Ok in H as (? & d3 & K3 & H). unfold report_assignment in K3.
  leaves (fun d => (session_part d, tb_automation d)) K3. apply ret_Ok in H as [-> ->].
  exists old. by eapply reactivated_by.
Qed.

Lemma resume_assignment_spec actor i n note d row d' :
  contexts_wf d -> resume_assignment actor i n note d = Ok (row, d') ->
  exists old, reactivated i old row d d' /\
    forall j t, tb_provider_thread d !! j = Some t -> retained_by i t = true ->
      forall k v, tb_provider_thread d !! k = Some v -> holds_workspace d i (t_workspace_id t) v = false.
Proof.
  intros Hw. unfold resume_assignment. intros H. apply bind_Ok in H as ([old p] & ? & [-> Ho]%open_assignment_Ok & H).
  skip H. skip H. skip H. skip H. skip H.
  apply bind_Ok in H as (? & ? & [-> Hc]%check_workspace_Ok & H); [|done].
  apply bind_Ok in H as (? & d1 & K1 & H). apply bind_Ok in H as (row' & d2 & K2 & H).
  apply bind_Ok in H as (? & d3 & K3 & H). leaves (fun d => (session_part d, tb_automation d)) K3.
  apply bind_Ok in H as (? & d4 & K4 & H). unfold report_assignment in K4.
  leaves (fun d => (session_part d, tb_automation d)) K4. apply ret_Ok in H as [-> ->].
  exists old. split; [|done]. eapply reactivated_by; [done..|]. by etrans.
Qed.

(** Resuming a settled assignment never puts two unfinished sessions into one workspace:
    when every workspace is held by at most one unfinished assignment, it stays so. *)
Theorem resumed_workspace_exclusive actor i n note d row d' :
  contexts_wf d -> workspace_exclusive d -> resume_assignment actor i n note d = Ok (row, d') -> workspace_exclusive d'.
Proof.
  intros Hw Hex (old & (Ho & Hp & Hid & _ & E & _) & Hc)%resume_assignment_spec; [|done].
  injection E as Et Ea. pose proof (cw_owner d Hw i old Ho) as Hold.
  assert (forall w o, occupies d' w o -> o <> i -> occupies d w o) as Hpast.
  { intros w o (j & t & a & Ht & Hr & Hwk & Ha & Hl) Hne. rewrite Et in Ht. rewrite Ea, lookup_insert_ne in Ha by done.
    exists j, t, a. auto. }
  assert (forall w o, occupies d' w i -> occupies d w o -> o <> i -> False) as Hclash.
  { intros w o (j & t & a & Ht & Hr & Hwk & _) (k & u & b & Hu & Hru & Hwu & Hb & Hlb) Hne. rewrite Et in Ht.
    specialize (Hc j t Ht Hr k u Hu). unfold holds_workspace in Hc. unfold retained_by in Hru. bools.
    rewrite bool_decide_true, H0, Hru in Hc by congruence. rewrite H, Hb in Hc.
    by rewrite (cw_owner d Hw _ _ Hb), bool_decide_false, Hlb in Hc. }
  intros w o o' H1 H2. destruct (decide (o = i)) as [->|N1], (decide (o' = i)) as [->|N2]; [done|..].
  - exfalso. eapply (Hclash w o'); eauto.
  - exfalso. eapply (Hclash w o); eauto.
  - eapply Hex; eauto.
Qed.

(** An explicit recovery resumes its recurrence and never duplicates a successor: after a
    retried or resumed assignment of an automation, the automation is enabled and the
    recovered assignment is its only unfinished one. *)
Theorem recovered_recurrence_alone actor i n note d row d' k :
  contexts_wf d -> (forall au, tb_automation d !! k = Some au -> au_id au = k) ->
  retry_assignment actor i n d = Ok (row, d') \/ resume_assignment actor i n note d = Ok (row, d') ->
  a_status row = Pending /\ tb_assignment d' !! i = Some row /\
  (a_automation_id row = Some k ->
    (exists au, tb_automation d' !! k = Some au /\ au_enabled au = true)
    /\ forall j b, tb_assignment d' !! j = Some b -> a_automation_id b = Some k -> live_assignment b = true -> j = i).
Proof.
  intros Hw Hk Hdo. assert (exists old, reactivated i old row d d') as (old & Ho & Hp & Hid & Hau & E & Hr).
  { destruct Hdo as [?%retry_assignment_spec|?%resume_assignment_spec]; naive_solver. }
  injection E as _ Ea. split; [done|]. rewrite Ea, lookup_insert_eq. split; [done|].
  intros Hka. rewrite Hau in Hka. destruct (Hr k Hka Hk) as [He Hs]. split; [done|].
  intros j b [[<- _]|[Hne Hj]]%lookup_insert_Some Hb Hl; [done|].
  specialize (Hs j b Hj). unfold successor in Hs. rewrite bool_decide_true, Hl, andb_true_r in Hs by done.
  cbn in Hs. bools. by rewrite (cw_owner d Hw j b Hj), (cw_owner d Hw i old Ho) in Hs.
Qed.

(** Assignment 6 of automation 40 has failed and kept its context in workspace 91; assignment 9
    is waiting with a context in [w]. *)
Definition parked_db (w : uid) : DB :=
  sample_db <| tb_execution := ∅ |>
            <| tb_automation := {[40%positive := sample_automation 40 5 3 false]} |>
            <| tb_assignment := <[6%positive := (sample_assignment 6 5 3 Failed) <| a_automation_id := Some 40%positive |>]>
                                  {[9%positive := sample_assignment 9 5 4 Pending]} |>
            <| tb_provider_thread := <[20%positive := sample_thread 20 6 91 Available]>
                                       {[21%positive := sample_thread 21 9 w Available]} |>.

Lemma parked_db_threads w i t :
  tb_provider_thread (parked_db w) !! i = Some t ->
  (i = 20%positive /\ t = sample_thread 20 6 91 Available) \/ (i = 21%positive /\ t = sample_thread 21 9 w Available).
Proof. cbn. intros [[<- <-]|[_ [<- <-]%lookup_singleton_Some]]%lookup_insert_Some; auto. Qed.

Lemma parked_db_wf w : contexts_wf (parked_db w).
Proof.
  split.
  - intros i t [[-> ->]|[-> ->]]%parked_db_threads; by split.
  - intros i a. cbn. intros [[<- <-]|[_ [<- <-]%lookup_singleton_Some]]%lookup_insert_Some; done.
  - intros i j t u p [[-> ->]|[-> ->]]%parked_db_threads [[-> ->]|[-> ->]]%parked_db_threads; done.
  - intros i j t u a [[-> ->]|[-> ->]]%parked_db_threads [[-> ->]|[-> ->]]%parked_db_threads; try done;
      unfold retained_by; cbn; rewrite !andb_true_r, !bool_decide_eq_true; congruence.
Qed.

(** Only assignment 9 is unfinished. *)
Lemma parked_db_exclusive w : workspace_exclusive (parked_db w).
Proof.
  assert (forall v o, occupies (parked_db w) v o -> o = 9%positive) as H.
  { intros v o (j & t & a & _ & _ & _ & Ha & Hl). cbn in Ha.
    apply lookup_insert_Some in Ha as [[_ <-]|[_ [<- _]%lookup_singleton_Some]]; done. }
  intros v o o' ->%H ->%H. done.
Qed.

Lemma resumed_workspace_exclusive_witness :
  exists row d', resume_assignment admin 6 1 "repaired" (parked_db 92) = Ok (row, d') /\ workspace_exclusive d'
    /\ resume_assignment admin 6 1 "repaired" (parked_db 91) = Err (DomainError "workspace_reassigned" 409).
Proof.
  destruct (is_ok_true (resume_assignment admin 6 1 "repaired" (parked_db 92))) as [[row d'] E]; [by vm_compute|].
  exists row, d'. split; [exact E|].
  split; [exact (resumed_workspace_exclusive admin 6 1 _ _ row d' (parked_db_wf 92) (parked_db_exclusive 92) E)|].
  by vm_compute.
Defined.

Lemma recovered_recurrence_alone_witness :
  exists row d', retry_assignment admin 6 1 (parked_db 92) = Ok (row, d') /\ a_status row = Pending
    /\ exists au, tb_automation d' !! 40%positive = Some au /\ au_enabled au = true.
Proof.
  destruct (is_ok_true (retry_assignment admin 6 1 (parked_db 92))) as [[row d'] E]; [by vm_compute|].
  assert (forall au, tb_automation (parked_db 92) !! 40%positive = Some au -> au_id au = 40%positive) as Hk
    by (intros au; cbn; intros [_ <-]%lookup_singleton_Some; done).
  destruct (recovered_recurrence_alone admin 6 1 "" _ row d' 40 (parked_db_wf 92) Hk (or_introl E)) as (Hs & _ & Hr).
  exists row, d'. split; [exact E|]. split; [exact Hs|]. apply Hr.
  vm_compute in E. by injection E as <- _.
Defined.

(** Retrying a failed assignment does not make the check that resuming one makes: it can
    put a second unfinished session into a workspace that another one holds. *)
Theorem retry_shares_workspace :
  exists row d', workspace_exclusive (parked_db 91) /\ retry_assignment admin 6 1 (parked_db 91) = Ok (row, d')
    /\ ~ workspace_exclusive d'.
Proof.
  destruct (is_ok_true (retry_assignment admin 6 1 (parked_db 91))) as [[row d'] E]; [by vm_compute|].
  exists row, d'. split; [apply parked_db_exclusive|]. split; [exact E|]. vm_compute in E. injection E as _ <-.
  intros H. assert (6 = 9)%positive as [=]. apply (H 91%positive).
  - exists 20%positive. eexists _, _. split_and!; vm_compute; reflexivity.
  - exists 21%positive. eexists _, _. split_and!; vm_compute; reflexivity.
Qed.
