(* ===== verification/Assignments.v ===== *)
(** * Assignments and their start conditions

    Of src/archon_horizon/pipeline/missions/service.py: [validate_condition] and [assignment]
    (the creation of an assignment, with its root obligation and its subscriptions, see
    integrations/communications.py); of commands.py: [checkpoint_assignment] and
    [update_assignment]. *)

From S2P Require Import Prelude Contracts Conditions Graph Schema Records Auth Samples MissionTree Missions Ledger Usage Capacity Sessions.

(** ** Start conditions *)

(** A pending or running assignment of the project, by way of its run. *)
Definition waiting_in (d : DB) (p : uid) (a : assignment) : bool :=
  mem (a_status a) [Pending; Running]
  && match (r ← tb_run d !! a_run_id a; tb_mission d !! r_mission_id r) with
     | Some m => bool_decide (m_project_id m = p)
     | None => false
     end.

(** What an owner waits for: an assignment, or the owner of an open obligation. *)
Fixpoint dependencies (refs : list RecordRef) : M (list uid) :=
  match refs with
  | [] => mret []
  | r :: refs =>
      here ← match ref_kind r with
             | Kassignment => mret [ref_id r]
             | Kobligation =>
                 o ← (get (ref_id r) : M obligation);
                 mret (if bool_decide (o_status o = ObOpen) then [o_assignment_id o] else [])
             | _ => mret []
             end;
      rest ← dependencies refs;
      mret (here ++ rest)
  end.

Fixpoint wait_edges (conditions : list (uid * option Condition)) : M (list (uid * list uid)) :=
  match conditions with
  | [] => mret []
  | (owner, c) :: conditions =>
      targets ← dependencies (referenced_objects c);
      rest ← wait_edges conditions;
      mret ((owner, remove_dups targets) :: rest)
  end.

(** The dict [conditions]: the condition of every waiting owner, with the proposed one. *)
Definition conditions_with (i : uid) (c : Condition) (rows : list assignment) : gmap uid (option Condition) :=
  <[i := Some c]> (list_to_map (map (fun a => (a_id a, a_start_condition a)) rows)).

Definition validate_condition (p : uid) (condition : option Condition) (i : option uid) : M unit :=
  match condition with
  | None => mret tt
  | Some c =>
      lift (guard (negb (condition_valid c)) (ValidationError "condition")) ;;
      for_each (fun r => in_project (ref_kind r) (ref_id r) p) (referenced_objects (Some c)) ;;
      match i with
      | None => mret tt
      | Some i =>
          d ← ask id;
          rows ← select (waiting_in d p);
          edges ← wait_edges (map_to_list (conditions_with i c rows));
          lift (reject_cycle edges)
      end
  end.

(** ** Scheduling commands *)

(** The fields of the creation contract, read from a row. *)
Definition as_create (a : assignment) : AssignmentCreate :=
  {| ac_run_id := a_run_id a; ac_mission_id := a_mission_id a; ac_parent_id := a_parent_id a;
     ac_reviewer_descriptor_id := a_reviewer_descriptor_id a; ac_role := a_role a; ac_category := a_category a;
     ac_functions := a_functions a; ac_instructions := a_instructions a; ac_harness_id := a_harness_id a;
     ac_model_options := a_model_options a; ac_not_before := a_not_before a; ac_expires_at := a_expires_at a;
     ac_start_condition := a_start_condition a |}.

#[export] Instance AssignmentCreate_eta : Eta AssignmentCreate := fun r =>
  Build_AssignmentCreate (ac_run_id r) (ac_mission_id r) (ac_parent_id r) (ac_reviewer_descriptor_id r) (ac_role r)
    (ac_category r) (ac_functions r) (ac_instructions r) (ac_harness_id r) (ac_model_options r) (ac_not_before r)
    (ac_expires_at r) (ac_start_condition r).

Definition parse_assignment (data : AssignmentCreate) : M AssignmentCreate :=
  lift (guard (negb (assignment_create_valid data)) (ValidationError "assignment")) ;; mret data.

Definition named {A} (name : string) (o : option A) : list string := match o with Some _ => [name] | None => [] end.

(** The contract [CheckpointAssignment]; an absent field is [None]. *)
Record CheckpointAssignment := {
  ck_not_before : option (option instant);
  ck_start_condition : option (option Condition);
  ck_note : string }.

Definition flat {A} (o : option (option A)) : option A := match o with Some v => v | None => None end.

Definition checkpoint_assignment (actor : Actor) (i : uid) (expected : Z) (args : CheckpointAssignment) : M assignment :=
  refuse (negb (nonblank (ck_note args) && opt_valid condition_valid (flat (ck_start_condition args))))
         "invalid_arguments" 422 ;;
  '(old, p) ← open_assignment actor i expected;
  refuse (negb (bool_decide (a_status old = Running))) "not_running" 409 ;;
  when (is_agent actor) (l ← live_execution actor;
                         refuse (negb (bool_decide (lx_assignment_id l = i))) "forbidden" 403) ;;
  let condition := flat (ck_start_condition args) in
  validate_condition p condition (Some i) ;;
  parsed ← parse_assignment ((as_create old) <| ac_not_before := flat (ck_not_before args) |>
                                             <| ac_start_condition := condition |>);
  now ← ask db_now;
  row ← change i (Some expected) (fun a => a <| a_checkpoint_requested_at := Some now |>
          <| a_not_before := ac_not_before parsed |> <| a_start_condition := condition |>
          <| a_status_note := Some (ck_note args) |>);
  _ ← snapshot row (actor_id actor);
  report_assignment actor p old row
    (named "not_before" (ck_not_before args) ++ named "start_condition" (ck_start_condition args) ++ ["note"])
    (Some (ck_note args)) ;;
  mret row.

(** The contract [UpdateAssignment]. *)
Record UpdateAssignment := {
  up_not_before : option (option instant);
  up_expires_at : option (option instant);
  up_start_condition : option (option Condition);
  up_instructions : option (option string);
  up_functions : option (list string) }.

Definition update_assignment_valid (u : UpdateAssignment) : bool :=
  opt_valid condition_valid (flat (up_start_condition u)) && opt_valid nonblank (flat (up_instructions u))
  && opt_valid (forallb slug_valid) (up_functions u).

Definition FUNCTIONS : list string := ["planner"; "debugger"; "reviewer"; "orchestrator"].

Definition update_assignment (actor : Actor) (i : uid) (expected : Z) (args : UpdateAssignment) : M assignment :=
  refuse (negb (update_assignment_valid args)) "invalid_arguments" 422 ;;
  '(old, p) ← open_assignment actor i expected;
  refuse (negb (bool_decide (a_status old = Pending))) "not_pending" 409 ;;
  parsed ← parse_assignment ((as_create old)
    <| ac_not_before := default (a_not_before old) (up_not_before args) |>
    <| ac_expires_at := default (a_expires_at old) (up_expires_at args) |>
    <| ac_start_condition := default (a_start_condition old) (up_start_condition args) |>
    <| ac_instructions := default (a_instructions old) (up_instructions args) |>
    <| ac_functions := default (a_functions old) (up_functions args) |>);
  refuse (negb (subset_of (ac_functions parsed) FUNCTIONS)) "unknown_function" 422 ;;
  validate_condition p (ac_start_condition parsed) (Some i) ;;
  row ← change i (Some expected) (fun a => a
    <| a_not_before := if present (up_not_before args) then ac_not_before parsed else a_not_before a |>
    <| a_expires_at := if present (up_expires_at args) then ac_expires_at parsed else a_expires_at a |>
    <| a_start_condition := if present (up_start_condition args) then ac_start_condition parsed else a_start_condition a |>
    <| a_instructions := if present (up_instructions args) then ac_instructions parsed else a_instructions a |>
    <| a_functions := if present (up_functions args) then ac_functions parsed else a_functions a |>);
  _ ← snapshot row (actor_id actor);
  report_assignment actor p old row
    (named "not_before" (up_not_before args) ++ named "expires_at" (up_expires_at args)
     ++ named "start_condition" (up_start_condition args) ++ named "instructions" (up_instructions args)
     ++ named "functions" (up_functions args)) None ;;
  mret row.

(** ** Creating an assignment *)

(** [" ".join(s.split())]: the words of a text. *)
Fixpoint words_of (cs : list ascii) : list (list ascii) :=
  match cs with
  | [] => []
  | c :: cs =>
      if is_space c then words_of cs
      else match cs with
           | [] => [[c]]
           | c' :: _ =>
               if is_space c' then [c] :: words_of cs
               else match words_of cs with
                    | w :: ws => (c :: w) :: ws
                    | [] => [[c]]
                    end
           end
  end.

Definition same_words (s s' : string) : bool := bool_decide (words_of (chars s) = words_of (chars s')).

Definition has_function (name : string) (l : list string) : bool := mem name l.

Definition check_run (r : run) (data : AssignmentCreate) (repair : bool) : M unit :=
  refuse (negb (bool_decide (r_status r = RunActive)) && negb (repair && bool_decide (r_status r = RunDraining)))
         "run_not_active" 409 ;;
  refuse (is_objective r && has_function "orchestrator" (ac_functions data)) "objective_profile_managed" 422 ;;
  refuse (has_function "orchestrator" (ac_functions data) && negb (phase_orchestrated (r_phase r))) "retired_orchestrator" 422 ;;
  refuse (present (r_pending_phase r)) "phase_settling" 409.

(** A session may not queue its own goal again. *)
Definition check_goal (actor : Actor) (data : AssignmentCreate) (r : run) (m : mission) : M unit :=
  when (is_agent actor)
    (l ← live_execution actor;
     current ← (get (lx_assignment_id l) : M assignment);
     refuse (bool_decide (a_mission_id current = ac_mission_id data)) "child_mission_required" 422 ;;
     when (is_objective r)
       (own ← (get (a_mission_id current) : M mission);
        refuse (same_words (m_objective m) (m_objective own)) "unchanged_mission" 422)).

(** The delegator, when there is one. *)
Definition check_parent (actor : Actor) (data : AssignmentCreate) (internal : bool) : M unit :=
  match ac_parent_id data with
  | Some parent =>
      delegator ← (get parent : M assignment);
      refuse (negb (bool_decide (a_run_id delegator = ac_run_id data))) "scope_mismatch" 422 ;;
      when (is_agent actor)
        (l ← live_execution actor;
         refuse (negb (bool_decide (lx_assignment_id l = parent))) "forbidden" 403 ;;
         _ ← require_mission_authority actor (ac_mission_id data) Worker; mret tt)
  | None => refuse (is_agent actor && negb internal) "delegator_required" 422
  end.

Definition planner_delegator (r : run) (delegator : assignment) : M bool :=
  match a_automation_id delegator with
  | Some k => if is_objective r then au ← (get k : M automation); mret (bool_decide (au_name au = "objective-planner"))
              else mret false
  | None => mret false
  end.

Definition check_delegation (actor : Actor) (data : AssignmentCreate) (r : run) (m : mission) : M unit :=
  match ac_parent_id data with
  | Some parent =>
      delegator ← (get parent : M assignment);
      planner ← planner_delegator r delegator;
      d ← ask id;
      refuse (negb (contains_mission d (if (planner : bool) then r_mission_id r else a_mission_id delegator) (m_id m)))
             "scope_mismatch" 422 ;;
      refuse (is_agent actor && bool_decide (m_id m = a_mission_id delegator)) "child_mission_required" 422
  | None => mret tt
  end.

(** Another unfinished assignment of the run for the mission in the role. *)
Definition owns_mission (run m : uid) (k : role) (a : assignment) : bool :=
  bool_decide (a_run_id a = run) && bool_decide (a_mission_id a = m) && bool_decide (a_role a = k) && live_assignment a.

Definition check_owner (data : AssignmentCreate) (m : mission) : M unit :=
  when (present (m_parent_id m))
    (owner ← any (owns_mission (ac_run_id data) (ac_mission_id data) (ac_role data));
     refuse owner "mission_already_owned" 409).

Definition check_reviewer (data : AssignmentCreate) (p : uid) (internal : bool) : M unit :=
  match ac_reviewer_descriptor_id data with
  | Some i => refuse (negb internal) "review_manifest_required" 422 ;; in_project Kreviewer_descriptor i p
  | None => mret tt
  end.

Definition new_assignment (data : AssignmentCreate) (automation : option uid) (category : string) (options : ModelOptions)
    (harness : option uid) (n rank : Z) (i : uid) (now : instant) : assignment :=
  {| a_id := i; a_created_at := now; a_updated_at := now; a_revision := 1; a_run_id := ac_run_id data; a_number := n;
     a_mission_id := ac_mission_id data; a_category := Some category; a_recurrence_key := None; a_pause_reason := None;
     a_parent_id := ac_parent_id data; a_automation_id := automation;
     a_reviewer_descriptor_id := ac_reviewer_descriptor_id data; a_role := ac_role data; a_functions := ac_functions data;
     a_instructions := ac_instructions data; a_harness_id := harness; a_model_options := options; a_status := Pending;
     a_status_note := None; a_queue_rank := rank; a_not_before := ac_not_before data; a_expires_at := ac_expires_at data;
     a_start_condition := ac_start_condition data; a_checkpoint_requested_at := None; a_retry_at := None;
     a_started_at := None; a_finished_at := None; a_recovery_attempts := 0 |}.

(** What the assignment has to account for. *)
Definition root_account (data : AssignmentCreate) (rule : option uid) (m : mission) : M (obligation_kind * string) :=
  if has_function "orchestrator" (ac_functions data)
  then mret (Decision_, "Account for one bounded Horizon health and queue-consistency episode.")
  else if has_function "planner" (ac_functions data)
  then mret (Decision_, ("Account for one bounded planning pass: identify concrete unowned work "
                         +:+ "or preserve existing owners and their wake conditions.")%string)
  else match rule with
  | None => mret (Deliverable, m_objective m)
  | Some k =>
      au ← (get k : M automation);
      mret (if bool_decide (au_name au = "root-maintainer")
            then (Decision_, ("Account for this bounded maintenance pass with evidence: plan or repair concrete work, "
                  +:+ "review delivered results, preserve an existing owner and its event wait, or record phase completion.")%string)
            else (Deliverable, m_objective m))
  end.

Definition root_obligation (a : uid) (k : obligation_kind) (description : string) (i : uid) (now : instant) : obligation :=
  {| o_id := i; o_created_at := now; o_updated_at := now; o_revision := 1; o_assignment_id := a;
     o_created_by_execution_id := None; o_comments := []; o_number := 1; o_kind := k; o_description := description;
     o_status := ObOpen; o_resolution := None |}.

(** [INSERT ... ON CONFLICT DO NOTHING] on (assignment, subject). *)
Definition subscribe_default (a p : uid) (r : RecordRef) : M unit :=
  in_project (ref_kind r) (ref_id r) p ;;
  taken ← any (fun s => bool_decide (sb_assignment_id s = a) && bool_decide (sb_subject_id s = StoredRef r));
  if (taken : bool) then mret tt
  else
    _ ← create (fun i now =>
      {| sb_id := i; sb_created_at := now; sb_updated_at := now; sb_revision := 1; sb_assignment_id := a;
         sb_subject_id := StoredRef r; sb_mode := Digest; sb_origin := AssignmentOrigin; sb_expires_at := None |});
    mret tt.

Definition seed_assignment_subscriptions (a : assignment) : M unit :=
  m ← (get (a_mission_id a) : M mission);
  nodes ← ask (fun d => related (m_id m) (tb_mission_node d));
  for_each (subscribe_default (a_id a) (m_project_id m))
    ({| ref_kind := Kmission; ref_id := m_id m |} :: map (fun n => {| ref_kind := Knode; ref_id := n |}) nodes).

Definition assignment_fields : list string :=
  ["run_id"; "mission_id"; "parent_id"; "reviewer_descriptor_id"; "role"; "category"; "functions"; "instructions";
   "harness_id"; "not_before"; "expires_at"].

Definition admit_assignment (actor : Actor) (data : AssignmentCreate) (p : uid) (r : run) (internal repair : bool) : M mission :=
  check_run r data repair ;;
  m ← (same_project Kmission (ac_mission_id data) p : M mission);
  check_goal actor data r m ;;
  refuse (negb (bool_decide (m_status m = MissionOpen))
          && negb (repair && bool_decide (m_status m = MissionCompleted) && bool_decide (r_status r = RunDraining)))
         "mission_closed" 409 ;;
  check_parent actor data internal ;;
  check_delegation actor data r m ;;
  d ← ask id;
  refuse (negb (contains_mission d (r_mission_id r) (m_id m))) "scope_mismatch" 422 ;;
  check_owner data m ;;
  refuse (negb (subset_of (ac_functions data) FUNCTIONS)) "unknown_function" 422 ;;
  check_reviewer data p internal ;;
  validate_condition p (ac_start_condition data) None ;;
  mret m.

Definition create_assignment (actor : Actor) (data : AssignmentCreate) (automation : option uid) (internal repair : bool)
    : M assignment :=
  r ← (get (ac_run_id data) : M run);
  p ← scoped Krun (ac_run_id data);
  require_project actor p WorkerGrant ;;
  when (bool_decide (ac_role data = Maintainer) && negb internal) (require_project actor p MaintainerGrant) ;;
  when repair (require_project actor p MaintainerGrant) ;;
  m ← admit_assignment actor data p r internal repair;
  '(category, options, harness) ← validate_enqueue r data;
  top ← max_of a_queue_rank (fun a => bool_decide (a_run_id a = ac_run_id data));
  n ← next_number a_number (fun a => bool_decide (a_run_id a = ac_run_id data));
  row ← create (new_assignment data automation category options harness n (top + 1024));
  _ ← snapshot row (actor_id actor);
  '(k, description) ← root_account data automation m;
  _ ← create (root_obligation (a_id row) k description);
  seed_assignment_subscriptions row ;;
  _ ← emit (Some (actor_id actor)) (Some p) (assignment_subject row) assignment_fields None None None;
  mret row.

(** ** The waiting graph *)

Definition depends (d : DB) (c : option Condition) (y : uid) : Prop :=
  exists r, r ∈ referenced_objects c /\
    ((ref_kind r = Kassignment /\ ref_id r = y) \/
     (ref_kind r = Kobligation /\ exists o, tb_obligation d !! ref_id r = Some o /\ o_status o = ObOpen /\ o_assignment_id o = y)).

(** [waits d p x y]: in project [p], the unfinished assignment [x] waits for [y]. *)
Definition waits (d : DB) (p x y : uid) : Prop :=
  exists a, tb_assignment d !! x = Some a /\ waiting_in d p a = true /\ depends d (a_start_condition a) y.

Lemma dependencies_Ok refs d l d' :
  dependencies refs d = Ok (l, d') ->
  d' = d /\ forall y, y ∈ l <-> exists r, r ∈ refs /\
    ((ref_kind r = Kassignment /\ ref_id r = y) \/
     (ref_kind r = Kobligation /\ exists o, tb_obligation d !! ref_id r = Some o /\ o_status o = ObOpen /\ o_assignment_id o = y)).
Proof.
  revert l d'. induction refs as [|r refs IH]; intros l d' H; cbn in H.
  { apply ret_Ok in H as [-> ->]. split; [done|]. set_solver. }
  apply bind_Ok in H as (here & d1 & Hh & H).
  assert (d1 = d /\ forall y, y ∈ here <-> (ref_kind r = Kassignment /\ ref_id r = y) \/
    (ref_kind r = Kobligation /\ exists o, tb_obligation d !! ref_id r = Some o /\ o_status o = ObOpen /\ o_assignment_id o = y))
    as [-> Hhere].
  { destruct (ref_kind r); try (apply ret_Ok in Hh as [-> ->]; split; [done|]; intros y; rewrite ?list_elem_of_singleton; set_solver).
    apply bind_Ok in Hh as (o & ? & [Ho ->]%get_Ok & [-> ->]%ret_Ok). cbn in Ho. split; [done|]. intros y.
    case_bool_decide; set_solver. }
  apply bind_Ok in H as (rest & d2 & [-> Hrest]%IH & [-> ->]%ret_Ok). split; [done|].
  intros y. rewrite elem_of_app, Hhere, Hrest. setoid_rewrite elem_of_cons. naive_solver.
Qed.

Lemma wait_edges_Ok cs d es d' :
  wait_edges cs d = Ok (es, d') ->
  d' = d /\ map fst es = map fst cs /\ forall o c, (o, c) ∈ cs -> exists ys, (o, ys) ∈ es /\ forall y, depends d c y -> y ∈ ys.
Proof.
  revert es d'. induction cs as [|[o c] cs IH]; intros es d' H; cbn in H.
  { apply ret_Ok in H as [-> ->]. set_solver. }
  apply bind_Ok in H as (l & ? & [-> Hl]%dependencies_Ok & H).
  apply bind_Ok in H as (rest & ? & (-> & Hf & Hrest)%IH & [-> ->]%ret_Ok). split; [done|].
  split; [cbn; by rewrite Hf|]. intros o' c' [[= -> ->]|Hin]%elem_of_cons.
  - exists (remove_dups l). split; [left|]. intros y Hy. by apply elem_of_remove_dups, Hl.
  - destruct (Hrest o' c' Hin) as (ys & ? & ?). exists ys. split; [by right|done].
Qed.

Lemma edge_of_row es x ys y : NoDup (map fst es) -> (x, ys) ∈ es -> y ∈ ys -> edge es x y.
Proof.
  unfold edge, successors. intros Hnd Hin Hy. destruct (List.find _ es) as [[k zs]|] eqn:E.
  - apply find_some in E as [Hk Ek]. cbn in Ek. bools. subst k. cbn. apply list_elem_of_In in Hk.
    assert (zs = ys) as ->; [|done].
    apply list_elem_of_lookup in Hin as [n Hn]. apply list_elem_of_lookup in Hk as [m Hm].
    assert (m = n) as -> by (eapply (NoDup_lookup (map fst es) m n x); [done|by rewrite list_lookup_fmap, ?Hm, ?Hn..]).
    congruence.
  - exfalso. eapply find_none in E; [|by apply list_elem_of_In]. cbn in E. by rewrite bool_decide_true in E.
Qed.

Lemma keeps_dependencies R `{!PreOrder R} refs : Keeps R (dependencies refs).
Proof. induction refs; cbn; frame. Qed.
#[export] Hint Resolve keeps_dependencies : frame.

Lemma keeps_wait_edges R `{!PreOrder R} cs : Keeps R (wait_edges cs).
Proof. induction cs as [|[]]; cbn; frame. Qed.
#[export] Hint Resolve keeps_wait_edges : frame.

Lemma keeps_validate_condition R `{!PreOrder R} p c i : Keeps R (validate_condition p c i).
Proof. unfold validate_condition. frame. Qed.
#[export] Hint Resolve keeps_validate_condition : frame.

Lemma keeps_parse_assignment R `{!PreOrder R} data : Keeps R (parse_assignment data).
Proof. unfold parse_assignment. frame. Qed.
#[export] Hint Resolve keeps_parse_assignment : frame.

Lemma keeps_report_assignment R `{!PreOrder R, !Quiet R event} actor p old row args note :
  Keeps R (report_assignment actor p old row args note).
Proof. unfold report_assignment. frame. Qed.
#[export] Hint Extern 1 (Keeps _ (report_assignment _ _ _ _ _ _)) => (apply keeps_report_assignment; typeclasses eauto) : frame.

Lemma lookup_conditions i c (l : list assignment) x a :
  NoDup (map a_id l) -> a ∈ l -> a_id a = x -> x <> i -> conditions_with i c l !! x = Some (a_start_condition a).
Proof.
  intros Hnd Ha <- Hne. unfold conditions_with. rewrite lookup_insert_ne by done.
  apply elem_of_list_to_map_1; [|by apply (list_elem_of_fmap_2 (fun a => (a_id a, a_start_condition a)))].
  rewrite <- list_fmap_compose. exact Hnd.
Qed.

Lemma waiting_ids d p :
  (forall j a, tb_assignment d !! j = Some a -> a_id a = j) ->
  NoDup (map a_id (List.filter (waiting_in d p) (map snd (map_to_list (tb_assignment d))))).
Proof.
  intros Hid. assert (NoDup (map a_id (map snd (map_to_list (tb_assignment d))))) as H.
  { rewrite map_map. erewrite map_ext_in; [apply (NoDup_fst_map_to_list (tb_assignment d))|].
    intros [j a] Hin. apply list_elem_of_In, elem_of_map_to_list in Hin. by apply Hid. }
  revert H. generalize (map snd (map_to_list (tb_assignment d))) as l. induction l as [|a l IH]; cbn; [done|].
  intros [Ha Hl]%NoDup_cons. destruct (waiting_in d p a); cbn; [|by apply IH]. apply NoDup_cons. split; [|by apply IH].
  intros Hin. apply Ha. apply list_elem_of_fmap in Hin as (b & -> & Hb). apply list_elem_of_fmap. exists b. split; [done|].
  apply list_elem_of_In. apply list_elem_of_In, filter_In in Hb. apply Hb.
Qed.

(** An accepted condition closes no circle of waiting assignments. *)
Lemma validate_condition_acyclic p c i d u d1 d' row :
  (forall j a, tb_assignment d !! j = Some a -> a_id a = j) ->
  validate_condition p (Some c) (Some i) d = Ok (u, d1) ->
  ledger_part d' = (tb_obligation d, <[i := row]> (tb_assignment d), tb_run d, tb_mission d) ->
  a_start_condition row = Some c -> irreflexive (waits d' p).
Proof.
  intros Hid H E Hrow. injection E as Eo Ea Er Em. unfold validate_condition in H.
  apply bind_Ok in H as (? & ? & [_ ->]%lift_Ok & H). skip H.
  apply bind_Ok in H as (? & ? & [-> ->]%ask_Ok & H). apply bind_Ok in H as (l & ? & [-> ->]%select_Ok & H).
  apply bind_Ok in H as (es & ? & (-> & Hf & He)%wait_edges_Ok & [Hc _]%lift_Ok).
  set (l := List.filter (waiting_in (id d) p) (map snd (map_to_list (rows d)))) in *.
  assert (acyclic es) as Hac by (destruct (reject_cycle_spec es) as [[_ ?]|[? _]]; [done|congruence]).
  clear x. intros z Hz. apply (Hac z). eapply (tc_congruence id); [|exact Hz]. clear z Hz. unfold id.
  intros x y (a & Ha & Hin & Hdep). rewrite Ea in Ha.
  assert (conditions_with i c l !! x = Some (a_start_condition a)) as Hlk.
  { apply lookup_insert_Some in Ha as [[<- <-]|[Hne Ha]]; [rewrite Hrow; apply lookup_insert_eq|].
    apply lookup_conditions; [by apply waiting_ids| |by apply Hid|done].
    apply (elem_of_select (waiting_in d p) d a). split; [|by exists x].
    unfold waiting_in in *. by rewrite Er, Em in Hin. }
  apply elem_of_map_to_list in Hlk. destruct (He _ _ Hlk) as (ys & Hys & Hd).
  eapply edge_of_row; [rewrite Hf; apply NoDup_fst_map_to_list|done|]. apply Hd.
  destruct Hdep as (r & Hr & Hk). exists r. split; [done|]. by rewrite Eo in Hk.
Qed.

Lemma open_assignment_scope actor i n d old p d' :
  open_assignment actor i n d = Ok ((old, p), d') -> d' = d /\ tb_assignment d !! i = Some old /\ assignment_project d i = Some p.
Proof.
  unfold open_assignment. intros H. apply bind_Ok in H as (a & ? & [Ha ->]%get_Ok & H).
  apply bind_Ok in H as (q & ? & [Hq ->]%scoped_assignment_Ok & H). skip H. skip H. skip H.
  apply ret_Ok in H as [[= -> ->] ->]. done.
Qed.

(** What a scheduling command has validated and written. *)
Definition scheduled (i : uid) (row : assignment) (d d' : DB) : Prop :=
  exists p, assignment_project d i = Some p /\ is_ok (validate_condition p (a_start_condition row) (Some i) d) = true
    /\ ledger_part d' = (tb_obligation d, <[i := row]> (tb_assignment d), tb_run d, tb_mission d).

Lemma scheduled_by i e f d row d1 d' p u d0 :
  assignment_project d i = Some p ->
  validate_condition p (a_start_condition row) (Some i) d = Ok (u, d0) ->
  change i e f d = Ok (row, d1) -> same_part ledger_part d1 d' -> scheduled i row d d'.
Proof.
  intros Hp Hv (a & _ & _ & _ & E)%change_Ok Es. exists p. split; [done|]. split; [by rewrite Hv|].
  rewrite Es, E. done.
Qed.

Lemma checkpoint_assignment_spec actor i n args d row d' :
  checkpoint_assignment actor i n args d = Ok (row, d') -> scheduled i row d d' /\ a_status row = Running.
Proof.
  unfold checkpoint_assignment. intros H. skip H.
  apply bind_Ok in H as ([old p] & ? & (-> & Ho & Hp)%open_assignment_scope & H).
  apply bind_Ok in H as (? & ? & [Hs ->]%refuse_Ok & H). skip H.
  apply bind_Ok in H as (? & d0 & Hv & H). pose proof (read_only _ _ _ _ (keeps_validate_condition eq _ _ _) Hv) as ->.
  apply bind_Ok in H as (parsed & d0 & Hx & H). apply read_only in Hx as ->; [|frame].
  apply bind_Ok in H as (now & ? & [-> ->]%ask_Ok & H). apply bind_Ok in H as (row' & d1 & Hc & H).
  apply bind_Ok in H as (? & d2 & E2 & H). leaves ledger_part E2.
  apply bind_Ok in H as (? & d3 & E3 & H). leaves ledger_part E3. apply ret_Ok in H as [-> ->].
  pose proof Hc as (a & Ha & _ & Erow & _)%change_Ok. cbn in Ha. rewrite Ho in Ha. injection Ha as <-. bools.
  split; [|by rewrite Erow]. eapply (scheduled_by _ _ _ _ _ _ _ p); [done| |exact Hc|by etrans].
  rewrite Erow. exact Hv.
Qed.

Lemma update_assignment_spec actor i n args d row d' :
  update_assignment actor i n args d = Ok (row, d') -> scheduled i row d d' /\ a_status row = Pending.
Proof.
  unfold update_assignment. intros H. skip H.
  apply bind_Ok in H as ([old p] & ? & (-> & Ho & Hp)%open_assignment_scope & H).
  apply bind_Ok in H as (? & ? & [Hs ->]%refuse_Ok & H).
  apply bind_Ok in H as (parsed & d0 & Hx & H). unfold parse_assignment in Hx.
  apply bind_Ok in Hx as (? & ? & [_ ->]%lift_Ok & [-> ->]%ret_Ok). skip H.
  apply bind_Ok in H as (? & d0 & Hv & H). pose proof (read_only _ _ _ _ (keeps_validate_condition eq _ _ _) Hv) as ->.
  apply bind_Ok in H as (row' & d1 & Hc & H).
  apply bind_Ok in H as (? & d2 & E2 & H). leaves ledger_part E2.
  apply bind_Ok in H as (? & d3 & E3 & H). leaves ledger_part E3. apply ret_Ok in H as [-> ->].
  pose proof Hc as (a & Ha & _ & Erow & _)%change_Ok. cbn in Ha. rewrite Ho in Ha. injection Ha as <-. bools.
  split; [|by rewrite Erow]. eapply (scheduled_by _ _ _ _ _ _ _ p); [done| |exact Hc|by etrans].
  assert (a_start_condition row' = default (a_start_condition old) (up_start_condition args)) as ->
    by (rewrite Erow; by destruct (up_start_condition args)).
  exact Hv.
Qed.

(** C38. A start condition set by a checkpoint or by an edit never makes the assignments of a
    project wait for each other in a circle, directly or through the owners of open
    obligations. *)
Theorem conditions_never_deadlock actor i n ck up d row d' c p :
  (forall j a, tb_assignment d !! j = Some a -> a_id a = j) ->
  checkpoint_assignment actor i n ck d = Ok (row, d') \/ update_assignment actor i n up d = Ok (row, d') ->
  a_start_condition row = Some c -> assignment_project d i = Some p ->
  irreflexive (waits d' p).
Proof.
  intros Hid Hdo Hc Hp.
  assert (scheduled i row d d') as (p' & Hp' & Hv & E)
    by (destruct Hdo as [?%checkpoint_assignment_spec|?%update_assignment_spec]; tauto).
  rewrite Hp in Hp'. injection Hp' as <-. rewrite Hc in Hv.
  apply is_ok_true in Hv as [[u d1] Hv]. by eapply validate_condition_acyclic.
Qed.

Definition done_with (a : uid) : Condition :=
  {| cond_version := 1; cond_expression := StatusIn {| ref_kind := Kassignment; ref_id := a |} ["completed"] |}.

Definition wait_for (a : uid) : UpdateAssignment :=
  {| up_not_before := None; up_expires_at := None; up_start_condition := Some (Some (done_with a));
     up_instructions := None; up_functions := Some [] |}.

(** Two pending assignments. *)
Definition waiting_db : DB :=
  sample_db <| tb_assignment := <[9%positive := sample_assignment 9 5 4 Pending]>
                                  {[10%positive := sample_assignment 10 5 4 Pending]} |>.

Lemma conditions_never_deadlock_witness :
  exists row d', update_assignment admin 9 1 (wait_for 10) waiting_db = Ok (row, d') /\ irreflexive (waits d' 2)
    /\ update_assignment admin 10 1 (wait_for 9) d' = Err (DomainError "dependency_cycle" 409).
Proof.
  destruct (is_ok_true (update_assignment admin 9 1 (wait_for 10) waiting_db)) as [[row d'] E]; [by vm_compute|].
  exists row, d'. split; [exact E|]. split.
  - apply (conditions_never_deadlock admin 9 1 {| ck_not_before := None; ck_start_condition := None; ck_note := "" |}
             (wait_for 10) waiting_db row d' (done_with 10) 2); [|by right| |by vm_compute].
    + intros j a. cbn. intros [[<- <-]|[_ [<- <-]%lookup_singleton_Some]]%lookup_insert_Some; done.
    + vm_compute in E. by injection E as <- _.
  - vm_compute in E. injection E as _ <-. by vm_compute.
Defined.

(** ** A created assignment *)

Lemma keeps_check_goal R `{!PreOrder R} actor data r m : Keeps R (check_goal actor data r m).
Proof. unfold check_goal. frame. Qed.
Lemma keeps_check_delegator R `{!PreOrder R} actor data internal : Keeps R (check_parent actor data internal).
Proof. unfold check_parent. frame. Qed.
Lemma keeps_check_delegation R `{!PreOrder R} actor data r m : Keeps R (check_delegation actor data r m).
Proof. unfold check_delegation, planner_delegator. frame. Qed.
Lemma keeps_check_reviewer R `{!PreOrder R} data p internal : Keeps R (check_reviewer data p internal).
Proof. unfold check_reviewer. frame. Qed.
Lemma keeps_validate_enqueue R `{!PreOrder R} r data : Keeps R (validate_enqueue r data).
Proof. unfold validate_enqueue. frame. Qed.
Lemma keeps_root_account R `{!PreOrder R} data k m : Keeps R (root_account data k m).
Proof. unfold root_account. frame. Qed.
#[export] Hint Resolve keeps_check_goal keeps_check_delegator keeps_check_delegation keeps_check_reviewer
  keeps_validate_enqueue keeps_root_account : frame.

Lemma keeps_seed R `{!PreOrder R, !Quiet R subscription} a : Keeps R (seed_assignment_subscriptions a).
Proof. unfold seed_assignment_subscriptions, subscribe_default. frame. Qed.
#[export] Hint Extern 1 (Keeps _ (seed_assignment_subscriptions _)) => (apply keeps_seed; typeclasses eauto) : frame.

(** When work may be queued: in an active run on an open mission, or as a repair while the run drains. *)
Definition admits (repair : bool) (r : run) (m : mission) : Prop :=
  (r_status r = RunActive /\ m_status m = MissionOpen)
  \/ (repair = true /\ r_status r = RunDraining /\ (m_status m = MissionOpen \/ m_status m = MissionCompleted)).

Lemma check_goal_Ok actor data r m d u d' l cur :
  check_goal actor data r m d = Ok (u, d') -> is_agent actor = true -> live_execution actor d = Ok (l, d) ->
  tb_assignment d !! lx_assignment_id l = Some cur -> a_mission_id cur <> ac_mission_id data.
Proof.
  unfold check_goal. intros H Ha Hl Hc. rewrite Ha in H. cbn [when] in H.
  apply bind_Ok in H as (l' & d1 & Hl' & H). rewrite Hl in Hl'. injection Hl' as <- <-.
  apply bind_Ok in H as (cur' & ? & [Hc' ->]%get_Ok & H). cbn in Hc'. rewrite Hc in Hc'. injection Hc' as <-.
  apply bind_Ok in H as (? & ? & [Hne _]%refuse_Ok & _). by bools.
Qed.

Lemma admit_assignment_spec actor data p r internal repair d m d' :
  admit_assignment actor data p r internal repair d = Ok (m, d') ->
  d' = d /\ tb_mission d !! ac_mission_id data = Some m /\ admits repair r m
  /\ contains_mission d (r_mission_id r) (m_id m) = true
  /\ (m_parent_id m <> None -> forall j a, tb_assignment d !! j = Some a ->
        owns_mission (ac_run_id data) (ac_mission_id data) (ac_role data) a = false)
  /\ (forall l cur, is_agent actor = true -> live_execution actor d = Ok (l, d) ->
        tb_assignment d !! lx_assignment_id l = Some cur -> a_mission_id cur <> ac_mission_id data).
Proof.
  unfold admit_assignment. intros H.
  apply bind_Ok in H as (? & d1 & Hr & H). unfold check_run in Hr.
  apply bind_Ok in Hr as (? & ? & [Hra ->]%refuse_Ok & Hr). apply read_only in Hr as ->; [|frame].
  apply bind_Ok in H as (m' & ? & (-> & Hm & _)%same_project_Ok & H).
  apply bind_Ok in H as (? & d1 & Hg & H). pose proof (read_only _ _ _ _ (keeps_check_goal eq _ _ _ _) Hg) as ->.
  apply bind_Ok in H as (? & ? & [Hms ->]%refuse_Ok & H). skip H. skip H.
  apply bind_Ok in H as (? & ? & [-> ->]%ask_Ok & H). apply bind_Ok in H as (? & ? & [Hc ->]%refuse_Ok & H).
  apply bind_Ok in H as (? & d1 & Ho & H). unfold check_owner in Ho.
  assert (d1 = d /\ (m_parent_id m' <> None -> forall j a, tb_assignment d !! j = Some a ->
        owns_mission (ac_run_id data) (ac_mission_id data) (ac_role data) a = false)) as [-> Hown].
  { destruct (m_parent_id m'); cbn [when present] in Ho; [|apply ret_Ok in Ho as [_ ->]; by split].
    apply bind_Ok in Ho as (b & ? & [-> Hb]%any_none & [-> ->]%refuse_Ok). split; [done|]. intros _. by apply Hb. }
  skip H. skip H. skip H. apply ret_Ok in H as [-> ->]. bools. split; [done|]. split; [done|].
  split; [|split; [done|split; [done|by intros; eapply check_goal_Ok]]].
  unfold admits. revert Hra Hms. destruct repair, (r_status r), (m_status m'); cbn; intros ??; try done; naive_solver.
Qed.

Lemma max_of_Ok {R} `{Table R} (f : R -> Z) p d n d' :
  max_of f p d = Ok (n, d') -> d' = d /\ forall i r, rows d !! i = Some r -> p r = true -> f r <= n.
Proof.
  unfold max_of. intros [-> ->]%ask_Ok. split; [done|]. intros i r Hr Hp.
  assert (forall l n0, n0 <= List.fold_left Z.max l n0 /\ forall x, x ∈ l -> x <= List.fold_left Z.max l n0) as Hmax.
  { induction l as [|x l IH]; intros n0; cbn; [split; [lia|set_solver]|]. destruct (IH (Z.max n0 x)) as [H1 H2].
    split; [lia|]. intros y [->|Hy]%elem_of_cons; [lia|]. by apply H2. }
  assert (f r ∈ map f (List.filter p (map snd (map_to_list (rows d))))) as Hin
    by (apply (list_elem_of_fmap_2 f), elem_of_select; eauto).
  destruct (map f _) as [|n0 l]; [by apply elem_of_nil in Hin|]. destruct (Hmax l n0) as [H1 H2].
  apply elem_of_cons in Hin as [->|Hin]; [lia|by apply H2].
Qed.

(** A new assignment is queued only in an active run on an open mission (or as a repair of
    a draining run), on a mission of the run's tree, never on the mission of the agent that
    queues it.  It is pending behind every assignment of the run, is the mission's only
    unfinished assignment in its role when the mission is a child, and starts with one open
    obligation, numbered 1. *)
Theorem assignment_queued_once actor data rule internal repair d row d' :
  create_assignment actor data rule internal repair d = Ok (row, d') ->
  (forall j a, tb_assignment d !! j = Some a -> a_id a = j /\ (j < db_next d)%positive) ->
  exists r m, tb_run d !! a_run_id row = Some r /\ tb_mission d !! a_mission_id row = Some m
    /\ admits repair r m /\ contains_mission d (r_mission_id r) (m_id m) = true
    /\ (forall l cur, is_agent actor = true -> live_execution actor d = Ok (l, d) ->
          tb_assignment d !! lx_assignment_id l = Some cur -> a_mission_id cur <> a_mission_id row)
    /\ tb_assignment d' = <[a_id row := row]> (tb_assignment d) /\ tb_assignment d !! a_id row = None
    /\ a_status row = Pending
    /\ (forall j a, tb_assignment d !! j = Some a -> a_run_id a = a_run_id row -> a_queue_rank a < a_queue_rank row)
    /\ (m_parent_id m <> None -> forall j a, tb_assignment d' !! j = Some a ->
          owns_mission (a_run_id row) (a_mission_id row) (a_role row) a = true -> j = a_id row)
    /\ exists i o, tb_obligation d' = <[i := o]> (tb_obligation d) /\ o_assignment_id o = a_id row /\ o_number o = 1
          /\ o_status o = ObOpen.
Proof.
  unfold create_assignment. intros H Hid.
  apply bind_Ok in H as (r & ? & [Hr ->]%get_Ok & H). skip H. skip H. skip H. skip H.
  apply bind_Ok in H as (m & ? & (-> & Hm & Hadm & Hc & Hown & Hag)%admit_assignment_spec & H).
  apply bind_Ok in H as ([[category options] harness] & d1 & Hx & H). apply read_only in Hx as ->; [|frame].
  apply bind_Ok in H as (top & ? & [-> Htop]%max_of_Ok & H).
  apply bind_Ok in H as (n & d1 & Hx & H). apply read_only in Hx as ->; [|frame].
  apply bind_Ok in H as (row' & d1 & E1 & H). injection E1 as Erow E1.
  apply bind_Ok in H as (? & d2 & E2 & H). grown (fun d => (tb_assignment d, tb_obligation d)) E2. destruct E2 as [E2 _].
  apply bind_Ok in H as ([k description] & d3 & Hx & H). apply read_only in Hx as ->; [|frame].
  apply bind_Ok in H as (o & d3 & E3 & H). injection E3 as Eo E3.
  apply bind_Ok in H as (? & d4 & E4 & H). leaves (fun d => (tb_assignment d, tb_obligation d)) E4.
  apply bind_Ok in H as (? & d5 & E5 & H). leaves (fun d => (tb_assignment d, tb_obligation d)) E5.
  apply ret_Ok in H as [-> ->]. injection E2 as A2 O2. injection E4 as A4 O4. injection E5 as A5 O5.
  subst d1 d3. cbn in A4, O4, A2, O2. subst row'.
  assert (tb_assignment d !! db_next d = None) as Hfresh.
  { destruct (tb_assignment d !! db_next d) as [a|] eqn:E; [|done]. apply Hid in E as [_ E]. lia. }
  exists r, m. cbn [a_run_id a_mission_id a_role a_id a_status a_queue_rank new_assignment].
  split; [done|]. split; [done|]. split; [done|]. split; [done|]. split; [done|].
  rewrite A5, A4, A2. split; [done|]. split; [done|]. split; [done|]. split; [|split].
  - intros j a Hj Ha. enough (a_queue_rank a <= top) by lia. apply (Htop j); [done|by rewrite bool_decide_true].
  - intros Hp j a [[<- _]|[_ Hj]]%lookup_insert_Some Ho; [done|]. by rewrite (Hown Hp j a Hj) in Ho.
  - eexists _, _. rewrite O5, O4, O2. split; [reflexivity|]. by subst o.
Qed.

Definition child_work : AssignmentCreate :=
  {| ac_run_id := 5; ac_mission_id := 4; ac_parent_id := None; ac_reviewer_descriptor_id := None; ac_role := Worker;
     ac_category := None; ac_functions := []; ac_instructions := None; ac_harness_id := None;
     ac_model_options := no_options; ac_not_before := None; ac_expires_at := None; ac_start_condition := None |}.

Lemma assignment_queued_once_witness :
  exists row d', create_assignment admin child_work None false false sample_db = Ok (row, d')
    /\ a_status row = Pending /\ 1024 < a_queue_rank row
    /\ create_assignment admin child_work None false false d' = Err (DomainError "mission_already_owned" 409).
Proof.
  destruct (is_ok_true (create_assignment admin child_work None false false sample_db)) as [[row d'] E]; [by vm_compute|].
  assert (forall j a, tb_assignment sample_db !! j = Some a -> a_id a = j /\ (j < db_next sample_db)%positive) as Hid.
  { intros j a. cbn. intros [<- <-]%lookup_singleton_Some. by split. }
  destruct (assignment_queued_once admin child_work None false false sample_db row d' E Hid)
    as (r & m & _ & _ & _ & _ & _ & _ & _ & Hs & Hrank & _).
  exists row, d'. split; [exact E|]. split; [exact Hs|]. split.
  - apply (Hrank 6%positive (sample_assignment 6 5 3 Running)); [by vm_compute|]. vm_compute in E. by injection E as <- _.
  - vm_compute in E. injection E as _ <-. by vm_compute.
Defined.
