(* ===== verification/Deliveries.v ===== *)
(** * External deliveries

    The recovery commands of the outbox in src/archon_horizon/pipeline/commands.py
    ([retry_delivery], [cancel_delivery], [reconcile_delivery_absent]) and the control notices
    of execution/notifications.py ([_notice], [operator_notice], [delivery_failed]). *)

From S2P Require Import Prelude Contracts Schema Records Auth Samples MissionTree Missions Ledger Usage Capacity Sessions.

(** ** Control notices *)

Definition notice_source : string := "horizon_control_notice".

Definition has_key (key : string) (e : event) : bool :=
  bool_decide (ev_source e = notice_source) && bool_decide (ev_source_event_id e = Some key).

Definition notified (assignment event : uid) (n : notification) : bool :=
  bool_decide (nt_assignment_id n = assignment) && bool_decide (nt_event_id n = event).

(** [INSERT ... ON CONFLICT DO NOTHING] on (source, source_event_id), then its identifier. *)
Definition notice_event (assignment project : uid) (body : event_payload) (key : string) (actor : option uid) : M uid :=
  found ← select (has_key key);
  match found with
  | e :: _ => mret (ev_id e)
  | [] =>
      clock ← ask db_clock;
      e ← create (fun i now =>
        {| ev_id := i; ev_created_at := now; ev_project_id := Some project; ev_subject_id := Some (stored Kassignment assignment);
           ev_actor_principal_id := actor; ev_execution_id := None; ev_schema_version := 1; ev_source := notice_source;
           ev_source_event_id := Some key; ev_occurred_at := clock; ev_payload := body |});
      mret (ev_id e)
  end.

(** [INSERT ... ON CONFLICT DO NOTHING] on (assignment, event), then the row. *)
Definition notify_control (assignment event : uid) : M notification :=
  found ← select (notified assignment event);
  match found with
  | n :: _ => mret n
  | [] => create (fun i now =>
      {| nt_id := i; nt_created_at := now; nt_updated_at := now; nt_revision := 1; nt_assignment_id := assignment;
         nt_event_id := event; nt_urgency := Control; nt_delivered_at := None; nt_disposition := DispPending;
         nt_disposition_note := None; nt_obligation_id := None |})
  end.

Definition notice (assignment project : uid) (body : event_payload) (key : string) (actor : option uid) : M notification :=
  e ← notice_event assignment project body key actor;
  notify_control assignment e.

Definition require_operator (actor : Actor) (assignment : uid) : M uid :=
  p ← scoped Kassignment assignment;
  require_project actor p MaintainerGrant ;;
  refuse (negb (mem (actor_kind actor) [Human; ServicePrincipal])) "forbidden" 403 ;;
  mret p.

(** [fresh] is the text of the [uuid4] that the source generates. *)
Definition operator_notice (actor : Actor) (assignment : uid) (message fresh : string) : M notification :=
  p ← require_operator actor assignment;
  a ← (get assignment : M Schema.assignment);
  refuse (negb (mem (a_status a) [Pending; Running])) "assignment_settled" 409 ;;
  notice assignment p (ControlNotice "operator" None message) ("operator:" +:+ fresh)%string (Some (actor_id actor)).

Definition outbox_kind_str (k : outbox_kind) : string :=
  match k with
  | ProviderInputOp => "provider_input" | GoalUpdateOp => "goal_update" | ZulipPostOp => "zulip_post"
  | ForgeLabelOp => "forge_label" | ForgeReviewOp => "forge_review" | ForgeMergeOp => "forge_merge"
  | ForgeCreateOp => "forge_create" | ForgeCommentOp => "forge_comment" | ForgeChangeOp => "forge_change"
  | ForgeEditOp => "forge_edit" | PublicationOp => "publication" | WorkerEventOp => "worker_event"
  end.

Definition failure_message (o : outbox_operation) : string :=
  ("A " +:+ outbox_kind_str (ob_kind o) +:+ " delivery failed and needs reconciliation. Inspect its receipt before "
   +:+ "retrying or cancelling; do not resend under a new key.")%string.

Definition delivery_failed (o : outbox_operation) : M (option notification) :=
  if negb (bool_decide (ob_status o = OutFailed)) then mret None
  else
    who ← (get (ob_actor_principal_id o) : M principal);
    if negb (bool_decide (pr_kind who = Agent)) then mret None
    else match pr_execution_id who with
    | None => throw (DomainError "invalid_identifier" 422)
    | Some x =>
        e ← (get x : M execution);
        p ← scoped Kassignment (x_assignment_id e);
        refuse (negb (bool_decide (Some p = ob_project_id o))) "scope_mismatch" 422 ;;
        n ← notice (x_assignment_id e) p (ControlNotice "delivery_failure" (Some (ob_id o)) (failure_message o))
              ("delivery:" +:+ uuid_str (ob_id o) +:+ ":" +:+ pretty (ob_lease_epoch o))%string None;
        mret (Some n)
    end.

(** ** Recovery commands *)

Inductive delivery_command : Type := RetryDelivery | CancelDelivery | ReconcileDeliveryAbsent.
#[export] Instance delivery_command_eq_dec : EqDecision delivery_command.
Proof. solve_decision. Defined.

Definition delivery_command_str (c : delivery_command) : string :=
  match c with
  | RetryDelivery => "retry_delivery" | CancelDelivery => "cancel_delivery"
  | ReconcileDeliveryAbsent => "reconcile_delivery_absent"
  end.

Definition external_delivery (k : outbox_kind) : bool :=
  mem k [ZulipPostOp; ForgeLabelOp; ForgeReviewOp; ForgeMergeOp; ForgeCreateOp; ForgeCommentOp; ForgeChangeOp; ForgeEditOp].

(** [require_project] on a record whose project is optional. *)
Definition require_scope (actor : Actor) (p : option uid) (g : grant_role) : M unit :=
  match p with Some q => require_project actor q g | None => require_installation actor end.

(** [emit(..., "project", get(conn, "project", project_id), ["deliveries"], ...)]. *)
Definition report_delivery (actor : Actor) (p : option uid) (note : string) : M unit :=
  match p with
  | None => throw (DomainError "invalid_identifier" 422)
  | Some q =>
      row ← (get q : M project);
      _ ← emit (Some (actor_id actor)) (Some q) (project_subject row) ["deliveries"] None None (Some note);
      mret tt
  end.

(** Whether the agent works on the assignment that the delivery was made for. *)
Definition own_delivery (actor : Actor) (o : outbox_operation) : M bool :=
  previous ← (get (ob_actor_principal_id o) : M principal);
  match is_agent actor, pr_execution_id previous with
  | true, Some x =>
      l ← live_execution actor;
      e ← (get x : M execution);
      mret (bool_decide (lx_assignment_id l = x_assignment_id e))
  | _, _ => mret false
  end.

Definition absence_confirmed (note : string) : Failure :=
  {| fail_kind := TransportFailure; fail_code := "remote_absence_confirmed"; fail_message := note;
     fail_diagnostic_artifact_id := None |}.

Definition settle_delivery (s : outbox_status) (f : option Failure) (o : outbox_operation) : outbox_operation :=
  o <| ob_status := s |> <| ob_retry_at := None |> <| ob_lease_owner := None |> <| ob_lease_expires_at := None |>
    <| ob_failure := plain_failure <$> f |>.

(** The unique constraint on (actor, kind, idempotency key). *)
Definition same_delivery (row o : outbox_operation) : bool :=
  negb (bool_decide (ob_id o = ob_id row)) && bool_decide (ob_actor_principal_id o = ob_actor_principal_id row)
  && bool_decide (ob_kind o = ob_kind row) && bool_decide (ob_idempotency_key o = ob_idempotency_key row).

Definition check_delivery_key (row : outbox_operation) : M unit :=
  clash ← any (same_delivery row);
  if (clash : bool) then throw (RuntimeFailure "uq_outbox_operation") else mret tt.

Definition recover_delivery (actor : Actor) (c : delivery_command) (i : uid) (expected : Z) (note : string) : M outbox_operation :=
  refuse (bool_decide (c = ReconcileDeliveryAbsent) && (bool_decide (note = EmptyString) || over 16000 note))
         "invalid_arguments" 422 ;;
  old ← (get i : M outbox_operation);
  let p := ob_project_id old in
  require_scope actor p WorkerGrant ;;
  refuse (negb (ob_revision old =? expected)) "revision_conflict" 409 ;;
  refuse (blank note) "missing_recovery_note" 422 ;;
  refuse (negb (external_delivery (ob_kind old))) "invalid_delivery" 422 ;;
  if bool_decide (c = ReconcileDeliveryAbsent) then
    require_admin actor ;;
    refuse (negb (bool_decide (ob_status old = OutUncertain))) "delivery_not_uncertain" 409 ;;
    row ← change i (Some expected) (settle_delivery OutFailed (Some (absence_confirmed note)));
    report_delivery actor p (delivery_command_str c +:+ " " +:+ uuid_str i +:+ "; original principal "
      +:+ uuid_str (ob_actor_principal_id old) +:+ "; uncertain -> failed without resending. Remote evidence: " +:+ note)%string ;;
    _ ← delivery_failed row;
    mret row
  else
    refuse (negb (mem (ob_status old) [OutPending; OutFailed])) "delivery_unsettled" 409 ;;
    own ← own_delivery actor old;
    when (negb own || mem (ob_kind old) [ForgeReviewOp; ForgeMergeOp]) (require_scope actor p MaintainerGrant) ;;
    row ← change i (Some expected) (fun o =>
      (settle_delivery (if bool_decide (c = CancelDelivery) then OutCancelled else OutPending) None o)
        <| ob_actor_principal_id := actor_id actor |>);
    check_delivery_key row ;;
    report_delivery actor p (delivery_command_str c +:+ " " +:+ uuid_str i +:+ "; previous principal "
      +:+ uuid_str (ob_actor_principal_id old) +:+ ": " +:+ note)%string ;;
    mret row.

(** ** Frames *)

Lemma keeps_require_installation R `{!PreOrder R} actor : Keeps R (require_installation actor).
Proof. unfold require_installation. frame. Qed.
#[export] Hint Resolve keeps_require_installation : frame.

Lemma keeps_require_scope R `{!PreOrder R} actor p g : Keeps R (require_scope actor p g).
Proof. unfold require_scope. frame. Qed.
#[export] Hint Resolve keeps_require_scope : frame.

Lemma keeps_own_delivery R `{!PreOrder R} actor o : Keeps R (own_delivery actor o).
Proof. unfold own_delivery. frame. Qed.
#[export] Hint Resolve keeps_own_delivery : frame.

Lemma keeps_report_delivery R `{!PreOrder R, !Quiet R event} actor p note : Keeps R (report_delivery actor p note).
Proof. unfold report_delivery. frame. Qed.
#[export] Hint Extern 1 (Keeps _ (report_delivery _ _ _)) => (apply keeps_report_delivery; typeclasses eauto) : frame.

Lemma keeps_delivery_failed R `{!PreOrder R, !Quiet R event, !Quiet R notification} o : Keeps R (delivery_failed o).
Proof. unfold delivery_failed, notice, notice_event, notify_control. frame. Qed.
#[export] Hint Extern 1 (Keeps _ (delivery_failed _)) => (apply keeps_delivery_failed; typeclasses eauto) : frame.

Lemma keeps_check_delivery_key R `{!PreOrder R} row : Keeps R (check_delivery_key row).
Proof. unfold check_delivery_key. frame. Qed.
#[export] Hint Resolve keeps_check_delivery_key : frame.

(** ** Uncertain deliveries *)

Lemma recover_delivery_spec actor c i n note d row d' :
  recover_delivery actor c i n note d = Ok (row, d') ->
  exists old, tb_outbox_operation d !! i = Some old /\ blank note = false /\ external_delivery (ob_kind old) = true
    /\ tb_outbox_operation d' = <[i := row]> (tb_outbox_operation d)
    /\ ob_lease_owner row = None /\ ob_lease_expires_at row = None /\ ob_lease_epoch row = ob_lease_epoch old
    /\ ob_idempotency_key row = ob_idempotency_key old /\ ob_id row = ob_id old
    /\ match c with
       | ReconcileDeliveryAbsent => is_admin actor d = true /\ ob_status old = OutUncertain /\ ob_status row = OutFailed
       | RetryDelivery => mem (ob_status old) [OutPending; OutFailed] = true /\ ob_status row = OutPending
       | CancelDelivery => mem (ob_status old) [OutPending; OutFailed] = true /\ ob_status row = OutCancelled
       end
    /\ (c <> ReconcileDeliveryAbsent -> mem (ob_kind old) [ForgeReviewOp; ForgeMergeOp] = true ->
          is_ok (require_scope actor (ob_project_id old) MaintainerGrant d) = true).
Proof.
  unfold recover_delivery. intros H. skip H.
  apply bind_Ok in H as (old & ? & [Ho ->]%get_Ok & H). skip H. skip H.
  apply bind_Ok in H as (? & ? & [Hb ->]%refuse_Ok & H). apply bind_Ok in H as (? & ? & [Hk ->]%refuse_Ok & H). bools.
  exists old. split; [done|]. split; [done|]. split; [done|]. case_bool_decide as Hc.
  - apply bind_Ok in H as (? & ? & [Ha ->]%require_admin_Ok & H). apply bind_Ok in H as (? & ? & [Hs ->]%refuse_Ok & H).
    apply bind_Ok in H as (row' & d1 & (o & Ho' & _ & Erow & E1)%change_Ok & H).
    apply bind_Ok in H as (? & d2 & E2 & H). leaves tb_outbox_operation E2.
    apply bind_Ok in H as (? & d3 & E3 & H). leaves tb_outbox_operation E3. apply ret_Ok in H as [-> ->].
    cbn in Ho, Ho'. rewrite Ho in Ho'. injection Ho' as <-. bools. rewrite E3, E2, E1. subst c.
    split; [done|]. rewrite Erow. by split_and!.
  - apply bind_Ok in H as (? & ? & [Hs ->]%refuse_Ok & H). skip H.
    apply bind_Ok in H as (? & d1 & Hg & H). pose proof Hg as Hd. apply read_only in Hd as ->; [|frame].
    apply bind_Ok in H as (row' & d1 & (o & Ho' & _ & Erow & E1)%change_Ok & H). skip H.
    apply bind_Ok in H as (? & d2 & E2 & H). leaves tb_outbox_operation E2. apply ret_Ok in H as [-> ->].
    cbn in Ho, Ho'. rewrite Ho in Ho'. injection Ho' as <-. bools. rewrite E2, E1.
    split; [done|]. rewrite Erow. split; [done|]. split; [done|]. split; [done|]. split; [done|]. split; [done|].
    split; [by destruct c|]. intros _ Hm. rewrite Hm, orb_true_r in Hg. cbn [when] in Hg. by rewrite Hg.
Qed.

(** No recovery command resends a delivery whose outcome is unknown: a running delivery is
    refused, an uncertain one can only be settled as failed, by an administrator who records
    the evidence of its absence, and only a pending or failed one becomes pending again.  The
    idempotency key and the lease epoch are kept, the lease is dropped, and the verdict and
    merge deliveries always need maintainer authority. *)
Theorem uncertain_delivery_never_resent actor c i n note d row d' :
  recover_delivery actor c i n note d = Ok (row, d') ->
  exists old, tb_outbox_operation d !! i = Some old /\ tb_outbox_operation d' = <[i := row]> (tb_outbox_operation d)
    /\ external_delivery (ob_kind old) = true /\ blank note = false
    /\ mem (ob_status old) [OutPending; OutFailed; OutUncertain] = true
    /\ (ob_status old = OutUncertain -> is_admin actor d = true /\ ob_status row = OutFailed)
    /\ (ob_status row = OutPending -> mem (ob_status old) [OutPending; OutFailed] = true)
    /\ ob_idempotency_key row = ob_idempotency_key old /\ ob_lease_epoch row = ob_lease_epoch old
    /\ ob_lease_owner row = None
    /\ (mem (ob_kind old) [ForgeReviewOp; ForgeMergeOp] = true -> ob_status row <> OutFailed ->
          is_ok (require_scope actor (ob_project_id old) MaintainerGrant d) = true).
Proof.
  intros (old & Ho & Hb & Hk & E & Hl & _ & Hep & Hkey & _ & Hc & Hm)%recover_delivery_spec.
  exists old. split_and!; try done.
  - destruct c; [destruct Hc as [Hs _]..|destruct Hc as (_ & -> & _); done]; by destruct (ob_status old).
  - intros Hu. rewrite Hu in Hc. destruct c; [destruct Hc as [[=] _]..|]. naive_solver.
  - intros Hp. rewrite Hp in Hc. destruct c; naive_solver.
  - intros Hm' Hne. apply Hm; [|done]. intros ->. naive_solver.
Qed.

Definition sample_outbox (i actor : uid) (k : outbox_kind) (s : outbox_status) : outbox_operation :=
  {| ob_id := i; ob_created_at := 0; ob_updated_at := 0; ob_revision := 1; ob_project_id := Some 2%positive;
     ob_actor_principal_id := actor; ob_kind := k; ob_idempotency_key := "post"; ob_payload := POther "{}";
     ob_schema_version := 1; ob_status := s; ob_retry_count := 0; ob_retry_at := None; ob_lease_owner := Some "relay";
     ob_lease_epoch := 1; ob_lease_expires_at := Some 900; ob_result_ref_id := None; ob_failure := None |}.

Definition agent_principal : principal :=
  {| pr_id := 8; pr_created_at := 0; pr_updated_at := 0; pr_revision := 1; pr_kind := Agent; pr_display_name := "agent";
     pr_username := None; pr_host_id := None; pr_execution_id := Some 7%positive; pr_service_name := None;
     pr_disabled_at := None |}.

(** The agent of execution 7 made post 50, whose outcome is unknown. *)
Definition outbox_db : DB :=
  sample_db <| tb_project := {[2%positive := sample_project]} |> <| tb_principal := {[8%positive := agent_principal]} |>
            <| tb_outbox_operation := {[50%positive := sample_outbox 50 8 ZulipPostOp OutUncertain]} |>.

Lemma uncertain_delivery_never_resent_witness :
  exists row d', recover_delivery admin ReconcileDeliveryAbsent 50 1 "not in the log" outbox_db = Ok (row, d')
    /\ ob_status row = OutFailed
    /\ recover_delivery admin RetryDelivery 50 1 "again" outbox_db = Err (DomainError "delivery_unsettled" 409)
    /\ is_ok (recover_delivery admin RetryDelivery 50 2 "again" d') = true.
Proof.
  destruct (is_ok_true (recover_delivery admin ReconcileDeliveryAbsent 50 1 "not in the log" outbox_db)) as [[row d'] E];
    [by vm_compute|].
  destruct (uncertain_delivery_never_resent admin _ 50 1 _ outbox_db row d' E) as (old & Ho & _ & _ & _ & _ & Hu & _).
  exists row, d'. split; [exact E|]. vm_compute in Ho. injection Ho as <-. destruct (Hu eq_refl) as [_ Hs].
  split; [exact Hs|]. vm_compute in E. injection E as _ <-. split; by vm_compute.
Defined.

(** ** Notices *)

Lemma select_created {R} `{Table R} (p : R -> bool) (v : uid -> instant -> R) d r d' :
  (forall m d, rows (put_rows m d) = m) ->
  List.filter p (map snd (map_to_list (rows d))) = [] -> create v d = Ok (r, d') -> p r = true ->
  List.filter p (map snd (map_to_list (rows d'))) = [r].
Proof.
  intros Hput Hnil [= Er Ed] Hp. rewrite <- Ed, Hput, Er.
  assert (List.filter p (map snd (map_to_list (delete (db_next d) (rows d)))) = []) as Hdel.
  { destruct (List.filter p (map snd (map_to_list (delete (db_next d) (rows d))))) as [|x l] eqn:E; [reflexivity|].
    assert (x ∈ x :: l) as Hx by left. rewrite <- E in Hx. apply list_elem_of_In, filter_In in Hx as [Hx Hpx].
    apply list_elem_of_In, list_elem_of_fmap in Hx as ([j y] & -> & Hj). apply elem_of_map_to_list in Hj.
    apply lookup_delete_Some in Hj as [_ Hj].
    assert (y ∈ List.filter p (map snd (map_to_list (rows d)))) as Hy by (apply elem_of_select; eauto).
    rewrite Hnil in Hy. by apply elem_of_nil in Hy. }
  rewrite <- insert_delete_eq.
  assert (map snd (map_to_list (<[db_next d := r]> (delete (db_next d) (rows d))))
    ≡ₚ r :: map snd (map_to_list (delete (db_next d) (rows d)))) as Hperm.
  { rewrite map_to_list_insert by apply lookup_delete_eq. done. }
  apply (filter_values p) in Hperm. cbn in Hperm. rewrite Hp, Hdel in Hperm. by apply Permutation_singleton_r in Hperm.
Qed.

Lemma notify_control_again a e d n d' :
  notify_control a e d = Ok (n, d') -> notify_control a e d' = Ok (n, d') /\ tb_event d' = tb_event d.
Proof.
  unfold notify_control. intros H. apply bind_Ok in H as (l & ? & [El ->]%select_Ok & H).
  unfold mbind at 1, M_bind, select, ask. destruct l as [|n0 l].
  - assert (forall m d, rows (put_rows m d) = (m : gmap uid notification)) as Hput by done.
    rewrite (select_created (notified a e) _ d n d' Hput (eq_sym El) H);
      [injection H as <- <-; by split|]. injection H as <- _. unfold notified. cbn. by rewrite !bool_decide_true.
  - apply ret_Ok in H as [-> ->]. by rewrite <- El.
Qed.

Lemma notice_event_again a p b k o d e d' b' o' :
  notice_event a p b k o d = Ok (e, d') -> forall d2, tb_event d2 = tb_event d' -> notice_event a p b' k o' d2 = Ok (e, d2).
Proof.
  unfold notice_event. intros H. apply bind_Ok in H as (l & ? & [El ->]%select_Ok & H).
  intros d2 E2. unfold mbind at 1, M_bind, select, ask. cbn [rows event_table]. rewrite E2. cbn in El. destruct l as [|n0 l].
  - apply bind_Ok in H as (c & ? & [-> ->]%ask_Ok & H). apply bind_Ok in H as (r & d1 & Hr & [-> ->]%ret_Ok).
    assert (forall m d, rows (put_rows m d) = (m : gmap uid event)) as Hput by done.
    pose proof (select_created (has_key k) _ d r d1 Hput (eq_sym El) Hr) as Hs. cbn in Hs. rewrite Hs; [done|].
    injection Hr as <- _. unfold has_key. cbn. by rewrite !bool_decide_true.
  - apply ret_Ok in H as [-> ->]. by rewrite <- El.
Qed.

(** A settled failure is notified once: repeating a notice under its key, whatever its
    payload and actor, finds the same event and notification and changes nothing. *)
Theorem notice_idempotent a p body key actor d n d' body' actor' :
  notice a p body key actor d = Ok (n, d') -> notice a p body' key actor' d' = Ok (n, d').
Proof.
  unfold notice. intros H. apply bind_Ok in H as (e & d1 & He & Hn).
  apply notify_control_again in Hn as [Hn E]. unfold mbind, M_bind.
  by rewrite (notice_event_again _ _ _ _ _ _ _ _ body' actor' He d' E).
Qed.

Lemma notice_idempotent_witness :
  exists n d', notice 6 2 (ControlNotice "operator" None "look") "operator:1" None outbox_db = Ok (n, d')
    /\ notice 6 2 (ControlNotice "operator" None "again") "operator:1" (Some 1%positive) d' = Ok (n, d')
    /\ size (tb_notification d') = 1%nat.
Proof.
  destruct (is_ok_true (notice 6 2 (ControlNotice "operator" None "look") "operator:1" None outbox_db)) as [[n d'] E];
    [by vm_compute|].
  exists n, d'. split; [exact E|]. split; [exact (notice_idempotent 6 2 _ _ _ outbox_db n d' _ _ E)|].
  vm_compute in E. injection E as _ <-. by vm_compute.
Defined.
