(* ===== verification/Settlement.v ===== *)
(** * Settling a session

    When a session may be completed: [completion_findings], [settlement_findings],
    [assignment_deliveries], [pending_deliveries] and [progress_stalled] of
    src/archon_horizon/pipeline/missions/service.py.  A finding is a value of [finding];
    [finding_text] is the sentence that the source reports. *)

From S2P Require Import Prelude Contracts Schema Records Auth Samples MissionTree Missions Ledger Usage Capacity Sessions Assignments Deliveries.

Definition table {R} `{Table R} (d : DB) : list R := map snd (map_to_list (rows d)).

Definition tally {R} `{Table R} (p : R -> bool) (d : DB) : Z := Z.of_nat (List.length (List.filter p (table d))).

(** ** Deliveries of an assignment *)

(** The rows of [assignment_deliveries]: external operations of the principals of its executions. *)
Definition assignment_delivery (d : DB) (a : uid) (o : outbox_operation) : bool :=
  match (who ← tb_principal d !! ob_actor_principal_id o; x ← pr_execution_id who; tb_execution d !! x) with
  | Some x => bool_decide (x_assignment_id x = a) && external_delivery (ob_kind o)
  | None => false
  end.

Definition pending_deliveries (d : DB) (a : uid) : bool :=
  existsb (fun o => assignment_delivery d a o && mem (ob_status o) [OutPending; OutRunning; OutUncertain]) (table d).

(** ** Findings *)

Inductive finding : Type :=
| SettleReview
| OpenObligations (n : Z)
| UnchangedHandoff
| UnsettledRequests (n : Z)
| ControlNotices (n : Z)
| OutstandingDeliveries (n : Z)
| GoalUpdates.

Definition finding_text (f : finding) : string :=
  match f with
  | SettleReview => "Deliver the review decision and settle_review for this session's assigned generation."
  | OpenObligations n =>
      ("Account for the " +:+ pretty n +:+ " open obligations by doing the work or recording durable handling.")%string
  | UnchangedHandoff =>
      ("The mission was handed unchanged to one unfinished assignment. "
       +:+ "Continue this context, narrow the delegated mission while retaining your own work, "
       +:+ "or decompose the work into independent scopes. Publish your bounded deliverable "
       +:+ "and give dependent follow-up work its own scoped queued owner.")%string
  | UnsettledRequests n => ("Reconcile " +:+ pretty n +:+ " outstanding provider requests before completion.")%string
  | ControlNotices n => ("Handle " +:+ pretty n +:+ " pending control notifications.")%string
  | OutstandingDeliveries n =>
      ("Reconcile " +:+ pretty n +:+ " outstanding Forge or Zulip deliveries before completion; "
       +:+ "inspect their receipts and failures.")%string
  | GoalUpdates =>
      ("Read and follow the updated mission or roadmap baseline in the continuation input. "
       +:+ "Successful provider completion automatically acknowledges that input's pinned revision. "
       +:+ "Do not PATCH the mission or rewrite delegation_note merely to acknowledge it; "
       +:+ "that creates another goal update. Make a mission edit only for an actual contract or guidance change.")%string
  end.

Definition reported (n : Z) (f : finding) : list finding := if n =? 0 then [] else [f].

Definition control_pending (a : uid) (n : notification) : bool :=
  bool_decide (nt_assignment_id n = a) && bool_decide (nt_urgency n = Control) && bool_decide (nt_disposition n = DispPending).

Definition delivery_states (include_pending : bool) : list outbox_status :=
  if include_pending then [OutPending; OutRunning; OutUncertain; OutFailed] else [OutFailed].

Definition outstanding_delivery (d : DB) (a : uid) (include_pending : bool) (o : outbox_operation) : bool :=
  assignment_delivery d a o && mem (ob_status o) (delivery_states include_pending).

Definition thread_of (d : DB) (a t : uid) : bool :=
  match tb_provider_thread d !! t with Some r => bool_decide (t_assignment_id r = a) | None => false end.

Definition goal_pending (d : DB) (a : uid) (o : outbox_operation) : bool :=
  bool_decide (ob_kind o = GoalUpdateOp) && mem (ob_status o) [OutPending; OutRunning]
  && match ob_payload o with PGoalUpdate t _ _ _ => thread_of d a t | _ => false end.

Definition settlement_findings (d : DB) (a : uid) (include_pending : bool) : list finding :=
  let unsettled := tally (outstanding_request d a) d in
  let control := tally (control_pending a) d in
  let deliveries := tally (outstanding_delivery d a include_pending) d in
  let goals := tally (goal_pending d a) d in
  reported unsettled (UnsettledRequests unsettled) ++ reported control (ControlNotices control)
  ++ reported deliveries (OutstandingDeliveries deliveries) ++ reported goals GoalUpdates.

Definition review_owed (a : uid) (r : review_demand) : bool :=
  bool_decide (dm_assignment_id r = Some a) && (dm_handled_generation r <? dm_owner_generation r).

(** The obligation that the host opened for the episode of an orchestrator. *)
Definition generated_record (o : obligation) : bool := (o_number o =? 1) && negb (present (o_created_by_execution_id o)).

Definition open_obligation (orchestrator : bool) (a : uid) (o : obligation) : bool :=
  bool_decide (o_assignment_id o = a) && bool_decide (o_status o = ObOpen) && negb (orchestrator && generated_record o).

Definition root_of (a : uid) (o : obligation) : bool := bool_decide (o_assignment_id o = a) && (o_number o =? 1).

(** Whether the work was handed unchanged to one unfinished assignment. *)
Definition unchanged_handoff (a : uid) : M bool :=
  roots ← select (root_of a);
  match roots with
  | [] => mret false
  | root :: _ =>
      match targets_of (o_resolution root) with
      | target :: rest =>
          if bool_decide (o_status root = ObHandled) && forallb (fun t => bool_decide (t = target)) rest then
            own ← (get a : M assignment);
            other ← (get target : M assignment);
            if mem (a_status other) [Pending; Running] && bool_decide (a_role own = a_role other) then
              if bool_decide (a_mission_id own = a_mission_id other) then mret true
              else
                original ← (get (a_mission_id own) : M mission);
                delegated ← (get (a_mission_id other) : M mission);
                mret (same_words (m_objective original) (m_objective delegated))
            else mret false
          else mret false
      | [] => mret false
      end
  end.

Definition completion_findings (a : uid) : M (list finding) :=
  row ← (get a : M assignment);
  d ← ask id;
  let owed := existsb (review_owed a) (map snd (map_to_list (tb_review_demand d))) in
  let open := tally (open_obligation (has_function "orchestrator" (a_functions row)) a) d in
  handoff ← unchanged_handoff a;
  mret ((if owed then [SettleReview] else []) ++ reported open (OpenObligations open)
        ++ (if (handoff : bool) then [UnchangedHandoff] else []) ++ settlement_findings d a true).

(** ** Stalled progress *)

Definition JOURNAL_BLOCKER_PREFIX : string := "Reconcile the local API intent journal".
Definition INTENT_REPAIR_PREFIX : string := "Record repair of API intent ".

(** A settled delivery that supplies new evidence: routine outgoing narration does not. *)
Definition evidence_delivery (d : DB) (a : uid) (o : outbox_operation) : bool :=
  assignment_delivery d a o && mem (ob_status o) [OutCompleted; OutFailed; OutCancelled]
  && (mem (ob_kind o) [ForgeChangeOp; ForgeEditOp; ForgeCreateOp; ForgeMergeOp; ForgeReviewOp]
      || mem (ob_status o) [OutFailed; OutCancelled]).

Definition descending (s t : instant) : bool := t <=? s.

(** The latest settled delivery. *)
Definition settled_at (d : DB) (a : uid) : option instant :=
  head (sort_by descending (map ob_updated_at (List.filter (evidence_delivery d a) (table d)))).

(** A finished request of a primary context, after the last settled delivery. *)
Definition finished_turn (d : DB) (a : uid) (settled : option instant) (q : provider_request) : bool :=
  match tb_provider_thread d !! q_provider_thread_id q with
  | Some t => bool_decide (t_assignment_id t = a) && is_primary t
  | None => false
  end
  && mem (q_status q) [QCompleted; QFailed; QInterrupted]
  && match settled with Some s => s <? q_created_at q | None => true end.

Definition turn_dates (d : DB) (a : uid) (window : nat) : list instant :=
  take window (sort_by descending (map q_created_at (List.filter (finished_turn d a (settled_at d a)) (table d)))).

(** An obligation of the assignment, other than a repair record, accounted for since [since]. *)
Definition accounted_since (a : uid) (since : instant) (o : obligation) : bool :=
  bool_decide (o_assignment_id o = a) && negb (bool_decide (o_status o = ObOpen)) && (since <=? o_updated_at o)
  && negb (starts_with JOURNAL_BLOCKER_PREFIX (o_description o))
  && negb (starts_with INTENT_REPAIR_PREFIX (o_description o)).

Definition progress_stalled (d : DB) (a : uid) (window : nat) : result bool :=
  let dates := turn_dates d a window in
  if Nat.ltb (List.length dates) window then Ok false
  else match last dates with
       | None => Err (RuntimeFailure "index")
       | Some oldest => Ok (negb (existsb (accounted_since a oldest) (table d)))
       end.

(** ** What the findings mean *)

Lemma tally_zero {R} `{Table R} (p : R -> bool) d :
  tally p d = 0 <-> forall i (r : R), rows d !! i = Some r -> p r = false.
Proof.
  unfold tally, table. split.
  - intros Hz i r Hr. destruct (p r) eqn:E; [|done]. assert (r ∈ List.filter p (map snd (map_to_list (rows d)))) as Hin
      by (apply elem_of_select; eauto). destruct (List.filter p _); [by apply elem_of_nil in Hin|cbn in Hz; lia].
  - intros Hn. destruct (List.filter p (map snd (map_to_list (rows d)))) as [|r l] eqn:E; [done|].
    assert (r ∈ r :: l) as Hin by left. rewrite <- E in Hin. apply elem_of_select in Hin as [Hp [i Hi]].
    by rewrite (Hn i r Hi) in Hp.
Qed.

Lemma reported_nil n f : reported n f = [] <-> n = 0.
Proof. unfold reported. destruct (Z.eqb_spec n 0); naive_solver. Qed.

(** Nothing of the assignment is still under way outside the control plane. *)
Definition quiescent (d : DB) (a : uid) : Prop :=
  (forall i q t, tb_provider_request d !! i = Some q -> tb_provider_thread d !! q_provider_thread_id q = Some t ->
     t_assignment_id t = a -> unsettled_request q = false)
  /\ (forall i n, tb_notification d !! i = Some n -> nt_assignment_id n = a -> nt_urgency n = Control ->
        nt_disposition n <> DispPending)
  /\ (forall i o, tb_outbox_operation d !! i = Some o -> assignment_delivery d a o = true ->
        mem (ob_status o) [OutCompleted; OutCancelled] = true)
  /\ (forall i o t m n s, tb_outbox_operation d !! i = Some o -> ob_kind o = GoalUpdateOp ->
        ob_payload o = PGoalUpdate t m n s -> thread_of d a t = true -> mem (ob_status o) [OutPending; OutRunning] = false).

Lemma settlement_findings_nil d a : settlement_findings d a true = [] <-> quiescent d a.
Proof.
  unfold settlement_findings, quiescent. rewrite !app_nil, !reported_nil, !tally_zero.
  cbn [rows provider_request_table notification_table outbox_operation_table].
  split.
  - intros (H1 & H2 & H3 & H4). split_and!.
    + intros i q t Hq Ht Ha. specialize (H1 i q Hq). unfold outstanding_request in H1. by rewrite Ht, bool_decide_true in H1.
    + intros i n Hn Ha Hu Hp. specialize (H2 i n Hn). unfold control_pending in H2. by rewrite !bool_decide_true in H2.
    + intros i o Ho Ha. specialize (H3 i o Ho). unfold outstanding_delivery in H3. rewrite Ha in H3.
      by destruct (ob_status o).
    + intros i o t m n s Ho Hk Hp Ht. specialize (H4 i o Ho). unfold goal_pending in H4.
      by rewrite Hp, Ht, bool_decide_true, andb_true_r in H4.
  - intros (H1 & H2 & H3 & H4). split_and!.
    + intros i q Hq. unfold outstanding_request. destruct (tb_provider_thread d !! _) as [t|] eqn:Ht; [|done].
      case_bool_decide as Ha; [|done]. by apply (H1 i q t).
    + intros i n Hn. unfold control_pending. repeat (case_bool_decide; [|done]). by destruct (H2 i n Hn).
    + intros i o Ho. unfold outstanding_delivery. destruct (assignment_delivery d a o) eqn:Ha; [|done].
      specialize (H3 i o Ho Ha). by destruct (ob_status o).
    + intros i o Ho. unfold goal_pending. case_bool_decide as Hk; [|done].
      destruct (ob_payload o) as [t m n s| | | | | | | | |] eqn:Hp; [|by rewrite andb_false_r..].
      destruct (thread_of d a t) eqn:Ht; [|by rewrite andb_false_r]. rewrite andb_true_r. by eapply H4.
Qed.

Lemma keeps_unchanged_handoff R `{!PreOrder R} a : Keeps R (unchanged_handoff a).
Proof. unfold unchanged_handoff. frame. Qed.
#[export] Hint Resolve keeps_unchanged_handoff : frame.

(** A session reports nothing to do exactly when it may be completed: no provider request,
    control notice, external delivery or goal update of the assignment is outstanding, its
    review generation is handled, every obligation is accounted for (but for the episode
    record that the host itself settles for an orchestrator) and the mission was not handed on
    unchanged. *)
Theorem completion_requires_accounting a d l d' :
  completion_findings a d = Ok (l, d') ->
  d' = d /\ exists row handoff, tb_assignment d !! a = Some row /\ unchanged_handoff a d = Ok (handoff, d) /\
  (l = [] <->
    quiescent d a /\ handoff = false
    /\ (forall i r, tb_review_demand d !! i = Some r -> dm_assignment_id r = Some a ->
          dm_owner_generation r <= dm_handled_generation r)
    /\ (forall i o, tb_obligation d !! i = Some o -> o_assignment_id o = a -> o_status o = ObOpen ->
          has_function "orchestrator" (a_functions row) = true /\ generated_record o = true)).
Proof.
  unfold completion_findings. intros H. apply bind_Ok in H as (row & ? & [Hrow ->]%get_Ok & H).
  apply bind_Ok in H as (? & ? & [-> ->]%ask_Ok & H).
  apply bind_Ok in H as (handoff & d1 & Hh & H). pose proof Hh as Hd. apply read_only in Hd as ->; [|frame].
  apply ret_Ok in H as [-> ->]. split; [done|]. exists row, handoff. split; [done|]. split; [done|].
  rewrite !app_nil, reported_nil, tally_zero, settlement_findings_nil. cbn [rows obligation_table].
  assert ((if existsb (review_owed a) (map snd (map_to_list (tb_review_demand (id d)))) then [SettleReview] else []) = [] <->
    (forall i r, tb_review_demand d !! i = Some r -> dm_assignment_id r = Some a -> dm_owner_generation r <= dm_handled_generation r))
    as ->.
  { destruct (existsb _ _) eqn:E; split; try done.
    - apply existsb_true, Exists_exists in E as (r & ([i r'] & -> & Hr)%list_elem_of_fmap & Ho).
      apply elem_of_map_to_list in Hr. intros Hall. specialize (Hall i r' Hr). unfold review_owed in Ho. bools.
      cbn in Ho, H. specialize (Hall H). lia.
    - intros _ i r Hr Ha. destruct (Z.le_gt_cases (dm_owner_generation r) (dm_handled_generation r)); [done|].
      exfalso. apply not_true_iff_false in E. apply E, existsb_true, Exists_exists. exists r.
      split; [apply list_elem_of_fmap; exists (i, r); split; [done|by apply elem_of_map_to_list]|].
      unfold review_owed. rewrite bool_decide_true by done. by apply Z.ltb_lt. }
  assert ((if handoff then [UnchangedHandoff] else []) = [] <-> handoff = false) as -> by (by destruct handoff).
  unfold open_obligation. split.
  - intros (Hr & Ho & -> & Hq). split; [done|]. split; [done|]. split; [done|]. intros i o Hi Ha Hs.
    specialize (Ho i o Hi). rewrite !bool_decide_true in Ho by done. cbn in Ho. by apply negb_false_iff, andb_true_iff in Ho.
  - intros (Hq & -> & Hr & Ho). split; [done|]. split; [|done]. intros i o Hi. do 2 (case_bool_decide; [|done]).
    destruct (Ho i o Hi) as [-> ->]; done.
Qed.

Definition busy_db : DB :=
  lost_db <| tb_obligation := {[60%positive := root_obligation 6 Deliverable "Prove it" 60 0]} |>.

Lemma completion_requires_accounting_witness :
  completion_findings 6 sample_db = Ok ([], sample_db) /\ quiescent sample_db 6
  /\ completion_findings 6 busy_db = Ok ([OpenObligations 1; UnsettledRequests 1], busy_db).
Proof.
  assert (completion_findings 6 sample_db = Ok ([], sample_db)) as E by by vm_compute.
  split; [exact E|]. split; [|by vm_compute].
  destruct (completion_requires_accounting 6 sample_db _ _ E) as (_ & row & h & _ & _ & H). by apply H.
Defined.

(** ** What a stall means *)

#[local] Instance descending_total : Total (fun a b => Is_true (descending a b)).
Proof. intros a b. unfold descending. rewrite !Is_true_true, !Z.leb_le. lia. Qed.

#[local] Instance descending_trans : Transitive (fun a b => Is_true (descending a b)).
Proof. intros a b c. unfold descending. rewrite !Is_true_true, !Z.leb_le. lia. Qed.

Lemma sorted_last (l : list instant) t oldest :
  StronglySorted (fun a b => Is_true (descending a b)) l -> last l = Some oldest -> t ∈ l -> oldest <= t.
Proof.
  induction 1 as [|x l Hs IH Hx]; [done|]. intros Hl Ht. rewrite last_cons in Hl. destruct (last l) as [z|] eqn:El.
  - injection Hl as ->. apply elem_of_cons in Ht as [->|Ht]; [|by apply IH].
    rewrite Forall_forall in Hx. specialize (Hx oldest). rewrite Is_true_true in Hx. unfold descending in Hx.
    apply Z.leb_le, Hx. by apply last_Some_elem_of.
  - injection Hl as <-. apply last_None in El as ->. apply list_elem_of_singleton in Ht. lia.
Qed.

Lemma StronglySorted_take {A} (R : A -> A -> Prop) n l : StronglySorted R l -> StronglySorted R (take n l).
Proof.
  intros H. revert n. induction H as [|x l Hs IH Hx]; intros [|n]; cbn; [constructor..|].
  constructor; [apply IH|by apply Forall_take].
Qed.

Lemma turn_dates_sorted d a w : StronglySorted (fun a b => Is_true (descending a b)) (turn_dates d a w).
Proof. apply StronglySorted_take, StronglySorted_merge_sort; apply _. Qed.

Lemma settled_at_latest d a i o :
  tb_outbox_operation d !! i = Some o -> evidence_delivery d a o = true ->
  exists s, settled_at d a = Some s /\ ob_updated_at o <= s.
Proof.
  intros Hi Ho. unfold settled_at, sort_by, table.
  set (l := map ob_updated_at (List.filter (evidence_delivery d a) (map snd (map_to_list (rows d))))).
  assert (ob_updated_at o ∈ l) as Hin.
  { apply (list_elem_of_fmap_2 ob_updated_at), (elem_of_select (evidence_delivery d a) d). eauto. }
  pose proof (StronglySorted_merge_sort (fun a b => Is_true (descending a b)) l) as Hs.
  rewrite <- (merge_sort_Permutation (fun a b => Is_true (descending a b)) l) in Hin.
  destruct (merge_sort _ l) as [|s r]; [by apply elem_of_nil in Hin|]. exists s. split; [done|].
  apply elem_of_cons in Hin as [->|Hin]; [lia|]. inversion Hs as [|? ? _ Hx]. rewrite Forall_forall in Hx.
  specialize (Hx _ Hin). rewrite Is_true_true in Hx. by apply Z.leb_le.
Qed.

Lemma turn_dates_turns d a w t :
  t ∈ turn_dates d a w -> exists i q, tb_provider_request d !! i = Some q /\ q_created_at q = t
    /\ finished_turn d a (settled_at d a) q = true.
Proof.
  intros Hin%elem_of_take. destruct Hin as (n & Hn & _). apply list_elem_of_lookup_2 in Hn.
  unfold sort_by in Hn. rewrite (merge_sort_Permutation (fun a b => Is_true (descending a b))) in Hn.
  apply list_elem_of_fmap in Hn as (q & -> & Hq). apply (elem_of_select (finished_turn d a (settled_at d a)) d) in Hq as [Hf [i Hi]].
  by exists i, q.
Qed.

Lemma accounted_since_earlier a s t o : s <= t -> accounted_since a t o = true -> accounted_since a s o = true.
Proof. unfold accounted_since. rewrite !andb_true_iff, !Z.leb_le. intros ? [[[[??]?]?]?]. split_and!; done || lia. Qed.

(** [progress_stalled] is decided for every positive window: a session stalls exactly when a
    whole window of its latest primary turns passed and no obligation, other than a repair
    record, was accounted for since any of them.  Every turn that counts finished after the
    last delivery that settled with new evidence. *)
Theorem stalled_means_silence d a w :
  (0 < w)%nat ->
  (exists b, progress_stalled d a w = Ok b /\
    (b = true <-> List.length (turn_dates d a w) = w /\
       forall i o t, tb_obligation d !! i = Some o -> t ∈ turn_dates d a w -> accounted_since a t o = false))
  /\ forall t, t ∈ turn_dates d a w ->
       (exists i q, tb_provider_request d !! i = Some q /\ q_created_at q = t /\ finished_turn d a None q = true)
       /\ forall i o, tb_outbox_operation d !! i = Some o -> evidence_delivery d a o = true -> ob_updated_at o < t.
Proof.
  intros Hw. split.
  - unfold progress_stalled. assert (List.length (turn_dates d a w) <= w)%nat as Hle
      by (unfold turn_dates; rewrite length_take; lia).
    destruct (Nat.ltb_spec (List.length (turn_dates d a w)) w) as [Hlt|Hge].
    { exists false. split; [done|]. split; [done|]. intros [? _]. lia. }
    destruct (last (turn_dates d a w)) as [oldest|] eqn:El; [|apply last_None in El; rewrite El in Hge; cbn in Hge; lia].
    eexists. split; [reflexivity|]. rewrite negb_true_iff. split.
    + intros Hno. split; [lia|]. intros i o t Ho Ht. pose proof (sorted_last _ t oldest (turn_dates_sorted d a w) El Ht) as Hot.
      destruct (accounted_since a t o) eqn:Ha; [|done]. exfalso. apply not_true_iff_false in Hno. apply Hno.
      apply existsb_true, Exists_exists. exists o. split; [apply elem_of_rows; by exists i|].
      by eapply accounted_since_earlier.
    + intros [_ Hall]. apply not_true_iff_false. intros (o & [i Ho]%elem_of_rows & Ha)%existsb_true%Exists_exists.
      rewrite (Hall i o oldest Ho) in Ha; [done|]. by apply last_Some_elem_of.
  - intros t (i & q & Hi & <- & Hf)%turn_dates_turns. split.
    + exists i, q. split; [done|]. split; [done|]. unfold finished_turn in *. bools. by rewrite H, H0.
    + intros j o Ho He. destruct (settled_at_latest d a j o Ho He) as (s & Es & Hs).
      unfold finished_turn in Hf. rewrite Es in Hf. bools. lia.
Qed.

Lemma stalled_means_silence_witness :
  progress_stalled (lost_db <| tb_provider_request := {[21%positive := sample_request 21 20 7 QCompleted]} |>) 6 1 = Ok true
  /\ (exists b, progress_stalled lost_db 6 1 = Ok b /\ b = false).
Proof.
  split; [by vm_compute|]. destruct (stalled_means_silence lost_db 6 1) as [(b & E & Hb) _]; [lia|].
  exists b. split; [exact E|]. destruct b; [|reflexivity]. destruct Hb as [Hb _]. destruct (Hb eq_refl) as [Hl _]. by vm_compute in Hl.
Defined.
