(* ===== verification/Runs.v ===== *)
(** * Run transitions

    The run branch of [execute] in src/archon_horizon/pipeline/commands.py: the admission
    budget ([set_run_budget], [extend_run_budget]) and the transitions [pause_run],
    [resume_run], [drain_run] and [complete_run], with [Scheduler.cancel] of
    execution/scheduler.py.  [reopen_run] is modelled for a run none of whose automations is
    enabled, when its loop over the templates has no iteration.  [cancel_run] is in
    Cancellation.v. *)

From S2P Require Import Prelude Contracts Schema Records Auth Samples MissionTree Missions MissionInvariant MissionProperties Ledger Usage Capacity Sessions Deliveries Settlement.

(** ** The head of a run command *)

Definition open_run (actor : Actor) (i : uid) (expected : Z) : M (run * uid) :=
  old ← (get i : M run);
  p ← scoped Krun i;
  require_project actor p MaintainerGrant ;;
  refuse (negb (r_revision old =? expected)) "revision_conflict" 409 ;;
  mret (old, p).

(** The [emit] that ends [execute], on a run. *)
Definition report_run (actor : Actor) (p : uid) (old row : run) (args : list string) (note : option string) : M unit :=
  _ ← emit (Some (actor_id actor)) (Some p) (run_subject row) (match args with [] => ["status"] | _ => args end)
        (if bool_decide (r_status row = r_status old) then None else Some (run_status_str (r_status old))) None note;
  mret tt.

(** ** Admission budgets *)

Definition set_run_budget (actor : Actor) (i : uid) (expected : Z) (limit : option Z) (note : string) : M run :=
  refuse (negb (opt_valid positive_valid limit && nonblank note)) "invalid_arguments" 422 ;;
  '(old, p) ← open_run actor i expected;
  require_admin actor ;;
  refuse (negb (mem (r_status old) [RunActive; RunPaused])) "invalid_transition" 409 ;;
  row ← change i (Some expected) (fun r => r <| r_max_assignments := limit |>);
  report_run actor p old row ["max_assignments"; "note"] (Some note) ;;
  mret row.

Definition extend_run_budget (actor : Actor) (i : uid) (expected additional : Z) (note : string) : M run :=
  refuse (negb (positive_valid additional && nonblank note)) "invalid_arguments" 422 ;;
  '(old, p) ← open_run actor i expected;
  require_admin actor ;;
  refuse (negb (mem (r_status old) [RunActive; RunPaused])) "invalid_transition" 409 ;;
  match r_max_assignments old with
  | None => throw (DomainError "unlimited_run" 422)
  | Some m =>
      row ← change i (Some expected) (fun r => r <| r_max_assignments := Some (m + additional) |>);
      report_run actor p old row ["additional_assignments"; "note"] (Some note) ;;
      mret row
  end.

(** ** Cancelling an assignment *)

Definition stop_execution (a : uid) (x : execution) : bool :=
  bool_decide (x_assignment_id x = a) && mem (x_status x) [XStarting; XRunning].

Definition pending_of (automation : uid) (a : assignment) : bool :=
  bool_decide (a_automation_id a = Some automation) && bool_decide (a_status a = Pending).

Definition disable_recurrence (item : assignment) (k : uid) : M unit :=
  r ← (get (a_run_id item) : M run);
  _ ← change k None (fun u : automation => u <| au_enabled := false |>
        <| au_pause_reason := if is_objective r then Some "cancelled" else None |>);
  when (is_objective r)
    (update_where (pending_of k) (fun a => a <| a_pause_reason := Some "Planner automation cancelled explicitly" |>)).

Definition no_reconsideration (a : assignment) : M unit := mret tt.

(** [Scheduler.cancel]; [reconsider] is [self.reconsider], or nothing with [reconsider=False]. *)
Definition cancel (reconsider : assignment -> M unit) (actor : Actor) (item : assignment) (reason : option string)
    (disable_automation : bool) : M assignment :=
  if terminal_assignment item then mret item
  else
    now ← ask db_now;
    let status := if mem (a_status item) [Running; Stopping] then Stopping else Cancelled in
    row ← change (a_id item) None (fun a => a <| a_status := status |> <| a_status_note := reason |>
            <| a_finished_at := if bool_decide (status = Cancelled) then Some now else None |>);
    update_where (stop_execution (a_id item)) (fun x => x <| x_status := XStopping |>) ;;
    match a_automation_id item with
    | Some k => when disable_automation (disable_recurrence item k)
    | None => mret tt
    end ;;
    when (bool_decide (status = Cancelled)) (reconsider row) ;;
    p ← scoped Kassignment (a_id item);
    _ ← emit (Some (actor_id actor)) (Some p) (assignment_subject row) ["status"; "status_note"]
          (Some (assignment_status_str (a_status item))) None None;
    mret row.

(** ** Transitions *)

Inductive run_transition : Type := PauseRun | ResumeRun | DrainRun | CompleteRun.
#[export] Instance run_transition_eq_dec : EqDecision run_transition.
Proof. solve_decision. Defined.

(** The dict [targets]. *)
Definition transition (c : run_transition) : run_status * run_status :=
  match c with
  | PauseRun => (RunActive, RunPaused) | ResumeRun => (RunPaused, RunActive)
  | DrainRun => (RunActive, RunDraining) | CompleteRun => (RunDraining, RunCompleted)
  end.

Definition in_run (d : DB) (run a : uid) : bool :=
  match tb_assignment d !! a with Some r => bool_decide (a_run_id r = run) | None => false end.

Definition run_assignment (run : uid) (a : assignment) : bool := bool_decide (a_run_id a = run) && live_assignment a.

Definition run_publication (d : DB) (run : uid) (b : publication) : bool :=
  in_run d run (pb_requested_by_assignment_id b) && mem (pb_status b) [PubPending; PubRunning; PubFailed].

(** An open obligation of the run, but for the recurring work that never started. *)
Definition run_obligation (d : DB) (run : uid) (o : obligation) : bool :=
  match tb_assignment d !! o_assignment_id o with
  | Some a => bool_decide (a_run_id a = run) && bool_decide (o_status o = ObOpen)
              && (negb (present (a_automation_id a)) || present (a_started_at a))
  | None => false
  end.

Definition run_execution (d : DB) (run : uid) (x : execution) : bool :=
  in_run d run (x_assignment_id x) && negb (present (x_stop_confirmed_at x)).

Definition run_delivery (d : DB) (run : uid) (o : outbox_operation) : bool :=
  match (who ← tb_principal d !! ob_actor_principal_id o; x ← pr_execution_id who; tb_execution d !! x) with
  | Some x => in_run d run (x_assignment_id x) && external_delivery (ob_kind o)
              && mem (ob_status o) [OutPending; OutRunning; OutUncertain; OutFailed]
  | None => false
  end.

Definition check_settled (run : uid) : M unit :=
  d ← ask id;
  pending ← any (run_assignment run);
  unpublished ← any (run_publication d run);
  blockers ← any (run_obligation d run);
  unconfirmed ← any (run_execution d run);
  delivery ← any (run_delivery d run);
  refuse (pending || unpublished || blockers || unconfirmed || delivery) "run_unsettled" 409.

Definition check_mission_completed (r : run) : M unit :=
  m ← (get (r_mission_id r) : M mission);
  refuse (negb (bool_decide (m_status m = MissionCompleted))) "mission_open" 409.

(** What draining cancels: the pending assignments of the run's automations. *)
Definition drained (run : uid) (a : assignment) : bool :=
  bool_decide (a_run_id a = run) && bool_decide (a_status a = Pending) && present (a_automation_id a).

Definition drain_one (actor : Actor) (a : assignment) : M unit := _ ← cancel no_reconsideration actor a (Some "Run is draining"%string) false; mret tt.

(** [note] is absent, null or a text. *)
Definition change_run (actor : Actor) (c : run_transition) (i : uid) (expected : Z) (note : option (option string)) : M run :=
  refuse (negb (opt_valid nonblank (match note with Some n => n | None => None end))) "invalid_arguments" 422 ;;
  '(old, p) ← open_run actor i expected;
  let '(source, status) := transition c in
  refuse (negb (bool_decide (r_status old = source))) "invalid_transition" 409 ;;
  refuse (bool_decide (c = ResumeRun) && present (r_pending_phase old) && negb (r_auto_advance old) && is_agent actor)
         "human_approval_required" 403 ;;
  when (mem c [DrainRun; CompleteRun]) (check_mission_completed old) ;;
  when (bool_decide (c = CompleteRun)) (check_settled i) ;;
  now ← ask db_now;
  row ← change i (Some expected) (fun r => r <| r_status := status |>
          <| r_status_note := match note with Some n => n | None => None end |>
          <| r_finished_at := if bool_decide (status = RunCompleted) then Some now else None |>);
  when (bool_decide (c = DrainRun)) (items ← select (drained i); for_each (drain_one actor) items) ;;
  report_run actor p old row (match note with Some _ => ["note"] | None => [] end)
    (match note with Some n => n | None => None end) ;;
  mret row.

(** The index [uq_run_live_objective]. *)
Definition same_objective (row r : run) : bool :=
  negb (bool_decide (r_id r = r_id row)) && is_objective r && present (r_objective_id r)
  && bool_decide (r_objective_id r = r_objective_id row)
  && mem (r_status r) [RunActive; RunPaused; RunDraining; RunStopping].

Definition check_objective (row : run) : M unit :=
  clash ← any (same_objective row);
  if (clash && is_objective row : bool) then throw (RuntimeFailure "uq_run_live_objective") else mret tt.

(** [reopen_run] when no automation of the run is enabled. *)
Definition reopen_run (actor : Actor) (i : uid) (expected : Z) (note : option (option string)) : M run :=
  let text := match note with Some n => n | None => None end in
  refuse (negb (opt_valid nonblank text)) "invalid_arguments" 422 ;;
  '(old, p) ← open_run actor i expected;
  refuse (negb (mem (r_status old) [RunDraining; RunCompleted])) "invalid_transition" 409 ;;
  row ← change i (Some expected) (fun r => r <| r_status := RunActive |> <| r_status_note := text |> <| r_finished_at := None |>);
  check_objective row ;;
  m ← change (r_mission_id old) None
        (fun m : mission => m <| m_status := MissionOpen |> <| m_closed_at := None |> <| m_closure_note := None |>);
  _ ← snapshot m (actor_id actor);
  report_run actor p old row (match note with Some _ => ["note"] | None => [] end) text ;;
  mret row.

(** ** Completing a run *)

Lemma keeps_open_run R `{!PreOrder R} actor i n : Keeps R (open_run actor i n).
Proof. unfold open_run. frame. Qed.
#[export] Hint Resolve keeps_open_run : frame.

Lemma keeps_check_mission_completed R `{!PreOrder R} r : Keeps R (check_mission_completed r).
Proof. unfold check_mission_completed. frame. Qed.
#[export] Hint Resolve keeps_check_mission_completed : frame.

Lemma keeps_check_settled R `{!PreOrder R} i : Keeps R (check_settled i).
Proof. unfold check_settled. frame. Qed.
#[export] Hint Resolve keeps_check_settled : frame.

Lemma keeps_report_run R `{!PreOrder R, !Quiet R event} actor p old row args note :
  Keeps R (report_run actor p old row args note).
Proof. unfold report_run. frame. Qed.
#[export] Hint Extern 1 (Keeps _ (report_run _ _ _ _ _ _)) => (apply keeps_report_run; typeclasses eauto) : frame.

Lemma open_run_Ok actor i n d old p d' :
  open_run actor i n d = Ok ((old, p), d') -> d' = d /\ tb_run d !! i = Some old.
Proof.
  unfold open_run. intros H. apply bind_Ok in H as (r & ? & [Hr ->]%get_Ok & H). skip H. skip H. skip H.
  apply ret_Ok in H as [[= -> ->] ->]. done.
Qed.

Lemma check_mission_completed_Ok r d u d' :
  check_mission_completed r d = Ok (u, d') ->
  d' = d /\ exists m, tb_mission d !! r_mission_id r = Some m /\ m_status m = MissionCompleted.
Proof.
  unfold check_mission_completed. intros H. apply bind_Ok in H as (m & ? & [Hm ->]%get_Ok & [Hs ->]%refuse_Ok).
  bools. eauto.
Qed.

(** Nothing of the run is left to do, to stop, to publish or to deliver. *)
Definition run_settled (d : DB) (run : uid) : Prop :=
  (forall j a, tb_assignment d !! j = Some a -> run_assignment run a = false)
  /\ (forall j b, tb_publication d !! j = Some b -> run_publication d run b = false)
  /\ (forall j o, tb_obligation d !! j = Some o -> run_obligation d run o = false)
  /\ (forall j x, tb_execution d !! j = Some x -> run_execution d run x = false)
  /\ (forall j o, tb_outbox_operation d !! j = Some o -> run_delivery d run o = false).

Lemma check_settled_Ok run d u d' : check_settled run d = Ok (u, d') -> d' = d /\ run_settled d run.
Proof.
  unfold check_settled. intros H. apply bind_Ok in H as (? & ? & [-> ->]%ask_Ok & H).
  apply bind_Ok in H as (b1 & ? & [-> H1]%any_none & H). apply bind_Ok in H as (b2 & ? & [-> H2]%any_none & H).
  apply bind_Ok in H as (b3 & ? & [-> H3]%any_none & H). apply bind_Ok in H as (b4 & ? & [-> H4]%any_none & H).
  apply bind_Ok in H as (b5 & ? & [-> H5]%any_none & [Hb ->]%refuse_Ok).
  destruct b1, b2, b3, b4, b5; try discriminate Hb. split; [done|].
  split; [exact (H1 eq_refl)|]. split; [exact (H2 eq_refl)|]. split; [exact (H3 eq_refl)|]. split; [exact (H4 eq_refl)|exact (H5 eq_refl)].
Qed.

Definition run_part (d : DB) :=
  (tb_run d, tb_mission d, tb_assignment d, tb_publication d, tb_obligation d, tb_execution d, tb_outbox_operation d, tb_principal d).

(** What every transition checks of the run, and the rows it leaves to the branch. *)
Lemma change_run_spec actor c i n note d row d' :
  change_run actor c i n note d = Ok (row, d') ->
  exists old, tb_run d !! i = Some old /\ r_status old = (transition c).1 /\ r_status row = (transition c).2
    /\ (c = ResumeRun -> is_agent actor = true -> r_pending_phase old <> None -> r_auto_advance old = true)
    /\ (c = DrainRun \/ c = CompleteRun -> exists m, tb_mission d !! r_mission_id old = Some m /\ m_status m = MissionCompleted)
    /\ (c = CompleteRun -> run_settled d i /\ r_finished_at row = Some (db_now d))
    /\ exists d1, run_part d1 = (<[i := row]> (tb_run d), tb_mission d, tb_assignment d, tb_publication d, tb_obligation d,
                                 tb_execution d, tb_outbox_operation d, tb_principal d)
        /\ exists d2 u, when (bool_decide (c = DrainRun)) (items ← select (drained i); for_each (drain_one actor) items) d1 = Ok (u, d2)
        /\ run_part d' = run_part d2.
Proof.
  unfold change_run. intros H. skip H.
  apply bind_Ok in H as ([old p] & ? & [-> Ho]%open_run_Ok & H).
  destruct (transition c) as [source status] eqn:Et.
  apply bind_Ok in H as (? & ? & [Hs ->]%refuse_Ok & H). apply bind_Ok in H as (? & ? & [Hr ->]%refuse_Ok & H).
  apply bind_Ok in H as (? & d1 & Hm & H). pose proof Hm as Hd. apply read_only in Hd as ->; [|frame].
  apply bind_Ok in H as (? & d1 & Hc & H). pose proof Hc as Hd. apply read_only in Hd as ->; [|frame].
  apply bind_Ok in H as (now & ? & [-> ->]%ask_Ok & H).
  apply bind_Ok in H as (row' & d1 & (r & Hr' & _ & Erow & E1)%change_Ok & H).
  apply bind_Ok in H as (u & d2 & Hw & H). apply bind_Ok in H as (? & d3 & E3 & H). leaves run_part E3.
  apply ret_Ok in H as [-> ->]. cbn in Hr'. rewrite Ho in Hr'. injection Hr' as <-. bools.
  exists old. split; [done|]. split; [done|]. split; [by rewrite Erow|].
  split. { intros -> Ha Hp. rewrite Ha, bool_decide_true, andb_true_r in Hr by done. destruct (r_pending_phase old); [|done].
    cbn in Hr. by bools. }
  split. { intros Hcase. assert (mem c [DrainRun; CompleteRun] = true) as Hmem by (by destruct Hcase as [-> | ->]).
    rewrite Hmem in Hm. by apply check_mission_completed_Ok in Hm as [_ ?]. }
  split. { intros ->. rewrite bool_decide_true in Hc by done. apply check_settled_Ok in Hc as [_ ?]. split; [done|].
    injection Et as <- <-. by rewrite Erow. }
  exists d1. split; [by rewrite E1|]. exists d2, u. by split.
Qed.

(** C6. A run is completed only from draining, after the decision that completes its mission and
    when nothing of it is unfinished: no pending, running or stopping assignment, no open
    obligation of work that started, no unverified publication, no execution without a
    confirmed stop and no unsettled external delivery. *)
Theorem run_completes_settled actor i n note d row d' :
  change_run actor CompleteRun i n note d = Ok (row, d') ->
  tb_run d' !! i = Some row /\ r_status row = RunCompleted /\ r_finished_at row = Some (db_now d) /\ run_settled d' i
  /\ exists old m, tb_run d !! i = Some old /\ r_status old = RunDraining
       /\ tb_mission d !! r_mission_id old = Some m /\ m_status m = MissionCompleted.
Proof.
  intros (old & Ho & Hs & Hrow & _ & Hm & Hc & d1 & E1 & d2 & u & Hw & E2)%change_run_spec.
  destruct (Hc eq_refl) as [Hset Hfin]. cbn in Hw. apply ret_Ok in Hw as [_ ->]. rewrite E1 in E2.
  injection E2 as R2 M2 A2 P2 O2 X2 U2 W2. rewrite R2. split; [by rewrite lookup_insert_eq|].
  split; [done|]. split; [done|]. split.
  - unfold run_settled, run_publication, run_obligation, run_execution, run_delivery, in_run in *.
    by rewrite A2, P2, O2, X2, U2, W2.
  - destruct (Hm (or_intror eq_refl)) as (m & Hm1 & Hm2). by exists old, m.
Qed.

Definition finished_db : DB :=
  sample_db <| tb_mission := {[3%positive := sample_mission 3 None MissionCompleted]} |>
            <| tb_run := {[5%positive := sample_run 5 3 RunDraining]} |>
            <| tb_assignment := {[6%positive := sample_assignment 6 5 3 Completed_]} |>
            <| tb_execution := {[7%positive := (sample_execution 7 6 XSucceeded) <| x_stop_confirmed_at := Some 400 |>]} |>.

Lemma run_completes_settled_witness :
  exists row d', change_run admin CompleteRun 5 1 None finished_db = Ok (row, d') /\ run_settled d' 5
    /\ change_run admin CompleteRun 5 1 None
         (finished_db <| tb_execution := {[7%positive := sample_execution 7 6 XLost]} |>) = Err (DomainError "run_unsettled" 409).
Proof.
  destruct (is_ok_true (change_run admin CompleteRun 5 1 None finished_db)) as [[row d'] E]; [by vm_compute|].
  exists row, d'. split; [exact E|]. split; [apply (run_completes_settled admin 5 1 None finished_db row d' E)|]. by vm_compute.
Defined.

(** ** Draining a run *)

Lemma keeps_no_reconsideration R `{!PreOrder R} a : Keeps R (no_reconsideration a).
Proof. unfold no_reconsideration. frame. Qed.
#[export] Hint Resolve keeps_no_reconsideration : frame.

Lemma cancel_pending_Ok actor a reason d row d' :
  cancel no_reconsideration actor a reason false d = Ok (row, d') -> a_status a = Pending ->
  a_status row = Cancelled /\ tb_assignment d' = <[a_id a := row]> (tb_assignment d).
Proof.
  unfold cancel, terminal_assignment. intros H Hs. rewrite Hs in H. cbn [mem] in H.
  apply bind_Ok in H as (now & ? & [-> ->]%ask_Ok & H).
  apply bind_Ok in H as (row' & d1 & (b & _ & _ & Erow & E1)%change_Ok & H).
  apply bind_Ok in H as (? & d2 & E2 & H). leaves tb_assignment E2.
  apply bind_Ok in H as (? & d3 & E3 & H). assert (d3 = d2) as -> by (destruct (a_automation_id a); by apply ret_Ok in E3 as [_ ->]).
  skip H. skip H. apply bind_Ok in H as (? & d4 & E4 & H). leaves tb_assignment E4. apply ret_Ok in H as [-> ->].
  split; [by rewrite Erow|]. by rewrite E4, E2, E1.
Qed.

Lemma drain_items actor items d u d' :
  for_each (drain_one actor) items d = Ok (u, d') -> (forall a, a ∈ items -> a_status a = Pending) ->
  forall j, if bool_decide (j ∈ map a_id items)
            then exists b, tb_assignment d' !! j = Some b /\ a_status b = Cancelled
            else tb_assignment d' !! j = tb_assignment d !! j.
Proof.
  revert d. induction items as [|a items IH]; intros d H Hp j; cbn in H.
  { apply ret_Ok in H as [_ ->]. by rewrite bool_decide_false by apply not_elem_of_nil. }
  apply bind_Ok in H as (? & d1 & H1 & H). unfold drain_one in H1. apply bind_Ok in H1 as (row & d2 & Hc & [_ ->]%ret_Ok).
  apply cancel_pending_Ok in Hc as [Hs E]; [|apply Hp; left].
  specialize (IH _ H (fun b Hb => Hp b (list_elem_of_further _ _ _ Hb)) j). cbn [map].
  case_bool_decide as Hj.
  - rewrite bool_decide_true by (by right). done.
  - destruct (decide (j = a_id a)) as [->|Hne].
    + rewrite bool_decide_true by left. exists row. rewrite IH, E. by rewrite lookup_insert_eq.
    + rewrite bool_decide_false by (intros [?|?]%elem_of_cons; done). rewrite IH, E. by rewrite lookup_insert_ne.
Qed.

(** Draining a run needs a completed mission, and cancels exactly the pending assignments
    of the run's automations: every other assignment is left as it was. *)
Theorem drain_cancels_recurring actor i n note d row d' :
  change_run actor DrainRun i n note d = Ok (row, d') ->
  (forall j a, tb_assignment d !! j = Some a -> a_id a = j) ->
  r_status row = RunDraining
  /\ (exists old m, tb_run d !! i = Some old /\ tb_mission d !! r_mission_id old = Some m /\ m_status m = MissionCompleted)
  /\ forall j a, tb_assignment d !! j = Some a ->
       if drained i a then exists b, tb_assignment d' !! j = Some b /\ a_status b = Cancelled
       else tb_assignment d' !! j = Some a.
Proof.
  intros (old & Ho & Hs & Hrow & _ & Hm & _ & d1 & E1 & d2 & u & Hw & E2)%change_run_spec Hid.
  split; [done|]. split; [destruct (Hm (or_introl eq_refl)) as (m & ? & ?); by exists old, m|].
  injection E1 as R1 M1 A1 _ _ _ _ _. injection E2 as _ _ A2 _ _ _ _ _. cbn in Hw.
  apply bind_Ok in Hw as (items & ? & [-> ->]%select_Ok & Hw). cbn [rows assignment_table] in Hw. rewrite A1 in Hw.
  assert (forall b, b ∈ List.filter (drained i) (map snd (map_to_list (tb_assignment d))) <->
    drained i b = true /\ exists j, tb_assignment d !! j = Some b) as Hel by (intros b; exact (elem_of_select (drained i) d b)).
  intros j a Hj. rewrite A2. eapply (drain_items _ _ _ _ _) with (j := j) in Hw.
  2: { intros b [Hb _]%Hel. unfold drained in Hb. by bools. }
  rewrite A1, Hj in Hw. destruct (drained i a) eqn:Ea.
  - rewrite bool_decide_true in Hw; [done|]. rewrite <- (Hid j a Hj). apply list_elem_of_fmap_2, Hel. eauto.
  - rewrite bool_decide_false in Hw; [done|]. intros (b & -> & [Hb [k Hk]]%Hel)%list_elem_of_fmap.
    rewrite (Hid k b Hk) in Hj. congruence.
Qed.

(** Run 5 has the running assignment 6, the pending assignment 9 of automation 40, and the
    pending assignment 10 that a session queued. *)
Definition draining_db : DB :=
  sample_db <| tb_mission := {[3%positive := sample_mission 3 None MissionCompleted]} |>
            <| tb_assignment := <[9%positive := (sample_assignment 9 5 3 Pending) <| a_automation_id := Some 40%positive |>]>
                                (<[10%positive := sample_assignment 10 5 3 Pending]> (tb_assignment sample_db)) |>.

Lemma drain_cancels_recurring_witness :
  exists row d', change_run admin DrainRun 5 1 None draining_db = Ok (row, d') /\ r_status row = RunDraining
    /\ (exists b, tb_assignment d' !! 9%positive = Some b /\ a_status b = Cancelled)
    /\ tb_assignment d' !! 10%positive = tb_assignment draining_db !! 10%positive.
Proof.
  destruct (is_ok_true (change_run admin DrainRun 5 1 None draining_db)) as [[row d'] E]; [by vm_compute|].
  assert (forall j a, tb_assignment draining_db !! j = Some a -> a_id a = j) as Hid.
  { intros j a. cbn. intros [[<- <-]|[_ [[<- <-]|[_ [<- <-]%lookup_singleton_Some]]%lookup_insert_Some]]%lookup_insert_Some; done. }
  destruct (drain_cancels_recurring admin 5 1 None draining_db row d' E Hid) as (Hs & _ & Ha).
  exists row, d'. split; [exact E|]. split; [exact Hs|]. split.
  - exact (Ha 9%positive ((sample_assignment 9 5 3 Pending) <| a_automation_id := Some 40%positive |>) eq_refl).
  - exact (Ha 10%positive (sample_assignment 10 5 3 Pending) eq_refl).
Defined.

(** ** Reopening a run *)

(** The completed run 5 of the child mission 4; no assignment is left. *)
Definition closing_db : DB :=
  sample_db <| tb_run := {[5%positive := sample_run 5 4 RunCompleted]} |> <| tb_assignment := ∅ |> <| tb_execution := ∅ |>.

(** The database after a command. *)
Definition after {A} (r : result (A * DB)) (d : DB) : DB := match r with Ok (_, d') => d' | Err _ => d end.

Lemma after_Ok {A} (m : M A) d : is_ok (m d) = true -> exists a, m d = Ok (a, after (m d) d).
Proof. destruct (m d) as [[a d']|]; [|done]. by exists a. Qed.

(** First the child mission, then its parent is completed. *)
Definition child_closed_db : DB := after (mission_decision admin CompleteMission 4 1 "proved" closing_db) closing_db.
Definition closed_db : DB := after (mission_decision admin CompleteMission 3 2 "proved" child_closed_db) child_closed_db.

Lemma closed_db_steps : rtc mission_step closing_db closed_db.
Proof.
  destruct (after_Ok (mission_decision admin CompleteMission 4 1 "proved") closing_db) as [r1 E1]; [by vm_compute|].
  destruct (after_Ok (mission_decision admin CompleteMission 3 2 "proved") child_closed_db) as [r2 E2]; [by vm_compute|].
  eapply rtc_l; [exact (StepDecide _ _ _ _ _ _ _ _ E1)|]. apply rtc_once. exact (StepDecide _ _ _ _ _ _ _ _ E2).
Qed.

Lemma closing_tree : tree_wf closing_db.
Proof. apply (quiet_tree sample_db); [|exact sample_tree]. split; [by vm_compute|]. cbn. lia. Qed.

(** C39. Reopening a run reopens its mission without the checks of [reopen_mission]: after the child
    mission and then its parent are completed, reopening the run of the child leaves an open
    mission under a closed one, which no mission command does. *)
Theorem reopen_run_breaks_tree :
  tree_wf closed_db /\ tb_automation closed_db = ∅
  /\ mission_decision admin ReopenMission 4 2 "again" closed_db = Err (DomainError "parent_closed" 409)
  /\ exists row d', reopen_run admin 5 1 None closed_db = Ok (row, d') /\ ~ tree_wf d'.
Proof.
  split; [eapply mission_steps_tree; [exact closed_db_steps|exact closing_tree]|].
  split; [by vm_compute|]. split; [by vm_compute|].
  destruct (after_Ok (reopen_run admin 5 1 None) closed_db) as [r E]; [by vm_compute|].
  eexists r, _. split; [exact E|]. set (d' := after _ _). intros [[_ Hp _ _] _].
  assert (exists m, tb_mission d' !! 4%positive = Some m /\ m_parent_id m = Some 3%positive /\ m_status m = MissionOpen)
    as (m & Hm & Hpar & Hopen) by (eexists; split; [vm_compute; reflexivity|by split]).
  assert (m_status <$> tb_mission d' !! 3%positive = Some MissionCompleted) as Hc by by vm_compute.
  destruct (Hp 4%positive m 3%positive Hm Hpar) as (pm & Hpm & Hd). rewrite Hpm in Hc. cbn in Hc.
  rewrite (dg_open _ _ Hd Hopen) in Hc. discriminate Hc.
Qed.
