(* ===== verification/Workspaces.v ===== *)
(** * Placing a session in a workspace

    The part of src/archon_horizon/pipeline/execution/scheduler.py that chooses the working
    directory of a session: the context that an assignment retains on a host
    ([retained_thread_for_host], [has_native_foreign_thread]), the two clean-ups that [claim]
    makes before it looks ([retire_orphaned_prelaunch_threads],
    [retire_failed_primary_contexts]), [workspace_preparation] and [available_workspace].

    [uuid5] (name-based identifiers of RFC 4122) is an argument. *)

From S2P Require Import Prelude Contracts Schema Records Auth Samples MissionTree Usage Capacity Sessions.

(** [SELECT ... ORDER BY leb LIMIT 1]. *)
Definition first_by {A} (leb : A -> A -> bool) (l : list A) : option A := head (sort_by leb l).

Definition stored_rows {R} `{Table R} (p : R -> bool) (d : DB) : list R := List.filter p (map snd (map_to_list (rows d))).

(** ** Contexts *)

Definition on_host (d : DB) (h w : uid) : bool :=
  match tb_workspace d !! w with Some row => bool_decide (w_host_id row = h) | None => false end.

Definition off_host (d : DB) (h w : uid) : bool :=
  match tb_workspace d !! w with Some row => negb (bool_decide (w_host_id row = h)) | None => false end.

(** [updated_at DESC, id DESC]. *)
Definition newer_thread (t u : provider_thread) : bool :=
  (t_updated_at u <? t_updated_at t) || ((t_updated_at u =? t_updated_at t) && Pos.leb (t_id u) (t_id t)).

Definition retained_thread_for_host (d : DB) (a h : uid) : option provider_thread :=
  first_by newer_thread (stored_rows (fun t => retained_by a t && on_host d h (t_workspace_id t)) d).

Definition native_foreign (d : DB) (a h : uid) (t : provider_thread) : bool :=
  retained_by a t && off_host d h (t_workspace_id t)
  && (bool_decide (t_status t = Available) || present (t_provider_thread_id t)).

Definition has_native_foreign_thread (d : DB) (a h : uid) : bool :=
  bool_decide (stored_rows (native_foreign d a h) d <> []).

(** A foreign reservation that no process can own any more. *)
Definition orphaned_prelaunch (d : DB) (a h : uid) (t : provider_thread) : bool :=
  bool_decide (t_assignment_id t = a) && is_primary t && bool_decide (t_status t = Creating)
  && off_host d h (t_workspace_id t) && negb (present (t_provider_thread_id t))
  && negb (existsb (fun q => bool_decide (q_provider_thread_id q = t_id t) && unsettled_request q)
             (map snd (map_to_list (tb_provider_request d))))
  && negb (existsb (fun x => execution_of a x && live_status x) (map snd (map_to_list (tb_execution d))))
  && existsb (fun x => execution_of a x && mem (x_status x) [XLost; XFailed; XCancelled])
       (map snd (map_to_list (tb_execution d))).

(** The change and the event by which both clean-ups retire a context. *)
Definition retire_thread (actor : Actor) (a : uid) (note : string) (t : provider_thread) : M unit :=
  retired ← change (t_id t) None (fun u => u <| t_status := Unavailable |>);
  p ← project_of Kassignment a;
  _ ← emit (Some (actor_id actor)) p (thread_subject retired) ["status"] (Some (thread_status_str (t_status t))) None
        (Some note);
  mret tt.

Definition retire_orphaned_prelaunch_threads (actor : Actor) (a h : uid) : M Z :=
  d ← ask id;
  found ← select (orphaned_prelaunch d a h);
  for_each (retire_thread actor a
    "Retired a fenced foreign prelaunch context so a healthy local worker can claim the assignment") found ;;
  mret (Z.of_nat (List.length found)).

(** [created_at DESC, id DESC]. *)
Definition newer_request (q r : provider_request) : bool :=
  (q_created_at r <? q_created_at q) || ((q_created_at r =? q_created_at q) && Pos.leb (q_id r) (q_id q)).

Definition latest_request (d : DB) (t : uid) : option provider_request :=
  first_by newer_request (stored_rows (fun q => bool_decide (q_provider_thread_id q = t)) d).

Definition native_context (d : DB) (a : uid) (t : provider_thread) : bool :=
  bool_decide (t_assignment_id t = a) && is_primary t && bool_decide (t_status t = Available)
  && present (t_provider_thread_id t)
  && negb (existsb (fun x => execution_of a x && live_status x) (map snd (map_to_list (tb_execution d)))).

Definition latest_failed (d : DB) (t : provider_thread) : bool :=
  match latest_request d (t_id t) with Some q => bool_decide (q_status q = QFailed) | None => false end.

Definition retire_failed_primary_contexts (actor : Actor) (a : uid) : M Z :=
  owner ← (get a : M assignment);
  r ← (get (a_run_id owner) : M run);
  if is_objective r then mret 0
  else if negb (bool_decide (a_status owner = Pending)) then mret 0
  else
    d ← ask id;
    found ← select (native_context d a);
    let failed := List.filter (latest_failed d) found in
    for_each (retire_thread actor a "Retired a failed native context pending explicit recovery") failed ;;
    mret (Z.of_nat (List.length failed)).

(** ** Workspaces *)

(** The workspace of a live primary context of an unfinished assignment. *)
Definition retains (d : DB) (w : uid) (t : provider_thread) : bool :=
  bool_decide (t_workspace_id t = w) && is_primary t && live_thread t
  && match tb_assignment d !! t_assignment_id t with Some a => live_assignment a | None => false end.

Definition retained_workspace (d : DB) (w : uid) : bool :=
  existsb (retains d w) (map snd (map_to_list (tb_provider_thread d))).

Definition busy_workspace (d : DB) (w : uid) : bool :=
  existsb (fun x => bool_decide (x_workspace_id x = w) && execution_busy d x) (map snd (map_to_list (tb_execution d))).

Definition can_prepare_workspace (h : host) : bool :=
  match h_health h with
  | Some e => bool_decide (hc_workspace_preparation (hh_capabilities e) = Some 1)
  | None => false
  end.

(** [PurePosixPath(root) / "assignments" / name] of an absolute root; a root of exactly two
    slashes is kept. *)
Definition assignments_path (root : string) (name : uid) : string :=
  ((if starts_with "//" root && negb (starts_with "///" root) then "//" else "/")
   +:+ join "/" (posix_components root ++ ["assignments"; uuid_str name]))%string.

Definition assignment_branch (a : uid) : string := ("horizon/assignments/" +:+ uuid_str a)%string.

(** [created_at, id]. *)
Definition older_workspace (v w : workspace) : bool :=
  (w_created_at v <? w_created_at w) || ((w_created_at v =? w_created_at w) && Pos.leb (w_id v) (w_id w)).

Record Preparation := {
  pn_source_workspace_id : uid;
  pn_source_path : string;
  pn_commit_oid : string;
  pn_branch_name : string }.

Definition workspace_preparation (a : assignment) (w : workspace) : M (option Preparation) :=
  h ← (get (w_host_id w) : M host);
  if negb (can_prepare_workspace h) || negb (bool_decide (w_status w = WPreparing))
     || negb (bool_decide (w_path w = assignments_path (h_workspace_root h) (a_id a)))
     || negb (bool_decide (w_branch_name w = assignment_branch (a_id a)))
  then mret None
  else
    source ← ask (fun d => first_by older_workspace (stored_rows (fun v =>
      bool_decide (w_host_id v = h_id h) && bool_decide (w_repository_id v = w_repository_id w)
      && bool_decide (w_project_id v = w_project_id w) && bool_decide (w_status v = WReady)
      && negb (bool_decide (w_id v = w_id w))) d));
    mret (v ← source;
          Some {| pn_source_workspace_id := w_id v; pn_source_path := w_path v;
                  pn_commit_oid := w_base_commit_oid w; pn_branch_name := w_branch_name w |}).

(** A stored workspace, or the values of one that only an actual claim creates. *)
Record Proposal := {
  pp_id : uid;
  pp_project_id : uid;
  pp_host_id : uid;
  pp_repository_id : uid;
  pp_path : string;
  pp_branch_name : string;
  pp_base_commit_oid : string }.

Inductive Placement : Type :=
| Stored (w : workspace)
| Proposed (p : Proposal).

(** [number DESC]. *)
Definition later_thread (t u : provider_thread) : bool := t_number u <=? t_number t.

Definition latest_primary (d : DB) (a : uid) : option provider_thread :=
  first_by later_thread (stored_rows (fun t => bool_decide (t_assignment_id t = a) && is_primary t) d).

(** The workspaces of the host and project that no busy execution holds. *)
Definition free_workspace (d : DB) (h : uid) (p : option uid) (w : workspace) : bool :=
  bool_decide (w_host_id w = h) && bool_decide (p = Some (w_project_id w)) && negb (busy_workspace d (w_id w)).

Definition work_repository (d : DB) (w : workspace) : bool :=
  match tb_repository d !! w_repository_id w with
  | Some r => bool_decide (rp_purpose r = WorkspaceRepo)
  | None => false
  end.

Definition ready_workspace (d : DB) (w : workspace) : bool :=
  work_repository d w && bool_decide (w_status w = WReady).

(** [ORDER BY id IN (retained), id]. *)
Definition unretained_first (d : DB) (v w : workspace) : bool :=
  match retained_workspace d (w_id v), retained_workspace d (w_id w) with
  | false, true => true
  | true, false => false
  | _, _ => Pos.leb (w_id v) (w_id w)
  end.

Section placement.
Context (uuid5 : uid -> string -> uid).

(** The directory that [available_workspace] proposes when no stored workspace will do. *)
Definition propose_workspace (item : assignment) (host_id : uid) (h : host) (p : option uid) : M (option Placement) :=
  r ← (get (a_run_id item) : M run);
  pinned ← match r_phase r with
           | Postprocessing source _ _ _ => w ← (get source : M workspace); mret (Some (w_repository_id w))
           | _ => mret None
           end;
  source ← ask (fun d => first_by older_workspace (stored_rows (fun w =>
    bool_decide (w_host_id w = host_id) && bool_decide (p = Some (w_project_id w)) && ready_workspace d w
    && match pinned with Some q => bool_decide (w_repository_id w = q) | None => true end) d));
  mret (w ← source;
        Some (Proposed {| pp_id := uuid5 (a_id item) ("workspace:" +:+ uuid_str host_id)%string;
                          pp_project_id := w_project_id w; pp_host_id := host_id; pp_repository_id := w_repository_id w;
                          pp_path := assignments_path (h_workspace_root h) (a_id item);
                          pp_branch_name := assignment_branch (a_id item);
                          pp_base_commit_oid := match r_phase r with
                                                | Postprocessing _ oid _ _ => oid
                                                | _ => match truthy (w_head_commit_oid w) with
                                                       | Some oid => oid
                                                       | None => w_base_commit_oid w
                                                       end
                                                end |})).

Definition available_workspace (item : assignment) (host_id : uid) : M (option Placement) :=
  d ← ask id;
  let latest := latest_primary d (a_id item) in
  let previous := retained_thread_for_host d (a_id item) host_id in
  if match latest with Some t => negb (live_thread t) | None => false end then mret None
  else if negb (present previous) && has_native_foreign_thread d (a_id item) host_id then mret None
  else
    h ← (get host_id : M host);
    p ← project_of Kassignment (a_id item);
    match previous with
    | Some t =>
        match stored_rows (fun w => free_workspace d host_id p w && bool_decide (w_id w = t_workspace_id t)) d with
        | [] => mret None
        | w :: _ =>
            prepared ← (if bool_decide (w_status w = WReady) then mret true
                        else q ← workspace_preparation item w; mret (present q));
            mret (if prepared : bool then Some (Stored w) else None)
        end
    | None =>
        let capable := can_prepare_workspace h in
        match first_by (unretained_first d) (stored_rows (fun w =>
                free_workspace d host_id p w && ready_workspace d w
                && negb (capable && retained_workspace d (w_id w))) d) with
        | Some w => mret (Some (Stored w))
        | None => if negb capable then mret None else propose_workspace item host_id h p
        end
    end.
End placement.

(** ** What a placement guarantees *)

Lemma first_by_Some {A} leb (l : list A) x : first_by leb l = Some x -> x ∈ l.
Proof.
  unfold first_by. intros H%head_Some_elem_of. unfold sort_by in H.
  by rewrite merge_sort_Permutation in H.
Qed.

Lemma first_by_None {A} leb (l : list A) : first_by leb l = None -> l = [].
Proof.
  unfold first_by, sort_by. intros H%head_None. apply Permutation_nil. by rewrite <- H, merge_sort_Permutation.
Qed.

Lemma first_by_least {A} (leb : A -> A -> bool) `{Htr : !Transitive (fun a b => Is_true (leb a b)), Hto : !Total (fun a b => Is_true (leb a b))} l x y :
  first_by leb l = Some x -> y ∈ l -> leb x y = true.
Proof.
  unfold first_by, sort_by. intros Hx Hy. rewrite <- (merge_sort_Permutation (fun a b => Is_true (leb a b))) in Hy.
  assert (StronglySorted (fun a b => Is_true (leb a b)) (merge_sort (fun a b => Is_true (leb a b)) l)) as Hs.
  { apply Sorted_StronglySorted; [apply _|]. apply Sorted_merge_sort, _. }
  destruct (merge_sort _ l) as [|z m]; [done|]. injection Hx as ->. inversion Hs as [|? ? _ Hf]; subst.
  apply elem_of_cons in Hy as [->|Hy]; [|rewrite Forall_forall in Hf; by apply Is_true_true, Hf].
  apply Is_true_true. by destruct (Hto x x).
Qed.

Lemma elem_of_stored {R} `{Table R} (p : R -> bool) d r :
  r ∈ stored_rows p d <-> p r = true /\ exists i, rows d !! i = Some r.
Proof. apply elem_of_select. Qed.

Lemma existsb_stored {R} `{Table R} (p : R -> bool) d i r :
  existsb p (map snd (map_to_list (rows d))) = false -> rows d !! i = Some r -> p r = false.
Proof.
  intros E Hr. destruct (p r) eqn:Ep; [|done]. rewrite <- E. symmetry. apply existsb_true, Exists_exists.
  exists r. split; [|done]. apply elem_of_rows. eauto.
Qed.

Lemma keeps_workspace_preparation R `{!PreOrder R} a w : Keeps R (workspace_preparation a w).
Proof. unfold workspace_preparation. frame. Qed.
#[export] Hint Resolve keeps_workspace_preparation : frame.

Lemma keeps_propose_workspace R `{!PreOrder R} uuid5 a i h p : Keeps R (propose_workspace uuid5 a i h p).
Proof. unfold propose_workspace. frame. Qed.
#[export] Hint Resolve keeps_propose_workspace : frame.

Lemma keeps_available_workspace R `{!PreOrder R} uuid5 a h : Keeps R (available_workspace uuid5 a h).
Proof. unfold available_workspace. frame. Qed.
#[export] Hint Resolve keeps_available_workspace : frame.

Lemma retained_thread_for_host_Some d a h t :
  retained_thread_for_host d a h = Some t ->
  retained_by a t = true /\ on_host d h (t_workspace_id t) = true /\ exists i, tb_provider_thread d !! i = Some t.
Proof. intros [Hp Hi]%first_by_Some%elem_of_stored. by bools. Qed.

(** What [available_workspace] finds in a stored workspace. *)
Record placed (d : DB) (item : assignment) (h : uid) (w : workspace) : Prop := {
  pl_row : exists i, tb_workspace d !! i = Some w;
  pl_host : w_host_id w = h;
  pl_project : project_of Kassignment (a_id item) d = Ok (Some (w_project_id w), d);
  pl_idle : busy_workspace d (w_id w) = false;
  pl_retained t : retained_thread_for_host d (a_id item) h = Some t -> w_id w = t_workspace_id t;
  pl_fresh host : retained_thread_for_host d (a_id item) h = None -> tb_host d !! h = Some host ->
    ready_workspace d w = true /\ (can_prepare_workspace host = true -> retained_workspace d (w_id w) = false) }.

Lemma available_workspace_spec uuid5 item h d p d' :
  available_workspace uuid5 item h d = Ok (Some p, d') ->
  d' = d /\ match p with
            | Stored w => placed d item h w
            | Proposed q =>
                retained_thread_for_host d (a_id item) h = None
                /\ has_native_foreign_thread d (a_id item) h = false
                /\ exists host, tb_host d !! h = Some host /\ can_prepare_workspace host = true
                /\ pp_id q = uuid5 (a_id item) ("workspace:" +:+ uuid_str h)%string /\ pp_host_id q = h
                /\ pp_path q = assignments_path (h_workspace_root host) (a_id item)
                /\ (forall i w, tb_workspace d !! i = Some w ->
                     free_workspace d h (Some (pp_project_id q)) w && ready_workspace d w = true ->
                     retained_workspace d (w_id w) = true)
            end.
Proof.
  intros H. assert (d' = d) as -> by (eapply read_only; [|exact H]; frame). split; [done|].
  unfold available_workspace in H. apply bind_Ok in H as (? & ? & [-> ->]%ask_Ok & H). cbn [id] in H.
  destruct (match latest_primary d (a_id item) with Some _ => _ | None => _ end); [by apply ret_Ok in H as [? _]|].
  destruct (retained_thread_for_host d (a_id item) h) as [t|] eqn:Et; cbn [present negb andb] in H.
  - apply bind_Ok in H as (hh & ? & [Hh ->]%get_Ok & H).
    apply bind_Ok in H as (pr & ? & Hpr & H). pose proof (project_of_reads _ _ _ _ _ Hpr) as ->.
    destruct (stored_rows _ d) as [|w l] eqn:El; [by apply ret_Ok in H as [? _]|].
    assert (w ∈ w :: l) as [Hw Hi]%(eq_ind_r (fun l => w ∈ l -> _) (fun Hin => proj1 (elem_of_stored _ _ _) Hin) (eq_sym El)) by left.
    apply bind_Ok in H as (b & ? & _ & H). apply ret_Ok in H as [Hp _]. destruct b; [|done]. injection Hp as ->.
    unfold free_workspace in Hw. bools. subst. split; try done; [|by rewrite Et]. intros ?. rewrite Et. by intros [= <-].
  - destruct (has_native_foreign_thread _ _ _) eqn:Ef; [by apply ret_Ok in H as [? _]|].
    apply bind_Ok in H as (hh & ? & [Hh ->]%get_Ok & H).
    apply bind_Ok in H as (pr & ? & Hpr & H). pose proof (project_of_reads _ _ _ _ _ Hpr) as ->.
    destruct (first_by _ _) as [w|] eqn:Ew.
    + apply ret_Ok in H as [[= ->] _]. apply first_by_Some, elem_of_stored in Ew as [Hw Hi].
      unfold free_workspace in Hw. bools. subst. split; try done; [by rewrite Et|].
      intros host _ Hhost. split; [done|]. intros Hc. change (tb_host d !! w_host_id w = Some hh) in Hh.
      rewrite Hhost in Hh. injection Hh as <-. rewrite Hc in *. by bools.
    + destruct (can_prepare_workspace hh) eqn:Ec; [|by apply ret_Ok in H as [? _]].
      unfold propose_workspace in H. apply bind_Ok in H as (r & ? & [Hr ->]%get_Ok & H). skip H.
      apply bind_Ok in H as (src & ? & [Hs ->]%ask_Ok & H). apply ret_Ok in H as [Hp _].
      destruct src as [w|]; [|done]. injection Hp as ->. split; [done|]. split; [done|].
      exists hh. cbn. repeat (split; [done|]). intros i v Hv Hfree.
      symmetry in Hs. apply first_by_Some, elem_of_stored in Hs as [Hs _]. bools.
      destruct (retained_workspace d (w_id v)) eqn:Erv; [done|]. apply first_by_None in Ew.
      assert (v ∈ []) as []%not_elem_of_nil. rewrite <- Ew. apply elem_of_stored. split; [|by exists i].
      subst. by rewrite H, Hfree, Erv.
Qed.
