(* ===== verification/Labels.v ===== *)
(** * Review labels

    src/archon_horizon/pipeline/review/labels.py: the labels that show the state of a review on a
    pull request, written as outbox operations; and the pinned manifest of a reviewer's
    session, [assignment_manifest] and [assignment_request_fields] of review/invocations.py.

    Arguments: [str.casefold], and the store that returns the manifest of a blob. *)

From S2P Require Import Prelude Contracts ReviewContracts Conditions Schema Records Auth Samples MissionTree Missions Ledger Usage Capacity Sessions Assignments Workspaces.

Definition STATES : list string := ["queued"; "running"; "ok"; "requesting-changes"; "commented"; "historical"; "cancelled"].
Definition TERMINAL_STATES : list string := ["merged"; "closed"; "superseded"].

(** ** Outbox operations of an actor *)

Definition with_key (actor : uid) (k : outbox_kind) (key : string) (o : outbox_operation) : bool :=
  bool_decide (ob_actor_principal_id o = actor) && bool_decide (ob_kind o = k) && bool_decide (ob_idempotency_key o = key).

Definition new_operation (project actor : uid) (k : outbox_kind) (key : string) (body : payload) (i : uid) (now : instant)
    : outbox_operation :=
  {| ob_id := i; ob_created_at := now; ob_updated_at := now; ob_revision := 1; ob_project_id := Some project;
     ob_actor_principal_id := actor; ob_kind := k; ob_idempotency_key := key; ob_payload := body; ob_schema_version := 1;
     ob_status := OutPending; ob_retry_count := 0; ob_retry_at := None; ob_lease_owner := None; ob_lease_epoch := 0;
     ob_lease_expires_at := None; ob_result_ref_id := None; ob_failure := None |}.

(** The enabled policies of a repository, for a phase if one is given. *)
Definition policy_for (d : DB) (repository : uid) (k : option phase_kind) (p : review_policy) : bool :=
  bool_decide ((rv_id p, repository) ∈ tb_review_policy_repository d) && rv_enabled p
  && match k with Some k => mem k (rv_phases p) | None => true end.

(** ** Terminal items *)

Section labels.
Context (casefold : string -> string).

Definition superseding : list string :=
  ["superseded"; "incorporated"; "obsolete"; "duplicate"; "review/superseded"; "review/incorporated"].

Definition terminal_state (item : forge_item) : option string :=
  match fi_status item with
  | ItemMerged => Some "merged"%string
  | ItemClosed => Some (if existsb (fun l => mem (casefold l) superseding) (fi_labels item) then "superseded" else "closed")%string
  | _ => None
  end.

(** [review/<perspective>/<state>]. *)
Definition state_label (l : string) : bool :=
  match split_on "/" l with
  | [a; _; s] => bool_decide (a = "review"%string) && mem s STATES
  | _ => false
  end.

Definition removable (policy : option review_policy) (terminal l : string) : bool :=
  (bool_decide (l = "awaiting-review"%string) || mem l (map (fun s => "review/" +:+ s)%string TERMINAL_STATES) || state_label l
   || match policy with Some p => mem l (rv_attention_labels p) | None => false end)
  && negb (bool_decide (l = terminal)).

(** [sorted(set)]. *)
Definition sorted_set (l : list string) : list string := sort_by String.leb (remove_dups l).

Definition labels_to_remove (policy : option review_policy) (terminal : string) (labels : list string) : list string :=
  sorted_set (List.filter (removable policy terminal) labels).

Definition terminal_label_operation (actor : uid) (item : forge_item) (key : option string) : M (option outbox_operation) :=
  match terminal_state item with
  | None => mret None
  | Some state =>
      let terminal := ("review/" +:+ state)%string in
      repository ← (get (fi_repository_id item) : M repository);
      policy ← ask (fun d => head (stored_rows (policy_for d (rp_id repository) (fi_review_phase item)) d));
      let remove := labels_to_remove policy terminal (fi_labels item) in
      if mem terminal (fi_labels item) && bool_decide (remove = []) then mret None
      else
        identity ← match (p ← policy; rv_maintainer_identity_id p) with
                   | Some k => i ← (get k : M integration_identity);
                               mret (if ii_enabled i && bool_decide (ii_integration_id i = rp_integration_id repository)
                                     then Some (ii_id i) else None)
                   | None => mret None
                   end;
        let key := match truthy key with
                   | Some k => k
                   | None => ("terminal-review-label:" +:+ uuid_str (fi_id item) +:+ ":" +:+ state)%string
                   end in
        existing ← select (with_key actor ForgeLabelOp key);
        match existing with
        | o :: _ => mret (Some o)
        | [] => o ← create (new_operation (rp_project_id repository) actor ForgeLabelOp key
                              (PLabel (fi_id item) [terminal] remove identity None));
                mret (Some o)
        end
  end.
End labels.

(** ** Reviewer manifests *)

(** What the sources read of a manifest; the key [target_branch] may be absent. *)
Record ReviewManifest := {
  mf_kind : string;
  mf_assignment_id : option uid;
  mf_reviewer_descriptor_id : option uid;
  mf_reviewer_descriptor_revision_id : uid;
  mf_harness_revision_id : uid;
  mf_skill_bundle_artifact_id : uid;
  mf_model_options : ModelOptions;
  mf_forge_item_id : option uid;
  mf_head_commit_oid : option string;
  mf_target_branch : option (option string);
  mf_review_phase : option phase_kind;
  mf_review_plan : option ReviewPlan;
  mf_policy_revision_id : option uid;
  mf_integration_identity_id : option uid;
  mf_guidance : list (uid * Z) }.

Section manifests.
Context (read_manifest : string -> option ReviewManifest).

Definition stored_manifest (a : artifact) : result ReviewManifest :=
  match ar_content a with
  | BlobContent sha _ _ => match read_manifest sha with Some m => Ok m | None => Err (RuntimeFailure "blob") end
  | _ => Err (RuntimeFailure "sha256")
  end.

Definition manifest_link (d : DB) (a : uid) (x : artifact) : bool :=
  bool_decide (tb_assignment_artifact d !! (a, ar_id x) = Some ReviewerManifest).

Definition assignment_manifest (a : assignment) : M (option (artifact * ReviewManifest)) :=
  d ← ask id;
  found ← select (manifest_link d (a_id a));
  match found with
  | [] => refuse (present (a_reviewer_descriptor_id a)) "review_manifest_missing" 409 ;; mret None
  | x :: _ =>
      m ← lift (stored_manifest x);
      refuse (negb (bool_decide (mf_kind m = "reviewer_assignment"%string)) || negb (bool_decide (mf_assignment_id m = Some (a_id a)))
              || negb (present (a_reviewer_descriptor_id a)
                       && bool_decide (mf_reviewer_descriptor_id m = a_reviewer_descriptor_id a))) "review_manifest_mismatch" 409 ;;
      mret (Some (x, m))
  end.

(** The reviewer, its revision and its manifest, for the requests of a reviewer's session. *)
Definition assignment_request_fields (a : assignment) : M (option (option uid * uid * uid)) :=
  pinned ← assignment_manifest a;
  mret ((fun p : artifact * ReviewManifest => (mf_reviewer_descriptor_id p.2, mf_reviewer_descriptor_revision_id p.2, ar_id p.1)) <$> pinned).

(** ** The state of a review *)

(** Requests and queued sessions of the reviewer that are newer than the request. *)
Definition newer_manifest (request : provider_request) (descriptor : uid) (q : provider_request) : option uid :=
  if bool_decide (q_reviewer_descriptor_id q = Some descriptor) && (q_created_at request <? q_created_at q)
  then q_guidance_manifest_artifact_id q else None.

Definition queued_manifests (d : DB) (request : provider_request) (descriptor : uid) : list uid :=
  omap (fun '((a, x), purpose) =>
    match tb_assignment d !! a with
    | Some s => if bool_decide (a_reviewer_descriptor_id s = Some descriptor) && (q_created_at request <? a_created_at s)
                   && mem (a_status s) [Pending; Running] && bool_decide (purpose = ReviewerManifest)
                then Some x else None
    | None => None
    end) (map_to_list (tb_assignment_artifact d)).

(** [for identifier in ids: ... if manifest names the item: return None]. *)
Fixpoint any_manifest (item : uid) (ids : list uid) : M bool :=
  match ids with
  | [] => mret false
  | i :: ids =>
      x ← (get i : M artifact);
      m ← lift (stored_manifest x);
      if bool_decide (mf_forge_item_id m = Some item) then mret true else any_manifest item ids
  end.

Definition newer_round (request : provider_request) (descriptor item : uid) : M bool :=
  newer ← ask (fun d => omap (newer_manifest request descriptor) (map snd (map_to_list (tb_provider_request d))));
  found ← any_manifest item newer;
  if (found : bool) then mret true
  else queued ← ask (fun d => queued_manifests d request descriptor); any_manifest item queued.

(** The identity that writes the labels of a repository under its policy. *)
Definition label_identity (repository : repository) (policy : option review_policy) : M (option uid) :=
  match (p ← policy; rv_maintainer_identity_id p) with
  | None => mret None
  | Some k =>
      i ← (get k : M integration_identity);
      refuse (negb (ii_enabled i) || negb (bool_decide (ii_integration_id i = rp_integration_id repository)))
             "maintainer_identity_unavailable" 409 ;;
      mret (Some (ii_id i))
  end.

Definition queue_state (actor : uid) (item : forge_item) (descriptor : reviewer_descriptor) (state key : string)
    (request : option provider_request) : M (option outbox_operation) :=
  lift (guard (negb (mem state STATES)) (ValidationError "Unknown review label state")) ;;
  stale ← match request with Some q => newer_round q (rd_id descriptor) (fi_id item) | None => mret false end;
  if (stale : bool) then mret None
  else
    let prefix := ("review/" +:+ rd_slug descriptor +:+ "/")%string in
    let key := ("review-label:" +:+ key)%string in
    existing ← select (with_key actor ForgeLabelOp key);
    match existing with
    | o :: _ => mret (Some o)
    | [] =>
        repository ← (get (fi_repository_id item) : M repository);
        policies ← ask (fun d => match fi_review_phase item with
                                 | Some k => stored_rows (policy_for d (rp_id repository) (Some k)) d
                                 | None => []
                                 end);
        policy ← match policies with
                 | [] => mret None
                 | [p] => mret (Some p)
                 | _ => throw (RuntimeFailure "MultipleResultsFound")
                 end;
        identity ← label_identity repository policy;
        o ← create (new_operation (rp_project_id repository) actor ForgeLabelOp key
              (PLabel (fi_id item) [(prefix +:+ state)%string]
                 (map (fun s => (prefix +:+ s)%string) (List.filter (fun s => negb (bool_decide (s = state))) STATES)) identity None));
        mret (Some o)
    end.

Definition published_review (request : uid) (o : outbox_operation) : bool :=
  bool_decide (ob_kind o = ForgeReviewOp)
  && match ob_payload o with PReview p => bool_decide (py_provider_request_id p = Some request) | _ => false end
  && mem (ob_status o) [OutPending; OutRunning; OutUncertain; OutCompleted].

Definition invocation_state (actor : uid) (request : provider_request) (state key : string) : M (option outbox_operation) :=
  published ← any (published_review (q_id request));
  if bool_decide (state = "cancelled"%string) && published then mret None
  else
    manifest ← lift match q_guidance_manifest_artifact_id request with Some k => Ok k | None => Err (DomainError "invalid_identifier" 422) end;
    x ← (get manifest : M artifact);
    m ← lift (stored_manifest x);
    k ← lift match mf_forge_item_id m with Some k => Ok k | None => Err (RuntimeFailure "forge_item_id") end;
    item ← (get k : M forge_item);
    r ← lift match q_reviewer_descriptor_id request with Some r => Ok r | None => Err (DomainError "invalid_identifier" 422) end;
    descriptor ← (get r : M reviewer_descriptor);
    queue_state actor item descriptor state key (Some request).
End manifests.

Lemma keeps_assignment_manifest R `{!PreOrder R} read a : Keeps R (assignment_manifest read a).
Proof. unfold assignment_manifest. frame. Qed.
#[export] Hint Resolve keeps_assignment_manifest : frame.

Lemma keeps_any_manifest R `{!PreOrder R} read item ids : Keeps R (any_manifest read item ids).
Proof. induction ids; cbn; frame. Qed.
#[export] Hint Resolve keeps_any_manifest : frame.

Lemma keeps_invocation_state R `{!PreOrder R, !Quiet R outbox_operation} read actor q state key :
  Keeps R (invocation_state read actor q state key).
Proof. unfold invocation_state, queue_state, newer_round, label_identity. frame. Qed.
#[export] Hint Extern 1 (Keeps _ (invocation_state _ _ _ _ _)) => (apply keeps_invocation_state; typeclasses eauto) : frame.

Lemma keeps_request_fields R `{!PreOrder R} read a : Keeps R (assignment_request_fields read a).
Proof. unfold assignment_request_fields. frame. Qed.
#[export] Hint Resolve keeps_request_fields : frame.

(** ** Terminal labels converge *)

(** What the connector makes of an item's labels: it removes, then adds, each by name. *)
Definition relabel (add remove labels : list string) : list string :=
  sorted_set (List.filter (fun l => negb (mem l remove)) labels ++ add).

Definition relabelled (item : forge_item) (body : payload) : forge_item :=
  match body with
  | PLabel _ add remove _ _ => item <| fi_labels := relabel add remove (fi_labels item) |>
  | _ => item
  end.

(** Lower-case ASCII, as the labels of labels.py are. *)
Definition lower_text (s : string) : bool :=
  forallb (fun c => is_lower c || Ascii.eqb c "/" || Ascii.eqb c "-") (chars s).

Lemma elem_of_sorted_set l x : x ∈ sorted_set l <-> x ∈ l.
Proof. unfold sorted_set. by rewrite sort_by_Permutation, elem_of_remove_dups. Qed.

Lemma elem_of_filtered {A} (p : A -> bool) l x : x ∈ List.filter p l <-> x ∈ l /\ p x = true.
Proof. rewrite !list_elem_of_In. apply filter_In. Qed.

Lemma elem_of_removed policy terminal l x :
  x ∈ labels_to_remove policy terminal l <-> x ∈ l /\ removable policy terminal x = true.
Proof. unfold labels_to_remove. by rewrite elem_of_sorted_set, elem_of_filtered. Qed.

Lemma elem_of_relabel policy terminal labels x :
  x ∈ relabel [terminal] (labels_to_remove policy terminal labels) labels
  <-> x = terminal \/ x ∈ labels /\ removable policy terminal x = false.
Proof.
  unfold relabel. rewrite elem_of_sorted_set, elem_of_app, elem_of_filtered, list_elem_of_singleton, negb_true_iff, mem_false,
    elem_of_removed.
  destruct (removable policy terminal x); naive_solver.
Qed.

Lemma removable_terminal policy terminal : removable policy terminal terminal = false.
Proof. unfold removable. by rewrite (bool_decide_true (terminal = terminal)), andb_false_r. Qed.

Lemma labels_settled policy terminal labels :
  labels_to_remove policy terminal (relabel [terminal] (labels_to_remove policy terminal labels) labels) = [].
Proof.
  destruct (labels_to_remove _ _ (relabel _ _ _)) as [|x l] eqn:E; [done|].
  assert (x ∈ x :: l) as Hx by left. rewrite <- E in Hx. apply elem_of_removed in Hx as [Hx Hr].
  apply elem_of_relabel in Hx as [->|[_ Hx]]; [by rewrite removable_terminal in Hr|congruence].
Qed.

Section converge.
Context (casefold : string -> string).
Hypothesis casefold_lower : forall s, lower_text s = true -> casefold s = s.

Definition superseded_by (labels : list string) : bool := existsb (fun l => mem (casefold l) superseding) labels.

Lemma superseded_by_true labels : superseded_by labels = true <-> exists l, l ∈ labels /\ casefold l ∈ superseding.
Proof. unfold superseded_by. rewrite existsb_true, Exists_exists. by setoid_rewrite mem_true. Qed.

Lemma superseded_by_false labels : superseded_by labels = false <-> forall l, l ∈ labels -> casefold l ∉ superseding.
Proof. rewrite <- not_true_iff_false, superseded_by_true. naive_solver. Qed.

Lemma terminal_state_labels item labels :
  terminal_state casefold (item <| fi_labels := labels |>) =
  match fi_status item with
  | ItemMerged => Some "merged"%string
  | ItemClosed => Some (if superseded_by labels then "superseded" else "closed")%string
  | _ => None
  end.
Proof. reflexivity. Qed.

(** The state survives its own label. *)
Lemma terminal_state_stable item state policy :
  terminal_state casefold item = Some state ->
  let terminal := ("review/" +:+ state)%string in
  terminal_state casefold (item <| fi_labels := relabel [terminal] (labels_to_remove policy terminal (fi_labels item)) (fi_labels item) |>)
  = Some state.
Proof.
  intros Es terminal. rewrite terminal_state_labels. unfold terminal_state in Es. destruct (fi_status item); try done.
  fold (superseded_by (fi_labels item)) in Es. injection Es as <-. do 2 f_equal.
  enough (superseded_by (relabel [terminal] (labels_to_remove policy terminal (fi_labels item)) (fi_labels item))
          = superseded_by (fi_labels item)) as -> by done.
  destruct (superseded_by (fi_labels item)) eqn:E.
  - apply superseded_by_true. exists terminal. split; [apply elem_of_relabel; by left|].
    rewrite casefold_lower by done. apply mem_true. by vm_compute.
  - rewrite superseded_by_false in *. intros l [->|[Hl _]]%elem_of_relabel; [|by apply E].
    rewrite casefold_lower by done. apply mem_false. by vm_compute.
Qed.

Lemma terminal_label_spec actor item key d answer d' :
  terminal_label_operation casefold actor item key d = Ok (answer, d') ->
  d' = d \/ exists o state policy identity repo,
    answer = Some o /\ terminal_state casefold item = Some state
    /\ tb_repository d !! fi_repository_id item = Some repo
    /\ policy = head (stored_rows (policy_for d (rp_id repo) (fi_review_phase item)) d)
    /\ ob_payload o = PLabel (fi_id item) [("review/" +:+ state)%string]
         (labels_to_remove policy ("review/" +:+ state) (fi_labels item)) identity None
    /\ d' = d <| db_next := Pos.succ (db_next d) |> <| tb_outbox_operation := <[db_next d := o]> (tb_outbox_operation d) |>.
Proof.
  unfold terminal_label_operation. destruct (terminal_state casefold item) as [state|] eqn:Es; [|intros [_ ->]%ret_Ok; by left].
  intros (repo & d1 & [Hr ->]%get_Ok & (policy & d2 & [-> ->]%ask_Ok & H)%bind_Ok)%bind_Ok.
  destruct (_ && _) in H; [apply ret_Ok in H as [_ ->]; by left|].
  apply bind_Ok in H as (identity & d3 & Hi & H). apply read_only in Hi as ->; [|frame].
  apply bind_Ok in H as (existing & d4 & [-> ->]%select_Ok & H).
  destruct (List.filter _ _) as [|o l]; [|apply ret_Ok in H as [_ ->]; by left].
  right. apply bind_Ok in H as (o & d5 & Hc & [-> ->]%ret_Ok). unfold create in Hc. apply Ok_inj in Hc.
  injection Hc as <- <-. by repeat eexists.
Qed.

Lemma labels_already_settled actor item key d state repo :
  terminal_state casefold item = Some state -> tb_repository d !! fi_repository_id item = Some repo ->
  ("review/" +:+ state)%string ∈ fi_labels item ->
  labels_to_remove (head (stored_rows (policy_for d (rp_id repo) (fi_review_phase item)) d)) ("review/" +:+ state) (fi_labels item) = [] ->
  terminal_label_operation casefold actor item key d = Ok (None, d).
Proof.
  intros Es Hr Hin Hnil. unfold terminal_label_operation. rewrite Es. apply bind_Ok. exists repo, d.
  split; [by apply get_Ok|]. apply bind_Ok. eexists _, d. split; [by apply ask_Ok|].
  rewrite Hnil, bool_decide_true, (proj2 (mem_true _ _) Hin) by done. by apply ret_Ok.
Qed.

(** Applying the labels of a queued terminal operation settles the item: the terminal label is
    there, exactly the labels of an unfinished review are gone, and the next observation queues
    nothing, whatever its key. *)
Theorem terminal_labels_converge actor item key d answer d' key' :
  terminal_label_operation casefold actor item key d = Ok (answer, d') -> d' <> d ->
  exists o state policy, answer = Some o /\ terminal_state casefold item = Some state
    /\ (forall l, l ∈ fi_labels (relabelled item (ob_payload o)) <->
          l = ("review/" +:+ state)%string \/ l ∈ fi_labels item /\ removable policy ("review/" +:+ state) l = false)
    /\ terminal_label_operation casefold actor (relabelled item (ob_payload o)) key' d' = Ok (None, d').
Proof.
  intros [->|(o & state & policy & identity & repo & -> & Es & Hr & Hp & Hb & ->)]%terminal_label_spec Hne; [done|].
  exists o, state, policy. split; [done|]. split; [done|]. rewrite Hb. cbn [relabelled]. split; [intros l; apply elem_of_relabel|].
  eapply labels_already_settled; [by apply terminal_state_stable|exact Hr|..].
  - apply elem_of_relabel. by left.
  - cbn [fi_review_phase]. rewrite Hp. apply labels_settled.
Qed.
End converge.

(** [str.casefold] on ASCII. *)
Definition fold_ascii (s : string) : string :=
  string_of_list_ascii (map (fun c => if is_upper c then ascii_of_N (N_of_ascii c + 32) else c) (chars s)).

Lemma fold_ascii_lower s : lower_text s = true -> fold_ascii s = s.
Proof.
  unfold lower_text, fold_ascii, chars. intros H%forallb_true. rewrite <- (string_of_list_ascii_of_string s) at 2. f_equal.
  induction H as [|c l Hc _ IH]; [done|]. cbn. rewrite IH. f_equal.
  assert (is_upper c = false) as ->; [|done]. revert Hc.
  destruct (Ascii.eqb_spec c "/") as [->|_]; [done|]. destruct (Ascii.eqb_spec c "-") as [->|_]; [done|].
  rewrite !orb_false_r. unfold is_lower, is_upper, between.
  change (code "a") with 97. change (code "z") with 122. change (code "A") with 65. change (code "Z") with 90. lia.
Qed.

(** Pull request 60, closed while it still awaits a review. *)
Definition closed_item : forge_item :=
  {| fi_id := 60; fi_created_at := 0; fi_updated_at := 0; fi_revision := 1; fi_repository_id := rp_id sample_repository;
     fi_remote_number := 4; fi_kind := PullRequest; fi_origin_run_id := None; fi_review_phase := None;
     fi_target_branch := Some "main"%string; fi_title := "Add the lemma"; fi_status := ItemClosed;
     fi_head_commit_oid := None; fi_author_remote_id := None;
     fi_labels := ["topic"; "awaiting-review"; "review/proofs/running"; "Obsolete"]%string; fi_observed_at := 0 |}.

Definition labels_db : DB := sample_db <| tb_repository := {[rp_id sample_repository := sample_repository]} |>.

Lemma terminal_labels_converge_witness :
  exists o d', terminal_label_operation fold_ascii 1 closed_item None labels_db = Ok (Some o, d')
    /\ fi_labels (relabelled closed_item (ob_payload o)) = ["Obsolete"; "review/superseded"; "topic"]%string
    /\ terminal_label_operation fold_ascii 1 (relabelled closed_item (ob_payload o)) (Some "again"%string) d' = Ok (None, d').
Proof.
  destruct (is_ok_true (terminal_label_operation fold_ascii 1 closed_item None labels_db)) as [[answer d'] E]; [by vm_compute|].
  assert (d' <> labels_db) as Hd.
  { intros ->. vm_compute in E. discriminate E. }
  destruct (terminal_labels_converge fold_ascii fold_ascii_lower 1 closed_item None labels_db answer d' (Some "again"%string) E Hd)
    as (o & state & policy & -> & Es & _ & Hn).
  exists o, d'. split; [exact E|]. split; [|exact Hn]. vm_compute in E. injection E as <- _. by vm_compute.
Defined.
