(* ===== verification/Objectives.v ===== *)
(** * Objectives: one bounded planner recurrence

    src/archon_horizon/pipeline/execution/objectives.py: the planner that an active objective
    always has queued ([ensure_successor]), its admission and its completion ([admitted],
    [completed]), with [Scheduler.system_actor].  Phases.v continues the file.

    Outside code is an argument: the SHA-256 of the JSON of a frontier ([digest]), PostgreSQL's
    [hashtextextended] and its text of an array, and the rendered prompt templates.
    [scheduler.config] is the record [Planner]. *)

From S2P Require Import Prelude Contracts Conditions Schema Records Auth Samples MissionTree Missions Ledger Usage Capacity Sessions Assignments Settlement Workspaces.

(** The planner settings of config.py. *)
Record Planner := {
  planner_min_interval_seconds : Z;
  planner_max_idle_seconds : Z;
  planner_max_unchanged_passes : Z }.

Definition planner_valid (c : Planner) : bool :=
  (1 <=? planner_min_interval_seconds c) && (planner_min_interval_seconds c <=? 86400)
  && (1 <=? planner_max_idle_seconds c) && (planner_max_idle_seconds c <=? 86400)
  && (1 <=? planner_max_unchanged_passes c) && (planner_max_unchanged_passes c <=? 100).

Definition PLANNER : string := "objective-planner".

Definition next_key (r : uid) : string := ("planner:" +:+ uuid_str r +:+ ":next")%string.
Definition active_key (r : uid) : string := ("planner:" +:+ uuid_str r +:+ ":active")%string.

(** [Scheduler.system_actor]. *)
Definition scheduler_principal (p : principal) : bool :=
  bool_decide (pr_kind p = ServicePrincipal) && bool_decide (pr_service_name p = Some "scheduler"%string).

Definition new_scheduler (i : uid) (now : instant) : principal :=
  {| pr_id := i; pr_created_at := now; pr_updated_at := now; pr_revision := 1; pr_kind := ServicePrincipal;
     pr_display_name := "Horizon scheduler"; pr_username := None; pr_host_id := None; pr_execution_id := None;
     pr_service_name := Some "scheduler"%string; pr_disabled_at := None |}.

Definition system_actor : M Actor :=
  found ← select scheduler_principal;
  p ← match found with
      | p :: _ => mret p
      | [] => p ← create new_scheduler;
              modify (fun d => d <| tb_system_grant := {[pr_id p]} ∪ tb_system_grant d |>) ;;
              mret p
      end;
  mret {| actor_id := pr_id p; actor_kind := ServicePrincipal; actor_execution := None; actor_host := None;
          actor_credential_kind := None; actor_credential_id := None |}.

(** ** The frontier *)

(** The payload that [frontier] hashes: meaningful inputs only, no polling times. *)
Record Frontier := {
  fp_source_commit_oid : string;
  fp_phase : RunPhase;
  fp_workers : list (assignment_status * Z * Z);
  fp_items : list (item_status * Z * Z);
  fp_hosts : list (uid * host_mode * option health_status) }.

(** [SELECT status, count, sum(hash) GROUP BY status ORDER BY status] over the statuses in
    text order. *)
Definition grouped {A S} `{EqDecision S} (statuses : list S) (status : A -> S) (hash : A -> Z) (l : list A)
    : list (S * Z * Z) :=
  omap (fun s => match List.filter (fun a => bool_decide (status a = s)) l with
                 | [] => None
                 | g => Some (s, Z.of_nat (List.length g), sum_by hash g)
                 end) statuses.

Section objectives.
Context (digest : Frontier -> string) (hashtext : string -> Z) (array_text : list string -> string).
Context (template : string -> list (string * string) -> string).
Context (config : Planner).

Definition worker_hash (a : assignment) : Z :=
  hashtext (uuid_str (a_id a) +:+ assignment_status_str (a_status a) +:+ default ""%string (a_pause_reason a))%string.

Definition item_hash (f : forge_item) : Z :=
  hashtext (uuid_str (fi_id f) +:+ item_status_str (fi_status f) +:+ default ""%string (fi_head_commit_oid f)
            +:+ array_text (fi_labels f))%string.

Definition run_hosts (d : DB) (r : uid) : list (uid * host_mode * option health_status) :=
  omap (fun kv => if bool_decide (kv.1.1 = r)
                  then h ← tb_host d !! kv.1.2; Some (h_id h, h_mode h, hh_status <$> h_health h)
                  else None) (map_to_list (tb_run_host d)).

Definition frontier (r : run) : M string :=
  o ← lift (match r_objective_id r with Some o => Ok o | None => Err (DomainError "invalid_identifier" 422) end);
  doc ← (get o : M document);
  d ← ask id;
  mret (digest {|
    fp_source_commit_oid := d_source_commit_oid doc;
    fp_phase := r_phase r;
    fp_workers := grouped [Cancelled; Completed_; Failed; Pending; Running; Stopping] a_status worker_hash
      (stored_rows (fun a => bool_decide (a_run_id a = r_id r) && negb (mem "planner"%string (a_functions a))) d);
    fp_items := grouped [ItemClosed; ItemMerged; ItemOpen; ItemResolved] fi_status item_hash
      (stored_rows (fun f => bool_decide (fi_origin_run_id f = Some (r_id r))) d);
    fp_hosts := run_hosts d (r_id r) |}).

(** ** The planner recurrence *)

Definition parse_mission (data : MissionCreate) : M MissionCreate :=
  lift (guard (negb (mission_create_valid data)) (ValidationError "mission")) ;; mret data.

Definition child_mission (r : run) (title objective : string) (criteria : list string) : M mission :=
  parent ← (get (r_mission_id r) : M mission);
  actor ← system_actor;
  data ← parse_mission {|
    mc_project_id := m_project_id parent; mc_parent_id := Some (m_id parent);
    mc_expected_parent_revision := Some (m_revision parent); mc_roadmap_document_id := r_objective_id r;
    mc_title := title; mc_objective := objective; mc_acceptance_criteria := criteria;
    mc_delegation_note := Some (template "objective/delegation" []); mc_scope := None; mc_max_open_children := 8;
    mc_node_ids := []; mc_document_ids := [] |};
  create_mission actor data.

(** [try: m except DomainError as error: if error.code == code: return None; raise]. *)
Definition unless_refused {A} (code : string) (m : M A) : M (option A) := fun d =>
  match m d with
  | Ok (a, d') => Ok (Some a, d')
  | Err (DomainError c s) => if bool_decide (c = code) then Ok (None, d) else Err (DomainError c s)
  | Err e => Err e
  end.

Definition paused_note (reason : option string) : string :=
  ("Planner automation paused: " +:+ default "idle"%string (truthy reason))%string.

Definition planner_session (r : run) (au : automation) : AssignmentCreate :=
  {| ac_run_id := r_id r; ac_mission_id := r_mission_id r; ac_parent_id := None; ac_reviewer_descriptor_id := None;
     ac_role := Worker; ac_category := Some "work"%string; ac_functions := ["planner"%string]; ac_instructions := None;
     ac_harness_id := None; ac_model_options := no_options; ac_not_before := None; ac_expires_at := None;
     ac_start_condition := au_start_condition au |}.

(** An unfinished assignment under a recurrence key. *)
Definition keyed (key : string) (a : assignment) : bool :=
  bool_decide (a_recurrence_key a = Some key) && live_assignment a.

Definition ensure_successor (r : run) (au : automation) : M (option assignment) :=
  if negb (bool_decide (r_status r = RunActive)) then mret None
  else
    found ← select (keyed (next_key (r_id r)));
    match found with
    | a :: _ => mret (Some a)
    | [] =>
        data ← parse_assignment (planner_session r au);
        accepted ← unless_refused "queue_full" (validate_enqueue r data);
        match accepted with
        | None => mret None
        | Some _ =>
            m ← child_mission r "Plan the next useful work" (template "objective/planning-mission" [])
                  [template "objective/planning-acceptance" []];
            actor ← system_actor;
            row ← create_assignment actor (data <| ac_mission_id := m_id m |>
                     <| ac_instructions := Some (template "objective/planning-instructions" []) |>
                     <| ac_not_before := au_not_before au |>) (Some (au_id au)) true false;
            row ← change_assignment (a_id row) None (fun a => a <| a_recurrence_key := Some (next_key (r_id r)) |>
                     <| a_pause_reason := if au_enabled au then None else Some (paused_note (au_pause_reason au)) |>);
            mret (Some row)
        end
    end.

(** The planner automation of an assignment, if it has one. *)
Definition planner_of (item : assignment) : M (option automation) :=
  match a_automation_id item with
  | None => mret None
  | Some k => au ← (get k : M automation);
              mret (if bool_decide (au_name au = PLANNER) then Some au else None)
  end.

Definition admitted (item : assignment) (r : run) : M assignment :=
  planner ← planner_of item;
  match planner with
  | None => mret item
  | Some au =>
      row ← change_assignment (a_id item) None (fun a => a <| a_recurrence_key := Some (active_key (r_id r)) |>);
      _ ← ensure_successor r au;
      mret row
  end.

(** The back-off after [unchanged] passes that found the same frontier. *)
Definition planner_delay (unchanged : Z) : Z :=
  Z.min (planner_max_idle_seconds config) (planner_min_interval_seconds config * 2 ^ Z.min unchanged 16).

Definition manual_pause (au : automation) : bool :=
  match au_pause_reason au with None => false | Some why => negb (bool_decide (why = "idle"%string)) end.

(** The automation after a pass whose frontier is [observed]. *)
Definition after_pass (observed : string) (now : instant) (au : automation) : automation :=
  let unchanged := if bool_decide (au_frontier_hash au = Some observed) then au_no_progress_count au + 1 else 0 in
  let enabled := negb (manual_pause au) && (unchanged <? planner_max_unchanged_passes config) in
  au <| au_frontier_hash := Some observed |> <| au_no_progress_count := unchanged |> <| au_enabled := enabled |>
     <| au_pause_reason := if manual_pause au then au_pause_reason au
                           else if enabled then None else Some "idle"%string |>
     <| au_not_before := Some (now + seconds (planner_delay unchanged)) |>.

Definition close_mission (now : instant) (note : string) (m : mission) : mission :=
  m <| m_status := MissionCompleted |> <| m_closed_at := Some now |> <| m_closure_note := Some note |>.

Definition bounded_review (item : assignment) : bool :=
  match truthy (a_recurrence_key item) with
  | Some key => starts_with "review:" key || starts_with "maintenance:" key
  | None => false
  end.

Definition completed (item : assignment) (r : run) (now : instant) : M unit :=
  if bounded_review item then
    m ← (get (a_mission_id item) : M mission);
    ensure_closure_allowed m false ;;
    _ ← change (m_id m) None
          (close_mission now "Review generation settled; unresolved work remains owned by the objective.");
    mret tt
  else
    planner ← planner_of item;
    match planner with
    | None => mret tt
    | Some au =>
        observed ← frontier r;
        au' ← change (au_id au) None (after_pass observed now);
        next ← ensure_successor r au';
        match next with
        | None => mret tt
        | Some s =>
            _ ← change_assignment (a_id s) None (fun a => a <| a_not_before := au_not_before au' |>
                  <| a_pause_reason := if au_enabled au' then None else Some (paused_note (au_pause_reason au')) |>);
            mret tt
        end ;;
        m ← (get (a_mission_id item) : M mission);
        retained ← any (fun c => bool_decide (m_parent_id c = Some (m_id m)) && bool_decide (m_status c = MissionOpen));
        if (retained : bool) then mret tt
        else _ ← change (m_id m) None
                   (close_mission now "Bounded planning pass accounted for; objective remains open.");
             mret tt
    end.
End objectives.

(** ** Frames of the planner recurrence *)

Lemma keeps_link_rows R `{!PreOrder R} i n l :
  (forall d s t, R d (d <| tb_mission_node := s |> <| tb_mission_document := t |>)) -> Keeps R (link_mission i n l).
Proof. intros H. apply keeps_modify. intros d. apply H. Qed.
#[export] Hint Extern 1 (Keeps (same_part _) (link_mission _ _ _)) => (apply keeps_link_rows; [typeclasses eauto|reflexivity]) : frame.
#[export] Hint Extern 1 (Keeps (grows _) (link_mission _ _ _)) =>
  (apply keeps_link_rows; [typeclasses eauto|intros; split; [reflexivity|cbn; lia]]) : frame.

#[export] Hint Extern 1 (Keeps (same_part _) (modify _)) => (apply keeps_modify; reflexivity) : frame.
#[export] Hint Extern 1 (Keeps (grows _) (modify _)) => (apply keeps_modify; intros; split; [reflexivity|cbn; lia]) : frame.

Lemma keeps_roadmap_reference R `{!PreOrder R} i p : Keeps R (roadmap_document i p).
Proof. unfold roadmap_document. frame. Qed.
#[export] Hint Resolve keeps_roadmap_reference : frame.

Lemma keeps_check_mission R `{!PreOrder R} actor data : Keeps R (check_mission actor data).
Proof. unfold check_mission. frame. Qed.
#[export] Hint Resolve keeps_check_mission : frame.

Lemma keeps_admit_assignment R `{!PreOrder R} actor data p r b c : Keeps R (admit_assignment actor data p r b c).
Proof. unfold admit_assignment, check_run, check_owner. frame. Qed.
#[export] Hint Resolve keeps_admit_assignment : frame.

Lemma keeps_create_assignment R `{!PreOrder R, !Quiet R assignment, !Quiet R obligation, !Quiet R subscription,
    !Quiet R record_revision, !Quiet R event} actor data k b c : Keeps R (create_assignment actor data k b c).
Proof. unfold create_assignment. frame. Qed.
#[export] Hint Extern 1 (Keeps _ (create_assignment _ _ _ _ _)) => (apply keeps_create_assignment; typeclasses eauto) : frame.

Lemma keeps_new_mission R `{!PreOrder R, !Quiet R mission, !Quiet R record_revision, !Quiet R event} actor data :
  (forall i n l, Keeps R (link_mission i n l)) -> Keeps R (create_mission actor data).
Proof. intros Hl. unfold create_mission, bump_some, bump_parent. frame. Qed.
#[export] Hint Extern 1 (Keeps _ (create_mission _ _)) =>
  (apply keeps_new_mission; [typeclasses eauto..|auto with frame]) : frame.

Lemma keeps_unless_refused R {A} code (m : M A) : Reflexive R -> Keeps R m -> Keeps R (unless_refused code m).
Proof.
  intros Hr Hm d a d'. unfold unless_refused. destruct (m d) as [[x d1]|[]] eqn:E; intros H; try discriminate H.
  - injection H as <- <-. by eapply Hm.
  - case_bool_decide; [by injection H as <- <-|discriminate H].
Qed.
#[export] Hint Extern 1 (Keeps _ (unless_refused _ _)) => (apply keeps_unless_refused; [typeclasses eauto|auto with frame]) : frame.

(** The parts that queueing a planner leaves alone. *)
Definition planner_frame (d : DB) := (tb_run d, tb_automation d, tb_execution d, tb_provider_request d, tb_provider_thread d,
  tb_workspace d, tb_host d, tb_resource_claim d, tb_resource_limit d, tb_credential d, tb_host_harness d, db_now d).

Lemma keeps_change_assignment R `{!PreOrder R, !Quiet R assignment} i e f : Keeps R (change_assignment i e f).
Proof. unfold change_assignment. frame. Qed.
#[export] Hint Extern 1 (Keeps _ (change_assignment _ _ _)) => (apply keeps_change_assignment; typeclasses eauto) : frame.

Lemma ensure_successor_frame template r au : Frame planner_frame (ensure_successor template r au).
Proof. unfold ensure_successor, child_mission, parse_mission, system_actor. frame. Qed.
#[export] Hint Resolve ensure_successor_frame : frame.

Lemma admitted_frame template item r :
  Frame planner_frame (admitted template item r).
Proof. unfold admitted, planner_of. frame. Qed.
#[export] Hint Resolve admitted_frame : frame.

(** ** The row of a queued session *)

Lemma create_assignment_row actor data k b c d row d' :
  create_assignment actor data k b c d = Ok (row, d') ->
  tb_assignment d' !! a_id row = Some row /\ a_status row = Pending /\ a_run_id row = ac_run_id data.
Proof.
  unfold create_assignment. intros H. do 5 skip H. apply bind_Ok in H as (m & d1 & E1 & H). leaves tb_assignment E1. clear E1.
  apply bind_Ok in H as ([[ct op] hs] & d2 & _ & H). do 2 (apply bind_Ok in H as (? & ? & _ & H)).
  apply bind_Ok in H as (r & d3 & E & H). injection E as Er Ed. apply bind_Ok in H as (? & d4 & E4 & H). leaves tb_assignment E4.
  apply bind_Ok in H as ([kd ds] & d5 & E5 & H). leaves tb_assignment E5. apply bind_Ok in H as (? & d6 & E6 & H). leaves tb_assignment E6.
  apply bind_Ok in H as (? & d7 & E7 & H). leaves tb_assignment E7. apply bind_Ok in H as (? & d8 & E8 & H). leaves tb_assignment E8.
  apply ret_Ok in H as [-> ->]. subst d3 r. rewrite E8, E7, E6, E5, E4. cbn. by rewrite lookup_insert_eq.
Qed.
