(* ===== verification/Cancellation.v ===== *)
(** * Cancellation

    The cancelling half of src/archon_horizon/pipeline/execution/scheduler.py: [reconsider],
    which hands a cancelled session's accounting to another owner, with [root_maintenance_owner]
    and [rule] of execution/root_maintenance.py; and the commands [cancel_assignment] and
    [cancel_run] of commands.py.  Where the root maintainer of a legacy run has no session left,
    [root_maintenance_owner] queues one with [replenish], which is not modelled: the model
    refuses there.  Objective runs have no root maintainer.

    Argument: the rendered prompt templates. *)

From S2P Require Import Prelude Contracts Conditions Schema Records Auth Samples MissionTree Missions Ledger Usage Capacity Sessions Assignments Deliveries Settlement Runs Workspaces Objectives.

(** ** The owner of a cancelled session's accounting *)

(** [NAME] of root_maintenance.py. *)
Definition ROOT_MAINTAINER : string := "root-maintainer".

Definition rule (run : uid) : M (option automation) :=
  found ← select (fun u => bool_decide (au_run_id u = run) && bool_decide (au_name u = ROOT_MAINTAINER));
  mret (head found).

Definition by_rank (a b : assignment) : bool := a_queue_rank a <=? a_queue_rank b.

Definition startable (a : assignment) : bool := mem (a_status a) [Pending; Running].

Definition root_maintenance_owner (item : assignment) : M (option assignment) :=
  automation ← rule (a_run_id item);
  match automation with
  | None => mret None
  | Some u =>
      if negb (au_enabled u) || bool_decide (Some (au_id u) = a_automation_id item) then mret None
      else
        owner ← ask (fun d => first_by by_rank (stored_rows (fun a =>
                   bool_decide (a_automation_id a = Some (au_id u)) && startable a) d));
        match owner with Some o => mret (Some o) | None => throw (RuntimeFailure "replenish") end
  end.

Definition other_planner (item a : assignment) : bool :=
  bool_decide (a_run_id a = a_run_id item) && negb (bool_decide (a_id a = a_id item))
  && mem "planner"%string (a_functions a) && startable a.

Definition owed (a : uid) (k : obligation_kind) (text : string) : ObligationCreate :=
  {| oc_assignment_id := a; oc_created_by_execution_id := None; oc_kind := k; oc_description := text |}.

(** [create(conn, "obligation", ..., number=next_number(...))]. *)
Definition owe (a : uid) (k : obligation_kind) (text : string) : M unit :=
  n ← next_number o_number (fun o => bool_decide (o_assignment_id o = a));
  _ ← create (new_obligation (owed a k text) None n);
  mret tt.

Definition rests_on (a : uid) (o : obligation) : bool :=
  match o_resolution o with Some r => mem a (resolution_targets r) | None => false end.

Definition reopen (o : obligation) : obligation := o <| o_status := ObOpen |> <| o_resolution := None |>.

Definition reopen_one (a : uid) (o : obligation) : M unit :=
  when (rests_on a o) (_ ← change (o_id o) None reopen; mret tt).

Section reconsider.
Context (template : string -> list (string * string) -> string).

Definition reconsider (item : assignment) : M unit :=
  root ← rule (a_run_id item);
  owner ← match root with
          | Some _ => root_maintenance_owner item
          | None => ask (fun d => first_by by_rank (stored_rows (other_planner item) d))
          end;
  match owner with
  | Some o => owe (a_id o) Decision_ (template "legacy/reconsider-assignment"
                [("number", pretty (a_number item)); ("assignment_id", uuid_str (a_id item));
                 ("status", assignment_status_str (a_status item))]%string)
  | None => when (present (a_started_at item) && negb (present root))
              (owe (a_id item) Blocker (template "legacy/reconsider-unowned" []))
  end ;;
  handled ← select (fun o => bool_decide (o_status o = ObHandled));
  for_each (reopen_one (a_id item)) handled.

(** ** Commands *)

Definition cancel_assignment (actor : Actor) (i : uid) (expected : Z) (note : option (option string)) : M assignment :=
  refuse (negb (opt_valid nonblank (default None note))) "invalid_arguments" 422 ;;
  '(old, _) ← open_assignment actor i expected;
  cancel reconsider actor old (default (Some "Cancelled by an authorized user"%string) note) true.

Definition cancelled (run : uid) (a : assignment) : bool := bool_decide (a_run_id a = run) && startable a.

Definition cancel_one (actor : Actor) (a : assignment) : M unit :=
  _ ← cancel reconsider actor a (Some "Run is stopping"%string) true; mret tt.

Definition cancel_run (actor : Actor) (i : uid) (expected : Z) (note : option (option string)) : M run :=
  let text := default None note in
  refuse (negb (opt_valid nonblank text)) "invalid_arguments" 422 ;;
  '(old, p) ← open_run actor i expected;
  refuse (mem (r_status old) [RunCancelled; RunCompleted]) "run_settled" 409 ;;
  row ← change i (Some expected) (fun r => r <| r_status := RunStopping |> <| r_status_note := text |> <| r_finished_at := None |>);
  update_where (fun u => bool_decide (au_run_id u = i)) (fun u => u <| au_enabled := false |>) ;;
  items ← select (cancelled i);
  for_each (cancel_one actor) items ;;
  report_run actor p old row (match note with Some _ => ["note"%string] | None => [] end) text ;;
  mret row.
End reconsider.

(** ** Delegations reopen *)

Lemma reopen_one_Ok a o d u d' :
  reopen_one a o d = Ok (u, d') -> tb_obligation d !! o_id o = Some o ->
  tb_obligation d' = (if rests_on a o then <[o_id o := touch (db_now d) (reopen o)]> (tb_obligation d) else tb_obligation d)
  /\ db_now d' = db_now d.
Proof.
  unfold reopen_one, when. destruct (rests_on a o); [|by intros [_ ->]%ret_Ok].
  intros (? & d2 & (b & Hb & _ & -> & ->)%change_Ok & [_ ->]%ret_Ok)%bind_Ok Ho. cbn in Hb. rewrite Ho in Hb.
  injection Hb as <-. done.
Qed.

Definition reopened_in (a : uid) (now : instant) (ids : list uid) (o : obligation) : obligation :=
  if mem (o_id o) ids && rests_on a o then touch now (reopen o) else o.

Lemma reopen_handled a l d u d' :
  for_each (reopen_one a) l d = Ok (u, d') ->
  (forall j o, tb_obligation d !! j = Some o -> o_id o = j) ->
  (forall o, o ∈ l -> tb_obligation d !! o_id o = Some o) -> NoDup (map o_id l) ->
  tb_obligation d' = reopened_in a (db_now d) (map o_id l) <$> tb_obligation d.
Proof.
  revert d. induction l as [|o l IH]; intros d H Hk Hl Hn; cbn in H.
  { apply ret_Ok in H as [_ ->]. symmetry. rewrite <- map_fmap_id. by apply map_fmap_ext. }
  apply bind_Ok in H as (? & d1 & H1 & H). cbn [map] in Hn. apply NoDup_cons in Hn as [Hfresh Hn].
  assert (tb_obligation d !! o_id o = Some o) as Ho by (apply Hl; left). apply reopen_one_Ok in H1 as [E1 Enow]; [|done].
  assert (forall k b, tb_obligation d1 !! k = Some b -> o_id b = k) as Hk1.
  { rewrite E1. destruct (rests_on a o); [|done]. intros k b [[<- <-]|[_ ?]]%lookup_insert_Some; [done|by apply Hk]. }
  rewrite (IH d1 H Hk1); [|clear IH|done].
  - rewrite Enow. apply map_eq. intros j. rewrite !lookup_fmap, E1. destruct (decide (j = o_id o)) as [->|Hne].
    + rewrite Ho. unfold reopened_in. cbn [fmap option_fmap option_map map]. rewrite (proj2 (mem_true (o_id o) _)) by left. cbn [andb].
      destruct (rests_on a o); [rewrite lookup_insert_eq|rewrite Ho]; cbn; by rewrite (proj2 (mem_false _ _) Hfresh).
    + assert ((if rests_on a o then <[o_id o:=touch (db_now d) (reopen o)]> (tb_obligation d) else tb_obligation d) !! j
        = tb_obligation d !! j) as -> by (destruct (rests_on a o); [by rewrite lookup_insert_ne|done]).
      destruct (tb_obligation d !! j) as [b|] eqn:Hb; [|done]. cbn. f_equal. unfold reopened_in. cbn [map].
      unfold mem. by rewrite (bool_decide_ext (o_id b ∈ o_id o :: map o_id l) (o_id b ∈ map o_id l)) by (rewrite (Hk _ _ Hb); set_solver).
  - intros b Hb. rewrite E1. destruct (rests_on a o); [rewrite lookup_insert_ne|]; [apply Hl; by right| |apply Hl; by right].
    intros E. apply Hfresh. rewrite E. by apply list_elem_of_fmap_2.
Qed.

Lemma keeps_rule R `{!PreOrder R} i : Keeps R (rule i).
Proof. unfold rule. frame. Qed.
#[export] Hint Resolve keeps_rule : frame.

Lemma keeps_root_owner R `{!PreOrder R} a : Keeps R (root_maintenance_owner a).
Proof. unfold root_maintenance_owner. frame. Qed.
#[export] Hint Resolve keeps_root_owner : frame.

Definition obligations_keyed (d : DB) : Prop :=
  forall j o, tb_obligation d !! j = Some o -> o_id o = j /\ (j < db_next d)%positive.

Lemma owe_Ok a k text d u d' :
  owe a k text d = Ok (u, d') ->
  exists o, o_id o = db_next d /\ o_status o = ObOpen /\ db_now d' = db_now d
    /\ tb_obligation d' = <[db_next d := o]> (tb_obligation d).
Proof.
  unfold owe. intros H. skip H. apply bind_Ok in H as (o & d1 & Hc & [_ ->]%ret_Ok). unfold create in Hc. apply Ok_inj in Hc.
  injection Hc as <- <-. by repeat eexists.
Qed.

Lemma reconsider_owner template item d u d' :
  reconsider template item d = Ok (u, d') ->
  exists d1 u', for_each (reopen_one (a_id item)) (stored_rows (fun o => bool_decide (o_status o = ObHandled)) d1) d1 = Ok (u', d')
    /\ db_now d1 = db_now d
    /\ (tb_obligation d1 = tb_obligation d
        \/ exists o, o_id o = db_next d /\ o_status o = ObOpen /\ tb_obligation d1 = <[db_next d := o]> (tb_obligation d)).
Proof.
  unfold reconsider. intros H. skip H. skip H. apply bind_Ok in H as (? & d1 & Ho & H).
  apply bind_Ok in H as (l & ? & [-> ->]%select_Ok & H). exists d1, u. split; [exact H|].
  destruct (_ : option assignment) in Ho; [apply owe_Ok in Ho; naive_solver|]. unfold when in Ho.
  destruct (_ && _) in Ho; [apply owe_Ok in Ho; naive_solver|]. apply ret_Ok in Ho as [_ ->]. auto.
Qed.

(** What reconsidering [a] makes of an obligation. *)
Definition released (a : uid) (now : instant) (o : obligation) : obligation :=
  if bool_decide (o_status o = ObHandled) && rests_on a o then touch now (reopen o) else o.

(** No accounting rests on a cancelled session: reconsidering it reopens exactly the handled
    obligations whose resolution names it, leaves every other obligation as it was, and adds at
    most one, open, for the owner that must decide. *)
Theorem delegations_reopen template item d u d' :
  reconsider template item d = Ok (u, d') -> obligations_keyed d ->
  (tb_obligation d' = released (a_id item) (db_now d) <$> tb_obligation d
   \/ exists o, o_status o = ObOpen
        /\ tb_obligation d' = released (a_id item) (db_now d) <$> <[db_next d := o]> (tb_obligation d))
  /\ (forall j o, tb_obligation d' !! j = Some o -> o_status o = ObHandled -> rests_on (a_id item) o = false).
Proof.
  intros (d1 & u' & H & Enow & E)%reconsider_owner Hk.
  assert (forall j o, tb_obligation d1 !! j = Some o -> o_id o = j) as Hk1.
  { destruct E as [->|(o' & Ho' & _ & ->)]; [apply Hk|]. intros j o [[<- <-]|[_ Hj]]%lookup_insert_Some; [done|by apply Hk]. }
  apply reopen_handled in H; [|done| |exact (select_NoDup (R := obligation) (fun o => bool_decide (o_status o = ObHandled)) d1 Hk1)].
  2: { intros o [_ [j Hj]]%elem_of_stored. by rewrite (Hk1 _ _ Hj). }
  assert (tb_obligation d' = released (a_id item) (db_now d) <$> tb_obligation d1) as E'.
  { rewrite H, Enow. apply map_fmap_ext. intros j o Hj. unfold reopened_in, released, mem.
    erewrite (bool_decide_ext (o_id o ∈ _) (o_status o = ObHandled)); [done|]. rewrite list_elem_of_fmap. split.
    - intros (o2 & E2 & [Hs [j2 Hj2]]%elem_of_stored). rewrite (Hk1 _ _ Hj), (Hk1 _ _ Hj2) in E2. subst j2. cbn in Hj2. bools. congruence.
    - intros Hs. exists o. split; [done|]. apply elem_of_stored. split; [by apply bool_decide_eq_true|eauto]. }
  split.
  - rewrite E'. destruct E as [->|(o & _ & Ho & ->)]; [by left|right]. by exists o.
  - intros j o. rewrite E', lookup_fmap. intros (o1 & _ & ->)%fmap_Some. unfold released.
    destruct (bool_decide (o_status o1 = ObHandled)) eqn:Eb; bools; cbn; [|done]. destruct (rests_on (a_id item) o1) eqn:Er; [done|]. by cbn.
Qed.

(** Obligation 21 of session 9 was delegated to session 6, which is cancelled. *)
Definition delegated_db : DB :=
  ledger_db <| tb_obligation := {[21%positive := (sample_obligation 21 9) <| o_status := ObHandled |>
                                   <| o_resolution := Some (Delegated "please" [6%positive]) |>]} |>.

Definition plain_template (name : string) (args : list (string * string)) : string := name.

Lemma delegations_reopen_witness :
  exists d', reconsider plain_template (sample_assignment 6 5 3 Cancelled) delegated_db = Ok (tt, d')
    /\ (exists o, tb_obligation d' !! 21%positive = Some o /\ o_status o = ObOpen)
    /\ forall j o, tb_obligation d' !! j = Some o -> o_status o = ObHandled -> rests_on 6 o = false.
Proof.
  destruct (is_ok_true (reconsider plain_template (sample_assignment 6 5 3 Cancelled) delegated_db)) as [[[] d'] E]; [by vm_compute|].
  assert (obligations_keyed delegated_db) as Hk by (intros j o; cbn; intros [<- <-]%lookup_singleton_Some; done).
  destruct (delegations_reopen plain_template (sample_assignment 6 5 3 Cancelled) delegated_db tt d' E Hk) as [_ H].
  exists d'. split; [exact E|]. split; [|exact H]. vm_compute in E. injection E as <-. eexists. split; reflexivity.
Defined.

(** ** Cancelling a run *)

(** Each session keeps its identity and its run; those in [ids] can no longer start. *)
Definition calmed (ids : list uid) (b b' : assignment) : Prop :=
  a_id b' = a_id b /\ a_run_id b' = a_run_id b
  /\ if mem (a_id b) ids then startable b' = false else a_status b' = a_status b.

Definition calms_down (ids : list uid) (d d' : DB) : Prop :=
  (forall j b', tb_assignment d' !! j = Some b' -> exists b, tb_assignment d !! j = Some b /\ calmed ids b b')
  /\ (forall j x', tb_execution d' !! j = Some x' -> mem (x_status x') [XStarting; XRunning] = true ->
        exists x, tb_execution d !! j = Some x /\ x_assignment_id x = x_assignment_id x' /\ mem (x_assignment_id x) ids = false
          /\ mem (x_status x) [XStarting; XRunning] = true).

Lemma keeps_owe R `{!PreOrder R, !Quiet R obligation} a k t : Keeps R (owe a k t).
Proof. unfold owe. frame. Qed.
#[export] Hint Extern 1 (Keeps _ (owe _ _ _)) => (apply keeps_owe; typeclasses eauto) : frame.

Lemma keeps_reconsider R `{!PreOrder R, !Quiet R obligation} template item : Keeps R (reconsider template item).
Proof. unfold reconsider, reopen_one. frame. Qed.
#[export] Hint Extern 1 (Keeps _ (reconsider _ _)) => (apply keeps_reconsider; typeclasses eauto) : frame.

Definition session_part (d : DB) := (tb_assignment d, tb_execution d, tb_automation d).

Definition same_session (b b' : assignment) : Prop :=
  a_id b' = a_id b /\ a_run_id b' = a_run_id b /\ a_status b' = a_status b.

(** An automation that is still enabled was enabled before. *)
Definition only_disables (d d' : DB) : Prop :=
  forall j u', tb_automation d' !! j = Some u' -> au_enabled u' = true -> tb_automation d !! j = Some u'.

Lemma disable_recurrence_Ok item k d u d' :
  disable_recurrence item k d = Ok (u, d') ->
  tb_execution d' = tb_execution d /\ only_disables d d'
  /\ forall j b', tb_assignment d' !! j = Some b' -> exists b, tb_assignment d !! j = Some b /\ same_session b b'.
Proof.
  unfold disable_recurrence. intros H. skip H.
  apply bind_Ok in H as (row & d1 & (old & Ho & _ & Erow & E1)%change_Ok & H).
  assert (only_disables d d1) as Hd.
  { intros j u'. rewrite E1. cbn. intros [[<- <-]|[_ ?]]%lookup_insert_Some Hen; [|done]. by rewrite Erow in Hen. }
  unfold when in H. destruct (is_objective _); [apply update_where_Ok in H as ->|apply ret_Ok in H as [_ ->]].
  - split; [by rewrite E1|]. split; [exact Hd|]. intros j b'. cbn. rewrite E1. cbn. rewrite lookup_fmap.
    intros (b & Hb & ->)%fmap_Some. exists b. split; [done|]. by destruct (pending_of k b).
  - split; [by rewrite E1|]. split; [exact Hd|]. rewrite E1. cbn. intros j b' Hb. by exists b'.
Qed.

Lemma cancel_calms template actor a reason d row d' :
  cancel (reconsider template) actor a reason true d = Ok (row, d') -> startable a = true ->
  (forall j b, tb_assignment d !! j = Some b -> a_id b = j) ->
  calms_down [a_id a] d d' /\ only_disables d d'.
Proof.
  unfold cancel. intros H Hs Hk. assert (terminal_assignment a = false) as Ht.
  { unfold startable, terminal_assignment in *. by destruct (a_status a). }
  rewrite Ht in H. apply bind_Ok in H as (now & ? & [-> ->]%ask_Ok & H).
  apply bind_Ok in H as (row' & d1 & (b & Hb & _ & Erow & E1)%change_Ok & H).
  apply bind_Ok in H as (? & d2 & E2%update_where_Ok & H).
  apply bind_Ok in H as (? & d3 & E3 & H).
  apply bind_Ok in H as (? & d4 & E4 & H). leaves session_part E4. skip H.
  apply bind_Ok in H as (? & d5 & E5 & [-> ->]%ret_Ok). leaves session_part E5.
  assert (tb_execution d3 = tb_execution d2 /\ only_disables d2 d3
    /\ forall j b', tb_assignment d3 !! j = Some b' -> exists b, tb_assignment d2 !! j = Some b /\ same_session b b') as (X3 & U3 & A3).
  { destruct (a_automation_id a); [by apply disable_recurrence_Ok in E3|]. apply ret_Ok in E3 as [_ ->]. split; [done|].
    split; [by intros ?|]. intros j b' Hj. by exists b'. }
  unfold same_part, session_part in E4, E5. injection E4 as A4 X4 U4. injection E5 as A5 X5 U5.
  subst d1 d2. cbn in U3, A3, X3. split; [split|].
  - rewrite A5, A4. intros j b' (b2 & Hb2 & I & R & S)%A3. apply lookup_insert_Some in Hb2 as [[<- <-]|[Hne Hb2]].
    + exists b. split; [exact Hb|]. cbn in Hb. rewrite Erow in I, R, S. split; [done|]. split; [done|].
      rewrite (Hk _ _ Hb), (proj2 (mem_true _ _)) by left. unfold startable. rewrite S. cbn.
      destruct (mem (a_status a) [Running; Stopping]); reflexivity.
    + exists b2. split; [done|]. split; [done|]. split; [done|]. rewrite (Hk _ _ Hb2).
      by rewrite (proj2 (mem_false j [a_id a])) by (by rewrite list_elem_of_singleton).
  - rewrite X5, X4, X3. intros j y'. rewrite lookup_fmap. intros (y & Hy & ->)%fmap_Some Hl. exists y. split; [done|].
    unfold stop_execution in *. case_bool_decide as Ha; cbn [andb] in *.
    + destruct (mem (x_status y) [XStarting; XRunning]) eqn:E; [done|congruence].
    + split; [done|]. by rewrite (proj2 (mem_false _ [a_id a])) by (by rewrite list_elem_of_singleton).
  - intros j u'. rewrite U5, U4. intros Hj Hen. exact (U3 j u' Hj Hen).
Qed.

Lemma calms_down_trans ids ids' d d1 d' : calms_down ids d d1 -> calms_down ids' d1 d' -> calms_down (ids ++ ids') d d'.
Proof.
  intros [A X] [A' X']. split.
  - intros j b' (b1 & (b & Hb & I & R & S)%A & I' & R' & S')%A'. exists b. split; [done|]. split; [congruence|]. split; [congruence|].
    rewrite I in S'. unfold startable in *. destruct (mem (a_id b) (ids ++ ids')) eqn:E.
    + apply mem_true, elem_of_app in E as [E|E]; rewrite (proj2 (mem_true _ _) E) in *; [|done].
      destruct (mem (a_id b) ids'); [done|]. by rewrite S'.
    + apply mem_false in E. rewrite not_elem_of_app in E. destruct E as [E E'].
      rewrite (proj2 (mem_false _ _) E) in S. rewrite (proj2 (mem_false _ _) E') in S'. congruence.
  - intros j x' Hx' Hl. destruct (X' j x' Hx' Hl) as (x1 & Hx1 & E1 & N1 & L1). destruct (X j x1 Hx1 L1) as (x & Hx & E & N & L).
    exists x. split; [done|]. split; [congruence|]. split; [|done]. rewrite mem_false, not_elem_of_app. rewrite <- E in N1.
    by rewrite mem_false in N, N1.
Qed.

Lemma only_disables_trans d d1 d' : only_disables d d1 -> only_disables d1 d' -> only_disables d d'.
Proof. unfold only_disables. naive_solver. Qed.

Lemma cancel_items template actor items d u d' :
  for_each (cancel_one template actor) items d = Ok (u, d') -> (forall a, a ∈ items -> startable a = true) ->
  (forall j b, tb_assignment d !! j = Some b -> a_id b = j) ->
  calms_down (map a_id items) d d' /\ only_disables d d'.
Proof.
  revert d. induction items as [|a items IH]; intros d H Hs Hk; cbn in H.
  { apply ret_Ok in H as [_ ->]. split; [|by intros ?]. split; [intros j b Hb; exists b|intros j x Hx Hl; exists x]; done. }
  apply bind_Ok in H as (? & d1 & H1 & H). unfold cancel_one in H1. apply bind_Ok in H1 as (row & ? & H1 & [_ ->]%ret_Ok).
  destruct (cancel_calms _ _ _ _ _ _ _ H1 (Hs a ltac:(left)) Hk) as [C1 D1].
  destruct (IH _ H) as [C2 D2]; [intros b Hb; apply Hs; by right| |].
  { intros j b (b0 & Hb0 & I & _)%C1. rewrite I. by apply Hk. }
  split; [exact (calms_down_trans [_] _ _ _ _ C1 C2)|by eapply only_disables_trans].
Qed.

(** C34. Cancelling a run stops all of it: no session of the run can start any more, no execution of
    such a session keeps starting or running, and no automation of the run can queue another;
    the sessions of other runs keep their statuses. *)
Theorem cancelled_run_stops template actor i n note d row d' :
  cancel_run template actor i n note d = Ok (row, d') ->
  (forall j b, tb_assignment d !! j = Some b -> a_id b = j) ->
  r_status row = RunStopping
  /\ (forall j a, tb_assignment d' !! j = Some a ->
        if bool_decide (a_run_id a = i) then startable a = false
        else exists b, tb_assignment d !! j = Some b /\ a_status a = a_status b)
  /\ (forall j u, tb_automation d' !! j = Some u -> au_run_id u = i -> au_enabled u = false)
  /\ (forall j x b, tb_execution d' !! j = Some x -> tb_assignment d !! x_assignment_id x = Some b ->
        cancelled i b = true -> mem (x_status x) [XStarting; XRunning] = false).
Proof.
  unfold cancel_run. intros H Hk. apply bind_Ok in H as (? & ? & [_ ->]%refuse_Ok & H).
  apply bind_Ok in H as ([old p] & ? & [-> Ho]%open_run_Ok & H). apply bind_Ok in H as (? & ? & [_ ->]%refuse_Ok & H).
  apply bind_Ok in H as (row' & d1 & (r & Hr & _ & Erow & E1)%change_Ok & H).
  apply bind_Ok in H as (? & d2 & E2%update_where_Ok & H). apply bind_Ok in H as (items & ? & [-> ->]%select_Ok & H).
  apply bind_Ok in H as (? & d3 & H3 & H). apply bind_Ok in H as (? & d4 & E4 & [-> ->]%ret_Ok). leaves session_part E4.
  unfold same_part, session_part in E4. injection E4 as A4 X4 U4.
  assert (tb_assignment d2 = tb_assignment d) as A2 by (by subst).
  assert (forall b, b ∈ List.filter (cancelled i) (map snd (map_to_list (tb_assignment d))) <->
    cancelled i b = true /\ exists j, tb_assignment d !! j = Some b) as Hel by (intros b; exact (elem_of_select (cancelled i) d b)).
  cbn [rows assignment_table] in H3. rewrite A2 in H3.
  apply cancel_items in H3 as [[C X] D]; [|intros b [Hb _]%Hel; unfold cancelled in Hb; by bools|by rewrite A2].
  assert (forall b, (exists j, tb_assignment d !! j = Some b) ->
    mem (a_id b) (map a_id (List.filter (cancelled i) (map snd (map_to_list (tb_assignment d))))) = cancelled i b) as Hm.
  { intros b [j Hj]. apply eq_true_iff_eq. rewrite mem_true, list_elem_of_fmap. split.
    - intros (b' & E & [Hb' [j' Hj']]%Hel). rewrite (Hk _ _ Hj), (Hk _ _ Hj') in E. subst j'. congruence.
    - intros Hb. exists b. split; [done|]. apply Hel. eauto. }
  split; [by rewrite Erow|]. split; [|split].
  - rewrite A4. intros j a (b & Hb & I & R & S)%C. rewrite A2 in Hb. rewrite (Hm b) in S by eauto. unfold cancelled in S.
    rewrite R. case_bool_decide as Hi; cbn [andb] in S; [|by exists b]. destruct (startable b) eqn:E; [done|].
    unfold startable in *. by rewrite S.
  - rewrite U4. intros j u Hu Hi. apply not_true_iff_false. intros Hen. apply (D j u) in Hu; [|done]. subst d2. cbn in Hu.
    rewrite lookup_fmap in Hu. apply fmap_Some in Hu as (u0 & _ & ->). case_bool_decide as E; [done|]. done.
  - rewrite X4. intros j y b Hy Hb Hc. apply not_true_iff_false. intros Hl. destruct (X j y Hy Hl) as (y0 & _ & E & N & _).
    rewrite E, <- (Hk _ _ Hb), (Hm b) in N by eauto. congruence.
Qed.

(** Run 5 has the running session 6, under execution 7, and the pending session 9 of automation 40. *)
Definition active_db : DB :=
  sample_db <| tb_assignment := <[9%positive := (sample_assignment 9 5 3 Pending) <| a_automation_id := Some 40%positive |>]>
                                (tb_assignment sample_db) |>
            <| tb_automation := {[40%positive := sample_automation 40 5 3 true]} |>.

Lemma cancelled_run_stops_witness :
  exists row d', cancel_run plain_template admin 5 1 None active_db = Ok (row, d') /\ r_status row = RunStopping
    /\ (exists a, tb_assignment d' !! 9%positive = Some a /\ a_status a = Cancelled)
    /\ (forall j a, tb_assignment d' !! j = Some a -> a_run_id a = 5%positive -> startable a = false).
Proof.
  destruct (is_ok_true (cancel_run plain_template admin 5 1 None active_db)) as [[row d'] E]; [by vm_compute|].
  assert (forall j a, tb_assignment active_db !! j = Some a -> a_id a = j) as Hk.
  { intros j a. cbn. intros [[<- <-]|[_ [<- <-]%lookup_singleton_Some]]%lookup_insert_Some; done. }
  destruct (cancelled_run_stops plain_template admin 5 1 None active_db row d' E Hk) as (Hs & Ha & _).
  exists row, d'. split; [exact E|]. split; [exact Hs|]. split.
  - vm_compute in E. injection E as _ <-. eexists. split; reflexivity.
  - intros j a Hj Hr. specialize (Ha j a Hj). by rewrite bool_decide_true in Ha.
Defined.
