(* ===== verification/Phases.v ===== *)
(** * Phases of an objective

    The rest of src/archon_horizon/pipeline/execution/objectives.py: the acceptance of a phase
    ([accept_phase]), the step to the next one when everything has settled ([advance]), the
    planner half of [reconcile], and [request_maintenance].  [accept_phase] and
    [request_maintenance] are whole commands of commands.py: argument contract, lookup,
    scope, authority, expected revision, and the branch.

    The arguments are those of Objectives.v, with the digest of a maintenance request and the
    JSON text of its evidence. *)

From S2P Require Import Prelude Contracts Conditions Schema Records Auth Samples MissionTree Missions Ledger Usage Capacity Sessions Assignments Settlement Runs Workspaces Objectives.

Section phases.
Context (digest : Frontier -> string) (hashtext : string -> Z) (array_text : list string -> string).
Context (template : string -> list (string * string) -> string).
Context (request_digest : string -> list ObjectRef -> string) (evidence_json : list ObjectRef -> string).
Context (config : Planner).

(** [milestones.require_baseline]. *)
Definition require_baseline (b : roadmap_snapshot) : M unit :=
  p ← (get (rs_project_id b) : M project);
  accepted ← ask (fun d => bool_decide (rs_id b ∈ tb_milestone_acceptance d));
  refuse (bool_decide (p_workflow p = MilestonesFlow)
          && (negb (bool_decide (rs_status b = Frozen)) || negb accepted)) "milestone_approval_required" 409.

(** The session that accepts: an agent acts for the objective it works in. *)
Definition accepting_session (actor : Actor) (run : uid) : M (option uid) :=
  if is_agent actor then
    l ← live_execution actor;
    refuse (negb (bool_decide (lx_run_id l = run))) "scope_mismatch" 403 ;;
    mret (Some (lx_assignment_id l))
  else mret None.

(** Unfinished work of the run other than the queued planner and the accepting session. *)
Definition other_work (run : uid) (current : option uid) (a : assignment) : bool :=
  bool_decide (a_run_id a = run) && live_assignment a
  && negb (bool_decide (a_recurrence_key a = Some (next_key run)))
  && match current with Some c => negb (bool_decide (a_id a = c)) | None => true end.

Definition next_kind (r : run) : option phase_kind := r_requested_phases r !! S (List.length (r_phase_history r)).

Definition newest_snapshot (a b : roadmap_snapshot) : bool := rs_created_at b <=? rs_created_at a.
Definition newest_workspace (v w : workspace) : bool := w_updated_at w <=? w_updated_at v.

(** The inputs of the next phase when the maintainer gives none. *)
Definition default_phase (r : run) (p : uid) (k : phase_kind) : M RunPhase :=
  match k with
  | PreprocessingKind =>
      o ← lift (match r_objective_id r with Some o => Ok o | None => Err (ValidationError "objective_id") end);
      mret (Preprocessing o false)
  | FormalizationKind =>
      proj ← (get p : M project);
      if bool_decide (p_workflow proj = GraphFlow) then mret (Formalization None false)
      else
        o ← lift (match r_objective_id r with Some o => Ok o | None => Err (DomainError "invalid_identifier" 422) end);
        doc ← (get o : M document);
        baseline ← ask (fun d => first_by newest_snapshot (stored_rows (fun b =>
          bool_decide (rs_roadmap_document_id b = d_id doc) && bool_decide (rs_status b = Frozen)
          && bool_decide (rs_source_commit_oid b = d_source_commit_oid doc)) d));
        match baseline with
        | None => throw (DomainError "baseline_required" 409)
        | Some b => require_baseline b ;; mret (Formalization (Some (rs_id b)) false)
        end
  | PostprocessingKind =>
      targets ← select (fun q => bool_decide (rp_project_id q = p) && bool_decide (rp_purpose q = LibraryRepo)
                                 && negb (present (rp_archived_at q)));
      source ← ask (fun d => first_by newest_workspace (stored_rows (fun w =>
        bool_decide (w_project_id w = p) && ready_workspace d w) d));
      match targets, source with
      | [q], Some w =>
          mret (Postprocessing (w_id w) (match truthy (w_head_commit_oid w) with Some oid => oid | None => w_base_commit_oid w end)
                  (rp_id q) false)
      | _, _ => throw (DomainError "phase_inputs_required" 409)
      end
  end.

(** The trust boundaries of a launch, on explicit inputs too. *)
Definition check_phase (r : run) (p : uid) (next : RunPhase) : M unit :=
  lift (guard (negb (run_phase_valid next)) (ValidationError "phase")) ;;
  refuse (phase_orchestrated next) "retired_orchestrator" 422 ;;
  match next with
  | Preprocessing i _ =>
      doc ← (same_project Kdocument i p : M document);
      refuse (negb (bool_decide (d_kind doc = Roadmap)) || negb (bool_decide (r_objective_id r = Some (d_id doc))))
             "objective_mismatch" 422
  | Formalization (Some i) _ =>
      b ← (same_project Kroadmap_snapshot i p : M roadmap_snapshot);
      require_baseline b ;;
      refuse (negb (bool_decide (r_objective_id r = Some (rs_roadmap_document_id b)))) "objective_mismatch" 422
  | Formalization None _ =>
      proj ← (get p : M project);
      refuse (negb (bool_decide (p_workflow proj = GraphFlow))) "baseline_required" 422
  | Postprocessing w oid q _ =>
      source ← (same_project Kworkspace w p : M workspace);
      target ← (same_project Krepository q p : M repository);
      refuse (negb (bool_decide (rp_purpose target = LibraryRepo)) || negb (bool_decide (w_status source = WReady))
              || negb (bool_decide (w_head_commit_oid source = Some oid) || bool_decide (oid = w_base_commit_oid source)))
             "invalid_phase_input" 422
  end.

(** The phase that follows, checked; [None] ends the objective. *)
Definition following_phase (r : run) (p : uid) (given : option RunPhase) : M (option RunPhase) :=
  refuse (match given with Some g => negb (bool_decide (Some (phase_kind_of g) = next_kind r)) | None => false end)
         "phase_order" 422 ;;
  next ← match given, next_kind r with
         | Some g, _ => mret (Some g)
         | None, Some k => g ← default_phase r p k; mret (Some g)
         | None, None => mret None
         end;
  match next with
  | None => mret None
  | Some g => check_phase r p g ;; mret (Some g)
  end.

(** The queued planner that the acceptance supersedes, with its mission. *)
Definition supersede_planner (item : assignment) : M unit :=
  now ← ask db_now;
  _ ← change_assignment (a_id item) None (fun a => a <| a_status := Cancelled |> <| a_finished_at := Some now |>
        <| a_status_note := Some "Phase accepted; successor superseded"%string |>);
  _ ← change (a_mission_id item) None (fun m => m <| m_status := MissionCancelled |> <| m_closed_at := Some now |>
        <| m_closure_note := Some "Unstarted planning pass superseded by phase acceptance"%string |>);
  mret tt.

Definition accept_phase (actor : Actor) (i : uid) (expected : Z) (note : string) (evidence : list ObjectRef)
    (given : option RunPhase) : M run :=
  refuse (bool_decide (evidence = []) || negb (at_most 32 evidence)
          || negb (forallb object_ref_valid evidence) || negb (opt_valid run_phase_valid given)) "invalid_arguments" 422 ;;
  refuse (blank note) "decision_required" 422 ;;
  '(r, p) ← open_run actor i expected;
  refuse (negb (is_objective r) || negb (bool_decide (r_status r = RunActive)) || present (r_pending_phase r))
         "phase_not_active" 409 ;;
  current ← accepting_session actor i;
  for_each (check_evidence p) evidence ;;
  busy ← any (other_work i current);
  refuse busy "phase_work_active" 409 ;;
  next ← following_phase r p given;
  o ← lift (match r_objective_id r with Some o => Ok o | None => Err (DomainError "invalid_identifier" 422) end);
  doc ← (get o : M document);
  row ← change i (Some (r_revision r)) (fun q =>
    q <| r_phase_history := r_phase_history r ++ [{| pa_phase := r_phase r; pa_objective_commit := d_source_commit_oid doc;
                              pa_accepted_by := actor_id actor; pa_note := note; pa_evidence := evidence |}] |>
      <| r_pending_phase := Some {| pp_next := next; pp_owner_session := current |} |>
      <| r_status := if r_auto_advance r then RunActive else RunPaused |>
      <| r_status_note := Some "Phase accepted; waiting for current session and deliveries to settle"%string |>);
  queued ← select (fun a => bool_decide (a_recurrence_key a = Some (next_key i)) && bool_decide (a_status a = Pending));
  for_each supersede_planner queued ;;
  _ ← emit (Some (actor_id actor)) (Some p) (run_subject row) ["phase_history"; "pending_phase"] None None (Some note);
  mret row.

(** [try: m except DomainError: return]. *)
Definition attempt (m : M unit) : M bool := fun d =>
  match m d with
  | Ok (_, d') => Ok (true, d')
  | Err (DomainError _ _) => Ok (false, d)
  | Err e => Err e
  end.

Definition run_busy (d : DB) (run : uid) (x : execution) : bool :=
  match tb_assignment d !! x_assignment_id x with
  | Some a => bool_decide (a_run_id a = run) && execution_busy d x
  | None => false
  end.

(** Unfinished sessions, processes or deliveries of the run. *)
Definition unsettled_run (d : DB) (run : uid) : bool :=
  existsb (fun a => bool_decide (a_run_id a = run) && live_assignment a) (map snd (map_to_list (tb_assignment d)))
  || existsb (run_busy d run) (map snd (map_to_list (tb_execution d)))
  || existsb (fun a => bool_decide (a_run_id a = run) && pending_deliveries d (a_id a)) (map snd (map_to_list (tb_assignment d))).

Definition advance (r : run) (now : instant) : M unit :=
  d ← ask id;
  if unsettled_run d (r_id r) then mret tt
  else
    pending ← lift (match r_pending_phase r with Some q => Ok q | None => Err (RuntimeFailure "pending_phase") end);
    match pp_next pending with
    | None =>
        root ← (get (r_mission_id r) : M mission);
        allowed ← attempt (ensure_closure_allowed root false);
        if negb allowed then mret tt
        else
          last ← lift (match last (r_phase_history r) with Some h => Ok h | None => Err (RuntimeFailure "index") end);
          _ ← change (m_id root) None (close_mission now (pa_note last));
          _ ← change (r_id r) None (fun q => q <| r_pending_phase := None |> <| r_status := RunDraining |>
                <| r_status_note := Some "Requested phases accepted; settling objective"%string |>);
          mret tt
    | Some next =>
        row ← change (r_id r) None (fun q => q <| r_phase := next |> <| r_pending_phase := None |>
                <| r_adopted_roadmap_snapshot_id := match next with Formalization b _ => b | _ => None end |>
                <| r_status_note := Some "Accepted next phase; planner owns the next bounded decision"%string |>);
        rules ← select (fun au => bool_decide (au_run_id au = r_id r) && bool_decide (au_name au = PLANNER));
        rule ← lift (match rules with [au] => Ok au | _ => Err (RuntimeFailure "planner") end);
        observed ← frontier digest hashtext array_text row;
        au ← change (au_id rule) None (fun au => au <| au_enabled := true |> <| au_pause_reason := None |>
               <| au_no_progress_count := 0 |> <| au_not_before := None |> <| au_frontier_hash := Some observed |>);
        _ ← ensure_successor template row au;
        mret tt
    end.

(** ** Reconciling planners *)

Definition planner_rule (d : DB) (au : automation) : bool :=
  bool_decide (au_name au = PLANNER)
  && match tb_run d !! au_run_id au with
     | Some r => is_objective r && bool_decide (r_status r = RunActive)
     | None => false
     end.

(** A changed frontier wakes an idle planner. *)
Definition wake_planner (r : run) (rule : automation) : M automation :=
  observed ← frontier digest hashtext array_text r;
  if negb (bool_decide (au_frontier_hash rule = Some observed)) && negb (manual_pause rule) then
    au ← change (au_id rule) None (fun au => au <| au_frontier_hash := Some observed |> <| au_no_progress_count := 0 |>
           <| au_enabled := true |> <| au_pause_reason := None |> <| au_not_before := None |>);
    update_where (fun a => bool_decide (a_recurrence_key a = Some (next_key (r_id r))) && bool_decide (a_status a = Pending))
                 (fun a => a <| a_pause_reason := None |> <| a_not_before := None |>) ;;
    mret au
  else mret rule.

Fixpoint reconcile_planners (now : instant) (rules : list automation) : M Z :=
  match rules with
  | [] => mret 0
  | rule :: rest =>
      r ← (get (au_run_id rule) : M run);
      n ← (if present (r_pending_phase r) then advance r now ;; mret 0
           else au ← wake_planner r rule;
                next ← ensure_successor template r au;
                mret (if present next then 1 else 0));
      m ← reconcile_planners now rest;
      mret (n + m)
  end.

Definition reconcile (now : instant) : M Z :=
  d ← ask id;
  rules ← select (planner_rule d);
  reconcile_planners now rules.

(** ** Requests for maintenance *)

Definition maintenance_key (run : uid) (note : string) (evidence : list ObjectRef) : string :=
  ("maintenance:" +:+ uuid_str run +:+ ":" +:+ String.substring 0 32 (request_digest note evidence))%string.

Definition newest_assignment (a b : assignment) : bool := a_created_at b <=? a_created_at a.

Definition maintenance_session (r : run) : AssignmentCreate :=
  {| ac_run_id := r_id r; ac_mission_id := r_mission_id r; ac_parent_id := None; ac_reviewer_descriptor_id := None;
     ac_role := Maintainer; ac_category := Some "maintenance"%string; ac_functions := []; ac_instructions := None;
     ac_harness_id := None; ac_model_options := no_options; ac_not_before := None; ac_expires_at := None;
     ac_start_condition := None |}.

Definition request_maintenance (actor : Actor) (i : uid) (expected : Z) (note : string) (evidence : list ObjectRef)
    : M assignment :=
  refuse (bool_decide (evidence = []) || negb (at_most 32 evidence)
          || negb (forallb object_ref_valid evidence)) "invalid_arguments" 422 ;;
  refuse (blank note) "decision_required" 422 ;;
  r ← (get i : M run);
  p ← scoped Krun i;
  require_project actor p WorkerGrant ;;
  refuse (negb (r_revision r =? expected)) "revision_conflict" 409 ;;
  refuse (negb (is_objective r) || negb (bool_decide (r_status r = RunActive)) || present (r_pending_phase r))
         "objective_not_active" 409 ;;
  _ ← accepting_session actor i;
  for_each (check_evidence p) evidence ;;
  let key := maintenance_key i note evidence in
  existing ← ask (fun d => first_by newest_assignment (stored_rows (fun a => bool_decide (a_recurrence_key a = Some key)) d));
  match existing with
  | Some a => mret a
  | None =>
      data ← parse_assignment (maintenance_session r);
      _ ← validate_enqueue r data;
      m ← child_mission template r "Decide a maintenance request" note [template "objective/maintenance-acceptance" []];
      system ← system_actor;
      row ← create_assignment system (data <| ac_mission_id := m_id m |>
              <| ac_instructions := Some (template "objective/maintenance-request"
                   [("note"%string, note); ("evidence"%string, evidence_json evidence)]) |>) None true false;
      change_assignment (a_id row) None (fun a => a <| a_recurrence_key := Some key |>)
  end.
End phases.

(** ** Phases in the requested order *)

Definition accepted_kinds (r : run) : list phase_kind := map (fun h => phase_kind_of (pa_phase h)) (r_phase_history r).

(** The requested phases are distinct, the accepted phases are the first of them, and the
    pending or the current phase is the next one. *)
Definition phases_ok (r : run) : Prop :=
  NoDup (r_requested_phases r) /\
  accepted_kinds r `prefix_of` r_requested_phases r /\
  match r_pending_phase r with
  | Some q => phase_kind_of <$> pp_next q = r_requested_phases r !! List.length (r_phase_history r)
  | None => r_status r = RunActive \/ r_status r = RunPaused ->
            (accepted_kinds r ++ [phase_kind_of (r_phase r)]) `prefix_of` r_requested_phases r
  end.

Definition objectives_ok (d : DB) : Prop :=
  forall i r, tb_run d !! i = Some r -> r_id r = i /\ (is_objective r = true -> phases_ok r).

Lemma prefix_snoc {A} (l k : list A) x : l `prefix_of` k -> k !! List.length l = Some x -> (l ++ [x]) `prefix_of` k.
Proof.
  intros [k' ->] Hx. rewrite lookup_app_r, Nat.sub_diag in Hx by done. destruct k' as [|y k']; [done|].
  injection Hx as ->. exists k'. by rewrite <- app_assoc.
Qed.

Lemma objectives_ok_insert d i r m :
  objectives_ok d -> m = <[i := r]> (tb_run d) -> r_id r = i -> (is_objective r = true -> phases_ok r) ->
  forall j q, m !! j = Some q -> r_id q = j /\ (is_objective q = true -> phases_ok q).
Proof. intros Hd -> Hi Hr j q [[<- <-]|[_ Hq]]%lookup_insert_Some; [done|by apply Hd]. Qed.

Lemma keeps_accepting_session R `{!PreOrder R} actor i : Keeps R (accepting_session actor i).
Proof. unfold accepting_session. frame. Qed.
#[export] Hint Resolve keeps_accepting_session : frame.

Lemma keeps_require_baseline R `{!PreOrder R} b : Keeps R (require_baseline b).
Proof. unfold require_baseline. frame. Qed.
#[export] Hint Resolve keeps_require_baseline : frame.

Lemma keeps_check_phase R `{!PreOrder R} r p g : Keeps R (check_phase r p g).
Proof. unfold check_phase. frame. Qed.
#[export] Hint Resolve keeps_check_phase : frame.

Lemma keeps_following_phase R `{!PreOrder R} r p given : Keeps R (following_phase r p given).
Proof. unfold following_phase, default_phase. frame. Qed.
#[export] Hint Resolve keeps_following_phase : frame.

Lemma keeps_attempt R m : Reflexive R -> Keeps R m -> Keeps R (attempt m).
Proof.
  intros Hr Hm d a d'. unfold attempt. destruct (m d) as [[[] d1]|[]] eqn:E; intros H; try discriminate H.
  - injection H as <- <-. by eapply Hm.
  - by injection H as <- <-.
Qed.
#[export] Hint Extern 1 (Keeps _ (attempt _)) => (apply keeps_attempt; [typeclasses eauto|auto with frame]) : frame.

Lemma keeps_frontier R `{!PreOrder R} digest hashtext array_text r : Keeps R (frontier digest hashtext array_text r).
Proof. unfold frontier. frame. Qed.
#[export] Hint Resolve keeps_frontier : frame.

Lemma default_phase_kind r p k d g d' : default_phase r p k d = Ok (g, d') -> phase_kind_of g = k.
Proof.
  unfold default_phase. destruct k; intros H.
  - skip H. by apply ret_Ok in H as [-> _].
  - skip H. case_bool_decide; [by apply ret_Ok in H as [-> _]|]. skip H. skip H. skip H.
    case_match; [|by m_inv]. skip H. by apply ret_Ok in H as [-> _].
  - skip H. skip H. case_match; [by m_inv|]. case_match; [|by m_inv]. case_match; [|by m_inv]. by apply ret_Ok in H as [-> _].
Qed.

(** The phase that follows is the next requested one, and there is one while any is left. *)
Lemma following_phase_kind r p given d next d' :
  following_phase r p given d = Ok (next, d') -> phase_kind_of <$> next = next_kind r.
Proof.
  unfold following_phase. intros H. apply bind_Ok in H as (? & ? & [Hg ->]%refuse_Ok & H).
  apply bind_Ok in H as (o & ? & Ho & H).
  assert (phase_kind_of <$> o = next_kind r) as <-.
  { destruct given as [g|]; [|destruct (next_kind r) as [k|] eqn:Ek].
    - apply ret_Ok in Ho as [-> _]. by bools.
    - apply bind_Ok in Ho as (g & ? & Hk%default_phase_kind & Ho). apply ret_Ok in Ho as [-> _]. by subst k.
    - by apply ret_Ok in Ho as [-> _]. }
  destruct o as [g|]; [skip H|]; by apply ret_Ok in H as [-> _].
Qed.

Lemma supersede_runs a : Frame tb_run (supersede_planner a).
Proof. unfold supersede_planner. frame. Qed.
#[export] Hint Resolve supersede_runs : frame.

Lemma accept_phase_spec actor i n note evidence given d row d' :
  accept_phase actor i n note evidence given d = Ok (row, d') ->
  exists r current, tb_run d !! i = Some r /\ is_objective r = true /\ r_status r = RunActive /\ r_pending_phase r = None
    /\ (forall j a, tb_assignment d !! j = Some a -> other_work i current a = false)
    /\ accepted_kinds row = accepted_kinds r ++ [phase_kind_of (r_phase r)]
    /\ (exists q, r_pending_phase row = Some q /\ phase_kind_of <$> pp_next q = next_kind r /\ pp_owner_session q = current)
    /\ r_requested_phases row = r_requested_phases r /\ r_id row = r_id r
    /\ tb_run d' = <[i := row]> (tb_run d).
Proof.
  unfold accept_phase. intros H. skip H. skip H.
  apply bind_Ok in H as ([r p] & ? & [-> Hr]%open_run_Ok & H). apply bind_Ok in H as (? & ? & [Hc ->]%refuse_Ok & H).
  apply bind_Ok in H as (current & ? & Hx & H). apply read_only in Hx as ->; [|frame]. skip H.
  apply bind_Ok in H as (b & ? & [-> Hb]%any_none & H). apply bind_Ok in H as (? & ? & [-> ->]%refuse_Ok & H).
  apply bind_Ok in H as (next & ? & Hx & H). pose proof (following_phase_kind _ _ _ _ _ _ Hx) as Hk.
  apply read_only in Hx as ->; [|frame]. skip H. apply bind_Ok in H as (doc & ? & [_ ->]%get_Ok & H).
  apply bind_Ok in H as (row' & d1 & (r' & Hr' & _ & Erow & E1)%change_Ok & H). cbn in Hr'. rewrite Hr in Hr'. injection Hr' as <-.
  skip H. apply bind_Ok in H as (? & d2 & E2 & H). leaves tb_run E2.
  apply bind_Ok in H as (? & d3 & E3 & H). leaves tb_run E3. apply ret_Ok in H as [-> ->].
  apply orb_false_iff in Hc as [Hc Hp]. apply orb_false_iff in Hc as [Hc Hs]. bools.
  exists r, current. repeat (split; [first [done|by destruct (r_pending_phase r)|by rewrite Erow]|]).
  split; [by apply Hb|]. subst row'. split; [unfold accepted_kinds; cbn; by rewrite map_app|].
  split; [by eexists|]. split; [done|]. split; [done|]. by rewrite E3, E2, E1.
Qed.

Lemma ensure_successor_runs template r au : Frame tb_run (ensure_successor template r au).
Proof. intros d a d' H%ensure_successor_frame. by injection H. Qed.
#[export] Hint Resolve ensure_successor_runs : frame.

(** A phase changes only when the run has settled; then the pending phase becomes current, or
    the objective drains. *)
Lemma advance_spec digest hashtext array_text template r now d u d' :
  advance digest hashtext array_text template r now d = Ok (u, d') -> tb_run d !! r_id r = Some r ->
  tb_run d' = tb_run d \/
  unsettled_run d (r_id r) = false /\ exists q row, r_pending_phase r = Some q /\ r_id row = r_id r
    /\ r_orchestration row = r_orchestration r
    /\ r_pending_phase row = None /\ r_phase_history row = r_phase_history r /\ r_requested_phases row = r_requested_phases r
    /\ match pp_next q with
       | Some next => r_phase row = next
       | None => r_status row = RunDraining /\ r_phase row = r_phase r
       end
    /\ tb_run d' = <[r_id r := row]> (tb_run d).
Proof.
  unfold advance. intros H Hr. apply bind_Ok in H as (? & ? & [-> ->]%ask_Ok & H). cbn [id] in H.
  destruct (unsettled_run d (r_id r)); [apply ret_Ok in H as [_ ->]; by left|].
  apply bind_Ok in H as (q & ? & [Hq ->]%lift_Ok & H). destruct (r_pending_phase r) as [q'|] eqn:Ep; [|done]. injection Hq as ->.
  destruct (pp_next q) as [next|] eqn:En.
  - right. split; [done|]. apply bind_Ok in H as (row & d1 & (r' & Hr' & _ & Erow & E1)%change_Ok & H).
    cbn in Hr'. rewrite Hr in Hr'. injection Hr' as <-. skip H. skip H. skip H.
    apply bind_Ok in H as (au & d2 & E2 & H). leaves tb_run E2.
    apply bind_Ok in H as (? & d3 & E3 & H). leaves tb_run E3. apply ret_Ok in H as [_ ->].
    exists q, row. rewrite En, E3, E2, E1, Erow. by repeat (split; [done|]).
  - apply bind_Ok in H as (root & ? & [_ ->]%get_Ok & H).
    apply bind_Ok in H as (allowed & d0 & Hx & H). apply read_only in Hx as ->; [|frame].
    destruct allowed; cbn [negb] in H; [|apply ret_Ok in H as [_ ->]; by left]. right. split; [done|]. skip H.
    apply bind_Ok in H as (? & d1 & E1 & H). leaves tb_run E1.
    apply bind_Ok in H as (row & d2 & (r' & Hr' & _ & Erow & E2)%change_Ok & H). apply ret_Ok in H as [_ ->].
    cbn in Hr', E2. rewrite E1, Hr in Hr'. injection Hr' as <-.
    exists q, row. rewrite En, E2, Erow. cbn. rewrite E1. by repeat (split; [done|]).
Qed.

Lemma advance_ok digest hashtext array_text template r now d u d' :
  advance digest hashtext array_text template r now d = Ok (u, d') -> tb_run d !! r_id r = Some r ->
  objectives_ok d -> objectives_ok d'.
Proof.
  intros H Hr Hd.
  destruct (advance_spec _ _ _ _ _ _ _ _ _ H Hr) as [E|(_ & q & row & Hq & Hi & Hor & Hp & Hh & Hreq & Hph & E)].
  { intros i r'. rewrite E. apply Hd. }
  intros i r' Hr'. eapply (objectives_ok_insert d _ _ _ Hd E); [done| |exact Hr'].
  intros Ho. destruct (Hd _ _ Hr) as [_ Hok]. unfold is_objective in *. rewrite Hor in Ho. specialize (Hok Ho).
  unfold phases_ok, accepted_kinds in *. rewrite Hp, Hh, Hreq. rewrite Hq in Hok. destruct Hok as (Hu & Hpre & Hnext).
  split; [done|]. split; [done|]. destruct (pp_next q) as [next|].
  - intros _. rewrite Hph. apply prefix_snoc; [done|]. by rewrite length_map.
  - intros [Hs|Hs]; destruct Hph as [Hdr _]; by rewrite Hs in Hdr.
Qed.

Lemma accept_phase_ok actor i n note evidence given d row d' :
  accept_phase actor i n note evidence given d = Ok (row, d') -> objectives_ok d -> objectives_ok d'.
Proof.
  intros (r & current & Hr & Ho & Hs & Hp & _ & Hk & (q & Hq & Hn & _) & Hreq & Hi & E)%accept_phase_spec Hd.
  destruct (Hd _ _ Hr) as [Hid Hok]. specialize (Hok Ho). unfold phases_ok in Hok. rewrite Hp in Hok. destruct Hok as (Hu & _ & Hpre).
  intros j r' Hr'. eapply (objectives_ok_insert d _ _ _ Hd E); [congruence| |exact Hr'].
  intros _. unfold phases_ok. rewrite Hq, Hn, Hreq, Hk. split; [done|]. split; [auto|]. unfold next_kind. f_equal.
  change (r_phase_history row) with (r_phase_history row). apply (f_equal List.length) in Hk. unfold accepted_kinds in Hk.
  rewrite length_app, !length_map in Hk. cbn in Hk. lia.
Qed.

Lemma cancel_runs actor a reason b : Frame tb_run (cancel no_reconsideration actor a reason b).
Proof. unfold cancel, disable_recurrence. frame. Qed.
#[export] Hint Resolve cancel_runs : frame.

Lemma change_run_ok actor c i n note d row d' :
  change_run actor c i n note d = Ok (row, d') -> objectives_ok d -> objectives_ok d'.
Proof.
  unfold change_run. intros H Hd. skip H. apply bind_Ok in H as ([r p] & ? & [-> Hr]%open_run_Ok & H).
  destruct (transition c) as [source status] eqn:Et.
  apply bind_Ok in H as (? & ? & [Hs ->]%refuse_Ok & H). skip H. skip H. skip H.
  apply bind_Ok in H as (now & ? & [-> ->]%ask_Ok & H).
  apply bind_Ok in H as (row' & d1 & (r' & Hr' & _ & Erow & E1)%change_Ok & H). cbn in Hr'. rewrite Hr in Hr'. injection Hr' as <-.
  apply bind_Ok in H as (u & d2 & E2 & H). unfold drain_one in E2. leaves tb_run E2.
  apply bind_Ok in H as (? & d3 & E3 & H). leaves tb_run E3. apply ret_Ok in H as [-> ->].
  destruct (Hd _ _ Hr) as [Hid Hok]. rewrite E1 in E2. bools.
  intros j q Hq. unfold same_part in *. rewrite E3, E2 in Hq.
  eapply (objectives_ok_insert d i row' _ Hd eq_refl); [by rewrite Erow| |exact Hq].
  rewrite Erow. intros Ho. specialize (Hok Ho). unfold phases_ok, accepted_kinds in *. cbn in *. destruct Hok as (Hu & Hpre & Hnext).
  split; [done|]. split; [done|]. destruct (r_pending_phase r); [done|]. intros Hst. apply Hnext.
  rewrite Hs. destruct c; cbn in Et; injection Et as <- <-; naive_solver.
Qed.

Lemma wake_planner_runs digest hashtext array_text r au : Frame tb_run (wake_planner digest hashtext array_text r au).
Proof. unfold wake_planner. frame. Qed.
#[export] Hint Resolve wake_planner_runs : frame.

Lemma reconcile_ok digest hashtext array_text template now d n d' :
  reconcile digest hashtext array_text template now d = Ok (n, d') -> objectives_ok d -> objectives_ok d'.
Proof.
  unfold reconcile. intros H Hd. skip H. apply bind_Ok in H as (rules & ? & Hx & H). apply read_only in Hx as ->; [|frame].
  revert d n Hd H. induction rules as [|rule rules IH]; intros d n Hd H; cbn in H; [by apply ret_Ok in H as [_ ->]|].
  apply bind_Ok in H as (r & ? & [Hr ->]%get_Ok & H). apply bind_Ok in H as (k & d1 & H1 & H).
  apply bind_Ok in H as (m & d2 & H2 & H). apply ret_Ok in H as [_ ->]. eapply IH; [|exact H2]. clear IH H2.
  cbn in Hr. destruct (Hd _ _ Hr) as [Hid _]. destruct (present (r_pending_phase r)).
  - apply bind_Ok in H1 as (? & d3 & H1 & [_ ->]%ret_Ok). eapply advance_ok; [exact H1|by rewrite Hid|done].
  - leaves tb_run H1. intros i q. rewrite H1. apply Hd.
Qed.

(** A phase changes only over settled work: when the reconciliation of a run changes its row,
    the run has no unfinished session, no execution that may still run, and no delivery whose
    outcome is open. *)
Theorem phase_changes_settled digest hashtext array_text template r now d d' :
  advance digest hashtext array_text template r now d = Ok (tt, d') -> tb_run d !! r_id r = Some r -> tb_run d' <> tb_run d ->
  (forall i a, tb_assignment d !! i = Some a -> a_run_id a = r_id r -> live_assignment a = false)
  /\ (forall i x a, tb_execution d !! i = Some x -> tb_assignment d !! x_assignment_id x = Some a -> a_run_id a = r_id r ->
        execution_busy d x = false)
  /\ (forall i a, tb_assignment d !! i = Some a -> a_run_id a = r_id r -> pending_deliveries d (a_id a) = false).
Proof.
  intros H Hr Hne. destruct (advance_spec _ _ _ _ _ _ _ _ _ H Hr) as [E|[Hu _]]; [done|].
  unfold unsettled_run in Hu. apply orb_false_iff in Hu as [Hu H3]. apply orb_false_iff in Hu as [H1 H2].
  split; [|split].
  - intros i a Ha Hrun. pose proof (existsb_stored (R := assignment) _ d i a H1 Ha) as Hf. cbn in Hf.
    by rewrite bool_decide_true in Hf.
  - intros i x a Hx Ha Hrun. pose proof (existsb_stored (R := execution) _ d i x H2 Hx) as Hf. unfold run_busy in Hf.
    rewrite Ha, bool_decide_true in Hf by done. done.
  - intros i a Ha Hrun. pose proof (existsb_stored (R := assignment) _ d i a H3 Ha) as Hf. cbn in Hf.
    by rewrite bool_decide_true in Hf.
Qed.

(** Objective 5 on document 30, in its first phase, with the planner automation 40. *)
Definition sample_objective : run :=
  (sample_run 5 3 RunActive) <| r_orchestration := ObjectiveRun |> <| r_objective_id := Some 30%positive |>
    <| r_phase := Preprocessing 30 false |> <| r_requested_phases := [PreprocessingKind; FormalizationKind] |>
    <| r_queue_policies := default_queue_policies |> <| r_auto_advance := true |>.

Definition objective_db : DB :=
  (empty_db 500) <| db_next := 100%positive |> <| tb_system_grant := {[1%positive]} |>
    <| tb_project := {[2%positive := sample_project]} |>
    <| tb_mission := {[3%positive := sample_mission 3 None MissionOpen]} |>
    <| tb_document := {[30%positive := sample_document 30 2]} |>
    <| tb_run := {[5%positive := sample_objective]} |>
    <| tb_automation := {[40%positive := (sample_automation 40 5 3 true) <| au_name := PLANNER |>]} |>.

Definition sample_digest (f : Frontier) : string := fp_source_commit_oid f.
Definition sample_hash (s : string) : Z := Z.of_nat (String.length s).
Definition sample_template (name : string) (_ : list (string * string)) : string := name.

Lemma objective_db_ok : objectives_ok objective_db.
Proof.
  intros i r H. cbn in H. apply lookup_singleton_Some in H as [<- <-]. split; [done|]. intros _. split; [|split; [|intros _]; by eexists].
  apply (bool_decide_unpack _). by vm_compute.
Qed.

Lemma phase_changes_settled_witness :
  exists r d1 d', accept_phase admin 5 1 "roadmap reviewed" [stored Kmission 3] None objective_db = Ok (r, d1)
    /\ advance sample_digest sample_hash (join ",") sample_template r 500 d1 = Ok (tt, d')
    /\ tb_run d' <> tb_run d1 /\ forall i a, tb_assignment d1 !! i = Some a -> a_run_id a = 5%positive -> live_assignment a = false.
Proof.
  destruct (is_ok_true (accept_phase admin 5 1 "roadmap reviewed" [stored Kmission 3] None objective_db))
    as [[r d1] E]; [by vm_compute|].
  destruct (is_ok_true (advance sample_digest sample_hash (join ",") sample_template r 500 d1)) as [[[] d'] E'].
  { vm_compute in E. injection E as <- <-. by vm_compute. }
  assert (tb_run d1 !! r_id r = Some r /\ r_id r = 5%positive) as [Hr Hi].
  { vm_compute in E. injection E as <- <-. by split. }
  assert (tb_run d' <> tb_run d1) as Hne.
  { intros Heq. apply (f_equal (fun m => m !! 5%positive)) in Heq. vm_compute in E. injection E as <- <-.
    vm_compute in E'. injection E' as <-. by vm_compute in Heq. }
  exists r, d1, d'. split; [done|]. split; [done|]. split; [done|].
  destruct (phase_changes_settled _ _ _ _ r 500 d1 d' E' Hr Hne) as [Ha _]. rewrite Hi in Ha. exact Ha.
Defined.
