(* ===== verification/Demand.v ===== *)
(** * Review demand

    src/archon_horizon/pipeline/review/demand.py: one durable maintenance owner per Forge item,
    with coalesced review generations.  [observe] turns what the Forge shows into generations,
    [request] and [settle] open and close a generation, [reconcile] queues the owner of an open
    one, and [label_projection] and [repair_label] keep the label [awaiting-review] in line with
    the demand.

    Arguments: the SHA-256 of the JSON of the six fields of a fingerprint, the rendered prompt
    templates, and the clock of the process ([datetime.now]). *)

From S2P Require Import Prelude Contracts Conditions Schema Records Auth Samples MissionTree Missions Ledger Usage Capacity Sessions Assignments Deliveries Settlement Runs Workspaces Labels Objectives Cancellation Phases.

Definition AWAITING : string := "awaiting-review".

(** The columns that [fingerprint] hashes. *)
Record Fingerprint := {
  fg_repository_id : uid;
  fg_remote_number : Z;
  fg_kind : item_kind;
  fg_head_commit_oid : option string;
  fg_target_branch : option string;
  fg_status : item_status }.

Definition fingerprint_fields (item : forge_item) : Fingerprint :=
  {| fg_repository_id := fi_repository_id item; fg_remote_number := fi_remote_number item; fg_kind := fi_kind item;
     fg_head_commit_oid := fi_head_commit_oid item; fg_target_branch := fi_target_branch item; fg_status := fi_status item |}.

Definition settled_run (r : run) : bool := mem (r_status r) [RunCompleted; RunCancelled].

Definition item_open (item : forge_item) : bool := bool_decide (fi_status item = ItemOpen).

Definition unconfirmed_of (a : uid) (x : execution) : bool :=
  bool_decide (x_assignment_id x = a) && negb (present (x_stop_confirmed_at x)).

Definition unhandled (m : review_demand) : bool := dm_handled_generation m <? dm_generation m.

Definition put_demand (item : uid) (m : review_demand) : M unit :=
  modify (fun d => d <| tb_review_demand := <[item := m]> (tb_review_demand d) |>).

Definition item_subject (f : forge_item) : Subject :=
  {| sub_ref := Some (stored Kforge_item (fi_id f)); sub_revision := fi_revision f; sub_status := item_status_str (fi_status f);
     sub_note := None |}.

(** [create] of an outbox operation under its unique key. *)
Definition queue_operation (project actor : uid) (k : outbox_kind) (key : string) (body : payload) : M outbox_operation :=
  clash ← any (with_key actor k key);
  if (clash : bool) then throw (RuntimeFailure "uq_outbox_operation")
  else create (new_operation project actor k key body).

Section demand.
Context (digest : Fingerprint -> string).

Definition fingerprint (item : forge_item) : string := digest (fingerprint_fields item).

(** ** Observing an item *)

Definition first_demand (r : run) (item : forge_item) (label : bool) (now : instant) (note : option string) : review_demand :=
  {| dm_run_id := r_id r; dm_generation := 1; dm_fingerprint := fingerprint item; dm_attention := true;
     dm_observed_label := label; dm_assignment_id := None; dm_handled_generation := 0; dm_owner_generation := 0;
     dm_note := note; dm_requested_at := now |}.

(** [renewed]: a new request, a changed item or a label that appears. *)
Definition renews (item : forge_item) (explicit : bool) (old : review_demand) : bool :=
  let label := mem AWAITING (fi_labels item) in
  item_open item && (explicit || label || unhandled old)
  && (explicit || negb (bool_decide (fingerprint item = dm_fingerprint old)) || (negb (dm_observed_label old) && label)).

Definition observed (r : run) (item : forge_item) (now : instant) (note : option string) (explicit : bool) (old : review_demand)
    : review_demand :=
  let renewed := renews item explicit old in
  let attention := item_open item && (renewed || unhandled old) in
  let m := old <| dm_attention := attention |> <| dm_observed_label := mem AWAITING (fi_labels item) |> in
  let m := if item_open item then m else m <| dm_handled_generation := dm_generation old |> in
  let m := if attention && negb (bool_decide (dm_run_id old = r_id r))
           then m <| dm_run_id := r_id r |> <| dm_assignment_id := None |> <| dm_owner_generation := 0 |> else m in
  if renewed then m <| dm_generation := dm_generation old + 1 |> <| dm_fingerprint := fingerprint item |>
                    <| dm_requested_at := now |> <| dm_note := note |> <| dm_run_id := r_id r |>
  else m.

(** Another run keeps its demand until it is settled and its owner has stopped. *)
Definition retained_elsewhere (r : run) (old : review_demand) : M bool :=
  if bool_decide (dm_run_id old = r_id r) then mret false
  else
    previous ← (get (dm_run_id old) : M run);
    if negb (settled_run previous) then mret true
    else match dm_assignment_id old with
         | Some a => any (unconfirmed_of a)
         | None => mret false
         end.

Definition observe (r : run) (item : forge_item) (now : instant) (note : option string) (explicit : bool)
    : M (option review_demand) :=
  old ← ask (fun d => tb_review_demand d !! fi_id item);
  match old with
  | None =>
      let label := mem AWAITING (fi_labels item) in
      if item_open item && (explicit || label)
      then let m := first_demand r item label now note in put_demand (fi_id item) m ;; mret (Some m)
      else mret None
  | Some old =>
      kept ← retained_elsewhere r old;
      if (kept : bool) then mret None
      else let m := observed r item now note explicit old in put_demand (fi_id item) m ;; mret (Some m)
  end.

(** ** Requests *)

Definition review_repository (q : repository) : bool := mem (rp_purpose q) [KnowledgeRepo; LibraryRepo].

Definition request (actor : Actor) (item_id : uid) (note : string) (run_id : option uid) (clock : instant) : M review_demand :=
  item ← (get item_id : M forge_item);
  p ← scoped Kforge_item item_id;
  require_project actor p WorkerGrant ;;
  execution ← (if is_agent actor then l ← live_execution actor; mret (Some l) else mret None);
  let chosen := or_else run_id (match execution with Some l => Some (lx_run_id l) | None => fi_origin_run_id item end) in
  run_id ← match chosen with Some i => mret i | None => throw (DomainError "review_origin_required" 422) end;
  r ← (get run_id : M run);
  repository ← (get (fi_repository_id item) : M repository);
  owner ← project_of Krun (r_id r);
  refuse (negb (bool_decide (owner = Some p)) || negb (review_repository repository)) "scope_mismatch" 403 ;;
  match fi_origin_run_id item with
  | Some o => when (negb (bool_decide (o = r_id r)))
                (origin ← (get o : M run); refuse (negb (settled_run origin)) "scope_mismatch" 403)
  | None => mret tt
  end ;;
  refuse (negb (is_objective r) || negb (bool_decide (r_status r = RunActive)) || negb (item_open item)) "review_not_active" 409 ;;
  refuse (match execution with Some l => negb (bool_decide (lx_run_id l = r_id r)) | None => false end) "scope_mismatch" 403 ;;
  old ← ask (fun d => tb_review_demand d !! item_id);
  refuse (match old with Some m => bool_decide (dm_fingerprint m = fingerprint item) | None => false end && blank note)
         "review_reason_required" 422 ;;
  result ← observe r item clock (Some note) true;
  match result with
  | None => throw (DomainError "review_owner_retained" 409)
  | Some m =>
      _ ← queue_operation p (actor_id actor) ForgeLabelOp
            ("review-request:" +:+ uuid_str item_id +:+ ":" +:+ pretty (dm_generation m))%string
            (PLabel item_id [AWAITING] [] None (Some (dm_generation m)));
      _ ← emit (Some (actor_id actor)) (Some p) (item_subject item) ["review_demand"%string] None None
            (Some ("Requested review generation " +:+ pretty (dm_generation m) +:+ " in objective run " +:+ uuid_str (r_id r)
                   +:+ ": " +:+ note)%string);
      mret m
  end.

(** The head of [execute] on a Forge item. *)
Definition open_item (actor : Actor) (i : uid) (expected : Z) : M unit :=
  old ← (get i : M forge_item);
  p ← scoped Kforge_item i;
  require_project actor p WorkerGrant ;;
  refuse (negb (fi_revision old =? expected)) "revision_conflict" 409.

Definition request_review (actor : Actor) (i : uid) (expected : Z) (note : string) (run_id : option uid) (clock : instant)
    : M review_demand :=
  open_item actor i expected ;; request actor i note run_id clock.
End demand.

(** ** Settling a generation *)

Definition settle (actor : Actor) (item_id : uid) (generation : Z) (note : string) : M (uid * Z * string) :=
  p ← scoped Kforge_item item_id;
  require_project actor p MaintainerGrant ;;
  found ← ask (fun d => tb_review_demand d !! item_id);
  m ← lift match found with
           | Some m => if dm_generation m <? generation then Err (DomainError "review_generation_changed" 409) else Ok m
           | None => Err (DomainError "review_generation_changed" 409)
           end;
  when (is_agent actor)
    (l ← live_execution actor;
     refuse (negb (bool_decide (Some (lx_assignment_id l) = dm_assignment_id m))) "review_owner_required" 403 ;;
     refuse (negb (generation =? dm_owner_generation m)) "review_generation_changed" 409) ;;
  put_demand item_id (m <| dm_handled_generation := Z.max generation (dm_handled_generation m) |>) ;;
  when (generation =? dm_generation m)
    (_ ← queue_operation p (actor_id actor) ForgeLabelOp
           ("review-settle:" +:+ uuid_str item_id +:+ ":" +:+ pretty generation)%string
           (PLabel item_id [] [AWAITING] None (Some generation));
     mret tt) ;;
  item ← (get item_id : M forge_item);
  _ ← emit (Some (actor_id actor)) (Some p) (item_subject item) ["review_demand"%string] None None
        (Some ("Settled review generation " +:+ pretty generation +:+ ": " +:+ note)%string);
  mret (item_id, generation, note).

Definition settle_review (actor : Actor) (i : uid) (expected generation : Z) (note : string) : M (uid * Z * string) :=
  refuse (negb (positive_valid generation)) "invalid_arguments" 422 ;;
  refuse (blank note) "decision_required" 422 ;;
  open_item actor i expected ;; settle actor i generation note.

(** ** The label of the demand *)

Definition without_awaiting (l : list string) : list string := List.filter (fun v => negb (bool_decide (v = AWAITING))) l.

(** A delayed label delivery is rebased onto the demand. *)
Definition label_projection (d : DB) (item_id : uid) (body : payload) : payload :=
  match tb_review_demand d !! item_id, body with
  | Some m, PLabel i add remove identity (Some g) =>
      let wants := dm_attention m && unhandled m in
      PLabel i (without_awaiting add ++ if wants then [AWAITING] else [])
               (without_awaiting remove ++ if wants then [] else [AWAITING]) identity (Some g)
  | _, _ => body
  end.

Definition repair_label (item : forge_item) (actor operation : uid) : M unit :=
  found ← ask (fun d => tb_review_demand d !! fi_id item);
  match found with
  | None => mret tt
  | Some m =>
      let wants := item_open item && dm_attention m && unhandled m in
      if Bool.eqb wants (mem AWAITING (fi_labels item)) then mret tt
      else
        p ← scoped Kforge_item (fi_id item);
        _ ← queue_operation p actor ForgeLabelOp
              ("review-projection:" +:+ uuid_str operation +:+ ":" +:+ pretty (dm_generation m))%string
              (PLabel (fi_id item) (if wants then [AWAITING] else []) (if wants then [] else [AWAITING]) None
                 (Some (dm_generation m)));
        mret tt
  end.

(** ** Queueing owners *)

Definition active_objective (r : run) : bool := is_objective r && bool_decide (r_status r = RunActive).

Definition objectives_of (d : DB) (p : uid) : list run :=
  stored_rows (fun r => active_objective r
    && match tb_mission d !! r_mission_id r with Some m => bool_decide (m_project_id m = p) | None => false end) d.

(** The items whose demand the run may own; items made by hand belong to a project's only objective. *)
Definition candidate (d : DB) (r : run) (p : uid) (item : forge_item) : bool :=
  match tb_repository d !! fi_repository_id item with
  | Some q => bool_decide (rp_project_id q = p) && review_repository q
  | None => false
  end
  && ((bool_decide (List.length (objectives_of d p) = 1%nat) && negb (present (fi_origin_run_id item))
         && mem AWAITING (fi_labels item)
         && match fi_review_phase item with None => true | Some k => bool_decide (k = phase_kind_of (r_phase r)) end)
      || bool_decide (fi_origin_run_id item = Some (r_id r))
      || match tb_review_demand d !! fi_id item with Some m => bool_decide (dm_run_id m = r_id r) | None => false end).

Definition older_item (a b : forge_item) : bool :=
  (fi_observed_at a <? fi_observed_at b) || ((fi_observed_at a =? fi_observed_at b) && (fi_id a <=? fi_id b)%positive).

Definition review_key (item : uid) : string := ("review:" +:+ uuid_str item)%string.

(** Whether a demand with an owner needs another: a failed owner keeps its circuit, a completed
    one served a former generation, a cancelled one was settled and has stopped. *)
Definition owner_spent (d : DB) (m : review_demand) (owner : assignment) : bool :=
  match a_status owner with
  | Pending | Running | Stopping | Failed => false
  | Completed_ => dm_owner_generation m <? dm_generation m
  | Cancelled => (dm_owner_generation m <=? dm_handled_generation m) && (dm_owner_generation m <? dm_generation m)
                 && negb (existsb (unconfirmed_of (a_id owner)) (map snd (map_to_list (tb_execution d))))
  end.

Inductive review_step : Type := Waiting | Queued | QueueFull.

Section reconcile.
Context (digest : Fingerprint -> string) (template : string -> list (string * string) -> string).

Definition owner_mission (r : run) (item : forge_item) (m : review_demand) : M mission :=
  let kind := match fi_kind item with PullRequest => "pull_request" | Issue => "issue" end%string in
  child_mission template r ("Review " +:+ kind +:+ " #" +:+ pretty (fi_remote_number item))%string
    (template "maintenance-mission" [("generation", pretty (dm_generation m)); ("kind", kind);
       ("number", pretty (fi_remote_number item)); ("title", fi_title item)])%string
    ["The item has an attributable decision and any repair has a durable owner."%string].

Definition owner_instructions (item : forge_item) (m : review_demand) : string :=
  template "maintenance-instructions"
    [("item_id", uuid_str (fi_id item)); ("generation", pretty (dm_generation m));
     ("head", default "issue" (truthy (fi_head_commit_oid item))); ("target", default "none" (truthy (fi_target_branch item)));
     ("request", default "awaiting-review" (truthy (dm_note m)))]%string.

Definition queue_owner (r : run) (item : forge_item) (m : review_demand) (data : AssignmentCreate) : M unit :=
  mission ← owner_mission r item m;
  system ← system_actor;
  row ← create_assignment system (data <| ac_mission_id := m_id mission |>
          <| ac_instructions := Some (owner_instructions item m) |>) None true false;
  _ ← change_assignment (a_id row) None (fun a => a <| a_recurrence_key := Some (review_key (fi_id item)) |>);
  modify (fun d => d <| tb_review_demand := alter (fun m' => m' <| dm_assignment_id := Some (a_id row) |>
            <| dm_owner_generation := dm_generation m |>) (fi_id item) (tb_review_demand d) |>).

(** The owner of a closed item is stopped. *)
Definition stop_owner (item : forge_item) (m : review_demand) : M unit :=
  match dm_assignment_id m with
  | Some a => when (negb (item_open item))
      (owner ← (get a : M assignment);
       when (live_assignment owner)
         (system ← system_actor;
          _ ← cancel (reconsider template) system owner
                (Some "Review item closed; request settled without a new review decision"%string) true;
          mret tt))
  | None => mret tt
  end.

Definition review_item (r : run) (now : instant) (raw : forge_item) : M review_step :=
  item ← (if present (fi_review_phase raw) then mret raw
          else change (fi_id raw) None (fun f => f <| fi_review_phase := Some (phase_kind_of (r_phase r)) |>));
  found ← observe digest r item now None false;
  match found with
  | None => mret Waiting
  | Some m =>
      stop_owner item m ;;
      if negb (unhandled m) || negb (item_open item) then mret Waiting
      else
        spent ← match dm_assignment_id m with
                | None => mret true
                | Some a => owner ← (get a : M assignment); ask (fun d => owner_spent d m owner)
                end;
        if negb spent then mret Waiting
        else
          data ← parse_assignment (maintenance_session r);
          accepted ← unless_refused "queue_full" (validate_enqueue r data);
          match accepted with
          | None => mret QueueFull
          | Some _ => queue_owner r item m data ;; mret Queued
          end
  end.

Fixpoint review_items (r : run) (now : instant) (items : list forge_item) : M Z :=
  match items with
  | [] => mret 0
  | item :: rest =>
      step ← review_item r now item;
      match step with
      | QueueFull => mret 0
      | Waiting => review_items r now rest
      | Queued => n ← review_items r now rest; mret (n + 1)
      end
  end.

(** [scheduler._review_offsets], the page at which the scan of each run goes on. *)
Definition review_page (d : DB) (r : run) (p : uid) (offset : nat) : list forge_item :=
  take CLAIM_SCAN_LIMIT (drop offset (sort_by older_item (stored_rows (candidate d r p) d))).

Fixpoint review_runs (now : instant) (runs : list run) (offsets : gmap uid nat) : M (Z * gmap uid nat) :=
  match runs with
  | [] => mret (0, offsets)
  | r :: rest =>
      if present (r_pending_phase r) then review_runs now rest offsets
      else
        root ← (get (r_mission_id r) : M mission);
        d ← ask id;
        let offset := default 0%nat (offsets !! r_id r) in
        let page := review_page d r (m_project_id root) offset in
        let full := bool_decide (List.length page = CLAIM_SCAN_LIMIT) in
        n ← review_items r now page;
        '(k, offsets) ← review_runs now rest (<[r_id r := if full then (offset + List.length page)%nat else 0%nat]> offsets);
        mret (n + k, offsets)
  end.

Definition reconcile_reviews (now : instant) (offsets : gmap uid nat) : M (Z * gmap uid nat) :=
  runs ← select active_objective;
  review_runs now runs offsets.
End reconcile.

(** ** The label follows the demand *)

Definition wanted (m : review_demand) : bool := dm_attention m && unhandled m.

Lemma elem_of_without x l : x ∈ without_awaiting l <-> x <> AWAITING /\ x ∈ l.
Proof. unfold without_awaiting. rewrite elem_of_filtered, negb_true_iff, bool_decide_eq_false. tauto. Qed.

Lemma projected_label d item m add remove identity g :
  tb_review_demand d !! fi_id item = Some m ->
  mem AWAITING (fi_labels (relabelled item (label_projection d (fi_id item) (PLabel (fi_id item) add remove identity (Some g)))))
  = wanted m.
Proof.
  intros Hm. unfold label_projection. rewrite Hm. cbn [relabelled]. fold (wanted m). apply eq_true_iff_eq.
  change (fi_labels (item <| fi_labels := ?l |>)) with l. rewrite mem_true. unfold relabel.
  rewrite elem_of_sorted_set, !elem_of_app, elem_of_filtered, negb_true_iff, mem_false, !elem_of_app, !elem_of_without.
  destruct (wanted m); rewrite ?list_elem_of_singleton; set_solver.
Qed.

(** The label follows the demand: whichever label operation of a review generation is delivered,
    and however late, the open item it reaches awaits a review exactly when the current
    generation is unhandled; no repair is left to queue. *)
Theorem label_follows_demand d item m add remove identity g actor operation :
  tb_review_demand d !! fi_id item = Some m -> fi_status item = ItemOpen ->
  let item' := relabelled item (label_projection d (fi_id item) (PLabel (fi_id item) add remove identity (Some g))) in
  (AWAITING ∈ fi_labels item' <-> dm_attention m = true /\ dm_handled_generation m < dm_generation m)
  /\ (forall l, l <> AWAITING -> l ∈ fi_labels item' <-> l ∈ fi_labels item /\ l ∉ remove \/ l ∈ add)
  /\ repair_label item' actor operation d = Ok (tt, d).
Proof.
  intros Hm Ho item'. assert (mem AWAITING (fi_labels item') = wanted m) as Hl by (by apply projected_label).
  assert (fi_id item' = fi_id item /\ fi_status item' = ItemOpen) as [Hi Hs].
  { unfold item', label_projection. by rewrite Hm. }
  split; [|split].
  - rewrite <- mem_true, Hl. unfold wanted, unhandled. rewrite andb_true_iff, Z.ltb_lt. done.
  - intros l Hne. unfold item', label_projection. rewrite Hm. cbn [relabelled].
    change (fi_labels (item <| fi_labels := ?l |>)) with l. unfold relabel.
    rewrite elem_of_sorted_set, !elem_of_app, elem_of_filtered, negb_true_iff, mem_false, !elem_of_app, !elem_of_without.
    destruct (dm_attention m && unhandled m); rewrite ?list_elem_of_singleton; set_solver.
  - unfold repair_label. apply bind_Ok. exists (Some m), d. split; [apply ask_Ok; by rewrite Hi, Hm|].
    unfold item_open. rewrite Hs, bool_decide_true by done. cbn [andb]. fold (wanted m). rewrite Hl, eqb_reflx. by apply ret_Ok.
Qed.

(** ** Generations only advance *)

Definition demand_wf (m : review_demand) : Prop :=
  1 <= dm_generation m /\ 0 <= dm_handled_generation m <= dm_generation m /\ 0 <= dm_owner_generation m <= dm_generation m.

Definition demands_wf (d : DB) : Prop := forall i m, tb_review_demand d !! i = Some m -> demand_wf m.

(** Demands are never dropped, and their generations never go back. *)
Definition later (d d' : DB) : Prop :=
  forall i m, tb_review_demand d !! i = Some m ->
    exists m', tb_review_demand d' !! i = Some m' /\ dm_generation m <= dm_generation m'
      /\ dm_handled_generation m <= dm_handled_generation m'.

Definition advances (d d' : DB) : Prop := demands_wf d -> demands_wf d' /\ later d d'.

#[export] Instance advances_preorder : PreOrder advances.
Proof.
  split.
  - intros d Hd. split; [done|]. intros i m Hm. exists m. by repeat split.
  - intros d1 d2 d3 H1 H2 Hw. destruct (H1 Hw) as [W2 L2]. destruct (H2 W2) as [W3 L3]. split; [done|].
    intros i m (m2 & (m3 & ? & ? & ?)%L3 & ? & ?)%L2. exists m3. split; [done|]. lia.
Qed.

Lemma advances_same d d' : tb_review_demand d' = tb_review_demand d -> advances d d'.
Proof. intros E Hw. unfold demands_wf, later. rewrite E. split; [done|]. intros i m Hm. exists m. by repeat split. Qed.

Lemma advances_put i m d :
  (demands_wf d -> demand_wf m /\ forall m0, tb_review_demand d !! i = Some m0 ->
     dm_generation m0 <= dm_generation m /\ dm_handled_generation m0 <= dm_handled_generation m) ->
  advances d (d <| tb_review_demand := <[i := m]> (tb_review_demand d) |>).
Proof.
  intros H Hw. destruct (H Hw) as [Hm Hl]. split.
  - intros j m'. cbn. intros [[<- <-]|[_ ?]]%lookup_insert_Some; [done|by eapply Hw].
  - intros j m0 Hj. cbn. destruct (decide (j = i)) as [->|Hne].
    + exists m. rewrite lookup_insert_eq. split; [done|]. by apply Hl.
    + exists m0. rewrite lookup_insert_ne by done. by repeat split.
Qed.

(** A transaction that leaves the demands alone. *)
Lemma keeps_advances {A} (m : M A) : Frame tb_review_demand m -> Keeps advances m.
Proof. intros H d a d' E%H. by apply advances_same. Qed.

Section properties.
Context (digest : Fingerprint -> string) (template : string -> list (string * string) -> string).

Lemma observed_advances r item now note explicit old :
  demand_wf old -> demand_wf (observed digest r item now note explicit old)
  /\ dm_generation old <= dm_generation (observed digest r item now note explicit old)
  /\ dm_handled_generation old <= dm_handled_generation (observed digest r item now note explicit old).
Proof.
  unfold observed, demand_wf. intros (G & H & O). destruct (renews _ _ _ _), (item_open item), (bool_decide _);
    destruct (unhandled old); cbn; lia.
Qed.

Lemma observe_Ok r item now note explicit d answer d' :
  observe digest r item now note explicit d = Ok (answer, d') ->
  match answer with
  | None => d' = d
  | Some m => d' = d <| tb_review_demand := <[fi_id item := m]> (tb_review_demand d) |>
      /\ match tb_review_demand d !! fi_id item with
         | Some old => m = observed digest r item now note explicit old
         | None => item_open item = true /\ m = first_demand digest r item (mem AWAITING (fi_labels item)) now note
         end
  end.
Proof.
  unfold observe. intros (old & ? & [-> ->]%ask_Ok & H)%bind_Ok. destruct (tb_review_demand d !! fi_id item) as [old|].
  - apply bind_Ok in H as (kept & ? & Hk & H). apply read_only in Hk as ->; [|unfold retained_elsewhere; frame].
    destruct kept; [by apply ret_Ok in H as [-> ->]|].
    by apply bind_Ok in H as (? & ? & ->%modify_Ok & [-> ->]%ret_Ok).
  - destruct (item_open item) eqn:E; cbn [andb] in H; [|by apply ret_Ok in H as [-> ->]].
    destruct (_ || _) in H; [|by apply ret_Ok in H as [-> ->]].
    by apply bind_Ok in H as (? & ? & ->%modify_Ok & [-> ->]%ret_Ok).
Qed.

Lemma observe_advances r item now note explicit : Keeps advances (observe digest r item now note explicit).
Proof.
  intros d answer d' H%observe_Ok. destruct answer as [m|]; [|by subst]. destruct H as [-> H].
  apply advances_put. intros Hw. destruct (tb_review_demand d !! fi_id item) as [old|] eqn:E.
  - subst m. split; [by eapply observed_advances, Hw|]. intros m0 [= <-]. by eapply observed_advances, Hw.
  - destruct H as [_ ->]. split; [unfold demand_wf; cbn; lia|]. intros m0. congruence.
Qed.

Lemma retained_frame r old : Frame tb_review_demand (retained_elsewhere r old).
Proof. unfold retained_elsewhere. frame. Qed.

Lemma keeps_queue_operation R `{!PreOrder R, !Quiet R outbox_operation} p a k key body : Keeps R (queue_operation p a k key body).
Proof. unfold queue_operation. frame. Qed.
Hint Extern 1 (Keeps _ (queue_operation _ _ _ _ _)) => (apply keeps_queue_operation; typeclasses eauto) : frame.

Hint Extern 0 (Quiet advances _) => (split; intros; by apply advances_same) : typeclass_instances.
Hint Resolve observe_advances : frame.

Lemma keeps_open_item R `{!PreOrder R} actor i n : Keeps R (open_item actor i n).
Proof. unfold open_item. frame. Qed.
Hint Resolve keeps_open_item : frame.

Lemma request_advances actor i n note run clock : Keeps advances (request_review digest actor i n note run clock).
Proof. unfold request_review, request. frame. Qed.

Lemma settle_advances actor i n g note : Keeps advances (settle_review actor i n g note).
Proof.
  unfold settle_review, settle. intros d a d' H. skip H. skip H. skip H. skip H. skip H.
  apply bind_Ok in H as (found & ? & [-> ->]%ask_Ok & H). apply bind_Ok in H as (m & ? & [Hm ->]%lift_Ok & H).
  destruct (tb_review_demand d !! i) as [old|] eqn:Eo; [|done]. destruct (dm_generation old <? g) eqn:Eg; [done|].
  apply Ok_inj in Hm as <-. skip H. apply bind_Ok in H as (? & d1 & Hp%modify_Ok & H).
  transitivity d1; [subst d1|revert H; by apply (keeps_advances (_ ≫= _)); frame].
  apply advances_put. intros Hw. destruct (Hw _ _ Eo) as (G & Hh & O). split; [unfold demand_wf; cbn; lia|].
  intros m0. rewrite Eo. intros [= <-]. cbn. lia.
Qed.

Lemma repair_advances item actor operation : Keeps advances (repair_label item actor operation).
Proof. unfold repair_label. frame. Qed.

Lemma cancel_demands rec actor a reason b :
  (forall x, Frame tb_review_demand (rec x)) -> Frame tb_review_demand (cancel rec actor a reason b).
Proof. intros Hr. unfold cancel, disable_recurrence. frame. Qed.
Hint Extern 1 (Keeps _ (cancel _ _ _ _ _)) => (apply cancel_demands; intros; frame) : frame.

Lemma stop_owner_demands item m : Frame tb_review_demand (stop_owner template item m).
Proof. unfold stop_owner, system_actor. frame. Qed.

Lemma owner_mission_demands r item m : Frame tb_review_demand (owner_mission template r item m).
Proof. unfold owner_mission, child_mission, parse_mission, system_actor. frame. Qed.
Hint Resolve owner_mission_demands stop_owner_demands : frame.

Definition owned_as (m : review_demand) (row : uid) (m' : review_demand) : review_demand :=
  m' <| dm_assignment_id := Some row |> <| dm_owner_generation := dm_generation m |>.

Lemma queue_owner_Ok r item m data d u d' :
  queue_owner template r item m data d = Ok (u, d') ->
  exists row, tb_review_demand d' = alter (owned_as m (a_id row)) (fi_id item) (tb_review_demand d)
    /\ tb_assignment d' !! a_id row = Some row /\ a_status row = Pending /\ a_recurrence_key row = Some (review_key (fi_id item))
    /\ forall j a, tb_assignment d' !! j = Some a -> same_recurrence row a = false.
Proof.
  unfold queue_owner, system_actor. intros H. apply bind_Ok in H as (ms & d1 & E1 & H). leaves tb_review_demand E1.
  apply bind_Ok in H as (sy & d2 & E2 & H). leaves tb_review_demand E2. apply bind_Ok in H as (row & d3 & Hr & H).
  pose proof (create_assignment_row _ _ _ _ _ _ _ _ Hr) as (Hrow & Hs & _). leaves tb_review_demand Hr.
  apply bind_Ok in H as (row' & d4 & Hc & ->%modify_Ok).
  pose proof (change_assignment_Ok _ _ _ _ _ _ Hc) as (a & Ha & _ & Er & E4). rewrite Hrow in Ha. injection Ha as <-.
  assert (a_id row' = a_id row /\ a_status row' = Pending) as [Hi Hp] by (by rewrite Er).
  exists row'. rewrite Hi. split; [cbn; by rewrite E4; cbn; rewrite Hr, E2, E1|].
  split; [cbn; rewrite E4; cbn; by rewrite lookup_insert_eq|]. split; [done|]. split; [by rewrite Er|].
  apply (change_assignment_alone _ _ _ _ _ _ Hc). unfold live_assignment. by rewrite Hp.
Qed.

Lemma review_item_advances r now raw : Keeps advances (review_item digest template r now raw).
Proof.
  unfold review_item. apply keeps_bind; [typeclasses eauto|frame|]. intros item d a d' H.
  apply bind_Ok in H as (found & d1 & Ho & H). transitivity d1; [by eapply observe_advances|].
  destruct found as [m|]; [|by apply ret_Ok in H as [_ ->]].
  apply observe_Ok in Ho as [-> _]. apply bind_Ok in H as (? & d2 & E2 & H). leaves tb_review_demand E2. unfold same_part in E2. cbn in E2.
  transitivity d2; [by apply advances_same|]. destruct (_ || _) in H; [by apply ret_Ok in H as [_ ->]|]. skip H.
  destruct (negb _) in H; [by apply ret_Ok in H as [_ ->]|]. skip H. skip H.
  destruct (_ : option _) in H; [|by apply ret_Ok in H as [_ ->]].
  apply bind_Ok in H as (? & d3 & (row & E & _)%queue_owner_Ok & [_ ->]%ret_Ok).
  assert (tb_review_demand d2 !! fi_id item = Some m) as Hm by (rewrite E2; by rewrite lookup_insert_eq).
  assert (tb_review_demand d3 = <[fi_id item := owned_as m (a_id row) m]> (tb_review_demand d2)) as E'.
  { rewrite E. apply map_eq. intros j. destruct (decide (j = fi_id item)) as [->|Hne].
    - by rewrite lookup_alter_eq, Hm, lookup_insert_eq.
    - by rewrite lookup_alter_ne, lookup_insert_ne. }
  transitivity (d2 <| tb_review_demand := <[fi_id item := owned_as m (a_id row) m]> (tb_review_demand d2) |>);
    [apply advances_put|by apply advances_same].
  intros Hw. destruct (Hw _ _ Hm) as (G & Hh & O). split; [unfold demand_wf; cbn; lia|]. intros m0. rewrite Hm. by intros [= <-].
Qed.
Hint Resolve review_item_advances : frame.

Lemma review_items_advances r now items : Keeps advances (review_items digest template r now items).
Proof. induction items; cbn; frame. Qed.
Hint Resolve review_items_advances : frame.

Lemma review_runs_advances now runs offsets : Keeps advances (review_runs digest template now runs offsets).
Proof. revert offsets. induction runs as [|r runs IH]; intros offsets; cbn; frame. Qed.
Hint Resolve review_runs_advances : frame.

Lemma reconcile_advances now offsets : Keeps advances (reconcile_reviews digest template now offsets).
Proof. unfold reconcile_reviews. frame. Qed.

(** The transactions that write demands, and any other, which leaves them alone. *)
Inductive demand_step (d d' : DB) : Prop :=
| StepRequest actor i n note run clock m : request_review digest actor i n note run clock d = Ok (m, d') -> demand_step d d'
| StepSettle actor i n g note answer : settle_review actor i n g note d = Ok (answer, d') -> demand_step d d'
| StepReconcile now offsets answer : reconcile_reviews digest template now offsets d = Ok (answer, d') -> demand_step d d'
| StepRepair item actor operation u : repair_label item actor operation d = Ok (u, d') -> demand_step d d'
| StepElse : tb_review_demand d' = tb_review_demand d -> demand_step d d'.

(** Review generations, over any sequence of transactions: a demand is never dropped, its
    generation and the generation that was handled never go back, and no generation is handled
    or owned before it was requested. *)
Theorem generations_advance d d' :
  rtc demand_step d d' -> demands_wf d -> demands_wf d' /\ later d d'.
Proof.
  intros Hs. enough (advances d d') as H by exact H. induction Hs as [d|d1 d2 d3 Hs _ IH]; [done|]. transitivity d2; [|exact IH].
  destruct Hs as [? ? ? ? ? ? ? H|? ? ? ? ? ? H|? ? ? H|? ? ? ? H|H].
  - by eapply request_advances.
  - by eapply settle_advances.
  - by eapply reconcile_advances.
  - by eapply repair_advances.
  - by apply advances_same.
Qed.

(** ** One round per appearance of the label *)










(** ** One owner per item *)

Lemma spent_owner d m owner :
  owner_spent d m owner = true ->
  a_status owner = Completed_ \/ a_status owner = Cancelled
    /\ forall j x, tb_execution d !! j = Some x -> x_assignment_id x = a_id owner -> x_stop_confirmed_at x <> None.
Proof.
  unfold owner_spent. destruct (a_status owner); try done; [by left|]. intros H. bools. right. split; [done|].
  intros j x Hx Ha Hn. pose proof (existsb_stored (R := execution) _ d j x H Hx) as Hu. unfold unconfirmed_of in Hu.
  rewrite bool_decide_true, Hn in Hu by done. done.
Qed.

(** One owner per item: an owner is queued only for a generation that nobody handled or owns;
    it is the only unfinished session under the item's key, and the demand names it.  The owner
    before it, if the demand had one in this run, has completed, or was cancelled and all its
    processes have confirmed their stop: never is a failed or a running owner replaced. *)
Theorem review_owner_alone r now raw d d' :
  review_item digest template r now raw d = Ok (Queued, d') ->
  (forall i f, tb_forge_item d !! i = Some f -> fi_id f = i) ->
  exists m row, tb_review_demand d' !! fi_id raw = Some m /\ dm_assignment_id m = Some (a_id row)
    /\ dm_owner_generation m = dm_generation m /\ dm_handled_generation m < dm_generation m
    /\ tb_assignment d' !! a_id row = Some row /\ a_status row = Pending
    /\ (forall j a, tb_assignment d' !! j = Some a -> a_recurrence_key a = Some (review_key (fi_id raw)) ->
          live_assignment a = true -> a_id a = a_id row)
    /\ (forall m0 a0 owner, tb_review_demand d !! fi_id raw = Some m0 -> dm_run_id m0 = r_id r -> dm_assignment_id m0 = Some a0 ->
          tb_assignment d !! a0 = Some owner ->
          a_status owner = Completed_ \/ a_status owner = Cancelled
            /\ forall j x, tb_execution d !! j = Some x -> x_assignment_id x = a_id owner -> x_stop_confirmed_at x <> None).
Proof.
  unfold review_item. intros H Hk. apply bind_Ok in H as (item & d0 & H0 & H).
  assert (fi_id item = fi_id raw /\ same_part (fun d => (tb_review_demand d, tb_assignment d, tb_execution d)) d d0) as [Hi E0].
  { destruct (present (fi_review_phase raw)); [by apply ret_Ok in H0 as [-> ->]|].
    apply change_Ok in H0 as (f & Hf & _ & -> & ->). split; [exact (Hk _ _ Hf)|reflexivity]. }
  injection E0 as M0 A0 X0. rewrite <- Hi. clear H0. apply bind_Ok in H as (found & d1 & Ho & H).
  destruct found as [m|]; [|by apply ret_Ok in H as [? _]]. apply observe_Ok in Ho as [E1 Hm].
  apply bind_Ok in H as (? & d2 & H2 & H).
  destruct (negb (unhandled m) || negb (item_open item)) eqn:Eh; [by apply ret_Ok in H as [? _]|]. bools.
  assert (d2 = d1) as ->.
  { unfold stop_owner, when in H2. rewrite (Eh : item_open item = true) in H2. cbn in H2.
    destruct (dm_assignment_id m); by apply ret_Ok in H2 as [_ ->]. }
  apply bind_Ok in H as (spent & ? & Hs & H). pose proof Hs as Hs'. apply read_only in Hs' as ->; [|frame].
  destruct spent; cbn [negb] in H; [|by apply ret_Ok in H as [? _]]. skip H. skip H.
  destruct (_ : option _) in H; [|by apply ret_Ok in H as [? _]].
  apply bind_Ok in H as (? & d3 & (row & E & Hrow & Hp & Hkey & Halone)%queue_owner_Ok & [_ ->]%ret_Ok).
  exists (owned_as m (a_id row) m), row. unfold unhandled in *. bools.
  rewrite E, lookup_alter_eq. subst d1. cbn [tb_review_demand]. cbn in Hs |- *. rewrite lookup_insert_eq. do 6 (split; [done|]). split.
  - intros j a Hj Ha Hl. specialize (Halone j a Hj). unfold same_recurrence in Halone.
    rewrite Hl, Ha, Hkey, (bool_decide_true (Some (review_key (fi_id item)) = _)), !andb_true_r in Halone by done. by bools.
  - intros m0 a0 owner Hm0 Hr Ha0 Hown. rewrite M0, Hm0 in Hm. subst m.
    assert (dm_assignment_id (observed digest r item now None false m0) = Some a0) as Ea.
    { unfold observed. rewrite bool_decide_true, andb_false_r by done. by destruct (renews _ _ _ _), (item_open item). }
    rewrite Ea in Hs. apply bind_Ok in Hs as (o & ? & [Ho2 ->]%get_Ok & [Hsp _]%ask_Ok). cbn in Ho2. rewrite A0, Hown in Ho2.
    injection Ho2 as <-. symmetry in Hsp. apply spent_owner in Hsp. cbn in Hsp. rewrite X0 in Hsp. exact Hsp.
Qed.
End properties.

(** ** Witnesses *)

Definition flat_digest (f : Fingerprint) : string := default ""%string (fg_head_commit_oid f).

(** Pull request 60 awaits a review in the only objective of its project. *)
Definition open_pull : forge_item :=
  closed_item <| fi_status := ItemOpen |> <| fi_labels := [AWAITING] |> <| fi_review_phase := Some PreprocessingKind |>
              <| fi_head_commit_oid := Some "c0ffee"%string |>.

Definition demand_db : DB :=
  objective_db <| tb_repository := {[31%positive := sample_repository <| rp_purpose := LibraryRepo |>]} |>
               <| tb_forge_item := {[60%positive := open_pull]} |>.

(** Generation 3 of its review is unhandled. *)
Definition sample_demand : review_demand :=
  {| dm_run_id := 5; dm_generation := 3; dm_fingerprint := "c0ffee"; dm_attention := true; dm_observed_label := false;
     dm_assignment_id := None; dm_handled_generation := 2; dm_owner_generation := 0; dm_note := None; dm_requested_at := 0 |}.

Lemma review_owner_alone_witness :
  exists d' m row, review_item flat_digest sample_template sample_objective 500 open_pull demand_db = Ok (Queued, d')
    /\ tb_review_demand d' !! 60%positive = Some m /\ dm_assignment_id m = Some (a_id row)
    /\ tb_assignment d' !! a_id row = Some row /\ a_status row = Pending.
Proof.
  destruct (review_item flat_digest sample_template sample_objective 500 open_pull demand_db) as [[step d']|e] eqn:E;
    [|vm_compute in E; discriminate E].
  assert (step = Queued) as -> by (vm_compute in E; by injection E as <- _).
  assert (forall i f, tb_forge_item demand_db !! i = Some f -> fi_id f = i) as Hk by (intros i f; cbn; by intros [<- <-]%lookup_singleton_Some).
  destruct (review_owner_alone flat_digest sample_template sample_objective 500 open_pull demand_db d' E Hk)
    as (m & row & Hm & Ha & _ & _ & Hrow & Hs & _).
  exists d', m, row. split; [reflexivity|]. split; [exact Hm|]. split; [exact Ha|]. split; [exact Hrow|exact Hs].
Defined.

Lemma label_follows_demand_witness :
  let d := demand_db <| tb_review_demand := {[60%positive := sample_demand]} |> in
  let item' := relabelled open_pull (label_projection d 60 (PLabel 60 [] [AWAITING] None (Some 2))) in
  AWAITING ∈ fi_labels item' /\ repair_label item' 1 50 d = Ok (tt, d).
Proof.
  intros d item'.
  destruct (label_follows_demand d open_pull sample_demand [] [AWAITING] None 2 1 50 eq_refl eq_refl) as (Hl & _ & Hr).
  split; [by apply Hl|exact Hr].
Defined.





Lemma generations_advance_witness :
  exists m d', settle_review admin 60 1 3 "Reviewed" (demand_db <| tb_review_demand := {[60%positive := sample_demand]} |>) = Ok (m, d')
    /\ demands_wf d' /\ later (demand_db <| tb_review_demand := {[60%positive := sample_demand]} |>) d'
    /\ (dm_handled_generation <$> tb_review_demand d' !! 60%positive) = Some 3.
Proof.
  destruct (settle_review admin 60 1 3 "Reviewed" (demand_db <| tb_review_demand := {[60%positive := sample_demand]} |>))
    as [[m d']|e] eqn:E; [|vm_compute in E; discriminate E].
  exists m, d'. split; [reflexivity|].
  destruct (generations_advance flat_digest sample_template (demand_db <| tb_review_demand := {[60%positive := sample_demand]} |>) d')
    as [Hw Hl].
  - apply rtc_once. eapply StepSettle. exact E.
  - intros i m'. cbn. intros [<- <-]%lookup_singleton_Some. split; [|split]; cbn; lia.
  - split; [exact Hw|]. split; [exact Hl|]. vm_compute in E. injection E as _ <-. reflexivity.
Defined.
