(* ===== verification/Launch.v ===== *)
(** * Launching an objective

    [launch] of src/archon_horizon/pipeline/execution/objectives.py and [Scheduler.run] of
    execution/scheduler.py for an objective, with [validate_launch_profile] and
    [matching_policy].  A launch resolves the roadmap, refuses a second owner, guards every
    provider account of its hosts, adds the advisory review policies, creates the run and queues
    its planner.

    The number of a run comes from an identity sequence of the database and is an argument, as
    are SHA-256, the templates and the hash of the frontier. *)

From S2P Require Import Prelude Contracts Conditions WorkerContracts Schema Records Auth Samples MissionTree Missions Ledger Usage Capacity Sessions Assignments Settlement Runs Workspaces Objectives Phases.

#[export] Instance review_policy_revisioned : Revisioned review_policy :=
  {| rev_ref r := stored Kreview_policy (rv_id r); rev_number := rv_revision;
     rev_content r d := CReviewPolicy r (related (rv_id r) (tb_review_policy_repository d))
                                        (related (rv_id r) (tb_review_policy_reviewer d)) |}.

(** ** Review policies *)

Definition covers (d : DB) (repository : uid) (k : phase_kind) (p : review_policy) : bool :=
  bool_decide ((rv_id p, repository) ∈ tb_review_policy_repository d) && rv_enabled p && mem k (rv_phases p).

Definition matching_policy (repository : uid) (k : phase_kind) (required : bool) : M (option review_policy) :=
  found ← ask (fun d => stored_rows (covers d repository k) d);
  refuse (1 <? List.length found)%nat "ambiguous_review_policy" 409 ;;
  refuse (required && bool_decide (List.length found = 0%nat)) "missing_review_policy" 409 ;;
  mret (head found).

(** ** A new run *)

Definition live_run (r : run) : bool := mem (r_status r) [RunActive; RunPaused; RunDraining; RunStopping].

Definition validate_launch_profile (data : RunCreate) : M unit :=
  refuse match rc_phase data with Some p => phase_orchestrated p | None => false end "retired_orchestrator" 422.

(** A launch whose mission, objective, phase, hosts and phases are resolved ([prepared]). *)
Record Prepared := {
  pr_data : RunCreate;
  pr_mission_id : uid;
  pr_objective_id : uid;
  pr_phase : RunPhase;
  pr_host_ids : list uid;
  pr_phases : list phase_kind }.

Definition snapshot_of (p : RunPhase) : option uid := match p with Formalization b _ => b | _ => None end.

Definition new_run (q : Prepared) (number : Z) (i : uid) (now : instant) : run :=
  {| r_id := i; r_created_at := now; r_updated_at := now; r_revision := 1; r_number := number; r_mission_id := pr_mission_id q;
     r_phase := pr_phase q; r_objective_id := Some (pr_objective_id q); r_orchestration := ObjectiveRun;
     r_queue_policies := rc_queue_policies (pr_data q); r_requested_phases := pr_phases q; r_phase_history := [];
     r_pending_phase := None; r_auto_advance := rc_auto_advance (pr_data q); r_adopted_roadmap_snapshot_id := snapshot_of (pr_phase q);
     r_status := RunActive; r_status_note := None; r_started_at := Some now; r_finished_at := None;
     r_max_assignments := rc_max_assignments (pr_data q); r_token_budget := rc_token_budget (pr_data q);
     r_expires_at := rc_expires_at (pr_data q); r_retry_policy := rc_retry_policy (pr_data q) |}.

(** The inputs of the first phase, and the roadmap they belong to. *)
Definition check_inputs (q : Prepared) (m : mission) : M (option document) :=
  let p := m_project_id m in
  match pr_phase q with
  | Preprocessing o _ =>
      doc ← (same_project Kdocument o p : M document);
      refuse (negb (bool_decide (d_kind doc = Roadmap))) "invalid_phase_input" 422 ;;
      _ ← matching_policy (d_source_repository_id doc) PreprocessingKind false;
      mret (Some doc)
  | Formalization (Some b) _ =>
      snap ← (same_project Kroadmap_snapshot b p : M roadmap_snapshot);
      require_baseline snap ;;
      doc ← (get (rs_roadmap_document_id snap) : M document);
      _ ← matching_policy (d_source_repository_id doc) FormalizationKind false;
      mret (Some doc)
  | Formalization None _ =>
      proj ← (get p : M project);
      refuse (negb (bool_decide (p_workflow proj = GraphFlow))) "baseline_required" 422 ;;
      doc ← (same_project Kdocument (pr_objective_id q) p : M document);
      refuse (negb (bool_decide (d_kind doc = Roadmap))) "invalid_objective" 422 ;;
      _ ← matching_policy (d_source_repository_id doc) FormalizationKind false;
      mret (Some doc)
  | Postprocessing w commit target _ =>
      ws ← (same_project Kworkspace w p : M workspace);
      repo ← (same_project Krepository target p : M repository);
      refuse (negb (bool_decide (w_status ws = WReady)) || negb (bool_decide (rp_purpose repo = LibraryRepo))) "invalid_phase_input" 422 ;;
      refuse (negb (bool_decide (w_head_commit_oid ws = Some commit) || bool_decide (w_base_commit_oid ws = commit)))
             "source_unverified" 422 ;;
      _ ← matching_policy (rp_id repo) PostprocessingKind false;
      mret None
  end.

Section launch.
Context (sha256 : string -> string) (digest : Frontier -> string) (hashtext : string -> Z) (array_text : list string -> string).
Context (template : string -> list (string * string) -> string) (config : Planner) (stale_seconds number : Z).

(** [run_host] rows of hosts that exist. *)
Definition enroll (run : uid) (hosts : list uid) : M unit :=
  known ← ask (fun d => forallb (fun h => present (tb_host d !! h)) hosts);
  if (known : bool) then modify (fun d => d <| tb_run_host := List.fold_right (fun h m => <[(run, h) := true]> m) (tb_run_host d) hosts |>)
  else throw (RuntimeFailure "run_host").

(** [Scheduler.run] of a prepared objective; it has no automations of its own. *)
Definition run_prepared (actor : Actor) (q : Prepared) : M run :=
  refuse (phase_orchestrated (pr_phase q)) "retired_orchestrator" 422 ;;
  m ← (get (pr_mission_id q) : M mission);
  require_project actor (m_project_id m) MaintainerGrant ;;
  refuse (negb (bool_decide (m_status m = MissionOpen))) "mission_closed" 409 ;;
  slots ← ask (fun d => capacity d stale_seconds (pr_host_ids q));
  refuse (bool_decide (List.length slots = 0%nat)) "insufficient_capacity" 409 ;;
  doc ← check_inputs q m;
  proj ← (get (m_project_id m) : M project);
  refuse match doc with
         | Some doc => bool_decide (p_workflow proj = MilestonesFlow) && negb (bool_decide (m_roadmap_document_id m = Some (d_id doc)))
         | None => false
         end "objective_mismatch" 422 ;;
  row ← create (new_run q number);
  check_objective row ;;
  enroll (r_id row) (pr_host_ids q) ;;
  _ ← emit (Some (actor_id actor)) (Some (m_project_id m)) (run_subject row) ["phase"; "status"] None None None;
  mret row.

(** ** Resolving a launch *)

Definition objective_of (data : RunCreate) : M uid :=
  linked ← match rc_objective_id data, rc_mission_id data with
           | Some o, _ => mret (Some o)
           | None, Some i => m ← (get i : M mission); mret (m_roadmap_document_id m)
           | None, None => mret None
           end;
  match linked, rc_phase data with
  | Some o, _ => mret o
  | None, Some (Preprocessing o _) => mret o
  | None, _ => throw (DomainError "objective_required" 422)
  end.

Definition owns_objective (o : uid) (r : run) : bool :=
  bool_decide (r_objective_id r = Some o) && is_objective r && live_run r.

Definition phase_document (p : RunPhase) : option uid := match p with Preprocessing o _ => Some o | _ => None end.

(** A live legacy run of the same roadmap. *)
Definition legacy_owner (d : DB) (o : uid) (r : run) : bool :=
  match tb_mission d !! r_mission_id r with
  | None => false
  | Some m =>
      bool_decide (r_orchestration r = LegacyRun) && live_run r
      && (bool_decide (m_roadmap_document_id m = Some o) || bool_decide (phase_document (r_phase r) = Some o)
          || match (b ← r_adopted_roadmap_snapshot_id r; tb_roadmap_snapshot d !! b) with
             | Some snap => bool_decide (rs_roadmap_document_id snap = o)
             | None => false
             end)
  end.

Definition root_mission (actor : Actor) (data : RunCreate) (o : uid) (doc : document) : M uid :=
  match rc_mission_id data with
  | Some i => mret i
  | None =>
      parsed ← parse_mission {|
        mc_project_id := d_project_id doc; mc_parent_id := None; mc_expected_parent_revision := None;
        mc_roadmap_document_id := Some o; mc_title := d_title doc; mc_objective := template "objective/root-mission" [];
        mc_acceptance_criteria := [template "objective/root-acceptance" []]; mc_delegation_note := None; mc_scope := None;
        mc_max_open_children := 128; mc_node_ids := []; mc_document_ids := [] |};
      m ← create_mission actor parsed;
      mret (m_id m)
  end.

(** The hosts of the launch: the given ones, or every enabled host. *)
Definition launch_hosts (data : RunCreate) (d : DB) : list uid :=
  match rc_host_ids data with
  | [] => sort_by Pos.leb (map h_id (stored_rows (fun h => bool_decide (h_mode h = HostEnabled)) d))
  | hosts => hosts
  end.

(** ** Provider accounts *)

Definition account_linked (d : DB) (h k : uid) (l : resource_limit) : bool :=
  bool_decide (rl_kind l = ProviderAccount) && bool_decide ((h, k, rl_id l) ∈ tb_host_harness_limit d).

Definition account_slug (reference : string) : string := ("objective-" +:+ String.substring 0 24 (sha256 reference))%string.

Definition named_account (slug : string) (l : resource_limit) : bool :=
  bool_decide (rl_kind l = ProviderAccount) && bool_decide (rl_slug l = slug).

Definition new_account (slug : string) (i : uid) (now : instant) : resource_limit :=
  {| rl_id := i; rl_created_at := now; rl_updated_at := now; rl_revision := 1; rl_kind := ProviderAccount; rl_slug := slug;
     rl_max_concurrent := None; rl_cooldown_until := None; rl_failure_count := 0; rl_circuit_open := false; rl_circuit_reason := None |}.

(** A slot without a provider account shares one with the slots of its credential. *)
Definition guard_slot (slot : uid * uid * host_harness) : M unit :=
  let '(h, k, row) := slot in
  d ← ask id;
  linked ← any (account_linked d h k);
  if (linked : bool) then mret tt
  else
    let slug := account_slug (hx_credential_ref row) in
    found ← select (named_account slug);
    account ← match found with
              | l :: _ => mret l
              | [] => create (new_account slug)
              end;
    modify (fun d => d <| tb_host_harness_limit := {[(h, k, rl_id account)]} ∪ tb_host_harness_limit d |>).

Definition launch_slots (hosts : list uid) (d : DB) : list (uid * uid * host_harness) :=
  List.filter (fun s => mem s.1.1 hosts && hx_enabled s.2) (map_to_list (tb_host_harness d)).

(** ** Phases and their review policies *)

Definition library_of (project : uid) (r : repository) : bool :=
  bool_decide (rp_project_id r = project) && bool_decide (rp_purpose r = LibraryRepo).

(** The requested phases: the given ones, the given phase alone, or all that the project can do. *)
Definition launch_phases (data : RunCreate) (p : RunPhase) (project : uid) : M (list phase_kind) :=
  match rc_requested_phases data, rc_phase data with
  | (_ :: _) as given, _ => mret given
  | [], Some _ => mret [phase_kind_of p]
  | [], None =>
      library ← any (library_of project);
      mret ([phase_kind_of p; FormalizationKind] ++ if (library : bool) then [PostprocessingKind] else [])
  end.

Definition protected_of (project : uid) (r : repository) : bool :=
  bool_decide (rp_project_id r = project) && mem (rp_purpose r) [KnowledgeRepo; LibraryRepo] && negb (present (rp_archived_at r)).

Definition kind_str (k : phase_kind) : string :=
  match k with PreprocessingKind => "preprocessing" | FormalizationKind => "formalization" | PostprocessingKind => "postprocessing" end.

Definition policy_slug (o : uid) (k : phase_kind) (repository : uid) : string :=
  ("objective-" +:+ String.substring 0 8 (uuid_str o) +:+ "-" +:+ kind_str k +:+ "-" +:+ String.substring 0 8 (uuid_str repository))%string.

Definition new_policy (project : uid) (slug : string) (k : phase_kind) (i : uid) (now : instant) : review_policy :=
  {| rv_id := i; rv_created_at := now; rv_updated_at := now; rv_revision := 1; rv_project_id := project; rv_slug := slug;
     rv_specialist_mode := SpecialistAdvisory; rv_maintainer_identity_id := None; rv_phases := [k];
     rv_instructions := template "objective/review-policy" []; rv_required_checks := []; rv_attention_labels := ["awaiting-review"];
     rv_enabled := true |}.

(** The constraint on [project_id, slug]. *)
Definition same_slug (project : uid) (slug : string) (p : review_policy) : bool :=
  bool_decide (rv_project_id p = project) && bool_decide (rv_slug p = slug).

Definition ensure_policy (actor : Actor) (project o repository : uid) (k : phase_kind) : M unit :=
  found ← matching_policy repository k false;
  if present found then mret tt
  else
    let slug := policy_slug o k repository in
    clash ← any (same_slug project slug);
    if (clash : bool) then throw (RuntimeFailure "review_policy")
    else
      row ← create (new_policy project slug k);
      modify (fun d => d <| tb_review_policy_repository := {[(rv_id row, repository)]} ∪ tb_review_policy_repository d |>) ;;
      _ ← snapshot row (actor_id actor);
      mret tt.

(** ** The launch *)

Definition planner_automation (run mission : uid) (seen : string) (i : uid) (now : instant) : automation :=
  {| au_id := i; au_created_at := now; au_updated_at := now; au_revision := 1; au_run_id := run; au_name := PLANNER;
     au_mission_id := mission; au_frontier_hash := Some seen; au_pause_reason := None; au_role := Worker;
     au_functions := ["planner"]; au_instructions := None; au_enabled := true; au_start_condition := None; au_not_before := None;
     au_cooldown_seconds := planner_min_interval_seconds config; au_no_progress_count := 0 |}.

(** A baseline that is given with the launch belongs to the same roadmap. *)
Definition check_baseline (data : RunCreate) (o project : uid) : M unit :=
  match rc_phase data with
  | Some (Formalization (Some b) _) =>
      snap ← (same_project Kroadmap_snapshot b project : M roadmap_snapshot);
      refuse (negb (bool_decide (rs_roadmap_document_id snap = o))) "objective_mismatch" 422
  | _ => mret tt
  end.

(** The checks of [launch] up to the mission: the roadmap has no owner. *)
Definition check_launch (actor : Actor) (data : RunCreate) : M (uid * document) :=
  o ← objective_of data;
  doc ← (get o : M document);
  require_project actor (d_project_id doc) MaintainerGrant ;;
  refuse (negb (bool_decide (d_kind doc = Roadmap))) "invalid_objective" 422 ;;
  owned ← any (owns_objective o);
  refuse owned "objective_already_active" 409 ;;
  d ← ask id;
  legacy ← any (legacy_owner d o);
  refuse legacy "legacy_objective_active" 409 ;;
  mret (o, doc).

(** Mission, hosts and phases of the launch, with the guards of its accounts. *)
Definition prepare (actor : Actor) (data : RunCreate) (o : uid) (doc : document) : M Prepared :=
  mission_id ← root_mission actor data o doc;
  root ← (same_project Kmission mission_id (d_project_id doc) : M mission);
  refuse (present (m_roadmap_document_id root) && negb (bool_decide (m_roadmap_document_id root = Some o))) "objective_mismatch" 422 ;;
  check_baseline data o (d_project_id doc) ;;
  hosts ← ask (launch_hosts data);
  slots ← ask (launch_slots hosts);
  for_each guard_slot slots ;;
  let phase := default (Preprocessing o false) (rc_phase data) in
  refuse match phase with Preprocessing x _ => negb (bool_decide (x = o)) | _ => false end "objective_mismatch" 422 ;;
  phases ← launch_phases data phase (d_project_id doc);
  refuse (negb (bool_decide (head phases = Some (phase_kind_of phase)))) "phase_order" 422 ;;
  mret {| pr_data := data; pr_mission_id := mission_id; pr_objective_id := o; pr_phase := phase; pr_host_ids := hosts;
          pr_phases := phases |}.

Definition launch (actor : Actor) (data : RunCreate) : M run :=
  validate_launch_profile data ;;
  '(o, doc) ← check_launch actor data;
  q ← prepare actor data o doc;
  targets ← select (protected_of (d_project_id doc));
  for_each (fun t => for_each (ensure_policy actor (d_project_id doc) o (rp_id t)) (pr_phases q)) targets ;;
  row ← run_prepared actor q;
  seen ← frontier digest hashtext array_text row;
  au ← create (planner_automation (r_id row) (pr_mission_id q) seen);
  _ ← snapshot au (actor_id actor);
  _ ← ensure_successor template row au;
  get (r_id row).
End launch.

(** ** What a launch leaves alone *)

Lemma keeps_matching_policy R `{!PreOrder R} i k b : Keeps R (matching_policy i k b).
Proof. unfold matching_policy. frame. Qed.
#[export] Hint Resolve keeps_matching_policy : frame.

Lemma keeps_check_inputs R `{!PreOrder R} q m : Keeps R (check_inputs q m).
Proof. unfold check_inputs, require_baseline. frame. Qed.
#[export] Hint Resolve keeps_check_inputs : frame.

Lemma keeps_check_objective R `{!PreOrder R} r : Keeps R (check_objective r).
Proof. unfold check_objective. frame. Qed.
#[export] Hint Resolve keeps_check_objective : frame.

Section launch_frames.
Context (sha256 : string -> string) (digest : Frontier -> string) (hashtext : string -> Z) (array_text : list string -> string).
Context (template : string -> list (string * string) -> string) (config : Planner) (stale_seconds number : Z).

(** Runs, their sessions and their hosts. *)
Definition runs_part (d : DB) := (tb_run d, tb_assignment d, tb_host_harness d, tb_host d, db_now d).

Lemma prepare_frame actor data o doc : Keeps (grows runs_part) (prepare sha256 template actor data o doc).
Proof. unfold prepare, root_mission, parse_mission, check_baseline, guard_slot, launch_phases. frame. Qed.

Lemma ensure_policy_frame actor p o t k : Keeps (grows (fun d => (runs_part d, tb_host_harness_limit d, tb_resource_limit d)))
  (ensure_policy template actor p o t k).
Proof. unfold ensure_policy. frame. Qed.

Lemma check_launch_reads actor data d x d' : check_launch actor data d = Ok (x, d') -> d' = d.
Proof. apply read_only. unfold check_launch, objective_of. frame. Qed.

Lemma check_launch_free actor data d o doc d' :
  check_launch actor data d = Ok ((o, doc), d') ->
  tb_document d !! o = Some doc
  /\ forall i r, tb_run d !! i = Some r -> owns_objective o r = false /\ legacy_owner d o r = false.
Proof.
  unfold check_launch, objective_of. intros H. skip H. apply bind_Ok in H as (doc' & ? & [Hdoc ->]%get_Ok & H). skip H. skip H.
  apply bind_Ok in H as (owned & ? & [-> Ho]%any_Ok & H). apply bind_Ok in H as (? & ? & [Eo ->]%refuse_Ok & H).
  apply bind_Ok in H as (? & ? & [-> ->]%ask_Ok & H). cbn [id] in H.
  apply bind_Ok in H as (legacy & ? & [-> Hl]%any_Ok & H). apply bind_Ok in H as (? & ? & [El ->]%refuse_Ok & H).
  apply ret_Ok in H as [[= -> ->] _]. split; [exact Hdoc|]. intros i r Hr. split.
  - apply not_true_is_false. intros E. assert (owned = true) by (apply Ho; eauto). congruence.
  - apply not_true_is_false. intros E. assert (legacy = true) by (apply Hl; eauto). congruence.
Qed.

Lemma prepare_spec actor data o doc d q d' :
  prepare sha256 template actor data o doc d = Ok (q, d') ->
  pr_data q = data /\ pr_objective_id q = o /\ head (pr_phases q) = Some (phase_kind_of (pr_phase q))
  /\ (unique (rc_requested_phases data) = true -> NoDup (pr_phases q)).
Proof.
  unfold prepare. intros H. do 5 (apply bind_Ok in H as (? & ? & _ & H)). apply bind_Ok in H as (? & ? & _ & H).
  apply bind_Ok in H as (? & ? & _ & H). apply bind_Ok in H as (? & ? & [Hm ->]%refuse_Ok & H).
  apply bind_Ok in H as (phases & d1 & Hp & H). apply bind_Ok in H as (? & ? & [Hh ->]%refuse_Ok & H).
  apply ret_Ok in H as [-> ->]. cbn. split; [done|]. split; [done|]. bools. split; [done|]. intros Hu. unfold launch_phases in Hp.
  destruct (rc_requested_phases data) as [|k ks] eqn:Ek.
  - destruct (rc_phase data) as [ph|] eqn:Eph.
    + apply ret_Ok in Hp as [-> _]. apply NoDup_singleton.
    + apply bind_Ok in Hp as (b & ? & _ & Hp). apply ret_Ok in Hp as [-> _]. cbn. apply (bool_decide_unpack _). by destruct b.
  - apply ret_Ok in Hp as [-> _]. by apply unique_true.
Qed.

Lemma run_prepared_spec actor q d row d' :
  run_prepared stale_seconds number actor q d = Ok (row, d') ->
  row = new_run q number (r_id row) (db_now d) /\ (db_next d <= r_id row < db_next d')%positive
  /\ tb_run d' = <[r_id row := row]> (tb_run d)
  /\ (forall i r, tb_run d' !! i = Some r -> same_objective row r = false)
  /\ capacity d stale_seconds (pr_host_ids q) <> []
  /\ tb_assignment d' = tb_assignment d /\ db_now d' = db_now d /\ tb_host_harness_limit d' = tb_host_harness_limit d
  /\ tb_resource_limit d' = tb_resource_limit d.
Proof.
  unfold run_prepared. intros H. do 4 skip H. apply bind_Ok in H as (slots & ? & [-> ->]%ask_Ok & H).
  apply bind_Ok in H as (? & ? & [Hs ->]%refuse_Ok & H). do 3 skip H.
  apply bind_Ok in H as (r & d1 & E & H). injection E as Er Ed.
  apply bind_Ok in H as (? & d2 & Hc & H). unfold check_objective in Hc. apply bind_Ok in Hc as (clash & ? & [-> Hc]%any_Ok & Hc').
  assert (clash = false /\ d2 = d1) as [-> ->].
  { subst r. cbn in Hc'. rewrite andb_true_r in Hc'. destruct clash; [discriminate Hc'|]. by apply ret_Ok in Hc' as [_ ->]. }
  apply bind_Ok in H as (? & d3 & E3 & H). unfold enroll in E3.
  grown (fun d => (tb_run d, tb_assignment d, db_now d, tb_host_harness_limit d, tb_resource_limit d)) E3.
  apply bind_Ok in H as (? & d4 & E4 & H). grown (fun d => (tb_run d, tb_assignment d, db_now d, tb_host_harness_limit d, tb_resource_limit d)) E4.
  apply ret_Ok in H as [-> ->]. destruct E3 as [E3 N3], E4 as [E4 N4]. injection E3 as R3 A3 T3 L3 M3. injection E4 as R4 A4 T4 L4 M4.
  subst r d1. cbn in *. split; [done|]. split; [lia|]. split; [congruence|]. split.
  - intros i r Hr. apply not_true_is_false. intros Es. assert (false = true); [|done]. apply Hc. exists i, r. split; [|done]. congruence.
  - split; [|repeat split; congruence]. intros E. by rewrite E, bool_decide_eq_true_2 in Hs.
Qed.

(** A pending session of the category [work]. *)
Definition queued_work (run : uid) (a : assignment) : bool :=
  bool_decide (a_run_id a = run) && bool_decide (a_category a = Some "work"%string) && bool_decide (a_status a = Pending).

Lemma planner_enqueue_accepted r au d o d' :
  unless_refused "queue_full" (validate_enqueue r (planner_session r au)) d = Ok (o, d') ->
  (forall q, policy r "work" = Ok (Some q) -> Z.of_nat (List.length (stored_rows (queued_work (r_id r)) d)) < qp_max_pending q) ->
  d' = d /\ exists x, o = Some x.
Proof.
  intros H Hq. split; [by eapply read_only in H; [|frame]|]. unfold unless_refused, validate_enqueue in H. cbn [planner_session ac_category ac_role category_or] in H.
  rewrite bool_decide_eq_false_2 in H by done. unfold mbind, M_bind, lift at 1 in H.
  destruct (policy r "work") as [[q|]|e] eqn:Ep; cbn in H.
  - unfold refuse at 1 in H. destruct (negb _); [discriminate H|]. unfold count, ask in H. specialize (Hq q eq_refl).
    unfold refuse in H. destruct (_ <=? _) eqn:E in H; [|injection H as <- _; eauto].
    apply Z.leb_le in E. unfold stored_rows, queued_work in Hq. cbn in E, Hq. lia.
  - injection H as <- _. eauto.
  - unfold policy in Ep. destruct (bool_decide _); [|done]. destruct (r_queue_policies r !! "work"%string); [done|].
    injection Ep as <-. discriminate H.
Qed.

(** An assignment is created pending. *)
(** The planner of an active run is queued unless its category is full. *)
Lemma ensure_successor_queued r au d o d' :
  ensure_successor template r au d = Ok (o, d') -> r_status r = RunActive ->
  (forall q, policy r "work" = Ok (Some q) -> Z.of_nat (List.length (stored_rows (queued_work (r_id r)) d)) < qp_max_pending q) ->
  exists i a, tb_assignment d' !! i = Some a /\ keyed (next_key (r_id r)) a = true.
Proof.
  intros H Hr Hq. unfold ensure_successor in H. rewrite Hr, bool_decide_eq_true_2 in H by done. cbn [negb] in H.
  apply bind_Ok in H as (found & ? & [Hf ->]%select_Ok & H). destruct found as [|a found].
  2: { apply ret_Ok in H as [_ ->]. assert (a ∈ a :: found) as Ha by left. rewrite Hf in Ha.
       apply (elem_of_select (R := assignment)) in Ha as [Hk [i Hi]]. by exists i, a. }
  apply bind_Ok in H as (data & d1 & Hd & H). unfold parse_assignment in Hd. skip Hd. apply ret_Ok in Hd as [-> ->].
  apply bind_Ok in H as (acc & d1 & Ha & H). destruct (planner_enqueue_accepted _ _ _ _ _ Ha Hq) as [-> [x ->]].
  apply bind_Ok in H as (m & d2 & _ & H). apply bind_Ok in H as (actor & d3 & _ & H).
  apply bind_Ok in H as (row & d4 & Hrow & H). apply bind_Ok in H as (row' & d5 & (a & Ha' & _ & -> & ->)%change_assignment_Ok & H).
  apply ret_Ok in H as [-> ->]. eexists (a_id row), _. cbn. rewrite lookup_insert_eq. split; [done|].
  unfold keyed. cbn. rewrite bool_decide_eq_true_2 by done. cbn.
  unfold live_assignment. cbn. apply create_assignment_row in Hrow as (Hb & Hs & _). rewrite Hb in Ha'. injection Ha' as <-. by rewrite Hs.
Qed.

(** ** Guarded accounts *)

(** The slot is attached to a provider account. *)
Definition guarded (d : DB) (h k : uid) : Prop :=
  exists i l, tb_resource_limit d !! i = Some l /\ account_linked d h k l = true.

Definition fresh_limits (d : DB) : Prop := forall i, is_Some (tb_resource_limit d !! i) -> (i < db_next d)%positive.

(** Limits and their attachments are only added. *)
Definition guards (d d' : DB) : Prop :=
  fresh_limits d -> fresh_limits d' /\ tb_resource_limit d ⊆ tb_resource_limit d' /\ tb_host_harness_limit d ⊆ tb_host_harness_limit d'.

Instance guards_preorder : PreOrder guards.
Proof.
  split; [done|]. intros d1 d2 d3 H1 H2 F1. destruct (H1 F1) as (F2 & L1 & K1). destruct (H2 F2) as (F3 & L2 & K2).
  split; [done|]. split; [by etrans|set_solver].
Qed.

Lemma guarded_mono d d' h k : guards d d' -> fresh_limits d -> guarded d h k -> guarded d' h k.
Proof.
  intros Hg F (i & l & Hl & Ha). destruct (Hg F) as (_ & L & K). exists i, l. split; [by eapply lookup_weaken|].
  unfold account_linked in *. bools. apply andb_true_iff. split; [by apply bool_decide_eq_true_2|]. apply bool_decide_eq_true_2. set_solver.
Qed.

Lemma guards_same d d' :
  grows (fun d => (tb_resource_limit d, tb_host_harness_limit d)) d d' -> guards d d'.
Proof.
  intros [E N] F. injection E as L K. unfold fresh_limits. rewrite L, K. split; [|done]. intros i Hi%F. lia.
Qed.

Lemma guard_slot_spec h k row d u d' :
  guard_slot sha256 (h, k, row) d = Ok (u, d') -> guards d d' /\ (fresh_limits d -> guarded d' h k).
Proof.
  unfold guard_slot. intros H. apply bind_Ok in H as (? & ? & [-> ->]%ask_Ok & H). cbn [id] in H.
  apply bind_Ok in H as (linked & ? & [-> Hl]%any_Ok & H). destruct linked.
  { apply ret_Ok in H as [_ ->]. split; [done|]. intros _. destruct Hl as [Hl _]. destruct (Hl eq_refl) as (i & l & Hi & Ha). by exists i, l. }
  apply bind_Ok in H as (found & ? & [Hf ->]%select_Ok & H). apply bind_Ok in H as (l & d1 & H1 & H). apply modify_Ok in H as ->.
  assert (guards d d1 /\ (fresh_limits d -> rl_kind l = ProviderAccount /\ exists i, tb_resource_limit d1 !! i = Some l)) as [G1 Hacc].
  { destruct found as [|x found].
    - injection H1 as <- <-. split.
      + intros F. split; [|split; [|done]].
        * intros i. cbn. rewrite lookup_insert_is_Some'. intros [->|Hi%F]; lia.
        * cbn. apply insert_subseteq, eq_None_not_Some. intros Hi%F. lia.
      + intros _. split; [done|]. exists (db_next d). cbn. apply lookup_insert_eq.
    - apply ret_Ok in H1 as [-> ->]. split; [done|]. intros _. assert (x ∈ x :: found) as Hx by left. rewrite Hf in Hx.
      apply (elem_of_select (R := resource_limit)) in Hx as [Hx [i Hi]]. unfold named_account in Hx. bools. eauto. }
  split.
  - etrans; [exact G1|]. intros F. split; [exact F|]. split; [done|]. cbn. set_solver.
  - intros F. destruct (Hacc F) as [Hk [i Hi]]. exists i, l. split; [exact Hi|]. unfold account_linked.
    rewrite (bool_decide_eq_true_2 (rl_kind l = ProviderAccount)), bool_decide_eq_true_2; [done|cbn; set_solver|done].
Qed.

Lemma guard_slots_spec slots d u d' :
  for_each (guard_slot sha256) slots d = Ok (u, d') ->
  guards d d' /\ (fresh_limits d -> forall h k row, (h, k, row) ∈ slots -> guarded d' h k).
Proof.
  revert d. induction slots as [|[[h k] row] slots IH]; intros d H; cbn [for_each] in H.
  - apply ret_Ok in H as [_ ->]. split; [done|]. intros _ h k row ?%elem_of_nil. done.
  - apply bind_Ok in H as (? & d1 & [G1 H1]%guard_slot_spec & H). destruct (IH d1 H) as [G2 H2]. split; [by etrans|].
    intros F h' k' row'. destruct (G1 F) as (F1 & _). intros [E|Hin]%elem_of_cons; [|by eapply H2].
    injection E as -> -> ->. eapply guarded_mono; [exact G2|exact F1|]. by apply H1.
Qed.

Lemma prepare_guards actor data o doc d q d' :
  prepare sha256 template actor data o doc d = Ok (q, d') ->
  guards d d' /\ pr_host_ids q = launch_hosts data d
  /\ (fresh_limits d -> forall h k row, tb_host_harness d !! (h, k) = Some row -> hx_enabled row = true ->
        h ∈ launch_hosts data d -> guarded d' h k).
Proof.
  unfold prepare. intros H. apply bind_Ok in H as (mi & d1 & E1 & H). unfold root_mission, parse_mission in E1.
  grown (fun d => (tb_host d, tb_host_harness d, tb_resource_limit d, tb_host_harness_limit d)) E1.
  unfold check_baseline in H. do 3 skip H.
  apply bind_Ok in H as (hosts & ? & [-> ->]%ask_Ok & H). apply bind_Ok in H as (slots & ? & [-> ->]%ask_Ok & H).
  apply bind_Ok in H as (? & d2 & [G2 HG2]%guard_slots_spec & H).
  apply bind_Ok in H as (? & ? & [_ ->]%refuse_Ok & H). apply bind_Ok in H as (ph & d3 & E3 & H). unfold launch_phases in E3.
  assert (d3 = d2) as -> by (eapply read_only; [|exact E3]; frame). apply bind_Ok in H as (? & ? & [_ ->]%refuse_Ok & H).
  apply ret_Ok in H as [-> ->]. destruct E1 as [E1 N1]. injection E1 as HH HX L K.
  assert (guards d d1) as G1. { apply guards_same. split; [|done]. congruence. }
  assert (launch_hosts data d1 = launch_hosts data d) as Eh by (unfold launch_hosts, stored_rows; cbn; by rewrite HH).
  split; [by etrans|]. split; [exact Eh|]. intros F h k row Hrow He Hh. destruct (G1 F) as (F1 & _). apply (HG2 F1 h k row).
  unfold launch_slots. rewrite Eh, HX. apply list_elem_of_In, filter_In. split; [by apply list_elem_of_In, elem_of_map_to_list|].
  cbn. rewrite He, andb_true_r. by apply mem_true.
Qed.

Abbreviation launch := (launch sha256 digest hashtext array_text template config stale_seconds number).

(** ** Properties *)

(** Runs are stored under their identifiers, and assignments name stored runs. *)
Record launch_wf (d : DB) : Prop := {
  lw_run i r : tb_run d !! i = Some r -> r_id r = i /\ (i < db_next d)%positive;
  lw_assignment i a : tb_assignment d !! i = Some a -> is_Some (tb_run d !! a_run_id a);
  lw_limits : fresh_limits d }.

(** A roadmap has at most one objective that is not settled. *)
Definition sole_owner (d : DB) : Prop :=
  forall i j r s o, tb_run d !! i = Some r -> tb_run d !! j = Some s ->
    owns_objective o r = true -> owns_objective o s = true -> i = j.

(** What a launch has done. *)
Record launched (actor : Actor) (data : RunCreate) (d : DB) (row : run) (d' : DB) (o : uid) (q : Prepared) : Prop := {
  ln_free i r : tb_run d !! i = Some r -> owns_objective o r = false /\ legacy_owner d o r = false;
  ln_row : row = new_run q number (r_id row) (db_now d);
  ln_data : pr_data q = data /\ pr_objective_id q = o;
  ln_head : head (pr_phases q) = Some (phase_kind_of (pr_phase q));
  ln_unique : unique (rc_requested_phases data) = true -> NoDup (pr_phases q);
  ln_new : (db_next d <= r_id row)%positive;
  ln_runs : tb_run d' = <[r_id row := row]> (tb_run d);
  ln_sole i r : tb_run d !! i = Some r -> i <> r_id row -> same_objective row r = false;
  ln_guards : fresh_limits d -> forall h k x, tb_host_harness d !! (h, k) = Some x -> hx_enabled x = true ->
    h ∈ launch_hosts data d -> guarded d' h k;
  ln_planner : launch_wf d -> run_create_valid data = true ->
    exists i a, tb_assignment d' !! i = Some a /\ keyed (next_key (r_id row)) a = true }.

Lemma work_capacity data q p :
  run_create_valid data = true -> pr_data q = data -> rc_queue_policies data !! "work"%string = Some p -> 0 < qp_max_pending p.
Proof.
  intros Hv _ Hp. unfold run_create_valid in Hv. bools.
  match goal with Hm : map_Forall _ _ |- _ => specialize (Hm _ _ Hp); cbn in Hm end.
  match goal with Hm : Is_true _ |- _ => apply Is_true_true in Hm end. unfold queue_policy_valid in *. bools. unfold positive_valid in *. by bools.
Qed.

Lemma launched_spec actor data d row d' :
  launch actor data d = Ok (row, d') -> exists o q, launched actor data d row d' o q.
Proof.
  unfold Launch.launch. intros H. apply bind_Ok in H as (? & ? & [_ ->]%refuse_Ok & H).
  apply bind_Ok in H as ([o doc] & d1 & H1 & H). pose proof (check_launch_reads _ _ _ _ _ H1) as ->.
  pose proof (check_launch_free _ _ _ _ _ _ H1) as [Hdoc Hfree].
  apply bind_Ok in H as (q & d2 & H2 & H). pose proof (prepare_spec _ _ _ _ _ _ _ H2) as (Ed & Eo & Hh & Hu).
  pose proof (prepare_guards _ _ _ _ _ _ _ H2) as (G2 & _ & Hg). apply prepare_frame in H2 as [E2 N2].
  injection E2 as R2 A2 X2 HH2 T2. skip H. apply bind_Ok in H as (? & d3 & E3 & H).
  assert (Keeps (grows (fun d => (runs_part d, tb_host_harness_limit d, tb_resource_limit d)))
    (for_each (fun t => for_each (ensure_policy template actor (d_project_id doc) o (rp_id t)) (pr_phases q)) H0)) as K3.
  { pose proof ensure_policy_frame. frame. }
  apply K3 in E3 as [E3 N3]. injection E3 as R3 A3 X3 HH3 T3 K3' L3.
  apply bind_Ok in H as (r & d4 & H4 & H). destruct (run_prepared_spec _ _ _ _ _ H4) as (Er & [Nr Nr'] & R4 & Hs & _ & A4 & T4 & K4 & L4).
  unfold frontier in H. skip H. apply bind_Ok in H as (au & d5 & E5 & H). grown (fun d => (tb_run d, tb_assignment d, tb_resource_limit d, tb_host_harness_limit d)) E5.
  apply bind_Ok in H as (? & d6 & E6 & H). grown (fun d => (tb_run d, tb_assignment d, tb_resource_limit d, tb_host_harness_limit d)) E6.
  apply bind_Ok in H as (pl & d7 & H7 & H). apply get_Ok in H as [Hrow ->].
  destruct E5 as [E5 N5], E6 as [E6 N6]. injection E5 as R5 A5 L5 K5. injection E6 as R6 A6 L6 K6.
  assert (Keeps (grows (fun d => (tb_run d, tb_resource_limit d, tb_host_harness_limit d))) (ensure_successor template r au)) as K7.
  { unfold ensure_successor, child_mission, parse_mission, system_actor. frame. }
  pose proof H7 as H7'. apply K7 in H7' as [E7 N7]. injection E7 as R7 L7 K7'.
  assert (tb_run d7 = <[r_id r := r]> (tb_run d)) as R by congruence.
  cbn in Hrow. rewrite R, lookup_insert_eq in Hrow. injection Hrow as <-.
  exists o, q. split; try done.
  - congruence.
  - lia.
  - intros i s Hi Hne. apply (Hs i). rewrite R4, R3, R2. by rewrite lookup_insert_ne.
  - intros F h k y Hy He Hhost. specialize (Hg F h k y Hy He Hhost). destruct (G2 F) as (F2 & _).
    eapply guarded_mono; [|exact F2|exact Hg]. apply guards_same. split; [congruence|lia].
  - intros Wf Hv. eapply ensure_successor_queued; [exact H7|by rewrite Er|]. intros p Hp.
    assert (stored_rows (queued_work (r_id r)) d6 = []) as ->.
    { destruct (stored_rows _ _) as [|a l] eqn:El; [done|]. exfalso. assert (a ∈ a :: l) as Ha by left. rewrite <- El in Ha.
      apply elem_of_stored in Ha as [Ha [i Hi]]. unfold queued_work in Ha. bools. cbn in Hi.
      assert (is_Some (tb_run d !! a_run_id a)) as [s Hs'] by (eapply (lw_assignment _ Wf i); congruence).
      destruct (lw_run _ Wf _ _ Hs') as [_ Hn]. lia. }
    cbn. eapply (work_capacity data q p Hv Ed). unfold policy in Hp. rewrite Er in Hp. cbn in Hp. rewrite Ed in Hp.
    by destruct (rc_queue_policies data !! "work"%string); [injection Hp as ->|].
Qed.

(** An objective is launched once: after a launch every roadmap still has at most one objective
    that is not settled.  The new run is stored active, for a roadmap that no objective and no
    legacy run was working on, and its planner is queued. *)
Theorem launch_sole_owner actor data d row d' :
  launch actor data d = Ok (row, d') -> launch_wf d -> run_create_valid data = true -> sole_owner d ->
  sole_owner d' /\ tb_run d !! r_id row = None /\ tb_run d' = <[r_id row := row]> (tb_run d)
  /\ r_status row = RunActive /\ is_objective row = true
  /\ (exists o, r_objective_id row = Some o
       /\ forall i r, tb_run d !! i = Some r -> owns_objective o r = false /\ legacy_owner d o r = false)
  /\ exists i a, tb_assignment d' !! i = Some a /\ keyed (next_key (r_id row)) a = true.
Proof.
  intros (o & q & H)%launched_spec Wf Hv Hs. pose proof (ln_row _ _ _ _ _ _ _ H) as Er. pose proof (ln_runs _ _ _ _ _ _ _ H) as R.
  destruct (ln_data _ _ _ _ _ _ _ H) as [_ Eo].
  assert (tb_run d !! r_id row = None) as Hn.
  { apply eq_None_not_Some. intros [r Hr]. destruct (lw_run _ Wf _ _ Hr). pose proof (ln_new _ _ _ _ _ _ _ H). lia. }
  assert (r_objective_id row = Some o) as Ero by (rewrite Er; cbn; by rewrite Eo).
  assert (forall x i r, tb_run d !! i = Some r -> owns_objective x row = true -> owns_objective x r = false) as Hfree.
  { intros x i r Hr Hx. unfold owns_objective in Hx. bools. rewrite Ero in *. simplify_eq. by apply (ln_free _ _ _ _ _ _ _ H i). }
  split; [|split; [done|split; [done|]]].
  - intros i j r s x. rewrite R, !lookup_insert_Some. intros [[<- <-]|[_ Hr]] [[<- <-]|[_ Hq]] Ho1 Ho2; [done| | |by eapply Hs].
    + by rewrite (Hfree x j s) in Ho2.
    + by rewrite (Hfree x i r) in Ho1.
  - split; [by rewrite Er|]. split; [by rewrite Er|]. split; [|by eapply ln_planner].
    exists o. split; [done|]. by eapply ln_free.
Qed.

(** Every enabled slot of the hosts of a launch is attached to a provider account, so that an
    outage of the account stops all the slots that share it. *)
Theorem launch_guards_accounts actor data d row d' :
  launch actor data d = Ok (row, d') -> launch_wf d ->
  forall h k x, tb_host_harness d !! (h, k) = Some x -> hx_enabled x = true -> h ∈ launch_hosts data d -> guarded d' h k.
Proof. intros (o & q & H)%launched_spec Wf. by eapply ln_guards, lw_limits. Qed.

Lemma valid_requested data : run_create_valid data = true -> unique (rc_requested_phases data) = true.
Proof.
  unfold run_create_valid. intros H. bools. match goal with Hv : is_ok (valid_objective data) = true |- _ => unfold valid_objective in Hv end.
  repeat (case_match; try done); cbn in *; unfold rbind, guard in *; repeat case_match; by bools.
Qed.

Lemma launch_ok actor data d row d' :
  launch actor data d = Ok (row, d') -> run_create_valid data = true -> objectives_ok d -> objectives_ok d'.
Proof.
  intros (o & q & H)%launched_spec Hv Hd. pose proof (ln_row _ _ _ _ _ _ _ H) as Er. pose proof (ln_runs _ _ _ _ _ _ _ H) as R.
  intros i r. eapply (objectives_ok_insert d _ _ _ Hd R); [done|]. intros _. rewrite Er. unfold phases_ok. cbn.
  split; [by eapply ln_unique, valid_requested|]. split; [apply prefix_nil|]. intros _.
  pose proof (ln_head _ _ _ _ _ _ _ H) as Hh. destruct (pr_phases q) as [|k ks]; [done|]. injection Hh as ->. by exists ks.
Qed.
End launch_frames.

(** ** The life of an objective *)

(** What moves the phases of objectives: launches, acceptances, the reconciliation of the
    scheduler, and pausing, resuming, draining or completing a run. *)
Inductive objective_step (digest : Frontier -> string) (hashtext : string -> Z) (array_text : list string -> string)
    (template : string -> list (string * string) -> string) : DB -> DB -> Prop :=
| step_launch sha256 config stale n actor data d row d' :
    run_create_valid data = true -> launch sha256 digest hashtext array_text template config stale n actor data d = Ok (row, d') ->
    objective_step digest hashtext array_text template d d'
| step_accept actor i n note evidence given d row d' :
    accept_phase actor i n note evidence given d = Ok (row, d') -> objective_step digest hashtext array_text template d d'
| step_reconcile now d k d' :
    reconcile digest hashtext array_text template now d = Ok (k, d') -> objective_step digest hashtext array_text template d d'
| step_run actor c i n note d row d' :
    change_run actor c i n note d = Ok (row, d') -> objective_step digest hashtext array_text template d d'.

(** C9. Objectives keep their requested order: over any sequence of launches, acceptances,
    reconciliations and pausing, resuming, draining or completing transitions, the requested
    phases of every objective are distinct, the accepted ones are the first of them, and the
    phase that is pending or current is the next. *)
Theorem phases_in_order digest hashtext array_text template d d' :
  rtc (objective_step digest hashtext array_text template) d d' -> objectives_ok d -> objectives_ok d'.
Proof.
  induction 1 as [|d1 d2 d3 Hstep _ IH]; [done|]. intros Hd. apply IH. clear IH.
  destruct Hstep; eauto using launch_ok, accept_phase_ok, reconcile_ok, change_run_ok.
Qed.

(** Document 30 of project 2 and host 90; nothing runs yet. *)
Definition launch_db : DB :=
  (empty_db 500) <| db_next := 100%positive |> <| tb_system_grant := {[1%positive]} |>
    <| tb_project := {[2%positive := sample_project]} |> <| tb_document := {[30%positive := sample_document 30 2]} |>
    <| tb_repository := {[31%positive := sample_repository <| rp_purpose := KnowledgeRepo |>]} |>
    <| tb_host := {[90%positive := sample_host 90 None]} |> <| tb_harness := {[92%positive := sample_harness]} |>
    <| tb_host_harness := {[(90%positive, 92%positive) := sample_slots]} |>.

Definition sample_launch : RunCreate :=
  {| rc_mission_id := None; rc_objective_id := Some 30%positive; rc_phase := None; rc_host_ids := []; rc_orchestration := ObjectiveRun;
     rc_queue_policies := default_queue_policies; rc_requested_phases := []; rc_auto_advance := true; rc_max_assignments := None;
     rc_token_budget := None; rc_expires_at := None; rc_retry_policy := default_retry_policy |}.

Definition sample_planner : Planner :=
  {| planner_min_interval_seconds := 120; planner_max_idle_seconds := 1800; planner_max_unchanged_passes := 3 |}.

Definition launching : M run := launch (fun s => s) sample_digest sample_hash (join ",") sample_template sample_planner 120 1 admin sample_launch.

Lemma launch_db_wf : launch_wf launch_db.
Proof. split; [by intros ?? ?|by intros ?? ?|]. intros i [l H]. cbn in H. by rewrite lookup_empty in H. Qed.

Lemma launched_row : exists row d', launching launch_db = Ok (row, d').
Proof. destruct (is_ok_true (launching launch_db)) as [[row d'] E]; [by vm_compute|]. eauto. Qed.

Lemma launch_sole_owner_witness :
  exists row d', launching launch_db = Ok (row, d') /\ sole_owner d' /\ r_objective_id row = Some 30%positive.
Proof.
  destruct launched_row as (row & d' & E). exists row, d'. split; [exact E|]. pose proof E as E'. unfold launching in E'.
  destruct (launch_sole_owner _ _ _ _ _ _ _ _ _ _ _ _ _ E' launch_db_wf) as (Hs & _); [by vm_compute|by intros ????? ?|].
  split; [exact Hs|]. assert (match launching launch_db with Ok (r, _) => r_objective_id r | Err _ => None end = Some 30%positive) as A by by vm_compute.
  by rewrite E in A.
Defined.

Lemma launch_guards_accounts_witness :
  exists row d', launching launch_db = Ok (row, d') /\ tb_host_harness_limit launch_db = ∅ /\ guarded d' 90 92.
Proof.
  destruct launched_row as (row & d' & E). exists row, d'. split; [exact E|]. split; [done|]. pose proof E as E'. unfold launching in E'.
  apply (launch_guards_accounts _ _ _ _ _ _ _ _ _ _ _ _ _ E' launch_db_wf 90 92 sample_slots); [done|done|].
  apply mem_true. by vm_compute.
Defined.

(** An objective is launched; the maintainer accepts its preprocessing phase, and the scheduler
    moves on to formalization. *)
Definition accept_then_reconcile : M (run * Z) :=
  r ← accept_phase admin 5 1 "roadmap reviewed" [stored Kmission 3] None;
  n ← reconcile sample_digest sample_hash (join ",") sample_template 500;
  mret (r, n).

Lemma phases_in_order_witness :
  objectives_ok (after (launching launch_db) launch_db)
  /\ objectives_ok (after (accept_then_reconcile objective_db) objective_db)
  /\ (phase_kind_of ∘ r_phase <$> tb_run (after (accept_then_reconcile objective_db) objective_db) !! 5%positive)
     = Some FormalizationKind.
Proof.
  split.
  { destruct launched_row as (row & d' & E). rewrite E. cbn. eapply (phases_in_order sample_digest sample_hash (join ",") sample_template launch_db d').
    - eapply rtc_once, step_launch; [|exact E]. by vm_compute.
    - by intros i r ?. }
  destruct (after_Ok accept_then_reconcile objective_db) as [[r n] E]; [by vm_compute|].
  split; [|by vm_compute]. unfold accept_then_reconcile in E at 1.
  apply bind_Ok in E as (r' & d1 & H1 & E). apply bind_Ok in E as (k & d2 & H2 & E). apply ret_Ok in E as [_ ->].
  eapply (phases_in_order sample_digest sample_hash (join ",") sample_template objective_db d2); [|apply objective_db_ok].
  eapply rtc_l; [eapply step_accept; exact H1|]. eapply rtc_once, step_reconcile. exact H2.
Defined.
