(* ===== verification/Leases.v ===== *)
(** * Leases: heartbeats and the end of an execution

    [Scheduler.heartbeat] and [Scheduler.finish] of
    src/archon_horizon/pipeline/execution/scheduler.py, the latter for the executions of
    objective runs, with [finish_values] of execution/objectives.py.  The legacy half of
    [finish] is not modelled.

    Arguments: the lease length of the configuration, the prompt text that [goal] renders, the
    observation of a condition's leaf, [random.uniform] on microseconds, and those of
    Objectives.v. *)

From S2P Require Import Prelude Contracts Conditions Schema Records Auth Samples MissionTree Missions Ledger Usage Capacity Sessions Assignments Settlement Runs Workspaces Objectives Phases.

Definition TRANSIENT_CODES : list string :=
  ["connection_error"; "rate_limited"; "provider_overloaded"; "timeout"; "host_lost"; "lease_expired";
   "local_operation_timeout"; "local_execution_unavailable"; "request_deadline"].

(** The outcome that a worker or the scheduler reports. *)
Inductive outcome : Type := OSucceeded | OYielded | OFailed | OCancelled | OLost.
#[export] Instance outcome_eq_dec : EqDecision outcome.
Proof. solve_decision. Defined.

Definition succeeded (o : outcome) : bool := mem o [OSucceeded; OYielded].

Definition retry_of (r : run) (item : assignment) : result RetryPolicy :=
  let? settings := policy r (category item) in
  Ok match settings with Some q => qp_retry_policy q | None => r_retry_policy r end.

(** [min(max_delay, initial_delay * 2 ** min(attempts - 1, 20))], in seconds. *)
Definition backoff (p : RetryPolicy) (attempts : Z) : Z :=
  Z.min (max_delay_seconds p) (initial_delay_seconds p * 2 ^ Z.min (attempts - 1) 20).

Section leases.
Context (observe : DB -> assignment -> instant -> expr -> result Evaluation) (uniform : Z -> Z -> Z).
Context (digest : Frontier -> string) (hashtext : string -> Z) (array_text : list string -> string).
Context (template : string -> list (string * string) -> string) (config : Planner).
Context (lease_seconds : Z) (goal : DB -> assignment -> run -> mission -> list finding -> string).

(** A date between half of [delay] seconds and all of them from now. *)
Definition jittered (now : instant) (delay : Z) : instant := now + uniform (seconds delay / 2) (seconds delay).

(** [service.condition_readiness(..., events_only=True).truth is Truth.FALSE]. *)
Definition waits_for_event (d : DB) (item : assignment) (now : instant) : result bool :=
  let? ev := evaluate now (observe d item now) true (a_start_condition item) in
  Ok (bool_decide (truth ev = FALSE)).

Definition findings_text (l : list finding) : string := join "; " (map finding_text l).

(** [finish_values]: what the end of an execution makes of its session. *)
Definition finish_values (item : assignment) (r : run) (status : outcome) (failure : option Failure) (now : instant)
    (stopping : bool) (why : option string) (journal_pending : bool) : M (assignment -> assignment) :=
  retry ← lift (retry_of r item);
  let values a := a <| a_status := Pending |> <| a_finished_at := None |> <| a_retry_at := None |> <| a_pause_reason := None |> in
  if stopping || bool_decide (status = OCancelled) then
    mret (fun a => (values a) <| a_status := Cancelled |> <| a_finished_at := Some now |>)
  else if negb (succeeded status) then
    let attempts := a_recovery_attempts item + 1 in
    let code := match failure with Some f => fail_code f | None => "execution_failed"%string end in
    let values a := (values a) <| a_recovery_attempts := attempts |> in
    context ← ask (fun d => latest_primary d (a_id item));
    if match context with Some t => bool_decide (t_status t = Unavailable) | None => false end then
      mret (fun a => (values a)
        <| a_pause_reason := Some "Native context is unavailable; recover_context requires a diagnosis and confirmed physical stop"%string |>
        <| a_status_note := Some "Session and retry history preserved"%string |>)
    else if mem code TRANSIENT_CODES && (attempts <=? max_recovery_attempts retry) then
      mret (fun a => (values a) <| a_retry_at := Some (jittered now (backoff retry attempts)) |>
        <| a_status_note := Some ("Resume this session after " +:+ code +:+ "; recovery attempt " +:+ pretty attempts)%string |>)
    else
      mret (fun a => (values a)
        <| a_pause_reason := Some match failure with Some f => fail_message f
                                  | None => "Recovery limit reached; diagnose before resuming"%string end |>
        <| a_status_note := Some "Session preserved; automatic recovery paused"%string |>)
  else if journal_pending then
    mret (fun a => (values a) <| a_not_before := Some (now + seconds 60) |>
      <| a_status_note := Some "Waiting to reconcile original API intents"%string |>)
  else
    d ← ask id;
    if pending_deliveries d (a_id item) then
      mret (fun a => (values a) <| a_checkpoint_requested_at := Some now |>
        <| a_status_note := Some "Waiting for durable delivery; retained session will resume"%string |>)
    else
      found ← completion_findings (a_id item);
      if bool_decide (found = []) then
        mret (fun a => (values a) <| a_status := Completed_ |> <| a_finished_at := Some now |>
          <| a_checkpoint_requested_at := None |> <| a_start_condition := None |> <| a_not_before := None |>
          <| a_status_note := Some "Bounded session accounted for; mission acceptance is separate"%string |>)
      else if mem why [Some "execution_budget_reached"%string; Some "request_budget_reached"%string] then
        mret (fun a => (values a)
          <| a_pause_reason := Some "Execution budget reached; preserved work requires a recorded recovery decision"%string |>)
      else
        waiting ← (if present (a_checkpoint_requested_at item) then lift (waits_for_event d item now) else mret false);
        if (waiting : bool) then
          mret (fun a => (values a)
            <| a_status_note := Some "Waiting for the recorded event, including failed/cancelled outcomes"%string |>)
        else
          stalled ← lift (progress_stalled d (a_id item) (Z.to_nat (max_no_progress_requests retry)));
          if (stalled : bool) then
            mret (fun a => (values a)
              <| a_pause_reason := Some "Repeated continuations have not accounted for outstanding work"%string |>
              <| a_status_note := Some (findings_text found) |>)
          else
            mret (fun a => (values a) <| a_not_before := Some (now + seconds (initial_delay_seconds retry)) |>
              <| a_status_note := Some (findings_text found) |>).

(** ** The end of an execution *)

(** Older workers reported their own execution budget as a network timeout. *)
Definition local_deadline (f : Failure) : Failure :=
  if bool_decide (fail_code f = "timeout"%string)
     && bool_decide (fail_message f = "Provider request exceeded its execution deadline"%string)
  then f <| fail_kind := ExecutionFailure |> <| fail_code := "request_deadline"%string |> else f.

Definition final_status (status : outcome) (stopping : bool) : Schema.execution_status :=
  if stopping || bool_decide (status = OCancelled) then XCancelled
  else match status with
       | OSucceeded | OYielded => XSucceeded
       | OFailed => XFailed
       | OCancelled => XCancelled
       | OLost => XLost
       end.

(** The provider accounts that the execution still holds. *)
Definition held_account (d : DB) (i : uid) (l : resource_limit) : bool :=
  bool_decide (rl_kind l = ProviderAccount)
  && existsb (fun c => bool_decide (cl_resource_limit_id c = rl_id l) && open_claim i c)
       (map snd (map_to_list (tb_resource_claim d))).

Definition outage_code (code : option string) : bool :=
  match code with
  | Some c => mem c ["rate_limited"; "provider_overloaded"; "connection_error"; "timeout"]%string
  | None => false
  end.

(** A failure backs the account off, and opens its circuit after too many. *)
Definition penalize (actor : Actor) (p : option uid) (r : run) (item : assignment) (code : string) (now : instant)
    (l : resource_limit) : M unit :=
  retry ← lift (retry_of r item);
  let failures := rl_failure_count l + 1 in
  let until := jittered now (backoff retry failures) in
  let opens := is_objective r && (max_recovery_attempts retry <? failures) in
  _ ← change (rl_id l) None (fun x =>
    let x := x <| rl_failure_count := failures |>
               <| rl_cooldown_until := Some match rl_cooldown_until l with Some t => Z.max until t | None => until end |> in
    if opens then x <| rl_circuit_open := true |>
                    <| rl_circuit_reason := Some ("Repeated " +:+ code +:+ "; diagnose account before resetting circuit")%string |>
    else x);
  when (opens && negb (rl_circuit_open l)) (
    _ ← emit (Some (actor_id actor)) p
          {| sub_ref := None; sub_revision := rl_revision l; sub_status := ""; sub_note := None |} ["circuit_open"] None None
          (Some ("Provider circuit " +:+ rl_slug l +:+ " (" +:+ uuid_str (rl_id l) +:+ ") opened after repeated " +:+ code
                 +:+ "; diagnose before reset_circuit")%string);
    mret tt).

(** A completed request clears the back-off that preceded the execution; every execution has a
    start date. *)
Definition absolve (x : execution) (l : resource_limit) : M unit :=
  when (negb (rl_circuit_open l)
        && match rl_cooldown_until l with
           | None => true
           | Some t => match x_started_at x with Some s => t <=? s | None => false end
           end)
    (_ ← change (rl_id l) None (fun y => y <| rl_failure_count := 0 |> <| rl_cooldown_until := None |>); mret tt).

Definition settle_accounts (actor : Actor) (x : execution) (r : run) (item : assignment) (status : outcome)
    (failure : option Failure) (now : instant) : M unit :=
  d ← ask id;
  held ← select (held_account d (x_id x));
  let code := fail_code <$> failure in
  if outage_code code then
    p ← project_of Krun (r_id r);
    for_each (penalize actor p r item (default ""%string code) now) held
  else if succeeded status then
    healthy ← any (fun q => bool_decide (q_execution_id q = x_id x) && bool_decide (q_status q = QCompleted));
    when healthy (for_each (absolve x) held)
  else mret tt.

(** The credentials of the execution's principal. *)
Definition execution_credential (d : DB) (i : uid) (c : credential) : bool :=
  match tb_principal d !! cr_principal_id c with Some p => bool_decide (pr_execution_id p = Some i) | None => false end.

(** [finish], for an execution of an objective run. *)
Definition finish_objective (actor : Actor) (x : execution) (status : outcome) (failure : option Failure)
    (journal_pending : bool) (why : option string) : M assignment :=
  let failure := local_deadline <$> failure in
  item ← (get (x_assignment_id x) : M assignment);
  r ← (get (a_run_id item) : M run);
  _ ← match a_automation_id item with Some k => au ← (get k : M automation); mret tt | None => mret tt end;
  now ← ask db_now;
  if negb (live_status x) then mret item
  else
    let stopping := bool_decide (a_status item = Stopping) || mem (r_status r) [RunStopping; RunCancelled] in
    let confirmed := if bool_decide (actor_kind actor = HostPrincipal) && negb (bool_decide (status = OLost))
                     then Some now else x_stop_confirmed_at x in
    _ ← change (x_id x) None (fun y => y <| x_status := final_status status stopping |> <| x_finished_at := Some now |>
          <| x_lease_expires_at := now |> <| x_failure := failure |> <| x_stop_confirmed_at := confirmed |>);
    settle_accounts actor x r item status failure now ;;
    when (present confirmed) (update_where (open_claim (x_id x)) (fun c => c <| cl_released_at := Some now |>)) ;;
    d ← ask id;
    update_where (execution_credential d (x_id x)) (fun c => c <| cr_revoked_at := Some now |>) ;;
    values ← finish_values item r status failure now stopping why journal_pending;
    row ← change_assignment (a_id item) None values;
    when (bool_decide (a_status row = Completed_)) (completed digest hashtext array_text template config row r now) ;;
    p ← project_of Kassignment (a_id row);
    _ ← emit (Some (actor_id actor)) p (assignment_subject row) ["status"; "pause_reason"; "retry_at"] None (Some (x_id x)) None;
    mret row.

(** ** Heartbeats *)

Inductive Heartbeat : Type :=
| HeartbeatStop (lease : Z)
| HeartbeatGo (lease : Z) (continue_ yield_ : bool) (mission_revision_number : Z)
              (input : option (string * uid * Z * option uid)).

Definition primary_request (d : DB) (a : uid) (q : provider_request) : bool :=
  match tb_provider_thread d !! q_provider_thread_id q with
  | Some t => bool_decide (t_assignment_id t = a) && is_primary t
  | None => false
  end.

Definition newest_request (q r : provider_request) : bool := q_created_at r <=? q_created_at q.

Definition completed_turn (latest : option provider_request) : bool :=
  match latest with Some q => bool_decide (q_status q = QCompleted) | None => false end.

Definition heartbeat (actor : Actor) (i : uid) (epoch : Z) : M Heartbeat :=
  x ← (get i : M execution);
  require_host actor (x_host_id x) ;;
  now ← ask db_now;
  refuse (negb (x_number x =? epoch) || negb (live_status x) || (x_lease_expires_at x <=? now)) "stale_epoch" 409 ;;
  item ← (get (x_assignment_id x) : M assignment);
  r ← (get (a_run_id item) : M run);
  let stop := bool_decide (x_status x = XStopping) || bool_decide (a_status item = Stopping)
              || mem (r_status r) [RunStopping; RunCancelled]
              || match a_expires_at item with Some t => t <=? now | None => false end in
  _ ← change (x_host_id x) None (fun h : host => h <| h_heartbeat_at := Some now |>);
  if (stop : bool) then mret (HeartbeatStop (Z.max 0 (x_lease_expires_at x - now)))
  else
    _ ← change i None (fun y : execution => y <| x_heartbeat_at := Some now |>
          <| x_lease_expires_at := now + seconds lease_seconds |>);
    d ← ask id;
    update_where (fun c => execution_credential d i c && bool_decide (cr_kind c = ExecutionToken) && negb (present (cr_revoked_at c)))
                 (fun c => c <| cr_expires_at := Some (now + seconds lease_seconds) |>) ;;
    m ← (get (a_mission_id item) : M mission);
    retry ← lift (retry_of r item);
    d ← ask id;
    let latest := first_by newest_request (stored_rows (primary_request d (a_id item)) d) in
    found ← completion_findings (a_id item);
    let continue_request := (is_objective r || negb (bool_decide (a_role item = Maintainer)))
                            && completed_turn latest && negb (bool_decide (found = [])) in
    stalled ← lift (progress_stalled d (a_id item) (Z.to_nat (max_no_progress_requests retry)));
    let checkpoint := negb (bool_decide (found = [])) && present (a_checkpoint_requested_at item) && completed_turn latest
                      && bool_decide (settlement_findings d (a_id item) false = []) in
    input ← (if completed_turn latest then
               revision ← snapshot m (actor_id actor);
               mret (Some (goal d item r m found, revision, r_revision r, r_adopted_roadmap_snapshot_id r))
             else mret None);
    mret (HeartbeatGo (seconds lease_seconds) (continue_request && negb stalled && negb checkpoint)
            (checkpoint || (continue_request && stalled)) (m_revision m) input).
End leases.

(** ** A session is never lost *)

Lemma keeps_completion_findings R `{!PreOrder R} a : Keeps R (completion_findings a).
Proof. unfold completion_findings. frame. Qed.
#[export] Hint Resolve keeps_completion_findings : frame.

Lemma backoff_bounds p n : retry_policy_valid p = true -> 1 <= n -> 0 <= backoff p n <= max_delay_seconds p.
Proof.
  unfold retry_policy_valid, positive_valid, backoff. intros H Hn. bools.
  assert (0 < 2 ^ Z.min (n - 1) 20) by (apply Z.pow_pos_nonneg; lia). nia.
Qed.

Section preserved.
Context (observe : DB -> assignment -> instant -> expr -> result Evaluation) (uniform : Z -> Z -> Z).
Hypothesis uniform_between : forall lo hi, lo <= hi -> lo <= uniform lo hi <= hi.

Lemma jittered_between now delay : 0 <= delay -> now + seconds delay / 2 <= jittered uniform now delay <= now + seconds delay.
Proof.
  intros Hd. unfold jittered. pose proof (uniform_between (seconds delay / 2) (seconds delay)) as Hu.
  unfold seconds in *. assert (delay * 1000000 / 2 <= delay * 1000000) by (apply Z.div_le_upper_bound; lia). lia.
Qed.

(** Whether a failed execution is retried without a decision. *)
Definition retries (d : DB) (item : assignment) (retry : RetryPolicy) (failure : option Failure) : bool :=
  negb match latest_primary d (a_id item) with Some t => bool_decide (t_status t = Unavailable) | None => false end
  && mem (match failure with Some f => fail_code f | None => "execution_failed"%string end) TRANSIENT_CODES
  && (a_recovery_attempts item + 1 <=? max_recovery_attempts retry).

(** Nothing is left to do or to account for. *)
Definition accounted (d : DB) (a : uid) : bool :=
  match completion_findings a d with Ok ([], _) => true | _ => false end.

(** What the end of an execution makes of its session [item], as [row]. *)
Definition settled_as (d : DB) (item : assignment) (retry : RetryPolicy) (status : outcome) (failure : option Failure)
    (now : instant) (stopping journal_pending : bool) (row : assignment) : Prop :=
  if stopping || bool_decide (status = OCancelled) then a_status row = Cancelled
  else if succeeded status then
    a_recovery_attempts row = a_recovery_attempts item
    /\ if negb journal_pending && negb (pending_deliveries d (a_id item)) && accounted d (a_id item)
       then a_status row = Completed_
       else a_status row = Pending /\ a_finished_at row = None
  else
    a_status row = Pending /\ a_finished_at row = None /\ a_recovery_attempts row = a_recovery_attempts item + 1
    /\ if retries d item retry failure
       then exists t, a_retry_at row = Some t /\ a_pause_reason row = None
              /\ now + seconds (backoff retry (a_recovery_attempts item + 1)) / 2 <= t <= now + seconds (max_delay_seconds retry)
       else a_retry_at row = None /\ a_pause_reason row <> None.

(** A session is never lost: whatever way an execution ends, its session is cancelled only when
    it was being stopped, completed exactly when nothing is left to account for, and otherwise
    pending with its context.  A failure costs exactly one recovery attempt; a transient one
    within the limit is retried by itself after a back-off between half and all of the policy's
    delay, any other waits, paused, for a recorded decision. *)
Theorem session_preserved item r status failure now stopping why journal_pending retry d f d' :
  retry_of r item = Ok retry -> retry_policy_valid retry = true -> 0 <= a_recovery_attempts item ->
  finish_values observe uniform item r status failure now stopping why journal_pending d = Ok (f, d') ->
  d' = d /\ settled_as d item retry status failure now stopping journal_pending (f item).
Proof.
  intros Hr Hv Hn H. assert (d' = d) as -> by (eapply read_only; [|exact H]; unfold finish_values; frame).
  split; [done|]. unfold finish_values in H. apply bind_Ok in H as (retry' & ? & [Hr' ->]%lift_Ok & H).
  rewrite Hr in Hr'. injection Hr' as <-. unfold settled_as.
  destruct (stopping || bool_decide (status = OCancelled)); [by apply ret_Ok in H as [-> _]|].
  destruct (succeeded status); cbn [negb] in H.
  - destruct journal_pending; [by apply ret_Ok in H as [-> _]|]. cbn [negb andb].
    apply bind_Ok in H as (? & ? & [-> ->]%ask_Ok & H). cbn [id] in H.
    destruct (pending_deliveries d (a_id item)); [by apply ret_Ok in H as [-> _]|]. cbn [negb andb].
    apply bind_Ok in H as (found & d1 & Hf & H). unfold accounted. rewrite Hf.
    apply read_only in Hf as ->; [|frame]. case_bool_decide as Hnil; [subst; by apply ret_Ok in H as [-> _]|].
    destruct found as [|g l]; [done|]. destruct (mem why _); [by apply ret_Ok in H as [-> _]|]. skip H.
    destruct (_ : bool) in H; [by apply ret_Ok in H as [-> _]|]. skip H. destruct (_ : bool) in H; by apply ret_Ok in H as [-> _].
  - apply bind_Ok in H as (ctx & ? & [-> ->]%ask_Ok & H). unfold retries.
    destruct (match latest_primary d (a_id item) with Some _ => _ | None => _ end); cbn [negb andb];
      [by apply ret_Ok in H as [-> _]|].
    destruct (mem _ _ && _); apply ret_Ok in H as [-> _]; [|done]. repeat (split; [done|]).
    eexists. split; [done|]. split; [done|]. pose proof (backoff_bounds retry (a_recovery_attempts item + 1) Hv ltac:(lia)) as Hb.
    pose proof (jittered_between now (backoff retry (a_recovery_attempts item + 1)) ltac:(lia)) as Hj.
    unfold seconds in *. lia.
Qed.
End preserved.

Definition latest_uniform (lo hi : Z) : Z := hi.

Definition rate_limited : Failure :=
  {| fail_kind := ProviderFailure; fail_code := "rate_limited"; fail_message := "slow down"; fail_diagnostic_artifact_id := None |}.

Definition no_observation (d : DB) (a : assignment) (now : instant) (e : expr) : result Evaluation := Ok (evaluation UNKNOWN "").

Lemma session_preserved_witness :
  exists f, finish_values no_observation latest_uniform (sample_assignment 6 5 3 Running) sample_objective OFailed
      (Some rate_limited) 500 false None false objective_db = Ok (f, objective_db)
    /\ a_retry_at (f (sample_assignment 6 5 3 Running)) = Some (500 + seconds 5)
    /\ settled_as objective_db (sample_assignment 6 5 3 Running) default_retry_policy OFailed (Some rate_limited) 500 false false
         (f (sample_assignment 6 5 3 Running)).
Proof.
  destruct (is_ok_true (finish_values no_observation latest_uniform (sample_assignment 6 5 3 Running) sample_objective OFailed
    (Some rate_limited) 500 false None false objective_db)) as [[f d'] E]; [by vm_compute|].
  destruct (session_preserved no_observation latest_uniform ltac:(unfold latest_uniform; lia) (sample_assignment 6 5 3 Running)
    sample_objective OFailed (Some rate_limited) 500 false None false default_retry_policy objective_db f d') as [-> Hs];
    [reflexivity|reflexivity|cbn; lia|exact E|].
  exists f. split; [exact E|]. split; [|exact Hs]. vm_compute in E. injection E as <-. reflexivity.
Defined.

(** ** Fencing *)

(** What the end of an execution must settle. *)
Definition fence_part (d : DB) := (tb_execution d, tb_resource_claim d, tb_credential d, db_now d).

Lemma ensure_successor_fence template r au : Frame fence_part (ensure_successor template r au).
Proof. intros d a d' H%ensure_successor_frame. injection H as ????????????. unfold same_part, fence_part. congruence. Qed.
#[export] Hint Resolve ensure_successor_fence : frame.

Lemma completed_fence digest hashtext array_text template config item r now :
  Frame fence_part (completed digest hashtext array_text template config item r now).
Proof. unfold completed, planner_of. frame. Qed.
#[export] Hint Resolve completed_fence : frame.

Lemma settle_accounts_fence uniform actor x r item status failure now :
  Frame (fun d => (fence_part d, tb_principal d)) (settle_accounts uniform actor x r item status failure now).
Proof. unfold settle_accounts, penalize, absolve. frame. Qed.
#[export] Hint Resolve settle_accounts_fence : frame.

Lemma keeps_finish_values R `{!PreOrder R} observe uniform item r status failure now b why c :
  Keeps R (finish_values observe uniform item r status failure now b why c).
Proof. unfold finish_values. frame. Qed.
#[export] Hint Resolve keeps_finish_values : frame.

(** Whether a physical stop is confirmed by the end of the execution. *)
Definition confirms (actor : Actor) (status : outcome) (x : execution) : bool :=
  bool_decide (actor_kind actor = HostPrincipal) && negb (bool_decide (status = OLost)) || present (x_stop_confirmed_at x).

Definition revoke (d : DB) (i : uid) (c : credential) : credential :=
  if execution_credential d i c then touch (db_now d) (c <| cr_revoked_at := Some (db_now d) |>) else c.

Section fencing.
Context (observe : DB -> assignment -> instant -> expr -> result Evaluation) (uniform : Z -> Z -> Z).
Context (digest : Frontier -> string) (hashtext : string -> Z) (array_text : list string -> string).
Context (template : string -> list (string * string) -> string) (config : Planner).

Lemma finish_objective_spec actor x status failure jp why d row d' :
  finish_objective observe uniform digest hashtext array_text template config actor x status failure jp why d = Ok (row, d') ->
  live_status x = true -> tb_execution d !! x_id x = Some x ->
  exists y, live_status y = false /\ x_lease_expires_at y = db_now d /\ x_number y = x_number x /\ x_id y = x_id x
    /\ present (x_stop_confirmed_at y) = confirms actor status x
    /\ fence_part d' = (<[x_id x := y]> (tb_execution d),
         (if confirms actor status x then release (db_now d) (x_id x) <$> tb_resource_claim d else tb_resource_claim d),
         revoke d (x_id x) <$> tb_credential d, db_now d).
Proof.
  unfold finish_objective. intros H Hl Hx. apply bind_Ok in H as (item & ? & [_ ->]%get_Ok & H).
  apply bind_Ok in H as (r & ? & [_ ->]%get_Ok & H). skip H. apply bind_Ok in H as (now & ? & [-> ->]%ask_Ok & H).
  rewrite Hl in H. cbn [negb] in H. set (stopping := _ || mem (r_status r) _) in H.
  set (confirmed := if _ && _ then Some (db_now d) else _) in H.
  assert (present confirmed = confirms actor status x) as Hconf by (unfold confirmed, confirms; by destruct (_ && _)).
  apply bind_Ok in H as (y & d1 & (x' & Hx' & _ & Ey & E1)%change_Ok & H). cbn in Hx'. rewrite Hx in Hx'. injection Hx' as <-.
  apply bind_Ok in H as (? & d2 & E2%settle_accounts_fence & H).
  apply bind_Ok in H as (? & d3 & E3 & H). apply bind_Ok in H as (? & ? & [-> ->]%ask_Ok & H). cbn [id] in H.
  apply bind_Ok in H as (? & d4 & E4%update_where_Ok & H). skip H.
  apply bind_Ok in H as (row' & d5 & E5 & H). leaves fence_part E5. apply bind_Ok in H as (? & d6 & E6 & H). leaves fence_part E6.
  skip H. apply bind_Ok in H as (? & d7 & E7 & H). leaves fence_part E7. apply ret_Ok in H as [-> ->].
  exists y. split. { rewrite Ey. unfold live_status. cbn. unfold final_status. destruct (stopping || _), status; done. }
  do 4 (split; [by rewrite Ey|]).
  assert (fence_part d3 = (<[x_id x := y]> (tb_execution d),
    (if confirms actor status x then release (db_now d) (x_id x) <$> tb_resource_claim d else tb_resource_claim d),
    tb_credential d, db_now d) /\ tb_principal d3 = tb_principal d) as [F3 P3].
  { subst d1. injection E2 as X2 C2 K2 N2 P2. rewrite <- Hconf. unfold fence_part, when in *. destruct (present confirmed).
    - apply update_where_Ok in E3. subst d3. cbn in *. by rewrite X2, C2, K2, N2, P2.
    - apply ret_Ok in E3 as [_ ->]. by rewrite X2, C2, K2, N2, P2. }
  rewrite E7, E6, E5, E4. unfold fence_part in *. injection F3 as X3 C3 K3 N3. cbn. rewrite X3, C3, K3, N3.
  unfold revoke, execution_credential. by rewrite P3.
Qed.

(** C30. A finished execution is fenced: its row is no longer live and its lease is over, every
    credential of its agent is revoked, a later heartbeat is refused, and no other execution
    changes.  Its claims on shared limits are released exactly when its physical stop is
    confirmed: by the host's own receipt, never by a lost lease. *)
Theorem finished_execution_fenced actor x status failure jp why d row d' :
  finish_objective observe uniform digest hashtext array_text template config actor x status failure jp why d = Ok (row, d') ->
  live_status x = true -> tb_execution d !! x_id x = Some x ->
  (exists y, tb_execution d' !! x_id x = Some y /\ live_status y = false /\ x_lease_expires_at y = db_now d)
  /\ (forall j, j <> x_id x -> tb_execution d' !! j = tb_execution d !! j)
  /\ (forall j c p, tb_credential d' !! j = Some c -> tb_principal d !! cr_principal_id c = Some p ->
        pr_execution_id p = Some (x_id x) -> cr_revoked_at c = Some (db_now d))
  /\ tb_resource_claim d' = (if confirms actor status x then release (db_now d) (x_id x) <$> tb_resource_claim d
                             else tb_resource_claim d)
  /\ forall lease goal host epoch, is_ok (heartbeat lease goal host (x_id x) epoch d') = false.
Proof.
  intros H Hl Hx. destruct (finish_objective_spec _ _ _ _ _ _ _ _ _ H Hl Hx) as (y & Hy & Hlease & _ & _ & _ & E).
  injection E as X C K N. split; [exists y; rewrite X; by rewrite lookup_insert_eq|].
  split; [intros j Hj; by rewrite X, lookup_insert_ne|]. split; [|split; [done|]].
  - intros j c p. rewrite K, lookup_fmap_Some. intros (c0 & <- & _) Hp He. unfold revoke in *.
    assert (execution_credential d (x_id x) c0 = true) as Hc.
    { unfold execution_credential in *. destruct (tb_principal d !! cr_principal_id c0) as [q|] eqn:Eq.
      - case_bool_decide as Hq; [done|]. rewrite Eq in Hp. by injection Hp as <-.
      - by rewrite Eq in Hp. }
    by rewrite Hc.
  - intros lease goal host epoch. destruct (heartbeat _ _ _ _ _ d') as [[hb d2]|] eqn:Eh; [exfalso|done].
    unfold heartbeat in Eh. apply bind_Ok in Eh as (z & ? & [Hz ->]%get_Ok & Eh). cbn in Hz.
    rewrite X, lookup_insert_eq in Hz. injection Hz as <-. apply bind_Ok in Eh as (? & d3 & Hh & Eh).
    unfold require_host in Hh. apply refuse_Ok in Hh as [_ ->].
    apply bind_Ok in Eh as (? & ? & [-> ->]%ask_Ok & Eh). apply bind_Ok in Eh as (? & ? & [Hr _]%refuse_Ok & _).
    rewrite Hy, orb_true_r in Hr. done.
Qed.
End fencing.

(** ** Renewal *)

(** The credentials that live with the lease of the execution. *)
Definition renew (d : DB) (i : uid) (until : instant) (c : credential) : credential :=
  if execution_credential d i c && bool_decide (cr_kind c = ExecutionToken) && negb (present (cr_revoked_at c))
  then touch (db_now d) (c <| cr_expires_at := Some until |>) else c.

Lemma require_host_Ok actor h d u d' :
  require_host actor h d = Ok (u, d') -> d' = d /\ actor_kind actor = HostPrincipal /\ actor_host actor = Some h.
Proof.
  unfold require_host. intros [Hh ->]%refuse_Ok. apply orb_false_iff in Hh as [Hh H1]. apply orb_false_iff in Hh as [H2 _]. by bools.
Qed.

(** Only a live execution is renewed: a heartbeat is answered to its own host, for the current
    epoch, while the lease has not run out.  When the execution, its assignment or its run is
    stopping the lease is left to run out.  Otherwise it ends the lease length from now,
    together with the tokens of the agent, and the worker is never told both to continue and
    to yield. *)
Theorem heartbeat_renews_live lease goal actor i epoch d hb d' :
  heartbeat lease goal actor i epoch d = Ok (hb, d') ->
  exists x item r, tb_execution d !! i = Some x /\ x_number x = epoch /\ live_status x = true /\ db_now d < x_lease_expires_at x
    /\ actor_host actor = Some (x_host_id x)
    /\ tb_assignment d !! x_assignment_id x = Some item /\ tb_run d !! a_run_id item = Some r
    /\ match hb with
       | HeartbeatStop rest => 0 <= rest <= x_lease_expires_at x - db_now d
           /\ tb_execution d' = tb_execution d /\ tb_credential d' = tb_credential d
       | HeartbeatGo _ continue_ yield_ _ _ =>
           continue_ && yield_ = false /\ x_status x <> XStopping /\ a_status item <> Stopping
           /\ r_status r <> RunStopping /\ r_status r <> RunCancelled
           /\ (exists y, tb_execution d' = <[i := y]> (tb_execution d) /\ x_status y = x_status x
                 /\ x_lease_expires_at y = db_now d + seconds lease)
           /\ tb_credential d' = renew d i (db_now d + seconds lease) <$> tb_credential d
       end.
Proof.
  unfold heartbeat. intros H. apply bind_Ok in H as (x & ? & [Hx ->]%get_Ok & H).
  apply bind_Ok in H as (? & ? & (-> & _ & Hh)%require_host_Ok & H). apply bind_Ok in H as (now & ? & [-> ->]%ask_Ok & H).
  apply bind_Ok in H as (? & ? & [Hr ->]%refuse_Ok & H). apply orb_false_iff in Hr as [Hr H3]. apply orb_false_iff in Hr as [H1 H2].
  apply bind_Ok in H as (item & ? & [Hi ->]%get_Ok & H). apply bind_Ok in H as (r & ? & [Hrun ->]%get_Ok & H). bools.
  exists x, item, r. repeat (split; [done|]).
  apply bind_Ok in H as (h & d1 & E1 & H). pose proof E1 as P1. leaves (fun d => (fence_part d, tb_principal d)) E1.
  injection E1 as X1 C1 K1 N1 P1'. destruct (_ || _) eqn:Estop in H.
  { apply ret_Ok in H as [-> ->]. split; [lia|]. by rewrite X1, K1. }
  apply orb_false_iff in Estop as [Estop _]. apply orb_false_iff in Estop as [Estop S3]. apply orb_false_iff in Estop as [S1 S2].
  apply mem_false in S3. bools.
  apply bind_Ok in H as (y & d2 & (x' & Hx' & _ & Ey & E2)%change_Ok & H). cbn in Hx, Hx'. rewrite X1, Hx in Hx'. injection Hx' as <-.
  apply bind_Ok in H as (? & ? & [-> ->]%ask_Ok & H). cbn [id] in H. apply bind_Ok in H as (? & d3 & E3%update_where_Ok & H).
  apply bind_Ok in H as (m & ? & [_ ->]%get_Ok & H). skip H. apply bind_Ok in H as (? & ? & [-> ->]%ask_Ok & H).
  apply bind_Ok in H as (found & d4 & Hf & H). apply read_only in Hf as ->; [|frame].
  apply bind_Ok in H as (stalled & ? & [_ ->]%lift_Ok & H).
  apply bind_Ok in H as (input & d5 & E5 & H). leaves fence_part E5. apply ret_Ok in H as [-> ->].
  split. { destruct (bool_decide (found = [])), stalled, (completed_turn _), (is_objective r), (bool_decide (a_role item = Maintainer)),
             (present (a_checkpoint_requested_at item)), (bool_decide (settlement_findings _ _ _ = [])); done. }
  split; [done|]. split; [done|]. split; [set_solver|]. split; [set_solver|].
  injection E5 as X5 C5 K5 N5. subst d2 d3. cbn in X5, K5. split.
  - exists y. rewrite X5. cbn. rewrite X1, Ey. done.
  - rewrite K5. unfold renew, execution_credential. cbn. rewrite K1, P1', N1. done.
Qed.

(** Host 90 runs execution 7 under the token of principal 8. *)
Definition host_actor : Actor :=
  {| actor_id := 9; actor_kind := HostPrincipal; actor_execution := None; actor_host := Some 90%positive;
     actor_credential_kind := Some HostKey; actor_credential_id := None |}.

Definition agent_credential : credential :=
  {| cr_id := 60; cr_created_at := 0; cr_updated_at := 0; cr_revision := 1; cr_principal_id := 8; cr_kind := ExecutionToken;
     cr_name := "Execution lease"; cr_token_hash := "hash"; cr_display_prefix := "hz_"; cr_expires_at := Some 1000;
     cr_revoked_at := None; cr_last_used_at := None |}.

Definition lease_principal : principal :=
  {| pr_id := 8; pr_created_at := 0; pr_updated_at := 0; pr_revision := 1; pr_kind := Agent; pr_display_name := "R1/A6";
     pr_username := None; pr_host_id := None; pr_execution_id := Some 7%positive; pr_service_name := None;
     pr_disabled_at := None |}.

(** Execution 7 of session 6 in objective 5, with its claim on limit 70. *)
Definition leased_db : DB :=
  objective_db <| tb_assignment := {[6%positive := (sample_assignment 6 5 3 Running) <| a_category := Some "work"%string |>]} |>
    <| tb_execution := {[7%positive := sample_execution 7 6 XRunning]} |>
    <| tb_principal := {[8%positive := lease_principal]} |> <| tb_credential := {[60%positive := agent_credential]} |>
    <| tb_host := {[90%positive := sample_host 90 None]} |>
    <| tb_resource_claim := {[71%positive := sample_claim 71 70 7]} |>.

Lemma heartbeat_renews_live_witness :
  exists hb d', heartbeat 90 (fun _ _ _ _ _ => "prompt"%string) host_actor 7 1 leased_db = Ok (hb, d')
    /\ (cr_expires_at <$> tb_credential d' !! 60%positive) = Some (Some (500 + seconds 90))
    /\ exists x, tb_execution leased_db !! 7%positive = Some x /\ db_now leased_db < x_lease_expires_at x.
Proof.
  destruct (is_ok_true (heartbeat 90 (fun _ _ _ _ _ => "prompt"%string) host_actor 7 1 leased_db)) as [[hb d'] E]; [by vm_compute|].
  destruct (heartbeat_renews_live _ _ _ _ _ _ _ _ E) as (x & item & r & Hx & _ & _ & Hl & _).
  exists hb, d'. split; [exact E|]. split; [vm_compute in E; injection E as _ <-; by vm_compute|]. by exists x.
Defined.

(** The session's tokens and units are gone once its host reports the end of execution 7; a lost
    lease keeps the units. *)
Lemma finished_execution_fenced_witness :
  exists row d', finish_objective no_observation latest_uniform sample_digest sample_hash (join ",") sample_template
      {| planner_min_interval_seconds := 120; planner_max_idle_seconds := 1800; planner_max_unchanged_passes := 3 |}
      host_actor (sample_execution 7 6 XRunning) OFailed (Some rate_limited) false None leased_db = Ok (row, d')
    /\ (cl_released_at <$> tb_resource_claim d' !! 71%positive) = Some (Some 500)
    /\ (exists y, tb_execution d' !! 7%positive = Some y /\ live_status y = false).
Proof.
  destruct (is_ok_true (finish_objective no_observation latest_uniform sample_digest sample_hash (join ",") sample_template
      {| planner_min_interval_seconds := 120; planner_max_idle_seconds := 1800; planner_max_unchanged_passes := 3 |}
      host_actor (sample_execution 7 6 XRunning) OFailed (Some rate_limited) false None leased_db)) as [[row d'] E]; [by vm_compute|].
  destruct (finished_execution_fenced _ _ _ _ _ _ _ _ _ _ _ _ _ _ _ _ E) as ((y & Hy & Hl & _) & _ & _ & Hc & _);
    [reflexivity|reflexivity|].
  exists row, d'. split; [exact E|]. split; [|by exists y]. rewrite Hc. reflexivity.
Defined.
