(* ===== verification/Admission.v ===== *)
(** * Admission: the claim of a host

    [Scheduler.claim] of src/archon_horizon/pipeline/execution/scheduler.py, from the poll of a
    host to the grant: the order of the candidates, the rotating scans over the two profiles,
    the tests of a candidate and of a slot, and [start], which creates the execution, its
    claims, its context and its token; with [prefer_other_workspace_host] and
    [root_maintenance.admitted].

    Arguments: whether an assignment is ready ([service.readiness]) and whether the control
    plane pauses for lack of storage; the frontier hash of legacy runs; the blobs that the
    store makes of JSON texts, the texts of the catalog, of a sandbox policy and of the prompt;
    the manifest that the store returns for a blob; SHA-256, the random token, [uuid5] and the
    prompt templates.  The memo of observations within one poll is not modelled: each test
    reads the database. *)

From S2P Require Import Prelude Contracts Conditions WorkerContracts Schema Records Auth Samples MissionTree Missions Ledger Usage Capacity Sessions Assignments Settlement Runs Workspaces Labels Objectives Cancellation.

(** [for x in l: ... return] with [continue] as [None]. *)
Fixpoint first_success {A B} (f : A -> M (option B)) (l : list A) : M (option B) :=
  match l with
  | [] => mret None
  | a :: l => o ← f a; match o with Some b => mret (Some b) | None => first_success f l end
  end.

Record Grant := {
  gr_execution_id : uid;
  gr_assignment_id : uid;
  gr_epoch : Z;
  gr_lease_seconds : Z;
  gr_max_offline_replay_seconds : Z;
  gr_harness_id : uid;
  gr_max_parallel_subagents : option Z;
  gr_sandbox_manifest : SandboxPolicy;
  gr_workspace_id : uid;
  gr_workspace_path : string;
  gr_workspace_preparation : option Preparation;
  gr_repository_id : uid;
  gr_goal : string;
  gr_goal_artifact_id : option uid;
  gr_skill_bundle_sha256 : string;
  gr_provider_thread_record_id : uid;
  gr_provider_thread_id : option string;
  gr_mission_revision_id : uid;
  gr_mission_revision_number : Z;
  gr_run_revision : Z;
  gr_role : role;
  gr_functions : list string;
  gr_roadmap_snapshot_id : option uid;
  gr_harness_configuration : harness;
  gr_execution_token : string }.

(** [root_maintenance]. *)
Definition BLOCKED_PREFIX : string := "Maintenance blocked: ".

Section admission.
Context (ready : DB -> assignment -> result bool) (storage_paused : bool) (stale_seconds lease_seconds max_offline_replay_seconds : Z).
Context (legacy_frontier : DB -> uid -> string) (put_json : string -> Blob) (catalog : string) (sandbox_json : SandboxPolicy -> string).
Context (goal : DB -> assignment -> run -> mission -> bool -> string) (read_manifest : string -> option ReviewManifest).
Context (sha256 : string -> string) (random : string) (uuid5 : uid -> string -> uid).
Context (template : string -> list (string * string) -> string).

(** [root_maintenance.admitted]: the pass of a legacy root maintainer observes the frontier. *)
Definition root_admitted (item : assignment) (now : instant) : M unit :=
  match a_automation_id item with
  | None => mret tt
  | Some k =>
      au ← (get k : M automation);
      if negb (bool_decide (au_name au = ROOT_MAINTAINER)) then mret tt
      else
        d ← ask id;
        let own := a_run_id item in
        let observed := legacy_frontier d own in
        modify (fun d => d <| tb_run_coordination := <[own :=
          match tb_run_coordination d !! own with
          | Some w => {| rc_frontier_hash := observed;
                         rc_last_progress_at := if bool_decide (rc_frontier_hash w = observed) then rc_last_progress_at w else now;
                         rc_checked_at := now; rc_audit_obligation_id := rc_audit_obligation_id w;
                         rc_audit_frontier_hash := rc_audit_frontier_hash w |}
          | None => {| rc_frontier_hash := observed; rc_last_progress_at := now; rc_checked_at := now;
                       rc_audit_obligation_id := None; rc_audit_frontier_hash := None |}
          end]> (tb_run_coordination d) |>) ;;
        r ← (get own : M run);
        if starts_with BLOCKED_PREFIX (default ""%string (r_status_note r))
        then _ ← change (r_id r) None (fun q : run => q <| r_status_note := None |>); mret tt
        else mret tt
  end.

(** The workspace of the placement; a proposed one is created now.  Its identifier and its path
    on the host are unique. *)
Definition taken_workspace (q : Proposal) (w : workspace) : bool :=
  bool_decide (w_id w = pp_id q) || (bool_decide (w_host_id w = pp_host_id q) && bool_decide (w_path w = pp_path q)).

Definition new_workspace (q : Proposal) (now : instant) : workspace :=
  {| w_id := pp_id q; w_created_at := now; w_updated_at := now; w_revision := 1; w_cleaned_at := None; w_cleanup_error := None;
     w_project_id := pp_project_id q; w_host_id := pp_host_id q; w_repository_id := pp_repository_id q; w_path := pp_path q;
     w_branch_name := pp_branch_name q; w_base_commit_oid := pp_base_commit_oid q; w_head_commit_oid := None;
     w_status := WPreparing |}.

Definition place (actor : Actor) (p : Placement) : M workspace :=
  match p with
  | Stored w => mret w
  | Proposed q =>
      clash ← any (taken_workspace q);
      if (clash : bool) then throw (RuntimeFailure "workspace")
      else
        now ← ask db_now;
        let w := new_workspace q now in
        modify (fun d => d <| tb_workspace := <[w_id w := w]> (tb_workspace d) |>) ;;
        _ ← emit (Some (actor_id actor)) (Some (w_project_id w)) (workspace_subject w) ["status"; "path"] None None None;
        mret w
  end.

Definition new_execution (item : assignment) (h : host) (w : workspace) (hs : harness) (r : run) (children : option Z)
    (a_rev m_rev h_rev bundle sandbox : uid) (n : Z) (now until clock : instant) (i : uid) (_ : instant) : execution :=
  {| x_id := i; x_created_at := clock; x_updated_at := now; x_revision := 1; x_native_capacity := children;
     x_assignment_id := a_id item; x_number := n; x_host_id := h_id h; x_workspace_id := w_id w; x_harness_id := hs_id hs;
     x_assignment_revision_id := a_rev; x_mission_revision_id := m_rev; x_harness_revision_id := h_rev;
     x_skill_bundle_artifact_id := bundle; x_roadmap_snapshot_id := r_adopted_roadmap_snapshot_id r;
     x_sandbox_manifest_artifact_id := sandbox; x_status := XRunning; x_lease_expires_at := until; x_heartbeat_at := Some now;
     x_started_at := Some now; x_finished_at := None; x_stop_confirmed_at := None; x_failure := None |}.

Definition new_claim (l execution : uid) (units : Z) (i : uid) (now : instant) : resource_claim :=
  {| cl_id := i; cl_created_at := now; cl_updated_at := now; cl_revision := 1; cl_resource_limit_id := l;
     cl_execution_id := execution; cl_provider_request_id := None; cl_units := units; cl_released_at := None |}.

Definition new_thread (item : assignment) (w h_rev bundle : uid) (options : ModelOptions) (n : Z) (i : uid) (now : instant)
    : provider_thread :=
  {| t_id := i; t_created_at := now; t_updated_at := now; t_revision := 1; t_assignment_id := a_id item; t_number := n;
     t_label := None; t_description := None; t_kind := Primary; t_parent_request_id := None; t_workspace_id := w;
     t_harness_revision_id := h_rev; t_skill_bundle_artifact_id := bundle; t_provider_thread_id := None;
     t_provider_state_ref := ("assignments/" +:+ uuid_str (a_id item) +:+ "/provider")%string; t_predecessor_id := None;
     t_recovery_note := None; t_applied_mission_revision_id := None; t_applied_roadmap_snapshot_id := None;
     t_applied_run_revision := None; t_applied_model_options := options; t_status := Creating |}.

Definition new_agent (name : string) (execution : uid) (i : uid) (now : instant) : principal :=
  {| pr_id := i; pr_created_at := now; pr_updated_at := now; pr_revision := 1; pr_kind := Agent; pr_display_name := name;
     pr_username := None; pr_host_id := None; pr_execution_id := Some execution; pr_service_name := None; pr_disabled_at := None |}.

Definition save (project : uid) (text : string) (execution : option uid) : M artifact :=
  let b := put_json text in save_blob project (bl_sha256 b) (bl_size b) (bl_media_type b) execution.

(** The prompt travels in the grant, or as an artifact of the assignment when it is long. *)
Definition goal_blob (item : assignment) (project execution : uid) (prompt : string) : M (option artifact) :=
  if 6000 <? Z.of_nat (String.length prompt) then
    a ← save project (canonical_json (JObject [("goal"%string, JString prompt)])) (Some execution);
    attach_artifact (a_id item) (ar_id a) ;;
    mret (Some a)
  else mret None.

(** The context of the session: the one it retains on the host, or a new one. *)
Definition session_thread (item : assignment) (w : workspace) (h_rev bundle : uid) (options : ModelOptions)
    (retained : option provider_thread) : M provider_thread :=
  match retained with
  | Some t => mret t
  | None =>
      n ← next_number t_number (fun t => bool_decide (t_assignment_id t = a_id item));
      t ← create (new_thread item (w_id w) h_rev bundle options n);
      check_primary t ;;
      mret t
  end.

(** The harness revision and the skill bundle that the session pins. *)
Definition pinned (actor : Actor) (hs : harness) (project : uid) (retained : option provider_thread) (mf : option ReviewManifest)
    : M (uid * artifact) :=
  h_rev ← match retained, mf with
          | Some t, _ => mret (t_harness_revision_id t)
          | None, Some f => mret (mf_harness_revision_id f)
          | None, None => snapshot hs (actor_id actor)
          end;
  bundle ← match retained, mf with
           | Some t, _ => (get (t_skill_bundle_artifact_id t) : M artifact)
           | None, Some f => (get (mf_skill_bundle_artifact_id f) : M artifact)
           | None, None => save project catalog None
           end;
  mret (h_rev, bundle).

Definition bundle_sha256 (a : artifact) : result string :=
  match ar_content a with BlobContent s _ _ => Ok s | _ => Err (RuntimeFailure "sha256") end.

(** The harness that a revision records. *)
Definition harness_of (revision : uid) : M harness :=
  row ← (get revision : M record_revision);
  match rr_content row with
  | CHarness hs => mret hs
  | _ => throw (RuntimeFailure "harness revision")
  end.

(** The index [uq_execution_live]: one live execution of an assignment, and one in a workspace. *)
Definition live_clash (a w : uid) (x : execution) : bool :=
  live_status x && (bool_decide (x_assignment_id x = a) || bool_decide (x_workspace_id x = w)).

(** The execution with its claims, and the assignment that runs. *)
Definition launch (actor : Actor) (item : assignment) (r : run) (slot : Slot) (h : host) (w : workspace) (hs : harness)
    (m : mission) (children : option Z) (a_rev m_rev h_rev bundle : uid) (now : instant) : M (execution * assignment) :=
  sandbox ← save (m_project_id m) (sandbox_json (h_sandbox h)) None;
  clock ← ask db_clock;
  n ← next_number x_number (fun x => bool_decide (x_assignment_id x = a_id item));
  clash ← any (live_clash (a_id item) (w_id w));
  if (clash : bool) then throw (RuntimeFailure "uq_execution_live")
  else
  x ← create (new_execution item h w hs r children a_rev m_rev h_rev bundle (ar_id sandbox) n now (now + seconds lease_seconds) clock);
  for_each (fun l => _ ← create (new_claim (rl_id l) (x_id x) (1 + default 0 children)); mret tt) (sl_limits slot) ;;
  row ← change (a_id item) None (fun a : assignment =>
    a <| a_status := Running |> <| a_started_at := Some (default now (a_started_at item)) |> <| a_retry_at := None |>
      <| a_finished_at := None |> <| a_status_note := None |> <| a_checkpoint_requested_at := None |>);
  mret (x, row).

Definition start (actor : Actor) (item : assignment) (r : run) (slot : Slot) (h : host) (p : Placement) (now : instant) : M Grant :=
  d ← ask id;
  capacity ← lift (native_capacity d item r slot);
  let children := reserved_children r capacity in
  item ← (if is_objective r then admitted template item r else mret item);
  root_admitted item now ;;
  w ← place actor p;
  preparation ← (if bool_decide (w_status w = WPreparing) then workspace_preparation item w else mret None);
  m ← (get (a_mission_id item) : M mission);
  hs ← (get (sl_harness_id slot) : M harness);
  d ← ask id;
  let retained := retained_thread_for_host d (a_id item) (h_id h) in
  a_rev ← snapshot item (actor_id actor);
  m_rev ← snapshot m (actor_id actor);
  mf ← (if present (a_reviewer_descriptor_id item)
        then review ← assignment_manifest read_manifest item; mret (snd <$> review) else mret None);
  '(h_rev, bundle) ← pinned actor hs (m_project_id m) retained mf;
  '(x, row) ← launch actor item r slot h w hs m children a_rev m_rev h_rev (ar_id bundle) now;
  t ← session_thread item w h_rev (ar_id bundle)
        (match mf with Some f => mf_model_options f | None => merge_options (hs_model_options hs) (a_model_options item) end) retained;
  agent ← create (new_agent ("R" +:+ pretty (r_number r) +:+ "/A" +:+ pretty (a_number item))%string (x_id x));
  '(_, token) ← issue_credential sha256 random (pr_id agent) ExecutionToken "Execution lease" (Some (now + seconds lease_seconds));
  _ ← emit (Some (actor_id actor)) (Some (m_project_id m)) (assignment_subject row) ["status"; "started_at"]
        (Some "pending"%string) None None;
  d ← ask id;
  let prompt := goal d item r m (negb (present (t_provider_thread_id t))) in
  artifact ← goal_blob item (m_project_id m) (x_id x) prompt;
  sha ← lift (bundle_sha256 bundle);
  configuration ← harness_of h_rev;
  mret {| gr_execution_id := x_id x; gr_assignment_id := a_id item; gr_epoch := x_number x; gr_lease_seconds := lease_seconds;
          gr_max_offline_replay_seconds := max_offline_replay_seconds;
          gr_harness_id := hs_id hs; gr_max_parallel_subagents := capacity; gr_sandbox_manifest := h_sandbox h;
          gr_workspace_id := w_id w; gr_workspace_path := w_path w; gr_workspace_preparation := preparation;
          gr_repository_id := w_repository_id w; gr_goal := if present artifact then ""%string else prompt;
          gr_goal_artifact_id := ar_id <$> artifact; gr_skill_bundle_sha256 := sha; gr_provider_thread_record_id := t_id t;
          gr_provider_thread_id := t_provider_thread_id t; gr_mission_revision_id := m_rev;
          gr_mission_revision_number := m_revision m; gr_run_revision := r_revision r; gr_role := a_role item;
          gr_functions := a_functions item; gr_roadmap_snapshot_id := r_adopted_roadmap_snapshot_id r;
          gr_harness_configuration := configuration <| hs_model_options := t_applied_model_options t |>; gr_execution_token := token |}.

(** ** Slots *)

Definition enabled_hosts (d : DB) (r : uid) : list uid :=
  omap (fun kv => if bool_decide (kv.1.1 = r) && kv.2 then Some kv.1.2 else None) (map_to_list (tb_run_host d)).

Definition harness_fits (item : assignment) (slot : Slot) : bool :=
  match a_harness_id item with Some x => bool_decide (x = sl_harness_id slot) | None => true end.

Definition slot_free (d : DB) (slot : Slot) : bool :=
  (busy_weight (on_harness (sl_host_id slot) (sl_harness_id slot)) d <? sl_execution_slots slot) && limits_available d (sl_limits slot).

(** Another host has a free slot and a ready workspace that no session retains. *)
Definition better_host (item : assignment) (host_id : uid) (slot : Slot) : M (option unit) :=
  d ← ask id;
  if bool_decide (sl_host_id slot = host_id) || negb (harness_fits item slot) || negb (slot_free d slot) then mret None
  else
    p ← available_workspace uuid5 item (sl_host_id slot);
    mret match p with
         | Some (Stored w) => if bool_decide (w_status w = WReady) && negb (retained_workspace d (w_id w)) then Some tt else None
         | _ => None
         end.

Definition prefer_other_workspace_host (item : assignment) (p : Placement) : M bool :=
  d ← ask id;
  let '(preparing, id_, host_id) := match p with
    | Stored w => (bool_decide (w_status w = WPreparing), w_id w, w_host_id w)
    | Proposed q => (true, pp_id q, pp_host_id q)
    end in
  if negb preparing && negb (retained_workspace d id_) then mret false
  else
    o ← first_success (better_host item host_id) (capacity d stale_seconds (enabled_hosts d (a_run_id item)));
    mret (present o).

(** The harness that the retained context was created for. *)
Definition other_harness (slot : Slot) (t : provider_thread) : M bool :=
  hs ← harness_of (t_harness_revision_id t);
  mret (negb (bool_decide (hs_id hs = sl_harness_id slot))).

(** One slot for one candidate: a grant, or nothing. *)
Definition try_slot (actor : Actor) (host_id : uid) (h : host) (item : assignment) (r : run) (now : instant) (slot : Slot)
    : M (option Grant) :=
  d ← ask id;
  blocked ← lift (blocker d item r (Some (host_id, sl_harness_id slot, sl_execution_slots slot)));
  if present (truthy blocked) then mret None
  else if negb (harness_fits item slot) then mret None
  else
    _ ← retire_orphaned_prelaunch_threads actor (a_id item) host_id;
    _ ← retire_failed_primary_contexts actor (a_id item);
    d ← ask id;
    let previous := retained_thread_for_host d (a_id item) host_id in
    mismatch ← match previous with Some t => other_harness slot t | None => mret false end;
    if (mismatch : bool) then mret None
    else if negb ((busy_weight (on_harness host_id (sl_harness_id slot)) d <? sl_execution_slots slot)
                  && limits_available d (sl_limits slot)) then mret None
    else
      p ← available_workspace uuid5 item host_id;
      match p with
      | None => mret None
      | Some p =>
          elsewhere ← (if present previous then mret false else prefer_other_workspace_host item p);
          if (elsewhere : bool) then mret None
          else g ← start actor item r slot h p now; mret (Some g)
      end.

(** ** Candidates *)

Definition active_planner (r : uid) (a : assignment) : bool := keyed (active_key r) a.

(** One candidate on the slots of the host. *)
Definition try_candidate (actor : Actor) (host_id : uid) (h : host) (slots : list Slot) (now : instant) (item : assignment)
    : M (option Grant) :=
  d ← ask id;
  is_ready ← lift (ready d item);
  if negb is_ready then mret None
  else
    uncertain ← any (outstanding_request d (a_id item));
    if (uncertain : bool) then mret None
    else
      r ← (get (a_run_id item) : M run);
      blocked ← lift (blocker d item r None);
      if present (truthy blocked) then mret None
      else
        planning ← any (active_planner (r_id r));
        if bool_decide (a_recurrence_key item = Some (next_key (r_id r))) && planning then mret None
        else first_success (try_slot actor host_id h item r now) slots.

(** An optional date sorts before every date when it is null. *)
Definition nulls_first (o : option instant) : list Z := match o with None => [0; 0] | Some t => [1; t] end.

Fixpoint key_leb (a b : list Z) : bool :=
  match a, b with
  | x :: a, y :: b => (x <? y) || ((x =? y) && key_leb a b)
  | [], _ => true
  | _ :: _, [] => false
  end.

(** The latest execution on the host, by the assignments that [p] selects. *)
Definition newer_execution (x y : execution) : bool :=
  (x_created_at y <? x_created_at x) || ((x_created_at y =? x_created_at x) && Pos.leb (x_id y) (x_id x)).

Definition last_on_host (d : DB) (h : uid) (p : assignment -> bool) : option assignment :=
  x ← first_by newer_execution (stored_rows (fun x => bool_decide (x_host_id x = h)
        && match tb_assignment d !! x_assignment_id x with Some a => p a | None => false end) d);
  tb_assignment d !! x_assignment_id x.

Definition last_admission (d : DB) (r : uid) : option instant :=
  match map x_created_at (stored_rows (fun x => match tb_assignment d !! x_assignment_id x with
                                                | Some a => bool_decide (a_run_id a = r)
                                                | None => false
                                                end) d) with
  | [] => None
  | t :: l => Some (List.fold_left Z.max l t)
  end.

(** The [ORDER BY] of the candidates. *)
Definition claim_key (d : DB) (now : instant) (preferred : string) (a : assignment) (r : run) : list Z :=
  [ if bool_decide (r_orchestration r = LegacyRun) then 1 else if bool_decide (a_category a = Some preferred) then 0 else 2;
    if is_objective r && mem "planner"%string (a_functions a) then 0 else 1;
    if match a_retry_at a with Some t => t <=? now | None => false end then 0
    else if present (a_start_condition a) then 2 else 1 ]
  ++ nulls_first (a_retry_at a) ++ nulls_first (last_admission d (r_id r))
  ++ [Zpos (r_id r); a_queue_rank a; Zpos (a_id a)].

Definition due (d : DB) (h : uid) (now : instant) (a : assignment) : option (assignment * run) :=
  r ← tb_run d !! a_run_id a;
  if bool_decide (tb_run_host d !! (r_id r, h) = Some true) && mem (r_status r) [RunActive; RunDraining]
     && bool_decide (a_status a = Pending)
     && (bool_decide (r_orchestration r = LegacyRun)
         || match r_pending_phase r with None => true | Some q => bool_decide (pp_owner_session q = Some (a_id a)) end)
     && match a_not_before a with Some t => t <=? now | None => true end
     && match a_retry_at a with Some t => t <=? now | None => true end
     && match a_expires_at a with Some t => now <? t | None => true end
  then Some (a, r) else None.

Definition supervisory (a : assignment) : bool := mem "orchestrator"%string (a_functions a).

Definition candidates (d : DB) (h : uid) (now : instant) (preferred : string) : list assignment :=
  map fst (sort_by (fun p q => key_leb (claim_key d now preferred p.1 p.2) (claim_key d now preferred q.1 q.2))
    (omap (due d h now) (map snd (map_to_list (tb_assignment d))))).

(** One bounded page of a profile; the offset moves on when a full page was rejected. *)
Definition scan (actor : Actor) (host_id : uid) (h : host) (slots : list Slot) (now : instant) (ordered : list assignment)
    (offsets : gmap (uid * bool) nat) (profile : bool) : M (option Grant * gmap (uid * bool) nat) :=
  let offset := default 0%nat (offsets !! (host_id, profile)) in
  let page := take CLAIM_SCAN_LIMIT (drop offset (List.filter (fun a => Bool.eqb (supervisory a) profile) ordered)) in
  g ← first_success (try_candidate actor host_id h slots now) page;
  mret (g, <[(host_id, profile) :=
              match g with
              | Some _ => 0%nat
              | None => if Nat.eqb (List.length page) CLAIM_SCAN_LIMIT then (offset + List.length page)%nat else 0%nat
              end]> offsets).

Definition claim (actor : Actor) (host_id : uid) (harness_ids : list uid) (offsets : gmap (uid * bool) nat)
    : M (option Grant * gmap (uid * bool) nat) :=
  require_host actor host_id ;;
  h ← (get host_id : M host);
  if negb (bool_decide (h_mode h = HostEnabled)) then mret (None, offsets)
  else
    now ← ask db_now;
    _ ← change host_id None (fun h : host => h <| h_heartbeat_at := Some now |>);
    if storage_paused then mret (None, offsets)
    else
      _ ← reconcile_goal_updates None;
      d ← ask id;
      let slots := List.filter (fun s => mem (sl_harness_id s) harness_ids) (capacity d stale_seconds [host_id]) in
      let turn := negb match last_on_host d host_id (fun _ => true) with Some a => supervisory a | None => false end in
      let preferred := match last_on_host d host_id (fun a => present (a_category a)) with
                       | Some a => if bool_decide (a_category a = Some "work"%string) then "maintenance"%string else "work"%string
                       | None => "work"%string
                       end in
      '(g, offsets) ← scan actor host_id h slots now (candidates d host_id now preferred) offsets turn;
      match g with
      | Some _ => mret (g, offsets)
      | None =>
          d ← ask id;
          scan actor host_id h slots now (candidates d host_id now preferred) offsets (negb turn)
      end.
End admission.
