(* ===== verification/AdmissionSafety.v ===== *)
(** * Admission: what a claim preserves

    A claim starts at most one execution.  The workspace it runs in was free, so that two
    executions that may still have a process never share a directory; and with the children
    reserved for it the execution fits its host's harness, its category and its shared limits. *)

From S2P Require Import Prelude Contracts Conditions WorkerContracts Schema Records Auth Samples MissionTree Missions Ledger Usage Capacity Sessions Assignments Settlement Runs Workspaces Labels Objectives Phases Leases Admission.

(** ** Owners

    Assignments keep their run and their category, and runs their orchestration, while new
    assignments get identifiers that were never used. *)

Definition fresh_assignments (d : DB) : Prop := forall i, is_Some (tb_assignment d !! i) -> (i < db_next d)%positive.

Definition owners (d d' : DB) : Prop :=
  (db_next d <= db_next d')%positive
  /\ (fresh_assignments d ->
      fresh_assignments d'
      /\ (forall i a, tb_assignment d !! i = Some a ->
            exists a', tb_assignment d' !! i = Some a' /\ a_run_id a' = a_run_id a /\ a_category a' = a_category a
              /\ a_role a' = a_role a)
      /\ forall i r, tb_run d !! i = Some r -> exists r', tb_run d' !! i = Some r' /\ r_orchestration r' = r_orchestration r).

#[export] Instance owners_preorder : PreOrder owners.
Proof.
  split.
  - intros d. split; [done|]. eauto 10.
  - intros d1 d2 d3 [N1 H1] [N2 H2]. split; [lia|]. intros F1. destruct (H1 F1) as (F2 & A1 & R1).
    destruct (H2 F2) as (F3 & A2 & R2). split; [done|]. split.
    + intros i a Ha. destruct (A1 i a Ha) as (b & Hb & E1 & E2 & E3). destruct (A2 i b Hb) as (c & Hc & E4 & E5 & E6).
      exists c. repeat split; congruence.
    + intros i r Hr. destruct (R1 i r Hr) as (s & Hs & E1). destruct (R2 i s Hs) as (t & Ht & E2). exists t. split; congruence.
Qed.

Lemma owners_same d d' :
  (db_next d <= db_next d')%positive -> tb_assignment d' = tb_assignment d -> tb_run d' = tb_run d -> owners d d'.
Proof.
  intros Hn Ha Hr. split; [done|]. intros F. unfold fresh_assignments in *. rewrite Ha, Hr. split; [|eauto 10].
  intros i Hi. specialize (F i Hi). lia.
Qed.

#[export] Hint Extern 0 (Quiet owners _) => (split; intros; apply owners_same; cbn; (lia || reflexivity)) : typeclass_instances.

Lemma owners_create_assignment (v : uid -> instant -> assignment) : Keeps owners (create v).
Proof.
  intros d a d' H. injection H as <- <-. split; cbn; [lia|]. intros F. split; [|split; [|eauto]].
  - intros i. cbn. rewrite lookup_insert_is_Some'. intros [->|Hi%F]; lia.
  - intros i a Ha. exists a. split; [|done]. rewrite lookup_insert_ne; [done|]. intros <-.
    assert (is_Some (tb_assignment d !! db_next d)) as E%F by eauto. lia.
Qed.
#[export] Hint Resolve owners_create_assignment : frame.

Lemma owners_change_assignment i e (f : assignment -> assignment) :
  (forall a, a_run_id (f a) = a_run_id a /\ a_category (f a) = a_category a /\ a_role (f a) = a_role a) -> Keeps owners (change i e f).
Proof.
  intros Hf d a d' (b & Hb & _ & -> & ->)%change_Ok. cbn in Hb. split; [done|]. intros F. split; [|split; [|eauto]].
  - intros j. cbn. rewrite lookup_insert_is_Some'. intros [->|Hj%F]; [apply F; eauto|done].
  - intros j c Hc. cbn. destruct (decide (i = j)) as [<-|].
    + rewrite lookup_insert_eq. rewrite Hb in Hc. injection Hc as <-. eexists. split; [done|]. apply Hf.
    + rewrite lookup_insert_ne by done. eauto.
Qed.
#[export] Hint Extern 1 (Keeps owners (change _ _ _)) => (apply owners_change_assignment; intros ?; repeat split; reflexivity) : frame.

Lemma owners_change_run i e (f : run -> run) :
  (forall r, r_orchestration (f r) = r_orchestration r) -> Keeps owners (change i e f).
Proof.
  intros Hf d a d' (b & Hb & _ & -> & ->)%change_Ok. cbn in Hb. split; [done|]. intros F. split; [done|]. split; [eauto 10|].
  intros j c Hc. cbn. destruct (decide (i = j)) as [<-|].
  - rewrite lookup_insert_eq. rewrite Hb in Hc. injection Hc as <-. eexists. split; [done|]. apply Hf.
  - rewrite lookup_insert_ne by done. eauto.
Qed.
#[export] Hint Extern 1 (Keeps owners (change _ _ _)) => (apply owners_change_run; intros ?; reflexivity) : frame.

#[export] Hint Extern 1 (Keeps owners (modify _)) =>
  (apply keeps_modify; intros; apply owners_same; cbn; (lia || reflexivity)) : frame.

Lemma owners_link_mission i n l : Keeps owners (link_mission i n l).
Proof. unfold link_mission. frame. Qed.
#[export] Hint Resolve owners_link_mission : frame.

Lemma owners_create_row actor data k b c : Keeps owners (create_assignment actor data k b c).
Proof. unfold create_assignment. frame. Qed.
#[export] Hint Resolve owners_create_row : frame.

Lemma owners_ensure_successor template r au : Keeps owners (ensure_successor template r au).
Proof. unfold ensure_successor, child_mission, parse_mission, system_actor, change_assignment. frame. Qed.
#[export] Hint Resolve owners_ensure_successor : frame.

Lemma owners_admitted template item r : Keeps owners (admitted template item r).
Proof. unfold admitted, planner_of, change_assignment. frame. Qed.
#[export] Hint Resolve owners_admitted : frame.

(** ** Sums over a table *)

Lemma sum_by_filter_cons {A} (f : A -> Z) p x l :
  sum_by f (List.filter p (x :: l)) = (if p x then f x else 0) + sum_by f (List.filter p l).
Proof. cbn. by destruct (p x). Qed.

Lemma filter_Permutation {A} (p : A -> bool) l l' : l ≡ₚ l' -> List.filter p l ≡ₚ List.filter p l'.
Proof. induction 1; cbn; repeat case_match; eauto using Permutation. Qed.

(** The total of the selected rows of a table, after a row is inserted at a new key. *)
Lemma sum_by_insert {A} (f : A -> Z) p (m : gmap uid A) k x :
  m !! k = None ->
  sum_by f (List.filter p (map snd (map_to_list (<[k := x]> m))))
  = (if p x then f x else 0) + sum_by f (List.filter p (map snd (map_to_list m))).
Proof.
  intros Hk. rewrite <- sum_by_filter_cons. apply sum_by_Permutation, filter_Permutation.
  by rewrite map_to_list_insert.
Qed.

Lemma sum_by_ext {A} (f : A -> Z) p q (m : gmap uid A) :
  (forall i x, m !! i = Some x -> p x = q x) ->
  sum_by f (List.filter p (map snd (map_to_list m))) = sum_by f (List.filter q (map snd (map_to_list m))).
Proof.
  intros H. f_equal. apply filter_ext_in. intros x Hx%list_elem_of_In.
  apply list_elem_of_fmap in Hx as ([i y] & -> & Hi%elem_of_map_to_list). by eapply H.
Qed.

(** ** Busy executions *)

(** Every execution names an assignment of a stored run, and a stored workspace. *)
Definition owned (d : DB) (x : execution) : Prop :=
  exists a r, tb_assignment d !! x_assignment_id x = Some a /\ tb_run d !! a_run_id a = Some r.

Lemma owners_objective d d' x :
  owners d d' -> fresh_assignments d -> owned d x ->
  objective_assignment d' (x_assignment_id x) = objective_assignment d (x_assignment_id x).
Proof.
  intros [_ H] F (a & r & Ha & Hr). destruct (H F) as (_ & HA & HR).
  destruct (HA _ _ Ha) as (a' & Ha' & Er & _). destruct (HR _ _ Hr) as (r' & Hr' & Eo).
  unfold objective_assignment. rewrite Ha, Ha'. cbn. by rewrite Er, Hr, Hr', Eo.
Qed.

Lemma owners_busy d d' x :
  owners d d' -> fresh_assignments d -> owned d x ->
  tb_provider_request d' = tb_provider_request d -> db_now d' = db_now d ->
  execution_busy d' x = execution_busy d x.
Proof. intros Ho F Hx Hq Hn. unfold execution_busy. by rewrite (owners_objective d d' x), Hq, Hn. Qed.

(** The weight of the busy executions after an execution was started at a new key. *)
Lemma busy_weight_started d d' k x p q :
  owners d d' -> fresh_assignments d ->
  tb_provider_request d' = tb_provider_request d -> db_now d' = db_now d ->
  tb_execution d' = <[k := x]> (tb_execution d) -> tb_execution d !! k = None ->
  (forall i y, tb_execution d !! i = Some y -> owned d y /\ q y = p y) -> live_status x = true ->
  busy_weight q d' = (if q x then x_weight x else 0) + busy_weight p d.
Proof.
  intros Ho F Hq Hn Hx Hk Hp Hl. unfold busy_weight. rewrite Hx, sum_by_insert by done. f_equal.
  - unfold execution_busy. rewrite Hl. cbn. by rewrite andb_true_r.
  - apply sum_by_ext. intros i y Hy. destruct (Hp i y Hy) as [Hy1 ->]. by erewrite owners_busy.
Qed.

(** ** The claims of a start *)

Definition fresh_claims (d : DB) : Prop := forall i, is_Some (tb_resource_claim d !! i) -> (i < db_next d)%positive.

(** One claim on each limit, with the row that [v] gives for it. *)
Definition claims_each (v : uid -> uid -> instant -> resource_claim) (ls : list resource_limit) : M unit :=
  for_each (fun l => _ ← create (v (rl_id l)); mret tt) ls.

Lemma claimed_insert d d' k c i :
  tb_resource_claim d' = <[k := c]> (tb_resource_claim d) -> tb_resource_claim d !! k = None -> cl_released_at c = None ->
  claimed d' i = claimed d i + (if bool_decide (cl_resource_limit_id c = i) then cl_units c else 0).
Proof.
  intros E Hk Hc. unfold claimed. rewrite E, sum_by_insert by done. rewrite Hc, (bool_decide_eq_true_2 (None = None)) by done.
  rewrite andb_true_r. lia.
Qed.

Lemma fresh_claims_none d : fresh_claims d -> tb_resource_claim d !! db_next d = None.
Proof. intros F. apply eq_None_not_Some. intros H%F. lia. Qed.

Lemma claims_each_spec v n ls d u d' :
  (forall l i now, cl_resource_limit_id (v l i now) = l /\ cl_units (v l i now) = n /\ cl_released_at (v l i now) = None) ->
  claims_each v ls d = Ok (u, d') -> fresh_claims d -> NoDup (map rl_id ls) ->
  fresh_claims d'
  /\ forall i, claimed d' i = claimed d i + (if decide (i ∈ map rl_id ls) then n else 0).
Proof.
  intros Hv. revert d. induction ls as [|l ls IH]; intros d H F Hd; cbn in H.
  - apply ret_Ok in H as [_ ->]. split; [done|]. intros i. rewrite decide_False by apply not_elem_of_nil. lia.
  - apply bind_Ok in H as (? & d1 & H1 & H). apply bind_Ok in H1 as (c & d0 & E & H1). apply ret_Ok in H1 as [_ ->].
    injection E as <- <-. set (d1 := d <| db_next := _ |> <| tb_resource_claim := _ |>) in H.
    apply NoDup_cons in Hd as [Hn Hd].
    assert (fresh_claims d1) as F1.
    { intros i. unfold d1. cbn. rewrite lookup_insert_is_Some'. intros [->|Hi%F]; lia. }
    destruct (IH d1 H F1 Hd) as [F' C]. split; [done|]. intros i. rewrite C.
    destruct (Hv (rl_id l) (db_next d) (db_now d)) as (Hl & Hu & Hc).
    rewrite (claimed_insert d d1 (db_next d) _ i eq_refl (fresh_claims_none d F) Hc), Hl, Hu.
    case_bool_decide as Ei.
    + subst i. rewrite (decide_False (P := rl_id l ∈ map rl_id ls)), (decide_True (P := rl_id l ∈ map rl_id (l :: ls))) by (done || by left). lia.
    + destruct (decide (i ∈ map rl_id ls)); [rewrite decide_True by (by right)|rewrite decide_False]; [lia|lia|].
      cbn. intros [?|?]%elem_of_cons; [by subst|done].
Qed.

(** ** A start *)

(** What the steps before and after the creation of the execution leave alone. *)
Definition steady (d : DB) := (tb_execution d, tb_resource_claim d, tb_provider_request d, db_now d).

Definition calm (d d' : DB) : Prop := owners d d' /\ steady d' = steady d.

#[export] Instance calm_preorder : PreOrder calm.
Proof. split; [done|]. intros d1 d2 d3 [O1 E1] [O2 E2]. split; [by etrans|congruence]. Qed.

#[export] Hint Extern 0 (Quiet calm _) =>
  (split; intros; (split; [apply owners_same; cbn; (lia || reflexivity)|reflexivity])) : typeclass_instances.
#[export] Hint Extern 1 (Keeps calm (modify _)) =>
  (apply keeps_modify; intros; split; [apply owners_same; cbn; (lia || reflexivity)|reflexivity]) : frame.

(** [calms H]: the transaction [H] is calm. *)
Ltac calms H := within calm H.

Section start.
Context (ready : DB -> assignment -> result bool) (storage_paused : bool) (stale_seconds lease_seconds max_offline_replay_seconds : Z).
Context (legacy_frontier : DB -> uid -> string) (put_json : string -> Blob) (catalog : string) (sandbox_json : SandboxPolicy -> string).
Context (goal : DB -> assignment -> run -> mission -> bool -> string) (read_manifest : string -> option ReviewManifest).
Context (sha256 : string -> string) (random : string) (uuid5 : uid -> string -> uid).
Context (template : string -> list (string * string) -> string).

Abbreviation root_admitted := (root_admitted legacy_frontier).
Abbreviation launch := (launch lease_seconds put_json sandbox_json).
Abbreviation start := (start lease_seconds max_offline_replay_seconds legacy_frontier put_json catalog sandbox_json goal read_manifest
  sha256 random template).

Lemma root_admitted_steady item now : Frame (fun d => (steady d, tb_workspace d)) (root_admitted item now).
Proof. unfold Admission.root_admitted. frame. Qed.

Lemma root_admitted_owners item now : Keeps owners (root_admitted item now).
Proof. unfold Admission.root_admitted. frame. Qed.

Lemma admitted_steady item r : Frame (fun d => (steady d, tb_workspace d)) (admitted template item r).
Proof. intros d a d' H%admitted_frame. injection H as ????????????. unfold same_part, steady. congruence. Qed.

Lemma place_workspace_spec actor p d w d' :
  place actor p d = Ok (w, d') ->
  steady d' = steady d /\ owners d d'
  /\ match p with
     | Stored v => w = v
     | Proposed q => w_host_id w = pp_host_id q /\ forall i v, tb_workspace d !! i = Some v -> w_id v <> w_id w
     end.
Proof.
  intros H. assert (Frame steady (place actor p)) as Hs by (unfold place; frame).
  assert (Keeps owners (place actor p)) as Ho by (unfold place; frame).
  split; [by apply Hs in H|]. split; [by apply Ho in H|]. unfold place in H. destruct p as [v|q].
  - by apply ret_Ok in H as [-> _].
  - apply bind_Ok in H as (clash & ? & [-> Hc]%any_Ok & H). destruct clash; [discriminate H|].
    apply bind_Ok in H as (now & ? & [-> ->]%ask_Ok & H). apply bind_Ok in H as (? & d1 & _ & H).
    apply bind_Ok in H as (? & d2 & _ & H). apply ret_Ok in H as [-> _]. split; [done|]. intros i v Hv E. cbn in E.
    assert (false = true); [|done]. apply Hc. exists i, v. split; [exact Hv|]. unfold taken_workspace.
    by rewrite bool_decide_eq_true_2.
Qed.

Lemma launch_spec actor item r slot h w hs m c ar mr hr b now d x row d' :
  launch actor item r slot h w hs m c ar mr hr b now d = Ok ((x, row), d') ->
  owners d d' /\ x_weight x = 1 + default 0 c /\ x_assignment_id x = a_id item /\ x_host_id x = h_id h
  /\ x_workspace_id x = w_id w /\ x_harness_id x = hs_id hs /\ live_status x = true
  /\ (db_next d <= x_id x)%positive /\ tb_execution d' = <[x_id x := x]> (tb_execution d)
  /\ tb_provider_request d' = tb_provider_request d /\ db_now d' = db_now d
  /\ (fresh_claims d -> NoDup (map rl_id (sl_limits slot)) -> forall i, claimed d' i = claimed d i
        + (if decide (i ∈ map rl_id (sl_limits slot)) then 1 + default 0 c else 0)).
Proof.
  intros H. assert (Keeps owners (launch actor item r slot h w hs m c ar mr hr b now)) as Ho by (unfold Admission.launch, save; frame).
  split; [by apply Ho in H|]. unfold Admission.launch in H.
  apply bind_Ok in H as (sb & d1 & E1 & H). unfold save in E1. grown (fun d => steady d) E1. destruct E1 as [E1 N1].
  skip H. skip H. apply bind_Ok in H as (clash & ? & [-> _]%any_Ok & H). destruct clash; [discriminate H|].
  apply bind_Ok in H as (y & d2 & E2 & H). injection E2 as Ey Ed.
  apply bind_Ok in H as (? & d3 & E3 & H). apply bind_Ok in H as (row' & d4 & E4 & H). apply ret_Ok in H as [[= -> ->] ->].
  leaves (fun d => steady d) E4. pose proof E3 as E3'.
  leaves (fun d => (tb_execution d, tb_provider_request d, db_now d)) E3'. injection E3' as X3 Q3 T3.
  injection E4 as X4 C4 Q4 T4. injection E1 as X1 C1 Q1 T1. subst d2 y. cbn in *.
  split; [done|]. do 5 (split; [done|]). split; [done|]. split; [congruence|]. split; [congruence|]. split; [congruence|].
  intros F Hd i. set (d2 := d1 <| db_next := _ |> <| tb_execution := _ |>) in E3.
  assert (fresh_claims d2) as F2. { intros j Hj. cbn in *. rewrite C1 in Hj. apply F in Hj. lia. }
  apply (claims_each_spec (fun l => new_claim l _ _)) with (n := 1 + default 0 c) in E3 as [_ C]; [|done..]. unfold claimed at 1. rewrite C4.
  change (claimed d3 i = claimed d i + (if decide (i ∈ map rl_id (sl_limits slot)) then 1 + default 0 c else 0)).
  rewrite C. f_equal. unfold claimed. cbn. by rewrite C1.
Qed.

(** The execution that a start creates. *)
Record started (d : DB) (item : assignment) (r : run) (slot : Slot) (h : host) (p : Placement) (g : Grant) (x : execution)
    (c : option Z) (d' : DB) : Prop := {
  st_owners : owners d d';
  st_capacity : native_capacity d item r slot = Ok c;
  st_weight : x_weight x = 1 + default 0 (reserved_children r c);
  st_live : live_status x = true;
  st_assignment : x_assignment_id x = a_id item;
  st_host : x_host_id x = h_id h;
  st_harness : exists hs, tb_harness d !! sl_harness_id slot = Some hs /\ x_harness_id x = hs_id hs;
  st_grant : gr_execution_id g = x_id x /\ gr_assignment_id g = a_id item /\ gr_workspace_id g = x_workspace_id x;
  st_new : (db_next d <= x_id x)%positive;
  st_execution : tb_execution d' = <[x_id x := x]> (tb_execution d);
  st_request : tb_provider_request d' = tb_provider_request d;
  st_now : db_now d' = db_now d;
  st_claimed : fresh_claims d -> NoDup (map rl_id (sl_limits slot)) -> forall i, claimed d' i = claimed d i
    + (if decide (i ∈ map rl_id (sl_limits slot)) then 1 + default 0 (reserved_children r c) else 0);
  st_workspace : match p with
                 | Stored w => x_workspace_id x = w_id w
                 | Proposed q => forall i v, tb_workspace d !! i = Some v -> w_id v <> x_workspace_id x
                 end }.

Lemma admitted_id item r d row d' :
  admitted template item r d = Ok (row, d') -> tb_assignment d !! a_id item = Some item -> a_id row = a_id item.
Proof.
  unfold admitted, planner_of. intros H Hi. skip H.
  match goal with o : option automation |- _ => destruct o as [au|] end; [|by apply ret_Ok in H as [-> _]].
  apply bind_Ok in H as (row' & d1 & (a & Ha & _ & -> & _)%change_assignment_Ok & H).
  apply bind_Ok in H as (? & d2 & _ & H). apply ret_Ok in H as [-> _]. rewrite Hi in Ha. by injection Ha as <-.
Qed.

Lemma start_spec actor item r slot h p now d g d' :
  start actor item r slot h p now d = Ok (g, d') -> tb_assignment d !! a_id item = Some item ->
  exists x c, started d item r slot h p g x c d'.
Proof.
  unfold Admission.start. intros H Hi. apply bind_Ok in H as (? & ? & [-> ->]%ask_Ok & H). cbn [id] in H.
  apply bind_Ok in H as (c & ? & [Hc ->]%lift_Ok & H). apply bind_Ok in H as (item' & d1 & E1 & H).
  assert (a_id item' = a_id item) as Hid.
  { destruct (is_objective r); [by eapply admitted_id|by apply ret_Ok in E1 as [-> _]]. }
  assert (owners d d1 /\ steady d1 = steady d /\ tb_workspace d1 = tb_workspace d /\ tb_harness d1 = tb_harness d) as (O1 & S1 & W1 & K1).
  { destruct (is_objective r); [|by apply ret_Ok in E1 as [_ ->]].
    split; [by apply owners_admitted in E1|]. pose proof E1 as E1'. apply admitted_steady in E1'. injection E1' as X C Q T W.
    split; [unfold steady; congruence|]. split; [done|]. unfold admitted, planner_of, ensure_successor, child_mission, parse_mission, system_actor in E1.
    by leaves tb_harness E1. }
  apply bind_Ok in H as (? & d2 & E2 & H). pose proof (root_admitted_owners _ _ _ _ _ E2) as O2.
  pose proof E2 as S2. apply root_admitted_steady in S2. unfold Admission.root_admitted in E2. leaves tb_harness E2.
  apply bind_Ok in H as (w & d3 & E3 & H). pose proof (place_workspace_spec _ _ _ _ _ E3) as (S3 & O3 & P3).
  unfold place in E3. leaves tb_harness E3. skip H. skip H.
  apply bind_Ok in H as (hs & ? & [Hs ->]%get_Ok & H). apply bind_Ok in H as (? & ? & [-> ->]%ask_Ok & H). cbn [id] in H.
  apply bind_Ok in H as (ar & d4 & E4 & H). apply bind_Ok in H as (mr & d5 & E5 & H). skip H.
  apply bind_Ok in H as ([hr b] & d6 & E6 & H). unfold pinned, save in E6.
  calms E4. calms E5. calms E6.
  apply bind_Ok in H as ([y row] & d7 & E7 & H).
  apply launch_spec in E7 as (O7 & Wx & Ax & Hx & Wsx & Ksx & Lx & Nx & X7 & Q7 & T7 & C7).
  apply bind_Ok in H as (t & d8 & E8 & H). unfold session_thread in E8. calms E8.
  apply bind_Ok in H as (ag & d9 & E9 & H). calms E9. apply bind_Ok in H as ([cr token] & d10 & E10 & H). unfold issue_credential in E10.
  calms E10. apply bind_Ok in H as (? & d11 & E11 & H). calms E11. skip H.
  apply bind_Ok in H as (go & d12 & E12 & H). unfold goal_blob, save in E12. calms E12. skip H. unfold harness_of in H. skip H.
  apply ret_Ok in H as [-> ->].
  assert (calm d7 d12) as [O12 S12] by (do 5 (etrans; [eassumption|]); reflexivity).
  assert (calm d d6) as [O6 S6].
  { transitivity d3; [|do 3 (etrans; [eassumption|]); reflexivity]. split; [by do 2 (etrans; [eassumption|])|].
    injection S2. unfold steady in *. congruence. }
  injection S6 as X6 C6 Q6 T6. injection S12 as X12 C12 Q12 T12. exists y, c. split; try done.
  - etrans; [exact O6|]. by etrans.
  - congruence.
  - exists hs. split; [|done]. cbn in Hs. congruence.
  - destruct O6. lia.
  - congruence.
  - congruence.
  - congruence.
  - intros F Hd i. unfold claimed at 1. rewrite C12. change (claimed d7 i = claimed d i
      + (if decide (i ∈ map rl_id (sl_limits slot)) then 1 + default 0 (reserved_children r c) else 0)).
    rewrite C7; [unfold claimed; by rewrite C6| |done]. intros j. rewrite C6. intros Hj%F. destruct O6. lia.
  - destruct p as [v|q]; [congruence|]. destruct P3 as [_ P3]. intros i v Hv. rewrite Wsx. apply (P3 i).
    injection S2 as ???? W2. congruence.
Qed.

(** ** A claim *)

(** What a claim leaves alone until it starts a session. *)
Definition queue_part (d : DB) := (tb_assignment d, tb_run d, tb_execution d, tb_resource_claim d, tb_provider_request d,
  tb_workspace d, tb_harness d, tb_host_harness d, tb_host_harness_limit d, tb_resource_limit d, db_now d).

Abbreviation waits := (grows queue_part).

Lemma queue_busy_weight p d d' : queue_part d' = queue_part d -> busy_weight p d' = busy_weight p d.
Proof.
  intros E. injection E as A R X _ Q _ _ _ _ _ N. unfold busy_weight. rewrite X. apply sum_by_ext. intros i x _. f_equal.
  unfold execution_busy, objective_assignment. by rewrite A, R, Q, N.
Qed.

Lemma queue_in_category d d' r name x : queue_part d' = queue_part d -> in_category d' r name x = in_category d r name x.
Proof. intros E. injection E as A. unfold in_category. by rewrite A. Qed.

Lemma queue_busy_workspace d d' w : queue_part d' = queue_part d -> busy_workspace d' w = busy_workspace d w.
Proof.
  intros E. injection E as A R X _ Q _ _ _ _ _ N. unfold busy_workspace. rewrite X.
  unfold execution_busy, objective_assignment. by rewrite A, R, Q, N.
Qed.

Lemma queue_category_weight d d' r name :
  queue_part d' = queue_part d -> busy_weight (in_category d' r name) d' = busy_weight (in_category d r name) d.
Proof.
  intros E. rewrite <- (queue_busy_weight _ d d' E). unfold busy_weight. apply sum_by_ext. intros i x _.
  by rewrite (queue_in_category d d').
Qed.

Lemma first_success_spec {A B} R `{!PreOrder R} (f : A -> M (option B)) l d o d' :
  (forall a d1 d2, f a d1 = Ok (None, d2) -> R d1 d2) ->
  first_success f l d = Ok (o, d') ->
  match o with
  | None => R d d'
  | Some b => exists a d1, a ∈ l /\ R d d1 /\ f a d1 = Ok (Some b, d')
  end.
Proof.
  intros Hf. revert d. induction l as [|a l IH]; intros d H; cbn in H.
  - by apply ret_Ok in H as [-> ->].
  - apply bind_Ok in H as (o1 & d1 & H1 & H). destruct o1 as [b|].
    + apply ret_Ok in H as [-> ->]. exists a, d. split; [by left|]. by split.
    + specialize (IH d1 H). apply Hf in H1. destruct o as [b|]; [|by etrans].
      destruct IH as (a' & d2 & Ha & H2 & H3). exists a', d2. split; [by right|]. split; [by etrans|done].
Qed.

Lemma keeps_first_success {A B} R `{!PreOrder R} (f : A -> M (option B)) l :
  (forall a, Keeps R (f a)) -> Keeps R (first_success f l).
Proof. intros Hf. induction l; cbn [first_success]; frame; auto. Qed.

Lemma keeps_prefer_other R `{!PreOrder R} item p : Keeps R (prefer_other_workspace_host stale_seconds uuid5 item p).
Proof.
  assert (forall h slot, Keeps R (better_host uuid5 item h slot)) by (intros; unfold better_host; frame).
  assert (forall h l, Keeps R (first_success (better_host uuid5 item h) l)) by (intros; by apply keeps_first_success).
  unfold prefer_other_workspace_host. frame.
Qed.
Hint Resolve keeps_prefer_other : frame.

Lemma retire_orphaned_waits actor a h : Keeps waits (retire_orphaned_prelaunch_threads actor a h).
Proof. unfold retire_orphaned_prelaunch_threads, retire_thread. frame. Qed.

Lemma retire_failed_waits actor a : Keeps waits (retire_failed_primary_contexts actor a).
Proof. unfold retire_failed_primary_contexts, retire_thread. frame. Qed.

Abbreviation try_slot := (try_slot stale_seconds lease_seconds max_offline_replay_seconds legacy_frontier put_json catalog sandbox_json
  goal read_manifest sha256 random uuid5 template).

(** The state in which a session starts, and the tests it has passed. *)
Record passed (item : assignment) (r : run) (host_id : uid) (h : host) (slot : Slot) (actor : Actor) (now : instant) (g : Grant)
    (d' : DB) (d : DB) (p : Placement) : Prop := {
  ps_category q : policy r (category item) = Ok (Some q) ->
    busy_weight (in_category d (r_id r) (category item)) d < qp_slots q;
  ps_slots : busy_weight (on_harness host_id (sl_harness_id slot)) d < sl_execution_slots slot;
  ps_limits : limits_available d (sl_limits slot) = true;
  ps_placement : available_workspace uuid5 item host_id d = Ok (Some p, d);
  ps_start : start actor item r slot h p now d = Ok (g, d') }.

Lemma try_slot_spec actor host_id h item r now slot d o d' :
  try_slot actor host_id h item r now slot d = Ok (o, d') ->
  match o with
  | None => waits d d'
  | Some g => exists d1 p, waits d d1 /\ passed item r host_id h slot actor now g d' d1 p
  end.
Proof.
  unfold Admission.try_slot. intros H. apply bind_Ok in H as (? & ? & [-> ->]%ask_Ok & H). cbn [id] in H.
  apply bind_Ok in H as (blocked & ? & [Hb ->]%lift_Ok & H).
  destruct (truthy blocked) eqn:Et; cbn [present] in H; [by apply ret_Ok in H as [-> ->]|].
  destruct (negb (harness_fits item slot)); [by apply ret_Ok in H as [-> ->]|].
  apply bind_Ok in H as (? & d1 & E1%retire_orphaned_waits & H). apply bind_Ok in H as (? & d2 & E2%retire_failed_waits & H).
  assert (waits d d2) as E by by etrans.
  apply bind_Ok in H as (? & ? & [-> ->]%ask_Ok & H). cbn [id] in H. unfold other_harness, harness_of in H. skip H.
  match type of H with (if ?b then _ else _) _ = _ => destruct b end; [by apply ret_Ok in H as [-> ->]|].
  destruct (_ && limits_available d2 (sl_limits slot)) eqn:Ef; cbn [negb] in H; [|by apply ret_Ok in H as [-> ->]].
  apply bind_Ok in H as (p & d3 & Hp & H). assert (d3 = d2) as -> by (eapply read_only; [|exact Hp]; frame).
  destruct p as [p|]; [|by apply ret_Ok in H as [-> ->]].
  skip H. match type of H with (if ?b then _ else _) _ = _ => destruct b end; [by apply ret_Ok in H as [-> ->]|].
  apply bind_Ok in H as (g & d4 & Hs & H). apply ret_Ok in H as [-> ->]. bools.
  exists d2, p. split; [done|]. split; try done. intros q Hq. destruct E as [E _].
  rewrite (queue_category_weight d d2) by done. pose proof (blocker_truthy _ _ _ _ _ Hb Et) as ->. by eapply blocker_slots_free.
Qed.

Abbreviation try_candidate := (try_candidate ready stale_seconds lease_seconds max_offline_replay_seconds legacy_frontier put_json catalog
  sandbox_json goal read_manifest sha256 random uuid5 template).
Abbreviation scan := (scan ready stale_seconds lease_seconds max_offline_replay_seconds legacy_frontier put_json catalog
  sandbox_json goal read_manifest sha256 random uuid5 template).
Abbreviation claim := (claim ready storage_paused stale_seconds lease_seconds max_offline_replay_seconds legacy_frontier put_json catalog
  sandbox_json goal read_manifest sha256 random uuid5 template).

(** A session of the candidate [item] started on one of the [slots]. *)
Definition admits (item : assignment) (host_id : uid) (h : host) (slots : list Slot) (actor : Actor) (now : instant) (d : DB) (g : Grant)
    (d' : DB) : Prop :=
  exists r slot d1 p, tb_run d !! a_run_id item = Some r /\ slot ∈ slots /\ waits d d1
    /\ passed item r host_id h slot actor now g d' d1 p.

Lemma admits_waits item host_id h slots actor now d d1 g d' :
  waits d d1 -> admits item host_id h slots actor now d1 g d' -> admits item host_id h slots actor now d g d'.
Proof.
  intros W (r & slot & d2 & p & Hr & Hs & W2 & Hp). exists r, slot, d2, p. split; [|split; [done|split; [by etrans|done]]].
  destruct W as [E _]. injection E as _ R. by rewrite <- R.
Qed.

Lemma try_candidate_spec actor host_id h slots now item d o d' :
  try_candidate actor host_id h slots now item d = Ok (o, d') ->
  match o with None => waits d d' | Some g => admits item host_id h slots actor now d g d' end.
Proof.
  unfold Admission.try_candidate. intros H. apply bind_Ok in H as (? & ? & [-> ->]%ask_Ok & H). cbn [id] in H. skip H.
  match type of H with (if negb ?b then _ else _) _ = _ => destruct b end; cbn [negb] in H; [|by apply ret_Ok in H as [-> ->]].
  skip H. match type of H with (if ?b then _ else _) _ = _ => destruct b end; [by apply ret_Ok in H as [-> ->]|].
  apply bind_Ok in H as (r & ? & [Hr ->]%get_Ok & H). skip H.
  match type of H with (if ?b then _ else _) _ = _ => destruct b end; [by apply ret_Ok in H as [-> ->]|]. skip H.
  match type of H with (if ?b then _ else _) _ = _ => destruct b end; [by apply ret_Ok in H as [-> ->]|].
  apply (first_success_spec waits) in H; [|intros s d1 d2 E; by apply try_slot_spec in E].
  destruct o as [g|]; [|done]. destruct H as (slot & d1 & Hs & W & (d2 & p & W2 & Hp)%try_slot_spec).
  exists r, slot, d2, p. split; [done|]. split; [done|]. split; [by etrans|done].
Qed.

Lemma scan_spec actor host_id h slots now ordered offsets profile d o offsets' d' :
  scan actor host_id h slots now ordered offsets profile d = Ok ((o, offsets'), d') ->
  match o with None => waits d d' | Some g => exists item, item ∈ ordered /\ admits item host_id h slots actor now d g d' end.
Proof.
  unfold Admission.scan. intros H. apply bind_Ok in H as (g & d1 & H1 & H). apply ret_Ok in H as [[= -> _] ->].
  apply (first_success_spec waits) in H1; [|intros s d2 d3 E; by apply try_candidate_spec in E].
  destruct g as [g|]; [|done]. destruct H1 as (item & d2 & Hi & W & H1%try_candidate_spec). exists item.
  split; [|by eapply admits_waits]. apply elem_of_take in Hi as (k & Hi & _). rewrite lookup_drop in Hi.
  apply list_elem_of_lookup_2, list_elem_of_In, filter_In in Hi as [Hi _]. by apply list_elem_of_In.
Qed.

Lemma elem_of_candidates d h now preferred a :
  a ∈ candidates d h now preferred -> (exists i, tb_assignment d !! i = Some a) /\ a_status a = Pending.
Proof.
  unfold candidates. intros ([b r] & -> & H)%list_elem_of_fmap. unfold sort_by in H. rewrite merge_sort_Permutation in H.
  apply list_elem_of_omap in H as (c & Hc & Hd). apply list_elem_of_fmap in Hc as ([i e] & -> & Hi%elem_of_map_to_list).
  unfold due in Hd. cbn in Hd. destruct (tb_run d !! a_run_id e) as [r'|]; [|done]. cbn in Hd.
  destruct (_ && _) eqn:Ed in Hd; [|done]. injection Hd as -> ->. bools. cbn. eauto.
Qed.

(** A slot is a stored row of its host, with the limits attached to it. *)
Definition stored_slot (d : DB) (host_id : uid) (slot : Slot) : Prop :=
  sl_host_id slot = host_id /\ sl_limits slot = slot_limits d host_id (sl_harness_id slot)
  /\ exists row, tb_host_harness d !! (host_id, sl_harness_id slot) = Some row /\ sl_execution_slots slot = hx_execution_slots row.

Lemma elem_of_capacity d host_id slot : slot ∈ capacity d stale_seconds [host_id] -> stored_slot d host_id slot.
Proof.
  unfold capacity. rewrite list_elem_of_In, filter_In, <- list_elem_of_In. intros [H _].
  apply list_elem_of_omap in H as ([[h x] row] & Hr%elem_of_map_to_list & H).
  destruct (tb_host d !! h) as [host|]; [|done]. destruct (tb_harness d !! x) as [harness|]; [|done]. cbn [mbind option_bind] in H.
  destruct (mem h [host_id]) eqn:Eh; [|done]. destruct (_ && _) eqn:E in H; [|done]. injection H as <-.
  apply mem_true, list_elem_of_singleton in Eh. subst h. split; [done|]. split; [done|]. by exists row.
Qed.

Lemma claim_spec actor host_id ids offsets d o offsets' d' :
  claim actor host_id ids offsets d = Ok ((o, offsets'), d') ->
  match o with
  | None => waits d d'
  | Some g => exists i item h slot, tb_assignment d !! i = Some item /\ a_status item = Pending /\ tb_host d !! host_id = Some h
      /\ stored_slot d host_id slot /\ admits item host_id h [slot] actor (db_now d) d g d'
  end.
Proof.
  unfold Admission.claim, require_host. intros H. apply bind_Ok in H as (? & ? & [_ ->]%refuse_Ok & H).
  apply bind_Ok in H as (h & ? & [Hh ->]%get_Ok & H).
  match type of H with (if ?b then _ else _) _ = _ => destruct b end; [by apply ret_Ok in H as [[= -> _] ->]|].
  apply bind_Ok in H as (now & ? & [-> ->]%ask_Ok & H). apply bind_Ok in H as (? & d1 & E1 & H). grown queue_part E1.
  destruct storage_paused; [by apply ret_Ok in H as [[= -> _] ->]|].
  apply bind_Ok in H as (? & d2 & E2 & H). unfold reconcile_goal_updates in E2. grown queue_part E2.
  assert (waits d d2) as W by by etrans. apply bind_Ok in H as (? & ? & [-> ->]%ask_Ok & H). cbn [id] in H.
  set (slots := List.filter _ (capacity d2 stale_seconds [host_id])) in H.
  assert (forall i h d3 d4 g pf, waits d d3 -> i ∈ candidates d3 host_id (db_now d) pf -> admits i host_id h slots actor (db_now d) d3 g d4 ->
    exists k slot, tb_assignment d !! k = Some i /\ a_status i = Pending /\ stored_slot d host_id slot
      /\ admits i host_id h [slot] actor (db_now d) d g d4) as Done.
  { intros i h' d3 d4 g pf W3 [[k Hk] Hp]%elem_of_candidates (r & slot & d5 & p & Hr & Hs & W5 & Hpass).
    exists k, slot. destruct W3 as [E3 N3]. pose proof E3 as E3'. injection E3 as A3 R3. rewrite A3 in Hk. split; [done|]. split; [done|].
    split.
    - unfold slots in Hs. apply list_elem_of_In, filter_In in Hs as [Hs%list_elem_of_In%elem_of_capacity _]. destruct W as [E _].
      unfold stored_slot, slot_limits in *. injection E as _ _ _ _ _ _ _ HX HL RL _. by rewrite <- HX, <- HL, <- RL.
    - exists r, slot, d5, p. split; [congruence|]. split; [by apply list_elem_of_singleton|]. split; [|done]. etrans; [|exact W5]. by split. }
  apply bind_Ok in H as ([g1 o1] & d3 & H1%scan_spec & H). destruct g1 as [g|].
  - apply ret_Ok in H as [[= -> _] ->]. destruct H1 as (item & Hi & Ha).
    destruct (Done _ _ _ _ _ _ W Hi Ha) as (k & slot & ? & ? & ? & ?). by exists k, item, h, slot.
  - assert (waits d d3) as W3 by by etrans. apply bind_Ok in H as (? & ? & [-> ->]%ask_Ok & H). cbn [id] in H.
    apply scan_spec in H. destruct o as [g|]; [|by etrans]. destruct H as (item & Hi & Ha).
    destruct (Done _ _ _ _ _ _ W3 Hi Ha) as (k & slot & ? & ? & ? & ?). by exists k, item, h, slot.
Qed.

(** ** Consistent rows *)

(** Identifiers that are the keys, references that are stored, keys that were handed out, and
    the bound of a slot. *)
Record admission_wf (d : DB) : Prop := {
  aw_fresh : fresh_assignments d;
  aw_claims : fresh_claims d;
  aw_assignment i a : tb_assignment d !! i = Some a -> a_id a = i;
  aw_harness i hs : tb_harness d !! i = Some hs -> hs_id hs = i;
  aw_limit i l : tb_resource_limit d !! i = Some l -> rl_id l = i;
  aw_slots k row : tb_host_harness d !! k = Some row -> 0 < hx_execution_slots row;
  aw_execution i x : tb_execution d !! i = Some x ->
    (i < db_next d)%positive /\ owned d x /\ exists j w, tb_workspace d !! j = Some w /\ w_id w = x_workspace_id x }.

Lemma admission_wf_waits d d' : waits d d' -> admission_wf d -> admission_wf d'.
Proof.
  intros [E N] W. injection E as A R X C Q V K S L M T. destruct W as [W1 W2 W3 W4 W5 W6 W7]. split.
  - intros i. rewrite A. intros Hi%W1. lia.
  - intros i. rewrite C. intros Hi%W2. lia.
  - by rewrite A.
  - by rewrite K.
  - by rewrite M.
  - by rewrite S.
  - intros i x. unfold owned. rewrite X, A, R, V. intros (H1 & H2 & H3)%W7. split; [lia|done].
Qed.

Lemma slot_limits_NoDup d h k : (forall i l, tb_resource_limit d !! i = Some l -> rl_id l = i) -> NoDup (map rl_id (slot_limits d h k)).
Proof. intros H. exact (select_NoDup (fun l => bool_decide ((h, k, rl_id l) ∈ tb_host_harness_limit d)) d H). Qed.

(** What a successful claim has done, seen from the state in which it started the session. *)
Lemma claim_started actor host_id ids offsets d g offsets' d' :
  claim actor host_id ids offsets d = Ok ((Some g, offsets'), d') -> admission_wf d ->
  exists item r h slot d1 p x c, waits d d1 /\ tb_assignment d !! a_id item = Some item /\ a_status item = Pending
    /\ tb_run d !! a_run_id item = Some r /\ tb_host d !! host_id = Some h /\ stored_slot d host_id slot
    /\ passed item r host_id h slot actor (db_now d) g d' d1 p /\ started d1 item r slot h p g x c d'
    /\ x_harness_id x = sl_harness_id slot /\ tb_execution d1 !! x_id x = None.
Proof.
  intros (i & item & h & slot & Hi & Hp & Hh & Hs & r & slot' & d1 & p & Hr & ->%list_elem_of_singleton & W & Hpass)%claim_spec Wf.
  pose proof (aw_assignment d Wf i item Hi) as <-. pose proof (admission_wf_waits d d1 W Wf) as Wf1.
  destruct (start_spec _ _ _ _ _ _ _ _ _ _ (ps_start _ _ _ _ _ _ _ _ _ _ _ Hpass)) as (x & c & Hst).
  { destruct W as [E _]. injection E as A. by rewrite A. }
  exists item, r, h, slot, d1, p, x, c. repeat (split; [done|]). split.
  - destruct (st_harness _ _ _ _ _ _ _ _ _ _ Hst) as (hs & Hhs & ->). by eapply aw_harness.
  - apply eq_None_not_Some. intros [y Hy]. destruct (aw_execution d1 Wf1 _ _ Hy) as [Hn _].
    pose proof (st_new _ _ _ _ _ _ _ _ _ _ Hst). lia.
Qed.

(** ** Properties *)

(** Two executions that may still have a process are not in one workspace. *)
Definition exclusive (d : DB) : Prop :=
  forall i j x y, tb_execution d !! i = Some x -> tb_execution d !! j = Some y ->
    execution_busy d x = true -> execution_busy d y = true -> x_workspace_id x = x_workspace_id y -> i = j.

Lemma busy_workspace_false d w i x :
  busy_workspace d w = false -> tb_execution d !! i = Some x -> execution_busy d x = true -> x_workspace_id x <> w.
Proof.
  intros Hb Hx Hbx <-. unfold busy_workspace in Hb. pose proof (existsb_stored (R := execution) _ d i x Hb Hx) as E.
  cbn in E. by rewrite Hbx, bool_decide_eq_true_2 in E.
Qed.

(** The workspace of the new execution is one that nothing may still run in. *)
Lemma started_idle actor item r host_id h slot now g d' d p x c :
  passed item r host_id h slot actor now g d' d p -> started d item r slot h p g x c d' -> admission_wf d ->
  forall i y, tb_execution d !! i = Some y -> execution_busy d y = true -> x_workspace_id y <> x_workspace_id x.
Proof.
  intros Hp Hst Wf i y Hy Hb. destruct (available_workspace_spec _ _ _ _ _ _ (ps_placement _ _ _ _ _ _ _ _ _ _ _ Hp)) as [_ Ha].
  pose proof (st_workspace _ _ _ _ _ _ _ _ _ _ Hst) as Hw. destruct p as [w|q].
  - rewrite Hw. eapply busy_workspace_false; [apply (pl_idle _ _ _ _ Ha)|done|done].
  - destruct (aw_execution d Wf i y Hy) as (_ & _ & j & v & Hv & <-). by apply (Hw j).
Qed.

Lemma exclusive_waits d d' : waits d d' -> exclusive d -> exclusive d'.
Proof.
  intros [E _] H i j x y. injection E as A R X _ Q _ _ _ _ _ N. unfold execution_busy, objective_assignment. rewrite A, R, X, Q, N. apply H.
Qed.

(** C7. A claim never puts two processes into one directory: when the executions that may still
    have a process are in distinct workspaces, they are after the claim, whose new execution, if
    it starts one, runs in a workspace in which nothing may still run. *)
Theorem claim_workspace_exclusive actor host_id ids offsets d o offsets' d' :
  claim actor host_id ids offsets d = Ok ((o, offsets'), d') -> admission_wf d -> exclusive d ->
  exclusive d'
  /\ forall g, o = Some g ->
       (exists x, tb_execution d' !! gr_execution_id g = Some x /\ live_status x = true /\ x_workspace_id x = gr_workspace_id g)
       /\ forall i y, tb_execution d !! i = Some y -> execution_busy d y = true -> x_workspace_id y <> gr_workspace_id g.
Proof.
  intros H Wf Hex. destruct o as [g|].
  2: { apply claim_spec in H. split; [by eapply exclusive_waits|done]. }
  destruct (claim_started _ _ _ _ _ _ _ _ H Wf) as (item & r & h & slot & d1 & p & x & c & W & _ & _ & _ & _ & _ & Hp & Hst & _ & Hx).
  pose proof (admission_wf_waits d d1 W Wf) as Wf1. pose proof (exclusive_waits d d1 W Hex) as Hex1.
  pose proof (started_idle _ _ _ _ _ _ _ _ _ _ _ _ _ Hp Hst Wf1) as Hidle.
  destruct (st_grant _ _ _ _ _ _ _ _ _ _ Hst) as (Eg & _ & Ew). pose proof (st_execution _ _ _ _ _ _ _ _ _ _ Hst) as Ex.
  assert (forall i y, tb_execution d1 !! i = Some y -> execution_busy d' y = execution_busy d1 y) as Hb.
  { intros i y Hy. eapply owners_busy; [by eapply st_owners|by apply aw_fresh|by eapply aw_execution|by eapply st_request|by eapply st_now]. }
  split.
  - intros i j y z. rewrite Ex, !lookup_insert_Some. intros [[<- <-]|[_ Hy]] [[<- <-]|[_ Hz]] By Bz E; [done| | |].
    + rewrite (Hb j z Hz) in Bz. by destruct (Hidle j z Hz Bz).
    + rewrite (Hb i y Hy) in By. by destruct (Hidle i y Hy By).
    + rewrite (Hb i y Hy) in By. rewrite (Hb j z Hz) in Bz. by eapply Hex1.
  - intros g' [= <-]. split.
    + exists x. rewrite Ex, Eg, lookup_insert_eq. split; [done|]. split; [by eapply st_live|done].
    + intros i y Hy By. rewrite Ew. destruct W as [E _]. injection E as A R X _ Q _ _ _ _ _ N. apply (Hidle i y); [by rewrite X|].
      revert By. unfold execution_busy, objective_assignment. by rewrite A, R, Q, N.
Qed.

(** C8. A claim never oversubscribes: the execution it starts, weighed with the children reserved
    for it, keeps the busy executions of its host's harness within the harness's slots, those
    of its category within the category's slots, and the units claimed of every shared limit
    attached to the harness within the limit, which is one while the limit recovers from a
    failure; the load of every other harness is what it was. *)
Theorem claim_never_oversubscribes actor host_id ids offsets d g offsets' d' :
  claim actor host_id ids offsets d = Ok ((Some g, offsets'), d') -> admission_wf d ->
  exists x a r row, tb_execution d' !! gr_execution_id g = Some x
    /\ tb_assignment d !! gr_assignment_id g = Some a /\ a_status a = Pending /\ tb_run d !! a_run_id a = Some r
    /\ tb_host_harness d !! (host_id, x_harness_id x) = Some row
    /\ busy_weight (on_harness host_id (x_harness_id x)) d' <= hx_execution_slots row
    /\ (forall h k, (h, k) <> (x_host_id x, x_harness_id x) -> busy_weight (on_harness h k) d' = busy_weight (on_harness h k) d)
    /\ (forall q, policy r (category a) = Ok (Some q) -> busy_weight (in_category d' (r_id r) (category a)) d' <= qp_slots q)
    /\ forall i l m, tb_resource_limit d !! i = Some l -> (host_id, x_harness_id x, rl_id l) ∈ tb_host_harness_limit d ->
         maximum l = Some m -> claimed d' (rl_id l) <= m.
Proof.
  intros H Wf. destruct (claim_started _ _ _ _ _ _ _ _ H Wf)
    as (item & r & h & slot & d1 & p & x & c & W & Hi & Hpe & Hr & Hh & (Es & El & row & Hrow & Esl) & [Pc Psl Pl _ _] & Hst & Hk & Hx).
  pose proof (admission_wf_waits d d1 W Wf) as Wf1. destruct W as [E N].
  destruct (st_grant _ _ _ _ _ _ _ _ _ _ Hst) as (Eg & Ea & _). pose proof (st_execution _ _ _ _ _ _ _ _ _ _ Hst) as Ex.
  destruct (start_fits d1 item r slot c) as (F0 & F1 & F2 & F3); [rewrite Esl; exact (aw_slots d Wf _ _ Hrow)|done|by rewrite Es|done|by eapply st_capacity|].
  exists x, item, r, row. rewrite Ex, Eg, Ea, Hk, lookup_insert_eq. repeat (split; [done|]).
  assert (forall p q, (forall i y, tb_execution d1 !! i = Some y -> q y = p y) ->
    busy_weight q d' = (if q x then x_weight x else 0) + busy_weight p d1) as Hw.
  { intros p' q' Hpq. eapply busy_weight_started; [by eapply st_owners|by apply aw_fresh|by eapply st_request|by eapply st_now|done|done| |by eapply st_live].
    intros i y Hy. split; [by eapply aw_execution|by eapply Hpq]. }
  rewrite (st_weight _ _ _ _ _ _ _ _ _ _ Hst) in Hw. split; [|split; [|split]].
  - rewrite (Hw (on_harness host_id (sl_harness_id slot))) by done. rewrite Es in F2. destruct (on_harness _ _ x); lia.
  - intros h' k Hne. rewrite (Hw (on_harness h' k)), (queue_busy_weight _ d d1) by done. unfold on_harness.
    destruct (decide (x_host_id x = h')); [destruct (decide (x_harness_id x = k))|].
    + subst. by rewrite Hk in Hne.
    + rewrite (bool_decide_eq_false_2 (x_harness_id x = k)), andb_false_r by done. done.
    + rewrite (bool_decide_eq_false_2 (x_host_id x = h')) by done. done.
  - intros q Hq. rewrite (Hw (in_category d1 (r_id r) (category item))).
    + specialize (F1 q Hq). destruct (in_category _ _ _ x); lia.
    + intros i y Hy. destruct (aw_execution d1 Wf1 i y Hy) as (_ & (a & ra & Ha & _) & _).
      destruct (st_owners _ _ _ _ _ _ _ _ _ _ Hst) as [_ O]. destruct (O (aw_fresh d1 Wf1)) as (_ & OA & _).
      destruct (OA _ _ Ha) as (a' & Ha' & E1 & E2 & _). unfold in_category. by rewrite Ha, Ha', E1, E2.
  - intros i l m Hl Hlk Hm. injection E as _ _ _ _ _ _ _ _ _ M _.
    assert (l ∈ sl_limits slot) as Hin.
    { rewrite El. unfold slot_limits. apply list_elem_of_In, filter_In. split; [|by apply bool_decide_eq_true_2].
      apply list_elem_of_In. change (l ∈ map snd (map_to_list (rows d))). apply elem_of_rows. by exists i. }
    rewrite (st_claimed _ _ _ _ _ _ _ _ _ _ Hst (aw_claims d1 Wf1)).
    + rewrite decide_True by (by apply list_elem_of_In, in_map, list_elem_of_In). by apply F3.
    + rewrite El. apply slot_limits_NoDup, aw_limit, Wf.
Qed.
End start.

(** ** A poll of host 90

    Session 6 runs on the host as execution 7; session 10 of the same objective is pending.  The
    harness has four slots, the provider account 70 admits three. *)

Definition poll_db : DB :=
  leased_db <| tb_assignment := <[10%positive := (sample_assignment 10 5 3 Pending) <| a_category := Some "work"%string |>]> (tb_assignment leased_db) |>
    <| tb_repository := {[31%positive := sample_repository]} |>
    <| tb_workspace := <[91%positive := sample_workspace 91 "/srv/one"]> {[98%positive := sample_workspace 98 "/srv/two"]} |>
    <| tb_harness := {[92%positive := sample_harness]} |>
    <| tb_run_host := {[(5%positive, 90%positive) := true]} |>
    <| tb_host_harness := {[(90%positive, 92%positive) := sample_slots]} |>
    <| tb_host_harness_limit := {[(90%positive, 92%positive, 70%positive)]} |>
    <| tb_resource_limit := {[70%positive :=
         {| rl_id := 70; rl_created_at := 0; rl_updated_at := 0; rl_revision := 1; rl_kind := ProviderAccount; rl_slug := "main";
            rl_max_concurrent := Some 3; rl_cooldown_until := None; rl_failure_count := 0; rl_circuit_open := false;
            rl_circuit_reason := None |}]} |>.

Definition sample_poll : M (option Grant * gmap (uid * bool) nat) :=
  claim (fun _ _ => Ok true) false 120 90 604800 (fun _ _ => ""%string) (fun s => {| bl_sha256 := s; bl_size := 1; bl_media_type := "application/json" |})
    "catalog" (fun _ => "sandbox"%string) (fun _ _ _ _ _ => "goal"%string) (fun _ => None) (fun s => s) "secret" (fun i _ => i)
    sample_template host_actor 90 [92%positive] ∅.

Lemma poll_db_wf : admission_wf poll_db.
Proof.
  split.
  - intros i [a H]. cbn in H. apply lookup_insert_Some in H as [[<- _]|[_ H]]; [done|]. by apply lookup_singleton_Some in H as [<- _].
  - intros i [c H]. cbn in H. by apply lookup_singleton_Some in H as [<- _].
  - intros i a H. cbn in H. apply lookup_insert_Some in H as [[<- <-]|[_ H]]; [done|]. by apply lookup_singleton_Some in H as [<- <-].
  - intros i a H. cbn in H. by apply lookup_singleton_Some in H as [<- <-].
  - intros i a H. cbn in H. by apply lookup_singleton_Some in H as [<- <-].
  - intros k row H. cbn in H. by apply lookup_singleton_Some in H as [<- <-].
  - intros i x H. cbn in H. apply lookup_singleton_Some in H as [<- <-]. split; [done|]. split.
    + by exists ((sample_assignment 6 5 3 Running) <| a_category := Some "work"%string |>), sample_objective.
    + by exists 91%positive, (sample_workspace 91 "/srv/one").
Qed.

Lemma poll_db_exclusive : exclusive poll_db.
Proof.
  intros i j x y Hx Hy _ _ _. cbn in Hx, Hy. apply lookup_singleton_Some in Hx as [<- _]. by apply lookup_singleton_Some in Hy as [<- _].
Qed.

(** What the poll answers. *)
Definition poll_answer : option (uid * option Z * Z) :=
  match sample_poll poll_db with
  | Ok ((Some g, _), d') => Some (gr_workspace_id g, gr_max_parallel_subagents g, claimed d' 70)
  | _ => None
  end.

Lemma claim_workspace_exclusive_witness :
  exists g offsets d', sample_poll poll_db = Ok ((Some g, offsets), d') /\ gr_workspace_id g = 98%positive /\ exclusive d'.
Proof.
  assert (poll_answer = Some (98%positive, Some 1, 3)) as A by by vm_compute. unfold poll_answer in A.
  destruct (sample_poll poll_db) as [[[[g|] offsets] d']|] eqn:E; [|discriminate A..]. unfold sample_poll in E. injection A as Aw _ _.
  exists g, offsets, d'. split; [reflexivity|]. split; [exact Aw|].
  exact (proj1 (claim_workspace_exclusive _ _ _ _ _ _ _ _ _ _ _ _ _ _ _ _ _ _ _ _ _ _ _ E poll_db_wf poll_db_exclusive)).
Defined.

(** Session 10 gets one child: the account has room for two more. *)
Lemma claim_never_oversubscribes_witness :
  exists g offsets d', sample_poll poll_db = Ok ((Some g, offsets), d') /\ gr_max_parallel_subagents g = Some 1
    /\ claimed d' 70 = 3
    /\ exists x row, tb_execution d' !! gr_execution_id g = Some x /\ tb_host_harness poll_db !! (90%positive, x_harness_id x) = Some row
       /\ busy_weight (on_harness 90 (x_harness_id x)) d' <= hx_execution_slots row.
Proof.
  assert (poll_answer = Some (98%positive, Some 1, 3)) as A by by vm_compute. unfold poll_answer in A.
  destruct (sample_poll poll_db) as [[[[g|] offsets] d']|] eqn:E; [|discriminate A..]. unfold sample_poll in E. injection A as _ Ac Al.
  exists g, offsets, d'. split; [reflexivity|]. split; [exact Ac|]. split; [exact Al|].
  destruct (claim_never_oversubscribes _ _ _ _ _ _ _ _ _ _ _ _ _ _ _ _ _ _ _ _ _ _ _ E poll_db_wf)
    as (x & a & r & row & Hx & _ & _ & _ & Hrow & Hb & _).
  exists x, row. split; [exact Hx|]. split; [exact Hrow|exact Hb].
Defined.
