(* ===== verification/Panel.v ===== *)
(** * Review panels

    src/archon_horizon/pipeline/review/decisions.py from [_review_history] to
    [repository_review_panel], with the compiler receipts of projects/lean_checks.py
    ([register_check], [head_check]) and the specialist panel of projects/milestones.py
    ([review_panel], [accepted_gate]).  The panel says which reviewers a pull request still needs
    at its head; [register_check] is the only operation here that writes.

    Argument: the digest of a report. *)

From S2P Require Import Prelude Contracts ReviewContracts Conditions Schema Records Auth Samples MissionTree Missions Ledger Usage Capacity Sessions Assignments Workspaces Labels Launch.

Local Open Scope string_scope.
Local Open Scope Z_scope.

(** ** Compiler receipts *)

Definition FOUNDATIONS : list string := ["propext"; "Classical.choice"; "Quot.sound"].

Definition foundational (axioms : list string) : bool := forallb (fun a => mem a FOUNDATIONS) axioms.

Definition closures (m : gmap string (list string)) : list (list string) := map snd (map_to_list m).

(** The evidence of a proof claim: a proof receipt of the same manifest whose targets cover the
    declarations, with the status that their axioms show. *)
Definition check_claim (repository : uid) (report : CheckReport) (claim : ProofClaim) : M unit :=
  evidence ← match pc_check_id claim with
             | Some i => e ← (get i : M milestone_check); mret (Some e)
             | None => mret None
             end;
  proof ← lift match evidence with
               | Some e => if bool_decide (mk_repository_id e = repository) && bool_decide (mk_kind e = ProofCheck)
                              && bool_decide (ck_manifest_digest (mk_report e) = ck_manifest_digest report)
                           then Ok (mk_report e) else Err (DomainError "proof_evidence_missing" 409)
               | None => Err (DomainError "proof_evidence_missing" 409)
               end;
  refuse (negb (forallb (fun n => present (ck_targets proof !! n)) (pc_declarations claim))
          || existsb (fun n => mem n (ck_direct_admissions proof)) (pc_declarations claim)) "proof_evidence_incomplete" 409 ;;
  let conditional := existsb (fun n => match ck_targets proof !! n with Some axioms => mem "sorryAx" axioms | None => false end)
                             (pc_declarations claim) in
  refuse (Bool.eqb (pc_complete claim) conditional) "proof_status_mismatch" 409.

Section checks.
Context (report_digest : CheckReport -> string).

Definition same_receipt (repository : uid) (sha : string) (c : milestone_check) : bool :=
  bool_decide (mk_repository_id c = repository) && bool_decide (mk_report_sha256 c = sha).

(** [register_check]. *)
Definition register_check (actor : Actor) (workspace_id : uid) (report : CheckReport) : M milestone_check :=
  lift (if check_report_valid report then Ok tt else Err (ValidationError "CheckReport")) ;;
  w ← (get workspace_id : M workspace);
  require_host actor (w_host_id w) ;;
  refuse (negb (bool_decide (w_status w = WReady))) "workspace_unavailable" 409 ;;
  repo ← (get (w_repository_id w) : M repository);
  refuse (negb (bool_decide (rp_purpose repo = (if bool_decide (ck_kind report = LibraryCheck) then LibraryRepo else KnowledgeRepo))))
         "invalid_verification_repository" 422 ;;
  refuse (negb (ck_compiled report)) "milestone_check_failed" 422 ;;
  refuse (bool_decide (ck_kind report = LibraryCheck)
          && (nonempty (ck_direct_admissions report) || negb (forallb foundational (closures (ck_targets report)))))
         "library_admissions" 422 ;;
  refuse (bool_decide (ck_kind report = GraphCheck) && negb (bool_decide (ck_manifest_digest report = ck_base_manifest_digest report)))
         "contract_change_misclassified" 422 ;;
  refuse (negb (forallb foundational (closures (ck_definitions report) ++ closures (ck_types report)))) "admitted_definition" 422 ;;
  refuse (negb (forallb (forallb (fun a => mem a ("sorryAx" :: FOUNDATIONS))) (closures (ck_targets report)))) "untrusted_milestone" 422 ;;
  refuse (bool_decide (ck_kind report = ProofCheck)
          && (negb (ck_comparator_passed report) || negb (present (ck_implementation_commit_oid report)))) "comparator_required" 422 ;;
  when (negb (bool_decide (ck_kind report = ProofCheck)))
    (for_each (fun c => check_claim (rp_id repo) report c.2) (map_to_list (ck_proof_claims report))) ;;
  let checksum := report_digest report in
  old ← select (same_receipt (rp_id repo) checksum);
  match old with
  | c :: _ => mret c
  | [] =>
      c ← create (fun i now =>
        {| mk_id := i; mk_created_at := now; mk_project_id := rp_project_id repo; mk_repository_id := rp_id repo;
           mk_principal_id := actor_id actor; mk_source_commit_oid := ck_source_commit_oid report;
           mk_base_commit_oid := ck_base_commit_oid report; mk_kind := ck_kind report; mk_report := report; mk_report_sha256 := checksum |});
      _ ← emit (Some (actor_id actor)) (Some (rp_project_id repo)) {| sub_ref := None; sub_revision := 1; sub_status := ""; sub_note := None |} ["milestone_check"] None None None;
      mret c
  end.
End checks.

Definition newest_check (a b : milestone_check) : bool := mk_created_at b <=? mk_created_at a.

(** [head_check]. *)
Definition head_check (d : DB) (item : forge_item) : option milestone_check :=
  first_by newest_check (stored_rows (fun c => bool_decide (mk_repository_id c = fi_repository_id item)
    && bool_decide (Some (mk_source_commit_oid c) = fi_head_commit_oid item) && negb (bool_decide (mk_kind c = ProofCheck))) d).

(** ** The history of a pull request *)

(** [ORDER BY observed_at DESC, created_at DESC, id DESC]. *)
Definition newer_review (a b : forge_review) : bool :=
  (fr_observed_at b <? fr_observed_at a)
  || (fr_observed_at a =? fr_observed_at b)
     && ((fr_created_at b <? fr_created_at a) || (fr_created_at a =? fr_created_at b) && (fr_id b <=? fr_id a)%positive).

Definition delivers (r : uid) (o : outbox_operation) : bool :=
  bool_decide (ob_kind o = ForgeReviewOp) && bool_decide (ob_status o = OutCompleted)
  && bool_decide (ob_result_ref_id o = Some (stored Kforge_review r)).

Definition review_payload (o : outbox_operation) : option ReviewPayload :=
  match ob_payload o with PReview p => Some p | _ => None end.

(** The payload under which a review was delivered. *)
Definition payload_of (d : DB) (r : uid) : option ReviewPayload := last (omap review_payload (stored_rows (delivers r) d)).

(** [_review_history]: the reviews of the item, the newest first; their payloads are [payload_of]. *)
Definition _review_history (d : DB) (item : forge_item) : list forge_review :=
  sort_by newer_review (stored_rows (fun r => bool_decide (fr_forge_item_id r = fi_id item)) d).

Definition HISTORICAL : string := "**Historical reviewer feedback:**".
Definition historical (r : forge_review) : bool := contains HISTORICAL (fr_summary r).

(** ["id"] of the content of a revision. *)
Definition content_id (c : revision_content) : uid :=
  match c with
  | CProject r => p_id r | CMission r _ _ => m_id r | CNode r _ => n_id r | CDocument r => d_id r | CReference r => rf_id r
  | CAssignment r => a_id r | CAutomation r => au_id r | CHarness r => hs_id r | CReviewPolicy r _ _ => rv_id r
  | CReviewerDescriptor r _ => rd_id r
  end.

Definition at_head (item : forge_item) (r : forge_review) : bool := bool_decide (Some (fr_commit_oid r) = fi_head_commit_oid item).

(** The invocation that a specialist review rests on: completed, for this reviewer at this
    revision, with its guidance. *)
Definition review_invocation (descriptor : reviewer_descriptor) (revision : record_revision) (q : provider_request) : bool :=
  bool_decide (q_status q = QCompleted) && bool_decide (q_reason q = ForReview)
  && bool_decide (q_reviewer_descriptor_id q = Some (rd_id descriptor))
  && bool_decide (q_reviewer_descriptor_revision_id q = Some (rr_id revision)) && present (q_guidance_manifest_artifact_id q).

Definition current_descriptor (descriptor : reviewer_descriptor) (revision : record_revision) : bool :=
  rd_enabled descriptor && (rr_object_revision revision =? rd_revision descriptor).

Definition pinned_policy (policy : review_policy) (revision : record_revision) : bool :=
  bool_decide (content_id (rr_content revision) = rv_id policy) && (rr_object_revision revision =? rv_revision policy).

(** [_current_approval]. *)
Definition _current_approval (row : forge_review) (payload : option ReviewPayload) (item : forge_item) (policy : review_policy)
    (carried : bool) : M bool :=
  match payload with
  | None => mret false
  | Some p =>
      if negb (bool_decide (fr_verdict row = Approved)) || (negb carried && negb (at_head item row))
         || negb (present (fr_provider_request_id row)) || negb (present (fr_reviewer_descriptor_revision_id row)) || historical row
      then mret false
      else
        descriptor ← (get_opt (fr_reviewer_descriptor_id row) : M reviewer_descriptor);
        revision ← (get_opt (fr_reviewer_descriptor_revision_id row) : M record_revision);
        request ← (get_opt (fr_provider_request_id row) : M provider_request);
        if negb (current_descriptor descriptor revision) || negb (review_invocation descriptor revision request)
           || negb (present (py_policy_revision_id p))
        then mret false
        else
          pinned ← (get_opt (py_policy_revision_id p) : M record_revision);
          mret (negb (py_historical p) && bool_decide (py_target_branch p = fi_target_branch item) && pinned_policy policy pinned
                && (negb (present (py_review_plan p)) || py_review_base_verified p))
  end.

(** [_latest_current_reviews]: the newest review of each reviewer at the head. *)
Definition current_review (item : forge_item) (r : forge_review) : bool :=
  at_head item r && present (fr_reviewer_descriptor_id r) && negb (historical r).

Fixpoint latest_of (seen : list uid) (l : list forge_review) : list (uid * forge_review) :=
  match l with
  | [] => []
  | r :: l =>
      match fr_reviewer_descriptor_id r with
      | Some k => if mem k seen then latest_of seen l else (k, r) :: latest_of (k :: seen) l
      | None => latest_of seen l
      end
  end.

Definition _latest_current_reviews (item : forge_item) (rows : list forge_review) : list (uid * forge_review) :=
  latest_of [] (List.filter (current_review item) rows).

(** ** Objections *)

(** A change request by a reviewer. *)
Definition objection (r : forge_review) : bool :=
  bool_decide (fr_verdict r = ChangesRequested) && present (fr_reviewer_descriptor_id r).

Definition resolutions_of (p : option ReviewPayload) : list ReviewResolution :=
  match p with
  | Some p => match py_assessment p with Some a => as_resolutions a | None => [] end
  | None => []
  end.

Definition submitted (p : option ReviewPayload) : bool := match p with Some p => py_reviewer_submission p | None => false end.

(** [row] may resolve [source]: the same reviewer, later. *)
Definition may_resolve (row source : forge_review) : bool :=
  bool_decide (fr_reviewer_descriptor_id source = fr_reviewer_descriptor_id row) && (fr_observed_at source <=? fr_observed_at row).

(** The objections that [row] resolves. *)
Definition resolved_by (item : forge_item) (policy : review_policy) (objections : list forge_review) (carried : list uid)
    (row : forge_review) : M (list uid) :=
  payload ← ask (fun d => payload_of d (fr_id row));
  if negb (submitted payload) then mret []
  else
    current ← _current_approval row payload item policy (mem (fr_id row) carried);
    mret (if (current : bool)
          then List.filter (fun i => existsb (fun s => bool_decide (fr_id s = i) && may_resolve row s) objections)
                           (map rz_review_id (resolutions_of payload))
          else []).

(** [_unresolved_reviews]. *)
Definition _unresolved_reviews (item : forge_item) (policy : review_policy) (rows : list forge_review) (carried : list uid)
    : M (list string) :=
  let objections := List.filter objection rows in
  let latest := map (fun e => fr_id e.2) (_latest_current_reviews item rows) in
  if negb (nonempty objections) then mret []
  else
    resolved ← mapM (resolved_by item policy objections carried)
                    (List.filter (fun r => mem (fr_id r) latest || mem (fr_id r) carried) rows);
    mret (sorted_set (map (fun r => uuid_str (fr_id r)) (List.filter (fun r => negb (mem (fr_id r) (concat resolved))) objections))).

(** ** Panels *)

Record InvalidReview := { iv_review_id : uid; iv_reviewer_descriptor_id : uid; iv_code : string }.

Record Panel := {
  pn_required : list string;
  pn_reviewed : list string;
  pn_missing : list string;
  pn_check_id : option uid;
  pn_base_commit_oid : option string;
  pn_invalid_carry_forward : list string;
  pn_invalid_reviews : option (list InvalidReview);
  pn_unresolved_review_ids : list string }.

#[export] Instance Panel_eta : Eta Panel := fun p =>
  Build_Panel (pn_required p) (pn_reviewed p) (pn_missing p) (pn_check_id p) (pn_base_commit_oid p) (pn_invalid_carry_forward p)
    (pn_invalid_reviews p) (pn_unresolved_review_ids p).

Definition panel (required reviewed missing : list string) (check : option milestone_check) : Panel :=
  {| pn_required := required; pn_reviewed := reviewed; pn_missing := missing; pn_check_id := mk_id <$> check;
     pn_base_commit_oid := mk_base_commit_oid <$> check; pn_invalid_carry_forward := []; pn_invalid_reviews := None;
     pn_unresolved_review_ids := [] |}.

Definition DIFFERENT_BASES : string := "<reviewers inspected different target bases>".

Definition unresolved_review (i : string) : string := "unresolved-review:" +:+ i.

(** The base that a planned review inspected. *)
Definition planned_base (item : forge_item) (policy : review_policy) (e : uid * forge_review) : M (list string) :=
  payload ← ask (fun d => payload_of d (fr_id e.2));
  match payload with
  | Some p =>
      match py_review_plan p, truthy (py_expected_base_oid p) with
      | Some _, Some base => current ← _current_approval e.2 payload item policy false; mret (if (current : bool) then [base] else [])
      | _, _ => mret []
      end
  | None => mret []
  end.

(** [next(iter(bases)) if len(bases) == 1 else None]. *)
Definition only (l : list string) : option string := match l with [b] => Some b | _ => None end.

(** [_with_findings]. *)
Definition _with_findings (p : Panel) (item : forge_item) (policy : review_policy) (rows : list forge_review) (carried : list uid)
    : M Panel :=
  unresolved ← _unresolved_reviews item policy rows carried;
  planned ← mapM (planned_base item policy) (_latest_current_reviews item rows);
  let bases := remove_dups (option_list (truthy (pn_base_commit_oid p)) ++ concat planned) in
  let missing := if (1 <? List.length bases)%nat && negb (mem DIFFERENT_BASES (pn_missing p))
                 then (pn_missing p ++ [DIFFERENT_BASES])%list else pn_missing p in
  mret (p <| pn_unresolved_review_ids := unresolved |> <| pn_base_commit_oid := only bases |>
          <| pn_missing := (missing ++ map unresolved_review unresolved)%list |>).

(** ** Evidence carried forward *)

Definition latest_specialist (item descriptor : uid) (d : DB) : option forge_review :=
  first_by newer_review (stored_rows (fun r => bool_decide (fr_forge_item_id r = item)
    && bool_decide (fr_reviewer_descriptor_id r = Some descriptor) && negb (historical r)) d).

(** [_carry_source]. *)
Definition _carry_source (item : forge_item) (policy : review_policy) (source_id : uid)
    : M (forge_review * reviewer_descriptor * provider_request) :=
  source ← (get source_id : M forge_review);
  refuse (negb (bool_decide (fr_forge_item_id source = fi_id item)) || negb (bool_decide (fr_verdict source = Approved))
          || negb (present (fr_reviewer_descriptor_id source)) || negb (present (fr_provider_request_id source))
          || negb (present (fr_reviewer_descriptor_revision_id source)) || historical source) "review_carry_invalid" 409 ;;
  descriptor ← (get_opt (fr_reviewer_descriptor_id source) : M reviewer_descriptor);
  revision ← (get_opt (fr_reviewer_descriptor_revision_id source) : M record_revision);
  linked ← ask (fun d => bool_decide ((rv_id policy, rd_id descriptor) ∈ tb_review_policy_reviewer d));
  refuse (negb (current_descriptor descriptor revision) || negb (bool_decide (content_id (rr_content revision) = rd_id descriptor))
          || negb (bool_decide (rd_project_id descriptor = rv_project_id policy)) || negb linked) "review_carry_stale" 409 ;;
  request ← (get_opt (fr_provider_request_id source) : M provider_request);
  refuse (negb (review_invocation descriptor revision request)) "review_carry_invalid" 409 ;;
  latest ← ask (latest_specialist (fi_id item) (rd_id descriptor));
  newest ← lift match latest with Some r => Ok r | None => Err (RuntimeFailure "scalar_one") end;
  refuse (negb (bool_decide (fr_id newest = fr_id source))) "review_carry_superseded" 409 ;;
  mret (source, descriptor, request).

(** The revisions of the documents that guide a reviewer. *)
Definition guidance_revisions (d : DB) (descriptor : uid) : gmap uid Z :=
  list_to_map (omap (fun i => match tb_document d !! i with Some x => Some (i, d_revision x) | None => None end)
                    (related descriptor (tb_reviewer_guidance d))).

Definition blob_sha (a : artifact) : option string := match ar_content a with BlobContent s _ _ => Some s | _ => None end.

(** One entry of [_validate_carries], against the reviewers and the base seen so far. *)
Definition validate_carry (item : forge_item) (policy : review_policy) (seen : list uid * option string) (c : Carry)
    : M (list uid * option string) :=
  '(source, descriptor, _) ← _carry_source item policy (cw_source_review_id c);
  lift (if carry_evidence_valid (cw_evidence c) then Ok tt else Err (ValidationError "ReviewCarryForwardEvidence")) ;;
  x ← (same_project Kartifact (cw_evidence_artifact_id c) (rd_project_id descriptor) : M artifact);
  pinned ← (get_opt (cw_policy_revision_id c) : M record_revision);
  guidance ← ask (fun d => guidance_revisions d (rd_id descriptor));
  let e := cw_evidence c in
  refuse (negb (bool_decide (ar_kind x = BlobArtifact)) || negb (bool_decide (blob_sha x = Some (cw_evidence_sha256 c)))
          || negb (pinned_policy policy pinned)
          || negb (bool_decide (fr_reviewer_descriptor_revision_id source = Some (cw_reviewer_descriptor_revision_id c)))
          || negb (bool_decide (rd_id descriptor = cw_reviewer_descriptor_id c)) || negb (bool_decide (guidance = cw_guidance_revisions c))
          || negb (bool_decide (ce_forge_item_id e = fi_id item)) || negb (bool_decide (ce_source_review_id e = fr_id source))
          || negb (bool_decide (ce_source_commit_oid e = fr_commit_oid source))
          || negb (bool_decide (Some (ce_head_commit_oid e) = fi_head_commit_oid item))
          || negb (bool_decide (Some (ce_target_branch e) = fi_target_branch item))) "review_carry_stale" 409 ;;
  refuse (mem (rd_id descriptor) seen.1
          || match seen.2 with Some b => negb (bool_decide (b = ce_base_commit_oid e)) | None => false end) "review_carry_invalid" 422 ;;
  mret (rd_id descriptor :: seen.1, Some (ce_base_commit_oid e)).

Fixpoint validate_each (item : forge_item) (policy : review_policy) (carries : list Carry) (seen : list uid * option string)
    : M (list uid * option string) :=
  match carries with
  | [] => mret seen
  | c :: carries => seen' ← validate_carry item policy seen c; validate_each item policy carries seen'
  end.

Definition applicable (item : forge_item) (policy : review_policy) : bool :=
  rv_enabled policy && match fi_review_phase item with Some k => mem k (rv_phases policy) | None => false end.

(** [_validate_carries]: the reviewers that are covered, and the base they inspected. *)
Definition _validate_carries (item : forge_item) (policy : review_policy) (carries : list Carry) : M (list uid * option string) :=
  refuse (negb (applicable item policy)) "review_carry_stale" 409 ;;
  validate_each item policy carries ([], None).

(** A delivered approval of the maintainer at the head that opened the gate. *)
Definition opened_gate (policy : uid) (r : forge_review) (g : review_gate) : bool :=
  bool_decide (rg_maintainer_review_id g = Some (fr_id r)) && bool_decide (rg_policy_id g = policy)
  && bool_decide (rg_status g = GateAccepted).

Definition maintainer_approval (d : DB) (item : forge_item) (policy : review_policy) (r : forge_review) : bool :=
  bool_decide (fr_forge_item_id r = fi_id item) && at_head item r && negb (present (fr_reviewer_descriptor_id r))
  && bool_decide (fr_verdict r = Approved) && existsb (opened_gate (rv_id policy) r) (map snd (map_to_list (tb_review_gate d))).

Definition carries_evidence (item : forge_item) (o : outbox_operation) : bool :=
  match review_payload o with
  | Some p => present (py_carry_forward_evidence p) && bool_decide (py_target_branch p = fi_target_branch item)
  | None => false
  end.

Definition newer_delivery (a b : forge_review * outbox_operation) : bool :=
  (fr_observed_at b.1 <? fr_observed_at a.1) || (fr_observed_at a.1 =? fr_observed_at b.1) && (ob_created_at b.2 <=? ob_created_at a.2).

(** [carried_review_payload]. *)
Definition carried_review_payload (d : DB) (item : forge_item) (policy : review_policy) : option ReviewPayload :=
  found ← first_by newer_delivery (r ← stored_rows (maintainer_approval d item policy) d;
                                   o ← stored_rows (fun o => delivers (fr_id r) o && carries_evidence item o) d;
                                   [(r, o)]);
  review_payload found.2.

(** ** The milestone panel *)

Definition CONTRACT_REVIEWERS : list string := ["statement-fidelity"; "definitions"; "decomposition"; "library-api"].

(** [milestones.enabled]. *)
Definition milestones_enabled (project : uid) : M bool := p ← (get project : M Schema.project); mret (bool_decide (p_workflow p = MilestonesFlow)).

Definition panel_reviewer (d : DB) (policy : uid) (r : reviewer_descriptor) : bool :=
  rd_enabled r && bool_decide ((policy, rd_id r) ∈ tb_review_policy_reviewer d).

(** A descriptor takes a perspective by its name, which a preset may prefix. *)
Definition takes (name slug : string) : bool := bool_decide (slug = name) || ends_with ("-" +:+ name) slug.

Definition latest_at_head (item : forge_item) (descriptor : uid) (d : DB) : option forge_review :=
  first_by newer_review (stored_rows (fun r => bool_decide (fr_forge_item_id r = fi_id item) && at_head item r
    && bool_decide (fr_reviewer_descriptor_id r = Some descriptor)) d).

Definition error_code (e : error) : string := match e with DomainError c _ => c | _ => "" end.

(** Whether the newest review of a descriptor at the head covers it, or the record of why not. *)
Definition specialist_coverage (item : forge_item) (policy : review_policy) (descriptor : reviewer_descriptor)
    : M (bool * list InvalidReview) :=
  latest ← ask (latest_at_head item (rd_id descriptor));
  match latest with
  | None => mret (false, [])
  | Some row =>
      payload ← ask (fun d => payload_of d (fr_id row));
      outcome ← attempt (_ ← _carry_source item policy (fr_id row);
                         current ← _current_approval row payload item policy false;
                         refuse (negb current) "invalid_specialist_provenance" 409);
      match outcome with
      | inr _ => mret (true, [])
      | inl e => mret (false, if bool_decide (fr_verdict row = Approved)
                                 || match payload with Some p => py_rubric_approved p | None => false end
                              then [{| iv_review_id := fr_id row; iv_reviewer_descriptor_id := rd_id descriptor; iv_code := error_code e |}]
                              else [])
      end
  end.

(** The coverage of one perspective: any of its descriptors. *)
Definition perspective (item : forge_item) (policy : review_policy) (required : list reviewer_descriptor) (name : string)
    : M (bool * list InvalidReview) :=
  found ← mapM (specialist_coverage item policy) (List.filter (fun r => takes name (rd_slug r)) required);
  mret (existsb fst found, concat (map snd found)).

(** [review_panel] of a check, given what is missing of its route. *)
Definition perspectives_panel (item : forge_item) (policy : review_policy) (check : milestone_check) (route_missing : list string)
    : M Panel :=
  let names := sorted_set (if bool_decide (mk_kind check = RouteCheck) then ["decomposition"] else CONTRACT_REVIEWERS) in
  required ← ask (fun d => stored_rows (panel_reviewer d (rv_id policy)) d);
  found ← mapM (fun n => c ← perspective item policy required n; mret (n, c)) names;
  let covered := map fst (List.filter (fun c => c.2.1) found) in
  mret ((panel (names ++ route_missing) covered
           (List.filter (fun n => negb (mem n covered)) names ++ route_missing) (Some check))%list
        <| pn_invalid_reviews := Some (concat (map (fun c => c.2.2) found)) |>).

(** [review_panel], with the route search of a contract check as an argument: it is [None] where
    the panel is not the milestone panel. *)
Definition review_panel_with (route : repository -> milestone_check -> M (list string)) (item : forge_item) (policy : review_policy)
    : M (option Panel) :=
  repo ← (get (fi_repository_id item) : M repository);
  knowledge ← (if bool_decide (rp_purpose repo = KnowledgeRepo) then milestones_enabled (rp_project_id repo) else mret false);
  if negb knowledge then mret None
  else
    checked ← ask (fun d => head_check d item);
    match checked with
    | None => mret (Some (panel ["milestone-check"] [] ["milestone-check"] None))
    | Some check =>
        if bool_decide (rv_specialist_mode policy = SpecialistAdvisory) || bool_decide (mk_kind check = GraphCheck)
        then mret (Some (panel [] [] [] (Some check)))
        else
          missing ← (if bool_decide (mk_kind check = ContractCheck) then route repo check else mret []);
          p ← perspectives_panel item policy check missing;
          mret (Some p)
    end.

(** [accepted_gate]: a merged item whose gate accepted its head, with a current panel.  A route
    check has no route of its own, so its panel needs no search. *)
Definition accepted_gate_with (route : repository -> milestone_check -> M (list string)) (gate_id repository : uid) (report : CheckReport)
    (k : check_kind) : M milestone_check :=
  gate ← (get gate_id : M review_gate);
  item ← (get (rg_forge_item_id gate) : M forge_item);
  refuse (negb (bool_decide (fi_repository_id item = repository)) || negb (bool_decide (fi_status item = ItemMerged))
          || negb (bool_decide (rg_status gate = GateAccepted)) || negb (bool_decide (rg_accepted_commit_oid gate = fi_head_commit_oid item))
          || match fi_head_commit_oid item with Some h => negb (mem h (ck_ancestor_commits report)) | None => true end)
         "milestone_review_missing" 409 ;;
  checked ← ask (fun d => head_check d item);
  check ← lift match checked with
               | Some c => if bool_decide (mk_kind c = k) then Ok c else Err (DomainError "milestone_review_kind" 409)
               | None => Err (DomainError "milestone_review_kind" 409)
               end;
  policy ← (get (rg_policy_id gate) : M review_policy);
  revision ← (get (rg_policy_revision_id gate) : M record_revision);
  p ← review_panel_with route item policy;
  refuse (negb (rv_enabled policy) || negb (rr_object_revision revision =? rv_revision policy)
          || match p with Some p => nonempty (pn_missing p) | None => true end) "milestone_review_stale" 409 ;;
  mret check.

Definition no_route (_ : repository) (_ : milestone_check) : M (list string) := mret [].

Definition route_candidate (d : DB) (repository : uid) (report : CheckReport) (g : review_gate) : bool :=
  bool_decide (rg_status g = GateAccepted)
  && match tb_forge_item d !! rg_forge_item_id g with
     | Some item => bool_decide (fi_repository_id item = repository) && bool_decide (fi_status item = ItemMerged)
                    && match fi_head_commit_oid item with Some h => mem h (ck_ancestor_commits report) | None => false end
     | None => false
     end.

(** An accepted route that covers the milestones of the check. *)
Fixpoint covering_route (repository : uid) (report : CheckReport) (gates : list review_gate) : M bool :=
  match gates with
  | [] => mret false
  | g :: gates =>
      found ← attempt (accepted_gate_with no_route (rg_id g) repository report RouteCheck);
      match found with
      | inr c => if forallb (fun k => mem k (ck_milestone_keys (mk_report c))) (ck_milestone_keys report) then mret true
                 else covering_route repository report gates
      | inl _ => covering_route repository report gates
      end
  end.

Definition route_missing (repo : repository) (check : milestone_check) : M (list string) :=
  gates ← ask (fun d => stored_rows (route_candidate d (rp_id repo) (mk_report check)) d);
  found ← covering_route (rp_id repo) (mk_report check) gates;
  mret (if (found : bool) then [] else ["accepted-route"]).

Definition review_panel : forge_item -> review_policy -> M (option Panel) := review_panel_with route_missing.
Definition accepted_gate : uid -> uid -> CheckReport -> check_kind -> M milestone_check := accepted_gate_with route_missing.

(** ** The panel of a repository *)

Definition NO_REVIEWERS : string := "<no enabled post-processing reviewer descriptors configured>".

(** The run that owns the review of the item. *)
Definition review_run (d : DB) (item : forge_item) : option uid :=
  match tb_review_demand d !! fi_id item with Some m => Some (dm_run_id m) | None => fi_origin_run_id item end.

(** The library receipt of the head, for the library of an objective. *)
Definition library_gate (repo : repository) (item : forge_item) : M (option (option milestone_check)) :=
  owner ← ask (fun d => review_run d item);
  match owner with
  | Some i =>
      if bool_decide (rp_purpose repo = LibraryRepo) then
        r ← (get i : M run);
        if bool_decide (r_orchestration r = ObjectiveRun) then checked ← ask (fun d => head_check d item); mret (Some checked)
        else mret None
      else mret None
  | None => mret None
  end.

Definition older_slug (a b : reviewer_descriptor) : bool := String.leb (rd_slug a) (rd_slug b).

(** The evidence that a delivered approval of the maintainer carries forward: reviewers, base,
    source reviews, or the error that invalidates it. *)
Definition carried_coverage (item : forge_item) (policy : review_policy) (payload : option ReviewPayload)
    : M (error + (list uid * option string * list uid)) :=
  match payload with
  | Some p =>
      match py_carry_forward_evidence p with
      | Some (c :: rest) =>
          checked ← attempt (_validate_carries item policy (c :: rest));
          mret match checked with
               | inr (reviewers, base) => inr (reviewers, base, map cw_source_review_id (c :: rest))
               | inl e => inl e
               end
      | _ => mret (inr ([], None, []))
      end
  | None => mret (inr ([], None, []))
  end.

Definition carry_code (e : error) : string := match e with DomainError c _ => c | _ => "review_carry_invalid" end.

Definition delivered_base (d : DB) (r : forge_review) : list string :=
  match payload_of d (fr_id r) with Some p => option_list (truthy (py_expected_base_oid p)) | None => [] end.

(** The compulsory panel of post-processing. *)
Definition specialist_panel (item : forge_item) (policy : review_policy) (rows : list forge_review) (check : option milestone_check)
    (delivered : option ReviewPayload) : M Panel :=
  required ← ask (fun d => sort_by older_slug (stored_rows (panel_reviewer d (rv_id policy)) d));
  approvals ← mapM (fun e => payload ← ask (fun d => payload_of d (fr_id e.2));
                             current ← _current_approval e.2 payload item policy false; mret (e, current))
                   (_latest_current_reviews item rows);
  let latest := map fst (List.filter snd approvals) in
  bases ← ask (fun d => concat (map (fun e => delivered_base d e.2) latest));
  payload ← (match delivered with Some p => mret (Some p) | None => ask (fun d => carried_review_payload d item policy) end);
  carried ← carried_coverage item policy payload;
  let '(reviewers, base, sources, invalid) :=
    match carried with
    | inr (reviewers, base, sources) => (reviewers, base, sources, [])
    | inl e => ([], None, [], [carry_code e])
    end in
  let covered := (map fst latest ++ reviewers)%list in
  let bases := remove_dups (bases ++ option_list (mk_base_commit_oid <$> check) ++ option_list base)%list in
  let missing := if nonempty required then map rd_slug (List.filter (fun r => negb (mem (rd_id r) covered)) required) else [NO_REVIEWERS] in
  let p := {| pn_required := map rd_slug required;
              pn_reviewed := map rd_slug (List.filter (fun r => mem (rd_id r) covered) required);
              pn_missing := (missing ++ if (1 <? List.length bases)%nat then [DIFFERENT_BASES] else [])%list;
              pn_check_id := mk_id <$> check; pn_base_commit_oid := only bases; pn_invalid_carry_forward := invalid;
              pn_invalid_reviews := None; pn_unresolved_review_ids := [] |} in
  _with_findings p item policy rows sources.

(** The panel once the library receipt is there: advisory, of milestones, or compulsory. *)
Definition general_panel (item : forge_item) (policy : review_policy) (rows : list forge_review) (repo : repository)
    (checked : option milestone_check) (delivered : option ReviewPayload) : M Panel :=
  if bool_decide (rv_specialist_mode policy = SpecialistAdvisory) then
    knowledge ← (if bool_decide (rp_purpose repo = KnowledgeRepo) then milestones_enabled (rp_project_id repo) else mret false);
    check ← (if (knowledge : bool) then ask (fun d => head_check d item) else mret checked);
    _with_findings (panel [] [] (if knowledge && negb (present check) then ["milestone-check"] else []) check) item policy rows []
  else
    milestones ← review_panel item policy;
    match milestones with
    | Some p => _with_findings p item policy rows []
    | None =>
        if negb (bool_decide (fi_review_phase item = Some PostprocessingKind))
        then _with_findings (panel [] [] [] None) item policy rows []
        else specialist_panel item policy rows checked delivered
    end.

(** [repository_review_panel]. *)
Definition repository_review_panel (item : forge_item) (policy : review_policy) (delivered : option ReviewPayload) : M Panel :=
  rows ← ask (fun d => _review_history d item);
  repo ← (get (fi_repository_id item) : M repository);
  library ← library_gate repo item;
  match library with
  | Some None => _with_findings (panel ["library-check"] [] ["library-check"] None) item policy rows []
  | Some (Some c) =>
      if negb (bool_decide (mk_kind c = LibraryCheck))
      then _with_findings (panel ["library-check"] [] ["library-check"] None) item policy rows []
      else general_panel item policy rows repo (Some c) delivered
  | None => general_panel item policy rows repo None delivered
  end.
