(* ===== verification/PanelSafety.v ===== *)
(** * What a complete panel shows

    The theorems about Panel.v: an approval counts only with the provenance of an independent
    review of the head, and a panel with nothing missing covers every reviewer of the policy and
    every objection. *)

From S2P Require Import Prelude Contracts ReviewContracts Conditions Schema Records Auth Samples MissionTree Missions Ledger Usage Capacity Sessions Assignments Workspaces Labels Launch Panel.

Local Open Scope Z_scope.

(** ** Reading *)

Lemma keeps_get_opt R `{!PreOrder R} {T} `{Table T} i : Keeps R (get_opt i : M T).
Proof. unfold get_opt. frame. Qed.
#[export] Hint Resolve keeps_get_opt : frame.

Lemma get_opt_Ok {T} `{Table T} (i : option uid) d (r : T) d' :
  get_opt i d = Ok (r, d') -> exists k, i = Some k /\ rows d !! k = Some r /\ d' = d.
Proof. unfold get_opt. destruct i; [|done]. intros [??]%get_Ok. eauto. Qed.

Lemma mapM_reads {A B} (f : A -> M B) l d l' d' :
  (forall a, Keeps eq (f a)) -> mapM f l d = Ok (l', d') -> d' = d /\ Forall2 (fun a b => f a d = Ok (b, d)) l l'.
Proof.
  intros Hf. revert l'. induction l as [|a l IH]; intros l' H; cbn in H.
  - apply ret_Ok in H as [-> ->]. by split.
  - apply bind_Ok in H as (b & d1 & Hb & H). pose proof (Hf a _ _ _ Hb) as <-.
    apply bind_Ok in H as (bs & d2 & Hbs & [-> ->]%ret_Ok). apply IH in Hbs as [-> Hbs]. split; [done|]. by constructor.
Qed.

Lemma keeps_mapM R `{!PreOrder R} {A B} (f : A -> M B) l : (forall a, Keeps R (f a)) -> Keeps R (mapM f l).
Proof. intros Hf. induction l; cbn; frame. Qed.
#[export] Hint Extern 1 (Keeps _ (mapM _ _)) => (apply keeps_mapM; [typeclasses eauto|intros ?; frame]) : frame.

Lemma keeps_attempted R `{!PreOrder R} {A} (m : M A) : Keeps R m -> Keeps R (attempt m).
Proof.
  intros Hm d a d'. unfold attempt. destruct (m d) as [[x d1]|e] eqn:E; [intros [= <- <-]; by eapply Hm|].
  by destruct (caught e); intros [= <- <-].
Qed.
#[export] Hint Extern 1 (Keeps _ (attempt _)) => (apply keeps_attempted; [typeclasses eauto|frame]) : frame.

Lemma keeps_current_approval R `{!PreOrder R} row p item policy c : Keeps R (_current_approval row p item policy c).
Proof. unfold _current_approval. frame. Qed.
#[export] Hint Resolve keeps_current_approval : frame.

(** ** Approvals *)

(** An independent review: approved, not historical, by an enabled reviewer at its current
    revision, from a completed invocation with guidance, delivered under the policy in force for
    the item's target. *)
Definition independent_approval (d : DB) (item : forge_item) (policy : review_policy) (v : forge_review) : Prop :=
  exists p r descriptor revision request pinned,
    payload_of d (fr_id v) = Some p /\ fr_verdict v = Approved /\ historical v = false
    /\ fr_reviewer_descriptor_id v = Some r /\ tb_reviewer_descriptor d !! r = Some descriptor /\ rd_enabled descriptor = true
    /\ (k ← fr_reviewer_descriptor_revision_id v; tb_record_revision d !! k) = Some revision
    /\ rr_object_revision revision = rd_revision descriptor
    /\ (k ← fr_provider_request_id v; tb_provider_request d !! k) = Some request
    /\ review_invocation descriptor revision request = true
    /\ (k ← py_policy_revision_id p; tb_record_revision d !! k) = Some pinned /\ pinned_policy policy pinned = true
    /\ py_historical p = false /\ py_target_branch p = fi_target_branch item
    /\ (py_review_plan p <> None -> py_review_base_verified p = true).

Lemma current_approval_Ok v item policy c d d' :
  _current_approval v (payload_of d (fr_id v)) item policy c d = Ok (true, d') ->
  independent_approval d item policy v /\ (c = false -> at_head item v = true).
Proof.
  unfold _current_approval. destruct (payload_of d (fr_id v)) as [p|] eqn:Hp; [|by intros [[=] _]%ret_Ok].
  destruct (_ || _) eqn:E; [by intros [[=] _]%ret_Ok|]. intros H.
  apply bind_Ok in H as (descriptor & ? & (r & Hr & Hd & ->)%get_opt_Ok & H).
  apply bind_Ok in H as (revision & ? & (k & Hk & Hv & ->)%get_opt_Ok & H).
  apply bind_Ok in H as (request & ? & (q & Hq & Hreq & ->)%get_opt_Ok & H).
  destruct (negb (current_descriptor descriptor revision) || _ || _) eqn:E2; [by apply ret_Ok in H as [[=] _]|].
  apply bind_Ok in H as (pinned & ? & (n & Hn & Hpin & ->)%get_opt_Ok & H). apply ret_Ok in H as [H _]. symmetry in H.
  unfold current_descriptor in E2. bools. split.
  - exists p, r, descriptor, revision, request, pinned. cbn in *. rewrite Hk, Hq, Hn. cbn. split_and!; try done; try lia.
    intros Hplan. by destruct (py_review_plan p).
  - intros ->. by destruct (at_head item v).
Qed.

(** ** The newest review of a reviewer *)

#[export] Instance newer_review_trans : Transitive (fun a b => Is_true (newer_review a b)).
Proof.
  intros a b c H1 H2. apply Is_true_true in H1, H2. apply Is_true_true. unfold newer_review in *.
  rewrite !orb_true_iff, !andb_true_iff, !orb_true_iff, !andb_true_iff, !Z.ltb_lt, !Z.eqb_eq, !Pos.leb_le in *. lia.
Qed.

#[export] Instance newer_review_total : Total (fun a b => Is_true (newer_review a b)).
Proof.
  intros a b. rewrite !Is_true_true. unfold newer_review.
  rewrite !orb_true_iff, !andb_true_iff, !orb_true_iff, !andb_true_iff, !Z.ltb_lt, !Z.eqb_eq, !Pos.leb_le. lia.
Qed.

Lemma history_sorted d item : StronglySorted (fun a b => Is_true (newer_review a b)) (_review_history d item).
Proof. apply Sorted_StronglySorted; [apply _|]. apply Sorted_merge_sort, _. Qed.

Lemma elem_of_history d item v :
  v ∈ _review_history d item <-> fr_forge_item_id v = fi_id item /\ exists i, tb_forge_review d !! i = Some v.
Proof.
  unfold _review_history, sort_by. rewrite merge_sort_Permutation, elem_of_stored. by rewrite bool_decide_eq_true.
Qed.

(** [v] is the newest review in [l] by reviewer [k]. *)
Definition newest_in (l : list forge_review) (k : uid) (v : forge_review) : Prop :=
  v ∈ l /\ fr_reviewer_descriptor_id v = Some k
  /\ forall w, w ∈ l -> fr_reviewer_descriptor_id w = Some k -> newer_review v w = true.

Lemma newer_refl v : newer_review v v = true.
Proof. unfold newer_review. rewrite !Z.ltb_irrefl, !Z.eqb_refl, Pos.leb_refl. done. Qed.

Lemma latest_of_newest seen l k v :
  StronglySorted (fun a b => Is_true (newer_review a b)) l -> (k, v) ∈ latest_of seen l -> (k ∉ seen) /\ newest_in l k v.
Proof.
  intros Hs. revert seen. induction Hs as [|r l Hs IH Hr]; intros seen H; cbn in H; [by apply elem_of_nil in H|].
  assert (forall seen', (k, v) ∈ latest_of seen' l -> fr_reviewer_descriptor_id r <> Some k -> (k ∉ seen') /\ newest_in (r :: l) k v) as Hlater.
  { intros seen' Hin Hne. apply IH in Hin as (Hk & Hv & Hd & Hw). split; [done|]. split; [by right|]. split; [done|].
    intros w [->|Hin]%elem_of_cons Hdw; [done|by apply Hw]. }
  destruct (fr_reviewer_descriptor_id r) as [k'|] eqn:Er; [|by apply Hlater].
  destruct (mem k' seen) eqn:Em.
  - apply mem_true in Em. destruct (decide (k' = k)) as [->|Hne]; [|apply Hlater; [done|congruence]].
    by apply IH in H as [Hk _].
  - apply mem_false in Em. apply elem_of_cons in H as [[= -> ->]|H].
    + split; [done|]. split; [by left|]. split; [done|]. intros w [->|Hin]%elem_of_cons _; [apply newer_refl|].
      rewrite Forall_forall in Hr. apply Is_true_true, Hr. done.
    + destruct (decide (k' = k)) as [->|Hne].
      * apply IH in H as [Hk _]. exfalso. apply Hk. by left.
      * apply Hlater in H as [Hk Hv]; [|congruence]. split; [|done]. intros Hin. apply Hk. by right.
Qed.

Lemma StronglySorted_filter {A} (R : relation A) f l : StronglySorted R l -> StronglySorted R (List.filter f l).
Proof.
  induction 1 as [|a l Hs IH Ha]; cbn; [constructor|]. destruct (f a); [|done]. constructor; [done|].
  rewrite Forall_forall in *. intros x Hx. apply Ha. apply list_elem_of_In, filter_In in Hx as [Hx _]. by apply list_elem_of_In.
Qed.

(** The newest review of reviewer [k] at the head of the item. *)
Definition newest_at_head (d : DB) (item : forge_item) (k : uid) (v : forge_review) : Prop :=
  newest_in (List.filter (current_review item) (_review_history d item)) k v.

Lemma latest_current_newest d item k v :
  (k, v) ∈ _latest_current_reviews item (_review_history d item) -> newest_at_head d item k v.
Proof. intros H. eapply latest_of_newest in H as [_ H]; [exact H|]. apply StronglySorted_filter, history_sorted. Qed.

Lemma Forall2_source {A B} (P : A -> B -> Prop) l l' b : Forall2 P l l' -> b ∈ l' -> exists a, a ∈ l /\ P a b.
Proof.
  induction 1 as [|a b' l l' Hp _ IH]; intros Hb; [by apply elem_of_nil in Hb|].
  apply elem_of_cons in Hb as [->|Hb]; [exists a; by split; [left|]|]. destruct (IH Hb) as (x & Hx & Hpx). exists x. by split; [right|].
Qed.

(** ** Objections *)

(** [v] withdraws or confirms the repair of [o]: the reviewer's own later independent approval
    names it, at the head or as evidence [carried] to it. *)
Definition resolves (d : DB) (item : forge_item) (policy : review_policy) (carried : forge_review -> Prop) (v o : forge_review) : Prop :=
  (exists i, tb_forge_review d !! i = Some v) /\ fr_forge_item_id v = fi_id item /\ independent_approval d item policy v
  /\ submitted (payload_of d (fr_id v)) = true /\ fr_id o ∈ map rz_review_id (resolutions_of (payload_of d (fr_id v)))
  /\ fr_reviewer_descriptor_id o = fr_reviewer_descriptor_id v /\ fr_observed_at o <= fr_observed_at v
  /\ (at_head item v = true \/ carried v).

Definition reviews_keyed (d : DB) : Prop := forall i v, tb_forge_review d !! i = Some v -> fr_id v = i.

Lemma elem_of_filter_list {A} (f : A -> bool) l x : x ∈ List.filter f l <-> f x = true /\ x ∈ l.
Proof. rewrite !list_elem_of_In, filter_In. tauto. Qed.

Lemma sorted_set_nil l : sorted_set l = [] -> l = [].
Proof.
  intros H. destruct l as [|x l]; [done|]. assert (x ∈ sorted_set (x :: l)) as Hx.
  { unfold sorted_set, sort_by. rewrite merge_sort_Permutation, elem_of_remove_dups. by left. }
  rewrite H in Hx. by apply elem_of_nil in Hx.
Qed.

Lemma keeps_resolved_by R `{!PreOrder R} item policy objections carried v : Keeps R (resolved_by item policy objections carried v).
Proof. unfold resolved_by. frame. Qed.
#[export] Hint Resolve keeps_resolved_by : frame.

Lemma resolved_by_Ok item policy objections carried v d l d' i :
  resolved_by item policy objections carried v d = Ok (l, d') -> i ∈ l ->
  independent_approval d item policy v /\ submitted (payload_of d (fr_id v)) = true
  /\ i ∈ map rz_review_id (resolutions_of (payload_of d (fr_id v)))
  /\ (fr_id v ∉ carried -> at_head item v = true)
  /\ exists o, o ∈ objections /\ fr_id o = i /\ may_resolve v o = true.
Proof.
  unfold resolved_by. intros H Hi. apply bind_Ok in H as (p & ? & [-> ->]%ask_Ok & H).
  destruct (submitted _) eqn:Es; cbn in H; [|apply ret_Ok in H as [-> _]; by apply elem_of_nil in Hi].
  apply bind_Ok in H as (current & d1 & Hc & [-> ->]%ret_Ok). destruct current; [|by apply elem_of_nil in Hi].
  apply current_approval_Ok in Hc as [Ha Hh]. apply elem_of_filter_list in Hi as [He Hi].
  apply existsb_exists in He as (o & Ho & Hb). bools. split_and!; try done.
  - intros Hn. apply Hh. by apply mem_false.
  - exists o. split; [by apply list_elem_of_In|done].
Qed.

Lemma unresolved_none d item policy carried d' o :
  _unresolved_reviews item policy (_review_history d item) carried d = Ok ([], d') -> reviews_keyed d ->
  o ∈ _review_history d item -> objection o = true -> exists v, resolves d item policy (fun v => fr_id v ∈ carried) v o.
Proof.
  unfold _unresolved_reviews. intros H Hk Ho Hb. set (rows := _review_history d item) in *.
  assert (o ∈ List.filter objection rows) as Hin by (by apply elem_of_filter_list).
  destruct (nonempty (List.filter objection rows)) eqn:En; cbn in H; [|by destruct (List.filter objection rows); [apply elem_of_nil in Hin|]].
  apply bind_Ok in H as (resolved & d1 & Hm & [Hs _]%ret_Ok). symmetry in Hs. apply sorted_set_nil in Hs. apply map_eq_nil in Hs.
  apply mapM_reads in Hm as [-> Hm]; [|intros; frame].
  destruct (mem (fr_id o) (concat resolved)) eqn:Em.
  2: { assert (o ∈ List.filter (fun r => negb (mem (fr_id r) (concat resolved))) (List.filter objection rows)) as Hx
         by (apply elem_of_filter_list; by rewrite Em). rewrite Hs in Hx. by apply elem_of_nil in Hx. }
  apply mem_true, list_elem_of_In, in_concat in Em as (l & Hl & Hi). apply list_elem_of_In in Hl, Hi.
  apply (Forall2_source _ _ _ _ Hm) in Hl as (v & Hv & Hr). apply elem_of_filter_list in Hv as [_ Hv].
  pose proof (resolved_by_Ok _ _ _ _ _ _ _ _ _ Hr Hi) as (Ha & Hsub & Hn & Hh & s & Hso & Hid & Hmay).
  apply elem_of_filter_list in Hso as [_ Hso]. apply elem_of_history in Hso as [_ [i Hsi]], Ho as [_ [j Hoj]], Hv as [Hvi Hvt].
  assert (s = o) as -> by (apply Hk in Hsi as ?, Hoj as ?; congruence).
  unfold may_resolve in Hmay. bools. exists v. split_and!; try done.
  destruct (decide (fr_id v ∈ carried)) as [Hc|Hc]; [by right|left; by apply Hh].
Qed.

(** ** Findings *)

Lemma keeps_unresolved R `{!PreOrder R} item policy rows carried : Keeps R (_unresolved_reviews item policy rows carried).
Proof. unfold _unresolved_reviews. frame. Qed.

Lemma keeps_planned_base R `{!PreOrder R} item policy e : Keeps R (planned_base item policy e).
Proof. unfold planned_base. frame. Qed.
#[export] Hint Resolve keeps_unresolved keeps_planned_base : frame.

Lemma keeps_with_findings R `{!PreOrder R} p item policy rows carried : Keeps R (_with_findings p item policy rows carried).
Proof. unfold _with_findings. frame. Qed.
#[export] Hint Resolve keeps_with_findings : frame.

Lemma with_findings_Ok p item policy rows carried d n d' :
  _with_findings p item policy rows carried d = Ok (n, d') ->
  d' = d /\ exists unresolved missing, _unresolved_reviews item policy rows carried d = Ok (unresolved, d)
    /\ pn_missing n = (missing ++ map unresolved_review unresolved)%list /\ (missing = [] -> pn_missing p = [])
    /\ pn_invalid_carry_forward n = pn_invalid_carry_forward p.
Proof.
  unfold _with_findings. intros H. apply bind_Ok in H as (u & d1 & Hu & H). pose proof Hu as ->%read_only; [|frame].
  apply bind_Ok in H as (planned & d2 & Hp & [-> ->]%ret_Ok). apply mapM_reads in Hp as [-> _]; [|intros; frame].
  split; [done|]. eexists u, _. split; [done|]. split; [done|]. split; [|done]. destruct (_ && _); [|done]. by destruct (pn_missing p).
Qed.

(** ** Carried evidence *)

(** The newest nonhistorical review of an enabled reviewer of the panel, an approval from a
    completed invocation, whose evidence the maintainer carried to the head. *)
Definition carried_approval (d : DB) (item : forge_item) (policy : review_policy) (k : uid) (v : forge_review) : Prop :=
  exists i descriptor, tb_forge_review d !! i = Some v /\ fr_forge_item_id v = fi_id item /\ fr_verdict v = Approved
    /\ historical v = false /\ tb_reviewer_descriptor d !! k = Some descriptor /\ fr_reviewer_descriptor_id v = Some k
    /\ rd_enabled descriptor = true /\ (rv_id policy, rd_id descriptor) ∈ tb_review_policy_reviewer d
    /\ (exists w, latest_specialist (fi_id item) (rd_id descriptor) d = Some w /\ fr_id w = fr_id v).

Lemma keeps_carry_source R `{!PreOrder R} item policy i : Keeps R (_carry_source item policy i).
Proof. unfold _carry_source. frame. Qed.
#[export] Hint Resolve keeps_carry_source : frame.

Lemma keeps_validate_carry R `{!PreOrder R} item policy seen c : Keeps R (validate_carry item policy seen c).
Proof. unfold validate_carry, same_project, in_project. frame. Qed.
#[export] Hint Resolve keeps_validate_carry : frame.

Lemma keeps_validate_each R `{!PreOrder R} item policy carries seen : Keeps R (validate_each item policy carries seen).
Proof. revert seen. induction carries; intros seen; cbn; frame. Qed.
#[export] Hint Resolve keeps_validate_each : frame.

Lemma carry_source_Ok item policy i d v descriptor q d' :
  _carry_source item policy i d = Ok (v, descriptor, q, d') ->
  exists k, fr_reviewer_descriptor_id v = Some k /\ tb_reviewer_descriptor d !! k = Some descriptor /\ carried_approval d item policy k v
    /\ tb_forge_review d !! i = Some v.
Proof.
  unfold _carry_source. intros H. apply bind_Ok in H as (source & ? & [Hs ->]%get_Ok & H).
  apply bind_Ok in H as (? & ? & [E1 ->]%refuse_Ok & H). apply bind_Ok in H as (r & ? & (k & Hk & Hd & ->)%get_opt_Ok & H).
  apply bind_Ok in H as (revision & ? & (n & Hn & Hv & ->)%get_opt_Ok & H). apply bind_Ok in H as (linked & ? & [-> ->]%ask_Ok & H).
  apply bind_Ok in H as (? & ? & [E2 ->]%refuse_Ok & H). apply bind_Ok in H as (request & ? & (m & Hm & Hq & ->)%get_opt_Ok & H).
  apply bind_Ok in H as (? & ? & [E3 ->]%refuse_Ok & H). apply bind_Ok in H as (latest & ? & [-> ->]%ask_Ok & H).
  apply bind_Ok in H as (newest & ? & [Hl ->]%lift_Ok & H). apply bind_Ok in H as (? & ? & [E4 ->]%refuse_Ok & [H ->]%ret_Ok).
  injection H as -> -> ->. unfold current_descriptor in E2. bools. cbn in Hs, Hd. exists k. split; [done|]. split; [done|]. split; [|done].
  exists i, r. destruct (latest_specialist _ _ d) as [w|] eqn:El; [|done]. injection Hl as ->. split_and!; try done. by exists newest.
Qed.

(** Every validated entry names a carried approval, and every covered reviewer has an entry. *)
Lemma validate_each_Ok item policy carries seen d out d' :
  validate_each item policy carries seen d = Ok (out, d') ->
  (forall i r, tb_reviewer_descriptor d !! i = Some r -> rd_id r = i) ->
  (forall c, c ∈ carries -> exists k v, tb_forge_review d !! cw_source_review_id c = Some v /\ carried_approval d item policy k v)
  /\ forall k, k ∈ out.1 -> k ∈ seen.1
       \/ exists c v, c ∈ carries /\ tb_forge_review d !! cw_source_review_id c = Some v /\ carried_approval d item policy k v.
Proof.
  intros H Hkey. revert seen H. induction carries as [|c carries IH]; intros seen H; cbn in H.
  - apply ret_Ok in H as [-> _]. split; [by intros c ?%elem_of_nil|by left].
  - apply bind_Ok in H as (seen' & d1 & Hc & H). pose proof Hc as ->%read_only; [|frame].
    destruct (IH _ H) as [Hall Hcov]. unfold validate_carry in Hc.
    apply bind_Ok in Hc as ([[source descriptor] q] & d2 & Hs & Hc). pose proof Hs as ->%read_only; [|frame].
    apply carry_source_Ok in Hs as (i & Hi & Hd & Ha & Hrow). do 5 skip Hc. skip Hc. apply ret_Ok in Hc as [-> _]. split.
    + intros c' [->|Hc']%elem_of_cons; [by exists i, source|by apply Hall].
    + intros k Hk. destruct (Hcov k Hk) as [Hin|(c' & v & ? & ? & ?)]; [|right; exists c', v; by split; [right|]].
      cbn in Hin. apply elem_of_cons in Hin as [->|Hin]; [|by left]. right. exists c, source. rewrite (Hkey _ _ Hd). by split; [left|].
Qed.

(** ** The compulsory panel *)

Definition descriptors_keyed (d : DB) : Prop := forall i r, tb_reviewer_descriptor d !! i = Some r -> rd_id r = i.

Lemma keeps_carried_coverage R `{!PreOrder R} item policy p : Keeps R (carried_coverage item policy p).
Proof. unfold carried_coverage, _validate_carries. frame. Qed.
#[export] Hint Resolve keeps_carried_coverage : frame.

Lemma attempt_inr {A} (m : M A) d a d' : attempt m d = Ok (inr a, d') -> m d = Ok (a, d').
Proof. unfold attempt. destruct (m d) as [[x d1]|e]; [by intros [= -> ->]|]. by destruct (caught e). Qed.

(** The payload whose evidence counts: that of the approval being delivered, or of the maintainer's
    approval that opened the gate at this head. *)
Definition evidence_source (d : DB) (item : forge_item) (policy : review_policy) (delivered : option ReviewPayload) : option ReviewPayload :=
  match delivered with Some p => Some p | None => carried_review_payload d item policy end.

(** The maintainer carried the review forward, and all that was carried is valid evidence for this
    head: current reviewers, guidance and policy, matching artifacts, one base. *)
Definition carried_forward (d : DB) (item : forge_item) (policy : review_policy) (delivered : option ReviewPayload) (k : uid) (v : forge_review)
    : Prop :=
  carried_approval d item policy k v
  /\ exists p carries c out, evidence_source d item policy delivered = Some p /\ py_carry_forward_evidence p = Some carries
       /\ c ∈ carries /\ cw_source_review_id c = fr_id v /\ _validate_carries item policy carries d = Ok (out, d).

Lemma carried_coverage_Ok item policy delivered d reviewers base sources d' :
  carried_coverage item policy (evidence_source d item policy delivered) d = Ok (inr (reviewers, base, sources), d') ->
  descriptors_keyed d -> reviews_keyed d ->
  (forall k, k ∈ reviewers -> exists v, carried_forward d item policy delivered k v)
  /\ forall v i, fr_id v ∈ sources -> tb_forge_review d !! i = Some v -> exists k, carried_forward d item policy delivered k v.
Proof.
  unfold carried_coverage. intros H Hkey Hrev.
  assert (reviewers = [] /\ sources = [] \/ exists p carries out, evidence_source d item policy delivered = Some p
    /\ py_carry_forward_evidence p = Some carries /\ _validate_carries item policy carries d = Ok (out, d)
    /\ reviewers = out.1 /\ sources = map cw_source_review_id carries) as [[-> ->]|(p & carries & out & Hp & Hc & Hv & -> & ->)].
  { destruct (evidence_source d item policy delivered) as [p|]; [|apply ret_Ok in H as [[= -> -> ->] _]; by left].
    destruct (py_carry_forward_evidence p) as [[|c carries]|] eqn:Ec; [apply ret_Ok in H as [[= -> -> ->] _]; by left| |
      apply ret_Ok in H as [[= -> -> ->] _]; by left]. right.
    apply bind_Ok in H as ([e|[rs b]] & d1 & Hc & [[= -> -> ->] ->]%ret_Ok). apply attempt_inr in Hc.
    assert (Keeps eq (_validate_carries item policy (c :: carries))) as K by (unfold _validate_carries; frame). pose proof (K _ _ _ Hc) as <-.
    by exists p, (c :: carries), (rs, b). }
  - split; [by intros k ?%elem_of_nil|by intros v i ?%elem_of_nil].
  - pose proof Hv as Hv'. unfold _validate_carries in Hv'. skip Hv'. destruct (validate_each_Ok _ _ _ _ _ _ _ Hv' Hkey) as [Hall Hcov]. split.
    + intros k Hk. destruct (Hcov k Hk) as [?%elem_of_nil|(c & v & Hin & Hrow & Ha)]; [done|]. exists v. split; [done|].
      exists p, carries, c, out. by rewrite (Hrev _ _ Hrow).
    + intros v i Hin Hi. apply list_elem_of_fmap in Hin as (c & Hid & Hin). destruct (Hall c Hin) as (k & w & Hrow & Ha).
      rewrite (Hrev _ _ Hi) in Hid. subst i. rewrite Hi in Hrow. injection Hrow as <-. exists k. split; [done|].
      exists p, carries, c, out. by rewrite (Hrev _ _ Hi).
Qed.

Lemma map_eq_nil_inv {A B} (f : A -> B) l : map f l = [] -> l = [].
Proof. by destruct l. Qed.

Lemma filter_nil_all {A} (f : A -> bool) l x : List.filter f l = [] -> x ∈ l -> f x = false.
Proof. intros H Hx. apply not_true_iff_false. intros Ht. assert (x ∈ List.filter f l) as Hin by (by apply elem_of_filter_list). rewrite H in Hin. by apply elem_of_nil in Hin. Qed.

(** Every reviewer of the panel covers the head, by a current approval or by carried evidence. *)
Definition panel_covered (d : DB) (item : forge_item) (policy : review_policy) (delivered : option ReviewPayload) (r : reviewer_descriptor)
    : Prop :=
  (exists v, newest_at_head d item (rd_id r) v /\ independent_approval d item policy v)
  \/ exists v, carried_forward d item policy delivered (rd_id r) v.

(** The evidence that may resolve an objection besides reviews at the head. *)
Definition carried_evidence (d : DB) (item : forge_item) (policy : review_policy) (delivered : option ReviewPayload) (v : forge_review) : Prop :=
  exists k, carried_forward d item policy delivered k v.

Lemma specialist_panel_Ok item policy check delivered d n d' :
  specialist_panel item policy (_review_history d item) check delivered d = Ok (n, d') -> pn_missing n = [] ->
  reviews_keyed d -> descriptors_keyed d ->
  d' = d /\ (exists i r, tb_reviewer_descriptor d !! i = Some r /\ panel_reviewer d (rv_id policy) r = true)
  /\ (forall i r, tb_reviewer_descriptor d !! i = Some r -> panel_reviewer d (rv_id policy) r = true ->
        panel_covered d item policy delivered r)
  /\ forall i o, tb_forge_review d !! i = Some o -> fr_forge_item_id o = fi_id item -> objection o = true ->
       exists v, resolves d item policy (carried_evidence d item policy delivered) v o.
Proof.
  unfold specialist_panel. intros H Hm Hk Hkd. apply bind_Ok in H as (required & ? & [Hreq ->]%ask_Ok & H).
  apply bind_Ok in H as (approvals & d1 & Ha & H). apply mapM_reads in Ha as [-> Ha]; [|intros; frame]. skip H.
  apply bind_Ok in H as (payload & d0 & Hsource & H).
  assert (d0 = d /\ payload = evidence_source d item policy delivered) as [-> ->].
  { unfold evidence_source. destruct delivered; [by apply ret_Ok in Hsource as [-> ->]|by apply ask_Ok in Hsource as [-> ->]]. }
  clear Hsource.
  apply bind_Ok in H as (carried & d2 & Hc & H). pose proof Hc as ->%read_only; [|frame].
  assert (exists reviewers base sources invalid, match carried with
      | inl e => ([], None, [], [carry_code e]) | inr (reviewers, base, sources) => (reviewers, base, sources, [])
      end = (reviewers, base, sources, invalid)
    /\ (forall k, k ∈ reviewers -> exists v, carried_forward d item policy delivered k v)
    /\ forall v i, fr_id v ∈ sources -> tb_forge_review d !! i = Some v -> carried_evidence d item policy delivered v)
    as (reviewers & base & sources & invalid & E & Hcar & Hsrc).
  { destruct carried as [e|[[reviewers base] sources]].
    - exists [], None, [], [carry_code e]. split; [done|]. split; [by intros k ?%elem_of_nil|by intros v i ?%elem_of_nil].
    - exists reviewers, base, sources, []. split; [done|]. by eapply carried_coverage_Ok. }
  rewrite E in H. apply with_findings_Ok in H as (-> & unresolved & missing & Hu & Hn & Hmiss & _). rewrite Hm in Hn.
  symmetry in Hn. apply app_eq_nil in Hn as [-> Hun]. apply map_eq_nil_inv in Hun as ->. specialize (Hmiss eq_refl). cbn in Hmiss.
  apply app_eq_nil in Hmiss as [Hmiss _]. split; [done|].
  assert (forall r, r ∈ required <-> panel_reviewer d (rv_id policy) r = true /\ exists i, tb_reviewer_descriptor d !! i = Some r) as Hel.
  { intros r. rewrite Hreq. unfold sort_by. rewrite merge_sort_Permutation. exact (elem_of_stored (panel_reviewer d (rv_id policy)) d r). }
  destruct (nonempty required) eqn:En; [|done]. split; [|split].
  - destruct required as [|r l]; [done|]. destruct (Hel r) as [Hr _]. destruct Hr as [Hp [i Hi]]; [by left|]. by exists i, r.
  - intros i r Hr Hp. apply map_eq_nil_inv in Hmiss. assert (r ∈ required) as Hin by (apply Hel; eauto).
    pose proof (filter_nil_all _ _ _ Hmiss Hin) as Hcov. apply negb_false_iff, mem_true, elem_of_app in Hcov as [Hcov|Hcov].
    + apply list_elem_of_fmap in Hcov as ([k v] & Hkv & Hin2). apply list_elem_of_fmap in Hin2 as ([e b] & He & Hb). cbn in He. subst e.
      apply elem_of_filter_list in Hb as [Hb Hin2]. cbn in Hb, Hkv. subst b k. apply (Forall2_source _ _ _ _ Ha) in Hin2 as ([k' v'] & Hlat & Hap).
      apply bind_Ok in Hap as (p & ? & [-> ->]%ask_Ok & Hap). apply bind_Ok in Hap as (b & ? & Hap & [Heq ->]%ret_Ok). injection Heq as <- <- <-.
      left. exists v. split; [by apply latest_current_newest|]. by apply current_approval_Ok in Hap as [Hap _].
    + right. by apply Hcar.
  - intros i o Ho Hi Hob. destruct (unresolved_none _ _ _ _ _ o Hu Hk) as (v & [j Hj] & H1 & H2 & H3 & H4 & H5 & H6 & H7);
      [apply elem_of_history; eauto|done|].
    exists v. split; [by exists j|]. do 6 (split; [done|]). destruct H7 as [?|Hin]; [by left|right; by eapply Hsrc].
Qed.

(** ** The panel of a pull request *)

Lemma keeps_library_gate R `{!PreOrder R} repo item : Keeps R (library_gate repo item).
Proof. unfold library_gate. frame. Qed.
#[export] Hint Resolve keeps_library_gate : frame.

(** The knowledge repository of a project that works by milestones, whose pull requests are judged by
    the panel of their milestone check instead. *)
Definition milestone_repository (d : DB) (repo : repository) : Prop :=
  rp_purpose repo = KnowledgeRepo /\ exists p, tb_project d !! rp_project_id repo = Some p /\ p_workflow p = MilestonesFlow.

Lemma not_milestone_panel route item policy d o d' :
  review_panel_with route item policy d = Ok (o, d') ->
  (forall repo, tb_repository d !! fi_repository_id item = Some repo -> ~ milestone_repository d repo) -> o = None /\ d' = d.
Proof.
  unfold review_panel_with. intros H Hp. apply bind_Ok in H as (repo & ? & [Hr ->]%get_Ok & H). specialize (Hp _ Hr).
  destruct (bool_decide_reflect (rp_purpose repo = KnowledgeRepo)) as [E|_].
  - apply bind_Ok in H as (b & d1 & Hb & H). unfold milestones_enabled in Hb. apply bind_Ok in Hb as (p & ? & [Hpr ->]%get_Ok & [-> ->]%ret_Ok).
    rewrite bool_decide_false in H; [by apply ret_Ok in H|]. intros Hw. apply Hp. split; [done|]. by exists p.
  - apply bind_Ok in H as (b & ? & [-> ->]%ret_Ok & H). by apply ret_Ok in H.
Qed.

(** A panel that lacks nothing, where the policy asks for specialists on a post-processing pull
    request. *)
Lemma repository_panel_specialist item policy delivered d n d' repo :
  repository_review_panel item policy delivered d = Ok (n, d') -> pn_missing n = [] ->
  rv_specialist_mode policy = SpecialistRequired -> fi_review_phase item = Some PostprocessingKind ->
  tb_repository d !! fi_repository_id item = Some repo -> ~ milestone_repository d repo ->
  exists check, specialist_panel item policy (_review_history d item) check delivered d = Ok (n, d').
Proof.
  intros H Hm Hs Hph Hrepo Hk. unfold repository_review_panel in H. apply bind_Ok in H as (hist & ? & [-> ->]%ask_Ok & H).
  apply bind_Ok in H as (repo' & ? & [Hr ->]%get_Ok & H). cbn in Hr. rewrite Hrepo in Hr. injection Hr as <-.
  apply bind_Ok in H as (library & d1 & Hl & H). pose proof Hl as ->%read_only; [|frame].
  assert (forall d'', _with_findings (panel ["library-check"] [] ["library-check"] None) item policy (_review_history d item) [] d <> Ok (n, d'')) as Hno.
  { intros d'' Hf. apply with_findings_Ok in Hf as (_ & u & missing & _ & Hn & Hmiss & _). rewrite Hm in Hn. symmetry in Hn.
    apply app_eq_nil in Hn as [-> _]. by discriminate (Hmiss eq_refl). }
  assert (forall check, general_panel item policy (_review_history d item) repo check delivered d = Ok (n, d') ->
    specialist_panel item policy (_review_history d item) check delivered d = Ok (n, d')) as Hgen.
  { intros check Hg. unfold general_panel in Hg. rewrite Hs in Hg. cbn [bool_decide] in Hg.
    rewrite bool_decide_false in Hg by done. apply bind_Ok in Hg as (m & d2 & Hp & Hg).
    apply not_milestone_panel in Hp as [-> ->]; [|intros r Hr'; congruence]. by rewrite Hph, bool_decide_true in Hg. }
  destruct library as [[c|]|]; [|by apply Hno in H|eauto].
  destruct (bool_decide (mk_kind c = LibraryCheck)); cbn in H; [eauto|by apply Hno in H].
Qed.

(** C12. A complete panel is complete.  Where the policy requires specialists and the pull request
    is in post-processing, outside of the knowledge repository of a milestone project (whose panel is
    that of the milestone check and may require nobody), a panel that reports nothing missing has at least one enabled reviewer
    of the policy; every such reviewer covers the head, by the newest review it gave there, an
    independent approval under the policy and target in force, or by its newest approval that the
    maintainer carried forward to this head in evidence that is valid as a whole; and every change
    request that any reviewer ever raised on the pull request is resolved by a later independent
    approval of that reviewer, at the head or carried forward in that way. *)
Theorem complete_panel_covers item policy delivered d n d' repo :
  repository_review_panel item policy delivered d = Ok (n, d') -> pn_missing n = [] ->
  rv_specialist_mode policy = SpecialistRequired -> fi_review_phase item = Some PostprocessingKind ->
  tb_repository d !! fi_repository_id item = Some repo -> ~ milestone_repository d repo ->
  reviews_keyed d -> descriptors_keyed d ->
  (exists i r, tb_reviewer_descriptor d !! i = Some r /\ panel_reviewer d (rv_id policy) r = true)
  /\ (forall i r, tb_reviewer_descriptor d !! i = Some r -> panel_reviewer d (rv_id policy) r = true ->
        panel_covered d item policy delivered r)
  /\ forall i o, tb_forge_review d !! i = Some o -> fr_forge_item_id o = fi_id item -> objection o = true ->
       exists v, resolves d item policy (carried_evidence d item policy delivered) v o.
Proof.
  intros H Hm Hs Hph Hr Hk Hkr Hkd. destruct (repository_panel_specialist _ _ _ _ _ _ _ H Hm Hs Hph Hr Hk) as [check Hp].
  by apply specialist_panel_Ok in Hp as [_ Hp].
Qed.

(** ** Compiler receipts *)

(** What a receipt attests: the revision compiled, definitions and statements rest on foundations
    only, targets at most on admissions besides; for a library nothing is admitted. *)
Record sound_receipt (c : CheckReport) : Prop := {
  sr_compiled : ck_compiled c = true;
  sr_definitions n axioms : ck_definitions c !! n = Some axioms -> Forall (fun a => a ∈ FOUNDATIONS) axioms;
  sr_types n axioms : ck_types c !! n = Some axioms -> Forall (fun a => a ∈ FOUNDATIONS) axioms;
  sr_targets n axioms : ck_targets c !! n = Some axioms -> Forall (fun a => a ∈ "sorryAx"%string :: FOUNDATIONS) axioms;
  sr_library : ck_kind c = LibraryCheck ->
    ck_direct_admissions c = [] /\ forall n axioms, ck_targets c !! n = Some axioms -> Forall (fun a => a ∈ FOUNDATIONS) axioms;
  sr_proof : ck_kind c = ProofCheck -> ck_comparator_passed c = true /\ is_Some (ck_implementation_commit_oid c) }.

Definition receipts_sound (d : DB) : Prop :=
  forall i c, tb_milestone_check d !! i = Some c -> sound_receipt (mk_report c) /\ mk_kind c = ck_kind (mk_report c).

Lemma closures_within (allowed : list string) m n axioms :
  forallb (forallb (fun a => mem a allowed)) (closures m) = true -> m !! n = Some axioms -> Forall (fun a => a ∈ allowed) axioms.
Proof.
  intros H Hn. rewrite forallb_forall in H. assert (In axioms (closures m)) as Hin.
  { apply list_elem_of_In, list_elem_of_fmap. exists (n, axioms). split; [done|]. by apply elem_of_map_to_list. }
  apply H in Hin. rewrite forallb_forall in Hin. apply Forall_forall. intros a Ha. apply mem_true, Hin. by apply list_elem_of_In.
Qed.

Lemma keeps_check_claim R `{!PreOrder R} i r c : Keeps R (check_claim i r c).
Proof. unfold check_claim. frame. Qed.
#[export] Hint Resolve keeps_check_claim : frame.

(** Compiler receipts are sound.  The receipt that a registration answers, and every receipt
    stored after it if those before were sound, says that its revision compiled, that definitions
    and statements have only foundational axioms and targets at most admissions besides, that a
    library receipt has no admission at all, and that a proof receipt passed the comparator on a
    named implementation; what is stored under a kind is a report of that kind. *)
Theorem receipts_stay_sound report_digest actor w report d c d' :
  register_check report_digest actor w report d = Ok (c, d') -> receipts_sound d ->
  receipts_sound d' /\ sound_receipt (mk_report c) /\ exists i, tb_milestone_check d' !! i = Some c.
Proof.
  unfold register_check. intros H Hw. skip H. skip H. apply bind_Ok in H as (? & ? & Hreq & H). apply read_only in Hreq as ->; [|unfold require_host; frame].
  do 2 skip H. skip H. apply bind_Ok in H as (? & ? & [E1 ->]%refuse_Ok & H). apply bind_Ok in H as (? & ? & [E2 ->]%refuse_Ok & H).
  skip H. apply bind_Ok in H as (? & ? & [E3 ->]%refuse_Ok & H). apply bind_Ok in H as (? & ? & [E4 ->]%refuse_Ok & H).
  apply bind_Ok in H as (? & ? & [E5 ->]%refuse_Ok & H). skip H.
  assert (sound_receipt report) as Hs.
  { apply negb_false_iff in E1, E3, E4. rewrite forallb_app in E3. apply andb_true_iff in E3 as [E3 E3'].
    split; [done|by intros n l; apply closures_within|by intros n l; apply closures_within|by intros n l; apply closures_within| |].
    - intros Hk. rewrite Hk in E2. cbn in E2. apply orb_false_iff in E2 as [Ea%nonempty_false E2]. apply negb_false_iff in E2.
      split; [done|]. by intros n l; apply closures_within.
    - intros Hk. rewrite Hk in E5. cbn in E5. apply orb_false_iff in E5 as [Ea E5]. apply negb_false_iff in Ea, E5. split; [done|].
      destruct (ck_implementation_commit_oid report); [by eexists|done]. }
  apply bind_Ok in H as (old & ? & [-> ->]%select_Ok & H). destruct (List.filter _ _) as [|o l] eqn:Ef.
  - apply bind_Ok in H as (row & d1 & Hc & H). unfold create in Hc. injection Hc as <- <-.
    apply bind_Ok in H as (? & d2 & He & [-> ->]%ret_Ok). leaves tb_milestone_check He. unfold same_part in He. cbn in He.
    split; [|split; [done|]; eexists; rewrite He; by rewrite lookup_insert_eq]. intros i c. rewrite He.
    intros [[<- <-]|[_ Hc]]%lookup_insert_Some; [by split|by apply Hw in Hc].
  - apply ret_Ok in H as [-> ->]. split; [done|]. match type of Ef with ?l0 = _ => assert (o ∈ l0) as Ho by (rewrite Ef; by left) end.
    apply elem_of_filter_list in Ho as [_ Ho]. apply elem_of_rows in Ho as [i Hi]. split; [by apply (Hw i)|by exists i].
Qed.

(** ** A reviewed pull request *)

(** Pull request 60 in post-processing, at head [beef].  Reviewer 42 asked for changes at [c0ffee]
    (review 46) and approved [beef] (review 47), naming its objection repaired. *)
Definition reviewed_pull : forge_item :=
  closed_item <| fi_status := ItemOpen |> <| fi_labels := [] |> <| fi_review_phase := Some PostprocessingKind |>
              <| fi_head_commit_oid := Some "beef"%string |>.

Definition sample_policy : review_policy :=
  {| rv_id := 41; rv_created_at := 0; rv_updated_at := 0; rv_revision := 2; rv_project_id := 2; rv_slug := "post";
     rv_specialist_mode := SpecialistRequired; rv_maintainer_identity_id := None; rv_phases := [PostprocessingKind];
     rv_instructions := "Review"; rv_required_checks := []; rv_attention_labels := []; rv_enabled := true |}.

Definition sample_reviewer : reviewer_descriptor :=
  {| rd_id := 42; rd_created_at := 0; rd_updated_at := 0; rd_revision := 3; rd_project_id := 2; rd_slug := "proofs";
     rd_functions := []; rd_instructions := "Check proofs"; rd_harness_id := None; rd_model_options := no_options;
     rd_invocation := Subrequest; rd_integration_identity_id := None; rd_enabled := true |}.

Definition pinned (i : uid) (ref : ObjectRef) (n : Z) (c : revision_content) : record_revision :=
  {| rr_id := i; rr_created_at := 0; rr_object_id := ref; rr_object_revision := n; rr_schema_version := 1; rr_actor_principal_id := 1;
     rr_content := c |}.

Definition sample_review (i : uid) (reviewer : option uid) (v : verdict) (commit : string) (at_time : instant) : forge_review :=
  {| fr_id := i; fr_created_at := at_time; fr_forge_item_id := 60; fr_remote_id := pretty (Zpos i); fr_reviewer_remote_id := "bot";
     fr_reviewer_principal_id := Some 1%positive; fr_reviewer_descriptor_id := reviewer;
     fr_reviewer_descriptor_revision_id := (fun _ => 43%positive) <$> reviewer; fr_provider_request_id := (fun _ => 45%positive) <$> reviewer;
     fr_integration_identity_id := None; fr_reviewer_functions := []; fr_verdict := v; fr_summary := "Checked"; fr_commit_oid := commit;
     fr_observed_at := at_time |}.

Definition sample_assessment : ReviewAssessment :=
  {| as_scope := "the lemma"; as_dimensions := [ProofTrust]; as_complete := true; as_classification_confirmed := true;
     as_evidence := ["compiled"]; as_limitations := []; as_findings := [];
     as_resolutions := [{| rz_review_id := 46; rz_disposition := Repaired; rz_explanation := "fixed"; rz_evidence := ["compiled"] |}] |}.

Definition sample_payload (commit : string) (d : decision) (reviewer : option uid) (assessment : option ReviewAssessment) : ReviewPayload :=
  {| py_forge_item_id := 60; py_commit_oid := commit; py_verdict := d; py_summary := "Checked"; py_assessment := assessment;
     py_comments := []; py_policy_revision_id := Some 44%positive; py_reviewer_descriptor_id := reviewer;
     py_reviewer_descriptor_revision_id := (fun _ => 43%positive) <$> reviewer; py_provider_request_id := (fun _ => 45%positive) <$> reviewer;
     py_integration_identity_id := None; py_historical := false; py_reviewer_submission := present reviewer;
     py_target_branch := Some "main"%string; py_review_plan := None; py_review_base_verified := false; py_expected_base_oid := None;
     py_rubric_approved := false; py_carry_forward_evidence := None; py_gate_result := None |}.

Definition delivered_review (i review : uid) (p : ReviewPayload) : outbox_operation :=
  {| ob_id := i; ob_created_at := 0; ob_updated_at := 0; ob_revision := 1; ob_project_id := Some 2%positive; ob_actor_principal_id := 8;
     ob_kind := ForgeReviewOp; ob_idempotency_key := pretty (Zpos i); ob_payload := PReview p; ob_schema_version := 1;
     ob_status := OutCompleted; ob_retry_count := 1; ob_retry_at := None; ob_lease_owner := None; ob_lease_epoch := 1;
     ob_lease_expires_at := None; ob_result_ref_id := Some (stored Kforge_review review); ob_failure := None |}.

Definition review_request : provider_request :=
  (sample_request 45 52 7 QCompleted) <| q_reason := ForReview |> <| q_reviewer_descriptor_id := Some 42%positive |>
    <| q_reviewer_descriptor_revision_id := Some 43%positive |> <| q_guidance_manifest_artifact_id := Some 53%positive |>.

Definition reviewed_db : DB :=
  sample_db <| tb_project := {[2%positive := sample_project]} |> <| tb_repository := {[31%positive := sample_repository]} |>
    <| tb_forge_item := {[60%positive := reviewed_pull]} |> <| tb_review_policy := {[41%positive := sample_policy]} |>
    <| tb_review_policy_repository := {[(41, 31)%positive]} |> <| tb_review_policy_reviewer := {[(41, 42)%positive]} |>
    <| tb_reviewer_descriptor := {[42%positive := sample_reviewer]} |>
    <| tb_record_revision := <[43%positive := pinned 43 (stored Kreviewer_descriptor 42) 3 (CReviewerDescriptor sample_reviewer [])]>
         {[44%positive := pinned 44 (stored Kreview_policy 41) 2 (CReviewPolicy sample_policy [31%positive] [42%positive])]} |>
    <| tb_provider_request := {[45%positive := review_request]} |>
    <| tb_forge_review := <[47%positive := sample_review 47 (Some 42%positive) Approved "beef" 200]>
         {[46%positive := sample_review 46 (Some 42%positive) ChangesRequested "c0ffee" 100]} |>
    <| tb_outbox_operation :=
         <[49%positive := delivered_review 49 47 (sample_payload "beef" Approve (Some 42%positive) (Some sample_assessment))]>
         {[48%positive := delivered_review 48 46 (sample_payload "c0ffee" RequestChanges (Some 42%positive) None)]} |>.

Lemma reviewed_reviews_keyed : reviews_keyed reviewed_db.
Proof. intros i v. cbn. intros [[<- <-]|[_ [<- <-]%lookup_singleton_Some]]%lookup_insert_Some; reflexivity. Qed.

Lemma reviewed_descriptors_keyed : descriptors_keyed reviewed_db.
Proof. intros i r. cbn. by intros [<- <-]%lookup_singleton_Some. Qed.

Lemma complete_panel_covers_witness :
  exists n, repository_review_panel reviewed_pull sample_policy None reviewed_db = Ok (n, reviewed_db)
    /\ panel_covered reviewed_db reviewed_pull sample_policy None sample_reviewer
    /\ exists v, resolves reviewed_db reviewed_pull sample_policy (carried_evidence reviewed_db reviewed_pull sample_policy None) v (sample_review 46 (Some 42%positive) ChangesRequested "c0ffee" 100).
Proof.
  destruct (is_ok_true (repository_review_panel reviewed_pull sample_policy None reviewed_db)) as [[n d'] E]; [by vm_compute|].
  assert (d' = reviewed_db /\ pn_missing n = []) as [-> Hm] by (vm_compute in E; injection E as <- <-; by split).
  destruct (complete_panel_covers _ _ _ _ _ _ sample_repository E Hm eq_refl eq_refl eq_refl ltac:(by intros [? _]) reviewed_reviews_keyed
              reviewed_descriptors_keyed) as (_ & Hc & Ho).
  exists n. split; [exact E|]. split; [by apply (Hc 42%positive)|]. by apply (Ho 46%positive).
Defined.

Definition zeros (n : nat) : string := string_of_list_ascii (repeat "0"%char n).

Definition library_report : CheckReport :=
  {| ck_source_commit_oid := zeros 40; ck_base_commit_oid := zeros 40; ck_kind := LibraryCheck; ck_manifest_digest := zeros 64;
     ck_base_manifest_digest := zeros 64; ck_ancestor_commits := []; ck_milestone_keys := []; ck_objective_paths := []; ck_compiled := true;
     ck_targets := {["lemma"%string := ["propext"%string]]}; ck_definitions := ∅; ck_types := ∅; ck_declaration_modules := ∅;
     ck_direct_admissions := []; ck_proof_claims := ∅; ck_implementation_commit_oid := None; ck_comparator_passed := false;
     ck_toolchain := "lean4" |}.

Definition build_host : Actor :=
  {| actor_id := 9; actor_kind := HostPrincipal; actor_execution := None; actor_host := Some 90%positive;
     actor_credential_kind := Some HostKey; actor_credential_id := None |}.

Definition library_db : DB :=
  sample_db <| tb_repository := {[31%positive := sample_repository <| rp_purpose := LibraryRepo |>]} |>
    <| tb_workspace := {[91%positive := sample_workspace 91 "/srv/horizon/91"]} |>.

Lemma library_receipts : receipts_sound library_db.
Proof. intros i x. cbn. by intros ?%lookup_empty_Some. Qed.

Lemma receipts_stay_sound_witness :
  exists c d', register_check ck_source_commit_oid build_host 91 library_report library_db = Ok (c, d')
    /\ receipts_sound d' /\ sound_receipt (mk_report c).
Proof.
  destruct (is_ok_true (register_check ck_source_commit_oid build_host 91 library_report library_db)) as [[c d'] E]; [by vm_compute|].
  destruct (receipts_stay_sound ck_source_commit_oid build_host 91 library_report library_db c d' E library_receipts) as (Hd & Hc & _).
  exists c, d'. split; [exact E|]. split; [exact Hd|exact Hc].
Defined.
