(* ===== verification/Decisions.v ===== *)
(** * Review decisions

    The rest of src/archon_horizon/pipeline/review/decisions.py: what a pull request still needs
    ([_completed_review_defect], [_review_next_action], [review_readiness]) and the decisions that
    are queued for the forge ([queue_review], [queue_merge], [queue_label], [queue_comment],
    [queue_edit]).

    Arguments: the JSON read back from a blob of the store; the headings that
    [validate_postprocessing_report] finds missing in a report, by regular expressions. *)

From S2P Require Import Prelude Contracts ReviewContracts Conditions Schema Records Auth Samples MissionTree Missions Ledger Usage Capacity Sessions Assignments Workspaces Labels Launch Panel.

Local Open Scope string_scope.
Local Open Scope Z_scope.

#[export] Instance reviewer_descriptor_revisioned : Revisioned reviewer_descriptor :=
  {| rev_ref r := stored Kreviewer_descriptor (rd_id r); rev_number := rd_revision;
     rev_content r d := CReviewerDescriptor r (related (rd_id r) (tb_reviewer_guidance d)) |}.

(** ** The owner of a review *)

Inductive work_owner : Type := AssignmentOwner (a : assignment) | RequestOwner (q : provider_request).

Definition owner_id (o : work_owner) : uid := match o with AssignmentOwner a => a_id a | RequestOwner q => q_id q end.

Definition owner_completed (o : work_owner) : bool :=
  match o with AssignmentOwner a => bool_decide (a_status a = Completed_) | RequestOwner q => bool_decide (q_status q = QCompleted) end.

Definition owner_stopped (o : work_owner) : bool :=
  match o with
  | AssignmentOwner a => mem (a_status a) [Failed; Cancelled]
  | RequestOwner q => mem (q_status q) [QFailed; QInterrupted]
  end.

Record Defect := { de_code : string; de_retryable : bool }.

Definition defect (code : string) : option Defect := Some {| de_code := code; de_retryable := true |}.

(** The review requests of an owner for a reviewer. *)
Definition owned_request (d : DB) (descriptor : uid) (o : work_owner) (q : provider_request) : bool :=
  bool_decide (q_reason q = ForReview) && bool_decide (q_reviewer_descriptor_id q = Some descriptor)
  && match o with
     | AssignmentOwner a => match tb_execution d !! q_execution_id q with
                            | Some x => bool_decide (x_assignment_id x = a_id a)
                            | None => false
                            end
     | RequestOwner r => bool_decide (q_id q = q_id r)
     end.

Definition undelivered_review (requests : list uid) (o : outbox_operation) : bool :=
  bool_decide (ob_kind o = ForgeReviewOp) && mem (ob_status o) [OutPending; OutRunning; OutUncertain; OutFailed]
  && match review_payload o with
     | Some p => match py_provider_request_id p with Some q => mem q requests | None => false end
     | None => false
     end.

Definition plan_complete (p : ReviewPayload) : bool :=
  match py_review_plan p with
  | None => true
  | Some plan => match py_assessment p with
                 | Some a => as_classification_confirmed a
                             && forallb (fun q => mem (rq_dimension q) (as_dimensions a)) (pl_questions plan)
                 | None => false
                 end
  end.

Definition typed_assessment (p : ReviewPayload) : bool :=
  match py_assessment p with Some a => review_assessment_valid a && is_ok (check_verdict Approve a) | None => true end.

(** [_completed_review_defect]. *)
Definition _completed_review_defect (item : forge_item) (policy : review_policy) (descriptor : reviewer_descriptor) (owner : work_owner)
    : M (option Defect) :=
  requests ← ask (fun d => map q_id (stored_rows (owned_request d (rd_id descriptor) owner) d));
  pending ← any (undelivered_review requests);
  if (pending : bool) then mret (Some {| de_code := "review_delivery_unsettled"; de_retryable := false |})
  else
    rows ← ask (fun d => _review_history d item);
    match List.filter (fun r => match fr_provider_request_id r with Some q => mem q requests | None => false end
                                && bool_decide (fr_reviewer_descriptor_id r = Some (rd_id descriptor)) && at_head item r) rows with
    | [] => mret (defect "review_report_missing")
    | row :: earlier =>
        payload ← ask (fun d => payload_of d (fr_id row));
        let adverse := existsb (fun r => bool_decide (fr_verdict r = ChangesRequested)) earlier in
        if bool_decide (fr_verdict row = ChangesRequested)
           || (adverse && (negb (bool_decide (fr_verdict row = Approved)) || negb (submitted payload)
                           || negb (bool_decide ((p ← payload; py_provider_request_id p) = fr_provider_request_id row))))
        then mret None
        else if negb (bool_decide (fr_verdict row = Approved)) then mret (defect "review_report_incomplete")
        else
          current ← (if submitted payload then _current_approval row payload item policy false else mret false);
          match payload with
          | Some p =>
              if negb current then mret (defect "invalid_specialist_provenance")
              else if negb (typed_assessment p) then mret (defect "review_assessment_incomplete")
              else if negb (plan_complete p) then mret (defect "review_plan_incomplete")
              else if existsb (fun r => bool_decide (fr_reviewer_descriptor_id r = Some (rd_id descriptor))
                                        && bool_decide (fr_verdict r = ChangesRequested)
                                        && negb (mem (fr_id r) (map rz_review_id (resolutions_of payload)))) rows
              then mret (defect "review_resolutions_required")
              else mret None
          | None => mret (defect "invalid_specialist_provenance")
          end
    end.

(** ** The next action *)

Inductive next_step : Type :=
| Prepare
| ReconcileOwner (owner : uid)
| Retry (owner : uid) (report : option Defect)
| RepairResult (owner : uid)
| Collect (owner : uid).

(** The action and, where the owner blocks, its blocker. *)
Record NextAction := { na_descriptor : uid; na_dimensions : list string; na_step : next_step }.

Definition blocker_of (code : string) : Blocker := {| bk_code := code; bk_requirement := None |}.

(** The work on the head by the current revisions of reviewer and policy. *)
Definition current_work (d : DB) (item : forge_item) (policy : review_policy) (descriptor : reviewer_descriptor)
    (e : uid * string * uid * uid * string * review_work) : bool :=
  let '(i, head, dr, pr, branch, _) := e in
  bool_decide (i = fi_id item) && bool_decide (Some head = fi_head_commit_oid item)
  && bool_decide (branch = default "" (fi_target_branch item))
  && match tb_record_revision d !! dr, tb_record_revision d !! pr with
     | Some v, Some w => bool_decide (content_id (rr_content v) = rd_id descriptor) && (rr_object_revision v =? rd_revision descriptor)
                         && pinned_policy policy w
     | _, _ => false
     end.

Definition unsettled_owner (d : DB) (o : work_owner) : bool :=
  match o with
  | AssignmentOwner a => existsb (fun x => bool_decide (x_assignment_id x = a_id a) && negb (present (x_stop_confirmed_at x)))
                                 (map snd (map_to_list (tb_execution d)))
  | RequestOwner q => existsb (fun c => bool_decide (cl_provider_request_id c = Some (q_id q)) && negb (present (cl_released_at c)))
                              (map snd (map_to_list (tb_resource_claim d)))
  end.

Definition owner_of (w : review_work) : M work_owner :=
  match wk_assignment_id w with
  | Some i => a ← (get i : M assignment); mret (AssignmentOwner a)
  | None => q ← (get_opt (wk_provider_request_id w) : M provider_request); mret (RequestOwner q)
  end.

(** [_review_next_action]. *)
Definition _review_next_action (item : forge_item) (policy : review_policy) (descriptor : reviewer_descriptor) (dimensions : list string)
    : M (NextAction * option Blocker) :=
  let action step := {| na_descriptor := rd_id descriptor; na_dimensions := dimensions; na_step := step |} in
  found ← ask (fun d => head (List.filter (current_work d item policy descriptor) (map_to_list (tb_review_work d))));
  match found with
  | None => mret (action Prepare, None)
  | Some (_, w) =>
      owner ← owner_of w;
      report ← (if owner_completed owner then _completed_review_defect item policy descriptor owner else mret None);
      if owner_stopped owner || match report with Some e => de_retryable e | None => false end then
        unsettled ← ask (fun d => unsettled_owner d owner);
        mret (if (unsettled : bool) then (action (ReconcileOwner (owner_id owner)), Some (blocker_of "review_unsettled"))
              else (action (Retry (owner_id owner) report), None))
      else if owner_completed owner then
        mret (action (RepairResult (owner_id owner)),
              Some (blocker_of match report with Some e => de_code e | None => "review_result_not_retryable" end))
      else mret (action (Collect (owner_id owner)), None)
  end.

(** ** Readiness *)

Record Readiness := {
  ry_policy : option review_policy;
  ry_required : list string;
  ry_missing : list string;
  ry_invalid : list InvalidReview;
  ry_blockers : list Blocker;
  ry_actions : list NextAction;
  ry_panel : Panel }.

Definition ready (r : Readiness) : bool := negb (nonempty (ry_blockers r)).

Definition CHECKS : list string := ["milestone-check"; "accepted-route"; "library-check"].

Definition missing_blocker (required : list string) (name : string) : Blocker :=
  {| bk_code := if starts_with "unresolved-review:" name then "unresolved_review_finding"
                else if bool_decide (name = "accepted-route") then "missing_accepted_route"
                else if bool_decide (name = "milestone-check") then "missing_milestone_check"
                else if bool_decide (name = "library-check") then "missing_library_check"
                else if mem name required then "missing_dimension" else "review_panel_incomplete";
     bk_requirement := Some name |}.

(** The approvals at the head that do not count. *)
Definition invalid_review (item : forge_item) (policy : review_policy) (e : uid * forge_review) : M (list InvalidReview) :=
  payload ← ask (fun d => payload_of d (fr_id e.2));
  if negb (bool_decide (fr_verdict e.2 = Approved)) && negb match payload with Some p => py_rubric_approved p | None => false end
  then mret []
  else
    current ← _current_approval e.2 payload item policy false;
    if (current : bool) then mret []
    else
      descriptor ← (get e.1 : M reviewer_descriptor);
      mret [{| iv_review_id := fr_id e.2; iv_reviewer_descriptor_id := rd_id descriptor; iv_code := "invalid_specialist_provenance" |}].

Definition takes_any (slug : string) (names : list string) : list string := List.filter (fun n => takes n slug) names.

(** The action for one reviewer of the panel, if it has something to do. *)
Definition reviewer_action (item : forge_item) (policy : review_policy) (required missing : list string) (unresolved : list uid)
    (descriptor : reviewer_descriptor) : M (list NextAction * list Blocker) :=
  let mine := takes_any (rd_slug descriptor) missing in
  let dimensions := if negb (nonempty mine) && mem (rd_id descriptor) unresolved then takes_any (rd_slug descriptor) required else mine in
  if nonempty dimensions then
    '(a, b) ← _review_next_action item policy descriptor dimensions; mret ([a], option_list b)
  else mret ([], []).

Definition candidate_policies (d : DB) (item : forge_item) : list review_policy :=
  match fi_review_phase item with Some k => stored_rows (covers d (fi_repository_id item) k) d | None => [] end.

Definition no_panel : Panel := panel [] [] [] None.

(** [review_readiness]; of the actions, those that name a reviewer. *)
Definition review_readiness (item : forge_item) (policy : option review_policy) (delivered : option ReviewPayload) : M Readiness :=
  found ← (match policy with
           | Some p => mret (inr p)
           | None => ask (fun d => match candidate_policies d item with
                                   | [p] => inr p
                                   | [] => inl "review_policy_missing"
                                   | _ => inl "review_policy_ambiguous"
                                   end)
           end);
  match found with
  | inl code =>
      mret {| ry_policy := None; ry_required := []; ry_missing := []; ry_invalid := []; ry_blockers := [blocker_of code];
              ry_actions := []; ry_panel := no_panel |}
  | inr p =>
      n ← repository_review_panel item p delivered;
      let required := List.filter (fun name => negb (mem name CHECKS)) (pn_required n) in
      let missing := List.filter (fun name => mem name required) (pn_missing n) in
      rows ← ask (fun d => _review_history d item);
      invalid ← (match pn_invalid_reviews n with
                 | Some l => mret l
                 | None => l ← mapM (invalid_review item p) (_latest_current_reviews item rows); mret (concat l)
                 end);
      let unresolved := omap fr_reviewer_descriptor_id
                          (List.filter (fun r => mem (uuid_str (fr_id r)) (pn_unresolved_review_ids n)) rows) in
      reviewers ← ask (fun d => sort_by older_slug (stored_rows (panel_reviewer d (rv_id p)) d));
      actions ← (if nonempty missing || nonempty unresolved then mapM (reviewer_action item p required missing unresolved) reviewers
                 else mret []);
      mret {| ry_policy := Some p; ry_required := required; ry_missing := missing; ry_invalid := invalid;
              ry_blockers := ((if applicable item p then [] else [blocker_of "review_policy_inapplicable"])
                              ++ map (missing_blocker required) (pn_missing n)
                              ++ map blocker_of (pn_invalid_carry_forward n) ++ concat (map snd actions))%list;
              ry_actions := concat (map fst actions); ry_panel := n |}
  end.

(** ** Resolutions and identities *)

Definition prior_objection (item : uid) (descriptor : option uid) (r : forge_review) : bool :=
  bool_decide (fr_forge_item_id r = item) && bool_decide (fr_reviewer_descriptor_id r = descriptor)
  && bool_decide (fr_verdict r = ChangesRequested).

(** The approval of an independent reviewer, which must settle its own objections. *)
Definition independent (data : ForgeReview) (reviewer_submission : bool) : bool :=
  reviewer_submission && bool_decide (fw_verdict data = Approve) && negb (fw_historical data) && present (fw_reviewer_descriptor_id data).

(** [_validate_resolutions]. *)
Definition _validate_resolutions (data : ForgeReview) (item : forge_item) (reviewer_submission : bool) : M unit :=
  let resolutions := match fw_assessment data with Some a => as_resolutions a | None => [] end in
  refuse (nonempty resolutions && (negb reviewer_submission || negb (present (fw_provider_request_id data))
                                   || negb (present (fw_reviewer_descriptor_id data)))) "review_resolution_independence" 422 ;;
  prior ← ask (fun d => if nonempty resolutions || independent data reviewer_submission
                        then map fr_id (stored_rows (prior_objection (fi_id item) (fw_reviewer_descriptor_id data)) d) else []);
  refuse (existsb (fun r => negb (mem (rz_review_id r) prior)) resolutions) "review_resolution_invalid" 422 ;;
  refuse (independent data reviewer_submission && existsb (fun i => negb (mem i (map rz_review_id resolutions))) prior)
         "review_resolutions_required" 422.

(** An enabled account on the integration of the repository. *)
Definition require_identity (i integration : uid) (code : string) : M integration_identity :=
  identity ← (get i : M integration_identity);
  refuse (negb (ii_enabled identity) || negb (bool_decide (ii_integration_id identity = integration))) code 409 ;;
  mret identity.

(** [maintainer_identity]. *)
Definition maintainer_identity (actor : Actor) (policy : review_policy) (integration : uid) (requested : option uid) : M (option uid) :=
  identifier ← (match requested with
                | Some i => if bool_decide (rv_maintainer_identity_id policy = Some i) then mret (Some i)
                            else admin ← ask (is_admin actor); refuse (negb admin) "forbidden" 403 ;; mret (Some i)
                | None => mret (rv_maintainer_identity_id policy)
                end);
  match identifier with
  | Some i => _ ← require_identity i integration "maintainer_identity_unavailable"; mret (Some i)
  | None => mret None
  end.

(** ** Queueing *)

(** A new operation of the outbox; its key is unique for the actor and the kind. *)
Definition queue_operation (project actor : uid) (k : outbox_kind) (key : string) (body : payload) : M outbox_operation :=
  seen ← any (fun o => bool_decide (ob_actor_principal_id o = actor) && bool_decide (ob_kind o = k) && bool_decide (ob_idempotency_key o = key));
  if (seen : bool) then throw (RuntimeFailure "uq_outbox_operation")
  else create (fun i now =>
    {| ob_id := i; ob_created_at := now; ob_updated_at := now; ob_revision := 1; ob_project_id := Some project;
       ob_actor_principal_id := actor; ob_kind := k; ob_idempotency_key := key; ob_payload := body; ob_schema_version := 1;
       ob_status := OutPending; ob_retry_count := 0; ob_retry_at := None; ob_lease_owner := None; ob_lease_epoch := 0;
       ob_lease_expires_at := None; ob_result_ref_id := None; ob_failure := None |}).

(** [queue_merge]. *)
Definition queue_merge (actor : Actor) (data : ForgeMerge) (key : string) : M outbox_operation :=
  lift (if nonblank (fm_expected_head_oid data) then Ok tt else Err (ValidationError "ForgeMerge")) ;;
  item ← (get (fm_forge_item_id data) : M forge_item);
  project ← project_of Kforge_item (fi_id item);
  project ← lift match project with Some p => Ok p | None => Err (RuntimeFailure "project") end;
  require_project actor project MaintainerGrant ;;
  gate ← (same_project Kreview_gate (fm_review_gate_id data) project : M review_gate);
  refuse (negb (bool_decide (rg_forge_item_id gate = fi_id item)) || negb (bool_decide (rg_status gate = GateAccepted))
          || negb (bool_decide (fi_head_commit_oid item = Some (fm_expected_head_oid data)))
          || negb (bool_decide (rg_accepted_commit_oid gate = Some (fm_expected_head_oid data)))) "review_gate_stale" 409 ;;
  policy ← (get (rg_policy_id gate) : M review_policy);
  p ← repository_review_panel item policy None;
  refuse (nonempty (pn_missing p) || nonempty (pn_invalid_carry_forward p)) "review_panel_incomplete" 409 ;;
  carried ← ask (fun d => carried_review_payload d item policy);
  base ← (match carried with
          | Some c => r ← _validate_carries item policy (default [] (py_carry_forward_evidence c)); mret r.2
          | None => mret (pn_base_commit_oid p)
          end);
  repository ← (get (fi_repository_id item) : M repository);
  identity ← maintainer_identity actor policy (rp_integration_id repository) (fm_integration_identity_id data);
  let data := {| fm_forge_item_id := fm_forge_item_id data; fm_review_gate_id := fm_review_gate_id data;
                 fm_expected_head_oid := fm_expected_head_oid data;
                 fm_integration_identity_id := or_else identity (fm_integration_identity_id data) |} in
  queue_operation project (actor_id actor) ForgeMergeOp key (PMerge data (fi_target_branch item) base).

(** [queue_label]. *)
Definition queue_label (actor : Actor) (data : ForgeLabel) (key : string) : M outbox_operation :=
  lift (if forge_label_valid data then Ok tt else Err (ValidationError "ForgeLabel")) ;;
  project ← project_of Kforge_item (fl_forge_item_id data);
  project ← lift match project with Some p => Ok p | None => Err (RuntimeFailure "project") end;
  require_project actor project WorkerGrant ;;
  queue_operation project (actor_id actor) ForgeLabelOp key (PLabel (fl_forge_item_id data) (fl_add data) (fl_remove data) None None).

(** [queue_comment]. *)
Definition queue_comment (actor : Actor) (data : ForgeComment) (key : string) : M outbox_operation :=
  item ← (get (ft_forge_item_id data) : M forge_item);
  repository ← (get (fi_repository_id item) : M repository);
  require_project actor (rp_project_id repository) WorkerGrant ;;
  identity ← (if is_agent actor then
                l ← live_execution actor;
                match fi_review_phase item with
                | Some k => if bool_decide (lx_role l = Maintainer) then
                              matched ← matching_policy (rp_id repository) k false;
                              match matched with
                              | Some p => maintainer_identity actor p (rp_integration_id repository) None
                              | None => mret None
                              end
                            else mret None
                | None => mret None
                end
              else mret None);
  queue_operation (rp_project_id repository) (actor_id actor) ForgeCommentOp key (PComment data identity).

(** [queue_edit]. *)
Definition queue_edit (actor : Actor) (data : ForgeEdit) (key : string) : M outbox_operation :=
  item ← (get (fe_forge_item_id data) : M forge_item);
  project ← project_of Kforge_item (fi_id item);
  project ← lift match project with Some p => Ok p | None => Err (RuntimeFailure "project") end;
  require_project actor project MaintainerGrant ;;
  refuse (negb (bool_decide (fi_kind item = PullRequest)) || negb (bool_decide (fi_head_commit_oid item = Some (fe_expected_head_oid data)))
          || negb (bool_decide (fi_target_branch item = Some (fe_expected_base data))) || bool_decide (fi_status item = ItemMerged))
         "review_head_changed" 409 ;;
  queue_operation project (actor_id actor) ForgeEditOp key (PEdit data).

(** ** Reviews *)

Definition ascii_lower (c : ascii) : ascii := if is_upper c then ascii_of_N (N_of_ascii c + 32) else c.
Definition ascii_upper (c : ascii) : ascii := if is_lower c then ascii_of_N (N_of_ascii c - 32) else c.

(** [str.title] of a text whose [_] and [-] are spaces. *)
Fixpoint title_chars (start : bool) (l : list ascii) : list ascii :=
  match l with
  | [] => []
  | c :: l =>
      if is_lower c || is_upper c
      then (if start then ascii_upper c else ascii_lower c) :: title_chars false l
      else c :: title_chars true l
  end.

Definition spaced (c : ascii) : ascii := if Ascii.eqb c "_" || Ascii.eqb c "-" then " " else c.

Definition py_title (s : string) : string := string_of_list_ascii (title_chars true (map spaced (chars s))).

(** [rstrip("/")]. *)
Fixpoint drop_slashes (l : list ascii) : list ascii :=
  match l with c :: l' => if Ascii.eqb c "/" then drop_slashes l' else l | [] => [] end.

Definition rstrip_slash (s : string) : string := string_of_list_ascii (rev (drop_slashes (rev (chars s)))).

Definition rubric_slug (c : revision_content) : result string :=
  match c with
  | CReviewerDescriptor r _ => Ok (rd_slug r)
  | CReviewPolicy r _ _ => Ok (rv_slug r)
  | CProject r => Ok (p_slug r)
  | CHarness r => Ok (hs_slug r)
  | _ => Err (RuntimeFailure "slug")
  end.

Section reviews.
Context (read_manifest : string -> option ReviewManifest) (read_evidence : string -> option ReviewCarryForwardEvidence).
Context (report_incomplete : string -> decision -> bool) (public_url : string).

Definition validate_postprocessing_report (summary : string) (verdict : decision) (hist : bool) : M unit :=
  refuse (negb hist && report_incomplete summary verdict) "review_report_incomplete" 422.

(** The payload before the branches of the reviewer. *)
Definition first_payload (data : ForgeReview) (reviewer_submission : bool) (item : forge_item) (policy_revision : uid) : ReviewPayload :=
  {| py_forge_item_id := fw_forge_item_id data; py_commit_oid := fw_commit_oid data; py_verdict := fw_verdict data;
     py_summary := default "" (fw_summary data); py_assessment := fw_assessment data; py_comments := fw_comments data;
     py_policy_revision_id := Some policy_revision; py_reviewer_descriptor_id := fw_reviewer_descriptor_id data;
     py_reviewer_descriptor_revision_id := fw_reviewer_descriptor_revision_id data; py_provider_request_id := fw_provider_request_id data;
     py_integration_identity_id := fw_integration_identity_id data; py_historical := fw_historical data;
     py_reviewer_submission := reviewer_submission; py_target_branch := fi_target_branch item; py_review_plan := None;
     py_review_base_verified := false; py_expected_base_oid := None; py_rubric_approved := false; py_carry_forward_evidence := None;
     py_gate_result := None |}.

(** The account that publishes a review by a rubric. *)
Definition rubric_identity (actor : Actor) (data : ForgeReview) (reviewer_submission : bool) (policy : review_policy)
    (descriptor : reviewer_descriptor) (integration : uid) : M (option uid) :=
  match rd_integration_identity_id descriptor with
  | Some i => identity ← require_identity i integration "reviewer_identity_unavailable"; mret (Some (ii_id identity))
  | None =>
      if (reviewer_submission : bool) then throw (DomainError "reviewer_identity_unavailable" 409)
      else match fw_integration_identity_id data with
           | Some i => admin ← ask (is_admin actor); refuse (negb admin) "forbidden" 403 ;; mret (Some i)
           | None => maintainer_identity actor policy integration None
           end
  end.

Definition historical_summary (status summary : string) : string :=
  HISTORICAL +:+ " This preserves findings on the inspected revision; it does not approve the current PR. "
  +:+ "Recorded invocation status: `" +:+ status +:+ "`." +:+ blank_line +:+ summary.

(** The review of an invocation, pinned to what its manifest names. *)
Definition invocation_payload (data : ForgeReview) (reviewer_submission : bool) (item : forge_item) (descriptor : reviewer_descriptor)
    (project integration request_id : uid) (p : ReviewPayload) : M ReviewPayload :=
  request ← (same_project Kprovider_request request_id project : M provider_request);
  refuse (negb (bool_decide (q_reviewer_descriptor_id request = Some (rd_id descriptor)))) "reviewer_identity_mismatch" 422 ;;
  refuse (negb (bool_decide (q_status request = QCompleted)) && negb (fw_historical data)
          && negb (reviewer_submission && mem (q_status request) [QSubmitted; QRunning])) "review_unsettled" 409 ;;
  refuse (fw_historical data && bool_decide (q_status request = QPending)) "review_unsettled" 409 ;;
  refuse (negb (present (q_guidance_manifest_artifact_id request)) || negb (present (q_reviewer_descriptor_revision_id request)))
         "review_manifest_missing" 409 ;;
  x ← (get_opt (q_guidance_manifest_artifact_id request) : M artifact);
  m ← lift (stored_manifest read_manifest x);
  refuse (negb (bool_decide (mf_forge_item_id m = Some (fi_id item)))) "review_target_mismatch" 422 ;;
  refuse (negb (bool_decide (mf_head_commit_oid m = Some (fw_commit_oid data)))) "review_head_changed" 409 ;;
  refuse (negb (fw_historical data) && negb (bool_decide (mf_target_branch m = Some (fi_target_branch item)))) "review_base_changed" 409 ;;
  p ← (match mf_review_plan m with
       | Some plan =>
           if fw_historical data then mret p
           else
             let p' := p <| py_review_plan := Some plan |> <| py_expected_base_oid := Some (pl_base_commit_oid plan) |> in
             refuse (bool_decide (fw_verdict data = Approve) && negb (plan_complete p')) "review_plan_incomplete" 422 ;;
             mret p'
       | None => mret p
       end);
  identity ← (match mf_integration_identity_id m with
              | Some i => if fw_historical data || reviewer_submission then mret (py_integration_identity_id p)
                          else j ← require_identity i integration "reviewer_identity_unavailable"; mret (Some (ii_id j))
              | None => mret (py_integration_identity_id p)
              end);
  mret (p <| py_reviewer_descriptor_revision_id := q_reviewer_descriptor_revision_id request |>
          <| py_policy_revision_id := mf_policy_revision_id m |> <| py_integration_identity_id := identity |>
          <| py_summary := if fw_historical data then historical_summary (request_status_str (q_status request)) (default "" (fw_summary data))
                           else py_summary p |>).

Definition rubric_heading (title slug : string) (n : Z) (commit invocation summary : string) : string :=
  "### Horizon Review: " +:+ title +:+ blank_line +:+ "Reviewer: `" +:+ slug +:+ "` | Rubric revision: " +:+ pretty n +:+ " | Commit: `"
  +:+ String.substring 0 12 commit +:+ "`" +:+ blank_line +:+ invocation +:+ "." +:+ blank_line +:+ summary.

(** The branch of a review by a rubric. *)
Definition rubric_payload (actor : Actor) (data : ForgeReview) (reviewer_submission : bool) (item : forge_item) (repository : repository)
    (policy : review_policy) (descriptor_id : uid) (p : ReviewPayload) : M ReviewPayload :=
  descriptor ← (same_project Kreviewer_descriptor descriptor_id (rp_project_id repository) : M reviewer_descriptor);
  refuse (negb (rd_enabled descriptor)) "reviewer_unavailable" 422 ;;
  v ← snapshot descriptor (actor_id actor);
  identity ← rubric_identity actor data reviewer_submission policy descriptor (rp_integration_id repository);
  let p := p <| py_reviewer_descriptor_revision_id := Some v |> <| py_integration_identity_id := identity |> in
  p ← (match fw_provider_request_id data with
       | Some q => invocation_payload data reviewer_submission item descriptor (rp_project_id repository) (rp_integration_id repository) q p
       | None => mret p
       end);
  revision ← (get_opt (py_reviewer_descriptor_revision_id p) : M record_revision);
  slug ← lift (rubric_slug (rr_content revision));
  let own := bool_decide (fw_verdict data = Approve) && negb (present (fw_provider_request_id data)) in
  let invocation := (if present (fw_provider_request_id data) then "Reviewer result" else "Maintainer applying this rubric")
                    +:+ (if own then "; this assessment does not establish independent specialist coverage" else "") in
  mret (p <| py_rubric_approved := own |> <| py_verdict := if own then Comment else py_verdict p |>
          <| py_summary := rubric_heading (py_title slug) slug (rr_object_revision revision) (fw_commit_oid data) invocation (py_summary p) |>).

Definition carry_attribution (slug remote_id commit : string) (x : uid) (rationale : string) : string :=
  "- `" +:+ slug +:+ "`: original Forge review `" +:+ remote_id +:+ "` at `" +:+ String.substring 0 12 commit
  +:+ "`; [carry-forward evidence](" +:+ rstrip_slash public_url +:+ "/api/v3/artifacts/" +:+ uuid_str x +:+ "/content). " +:+ rationale.

Definition small_blob (x : artifact) : option string :=
  match ar_content x with BlobContent sha size _ => if size <=? 65536 then Some sha else None | _ => None end.

(** One source whose approval is carried to the new head. *)
Definition carry_entry (item : forge_item) (policy : review_policy) (project : uid) (e : ReviewCarryForward) : M (Carry * string) :=
  '(source, descriptor, request) ← _carry_source item policy (cf_source_review_id e);
  x ← (same_project Kartifact (cf_evidence_artifact_id e) project : M artifact);
  manifest ← lift match q_guidance_manifest_artifact_id request with Some k => Ok k | None => Err (RuntimeFailure "manifest") end;
  y ← (same_project Kartifact manifest project : M artifact);
  let read := sha ← small_blob x; evidence ← read_evidence sha; msha ← blob_sha y; m ← read_manifest msha; Some (sha, evidence, m) in
  '(sha, evidence, m) ← lift match read with Some r => Ok r | None => Err (DomainError "review_carry_invalid" 422) end;
  refuse (negb (bool_decide (mf_forge_item_id m = Some (fi_id item))) || negb (bool_decide (mf_head_commit_oid m = Some (fr_commit_oid source)))
          || negb (bool_decide (mf_review_phase m = fi_review_phase item))
          || negb (bool_decide (default None (mf_target_branch m) = fi_target_branch item))) "review_carry_stale" 409 ;;
  revision ← lift match fr_reviewer_descriptor_revision_id source with Some v => Ok v | None => Err (RuntimeFailure "revision") end;
  mret ({| cw_source_review_id := fr_id source; cw_evidence_artifact_id := ar_id x; cw_evidence_sha256 := sha; cw_evidence := evidence;
           cw_reviewer_descriptor_id := rd_id descriptor; cw_reviewer_descriptor_revision_id := revision;
           cw_guidance_revisions := list_to_map (rev (mf_guidance m)); cw_policy_revision_id := mf_policy_revision_id m |},
        carry_attribution (rd_slug descriptor) (fr_remote_id source) (fr_commit_oid source) (ar_id x) (ce_rationale evidence)).

Definition carry_summary (base : option string) (attribution : list string) : string :=
  blank_line +:+ "### Maintainer evidence carry-forward" +:+ blank_line
  +:+ "These are maintainer attestations of unchanged review scope, not fresh specialist approvals. "
  +:+ "Inspected target base: `" +:+ default "None" base +:+ "`." +:+ blank_line
  +:+ join (String (ascii_of_nat 10) EmptyString) attribution.

Definition carry_payload (data : ForgeReview) (item : forge_item) (policy : review_policy) (project : uid) (p : ReviewPayload)
    : M ReviewPayload :=
  if nonempty (fw_carry_forward data) then
    refuse (negb (bool_decide (fi_review_phase item = Some PostprocessingKind))) "review_carry_invalid" 422 ;;
    entries ← mapM (carry_entry item policy project) (fw_carry_forward data);
    '(_, base) ← _validate_carries item policy (map fst entries);
    mret (p <| py_carry_forward_evidence := Some (map fst entries) |> <| py_expected_base_oid := base |>
            <| py_summary := py_summary p +:+ carry_summary base (map snd entries) |>)
  else mret p.

(** [queue_review]. *)
Definition queue_review (actor : Actor) (raw : ForgeReview) (key : string) (reviewer_submission : bool) : M outbox_operation :=
  data ← lift (forge_review_parse raw);
  refuse (present (fw_provider_request_id data) && negb (present (fw_reviewer_descriptor_id data))) "reviewer_required" 422 ;;
  refuse (present (fw_reviewer_descriptor_revision_id data) && negb (present (fw_reviewer_descriptor_id data))) "reviewer_required" 422 ;;
  item ← (get (fw_forge_item_id data) : M forge_item);
  repository ← (get (fi_repository_id item) : M repository);
  require_project actor (rp_project_id repository) (if reviewer_submission then WorkerGrant else MaintainerGrant) ;;
  when reviewer_submission
    (l ← live_execution actor;
     request ← (get_opt (fw_provider_request_id data) : M provider_request);
     refuse (negb (bool_decide (q_execution_id request = x_id (lx_execution l))) || negb (bool_decide (q_reason request = ForReview))) "scope_mismatch" 403) ;;
  refuse (negb (bool_decide (fi_kind item = PullRequest))
          || (negb (fw_historical data) && (negb (bool_decide (fi_status item = ItemOpen))
                                            || negb (bool_decide (fi_head_commit_oid item = Some (fw_commit_oid data))))))
         "review_head_changed" 409 ;;
  phase ← lift match fi_review_phase item with Some k => Ok k | None => Err (DomainError "review_phase_unknown" 409) end;
  matched ← matching_policy (rp_id repository) phase true;
  policy ← lift match matched with Some p => Ok p | None => Err (RuntimeFailure "policy") end;
  when (reviewer_submission && bool_decide (phase = PostprocessingKind) && negb (present (fw_assessment data))
        && negb (bool_decide (rv_specialist_mode policy = SpecialistAdvisory)))
    (validate_postprocessing_report (default "" (fw_summary data)) (fw_verdict data) (fw_historical data)) ;;
  _validate_resolutions data item reviewer_submission ;;
  pinned ← snapshot policy (actor_id actor);
  let p := first_payload data reviewer_submission item pinned in
  p ← (match fw_reviewer_descriptor_id data with
       | Some i => rubric_payload actor data reviewer_submission item repository policy i p
       | None => identity ← maintainer_identity actor policy (rp_integration_id repository) (fw_integration_identity_id data);
                 mret (p <| py_integration_identity_id := or_else identity (py_integration_identity_id p) |>)
       end);
  p ← carry_payload data item policy (rp_project_id repository) p;
  when (bool_decide (fw_verdict data = Approve) && negb (present (fw_reviewer_descriptor_id data)) && negb (fw_historical data))
    (r ← review_readiness item (Some policy) (Some p); refuse (negb (ready r)) "review_gate_blocked" 409) ;;
  queue_operation (rp_project_id repository) (actor_id actor) ForgeReviewOp key (PReview p).
End reviews.
