(* ===== verification/Packets.v ===== *)
(** * Review packets

    src/archon_horizon/pipeline/review/packets.py: the bounded briefing of a reviewer
    ([prepare_packet]), whose sections are inlined while they fit and otherwise point into the
    complete context that the store keeps.

    Arguments: the blob that the store makes of a JSON text, the prompt templates of the pinned
    bundle, and the JSON schema of a report. *)

From S2P Require Import Prelude Contracts WorkerContracts ReviewContracts Conditions Schema Records Auth Samples MissionTree Missions Ledger Usage Capacity Sessions Assignments Workspaces Labels Launch Panel PanelSafety Decisions.

Local Open Scope string_scope.
Local Open Scope Z_scope.

Definition PACKET_BYTES : Z := 16 * 1024.

Definition encode (packet : json) : string := canonical_json packet.

Definition encoded_bytes (j : json) : Z := byte_length (encode j).

(** ** JSON of the records *)

Definition json_id (i : uid) : json := JString (uuid_str i).
Definition json_opt {A} (f : A -> json) (o : option A) : json := match o with Some a => f a | None => JNull end.
Definition json_strings (l : list string) : json := JList (map JString l).
Definition json_time (t : instant) : json := JString (isoformat t).

Definition dimension_str (x : Dimension) : string :=
  match x with
  | MathematicalContract => "mathematical_contract" | PublicDesign => "public_design" | ProofTrust => "proof_trust"
  | ComputationalCost => "computational_cost" | Distributability => "distributability"
  | ScholarlyTraceability => "scholarly_traceability"
  end.

(** [ReviewPlan.model_dump(mode="json")]. *)
Definition plan_json (p : ReviewPlan) : json :=
  JObject [("version", JInt 1); ("mode", JString "shadow"); ("base_commit_oid", JString (pl_base_commit_oid p));
           ("scope_paths", json_strings (pl_scope_paths p));
           ("questions", JList (map (fun q => JObject [("dimension", JString (dimension_str (rq_dimension q)));
                                                        ("question", JString (rq_question q))]) (pl_questions p)));
           ("risk_triggers", json_strings (pl_risk_triggers p))].

Definition document_kind_str (k : document_kind) : string :=
  match k with
  | Roadmap => "roadmap" | Specification => "specification" | Notes => "notes" | ReferenceList => "reference_list"
  end.

(** [json_value(dict(row))] of a document. *)
Definition document_json (x : document) : json :=
  JObject [("id", json_id (d_id x)); ("created_at", json_time (d_created_at x)); ("updated_at", json_time (d_updated_at x));
           ("revision", JInt (d_revision x)); ("project_id", json_id (d_project_id x)); ("number", JInt (d_number x));
           ("kind", JString (document_kind_str (d_kind x))); ("title", JString (d_title x));
           ("source_repository_id", json_id (d_source_repository_id x)); ("source_path", JString (d_source_path x));
           ("source_commit_oid", JString (d_source_commit_oid x)); ("archived_at", json_opt json_time (d_archived_at x))].

(** [o[key] = value] on the items of a dict. *)
Fixpoint json_set (key : string) (value : json) (o : list (string * json)) : list (string * json) :=
  match o with
  | [] => [(key, value)]
  | (k, v) :: o => if bool_decide (k = key) then (k, value) :: o else (k, v) :: json_set key value o
  end.

Definition json_fields (j : json) : list (string * json) := match j with JObject o => o | _ => [] end.

(** [value[k1][k2]...]. *)
Definition json_path (keys : list string) (j : json) : json :=
  List.fold_left (fun j k => json_get k (json_fields j)) keys j.

(** ** Query strings *)

(** The bytes of a code point below 256 in UTF-8. *)
Definition utf8 (c : ascii) : list Z :=
  let n := code c in if n <? 128 then [n] else [192 + n / 64; 128 + n mod 64].

Definition upper_hex (n : Z) : ascii := ascii_of_N (Z.to_N (if n <? 10 then 48 + n else 55 + n)).

Definition percent (b : Z) : string := String "%" (String (upper_hex (b / 16)) (String (upper_hex (b mod 16)) EmptyString)).

(** [urllib.parse.quote_plus]. *)
Definition quote_char (c : ascii) : string :=
  if is_lower c || is_upper c || is_digit c || mem c ["_"%char; "."%char; "-"%char; "~"%char] then String c EmptyString
  else if Ascii.eqb c " " then "+" else join "" (map percent (utf8 c)).

Definition quote_plus (s : string) : string := join "" (map quote_char (chars s)).

Definition urlencode (fields : list (string * string)) : string :=
  join "&" (map (fun kv => quote_plus kv.1 +:+ "=" +:+ quote_plus kv.2) fields).

(** [str] of a value that may be [None]. *)
Definition str_opt (o : option string) : string := default "None" o.

(** ** The packet *)

(** [ORDER BY observed_at, id]. *)
Definition older_review (a b : forge_review) : bool :=
  (fr_observed_at a <? fr_observed_at b) || (fr_observed_at a =? fr_observed_at b) && (fr_id a <=? fr_id b)%positive.

Definition detail_url (r : forge_review) : string := "/api/v3/records/forge_review/" +:+ uuid_str (fr_id r).

Definition objection_json (r : forge_review) : json :=
  JObject [("id", json_id (fr_id r)); ("commit_oid", JString (fr_commit_oid r)); ("summary", JString (fr_summary r));
           ("detail_url", JString (detail_url r))].

Definition prior_objections (d : DB) (item descriptor : uid) : list forge_review :=
  sort_by older_review (stored_rows (prior_objection item (Some descriptor)) d).

Definition excerpt (r : forge_review) : json :=
  JObject [("id", json_id (fr_id r)); ("commit_oid", JString (fr_commit_oid r));
           ("summary_excerpt", JString (String.substring 0 200 (fr_summary r)));
           ("summary_truncated", JBool (200 <? Z.of_nat (String.length (fr_summary r)))); ("detail_url", JString (detail_url r))].

Definition prior_json (count : Z) (items : list json) (truncated : bool) : json :=
  JObject [("count", JInt count); ("items", JList items); ("truncated", JBool truncated);
           ("context_json_pointer", JString "/prior_objections")].

(** The loop over the excerpts: the one that makes the list too long is taken out again. *)
Fixpoint excerpts (count : Z) (rows : list forge_review) (items : list json) : list json :=
  match rows with
  | [] => items
  | r :: rows =>
      let items' := (items ++ [excerpt r])%list in
      if 3200 <? encoded_bytes (prior_json count items' true) then items else excerpts count rows items'
  end.

Definition prior_section (rows : list forge_review) : json :=
  let count := Z.of_nat (List.length rows) in
  let items := excerpts count (take 8 rows) [] in
  prior_json count items (Z.of_nat (List.length items) <? count).

(** The sections in the order in which they claim the space, with their own limits. *)
Definition sections : list (string * Z) :=
  [("descriptor", 6000); ("policy", 4000); ("review_instructions", 2000); ("function_instructions", 1400);
   ("milestone_evidence", 2500); ("milestone_discovery", 1600); ("guidance", 1500); ("review_plan", 1600)].

Definition placeholder (name : string) (value : json) : json :=
  JObject [("omitted", JBool true); ("context_json_pointer", JString ("/" +:+ name)); ("encoded_bytes", JInt (encoded_bytes value))].

Definition put_section (context : list (string * json)) (packet : list (string * json)) (section : string * Z) : list (string * json) :=
  let '(name, limit) := section in
  let value := json_get name context in
  let packet' := json_set name (if encoded_bytes value <=? limit then value else placeholder name value) packet in
  if PACKET_BYTES - 1800 <? encoded_bytes (JObject packet') then json_set name (placeholder name value) packet' else packet'.

Definition put_sections (context packet : list (string * json)) : list (string * json) :=
  List.fold_left (put_section context) sections packet.

(** The packet of identifiers that leave no room for any section. *)
Definition omitted_packet (complete : json) : json :=
  JObject [("schema_version", JInt 1); ("complete_context", complete); ("omitted", JBool true); ("context_json_pointer", JString "");
           ("reason", JString "Review context identifiers exceed the inline packet budget; read complete_context.")].

(** What [prepare_packet] is given. *)
Record Briefing := {
  br_project : uid;
  br_execution : uid;
  br_item : forge_item;
  br_repository : repository;
  br_descriptor : reviewer_descriptor;
  br_descriptor_revision : uid;
  br_policy : review_policy;
  br_policy_revision : uid;
  br_functions : list (string * json);
  br_guidance : list document;
  br_instructions : string;
  br_evidence : option json;
  br_discovery : json;
  br_report_request_id : string;
  br_plan : option ReviewPlan }.

Definition pins (b : Briefing) : json :=
  JObject [("project_id", json_id (br_project b)); ("repository_id", json_id (rp_id (br_repository b)));
           ("forge_item_id", json_id (fi_id (br_item b))); ("forge_item_revision", JInt (fi_revision (br_item b)));
           ("head_commit_oid", json_opt JString (fi_head_commit_oid (br_item b)));
           ("target_branch", json_opt JString (fi_target_branch (br_item b)));
           ("policy_id", json_id (rv_id (br_policy b))); ("policy_revision_id", json_id (br_policy_revision b));
           ("reviewer_descriptor_id", json_id (rd_id (br_descriptor b)));
           ("reviewer_descriptor_revision_id", json_id (br_descriptor_revision b))].

Definition inspect_url (i : uid) : string := "/api/v3/forge-items/" +:+ uuid_str i +:+ "/inspect?".

Definition view_link (b : Briefing) (view limit : string) : string :=
  inspect_url (fi_id (br_item b))
  +:+ urlencode [("view", view); ("expected_head_oid", str_opt (fi_head_commit_oid (br_item b))); ("limit", limit)].

Definition evidence_links (b : Briefing) : json :=
  let repository := "/api/v3/repositories/" +:+ uuid_str (rp_id (br_repository b)) in
  JObject [("diff", JString (view_link b "diff" "100")); ("files", JString (view_link b "files" "20"));
           ("reviews", JString (view_link b "reviews" "20")); ("comments", JString (view_link b "comments" "20"));
           ("review_comments", JString (view_link b "review_comments" "20" +:+ "&review_id={remote_review_number}"));
           ("target_head", JString (repository +:+ "/head?" +:+ urlencode [("branch", str_opt (fi_target_branch (br_item b)))]));
           ("source_file", JString (repository +:+ "/file?" +:+ urlencode [("commit_oid", str_opt (fi_head_commit_oid (br_item b)))]
                                    +:+ "&path={urlencoded_path}"))].

Definition response_fields : json :=
  JObject [("inspect", JString ("items; diff; next_page; review_readiness.panel.check_id. "
                                +:+ "For diff, limit counts lines; other views paginate items."));
           ("milestone_check", JString ("id, kind, source_commit_oid, base_commit_oid; report contains compiled, "
                                        +:+ "toolchain, manifest_digest, targets, types, definitions and direct_admissions"));
           ("repository_file", JString "text (decoded UTF-8, or null); content_base64; commit_oid; path")].

Definition assessment_template (p : ReviewPlan) : json :=
  JObject [("scope", JString "Replace with the inspected scope and pins");
           ("dimensions", json_strings (map (fun q => dimension_str (rq_dimension q)) (pl_questions p)));
           ("complete", JBool false); ("classification_confirmed", JBool false);
           ("evidence", json_strings ["Replace with concrete review evidence"]);
           ("limitations", JList []); ("findings", JList []); ("resolutions", JList [])].

Section packets.
Context (put_json : string -> Blob) (template : string -> list (string * string) -> string) (report_schema : json).

Definition review_context (b : Briefing) (objections : list forge_review) : list (string * json) :=
  [("schema_version", JInt 1); ("pins", pins b);
   ("policy", JObject [("instructions", JString (rv_instructions (br_policy b))); ("revision", JInt (rv_revision (br_policy b)))]);
   ("descriptor", JObject [("slug", JString (rd_slug (br_descriptor b))); ("revision", JInt (rd_revision (br_descriptor b)));
                           ("instructions", JString (rd_instructions (br_descriptor b)))]);
   ("function_instructions", JObject (br_functions b)); ("review_instructions", JString (br_instructions b));
   ("guidance", JList (map document_json (br_guidance b))); ("report_schema", report_schema);
   ("milestone_evidence", json_opt id (br_evidence b)); ("milestone_discovery", br_discovery b);
   ("review_plan", json_opt plan_json (br_plan b)); ("prior_objections", JList (map objection_json objections))].

Definition report_section (b : Briefing) (objections : list forge_review) : list (string * json) :=
  let base :=
    [("method", JString "POST"); ("url", JString ("/api/v3/reviewer-invocations/" +:+ br_report_request_id b +:+ "/report"));
     ("minimal_body", JObject [("verdict", JString "commented"); ("summary", JString "Your assessment and evidence");
                               ("historical", JBool false)]);
     ("minimal_body_scope", JString "Commented feedback only; approval must satisfy the requirements below.");
     ("verdicts", json_path ["properties"; "verdict"; "enum"] report_schema);
     ("typed_schema", JObject [("context_json_pointer", JString "/report_schema")]);
     ("assessment_required_for_approval", JBool (present (br_plan b) || nonempty objections));
     ("delivery_url", JString "/api/v3/operations/{response.idempotency_key}?operation=reviewer_report");
     ("delivery", JString (template "reviewer/packet-delivery" []))] in
  let planned := match br_plan b with
                 | Some p => json_set "approval_requirements" (JString (template "reviewer/packet-approval-requirements" []))
                               (json_set "assessment_template" (assessment_template p) base)
                 | None => base
                 end in
  if nonempty objections then
    let requirements := JString (template "reviewer/packet-prior-objections" []) in
    let o := json_set "prior_objection_requirements" requirements planned in
    if present (br_plan b) then o else json_set "approval_requirements" requirements o
  else planned.

Definition complete_context (a : artifact) (sha256 : string) : json :=
  JObject [("url", JString ("/api/v3/artifacts/" +:+ uuid_str (ar_id a) +:+ "/content")); ("sha256", JString sha256)].

(** The packet before its sections. *)
Definition packet_head (b : Briefing) (objections : list forge_review) (complete : json) : list (string * json) :=
  let head :=
    [("schema_version", JInt 1); ("pins", pins b); ("complete_context", complete); ("evidence_links", evidence_links b);
     ("response_fields", response_fields); ("report", JObject (report_section b objections));
     ("snapshot_limits", JString (template "reviewer/packet-snapshot-limits" []))] in
  if nonempty objections then json_set "prior_objections" (prior_section objections) head else head.

Definition packet_of (b : Briefing) (objections : list forge_review) (complete : json) : json :=
  let packet := JObject (put_sections (review_context b objections) (packet_head b objections complete)) in
  if PACKET_BYTES <? encoded_bytes packet then omitted_packet complete else packet.

Definition prepare_packet (b : Briefing) : M (json * artifact) :=
  objections ← ask (fun d => prior_objections d (fi_id (br_item b)) (rd_id (br_descriptor b)));
  let blob := put_json (encode (JObject (review_context b objections))) in
  a ← save_blob (br_project b) (bl_sha256 blob) (bl_size blob) (bl_media_type blob) (Some (br_execution b));
  sha256 ← lift match ar_content a with BlobContent s _ _ => Ok s | _ => Err (RuntimeFailure "sha256") end;
  mret (packet_of b objections (complete_context a sha256), a).
End packets.

Lemma keeps_prepare_packet R `{!PreOrder R, !Quiet R artifact} put template schema b :
  Keeps R (prepare_packet put template schema b).
Proof. unfold prepare_packet. frame. Qed.
#[export] Hint Extern 1 (Keeps _ (prepare_packet _ _ _ _)) => (apply keeps_prepare_packet; typeclasses eauto) : frame.

(** ** Lengths *)

Lemma byte_length_app s t : byte_length (s +:+ t) = byte_length s + byte_length t.
Proof. unfold byte_length. induction s as [|c s IH]; [done|]. change (String c s +:+ t) with (String c (s +:+ t)). cbn. lia. Qed.

Lemma byte_length_nonneg s : 0 <= byte_length s.
Proof. unfold byte_length. lia. Qed.

Lemma escape_char_length c : byte_length (escape_char c) <= 6.
Proof.
  unfold escape_char. repeat match goal with |- context [if ?b then _ else _] => destruct b end; by vm_compute.
Qed.

Lemma byte_length_join l : byte_length (join "" l) = List.fold_right (fun s n => byte_length s + n) 0 l.
Proof.
  unfold join. induction l as [|s [|s' l] IH]; [done|cbn; lia|].
  change (String.concat "" (s :: s' :: l)) with (s +:+ ("" +:+ String.concat "" (s' :: l))). rewrite !byte_length_app, IH. done.
Qed.

Lemma byte_length_chars s : Z.of_nat (List.length (chars s)) = byte_length s.
Proof. unfold byte_length, chars. f_equal. induction s; cbn; congruence. Qed.

Lemma json_string_length s : byte_length (json_string s) <= 6 * byte_length s + 2.
Proof.
  unfold json_string. rewrite !byte_length_app, byte_length_join, <- (byte_length_chars s). change (byte_length quote) with 1.
  enough (List.fold_right (fun s n => byte_length s + n) 0 (map escape_char (chars s)) <= 6 * Z.of_nat (List.length (chars s))) by lia.
  induction (chars s) as [|c l IH]; [done|]. cbn [map foldr List.length]. pose proof (escape_char_length c). lia.
Qed.

Lemma uuid_str_length u : byte_length (uuid_str u) = 36.
Proof. by vm_compute. Qed.

(** The space that an entry of an object takes, with its colon and its comma. *)
Definition entry_bytes (kv : string * json) : Z := byte_length (json_string kv.1) + encoded_bytes kv.2 + 2.

Lemma sum_by_map {A B} (f : B -> Z) (g : A -> B) l : sum_by f (map g l) = sum_by (fun a => f (g a)) l.
Proof. unfold sum_by. induction l as [|a l IH]; [done|]. cbn [map foldr]. by rewrite IH. Qed.

Lemma commas_length l : l <> [] -> byte_length (join "," l) = sum_by (fun s => byte_length s + 1) l - 1.
Proof.
  unfold join. intros Hl. induction l as [|s [|s' l] IH]; [done|cbn; lia|].
  change (String.concat "," (s :: s' :: l)) with (s +:+ ("," +:+ String.concat "," (s' :: l))). rewrite !byte_length_app, IH by done.
  change (byte_length ",") with 1. unfold sum_by in *. cbn [foldr] in *. lia.
Qed.

Lemma object_bytes fields : fields <> [] -> encoded_bytes (JObject fields) = 1 + sum_by entry_bytes fields.
Proof.
  intros Hf. unfold encoded_bytes, encode. cbn [canonical_json]. rewrite !byte_length_app. change (byte_length "{") with 1. change (byte_length "}") with 1.
  rewrite commas_length.
  - rewrite sum_by_map. rewrite (sum_by_Permutation _ _ _ (sort_by_Permutation _ _)), sum_by_map. cbn [fst snd].
    enough (sum_by (fun kv : string * json => byte_length (json_string kv.1 +:+ ":" +:+ canonical_json kv.2) + 1) fields
            = sum_by entry_bytes fields) by lia.
    unfold sum_by. clear Hf. induction fields as [|kv fields IH]; [done|]. cbn [foldr]. rewrite IH. unfold entry_bytes.
    rewrite !byte_length_app. change (byte_length ":") with 1. unfold encoded_bytes, encode. lia.
  - intros E. apply map_eq_nil in E. match type of E with sort_by ?r ?l = [] => pose proof (sort_by_Permutation r l) as Hp end.
    rewrite E in Hp. apply Permutation_nil_l in Hp. symmetry in Hp. apply map_eq_nil in Hp. done.
Qed.

Lemma object_length fields : encoded_bytes (JObject fields) <= 2 + sum_by entry_bytes fields.
Proof. destruct fields as [|kv fields]; [by vm_compute|]. rewrite object_bytes by done. lia. Qed.

Lemma complete_context_length a sha256 :
  encoded_bytes (complete_context a sha256) <= 400 + 6 * byte_length sha256.
Proof.
  unfold complete_context. etrans; [apply object_length|]. unfold sum_by. cbn [foldr].
  set (url := _ +:+ uuid_str (ar_id a) +:+ _). assert (byte_length url = 62) as Hu by (subst url; by rewrite !byte_length_app, uuid_str_length).
  unfold entry_bytes. cbn [fst snd]. unfold encoded_bytes, encode. cbn [canonical_json].
  pose proof (json_string_length url). pose proof (json_string_length sha256).
  change (byte_length (json_string "url")) with 5. change (byte_length (json_string "sha256")) with 8. lia.
Qed.

Lemma omitted_packet_length complete : encoded_bytes (omitted_packet complete) <= 250 + encoded_bytes complete.
Proof.
  unfold omitted_packet. etrans; [apply object_length|]. unfold sum_by. cbn [foldr]. unfold entry_bytes at 2. cbn [fst snd].
  match goal with |- 2 + (?a + (?b + ?k + 2 + (?c + (?e + (?f + 0))))) <= _ =>
    let n := eval vm_compute in (2 + (a + (b + 2 + (c + (e + f))))) in assert (2 + (a + (b + 2 + (c + (e + f)))) = n) by (by vm_compute) end.
  lia.
Qed.

(** ** Sections *)

Lemma json_get_set k v o k' : json_get k' (json_set k v o) = if bool_decide (k' = k) then v else json_get k' o.
Proof.
  unfold json_get. induction o as [|[k0 v0] o IH]; cbn [json_set List.find fst].
  - case_bool_decide as E1; case_bool_decide as E2; cbn; congruence.
  - destruct (bool_decide_reflect (k0 = k)) as [->|E]; cbn [List.find fst].
    + destruct (bool_decide_reflect (k = k')) as [->|E1]; [by rewrite bool_decide_true|].
      rewrite (bool_decide_false (k' = k)) by congruence. done.
    + destruct (bool_decide_reflect (k0 = k')) as [->|E1]; [|exact IH]. by rewrite (bool_decide_false (k' = k)).
Qed.

Lemma json_set_keys k v o k' : k' ∈ map fst (json_set k v o) <-> k' ∈ map fst o \/ k' = k.
Proof.
  induction o as [|[k0 v0] o IH]; cbn; [rewrite elem_of_cons, elem_of_nil; tauto|].
  case_bool_decide as E; cbn; rewrite !elem_of_cons; [subst; tauto|]. rewrite IH. tauto.
Qed.

(** The size of an object after an assignment: the new entry, or the difference of the values. *)
Lemma json_set_new k v o : k ∉ map fst o -> sum_by entry_bytes (json_set k v o) = sum_by entry_bytes o + entry_bytes (k, v).
Proof.
  unfold sum_by. induction o as [|[k0 v0] o IH]; cbn [json_set map foldr fst]; intros Hk; [lia|]. rewrite elem_of_cons in Hk.
  rewrite bool_decide_false by (intros ->; tauto). cbn [foldr]. rewrite IH by tauto. lia.
Qed.

Lemma json_set_old k v o :
  k ∈ map fst o -> sum_by entry_bytes (json_set k v o) = sum_by entry_bytes o - encoded_bytes (json_get k o) + encoded_bytes v.
Proof.
  unfold sum_by, json_get. induction o as [|[k0 v0] o IH]; cbn [json_set map foldr fst List.find]; intros Hk; [by apply not_elem_of_nil in Hk|].
  case_bool_decide as E; cbn [foldr].
  - unfold entry_bytes at 1 3. cbn [fst snd]. lia.
  - apply elem_of_cons in Hk as [Hk|Hk]; [congruence|]. rewrite IH by done. lia.
Qed.

Section sections.
Context (context : list (string * json)).

(** A section is inlined as it is, within its limit, or names its place in the context; and it does
    so only when it exceeds its limit or would bring the packet within 1800 bytes of its budget. *)
Definition section_placed (packet : list (string * json)) (section : string * Z) : Prop :=
  let value := json_get section.1 context in
  json_get section.1 packet = value /\ encoded_bytes value <= section.2
  \/ json_get section.1 packet = placeholder section.1 value
     /\ (section.2 < encoded_bytes value \/ PACKET_BYTES - 1800 < encoded_bytes (JObject (json_set section.1 value packet))).

Lemma put_section_other packet section k : k <> section.1 -> json_get k (put_section context packet section) = json_get k packet.
Proof.
  intros Hk. destruct section as [name limit]. cbn in *. destruct (_ <? _); rewrite !json_get_set, bool_decide_false by done; done.
Qed.

Lemma put_section_keys packet section k : k ∈ map fst (put_section context packet section) <-> k ∈ map fst packet \/ k = section.1.
Proof. destruct section as [name limit]. cbn. destruct (_ <? _); rewrite !json_set_keys; cbn; tauto. Qed.

Lemma entry_bytes_nonneg kv : 0 <= entry_bytes kv.
Proof. unfold entry_bytes, encoded_bytes. pose proof (byte_length_nonneg (json_string kv.1)). pose proof (byte_length_nonneg (encode kv.2)). lia. Qed.

Lemma put_section_grows packet section :
  section.1 ∉ map fst packet -> sum_by entry_bytes packet <= sum_by entry_bytes (put_section context packet section).
Proof.
  destruct section as [name limit]. cbn [put_section fst]. intros Hk. set (v := if _ <=? limit then _ else _). destruct (_ <? _).
  - rewrite json_set_old by (apply json_set_keys; by right). rewrite json_get_set, bool_decide_true, json_set_new by done.
    pose proof (entry_bytes_nonneg (name, placeholder name (json_get name context))) as Hp. unfold entry_bytes in *. cbn in *. lia.
  - rewrite json_set_new by done. pose proof (entry_bytes_nonneg (name, v)). lia.
Qed.

Lemma put_all_other ss packet k :
  k ∉ map fst ss -> json_get k (List.fold_left (put_section context) ss packet) = json_get k packet.
Proof.
  revert packet. induction ss as [|s ss IH]; intros packet Hk; [done|]. cbn [List.fold_left]. cbn in Hk.
  rewrite IH, put_section_other; set_solver.
Qed.

Lemma put_all_keys ss packet k : k ∈ map fst packet -> k ∈ map fst (List.fold_left (put_section context) ss packet).
Proof. revert packet. induction ss as [|s ss IH]; intros packet Hk; [done|]. cbn. apply IH, put_section_keys. by left. Qed.

Lemma put_all_grows ss packet :
  NoDup (map fst ss) -> (forall s, s ∈ ss -> s.1 ∉ map fst packet) ->
  sum_by entry_bytes packet <= sum_by entry_bytes (List.fold_left (put_section context) ss packet).
Proof.
  revert packet. induction ss as [|s ss IH]; intros packet Hn Hf; [done|]. cbn [map List.fold_left] in *. apply NoDup_cons in Hn as [Hs Hn].
  etrans; [apply put_section_grows, Hf; by left|]. apply IH; [done|]. intros s' Hs'. rewrite put_section_keys. intros [Hk|Hk].
  - revert Hk. apply Hf. by right.
  - apply Hs. rewrite <- Hk. apply list_elem_of_fmap. eauto.
Qed.

(** The section that was put first, after the others. *)
Lemma put_section_placed packet section ss :
  NoDup (map fst (section :: ss)) -> (forall s, s ∈ section :: ss -> s.1 ∉ map fst packet) ->
  section_placed (List.fold_left (put_section context) ss (put_section context packet section)) section.
Proof.
  cbn. intros [Hs Hn]%NoDup_cons Hf. set (packet1 := put_section context packet section). set (final := List.fold_left _ ss packet1).
  assert (section.1 ∉ map fst packet) as Hnew by (apply Hf; by left).
  assert (json_get section.1 final = json_get section.1 packet1) as Hget by (by apply put_all_other).
  assert (section.1 ∈ map fst final) as Hkey by (apply put_all_keys, put_section_keys; by right).
  assert (sum_by entry_bytes packet1 <= sum_by entry_bytes final) as Hgrow.
  { apply put_all_grows; [done|]. intros s' Hs'. subst packet1. rewrite put_section_keys. intros [Hk|Hk]; [by eapply Hf; [right|]|].
    apply Hs. rewrite <- Hk. apply list_elem_of_fmap. eauto. }
  assert (forall v o, json_set section.1 v o <> []) as Hne.
  { intros v o E. assert (section.1 ∈ map fst (json_set section.1 v o)) as Hin by (apply json_set_keys; by right).
    rewrite E in Hin. by apply not_elem_of_nil in Hin. }
  destruct section as [name limit]. unfold section_placed. cbn [fst snd] in *. rewrite Hget. unfold packet1 in Hgrow |- *. cbn [put_section] in Hgrow |- *.
  set (value := json_get name context) in *. destruct (Z.leb_spec (encoded_bytes value) limit) as [Hl|Hl].
  - destruct (Z.ltb_spec (PACKET_BYTES - 1800) (encoded_bytes (JObject (json_set name value packet)))) as [Hb|Hb].
    + right. rewrite json_get_set, bool_decide_true by done. split; [done|]. right. rewrite object_bytes in Hb |- * by apply Hne.
      rewrite json_set_old by done. rewrite Hget. unfold packet1. cbn [put_section]. fold value. rewrite (proj2 (Z.leb_le _ _) Hl).
      rewrite <- (object_bytes _ (Hne value packet)) in Hb. rewrite (proj2 (Z.ltb_lt _ _) Hb), json_get_set, bool_decide_true by done.
      rewrite object_bytes in Hb by apply Hne. rewrite json_set_old in Hgrow by (apply json_set_keys; by right).
      rewrite json_get_set, bool_decide_true in Hgrow by done. lia.
    + left. by rewrite json_get_set, bool_decide_true.
  - right. destruct (_ <? _); rewrite json_get_set, bool_decide_true by done; (split; [done|by left]).
Qed.

Lemma put_all_placed ss packet s :
  NoDup (map fst ss) -> (forall s, s ∈ ss -> s.1 ∉ map fst packet) -> s ∈ ss -> section_placed (List.fold_left (put_section context) ss packet) s.
Proof.
  revert packet. induction ss as [|s0 ss IH]; intros packet Hn Hf Hs; [by apply not_elem_of_nil in Hs|]. cbn [List.fold_left].
  apply elem_of_cons in Hs as [->|Hs]; [by apply put_section_placed|]. pose proof Hn as [Hs0 Hn']%NoDup_cons. apply IH; [done| |done].
  intros s' Hs'. rewrite put_section_keys. intros [Hk|Hk]; [by eapply Hf; [right|]|]. apply Hs0. rewrite <- Hk. apply list_elem_of_fmap. eauto.
Qed.
End sections.

Lemma sections_distinct : NoDup (map fst sections).
Proof. apply (bool_decide_unpack _). by vm_compute. Qed.

(** ** What a reviewer is given *)

Lemma save_blob_content project sha size media x d a d' :
  save_blob project sha size media x d = Ok (a, d') ->
  exists n m, ar_content a = BlobContent sha n m.
Proof.
  unfold save_blob. intros (l & d1 & [-> ->]%select_Ok & H)%bind_Ok. destruct (List.filter _ _) as [|b l] eqn:E.
  - injection H as <- _. by repeat eexists.
  - apply ret_Ok in H as [-> _]. assert (b ∈ b :: l) as Hb by left. rewrite <- E in Hb.
    apply elem_of_select in Hb as [Hs _]. unfold same_blob in Hs. apply andb_true_iff in Hs as [_ Hs].
    destruct (ar_content b) as [|s n m|]; [done| |done]. apply bool_decide_eq_true in Hs as ->. by repeat eexists.
Qed.

Lemma prepare_packet_Ok put template schema b d packet a d' :
  prepare_packet put template schema b d = Ok ((packet, a), d') ->
  let objections := prior_objections d (fi_id (br_item b)) (rd_id (br_descriptor b)) in
  let sha := bl_sha256 (put (encode (JObject (review_context schema b objections)))) in
  packet = packet_of template schema b objections (complete_context a sha) /\ exists n m, ar_content a = BlobContent sha n m.
Proof.
  unfold prepare_packet. intros (l & d1 & [-> ->]%ask_Ok & (x & d2 & Hs & H)%bind_Ok)%bind_Ok.
  apply save_blob_content in Hs as (n & m & Hc). apply bind_Ok in H as (s & d3 & H1 & H2). apply lift_Ok in H1 as [H1 ->].
  apply ret_Ok in H2 as [[= -> ->] _]. rewrite Hc in H1. injection H1 as <-. split; [done|]. by exists n, m.
Qed.

Lemma exactly_length f n s : exactly f n s = true -> byte_length s = Z.of_nat n.
Proof. unfold exactly, byte_length. intros [H _]%andb_true_iff. apply bool_decide_eq_true in H. lia. Qed.

(** The head of a packet has no section. *)
Lemma packet_head_keys template schema b objections complete section :
  section ∈ sections -> section.1 ∉ map fst (packet_head template schema b objections complete).
Proof.
  intros Hs. assert (section.1 ∈ map fst sections) as Hn by (apply list_elem_of_fmap; eauto). clear Hs. revert Hn. generalize section.1. intros k Hk.
  unfold packet_head. set (head := [_; _; _; _; _; _; _]).
  assert (map fst head = ["schema_version"; "pins"; "complete_context"; "evidence_links"; "response_fields"; "report"; "snapshot_limits"]) as Eh by done.
  assert (k ∉ "prior_objections" :: map fst head) as Hh.
  { rewrite Eh. clear Eh head. intros Hi. assert (Forall (fun k => k ∉ map fst sections) ["prior_objections"; "schema_version"; "pins"; "complete_context";
      "evidence_links"; "response_fields"; "report"; "snapshot_limits"]) as Hall by (apply (bool_decide_unpack _); by vm_compute).
    rewrite Forall_forall in Hall. by apply (Hall k Hi). }
  rewrite elem_of_cons in Hh. destruct (nonempty objections); [rewrite json_set_keys; tauto|tauto].
Qed.

(** C28. The packet of a reviewer never exceeds its budget, whatever the rubric, the guidance, the
    identifiers and the objections, and nothing is cut silently.  The complete context is in the
    artifact that the packet names.  Each section of the packet is that of the context, or says that it
    is omitted and where the context keeps it, which happens only when the section exceeds its own limit
    or would bring the packet within 1800 bytes of its budget; only a packet that is still too long
    with its sections so placed is replaced by one that names the complete context alone.  A digest is
    64 hexadecimal digits. *)
Theorem packet_bounded put template schema b d packet a d' :
  (forall text, hex_digest (bl_sha256 (put text)) = true) ->
  prepare_packet put template schema b d = Ok ((packet, a), d') ->
  let objections := prior_objections d (fi_id (br_item b)) (rd_id (br_descriptor b)) in
  let context := review_context schema b objections in
  let sha := bl_sha256 (put (encode (JObject context))) in
  encoded_bytes packet <= PACKET_BYTES
  /\ (exists n m, ar_content a = BlobContent sha n m)
  /\ exists o, packet = (if PACKET_BYTES <? encoded_bytes (JObject o) then omitted_packet (complete_context a sha) else JObject o)
       /\ (forall section, section ∈ sections -> section_placed context o section)
       /\ forall k, k ∉ map fst sections -> json_get k o = json_get k (packet_head template schema b objections (complete_context a sha)).
Proof.
  intros Hsha [-> Hc]%prepare_packet_Ok objections context sha. split; [|split; [exact Hc|]].
  - unfold packet_of. match goal with |- context [PACKET_BYTES <? ?n] => destruct (Z.ltb_spec PACKET_BYTES n) end; [|done].
    etrans; [apply omitted_packet_length|]. etrans; [apply Z.add_le_mono_l, complete_context_length|].
    rewrite (exactly_length is_hex 64) by apply Hsha. unfold PACKET_BYTES. lia.
  - exists (put_sections context (packet_head template schema b objections (complete_context a sha))). split; [reflexivity|]. split.
    + intros s Hs. apply put_all_placed; [apply sections_distinct|intros s'; apply packet_head_keys|done].
    + intros k Hk. exact (put_all_other context sections _ k Hk).
Qed.

(** ** A packet *)

Definition zero_digest (text : string) : Blob :=
  {| bl_sha256 := zeros 64; bl_size := byte_length text; bl_media_type := "application/json" |}.

Definition prompt_name (name : string) (fields : list (string * string)) : string := name.

Definition sample_schema : json :=
  JObject [("properties", JObject [("verdict", JObject [("enum", json_strings ["approved"; "changes_requested"; "commented"])])])].

Definition sample_briefing : Briefing :=
  {| br_project := rp_project_id sample_repository; br_execution := 7; br_item := reviewed_pull; br_repository := sample_repository;
     br_descriptor := sample_reviewer; br_descriptor_revision := 71; br_policy := sample_policy; br_policy_revision := 72;
     br_functions := [("reviewer", JString "Review the change.")]; br_guidance := []; br_instructions := ""; br_evidence := None;
     br_discovery := JObject []; br_report_request_id := uuid_str 9; br_plan := None |}.

Lemma packet_bounded_witness :
  exists packet a d', prepare_packet zero_digest prompt_name sample_schema sample_briefing reviewed_db = Ok ((packet, a), d')
    /\ encoded_bytes packet <= PACKET_BYTES /\ exists n m, ar_content a = BlobContent (zeros 64) n m.
Proof.
  destruct (is_ok_true (prepare_packet zero_digest prompt_name sample_schema sample_briefing reviewed_db)) as [[[packet a] d'] E];
    [by vm_compute|].
  exists packet, a, d'. split; [exact E|].
  destruct (packet_bounded zero_digest prompt_name sample_schema sample_briefing reviewed_db packet a d') as (H1 & H2 & _); [|exact E|by split].
  intros text. by vm_compute.
Defined.
