(* ===== verification/Invocations.v ===== *)
(** * Review invocations

    src/archon_horizon/pipeline/review/invocations.py: a maintainer prepares one reviewer for the
    exact head of a pull request, as a native child of its session or as an assignment of its own
    ([prepare], [prepare_assignment]), attaches the child that the provider launched ([attach],
    [bind_native]), cancels it ([cancel]), and accounts for children that nobody prepared
    ([account_observed_child]); the reviewer reports ([report]).

    Arguments: the manifest that the store keeps for a blob and the blob that it makes of one; the
    functions of a skill bundle; the arguments of Packets.v and Decisions.v; SHA-256; and the
    operator [->>] on the request of a verification job. *)

From S2P Require Import Prelude Contracts WorkerContracts ReviewContracts Conditions Schema Records Auth Samples MissionTree Missions Ledger Usage Capacity Sessions Assignments Workspaces Labels Launch Panel Decisions Packets.

Local Open Scope string_scope.
Local Open Scope Z_scope.

Definition ACTIVE : list request_status := [QPending; QSubmitted; QRunning; QUncertain].
Definition TERMINAL : list request_status := [QCompleted; QFailed; QInterrupted].

(** ** Contracts *)

Record ReviewerPrepare := {
  vp_parent_request_id : uid;
  vp_forge_item_id : uid;
  vp_reviewer_descriptor_id : uid;
  vp_expected_head_oid : option string;
  vp_instructions : string;
  vp_review_plan : option ReviewPlan;
  vp_retry_of : option uid;
  vp_retry_note : option string }.

#[export] Instance ReviewerPrepare_eta : Eta ReviewerPrepare := fun r =>
  Build_ReviewerPrepare (vp_parent_request_id r) (vp_forge_item_id r) (vp_reviewer_descriptor_id r) (vp_expected_head_oid r)
    (vp_instructions r) (vp_review_plan r) (vp_retry_of r) (vp_retry_note r).

(** The fields and [explicit_retry]. *)
Definition reviewer_prepare_valid (r : ReviewerPrepare) : bool :=
  opt_valid nonblank (vp_expected_head_oid r) && (byte_length (vp_instructions r) <=? 16000)
  && opt_valid review_plan_valid (vp_review_plan r) && opt_valid nonblank (vp_retry_note r)
  && Bool.eqb (present (vp_retry_of r)) (present (vp_retry_note r)).

Record ReviewerAttach := {
  va_native_key : string;
  va_native_invocation_id : option string;
  va_background : option bool }.

Definition attach_text (s : string) : bool := nonblank s && (byte_length s <=? 256).

Definition reviewer_attach_valid (r : ReviewerAttach) : bool :=
  attach_text (va_native_key r) && opt_valid attach_text (va_native_invocation_id r).

Record ReviewerReport := {
  vr_verdict : decision;
  vr_summary : option string;
  vr_assessment : option ReviewAssessment;
  vr_comments : list ForgeReviewComment;
  vr_historical : bool }.

Definition reviewer_report_valid (r : ReviewerReport) : bool :=
  opt_valid nonblank (vr_summary r) && opt_valid review_assessment_valid (vr_assessment r)
  && sized 0 100 forge_review_comment_valid (vr_comments r).

(** ** Reviewers of an execution *)

(** [_maintainer]. *)
Definition _maintainer (actor : Actor) : M LiveExecution :=
  l ← live_execution actor;
  refuse (negb (bool_decide (lx_role l = Maintainer))) "forbidden" 403 ;;
  mret l.

(** [_owned]. *)
Definition _owned (actor : Actor) (i : uid) : M (LiveExecution * provider_request * provider_thread) :=
  l ← _maintainer actor;
  q ← (get i : M provider_request);
  t ← (get (q_provider_thread_id q) : M provider_thread);
  refuse (negb (bool_decide (q_execution_id q = x_id (lx_execution l)))
          || negb (bool_decide (t_assignment_id t = lx_assignment_id l))) "scope_mismatch" 403 ;;
  refuse (negb (bool_decide (q_reason q = ForReview)) || negb (bool_decide (t_kind t = Child))) "not_review_invocation" 422 ;;
  mret (l, q, t).

Definition by_limit_id (a b : resource_limit) : bool := (rl_id a <=? rl_id b)%positive.

(** [provider_limits]. *)
Definition provider_limits (d : DB) (x : execution) : list resource_limit :=
  sort_by by_limit_id (List.filter (fun l => bool_decide (rl_kind l = ProviderAccount)) (slot_limits d (x_host_id x) (x_harness_id x))).

(** The children of an execution that may still run. *)
Definition active_child (d : DB) (x : uid) (q : provider_request) : bool :=
  bool_decide (q_execution_id q = x) && mem (q_status q) ACTIVE
  && match tb_provider_thread d !! q_provider_thread_id q with Some t => bool_decide (t_kind t = Child) | None => false end.

Definition active_children (d : DB) (x : uid) : Z := Z.of_nat (List.length (stored_rows (active_child d x) d)).

(** No unit left, or cooling down. *)
Definition account_occupied (d : DB) (l : resource_limit) : bool :=
  limit_blocked d l || match maximum l with Some m => m <=? claimed d (rl_id l) | None => false end.

(** The cap on the children of an execution: an objective run pins it at admission. *)
Definition child_limit (r : run) (x : execution) (row : host_harness) : option Z :=
  if is_objective r then x_native_capacity x else hx_max_parallel_subagents row.

(** [_capacity]: the limits that the reviewer claims. *)
Definition _capacity (x : execution) : M (list resource_limit) :=
  config ← ask (fun d => row ← tb_host_harness d !! (x_host_id x, x_harness_id x); if hx_enabled row then Some row else None);
  row ← lift match config with Some row => Ok row | None => Err (DomainError "harness_unavailable" 409) end;
  active ← ask (fun d => active_children d (x_id x));
  owner ← (get (x_assignment_id x) : M assignment);
  r ← (get (a_run_id owner) : M run);
  let capacity := child_limit r x row in
  refuse (match capacity with Some n => n <=? active | None => false end) "review_capacity_unavailable" 409 ;;
  if is_objective r && present capacity then mret []
  else
    limits ← ask (fun d => provider_limits d x);
    occupied ← ask (fun d => existsb (account_occupied d) limits);
    refuse occupied "review_capacity_unavailable" 409 ;;
    mret limits.

(** ** Manifests *)

(** The manifest of a review, with what preparation returns and records beside the fields that
    are read back ([ReviewManifest]). *)
Record PreparedManifest := {
  pm_review : ReviewManifest;
  pm_provider_request_id : option uid;
  pm_parent_request_id : uid;
  pm_execution_id : option uid;
  pm_parent_assignment_id : option uid;
  pm_parent_execution_id : option uid;
  pm_repository_id : uid;
  pm_integration_id : uid;
  pm_forge_item_revision : Z;
  pm_policy_id : uid;
  pm_harness_id : uid;
  pm_sandbox_manifest_artifact_id : uid;
  pm_functions : list string;
  pm_task_name : string;
  pm_prompt : string;
  pm_milestone_discovery : json;
  pm_milestone_evidence : option json;
  pm_review_packet : json;
  pm_review_context_artifact_id : uid;
  pm_retry : option (uid * option string) }.

(** What preparation returns for an assignment: its condition waits for the assignment to settle. *)
Definition settled_condition (a : uid) : Condition :=
  {| cond_version := 1; cond_expression := StatusIn {| ref_kind := Kassignment; ref_id := a |} ["completed"; "failed"; "cancelled"] |}.

Record AssignmentResult := {
  ao_assignment : assignment;
  ao_manifest_artifact_id : uid;
  ao_obligation_id : uid;
  ao_prompt : string;
  ao_model_options : ModelOptions;
  ao_completion_condition : Condition }.

(** What it returns for a native reviewer. *)
Record NativeResult := {
  nr_provider_request_id : uid;
  nr_provider_thread_id : uid;
  nr_status : request_status;
  nr_manifest_artifact_id : uid;
  nr_task_name : string;
  nr_prompt : string;
  nr_model_options : ModelOptions;
  nr_sandbox_manifest_artifact_id : uid }.

Inductive PrepareResult : Type := ForAssignmentOwner (r : AssignmentResult) | ForNative (r : NativeResult).

Definition _assignment_result (a : assignment) (x : artifact) (obligation : uid) (m : PreparedManifest) : PrepareResult :=
  ForAssignmentOwner {| ao_assignment := a; ao_manifest_artifact_id := ar_id x; ao_obligation_id := obligation;
                        ao_prompt := pm_prompt m; ao_model_options := mf_model_options (pm_review m);
                        ao_completion_condition := settled_condition (a_id a) |}.

Definition native_result (x : execution) (q : provider_request) (a : artifact) (m : PreparedManifest) : PrepareResult :=
  ForNative {| nr_provider_request_id := q_id q; nr_provider_thread_id := q_provider_thread_id q; nr_status := q_status q;
               nr_manifest_artifact_id := ar_id a; nr_task_name := pm_task_name m; nr_prompt := pm_prompt m;
               nr_model_options := mf_model_options (pm_review m);
               nr_sandbox_manifest_artifact_id := x_sandbox_manifest_artifact_id x |}.

(** ** The work on a head *)

Abbreviation work_key := (uid * string * uid * uid * string)%type (only parsing).

(** [_work_key], of an item with a head. *)
Definition _work_key (item : forge_item) (descriptor_revision policy_revision : uid) : work_key :=
  (fi_id item, default "" (fi_head_commit_oid item), descriptor_revision, policy_revision, default "" (fi_target_branch item)).

Definition work_of (attempts : Z) (obligation : uid) (owner : work_owner) : review_work :=
  {| wk_provider_request_id := match owner with RequestOwner q => Some (q_id q) | AssignmentOwner _ => None end;
     wk_assignment_id := match owner with AssignmentOwner a => Some (a_id a) | RequestOwner _ => None end;
     wk_obligation_id := obligation; wk_attempts := attempts |}.

(** [_record_work]: the upsert. *)
Definition _record_work (key : work_key) (attempts : Z) (obligation : uid) (owner : work_owner) : M unit :=
  modify (fun d => d <| tb_review_work := <[key := work_of attempts obligation owner]> (tb_review_work d) |>).

Definition is_assignment (o : work_owner) : bool := match o with AssignmentOwner _ => true | RequestOwner _ => false end.

(** ** Evidence of verification *)

Definition check_kind_str (k : check_kind) : string :=
  match k with
  | RouteCheck => "route" | ContractCheck => "contract" | GraphCheck => "graph" | ProofCheck => "proof" | LibraryCheck => "library"
  end.

Definition newest_job (a b : milestone_job) : bool := mj_created_at b <=? mj_created_at a.

Definition verification_url (j : milestone_job) : json := JString ("/api/v3/lean/verifications/" +:+ uuid_str (mj_id j)).

Section evidence.
Context (request_text : json_text -> string -> option string).

Definition compares (j : milestone_job) (source base : option string) : bool :=
  bool_decide (request_text (mj_request j) "source_commit_oid" = source)
  && bool_decide (request_text (mj_request j) "base_commit_oid" = base).

(** The completed job of a receipt. *)
Definition receipt_job (c : milestone_check) (j : milestone_job) : bool :=
  bool_decide (mj_check_id j = Some (mk_id c)) && bool_decide (mj_project_id j = mk_project_id c)
  && bool_decide (mj_status j = JobCompleted) && compares j (Some (mk_source_commit_oid c)) (Some (mk_base_commit_oid c)).

(** [_verification_evidence]. *)
Definition _verification_evidence (d : DB) (item : forge_item) : option json :=
  c ← head_check d item;
  let r := mk_report c in
  let evidence :=
    [("check_id", json_id (mk_id c)); ("check_url", JString ("/api/v3/lean/checks/" +:+ uuid_str (mk_id c)));
     ("repository_id", json_id (mk_repository_id c)); ("kind", JString (check_kind_str (mk_kind c)));
     ("status", JString (if ck_compiled r then "passed" else "unconfirmed"));
     ("source_commit_oid", JString (mk_source_commit_oid c)); ("base_commit_oid", JString (mk_base_commit_oid c));
     ("manifest_digest", JString (ck_manifest_digest r)); ("base_manifest_digest", JString (ck_base_manifest_digest r));
     ("compiled", JBool (ck_compiled r)); ("toolchain", JString (ck_toolchain r))] in
  Some (JObject match first_by newest_job (stored_rows (receipt_job c) d) with
                | Some j => json_set "job" (JObject [("id", json_id (mj_id j)); ("status", JString (job_status_str (mj_status j)));
                                                     ("url", verification_url j)]) evidence
                | None => evidence
                end).

(** A queued or running job on the head, of a workspace of the repository. *)
Definition pending_job (d : DB) (item : forge_item) (project : uid) (j : milestone_job) : bool :=
  bool_decide (mj_project_id j = project) && mem (mj_status j) [JobQueued; JobRunning]
  && match tb_workspace d !! mj_workspace_id j with
     | Some w => bool_decide (w_repository_id w = fi_repository_id item)
     | None => false
     end
  && match fi_head_commit_oid item, request_text (mj_request j) "source_commit_oid" with
     | Some head, Some source => bool_decide (source = head)
     | _, _ => false
     end
  && negb (present (request_text (mj_request j) "solution_workspace_id")).

(** [_verification_discovery]. *)
Definition _verification_discovery (d : DB) (item : forge_item) (project : uid) : json :=
  let query := urlencode [("view", "reviews"); ("expected_head_oid", str_opt (fi_head_commit_oid item)); ("limit", "1")] in
  let discovery := [("url", JString ("/api/v3/forge-items/" +:+ uuid_str (fi_id item) +:+ "/inspect?" +:+ query));
                    ("check_id_field", JString "review_readiness.panel.check_id")] in
  JObject match first_by newest_job (stored_rows (pending_job d item project) d) with
          | Some j => json_set "pending_job"
              (JObject [("id", json_id (mj_id j)); ("status", JString (job_status_str (mj_status j))); ("url", verification_url j);
                        ("source_commit_oid", json_opt JString (request_text (mj_request j) "source_commit_oid"));
                        ("base_commit_oid", json_opt JString (request_text (mj_request j) "base_commit_oid"))]) discovery
          | None => discovery
          end.
End evidence.

(** An identifier drawn before its row is written ([uuid4]). *)
Definition draw : M uid := fun d => Ok (db_next d, d <| db_next := Pos.succ (db_next d) |>).

Definition PREPARED (i : uid) : string := "prepared-review:" +:+ uuid_str i.

(** ["hz_review_" + identifier.hex]. *)
Definition review_label (i : uid) : string := "hz_review_" +:+ uuid_digits i 0 32.

(** [json.dumps(s, ensure_ascii=False)]. *)
Definition plain_char (c : ascii) : string := if 127 <=? code c then String c EmptyString else escape_char c.
Definition plain_string (s : string) : string := quote +:+ join "" (map plain_char (chars s)) +:+ quote.

Definition by_document_id (a b : document) : bool := (d_id a <=? d_id b)%positive.

Section invocations.
Context (read_prepared : string -> option PreparedManifest) (put_manifest : PreparedManifest -> Blob).
Context (read_functions : string -> option (list (string * json))).
Context (put_json : string -> Blob) (template : string -> list (string * string) -> string) (report_schema : json).
Context (request_text : json_text -> string -> option string).

Definition read_manifest (sha256 : string) : option ReviewManifest := pm_review <$> read_prepared sha256.

(** [json.loads(service.store.read(artifact["content"]["sha256"]))]. *)
Definition stored_prepared (a : artifact) : result PreparedManifest :=
  match ar_content a with
  | BlobContent sha _ _ => match read_prepared sha with Some m => Ok m | None => Err (RuntimeFailure "blob") end
  | _ => Err (RuntimeFailure "sha256")
  end.

Definition request_manifest (q : provider_request) : M (artifact * PreparedManifest) :=
  a ← (get_opt (q_guidance_manifest_artifact_id q) : M artifact);
  m ← lift (stored_prepared a);
  mret (a, m).

(** [assignment_manifest], unpacked. *)
Definition owner_manifest (a : assignment) : M (artifact * PreparedManifest) :=
  found ← assignment_manifest read_manifest a;
  match found with
  | Some (x, _) => m ← lift (stored_prepared x); mret (x, m)
  | None => throw (RuntimeFailure "NoneType")
  end.

(** ** Existing work *)

(** What a retry must satisfy; a completed report is repaired under its own plan. *)
Definition check_retry (data : ReviewerPrepare) (policy_revision : uid) (owner : work_owner) : M ReviewerPrepare :=
  if owner_completed owner then
    item ← (get (vp_forge_item_id data) : M forge_item);
    descriptor ← (get (vp_reviewer_descriptor_id data) : M reviewer_descriptor);
    v ← (get policy_revision : M record_revision);
    policy ← (get (content_id (rr_content v)) : M review_policy);
    report ← _completed_review_defect item policy descriptor owner;
    refuse (negb match report with Some e => de_retryable e | None => false end) "review_result_not_retryable" 409 ;;
    '(_, m) ← match owner with AssignmentOwner a => owner_manifest a | RequestOwner q => request_manifest q end;
    let previous := mf_review_plan (pm_review m) in
    refuse (present (vp_review_plan data) && negb (bool_decide (vp_review_plan data = previous))) "review_retry_changed" 409 ;;
    mret (if present previous then data <| vp_review_plan := previous |> else data)
  else
    refuse (negb (owner_stopped owner)) "review_unsettled" 409 ;;
    mret data.

(** [_existing_work]: the result of work that has an owner, the attempts of the work, and the
    data with the plan that a repair keeps. *)
Definition _existing_work (x : execution) (data : ReviewerPrepare) (key : work_key) (standalone : bool)
    : M (option PrepareResult * Z * ReviewerPrepare) :=
  found ← ask (fun d => tb_review_work d !! key);
  match found with
  | None =>
      refuse (present (vp_retry_of data)) "review_retry_changed" 409 ;;
      mret (None, 1, data)
  | Some w =>
      owner ← owner_of w;
      match vp_retry_of data with
      | Some previous =>
          refuse (negb (bool_decide (previous = owner_id owner))) "revision_conflict" 409 ;;
          data ← check_retry data key.1.2 owner;
          unsettled ← ask (fun d => unsettled_owner d owner);
          refuse unsettled "review_unsettled" 409 ;;
          mret (None, wk_attempts w + 1, data)
      | None =>
          refuse (negb (Bool.eqb standalone (is_assignment owner))) "review_already_owned" 409 ;;
          match owner with
          | AssignmentOwner a =>
              '(artifact, m) ← owner_manifest a;
              mret (Some (_assignment_result a artifact (wk_obligation_id w) m), wk_attempts w, data)
          | RequestOwner q =>
              refuse (negb (bool_decide (q_execution_id q = x_id x))) "review_already_owned" 409 ;;
              '(artifact, m) ← request_manifest q;
              mret (Some (native_result x q artifact m), wk_attempts w, data)
          end
      end
  end.

(** ** Preparation *)

(** The item, the reviewer, the policy and the functions that a preparation settles on. *)
Record Selection := {
  se_live : LiveExecution;
  se_parent : provider_request;
  se_thread : provider_thread;
  se_item : forge_item;
  se_repository : repository;
  se_descriptor : reviewer_descriptor;
  se_phase : phase_kind;
  se_policy : review_policy;
  se_identity : option uid;
  se_functions : list (string * json) }.

(** The pull request at the head that the caller saw. *)
Definition check_item (data : ReviewerPrepare) (item : forge_item) : M unit :=
  refuse (negb (bool_decide (fi_status item = ItemOpen))) "forge_item_closed" 409 ;;
  refuse (negb (bool_decide (fi_kind item = PullRequest))) "review_requires_pull_request" 422 ;;
  refuse (negb (present (vp_expected_head_oid data)) || negb (bool_decide (vp_expected_head_oid data = fi_head_commit_oid item)))
         "review_head_changed" 409.

Definition check_descriptor (standalone : bool) (x : execution) (descriptor : reviewer_descriptor) : M unit :=
  refuse (negb (rd_enabled descriptor)) "reviewer_disabled" 409 ;;
  refuse (standalone && negb (bool_decide (rd_invocation descriptor = AsAssignment))) "reviewer_requires_native" 422 ;;
  refuse (negb standalone && negb (bool_decide (rd_invocation descriptor = Subrequest))) "reviewer_needs_assignment" 409 ;;
  refuse (negb standalone && match rd_harness_id descriptor with
                             | Some h => negb (bool_decide (h = x_harness_id x))
                             | None => false
                             end) "reviewer_harness_mismatch" 422.

(** The first half of [_prepare], up to the pinned revisions. *)
Definition choose (actor : Actor) (data : ReviewerPrepare) (standalone : bool) : M Selection :=
  l ← _maintainer actor;
  let x := lx_execution l in
  parent ← (get (vp_parent_request_id data) : M provider_request);
  thread ← (get (q_provider_thread_id parent) : M provider_thread);
  refuse (negb (bool_decide (q_execution_id parent = x_id x)) || negb (bool_decide (t_kind thread = Primary))
          || negb (mem (q_status parent) [QSubmitted; QRunning])) "invalid_review_parent" 422 ;;
  item ← (same_project Kforge_item (vp_forge_item_id data) (lx_project_id l) : M forge_item);
  repository ← (get (fi_repository_id item) : M repository);
  descriptor ← (same_project Kreviewer_descriptor (vp_reviewer_descriptor_id data) (lx_project_id l) : M reviewer_descriptor);
  check_item data item ;;
  check_descriptor standalone x descriptor ;;
  phase ← lift match fi_review_phase item with Some k => Ok k | None => Err (DomainError "review_phase_missing" 409) end;
  matches ← ask (fun d => stored_rows (covers d (rp_id repository) phase) d);
  policy ← lift match matches with [p] => Ok p | _ => Err (DomainError "review_policy_unavailable" 409) end;
  let identity := or_else (rd_integration_identity_id descriptor) (rv_maintainer_identity_id policy) in
  match identity with
  | Some i =>
      account ← (get i : M integration_identity);
      refuse (negb (ii_enabled account) || negb (bool_decide (ii_integration_id account = rp_integration_id repository)))
             "review_identity_mismatch" 422
  | None => mret tt
  end ;;
  bundle ← (get (t_skill_bundle_artifact_id thread) : M artifact);
  functions ← lift match ar_content bundle with
                   | BlobContent sha _ _ => match read_functions sha with Some f => Ok f | None => Err (RuntimeFailure "functions") end
                   | _ => Err (RuntimeFailure "sha256")
                   end;
  refuse (existsb (fun f => negb (mem f (map fst functions))) (rd_functions descriptor)) "reviewer_skill_unavailable" 422 ;;
  mret {| se_live := l; se_parent := parent; se_thread := thread; se_item := item; se_repository := repository;
          se_descriptor := descriptor; se_phase := phase; se_policy := policy; se_identity := identity; se_functions := functions |}.

(** The guidance of the reviewer, all of it of the project. *)
Definition guidance_of (descriptor : reviewer_descriptor) (project : uid) : M (list document) :=
  sources ← ask (fun d => sort_by by_document_id (stored_rows (fun x => bool_decide ((rd_id descriptor, d_id x) ∈ tb_reviewer_guidance d)) d));
  refuse (existsb (fun x => negb (bool_decide (d_project_id x = project))) sources) "scope_mismatch" 422 ;;
  mret sources.

(** The harness, its revision and the options of the reviewer. *)
Definition harness_for (actor : Actor) (s : Selection) : M (harness * uid * ModelOptions) :=
  let own := x_harness_id (lx_execution (se_live s)) in
  let i := default own (rd_harness_id (se_descriptor s)) in
  h ← (get i : M harness);
  v ← (if bool_decide (i = own) then mret (t_harness_revision_id (se_thread s)) else snapshot h (actor_id actor));
  let base := if bool_decide (i = own) then t_applied_model_options (se_thread s) else hs_model_options h in
  mret (h, v, merge_options base (rd_model_options (se_descriptor s))).

(** The prompt, from the templates of the bundle. *)
Definition review_prompt (s : Selection) (data : ReviewerPrepare) (standalone : bool) (label report_request_id : string) (packet : json)
    (evidence : option json) : string :=
  let item := se_item s in
  let head := vp_expected_head_oid data in
  let query := urlencode (("view", if bool_decide (fi_kind item = PullRequest) then "diff" else "comments")
                          :: match head with Some h => [("expected_head_oid", h)] | None => [] end) in
  template "reviewer/start"
    [("label", label); ("repository_slug", rp_slug (se_repository s)); ("item_number", pretty (fi_remote_number item));
     ("phase", Launch.kind_str (se_phase s)); ("project_id", uuid_str (lx_project_id (se_live s)));
     ("repository_id", uuid_str (rp_id (se_repository s))); ("item_id", uuid_str (fi_id item)); ("inspect_query", query);
     ("reviewer_slug", rd_slug (se_descriptor s)); ("reviewer_revision", pretty (rd_revision (se_descriptor s)));
     ("head_oid", default "issue discussion" head); ("target_branch", str_opt (fi_target_branch item)); ("packet", encode packet);
     ("trusted_evidence", if present evidence then template "reviewer/trusted-evidence" [] else "");
     ("report_request_id", report_request_id);
     ("finish", template (if standalone then "reviewer/finish-durable" else "reviewer/finish-native") [])]
  +:+ (if present (vp_review_plan data) then blank_line +:+ template "reviewer/plan" [] else "")
  +:+ (if present (vp_retry_of data)
       then blank_line +:+ template "reviewer/recovery"
              [("retry_note", plain_string (String.substring 0 1200 (default "" (vp_retry_note data)))); ("report_request_id", report_request_id)]
       else "").

(** The manifest of the invocation, as a native child has it. *)
Definition new_manifest (s : Selection) (data : ReviewerPrepare) (request descriptor_revision policy_revision : uid) (sources : list document)
    (hs : harness * uid * ModelOptions) (prompt : string) (evidence : option json) (discovery packet : json) (context : uid) : PreparedManifest :=
  let x := lx_execution (se_live s) in
  {| pm_review :=
       {| mf_kind := "reviewer_invocation"; mf_assignment_id := Some (x_assignment_id x);
          mf_reviewer_descriptor_id := Some (rd_id (se_descriptor s)); mf_reviewer_descriptor_revision_id := descriptor_revision;
          mf_harness_revision_id := hs.1.2; mf_skill_bundle_artifact_id := t_skill_bundle_artifact_id (se_thread s);
          mf_model_options := hs.2; mf_forge_item_id := Some (fi_id (se_item s)); mf_head_commit_oid := vp_expected_head_oid data;
          mf_target_branch := Some (fi_target_branch (se_item s)); mf_review_phase := Some (se_phase s);
          mf_review_plan := vp_review_plan data; mf_policy_revision_id := Some policy_revision;
          mf_integration_identity_id := se_identity s; mf_guidance := map (fun y => (d_id y, d_revision y)) sources |};
     pm_provider_request_id := Some request; pm_parent_request_id := q_id (se_parent s); pm_execution_id := Some (x_id x);
     pm_parent_assignment_id := None; pm_parent_execution_id := None; pm_repository_id := rp_id (se_repository s);
     pm_integration_id := rp_integration_id (se_repository s); pm_forge_item_revision := fi_revision (se_item s);
     pm_policy_id := rv_id (se_policy s); pm_harness_id := hs_id hs.1.1;
     pm_sandbox_manifest_artifact_id := x_sandbox_manifest_artifact_id x; pm_functions := rd_functions (se_descriptor s);
     pm_task_name := review_label request; pm_prompt := prompt; pm_milestone_discovery := discovery; pm_milestone_evidence := evidence;
     pm_review_packet := packet; pm_review_context_artifact_id := context;
     pm_retry := r ← vp_retry_of data; Some (r, vp_retry_note data) |}.

(** The manifest of an assignment: the keys that preparation replaces and removes. *)
Definition durable_manifest (m : PreparedManifest) (x : execution) (a : uid) (prompt : string) : PreparedManifest :=
  {| pm_review :=
       {| mf_kind := "reviewer_assignment"; mf_assignment_id := Some a;
          mf_reviewer_descriptor_id := mf_reviewer_descriptor_id (pm_review m);
          mf_reviewer_descriptor_revision_id := mf_reviewer_descriptor_revision_id (pm_review m);
          mf_harness_revision_id := mf_harness_revision_id (pm_review m);
          mf_skill_bundle_artifact_id := mf_skill_bundle_artifact_id (pm_review m);
          mf_model_options := mf_model_options (pm_review m); mf_forge_item_id := mf_forge_item_id (pm_review m);
          mf_head_commit_oid := mf_head_commit_oid (pm_review m); mf_target_branch := mf_target_branch (pm_review m);
          mf_review_phase := mf_review_phase (pm_review m); mf_review_plan := mf_review_plan (pm_review m);
          mf_policy_revision_id := mf_policy_revision_id (pm_review m);
          mf_integration_identity_id := mf_integration_identity_id (pm_review m); mf_guidance := mf_guidance (pm_review m) |};
     pm_provider_request_id := None; pm_parent_request_id := pm_parent_request_id m; pm_execution_id := None;
     pm_parent_assignment_id := Some (x_assignment_id x); pm_parent_execution_id := Some (x_id x); pm_repository_id := pm_repository_id m;
     pm_integration_id := pm_integration_id m; pm_forge_item_revision := pm_forge_item_revision m; pm_policy_id := pm_policy_id m;
     pm_harness_id := pm_harness_id m; pm_sandbox_manifest_artifact_id := pm_sandbox_manifest_artifact_id m;
     pm_functions := pm_functions m; pm_task_name := pm_task_name m; pm_prompt := prompt;
     pm_milestone_discovery := pm_milestone_discovery m; pm_milestone_evidence := pm_milestone_evidence m;
     pm_review_packet := pm_review_packet m; pm_review_context_artifact_id := pm_review_context_artifact_id m;
     pm_retry := pm_retry m |}.

(** The draft of the review: the manifest with everything that it pins. *)
Definition draft (actor : Actor) (s : Selection) (data : ReviewerPrepare) (standalone : bool) (descriptor_revision policy_revision : uid)
    : M (PreparedManifest * uid) :=
  let x := lx_execution (se_live s) in
  let project := lx_project_id (se_live s) in
  sources ← guidance_of (se_descriptor s) project;
  hs ← harness_for actor s;
  request ← draw;
  evidence ← ask (fun d => _verification_evidence request_text d (se_item s));
  discovery ← ask (fun d => _verification_discovery request_text d (se_item s) project);
  let report_request_id := if standalone then "$HORIZON_PROVIDER_REQUEST_ID" else uuid_str request in
  '(packet, context) ← prepare_packet put_json template report_schema
    {| br_project := project; br_execution := x_id x; br_item := se_item s; br_repository := se_repository s;
       br_descriptor := se_descriptor s; br_descriptor_revision := descriptor_revision; br_policy := se_policy s;
       br_policy_revision := policy_revision;
       br_functions := map (fun f => (f, json_get f (se_functions s))) (rd_functions (se_descriptor s)); br_guidance := sources;
       br_instructions := vp_instructions data; br_evidence := evidence; br_discovery := discovery;
       br_report_request_id := report_request_id; br_plan := vp_review_plan data |};
  let prompt := review_prompt s data standalone (review_label request) report_request_id packet evidence in
  mret (new_manifest s data request descriptor_revision policy_revision sources hs prompt evidence discovery packet (ar_id context), request).

Definition save_manifest (project : uid) (m : PreparedManifest) (x : uid) : M artifact :=
  let b := put_manifest m in save_blob project (bl_sha256 b) (bl_size b) (bl_media_type b) (Some x).

Definition review_owed_by (a x : uid) (description : string) : M obligation :=
  n ← next_number o_number (fun o => bool_decide (o_assignment_id o = a));
  create (new_obligation {| oc_assignment_id := a; oc_created_by_execution_id := Some x; oc_kind := Review; oc_description := description |}
            (Some x) n).

Definition at_revision (data : ReviewerPrepare) : string := default "the pinned issue revision" (vp_expected_head_oid data).

(** The mission of a reviewer's assignment. *)
Definition review_mission (s : Selection) (data : ReviewerPrepare) (parent : mission) : MissionCreate :=
  {| mc_project_id := lx_project_id (se_live s); mc_parent_id := Some (m_id parent);
     mc_expected_parent_revision := Some (m_revision parent); mc_roadmap_document_id := m_roadmap_document_id parent;
     mc_title := rd_slug (se_descriptor s) +:+ ": review " +:+ rp_slug (se_repository s) +:+ " #" +:+ pretty (fi_remote_number (se_item s));
     mc_objective := template "reviewer/mission" [("item_id", uuid_str (fi_id (se_item s))); ("head_oid", at_revision data)];
     mc_acceptance_criteria := ["Deliver an exact-head reviewer assessment and verified Forge receipt"];
     mc_delegation_note := Some "Independently assess this PR against one pinned specialist rubric"; mc_scope := None;
     mc_max_open_children := 8; mc_node_ids := []; mc_document_ids := [] |}.

Definition review_assignment (s : Selection) (m : PreparedManifest) (delegator : assignment) (mission : uid) : AssignmentCreate :=
  {| ac_run_id := a_run_id delegator; ac_mission_id := mission; ac_parent_id := Some (a_id delegator);
     ac_reviewer_descriptor_id := Some (rd_id (se_descriptor s)); ac_role := Worker; ac_category := None;
     ac_functions := rd_functions (se_descriptor s); ac_instructions := Some (template "reviewer/assignment" []);
     ac_harness_id := Some (pm_harness_id m); ac_model_options := mf_model_options (pm_review m); ac_not_before := None;
     ac_expires_at := None; ac_start_condition := None |}.

(** The review as an assignment of its own. *)
Definition prepare_durable (actor : Actor) (s : Selection) (data : ReviewerPrepare) (m : PreparedManifest) (key : work_key) (attempts : Z)
    : M PrepareResult :=
  let x := lx_execution (se_live s) in
  delegator ← (get (x_assignment_id x) : M assignment);
  parent_mission ← (get (a_mission_id delegator) : M mission);
  let goal := review_mission s data parent_mission in
  lift (guard (negb (mission_create_valid goal)) (ValidationError "MissionCreate")) ;;
  mission ← create_mission actor goal;
  let work := review_assignment s m delegator (m_id mission) in
  lift (guard (negb (assignment_create_valid work)) (ValidationError "AssignmentCreate")) ;;
  a ← create_assignment actor work None true true;
  let prompt := pm_prompt m +:+ blank_line +:+ template "reviewer/durable-lifecycle"
                  [("assignment_id", uuid_str (a_id a)); ("mission_id", uuid_str (m_id mission))] in
  let m := durable_manifest m x (a_id a) prompt in
  artifact ← save_manifest (lx_project_id (se_live s)) m (x_id x);
  modify (fun d => d <| tb_assignment_artifact := <[(a_id a, ar_id artifact) := ReviewerManifest]> (tb_assignment_artifact d) |>) ;;
  o ← review_owed_by (a_id delegator) (x_id x)
        ("Publish " +:+ rd_slug (se_descriptor s) +:+ " findings from assignment " +:+ uuid_str (a_id a) +:+ " on the PR and verify delivery "
         +:+ "on Forge item " +:+ pretty (fi_remote_number (se_item s)) +:+ " at " +:+ at_revision data +:+ ". "
         +:+ "Delegate this obligation explicitly before yielding; it is not resolved merely by queueing the reviewer.");
  _ ← emit (Some (actor_id actor)) (Some (lx_project_id (se_live s))) (assignment_subject a) ["reviewer_manifest"] None (Some (x_id x)) None;
  _record_work key attempts (o_id o) (AssignmentOwner a) ;;
  _ ← queue_state read_manifest (actor_id actor) (se_item s) (se_descriptor s) "queued" (uuid_str (a_id a)) None;
  mret (_assignment_result a artifact (o_id o) m).

Definition new_child (s : Selection) (options : ModelOptions) (request : uid) (n : Z) (i : uid) (now : instant) : provider_thread :=
  let t := se_thread s in
  {| t_id := i; t_created_at := now; t_updated_at := now; t_revision := 1; t_assignment_id := t_assignment_id t; t_number := n;
     t_label := None; t_description := None; t_kind := Child; t_parent_request_id := Some (q_id (se_parent s));
     t_workspace_id := t_workspace_id t; t_harness_revision_id := t_harness_revision_id t;
     t_skill_bundle_artifact_id := t_skill_bundle_artifact_id t; t_provider_thread_id := None; t_provider_state_ref := PREPARED request;
     t_predecessor_id := None; t_recovery_note := None; t_applied_mission_revision_id := None; t_applied_roadmap_snapshot_id := None;
     t_applied_run_revision := None; t_applied_model_options := options; t_status := Creating |}.

Definition new_review_request (s : Selection) (child artifact descriptor_revision : uid) (i : uid) (now : instant) : provider_request :=
  {| q_id := i; q_created_at := now; q_updated_at := now; q_revision := 1; q_provider_thread_id := child;
     q_execution_id := x_id (lx_execution (se_live s)); q_number := 1; q_reason := ForReview;
     q_reviewer_descriptor_id := Some (rd_id (se_descriptor s)); q_reviewer_descriptor_revision_id := Some descriptor_revision;
     q_guidance_manifest_artifact_id := Some artifact; q_input_artifact_id := Some artifact; q_provider_turn_id := None;
     q_native_background := None; q_status := QPending; q_submitted_at := None; q_started_at := None; q_finished_at := None;
     q_failure := None |}.

Definition child_claim (x request limit : uid) (i : uid) (now : instant) : resource_claim :=
  {| cl_id := i; cl_created_at := now; cl_updated_at := now; cl_revision := 1; cl_resource_limit_id := limit; cl_execution_id := x;
     cl_provider_request_id := Some request; cl_units := 1; cl_released_at := None |}.

(** The review as a native child, which holds a claim on every limit of its account. *)
Definition prepare_native (actor : Actor) (s : Selection) (data : ReviewerPrepare) (m : PreparedManifest) (request : uid)
    (limits : list resource_limit) (descriptor_revision : uid) (key : work_key) (attempts : Z) : M PrepareResult :=
  let x := lx_execution (se_live s) in
  let t := se_thread s in
  artifact ← save_manifest (lx_project_id (se_live s)) m (x_id x);
  n ← next_number t_number (fun u => bool_decide (t_assignment_id u = t_assignment_id t));
  child ← create (new_child s (mf_model_options (pm_review m)) request n);
  q ← create_with request (new_review_request s (t_id child) (ar_id artifact) descriptor_revision);
  for_each (fun l => _ ← create (child_claim (x_id x) (q_id q) (rl_id l)); mret tt) limits ;;
  o ← review_owed_by (x_assignment_id x) (x_id x)
        ("Publish reviewer " +:+ rd_slug (se_descriptor s) +:+ " invocation " +:+ uuid_str request +:+ " findings on Forge item "
         +:+ pretty (fi_remote_number (se_item s)) +:+ " at " +:+ at_revision data +:+ " and verify delivery. "
         +:+ "Preserve historical/incomplete findings as comments; record an explicit cancellation reason if no assessment exists.");
  _record_work key attempts (o_id o) (RequestOwner q) ;;
  _ ← emit (Some (actor_id actor)) (Some (lx_project_id (se_live s))) (request_subject q)
        ["status"; "reviewer_descriptor_revision_id"] None (Some (x_id x)) None;
  _ ← queue_state read_manifest (actor_id actor) (se_item s) (se_descriptor s) "running" (uuid_str (q_id q)) (Some q);
  mret (native_result x q artifact m).

(** [_prepare]. *)
Definition _prepare (actor : Actor) (data : ReviewerPrepare) (standalone : bool) : M PrepareResult :=
  lift (guard (negb (reviewer_prepare_valid data)) (ValidationError "ReviewerPrepare")) ;;
  s ← choose actor data standalone;
  let x := lx_execution (se_live s) in
  descriptor_revision ← snapshot (se_descriptor s) (actor_id actor);
  policy_revision ← snapshot (se_policy s) (actor_id actor);
  let key := _work_key (se_item s) descriptor_revision policy_revision in
  '(existing, attempts, data) ← _existing_work x data key standalone;
  match existing with
  | Some r => mret r
  | None =>
      limits ← (if standalone then mret [] else _capacity x);
      '(m, request) ← draft actor s data standalone descriptor_revision policy_revision;
      if standalone then prepare_durable actor s data m key attempts
      else prepare_native actor s data m request limits descriptor_revision key attempts
  end.

Definition prepare (actor : Actor) (data : ReviewerPrepare) : M PrepareResult := _prepare actor data false.
Definition prepare_assignment (actor : Actor) (data : ReviewerPrepare) : M PrepareResult := _prepare actor data true.

(** [read]. *)
Definition read (actor : Actor) (i : uid) : M (provider_request * provider_thread * PreparedManifest) :=
  q ← (get i : M provider_request);
  project ← scoped Kprovider_request i;
  require_project actor project ViewerGrant ;;
  refuse (negb (bool_decide (q_reason q = ForReview)) || negb (present (q_guidance_manifest_artifact_id q))) "not_review_invocation" 422 ;;
  '(_, m) ← request_manifest q;
  t ← (get (q_provider_thread_id q) : M provider_thread);
  mret (q, t, m).

(** [report]: the reviewer publishes its own pinned assessment. *)
Definition report (queue_review : Actor -> ForgeReview -> string -> bool -> M outbox_operation) (actor : Actor) (i : uid)
    (data : ReviewerReport) (key : string) : M outbox_operation :=
  lift (guard (negb (reviewer_report_valid data)) (ValidationError "ReviewerReport")) ;;
  l ← live_execution actor;
  q ← (get i : M provider_request);
  refuse (negb (bool_decide (q_execution_id q = x_id (lx_execution l))) || negb (bool_decide (q_reason q = ForReview))) "scope_mismatch" 403 ;;
  refuse (negb (present (q_guidance_manifest_artifact_id q)) || negb (present (q_reviewer_descriptor_id q))) "review_manifest_missing" 409 ;;
  '(_, m) ← request_manifest q;
  item ← lift match mf_forge_item_id (pm_review m) with Some k => Ok k | None => Err (RuntimeFailure "forge_item_id") end;
  head ← lift match mf_head_commit_oid (pm_review m) with Some k => Ok k | None => Err (RuntimeFailure "head_commit_oid") end;
  queue_review actor
    {| fw_forge_item_id := item; fw_commit_oid := head; fw_verdict := vr_verdict data; fw_summary := vr_summary data;
       fw_assessment := vr_assessment data; fw_comments := vr_comments data; fw_reviewer_descriptor_id := q_reviewer_descriptor_id q;
       fw_reviewer_descriptor_revision_id := None; fw_provider_request_id := Some i; fw_integration_identity_id := None;
       fw_historical := vr_historical data; fw_carry_forward := [] |} key true.
End invocations.

(** ** Claims of a child *)

Definition child_claim_open (request : uid) (c : resource_claim) : bool :=
  bool_decide (cl_provider_request_id c = Some request) && negb (present (cl_released_at c)).

(** [release_child_claims]. *)
Definition release_child_claims (request : uid) (observed : instant) : M unit :=
  update_where (child_claim_open request) (fun c => c <| cl_released_at := Some observed |>).

(** A claim on a limit, unless the child holds one. *)
Definition claim_limit (x request : uid) (l : resource_limit) : M unit :=
  held ← any (fun c => child_claim_open request c && bool_decide (cl_resource_limit_id c = rl_id l));
  when (negb held) (_ ← create (child_claim x request (rl_id l)); mret tt).

(** [account_observed_child]. *)
Definition account_observed_child (x : execution) (q : provider_request) (observed : instant) : M unit :=
  if mem (q_status q) TERMINAL then release_child_claims (q_id q) observed
  else
    owner ← (get (x_assignment_id x) : M assignment);
    r ← (get (a_run_id owner) : M run);
    if is_objective r && present (x_native_capacity x) then mret tt
    else
      limits ← ask (fun d => provider_limits d x);
      for_each (claim_limit (x_id x) (q_id q)) limits.

(** ** Binding a native child *)

(** [int(text, 16)] of the standard library: a sign, the prefix [0x], and digits in groups that
    single underscores separate. *)
Definition hex_value (c : ascii) : Z :=
  if is_digit c then code c - 48 else if is_lower c then code c - 87 else code c - 55.

Fixpoint hex_digits (acc : Z) (after_digit : bool) (l : list ascii) : option Z :=
  match l with
  | [] => if after_digit then Some acc else None
  | c :: l =>
      if is_hex_any c then hex_digits (16 * acc + hex_value c) true l
      else if Ascii.eqb c "_" && after_digit then hex_digits acc false l else None
  end.

Definition unsigned_hex (l : list ascii) : option Z :=
  match l with
  | "0"%char :: x :: l' =>
      if Ascii.eqb x "x" || Ascii.eqb x "X"
      then match l' with "_"%char :: l'' => hex_digits 0 false l'' | _ => hex_digits 0 false l' end
      else hex_digits 0 false l
  | _ => hex_digits 0 false l
  end.

Definition int16 (s : string) : option Z :=
  match chars s with "+"%char :: l => unsigned_hex l | l => unsigned_hex l end.

(** [_invocation_ref] of one value: the number after the label [hz_review_].  A candidate of 32
    characters is parsed by [UUID(hex=...)], which drops dashes and braces and wants 32 left. *)
Definition _invocation_ref (value : string) : option Z :=
  if starts_with "hz_review_" value then
    match words_of (chars value) with
    | w :: _ =>
        let candidate := string_of_list_ascii (drop 10 w) in
        if (byte_length candidate =? 32) && forallb (fun c => negb (mem c ["-"%char; "{"%char; "}"%char])) (chars candidate)
        then int16 candidate else None
    | [] => None
    end
  else None.

(** [value.rsplit("/", 1)[-1]]. *)
Definition last_part (value : string) : string := List.last (split_on "/" value) "".

(** [harness["content"]["adapter"].removesuffix("_exec")]. *)
Definition adapter_name (a : adapter) : string :=
  match a with CodexAppServer => "codex_app_server" | CodexExec => "codex" | ClaudeExec => "claude" end.

Section binding.
Context (sha256 : string -> string).

(** [child_state_ref]. *)
Definition child_state_ref (parent_thread : uid) (adapter native_key : string) : string :=
  "native-child:" +:+ uuid_str parent_thread +:+ ":" +:+ adapter +:+ ":" +:+ sha256 native_key.

Definition reconciled_failure (note : string) : Failure :=
  {| fail_kind := ExecutionFailure; fail_code := "review_binding_reconciled"; fail_message := note; fail_diagnostic_artifact_id := None |}.

(** Whether the observed child is one active invocation of the same parent that nobody registered. *)
Definition compatible (x : execution) (prepared : provider_request) (placeholder observed : provider_thread)
    (native_id invocation_id : option string) (original : provider_request) : bool :=
  bool_decide (t_provider_state_ref placeholder = PREPARED (q_id prepared)) && bool_decide (q_status prepared = QPending)
  && negb (present (q_provider_turn_id prepared)) && bool_decide (t_kind observed = Child)
  && bool_decide (t_provider_thread_id observed = native_id)
  && bool_decide (t_parent_request_id observed = t_parent_request_id placeholder)
  && bool_decide (t_workspace_id observed = t_workspace_id placeholder)
  && bool_decide (t_harness_revision_id observed = t_harness_revision_id placeholder)
  && bool_decide (t_skill_bundle_artifact_id observed = t_skill_bundle_artifact_id placeholder)
  && bool_decide (q_execution_id original = x_id x) && bool_decide (q_reason original = Continuation)
  && bool_decide (q_status original = QRunning)
  && negb (present (q_reviewer_descriptor_id original) || present (q_reviewer_descriptor_revision_id original)
           || present (q_guidance_manifest_artifact_id original) || present (q_input_artifact_id original))
  && (q_created_at prepared <=? q_created_at original)
  && (negb (present invocation_id) || bool_decide (invocation_id = q_provider_turn_id original)).

(** [_bind_observed_child]: the history of the duplicate stays, its identity moves. *)
Definition _bind_observed_child (x : execution) (prepared : provider_request) (placeholder observed : provider_thread)
    (native_id invocation_id : option string) : M (provider_thread * provider_request) :=
  rows ← select (fun q => bool_decide (q_provider_thread_id q = t_id observed));
  original ← lift match rows with
                  | [q] => if compatible x prepared placeholder observed native_id invocation_id q then Ok q
                           else Err (DomainError "review_identity_conflict" 409)
                  | _ => Err (DomainError "review_identity_conflict" 409)
                  end;
  now ← ask db_now;
  let note := "Duplicate native observation tracking reconciled into prepared review " +:+ uuid_str (q_id prepared)
              +:+ "; the native child continues." in
  _ ← change (q_id original) None (fun q => q <| q_status := QInterrupted |> <| q_finished_at := Some now |>
        <| q_failure := Some (reconciled_failure note) |>);
  release_child_claims (q_id original) now ;;
  request ← change (q_id prepared) None (fun q => q <| q_status := q_status original |> <| q_submitted_at := q_submitted_at original |>
        <| q_started_at := q_started_at original |> <| q_provider_turn_id := q_provider_turn_id original |>
        <| q_native_background := q_native_background original |>);
  _ ← change (t_id observed) None (fun t => t <| t_status := ThreadClosed |> <| t_provider_thread_id := None |>
        <| t_provider_state_ref := "reconciled-review:" +:+ uuid_str (t_id placeholder) |>
        <| t_recovery_note := Some ("Native child " +:+ str_opt native_id +:+ " is tracked by prepared review " +:+ uuid_str (q_id prepared)
                                    +:+ " on thread " +:+ uuid_str (t_id placeholder) +:+ ".") |>);
  child ← change (t_id placeholder) None (fun t => t <| t_label := Some (review_label (q_id prepared)) |>
        <| t_recovery_note := Some ("Native child " +:+ str_opt native_id +:+ " was first observed on thread " +:+ uuid_str (t_id observed)
                                    +:+ ", request " +:+ uuid_str (q_id original) +:+ ".") |>);
  _ ← create (new_activity x (Some (t_id child)) (Some (q_id request)) ProgressActivity (Some note) [] now);
  mret (child, request).

(** Another thread of the assignment with the identity of the child. *)
Definition same_identity (child : provider_thread) (state_ref : string) (native_id : option string) (t : provider_thread) : bool :=
  bool_decide (t_assignment_id t = t_assignment_id child) && negb (bool_decide (t_id t = t_id child))
  && (bool_decide (t_provider_state_ref t = state_ref)
      || match truthy native_id with Some k => bool_decide (t_provider_thread_id t = Some k) | None => false end).

(** The changes of the request that the binding makes. *)
Definition bound_request (q : provider_request) (now : instant) (invocation_id : option string) (background : option bool)
    (r : provider_request) : provider_request :=
  let submitted := bool_decide (q_status q = QPending) in
  let turn := present (truthy invocation_id) && negb (present (truthy (q_provider_turn_id q))) in
  let native := present background && negb (present (q_native_background q)) in
  r <| q_status := if submitted then QSubmitted else q_status r |> <| q_submitted_at := if submitted then Some now else q_submitted_at r |>
    <| q_provider_turn_id := if turn then invocation_id else q_provider_turn_id r |>
    <| q_native_background := if native then background else q_native_background r |>.

Definition binding_changes (q : provider_request) (invocation_id : option string) (background : option bool) : bool :=
  bool_decide (q_status q = QPending)
  || present (truthy invocation_id) && negb (present (truthy (q_provider_turn_id q)))
  || present background && negb (present (q_native_background q)).

(** [bind_native]. *)
Definition bind_native (x : execution) (parent_thread : provider_thread) (request_id : uid) (adapter native_key : string)
    (invocation_id : option string) (background : option bool) : M (provider_thread * provider_request) :=
  let codex := bool_decide (adapter = "codex") in
  refuse (codex && present (_invocation_ref (last_part native_key))) "invalid_arguments" 422 ;;
  request ← (get request_id : M provider_request);
  child ← (get (q_provider_thread_id request) : M provider_thread);
  parent ← (get_opt (t_parent_request_id child) : M provider_request);
  refuse (negb (bool_decide (q_execution_id request = x_id x)) || negb (bool_decide (q_reason request = ForReview))
          || negb (bool_decide (q_provider_thread_id parent = t_id parent_thread))) "scope_mismatch" 422 ;;
  let state_ref := child_state_ref (t_id parent_thread) adapter native_key in
  let native_id := if codex then Some native_key else None in
  refuse (negb (bool_decide (t_provider_state_ref child = PREPARED request_id))
          && (negb (bool_decide (t_provider_state_ref child = state_ref)) || negb (bool_decide (t_provider_thread_id child = native_id))))
         "review_identity_changed" 409 ;;
  refuse (mem (q_status request) TERMINAL && starts_with "prepared-review:" (t_provider_state_ref child)) "review_cancelled" 409 ;;
  others ← select (same_identity child state_ref native_id);
  '(child, request) ← match others with
                      | [] => mret (child, request)
                      | [other] => _bind_observed_child x request child other native_id invocation_id
                      | _ => throw (DomainError "review_identity_conflict" 409)
                      end;
  child ← (if bool_decide (t_provider_state_ref child = state_ref) then mret child
           else change (t_id child) None (fun t => t <| t_provider_state_ref := state_ref |> <| t_provider_thread_id := native_id |>
                                                     <| t_status := Available |>));
  refuse (present (truthy invocation_id) && present (truthy (q_provider_turn_id request))
          && negb (bool_decide (q_provider_turn_id request = invocation_id))) "review_identity_changed" 409 ;;
  request ← (if binding_changes request invocation_id background
             then now ← ask db_now; change (q_id request) None (bound_request request now invocation_id background)
             else mret request);
  mret (child, request).

(** [attach]. *)
Definition attach (actor : Actor) (i : uid) (data : ReviewerAttach) : M (uid * uid * request_status) :=
  lift (guard (negb (reviewer_attach_valid data)) (ValidationError "ReviewerAttach")) ;;
  '(l, request, thread) ← _owned actor i;
  parent ← (get_opt (t_parent_request_id thread) : M provider_request);
  parent_thread ← (get (q_provider_thread_id parent) : M provider_thread);
  v ← (get (t_harness_revision_id thread) : M record_revision);
  hs ← lift match rr_content v with CHarness h => Ok h | _ => Err (RuntimeFailure "adapter") end;
  '(child, q) ← bind_native (lx_execution l) parent_thread (q_id request) (adapter_name (hs_adapter hs)) (va_native_key data)
                  (va_native_invocation_id data) (va_background data);
  _ ← emit (Some (actor_id actor)) (Some (lx_project_id l)) (request_subject q) ["status"] None (Some (x_id (lx_execution l))) None;
  mret (q_id request, t_id child, q_status q).
End binding.

(** ** Cancelling *)

Definition cancel_failure (note : string) : Failure :=
  {| fail_kind := ExecutionFailure; fail_code := "review_cancel_requested"; fail_message := note; fail_diagnostic_artifact_id := None |}.

Definition unlaunched (q : provider_request) (t : provider_thread) : bool :=
  bool_decide (q_status q = QPending) && starts_with "prepared-review:" (t_provider_state_ref t).

(** [cancel]: the status, and whether the child still has to stop. *)
Definition cancel (read_prepared : string -> option PreparedManifest) (actor : Actor) (i : uid) (note : string)
    : M (uid * request_status * bool) :=
  lift (guard (negb (nonblank note)) (ValidationError "ReviewerCancel")) ;;
  '(l, request, thread) ← _owned actor i;
  if mem (q_status request) TERMINAL then mret (q_id request, q_status request, false)
  else
    now ← ask db_now;
    let free := unlaunched request thread in
    when free
      (release_child_claims i now ;;
       _ ← change (t_id thread) None (fun t : provider_thread => t <| t_status := ThreadClosed |>);
       mret tt) ;;
    q ← change (q_id request) None (fun q => q <| q_status := if free then QInterrupted else QUncertain |>
          <| q_failure := Some (cancel_failure note) |> <| q_finished_at := if free then Some now else q_finished_at q |>);
    _ ← emit (Some (actor_id actor)) (Some (lx_project_id l)) (request_subject q) ["status"; "failure"] None (Some (x_id (lx_execution l))) None;
    _ ← invocation_state (read_manifest read_prepared) (actor_id actor) q "cancelled" (uuid_str i +:+ ":cancel");
    mret (q_id q, q_status q, negb free).
