(* ===== verification/ProviderEvents.v ===== *)
(** * Provider observations

    The projecting half of src/archon_horizon/pipeline/providers/provider_events.py:
    [project_observation], which turns a native stream event into usage records, child threads and
    requests and activities, with [_child] and [_record_usage].  The counters that it accounts for
    are reconciled by Usage.v.

    Arguments: [normalize], which extracts the samples and the children from the raw event of an
    adapter, and the display of the event, with the identity of its activity; SHA-256 and [uuid5]. *)

From S2P Require Import Prelude Contracts WorkerContracts ReviewContracts Conditions Schema Records Auth Samples MissionTree Missions Ledger Usage Capacity Sessions Assignments Workspaces Labels Launch Panel Decisions Packets Invocations.

Local Open Scope string_scope.
Local Open Scope Z_scope.

(** ** Observations *)

(** The keys of [UsageSample.accounting] that accounting reads. *)
Record SampleAccounting := {
  sa_scope : string;
  sa_identity : option string;
  sa_epoch : option string }.

Record UsageSample := {
  sp_key : string;
  sp_values : counters;
  sp_child_key : option string;
  sp_cumulative : bool;
  sp_fallback : bool;
  sp_accounting : option SampleAccounting }.

(** [invocation_ref] is the number of the UUID. *)
Record ChildObservation := {
  co_key : string;
  co_status : request_status;
  co_invocation_id : option string;
  co_model : option string;
  co_known_only : bool;
  co_parent_key : option string;
  co_background : option bool;
  co_invocation_ref : option Z;
  co_label : option string;
  co_description : option string;
  co_native_id : option string }.

(** [ChildObservation(key, "running")]. *)
Definition running_child (key : string) : ChildObservation :=
  {| co_key := key; co_status := QRunning; co_invocation_id := None; co_model := None; co_known_only := false; co_parent_key := None;
     co_background := None; co_invocation_ref := None; co_label := None; co_description := None; co_native_id := None |}.

(** What the activity stream shows of an event. *)
Record Display := { ds_category : string; ds_title : string; ds_skills : list string }.

Definition uuid_of (n : Z) : option uid := match n with Zpos p => Some p | _ => None end.

(** ** Choosing rows *)

Definition later_number (q r : provider_request) : bool := q_number r <=? q_number q.
Definition earlier_number (q r : provider_request) : bool := q_number q <=? q_number r.

(** The last request of a thread. *)
Definition last_request (d : DB) (t : uid) : option provider_request :=
  first_by later_number (stored_rows (fun q => bool_decide (q_provider_thread_id q = t)) d).

Definition child_of (parent : provider_thread) (p : provider_thread -> bool) (t : provider_thread) : bool :=
  bool_decide (t_assignment_id t = t_assignment_id parent) && bool_decide (t_kind t = Child) && p t.

(** The thread of a registered review that the known key of a child refers to. *)
Definition registered_child (d : DB) (x : execution) (parent : provider_thread) (reference : Z) (native : option string)
    : option provider_thread :=
  i ← uuid_of reference;
  q ← tb_provider_request d !! i;
  t ← tb_provider_thread d !! q_provider_thread_id q;
  r ← (k ← t_parent_request_id t; tb_provider_request d !! k);
  if bool_decide (q_execution_id q = x_id x) && bool_decide (q_reason q = ForReview)
     && child_of parent (fun t => present (t_provider_thread_id t)) t
     && bool_decide (q_provider_thread_id r = t_id parent) && bool_decide (q_execution_id r = x_id x)
     && match truthy native with Some k => bool_decide (t_provider_thread_id t = Some k) | None => true end
  then Some t else None.

Section observations.
Context (sha256 : string -> string) (uuid5 : uid -> string -> uid).

Abbreviation child_state_ref := (child_state_ref sha256).

(** ** Children *)

(** [native_id or key]. *)
Definition native_key (o : ChildObservation) : string := default (co_key o) (truthy (co_native_id o)).

Definition names_child (adapter state_ref : string) (o : ChildObservation) (t : provider_thread) : bool :=
  bool_decide (t_provider_state_ref t = state_ref)
  || bool_decide (adapter = "codex") && bool_decide (t_provider_thread_id t = Some (native_key o)).

(** Binding a registered review; a mismatch leaves the child unregistered. *)
Definition try_binding (x : execution) (parent : provider_thread) (adapter : string) (o : ChildObservation) : M unit :=
  registered ← ask (fun d => n ← co_invocation_ref o; i ← uuid_of n; q ← tb_provider_request d !! i;
                             if bool_decide (q_execution_id q = x_id x) && bool_decide (q_reason q = ForReview) then Some i else None);
  match registered with
  | Some i => _ ← attempt (bind_native sha256 x parent i adapter (native_key o) (co_invocation_id o) (co_background o)); mret tt
  | None => mret tt
  end.

(** The stored thread of the child. *)
Definition find_child (x : execution) (parent : provider_thread) (adapter : string) (o : ChildObservation) : M (option provider_thread) :=
  let state_ref := child_state_ref (t_id parent) adapter (co_key o) in
  found ← select (child_of parent (names_child adapter state_ref o));
  match found with
  | t :: _ => mret (Some t)
  | [] =>
      if bool_decide (adapter = "codex") && co_known_only o then
        match _invocation_ref (last_part (co_key o)) with
        | Some reference => ask (fun d => registered_child d x parent reference (co_native_id o))
        | None => mret None
        end
      else mret None
  end.

(** The request under which a new child is filed: the root's, or that of its native parent. *)
Definition parent_request (parent : provider_thread) (root : provider_request) (adapter : string) (o : ChildObservation) : M uid :=
  match truthy (co_parent_key o) with
  | None => mret (q_id root)
  | Some k =>
      nested ← select (fun t => bool_decide (t_assignment_id t = t_assignment_id parent)
                                && bool_decide (t_provider_state_ref t = child_state_ref (t_id parent) adapter k));
      match nested with
      | [] => mret (q_id root)
      | [t] =>
          q ← ask (fun d => last_request d (t_id t));
          lift match q with Some q => Ok (q_id q) | None => Err (RuntimeFailure "NoResultFound") end
      | _ => throw (RuntimeFailure "MultipleResultsFound")
      end
  end.

Definition new_native_child (parent : provider_thread) (request : uid) (adapter : string) (o : ChildObservation) (n : Z) (i : uid) (now : instant)
    : provider_thread :=
  {| t_id := i; t_created_at := now; t_updated_at := now; t_revision := 1; t_assignment_id := t_assignment_id parent; t_number := n;
     t_label := None; t_description := None; t_kind := Child; t_parent_request_id := Some request; t_workspace_id := t_workspace_id parent;
     t_harness_revision_id := t_harness_revision_id parent; t_skill_bundle_artifact_id := t_skill_bundle_artifact_id parent;
     t_provider_thread_id := if bool_decide (adapter = "codex") then Some (native_key o) else None;
     t_provider_state_ref := child_state_ref (t_id parent) adapter (co_key o); t_predecessor_id := None; t_recovery_note := None;
     t_applied_mission_revision_id := None; t_applied_roadmap_snapshot_id := None; t_applied_run_revision := None;
     t_applied_model_options := {| mo_model := truthy (co_model o); mo_reasoning_effort := None |}; t_status := Available |}.

Definition file_child (parent : provider_thread) (request : uid) (adapter : string) (o : ChildObservation) : M provider_thread :=
  n ← next_number t_number (fun t => bool_decide (t_assignment_id t = t_assignment_id parent));
  create (new_native_child parent request adapter o n).

(** The label and the description that differ. *)
Definition differs (given stored : option string) : bool := present (truthy given) && negb (bool_decide (given = stored)).

Definition describe (o : ChildObservation) (t : provider_thread) : M (provider_thread * bool) :=
  let label := differs (co_label o) (t_label t) in
  let description := differs (co_description o) (t_description t) in
  if label || description then
    t' ← change (t_id t) None (fun u : provider_thread => u <| t_label := if label then co_label o else t_label u |>
           <| t_description := if description then co_description o else t_description u |>);
    mret (t', true)
  else mret (t, false).

(** A child without a reviewer takes the native identity that it was seen under. *)
Definition identify (parent : provider_thread) (adapter : string) (o : ChildObservation) (q : option provider_request) (t : provider_thread)
    : M (provider_thread * bool) :=
  let state_ref := child_state_ref (t_id parent) adapter (co_key o) in
  match truthy (co_native_id o) with
  | Some native =>
      if negb (present (r ← q; q_reviewer_descriptor_id r))
         && (negb (bool_decide (t_provider_state_ref t = state_ref)) || negb (bool_decide (t_provider_thread_id t = Some native)))
      then t' ← change (t_id t) None (fun u : provider_thread => u <| t_provider_state_ref := state_ref |> <| t_provider_thread_id := Some native |>);
           mret (t', true)
      else mret (t, false)
  | None => mret (t, false)
  end.

(** The request of the invocation, or the last one. *)
Definition invocation_request (d : DB) (o : ChildObservation) (t : uid) : option provider_request :=
  match truthy (co_invocation_id o) with
  | Some i =>
      match first_by earlier_number (stored_rows (fun q => bool_decide (q_provider_thread_id q = t)
                                                          && bool_decide (q_provider_turn_id q = Some i)) d) with
      | Some q => Some q
      | None => last_request d t
      end
  | None => last_request d t
  end.

Definition note_background (o : ChildObservation) (q : option provider_request) : M (option provider_request) :=
  match q with
  | Some r =>
      if present (co_background o) && negb (present (q_native_background r))
      then r' ← change (q_id r) None (fun s : provider_request => s <| q_native_background := co_background o |>); mret (Some r')
      else mret (Some r)
  | None => mret None
  end.

Definition ended (s : request_status) : bool := mem s TERMINAL.

Definition new_child_request (x : execution) (t : uid) (o : ChildObservation) (n : Z) (observed : instant) (i : uid) (now : instant)
    : provider_request :=
  {| q_id := i; q_created_at := now; q_updated_at := now; q_revision := 1; q_provider_thread_id := t; q_execution_id := x_id x;
     q_number := n; q_reason := Continuation; q_reviewer_descriptor_id := None; q_reviewer_descriptor_revision_id := None;
     q_guidance_manifest_artifact_id := None; q_input_artifact_id := None; q_provider_turn_id := co_invocation_id o;
     q_native_background := co_background o; q_status := co_status o; q_submitted_at := Some observed; q_started_at := Some observed;
     q_finished_at := if ended (co_status o) then Some observed else None; q_failure := None |}.

(** The request is new, finishes, starts, or stays as it is. *)
Definition advance_request (x : execution) (t : uid) (o : ChildObservation) (observed : instant) (q : option provider_request)
    : M (provider_request * bool) :=
  let anew :=
    n ← next_number q_number (fun r => bool_decide (q_provider_thread_id r = t));
    r ← create (new_child_request x t o n observed);
    check_active r ;;
    mret (r, true) in
  match q with
  | None => anew
  | Some r =>
      let new_invocation := match truthy (co_invocation_id o) with
                            | Some i => negb (bool_decide (q_provider_turn_id r = Some i))
                            | None => false
                            end in
      if new_invocation && ended (q_status r) then anew
      else if ended (co_status o) && negb (ended (q_status r))
              && match q_started_at r with Some s => s <=? observed | None => true end then
        r' ← change (q_id r) None (fun s : provider_request => s <| q_status := co_status o |> <| q_finished_at := Some observed |>);
        mret (r', true)
      else if bool_decide (co_status o = QRunning) && mem (q_status r) [QPending; QSubmitted] then
        r' ← change (q_id r) None (fun s : provider_request => s <| q_status := QRunning |> <| q_started_at := Some observed |>
               <| q_provider_turn_id := or_else (truthy (q_provider_turn_id r)) (co_invocation_id o) |>);
        mret (r', true)
      else mret (r, false)
  end.

(** [_child]: the thread and the request of the child, and whether they changed. *)
Definition _child (x : execution) (parent : provider_thread) (root : provider_request) (adapter : string) (o : ChildObservation)
    (observed : instant) : M (option (provider_thread * provider_request * bool)) :=
  try_binding x parent adapter o ;;
  found ← find_child x parent adapter o;
  if negb (present found) && co_known_only o then mret None
  else
    request ← parent_request parent root adapter o;
    t ← match found with Some t => mret t | None => file_child parent request adapter o end;
    '(t, described) ← describe o t;
    q ← ask (fun d => last_request d (t_id t));
    '(t, identified) ← identify parent adapter o q t;
    q ← ask (fun d => invocation_request d o (t_id t));
    q ← note_background o q;
    let changed := negb (present found) || described || identified in
    if match q with Some r => co_known_only o && negb (bool_decide (q_execution_id r = x_id x)) | None => false end then mret None
    else
      match q with
      | Some r =>
          if bool_decide (adapter = "claude") && co_known_only o && bool_decide (co_status o = QCompleted)
             && negb (bool_decide (q_native_background r = Some false))
          then account_observed_child x r observed ;; mret (Some (t, r, changed))
          else
            '(r, advanced) ← advance_request x (t_id t) o observed (Some r);
            account_observed_child x r observed ;;
            mret (Some (t, r, changed || advanced))
      | None =>
          '(r, advanced) ← advance_request x (t_id t) o observed None;
          account_observed_child x r observed ;;
          mret (Some (t, r, changed || advanced))
      end.

(** ** Usage *)

Definition evidence_of (a : Accounting) : evidence :=
  {| e_raw := ua_raw a; e_checkpoint := ua_checkpoint a; e_observed_at := isoformat (ua_observed_at a); e_status := ua_status a |}.

(** The trusted records of a native counter in an epoch. *)
Definition counter_record (identity epoch : string) (u : usage_record) : bool :=
  match us_accounting u with
  | Some a => bool_decide (ua_identity a = Some identity) && bool_decide (ua_epoch a = Some epoch) && native_scope a
              && negb (bool_decide (ua_status a = OutOfOrder))
  | None => false
  end.

(** The accounting of a record, with when it was written. *)
Definition dated_evidence (u : usage_record) : option (evidence * instant) := a ← us_accounting u; Some (evidence_of a, us_created_at u).

(** A reset first, then the latest observation, then the latest record. *)
Definition prior_order (u v : evidence * instant) : bool :=
  outranks u.1 v.1 || negb (outranks v.1 u.1) && (v.2 <=? u.2).

Definition previous_evidence (d : DB) (identity epoch : string) : option evidence :=
  fst <$> first_by prior_order (omap dated_evidence (stored_rows (counter_record identity epoch) d)).

Definition amounts (u : usage_record) : counters :=
  {| c_input_tokens := us_input_tokens u; c_cached_input_tokens := us_cached_input_tokens u; c_output_tokens := us_output_tokens u;
     c_cost_usd := us_cost_usd u |}.

(** [SUM] of a column: null without a value. *)
Definition sum_of (l : list (option Z)) : option Z :=
  match omap id l with [] => None | n :: l => Some (List.fold_left Z.add l n) end.

(** The thread, and those whose history was reconciled into it. *)
Definition same_history (t h : provider_thread) : bool :=
  bool_decide (t_assignment_id h = t_assignment_id t)
  && (bool_decide (t_id h = t_id t) || bool_decide (t_provider_state_ref h = "reconciled-review:" +:+ uuid_str (t_id t))).

Definition history_record (d : DB) (t : provider_thread) (prefix : string) (u : usage_record) : bool :=
  starts_with prefix (us_provider_record_id u)
  && match (i ← us_provider_thread_id u; tb_provider_thread d !! i) with Some h => same_history t h | None => false end.

Definition recorded_totals (d : DB) (t : provider_thread) (prefix : string) : counters :=
  let l := stored_rows (history_record d t prefix) d in
  each (fun k => sum_of (map (fun u => field k (amounts u)) l)).

Definition is_measured (c : counters) : bool := any_counter (fun k => present (field k c)).

Definition positive (c : counters) : bool := any_counter (fun k => match field k c with Some n => negb (n =? 0) | None => false end).

(** What a cumulative sample adds to the recorded totals. *)
Definition increment (values previous : counters) : counters :=
  each (fun k => match field k values with Some v => Some (Z.max 0 (v - default 0 (field k previous))) | None => None end).

(** The values to record and their accounting, unless the sample adds nothing. *)
Definition account (d : DB) (t : provider_thread) (prefix : string) (s : UsageSample) (observed : instant)
    : result (option (counters * option Accounting)) :=
  match sp_accounting s with
  | Some a =>
      let base checkpoint status :=
        {| ua_scope := sa_scope a; ua_identity := sa_identity a; ua_epoch := sa_epoch a; ua_raw := sp_values s; ua_checkpoint := checkpoint;
           ua_observed_at := observed; ua_status := status |} in
      if bool_decide (sa_scope a = "native_thread_cumulative") then
        match sa_identity a, sa_epoch a with
        | Some name, Some epoch =>
            let previous := previous_evidence d name epoch in
            if duplicate (sp_values s) (isoformat observed) previous then Ok None
            else
              let '(amount, e) := reconcile_counter (sp_values s) previous (isoformat observed) in
              Ok (Some (amount, Some (base (e_checkpoint e) (e_status e))))
        | _, _ => Err (RuntimeFailure "identity")
        end
      else Ok (Some (no_counters, Some (base None UnknownScope)))
  | None =>
      let previous := if sp_cumulative s then Some (recorded_totals d t prefix) else None in
      let values := match previous with Some p => increment (sp_values s) p | None => sp_values s end in
      if negb (is_measured values) then Ok None
      else if match previous with
              | Some p => negb (positive values)
                          && negb (any_counter (fun k => present (field k values) && negb (present (field k p))))
              | None => false
              end then Ok None
      else Ok (Some (values, None))
  end.

(** Whether a fallback, or a total cost, is superseded by finer records. *)
Definition superseded_sample (d : DB) (q : provider_request) (t : provider_thread) (adapter : string) (s : UsageSample) : bool :=
  (sp_fallback s || mem (sp_key s) ["total_cost"; "result_cost"])
  && (existsb (fun c => bool_decide (t_parent_request_id c = Some (q_id q))) (map snd (map_to_list (tb_provider_thread d)))
      || sp_fallback s
         && existsb (fun a => bool_decide (ac_provider_request_id a = Some (q_id q))
              && match (i ← ac_usage_record_id a; tb_usage_record d !! i) with
                 | Some u => bool_decide (us_provider_thread_id u = Some (t_id t))
                             && starts_with (adapter +:+ ":cumulative:") (us_provider_record_id u) && present (us_input_tokens u)
                 | None => false
                 end) (map snd (map_to_list (tb_activity d)))).

Definition new_usage (x : execution) (t : uid) (record : string) (values : counters) (a : option Accounting) (i : uid) (now : instant)
    : usage_record :=
  {| us_id := i; us_created_at := now; us_execution_id := x_id x; us_provider_thread_id := Some t; us_provider_record_id := record;
     us_input_tokens := c_input_tokens values; us_cached_input_tokens := c_cached_input_tokens values;
     us_output_tokens := c_output_tokens values; us_cost_usd := c_cost_usd values; us_accounting := a |}.

Definition usage_activity (x : execution) (t q usage : uid) (observed : instant) (i : uid) (now : instant) : activity :=
  {| ac_id := i; ac_created_at := now; ac_assignment_id := x_assignment_id x; ac_execution_id := x_id x;
     ac_provider_thread_id := Some t; ac_provider_request_id := Some q; ac_kind := ProgressActivity; ac_summary := None;
     ac_skills_used := []; ac_usage_record_id := Some usage; ac_occurred_at := observed |}.

Definition sample_prefix (adapter : string) (q : provider_request) (s : UsageSample) : string :=
  adapter +:+ ":" +:+ (if sp_cumulative s then "cumulative" else uuid_str (q_id q)) +:+ ":" +:+ sha256 (sp_key s) +:+ ":".

(** [_record_usage]: whether a record was added. *)
Definition _record_usage (x : execution) (q : provider_request) (t : provider_thread) (adapter : string) (s : UsageSample)
    (operation : string) (observed : instant) : M bool :=
  if present (sp_accounting s) && negb (is_measured (sp_values s)) then mret false
  else
    let prefix := sample_prefix adapter q s in
    let record := if sp_cumulative s then prefix +:+ operation else prefix in
    seen ← any (fun u => bool_decide (us_provider_thread_id u = Some (t_id t)) && bool_decide (us_provider_record_id u = record));
    superseded ← ask (fun d => superseded_sample d q t adapter s);
    if seen || superseded then mret false
    else
      d ← ask id;
      accounted ← lift (account d t prefix s observed);
      match accounted with
      | None => mret false
      | Some (values, a) =>
          u ← create_with (uuid5 (t_id t) record) (new_usage x (t_id t) record values a);
          activity_request ← (if bool_decide (t_id t = q_provider_thread_id q) then mret (q_id q)
                              else r ← ask (fun d => last_request d (t_id t));
                                   lift match r with Some r => Ok (q_id r) | None => Err (RuntimeFailure "NoResultFound") end);
          _ ← create (usage_activity x (t_id t) activity_request (us_id u) observed);
          mret true
      end.

(** ** Projection *)

Section projection.
Context (normalize : string -> json -> string -> list UsageSample * list ChildObservation).
Context (display_event : string -> json -> option Display) (activity_identity : uid -> Display -> string -> uid).

Definition thread_status_kind (s : request_status) : activity_kind :=
  if mem s [QFailed; QInterrupted] then FailureActivity else if bool_decide (s = QCompleted) then CompletionActivity else ProgressActivity.

(** The threads of the children by key, and how many changed. *)
Definition observe_child (actor : Actor) (x : execution) (t : provider_thread) (q : provider_request) (adapter : string) (observed : instant)
    (project : option uid) (state : gmap string provider_thread * Z) (o : ChildObservation) : M (gmap string provider_thread * Z) :=
  child ← _child x t q adapter o observed;
  match child with
  | None => mret state
  | Some (c, r, changed) =>
      let rows := <[co_key o := c]> state.1 in
      if (changed : bool) then
        a ← create (new_activity x (Some (t_id c)) (Some (q_id r)) (thread_status_kind (q_status r))
              (Some ("Native child " +:+ pretty (t_number c) +:+ ": " +:+ request_status_str (q_status r))) [] observed);
        _ ← emit (Some (actor_id actor)) project (activity_subject a) ["kind"] None (Some (x_id x)) None;
        mret (rows, state.2 + 1)
      else mret (rows, state.2)
  end.

Fixpoint observe_children (actor : Actor) (x : execution) (t : provider_thread) (q : provider_request) (adapter : string) (observed : instant)
    (project : option uid) (state : gmap string provider_thread * Z) (l : list ChildObservation) : M (gmap string provider_thread * Z) :=
  match l with
  | [] => mret state
  | o :: l => state' ← observe_child actor x t q adapter observed project state o;
              observe_children actor x t q adapter observed project state' l
  end.

Definition usage_thread (x : execution) (t : provider_thread) (q : provider_request) (adapter : string) (observed : instant)
    (rows : gmap string provider_thread) (s : UsageSample) : M provider_thread :=
  match truthy (sp_child_key s) with
  | None => mret t
  | Some k =>
      match rows !! k with
      | Some c => mret c
      | None =>
          child ← _child x t q adapter (running_child k) observed;
          match child with Some (c, _, _) => mret c | None => throw (RuntimeFailure "NoneType") end
      end
  end.

Fixpoint record_samples (x : execution) (t : provider_thread) (q : provider_request) (adapter : string) (operation : string) (observed : instant)
    (rows : gmap string provider_thread) (l : list UsageSample) : M Z :=
  match l with
  | [] => mret 0
  | s :: l =>
      target ← usage_thread x t q adapter observed rows s;
      added ← _record_usage x q target adapter s operation observed;
      rest ← record_samples x t q adapter operation observed rows l;
      mret ((if added : bool then 1 else 0) + rest)
  end.

Record Projection := { pj_usage_records : Z; pj_child_changes : Z; pj_activity_id : option uid }.

Definition pins_adapter (h : harness) (adapter : string) : bool :=
  match hs_adapter h with
  | CodexExec => bool_decide (adapter = "codex")
  | ClaudeExec => bool_decide (adapter = "claude")
  | CodexAppServer => false
  end.

(** The activity that shows the event, once per identity. *)
Definition show_event (actor : Actor) (x : execution) (t : provider_thread) (q : provider_request) (operation : string) (observed : instant)
    (project : option uid) (shown : option Display) : M (option uid) :=
  match shown with
  | None => mret None
  | Some s =>
      let identity := activity_identity (q_id q) s operation in
      stored ← ask (fun d => present (tb_activity d !! identity));
      if (stored : bool) then mret (Some identity)
      else
        let kind := if bool_decide (ds_category s = "tool") then ToolUse
                    else if bool_decide (ds_category s = "failure") then FailureActivity else ProgressActivity in
        a ← create_with identity (new_activity x (Some (t_id t)) (Some (q_id q)) kind (Some (ds_title s)) (ds_skills s) observed);
        _ ← emit (Some (actor_id actor)) project (activity_subject a) ["kind"; "summary"; "skills_used"] None (Some (x_id x)) None;
        mret (Some identity)
  end.

(** [project_observation]. *)
Definition project_observation (actor : Actor) (x : execution) (t : provider_thread) (request : uid) (adapter : string) (raw : json)
    (operation : string) (observed : instant) (project : option uid) : M Projection :=
  q ← (get request : M provider_request);
  refuse (negb (bool_decide (q_execution_id q = x_id x)) || negb (bool_decide (q_provider_thread_id q = t_id t))) "scope_mismatch" 422 ;;
  v ← (get (t_harness_revision_id t) : M record_revision);
  refuse match rr_content v with CHarness h => negb (pins_adapter h adapter) | _ => true end "adapter_mismatch" 422 ;;
  let '(usages, children) := normalize adapter raw (operation) in
  '(rows, changes) ← observe_children actor x t q adapter observed project (∅, 0) children;
  added ← record_samples x t q adapter operation observed rows usages;
  shown ← show_event actor x t q operation observed project (display_event adapter raw);
  mret {| pj_usage_records := added; pj_child_changes := changes; pj_activity_id := shown |}.
End projection.
End observations.
