(* ===== verification/ObservationSafety.v ===== *)
(** * The safety of provider observations

    The theorems about ProviderEvents.v: the stored records of a native counter implement the
    accounting of Usage.v; the totals of a cumulative sample are never counted twice; and an
    observed child is never more than an observation. *)

From S2P Require Import Prelude Contracts WorkerContracts ReviewContracts Conditions Schema Records Auth Samples MissionTree Missions Ledger Usage Capacity Sessions Assignments Workspaces Labels Launch AdmissionSafety Panel PanelSafety Decisions Packets Invocations ProviderEvents.

Local Open Scope string_scope.
Local Open Scope Z_scope.

(** ** The order of evidence *)

Lemma ltb_leb s t : String.ltb s t = negb (String.leb t s).
Proof. unfold String.ltb, String.leb. rewrite (String.compare_antisym t s). by destruct (String.compare s t). Qed.

#[export] Instance prior_order_total : Total (fun u v => Is_true (prior_order u v)).
Proof.
  intros [a i] [b j]. rewrite !Is_true_true. unfold prior_order. cbn. destruct (outranks a b), (outranks b a); cbn; auto.
  destruct (Z.le_ge_cases i j); [right|left]; by apply Z.leb_le.
Qed.

(** Evidence in the order of its rank. *)
Definition rank_le (b e : evidence) : Prop := outranks b e = false.

Lemma rank_le_iff b e :
  rank_le b e <-> (is_reset b = false /\ is_reset e = true) \/ (is_reset b = is_reset e /\ String.le (e_observed_at b) (e_observed_at e)).
Proof.
  unfold rank_le, outranks, String.le. rewrite ltb_leb. destruct (is_reset b), (is_reset e), (String.leb _ _); cbn; intuition discriminate.
Qed.

Lemma rank_le_trans a b c : rank_le a b -> rank_le b c -> rank_le a c.
Proof.
  rewrite !rank_le_iff. intros [[? ?]|[E1 H1]] [[? ?]|[E2 H2]]; try (left; by split; congruence); try congruence.
  right. split; [congruence|]. by etrans.
Qed.

Lemma rank_le_total a b : rank_le a b \/ rank_le b a.
Proof.
  rewrite !rank_le_iff. destruct (is_reset a), (is_reset b); auto.
  all: destruct (base.total String.le (e_observed_at a) (e_observed_at b)); auto.
Qed.

Lemma prior_order_iff u v : prior_order u v = true <-> rank_le v.1 u.1 /\ (rank_le u.1 v.1 -> v.2 <= u.2).
Proof.
  unfold prior_order, rank_le. destruct (rank_le_total u.1 v.1) as [H|H]; unfold rank_le in H; rewrite H.
  - cbn. rewrite andb_true_iff, negb_true_iff, Z.leb_le. tauto.
  - destruct (outranks u.1 v.1); cbn; [intuition discriminate|]. rewrite Z.leb_le. tauto.
Qed.

#[export] Instance prior_order_trans : Transitive (fun u v => Is_true (prior_order u v)).
Proof.
  intros u v w. rewrite !Is_true_true, !prior_order_iff. intros [H1 T1] [H2 T2]. split; [by eapply rank_le_trans|].
  intros H. assert (rank_le v.1 w.1) by (by eapply rank_le_trans). assert (rank_le u.1 v.1) by (by eapply rank_le_trans).
  specialize (T1 ltac:(done)). specialize (T2 ltac:(done)). lia.
Qed.

(** ** The records of an epoch *)

(** The records of a native counter in an epoch, out-of-order ones included. *)
Definition epoch_record (name epoch : string) (u : usage_record) : bool :=
  match us_accounting u with
  | Some a => bool_decide (ua_identity a = Some name) && bool_decide (ua_epoch a = Some epoch) && native_scope a
  | None => false
  end.

Definition entry_of (u : usage_record) : option usage_entry :=
  a ← us_accounting u; Some {| ue_amount := amounts u; ue_evidence := evidence_of a |}.

Definition newer_record (u v : usage_record) : Prop := us_created_at v < us_created_at u.

(** The records of an epoch, the newest first, each written at a time of its own. *)
Record epoch_history (d : DB) (name epoch : string) (l : list usage_record) : Prop := {
  eh_records : l ≡ₚ stored_rows (epoch_record name epoch) d;
  eh_sorted : StronglySorted newer_record l }.

Definition entries (l : list usage_record) : list usage_entry := omap entry_of l.

Definition in_order (u : usage_record) : bool :=
  match us_accounting u with Some a => negb (bool_decide (ua_status a = OutOfOrder)) | None => false end.

Definition dated (l : list usage_record) : list (evidence * instant) := omap dated_evidence (List.filter in_order l).

Lemma dated_cons u l : dated (u :: l) = ((if in_order u then option_list (dated_evidence u) else []) ++ dated l)%list.
Proof. unfold dated. cbn. destruct (in_order u); [|done]. cbn. by destruct (dated_evidence u). Qed.

Lemma elem_of_dated p l : p ∈ dated l <-> exists u, u ∈ l /\ in_order u = true /\ dated_evidence u = Some p.
Proof.
  unfold dated. rewrite list_elem_of_omap. split.
  - intros (u & [Hu Hl]%elem_of_filter_list & Hp). eauto.
  - intros (u & Hl & Hu & Hp). exists u. split; [|done]. by apply elem_of_filter_list.
Qed.

(** The latest evidence of a history is the first of its records. *)
Lemma latest_first l :
  StronglySorted newer_record l ->
  match latest (entries l) with
  | Some e => exists c, (e, c) ∈ dated l /\ forall p, p ∈ dated l -> prior_order (e, c) p = true
  | None => dated l = []
  end.
Proof.
  induction 1 as [|u l Hs IH Hf]; [done|]. unfold entries in *. cbn [omap list_omap]. unfold entry_of at 1. rewrite dated_cons.
  unfold in_order, dated_evidence at 1. destruct (us_accounting u) as [a|] eqn:Ea; cbn; [|exact IH].
  change (e_status (evidence_of a)) with (ua_status a). case_bool_decide as Ho; cbn; [done|].
  replace (dated_evidence u) with (Some (evidence_of a, us_created_at u)) by (unfold dated_evidence; by rewrite Ea). cbn.
  assert (forall p, p ∈ dated l -> p.2 < us_created_at u) as Hlt.
  { intros p (v & Hv & _ & Ep)%elem_of_dated. rewrite Forall_forall in Hf. specialize (Hf _ Hv). unfold dated_evidence in Ep.
    destruct (us_accounting v); [|done]. by injection Ep as <-. }
  assert (prior_order (evidence_of a, us_created_at u) (evidence_of a, us_created_at u) = true) as Hrefl.
  { rewrite <- Is_true_true. by destruct (prior_order_total (evidence_of a, us_created_at u) (evidence_of a, us_created_at u)). }
  destruct (latest _) as [b|].
  - destruct IH as (c & Hin & Hmax). destruct (outranks b (evidence_of a)) eqn:Er.
    + exists c. split; [by right|]. intros p [->|Hp]%elem_of_cons; [|by apply Hmax]. unfold prior_order. cbn. by rewrite Er.
    + exists (us_created_at u). split; [by left|]. intros p [->|Hp]%elem_of_cons; [done|].
      assert (prior_order (evidence_of a, us_created_at u) (b, c) = true) as Hub.
      { apply prior_order_iff. cbn. split; [done|]. intros _. apply Hlt in Hin. cbn in Hin. lia. }
      apply Is_true_true. eapply prior_order_trans; apply Is_true_true; [exact Hub|by apply Hmax].
  - exists (us_created_at u). split; [by left|]. rewrite IH. intros p [->|[]%elem_of_nil]%elem_of_cons. done.
Qed.

Lemma sorted_created l u v : StronglySorted newer_record l -> u ∈ l -> v ∈ l -> us_created_at u = us_created_at v -> u = v.
Proof.
  induction 1 as [|w l Hs IH Hf]; [by intros ?%elem_of_nil|]. rewrite Forall_forall in Hf. unfold newer_record in Hf.
  intros [->|Hu]%elem_of_cons [->|Hv]%elem_of_cons E; [done| | |by apply IH].
  - specialize (Hf _ Hv). lia.
  - specialize (Hf _ Hu). lia.
Qed.

Lemma counter_record_iff name epoch u : counter_record name epoch u = epoch_record name epoch u && in_order u.
Proof. unfold counter_record, epoch_record, in_order. destruct (us_accounting u); [done|done]. Qed.

(** The query finds the latest evidence of the history. *)
Lemma previous_evidence_latest d name epoch l :
  epoch_history d name epoch l -> previous_evidence d name epoch = latest (entries l).
Proof.
  intros [Hp Hs]. unfold previous_evidence. set (k := omap dated_evidence (stored_rows (counter_record name epoch) d)).
  assert (forall p, p ∈ k <-> p ∈ dated l) as Hk.
  { intros p. subst k. rewrite elem_of_dated, list_elem_of_omap. split.
    - intros (u & [Hc [i Hi]]%elem_of_stored & E). rewrite counter_record_iff in Hc. bools. exists u. split; [|done]. rewrite Hp.
      apply elem_of_stored. eauto.
    - intros (u & Hu & Ho & E). rewrite Hp in Hu. apply elem_of_stored in Hu as [He [i Hi]]. exists u. split; [|done].
      apply elem_of_stored. split; [by rewrite counter_record_iff, He, Ho|eauto]. }
  pose proof (latest_first l Hs) as Hl. destruct (first_by prior_order k) as [x|] eqn:Ef; cbn.
  - pose proof (first_by_Some _ _ _ Ef) as Hx. apply Hk in Hx. destruct (latest _) as [e|]; [|rewrite Hl in Hx; by apply elem_of_nil in Hx].
    destruct Hl as (c & Hin & Hmax). pose proof (Hmax x Hx) as H1.
    pose proof (first_by_least prior_order k x (e, c) Ef (proj2 (Hk _) Hin)) as H2.
    apply prior_order_iff in H1 as [H1 T1], H2 as [H2 T2]. cbn in *. specialize (T1 H2). specialize (T2 H1).
    apply elem_of_dated in Hx as (u & Hu & _ & Eu), Hin as (v & Hv & _ & Ev). unfold dated_evidence in Eu, Ev.
    destruct (us_accounting u) as [a|] eqn:Ea; [|done]. destruct (us_accounting v) as [b|] eqn:Eb; [|done].
    injection Eu as <-. injection Ev as <- <-. cbn in *. assert (u = v) as -> by (eapply sorted_created; [exact Hs|done|done|lia]). congruence.
  - apply first_by_None in Ef. destruct (latest _) as [e|]; [|done]. destruct Hl as (c & Hin & _). apply Hk in Hin. rewrite Ef in Hin.
    by apply elem_of_nil in Hin.
Qed.

Lemma stored_rows_insert {R} `{Table R} (p : R -> bool) d d' i (r : R) :
  rows d !! i = None -> rows d' = <[i := r]> (rows d) ->
  stored_rows p d' ≡ₚ ((if p r then [r] else []) ++ stored_rows p d)%list.
Proof.
  intros Hi E. unfold stored_rows. rewrite E.
  transitivity (List.filter p (r :: map snd (map_to_list (rows d)))); [|cbn; by destruct (p r)].
  apply filter_Permutation. by rewrite map_to_list_insert by done.
Qed.

Section recording.
Context (sha256 : string -> string) (uuid5 : uid -> string -> uid).

Abbreviation _record_usage := (_record_usage sha256 uuid5).
Abbreviation sample_prefix := (sample_prefix sha256).

Definition record_of (adapter : string) (q : provider_request) (s : UsageSample) (operation : string) : string :=
  let prefix := sample_prefix adapter q s in if sp_cumulative s then prefix +:+ operation else prefix.

(** The thread has the record of the sample. *)
Definition recorded (d : DB) (t : uid) (record : string) : Prop :=
  exists i u, tb_usage_record d !! i = Some u /\ us_provider_thread_id u = Some t /\ us_provider_record_id u = record.

(** What recording a sample does: nothing, or one record with what [account] makes of it. *)
Lemma record_usage_Ok x q t adapter s operation observed d b d' :
  _record_usage x q t adapter s operation observed d = Ok (b, d') ->
  let prefix := sample_prefix adapter q s in
  let record := record_of adapter q s operation in
  if b then exists values a, account d t prefix s observed = Ok (Some (values, a)) /\ ~ recorded d (t_id t) record
       /\ let i := uuid5 (t_id t) record in
          tb_usage_record d !! i = None /\ tb_usage_record d' = <[i := new_usage x (t_id t) record values a i (db_now d)]> (tb_usage_record d)
          /\ tb_provider_thread d' = tb_provider_thread d
  else d' = d /\ (present (sp_accounting s) && negb (is_measured (sp_values s)) = true \/ recorded d (t_id t) record
                 \/ superseded_sample d q t adapter s = true \/ account d t prefix s observed = Ok None).
Proof.
  intros H prefix record. unfold ProviderEvents._record_usage in H. destruct (present _ && negb _) eqn:Em; [apply ret_Ok in H as [-> ->]; auto|].
  fold prefix in H. fold record in H. apply bind_Ok in H as (seen & d0 & [Hs ->]%ask_Ok & H). apply bind_Ok in H as (sup & d0 & [Hp ->]%ask_Ok & H).
  assert (seen = true <-> recorded d (t_id t) record) as Hseen.
  { rewrite Hs. rewrite existsb_true, Exists_exists. split.
    - intros (u & Hu & Hb). apply elem_of_rows in Hu as [i Hi]. bools. exists i, u. by split_and!.
    - intros (i & u & Hi & Ht & Hr). exists u. split; [apply elem_of_rows; by exists i|]. by rewrite Ht, Hr, !bool_decide_true. }
  destruct (seen || sup) eqn:Es.
  { apply ret_Ok in H as [-> ->]. split; [done|]. apply orb_true_iff in Es as [->| ->]; [right; left; by apply Hseen|auto]. }
  apply orb_false_iff in Es as [-> ->]. apply bind_Ok in H as (d0 & d1 & [-> ->]%ask_Ok & H). cbn in H.
  apply bind_Ok in H as (r & d1 & [Ha ->]%lift_Ok & H). destruct r as [[values a]|]; [|apply ret_Ok in H as [-> ->]; auto].
  apply bind_Ok in H as (u & d1 & E1 & H). unfold create_with in E1. cbn in E1.
  destruct (tb_usage_record d !! _) eqn:Eu; [done|]. injection E1 as <- <-.
  set (part := fun d => (tb_usage_record d, tb_provider_thread d)).
  apply bind_Ok in H as (k & d2 & E2 & H). apply read_only in E2 as ->; [|frame].
  apply bind_Ok in H as (ac & d3 & E3 & H). leaves part E3. apply ret_Ok in H as [-> ->]. injection E3 as -> ->.
  exists values, a. split; [done|]. split; [|by split_and!]. intros Hc. by apply Hseen in Hc.
Qed.

(** C23. The records of a native counter implement the accounting of session totals: recording a
    sample of an epoch extends the history of the epoch exactly as [record_usage] does, whichever
    threads, executions and retries its records came from; and when nothing is recorded, the sample
    measures nothing, is recorded already, is superseded by finer records, or repeats the last one. *)
Theorem counter_records_refine_accounting x q t adapter s operation observed d b d' a name epoch l :
  _record_usage x q t adapter s operation observed d = Ok (b, d') ->
  sp_accounting s = Some a -> sa_scope a = "native_thread_cumulative" -> sa_identity a = Some name -> sa_epoch a = Some epoch ->
  epoch_history d name epoch l -> Forall (fun u => us_created_at u < db_now d) l ->
  if b then exists u, epoch_history d' name epoch (u :: l)
                      /\ entries (u :: l) = record_usage (sp_values s) (isoformat observed) (entries l)
  else d' = d /\ (is_measured (sp_values s) = false \/ recorded d (t_id t) (record_of adapter q s operation)
                  \/ superseded_sample d q t adapter s = true
                  \/ record_usage (sp_values s) (isoformat observed) (entries l) = entries l).
Proof.
  intros H Ha Hs Hi He Hl Hnow. apply record_usage_Ok in H. cbv zeta in H. unfold account, record_usage in *.
  rewrite Ha, Hi, He, (bool_decide_true _ Hs), (previous_evidence_latest _ _ _ _ Hl) in H.
  destruct (duplicate _ _ _).
  { destruct b; [by destruct H as (v & y & H & _)|]. destruct H as [-> H]. split; [done|].
    cbn in H. rewrite negb_true_iff in H. intuition. }
  destruct (reconcile_counter _ _ _) as [amount e] eqn:Er.
  pose proof (reconcile_cases (sp_values s) (latest (entries l)) (isoformat observed)) as (Hraw & Hobs & _). rewrite Er in Hraw, Hobs.
  cbn [snd] in Hraw, Hobs. destruct b.
  - destruct H as (v & y & [= <- <-] & _ & Hk & Hu & _). rewrite Hs in Hu.
    match type of Hu with _ = <[_ := ?u]> _ => exists u; set (v := u) in * end. split.
    + assert (epoch_record name epoch v = true) as Hv.
      { unfold epoch_record, native_scope. cbn. by rewrite !bool_decide_true. }
      split; [|constructor; [apply Hl|exact Hnow]].
      rewrite (stored_rows_insert (H := usage_record_table) (epoch_record name epoch) d d' _ v Hk Hu), Hv. cbn. by rewrite <- (eh_records _ _ _ _ Hl).
    + unfold entries at 1. cbn [omap list_omap entry_of]. f_equal. unfold evidence_of, amounts. cbn -[isoformat]. rewrite <- Hraw, <- Hobs. by destruct amount, e.
  - destruct H as [-> H]. split; [done|]. cbn in H. rewrite negb_true_iff in H. intuition. discriminate.
Qed.

(** ** Cumulative samples *)

Lemma sum_of_sum l : default 0 (sum_of l) = sum_by (default 0) l.
Proof.
  unfold sum_of. transitivity (sum_by id (omap id l)).
  - destruct (omap id l) as [|n k]; [done|]. cbn [default]. unfold sum_by. cbn. revert n. induction k as [|m k IH]; intros n; cbn; [lia|].
    rewrite IH. lia.
  - unfold sum_by. induction l as [|[n|] l IH]; cbn; [done| |]; rewrite <- IH; done.
Qed.

Lemma recorded_totals_sum d t prefix k :
  default 0 (field k (recorded_totals d t prefix)) = sum_by (fun u => default 0 (field k (amounts u))) (stored_rows (history_record d t prefix) d).
Proof. unfold recorded_totals. by rewrite field_each, sum_of_sum, sum_by_map. Qed.

Lemma amounts_new x t record c a i now : amounts (new_usage x t record c a i now) = c.
Proof. by destruct c. Qed.

(** A record of the thread under the prefix adds to its totals. *)
Lemma recorded_totals_insert d d' t prefix i u k :
  tb_provider_thread d !! t_id t = Some t -> tb_provider_thread d' = tb_provider_thread d -> us_provider_thread_id u = Some (t_id t) ->
  starts_with prefix (us_provider_record_id u) = true ->
  tb_usage_record d !! i = None -> tb_usage_record d' = <[i := u]> (tb_usage_record d) ->
  default 0 (field k (recorded_totals d' t prefix)) = default 0 (field k (amounts u)) + default 0 (field k (recorded_totals d t prefix)).
Proof.
  intros Ht Hth Hu Hp Hi E. rewrite !recorded_totals_sum. unfold stored_rows, history_record. cbn [rows usage_record_table].
  rewrite Hth, E, sum_by_insert by done. rewrite Hp, Hu. cbn [mbind option_bind]. rewrite Ht. unfold same_history.
  by rewrite !(bool_decide_true (_ = _) eq_refl).
Qed.

(** A running total is never counted twice: after a cumulative sample was recorded, the total
    of the child in every counter that the sample measures is the larger of the sample and of the
    total before, and the other totals are as they were; and a sample that is not recorded, though
    it is new and nothing supersedes it, measures nothing above the total. *)
Theorem cumulative_totals_track_maximum x q t adapter s operation observed d b d' :
  _record_usage x q t adapter s operation observed d = Ok (b, d') -> sp_accounting s = None -> sp_cumulative s = true ->
  tb_provider_thread d !! t_id t = Some t ->
  let total d k := default 0 (field k (recorded_totals d t (sample_prefix adapter q s))) in
  if b then forall k, total d' k = match field k (sp_values s) with Some v => Z.max v (total d k) | None => total d k end
  else d' = d /\ (recorded d (t_id t) (record_of adapter q s operation) \/ superseded_sample d q t adapter s = true
                  \/ forall k v, field k (sp_values s) = Some v -> v <= total d k).
Proof.
  intros H Ha Hc Ht total. apply record_usage_Ok in H. cbv zeta in H. unfold account in H. rewrite Ha, Hc in H. unfold record_of in H.
  rewrite Hc in H. set (prefix := sample_prefix adapter q s) in *. set (inc := increment (sp_values s) (recorded_totals d t prefix)) in *.
  assert (forall k, field k inc = match field k (sp_values s) with Some v => Some (Z.max 0 (v - total d k)) | None => None end) as Hinc
    by (intros k; unfold inc, increment; by rewrite field_each).
  destruct b.
  - destruct H as (values & a & H & _ & Hi & Hu & Hth). destruct (is_measured inc); [|done]. cbn [negb] in H.
    destruct (negb _ && negb _); [done|]. injection H as <- <-. intros k.
    unfold total. match type of Hu with _ = <[_ := ?u]> _ => set (v := u) in Hu end.
    rewrite (recorded_totals_insert d d' t prefix _ v k Ht Hth eq_refl (starts_with_app _ _) Hi Hu). subst v.
    rewrite amounts_new, Hinc.
    fold (total d k). destruct (field k (sp_values s)); cbn; lia.
  - destruct H as [-> H]. split; [done|]. unfold record_of. rewrite Hc. fold prefix. destruct H as [H|[H|[H|H]]]; [done|by left|by right; left|].
    right; right. intros k v Hv. specialize (Hinc k). rewrite Hv in Hinc. destruct (is_measured inc) eqn:Em; cbn [negb] in H.
    + destruct (negb (positive inc)) eqn:Ep; [|done]. unfold positive in Ep. rewrite negb_true_iff, any_counter_false in Ep.
      specialize (Ep k). rewrite Hinc in Ep. apply negb_false_iff in Ep. lia.
    + unfold is_measured in Em. rewrite any_counter_false in Em. specialize (Em k). by rewrite Hinc in Em.
Qed.
End recording.

(** ** Children *)

(** A request keeps its identity, its provenance, and its outcome once it has one. *)
Record evolves (q q' : provider_request) : Prop := {
  ev_id : q_id q' = q_id q;
  ev_thread : q_provider_thread_id q' = q_provider_thread_id q;
  ev_execution : q_execution_id q' = q_execution_id q;
  ev_reason : q_reason q' = q_reason q;
  ev_reviewer : q_reviewer_descriptor_id q' = q_reviewer_descriptor_id q;
  ev_revision : q_reviewer_descriptor_revision_id q' = q_reviewer_descriptor_revision_id q;
  ev_guidance : q_guidance_manifest_artifact_id q' = q_guidance_manifest_artifact_id q;
  ev_input : q_input_artifact_id q' = q_input_artifact_id q;
  ev_outcome : ended (q_status q) = true -> q_status q' = q_status q /\ q_finished_at q' = q_finished_at q }.

#[export] Instance evolves_preorder : PreOrder evolves.
Proof.
  split; [by intros q; split|]. intros q1 q2 q3 [] []. split; try congruence.
  intros He. destruct (ev_outcome0 He) as [E1 E2]. rewrite E1, E2 in *. auto.
Qed.

(** An observed request: a continuation of the execution, without a reviewer. *)
Definition plain (x : uid) (q : provider_request) : Prop :=
  q_execution_id q = x /\ q_reason q = Continuation /\ q_reviewer_descriptor_id q = None /\ q_reviewer_descriptor_revision_id q = None
  /\ q_guidance_manifest_artifact_id q = None /\ q_input_artifact_id q = None.

Definition requests_ok (d : DB) : Prop :=
  forall i q, tb_provider_request d !! i = Some q -> q_id q = i /\ (i < db_next d)%positive.

(** Requests evolve, and those that appear are plain. *)
Definition observed_requests (x : uid) (d d' : DB) : Prop :=
  (forall i q, tb_provider_request d !! i = Some q -> exists q', tb_provider_request d' !! i = Some q' /\ evolves q q')
  /\ (forall i q, tb_provider_request d' !! i = Some q -> tb_provider_request d !! i = None -> plain x q).

Definition advances (x : uid) (d d' : DB) : Prop := requests_ok d -> requests_ok d' /\ observed_requests x d d'.

#[export] Instance advances_preorder x : PreOrder (advances x).
Proof.
  split.
  - intros d Hd. split; [done|]. split; [intros i q Hq; by exists q|]. intros i q H1 H2. by rewrite H1 in H2.
  - intros d1 d2 d3 H1 H2 Hd. destruct (H1 Hd) as [Hd2 [K1 N1]]. destruct (H2 Hd2) as [Hd3 [K2 N2]]. split; [done|]. split.
    + intros i q Hq. destruct (K1 _ _ Hq) as (q2 & Hq2 & E1). destruct (K2 _ _ Hq2) as (q3 & Hq3 & E2). exists q3. split; [done|by etrans].
    + intros i q Hq Hn. destruct (tb_provider_request d2 !! i) as [q2|] eqn:E; [|by eapply N2].
      pose proof (N1 _ _ E Hn) as Hp. destruct (K2 _ _ E) as (q3 & Hq3 & []). rewrite Hq in Hq3. injection Hq3 as <-.
      unfold plain in *. intuition congruence.
Qed.

Lemma observed_same x d d' : tb_provider_request d' = tb_provider_request d -> (db_next d <= db_next d')%positive -> advances x d d'.
Proof.
  intros E L Hd. split; [intros i q; rewrite E; intros Hq; destruct (Hd _ _ Hq); split; [done|lia]|].
  split; rewrite E; [intros i q Hq; by exists q|]. intros i q H1 H2. by rewrite H1 in H2.
Qed.
#[export] Hint Extern 0 (Quiet (advances _) _) => (split; (intros ??; apply observed_same; [reflexivity|cbn; lia])) : typeclass_instances.

#[export] Hint Extern 1 (Keeps (advances _) (modify _)) => (apply keeps_modify; intros ?; apply observed_same; [reflexivity|cbn; lia]) : frame.

Lemma observed_put x d d' i q q' :
  tb_provider_request d !! i = Some q -> tb_provider_request d' = <[i := q']> (tb_provider_request d) -> db_next d' = db_next d ->
  evolves q q' -> advances x d d'.
Proof.
  intros Hq E En Hev Hd. destruct (Hd _ _ Hq) as [Hi Hl]. split; [|split].
  - intros j r. rewrite E, En. intros [[<- <-]|[_ Hr]]%lookup_insert_Some; [|by apply Hd]. by rewrite (ev_id _ _ Hev).
  - intros j r Hr. rewrite E. destruct (decide (i = j)) as [<-|]; [|rewrite lookup_insert_ne by done; by exists r].
    rewrite lookup_insert_eq. rewrite Hq in Hr. injection Hr as <-. by exists q'.
  - intros j r. rewrite E. intros [[<- _]|[_ Hr]]%lookup_insert_Some Hn; congruence.
Qed.

(** A change of a request that is stored as it was read. *)
Lemma advances_change x d i f (q r : provider_request) d' :
  change i None f d = Ok (r, d') -> tb_provider_request d !! i = Some q -> evolves q (touch (db_now d) (f q)) ->
  advances x d d' /\ tb_provider_request d' !! i = Some r /\ r = touch (db_now d) (f q).
Proof.
  intros (q0 & Hq0 & _ & -> & ->)%change_Ok Hq He. cbn in Hq0. rewrite Hq in Hq0. injection Hq0 as <-.
  split; [by eapply observed_put|]. cbn. by rewrite lookup_insert_eq.
Qed.

(** A change of a request that leaves its outcome alone. *)
Lemma keeps_advances_change x i f :
  (forall q now, evolves q (touch now (f q))) -> Keeps (advances x) (change (R := provider_request) i None f).
Proof.
  intros Hf d r d' H. pose proof H as (q & Hq & _)%change_Ok. by eapply advances_change in H as [H _].
Qed.

Lemma advances_when_ok x d d' : (requests_ok d -> advances x d d') -> advances x d d'.
Proof. intros H Hd. by apply H. Qed.

Lemma stored_request d q p : requests_ok d -> q ∈ stored_rows p d -> tb_provider_request d !! q_id q = Some q.
Proof. intros Hd [_ [i Hi]]%elem_of_stored. cbn in Hi. by destruct (Hd _ _ Hi) as [-> _]. Qed.

#[export] Hint Extern 1 (Keeps (advances _) (change _ _ _)) => (apply keeps_advances_change; intros ??; split; reflexivity || (intros _; split; reflexivity)) : frame.

Section children.
Context (sha256 : string -> string).

Lemma touch_evolves q now : evolves q (touch now q).
Proof. by split. Qed.

(** The request that a reconciliation returns is stored. *)
Lemma bind_observed_advances x y p t o native inv d c q d' :
  _bind_observed_child x p t o native inv d = Ok ((c, q), d') -> requests_ok d -> tb_provider_request d !! q_id p = Some p ->
  advances y d d' /\ tb_provider_request d' !! q_id q = Some q.
Proof.
  unfold _bind_observed_child. intros H Hd Hp. apply bind_Ok in H as (l & ? & [-> ->]%select_Ok & H).
  apply bind_Ok in H as (r & ? & [Hr ->]%lift_Ok & H). skip H.
  assert (tb_provider_request d !! q_id r = Some r /\ q_status r = QRunning /\ q_status p = QPending) as (Hst & Es & Ep).
  { destruct (List.filter _ _) as [|z [|? ?]] eqn:Ef; [done| |done]. destruct (compatible _ _ _ _ _ _ z) eqn:Ec; [|done].
    injection Hr as ->. unfold compatible in Ec. bools. split_and!; [|done|done].
    eapply (stored_request d r); [done|]. unfold stored_rows. rewrite Ef. by left. }
  assert (q_id r <> q_id p) as Hne by (intros E; rewrite E in Hst; congruence).
  apply bind_Ok in H as (r' & d1 & E1 & H). pose proof E1 as (r0 & Hr0 & _ & -> & Hd1)%change_Ok. cbn in Hr0. rewrite Hst in Hr0. injection Hr0 as <-.
  apply (advances_change y _ _ _ _ _ _ E1) in Hst as (A1 & _ & _); [|split; try done; cbn; by rewrite Es].
  assert (tb_provider_request d1 !! q_id p = Some p) as Hp1 by (subst d1; cbn; by rewrite lookup_insert_ne). clear Hd1 E1.
  apply bind_Ok in H as (? & d2 & E2 & H). unfold release_child_claims in E2. pose proof E2 as L2. leaves tb_provider_request L2.
  within (advances y) E2. unfold same_part in L2. rewrite <- L2 in Hp1.
  apply bind_Ok in H as (q1 & d3 & E3 & H).
  apply (advances_change y _ _ _ _ _ _ E3) in Hp1 as (A3 & Hq1 & Eq1); [|split; try done; cbn; by rewrite Ep].
  assert (q_id q1 = q_id p) as Ei by (by subst q1). clear E3 Eq1.
  apply bind_Ok in H as (? & d4 & E4 & H). pose proof E4 as L4. leaves tb_provider_request L4. within (advances y) E4.
  apply bind_Ok in H as (? & d5 & E5 & H). pose proof E5 as L5. leaves tb_provider_request L5. within (advances y) E5.
  apply bind_Ok in H as (? & d6 & E6 & H). pose proof E6 as L6. leaves tb_provider_request L6. within (advances y) E6.
  apply ret_Ok in H as [[= -> ->] ->]. unfold same_part in *. rewrite L6, L5, L4, Ei. split; [|done].
  by do 5 (etrans; [eassumption|]).
Qed.

Lemma keeps_bind_native y x parent i adapter key inv bg : Keeps (advances y) (bind_native sha256 x parent i adapter key inv bg).
Proof.
  intros d [c q] d' H. apply advances_when_ok. intros Hd. unfold bind_native in H. skip H. apply bind_Ok in H as (r & ? & [Hr ->]%get_Ok & H). cbn in Hr.
  destruct (Hd _ _ Hr) as [Ei _]. skip H. skip H. skip H. skip H. skip H. apply bind_Ok in H as (others & ? & [-> ->]%select_Ok & H).
  apply bind_Ok in H as ([c1 q1] & d1 & E1 & H).
  assert (advances y d d1 /\ tb_provider_request d1 !! q_id q1 = Some q1) as [A1 Hs1].
  { destruct (List.filter _ _) as [|o [|? ?]]; [|eapply bind_observed_advances; [exact E1|done|by rewrite Ei]|discriminate E1].
    apply ret_Ok in E1 as [[= -> ->] ->]. by rewrite Ei. }
  apply bind_Ok in H as (c2 & d2 & E2 & H). pose proof E2 as L2. leaves tb_provider_request L2. within (advances y) E2. unfold same_part in L2.
  rewrite <- L2 in Hs1. skip H. apply bind_Ok in H as (q2 & d3 & E3 & H). apply ret_Ok in H as [_ ->].
  etrans; [exact A1|]. etrans; [exact E2|]. destruct (binding_changes _ _ _); [|apply ret_Ok in E3 as [_ ->]; done]. skip E3.
  eapply advances_change in E3 as [A _]; [exact A|exact Hs1|]. split; try done. cbn. intros He.
  rewrite bool_decide_false; [done|]. intros E. by rewrite E in He.
Qed.
Hint Resolve keeps_bind_native : frame.

(** Recording a child reads and writes threads, and at most one request as it is stored. *)
Lemma keeps_account_child y x q at_ : Keeps (advances y) (account_observed_child x q at_).
Proof. unfold account_observed_child, release_child_claims, claim_limit. frame. Qed.
Hint Resolve keeps_account_child : frame.

Lemma keeps_background y o q : Keeps (advances y) (note_background o q).
Proof. unfold note_background. frame. Qed.

(** The request stays stored while its background is noted. *)
Lemma note_background_stored o q d r d' :
  note_background o q d = Ok (r, d') -> (forall s, q = Some s -> tb_provider_request d !! q_id s = Some s) -> requests_ok d ->
  forall s, r = Some s -> tb_provider_request d' !! q_id s = Some s.
Proof.
  unfold note_background. intros H Hq Hd s ->. destruct q as [q|]; [|by apply ret_Ok in H as [? _]]. specialize (Hq _ eq_refl).
  destruct (_ && _); [|apply ret_Ok in H as [[= ->] ->]; done]. apply bind_Ok in H as (q' & d1 & E & H). apply ret_Ok in H as [[= ->] ->].
  apply (advances_change 1 _ _ _ _ _ _ E) in Hq as (_ & Hs & ->); [done|]. split; done.
Qed.

Lemma keeps_advance_request x t o at_ q d r d' :
  advance_request x t o at_ q d = Ok (r, d') -> (forall s, q = Some s -> tb_provider_request d !! q_id s = Some s) -> requests_ok d ->
  advances (x_id x) d d'.
Proof.
  unfold advance_request. intros H Hq Hd. set (anew := (_ ≫= _)) in H.
  assert (anew d = Ok (r, d') -> advances (x_id x) d d') as Hnew.
  { subst anew. clear H. intros H. skip H. apply bind_Ok in H as (row & d1 & [= Erow <-] & H). skip H. apply ret_Ok in H as [_ ->].
    intros _. split; [|split].
    - intros i s. cbn. intros [[<- <-]|[_ Hs]]%lookup_insert_Some; [cbn; split; [done|lia]|]. destruct (Hd _ _ Hs). split; [done|lia].
    - intros i s Hs. cbn. rewrite lookup_insert_ne by (intros E; destruct (Hd _ _ Hs); lia). by exists s.
    - intros i s. cbn. intros [[<- <-]|[_ Hs]]%lookup_insert_Some Hn; [|congruence]. by split_and!. }
  destruct q as [q|]; [|by apply Hnew]. specialize (Hq _ eq_refl). destruct (_ && ended (q_status q)); [by apply Hnew|].
  destruct (ended (co_status o) && negb (ended (q_status q)) && _) eqn:Ee.
  { apply bind_Ok in H as (q' & d1 & E & H). apply ret_Ok in H as [_ ->]. apply (advances_change (x_id x) _ _ _ _ _ _ E) in Hq as [A _]; [done|].
    split; try done. cbn. bools. congruence. }
  destruct (bool_decide _ && mem (q_status q) _) eqn:Er; [|apply ret_Ok in H as [_ ->]; done].
  apply bind_Ok in H as (q' & d1 & E & H). apply ret_Ok in H as [_ ->]. apply (advances_change (x_id x) _ _ _ _ _ _ E) in Hq as [A _]; [done|].
  split; try done. intros He. exfalso. apply andb_true_iff in Er as [_ Er]. unfold ended in He. by destruct (q_status q).
Qed.

Lemma requests_ok_after y d d' : advances y d d' -> requests_ok d -> requests_ok d'.
Proof. intros H Hd. by destruct (H Hd). Qed.

Lemma last_request_stored d t s : requests_ok d -> last_request d t = Some s -> tb_provider_request d !! q_id s = Some s.
Proof. intros Hd H%first_by_Some. by eapply stored_request. Qed.

Lemma invocation_request_stored d o t s : requests_ok d -> invocation_request d o t = Some s -> tb_provider_request d !! q_id s = Some s.
Proof.
  intros Hd. unfold invocation_request. destruct (truthy _); [|by apply last_request_stored].
  destruct (first_by _ _) as [q|] eqn:E; [|by apply last_request_stored]. intros [= ->]. apply first_by_Some in E. by eapply stored_request.
Qed.

Lemma keeps_try_binding y x parent adapter o : Keeps (advances y) (try_binding sha256 x parent adapter o).
Proof. unfold try_binding. frame. Qed.
Hint Resolve keeps_try_binding : frame.

Lemma keeps_find_child R `{!PreOrder R} x parent adapter o : Keeps R (find_child sha256 x parent adapter o).
Proof. unfold find_child. frame. Qed.

Lemma keeps_parent_request R `{!PreOrder R} parent root adapter o : Keeps R (parent_request sha256 parent root adapter o).
Proof. unfold parent_request. frame. Qed.
Hint Resolve keeps_find_child keeps_parent_request : frame.

Lemma keeps_child x parent root adapter o at_ : Keeps (advances (x_id x)) (_child sha256 x parent root adapter o at_).
Proof.
  intros d r d' H. apply advances_when_ok. intros Hd. unfold _child in H.
  apply bind_Ok in H as (? & d1 & E1 & H). within (advances (x_id x)) E1. skip H. destruct (_ && co_known_only o); [by apply ret_Ok in H as [_ ->]|].
  skip H. etrans; [exact E1|]. apply (requests_ok_after _ _ _ E1) in Hd. clear E1.
  apply bind_Ok in H as (t & d2 & E2 & H). unfold file_child in E2. within (advances (x_id x)) E2.
  apply bind_Ok in H as ([t2 b2] & d3 & E3 & H). unfold describe in E3. within (advances (x_id x)) E3. skip H.
  apply bind_Ok in H as ([t3 b3] & d4 & E4 & H). unfold identify in E4. within (advances (x_id x)) E4.
  assert (advances (x_id x) d1 d4) as A4 by (by do 2 (etrans; [eassumption|])). etrans; [exact A4|].
  apply (requests_ok_after _ _ _ A4) in Hd. clear E2 E3 E4 A4.
  apply bind_Ok in H as (q & ? & [Eq ->]%ask_Ok & H). apply bind_Ok in H as (q' & d5 & E5 & H). pose proof E5 as A5.
  apply (keeps_background (x_id x)) in A5. etrans; [exact A5|].
  assert (forall s, q' = Some s -> tb_provider_request d5 !! q_id s = Some s) as Hq.
  { eapply note_background_stored; [exact E5| |done]. intros s ->. by eapply invocation_request_stored. }
  apply (requests_ok_after _ _ _ A5) in Hd. destruct (match q' with Some _ => _ | None => _ end); [by apply ret_Ok in H as [_ ->]|].
  assert (forall (o' : option provider_request) k, o' = q' -> (advance_request x (t_id t3) o at_ o' ≫= k) d5 = Ok (r, d') ->
    (forall z, Keeps (advances (x_id x)) (k z)) -> advances (x_id x) d5 d') as Hadv.
  { intros o' k -> (z & d6 & E6 & Hk)%bind_Ok Kk. etrans; [by eapply keeps_advance_request|by eapply Kk]. }
  destruct q' as [q'|].
  - destruct (_ && _ && _ && _).
    + apply bind_Ok in H as (? & d6 & E6 & H). apply ret_Ok in H as [_ ->]. by within (advances (x_id x)) E6.
    + eapply Hadv; [done|exact H|]. intros [? ?]. frame.
  - eapply Hadv; [done|exact H|]. intros [? ?]. frame.
Qed.
Hint Resolve keeps_child : frame.

Context (uuid5 : uid -> string -> uid).
Context (normalize : string -> json -> string -> list UsageSample * list ChildObservation).
Context (display_event : string -> json -> option Display) (activity_identity : uid -> Display -> string -> uid).

Lemma keeps_create_named {T} `{Table T} y i (v : uid -> instant -> T) :
  (forall m d n, (db_next d <= n)%positive -> advances y d (put_rows m (d <| db_next := n |>))) -> Keeps (advances y) (create_with i v).
Proof. intros Hq d r d'. unfold create_with. destruct (rows d !! i); [done|]. intros [= <- <-]. apply Hq. lia. Qed.
Hint Extern 1 (Keeps (advances _) (create_with _ _)) => (apply keeps_create_named; intros ????; apply observed_same; [reflexivity|assumption]) : frame.

Lemma keeps_observe_children actor x t q adapter at_ project l state :
  Keeps (advances (x_id x)) (observe_children sha256 actor x t q adapter at_ project state l).
Proof. revert state. induction l as [|o l IH]; intros state; cbn; [frame|]. unfold observe_child. frame. Qed.

Lemma keeps_record_samples x t q adapter operation at_ rows l :
  Keeps (advances (x_id x)) (record_samples sha256 uuid5 x t q adapter operation at_ rows l).
Proof. induction l as [|s l IH]; cbn; [frame|]. unfold usage_thread, _record_usage. frame.
Qed.

Lemma keeps_show_event actor x t q operation at_ project shown :
  Keeps (advances (x_id x)) (show_event activity_identity actor x t q operation at_ project shown).
Proof. unfold show_event. frame. Qed.
Hint Resolve keeps_observe_children keeps_record_samples keeps_show_event : frame.

(** What the scheduler decides on, and what gives rights. *)
Definition authority (d : DB) :=
  (tb_assignment d, tb_execution d, tb_run d, tb_mission d, tb_workspace d, tb_automation d, tb_obligation d, tb_review_work d, tb_outbox_operation d, tb_principal d,
   tb_credential d, tb_project_grant d, tb_system_grant d).

Lemma child_authority x t q adapter o at_ : Frame authority (_child sha256 x t q adapter o at_).
Proof.
  unfold _child, try_binding, bind_native, _bind_observed_child, release_child_claims, file_child, describe, identify, note_background,
    advance_request, account_observed_child, release_child_claims, claim_limit. frame.
Qed.
Hint Resolve child_authority : frame.

Lemma observe_children_authority actor x t q adapter at_ project l state :
  Frame authority (observe_children sha256 actor x t q adapter at_ project state l).
Proof. revert state. induction l as [|o l IH]; intros state; cbn; [frame|]. unfold observe_child. frame. Qed.

Lemma record_samples_authority x t q adapter operation at_ rows l :
  Frame authority (record_samples sha256 uuid5 x t q adapter operation at_ rows l).
Proof. induction l as [|s l IH]; cbn; [frame|]. unfold usage_thread, _record_usage. frame. Qed.
Hint Resolve observe_children_authority record_samples_authority : frame.

Abbreviation project_observation := (project_observation sha256 uuid5 normalize display_event activity_identity).

Lemma keeps_authority actor x t request adapter raw operation at_ project :
  Frame authority (project_observation actor x t request adapter raw operation at_ project).
Proof. unfold ProviderEvents.project_observation, show_event. frame. Qed.

Lemma keeps_project_observation actor x t request adapter raw operation at_ project :
  Keeps (advances (x_id x)) (project_observation actor x t request adapter raw operation at_ project).
Proof. unfold ProviderEvents.project_observation. frame. Qed.

(** C24. An observation is never more than one: whatever a provider reports, no session, execution,
    run, mission, workspace, automation, obligation, review work, outgoing operation, principal, credential or grant
    changes; a request that appears is a continuation of the execution without a reviewer, guidance
    or input; and a request that was there keeps its reviewer and its provenance, and its outcome
    once it has one. *)
Theorem observations_grant_nothing actor x t request adapter raw operation at_ project d p d' :
  project_observation actor x t request adapter raw operation at_ project d = Ok (p, d') ->
  requests_ok d -> authority d' = authority d /\ observed_requests (x_id x) d d' /\ requests_ok d'.
Proof.
  intros H Hd. split; [by apply keeps_authority in H|]. apply keeps_project_observation in H. destruct (H Hd). by split.
Qed.
End children.
#[export] Hint Resolve keeps_project_observation : frame.

(** ** Observations of a maintainer's session

    Execution 7 is that of a maintainer, whose primary thread 50 runs request 51, on provider
    account 70. *)

Definition maintainer_db : DB :=
  reviewed_db <| tb_assignment := {[6%positive := (sample_assignment 6 5 3 Running) <| a_role := Maintainer |>]} |>
    <| tb_provider_thread := {[50%positive := sample_thread 50 6 91 Available]} |>
    <| tb_provider_request := {[51%positive := sample_request 51 50 7 QRunning]} |>
    <| tb_harness := {[92%positive := sample_harness]} |>
    <| tb_artifact := {[96%positive := {| ar_id := 96; ar_created_at := 0; ar_project_id := 2; ar_created_by_execution_id := None;
         ar_kind := BlobArtifact; ar_content := BlobContent (zeros 64) 1 "application/json" |}]} |>
    <| tb_host_harness := {[(90%positive, 92%positive) := sample_slots]} |>
    <| tb_host_harness_limit := {[(90%positive, 92%positive, 70%positive)]} |>
    <| tb_resource_limit := tb_resource_limit poll_db |>.

Definition same_text (s : string) : string := s.


Definition observed_db : DB :=
  maintainer_db <| tb_record_revision := <[95%positive := pinned 95 (stored Kharness 92) 1 (CHarness (sample_harness <| hs_adapter := CodexExec |>))]>
                                           (tb_record_revision maintainer_db) |>.

Definition session_total (n : Z) : UsageSample :=
  {| sp_key := "native_total"; sp_values := sample_total n 10; sp_child_key := None; sp_cumulative := true; sp_fallback := false;
     sp_accounting := Some {| sa_scope := "native_thread_cumulative"; sa_identity := Some "thread-1"; sa_epoch := Some "session" |} |}.

Definition message_total (n : Z) : UsageSample :=
  {| sp_key := "message:1"; sp_values := sample_total n 10; sp_child_key := None; sp_cumulative := true; sp_fallback := false;
     sp_accounting := None |}.

Definition number_of (i : uid) (s : string) : uid := (i + 1000)%positive.

Definition record_sample (s : UsageSample) (operation : string) : M bool :=
  _record_usage same_text number_of (sample_execution 7 6 XRunning) (sample_request 51 50 7 QRunning) (sample_thread 50 6 91 Available)
    "codex" s operation 600.

Lemma counter_records_refine_accounting_witness :
  exists d' u, record_sample (session_total 100) "op" observed_db = Ok (true, d') /\ epoch_history d' "thread-1" "session" [u]
    /\ entries [u] = record_usage (sample_total 100 10) (isoformat 600) [].
Proof.
  destruct (is_ok_true (record_sample (session_total 100) "op" observed_db)) as [[b d'] E]; [by vm_compute|].
  assert (b = true) as ->.
  { assert (match record_sample (session_total 100) "op" observed_db with Ok (b, _) => b = true | Err _ => False end) as H by (by vm_compute).
    by rewrite E in H. }
  assert (epoch_history observed_db "thread-1" "session" []) as Hh by (split; [by vm_compute|constructor]).
  destruct (counter_records_refine_accounting _ _ _ _ _ _ _ _ _ _ _ _ _ _ _ [] E eq_refl eq_refl eq_refl eq_refl Hh (Forall_nil_2 _)) as (u & H1 & H2).
  exists d', u. split; [exact E|]. split; [exact H1|exact H2].
Defined.

Lemma cumulative_totals_track_maximum_witness :
  exists d', record_sample (message_total 100) "op" observed_db = Ok (true, d')
    /\ default 0 (c_input_tokens (recorded_totals d' (sample_thread 50 6 91 Available) "codex:cumulative:message:1:")) = 100.
Proof.
  destruct (is_ok_true (record_sample (message_total 100) "op" observed_db)) as [[b d'] E]; [by vm_compute|].
  assert (b = true) as ->.
  { assert (match record_sample (message_total 100) "op" observed_db with Ok (b, _) => b = true | Err _ => False end) as H by (by vm_compute).
    by rewrite E in H. }
  exists d'. split; [exact E|].
  etransitivity; [exact (cumulative_totals_track_maximum _ _ _ _ _ _ _ _ _ _ _ _ E eq_refl eq_refl eq_refl InputTokens)|]. by vm_compute.
Defined.

Definition one_child (adapter : string) (raw : json) (event : string) : list UsageSample * list ChildObservation :=
  ([session_total 100], [running_child "kid"]).

Definition observe_sample : M Projection :=
  project_observation same_text number_of one_child (fun _ _ => None) (fun i _ _ => i) agent (sample_execution 7 6 XRunning)
    (sample_thread 50 6 91 Available) 51 "codex" JNull "op" 600 (Some 2%positive).

Lemma observations_grant_nothing_witness :
  exists p d', observe_sample observed_db = Ok (p, d') /\ pj_child_changes p = 1 /\ pj_usage_records p = 1
    /\ authority d' = authority observed_db /\ observed_requests 7 observed_db d'.
Proof.
  destruct (is_ok_true (observe_sample observed_db)) as [[p d'] E]; [by vm_compute|].
  assert (pj_child_changes p = 1 /\ pj_usage_records p = 1) as [H1 H2].
  { assert (match observe_sample observed_db with Ok (p, _) => pj_child_changes p = 1 /\ pj_usage_records p = 1 | Err _ => False end) as H
      by (by vm_compute).
    by rewrite E in H. }
  exists p, d'. split; [exact E|]. split; [exact H1|]. split; [exact H2|]. clear H1 H2.
  assert (requests_ok observed_db) as Hr by (intros i q Hq; cbn in Hq; by apply lookup_singleton_Some in Hq as [<- <-]).
  unfold observe_sample in E. destruct (observations_grant_nothing _ _ _ _ _ _ _ _ _ _ _ _ _ _ _ _ _ E Hr) as (Ha & Ho & _). by split.
Defined.
