(* ===== verification/WorkerEvents.v ===== *)
(** * Worker events

    src/archon_horizon/pipeline/execution/worker_events.py: [handle], by which the control plane
    ingests what a host reports of an execution, and [reconcile_agent_journal].  The payload of
    XX

    Arguments: those of Leases.v; the blobs of the store, the JSON of a provider input and the
    input or manifest read back from a blob; [uuid5] and [shlex.quote]. *)

From S2P Require Import Prelude Contracts WorkerContracts ReviewContracts Conditions Schema Records Auth Samples MissionTree Missions Ledger Usage Capacity Sessions Assignments Settlement Runs Workspaces Labels Objectives Phases Launch Leases Panel Decisions Packets Invocations ProviderEvents.

(** ** Operations *)

Record UnresolvedIntent := { ui_id : string; ui_rejected : bool }.

Record IntentReconciliation := {
  ir_pending : Z;
  ir_fingerprint : option string;
  ir_consecutive_observations : Z;
  ir_intents : list UnresolvedIntent }.

Definition unresolved_intent_valid (i : UnresolvedIntent) : bool :=
  (1 <=? Z.of_nat (String.length (ui_id i))) && (Z.of_nat (String.length (ui_id i)) <=? 200).

Definition intent_reconciliation_valid (s : IntentReconciliation) : bool :=
  (0 <=? ir_pending s) && opt_valid hex_digest (ir_fingerprint s) && (0 <=? ir_consecutive_observations s)
  && at_most 20 (ir_intents s) && forallb unresolved_intent_valid (ir_intents s).

(** The input of a provider request, as the artifact keeps it. *)
Record RequestInput := {
  in_prompt : string;
  in_mission_revision_id : option uid;
  in_mission_revision_number : option Z;
  in_run_revision : option Z;
  in_roadmap_snapshot_id : option uid }.

Inductive publication_event : Type := Discovered | Verified | PublicationFailed.
#[export] Instance publication_event_eq_dec : EqDecision publication_event.
Proof. solve_decision. Defined.

Inductive provider_event : Type :=
| RequestStarted (request_id : uid) (input : RequestInput)
| RequestCompleted (request_id : uid) (status : string) (failure : option Failure) (native : option string)
| NativeEvent (request_id : uid) (adapter : string) (raw : json)
| OtherEvent (body : string).

Record StopReceipt := {
  sr_status : option outcome;
  sr_failure : option Failure;
  sr_reason : option string;
  sr_provider_thread_id : option string;
  sr_intent_reconciliation : option IntentReconciliation }.

(** [workspace_prepared] carries its three fields, or other keys ([None]). *)
Inductive worker_payload : Type :=
| WorkspacePrepared (fields : option (string * string * string))
| PublicationReport (k : publication_event) (repository_id : uid) (commit_oid remote_ref : string) (failure_code : option string)
| ExecutionFinished (receipt : StopReceipt)
| ProviderObserved (provider_thread_record_id : option uid) (e : provider_event)
| ActivityReport (kind : option activity_kind) (summary : option string) (skills_used : list string).

Record WorkerOperation := {
  wo_operation_id : string;
  wo_execution_id : uid;
  wo_epoch : Z;
  wo_payload : worker_payload;
  wo_occurred_at : instant }.

Inductive WorkerAnswer : Type :=
| AnsWorkspace (i : uid) (s : workspace_status)
| AnsPublication (i : uid) (s : publication_status)
| AnsAssignment (i : uid) (s : assignment_status)
| AnsRequest (i : uid) (s : option request_status)
| AnsProjection (p : Projection)
| AnsEvent (i : uid)
| AnsActivity (i : uid).

(** [live]: the execution runs under an unexpired lease. *)
Definition live (x : execution) (now : instant) : bool :=
  mem (x_status x) [XStarting; XRunning] && (now <? x_lease_expires_at x).

(** ** Failures *)

Definition failure_kind_str (k : failure_kind) : string :=
  match k with
  | ProviderFailure => "provider" | TransportFailure => "transport" | HostFailure => "host" | StorageFailure => "storage"
  | ConfigurationFailure => "configuration" | ExecutionFailure => "execution" | LifecycleFailure => "lifecycle"
  end.

Definition _request_failure_activity (actor : Actor) (x : execution) (q : provider_request) (f : Failure) (observed : instant)
    (p : option uid) : M unit :=
  a ← create (new_activity x (Some (q_provider_thread_id q)) (Some (q_id q)) FailureActivity
        (Some ("Provider request failed (" +:+ failure_kind_str (fail_kind f) +:+ "/" +:+ fail_code f +:+ "): "
               +:+ String.substring 0 2000 (fail_message f))%string) [] observed);
  _ ← emit (Some (actor_id actor)) p (activity_subject a) ["kind"; "summary"]%string None (Some (x_id x)) None;
  mret tt.

(** [Failure.model_validate]. *)
Definition parse_failure (f : option Failure) : M unit :=
  lift (guard (negb (opt_valid failure_valid f)) (ValidationError "failure")).

(** ** Prepared workspaces *)

Definition workspace_prepared (actor : Actor) (x : execution) (p : option uid) (now : instant) (fields : option (string * string * string))
    : M WorkerAnswer :=
  refuse (negb (live x now)) "stale_epoch" 409 ;;
  w ← (get (x_workspace_id x) : M workspace);
  h ← (get (x_host_id x) : M host);
  '(workspace_id, head, branch) ← lift match fields with Some f => Ok f | None => Err (DomainError "scope_mismatch" 422) end;
  refuse (negb (bool_decide (workspace_id = uuid_str (w_id w)))
          || negb (bool_decide (w_host_id w = x_host_id x))
          || negb (bool_decide (w_path w = assignments_path (h_workspace_root h) (x_assignment_id x)))
          || negb (bool_decide (w_branch_name w = assignment_branch (x_assignment_id x)))) "scope_mismatch" 422 ;;
  refuse (negb (bool_decide (head = w_base_commit_oid w)) || negb (bool_decide (branch = w_branch_name w)))
         "workspace_snapshot_mismatch" 422 ;;
  refuse (negb (mem (w_status w) [WPreparing; WReady])) "workspace_unavailable" 409 ;;
  if bool_decide (w_status w = WPreparing) then
    w' ← change (w_id w) None (fun v => v <| w_status := WReady |> <| w_head_commit_oid := Some head |>);
    _ ← emit (Some (actor_id actor)) p (workspace_subject w') ["status"; "head_commit_oid"]%string None (Some (x_id x)) None;
    mret (AnsWorkspace (w_id w') (w_status w'))
  else mret (AnsWorkspace (w_id w) (w_status w)).

(** ** Publications *)

Definition commit_valid (oid : string) : bool :=
  (40 <=? Z.of_nat (String.length oid)) && (Z.of_nat (String.length oid) <=? 128) && forallb is_hex (chars oid).

Definition same_commit (p : option uid) (content : artifact_content) (a : artifact) : bool :=
  bool_decide (Some (ar_project_id a) = p) && bool_decide (ar_kind a = CommitArtifact) && bool_decide (ar_content a = content).

Definition preservation_ref (ref : string) : bool :=
  starts_with "refs/horizon/" ref || starts_with "refs/heads/horizon/recovery/" ref.

Definition preserves (artifact repository : uid) (b : publication) : bool :=
  bool_decide (pb_artifact_id b = artifact)
  && match pb_target b with
     | GitTarget q ref _ => bool_decide (q = repository) && preservation_ref ref
     | ArtifactStoreTarget => false
     end.

Definition older_publication (a b : publication) : bool := pb_created_at a <=? pb_created_at b.

Definition new_publication (artifact assignment : uid) (target : PublicationTarget) (i : uid) (now : instant) : publication :=
  {| pb_id := i; pb_created_at := now; pb_updated_at := now; pb_revision := 1; pb_artifact_id := artifact;
     pb_requested_by_assignment_id := assignment; pb_target := target; pb_review_gate_id := None; pb_status := PubPending;
     pb_retry_count := 0; pb_retry_at := None; pb_lease_owner_host_id := None; pb_lease_epoch := 0; pb_lease_expires_at := None;
     pb_verified_at := None; pb_failure := None |}.

(** The index [uq_publication_target]. *)
Definition same_target (row b : publication) : bool :=
  negb (bool_decide (pb_id b = pb_id row)) && bool_decide (pb_artifact_id b = pb_artifact_id row)
  && bool_decide (pb_target b = pb_target row).

Definition check_target (row : publication) : M unit :=
  clash ← any (same_target row);
  if (clash : bool) then throw (RuntimeFailure "uq_publication_target") else mret tt.

Definition publication_failures : list string :=
  ["publication_blocked"; "git_authentication_failed"; "git_remote_configuration"; "git_recovery_ref_conflict";
   "publication_remote_not_configured"; "git_local_configuration"; "local_object_missing"].

Definition publication_failure (code : option string) : Failure :=
  let c := match code with Some c => if mem c publication_failures then c else "publication_blocked" | None => "publication_blocked" end%string in
  {| fail_kind := ConfigurationFailure; fail_code := c;
     fail_message := ("Worker publication needs repair: " +:+ c +:+ ". Inspect the worker publication journal.")%string;
     fail_diagnostic_artifact_id := None |}.

Definition preserve_commit (x : uid) (p : option uid) (project : uid) (content : artifact_content) : M artifact :=
  found ← select (same_commit p content);
  match found with
  | a :: _ => mret a
  | [] => create (fun i now => {| ar_id := i; ar_created_at := now; ar_project_id := project;
             ar_created_by_execution_id := Some x; ar_kind := CommitArtifact; ar_content := content |})
  end.

(** Preservation refs never authorize changes to a protected branch. *)
Definition preserve_publication (a assignment repository : uid) (oid : string) : M publication :=
  kept ← ask (fun d => first_by older_publication (stored_rows (preserves a repository) d));
  match kept with
  | Some b => mret b
  | None => b ← create (new_publication a assignment (GitTarget repository ("refs/horizon/preserved/" +:+ oid)%string None));
            check_target b ;; mret b
  end.

Definition report_publication (actor : Actor) (x : execution) (p : option uid) (now : instant) (k : publication_event) (repository : uid)
    (oid remote_ref : string) (code : option string) : M WorkerAnswer :=
  w ← (get (x_workspace_id x) : M workspace);
  refuse (negb (bool_decide (repository = w_repository_id w))) "scope_mismatch" 422 ;;
  refuse (negb (commit_valid oid)) "invalid_commit" 422 ;;
  project ← lift match p with Some q => Ok q | None => Err (RuntimeFailure "project") end;
  a ← preserve_commit (x_id x) p project (CommitContent repository oid);
  attach_artifact (x_assignment_id x) (ar_id a) ;;
  b ← preserve_publication (ar_id a) (x_assignment_id x) repository oid;
  b ← (if bool_decide (pb_status b = PubVerified) then mret b
       else match k with
            | Discovered => mret b
            | Verified =>
                refuse (negb (preservation_ref remote_ref)) "invalid_preservation_ref" 422 ;;
                b ← change (pb_id b) None (fun c => c <| pb_status := PubVerified |> <| pb_verified_at := Some now |>
                      <| pb_target := GitTarget repository remote_ref None |> <| pb_failure := None |>);
                check_target b ;; mret b
            | PublicationFailed =>
                change (pb_id b) None (fun c => c <| pb_status := PubFailed |> <| pb_failure := Some (publication_failure code) |>)
            end);
  _ ← emit (Some (actor_id actor)) p (publication_subject b) ["status"]%string None (Some (x_id x)) None;
  mret (AnsPublication (pb_id b) (pb_status b)).

(** ** The recovery gate of the local journal *)

Local Open Scope string_scope.
Local Open Scope Z_scope.

Definition newline : string := String (ascii_of_nat 10) EmptyString.
Definition quoted (s : string) : string := let q := String (ascii_of_nat 34) EmptyString in q +:+ s +:+ q.

Definition INTENTS : string := "agent-intent-reconciliation".

Definition journal_blocker (a : uid) (o : obligation) : bool :=
  bool_decide (o_assignment_id o = a) && present (o_created_by_execution_id o)
  && starts_with JOURNAL_BLOCKER_PREFIX (o_description o).

Definition journal_superseded (blocker : uid) : Resolution :=
  Superseded "The host tracks this journal in one stable recovery obligation." [blocker].

Definition journal_confirmed : Resolution :=
  Completed "The owning host replayed the local API journal and confirmed that no pending or rejected intents remain." [].

Section events.
Context (observe : DB -> assignment -> instant -> expr -> result Evaluation) (uniform : Z -> Z -> Z).
Context (digest : Frontier -> string) (hashtext : string -> Z) (array_text : list string -> string).
Context (template : string -> list (string * string) -> string) (config : Planner).
Context (put_json : string -> Blob) (input_json : RequestInput -> string).
Context (read_input : string -> option RequestInput) (read_manifest : string -> option ReviewManifest).
Context (uuid5 : uid -> string -> uid) (shlex_quote : string -> string).
Context (sha256 : string -> string) (normalize : string -> json -> string -> list UsageSample * list ChildObservation).
Context (display_event : string -> json -> option Display) (activity_identity : uid -> Display -> string -> uid).
Context (select_provider_event : string -> json -> option string).

Definition repair_command (key : string) : string :=
  "horizon-pipeline agent resolve-intent " +:+ shlex_quote key
  +:+ " --note " +:+ quoted "Describe the authoritative outcome and corrected operation or owner".

Definition intent_line (i : UnresolvedIntent) : string :=
  "- " +:+ (if ui_rejected i then "rejected" else "pending") +:+ ": " +:+ repair_command (ui_id i).

Definition blocker_text (state : option IntentReconciliation) : string :=
  JOURNAL_BLOCKER_PREFIX +:+ " with `horizon-pipeline agent pending`. "
  +:+ "Inspect the authoritative outcome before replaying an uncertain write. For each repaired, "
  +:+ "superseded or delegated intent, run its recovery_command: "
  +:+ "`horizon-pipeline agent resolve-intent INTENT_ID --note " +:+ quoted "Outcome, evidence, and corrected operation or owner" +:+ "`. "
  +:+ "Resolving this server obligation alone does not clear the local journal. "
  +:+ "The host will settle this blocker when its next replay confirms no unresolved intents."
  +:+ match state with
      | Some s =>
          match ir_intents s with
          | [] => ""
          | l => newline +:+ "Unresolved intents:" +:+ newline +:+ join newline (map intent_line l)
                 +:+ if Z.of_nat (List.length l) <? ir_pending s
                     then newline +:+ pretty (ir_pending s - Z.of_nat (List.length l)) +:+ " additional intents: inspect agent pending."
                     else ""
          end
      | None => ""
      end.

Definition blocker_id (a : uid) : uid := uuid5 a INTENTS.

Definition settle_blocker (to : obligation_status) (why : Resolution) (o : obligation) : M unit :=
  when (bool_decide (o_status o = ObOpen))
    (_ ← change (o_id o) None (fun b => b <| o_status := to |> <| o_resolution := Some why |>); mret tt).

Definition reconcile_agent_journal (x : execution) (state : option IntentReconciliation) (unresolved : bool) : M unit :=
  let a := x_assignment_id x in
  let i := blocker_id a in
  rows ← select (journal_blocker a);
  if unresolved then
    let text := blocker_text state in
    match List.find (fun o => bool_decide (o_id o = i)) rows with
    | None =>
        n ← next_number o_number (fun o => bool_decide (o_assignment_id o = a));
        _ ← create_with i (new_obligation {| oc_assignment_id := a; oc_created_by_execution_id := Some (x_id x); oc_kind := Contracts.Blocker;
                                             oc_description := text |} (Some (x_id x)) n);
        mret tt
    | Some o =>
        when (negb (bool_decide (o_status o = ObOpen)) || negb (bool_decide (o_description o = text)))
          (_ ← change i None (fun b => b <| o_status := ObOpen |> <| o_resolution := None |> <| o_description := text |>); mret tt)
    end ;;
    for_each (settle_blocker ObSuperseded (journal_superseded i)) (List.filter (fun o => negb (bool_decide (o_id o = i))) rows)
  else match state with
       | Some s => when (ir_pending s =? 0) (for_each (settle_blocker ObDone journal_confirmed) rows)
       | None => mret tt
       end.

(** ** Stop receipts *)

Definition active_primary (a : uid) (t : provider_thread) : bool :=
  bool_decide (t_assignment_id t = a) && is_primary t && mem (t_status t) [Creating; Available].

(** Evidence that the provider started in this context. *)
Definition launched (t x : uid) (q : provider_request) : bool :=
  bool_decide (q_provider_thread_id q = t)
  && (negb (bool_decide (q_execution_id q = x)) || present (q_started_at q) || present (q_provider_turn_id q)
      || mem (q_status q) [QCompleted; QFailed]).

Definition prelaunch_reason (why : option string) : bool :=
  mem why [Some "request_admission_not_acknowledged"%string; Some "execution_budget_reached"%string].

(** What the receipt says of the session's context. *)
Definition settle_context (x : execution) (status : outcome) (receipt : StopReceipt) : M unit :=
  found ← select (active_primary (x_assignment_id x));
  match found with
  | [] => mret tt
  | t :: _ =>
      match or_else (truthy (sr_provider_thread_id receipt)) (truthy (t_provider_thread_id t)) with
      | Some native =>
          refuse (match truthy (t_provider_thread_id t) with Some old => negb (bool_decide (native = old)) | None => false end)
                 "context_identity_changed" 422 ;;
          _ ← change (t_id t) None (fun u : provider_thread => u <| t_provider_thread_id := Some native |> <| t_status := Available |>);
          mret tt
      | None =>
          used ← any (fun q => bool_decide (q_provider_thread_id q = t_id t));
          started ← any (launched (t_id t) (x_id x));
          let prelaunch_abort := bool_decide (status = OYielded) && bool_decide (t_status t = Creating)
                                 && prelaunch_reason (sr_reason receipt) && negb started in
          when (negb (bool_decide (status = OSucceeded)) && used && negb prelaunch_abort)
            (_ ← change (t_id t) None (fun u : provider_thread => u <| t_status := Unavailable |>); mret tt)
      end
  end.

Definition newer_turn (q r : provider_request) : bool :=
  (q_created_at r <? q_created_at q) || ((q_created_at r =? q_created_at q) && (q_number r <=? q_number q)).

Definition primary_turn (d : DB) (x : uid) (q : provider_request) : bool :=
  bool_decide (q_execution_id q = x)
  && match tb_provider_thread d !! q_provider_thread_id q with Some t => is_primary t | None => false end.

(** The diagnostic that an older worker left out of the request. *)
Definition diagnose_request (actor : Actor) (x : execution) (p : option uid) (observed : instant) (f : Failure) : M unit :=
  latest ← ask (fun d => first_by newer_turn (stored_rows (primary_turn d (x_id x)) d));
  match latest with
  | Some q =>
      when (bool_decide (q_status q = QFailed) && negb (present (q_failure q)))
        (q' ← change (q_id q) None (fun r : provider_request => r <| q_failure := Some f |>);
         _ ← emit (Some (actor_id actor)) p (request_subject q') ["failure"%string] None (Some (x_id x)) None;
         _request_failure_activity actor x q' f observed p)
  | None => mret tt
  end.

Definition failed_outcome (status : outcome) (why : option string) : option Failure :=
  if mem status [OFailed; OLost] then
    let lost := bool_decide (status = OLost) in
    Some {| fail_kind := if lost then HostFailure else ExecutionFailure;
            fail_code := if lost then "host_lost" else "execution_failed";
            fail_message := String.substring 0 2000 (default "Provider execution did not complete" why);
            fail_diagnostic_artifact_id := None |}%string
  else None.

Definition expired_failure : Failure :=
  {| fail_kind := HostFailure; fail_code := "lease_expired"; fail_message := "Observed after execution lease expired";
     fail_diagnostic_artifact_id := None |}.

Definition stalled_failure : Failure :=
  {| fail_kind := ExecutionFailure; fail_code := "agent_intent_reconciliation_stalled";
     fail_message := "The same local API intents remain unresolved across recovery executions. Inspect agent pending, reconcile their authoritative outcomes, and use agent resolve-intent INTENT_ID --note "
       +:+ quoted "Outcome and evidence" +:+ " before resuming.";
     fail_diagnostic_artifact_id := None |}.

Definition interrupt (observed : instant) (q : provider_request) : provider_request :=
  q <| q_status := QInterrupted |> <| q_finished_at := Some observed |>.

(** Whether the unresolved intents have exhausted their observations. *)
Definition intents_stalled (a : assignment) (state : option IntentReconciliation) : M bool :=
  r ← (get (a_run_id a) : M run);
  let limit := max_no_progress_requests (r_retry_policy r) in
  match state with
  | Some s => mret (limit <=? ir_consecutive_observations s)
  | None => d ← ask id; lift (progress_stalled d (a_id a) (Z.to_nat limit))
  end.

(** What the receipt settles before the execution ends: the outcome, the failure, and whether the
    local journal keeps unresolved intents. *)
Definition judge_receipt (actor : Actor) (x : execution) (p : option uid) (observed : instant) (alive first_stop_receipt : bool)
    (status : outcome) (receipt : StopReceipt) : M (outcome * option Failure * bool) :=
  settle_context x status receipt ;;
  parse_failure (sr_failure receipt) ;;
  match sr_failure receipt with
  | Some f => when (first_stop_receipt && bool_decide (status = OFailed) && mem (fail_kind f) [ProviderFailure; TransportFailure])
                (diagnose_request actor x p observed f)
  | None => mret tt
  end ;;
  let failure := match sr_failure receipt with Some f => Some f | None => failed_outcome status (sr_reason receipt) end in
  let expired := negb alive && mem (x_status x) [XStarting; XRunning] in
  let '(status, failure) := if expired then (OLost, Some expired_failure) else (status, failure) in
  let state := sr_intent_reconciliation receipt in
  lift (guard (negb (opt_valid intent_reconciliation_valid state)) (ValidationError "intent_reconciliation")) ;;
  let unresolved := match state with
                    | Some s => negb (ir_pending s =? 0)
                    | None => bool_decide (sr_reason receipt = Some "agent_intents_require_reconciliation"%string)
                    end in
  stalled ← (if alive && (present state || unresolved) then
               reconcile_agent_journal x state unresolved ;;
               a ← (get (x_assignment_id x) : M assignment);
               if unresolved then intents_stalled a state else mret false
             else mret false);
  mret (if stalled : bool then (OFailed, Some stalled_failure, unresolved) else (status, failure, unresolved)).

Definition execution_finished (actor : Actor) (x : execution) (p : option uid) (now observed : instant) (receipt : StopReceipt)
    : M WorkerAnswer :=
  status ← lift match sr_status receipt with Some s => Ok s | None => Err (DomainError "invalid_outcome" 422) end;
  let first_stop_receipt := negb (present (x_stop_confirmed_at x)) in
  let alive := live x now in
  x ← (if first_stop_receipt then change (x_id x) None (fun y : execution => y <| x_stop_confirmed_at := Some now |>) else mret x);
  update_where (unsettled_of (x_id x)) (interrupt observed) ;;
  '(status, failure, unresolved) ← judge_receipt actor x p observed alive first_stop_receipt status receipt;
  a ← (get (x_assignment_id x) : M assignment);
  r ← (get (a_run_id a) : M run);
  (if is_objective r then mret tt else throw (RuntimeFailure "legacy run")) ;;
  row ← finish_objective observe uniform digest hashtext array_text template config actor x status failure unresolved (sr_reason receipt);
  update_where (open_claim (x_id x)) (fun c => c <| cl_released_at := Some observed |>) ;;
  mret (AnsAssignment (a_id row) (a_status row)).

(** ** Provider observations *)

Definition save (project : option uid) (text : string) (execution : uid) : M artifact :=
  p ← lift match project with Some p => Ok p | None => Err (RuntimeFailure "project") end;
  let b := put_json text in save_blob p (bl_sha256 b) (bl_size b) (bl_media_type b) (Some execution).

Definition new_request (t : provider_thread) (x : execution) (n : Z) (review : option (option uid * uid * uid)) (input : uid)
    (observed : instant) (i : uid) (now : instant) : provider_request :=
  {| q_id := i; q_created_at := now; q_updated_at := now; q_revision := 1; q_provider_thread_id := t_id t; q_execution_id := x_id x;
     q_number := n;
     q_reason := match review with
                 | Some _ => ForReview
                 | None => if present (truthy (t_provider_thread_id t)) then Continuation else ForAssignment
                 end;
     q_reviewer_descriptor_id := r ← review; r.1.1;
     q_reviewer_descriptor_revision_id := r ← review; Some r.1.2;
     q_guidance_manifest_artifact_id := r ← review; Some r.2;
     q_input_artifact_id := Some input; q_provider_turn_id := None; q_native_background := None; q_status := QSubmitted;
     q_submitted_at := Some observed; q_started_at := None; q_finished_at := None; q_failure := None |}.

Definition execution_agent (x : uid) (p : principal) : bool :=
  bool_decide (pr_execution_id p = Some x) && bool_decide (pr_kind p = Agent).

Definition request_started (actor : Actor) (x : execution) (p : option uid) (now observed : instant) (t : provider_thread)
    (request_id : uid) (input : RequestInput) : M WorkerAnswer :=
  refuse (negb (live x now)) "stale_epoch" 409 ;;
  w ← (get (x_workspace_id x) : M workspace);
  refuse (negb (bool_decide (w_status w = WReady))) "workspace_not_ready" 409 ;;
  refuse (negb (mem (t_status t) [Creating; Available])) "context_unavailable" 409 ;;
  refuse (blank (in_prompt input)) "invalid_input" 422 ;;
  a ← (get (x_assignment_id x) : M assignment);
  match in_mission_revision_id input with
  | Some i => pinned ← (get i : M record_revision);
              refuse (negb (bool_decide (rr_object_id pinned = stored Kmission (a_mission_id a)))) "scope_mismatch" 422
  | None => mret tt
  end ;;
  blob ← save p (input_json input) (x_id x);
  review ← assignment_request_fields read_manifest a;
  n ← next_number q_number (fun q => bool_decide (q_provider_thread_id q = t_id t));
  q ← create_with request_id (new_request t x n review (ar_id blob) observed);
  check_active q ;;
  _ ← emit (Some (actor_id actor)) p (request_subject q) ["status"] None (Some (x_id x)) None;
  when (present (q_reviewer_descriptor_id q))
    (agents ← select (execution_agent (x_id x));
     agent ← lift match agents with [g] => Ok g | _ => Err (RuntimeFailure "scalar_one") end;
     _ ← invocation_state read_manifest (pr_id agent) q "running" (uuid_str (q_id q) +:+ ":started");
     mret tt) ;;
  mret (AnsRequest (q_id q) None).

Definition terminal_request (q : provider_request) : bool := mem (q_status q) [QCompleted; QFailed; QInterrupted].

(** The revisions that the completed request consumed. *)
Definition apply_input (t : provider_thread) (input : RequestInput) : M unit :=
  match in_mission_revision_id input with
  | Some i =>
      incoming ← (get i : M record_revision);
      current ← match t_applied_mission_revision_id t with
                | Some j => previous ← (get j : M record_revision); mret (rr_object_revision previous <=? rr_object_revision incoming)
                | None => mret true
                end;
      when current (_ ← change (t_id t) None (fun u : provider_thread => u <| t_applied_mission_revision_id := Some i |>); mret tt)
  | None => mret tt
  end ;;
  match in_run_revision input with
  | Some n =>
      when (default 0 (t_applied_run_revision t) <=? n)
        (_ ← change (t_id t) None (fun u : provider_thread => u <| t_applied_run_revision := Some n |>
               <| t_applied_roadmap_snapshot_id := in_roadmap_snapshot_id input |>); mret tt)
  | None => mret tt
  end ;;
  _ ← reconcile_goal_updates (Some (t_id t));
  mret tt.

Definition stored_input (a : artifact) : result RequestInput :=
  match ar_content a with
  | BlobContent sha _ _ => match read_input sha with Some i => Ok i | None => Err (RuntimeFailure "blob") end
  | _ => Err (RuntimeFailure "sha256")
  end.

Definition request_completed (actor : Actor) (x : execution) (p : option uid) (observed : instant) (t : provider_thread)
    (request_id : uid) (reported : string) (given : option Failure) (native : option string) : M WorkerAnswer :=
  q ← (get request_id : M provider_request);
  refuse (negb (bool_decide (q_execution_id q = x_id x)) || negb (bool_decide (q_provider_thread_id q = t_id t))) "scope_mismatch" 422 ;;
  if terminal_request q then mret (AnsRequest (q_id q) (Some (q_status q)))
  else
    let status := if mem reported ["completed"; "succeeded"] then QCompleted else QFailed in
    let failure := if bool_decide (status = QFailed) then given else None in
    parse_failure failure ;;
    q ← change (q_id q) None (fun r : provider_request => r <| q_status := status |> <| q_finished_at := Some observed |>
          <| q_failure := failure |>);
    match truthy native with
    | Some i =>
        refuse (match truthy (t_provider_thread_id t) with Some old => negb (bool_decide (i = old)) | None => false end)
               "context_identity_changed" 422 ;;
        _ ← change (t_id t) None (fun u : provider_thread => u <| t_provider_thread_id := Some i |> <| t_status := Available |>);
        mret tt
    | None => mret tt
    end ;;
    match q_input_artifact_id q with
    | Some k => when (bool_decide (status = QCompleted))
                  (blob ← (get k : M artifact);
                   input ← lift (stored_input blob);
                   apply_input t input)
    | None => mret tt
    end ;;
    _ ← emit (Some (actor_id actor)) p (request_subject q) ["status"; "failure"] None (Some (x_id x)) None;
    match failure with
    | Some f => _request_failure_activity actor x q f observed p
    | None => mret tt
    end ;;
    mret (AnsRequest (q_id q) (Some status)).

(** The unique constraint of events on their source. *)
Definition same_source (source id : string) (e : event) : bool :=
  bool_decide (ev_source e = source) && bool_decide (ev_source_event_id e = Some id).

(** Native details are kept as evidence and never as commands: the event, and its body. *)
Definition keep_evidence (actor : Actor) (x : execution) (p : option uid) (observed : instant) (t : provider_thread)
    (operation body : string) : M (uid * uid) :=
  blob ← save p body (x_id x);
  let source := "host:" +:+ uuid_str (x_host_id x) in
  seen ← any (same_source source operation);
  if (seen : bool) then throw (RuntimeFailure "uq_event_source")
  else
    e ← create (fun i now =>
      {| ev_id := i; ev_created_at := now; ev_project_id := p; ev_subject_id := Some (stored Kprovider_thread (t_id t));
         ev_actor_principal_id := Some (actor_id actor); ev_execution_id := Some (x_id x); ev_schema_version := 1;
         ev_source := source; ev_source_event_id := Some operation; ev_occurred_at := observed;
         ev_payload := ProviderObservedEvent (t_id t) operation (ar_id blob) |});
    mret (ev_id e, ar_id blob).

(** The first event of a stream shows that the request runs; what it reports is projected, and the
    part of it that is public is kept as evidence. *)
Definition native_event (actor : Actor) (x : execution) (p : option uid) (observed : instant) (t : provider_thread) (operation : string)
    (request_id : uid) (adapter : string) (raw : json) : M WorkerAnswer :=
  q ← (get request_id : M provider_request);
  refuse (negb (bool_decide (q_execution_id q = x_id x)) || negb (bool_decide (q_provider_thread_id q = t_id t))) "scope_mismatch" 422 ;;
  when (mem (q_status q) [QPending; QSubmitted])
    (r ← change (q_id q) None (fun r : provider_request => r <| q_status := QRunning |>
           <| q_started_at := or_else (q_started_at q) (Some observed) |>);
     _ ← emit (Some (actor_id actor)) p (request_subject r) ["status"; "started_at"] None (Some (x_id x)) None;
     mret tt) ;;
  projected ← project_observation sha256 uuid5 normalize display_event activity_identity actor x t request_id adapter raw operation observed p;
  match select_provider_event adapter raw with
  | Some retained =>
      '(_, blob) ← keep_evidence actor x p observed t operation retained;
      match pj_activity_id projected with
      | Some a => modify (fun d => d <| tb_activity_artifact := {[(a, blob)]} ∪ tb_activity_artifact d |>)
      | None => mret tt
      end
  | None => mret tt
  end ;;
  mret (AnsProjection projected).

Definition provider_observed (actor : Actor) (x : execution) (p : option uid) (now observed : instant) (operation : string)
    (thread : option uid) (e : provider_event) : M WorkerAnswer :=
  i ← lift match thread with Some i => Ok i | None => Err (DomainError "missing_context" 422) end;
  t ← (get i : M provider_thread);
  refuse (negb (bool_decide (t_assignment_id t = x_assignment_id x))) "scope_mismatch" 422 ;;
  match e with
  | RequestStarted q input => request_started actor x p now observed t q input
  | RequestCompleted q status failure native => request_completed actor x p observed t q status failure native
  | NativeEvent q adapter raw => native_event actor x p observed t operation q adapter raw
  | OtherEvent body => '(e, _) ← keep_evidence actor x p observed t operation body; mret (AnsEvent e)
  end.

(** ** Activities *)

(** [normalize_skills]. *)
Definition normalize_skills (l : list string) : list string :=
  take 32 (sorted_set (map (String.substring 0 128) (List.filter (fun s => negb (bool_decide (s = ""))) (map strip l)))).

Definition report_activity (actor : Actor) (x : execution) (p : option uid) (observed : instant) (kind : option activity_kind)
    (summary : option string) (skills : list string) : M WorkerAnswer :=
  k ← lift match kind with Some k => Ok k | None => Err (DomainError "invalid_activity" 422) end;
  refuse (match summary with Some s => 16000 <? Z.of_nat (String.length s) | None => false end) "invalid_activity" 422 ;;
  a ← create (new_activity x None None k summary (normalize_skills skills) observed);
  _ ← emit (Some (actor_id actor)) p (activity_subject a) ["kind"; "summary"; "skills_used"] None (Some (x_id x)) None;
  mret (AnsActivity (ac_id a)).

(** ** [handle] *)

Definition handle (actor : Actor) (operation : WorkerOperation) : M WorkerAnswer :=
  x ← (get (wo_execution_id operation) : M execution);
  require_host actor (x_host_id x) ;;
  refuse (negb (x_number x =? wo_epoch operation)) "stale_epoch" 409 ;;
  p ← project_of Kexecution (x_id x);
  now ← ask db_now;
  let observed := wo_occurred_at operation in
  match wo_payload operation with
  | WorkspacePrepared fields => workspace_prepared actor x p now fields
  | PublicationReport k repository oid ref code => report_publication actor x p now k repository oid ref code
  | ExecutionFinished receipt => execution_finished actor x p now observed receipt
  | ProviderObserved thread e => provider_observed actor x p now observed (wo_operation_id operation) thread e
  | ActivityReport kind summary skills => report_activity actor x p observed kind summary skills
  end.
End events.
