(* ===== verification/WorkerReports.v ===== *)
(** * What worker events may do

    The theorems about [handle] (WorkerEvents.v): what a host can still change once its execution
    is fenced, that outcomes of provider requests are final, that a stop receipt frees the
    workspace, that a published commit is preserved, and that the input of a request is the one
    whose revisions are applied when it completes. *)

From S2P Require Import Prelude Contracts WorkerContracts ReviewContracts Conditions Schema Records Auth Samples MissionTree Missions Ledger Usage Capacity Sessions Assignments Settlement Runs Workspaces Labels Objectives Phases Launch Leases Panel Decisions Packets Invocations ProviderEvents ObservationSafety WorkerEvents.

(** ** Fenced executions *)

(** What the work in progress rests on. *)
Definition work_part (d : DB) :=
  (tb_assignment d, tb_workspace d, tb_run d, tb_mission d, tb_obligation d, tb_automation d, tb_credential d).

(** No request appears. *)
Definition no_new_request (d d' : DB) : Prop :=
  forall i, tb_provider_request d !! i = None -> tb_provider_request d' !! i = None.

(** Claims are only released. *)
Definition claims_released (d d' : DB) : Prop :=
  forall i, match tb_resource_claim d' !! i, tb_resource_claim d !! i with
            | None, None => True
            | Some c', Some c => c' = c \/ present (cl_released_at c') = true /\ cl_execution_id c' = cl_execution_id c
            | _, _ => False
            end.

#[export] Instance claims_released_preorder : PreOrder claims_released.
Proof.
  split; [intros d i; destruct (tb_resource_claim d !! i); [by left|done]|]. intros d1 d2 d3 H12 H23 i. specialize (H12 i). specialize (H23 i).
  destruct (tb_resource_claim d1 !! i), (tb_resource_claim d2 !! i), (tb_resource_claim d3 !! i); try done.
  destruct H12 as [->|[? E]], H23 as [->|[? E']]; auto. right. split; [done|congruence].
Qed.

Definition evidence_only (d d' : DB) : Prop :=
  work_part d' = work_part d /\ no_new_request d d' /\ tb_usage_record d' = tb_usage_record d /\ claims_released d d'.

#[export] Instance evidence_only_preorder : PreOrder evidence_only.
Proof.
  unfold evidence_only, no_new_request. split; [by intros d; split_and!|]. intros d1 d2 d3 (E1 & N1 & U1 & C1) (E2 & N2 & U2 & C2).
  split; [congruence|]. split; [auto|]. split; [congruence|]. by etrans.
Qed.

Lemma claims_same d d' : tb_resource_claim d' = tb_resource_claim d -> claims_released d d'.
Proof. intros C i. rewrite C. destruct (tb_resource_claim d !! i); [by left|done]. Qed.

Lemma evidence_same d d' :
  (work_part d', tb_provider_request d', tb_usage_record d', tb_resource_claim d')
  = (work_part d, tb_provider_request d, tb_usage_record d, tb_resource_claim d) -> evidence_only d d'.
Proof.
  unfold work_part. intros E. injection E as ??????? Q U C. split; [unfold work_part; congruence|]. split; [intros i; by rewrite Q|]. split; [done|].
  by apply claims_same.
Qed.

#[export] Hint Extern 0 (Quiet evidence_only _) => (split; intros; apply evidence_same; reflexivity) : typeclass_instances.
#[export] Hint Extern 1 (Keeps evidence_only (modify _)) => (apply keeps_modify; intros; apply evidence_same; reflexivity) : frame.

Lemma keeps_change_request_evidence i e f : Keeps evidence_only (change i e f : M provider_request).
Proof.
  intros d q d' (r & Hr & _ & _ & ->)%change_Ok. split; [done|]. split; [|split; [done|by apply claims_same]]. intros j Hj. cbn in *.
  rewrite lookup_insert_ne; [done|]. intros ->. congruence.
Qed.
#[export] Hint Resolve keeps_change_request_evidence : frame.

Lemma keeps_update_requests_evidence (p : provider_request -> bool) f : Keeps evidence_only (update_where p f).
Proof.
  intros d u d' ->%update_where_Ok. split; [done|]. split; [|split; [done|by apply claims_same]]. intros j Hj. cbn in *. by rewrite lookup_fmap, Hj.
Qed.
#[export] Hint Resolve keeps_update_requests_evidence : frame.

Lemma keeps_release_evidence (p : resource_claim -> bool) t : Keeps evidence_only (update_where p (fun c => c <| cl_released_at := Some t |>)).
Proof.
  intros d u d' ->%update_where_Ok. split; [done|]. split; [by intros i|]. split; [done|]. intros i. cbn. rewrite lookup_fmap.
  destruct (tb_resource_claim d !! i) as [c|]; cbn; [|done]. destruct (p c); [by right|by left].
Qed.
#[export] Hint Extern 0 (Keeps evidence_only (update_where _ _)) => (apply keeps_release_evidence) : frame.

Lemma keeps_goal_updates_evidence t : Keeps evidence_only (reconcile_goal_updates t).
Proof. unfold reconcile_goal_updates. frame. Qed.
#[export] Hint Resolve keeps_goal_updates_evidence : frame.

(** [evidence H]: the first step of [H] only adds evidence. *)
Ltac evidence H :=
  let a := fresh in let d := fresh in let Hx := fresh in
  apply bind_Ok in H as (a & d & Hx & H);
  lazymatch type of Hx with
  | ?m _ = Ok _ => let K := fresh in assert (Keeps evidence_only m) as K by frame; apply K in Hx; clear K;
                   etrans; [exact Hx|]; clear Hx
  end.

Section fenced.
Context (observe : DB -> assignment -> instant -> expr -> result Evaluation) (uniform : Z -> Z -> Z).
Context (digest : Frontier -> string) (hashtext : string -> Z) (array_text : list string -> string).
Context (template : string -> list (string * string) -> string) (config : Planner).
Context (put_json : string -> Blob) (input_json : RequestInput -> string).
Context (read_input : string -> option RequestInput) (read_manifest : string -> option ReviewManifest).
Context (uuid5 : uid -> string -> uid) (shlex_quote : string -> string).
Context (sha256 : string -> string) (normalize : string -> json -> string -> list UsageSample * list ChildObservation).
Context (display_event : string -> json -> option Display) (activity_identity : uid -> Display -> string -> uid).
Context (select_provider_event : string -> json -> option string).

Abbreviation handle := (handle observe uniform digest hashtext array_text template config put_json input_json read_input read_manifest
  uuid5 shlex_quote sha256 normalize display_event activity_identity select_provider_event).
Abbreviation execution_finished := (execution_finished observe uniform digest hashtext array_text template config uuid5 shlex_quote).
Abbreviation request_completed := (request_completed read_input).
Abbreviation request_started := (request_started put_json input_json read_manifest).
Abbreviation native_event := (native_event put_json uuid5 sha256 normalize display_event activity_identity select_provider_event).
Abbreviation provider_observed := (provider_observed put_json input_json read_input read_manifest uuid5 sha256 normalize display_event
  activity_identity select_provider_event).
Abbreviation finish_objective := (finish_objective observe uniform digest hashtext array_text template config).

Lemma finish_settled actor x status failure jp why d row d' :
  finish_objective actor x status failure jp why d = Ok (row, d') -> live_status x = false -> d' = d.
Proof.
  unfold Leases.finish_objective. intros H Hl. skip H. skip H. skip H. skip H. rewrite Hl in H. by apply ret_Ok in H as [_ ->].
Qed.

Lemma live_running x now : live x now = true -> live_status x = true.
Proof. unfold live, live_status. intros H. bools. by destruct (x_status x). Qed.

Lemma settle_context_evidence x status receipt : Keeps evidence_only (settle_context x status receipt).
Proof. unfold settle_context. frame. Qed.

Lemma diagnose_evidence actor x p observed f : Keeps evidence_only (diagnose_request actor x p observed f).
Proof. unfold diagnose_request, _request_failure_activity. frame. Qed.

Lemma report_publication_evidence actor x p now k q oid ref code : Keeps evidence_only (report_publication actor x p now k q oid ref code).
Proof. unfold report_publication, preserve_commit, preserve_publication, attach_artifact, check_target. frame. Qed.

Lemma request_completed_evidence actor x p observed t q s f n : Keeps evidence_only (request_completed actor x p observed t q s f n).
Proof. unfold WorkerEvents.request_completed, parse_failure, apply_input, _request_failure_activity. frame. Qed.

Lemma keep_evidence_evidence actor x p observed t o b : Keeps evidence_only (keep_evidence put_json actor x p observed t o b).
Proof. unfold keep_evidence, save, save_blob. frame. Qed.

Lemma report_activity_evidence actor x p observed k s l : Keeps evidence_only (report_activity actor x p observed k s l).
Proof. unfold report_activity. frame. Qed.
Hint Resolve settle_context_evidence diagnose_evidence report_publication_evidence request_completed_evidence
  keep_evidence_evidence report_activity_evidence : frame.

Definition executions_keyed (d : DB) : Prop := forall i x, tb_execution d !! i = Some x -> x_id x = i.

Lemma judge_evidence actor x p observed alive first status receipt :
  alive = false -> Keeps evidence_only (judge_receipt uuid5 shlex_quote actor x p observed alive first status receipt).
Proof. intros ->. unfold judge_receipt, parse_failure. cbn [negb andb]. frame. Qed.

Lemma execution_finished_evidence actor x p now observed receipt d ans d' :
  execution_finished actor x p now observed receipt d = Ok (ans, d') -> tb_execution d !! x_id x = Some x ->
  live_status x = false -> evidence_only d d'.
Proof.
  unfold WorkerEvents.execution_finished. intros H Hx Hl. skip H.
  assert (live x now = false) as Hn by (apply not_true_iff_false; intros Ht%live_running; congruence).
  apply bind_Ok in H as (x' & d1 & H1 & H).
  assert (live_status x' = false /\ evidence_only d d1) as [Hl' E1].
  { destruct (present (x_stop_confirmed_at x)); cbn in H1; [by apply ret_Ok in H1 as [-> ->]|].
    apply change_Ok in H1 as (y & Hy & _ & -> & ->). cbn in Hy. rewrite Hx in Hy. injection Hy as <-.
    split; [exact Hl|by apply evidence_same]. }
  etrans; [exact E1|]. clear E1. evidence H. apply bind_Ok in H as ([[st fl] un] & d2 & Hj & H).
  apply judge_evidence in Hj; [|done]. etrans; [exact Hj|]. evidence H. evidence H. evidence H.
  apply bind_Ok in H as (row & d9 & ->%finish_settled & H); [|exact Hl'].
  evidence H. by apply ret_Ok in H as [_ ->].
Qed.

Lemma handle_Ok actor o d ans d' :
  handle actor o d = Ok (ans, d') ->
  exists x p, tb_execution d !! wo_execution_id o = Some x /\ actor_kind actor = HostPrincipal /\ actor_host actor = Some (x_host_id x)
    /\ x_number x = wo_epoch o
    /\ match wo_payload o with
       | WorkspacePrepared fields => workspace_prepared actor x p (db_now d) fields
       | PublicationReport k repository oid ref code => report_publication actor x p (db_now d) k repository oid ref code
       | ExecutionFinished receipt => execution_finished actor x p (db_now d) (wo_occurred_at o) receipt
       | ProviderObserved thread e => provider_observed actor x p (db_now d) (wo_occurred_at o) (wo_operation_id o) thread e
       | ActivityReport kind summary skills => report_activity actor x p (wo_occurred_at o) kind summary skills
       end d = Ok (ans, d').
Proof.
  unfold WorkerEvents.handle. intros H. apply bind_Ok in H as (x & ? & [Hx ->]%get_Ok & H).
  apply bind_Ok in H as (? & ? & [Hh ->]%refuse_Ok & H). apply bind_Ok in H as (? & ? & [He ->]%refuse_Ok & H).
  apply bind_Ok in H as (p & ? & Hp & H). apply project_of_reads in Hp as ->. apply bind_Ok in H as (now & ? & [-> ->]%ask_Ok & H).
  exists x, p. bools. naive_solver.
Qed.

(** A native event leaves what the work rests on as it is, and only observed requests appear. *)
Lemma native_event_work actor x p observed t operation i adapter raw : Frame work_part (native_event actor x p observed t operation i adapter raw).
Proof.
  unfold WorkerEvents.native_event, keep_evidence, save, save_blob. frame.
  intros d r d' H%keeps_authority. injection H as ????????????. unfold same_part, work_part. congruence.
Qed.

Lemma native_event_advances actor x p observed t operation i adapter raw :
  Keeps (advances (x_id x)) (native_event actor x p observed t operation i adapter raw).
Proof.
  intros d ans d' H. apply advances_when_ok. intros Hd. unfold WorkerEvents.native_event in H.
  apply bind_Ok in H as (q & ? & [Hq ->]%get_Ok & H). skip H. cbn in Hq. apply bind_Ok in H as (? & d1 & E1 & H). transitivity d1.
  - unfold when in E1. destruct (mem (q_status q) _) eqn:Es; [|apply ret_Ok in E1 as [_ ->]; done].
    apply bind_Ok in E1 as (r & d2 & E2 & E1). destruct (Hd _ _ Hq) as [Hi _]. rewrite <- Hi in Hq.
    eapply (advances_change (x_id x)) in E2 as [A _]; [|exact Hq|]; [|split; try done; intros He; unfold ended in He; by destruct (q_status q)].
    etrans; [exact A|]. by within (advances (x_id x)) E1.
  - unfold keep_evidence, save, save_blob in H. by within (advances (x_id x)) H.
Qed.

Definition late_native (o : WorkerOperation) : bool :=
  match wo_payload o with ProviderObserved _ (NativeEvent _ _ _) => true | _ => false end.

(** C31. A fenced execution cannot touch the work.  A report is accepted only from the execution's own
    host and for its own epoch.  Once the execution has ended, whatever the host reports leaves the
    sessions, workspaces, runs, missions, obligations, automations and credentials as they are, and no
    provider request is recorded but the children that a late native event shows, which are
    continuations without a reviewer or an input.  Any other late report also leaves the usage
    records as they are, adds no claim on a resource, and changes a claim only by releasing it.  Late
    reports may still settle requests, update the conversations of the session (a stop receipt marks a
    primary context unavailable) and record evidence; a late native event may also account usage and
    claims of the children it shows. *)
Theorem fenced_reports_leave_work actor o d ans d' :
  handle actor o d = Ok (ans, d') -> executions_keyed d -> requests_ok d ->
  exists x, tb_execution d !! wo_execution_id o = Some x /\ x_number x = wo_epoch o
    /\ actor_kind actor = HostPrincipal /\ actor_host actor = Some (x_host_id x)
    /\ (live_status x = false -> work_part d' = work_part d
         /\ (forall i q, tb_provider_request d' !! i = Some q -> tb_provider_request d !! i = None -> late_native o = true /\ plain (x_id x) q)
         /\ (late_native o = false -> tb_usage_record d' = tb_usage_record d /\ claims_released d d')).
Proof.
  intros (x & p & Hx & Hk & Hh & He & H)%handle_Ok Hw Hr. exists x. do 4 (split; [done|]). intros Hl.
  assert (live x (db_now d) = false) as Hn by (apply not_true_iff_false; intros Ht%live_running; congruence).
  enough (evidence_only d d' \/ late_native o = true /\ work_part d' = work_part d /\ advances (x_id x) d d') as [(E & N & U & C)|(L & E & A)].
  { split; [done|]. split; [|done]. intros i q Hq Hi. by rewrite (N i Hi) in Hq. }
  { split; [done|]. split; [|by rewrite L]. destruct (A Hr) as [_ [_ N]]. intros i q Hq Hi. split; [done|by eapply N]. }
  unfold late_native. destruct (wo_payload o) as [fields|k q oid ref code|receipt|thread e|kind summary skills].
  - unfold workspace_prepared in H. rewrite Hn in H. by apply bind_Ok in H as (? & ? & [? _]%refuse_Ok & _).
  - left. by apply report_publication_evidence in H.
  - left. eapply execution_finished_evidence; [exact H| |exact Hl]. by rewrite (Hw _ _ Hx).
  - unfold WorkerEvents.provider_observed in H. skip H. skip H. skip H. destruct e as [i input|i s f n|i adapter raw|body].
    + unfold WorkerEvents.request_started in H. rewrite Hn in H. by apply bind_Ok in H as (? & ? & [? _]%refuse_Ok & _).
    + left. by apply request_completed_evidence in H.
    + right. split; [done|]. split; [by apply native_event_work in H|by apply native_event_advances in H].
    + left. by within evidence_only H.
  - left. by apply report_activity_evidence in H.
Qed.

(** ** Terminal requests *)

(** A request that has ended keeps its outcome. *)
Definition outcomes_stay (d d' : DB) : Prop :=
  requests_ok d ->
  requests_ok d' /\ forall i q, tb_provider_request d !! i = Some q -> terminal_request q = true ->
       exists q', tb_provider_request d' !! i = Some q' /\ q_status q' = q_status q /\ q_finished_at q' = q_finished_at q.

Global Instance outcomes_stay_preorder : PreOrder outcomes_stay.
Proof.
  split.
  - intros d Hk. split; [done|]. intros i q Hq _. by exists q.
  - intros d1 d2 d3 H1 H2 Hk. destruct (H1 Hk) as [K2 S2]. destruct (H2 K2) as [K3 S3]. split; [done|].
    intros i q Hq Ht. destruct (S2 i q Hq Ht) as (q2 & Hq2 & E2 & F2).
    destruct (S3 i q2 Hq2) as (q3 & Hq3 & E3 & F3); [unfold terminal_request in *; by rewrite E2|].
    exists q3. split; [done|]. split; congruence.
Qed.

(** Observed requests keep their outcomes. *)
Lemma advances_outcomes y d d' : advances y d d' -> outcomes_stay d d'.
Proof.
  intros A Hd. destruct (A Hd) as [Hd' [K _]]. split; [done|]. intros i q Hq Ht. destruct (K _ _ Hq) as (q' & Hq' & E).
  exists q'. split; [done|]. by apply (ev_outcome _ _ E).
Qed.

Lemma outcomes_same d d' : tb_provider_request d' = tb_provider_request d -> (db_next d <= db_next d')%positive -> outcomes_stay d d'.
Proof. intros E L. eapply (advances_outcomes 1), observed_same; done. Qed.

Hint Extern 0 (Quiet outcomes_stay _) => (split; (intros ??; apply outcomes_same; [reflexivity|cbn; lia])) : typeclass_instances.
Hint Extern 1 (Keeps outcomes_stay (modify _)) => (apply keeps_modify; intros ?; apply outcomes_same; [reflexivity|cbn; lia]) : frame.

Lemma outcomes_update p f :
  (forall q, p q = true -> terminal_request q = false) -> (forall q, q_id (f q) = q_id q) ->
  Keeps outcomes_stay (update_where p f).
Proof.
  intros Hp Hf d u d' ->%update_where_Ok Hk. cbn. split.
  - intros i q. cbn. rewrite lookup_fmap. intros (q0 & Hq & ->)%fmap_Some. destruct (p q0); [cbn; rewrite Hf|]; by apply Hk.
  - intros i q Hq Ht. rewrite lookup_fmap, Hq. exists q. cbn. destruct (p q) eqn:E; [|done]. by rewrite Hp in Ht.
Qed.

Lemma outcomes_change i f d q d' :
  change i None f d = Ok (q, d') ->
  (forall q, q_id (f q) = q_id q) ->
  (forall q, tb_provider_request d !! i = Some q -> terminal_request q = true -> q_status (f q) = q_status q /\ q_finished_at (f q) = q_finished_at q) ->
  outcomes_stay d d'.
Proof.
  intros (r & Hr & _ & -> & ->)%change_Ok Hi Hf Hk. cbn in *. split.
  - intros j q. cbn. intros [[<- <-]|[_ Hj]]%lookup_insert_Some; [cbn; rewrite Hi|]; by apply Hk.
  - intros j q Hq Ht. destruct (decide (i = j)) as [<-|Hne].
    + rewrite lookup_insert_eq. rewrite Hr in Hq. injection Hq as <-. eexists. split; [done|]. by apply Hf.
    + rewrite lookup_insert_ne by done. by exists q.
Qed.

Lemma interrupt_outcomes x observed : Keeps outcomes_stay (update_where (unsettled_of x) (interrupt observed)).
Proof.
  apply outcomes_update; [|done]. intros q. unfold unsettled_of, unsettled_request, terminal_request. intros H. bools.
  by destruct (q_status q).
Qed.

Lemma settle_context_outcomes x status receipt : Keeps outcomes_stay (settle_context x status receipt).
Proof. unfold settle_context. frame. Qed.

Lemma diagnose_outcomes actor x p observed f : Keeps outcomes_stay (diagnose_request actor x p observed f).
Proof.
  unfold diagnose_request. apply keeps_bind; [typeclasses eauto|frame|]. intros [q|]; [|frame]. unfold when.
  destruct (_ && _); [|frame]. apply keeps_bind; [typeclasses eauto| |intros q'; unfold _request_failure_activity; frame].
  intros d q' d' H. eapply outcomes_change; [exact H|done|done].
Qed.

Lemma journal_outcomes x state u : Keeps outcomes_stay (reconcile_agent_journal uuid5 shlex_quote x state u).
Proof.
  unfold reconcile_agent_journal, settle_blocker. frame. intros d o d'. unfold create_with. destruct (rows d !! _); [done|].
  intros [= <- <-]. apply outcomes_same; [done|cbn; lia].
Qed.

Lemma finish_requests actor x status failure jp why : Keeps (grows tb_provider_request) (finish_objective actor x status failure jp why).
Proof.
  unfold Leases.finish_objective, settle_accounts, penalize, absolve, completed, planner_of, frontier, ensure_successor, child_mission,
    parse_mission, system_actor. frame.
Qed.

Lemma finish_outcomes actor x status failure jp why : Keeps outcomes_stay (finish_objective actor x status failure jp why).
Proof. intros d a d' [H L]%finish_requests. by apply outcomes_same. Qed.
Hint Resolve interrupt_outcomes settle_context_outcomes diagnose_outcomes journal_outcomes finish_outcomes : frame.

Lemma execution_finished_outcomes actor x p now observed receipt : Keeps outcomes_stay (execution_finished actor x p now observed receipt).
Proof. unfold WorkerEvents.execution_finished, judge_receipt, parse_failure, intents_stalled. frame. Qed.

Lemma create_request_outcomes i v :
  (forall now, q_id (v i now) = i) -> Keeps outcomes_stay (create_with i v : M provider_request).
Proof.
  intros Hv d q d'. unfold create_with. cbn. destruct (tb_provider_request d !! i) eqn:E; [done|]. intros [= <- <-] Hk. cbn. split.
  - intros j q. cbn. intros [[<- <-]|[_ Hj]]%lookup_insert_Some; [split; [apply Hv|lia]|]. destruct (Hk _ _ Hj). split; [done|lia].
  - intros j q Hq _. exists q. rewrite lookup_insert_ne; [done|]. intros ->. congruence.
Qed.

Lemma request_started_outcomes actor x p now observed t i input : Keeps outcomes_stay (request_started actor x p now observed t i input).
Proof.
  unfold WorkerEvents.request_started, save, save_blob. frame. by apply create_request_outcomes.
Qed.

Lemma request_completed_outcomes actor x p observed t i s f n : Keeps outcomes_stay (request_completed actor x p observed t i s f n).
Proof.
  unfold WorkerEvents.request_completed. intros d ans d' H. apply bind_Ok in H as (q & ? & [Hq ->]%get_Ok & H). skip H.
  destruct (terminal_request q) eqn:Et; [by apply ret_Ok in H as [_ ->]|]. unfold parse_failure in H. skip H.
  apply bind_Ok in H as (q' & d1 & Hch & H). transitivity d1.
  - intros Hk. eapply outcomes_change; [exact Hch|done| |done]. cbn in Hq. destruct (Hk _ _ Hq) as [-> _]. rewrite Hq. intros q0 [= <-]. congruence.
  - unfold apply_input, _request_failure_activity, reconcile_goal_updates in H. by within outcomes_stay H.
Qed.

Lemma native_event_outcomes actor x p observed t operation i adapter raw :
  Keeps outcomes_stay (native_event actor x p observed t operation i adapter raw).
Proof. intros d a d' H%native_event_advances. by eapply advances_outcomes. Qed.
Hint Resolve request_started_outcomes request_completed_outcomes execution_finished_outcomes native_event_outcomes : frame.

Lemma handle_outcomes actor o : Keeps outcomes_stay (handle actor o).
Proof.
  unfold WorkerEvents.handle, workspace_prepared, report_publication, preserve_commit, preserve_publication, attach_artifact,
    check_target, WorkerEvents.provider_observed, keep_evidence,
    save, save_blob, report_activity, require_host. frame.
Qed.

(** A provider request that has completed, failed or been interrupted keeps its outcome and its
    date, over any sequence of reports of the hosts, native events and replayed and late reports included. *)
Theorem request_outcomes_final d d' i q :
  rtc (fun d d' => exists actor o ans, handle actor o d = Ok (ans, d')) d d' ->
  requests_ok d -> tb_provider_request d !! i = Some q -> terminal_request q = true ->
  exists q', tb_provider_request d' !! i = Some q' /\ q_status q' = q_status q /\ q_finished_at q' = q_finished_at q.
Proof.
  intros Hs Hk Hq Ht. enough (outcomes_stay d d') as H by (destruct (H Hk) as [_ S]; by eapply S).
  clear Hk Hq. induction Hs as [d|d1 d2 d3 (actor & o & ans & H) _ IH]; [done|]. transitivity d2; [by eapply handle_outcomes|done].
Qed.

(** ** Stop receipts *)

(** No request of the execution is in flight. *)
Definition idle (x : uid) (d : DB) : Prop := forall j q, tb_provider_request d !! j = Some q -> unsettled_of x q = false.

(** Steps between the confirmation of the stop and the end of the execution. *)
Definition settling (x : uid) (d d' : DB) : Prop := tb_execution d' = tb_execution d /\ (idle x d -> idle x d').

Global Instance settling_preorder x : PreOrder (settling x).
Proof. unfold settling. split; [done|]. intros d1 d2 d3 [E1 H1] [E2 H2]. split; [congruence|auto]. Qed.

Lemma settling_same x d d' :
  tb_execution d' = tb_execution d -> tb_provider_request d' = tb_provider_request d -> settling x d d'.
Proof. intros E Q. split; [done|]. unfold idle. by rewrite Q. Qed.

Hint Extern 0 (Quiet (settling _) _) => (split; intros; apply settling_same; reflexivity) : typeclass_instances.
Hint Extern 1 (Keeps (settling _) (modify _)) => (apply keeps_modify; intros; apply settling_same; reflexivity) : frame.

Lemma settle_context_settling i x status receipt : Keeps (settling i) (settle_context x status receipt).
Proof. unfold settle_context. frame. Qed.

Lemma diagnose_settling i actor x p observed f : Keeps (settling i) (diagnose_request actor x p observed f).
Proof.
  unfold diagnose_request. apply keeps_bind; [typeclasses eauto|frame|]. intros [q|]; [|frame]. unfold when.
  destruct (_ && _); [|frame]. apply keeps_bind; [typeclasses eauto| |intros q'; unfold _request_failure_activity; frame].
  intros d q' d' (r & Hr & _ & -> & ->)%change_Ok. split; [done|]. intros Hi j q0. cbn. intros [[<- <-]|[_ Hj]]%lookup_insert_Some.
  - exact (Hi _ _ Hr).
  - by eapply Hi.
Qed.

Lemma journal_settling i x state u : Keeps (settling i) (reconcile_agent_journal uuid5 shlex_quote x state u).
Proof.
  unfold reconcile_agent_journal, settle_blocker. frame. intros d o d'. unfold create_with. destruct (rows d !! _); [done|].
  intros [= <- <-]. by apply settling_same.
Qed.
Hint Resolve settle_context_settling diagnose_settling journal_settling : frame.

Lemma stop_receipt_spec actor x p now observed receipt d ans d' :
  execution_finished actor x p now observed receipt d = Ok (ans, d') -> tb_execution d !! x_id x = Some x ->
  exists y, tb_execution d' = <[x_id x := y]> (tb_execution d) /\ live_status y = false /\ present (x_stop_confirmed_at y) = true
    /\ x_id y = x_id x /\ idle (x_id x) d'
    /\ forall j c, tb_resource_claim d' !! j = Some c -> open_claim (x_id x) c = false.
Proof.
  unfold WorkerEvents.execution_finished. intros H Hx. skip H. apply bind_Ok in H as (x' & d1 & Hch & H).
  assert (x_id x' = x_id x /\ present (x_stop_confirmed_at x') = true /\ tb_execution d1 = <[x_id x := x']> (tb_execution d)) as (Hi & Hc & E1).
  { destruct (present (x_stop_confirmed_at x)) eqn:E; cbn in Hch.
    - apply ret_Ok in Hch as [-> ->]. split; [done|]. split; [done|]. by rewrite insert_id.
    - apply change_Ok in Hch as (y & Hy & _ & -> & ->). cbn in Hy. rewrite Hx in Hy. by injection Hy as <-. }
  apply bind_Ok in H as (? & d2 & Hu%update_where_Ok & H).
  assert (tb_execution d2 = tb_execution d1 /\ idle (x_id x) d2) as [E2 Hid].
  { subst d2. split; [done|]. intros j q. cbn. rewrite lookup_fmap. intros (q0 & _ & ->)%fmap_Some. rewrite Hi.
    destruct (unsettled_of (x_id x) q0) eqn:E; [|done]. unfold unsettled_of, unsettled_request. cbn. by rewrite andb_false_r. }
  apply bind_Ok in H as ([[st fl] un] & d3 & Hj & H). unfold judge_receipt, parse_failure, intents_stalled in Hj. within (settling (x_id x)) Hj.
  destruct Hj as [E3 I3]. skip H. skip H. skip H. apply bind_Ok in H as (row & d4 & Hf & H).
  pose proof (finish_requests _ _ _ _ _ _ _ _ _ Hf) as [Q4 _].
  assert (exists y, tb_execution d4 = <[x_id x := y]> (tb_execution d) /\ live_status y = false
    /\ present (x_stop_confirmed_at y) = true /\ x_id y = x_id x) as (y & Ey & Hl & Hp & Hy).
  { destruct (live_status x') eqn:El.
    - apply finish_objective_spec in Hf as (y & Hl & _ & _ & Hy & Hs & Ef); [|done|by rewrite E3, E2, E1, Hi, lookup_insert_eq].
      injection Ef as Ex _ _ _. exists y. rewrite Ex, E3, E2, E1, Hi, insert_insert_eq. split; [done|]. split; [done|].
      split; [rewrite Hs; unfold confirms; by rewrite Hc, orb_true_r|congruence].
    - apply finish_settled in Hf as ->; [|done]. exists x'. by rewrite E3, E2, E1. }
  apply bind_Ok in H as (? & d5 & Hr%update_where_Ok & [_ ->]%ret_Ok). exists y. subst d5. do 4 (split; [done|]). split.
  - intros j q. cbn. rewrite Q4. by apply I3.
  - intros j c. cbn. rewrite lookup_fmap. intros (c0 & _ & ->)%fmap_Some. rewrite Hi.
    destruct (open_claim (x_id x) c0) eqn:E; [|done]. unfold open_claim. cbn. by rewrite andb_false_r.
Qed.

(** A stop receipt frees the host: after it the execution has ended with a confirmed stop, none of
    its provider requests is in flight and it holds no resource, so it no longer counts as busy;
    the other executions are left as they were. *)
Theorem stop_receipt_frees actor o receipt d ans d' :
  wo_payload o = ExecutionFinished receipt -> handle actor o d = Ok (ans, d') -> executions_keyed d ->
  exists y, tb_execution d' = <[wo_execution_id o := y]> (tb_execution d) /\ execution_busy d' y = false
    /\ x_stop_confirmed_at y <> None
    /\ (forall j c, tb_resource_claim d' !! j = Some c -> cl_execution_id c = wo_execution_id o -> cl_released_at c <> None)
    /\ (forall j q, tb_provider_request d' !! j = Some q -> q_execution_id q = wo_execution_id o -> unsettled_request q = false).
Proof.
  intros Ho (x & p & Hx & _ & _ & _ & H)%handle_Ok Hk. rewrite Ho in H. pose proof (Hk _ _ Hx) as Hi.
  apply stop_receipt_spec in H as (y & E & Hl & Hp & Hy & Hid & Hc); [|by rewrite Hi]. rewrite Hi in *. exists y. split; [done|].
  assert (forall j q, tb_provider_request d' !! j = Some q -> q_execution_id q = wo_execution_id o -> unsettled_request q = false) as Hq.
  { intros j q Hj Hx'. specialize (Hid j q Hj). unfold unsettled_of in Hid. by rewrite bool_decide_true in Hid. }
  split; [|split; [by destruct (x_stop_confirmed_at y)|split; [|done]]].
  - unfold execution_busy. rewrite Hl. destruct (x_stop_confirmed_at y); [|done]. rewrite bool_decide_false by done. cbn.
    apply not_true_iff_false. intros (q & Hin & Hu)%existsb_true%Exists_exists.
    pose proof (elem_of_rows d' q) as [Hr _]. destruct (Hr Hin) as [j Hj]. bools.
    rewrite Hy in *. by rewrite (Hq j q) in Hu.
  - intros j c Hj Hx'. specialize (Hc j c Hj). unfold open_claim in Hc. rewrite bool_decide_true in Hc by done. by destruct (cl_released_at c).
Qed.

(** ** Publications *)

(** What a report leaves alone in the publications: those that are verified, and their keys. *)
Definition publications_keyed (d : DB) : Prop :=
  (forall i b, tb_publication d !! i = Some b -> pb_id b = i /\ (i < db_next d)%positive)
  /\ (forall i a, tb_artifact d !! i = Some a -> ar_id a = i /\ (i < db_next d)%positive).

Lemma preserve_commit_Ok (x project : uid) p content d a d' :
  preserve_commit x p project content d = Ok (a, d') -> publications_keyed d ->
  ar_content a = content /\ tb_artifact d' !! ar_id a = Some a /\ tb_publication d' = tb_publication d /\ publications_keyed d'.
Proof.
  unfold preserve_commit. intros H [Hp Ha]. apply bind_Ok in H as (found & ? & [-> ->]%select_Ok & H).
  destruct (List.filter _ _) as [|a0 l] eqn:E.
  - unfold create in H. apply Ok_inj in H. injection H as <- <-. cbn. rewrite lookup_insert_eq. do 3 (split; [done|]). split; cbn.
    + intros i b [? ?]%Hp. split; [done|lia].
    + intros i a [[<- <-]|[_ [? ?]%Ha]]%lookup_insert_Some; split; try done; lia.
  - apply ret_Ok in H as [-> ->]. assert (a0 ∈ a0 :: l) as Hin by left. rewrite <- E in Hin. apply elem_of_select in Hin as [Hs [i Hi]].
    unfold same_commit in Hs. bools. destruct (Ha i a0 Hi) as [<- _]. done.
Qed.

Lemma preserve_publication_Ok (a assignment repository : uid) oid d b d' :
  preserve_publication a assignment repository oid d = Ok (b, d') -> publications_keyed d ->
  tb_publication d' !! pb_id b = Some b /\ preserves a repository b = true /\ tb_artifact d' = tb_artifact d
  /\ tb_assignment_artifact d' = tb_assignment_artifact d
  /\ (forall j c, tb_publication d !! j = Some c -> tb_publication d' !! j = Some c) /\ publications_keyed d'.
Proof.
  unfold preserve_publication. intros H [Hp Ha]. apply bind_Ok in H as (kept & ? & [-> ->]%ask_Ok & H). destruct (first_by _ _) as [b0|] eqn:E.
  - apply ret_Ok in H as [-> ->]. apply first_by_Some, elem_of_stored in E as [Hs [i Hi]]. destruct (Hp i b0 Hi) as [<- _]. done.
  - apply bind_Ok in H as (c & d1 & Hc & H). unfold check_target in H. skip H. apply ret_Ok in H as [-> ->].
    unfold create in Hc. apply Ok_inj in Hc. injection Hc as <- <-. cbn. rewrite lookup_insert_eq. split; [done|]. split.
    { unfold preserves. cbn. rewrite !bool_decide_true by done. done. }
    do 2 (split; [done|]). split; [|split].
    + intros j c Hj. rewrite lookup_insert_ne; [done|]. destruct (Hp j c Hj). lia.
    + cbn. intros i c [[<- <-]|[_ [? ?]%Hp]]%lookup_insert_Some; split; try done; lia.
    + cbn. intros i c [? ?]%Ha. split; [done|lia].
Qed.

(** Preserved work stays preserved.  A report of a commit leaves a publication of it to a
    preservation ref, attached to the session; a verified report leaves it verified.  A
    publication that is verified is never changed again, by a late failure either. *)
Theorem publication_preserved actor x p now k repository oid ref code d i s d' :
  report_publication actor x p now k repository oid ref code d = Ok (AnsPublication i s, d') -> publications_keyed d ->
  exists a b, tb_artifact d' !! ar_id a = Some a /\ ar_content a = CommitContent repository oid
    /\ is_Some (tb_assignment_artifact d' !! (x_assignment_id x, ar_id a))
    /\ tb_publication d' !! i = Some b /\ pb_status b = s /\ preserves (ar_id a) repository b = true
    /\ (k = Verified -> s = PubVerified)
    /\ (forall j c, tb_publication d !! j = Some c -> pb_status c = PubVerified -> tb_publication d' !! j = Some c).
Proof.
  unfold report_publication. intros H Hk. skip H. skip H. skip H. skip H.
  apply bind_Ok in H as (a & d1 & Hc & H). apply preserve_commit_Ok in Hc as (Hct & Ha & P1 & [Kp Ka]); [|done].
  apply bind_Ok in H as (? & d2 & ->%modify_Ok & H). apply bind_Ok in H as (b & d3 & Hb & H).
  apply preserve_publication_Ok in Hb as (Hb & Hpr & A3 & L3 & M3 & [Kp3 _]); [|by split]. cbn in A3, L3, M3. rewrite P1 in M3.
  apply bind_Ok in H as (b' & d4 & H4 & H). apply bind_Ok in H as (? & d5 & H5 & [[= -> ->] ->]%ret_Ok).
  leaves (fun d => (tb_artifact d, tb_assignment_artifact d, tb_publication d)) H5. injection H5 as A5 L5 P5. rewrite A5, L5, P5. clear A5 L5 P5.
  exists a, b'.
  assert (tb_artifact d4 = tb_artifact d3 /\ tb_assignment_artifact d4 = tb_assignment_artifact d3
    /\ tb_publication d4 !! pb_id b' = Some b' /\ preserves (ar_id a) repository b' = true /\ (k = Verified -> pb_status b' = PubVerified)
    /\ forall j c, tb_publication d3 !! j = Some c -> pb_status c = PubVerified -> tb_publication d4 !! j = Some c)
    as (A4 & L4 & P4 & Hpr' & Hv & M4).
  { case_bool_decide as Ev; [by apply ret_Ok in H4 as [-> ->]|]. destruct k.
    - by apply ret_Ok in H4 as [-> ->].
    - apply bind_Ok in H4 as (? & ? & [Hr ->]%refuse_Ok & H4). apply bind_Ok in H4 as (b1 & d6 & (c & Hc & _ & E1 & E6)%change_Ok & H4).
      unfold check_target in H4. skip H4. apply ret_Ok in H4 as [-> ->]. cbn in Hc. rewrite Hb in Hc. injection Hc as <-. subst d6 b1. cbn.
      rewrite lookup_insert_eq. do 3 (split; [done|]). bools. split.
      { unfold preserves in *. cbn. bools. by rewrite !bool_decide_true, Hr. }
      split; [done|]. intros j c Hj Hs. rewrite lookup_insert_ne; [done|]. congruence.
    - apply change_Ok in H4 as (c & Hc & _ & E1 & E6). cbn in Hc. rewrite Hb in Hc. injection Hc as <-. subst d4 b'. cbn.
      rewrite lookup_insert_eq. do 5 (split; [done|]). intros j c Hj Hs. rewrite lookup_insert_ne; [done|]. congruence. }
  rewrite A4, A3, L4, L3. split; [done|]. split; [done|]. split; [by rewrite lookup_insert_eq|]. do 4 (split; [done|]).
  intros j c Hj Hs. apply M4; [by apply M3|done].
Qed.

(** ** The input of a request *)

(** The applied revisions after a request that consumed [input] completes. *)
Definition run_revision_after (t : provider_thread) (input : RequestInput) : option Z :=
  match in_run_revision input with
  | Some n => if default 0 (t_applied_run_revision t) <=? n then Some n else t_applied_run_revision t
  | None => t_applied_run_revision t
  end.

Definition object_revision (d : DB) (i : uid) : option Z := rr_object_revision <$> tb_record_revision d !! i.

Definition newer_revision (d : DB) (t : provider_thread) (i : uid) : bool :=
  match t_applied_mission_revision_id t with
  | Some j => match object_revision d j, object_revision d i with Some m, Some n => m <=? n | _, _ => false end
  | None => true
  end.

Lemma apply_input_Ok t input d u d' t0 :
  apply_input t input d = Ok (u, d') -> tb_provider_thread d !! t_id t = Some t0 ->
  t_applied_run_revision t0 = t_applied_run_revision t -> t_applied_mission_revision_id t0 = t_applied_mission_revision_id t ->
  exists t', tb_provider_thread d' !! t_id t = Some t'
    /\ t_applied_run_revision t' = run_revision_after t input
    /\ t_applied_mission_revision_id t' =
       match in_mission_revision_id input with
       | Some i => if newer_revision d t i then Some i else t_applied_mission_revision_id t
       | None => t_applied_mission_revision_id t
       end.
Proof.
  unfold apply_input. intros H Ht Hr Hm. apply bind_Ok in H as (? & d1 & H1 & H).
  assert (exists t1, tb_provider_thread d1 !! t_id t = Some t1 /\ t_applied_run_revision t1 = t_applied_run_revision t
    /\ t_applied_mission_revision_id t1 =
       match in_mission_revision_id input with
       | Some i => if newer_revision d t i then Some i else t_applied_mission_revision_id t
       | None => t_applied_mission_revision_id t
       end) as (t1 & Ht1 & Hr1 & Hm1).
  { destruct (in_mission_revision_id input) as [i|]; [|apply ret_Ok in H1 as [_ ->]; by exists t0].
    apply bind_Ok in H1 as (incoming & ? & [Hin ->]%get_Ok & H1). apply bind_Ok in H1 as (current & d0 & Hc & H1).
    assert (d0 = d /\ current = newer_revision d t i) as [-> ->].
    { unfold newer_revision, object_revision. destruct (t_applied_mission_revision_id t) as [j|]; [|by apply ret_Ok in Hc as [-> ->]].
      apply bind_Ok in Hc as (previous & ? & [Hp ->]%get_Ok & [-> ->]%ret_Ok). cbn in Hin, Hp. by rewrite Hin, Hp. }
    unfold when in H1. destruct (newer_revision d t i); [|apply ret_Ok in H1 as [_ ->]; by exists t0].
    apply bind_Ok in H1 as (t1 & d2 & (t2 & Ht2 & _ & -> & ->)%change_Ok & [_ ->]%ret_Ok). cbn in Ht2. rewrite Ht in Ht2.
    injection Ht2 as <-. eexists. cbn. rewrite lookup_insert_eq. by split. }
  apply bind_Ok in H as (? & d2 & H2 & H). apply bind_Ok in H as (? & d3 & H3 & [_ ->]%ret_Ok).
  unfold reconcile_goal_updates in H3. leaves tb_provider_thread H3. rewrite H3. unfold run_revision_after.
  destruct (in_run_revision input) as [n|]; [|apply ret_Ok in H2 as [_ ->]; by exists t1]. unfold when in H2.
  destruct (_ <=? n); [|apply ret_Ok in H2 as [_ ->]; by exists t1].
  apply bind_Ok in H2 as (t2 & d4 & (t3 & Ht3 & _ & -> & ->)%change_Ok & [_ ->]%ret_Ok). cbn in Ht3. rewrite Ht1 in Ht3.
  injection Ht3 as <-. eexists. cbn. rewrite lookup_insert_eq. by split.
Qed.

Definition artifacts_keyed (d : DB) : Prop := forall i a, tb_artifact d !! i = Some a -> ar_id a = i.

Lemma save_Ok p text x d a d' :
  save put_json p text x d = Ok (a, d') -> artifacts_keyed d ->
  tb_artifact d' !! ar_id a = Some a
  /\ exists size media, ar_content a = BlobContent (bl_sha256 (put_json text)) size media.
Proof.
  unfold save, save_blob. intros H Hk. skip H. apply bind_Ok in H as (found & ? & [-> ->]%select_Ok & H).
  destruct (List.filter _ _) as [|a0 l] eqn:E.
  - unfold create in H. apply Ok_inj in H. injection H as <- <-. cbn. rewrite lookup_insert_eq. by repeat eexists.
  - apply ret_Ok in H as [-> ->]. assert (a0 ∈ a0 :: l) as Hin by left. rewrite <- E in Hin. apply elem_of_select in Hin as [Hs [i Hi]].
    unfold same_blob in Hs. bools. destruct (ar_content a0) as [|sha n m|] eqn:Ec; try done. bools. subst sha.
    cbn in Hi. rewrite (Hk i a0 Hi). by repeat eexists.
Qed.
Lemma request_started_Ok actor x p now observed t i input d ans d' :
  request_started actor x p now observed t i input d = Ok (ans, d') -> artifacts_keyed d ->
  tb_provider_thread d' = tb_provider_thread d /\ tb_record_revision d' = tb_record_revision d
  /\ exists q a size media, tb_provider_request d' !! i = Some q /\ q_id q = i /\ q_execution_id q = x_id x
     /\ q_provider_thread_id q = t_id t /\ q_status q = QSubmitted /\ q_input_artifact_id q = Some (ar_id a)
     /\ tb_artifact d' !! ar_id a = Some a /\ ar_content a = BlobContent (bl_sha256 (put_json (input_json input))) size media.
Proof.
  unfold WorkerEvents.request_started. intros H Hk. do 7 skip H. apply bind_Ok in H as (blob & d1 & Hs & H).
  pose proof (save_Ok _ _ _ _ _ _ Hs Hk) as (Ha & size & media & Hc).
  assert (tb_provider_thread d1 = tb_provider_thread d /\ tb_record_revision d1 = tb_record_revision d) as [T1 R1].
  { unfold save, save_blob in Hs. by split; [leaves tb_provider_thread Hs|leaves tb_record_revision Hs]. }
  skip H. skip H. apply bind_Ok in H as (q & d2 & Hq & H). unfold create_with in Hq. destruct (rows d1 !! i); [done|].
  apply Ok_inj in Hq. injection Hq as Hq <-. unfold check_active in H. skip H.
  leaves (fun d => (tb_provider_thread d, tb_record_revision d, tb_provider_request d, tb_artifact d)) H.
  injection H as T2 R2 Q2 A2. cbn in T2, R2, Q2, A2. split; [congruence|]. split; [congruence|].
  exists q, blob, size, media. rewrite Q2, A2, lookup_insert_eq, Hq. by subst q.
Qed.

Lemma request_completed_Ok actor x p observed t i failure native q k a input d ans d' :
  request_completed actor x p observed t i "completed" failure native d = Ok (ans, d') ->
  tb_provider_request d !! i = Some q -> q_id q = i -> q_status q = QSubmitted -> q_input_artifact_id q = Some k ->
  tb_artifact d !! k = Some a -> stored_input read_input a = Ok input -> tb_provider_thread d !! t_id t = Some t ->
  ans = AnsRequest i (Some QCompleted) /\ exists t', tb_provider_thread d' !! t_id t = Some t'
    /\ t_applied_run_revision t' = run_revision_after t input
    /\ t_applied_mission_revision_id t' =
       match in_mission_revision_id input with
       | Some m => if newer_revision d t m then Some m else t_applied_mission_revision_id t
       | None => t_applied_mission_revision_id t
       end.
Proof.
  unfold WorkerEvents.request_completed. intros H Hq Hi Hs Hin Ha Hst Ht.
  apply bind_Ok in H as (q0 & ? & [Hq0 ->]%get_Ok & H). cbn in Hq0. rewrite Hq in Hq0. injection Hq0 as <-. skip H.
  unfold terminal_request in H. rewrite Hs in H.
  change (mem "completed" ["completed"; "succeeded"]) with true in H. cbn [mem existsb bool_decide orb] in H.
  unfold parse_failure in H. cbn [bool_decide] in H. skip H.
  apply bind_Ok in H as (q1 & d1 & (q0 & Hq0 & _ & -> & ->)%change_Ok & H). cbn in Hq0.
  rewrite Hi, Hq in Hq0. injection Hq0 as <-. cbn [rows put_rows] in H.
  apply bind_Ok in H as (? & d2 & Hn & H).
  assert (exists t2, tb_provider_thread d2 !! t_id t = Some t2 /\ t_applied_run_revision t2 = t_applied_run_revision t
    /\ t_applied_mission_revision_id t2 = t_applied_mission_revision_id t
    /\ tb_artifact d2 = tb_artifact d /\ tb_record_revision d2 = tb_record_revision d) as (t2 & Ht2 & Hr2 & Hm2 & A2 & R2).
  { destruct (truthy native); [|apply ret_Ok in Hn as [_ ->]; by exists t]. skip Hn.
    apply bind_Ok in Hn as (t2 & ? & (t3 & Ht3 & _ & -> & ->)%change_Ok & [_ ->]%ret_Ok). cbn in Ht3. rewrite Ht in Ht3.
    injection Ht3 as <-. eexists. cbn. rewrite lookup_insert_eq. by split. }
  apply bind_Ok in H as (? & d3 & Hc & H). cbn [q_input_artifact_id touch] in Hc. cbn in Hc. rewrite Hin in Hc.
  apply bind_Ok in Hc as (blob & ? & [Hb ->]%get_Ok & Hc). cbn in Hb. rewrite A2, Ha in Hb. injection Hb as <-.
  rewrite Hst in Hc. apply bind_Ok in Hc as (input' & ? & [Hi' ->]%lift_Ok & Hc). injection Hi' as <-.
  apply (apply_input_Ok _ _ _ _ _ t2) in Hc as (t' & Ht' & Hr' & Hm'); [|done..].
  unfold newer_revision, object_revision in Hm'. rewrite R2 in Hm'.
  apply bind_Ok in H as (? & d4 & He & H). leaves tb_provider_thread He. cbn in H. apply ret_Ok in H as [-> ->].
  rewrite Hi, He. split; [done|by exists t'].
Qed.

(** What a request was given is what its completion applies.  The input that a host records
    when it starts a request is stored as a blob of the assignment's project; when the host
    reports the request as completed, the revisions read back from that blob become the applied
    revisions of the conversation, except where the conversation has already applied newer ones. *)
Theorem consumed_input_applied actor o o' i input j t d ans d1 ans' d2 native failure :
  handle actor o d = Ok (ans, d1) -> handle actor o' d1 = Ok (ans', d2) ->
  wo_payload o = ProviderObserved (Some j) (RequestStarted i input) ->
  wo_payload o' = ProviderObserved (Some j) (RequestCompleted i "completed" failure native) ->
  artifacts_keyed d -> tb_provider_thread d !! j = Some t -> t_id t = j ->
  read_input (bl_sha256 (put_json (input_json input))) = Some input ->
  ans' = AnsRequest i (Some QCompleted)
  /\ exists t', tb_provider_thread d2 !! j = Some t'
     /\ t_applied_run_revision t' = run_revision_after t input
     /\ t_applied_mission_revision_id t' =
        match in_mission_revision_id input with
        | Some m => if newer_revision d t m then Some m else t_applied_mission_revision_id t
        | None => t_applied_mission_revision_id t
        end.
Proof.
  intros (x & p & Hx & _ & _ & _ & H)%handle_Ok (y & p' & Hy & _ & _ & _ & H')%handle_Ok Ho Ho' Hk Ht Hj Hread.
  rewrite Ho in H. rewrite Ho' in H'. unfold provider_observed in H, H'. cbn [lift] in H, H'.
  apply bind_Ok in H as (? & ? & [[= <-] ->]%lift_Ok & H). apply bind_Ok in H' as (? & ? & [[= <-] ->]%lift_Ok & H').
  apply bind_Ok in H as (t1 & ? & [Ht1 ->]%get_Ok & H). cbn in Ht1. rewrite Ht in Ht1. injection Ht1 as <-. skip H.
  apply request_started_Ok in H as (T1 & R1 & q & a & size & media & Hq & Hi & _ & Hqt & Hs & Hin & Ha & Hc); [|done].
  apply bind_Ok in H' as (t1 & ? & [Ht1 ->]%get_Ok & H'). cbn in Ht1. rewrite T1, Ht in Ht1. injection Ht1 as <-. skip H'.
  subst j. unfold newer_revision, object_revision in *. rewrite <- R1.
  eapply request_completed_Ok; [exact H'|done..| |by rewrite T1]. unfold stored_input. by rewrite Hc, Hread.
Qed.
End fenced.

(** ** Witnesses *)

(** Execution 7 of session 6 works in workspace 91, with conversation 50 and the settled request 51. *)
Definition reports_db : DB :=
  leased_db <| tb_workspace := {[91%positive := sample_workspace 91 "/srv/horizon"]} |>
    <| tb_repository := {[31%positive := sample_repository]} |>
    <| tb_provider_thread := {[50%positive := sample_thread 50 6 91 Available]} |>
    <| tb_provider_request := {[51%positive := sample_request 51 50 7 QCompleted]} |>.

Definition sample_input : RequestInput :=
  {| in_prompt := "Prove it"; in_mission_revision_id := None; in_mission_revision_number := None; in_run_revision := Some 4;
     in_roadmap_snapshot_id := None |}.

Definition read_sample (sha : string) : option RequestInput := if bool_decide (sha = "Prove it"%string) then Some sample_input else None.

Definition sample_blob (text : string) : Blob := {| bl_sha256 := text; bl_size := 8; bl_media_type := "application/json" |}.

Abbreviation sample_handle := (handle no_observation latest_uniform sample_digest sample_hash (join ",") sample_template
    {| planner_min_interval_seconds := 120; planner_max_idle_seconds := 1800; planner_max_unchanged_passes := 3 |}
    sample_blob in_prompt read_sample (fun _ => None) (fun i _ => i~0)%positive (fun s => s) same_text one_child (fun _ _ => None) (fun i _ _ => i)
    (fun _ _ => None)).

Definition reported (key : string) (body : worker_payload) : WorkerOperation :=
  {| wo_operation_id := key; wo_execution_id := 7; wo_epoch := 1; wo_payload := body; wo_occurred_at := 480 |}.

Definition stopped : worker_payload :=
  ExecutionFinished {| sr_status := Some OFailed; sr_failure := Some rate_limited; sr_reason := None; sr_provider_thread_id := None;
                       sr_intent_reconciliation := None |}.

Definition stale_db : DB :=
  reports_db <| tb_execution := {[7%positive := sample_execution 7 6 XLost]} |> <| tb_record_revision := tb_record_revision observed_db |>.

Definition late_event : worker_payload := ProviderObserved (Some 50%positive) (NativeEvent 51 "codex" JNull).

Lemma keyed_singleton (x : execution) d : tb_execution d = {[7%positive := x]} -> x_id x = 7%positive -> executions_keyed d.
Proof. intros E Hx i y Hy. rewrite E in Hy. by apply lookup_singleton_Some in Hy as [<- <-]. Qed.

Lemma reports_requests d : tb_provider_request d = tb_provider_request reports_db -> (52 <= db_next d)%positive -> requests_ok d.
Proof. intros E L i q Hq. rewrite E in Hq. cbn in Hq. apply lookup_singleton_Some in Hq as [<- <-]. cbn. split; [done|lia]. Qed.

Lemma fenced_reports_leave_work_witness :
  exists ans d', sample_handle host_actor (reported "op" late_event) stale_db = Ok (ans, d')
    /\ work_part d' = work_part stale_db /\ exists i q, tb_provider_request d' !! i = Some q /\ tb_provider_request stale_db !! i = None /\ plain 7 q.
Proof.
  destruct (is_ok_true (sample_handle host_actor (reported "op" late_event) stale_db)) as [[ans d'] E]; [by vm_compute|].
  assert (exists i q, tb_provider_request d' !! i = Some q /\ tb_provider_request stale_db !! i = None) as (i & q & Hq & Hi).
  { assert (match sample_handle host_actor (reported "op" late_event) stale_db with
            | Ok (_, d) => exists i q, tb_provider_request d !! i = Some q /\ tb_provider_request stale_db !! i = None
            | Err _ => False
            end) as H by (vm_compute; by exists 101%positive; eexists).
    by rewrite E in H. }
  exists ans, d'. split; [exact E|].
  edestruct fenced_reports_leave_work as (x & Hx & _ & _ & _ & Hs); [exact E| | |].
  - by eapply (keyed_singleton (sample_execution 7 6 XLost)).
  - apply (reports_requests stale_db eq_refl). cbn. lia.
  - cbn in Hx. apply lookup_singleton_Some in Hx as [_ <-]. destruct (Hs eq_refl) as (Hw & Hp & _). split; [exact Hw|]. exists i, q.
    split; [exact Hq|]. split; [exact Hi|]. by apply (Hp i).
Defined.

Lemma stop_receipt_frees_witness :
  exists ans d', sample_handle host_actor (reported "op" stopped) reports_db = Ok (ans, d')
    /\ exists y, tb_execution d' !! 7%positive = Some y /\ execution_busy d' y = false.
Proof.
  destruct (is_ok_true (sample_handle host_actor (reported "op" stopped) reports_db)) as [[ans d'] E]; [by vm_compute|].
  exists ans, d'. split; [exact E|].
  edestruct stop_receipt_frees as (y & Hy & Hb & _); [|exact E| |];
    [reflexivity|by eapply (keyed_singleton (sample_execution 7 6 XRunning))|].
  exists y. split; [rewrite Hy; apply lookup_insert_eq|exact Hb].
Defined.

Lemma request_outcomes_final_witness :
  exists ans d', sample_handle host_actor (reported "op" stopped) reports_db = Ok (ans, d')
    /\ exists q, tb_provider_request d' !! 51%positive = Some q /\ q_status q = QCompleted.
Proof.
  destruct (is_ok_true (sample_handle host_actor (reported "op" stopped) reports_db)) as [[ans d'] E]; [by vm_compute|].
  exists ans, d'. split; [exact E|].
  destruct (request_outcomes_final no_observation latest_uniform sample_digest sample_hash (join ",") sample_template
    {| planner_min_interval_seconds := 120; planner_max_idle_seconds := 1800; planner_max_unchanged_passes := 3 |}
    sample_blob in_prompt read_sample (fun _ => None) (fun i _ => i~0)%positive (fun s => s) same_text one_child (fun _ _ => None)
    (fun i _ _ => i) (fun _ _ => None) reports_db d' 51
    (sample_request 51 50 7 QCompleted)) as (q & Hq & Hs & _).
  - apply rtc_once. exists host_actor, (reported "op" stopped), ans. exact E.
  - apply (reports_requests reports_db eq_refl). cbn. lia.
  - reflexivity.
  - reflexivity.
  - by exists q.
Defined.

Definition sample_commit : string := "0123456789abcdef0123456789abcdef01234567".

Lemma publication_preserved_witness :
  exists i s d', report_publication host_actor (sample_execution 7 6 XRunning) (Some 2%positive) 500 Discovered 31 sample_commit "" None
      reports_db = Ok (AnsPublication i s, d')
    /\ exists a, tb_artifact d' !! ar_id a = Some a /\ ar_content a = CommitContent 31 sample_commit.
Proof.
  destruct (report_publication host_actor (sample_execution 7 6 XRunning) (Some 2%positive) 500 Discovered 31 sample_commit "" None
    reports_db) as [[[]]|] eqn:E; try (vm_compute in E; discriminate E).
  destruct (publication_preserved _ _ _ _ _ _ _ _ _ _ _ _ _ E) as (a & b & Ha & Hc & _).
  - by split; intros ? ? H; cbn in H; apply lookup_empty_Some in H.
  - eexists _, _, _. split; [reflexivity|]. by exists a.
Defined.

Definition started_input : worker_payload := ProviderObserved (Some 50%positive) (RequestStarted 52 sample_input).
Definition completed_input : worker_payload := ProviderObserved (Some 50%positive) (RequestCompleted 52 "completed" None None).

Lemma consumed_input_applied_witness :
  exists ans d1 ans' d2, sample_handle host_actor (reported "a" started_input) reports_db = Ok (ans, d1)
    /\ sample_handle host_actor (reported "b" completed_input) d1 = Ok (ans', d2)
    /\ exists t, tb_provider_thread d2 !! 50%positive = Some t /\ t_applied_run_revision t = Some 4.
Proof.
  destruct (is_ok_true (sample_handle host_actor (reported "a" started_input) reports_db)) as [[ans d1] E]; [by vm_compute|].
  destruct (is_ok_true (sample_handle host_actor (reported "b" completed_input) d1)) as [[ans' d2] E'];
    [vm_compute in E; injection E as _ <-; by vm_compute|].
  exists ans, d1, ans', d2. split; [exact E|]. split; [exact E'|].
  edestruct consumed_input_applied as (_ & t' & Ht & Hr & _);
    [exact E|exact E'|reflexivity|reflexivity| |reflexivity|reflexivity|reflexivity|].
  - intros i a H. cbn in H. by apply lookup_empty_Some in H.
  - by exists t'.
Defined.
