(* ===== verification/Gates.v ===== *)
(** * Review gates

    The part of src/archon_horizon/pipeline/integrations/connectors.py that records what the forge
    answered: the observation of an item ([_item_values] and the step of [sync_forge]), the record
    of a delivered review ([_record_review]), the gate that the maintainer's approval opens
    ([_activate_gate]) and that a moved head closes ([_invalidate_gate]); and
    [route_subject_event] of integrations/communications.py.

    Arguments: Python's [casefold] and the manifest read back from a blob, as in Labels.v. *)

From S2P Require Import Prelude Contracts ReviewContracts Conditions Schema Records Auth Samples MissionTree Missions Ledger Usage Capacity Sessions Assignments Deliveries Settlement Runs Workspaces Labels Objectives Demand Launch Panel Decisions.

Local Open Scope string_scope.
Local Open Scope Z_scope.

(** ** Events of an item *)

(** [emit] with a source of its own. *)
Definition emit_from (source : string) (actor project : option uid) (s : Subject) (changed : list string) : M event :=
  clock ← ask db_clock;
  create (fun i now =>
    {| ev_id := i; ev_created_at := now; ev_project_id := project; ev_subject_id := sub_ref s; ev_actor_principal_id := actor;
       ev_execution_id := None; ev_schema_version := 1; ev_source := source; ev_source_event_id := None; ev_occurred_at := clock;
       ev_payload := RecordChanged (sub_revision s) changed None |}).

(** [INSERT ... ON CONFLICT DO NOTHING] of a notification. *)
Definition notify (assignment event : uid) (u : urgency) : M unit :=
  seen ← any (notified assignment event);
  when (negb seen)
    (_ ← create (fun i now =>
       {| nt_id := i; nt_created_at := now; nt_updated_at := now; nt_revision := 1; nt_assignment_id := assignment;
          nt_event_id := event; nt_urgency := u; nt_delivered_at := None; nt_disposition := DispPending;
          nt_disposition_note := None; nt_obligation_id := None |});
     mret tt).

Definition subscribed (d : DB) (item : uid) (s : subscription) : bool :=
  bool_decide (sb_subject_id s = stored Kforge_item item) && negb (bool_decide (sb_mode s = Muted))
  && match tb_assignment d !! sb_assignment_id s with Some a => mem (a_status a) [Pending; Running] | None => false end
  && match sb_expires_at s with Some t => db_now d <? t | None => true end.

(** The item that an event is about: of a review, its pull request. *)
Definition event_item (e : event) : M (option uid) :=
  match ev_subject_id e with
  | Some (StoredRef r) =>
      match ref_kind r with
      | Kforge_review => v ← (get (ref_id r) : M forge_review); mret (Some (fr_forge_item_id v))
      | Kforge_item => mret (Some (ref_id r))
      | _ => mret None
      end
  | _ => mret None
  end.

(** [route_subject_event]. *)
Definition route_subject_event (e : event) : M unit :=
  match ev_project_id e with
  | None => mret tt
  | Some project =>
      found ← event_item e;
      match found with
      | None => mret tt
      | Some item =>
          in_project Kforge_item item project ;;
          candidates ← ask (fun d => stored_rows (subscribed d item) d);
          for_each (fun s => p ← project_of Kassignment (sb_assignment_id s);
                             when (bool_decide (p = Some project))
                               (notify (sb_assignment_id s) (ev_id e) (if bool_decide (sb_mode s = Prompt) then Direct else Routine)))
                   candidates
      end
  end.

(** ** Closing a gate *)

Definition gate_subject (g : review_gate) : Subject :=
  {| sub_ref := Some (stored Kreview_gate (rg_id g)); sub_revision := rg_revision g; sub_status := gate_status_str (rg_status g); sub_note := None |}.

Definition review_subject (r : forge_review) : Subject :=
  {| sub_ref := Some (stored Kforge_review (fr_id r)); sub_revision := 1; sub_status := ""; sub_note := None |}.

Definition close_gate (s : gate_status) (now : instant) (g : review_gate) : review_gate :=
  g <| rg_status := s |> <| rg_accepted_commit_oid := None |> <| rg_maintainer_review_id := None |> <| rg_evaluated_at := Some now |>.

(** The reviewer that a label names: [review], its slug and its state, separated by slashes. *)
Definition reviewed_slug (label : string) : option string :=
  match split_on "/" label with
  | ["review"; slug; state] => if mem state ["ok"; "requesting-changes"; "commented"] then Some slug else None
  | _ => None
  end.

Section gates.
Context (read_manifest : string -> option ReviewManifest) (casefold : string -> string).

(** [_invalidate_gate]. *)
Definition _invalidate_gate (item_id : uid) : M unit :=
  now ← ask db_now;
  update_where (fun g => bool_decide (rg_forge_item_id g = item_id)) (close_gate GateStale now) ;;
  item ← (get item_id : M forge_item);
  let slugs := omap reviewed_slug (fi_labels item) in
  when (nonempty slugs)
    (system ← system_actor;
     repository ← (get (fi_repository_id item) : M repository);
     reviewers ← select (fun r => bool_decide (rd_project_id r = rp_project_id repository) && mem (rd_slug r) slugs);
     for_each (fun r => _ ← queue_state read_manifest (actor_id system) item r "historical"
                              (uuid_str item_id +:+ ":" +:+ pretty (fi_revision item) +:+ ":" +:+ uuid_str (rd_id r)) None;
                        mret tt) reviewers).

(** ** Opening a gate *)

Definition gate_of (item : uid) (d : DB) : option review_gate :=
  head (stored_rows (fun g => bool_decide (rg_forge_item_id g = item)) d).

Definition accepted_of (item : uid) (d : DB) : option review_gate :=
  head (stored_rows (fun g => bool_decide (rg_forge_item_id g = item) && bool_decide (rg_status g = GateAccepted)) d).

(** A specialist that no longer approves takes back the acceptance. *)
Definition withdraw_acceptance (actor project item_id : uid) : M unit :=
  existing ← ask (accepted_of item_id);
  match existing with
  | None => mret tt
  | Some g =>
      item ← (get item_id : M forge_item);
      policy ← (get (rg_policy_id g) : M review_policy);
      p ← repository_review_panel item policy None;
      when (nonempty (pn_missing p) || nonempty (pn_invalid_carry_forward p))
        (now ← ask db_now;
         g' ← change (rg_id g) None (close_gate GatePending now);
         _ ← emit (Some actor) (Some project) (gate_subject g') ["status"; "accepted_commit_oid"] None None None;
         mret tt)
  end.

(** The revision that the review pinned, and why it does not pin the policy in force. *)
Definition policy_pin (p : ReviewPayload) (r : Readiness) : M (option record_revision * list Blocker) :=
  match py_policy_revision_id p with
  | None => mret (None, [blocker_of "review_policy_pin_missing"])
  | Some i =>
      revision ← (get i : M record_revision);
      let current := match ry_policy r with
                     | Some policy => bool_decide (rr_object_id revision = stored Kreview_policy (rv_id policy))
                                      && (rr_object_revision revision =? rv_revision policy)
                     | None => false
                     end in
      mret (Some revision, if current then [] else [blocker_of "review_policy_pin_stale"])
  end.

(** What the delivery itself shows to be stale. *)
Definition stale_reasons (p : ReviewPayload) (item : forge_item) (review : forge_review) (base_changed : bool) : list Blocker :=
  ((if py_historical p then [blocker_of "historical_review"] else [])
   ++ (if at_head item review && bool_decide (fi_status item = ItemOpen) then [] else [blocker_of "review_head_changed"])
   ++ (if bool_decide (py_target_branch p = fi_target_branch item) then [] else [blocker_of "review_target_changed"])
   ++ (if base_changed then [blocker_of "review_base_changed"] else []))%list.

Definition open_gate (policy revision : uid) (review : forge_review) (now : instant) (g : review_gate) : review_gate :=
  g <| rg_policy_id := policy |> <| rg_policy_revision_id := revision |> <| rg_maintainer_review_id := Some (fr_id review) |>
    <| rg_status := GateAccepted |> <| rg_accepted_commit_oid := Some (fr_commit_oid review) |> <| rg_evaluated_at := Some now |>.

Definition new_gate (item policy revision : uid) (review : forge_review) (i : uid) (now : instant) : review_gate :=
  {| rg_id := i; rg_created_at := now; rg_updated_at := now; rg_revision := 1; rg_forge_item_id := item; rg_policy_id := policy;
     rg_policy_revision_id := revision; rg_maintainer_review_id := Some (fr_id review); rg_status := GateAccepted;
     rg_accepted_commit_oid := Some (fr_commit_oid review); rg_evaluated_at := Some now |}.

Definition with_result (p : ReviewPayload) (g : option uid) (blockers : list Blocker) (o : outbox_operation) : outbox_operation :=
  o <| ob_payload := PReview (p <| py_gate_result := Some {| gr_accepted_gate := g; gr_blockers := blockers |} |>) |>.

(** The maintainer's approval: the gate opens when the head is ready, and the answer is kept with
    the operation. *)
Definition judge_gate (actor project operation : uid) (p : ReviewPayload) (item_id : uid) (base_changed : bool) (review : forge_review)
    : M unit :=
  item ← (get item_id : M forge_item);
  r ← review_readiness item None (Some p);
  '(revision, pin) ← policy_pin p r;
  let reasons := (pin ++ stale_reasons p item review base_changed)%list in
  now ← ask db_now;
  existing ← ask (gate_of item_id);
  match ry_policy r, revision, (ready r && negb (nonempty reasons))%bool with
  | Some policy, Some v, true =>
      g ← (match existing with
           | Some g => change (rg_id g) None (open_gate (rv_id policy) (rr_id v) review now)
           | None => create (new_gate item_id (rv_id policy) (rr_id v) review)
           end);
      _ ← emit (Some actor) (Some project) (gate_subject g) ["status"; "accepted_commit_oid"] None None None;
      _ ← change operation None (with_result p (Some (rg_id g)) []);
      mret tt
  | _, _, _ =>
      _ ← change operation None (with_result p None (ry_blockers r ++ reasons)%list);
      match existing with
      | Some g => when (negb (nonempty reasons) && bool_decide (rg_status g = GateAccepted)
                        && bool_decide (rg_accepted_commit_oid g = Some (fr_commit_oid review)))
                    (_ ← change (rg_id g) None (close_gate GatePending now); mret tt)
      | None => mret tt
      end
  end.

(** [_activate_gate]. *)
Definition _activate_gate (actor project operation : uid) (p : ReviewPayload) (item_id : uid) (base_changed : bool) (review : forge_review)
    : M unit :=
  when (present (py_reviewer_descriptor_id p) && negb (py_historical p)
        && (mem (fr_verdict review) [ChangesRequested; Commented; Dismissed] || negb (present (py_provider_request_id p))))
    (withdraw_acceptance actor project item_id) ;;
  when (bool_decide (fr_verdict review = Approved) && negb (present (py_reviewer_descriptor_id p)))
    (judge_gate actor project operation p item_id base_changed review).

(** ** Recording a review *)

(** What the forge answers for a submitted review; [rw_base_oid] is the base that the submission
    verified. *)
Record RemoteReview := {
  rw_id : string;
  rw_user : option string;
  rw_commit_id : option string;
  rw_dismissed : bool;
  rw_state : string;
  rw_base_oid : option string }.

Definition upper (s : string) : string := string_of_list_ascii (map ascii_upper (chars s)).

Definition remote_verdict (r : RemoteReview) : option verdict :=
  if rw_dismissed r then Some Dismissed
  else if bool_decide (upper (rw_state r) = "APPROVED") then Some Approved
  else if mem (upper (rw_state r)) ["REQUEST_CHANGES"; "REQUESTED_CHANGES"] then Some ChangesRequested
  else if mem (upper (rw_state r)) ["COMMENT"; "COMMENTED"] then Some Commented
  else None.

Definition connector_failure {A} (code : string) : M A := throw (ConnectorFailure code false false 0).

(** What the snapshot of an operation holds for its settlement. *)
Record ItemState := {
  it_actor : uid;
  it_item : forge_item;
  it_project : uid;
  it_identity : option integration_identity }.

Definition verified_payload (p : ReviewPayload) (remote : RemoteReview) : ReviewPayload :=
  match py_review_plan p with
  | Some _ => p <| py_review_base_verified := bool_decide (rw_base_oid remote = py_expected_base_oid p) |>
  | None => p
  end.

Definition base_moved (p : ReviewPayload) (remote : RemoteReview) : bool :=
  match truthy (py_expected_base_oid p) with Some b => negb (bool_decide (rw_base_oid remote = Some b)) | None => false end.

(** The state of the label that a delivered review earns. *)
Definition review_label (p : ReviewPayload) (review : forge_review) (item : uid) : M string :=
  if py_historical p then mret "historical"
  else match fr_verdict review with
  | Approved =>
      current ← (match py_policy_revision_id p with
                 | Some i =>
                     revision ← (get i : M record_revision);
                     policy ← (get (content_id (rr_content revision)) : M review_policy);
                     fresh ← (get item : M forge_item);
                     _current_approval review (Some p) fresh policy false
                 | None => mret false
                 end);
      mret (if (current : bool) then "ok" else "commented")
  | ChangesRequested => mret "requesting-changes"
  | _ => mret "commented"
  end.

Definition label_reviewer (s : ItemState) (operation : uid) (p : ReviewPayload) (review : forge_review) : M unit :=
  match py_reviewer_descriptor_id p with
  | None => mret tt
  | Some i =>
      descriptor ← (get i : M reviewer_descriptor);
      request ← (match py_provider_request_id p with
                 | Some q => r ← (get q : M provider_request); mret (Some r)
                 | None => mret None
                 end);
      label ← review_label p review (fi_id (it_item s));
      _ ← (if mem (fi_status (it_item s)) [ItemMerged; ItemClosed; ItemResolved]
           then terminal_label_operation casefold (it_actor s) (it_item s) None
           else queue_state read_manifest (it_actor s) (it_item s) descriptor label (uuid_str operation) request);
      mret tt
  end.

Definition new_review (s : ItemState) (p : ReviewPayload) (remote : RemoteReview) (user : string) (v : verdict) (i : uid) (now : instant)
    : forge_review :=
  {| fr_id := i; fr_created_at := now; fr_forge_item_id := fi_id (it_item s); fr_remote_id := rw_id remote; fr_reviewer_remote_id := user;
     fr_reviewer_principal_id := Some (it_actor s); fr_reviewer_descriptor_id := py_reviewer_descriptor_id p;
     fr_reviewer_descriptor_revision_id := py_reviewer_descriptor_revision_id p; fr_provider_request_id := py_provider_request_id p;
     fr_integration_identity_id := ii_id <$> it_identity s; fr_reviewer_functions := []; fr_verdict := v; fr_summary := py_summary p;
     fr_commit_oid := py_commit_oid p; fr_observed_at := now |}.

(** [_record_review]. *)
Definition _record_review (s : ItemState) (operation : uid) (p : ReviewPayload) (remote : RemoteReview) : M ObjectRef :=
  let p := verified_payload p remote in
  when (present (py_review_plan p)) (_ ← change operation None (fun o => o <| ob_payload := PReview p |>); mret tt) ;;
  let moved := base_moved p remote in
  previous ← ask (fun d => head (stored_rows (fun r => bool_decide (fr_forge_item_id r = fi_id (it_item s))
                                                       && bool_decide (fr_remote_id r = rw_id remote)) d));
  match previous with
  | Some r =>
      _activate_gate (it_actor s) (it_project s) operation p (fi_id (it_item s)) moved r ;;
      mret (stored Kforge_review (fr_id r))
  | None =>
      user ← (match truthy (rw_user remote) with
              | Some u => if bool_decide (rw_commit_id remote = Some (py_commit_oid p)) then mret u
                          else connector_failure "review_response_identity_or_head_missing"
              | None => connector_failure "review_response_identity_or_head_missing"
              end);
      (match it_identity s with
       | Some i => if bool_decide (user = ii_remote_user_id i) then mret tt else connector_failure "remote_reviewer_identity_mismatch"
       | None => mret tt
       end) ;;
      v ← (match remote_verdict remote with Some v => mret v | None => connector_failure "unknown_remote_review_verdict" end);
      review ← create (new_review s p remote user v);
      e ← emit (Some (it_actor s)) (Some (it_project s)) (review_subject review) ["verdict"; "commit_oid"] None None None;
      route_subject_event e ;;
      _activate_gate (it_actor s) (it_project s) operation p (fi_id (it_item s)) moved review ;;
      label_reviewer s operation p review ;;
      mret (stored Kforge_review (fr_id review))
  end.

(** ** Observing an item *)

Record RemoteItem := {
  rt_kind : item_kind;
  rt_number : Z;
  rt_title : string;
  rt_open : bool;
  rt_merged : bool;
  rt_head : option string;
  rt_base : option string;
  rt_user : option string;
  rt_labels : list string }.

Definition remote_status (r : RemoteItem) : item_status :=
  if bool_decide (rt_kind r = PullRequest) && rt_merged r then ItemMerged else if rt_open r then ItemOpen else ItemClosed.

Definition pull_only {A} (r : RemoteItem) (o : option A) : option A := if bool_decide (rt_kind r = PullRequest) then o else None.

(** [_item_values], written over an item. *)
Definition _item_values (r : RemoteItem) (clock : instant) (i : forge_item) : forge_item :=
  i <| fi_remote_number := rt_number r |> <| fi_kind := rt_kind r |> <| fi_title := rt_title r |> <| fi_status := remote_status r |>
    <| fi_head_commit_oid := pull_only r (rt_head r) |> <| fi_target_branch := pull_only r (rt_base r) |>
    <| fi_author_remote_id := rt_user r |> <| fi_labels := sorted_set (rt_labels r) |> <| fi_observed_at := clock |>.

Definition new_item (repository : uid) (r : RemoteItem) (clock : instant) (i : uid) (now : instant) : forge_item :=
  {| fi_id := i; fi_created_at := now; fi_updated_at := now; fi_revision := 1; fi_repository_id := repository;
     fi_remote_number := rt_number r; fi_kind := rt_kind r; fi_origin_run_id := None; fi_review_phase := None;
     fi_target_branch := pull_only r (rt_base r); fi_title := rt_title r; fi_status := remote_status r;
     fi_head_commit_oid := pull_only r (rt_head r); fi_author_remote_id := rt_user r; fi_labels := sorted_set (rt_labels r);
     fi_observed_at := clock |}.

Definition same_item (repository : uid) (r : RemoteItem) (i : forge_item) : bool :=
  bool_decide (fi_repository_id i = repository) && bool_decide (fi_kind i = rt_kind r) && (fi_remote_number i =? rt_number r).

(** The observed fields in which two rows differ, other than the time of observation. *)
Definition changed_fields (a b : forge_item) : list string :=
  ((if bool_decide (fi_title a = fi_title b) then [] else ["title"])
   ++ (if bool_decide (fi_status a = fi_status b) then [] else ["status"])
   ++ (if bool_decide (fi_head_commit_oid a = fi_head_commit_oid b) then [] else ["head_commit_oid"])
   ++ (if bool_decide (fi_target_branch a = fi_target_branch b) then [] else ["target_branch"])
   ++ (if bool_decide (fi_author_remote_id a = fi_author_remote_id b) then [] else ["author_remote_id"])
   ++ (if bool_decide (fi_labels a = fi_labels b) then [] else ["labels"]))%list.

Definition item_fields : list string :=
  ["remote_number"; "kind"; "title"; "status"; "head_commit_oid"; "target_branch"; "author_remote_id"; "labels"; "observed_at"].

(** One observation of [sync_forge]: the row, its event, the gate and the terminal labels. *)
Definition observe_item (integration : uid) (repository : repository) (remote : RemoteItem) : M unit :=
  clock ← ask db_clock;
  found ← ask (fun d => head (stored_rows (same_item (rp_id repository) remote) d));
  '(row, fields) ← (match found with
                    | Some old =>
                        let fields := changed_fields old (_item_values remote clock old) in
                        if nonempty fields then
                          row ← change (fi_id old) None (_item_values remote clock);
                          when (negb (bool_decide (fi_head_commit_oid old = fi_head_commit_oid row))
                                || negb (bool_decide (fi_target_branch old = fi_target_branch row))) (_invalidate_gate (fi_id row)) ;;
                          mret (row, fields)
                        else mret (old, [])
                    | None => row ← create (new_item (rp_id repository) remote clock); mret (row, item_fields)
                    end);
  when (nonempty fields)
    (e ← emit_from ("forge:" +:+ uuid_str integration) None (Some (rp_project_id repository)) (item_subject row) fields;
     route_subject_event e) ;;
  system ← system_actor;
  _ ← terminal_label_operation casefold (actor_id system) row None;
  mret tt.
End gates.
