(* ===== verification/Communications.v ===== *)
(** * Communications

    src/archon_horizon/pipeline/integrations/communications.py: discussions and their subjects
    ([register_discussion], [link_subject], [discussion_channel]), the subscriptions of a session
    ([subscribe], [follow_discussion]), the exact receipts of the messages that it read
    ([read_messages], [discussion_read_scope], [discussion_fingerprint]), its replies
    ([queue_reply]) and the routing of a message to the sessions that it concerns
    ([resolve_mentions], [route_message]).

    Arguments: SHA-256, the blob that the store makes of a JSON value, and the mentions that the
    regular expression finds in the text of a message ([find_mentions]); the text is that outside of
    its code ([_mention_text]). *)

From S2P Require Import Prelude Contracts WorkerContracts ReviewContracts Conditions Schema Records Auth Samples MissionTree Missions Ledger Usage Capacity Sessions Assignments Deliveries Workspaces Labels Launch Panel Decisions Packets Gates.

Local Open Scope string_scope.
Local Open Scope Z_scope.

(** ** Contracts *)

Record DiscussionRegistration := {
  dr_project_id : uid;
  dr_topic : string;
  dr_source_discussion_id : option uid;
  dr_integration_id : option uid;
  dr_channel_remote_id : option string;
  dr_subjects : list ObjectRef }.

(** [^[1-9][0-9]{0,18}$]. *)
Definition remote_number_valid (s : string) : bool :=
  match chars s with
  | c :: l => between "1" "9" c && forallb is_digit l && (Z.of_nat (List.length l) <=? 18)
  | [] => false
  end.

(** [one_binding]. *)
Definition one_binding (r : DiscussionRegistration) : bool :=
  bool_decide (dr_topic r = strip (dr_topic r))
  && negb (existsb (fun c => mem (code c) [10; 13; 0]) (chars (dr_topic r)))
  && (if present (dr_source_discussion_id r)
      then negb (present (dr_integration_id r) || present (dr_channel_remote_id r))
      else present (dr_integration_id r) && present (dr_channel_remote_id r)).

Definition discussion_registration_valid (r : DiscussionRegistration) : bool :=
  (1 <=? Z.of_nat (String.length (dr_topic r))) && (Z.of_nat (String.length (dr_topic r)) <=? 60)
  && opt_valid remote_number_valid (dr_channel_remote_id r) && sized 0 20 object_ref_valid (dr_subjects r) && one_binding r.

Record SubscriptionCreate := {
  sc_assignment_id : uid;
  sc_subject : ObjectRef;
  sc_mode : subscription_mode;
  sc_origin : subscription_origin;
  sc_expires_at : option instant }.

(** ** Subjects *)

(** [SUBJECT_KINDS], and the project of a subject: that of its repository for a path. *)
Definition subject_kind (o : ObjectRef) : bool :=
  match o with
  | StoredRef r => mem (ref_kind r) [Kmission; Knode; Kdiscussion; Kforge_item]
  | PathRef _ _ _ => true
  end.

Definition subject_in_project (o : ObjectRef) (project : uid) : M unit :=
  match o with
  | StoredRef r => in_project (ref_kind r) (ref_id r) project
  | PathRef _ repository _ => in_project Krepository repository project
  end.

(** [scoped_subject]. *)
Definition scoped_subject (o : ObjectRef) (project : uid) : M ObjectRef :=
  lift (guard (negb (object_ref_valid o)) (ValidationError "ObjectRef")) ;;
  refuse (negb (subject_kind o)) "invalid_subject" 422 ;;
  subject_in_project o project ;;
  mret o.

(** [link_subject]. *)
Definition link_subject (actor : Actor) (discussion_id : uid) (subject : ObjectRef) : M (uid * ObjectRef) :=
  x ← (get discussion_id : M discussion);
  require_project actor (ds_project_id x) WorkerGrant ;;
  r ← scoped_subject subject (ds_project_id x);
  modify (fun d => if bool_decide ((ds_id x, r) ∈ tb_discussion_subject d) then d
                   else d <| tb_discussion_subject := (ds_id x, r) :: tb_discussion_subject d |>) ;;
  mret (ds_id x, r).

(** ** Discussions *)

Definition same_channel (integration : uid) (channel : string) (x : discussion) : bool :=
  bool_decide (ds_integration_id x = integration) && bool_decide (ds_channel_remote_id x = channel).

Definition check_integration (i : integration) : M unit :=
  refuse (negb (bool_decide (ig_kind i = ZulipIntegration)) || negb (ig_enabled i)) "discussion_integration_unavailable" 422.

Definition new_discussion (project integration : uid) (channel topic : string) (i : uid) (now : instant) : discussion :=
  {| ds_id := i; ds_created_at := now; ds_updated_at := now; ds_revision := 1; ds_project_id := project; ds_integration_id := integration;
     ds_channel_remote_id := channel; ds_topic := topic; ds_sync_status := SyncReconciling; ds_observed_at := now |}.

(** The integration and the channel that a registration binds; only an administrator binds a new one. *)
Definition binding_of (actor : Actor) (data : DiscussionRegistration) : M (uid * string) :=
  match dr_source_discussion_id data with
  | Some i => source ← (same_project Kdiscussion i (dr_project_id data) : M discussion);
              mret (ds_integration_id source, ds_channel_remote_id source)
  | None =>
      require_admin actor ;;
      lift match dr_integration_id data, dr_channel_remote_id data with
           | Some i, Some c => Ok (i, c)
           | _, _ => Err (RuntimeFailure "integration_id")
           end
  end.

(** [register_discussion]. *)
Definition register_discussion (actor : Actor) (data : DiscussionRegistration) : M discussion :=
  lift (guard (negb (discussion_registration_valid data)) (ValidationError "DiscussionRegistration")) ;;
  require_project actor (dr_project_id data) WorkerGrant ;;
  '(integration, channel) ← binding_of actor data;
  i ← (get integration : M Schema.integration);
  check_integration i ;;
  bound ← select (same_channel integration channel);
  refuse (existsb (fun x => negb (bool_decide (ds_project_id x = dr_project_id data))) bound) "channel_scope_conflict" 422 ;;
  x ← match List.find (fun x => bool_decide (ds_topic x = dr_topic data)) bound with
      | Some x => mret x
      | None => create (new_discussion (dr_project_id data) integration channel (dr_topic data))
      end;
  for_each (fun s => _ ← link_subject actor (ds_id x) s; mret tt) (dr_subjects data) ;;
  mret x.

(** [discussion_channel]. *)
Definition discussion_channel (actor : Actor) (discussion_id : uid) : M (discussion * integration) :=
  x ← (get discussion_id : M discussion);
  require_project actor (ds_project_id x) ViewerGrant ;;
  foreign ← any (fun y => same_channel (ds_integration_id x) (ds_channel_remote_id x) y
                          && negb (bool_decide (ds_project_id y = ds_project_id x)));
  refuse foreign "channel_scope_conflict" 422 ;;
  i ← (get (ds_integration_id x) : M integration);
  check_integration i ;;
  mret (x, i).

(** ** Subscriptions *)

Definition subscribes (a : uid) (o : ObjectRef) (s : subscription) : bool :=
  bool_decide (sb_assignment_id s = a) && bool_decide (sb_subject_id s = o).

Definition new_subscription (a : uid) (o : ObjectRef) (m : subscription_mode) (g : subscription_origin) (e : option instant)
    (i : uid) (now : instant) : subscription :=
  {| sb_id := i; sb_created_at := now; sb_updated_at := now; sb_revision := 1; sb_assignment_id := a; sb_subject_id := o;
     sb_mode := m; sb_origin := g; sb_expires_at := e |}.

(** [subscribe]: an explicit choice is not undone by a seeded one. *)
Definition subscribe (actor : Actor) (data : SubscriptionCreate) : M subscription :=
  let a := sc_assignment_id data in
  let o := sc_subject data in
  lift (guard (negb (object_ref_valid o)) (ValidationError "SubscriptionCreate")) ;;
  require_ledger_owner actor a false ;;
  refuse (negb (subject_kind o)) "invalid_subscription" 422 ;;
  project ← scoped Kassignment a;
  subject_in_project o project ;;
  existing ← select (subscribes a o);
  match existing with
  | s :: _ =>
      if bool_decide (sb_origin s = ExplicitOrigin) && bool_decide (sc_origin data = AssignmentOrigin) then mret s
      else change (sb_id s) None (fun s => s <| sb_mode := sc_mode data |> <| sb_origin := sc_origin data |> <| sb_expires_at := sc_expires_at data |>)
  | [] => create (new_subscription a o (sc_mode data) (sc_origin data) (sc_expires_at data))
  end.

(** [follow_discussion]. *)
Definition follow_discussion (a discussion_id : uid) : M unit :=
  let o := stored Kdiscussion discussion_id in
  taken ← any (subscribes a o);
  when (negb taken) (_ ← create (new_subscription a o Digest AssignmentOrigin None); mret tt).

(** ** Receipts *)

(** [cast(remote_id, BigInteger)] of a number. *)
Definition bigint (s : string) : Z := List.fold_left (fun n c => 10 * n + (code c - 48)) (chars s) 0.

Definition newer_message (m n : message) : bool := bigint (ms_remote_id n) <=? bigint (ms_remote_id m).

(** The newest messages of a discussion, the initial window. *)
Definition initial_window (d : DB) (discussion_id : uid) : list message :=
  take 20 (sort_by newer_message (stored_rows (fun m => bool_decide (ms_discussion_id m = discussion_id)) d)).

(** The session has a receipt of the message, in some revision. *)
Definition receipted (d : DB) (a : uid) (m : message) : bool :=
  existsb (fun k => bool_decide (k.1.1 = a) && bool_decide (k.1.2 = ms_id m)) (map fst (map_to_list (tb_message_read d))).

Definition participates (d : DB) (a discussion_id : uid) : bool :=
  existsb (fun m => bool_decide (ms_discussion_id m = discussion_id) && receipted d a m) (map snd (map_to_list (tb_message d))).

(** [MessageRevision]. *)
Definition receipt_valid (r : uid * Z) : bool := 1 <=? r.2.

Fixpoint validate_receipts (project : uid) (receipts : list (uid * Z)) : M (list message) :=
  match receipts with
  | [] => mret []
  | r :: receipts =>
      lift (guard (negb (receipt_valid r)) (ValidationError "MessageRevision")) ;;
      m ← (same_project Kmessage r.1 project : M message);
      refuse (negb (ms_revision m =? r.2)) "message_changed" 409 ;;
      rest ← validate_receipts project receipts;
      mret (m :: rest)
  end.

(** The first participation in a discussion acknowledges its whole window. *)
Definition window_read (d : DB) (a : uid) (messages : list message) (discussion_id : uid) : bool :=
  participates d a discussion_id
  || forallb (fun m => mem (ms_id m, ms_revision m)
                           (map (fun n => (ms_id n, ms_revision n)) (List.filter (fun n => bool_decide (ms_discussion_id n = discussion_id)) messages)))
             (initial_window d discussion_id).

Definition record_read (a : uid) (m : message) : M unit :=
  modify (fun d => let k := (a, ms_id m, ms_revision m) in
                   if present (tb_message_read d !! k) then d else d <| tb_message_read := <[k := db_now d]> (tb_message_read d) |>) ;;
  follow_discussion a (ms_discussion_id m).

(** [read_messages]. *)
Definition read_messages (actor : Actor) (a : uid) (receipts : list (uid * Z)) : M Z :=
  require_ledger_owner actor a false ;;
  refuse (200 <? Z.of_nat (List.length receipts)) "too_many_receipts" 422 ;;
  project ← scoped Kassignment a;
  messages ← validate_receipts project receipts;
  incomplete ← ask (fun d => existsb (fun x => negb (window_read d a messages x)) (map ms_discussion_id messages));
  refuse incomplete "incomplete_initial_discussion_read" 409 ;;
  for_each (record_read a) messages ;;
  mret (Z.of_nat (List.length receipts)).

(** ** Replies *)

Definition least (l : list Z) : option Z := match l with [] => None | n :: l => Some (List.fold_left Z.min l n) end.

(** The least message of the discussion that the session read, or of the initial window. *)
Definition read_start (d : DB) (discussion_id a : uid) : option Z :=
  match least (map (fun m => bigint (ms_remote_id m))
                   (stored_rows (fun m => bool_decide (ms_discussion_id m = discussion_id) && receipted d a m) d)) with
  | Some n => Some n
  | None => least (map (fun m => bigint (ms_remote_id m)) (initial_window d discussion_id))
  end.

(** A message that mentions or links the session. *)
Definition addressed (d : DB) (a : uid) (m : message) : bool :=
  existsb (fun r => bool_decide (r.1 = (ms_id m, stored Kassignment a))) (tb_message_reference d).

(** [discussion_read_scope]: the messages that a reply must have read, and those whose current
    revision was. *)
Definition in_scope (d : DB) (discussion_id a : uid) (m : message) : bool :=
  bool_decide (ms_discussion_id m = discussion_id)
  && ((default 0 (read_start d discussion_id a) <=? bigint (ms_remote_id m)) || addressed d a m).

Definition known (d : DB) (a : uid) (m : message) : bool := present (tb_message_read d !! (a, ms_id m, ms_revision m)).

Definition older_message (m n : message) : bool := bigint (ms_remote_id m) <=? bigint (ms_remote_id n).

(** The revisions that a reply answers. *)
Definition frozen_revisions (d : DB) (discussion_id a : uid) : list (uid * Z) :=
  map (fun m => (ms_id m, ms_revision m)) (sort_by older_message (stored_rows (in_scope d discussion_id a) d)).

Fixpoint check_asserted (discussion_id : uid) (revisions : list (uid * Z)) : M unit :=
  match revisions with
  | [] => mret tt
  | r :: revisions =>
      m ← (get r.1 : M message);
      refuse (negb (bool_decide (ms_discussion_id m = discussion_id)) || negb (ms_revision m =? r.2)) "message_changed" 409 ;;
      check_asserted discussion_id revisions
  end.

Section replies.
Context (sha256 : string -> string) (put_json : json -> Blob).

(** [discussion_fingerprint]. *)
Definition by_message_id (m n : message) : bool := (ms_id m <=? ms_id n)%positive.

Definition newline : string := String "010" EmptyString.

Definition fingerprint_line (m : message) : string :=
  uuid_str (ms_id m) +:+ ":" +:+ pretty (ms_revision m) +:+ ":" +:+ (if present (ms_deleted_at m) then "True" else "False") +:+ newline.

Definition discussion_fingerprint (discussion_id : uid) : M string :=
  x ← (get discussion_id : M discussion);
  rows ← ask (fun d => sort_by by_message_id (stored_rows (fun m => bool_decide (ms_discussion_id m = discussion_id)) d));
  mret (sha256 (ds_channel_remote_id x +:+ ":" +:+ ds_topic x +:+ newline +:+ join "" (map fingerprint_line rows))).

(** What the reply has read: the start of its scope and the frozen revisions. *)
Definition reply_scope (discussion_id a : uid) (asserted : list (uid * Z)) : M (option Z * list (uid * Z)) :=
  check_asserted discussion_id asserted ;;
  unread ← ask (fun d => existsb (fun m => in_scope d discussion_id a m && negb (known d a m)) (map snd (map_to_list (tb_message d))));
  refuse unread "unread_messages" 409 ;;
  start ← ask (fun d => read_start d discussion_id a);
  revisions ← ask (fun d => frozen_revisions d discussion_id a);
  mret (start, revisions).

(** [queue_reply]. *)
Definition queue_reply (actor : Actor) (discussion_id : uid) (assignment_id : option uid) (body : string) (read_revisions : list (uid * Z))
    (urgent : bool) (key : string) : M outbox_operation :=
  x ← (get discussion_id : M discussion);
  require_project actor (ds_project_id x) WorkerGrant ;;
  when urgent (require_admin actor) ;;
  refuse (blank body || (32000 <? Z.of_nat (String.length body))) "invalid_message" 422 ;;
  match assignment_id with
  | Some a => require_ledger_owner actor a false ;; in_project Kassignment a (ds_project_id x)
  | None => mret tt
  end ;;
  refuse (is_agent actor && negb (present assignment_id)) "missing_assignment" 422 ;;
  '(start, revisions) ← match assignment_id with
                        | Some a => if urgent then mret (None, read_revisions) else reply_scope discussion_id a read_revisions
                        | None => mret (None, read_revisions)
                        end;
  match assignment_id with Some a => follow_discussion a discussion_id | None => mret tt end ;;
  let b := put_json (JObject [("body", JString body)]) in
  blob ← save_blob (ds_project_id x) (bl_sha256 b) (bl_size b) (bl_media_type b) None;
  create (new_operation (ds_project_id x) (actor_id actor) ZulipPostOp key
    (PPost {| po_discussion_id := discussion_id; po_body_artifact_id := ar_id blob; po_read_messages := revisions;
              po_source_assignment_id := assignment_id; po_read_start_remote_id := start;
              po_require_read_receipts := present assignment_id && negb urgent |})).
End replies.

(** ** Routing *)

(** A reference in the text of a message. *)
Inductive Mention : Type :=
| MentionAssignment (run number : Z)
| MentionNode (number : Z)
| MentionMission (number : Z)
| MentionPath (slug path : string).

Definition trailing : list ascii := ["."; ","; ";"; ":"; "!"; "?"; ")"; "]"; "}"]%char.

(** [text.rstrip(characters)]. *)
Fixpoint drop_while {A} (p : A -> bool) (l : list A) : list A :=
  match l with a :: l' => if p a then drop_while p l' else l | [] => [] end.

Definition rstrip_chars (cs : list ascii) (s : string) : string :=
  string_of_list_ascii (rev (drop_while (fun c => mem c cs) (rev (chars s)))).

(** The session with its numbers, in the project. *)
Definition numbered_assignment (d : DB) (project : uid) (run number : Z) (a : assignment) : bool :=
  (a_number a =? number)
  && match tb_run d !! a_run_id a with
     | Some r => (r_number r =? run) && match tb_mission d !! r_mission_id r with
                                        | Some m => bool_decide (m_project_id m = project)
                                        | None => false
                                        end
     | None => false
     end.

(** The subjects of one mention, and the session that it addresses directly. *)
Definition resolve_mention (project : uid) (m : Mention) : M (list ObjectRef * list uid) :=
  match m with
  | MentionAssignment run number =>
      found ← ask (fun d => stored_rows (numbered_assignment d project run number) d);
      mret match found with
           | a :: _ => ([stored Kassignment (a_id a)], if mem (a_status a) [Pending; Running] then [a_id a] else [])
           | [] => ([], [])
           end
  | MentionNode number =>
      found ← select (fun n => bool_decide (n_project_id n = project) && (n_number n =? number));
      lift match found with
           | [] => Ok ([], [])
           | [n] => Ok ([stored Knode (n_id n)], [])
           | _ => Err (RuntimeFailure "MultipleResultsFound")
           end
  | MentionMission number =>
      found ← select (fun n => bool_decide (m_project_id n = project) && (m_number n =? number));
      lift match found with
           | [] => Ok ([], [])
           | [n] => Ok ([stored Kmission (m_id n)], [])
           | _ => Err (RuntimeFailure "MultipleResultsFound")
           end
  | MentionPath slug raw =>
      let path := rstrip_chars trailing raw in
      let directory := ends_with "/" path in
      let path := rstrip_chars ["/"%char] path in
      found ← select (fun r => bool_decide (rp_project_id r = project) && bool_decide (rp_slug r = slug) && negb (present (rp_archived_at r)));
      match found with
      | [] => mret ([], [])
      | [r] =>
          let o := PathRef (if directory then DirectoryPath else FilePath) (rp_id r) path in
          if object_ref_valid o then o ← scoped_subject o project; mret ([o], []) else mret ([], [])
      | _ => throw (RuntimeFailure "MultipleResultsFound")
      end
  end.

Fixpoint resolve_all (project : uid) (l : list Mention) : M (list ObjectRef * list uid) :=
  match l with
  | [] => mret ([], [])
  | m :: l =>
      '(subjects, direct) ← resolve_mention project m;
      '(subjects', direct') ← resolve_all project l;
      mret ((subjects ++ subjects')%list, (direct ++ direct')%list)
  end.

(** The directories above a path: [PurePosixPath(path).parents] without ["."]. *)
Fixpoint prefixes (l : list string) : list (list string) :=
  match l with [] => [] | [_] => [] | s :: l => [s] :: map (cons s) (prefixes l) end.

Definition ancestors (o : ObjectRef) : list ObjectRef :=
  match o with
  | PathRef _ repository path => map (fun l => PathRef DirectoryPath repository (join "/" l)) (prefixes (posix_components path))
  | StoredRef _ => []
  end.

Definition live_subscription (d : DB) (selectors : list ObjectRef) (s : subscription) : bool :=
  mem (sb_subject_id s) selectors
  && match tb_assignment d !! sb_assignment_id s with Some a => mem (a_status a) [Pending; Running] | None => false end
  && match sb_expires_at s with Some t => db_now d <? t | None => true end.

Definition topic_mute (discussion_id : uid) (s : subscription) : bool :=
  bool_decide (sb_subject_id s = stored Kdiscussion discussion_id) && bool_decide (sb_mode s = Muted).

(** [recipients[identifier] = urgency] unless it is direct already. *)
Definition raise_to (a : uid) (u : urgency) (recipients : gmap uid urgency) : gmap uid urgency :=
  if bool_decide (recipients !! a = Some Direct) then recipients else <[a := u]> recipients.

Definition mode_urgency (m : subscription_mode) : urgency := if bool_decide (m = Prompt) then Direct else Routine.

Fixpoint gather (project : uid) (muted : list uid) (l : list subscription) (recipients : gmap uid urgency) : M (gmap uid urgency) :=
  match l with
  | [] => mret recipients
  | s :: l =>
      let a := sb_assignment_id s in
      skipped ← (if bool_decide (sb_mode s = Muted) || mem a muted then mret true
                 else p ← project_of Kassignment a; mret (negb (bool_decide (p = Some project))));
      gather project muted l (if (skipped : bool) then recipients else raise_to a (mode_urgency (sb_mode s)) recipients)
  end.

(** The upsert of a notification: a routine one is raised to direct, nothing else changes. *)
Definition notify_or_raise (assignment event : uid) (u : urgency) : M unit :=
  seen ← select (notified assignment event);
  match seen with
  | [] => notify assignment event u
  | _ => when (bool_decide (u = Direct))
           (update_where (fun n => notified assignment event n && bool_decide (nt_urgency n = Routine)) (fun n => n <| nt_urgency := Direct |>))
  end.

(** *** The text outside of code *)

(** [str.splitlines]: the last line is dropped when it is empty, and a return with a newline is one end. *)
Definition line_end (c : ascii) : bool := mem (code c) [10; 11; 12; 13; 28; 29; 30].

Fixpoint splitlines (l current : list ascii) : list (list ascii) :=
  match l with
  | [] => match current with [] => [] | _ => [rev current] end
  | c :: l' =>
      if line_end c
      then rev current :: match l' with
                          | c' :: l'' => if (code c =? 13) && (code c' =? 10) then splitlines l'' [] else splitlines l' []
                          | [] => []
                          end
      else splitlines l' (c :: current)
  end.

Fixpoint run_length (c : ascii) (l : list ascii) : nat :=
  match l with b :: l => if Ascii.eqb b c then S (run_length c l) else O | [] => O end.

Definition backtick : ascii := "`"%char.
Definition tilde : ascii := "~"%char.

(** The marker that opens or closes a block: at least three backticks or tildes after at most three
    spaces. *)
Definition fence_marker (line : list ascii) : option (ascii * nat) :=
  let indent := run_length " "%char line in
  let rest := drop indent line in
  match rest with
  | c :: _ =>
      let n := run_length c rest in
      if (indent <=? 3)%nat && (Ascii.eqb c backtick || Ascii.eqb c tilde) && (3 <=? n)%nat then Some (c, n) else None
  | [] => None
  end.

(** What follows the first run of [k] backticks. *)
Fixpoint after_backticks (k : nat) (l : list ascii) : option (list ascii) :=
  if (k <=? run_length backtick l)%nat then Some (drop k l) else match l with _ :: l => after_backticks k l | [] => None end.

(** The longest opening of the run that is closed later, and what follows its close. *)
Fixpoint close_span (k : nat) (l : list ascii) : option (list ascii) :=
  match k with
  | O => None
  | S k' => match after_backticks k (drop k l) with Some rest => Some rest | None => close_span k' l end
  end.

(** Without its inline code. *)
Fixpoint drop_spans (fuel : nat) (l : list ascii) : list ascii :=
  match fuel with
  | O => l
  | S fuel =>
      match l with
      | [] => []
      | c :: l' => match close_span (run_length backtick l) l with Some rest => drop_spans fuel rest | None => c :: drop_spans fuel l' end
      end
  end.

Fixpoint outside_fences (fence : option (ascii * nat)) (lines : list (list ascii)) : list (list ascii) :=
  match lines with
  | [] => []
  | line :: lines =>
      match fence_marker line, fence with
      | Some m, None => outside_fences (Some m) lines
      | Some m, Some f => outside_fences (if Ascii.eqb m.1 f.1 && (f.2 <=? m.2)%nat then None else fence) lines
      | None, None => drop_spans (List.length line) line :: outside_fences None lines
      | None, Some _ => outside_fences fence lines
      end
  end.

(** [_mention_text]. *)
Definition _mention_text (body : string) : string :=
  join newline (map string_of_list_ascii (outside_fences None (splitlines (chars body) []))).

Section routing.
Context (find_mentions : string -> list Mention).

(** [resolve_mentions]. *)
Definition resolve_mentions (project : uid) (body : string) : M (list ObjectRef * list uid) :=
  resolve_all project (take 100 (find_mentions (_mention_text (String.substring 0 (Z.to_nat 32000) body)))).

(** What the message of the event mentions, which is recorded, and whose message it is. *)
Definition message_mentions (e : event) (discussion_id project : uid) : M (list ObjectRef * list uid * option uid) :=
  match ev_subject_id e with
  | Some (StoredRef r) =>
      if bool_decide (ref_kind r = Kmessage) then
        m ← (get (ref_id r) : M message);
        refuse (negb (bool_decide (ms_discussion_id m = discussion_id))) "scope_mismatch" 422 ;;
        if present (ms_deleted_at m) then mret ([], [], ms_source_assignment_id m)
        else
          '(mentions, direct) ← resolve_mentions project (ms_body m);
          modify (fun d => d <| tb_message_reference :=
            (map (fun o => (ms_id m, o, MentionPurpose)) (remove_dups mentions)
             ++ List.filter (fun r => negb (bool_decide (r.1.1 = ms_id m) && bool_decide (r.2 = MentionPurpose))) (tb_message_reference d))%list |>) ;;
          mret (mentions, direct, ms_source_assignment_id m)
      else mret ([], [], None)
  | _ => mret ([], [], None)
  end.

(** The given references that lie in the project. *)
Fixpoint referenced_in (project : uid) (l : list ObjectRef) : M (list ObjectRef) :=
  match l with
  | [] => mret []
  | o :: l =>
      p ← match o with StoredRef r => project_of (ref_kind r) (ref_id r) | PathRef _ repository _ => project_of Krepository repository end;
      rest ← referenced_in project l;
      mret (if bool_decide (p = Some project) then o :: rest else rest)
  end.

(** [route_message]. *)
Definition route_message (e : event) (discussion_id : uid) (referenced : list ObjectRef) : M unit :=
  project ← lift match ev_project_id e with Some p => Ok p | None => Err (RuntimeFailure "project_id") end;
  x ← (same_project Kdiscussion discussion_id project : M discussion);
  linked ← ask (fun d => map snd (List.filter (fun r => bool_decide (r.1 = discussion_id)) (tb_discussion_subject d)));
  given ← referenced_in project referenced;
  '(mentions, direct, source) ← message_mentions e (ds_id x) project;
  let selectors := stored Kdiscussion discussion_id :: (linked ++ given ++ mentions)%list in
  let selectors := (selectors ++ concat (map ancestors selectors))%list in
  candidates ← ask (fun d => stored_rows (live_subscription d selectors) d);
  let muted := map sb_assignment_id (List.filter (topic_mute discussion_id) candidates) in
  recipients ← gather project muted candidates (list_to_map (map (fun a => (a, Direct)) direct));
  let recipients := match source with Some a => delete a recipients | None => recipients end in
  for_each (fun r => notify_or_raise r.1 (ev_id e) r.2) (map_to_list recipients).
End routing.
