(* ===== verification/Chat.v ===== *)
(** * Chat messages

    The mirror of a chat topic in src/archon_horizon/pipeline/integrations/connectors.py: one
    observed message is written over its row or becomes a new one ([_upsert_message]), a deleted one
    is kept as a tombstone ([_delete_message]); either is announced and routed only when something
    changed.  The remote messages are those that [ZulipClient] returns. *)

From S2P Require Import Prelude Contracts WorkerContracts ReviewContracts Conditions Schema Records Auth Samples MissionTree Missions Ledger Usage Capacity Sessions Assignments Deliveries Workspaces Labels Launch Panel Decisions Packets Gates Communications.

Local Open Scope string_scope.
Local Open Scope Z_scope.

(** A message of the chat server; its times are seconds. *)
Record RemoteMessage := {
  rm_id : Z;
  rm_sender_id : Z;
  rm_sender_email : string;
  rm_content : string;
  rm_timestamp : Z;
  rm_last_edit_timestamp : option Z;
  rm_stream_id : option Z;
  rm_subject : option string }.

Definition remote_name (r : RemoteMessage) : string := pretty (rm_id r).

(** [datetime.fromtimestamp]; a zero edit time is none. *)
Definition edited_time (r : RemoteMessage) : option instant :=
  match rm_last_edit_timestamp r with Some t => if t =? 0 then None else Some (seconds t) | None => None end.

(** The observed values, written over a row; who wrote it is only known of a delivered reply. *)
Definition message_values (r : RemoteMessage) (author source : option uid) (m : message) : message :=
  let m := m <| ms_remote_author_id := pretty (rm_sender_id r) |> <| ms_body := rm_content r |>
             <| ms_posted_at := seconds (rm_timestamp r) |> <| ms_edited_at := edited_time r |> <| ms_deleted_at := None |> in
  let m := match author with Some a => m <| ms_author_principal_id := Some a |> | None => m end in
  match source with Some a => m <| ms_source_assignment_id := Some a |> | None => m end.

Definition new_message (discussion : uid) (r : RemoteMessage) (author source : option uid) (i : uid) (now : instant) : message :=
  message_values r author source
    {| ms_id := i; ms_created_at := now; ms_updated_at := now; ms_revision := 1; ms_discussion_id := discussion;
       ms_remote_id := remote_name r; ms_remote_author_id := ""; ms_author_principal_id := None; ms_source_assignment_id := None;
       ms_body := ""; ms_posted_at := 0; ms_edited_at := None; ms_deleted_at := None |}.

Definition message_fields (author source : option uid) : list string :=
  (["remote_author_id"; "body"; "posted_at"; "edited_at"; "deleted_at"]
   ++ (if present author then ["author_principal_id"] else []) ++ (if present source then ["source_assignment_id"] else []))%list.

(** The fields in which two rows of a message differ. *)
Definition changed_in (a b : message) : list string :=
  ((if bool_decide (ms_remote_author_id a = ms_remote_author_id b) then [] else ["remote_author_id"])
   ++ (if bool_decide (ms_body a = ms_body b) then [] else ["body"])
   ++ (if bool_decide (ms_posted_at a = ms_posted_at b) then [] else ["posted_at"])
   ++ (if bool_decide (ms_edited_at a = ms_edited_at b) then [] else ["edited_at"])
   ++ (if bool_decide (ms_deleted_at a = ms_deleted_at b) then [] else ["deleted_at"])
   ++ (if bool_decide (ms_author_principal_id a = ms_author_principal_id b) then [] else ["author_principal_id"])
   ++ (if bool_decide (ms_source_assignment_id a = ms_source_assignment_id b) then [] else ["source_assignment_id"]))%list.

Definition message_subject (m : message) : Subject :=
  {| sub_ref := Some (stored Kmessage (ms_id m)); sub_revision := ms_revision m; sub_status := ""; sub_note := None |}.

(** The row of a remote message in a discussion. *)
Definition remote_row (discussion : uid) (remote : string) (m : message) : bool :=
  bool_decide (ms_discussion_id m = discussion) && bool_decide (ms_remote_id m = remote).

Definition live_row (discussion : uid) (remote : string) (m : message) : bool :=
  remote_row discussion remote m && negb (present (ms_deleted_at m)).

Section chat.
Context (find_mentions : string -> list Mention).

(** The event of a changed message, and its routing. *)
Definition announce_message (x : discussion) (m : message) (changed : list string) : M unit :=
  e ← emit_from ("zulip:" +:+ uuid_str (ds_integration_id x)) None (Some (ds_project_id x)) (message_subject m) changed;
  route_message find_mentions e (ds_id x) [].

(** [_upsert_message]. *)
Definition _upsert_message (x : discussion) (r : RemoteMessage) (author source : option uid) : M message :=
  existing ← select (remote_row (ds_id x) (remote_name r));
  match existing with
  | m :: _ =>
      let changed := changed_in m (message_values r author source m) in
      if nonempty changed then
        row ← change (ms_id m) None (message_values r author source);
        announce_message x row changed ;;
        mret row
      else mret m
  | [] =>
      row ← create (new_message (ds_id x) r author source);
      announce_message x row (message_fields author source) ;;
      mret row
  end.

(** [_delete_message]. *)
Definition _delete_message (x : discussion) (remote : string) : M unit :=
  old ← select (live_row (ds_id x) remote);
  match old with
  | m :: _ =>
      now ← ask db_now;
      row ← change (ms_id m) None (fun m => m <| ms_deleted_at := Some now |>);
      announce_message x row ["deleted_at"]
  | [] => mret tt
  end.

(** The record of a delivered reply: its message, and the receipt of its author unless the server
    changed the text. *)
Definition record_post (x : discussion) (r : RemoteMessage) (author : uid) (source : option uid) (unchanged : bool) : M ObjectRef :=
  row ← _upsert_message x r (Some author) source;
  match ms_source_assignment_id row with
  | Some a =>
      when unchanged
        (modify (fun d => let k := (a, ms_id row, ms_revision row) in
           if present (tb_message_read d !! k) then d else d <| tb_message_read := <[k := db_now d]> (tb_message_read d) |>))
  | None => mret tt
  end ;;
  mret (stored Kmessage (ms_id row)).
End chat.

(** ** Framing *)

(** The reading steps of the routing. *)
Section mentions.
Context (R : relation DB) `{!PreOrder R}.

Lemma keeps_subject_in_project o project : Keeps R (subject_in_project o project).
Proof. unfold subject_in_project. frame. Qed.

Lemma keeps_scoped_subject o project : Keeps R (scoped_subject o project).
Proof. pose proof keeps_subject_in_project. unfold scoped_subject. frame. Qed.

Lemma keeps_resolve_mention project m : Keeps R (resolve_mention project m).
Proof. pose proof keeps_scoped_subject. unfold resolve_mention. frame. Qed.

Lemma keeps_resolve_all project l : Keeps R (resolve_all project l).
Proof. pose proof keeps_resolve_mention. induction l; cbn [resolve_all]; frame. Qed.

Lemma keeps_referenced_in project l : Keeps R (referenced_in project l).
Proof. induction l; cbn [referenced_in]; frame. Qed.
End mentions.
#[export] Hint Resolve keeps_resolve_all keeps_referenced_in : frame.

Lemma keeps_resolve_mentions R `{!PreOrder R} find project body : Keeps R (resolve_mentions find project body).
Proof. apply keeps_resolve_all, _. Qed.
#[export] Hint Resolve keeps_resolve_mentions : frame.

Section framing.
Context (R : relation DB) `{!PreOrder R, !Quiet R event, !Quiet R notification}.
Context (Hl : forall d l, R d (d <| tb_message_reference := l |>)) (Hr : forall d l, R d (d <| tb_message_read := l |>)).
Context (find : string -> list Mention).

Lemma keeps_gather project muted l m : Keeps R (gather project muted l m).
Proof. revert m. induction l; intros m; cbn [gather]; frame. Qed.

Lemma keeps_message_mentions e x project : Keeps R (message_mentions find e x project).
Proof. unfold message_mentions. frame. apply keeps_modify. intros d. apply Hl. Qed.

Lemma keeps_route_message e x l : Keeps R (route_message find e x l).
Proof. pose proof keeps_gather. pose proof keeps_message_mentions. unfold route_message, notify_or_raise, notify. frame. Qed.

Lemma keeps_announce_message x m l : Keeps R (announce_message find x m l).
Proof. pose proof keeps_route_message. unfold announce_message, emit_from. frame. Qed.

Context `{!Quiet R message}.

Lemma keeps_upsert x r a s : Keeps R (_upsert_message find x r a s).
Proof. pose proof keeps_announce_message. unfold _upsert_message. frame. Qed.

Lemma keeps_delete x r : Keeps R (_delete_message find x r).
Proof. pose proof keeps_announce_message. unfold _delete_message. frame. Qed.

Lemma keeps_record_post x r a s b : Keeps R (record_post find x r a s b).
Proof.
  pose proof keeps_upsert. unfold record_post. frame. apply keeps_modify. intros d. cbv zeta.
  destruct (present _); [reflexivity|apply Hr].
Qed.
End framing.
