(* ===== verification/Outbox.v ===== *)
(** * The outbox of the connectors

    [ConnectorManager] of src/archon_horizon/pipeline/integrations/connectors.py: the claim of a due
    delivery ([_claim_operation]), the check that its intent still stands ([_actor],
    [_require_delivery_project], [_operation_snapshot], [_authorize_mutation]), the settlement
    ([_settle_operation]) and their sequence ([dispatch_one]).  Each of them is one transaction; the
    delivery between them talks to the forge and is an argument.  The message of a failure is
    its code.

    Arguments: [casefold] and the manifests as in Labels.v; the mentions of Communications.v; the owner name of the manager, its
    limit of attempts, and the randomised wait of an attempt. *)

From S2P Require Import Prelude Contracts ReviewContracts Conditions Schema Records Auth Samples MissionTree Missions Ledger Usage Capacity Sessions Assignments Deliveries Settlement Runs Workspaces Labels Objectives Demand Launch WorkerEvents Panel Decisions Packets Gates Communications Chat.

Local Open Scope string_scope.
Local Open Scope Z_scope.

(** ** Claiming *)

(** [delivery_target]: deliveries with the same target keep their order. *)
Definition delivery_target (o : outbox_operation) : option string :=
  match ob_payload o with
  | PLabel i _ _ _ _ => Some (uuid_str i)
  | PReview p => Some (uuid_str (py_forge_item_id p))
  | PMerge b _ _ => Some (uuid_str (fm_forge_item_id b))
  | PEdit b => Some (uuid_str (fe_forge_item_id b))
  | PComment b _ => Some (uuid_str (ft_forge_item_id b))
  | PPost b => Some (uuid_str (po_discussion_id b))
  | PCreate b =>
      match fk_kind b with
      | PullRequest => (fun h => uuid_str (fk_repository_id b) +:+ ":pull:" +:+ h) <$> fk_head b
      | Issue => Some (uuid_str (ob_id o))
      end
  | PChange b => Some match fx_forge_item_id b with Some i => uuid_str i | None => uuid_str (ob_id o) end
  | PGoalUpdate _ _ _ _ | POther _ => None
  end.

Definition unsettled_delivery (o : outbox_operation) : bool := mem (ob_status o) [OutPending; OutRunning; OutUncertain].

Definition precedes (p o : outbox_operation) : bool :=
  (ob_created_at p <? ob_created_at o) || (ob_created_at p =? ob_created_at o) && (ob_id p <? ob_id o)%positive.

Definition same_target (p o : outbox_operation) : bool :=
  match delivery_target p, delivery_target o with Some a, Some b => bool_decide (a = b) | _, _ => false end.

Definition blocked (d : DB) (o : outbox_operation) : bool :=
  existsb (fun p => unsettled_delivery p && same_target p o && precedes p o) (map snd (map_to_list (tb_outbox_operation d))).

Definition connector_kind (k : outbox_kind) : bool :=
  mem k [ZulipPostOp; ForgeLabelOp; ForgeReviewOp; ForgeMergeOp; ForgeCreateOp; ForgeCommentOp; ForgeChangeOp; ForgeEditOp].

Definition due (now : instant) (o : outbox_operation) : bool :=
  (mem (ob_status o) [OutPending; OutUncertain] && match ob_retry_at o with Some t => t <=? now | None => true end)
  || (bool_decide (ob_status o = OutRunning) && match ob_lease_expires_at o with Some t => t <=? now | None => false end).

Definition claimable (d : DB) (now : instant) (o : outbox_operation) : bool :=
  connector_kind (ob_kind o) && negb (blocked d o) && due now o.

(** Background repair of terminal labels comes last. *)
Definition background (o : outbox_operation) : bool := starts_with "terminal-review-label:" (ob_idempotency_key o).

Definition claim_order (a b : outbox_operation) : bool :=
  (negb (background a) && background b)
  || (Bool.eqb (background a) (background b)
      && ((ob_created_at a <? ob_created_at b) || (ob_created_at a =? ob_created_at b) && (ob_id a <=? ob_id b)%positive)).

(** A claimed delivery: its row, and whether its outcome is only reconciled. *)
Record Claimed := { co_operation : outbox_operation; co_reconcile_only : bool }.

Definition LEASE : Z := seconds 300.

Section connectors.
Context (read_manifest : string -> option ReviewManifest) (casefold : string -> string) (find_mentions : string -> list Mention).
Context (owner : string) (max_delivery_attempts : Z) (wait : Z -> Z).

(** [_claim_operation]. *)
Definition _claim_operation : M (option Claimed) :=
  now ← ask db_clock;
  found ← ask (fun d => first_by claim_order (stored_rows (claimable d now) d));
  match found with
  | None => mret None
  | Some row =>
      let uncertain := mem (ob_status row) [OutUncertain; OutRunning] in
      claimed ← change (ob_id row) None (fun o => o <| ob_status := OutRunning |> <| ob_lease_owner := Some owner |>
        <| ob_lease_epoch := ob_lease_epoch row + 1 |> <| ob_lease_expires_at := Some (now + LEASE) |>
        <| ob_retry_count := ob_retry_count row + 1 |>);
      mret (Some {| co_operation := claimed; co_reconcile_only := uncertain |})
  end.

(** ** The intent of a delivery *)

(** [_actor]. *)
Definition _actor (c : Claimed) : M Actor :=
  p ← (get (ob_actor_principal_id (co_operation c)) : M principal);
  if present (pr_disabled_at p) && negb (co_reconcile_only c) then connector_failure "actor_disabled"
  else mret {| actor_id := pr_id p; actor_kind := pr_kind p; actor_execution := pr_execution_id p; actor_host := pr_host_id p;
               actor_credential_kind := Some (if bool_decide (pr_kind p = Agent) then ExecutionToken else ApiKey);
               actor_credential_id := None |}.

Definition fail_when (b : bool) (code : string) : M unit := if b then connector_failure code else mret tt.

Definition same_intent (a b : outbox_operation) : bool :=
  bool_decide (ob_actor_principal_id a = ob_actor_principal_id b) && bool_decide (ob_project_id a = ob_project_id b)
  && bool_decide (ob_kind a = ob_kind b) && bool_decide (ob_payload a = ob_payload b).

(** [_require_delivery_project]: the intent was authorized when it was queued; delivery honours
    what was revoked since. *)
Definition _require_delivery_project (o : outbox_operation) (actor : Actor) (project : uid) (role : grant_role) : M unit :=
  row ← (get (ob_id o) : M outbox_operation);
  fail_when (negb (unsettled_delivery row) || negb (same_intent row o) || negb (bool_decide (ob_actor_principal_id row = actor_id actor))
             || negb (bool_decide (ob_project_id row = Some project))) "delivery_intent_scope_mismatch" ;;
  p ← (get (actor_id actor) : M principal);
  fail_when (present (pr_disabled_at p)) "actor_disabled" ;;
  if negb (is_agent actor) then require_project actor project role
  else
    x ← (get_opt (pr_execution_id p) : M execution);
    a ← (get (x_assignment_id x) : M assignment);
    r ← (get (a_run_id a) : M run);
    pinned ← (get (x_assignment_revision_id x) : M record_revision);
    fail_when (mem (x_status x) [XStopping; XCancelled] || mem (a_status a) [Stopping; Cancelled] || mem (r_status r) [RunStopping; RunCancelled])
              "delivery_authority_revoked" ;;
    owner_project ← project_of Krun (r_id r);
    fail_when (match rr_content pinned with
               | CAssignment row => negb (bool_decide (Schema.a_id row = a_id a)) || negb (bool_decide (a_run_id row = r_id r))
                                    || negb (bool_decide (owner_project = Some project))
                                    || (grant_order (role_grant (a_role row)) <? grant_order role)
                                    || (grant_order (role_grant (a_role a)) <? grant_order role)
               | _ => true
               end) "delivery_authority_scope_mismatch".

(** What a settlement needs of the snapshot. *)
Record Snapshot := {
  sn_actor : Actor;
  sn_integration : integration;
  sn_repository : option repository;
  sn_item : option forge_item;
  sn_identity : option integration_identity;
  sn_labels : payload;
  sn_discussion : option discussion;
  sn_read : list (string * string) }.

Definition snapshot_of (actor : Actor) (i : integration) (r : option repository) (f : option forge_item)
    (identity : option integration_identity) (labels : payload) : Snapshot :=
  {| sn_actor := actor; sn_integration := i; sn_repository := r; sn_item := f; sn_identity := identity; sn_labels := labels;
     sn_discussion := None; sn_read := [] |}.

(** The receipts that a reply answers, each still of the current revision, and the remote names and
    texts of those that were not deleted. *)
Fixpoint read_receipts (discussion : uid) (l : list (uid * Z)) : M (list (string * string)) :=
  match l with
  | [] => mret []
  | r :: l =>
      m ← (get r.1 : M message);
      fail_when (negb (bool_decide (ms_discussion_id m = discussion)) || negb (ms_revision m =? r.2)) "reply_requires_updated_read_receipts" ;;
      rest ← read_receipts discussion l;
      mret (if present (ms_deleted_at m) then rest else (ms_remote_id m, ms_body m) :: rest)
  end.

Definition post_snapshot (c : Claimed) (actor : Actor) (b : PostPayload) : M Snapshot :=
  d ← (get (po_discussion_id b) : M discussion);
  when (negb (co_reconcile_only c)) (_require_delivery_project (co_operation c) actor (ds_project_id d) WorkerGrant) ;;
  (if bool_decide (ds_sync_status d = SyncCurrent) then mret tt else throw (ConnectorFailure "discussion_not_current" true false 0)) ;;
  read ← read_receipts (ds_id d) (if co_reconcile_only c then [] else po_read_messages b);
  x ← (get (po_body_artifact_id b) : M artifact);
  fail_when (negb (bool_decide (ar_project_id x = ds_project_id d)) || negb (bool_decide (ar_kind x = BlobArtifact)))
            "reply_artifact_scope_mismatch" ;;
  i ← (get (ds_integration_id d) : M integration);
  mret {| sn_actor := actor; sn_integration := i; sn_repository := None; sn_item := None; sn_identity := None;
          sn_labels := ob_payload (co_operation c); sn_discussion := Some d; sn_read := read |}.

(** The origin of a new item or change, and its repository. *)
Definition origin_snapshot (c : Claimed) (actor : Actor) (repository_id run_id : uid) : M (repository * run * integration) :=
  repository ← (get repository_id : M repository);
  r ← (get run_id : M run);
  p ← project_of Krun (r_id r);
  fail_when (negb (bool_decide (p = Some (rp_project_id repository)))) "forge_origin_project_mismatch" ;;
  when (negb (co_reconcile_only c)) (_require_delivery_project (co_operation c) actor (rp_project_id repository) WorkerGrant) ;;
  i ← (get (rp_integration_id repository) : M integration);
  mret (repository, r, i).

(** The content of a change: blobs of the project, of at most 1 MiB each and 8 MiB together. *)
Fixpoint check_files (project : uid) (files : list ForgeFileChange) (total : Z) : M unit :=
  match files with
  | [] => mret tt
  | f :: files =>
      match ff_content_artifact_id f with
      | None => check_files project files total
      | Some i =>
          x ← (get i : M artifact);
          fail_when (negb (bool_decide (ar_project_id x = project)) || negb (bool_decide (ar_kind x = BlobArtifact)))
                    "change_content_artifact_scope_mismatch" ;;
          size ← lift match ar_content x with BlobContent _ n _ => Ok n | _ => Err (RuntimeFailure "size_bytes") end;
          fail_when ((1024 ^ 2 <? size) || (8 * 1024 ^ 2 <? total + size)) "change_content_too_large" ;;
          check_files project files (total + size)
      end
  end.

Definition change_snapshot (c : Claimed) (actor : Actor) (b : ForgeChange) : M Snapshot :=
  '(repository, _, i) ← origin_snapshot c actor (fx_repository_id b) (fx_origin_run_id b);
  item ← (match fx_forge_item_id b with
          | None => mret None
          | Some k =>
              when (negb (co_reconcile_only c)) (_require_delivery_project (co_operation c) actor (rp_project_id repository) MaintainerGrant) ;;
              item ← (get k : M forge_item);
              fail_when (negb (bool_decide (fi_repository_id item = rp_id repository)) || negb (bool_decide (fi_kind item = PullRequest)))
                        "amendment_scope_mismatch" ;;
              mret (Some item)
          end);
  check_files (rp_project_id repository) (fx_files b) 0 ;;
  mret (snapshot_of actor i (Some repository) item None (ob_payload (co_operation c))).

Definition create_snapshot (c : Claimed) (actor : Actor) (b : ForgeCreate) : M Snapshot :=
  '(repository, r, i) ← origin_snapshot c actor (fk_repository_id b) (fk_origin_run_id b);
  when (bool_decide (fk_kind b = PullRequest) || bool_decide (r_orchestration r = ObjectiveRun))
    (_ ← matching_policy (rp_id repository) (fk_review_phase b) false; mret tt) ;;
  mret (snapshot_of actor i (Some repository) None None (ob_payload (co_operation c))).

(** The submission of a reviewer belongs to the reviewer's own invocation. *)
Definition reviewer_role (actor : Actor) (p : ReviewPayload) : M grant_role :=
  if py_reviewer_submission p then
    q ← (get_opt (py_provider_request_id p) : M provider_request);
    fail_when (negb (is_agent actor) || negb (bool_decide (actor_execution actor = Some (q_execution_id q)))
               || negb (bool_decide (q_reviewer_descriptor_id q = py_reviewer_descriptor_id p)) || negb (bool_decide (q_reason q = ForReview)))
              "reviewer_submission_scope_mismatch" ;;
    mret WorkerGrant
  else mret MaintainerGrant.

(** A merge is sent only while the gate that allows it stands. *)
Definition merge_stands (c : Claimed) (item : forge_item) (b : ForgeMerge) (base_oid : option string) : M unit :=
  gate ← (get (fm_review_gate_id b) : M review_gate);
  policy ← (get (rg_policy_id gate) : M review_policy);
  revision ← (get (rg_policy_revision_id gate) : M record_revision);
  fail_when (negb (co_reconcile_only c)
             && (negb (bool_decide (rg_forge_item_id gate = fi_id item)) || negb (bool_decide (rg_status gate = GateAccepted))
                 || negb (bool_decide (rg_accepted_commit_oid gate = Some (fm_expected_head_oid b)))
                 || negb (bool_decide (fi_head_commit_oid item = Some (fm_expected_head_oid b)))
                 || negb (rv_enabled policy) || negb (rr_object_revision revision =? rv_revision policy))) "merge_gate_stale_or_unaccepted" ;;
  (match rg_maintainer_review_id gate with Some r => _ ← (get r : M forge_review); mret tt | None => mret tt end) ;;
  when (negb (co_reconcile_only c))
    (p ← repository_review_panel item policy None;
     carried ← ask (fun d => carried_review_payload d item policy);
     fail_when (nonempty (pn_missing p) || nonempty (pn_invalid_carry_forward p)
                || match pn_base_commit_oid p with Some b => negb (bool_decide (base_oid = Some b)) | None => false end
                || match carried with Some p => negb (bool_decide (py_expected_base_oid p = base_oid)) | None => false end)
               "review_panel_incomplete_or_stale").

(** A review that carries evidence forward is sent only while the evidence stands. *)
Definition carry_stands (item : forge_item) (p : ReviewPayload) (carries : list Carry) : M unit :=
  revision ← (get_opt (py_policy_revision_id p) : M record_revision);
  policy ← (match rr_object_id revision with
            | StoredRef r => if bool_decide (ref_kind r = Kreview_policy) then (get (ref_id r) : M review_policy)
                             else throw (DomainError "invalid_identifier" 422)
            | _ => throw (DomainError "invalid_identifier" 422)
            end);
  fail_when (negb (applicable item policy)) "review_carry_policy_changed" ;;
  _ ← _validate_carries item policy carries;
  mret tt.

Definition payload_item (b : payload) : result uid :=
  match b with
  | PLabel i _ _ _ _ => Ok i
  | PReview p => Ok (py_forge_item_id p)
  | PMerge b _ _ => Ok (fm_forge_item_id b)
  | PEdit b => Ok (fe_forge_item_id b)
  | PComment b _ => Ok (ft_forge_item_id b)
  | _ => Err (RuntimeFailure "forge_item_id")
  end.

Definition payload_identity (b : payload) : option uid :=
  match b with
  | PLabel _ _ _ i _ => i
  | PReview p => py_integration_identity_id p
  | PMerge b _ _ => fm_integration_identity_id b
  | PComment _ i => i
  | _ => None
  end.

Definition item_snapshot (c : Claimed) (actor : Actor) : M Snapshot :=
  let o := co_operation c in
  k ← lift (payload_item (ob_payload o));
  item ← (get k : M forge_item);
  repository ← (get (fi_repository_id item) : M repository);
  role ← (match ob_payload o with
          | PReview p => reviewer_role actor p
          | PMerge _ _ _ | PEdit _ => mret MaintainerGrant
          | _ => mret WorkerGrant
          end);
  when (negb (co_reconcile_only c) || bool_decide (ob_kind o = ForgeLabelOp)) (_require_delivery_project o actor (rp_project_id repository) role) ;;
  i ← (get (rp_integration_id repository) : M integration);
  labels ← ask (fun d => label_projection d (fi_id item) (ob_payload o));
  identity ← (match payload_identity (ob_payload o) with
              | Some k =>
                  x ← (get k : M integration_identity);
                  fail_when (negb (bool_decide (ii_integration_id x = ig_id i)) || (negb (ii_enabled x) && negb (co_reconcile_only c)))
                            "review_identity_unavailable" ;;
                  mret (Some x)
              | None => mret None
              end);
  (match ob_payload o with
   | PMerge b _ base => merge_stands c item b base
   | PReview p => match py_carry_forward_evidence p with
                  | Some (e :: rest) => when (negb (co_reconcile_only c)) (carry_stands item p (e :: rest))
                  | _ => mret tt
                  end
   | _ => mret tt
   end) ;;
  mret (snapshot_of actor i (Some repository) (Some item) identity labels).

(** [_operation_snapshot]. *)
Definition _operation_snapshot (c : Claimed) : M Snapshot :=
  actor ← _actor c;
  s ← (match ob_payload (co_operation c) with
       | PPost b => post_snapshot c actor b
       | PCreate b => create_snapshot c actor b
       | PChange b => change_snapshot c actor b
       | _ => item_snapshot c actor
       end);
  fail_when (negb (ig_enabled (sn_integration s))) "integration_disabled" ;;
  mret s.

(** The claim still holds its lease. *)
Definition holds_lease (c : Claimed) (now : instant) (o : outbox_operation) : bool :=
  bool_decide (ob_lease_owner o = Some owner) && (ob_lease_epoch o =? ob_lease_epoch (co_operation c))
  && match ob_lease_expires_at o with Some t => now <? t | None => false end.

(** [_authorize_mutation], before every write to the forge. *)
Definition _authorize_mutation (c : Claimed) : M unit :=
  o ← (get (ob_id (co_operation c)) : M outbox_operation);
  now ← ask db_clock;
  fail_when (negb (bool_decide (ob_status o = OutRunning)) || negb (holds_lease c now o)) "delivery_fenced" ;;
  _ ← _operation_snapshot c;
  mret tt.

(** ** Settling *)

(** What the forge or the chat answered; of a reply, its message and whether the text is as sent. *)
Inductive remote_result : Type :=
| ChangeResult (commit_oid branch : string)
| ItemResult (r : RemoteItem)
| ReviewResult (r : RemoteReview)
| LabelResult (labels : list string)
| MergeResult
| CommentResult
| PostResult (r : RemoteMessage) (unchanged : bool).

Definition artifact_subject (a : artifact) : Subject :=
  {| sub_ref := Some (stored Kartifact (ar_id a)); sub_revision := 1; sub_status := ""; sub_note := None |}.

Definition announce (actor project : uid) (item : forge_item) (fields : list string) : M unit :=
  e ← emit (Some actor) (Some project) (item_subject item) fields None None None;
  route_subject_event e.

(** The verified publication of the branch that a session's change created. *)
Definition publish_branch (assignment a repository : uid) (branch : string) : M unit :=
  b ← create (fun i now => (new_publication a assignment (GitTarget repository ("refs/heads/" +:+ branch) None) i now)
                             <| pb_status := PubVerified |> <| pb_verified_at := Some now |>);
  check_target b.

Definition same_location (row l : artifact_location) : bool :=
  negb (bool_decide (al_id l = al_id row)) && bool_decide (al_artifact_id l = al_artifact_id row)
  && bool_decide (al_locator l = al_locator row) && negb (present (al_host_id l)).

Definition locate (a : uid) (locator : string) : M unit :=
  l ← create (fun i now =>
    {| al_id := i; al_created_at := now; al_updated_at := now; al_revision := 1; al_artifact_id := a; al_host_id := None;
       al_locator := locator; al_verified_at := Some now; al_missing_since := None; al_removed_at := None; al_removal_reason := None |});
  clash ← any (same_location l);
  if (clash : bool) then throw (RuntimeFailure "uq_artifact_location_shared") else mret tt.

Definition record_change (o : outbox_operation) (s : Snapshot) (repository : repository) (commit branch : string) : M ObjectRef :=
  p ← (get (ob_actor_principal_id o) : M principal);
  let content := CommitContent (rp_id repository) commit in
  found ← select (same_commit (Some (rp_project_id repository)) content);
  a ← (match found with
       | a :: _ => mret a
       | [] => create (fun i now => {| ar_id := i; ar_created_at := now; ar_project_id := rp_project_id repository;
                                       ar_created_by_execution_id := pr_execution_id p; ar_kind := CommitArtifact; ar_content := content |})
       end);
  (match pr_execution_id p with
   | Some i => x ← (get i : M execution);
               attach_artifact (x_assignment_id x) (ar_id a) ;;
               publish_branch (x_assignment_id x) (ar_id a) (rp_id repository) branch
   | None => mret tt
   end) ;;
  locate (ar_id a) (rstrip_slash (ig_endpoint (sn_integration s)) +:+ "/"
                    +:+ default (rp_remote_id repository) (truthy (rp_remote_path repository)) +:+ "/commit/" +:+ commit) ;;
  _ ← emit (Some (actor_id (sn_actor s))) (Some (rp_project_id repository)) (artifact_subject a) ["content"] None None None;
  (match ob_payload o with
   | PChange b =>
       match fx_forge_item_id b with
       | Some k =>
           now ← ask db_now;
           item ← change k None (fun i : forge_item => i <| fi_head_commit_oid := Some commit |> <| fi_observed_at := now |>);
           _invalidate_gate read_manifest (fi_id item) ;;
           announce (actor_id (sn_actor s)) (rp_project_id repository) item ["head_commit_oid"]
       | None => mret tt
       end
   | _ => mret tt
   end) ;;
  mret (stored Kartifact (ar_id a)).

Definition provenance_conflict (b : ForgeCreate) (i : forge_item) : bool :=
  match fi_origin_run_id i with Some r => negb (bool_decide (r = fk_origin_run_id b)) | None => false end
  || match fi_review_phase i with Some k => negb (bool_decide (k = fk_review_phase b)) | None => false end.

Definition with_provenance (b : ForgeCreate) (i : forge_item) : forge_item :=
  i <| fi_origin_run_id := Some (fk_origin_run_id b) |> <| fi_review_phase := Some (fk_review_phase b) |>.

Definition record_creation (s : Snapshot) (repository : repository) (b : ForgeCreate) (r : RemoteItem) : M ObjectRef :=
  clock ← ask db_clock;
  found ← ask (fun d => head (stored_rows (same_item (rp_id repository) r) d));
  item ← (match found with
          | Some old =>
              fail_when (provenance_conflict b old) "forge_creation_provenance_conflict" ;;
              change (fi_id old) None (fun i => with_provenance b (_item_values r clock i))
          | None => create (fun i now => with_provenance b (new_item (rp_id repository) r clock i now))
          end);
  announce (actor_id (sn_actor s)) (rp_project_id repository) item (item_fields ++ ["origin_run_id"; "review_phase"])%list ;;
  mret (stored Kforge_item (fi_id item)).

Definition finish_item (s : Snapshot) (project : uid) (item : forge_item) (fields : list string) : M ObjectRef :=
  announce (actor_id (sn_actor s)) project item fields ;;
  _ ← terminal_label_operation casefold (actor_id (sn_actor s)) item None;
  mret (stored Kforge_item (fi_id item)).

(** The record of a delivery that succeeded. *)
Definition record_result (o : outbox_operation) (s : Snapshot) (result : remote_result) : M ObjectRef :=
  let actor := actor_id (sn_actor s) in
  match ob_payload o, sn_repository s, sn_item s, result with
  | PPost b, _, _, PostResult r unchanged =>
      match sn_discussion s with
      | Some x => record_post find_mentions x r (ob_actor_principal_id o) (po_source_assignment_id b) unchanged
      | None => throw (RuntimeFailure "delivery")
      end
  | PChange _, Some repository, _, ChangeResult commit branch => record_change o s repository commit branch
  | PCreate b, Some repository, _, ItemResult r => record_creation s repository b r
  | PReview p, Some repository, Some item, ReviewResult r =>
      _record_review read_manifest casefold
        {| it_actor := actor; it_item := item; it_project := rp_project_id repository; it_identity := sn_identity s |} (ob_id o) p r
  | PEdit _, Some repository, Some item, ItemResult r =>
      clock ← ask db_clock;
      row ← change (fi_id item) None (_item_values r clock);
      _invalidate_gate read_manifest (fi_id row) ;;
      finish_item s (rp_project_id repository) row ["target_branch"; "status"]
  | PMerge _ _ _, Some repository, Some item, MergeResult =>
      now ← ask db_now;
      row ← change (fi_id item) None (fun i : forge_item => i <| fi_status := ItemMerged |> <| fi_observed_at := now |>);
      finish_item s (rp_project_id repository) row ["status"]
  | PLabel _ _ _ _ g, Some repository, Some item, LabelResult labels =>
      row ← change (fi_id item) None (fun i : forge_item => i <| fi_labels := labels |>);
      when (present g) (repair_label row actor (ob_id o)) ;;
      announce actor (rp_project_id repository) row ["labels"] ;;
      mret (stored Kforge_item (fi_id item))
  | PComment _ _, Some repository, Some item, CommentResult =>
      announce actor (rp_project_id repository) item ["comments"] ;;
      mret (stored Kforge_item (fi_id item))
  | _, _, _, _ => throw (RuntimeFailure "delivery")
  end.

(** A failed delivery: its code, whether it may be sent again, whether it may have been sent, and
    when to retry at the earliest. *)
Record DeliveryError := { dv_code : string; dv_transient : bool; dv_uncertain : bool; dv_retry_after : Z }.

Definition deferred (e : DeliveryError) : bool := mem (dv_code e) ["discussion_not_current"; "connector_stopping"].

Definition exhausted (c : Claimed) (e : DeliveryError) : bool :=
  (max_delivery_attempts <=? ob_retry_count (co_operation c)) && negb (deferred e).

Definition failed_status (c : Claimed) (e : DeliveryError) : outbox_status :=
  if dv_uncertain e || co_reconcile_only c then OutUncertain
  else if dv_transient e && negb (exhausted c e) then OutPending else OutFailed.

Definition deferred_attempts (c : Claimed) (e : DeliveryError) : Z :=
  if deferred e then default 0 (f ← ob_failure (co_operation c); df_deferred_attempts f) + 1 else 0.

Definition retry_delay (c : Claimed) (e : DeliveryError) : Z :=
  let attempt := Z.min 32 (if deferred e then deferred_attempts c e else ob_retry_count (co_operation c)) in
  let delay := Z.max (dv_retry_after e) (Z.max (if deferred e then seconds 5 else 0) (wait attempt)) in
  if exhausted c e then Z.max delay (seconds 300) else delay.

Definition failure_of (c : Claimed) (e : DeliveryError) : DeliveryFailure :=
  {| df_failure := {| fail_kind := TransportFailure;
                      fail_code := if dv_uncertain e || co_reconcile_only c then "outcome_uncertain" else "connector_failure";
                      fail_message := dv_code e; fail_diagnostic_artifact_id := None |};
     df_deferred_attempts := if deferred e then Some (deferred_attempts c e) else None |}.

Definition settled (s : outbox_status) (retry : option instant) (f : option DeliveryFailure) (ref : option ObjectRef) (count : Z)
    (o : outbox_operation) : outbox_operation :=
  o <| ob_status := s |> <| ob_retry_at := retry |> <| ob_failure := f |> <| ob_result_ref_id := ref |> <| ob_lease_owner := None |>
    <| ob_lease_expires_at := None |> <| ob_retry_count := count |>.

(** [_settle_operation]. *)
Definition _settle_operation (c : Claimed) (outcome : DeliveryError + (Snapshot * remote_result)) : M outbox_status :=
  let o := co_operation c in
  current ← (get (ob_id o) : M outbox_operation);
  clock ← ask db_clock;
  fail_when (negb (holds_lease c clock current)) "delivery_fenced" ;;
  match outcome with
  | inr (s, result) =>
      ref ← record_result o s result;
      _ ← change (ob_id o) None (settled OutCompleted None None (Some ref) (ob_retry_count o));
      mret OutCompleted
  | inl e =>
      let status := failed_status c e in
      row ← change (ob_id o) None (settled status (Some (clock + retry_delay c e)) (Some (failure_of c e)) None
                                     (ob_retry_count o - if deferred e then 1 else 0));
      when (bool_decide (status = OutFailed)) (_ ← delivery_failed row; mret tt) ;;
      mret status
  end.

(** ** One delivery *)

(** The failure that [dispatch_one] settles for an error: label writes are idempotent, so their
    uncertain outcomes are simply retried. *)
Definition delivery_error (k : outbox_kind) (e : error) : option DeliveryError :=
  match e with
  | ConnectorFailure code transient uncertain after =>
      Some (if bool_decide (k = ForgeLabelOp) && uncertain
            then {| dv_code := code; dv_transient := true; dv_uncertain := false; dv_retry_after := after |}
            else {| dv_code := code; dv_transient := transient; dv_uncertain := uncertain; dv_retry_after := after |})
  | DomainError code _ => Some {| dv_code := code; dv_transient := false; dv_uncertain := false; dv_retry_after := 0 |}
  | _ => None
  end.

(** A transaction that raised is rolled back before its failure is settled. *)
Definition or_settle (c : Claimed) (m : M outbox_status) : M outbox_status := fun d =>
  match m d with
  | Err e => match delivery_error (ob_kind (co_operation c)) e with
             | Some f => _settle_operation c (inl f) d
             | None => Err e
             end
  | r => r
  end.

(** [dispatch_one], with nothing else between its transactions. *)
Definition dispatch_one (stop : bool) (deliver : Claimed -> Snapshot -> result remote_result) : M (option outbox_status) :=
  if stop then mret None
  else
    claimed ← _claim_operation;
    match claimed with
    | None => mret None
    | Some c =>
        status ← or_settle c (s ← _operation_snapshot c; r ← lift (deliver c s); _settle_operation c (inr (s, r)));
        mret (Some status)
    end.
End connectors.
