(* ===== verification/GateSafety.v ===== *)
(** * The safety of review gates

    The theorems about Decisions.v and Gates.v: a merge is queued only behind an accepted gate and
    a complete panel, and an accepted gate always names the head of its pull request, whatever is
    observed or delivered. *)

From S2P Require Import Prelude Contracts ReviewContracts Conditions Schema Records Auth Samples MissionTree Missions Ledger Usage Capacity Sessions Assignments Deliveries Settlement Runs Workspaces Labels Objectives Demand Launch WorkerEvents Panel PanelSafety Decisions Gates Communications Chat Outbox.

Local Open Scope Z_scope.

(** ** Reading *)

Section reading.
Context (R : relation DB) `{!PreOrder R}.

Lemma keeps_specialist_coverage item policy r : Keeps R (specialist_coverage item policy r).
Proof. unfold specialist_coverage. frame. Qed.

Lemma keeps_perspectives_panel item policy c m : Keeps R (perspectives_panel item policy c m).
Proof. pose proof keeps_specialist_coverage. unfold perspectives_panel, perspective. frame. Qed.

Lemma keeps_review_panel_with route item policy : (forall r c, Keeps R (route r c)) -> Keeps R (review_panel_with route item policy).
Proof. pose proof keeps_perspectives_panel. intros. unfold review_panel_with, milestones_enabled. frame. Qed.

Lemma keeps_accepted_gate_with route g r c k : (forall r c, Keeps R (route r c)) -> Keeps R (accepted_gate_with route g r c k).
Proof. pose proof keeps_review_panel_with. intros. unfold accepted_gate_with. frame. Qed.

Lemma keeps_covering_route r c gates : Keeps R (covering_route r c gates).
Proof.
  assert (forall r c, Keeps R (no_route r c)) as Hn by (intros; unfold no_route; frame).
  induction gates; cbn; [frame|]. apply keeps_bind; [done| |intros [?|?]; frame].
  by apply keeps_attempted, keeps_accepted_gate_with.
Qed.

Lemma keeps_review_panel item policy : Keeps R (review_panel item policy).
Proof.
  apply keeps_review_panel_with. intros. pose proof keeps_covering_route. unfold route_missing. frame.
Qed.

Lemma keeps_repository_review_panel item policy p : Keeps R (repository_review_panel item policy p).
Proof. pose proof keeps_review_panel. unfold repository_review_panel, general_panel, specialist_panel, milestones_enabled. frame. Qed.

Lemma keeps_completed_review_defect item policy r o : Keeps R (_completed_review_defect item policy r o).
Proof. unfold _completed_review_defect. frame. Qed.

Lemma keeps_review_next_action item policy r l : Keeps R (_review_next_action item policy r l).
Proof. pose proof keeps_completed_review_defect. unfold _review_next_action, owner_of. frame. Qed.

Lemma keeps_review_readiness item policy p : Keeps R (review_readiness item policy p).
Proof.
  pose proof keeps_repository_review_panel. pose proof keeps_review_next_action.
  unfold review_readiness. frame; unfold reviewer_action, invalid_review; frame.
Qed.

Lemma keeps_maintainer_identity actor policy i o : Keeps R (maintainer_identity actor policy i o).
Proof. unfold maintainer_identity, require_identity. frame. Qed.
End reading.

#[export] Hint Resolve keeps_repository_review_panel keeps_review_readiness keeps_maintainer_identity : frame.

(** ** Recording *)

(** New operations are within [R]. *)
Class NewOperations (R : relation DB) : Prop :=
  new_operations (v : uid -> instant -> outbox_operation) : (forall i now, ob_id (v i now) = i) -> Keeps R (create v).

#[export] Instance quiet_operations (R : relation DB) `{!Quiet R outbox_operation} : NewOperations R.
Proof. intros v _. by apply keeps_create. Qed.

#[export] Hint Extern 2 (Keeps _ (create _)) => (apply new_operations; intros; reflexivity) : frame.

Section recording.
Context (R : relation DB) `{!PreOrder R, !Quiet R event, !Quiet R notification, !NewOperations R}.

Lemma keeps_route_subject_event e : Keeps R (route_subject_event e).
Proof. unfold route_subject_event, event_item, notify. frame. Qed.

Lemma keeps_announce a p i l : Keeps R (announce a p i l).
Proof. pose proof keeps_route_subject_event. unfold announce. frame. Qed.

Lemma keeps_queue_state read a i r s k q : Keeps R (queue_state read a i r s k q).
Proof. unfold queue_state, newer_round, label_identity. frame. Qed.

Lemma keeps_terminal_label fold a i x : Keeps R (terminal_label_operation fold a i x).
Proof. unfold terminal_label_operation, label_identity. frame. Qed.

Lemma keeps_repair_label i a o : Keeps R (repair_label i a o).
Proof. unfold repair_label, Demand.queue_operation. frame. Qed.

Lemma keeps_label_reviewer read fold s o p v : Keeps R (label_reviewer read fold s o p v).
Proof. pose proof keeps_queue_state. pose proof keeps_terminal_label. unfold label_reviewer, review_label. frame. Qed.
End recording.

#[export] Hint Extern 1 (Keeps _ (route_subject_event _)) => (apply keeps_route_subject_event; typeclasses eauto) : frame.
#[export] Hint Extern 1 (Keeps _ (announce _ _ _ _)) => (apply keeps_announce; typeclasses eauto) : frame.
#[export] Hint Extern 1 (Keeps _ (queue_state _ _ _ _ _ _ _)) => (apply keeps_queue_state; typeclasses eauto) : frame.
#[export] Hint Extern 1 (Keeps _ (terminal_label_operation _ _ _ _)) => (apply keeps_terminal_label; typeclasses eauto) : frame.
#[export] Hint Extern 1 (Keeps _ (repair_label _ _ _)) => (apply keeps_repair_label; typeclasses eauto) : frame.
#[export] Hint Extern 1 (Keeps _ (label_reviewer _ _ _ _ _ _)) => (apply keeps_label_reviewer; typeclasses eauto) : frame.

(** ** Merges *)

Lemma queue_operation_Ok project actor k key body d o d' :
  queue_operation project actor k key body d = Ok (o, d') ->
  ob_kind o = k /\ ob_payload o = body /\ ob_status o = OutPending /\ ob_actor_principal_id o = actor /\ ob_project_id o = Some project
  /\ (forall i x, tb_outbox_operation d !! i = Some x -> ob_actor_principal_id x = actor -> ob_kind x = k -> ob_idempotency_key x <> key)
  /\ d' = d <| db_next := Pos.succ (db_next d) |> <| tb_outbox_operation := <[db_next d := o]> (tb_outbox_operation d) |>.
Proof.
  unfold queue_operation. intros H. apply bind_Ok in H as (seen & ? & [-> Hs]%any_Ok & H). destruct seen; [done|].
  unfold create in H. injection H as <- <-. split_and!; try done. intros i x Hx Ha Hk Hkey. destruct Hs as [_ Hs].
  discriminate Hs. exists i, x. split; [done|]. by rewrite !bool_decide_true.
Qed.

(** A merge under the account that delivers it. *)
Definition merge_as (data : ForgeMerge) (identity : option uid) : ForgeMerge :=
  {| fm_forge_item_id := fm_forge_item_id data; fm_review_gate_id := fm_review_gate_id data;
     fm_expected_head_oid := fm_expected_head_oid data; fm_integration_identity_id := identity |}.

(** The gate lets the item's head merge. *)
Definition gate_accepts (g : review_gate) (item : forge_item) : Prop :=
  rg_forge_item_id g = fi_id item /\ rg_status g = GateAccepted /\ rg_accepted_commit_oid g = fi_head_commit_oid item
  /\ is_Some (fi_head_commit_oid item).

(** The panel of the item reports nothing missing and no invalid evidence. *)
Definition panel_passes (d : DB) (item : forge_item) (policy : review_policy) : Prop :=
  exists n, repository_review_panel item policy None d = Ok (n, d) /\ pn_missing n = [] /\ pn_invalid_carry_forward n = [].

Lemma passing_panel d item policy repo :
  panel_passes d item policy -> rv_specialist_mode policy = SpecialistRequired -> fi_review_phase item = Some PostprocessingKind ->
  tb_repository d !! fi_repository_id item = Some repo -> ~ milestone_repository d repo -> reviews_keyed d -> descriptors_keyed d ->
  forall i r, tb_reviewer_descriptor d !! i = Some r -> panel_reviewer d (rv_id policy) r = true -> panel_covered d item policy None r.
Proof.
  intros (n & Hn & Hm & _) Hs Hp Hr Hk Hkr Hkd. destruct (repository_panel_specialist _ _ _ _ _ _ _ Hn Hm Hs Hp Hr Hk) as [check Hc].
  by apply specialist_panel_Ok in Hc as (_ & _ & Hc & _).
Qed.

Lemma queue_merge_Ok actor data key d o d' :
  queue_merge actor data key d = Ok (o, d') ->
  exists item gate policy target base identity,
    tb_forge_item d !! fm_forge_item_id data = Some item /\ tb_review_gate d !! fm_review_gate_id data = Some gate
    /\ tb_review_policy d !! rg_policy_id gate = Some policy /\ gate_accepts gate item
    /\ fi_head_commit_oid item = Some (fm_expected_head_oid data) /\ panel_passes d item policy
    /\ ob_payload o = PMerge (merge_as data identity) target base
    /\ ob_status o = OutPending /\ ob_kind o = ForgeMergeOp
    /\ d' = d <| db_next := Pos.succ (db_next d) |> <| tb_outbox_operation := <[db_next d := o]> (tb_outbox_operation d) |>.
Proof.
  unfold queue_merge. intros H. skip H. apply bind_Ok in H as (item & ? & [Hi ->]%get_Ok & H). do 3 skip H.
  apply bind_Ok in H as (gate & d1 & (-> & Hg & _)%same_project_Ok & H). apply bind_Ok in H as (? & ? & [E ->]%refuse_Ok & H).
  apply bind_Ok in H as (policy & ? & [Hp ->]%get_Ok & H).
  apply bind_Ok in H as (n & d1 & Hn & H). pose proof Hn as ->%read_only; [|frame].
  apply bind_Ok in H as (? & ? & [E2 ->]%refuse_Ok & H). skip H.
  apply bind_Ok in H as (base & d1 & Hb & H). apply read_only in Hb as ->; [|unfold _validate_carries; frame].
  skip H. apply bind_Ok in H as (identity & d1 & Hid & H). apply read_only in Hid as ->; [|frame].
  apply queue_operation_Ok in H as (Hk & Hpay & Hs & _ & _ & _ & ->). bools.
  exists item, gate, policy. do 3 eexists. split_and!; try done.
  - split_and!; [done|done|congruence|by eexists].
  - exists n. split; [done|]. by split; apply nonempty_false.
Qed.

(** C11. A merge needs the maintainer's gate and the specialists.  When a merge is queued, its pull
    request exists, the gate it names is the accepted gate of that pull request at its current
    head, which is the head that the merge expects, and the panel under the gate's policy reports
    nothing missing and no invalid evidence; where that policy requires specialists on a
    post-processing pull request, outside of the knowledge repository of a milestone project (whose
    panel is that of the milestone check and requires nobody for a graph check), each of its enabled
    reviewers covers the head.  The only effect is one pending merge operation for that pull request, gate and head. *)
Theorem merge_needs_accepted_gate actor data key d o d' :
  queue_merge actor data key d = Ok (o, d') -> reviews_keyed d -> descriptors_keyed d ->
  exists item gate policy,
    tb_forge_item d !! fm_forge_item_id data = Some item /\ tb_review_gate d !! fm_review_gate_id data = Some gate
    /\ tb_review_policy d !! rg_policy_id gate = Some policy /\ gate_accepts gate item
    /\ fi_head_commit_oid item = Some (fm_expected_head_oid data) /\ panel_passes d item policy
    /\ (rv_specialist_mode policy = SpecialistRequired -> fi_review_phase item = Some PostprocessingKind ->
        forall repo, tb_repository d !! fi_repository_id item = Some repo -> ~ milestone_repository d repo ->
        forall i r, tb_reviewer_descriptor d !! i = Some r -> panel_reviewer d (rv_id policy) r = true -> panel_covered d item policy None r)
    /\ (exists target base identity, ob_payload o = PMerge (merge_as data identity) target base)
    /\ ob_status o = OutPending /\ ob_kind o = ForgeMergeOp
    /\ d' = d <| db_next := Pos.succ (db_next d) |> <| tb_outbox_operation := <[db_next d := o]> (tb_outbox_operation d) |>.
Proof.
  intros (item & gate & policy & target & base & identity & Hi & Hg & Hp & Ha & Hh & Hn & Hpay & Hs & Hk & Hd)%queue_merge_Ok Hkr Hkd.
  exists item, gate, policy. split_and!; try done; [|by exists target, base, identity].
  intros Hm Hph repo Hr Hpur. by apply (passing_panel _ _ _ repo).
Qed.

(** ** Accepted gates name the head *)

(** Every accepted gate of a pull request other than [k] names its current head; items and gates
    are stored under their identifiers. *)
Record gates_follow_but (k : option uid) (d : DB) : Prop := {
  accepted_at_head i g : tb_review_gate d !! i = Some g -> Some (rg_forge_item_id g) <> k -> rg_status g = GateAccepted ->
    exists f, tb_forge_item d !! rg_forge_item_id g = Some f /\ rg_accepted_commit_oid g = fi_head_commit_oid f
              /\ is_Some (fi_head_commit_oid f);
  gates_keyed i g : tb_review_gate d !! i = Some g -> rg_id g = i;
  items_keyed i f : tb_forge_item d !! i = Some f -> fi_id f = i /\ (i < db_next d)%positive }.

Abbreviation gates_follow := (gates_follow_but None).

Definition follows (k : option uid) (d d' : DB) : Prop := gates_follow_but k d -> gates_follow_but k d'.

#[export] Instance follows_preorder k : PreOrder (follows k).
Proof. split; unfold follows, Reflexive, Transitive; tauto. Qed.

Lemma follows_same k d d' :
  tb_review_gate d' = tb_review_gate d -> tb_forge_item d' = tb_forge_item d -> (db_next d <= db_next d')%positive -> follows k d d'.
Proof.
  intros Hg Hf Hn [H1 H2 H3]. split; [rewrite Hg, Hf; exact H1|rewrite Hg; exact H2|].
  rewrite Hf. intros i f Hi. apply H3 in Hi as [? ?]. split; [done|lia].
Qed.

#[export] Hint Extern 0 (Quiet (follows _) _) => (split; intros; apply follows_same; cbn; (reflexivity || lia)) : typeclass_instances.
#[export] Hint Extern 1 (Keeps (follows _) (modify _)) => (apply keeps_modify; intros; apply follows_same; cbn; (reflexivity || lia)) : frame.

Lemma system_actor_follows k : Keeps (follows k) system_actor.
Proof. unfold system_actor. frame. Qed.
#[export] Hint Resolve system_actor_follows : frame.

Lemma follows_weaken k d : gates_follow d -> gates_follow_but k d.
Proof. intros [H1 H2 H3]. split; [|done|done]. intros i g Hg _ Hs. by eapply H1. Qed.

(** Writing an item may leave only its own gate behind; keeping its head leaves none. *)
Lemma item_written k d i f f' :
  gates_follow_but k d -> tb_forge_item d !! i = Some f -> fi_id f' = fi_id f ->
  (fi_head_commit_oid f' = fi_head_commit_oid f \/ k = Some i) -> gates_follow_but k (d <| tb_forge_item := <[i := f']> (tb_forge_item d) |>).
Proof.
  intros [H1 H2 H3] Hf Hid Hh. split; cbn.
  - intros j g Hg Hk Hs. destruct (H1 j g Hg Hk Hs) as (f0 & Hf0 & Hc & Hsome).
    destruct (decide (rg_forge_item_id g = i)) as [<-|Hne]; [|by exists f0; rewrite lookup_insert_ne].
    destruct Hh as [Hh| ->]; [|done]. exists f'. rewrite lookup_insert_eq. split; [done|].
    rewrite Hf in Hf0. injection Hf0 as <-. by rewrite Hh.
  - done.
  - intros j x [[<- <-]|[_ Hx]]%lookup_insert_Some; [|by apply H3]. rewrite Hid. by apply H3.
Qed.

Lemma change_item_follows k i e v d r d' :
  change i e v d = Ok (r, d') -> (forall f : forge_item, fi_id (v f) = fi_id f) ->
  ((forall f, fi_head_commit_oid (v f) = fi_head_commit_oid f) \/ k = Some i) ->
  follows k d d' /\ (gates_follow_but k d -> fi_id r = i) /\ exists f, tb_forge_item d !! i = Some f /\ r = touch (db_now d) (v f)
    /\ tb_forge_item d' !! i = Some r.
Proof.
  intros (f & Hf & _ & -> & ->)%change_Ok Hid Hh. cbn in Hf. split; [|split].
  - intros Hw. apply (item_written _ _ _ f); [done|done|apply Hid|destruct Hh as [Hh|Hh]; [left; apply Hh|by right]].
  - intros Hw. cbn. rewrite Hid. by apply (items_keyed _ _ Hw).
  - exists f. split; [done|]. split; [done|]. cbn. by rewrite lookup_insert_eq.
Qed.

(** Writing a gate is safe when it is not accepted or names the head. *)
Lemma gate_written k d i g :
  gates_follow_but k d -> rg_id g = i ->
  (Some (rg_forge_item_id g) <> k -> rg_status g = GateAccepted ->
   exists f, tb_forge_item d !! rg_forge_item_id g = Some f /\ rg_accepted_commit_oid g = fi_head_commit_oid f /\ is_Some (fi_head_commit_oid f)) ->
  gates_follow_but k (d <| tb_review_gate := <[i := g]> (tb_review_gate d) |>).
Proof.
  intros [H1 H2 H3] Hid Hg. split; cbn; [|intros j x [[<- <-]|[_ Hx]]%lookup_insert_Some; [done|by apply H2]|done].
  intros j x [[<- <-]|[_ Hx]]%lookup_insert_Some; [done|by apply (H1 j)].
Qed.

Lemma change_gate_follows k i e v d r d' :
  change i e v d = Ok (r, d') -> (forall g : review_gate, rg_id (v g) = rg_id g) ->
  (gates_follow_but k d -> forall g, tb_review_gate d !! i = Some g -> Some (rg_forge_item_id (v g)) <> k -> rg_status (v g) = GateAccepted ->
   exists f, tb_forge_item d !! rg_forge_item_id (v g) = Some f /\ rg_accepted_commit_oid (v g) = fi_head_commit_oid f
             /\ is_Some (fi_head_commit_oid f)) ->
  follows k d d'.
Proof.
  intros (g & Hg & _ & -> & ->)%change_Ok Hid Ha Hw. apply gate_written; [done| |].
  - cbn. rewrite Hid. by apply (gates_keyed _ _ Hw).
  - cbn. by apply Ha.
Qed.

(** A closed gate is never accepted. *)
Lemma close_gate_follows k i e s now d r d' : change i e (close_gate s now) d = Ok (r, d') -> s <> GateAccepted -> follows k d d'.
Proof. intros H Hs. eapply change_gate_follows; [exact H|done|]. by intros _ g _ _. Qed.

Section gate_operations.
Context (read_manifest : string -> option ReviewManifest) (casefold : string -> string) (find_mentions : string -> list Mention).

(** [_invalidate_gate] closes the gates of the item. *)
Lemma invalidate_follows i d u d' : _invalidate_gate read_manifest i d = Ok (u, d') -> gates_follow_but (Some i) d -> gates_follow d'.
Proof.
  unfold _invalidate_gate. intros H [H1 H2 H3]. apply bind_Ok in H as (now & ? & [-> ->]%ask_Ok & H).
  apply bind_Ok in H as (? & d1 & ->%update_where_Ok & H). within (follows None) H. apply H. clear H. split; cbn.
  - intros j g'. rewrite lookup_fmap. intros (g & Hg & ->)%fmap_Some _. case_bool_decide as Hi; [done|]. intros Hs. apply (H1 j); congruence.
  - intros j g'. rewrite lookup_fmap. intros (g & Hg & ->)%fmap_Some. apply H2 in Hg. by case_bool_decide.
  - exact H3.
Qed.

Lemma withdraw_follows a p i : Keeps (follows None) (withdraw_acceptance a p i).
Proof.
  unfold withdraw_acceptance. frame. intros ? ? ? H. eapply close_gate_follows; [exact H|done].
Qed.

Lemma gate_of_Some i d g : gate_of i d = Some g -> rg_forge_item_id g = i /\ exists j, tb_review_gate d !! j = Some g.
Proof.
  unfold gate_of. intros H. assert (g ∈ stored_rows (fun g => bool_decide (rg_forge_item_id g = i)) d) as Hin.
  { destruct (stored_rows _ d) as [|x l]; [done|]. injection H as ->. by left. }
  apply elem_of_stored in Hin as [Hb Hj]. by apply bool_decide_eq_true in Hb.
Qed.

Lemma stale_reasons_none p item review base :
  stale_reasons p item review base = [] ->
  py_historical p = false /\ at_head item review = true /\ fi_status item = ItemOpen /\ py_target_branch p = fi_target_branch item
  /\ base = false.
Proof.
  unfold stale_reasons. intros H. destruct (py_historical p); [done|]. destruct (_ && _) eqn:E; [|done]. bools.
  case_bool_decide; [|done]. by destruct base.
Qed.

Lemma at_head_commit item review : at_head item review = true -> fi_head_commit_oid item = Some (fr_commit_oid review).
Proof. unfold at_head. by intros <-%bool_decide_eq_true. Qed.

Lemma keeps_policy_pin R `{!PreOrder R} p r : Keeps R (policy_pin p r).
Proof. unfold policy_pin. frame. Qed.
Hint Resolve keeps_policy_pin withdraw_follows : frame.

Lemma judge_follows a p o body i b v : Keeps (follows None) (judge_gate a p o body i b v).
Proof.
  intros d u d' H. unfold judge_gate in H. apply bind_Ok in H as (item & ? & [Hi ->]%get_Ok & H). cbn in Hi.
  apply bind_Ok in H as (r & d1 & Hr & H). apply read_only in Hr as ->; [|frame].
  apply bind_Ok in H as ([revision pin] & d1 & Hp & H). apply read_only in Hp as ->; [|frame].
  apply bind_Ok in H as (now & ? & [-> ->]%ask_Ok & H). apply bind_Ok in H as (existing & ? & [-> ->]%ask_Ok & H).
  destruct (ry_policy r) as [policy|]; [destruct revision as [w|]; [destruct (ready r && _) eqn:Eok|]|].
  2-4: (apply bind_Ok in H as (x & d1 & Hc & H); within (follows None) Hc; etransitivity; [exact Hc|];
        destruct (gate_of i d) as [g|]; [|apply ret_Ok in H as [_ ->]; reflexivity]; unfold when in H; match type of H with (if ?c then _ else _) _ = _ => destruct c end;
        [|apply ret_Ok in H as [_ ->]; reflexivity]; apply bind_Ok in H as (? & ? & Hg & [-> ->]%ret_Ok);
        eapply close_gate_follows; [exact Hg|done]).
  apply andb_true_iff in Eok as [_ Eok]. apply negb_true_iff, nonempty_false, app_eq_nil in Eok as [_ Estale].
  apply stale_reasons_none in Estale as (_ & Hhead%at_head_commit & _).
  apply bind_Ok in H as (g & d1 & Hg & H). within (follows None) H. etransitivity; [|exact H]. clear H.
  destruct (gate_of i d) as [old|] eqn:Eg.
  - apply gate_of_Some in Eg as [Eid [j Hj]]. eapply change_gate_follows; [exact Hg|done|].
    intros Hw g0 Hg0 _ _. rewrite <- (gates_keyed _ _ Hw j old Hj) in Hj. rewrite Hj in Hg0. injection Hg0 as <-.
    exists item. cbn. rewrite Eid. by rewrite Hhead.
  - unfold create in Hg. injection Hg as <- <-. intros Hw.
    match goal with |- gates_follow_but None (put_field tb_review_gate (<[?k := ?g]> _) ?e) =>
      change (gates_follow_but None (e <| tb_review_gate := <[k := g]> (tb_review_gate e) |>)) end.
    apply gate_written; [|done|].
    + revert Hw. apply follows_same; cbn; (reflexivity || lia).
    + intros _ _. exists item. cbn. by rewrite Hhead.
Qed.
Hint Resolve judge_follows : frame.

Lemma record_review_follows s o p r : Keeps (follows None) (_record_review read_manifest casefold s o p r).
Proof. unfold _record_review, _activate_gate, connector_failure. frame. Qed.

(** A new item has no gate yet. *)
Lemma item_created d f :
  gates_follow d -> fi_id f = db_next d ->
  gates_follow (d <| db_next := Pos.succ (db_next d) |> <| tb_forge_item := <[db_next d := f]> (tb_forge_item d) |>).
Proof.
  intros [H1 H2 H3] Hid. split; cbn; [|exact H2|].
  - intros j g Hg Hk Hs. destruct (H1 j g Hg Hk Hs) as (f0 & Hf0 & Hc). exists f0. split; [|done].
    rewrite lookup_insert_ne; [done|]. apply H3 in Hf0 as [_ ?]. lia.
  - intros j x [[<- <-]|[_ Hx]]%lookup_insert_Some; [split; [done|lia]|]. apply H3 in Hx as [? ?]. split; [done|lia].
Qed.

Lemma create_item_follows v d r d' :
  create v d = Ok (r, d') -> (forall i now, fi_id (v i now) = i) -> follows None d d'.
Proof. unfold create. intros [= <- <-] Hid Hw. apply item_created; [done|apply Hid]. Qed.

(** An item whose head may have moved, with its gate closed. *)
Lemma moved_item_follows i e v d r d1 u d' :
  change i e v d = Ok (r, d1) -> (forall f : forge_item, fi_id (v f) = fi_id f) ->
  _invalidate_gate read_manifest (fi_id r) d1 = Ok (u, d') -> follows None d d'.
Proof.
  intros Hc Hid Hi Hw. apply (change_item_follows (Some i)) in Hc as (Hf & Hr & _); [|done|by right].
  apply (follows_weaken (Some i)) in Hw. rewrite (Hr Hw) in Hi. eapply invalidate_follows; [exact Hi|]. by apply Hf.
Qed.

Lemma observe_follows integration repo r : Keeps (follows None) (observe_item read_manifest casefold integration repo r).
Proof.
  intros d u d' H. unfold observe_item in H. apply bind_Ok in H as (clock & ? & [-> ->]%ask_Ok & H).
  apply bind_Ok in H as (found & ? & [Hf ->]%ask_Ok & H). apply bind_Ok in H as ([row fields] & d1 & Hr & H).
  assert (follows None d1 d') as Hrest by (unfold emit_from in H; within (follows None) H; exact H).
  etransitivity; [|exact Hrest]. clear H Hrest. destruct found as [old|].
  - destruct (nonempty _); [|apply ret_Ok in Hr as [_ ->]; reflexivity].
    apply bind_Ok in Hr as (row' & d2 & Hc & Hr). apply bind_Ok in Hr as (? & d3 & Hw & [[= -> _] ->]%ret_Ok). unfold when in Hw.
    destruct (_ || _) eqn:E; [by eapply moved_item_follows|]. apply ret_Ok in Hw as [_ ->]. bools.
    apply change_Ok in Hc as (f & Hi & _ & -> & ->). intros Hw. cbn in Hi. apply (item_written _ _ _ f); [done|done|done|]. left.
    assert (f = old) as ->; [|by symmetry]. assert (old ∈ stored_rows (same_item (rp_id repo) r) d) as Hin.
    { destruct (stored_rows _ d) as [|y l]; [done|]. injection Hf as ->. by left. }
    apply elem_of_stored in Hin as [_ [j Hj]]. cbn in Hj. pose proof Hj as [Hk _]%(items_keyed _ _ Hw). congruence.
  - apply bind_Ok in Hr as (row' & d2 & Hc & [_ ->]%ret_Ok). eapply create_item_follows; [exact Hc|done].
Qed.

Lemma keeps_finish_item R `{!PreOrder R, !Quiet R event, !Quiet R notification, !NewOperations R} s p i l :
  Keeps R (finish_item casefold s p i l).
Proof. unfold finish_item. frame. Qed.
Hint Extern 1 (Keeps _ (finish_item _ _ _ _ _)) => (apply keeps_finish_item; typeclasses eauto) : frame.
Hint Resolve record_review_follows : frame.

Lemma record_change_follows o s repo commit branch : Keeps (follows None) (record_change read_manifest o s repo commit branch).
Proof.
  intros d u d' H. unfold record_change in H. do 2 skip H. apply bind_Ok in H as (a & d1 & Ha & H). within (follows None) Ha.
  apply bind_Ok in H as (? & d2 & Hp & H).
  assert (follows None d1 d2) as Hp' by (unfold publish_branch, check_target in Hp; within (follows None) Hp; exact Hp).
  apply bind_Ok in H as (? & d3 & Hl & H).
  assert (follows None d2 d3) as Hl' by (unfold locate in Hl; within (follows None) Hl; exact Hl).
  apply bind_Ok in H as (? & d4 & He & H). within (follows None) He. apply bind_Ok in H as (? & d5 & Hi & [_ ->]%ret_Ok).
  transitivity d1; [done|]. transitivity d2; [done|]. transitivity d3; [done|]. transitivity d4; [done|].
  destruct (ob_payload o) as [| | | | | |? | b| |]; try (apply ret_Ok in Hi as [_ ->]; reflexivity).
  destruct (fx_forge_item_id b) as [k|]; [|apply ret_Ok in Hi as [_ ->]; reflexivity].
  apply bind_Ok in Hi as (now & ? & [-> ->]%ask_Ok & Hi). apply bind_Ok in Hi as (item & d6 & Hc & Hi).
  apply bind_Ok in Hi as (? & d7 & Hg & Hi). within (follows None) Hi. etransitivity; [|exact Hi].
  eapply moved_item_follows; [exact Hc|done|exact Hg].
Qed.

(** A settled delivery, other than the creation of an item, keeps gates at their heads. *)
Lemma record_result_follows o s r :
  (forall b, ob_payload o <> PCreate b) -> Keeps (follows None) (record_result read_manifest casefold find_mentions o s r).
Proof.
  intros Hcreate d u d' H. unfold record_result in H. pose proof record_change_follows as Hchange.
  assert (forall x r a q b, Keeps (follows None) (record_post find_mentions x r a q b)) as Hpost
    by (intros; apply keeps_record_post; try typeclasses eauto; intros; by apply follows_same).
  destruct (ob_payload o) as [|i add rm ident g|p|b x y|b|b x|b|b|b|b]; destruct (sn_repository s) as [repo|]; try done;
    destruct (sn_item s) as [item|]; try done; destruct r as [commit branch|rt|rv|labels| | |post same]; try done.
  - apply bind_Ok in H as (row & d1 & Hc & H). apply (change_item_follows None) in Hc as (Hf & _); [|done|by left].
    within (follows None) H. by etransitivity.
  - within (follows None) H. exact H.
  - apply bind_Ok in H as (now & ? & [-> ->]%ask_Ok & H). apply bind_Ok in H as (row & d1 & Hc & H).
    apply (change_item_follows None) in Hc as (Hf & _); [|done|by left]. within (follows None) H. by etransitivity.
  - apply bind_Ok in H as (clock & ? & [-> ->]%ask_Ok & H). apply bind_Ok in H as (row & d1 & Hc & H).
    apply bind_Ok in H as (? & d2 & Hg & H). within (follows None) H. etransitivity; [|exact H].
    eapply moved_item_follows; [exact Hc|done|exact Hg].
  - within (follows None) H. exact H.
  - by destruct (Hcreate b).
  - by destruct (Hcreate b).
  - by eapply Hchange.
  - by eapply Hchange.
  - destruct (sn_discussion s); [by eapply Hpost|done].
  - destruct (sn_discussion s); [by eapply Hpost|done].
  - destruct (sn_discussion s); [by eapply Hpost|done].
  - destruct (sn_discussion s); [by eapply Hpost|done].
Qed.

(** ** Opening *)

(** The maintainer's approval [review], delivered as [p], opens the gate of [item]: the head is
    ready under the only policy, whose current revision the review pinned, and nothing moved. *)
Definition opens (d : DB) (p : ReviewPayload) (item : forge_item) (base_changed : bool) (review : forge_review) : Prop :=
  exists r policy k revision,
    review_readiness item None (Some p) d = Ok (r, d) /\ ry_policy r = Some policy /\ ry_blockers r = []
    /\ py_policy_revision_id p = Some k /\ tb_record_revision d !! k = Some revision
    /\ rr_object_id revision = stored Kreview_policy (rv_id policy) /\ rr_object_revision revision = rv_revision policy
    /\ py_historical p = false /\ fi_head_commit_oid item = Some (fr_commit_oid review) /\ fi_status item = ItemOpen
    /\ py_target_branch p = fi_target_branch item /\ base_changed = false.

Lemma policy_pin_none p r d v d' :
  policy_pin p r d = Ok (v, [], d') ->
  exists policy k revision, v = Some revision /\ ry_policy r = Some policy /\ py_policy_revision_id p = Some k
    /\ tb_record_revision d !! k = Some revision /\ rr_object_id revision = stored Kreview_policy (rv_id policy)
    /\ rr_object_revision revision = rv_revision policy.
Proof.
  unfold policy_pin. destruct (py_policy_revision_id p) as [k|]; [|by intros [[=] _]%ret_Ok]. intros H.
  apply bind_Ok in H as (revision & ? & [Hk ->]%get_Ok & [H _]%ret_Ok). destruct (ry_policy r) as [policy|]; [|by injection H].
  destruct (_ && _) eqn:E; [|by injection H]. injection H as ->. bools. by exists policy, k, revision.
Qed.

Definition judged (r : Readiness) (pin : list Blocker) (p : ReviewPayload) (item : forge_item) (review : forge_review) (base : bool) : bool :=
  ready r && negb (nonempty (pin ++ stale_reasons p item review base)%list).

Lemma judged_opens d p item base review r v pin :
  review_readiness item None (Some p) d = Ok (r, d) -> policy_pin p r d = Ok (v, pin, d) ->
  judged r pin p item review base = true <-> opens d p item base review.
Proof.
  intros Hr Hp. unfold judged. split.
  - intros [Hready Hn]%andb_true_iff. apply negb_true_iff, nonempty_false, app_eq_nil in Hn as [-> Hs].
    apply stale_reasons_none in Hs as (Hh & Hhead%at_head_commit & Ho & Ht & Hb).
    apply policy_pin_none in Hp as (policy & k & revision & _ & Hpol & Hk & Hrev & Hobj & Hnum).
    exists r, policy, k, revision. split_and!; try done. unfold ready in Hready. by apply negb_true_iff, nonempty_false in Hready.
  - intros (r' & policy & k & revision & Hr' & Hpol & Hbl & Hk & Hrev & Hobj & Hnum & Hh & Hhead & Ho & Ht & ->).
    rewrite Hr in Hr'. injection Hr' as <-. unfold ready. rewrite Hbl. cbn. unfold policy_pin in Hp. rewrite Hk in Hp.
    apply bind_Ok in Hp as (w & ? & [Hw _]%get_Ok & [Heq _]%ret_Ok). cbn in Hw. rewrite Hrev in Hw. injection Hw as <-. rewrite Hpol, Hobj, Hnum in Heq.
    rewrite bool_decide_true, Z.eqb_refl in Heq by done. injection Heq as -> ->. unfold stale_reasons, at_head.
    by rewrite Hh, Hhead, Ho, Ht, !bool_decide_true.
Qed.

Lemma judge_Ok a q o p i b v d u d' :
  judge_gate a q o p i b v d = Ok (u, d') -> (forall j g, tb_review_gate d !! j = Some g -> rg_id g = j) ->
  exists item, tb_forge_item d !! i = Some item /\
    ((opens d p item b v /\ exists j g, rg_status g = GateAccepted /\ rg_forge_item_id g = i
        /\ rg_accepted_commit_oid g = Some (fr_commit_oid v) /\ rg_maintainer_review_id g = Some (fr_id v)
        /\ tb_review_gate d' = <[j := g]> (tb_review_gate d))
     \/ (~ opens d p item b v /\ (tb_review_gate d' = tb_review_gate d
          \/ exists j g, rg_status g = GatePending /\ tb_review_gate d' = <[j := g]> (tb_review_gate d)))).
Proof.
  intros H Hkey. unfold judge_gate in H. apply bind_Ok in H as (item & ? & [Hi ->]%get_Ok & H). exists item. split; [done|].
  apply bind_Ok in H as (r & d1 & Hr & H). pose proof Hr as ->%read_only; [|frame].
  apply bind_Ok in H as ([revision pin] & d1 & Hp & H). pose proof Hp as ->%read_only; [|frame].
  apply bind_Ok in H as (now & ? & [-> ->]%ask_Ok & H). apply bind_Ok in H as (existing & ? & [-> ->]%ask_Ok & H).
  pose proof (judged_opens d p item b v r revision pin Hr Hp) as Hj. fold (judged r pin p item v b) in H.
  destruct (judged r pin p item v b) eqn:Eok.
  - left. assert (opens d p item b v) as Ho by (by apply Hj). split; [done|].
    unfold judged in Eok. apply andb_true_iff in Eok as [_ Eok]. apply negb_true_iff, nonempty_false, app_eq_nil in Eok as [-> _].
    apply policy_pin_none in Hp as (policy & k & w & -> & Hpol & _). rewrite Hpol in H.
    apply bind_Ok in H as (g & d1 & Hg & H). leaves tb_review_gate H. unfold same_part in H. rewrite H. clear H.
    destruct (gate_of i d) as [old|] eqn:Eg.
    + apply gate_of_Some in Eg as [Eid [j Hold]]. apply change_Ok in Hg as (g0 & Hg0 & _ & Hg & ->). cbn in Hg0.
      rewrite (Hkey _ _ Hold) in Hg0. rewrite Hold in Hg0. injection Hg0 as <-.
      eexists (rg_id old), g. subst g. by split_and!.
    + unfold create in Hg. injection Hg as <- <-. exists (db_next d), (new_gate i (rv_id policy) (rr_id w) v (db_next d) (db_now d)). by split_and!.
  - right. split; [by rewrite <- Hj|].
    assert ((_ ← change o None (with_result p None (ry_blockers r ++ pin ++ stale_reasons p item v b)%list);
      match gate_of i d with
      | Some g => when (negb (nonempty (pin ++ stale_reasons p item v b)%list) && bool_decide (rg_status g = GateAccepted)
                        && bool_decide (rg_accepted_commit_oid g = Some (fr_commit_oid v)))
                    (_ ← change (rg_id g) None (close_gate GatePending (db_now d)); mret tt)
      | None => mret tt
      end) d = Ok (u, d')) as H' by (by destruct (ry_policy r); [destruct revision|]).
    clear H. apply bind_Ok in H' as (? & d1 & Hc & H). leaves tb_review_gate Hc. unfold same_part in Hc. rewrite <- Hc.
    destruct (gate_of i d) as [g|]; [|apply ret_Ok in H as [_ ->]; by left]. unfold when in H.
    match type of H with (if ?c then _ else _) _ = _ => destruct c end; [|apply ret_Ok in H as [_ ->]; by left].
    apply bind_Ok in H as (g' & ? & Hg & [_ ->]%ret_Ok). apply change_Ok in Hg as (g0 & _ & _ & -> & ->). right.
    exists (rg_id g), (touch (db_now d1) (close_gate GatePending (db_now d) g0)). by split.
Qed.

(** A ready head has a panel that reports nothing, under a policy that applies to it. *)
Lemma ready_panel item choice p d r policy :
  review_readiness item choice p d = Ok (r, d) -> ry_policy r = Some policy -> ry_blockers r = [] ->
  applicable item policy = true /\ exists n, repository_review_panel item policy p d = Ok (n, d) /\ pn_missing n = [] /\ pn_invalid_carry_forward n = [].
Proof.
  unfold review_readiness. intros H Hp Hb. apply bind_Ok in H as (found & d1 & Hf & H). apply read_only in Hf as ->; [|frame].
  destruct found as [code|q]; [by apply ret_Ok in H as [-> _]|].
  apply bind_Ok in H as (n & d1 & Hn & H). pose proof Hn as ->%read_only; [|frame]. skip H.
  apply bind_Ok in H as (invalid & d1 & Hi & H). apply read_only in Hi as ->; [|unfold invalid_review; frame].
  skip H. apply bind_Ok in H as (actions & d1 & Ha & [-> _]%ret_Ok). cbn in Hp, Hb. injection Hp as ->.
  apply app_eq_nil in Hb as [Hap Hb]. apply app_eq_nil in Hb as [Hm%map_eq_nil_inv Hb]. apply app_eq_nil in Hb as [Hc%map_eq_nil_inv _].
  split; [by destruct (applicable item policy)|]. by exists n.
Qed.

(** C29. A gate opens exactly for a ready head.  When the maintainer's delivered approval is judged,
    the gate of its pull request is accepted at the reviewed commit if the approval [opens] it:
    the pull request is open at that commit and on the target that the review names, its base did
    not move, the review is not historical and pins the current revision of the one policy, and
    that policy applies and reports no blocker, so that its panel lacks nothing.  Otherwise no gate
    is newly accepted. *)
Theorem gate_opens_for_ready_head a q o p i b v d u d' :
  judge_gate a q o p i b v d = Ok (u, d') -> (forall j g, tb_review_gate d !! j = Some g -> rg_id g = j) ->
  exists item, tb_forge_item d !! i = Some item
    /\ (opens d p item b v -> exists j g, tb_review_gate d' !! j = Some g /\ rg_forge_item_id g = i /\ rg_status g = GateAccepted
          /\ rg_accepted_commit_oid g = Some (fr_commit_oid v) /\ rg_maintainer_review_id g = Some (fr_id v))
    /\ (forall j g, tb_review_gate d' !! j = Some g -> rg_status g = GateAccepted -> tb_review_gate d !! j <> Some g ->
          opens d p item b v /\ rg_forge_item_id g = i /\ rg_accepted_commit_oid g = fi_head_commit_oid item
          /\ exists policy n, applicable item policy = true /\ repository_review_panel item policy (Some p) d = Ok (n, d)
                              /\ pn_missing n = [] /\ pn_invalid_carry_forward n = []).
Proof.
  intros H Hkey. destruct (judge_Ok _ _ _ _ _ _ _ _ _ _ H Hkey) as (item & Hi & Hcase). exists item. split; [done|].
  destruct Hcase as [(Ho & j & g & Hs & Hid & Hc & Hm & Hd)|(Hno & Hd)]; rewrite ?Hd.
  - assert (fi_head_commit_oid item = Some (fr_commit_oid v)) as Hh by (destruct Ho as (?&?&?&?&?); tauto). split.
    + intros _. exists j, g. rewrite lookup_insert_eq. by split_and!.
    + intros j' g' [[<- <-]|[_ Hg']]%lookup_insert_Some Hs' Hnew; [|done]. split_and!; [done|done|congruence|].
      destruct Ho as (r & policy & ? & ? & Hr & Hp & Hb & _). destruct (ready_panel _ _ _ _ _ _ Hr Hp Hb) as (Ha & n & Hn). by exists policy, n.
  - split; [done|]. intros j g Hg Hs Hnew. destruct Hd as [Hd|(j' & g' & Hp & Hd)]; rewrite Hd in Hg; [done|].
    apply lookup_insert_Some in Hg as [[<- <-]|[_ Hg]]; [congruence|done].
Qed.

(** ** Histories *)

Lemma settle_follows owner limit wait c outcome :
  (forall b, ob_payload (co_operation c) <> PCreate b) ->
  Keeps (follows None) (_settle_operation read_manifest casefold find_mentions owner limit wait c outcome).
Proof.
  intros Hc. unfold _settle_operation, fail_when, connector_failure. pose proof (fun s r => record_result_follows (co_operation c) s r Hc). frame.
Qed.

Lemma claim_follows owner : Keeps (follows None) (_claim_operation owner).
Proof. unfold _claim_operation. frame. Qed.

Lemma queue_merge_follows actor data key : Keeps (follows None) (queue_merge actor data key).
Proof. intros d o d' H. apply queue_merge_Ok in H as (?&?&?&?&?&?&?&?&?&?&?&?&?&?&?&->). apply follows_same; cbn; (reflexivity || lia). Qed.

Section queueing.
Context (read_evidence : string -> option ReviewCarryForwardEvidence) (report_incomplete : string -> decision -> bool) (public_url : string).

Lemma queue_review_follows actor raw key b :
  Keeps (follows None) (queue_review read_manifest read_evidence report_incomplete public_url actor raw key b).
Proof.
  unfold queue_review, _validate_resolutions, validate_postprocessing_report, rubric_payload, rubric_identity, require_identity,
    invocation_payload, carry_payload, carry_entry, _validate_carries, queue_operation, same_project, in_project, require_identity.
  frame. all: unfold carry_entry, same_project, in_project; frame.
Qed.
End queueing.

(** What happens to pull requests and gates: a forge is observed, a delivery is claimed or settled,
    a review or a merge is queued. *)
Inductive gate_step : relation DB :=
| GateObserve integration repo r d d' : observe_item read_manifest casefold integration repo r d = Ok (tt, d') -> gate_step d d'
| GateClaim owner c d d' : _claim_operation owner d = Ok (c, d') -> gate_step d d'
| GateSettle owner limit wait c outcome s d d' :
    _settle_operation read_manifest casefold find_mentions owner limit wait c outcome d = Ok (s, d') ->
    (forall b, ob_payload (co_operation c) <> PCreate b) -> gate_step d d'
| GateReview evidence incomplete url actor raw key b o d d' :
    queue_review read_manifest evidence incomplete url actor raw key b d = Ok (o, d') -> gate_step d d'
| GateMerge actor data key o d d' : queue_merge actor data key d = Ok (o, d') -> gate_step d d'.

Lemma gate_step_follows d d' : gate_step d d' -> follows None d d'.
Proof.
  destruct 1; [by eapply observe_follows|by eapply claim_follows|by eapply settle_follows|by eapply queue_review_follows|by eapply queue_merge_follows].
Qed.

(** C10. An accepted gate names the head.  However observations of the forge, claims and settlements
    of deliveries (of anything but the creation of an item), queued reviews and queued merges
    follow one another, every accepted gate belongs to a known pull request and the commit that
    it accepted is that pull request's current head: what moves a head closes the gate in the same
    transaction. *)
Theorem accepted_gate_follows_head d d' :
  rtc gate_step d d' -> gates_follow d ->
  gates_follow d' /\ forall i g, tb_review_gate d' !! i = Some g -> rg_status g = GateAccepted ->
    exists f, tb_forge_item d' !! rg_forge_item_id g = Some f /\ gate_accepts g f.
Proof.
  intros Hs Hw. assert (gates_follow d') as Hw'.
  { revert Hw. induction Hs as [|d1 d2 d3 H _ IH]; [done|]. intros Hw. apply IH. by apply (gate_step_follows _ _ H). }
  split; [done|]. intros i g Hg Hacc. destruct (accepted_at_head _ _ Hw' i g Hg ltac:(done) Hacc) as (f & Hf & Hc & Hsome).
  exists f. split; [done|]. split_and!; try done. symmetry. by apply (items_keyed _ _ Hw').
Qed.
End gate_operations.

(** ** Witnesses *)

Definition no_manifest (_ : string) : option ReviewManifest := None.

Definition no_mentions (s : string) : list Mention := [].

Definition sample_gate : review_gate :=
  {| rg_id := 70; rg_created_at := 0; rg_updated_at := 0; rg_revision := 1; rg_forge_item_id := 60; rg_policy_id := 41;
     rg_policy_revision_id := 44; rg_maintainer_review_id := Some 72%positive; rg_status := GateAccepted;
     rg_accepted_commit_oid := Some "beef"%string; rg_evaluated_at := Some 300 |}.

Definition accepted_db : DB := reviewed_db <| tb_review_gate := {[70%positive := sample_gate]} |>.

Lemma accepted_reviews_keyed : reviews_keyed accepted_db.
Proof. intros i v H. cbn in H. exact (reviewed_reviews_keyed i v H). Qed.

Lemma accepted_descriptors_keyed : descriptors_keyed accepted_db.
Proof. intros i r H. cbn in H. exact (reviewed_descriptors_keyed i r H). Qed.

Definition sample_merge : ForgeMerge :=
  {| fm_forge_item_id := 60; fm_review_gate_id := 70; fm_expected_head_oid := "beef"; fm_integration_identity_id := None |}.

Lemma merge_needs_accepted_gate_witness :
  exists o d', queue_merge admin sample_merge "merge" accepted_db = Ok (o, d')
    /\ panel_passes accepted_db reviewed_pull sample_policy /\ panel_covered accepted_db reviewed_pull sample_policy None sample_reviewer.
Proof.
  destruct (is_ok_true (queue_merge admin sample_merge "merge" accepted_db)) as [[o d'] E]; [by vm_compute|].
  destruct (merge_needs_accepted_gate _ _ _ _ _ _ E accepted_reviews_keyed accepted_descriptors_keyed)
    as (item & gate & policy & Hi & Hg & Hp & _ & _ & Hn & Hc & _).
  injection Hi as <-. injection Hg as <-. injection Hp as <-.
  exists o, d'. split; [exact E|]. split; [exact Hn|].
  apply (Hc eq_refl eq_refl sample_repository eq_refl ltac:(by intros [? _]) 42%positive); [reflexivity|by vm_compute].
Defined.

(** The maintainer's approval of [beef], being delivered as operation 71. *)
Definition approval : ReviewPayload := sample_payload "beef" Approve None None.

Definition approving : outbox_operation :=
  (delivered_review 71 72 approval) <| ob_status := OutRunning |> <| ob_lease_owner := Some "relay"%string |>
    <| ob_lease_expires_at := Some 900 |> <| ob_result_ref_id := None |> <| ob_actor_principal_id := 1%positive |>.

Definition approving_db : DB :=
  reviewed_db <| tb_outbox_operation := <[71%positive := approving]> (tb_outbox_operation reviewed_db) |>.

Lemma gate_opens_for_ready_head_witness :
  exists d' j g, judge_gate 1 2 71 approval 60 false (sample_review 72 None Approved "beef" 400) approving_db = Ok (tt, d')
    /\ tb_review_gate d' !! j = Some g /\ rg_accepted_commit_oid g = Some "beef"%string.
Proof.
  destruct (is_ok_true (judge_gate 1 2 71 approval 60 false (sample_review 72 None Approved "beef" 400) approving_db)) as [[[] d'] E];
    [by vm_compute|].
  destruct (gate_opens_for_ready_head _ _ _ _ _ _ _ _ _ _ E) as (item & Hi & Ho & _); [intros j g; cbn; by intros ?%lookup_empty_Some|].
  injection Hi as <-. destruct Ho as (j & g & Hg & _ & _ & Hc & _); [|by exists d', j, g].
  destruct (is_ok_true (review_readiness reviewed_pull None (Some approval) approving_db)) as [[r dr] Er]; [by vm_compute|].
  assert (dr = approving_db /\ ry_policy r = Some sample_policy /\ ry_blockers r = []) as (-> & Hp & Hb)
    by (vm_compute in Er; injection Er as <- <-; by split_and!).
  exists r, sample_policy, 44%positive, (pinned 44 (stored Kreview_policy 41) 2 (CReviewPolicy sample_policy [31%positive] [42%positive])).
  split_and!; try reflexivity; [exact Er|exact Hp|exact Hb].
Defined.

Definition beef_approved : RemoteReview :=
  {| rw_id := "9"; rw_user := Some "maintainer"%string; rw_commit_id := Some "beef"%string; rw_dismissed := false; rw_state := "APPROVED";
     rw_base_oid := None |}.

Definition sample_integration : integration :=
  {| ig_id := 80; ig_created_at := 0; ig_updated_at := 0; ig_revision := 1; ig_kind := ForgeIntegration; ig_endpoint := "https://forge";
     ig_credential_ref := "main"; ig_enabled := true |}.

Definition approval_snapshot : Snapshot :=
  snapshot_of admin sample_integration (Some sample_repository) (Some reviewed_pull) None (PReview approval).

(** The forge shows the pull request at [head]. *)
Definition seen_at (head : string) : RemoteItem :=
  {| rt_kind := PullRequest; rt_number := 4; rt_title := "Add the lemma"; rt_open := true; rt_merged := false; rt_head := Some head;
     rt_base := Some "main"%string; rt_user := None; rt_labels := [] |}.

Lemma approving_follows : gates_follow approving_db.
Proof.
  split; cbn; [by intros i g ?%lookup_empty_Some|by intros i g ?%lookup_empty_Some|]. by intros i f [<- <-]%lookup_singleton_Some.
Qed.

(** The approval is settled, which opens the gate at [beef]; the forge then shows [cafe]. *)
Lemma accepted_gate_follows_head_witness :
  exists s d1 d2 j g g', _settle_operation no_manifest fold_ascii no_mentions "relay" 5 (fun _ => 0) {| co_operation := approving; co_reconcile_only := false |}
      (inr (approval_snapshot, ReviewResult beef_approved)) approving_db = Ok (s, d1)
    /\ observe_item no_manifest fold_ascii 80 sample_repository (seen_at "cafe") d1 = Ok (tt, d2) /\ gates_follow d2
    /\ tb_review_gate d1 !! j = Some g /\ rg_status g = GateAccepted /\ tb_review_gate d2 !! j = Some g' /\ rg_status g' = GateStale.
Proof.
  destruct (is_ok_true (_settle_operation no_manifest fold_ascii no_mentions "relay" 5 (fun _ => 0) {| co_operation := approving; co_reconcile_only := false |}
      (inr (approval_snapshot, ReviewResult beef_approved)) approving_db)) as [[s d1] E1]; [by vm_compute|].
  pose proof E1 as E1'. vm_compute in E1'. injection E1' as Es Ed.
  destruct (is_ok_true (observe_item no_manifest fold_ascii 80 sample_repository (seen_at "cafe") d1)) as [[[] d2] E2]; [by rewrite <- Ed; vm_compute|].
  destruct (accepted_gate_follows_head no_manifest fold_ascii no_mentions approving_db d2) as [Hw _]; [|exact approving_follows|].
  - eapply rtc_l; [eapply GateSettle; [exact E1|done]|]. eapply rtc_once, GateObserve. exact E2.
  - pose proof E2 as E2'. rewrite <- Ed in E2'. vm_compute in E2'. injection E2' as Ed2.
    exists s, d1, d2, 102%positive. do 2 eexists. split; [exact E1|]. split; [exact E2|]. split; [exact Hw|].
    rewrite <- Ed, <- Ed2. by split_and!.
Defined.

(** Settling the creation of an item that is already known overwrites its head and leaves its gate
    as it was: the gate of 60 stays accepted at [beef] when the forge answers with [cafe].  A merge
    through that gate is still refused, since the head differs. *)
Definition creation : ForgeCreate :=
  {| fk_repository_id := 31; fk_origin_run_id := 5; fk_review_phase := PostprocessingKind; fk_kind := PullRequest; fk_title := "Add the lemma";
     fk_body := "Adds it"; fk_head := Some "work"%string; fk_base := Some "main"%string; fk_stack_reason := None |}.

Lemma creation_leaves_gate_behind :
  exists ref d', record_creation (snapshot_of admin sample_integration (Some sample_repository) None None (PCreate creation)) sample_repository
      creation (seen_at "cafe") accepted_db = Ok (ref, d')
    /\ gates_follow accepted_db /\ ~ gates_follow d' /\ is_ok (queue_merge admin sample_merge "merge" d') = false.
Proof.
  destruct (is_ok_true (record_creation (snapshot_of admin sample_integration (Some sample_repository) None None (PCreate creation))
    sample_repository creation (seen_at "cafe") accepted_db)) as [[ref d'] E]; [by vm_compute|].
  exists ref, d'. split; [exact E|]. vm_compute in E. injection E as _ <-. split; [|split; [|by vm_compute]].
  - split; cbn.
    + intros i g [<- <-]%lookup_singleton_Some _ _. exists reviewed_pull. split; [reflexivity|]. split; [reflexivity|]. by eexists.
    + by intros i g [<- <-]%lookup_singleton_Some.
    + by intros i f [<- <-]%lookup_singleton_Some.
  - intros Hw. destruct (accepted_at_head _ _ Hw 70%positive sample_gate) as (f & Hf & Hc & _); [reflexivity|done|reflexivity|].
    injection Hf as <-. discriminate Hc.
Qed.
