(* ===== verification/InvocationSafety.v ===== *)
(** * The safety of review invocations

    The theorems about Invocations.v: the review of a head by one reviewer under one policy has
    one owner, which only a settled attempt gives up; a native reviewer is prepared within the
    capacity of its parent and of the shared accounts; a binding is permanent; and cancelling
    releases only what was never launched. *)

From S2P Require Import Prelude Contracts WorkerContracts ReviewContracts Conditions Schema Records Auth Samples MissionTree Missions Ledger Usage Capacity Sessions Assignments Deliveries Settlement Runs Workspaces Labels Objectives Demand Launch Leases Admission AdmissionSafety Panel PanelSafety Decisions Packets Invocations ProviderEvents ObservationSafety WorkerEvents Gates Outbox GateSafety.

Local Open Scope string_scope.
Local Open Scope Z_scope.

(** ** Reading *)

Section reading.
Context (R : relation DB) `{!PreOrder R}.

Lemma keeps_maintainer actor : Keeps R (_maintainer actor).
Proof. unfold _maintainer. frame. Qed.

Lemma keeps_owned actor i : Keeps R (_owned actor i).
Proof. pose proof keeps_maintainer. unfold _owned. frame. Qed.

Lemma keeps_capacity x : Keeps R (_capacity x).
Proof. unfold _capacity. frame. Qed.

Lemma keeps_choose read actor data standalone : Keeps R (choose read actor data standalone).
Proof. pose proof keeps_maintainer. unfold choose, check_item, check_descriptor. frame. Qed.

Lemma keeps_owner_manifest read a : Keeps R (owner_manifest read a).
Proof. unfold owner_manifest. frame. Qed.

Lemma keeps_request_manifest read q : Keeps R (request_manifest read q).
Proof. unfold request_manifest. frame. Qed.

Lemma keeps_owner_of w : Keeps R (owner_of w).
Proof. unfold owner_of. frame. Qed.

Lemma keeps_check_retry read data v o : Keeps R (check_retry read data v o).
Proof.
  pose proof keeps_owner_manifest. pose proof keeps_request_manifest. pose proof (keeps_completed_review_defect R).
  unfold check_retry. frame.
Qed.

Lemma keeps_existing_work read x data k s : Keeps R (_existing_work read x data k s).
Proof.
  pose proof keeps_owner_manifest. pose proof keeps_request_manifest. pose proof keeps_check_retry. pose proof keeps_owner_of.
  unfold _existing_work. frame.
Qed.

Lemma keeps_guidance_of r p : Keeps R (guidance_of r p).
Proof. unfold guidance_of. frame. Qed.
End reading.

#[export] Hint Resolve keeps_maintainer keeps_owned keeps_capacity keeps_choose keeps_owner_of keeps_existing_work keeps_guidance_of : frame.

(** ** Drafting *)

(** Drawing an identifier is within [R]. *)
Class QuietDraw (R : relation DB) : Prop := quiet_draw d n : (db_next d <= n)%positive -> R d (d <| db_next := n |>).

#[export] Hint Extern 0 (QuietDraw (same_part _)) => (intros ???; reflexivity) : typeclass_instances.
#[export] Hint Extern 0 (QuietDraw (grows _)) => (intros ???; split; [reflexivity|cbn; lia]) : typeclass_instances.

Lemma keeps_draw R `{!QuietDraw R} : Keeps R draw.
Proof. intros d i d' [= _ <-]. apply quiet_draw. lia. Qed.
#[export] Hint Extern 1 (Keeps _ draw) => (apply keeps_draw; typeclasses eauto) : frame.

Section drafting.
Context (R : relation DB) `{!PreOrder R, !Quiet R record_revision, !Quiet R artifact, !QuietDraw R}.

Lemma keeps_draft put template schema request_text actor s data b dr pr : Keeps R (draft put template schema request_text actor s data b dr pr).
Proof. unfold draft, harness_for. frame. Qed.

Lemma keeps_save_manifest put p m x : Keeps R (save_manifest put p m x).
Proof. unfold save_manifest. frame. Qed.
End drafting.

Lemma keeps_review_owed R `{!PreOrder R, !Quiet R obligation} a x s : Keeps R (review_owed_by a x s).
Proof. unfold review_owed_by. frame. Qed.

#[export] Hint Extern 1 (Keeps _ (draft _ _ _ _ _ _ _ _ _ _)) => (apply keeps_draft; typeclasses eauto) : frame.
#[export] Hint Extern 1 (Keeps _ (save_manifest _ _ _ _)) => (apply keeps_save_manifest; typeclasses eauto) : frame.
#[export] Hint Extern 1 (Keeps _ (review_owed_by _ _ _)) => (apply keeps_review_owed; typeclasses eauto) : frame.

(** ** One owner for the review of a head *)

(** The owner that a row of [review_work] names. *)
Definition owns (d : DB) (w : review_work) (o : work_owner) : Prop :=
  match o with
  | AssignmentOwner a => exists i, wk_assignment_id w = Some i /\ tb_assignment d !! i = Some a
  | RequestOwner q => wk_assignment_id w = None /\ exists i, wk_provider_request_id w = Some i /\ tb_provider_request d !! i = Some q
  end.

Lemma owner_of_Ok w d o d' : owner_of w d = Ok (o, d') -> d' = d /\ owns d w o.
Proof.
  unfold owner_of. destruct (wk_assignment_id w) as [i|] eqn:Ew; intros H.
  - apply bind_Ok in H as (a & d1 & [Ha ->]%get_Ok & [-> ->]%ret_Ok). split; [done|]. by exists i.
  - apply bind_Ok in H as (q & d1 & (i & Ei & Hq & ->)%get_opt_Ok & [-> ->]%ret_Ok). split; [done|]. split; [done|]. by exists i.
Qed.

(** What a retry rests on: the previous owner failed or stopped, or its completed report has a
    defect that a repair can mend; and nothing of it is still running. *)
Definition retryable (d : DB) (o : work_owner) : Prop :=
  (owner_stopped o = true
   \/ owner_completed o = true /\ exists item policy descriptor report,
        _completed_review_defect item policy descriptor o d = Ok (Some report, d) /\ de_retryable report = true)
  /\ unsettled_owner d o = false.

Section owners.
Context (read_prepared : string -> option PreparedManifest) (put_manifest : PreparedManifest -> Blob).
Context (read_functions : string -> option (list (string * json))).
Context (put_json : string -> Blob) (template : string -> list (string * string) -> string) (report_schema : json).
Context (request_text : json_text -> string -> option string).

Abbreviation _existing_work := (_existing_work read_prepared).
Abbreviation _prepare := (_prepare read_prepared put_manifest read_functions put_json template report_schema request_text).

Lemma check_retry_Ok data v o d data' d' :
  check_retry read_prepared data v o d = Ok (data', d') ->
  d' = d /\ (owner_stopped o = true
             \/ owner_completed o = true /\ exists item policy descriptor report,
                  _completed_review_defect item policy descriptor o d = Ok (Some report, d) /\ de_retryable report = true).
Proof.
  intros H. pose proof (keeps_check_retry eq _ _ _ _ _ _ _ H) as <-. split; [done|]. unfold check_retry in H.
  destruct (owner_completed o) eqn:Ec; [|left; m_inv; by apply negb_false_iff].
  right. split; [done|]. apply bind_Ok in H as (item & d1 & [_ ->]%get_Ok & H). apply bind_Ok in H as (descriptor & d1 & [_ ->]%get_Ok & H).
  skip H. apply bind_Ok in H as (policy & d1 & [_ ->]%get_Ok & H). apply bind_Ok in H as (report & d1 & Hr & H).
  pose proof (keeps_completed_review_defect eq _ _ _ _ _ _ _ Hr) as <-. apply bind_Ok in H as (u & d1 & [Hd _]%refuse_Ok & _).
  apply negb_false_iff in Hd. destruct report as [e|]; [|done]. by exists item, policy, descriptor, e.
Qed.

(** Work is prepared anew when it has no owner, or when the caller retries the settled owner. *)
Lemma existing_work_new x data key st d n data' d' :
  _existing_work x data key st d = Ok ((None, n, data'), d') ->
  d' = d /\ match tb_review_work d !! key with
            | None => vp_retry_of data = None /\ n = 1
            | Some w => exists o, owns d w o /\ vp_retry_of data = Some (owner_id o) /\ retryable d o /\ n = wk_attempts w + 1
            end.
Proof.
  intros H. pose proof (keeps_existing_work eq _ _ _ _ _ _ _ _ H) as <-. split; [done|]. unfold Invocations._existing_work in H.
  apply bind_Ok in H as (found & d1 & [-> ->]%ask_Ok & H). destruct (tb_review_work d !! key) as [w|].
  - apply bind_Ok in H as (o & d1 & [-> Ho]%owner_of_Ok & H). exists o. split; [done|]. destruct (vp_retry_of data) as [prev|].
    + apply bind_Ok in H as (? & d1 & [Hp ->]%refuse_Ok & H). bools. subst prev. split; [done|].
      apply bind_Ok in H as (data2 & d1 & [-> Hr]%check_retry_Ok & H). apply bind_Ok in H as (u & d1 & [-> ->]%ask_Ok & H).
      apply bind_Ok in H as (? & d1 & [Hu ->]%refuse_Ok & [[= -> ->] _]%ret_Ok). split; [by split|done].
    + exfalso. skip H. destruct o; [|skip H]; apply bind_Ok in H as ([? ?] & ? & _ & H); by apply ret_Ok in H as [? _].
  - apply bind_Ok in H as (? & d1 & [Hp ->]%refuse_Ok & [[= -> ->] _]%ret_Ok). split; [|done]. by destruct (vp_retry_of data).
Qed.

Lemma record_work_Ok key n o owner d u d' :
  _record_work key n o owner d = Ok (u, d') -> d' = d <| tb_review_work := <[key := work_of n o owner]> (tb_review_work d) |>.
Proof. unfold _record_work. by intros ->%modify_Ok. Qed.

Lemma prepare_durable_work actor s data m key n d r d' :
  prepare_durable read_prepared put_manifest template actor s data m key n d = Ok (r, d') ->
  exists w, wk_attempts w = n /\ tb_review_work d' = <[key := w]> (tb_review_work d).
Proof.
  unfold prepare_durable. intros H. skip H. skip H. skip H.
  apply bind_Ok in H as (mission & d1 & E1 & H). leaves tb_review_work E1. skip H.
  apply bind_Ok in H as (a & d2 & E2 & H). leaves tb_review_work E2. apply bind_Ok in H as (y & d3 & E3 & H). leaves tb_review_work E3.
  apply bind_Ok in H as (? & d4 & E4 & H). leaves tb_review_work E4. apply bind_Ok in H as (o & d5 & E5 & H). leaves tb_review_work E5.
  apply bind_Ok in H as (? & d6 & E6 & H). leaves tb_review_work E6. apply bind_Ok in H as (? & d7 & E7%record_work_Ok & H).
  exists (work_of n (o_id o) (AssignmentOwner a)). split; [done|]. leaves tb_review_work H. unfold same_part in H. rewrite H, E7. unfold same_part in *. cbn. congruence.
Qed.

Lemma prepare_native_work actor s data m request limits dr key n d r d' :
  prepare_native read_prepared put_manifest actor s data m request limits dr key n d = Ok (r, d') ->
  exists w, wk_attempts w = n /\ tb_review_work d' = <[key := w]> (tb_review_work d).
Proof.
  unfold prepare_native. intros H. apply bind_Ok in H as (y & d1 & E1 & H). leaves tb_review_work E1. skip H.
  apply bind_Ok in H as (t & d2 & E2 & H). leaves tb_review_work E2. apply bind_Ok in H as (q & d3 & E3 & H). leaves tb_review_work E3.
  apply bind_Ok in H as (? & d4 & E4 & H). leaves tb_review_work E4. apply bind_Ok in H as (o & d5 & E5 & H). leaves tb_review_work E5.
  apply bind_Ok in H as (? & d6 & E6%record_work_Ok & H).
  exists (work_of n (o_id o) (RequestOwner q)). split; [done|]. leaves tb_review_work H. unfold same_part in H. rewrite H, E6. unfold same_part in *. cbn. congruence.
Qed.

(** What decides whether an owner is settled. *)
Definition owner_part (d : DB) := (tb_review_work d, tb_assignment d, tb_provider_request d, tb_execution d, tb_resource_claim d).

(** C21. The review of a head by one reviewer under one policy has one owner.  A preparation never
    touches the work of another key; it replaces an owner only when its caller names that owner,
    the owner failed, stopped or completed, and nothing of it still runs or holds a claim; and then
    it counts one attempt more. *)
Theorem owner_replaced_only_when_settled actor data st d r d' key w :
  _prepare actor data st d = Ok (r, d') -> tb_review_work d !! key = Some w ->
  tb_review_work d' !! key = Some w
  \/ exists o w', owns d w o /\ vp_retry_of data = Some (owner_id o) /\ (owner_stopped o || owner_completed o) = true
       /\ unsettled_owner d o = false /\ tb_review_work d' !! key = Some w' /\ wk_attempts w' = wk_attempts w + 1.
Proof.
  unfold Invocations._prepare. intros H Hw. skip H. skip H.
  apply bind_Ok in H as (dr & d1 & E1 & H). leaves owner_part E1. apply bind_Ok in H as (pr & d2 & E2 & H). leaves owner_part E2.
  assert (owner_part d2 = owner_part d) as Ep by (unfold same_part in *; congruence). clear E1 E2. injection Ep as Ew Ea Eq Ex Ec.
  apply bind_Ok in H as ([[found n] data'] & d3 & E3 & H). pose proof (keeps_existing_work eq _ _ _ _ _ _ _ _ E3) as <-.
  destruct found as [r0|]; [apply ret_Ok in H as [_ ->]; left; by rewrite Ew|].
  apply existing_work_new in E3 as [_ E3]. apply bind_Ok in H as (limits & d3 & E4 & H).
  assert (d3 = d2) as ->. { destruct st; [by apply ret_Ok in E4 as [_ ->]|]. apply read_only in E4; [done|frame]. }
  apply bind_Ok in H as ([m request] & d3 & E5 & H). leaves tb_review_work E5. unfold same_part in E5.
  match type of H with context [prepare_durable _ _ _ _ _ _ _ ?k _] => set (key0 := k) in * end.
  assert (exists w', wk_attempts w' = n /\ tb_review_work d' = <[key0 := w']> (tb_review_work d)) as (w' & Hn & ->).
  { destruct st; [apply prepare_durable_work in H|apply prepare_native_work in H]; destruct H as (w' & Hn & ->);
      exists w'; by rewrite E5, Ew. }
  destruct (decide (key = key0)) as [->|Hne]; [|left; by rewrite lookup_insert_ne].
  rewrite lookup_insert_eq. right. rewrite Ew, Hw in E3. destruct E3 as (o & Ho & Hr & [Hs Hu] & ->).
  exists o, w'. split.
  { unfold owns in *. rewrite Ea, Eq in Ho. exact Ho. }
  split; [done|]. split; [destruct Hs as [->|[-> _]]; [done|by rewrite orb_true_r]|].
  split; [|done]. unfold unsettled_owner in *. by rewrite Ex, Ec in Hu.
Qed.

(** ** Capacity *)

Lemma capacity_Ok x d limits d' :
  _capacity x d = Ok (limits, d') ->
  exists row a r, d' = d /\ tb_host_harness d !! (x_host_id x, x_harness_id x) = Some row /\ hx_enabled row = true
    /\ tb_assignment d !! x_assignment_id x = Some a /\ tb_run d !! a_run_id a = Some r
    /\ (forall n, child_limit r x row = Some n -> active_children d (x_id x) < n)
    /\ if is_objective r && present (x_native_capacity x) then limits = []
       else limits = provider_limits d x /\ forall l, l ∈ limits -> account_occupied d l = false.
Proof.
  unfold _capacity. intros H. apply bind_Ok in H as (config & ? & [-> ->]%ask_Ok & H).
  apply bind_Ok in H as (row & ? & [Hrow ->]%lift_Ok & H). apply bind_Ok in H as (n & ? & [-> ->]%ask_Ok & H).
  apply bind_Ok in H as (a & ? & [Ha ->]%get_Ok & H). apply bind_Ok in H as (r & ? & [Hr ->]%get_Ok & H).
  apply bind_Ok in H as (? & ? & [Hn ->]%refuse_Ok & H). exists row, a, r.
  destruct (tb_host_harness d !! _) as [row'|]; [|done]. cbn in Hrow. destruct (hx_enabled row') eqn:He; [|done]. injection Hrow as ->.
  assert (forall n, child_limit r x row = Some n -> active_children d (x_id x) < n) as Hlt.
  { intros n Hc. rewrite Hc in Hn. lia. }
  assert (is_objective r && present (child_limit r x row) = is_objective r && present (x_native_capacity x)) as Ep.
  { unfold child_limit. by destruct (is_objective r). }
  rewrite Ep in H. destruct (is_objective r && present (x_native_capacity x)).
  - apply ret_Ok in H as [-> ->]. done.
  - apply bind_Ok in H as (ls & ? & [-> ->]%ask_Ok & H). apply bind_Ok in H as (o & ? & [-> ->]%ask_Ok & H).
    apply bind_Ok in H as (? & ? & [Ho ->]%refuse_Ok & [-> ->]%ret_Ok). split_and!; try done. intros l Hl.
    apply not_true_iff_false. intros E. apply not_true_iff_false in Ho. apply Ho, existsb_true, Exists_exists. by exists l.
Qed.

(** The rows are kept under their own identifiers, below the next one, and every request has its thread. *)
Record invocation_world (d : DB) : Prop := {
  iw_claims : fresh_claims d;
  iw_threads : forall i, is_Some (tb_provider_thread d !! i) -> (i < db_next d)%positive;
  iw_requests : forall i q, tb_provider_request d !! i = Some q -> q_id q = i /\ is_Some (tb_provider_thread d !! q_provider_thread_id q);
  iw_limits : forall i l, tb_resource_limit d !! i = Some l -> rl_id l = i }.

Lemma provider_limits_NoDup d x : invocation_world d -> NoDup (map rl_id (provider_limits d x)).
Proof.
  intros Hw. unfold provider_limits. rewrite (sort_by_Permutation _ _). unfold slot_limits.
  eapply sublist_NoDup; [|apply (fmap_sublist rl_id), filter_sublist]. exact (select_NoDup (R := resource_limit) _ d (iw_limits _ Hw)).
Qed.

(** Children counted by [sum_by]. *)
Lemma count_sum {A} (p : A -> bool) l : Z.of_nat (List.length (List.filter p l)) = sum_by (fun _ => 1) (List.filter p l).
Proof. unfold sum_by. induction (List.filter p l) as [|a k IH]; [done|]. cbn [List.length foldr]. lia. Qed.

(** One more child of the execution. *)
Lemma active_children_insert d d' k q t j x :
  invocation_world d -> tb_provider_request d !! k = None -> (db_next d <= j)%positive -> q_provider_thread_id q = j ->
  tb_provider_request d' = <[k := q]> (tb_provider_request d) -> tb_provider_thread d' = <[j := t]> (tb_provider_thread d) ->
  active_children d' x <= 1 + active_children d x.
Proof.
  intros Hw Hk Hj Eq Hq Ht. unfold active_children, stored_rows. rewrite !count_sum.
  change (rows (R := provider_request)) with tb_provider_request. cbv beta. rewrite Hq, sum_by_insert by done.
  rewrite (sum_by_ext _ (active_child d' x) (active_child d x)).
  - destruct (active_child d' x q); lia.
  - intros i r Hr. unfold active_child. rewrite Ht, lookup_insert_ne; [done|]. intros ->.
    destruct (iw_requests _ Hw _ _ Hr) as [_ Hx]. apply (iw_threads _ Hw) in Hx. lia.
Qed.
(** What the steps around the creation of a child leave as it was. *)
Definition children_part (d : DB) := (tb_provider_request d, tb_provider_thread d, tb_resource_claim d).

Lemma fresh_claims_grow d d' :
  tb_resource_claim d' = tb_resource_claim d -> (db_next d <= db_next d')%positive -> fresh_claims d -> fresh_claims d'.
Proof. intros E Hn F i. rewrite E. intros Hi%F. lia. Qed.

Lemma claimed_same d d' i : tb_resource_claim d' = tb_resource_claim d -> claimed d' i = claimed d i.
Proof. intros E. unfold claimed. by rewrite E. Qed.

(** The rows of a prepared native child. *)
Lemma prepare_native_spec actor s data m request limits dr key n d r d' :
  prepare_native read_prepared put_manifest actor s data m request limits dr key n d = Ok (r, d') ->
  exists q t, tb_provider_request d !! request = None
    /\ tb_provider_request d' = <[request := q]> (tb_provider_request d) /\ tb_provider_thread d' = <[t_id t := t]> (tb_provider_thread d)
    /\ (db_next d <= t_id t)%positive /\ q_provider_thread_id q = t_id t /\ q_execution_id q = x_id (lx_execution (se_live s))
    /\ (exists y, r = native_result (lx_execution (se_live s)) q y m)
    /\ (fresh_claims d -> NoDup (map rl_id limits) ->
          forall i, claimed d' i = claimed d i + (if decide (i ∈ map rl_id limits) then 1 else 0)).
Proof.
  unfold prepare_native. intros H. apply bind_Ok in H as (y & d1 & E1 & H). grown children_part E1. destruct E1 as [E1 N1]. skip H.
  apply bind_Ok in H as (t & d2 & Et & H). injection Et as Et <-. apply bind_Ok in H as (q & d3 & E3 & H).
  unfold create_with in E3. cbn in E3. destruct (tb_provider_request d1 !! request) eqn:Hq; [done|]. injection E3 as E3 <-.
  apply bind_Ok in H as (? & d4 & E4 & H). pose proof E4 as L4. leaves (fun d => (tb_provider_request d, tb_provider_thread d)) E4.
  apply bind_Ok in H as (o & d5 & E5 & H). leaves children_part E5. apply bind_Ok in H as (? & d6 & ->%record_work_Ok & H).
  apply bind_Ok in H as (? & d7 & E7 & H). leaves children_part E7. apply bind_Ok in H as (? & d8 & E8 & H). leaves children_part E8.
  apply ret_Ok in H as [-> ->]. injection E1 as Q1 T1 C1. injection E4 as Q4 T4. injection E5 as Q5 T5 C5.
  injection E7 as Q7 T7 C7. injection E8 as Q8 T8 C8. cbn in *. exists q, t. rewrite Q1 in Hq. split; [done|].
  split; [by rewrite Q8, Q7, Q5, Q4, Q1, E3|]. subst t. cbn. split; [by rewrite T8, T7, T5, T4, T1|]. split; [done|].
  split; [by rewrite <- E3|]. split; [by rewrite <- E3|]. split; [by exists y|].
  intros F Hn i. rewrite <- (claimed_same d d1), (claimed_same d5 d8) by congruence.
  apply (claims_each_spec (fun l => child_claim _ _ l)) with (n := 1) in L4 as [_ L4]; [|done| |done].
  - rewrite (claimed_same d4 d5) by done. by rewrite L4.
  - eapply fresh_claims_grow; [exact C1| |exact F]. cbn. lia.
Qed.

(** A native result of existing work is that of a stored request. *)
Lemma existing_native x data key st d r n data' d' :
  _existing_work x data key st d = Ok ((Some (ForNative r), n, data'), d') ->
  exists i q, tb_provider_request d !! i = Some q /\ nr_provider_request_id r = q_id q.
Proof.
  unfold Invocations._existing_work. intros H. skip H.
  match type of H with (match ?o with _ => _ end) _ = _ => destruct o as [w|] end; [|skip H; by apply ret_Ok in H as [? _]].
  apply bind_Ok in H as (o & d1 & [-> Ho]%owner_of_Ok & H). destruct (vp_retry_of data).
  - skip H. apply bind_Ok in H as (? & ? & _ & H). skip H. skip H. by apply ret_Ok in H as [? _].
  - skip H. destruct o as [a|q].
    + apply bind_Ok in H as ([? ?] & ? & _ & H). by apply ret_Ok in H as [? _].
    + skip H. apply bind_Ok in H as ([y m] & ? & _ & H). apply ret_Ok in H as [[= -> _ _] _].
      destruct Ho as [_ (i & _ & Hq)]. by exists i, q.
Qed.

Lemma choose_live actor data st s d d' :
  choose read_functions actor data st d = Ok (s, d') -> live_execution actor d = Ok (se_live s, d).
Proof.
  unfold choose, _maintainer, check_item, check_descriptor. intros H. apply bind_Ok in H as (l & d1 & Hl & H).
  apply bind_Ok in Hl as (l' & d2 & Hl & H1). pose proof (live_execution_reads _ _ _ _ Hl) as ->. skip H1. apply ret_Ok in H1 as [-> ->].
  rewrite Hl. do 2 f_equal. repeat skip H. by apply ret_Ok in H as [-> _].
Qed.

(** C22. A native reviewer is prepared within the capacity of its parent: afterwards the children
    that may still run are at most what the objective pinned at admission, or what the harness
    allows now; and on every shared account on which the parent did not already reserve its
    children, the units in use stay within the limit, which is one after a failure. *)
Theorem native_review_within_capacity actor data d r d' :
  _prepare actor data false d = Ok (ForNative r, d') -> invocation_world d ->
  tb_provider_request d !! nr_provider_request_id r = None ->
  exists l row a run, live_execution actor d = Ok (l, d) /\ let x := lx_execution l in
    tb_host_harness d !! (x_host_id x, x_harness_id x) = Some row /\ tb_assignment d !! x_assignment_id x = Some a
    /\ tb_run d !! a_run_id a = Some run
    /\ (forall n, child_limit run x row = Some n -> active_children d' (x_id x) <= n)
    /\ (is_objective run && present (x_native_capacity x) = false ->
         forall l m, l ∈ provider_limits d x -> maximum l = Some m -> claimed d' (rl_id l) <= m).
Proof.
  unfold Invocations._prepare. intros H Hw Hnew. skip H. apply bind_Ok in H as (s & d0 & Hs & H).
  pose proof (keeps_choose eq _ _ _ _ _ _ _ Hs) as <-. apply choose_live in Hs. set (x := lx_execution (se_live s)) in *.
  set (part := fun d => (children_part d, tb_resource_limit d, tb_host_harness d, tb_host_harness_limit d, tb_assignment d, tb_run d, db_now d)).
  apply bind_Ok in H as (dr & d1 & E1 & H). grown part E1. apply bind_Ok in H as (pr & d2 & E2 & H). grown part E2.
  assert (part d2 = part d /\ (db_next d <= db_next d2)%positive) as [P2 N2] by (destruct E1, E2; split; [congruence|lia]). clear E1 E2.
  injection P2 as Q2 T2 C2 L2 X2 Y2 A2 R2 B2.
  apply bind_Ok in H as ([[found n] data'] & d3 & E3 & H). pose proof (keeps_existing_work eq _ _ _ _ _ _ _ _ E3) as <-.
  destruct found as [r0|].
  { exfalso. apply ret_Ok in H as [<- _]. apply existing_native in E3 as (i & q & Hq & Er). rewrite Q2 in Hq.
    destruct (iw_requests _ Hw _ _ Hq) as [Hi _]. rewrite Er, Hi in Hnew. congruence. }
  apply bind_Ok in H as (limits & d3 & E4 & H). apply capacity_Ok in E4 as (row & a & run & -> & Hrow & He & Ha & Hrun & Hn & Hlim).
  apply bind_Ok in H as ([m request] & d3 & E5 & H). grown part E5. destruct E5 as [P3 N3]. injection P3 as Q3 T3 C3 L3 X3 Y3 A3 R3 B3.
  apply prepare_native_spec in H as (q & t & Hq & Q4 & T4 & N4 & Eq & Ex & _ & Hclaims).
  exists (se_live s), row, a, run. fold x. rewrite <- X2, <- A2, <- R2. do 4 (split; [done|]). split.
  - intros k Hk. specialize (Hn k Hk).
    assert (active_children d2 (x_id x) = active_children d (x_id x)) as Ec.
    { unfold active_children, stored_rows, active_child. cbn. by rewrite Q2, T2. }
    rewrite Ec in Hn. enough (active_children d' (x_id x) <= 1 + active_children d (x_id x)) by lia.
    apply (active_children_insert d d' request q t (t_id t)); [done| |lia|done|by rewrite Q4, Q3, Q2|by rewrite T4, T3, T2].
    by rewrite <- Q2, <- Q3.
  - intros Hc l k Hl Hk. rewrite Hc in Hlim. destruct Hlim as [-> Hfree].
    assert (provider_limits d2 x = provider_limits d x) as Ep by (unfold provider_limits, slot_limits; by rewrite L2, Y2).
    rewrite Ep in *. specialize (Hfree l Hl). unfold account_occupied in Hfree. rewrite Hk in Hfree.
    apply orb_false_iff in Hfree as [_ Hfree]. rewrite Hclaims.
    + rewrite (claimed_same d2 d3) by done. destruct (decide _); lia.
    + eapply (fresh_claims_grow d); [congruence|lia|apply Hw].
    + by apply provider_limits_NoDup.
Qed.

(** ** Preparing again *)

Lemma save_blob_stored project sha size media x d a d' :
  save_blob project sha size media x d = Ok (a, d') -> (forall i b, tb_artifact d !! i = Some b -> ar_id b = i) ->
  tb_artifact d' !! ar_id a = Some a.
Proof.
  unfold save_blob. intros (l & d1 & [-> ->]%select_Ok & H)%bind_Ok Hk. destruct (List.filter _ _) as [|b l] eqn:E.
  - injection H as <- <-. cbn. by rewrite lookup_insert_eq.
  - apply ret_Ok in H as [-> ->]. assert (b ∈ b :: l) as Hb by left. rewrite <- E in Hb.
    apply elem_of_select in Hb as [_ [i Hi]]. cbn in Hi. by rewrite (Hk _ _ Hi).
Qed.

(** The work of a preparation is found under its key, as long as its manifest can be read back. *)
Lemma prepared_work_found actor s data m request limits dr key n d r d' data2 :
  prepare_native read_prepared put_manifest actor s data m request limits dr key n d = Ok (r, d') ->
  read_prepared (bl_sha256 (put_manifest m)) = Some m ->
  (forall i b, tb_artifact d !! i = Some b -> ar_id b = i) -> vp_retry_of data2 = None ->
  _existing_work (lx_execution (se_live s)) data2 key false d' = Ok ((Some r, n, data2), d').
Proof.
  unfold prepare_native. intros H Hread Hk Hd. apply bind_Ok in H as (y & d1 & E1 & H). unfold save_manifest in E1.
  pose proof (save_blob_content _ _ _ _ _ _ _ _ E1) as (z1 & z2 & Hc). apply save_blob_stored in E1; [|done]. skip H.
  apply bind_Ok in H as (t & d2 & Et & H). leaves tb_artifact Et. apply bind_Ok in H as (q & d3 & E3 & H). pose proof E3 as L3. leaves tb_artifact L3.
  unfold create_with in E3. cbn in E3. destruct (tb_provider_request d2 !! request) eqn:Hq; [done|]. injection E3 as E3 <-.
  set (part := fun d => (tb_artifact d, tb_provider_request d)).
  apply bind_Ok in H as (? & d4 & E4 & H). leaves part E4. apply bind_Ok in H as (o & d5 & E5 & H). leaves part E5.
  apply bind_Ok in H as (? & d6 & ->%record_work_Ok & H).
  set (all := fun d => (tb_artifact d, tb_provider_request d, tb_review_work d)).
  apply bind_Ok in H as (? & d7 & E7 & H). leaves all E7. apply bind_Ok in H as (? & d8 & E8 & H). leaves all E8.
  apply ret_Ok in H as [-> ->]. injection E4 as A4 Q4. injection E5 as A5 Q5. injection E7 as A7 Q7 W7. injection E8 as A8 Q8 W8. cbn in *.
  unfold Invocations._existing_work. apply bind_Ok. eexists _, d8. split; [by apply ask_Ok|]. rewrite W8, W7, lookup_insert_eq.
  assert (tb_provider_request d8 !! q_id q = Some q) as Hqs.
  { rewrite Q8, Q7, Q5, Q4. subst q. cbn. by rewrite lookup_insert_eq. }
  assert (tb_artifact d8 !! ar_id y = Some y) as Hy by (unfold same_part in *; cbn in *; congruence).
  apply bind_Ok. exists (RequestOwner q), d8. split.
  { unfold owner_of. cbn [work_of wk_assignment_id wk_provider_request_id]. apply bind_Ok. exists q, d8. split; [by apply get_Ok|by apply ret_Ok]. }
  rewrite Hd. apply bind_Ok. exists tt, d8. split; [done|]. apply bind_Ok. exists tt, d8. split.
  { apply refuse_Ok. split; [|done]. subst q. cbn. by rewrite bool_decide_true. }
  apply bind_Ok. exists (y, m), d8. split; [|by apply ret_Ok]. unfold request_manifest.
  apply bind_Ok. exists y, d8. split; [subst q; by apply get_Ok|]. apply bind_Ok. exists m, d8. split; [|by apply ret_Ok].
  apply lift_Ok. split; [|done]. unfold stored_prepared. by rewrite Hc, Hread.
Qed.
End owners.

(** ** Cancelling *)

(** C27. Cancelling settles only what never started.  A reviewer that no provider launched is
    interrupted, its claims are released and its thread is closed; one that may be running is
    uncertain until the provider confirms it stopped, and keeps its claims and its thread; a
    finished one is left as it is. *)
Theorem cancel_releases_only_unlaunched read_prepared actor i note d j status stop d' :
  cancel read_prepared actor i note d = Ok ((j, status, stop), d') ->
  exists q t, tb_provider_request d !! i = Some q /\ tb_provider_thread d !! q_provider_thread_id q = Some t
    /\ if mem (q_status q) TERMINAL then status = q_status q /\ stop = false /\ d' = d
       else if unlaunched q t
       then status = QInterrupted /\ stop = false
            /\ (forall k c, tb_resource_claim d' !! k = Some c -> cl_provider_request_id c = Some i -> present (cl_released_at c) = true)
            /\ exists t', tb_provider_thread d' !! t_id t = Some t' /\ t_status t' = ThreadClosed
       else status = QUncertain /\ stop = true
            /\ tb_resource_claim d' = tb_resource_claim d /\ tb_provider_thread d' = tb_provider_thread d.
Proof.
  unfold cancel. intros H. skip H. apply bind_Ok in H as ([[l q] t] & d1 & Ho & H).
  pose proof (keeps_owned eq _ _ _ _ _ Ho) as <-.
  assert (tb_provider_request d !! i = Some q /\ tb_provider_thread d !! q_provider_thread_id q = Some t) as [Hq Ht].
  { unfold _owned in Ho. skip Ho. apply bind_Ok in Ho as (q1 & d1 & [Hq ->]%get_Ok & Ho).
    apply bind_Ok in Ho as (t1 & d1 & [Ht ->]%get_Ok & Ho). skip Ho. skip Ho. apply ret_Ok in Ho as [[= -> -> ->] _]. done. }
  exists q, t. split; [done|]. split; [done|]. destruct (mem (q_status q) TERMINAL).
  { by apply ret_Ok in H as [[= -> -> ->] ->]. }
  apply bind_Ok in H as (now & ? & [-> ->]%ask_Ok & H). apply bind_Ok in H as (? & d1 & E1 & H).
  apply bind_Ok in H as (q2 & d2 & E2 & H). pose proof E2 as L2. set (part := fun d => (tb_resource_claim d, tb_provider_thread d)).
  leaves part L2. apply change_Ok in E2 as (q3 & _ & _ & -> & _).
  apply bind_Ok in H as (? & d3 & E3 & H). leaves part E3. apply bind_Ok in H as (? & d4 & E4 & H). leaves part E4.
  apply ret_Ok in H as [[= _ -> ->] ->]. assert (part d4 = part d1) as P by (unfold same_part in *; congruence). injection P as Pc Pt.
  destruct (unlaunched q t); cbn in E1.
  - split; [done|]. split; [done|]. apply bind_Ok in E1 as (? & d5 & E5 & E1). unfold release_child_claims in E5.
    apply bind_Ok in E1 as (t' & d6 & E6 & [_ ->]%ret_Ok). apply update_where_Ok in E5 as ->.
    apply change_Ok in E6 as (t0 & Ht0 & _ & -> & ->). cbn in Pc, Pt. split.
    + intros k c Hc Hi. rewrite Pc, lookup_fmap in Hc. apply fmap_Some in Hc as (c0 & _ & ->).
      unfold child_claim_open in *. destruct (bool_decide (cl_provider_request_id c0 = Some i)) eqn:Ei; cbn in Hi |- *.
      * destruct (present (cl_released_at c0)) eqn:Ep; cbn; [by rewrite Ep|done].
      * cbn in Hi. by rewrite bool_decide_eq_false in Ei.
    + eexists. rewrite Pt, lookup_insert_eq. done.
  - apply ret_Ok in E1 as [_ ->]. done.
Qed.

(** ** Binding *)

(** Requests keep their thread. *)
Definition hosted (d d' : DB) : Prop :=
  forall i q, tb_provider_request d !! i = Some q ->
    exists q', tb_provider_request d' !! i = Some q' /\ q_provider_thread_id q' = q_provider_thread_id q.

#[export] Instance hosted_preorder : PreOrder hosted.
Proof.
  split; [by intros d i q Hq; exists q|]. intros d1 d2 d3 H1 H2 i q Hq. destruct (H1 _ _ Hq) as (q2 & Hq2 & E2).
  destruct (H2 _ _ Hq2) as (q3 & Hq3 & E3). exists q3. split; [done|congruence].
Qed.

Lemma hosted_same d d' : tb_provider_request d' = tb_provider_request d -> hosted d d'.
Proof. intros E i q Hq. exists q. by rewrite E. Qed.

#[export] Hint Extern 0 (Quiet hosted _) => (split; intros ??; apply hosted_same; reflexivity) : typeclass_instances.

Lemma hosted_change i e (f : provider_request -> provider_request) :
  (forall q, q_provider_thread_id (f q) = q_provider_thread_id q) -> Keeps hosted (change i e f).
Proof.
  intros Hf d r d' (q0 & Hq0 & _ & -> & ->)%change_Ok j q Hq. cbn in *. destruct (decide (i = j)) as [<-|].
  - rewrite lookup_insert_eq. rewrite Hq0 in Hq. injection Hq as <-. eexists. split; [done|]. apply Hf.
  - rewrite lookup_insert_ne by done. by exists q.
Qed.
#[export] Hint Extern 1 (Keeps hosted (change _ _ _)) => (apply hosted_change; intros ?; reflexivity) : frame.

Section binding.
Context (sha256 : string -> string).
Abbreviation bind_native := (bind_native sha256).
Abbreviation child_state_ref := (child_state_ref sha256).

Lemma hosted_bind_observed x p t o n v : Keeps hosted (_bind_observed_child x p t o n v).
Proof.
  unfold _bind_observed_child, release_child_claims. frame.
Qed.

(** The thread of a request in a database. *)
Definition thread_at (d : DB) (i : uid) : option provider_thread :=
  q ← tb_provider_request d !! i; tb_provider_thread d !! q_provider_thread_id q.

Lemma thread_at_hosted d d' i q :
  hosted d d' -> tb_provider_request d !! i = Some q -> thread_at d' i = tb_provider_thread d' !! q_provider_thread_id q.
Proof. intros H Hq. destruct (H _ _ Hq) as (q' & Hq' & E). unfold thread_at. rewrite Hq'. cbn. by rewrite E. Qed.

Lemma bind_observed_thread x p t o n v d t' q d' :
  _bind_observed_child x p t o n v d = Ok ((t', q), d') -> tb_provider_thread d !! t_id t = Some t -> t_id o <> t_id t ->
  tb_provider_thread d' !! t_id t = Some t' /\ t_id t' = t_id t /\ t_provider_state_ref t' = t_provider_state_ref t.
Proof.
  unfold _bind_observed_child, release_child_claims. intros H Ht Ho. skip H. skip H. skip H.
  apply bind_Ok in H as (q1 & d1 & E1 & H). leaves tb_provider_thread E1. apply bind_Ok in H as (? & d2 & E2 & H). leaves tb_provider_thread E2.
  apply bind_Ok in H as (q2 & d3 & E3 & H). leaves tb_provider_thread E3.
  apply bind_Ok in H as (o' & d4 & (o1 & Ho1 & _ & _ & ->)%change_Ok & H).
  apply bind_Ok in H as (c & d5 & (u & Hu & _ & -> & ->)%change_Ok & H). apply bind_Ok in H as (? & d6 & E6 & H). leaves tb_provider_thread E6.
  apply ret_Ok in H as [[= -> ->] ->]. cbn in Hu, E6. rewrite lookup_insert_ne in Hu by done.
  assert (u = t) as -> by (unfold same_part in *; congruence). unfold same_part in E6. rewrite E6. cbn. by rewrite lookup_insert_eq.
Qed.

(** After a binding the thread of the request names the native child; before it, the thread was
    the prepared placeholder or named that child already. *)
Lemma bind_native_spec x parent i adapter key inv bg d t q d' :
  bind_native x parent i adapter key inv bg d = Ok ((t, q), d') ->
  (forall j u, tb_provider_thread d !! j = Some u -> t_id u = j) ->
  let ref := child_state_ref (t_id parent) adapter key in
  exists u, thread_at d i = Some u /\ (t_provider_state_ref u = PREPARED i \/ t_provider_state_ref u = ref)
    /\ exists u', thread_at d' i = Some u' /\ t_provider_state_ref u' = ref.
Proof.
  unfold Invocations.bind_native. intros H Hk. skip H. apply bind_Ok in H as (rq & ? & [Hq ->]%get_Ok & H).
  apply bind_Ok in H as (c & ? & [Hc ->]%get_Ok & H). cbn in Hq, Hc. skip H. skip H. apply bind_Ok in H as (? & ? & [Hs ->]%refuse_Ok & H).
  skip H. apply bind_Ok in H as (others & ? & [-> ->]%select_Ok & H). apply bind_Ok in H as ([c1 rq1] & d1 & E1 & H).
  set (ref := child_state_ref (t_id parent) adapter key) in *. pose proof (Hk _ _ Hc) as Ec.
  assert (hosted d d1 /\ tb_provider_thread d1 !! t_id c = Some c1 /\ t_id c1 = t_id c) as (Hh1 & Hc1 & Ec1).
  { destruct (List.filter _ _) as [|o [|o' l]] eqn:Ef; [| |discriminate E1].
    - apply ret_Ok in E1 as [[= -> ->] ->]. by rewrite Ec.
    - split; [by apply hosted_bind_observed in E1|]. assert (o ∈ [o]) as Hin by (by left). rewrite <- Ef in Hin.
      apply elem_of_select in Hin as [Hin _]. unfold same_identity in Hin. apply andb_true_iff in Hin as [Hin _].
      apply andb_true_iff in Hin as [_ Hin]. apply negb_true_iff, bool_decide_eq_false in Hin.
      apply bind_observed_thread in E1 as (? & ? & _); [done|by rewrite Ec|done]. }
  apply bind_Ok in H as (c2 & d2 & E2 & H).
  assert (hosted d1 d2 /\ tb_provider_thread d2 !! t_id c = Some c2 /\ t_provider_state_ref c2 = ref) as (Hh2 & Hc2 & Er).
  { destruct (bool_decide_reflect (t_provider_state_ref c1 = ref)) as [E|_].
    - by apply ret_Ok in E2 as [-> ->].
    - split; [by within hosted E2|]. apply change_Ok in E2 as (u & Hu & _ & -> & ->). cbn in Hu |- *. rewrite Ec1, lookup_insert_eq. done. }
  skip H. apply bind_Ok in H as (rq2 & d3 & E3 & H). apply ret_Ok in H as [_ ->].
  assert (hosted d2 d3 /\ tb_provider_thread d3 = tb_provider_thread d2) as [Hh3 Et].
  { destruct (binding_changes _ _ _); [|by apply ret_Ok in E3 as [_ ->]]. skip E3. split; [by within hosted E3|]. by leaves tb_provider_thread E3. }
  exists c. split; [unfold thread_at; by rewrite Hq|]. split.
  - apply andb_false_iff in Hs as [Hs|Hs]; [left|right].
    + by apply negb_false_iff, bool_decide_eq_true in Hs.
    + apply orb_false_iff in Hs as [Hs _]. by apply negb_false_iff, bool_decide_eq_true in Hs.
  - exists c2. split; [|done]. rewrite (thread_at_hosted d d3 i rq); [by rewrite Et, <- Ec| |done]. by do 2 (etrans; [|eassumption]).
Qed.

(** C26. A review is bound to one native child for good: whatever happened to the request between
    two bindings, as long as its thread keeps the name that the first one wrote, a second binding
    that succeeds names the same child. *)
Theorem review_binding_permanent x parent adapter key inv bg x2 parent2 adapter2 key2 inv2 bg2 i d t q d1 t2 q2 d2 d' :
  bind_native x parent i adapter key inv bg d = Ok ((t, q), d1) ->
  (forall j u, tb_provider_thread d !! j = Some u -> t_id u = j) -> (forall j u, tb_provider_thread d2 !! j = Some u -> t_id u = j) ->
  t_provider_state_ref <$> thread_at d2 i = t_provider_state_ref <$> thread_at d1 i ->
  bind_native x2 parent2 i adapter2 key2 inv2 bg2 d2 = Ok ((t2, q2), d') ->
  child_state_ref (t_id parent2) adapter2 key2 = child_state_ref (t_id parent) adapter key.
Proof.
  intros H1 Hk1 Hk2 Hsame H2. apply bind_native_spec in H1 as (u & _ & _ & u' & Hu' & Er); [|done].
  apply bind_native_spec in H2 as (v & Hv & Hor & _); [|done]. rewrite Hv, Hu' in Hsame. cbn in Hsame. injection Hsame as Hsame.
  rewrite Hsame, Er in Hor. destruct Hor as [Hor|Hor]; [|done]. unfold PREPARED, Invocations.child_state_ref in Hor. discriminate Hor.
Qed.
End binding.

(** ** A maintainer and its reviewer

    Reviewer 42 is asked to review pull request 60 in [maintainer_db], on provider account 70. *)

Definition asked_review : ReviewerPrepare :=
  {| vp_parent_request_id := 51; vp_forge_item_id := 60; vp_reviewer_descriptor_id := 42; vp_expected_head_oid := Some "beef";
     vp_instructions := "Check the lemma."; vp_review_plan := None; vp_retry_of := None; vp_retry_note := None |}.

Definition no_functions (sha : string) : option (list (string * json)) := Some [].
Definition no_text (j : json_text) (key : string) : option string := None.

Definition drafted : result (Selection * (PreparedManifest * uid) * DB) :=
  match choose no_functions agent asked_review false maintainer_db with
  | Ok (s, d) => match draft zero_digest prompt_name sample_schema no_text agent s asked_review false 43 44 d with
                 | Ok (m, d') => Ok (s, m, d')
                 | Err e => Err e
                 end
  | Err e => Err e
  end.

Definition one_blob (m : PreparedManifest) : Blob := {| bl_sha256 := zeros 64; bl_size := 1; bl_media_type := "application/json" |}.
Definition one_manifest (sha : string) : option PreparedManifest := match drafted with Ok (_, (m, _), _) => Some m | Err _ => None end.

Definition sample_prepare : M PrepareResult :=
  _prepare one_manifest one_blob no_functions zero_digest prompt_name sample_schema no_text agent asked_review false.

(** Every row is kept under its own identifier. *)
Definition keyed_rows {A} (identifier : A -> uid) (m : gmap uid A) : bool :=
  forallb (fun p => bool_decide (identifier p.2 = p.1)) (map_to_list m).

Lemma keyed_rows_spec {A} (identifier : A -> uid) m : keyed_rows identifier m = true -> forall i a, m !! i = Some a -> identifier a = i.
Proof.
  unfold keyed_rows. rewrite forallb_forall. intros H i a Hi%elem_of_map_to_list%list_elem_of_In. exact (bool_decide_eq_true_1 _ (H _ Hi)).
Qed.

(** The database in which the review was prepared. *)
Definition prepared_db : DB := match sample_prepare maintainer_db with Ok (_, d) => d | Err _ => maintainer_db end.

Definition sample_key : work_key := _work_key reviewed_pull 43 44.

Lemma sample_prepared : exists r, sample_prepare maintainer_db = Ok (ForNative r, prepared_db) /\ nr_provider_request_id r = 100%positive.
Proof.
  assert (match sample_prepare maintainer_db with
          | Ok (ForNative r, _) => nr_provider_request_id r = 100%positive
          | _ => False
          end) as Hr by (by vm_compute).
  unfold prepared_db. destruct (sample_prepare maintainer_db) as [[[r|r] d]|]; [done| |done]. by exists r.
Qed.

Lemma maintainer_world : invocation_world maintainer_db.
Proof.
  split.
  - intros i [c H]. cbn in H. by rewrite lookup_empty in H.
  - intros i [t H]. cbn in H. by apply lookup_singleton_Some in H as [<- _].
  - intros i q H. cbn in H. apply lookup_singleton_Some in H as [<- <-]. split; [done|]. by eexists.
  - intros i l H. cbn in H. by apply lookup_singleton_Some in H as [<- <-].
Qed.

Lemma owner_replaced_only_when_settled_witness :
  exists w r d', tb_review_work prepared_db !! sample_key = Some w /\ sample_prepare prepared_db = Ok (r, d')
    /\ tb_review_work d' !! sample_key = Some w.
Proof.
  destruct (tb_review_work prepared_db !! sample_key) as [w|] eqn:Ew; [|vm_compute in Ew; discriminate Ew].
  destruct (is_ok_true (sample_prepare prepared_db)) as [[r d'] E]; [by vm_compute|].
  exists w, r, d'. split; [done|]. split; [exact E|].
  destruct (owner_replaced_only_when_settled _ _ _ _ _ _ _ _ _ _ _ _ _ sample_key w E Ew) as [Hw|(o & w' & _ & Hr & _)]; [exact Hw|].
  discriminate Hr.
Defined.

Lemma native_review_within_capacity_witness :
  exists r, sample_prepare maintainer_db = Ok (ForNative r, prepared_db) /\ active_children prepared_db 7 <= 9 /\ claimed prepared_db 70 <= 3.
Proof.
  destruct sample_prepared as (r & E & Hr). exists r. split; [exact E|].
  destruct (native_review_within_capacity _ _ _ _ _ _ _ _ _ _ _ _ E maintainer_world) as (l & row & a & run & Hl & Hx & Ha & Hu & Hc & Hm).
  { rewrite Hr. by vm_compute. }
  vm_compute in Hl. injection Hl as <-. cbn in Hx, Ha, Hu. injection Hx as <-. injection Ha as <-. injection Hu as <-.
  split; [by apply Hc|].
  assert (exists l, l ∈ provider_limits maintainer_db (sample_execution 7 6 XRunning) /\ rl_id l = 70%positive /\ maximum l = Some 3)
    as (l & Hin & Hi & Hl) by (eexists; split; [by left|by split]).
  rewrite <- Hi. by apply Hm.
Defined.

Lemma cancel_releases_only_unlaunched_witness :
  exists d', cancel one_manifest agent 100 "Superseded" prepared_db = Ok ((100%positive, QInterrupted, false), d')
    /\ forall k c, tb_resource_claim d' !! k = Some c -> cl_provider_request_id c = Some 100%positive -> present (cl_released_at c) = true.
Proof.
  destruct (is_ok_true (cancel one_manifest agent 100 "Superseded" prepared_db)) as [[[[j st] stop] d'] E]; [by vm_compute|].
  exists d'. destruct (cancel_releases_only_unlaunched _ _ _ _ _ _ _ _ _ E) as (q & t & Hq & Ht & H).
  assert (match cancel one_manifest agent 100 "Superseded" prepared_db with Ok (r, _) => r = (100%positive, QInterrupted, false) | Err _ => False end)
    as Hr by (by vm_compute).
  rewrite E in Hr. injection Hr as -> -> ->.
  split; [exact E|]. vm_compute in Hq. injection Hq as <-. vm_compute in Ht. injection Ht as <-. by destruct H as (_ & _ & Hc & _).
Defined.

Lemma threads_of_prepared j u : tb_provider_thread prepared_db !! j = Some u -> t_id u = j.
Proof. apply keyed_rows_spec. by vm_compute. Qed.

Definition bind_sample (key : string) : M (provider_thread * provider_request) :=
  bind_native same_text (sample_execution 7 6 XRunning) (sample_thread 50 6 91 Available) 100 "codex" key None None.

Lemma review_binding_permanent_witness :
  exists t q d1 t2 q2 d2, bind_sample "child" prepared_db = Ok ((t, q), d1) /\ bind_sample "child" d1 = Ok ((t2, q2), d2)
    /\ t_provider_state_ref <$> thread_at d1 100 = Some (child_state_ref same_text (t_id (sample_thread 50 6 91 Available)) "codex" "child").
Proof.
  destruct (is_ok_true (bind_sample "child" prepared_db)) as [[[t q] d1] E]; [by vm_compute|].
  assert (d1 = match bind_sample "child" prepared_db with Ok (_, d) => d | Err _ => prepared_db end) as Hd by (by rewrite E).
  destruct (is_ok_true (bind_sample "child" d1)) as [[[t2 q2] d2] E2]; [rewrite Hd; by vm_compute|].
  exists t, q, d1, t2, q2, d2. split; [exact E|]. split; [exact E2|].
  assert (forall j u, tb_provider_thread d1 !! j = Some u -> t_id u = j) as Hk by (apply keyed_rows_spec; rewrite Hd; by vm_compute).
  etransitivity; [|exact (f_equal Some (review_binding_permanent same_text _ _ _ _ _ _ _ _ _ _ _ _ _ _ _ _ _ _ _ _ _ E threads_of_prepared Hk eq_refl E2))].
  rewrite Hd. by vm_compute.
Defined.
