(* ===== verification/Preparation.v ===== *)
(** * Preparing a review twice

    [_prepare] of Invocations.v asked again for what it has prepared: everything that it reads is
    still there, the pinned revisions are found again, and so is the work on the head, whose request
    is returned; nothing new is started. *)

From S2P Require Import Prelude Contracts WorkerContracts ReviewContracts Conditions Schema Records Auth Samples MissionTree Missions Ledger Usage Capacity Sessions Assignments Deliveries Settlement Runs Workspaces Labels Objectives Demand Launch Leases Admission AdmissionSafety Panel PanelSafety Decisions Packets Invocations ProviderEvents ObservationSafety WorkerEvents Gates Outbox GateSafety InvocationSafety.

Local Open Scope string_scope.
Local Open Scope Z_scope.

(** ** What a preparation leaves as it was *)

Definition chosen_part (d : DB) :=
  (db_now d, tb_execution d, tb_assignment d, tb_run d, tb_mission d, tb_forge_item d, tb_repository d, tb_reviewer_descriptor d,
   tb_review_policy d, tb_review_policy_repository d, tb_integration_identity d).

(** The rows that a preparation needs are unchanged, and those of the tables that it adds to remain. *)
Record remains (d d' : DB) : Prop := {
  remains_part : chosen_part d' = chosen_part d;
  remains_requests : tb_provider_request d ⊆ tb_provider_request d';
  remains_threads : tb_provider_thread d ⊆ tb_provider_thread d';
  remains_artifacts : tb_artifact d ⊆ tb_artifact d';
  remains_revisions : tb_record_revision d ⊆ tb_record_revision d' }.

#[export] Instance remains_preorder : PreOrder remains.
Proof.
  split; [by intros d; split|]. intros d1 d2 d3 [P1 Q1 T1 A1 R1] [P2 Q2 T2 A2 R2]. split; [congruence|by etransitivity..].
Qed.

(** Identifiers are drawn in order, artifacts are kept under theirs, and an object has one row for a
    revision. *)
Record rows_ok (d : DB) : Prop := {
  artifact_ok i a : tb_artifact d !! i = Some a -> ar_id a = i /\ (i < db_next d)%positive;
  thread_ok i t : tb_provider_thread d !! i = Some t -> (i < db_next d)%positive;
  revision_ok i r : tb_record_revision d !! i = Some r -> (i < db_next d)%positive;
  revision_unique i j r q : tb_record_revision d !! i = Some r -> tb_record_revision d !! j = Some q ->
    rr_object_id r = rr_object_id q -> rr_object_revision r = rr_object_revision q -> i = j }.

Definition extends (d d' : DB) : Prop := rows_ok d -> rows_ok d' /\ remains d d'.

#[export] Instance extends_preorder : PreOrder extends.
Proof.
  split; [by intros d; split|]. intros d1 d2 d3 H12 H23 H. destruct (H12 H) as [H2 R12]. destruct (H23 H2) as [H3 R23].
  split; [done|by etransitivity].
Qed.

Lemma extends_same d d' :
  (chosen_part d', tb_provider_request d', tb_provider_thread d', tb_artifact d', tb_record_revision d')
  = (chosen_part d, tb_provider_request d, tb_provider_thread d, tb_artifact d, tb_record_revision d) ->
  (db_next d <= db_next d')%positive -> extends d d'.
Proof.
  intros E N [A T R U]. injection E as E1 E2 E3 E4 E5 E6 E7 E8 E9 E10 E11 Q Th Ar Rv. split; [split; rewrite ?Ar, ?Th, ?Rv|].
  - intros i a Ha. destruct (A i a Ha). split; [done|lia].
  - intros i t Ht%T. lia.
  - intros i r Hr%R. lia.
  - exact U.
  - split; [unfold chosen_part; congruence|by rewrite ?Q, ?Th, ?Ar, ?Rv..].
Qed.

#[export] Hint Extern 0 (Quiet extends _) => (split; intros; apply extends_same; cbn; (reflexivity || lia)) : typeclass_instances.
#[export] Hint Extern 0 (QuietDraw extends) => (intros ???; apply extends_same; [reflexivity|done]) : typeclass_instances.
#[export] Hint Extern 1 (Keeps extends (modify _)) => (apply keeps_modify; intros; apply extends_same; [reflexivity|cbn; lia]) : frame.

(** New rows. *)
Lemma fresh_row {A} (m : gmap uid A) n : (forall i a, m !! i = Some a -> (i < n)%positive) -> m !! n = None.
Proof. intros H. destruct (m !! n) as [a|] eqn:E; [|done]. apply H in E. lia. Qed.

Lemma extends_save_blob project sha size media x : Keeps extends (save_blob project sha size media x).
Proof.
  intros d a d' H [A T R U]. unfold save_blob in H. apply bind_Ok in H as (l & d1 & [_ ->]%select_Ok & H).
  destruct l as [|b l]; [|by injection H as _ <-]. injection H as _ <-. split; [split; cbn|split; cbn; try done].
  - intros i b. intros [[<- <-]|[_ Hb]]%lookup_insert_Some; [by split; [|lia]|]. destruct (A i b Hb). split; [done|lia].
  - intros i t Ht%T. lia.
  - intros i r Hr%R. lia.
  - exact U.
  - apply insert_subseteq, fresh_row. intros i b Hb. by apply (A i b).
Qed.

Lemma extends_new_thread (v : uid -> instant -> provider_thread) : Keeps extends (create v).
Proof.
  intros d t d' H [A T R U]. injection H as _ <-. split; [split; cbn|split; cbn; try done].
  - intros i b Hb. destruct (A i b Hb). split; [done|lia].
  - intros i q [[<- <-]|[_ Ht%T]]%lookup_insert_Some; lia.
  - intros i r Hr%R. lia.
  - exact U.
  - apply insert_subseteq, fresh_row. exact T.
Qed.

Lemma extends_new_request i (v : uid -> instant -> provider_request) : Keeps extends (create_with i v).
Proof.
  intros d t d' H [A T R U]. unfold create_with in H. cbn in H. destruct (tb_provider_request d !! i) eqn:E; [done|]. injection H as _ <-.
  split; [split; cbn|split; cbn; try done].
  - intros k b Hb. destruct (A k b Hb). split; [done|lia].
  - intros k q Ht%T. lia.
  - intros k r Hr%R. lia.
  - exact U.
  - by apply insert_subseteq.
Qed.

(** The row of a revision. *)
Definition revision_of {R} `{Revisioned R} (row : R) (d : DB) (i : uid) : Prop :=
  exists k r, tb_record_revision d !! k = Some r /\ rr_object_id r = rev_ref row /\ rr_object_revision r = rev_number row /\ rr_id r = i.

Lemma is_revision_true ref n r : is_revision ref n r = true <-> rr_object_id r = ref /\ rr_object_revision r = n.
Proof. unfold is_revision. by rewrite andb_true_iff, bool_decide_eq_true, Z.eqb_eq. Qed.

Lemma snapshot_Ok {R} `{Revisioned R} (row : R) actor d i d' :
  snapshot row actor d = Ok (i, d') -> rows_ok d -> rows_ok d' /\ remains d d' /\ revision_of row d' i.
Proof.
  unfold snapshot. intros H1 Hok. apply bind_Ok in H1 as (l & ? & [El ->]%select_Ok & H1).
  assert (forall r, r ∈ l <-> (rr_object_id r = rev_ref row /\ rr_object_revision r = rev_number row) /\ exists k, tb_record_revision d !! k = Some r) as Hl.
  { intros r. rewrite El, elem_of_select, is_revision_true. done. }
  clear El. destruct l as [|r l].
  - apply bind_Ok in H1 as (content & ? & [_ ->]%ask_Ok & H1). apply bind_Ok in H1 as (r & d1 & E & H1). apply ret_Ok in H1 as [-> ->].
    injection E as Er <-. destruct Hok as [A T R0 U]. assert (tb_record_revision d !! db_next d = None) as Hfresh by (by apply fresh_row).
    assert (forall k q, tb_record_revision d !! k = Some q -> rr_object_id q = rev_ref row -> rr_object_revision q = rev_number row -> False) as Hnew.
    { intros k q Hq H1 H2. apply (not_elem_of_nil q), Hl. eauto. }
    split; [split; cbn|split; [split; cbn; try done; by apply insert_subseteq|]].
    + intros k b Hb. destruct (A k b Hb). split; [done|lia].
    + intros k q Ht%T. lia.
    + intros k q [[<- <-]|[_ Ht%R0]]%lookup_insert_Some; lia.
    + intros k j a b [[<- <-]|[_ Ha]]%lookup_insert_Some [[<- <-]|[_ Hb]]%lookup_insert_Some; cbn; intros H1 H2; [done| | |by eapply U].
      * exfalso. by apply (Hnew j b Hb).
      * exfalso. by apply (Hnew k a Ha).
    + exists (db_next d), r. cbn. rewrite Er, lookup_insert_eq. by rewrite <- Er.
  - apply ret_Ok in H1 as [-> ->]. split; [done|]. split; [done|]. destruct (proj1 (Hl r)) as [[H1 H2] [k Hk]]; [by left|]. by exists k, r.
Qed.

Lemma extends_snapshot {R} `{Revisioned R} (row : R) actor : Keeps extends (snapshot row actor).
Proof. intros d i d' H1 Hok. by apply snapshot_Ok in H1 as (? & ? & _). Qed.

(** A revision that was pinned is found again. *)
Lemma snapshot_again {R} `{Revisioned R} (row : R) actor d i :
  revision_of row d i -> rows_ok d -> snapshot row actor d = Ok (i, d).
Proof.
  intros (k & r & Hk & H1 & H2 & <-) Hok. unfold snapshot. apply bind_Ok.
  eexists _, d. split; [by apply select_Ok|]. destruct (List.filter _ _) as [|q l] eqn:E.
  - exfalso. apply (not_elem_of_nil r). rewrite <- E. apply elem_of_select. split; [by apply is_revision_true|]. by exists k.
  - assert (q ∈ q :: l) as Hq by by left. rewrite <- E in Hq. apply elem_of_select in Hq as [[Q1 Q2]%is_revision_true [j Hj]]. cbn in Hj.
    assert (j = k) as -> by (eapply (revision_unique _ Hok j k); [exact Hj|exact Hk|congruence..]). rewrite Hk in Hj. by injection Hj as ->.
Qed.

Lemma revision_of_remains {R} `{Revisioned R} (row : R) d d' i : remains d d' -> revision_of row d i -> revision_of row d' i.
Proof. intros Hr (k & r & Hk & H1). exists k, r. split; [|done]. eapply lookup_weaken; [exact Hk|apply Hr]. Qed.

#[export] Hint Extern 0 (Keeps extends (save_blob _ _ _ _ _)) => (apply extends_save_blob) : frame.
#[export] Hint Extern 0 (Keeps extends (snapshot _ _)) => (apply extends_snapshot) : frame.
#[export] Hint Extern 0 (Keeps extends (create_with _ _)) => (apply extends_new_request) : frame.
#[export] Hint Extern 0 (Keeps extends (create (new_child _ _ _ _))) => (apply extends_new_thread) : frame.

(** ** Reading again *)

(** [Repeats m]: reading [m] gives the same answer wherever the rows remain. *)
Class Repeats {A} (m : M A) : Prop :=
  repeats d a d1 d' : m d = Ok (a, d1) -> remains d d' -> d1 = d /\ m d' = Ok (a, d').

(** The rows of [R] remain. *)
Class Remaining (R : Type) `{Table R} : Prop := remaining d d' : remains d d' -> rows d ⊆ rows d'.

Lemma repeats_bind {A B} (m : M A) (k : A -> M B) : Repeats m -> (forall a, Repeats (k a)) -> Repeats (m ≫= k).
Proof.
  intros Hm Hk d b d1 d' (a & d2 & H1 & H2)%bind_Ok Hr. destruct (Hm _ _ _ _ H1 Hr) as [-> H1']. destruct (Hk a _ _ _ _ H2 Hr) as [-> H2'].
  split; [done|]. apply bind_Ok. eauto.
Qed.

Lemma repeats_ret {A} (a : A) : Repeats (mret a : M A).
Proof. by intros d b d1 d' [-> ->]%ret_Ok _. Qed.

Lemma repeats_lift {A} (r : result A) : Repeats (lift r).
Proof. intros d b d1 d' [-> ->]%lift_Ok _. split; [done|]. by apply lift_Ok. Qed.

Lemma repeats_refuse b c s : Repeats (refuse b c s).
Proof. intros d u d1 d' [-> ->]%refuse_Ok _. split; [done|]. by apply refuse_Ok. Qed.

Lemma repeats_throw {A} e : Repeats (throw e : M A).
Proof. by intros d u d1 d' ?. Qed.

Lemma repeats_ask {A} (f : DB -> A) : (forall d d', remains d d' -> f d' = f d) -> Repeats (ask f).
Proof. intros Hf d a d1 d' [-> ->]%ask_Ok Hr. split; [done|]. apply ask_Ok. by rewrite (Hf _ _ Hr). Qed.

Lemma repeats_get {R} `{Table R, !Remaining R} i : Repeats (get i : M R).
Proof.
  intros d a d1 d' [Ha ->]%get_Ok Hr. split; [done|]. apply get_Ok. split; [|done]. eapply lookup_weaken; [exact Ha|by apply remaining].
Qed.

#[export] Hint Extern 0 (Remaining _) => (intros ? ? [E ? ? ? ?]; injection E; intros; cbn; (assumption || (apply reflexive_eq; congruence))) : typeclass_instances.
#[export] Hint Extern 1 (Repeats (get _)) => (apply repeats_get; typeclasses eauto) : typeclass_instances.
#[export] Existing Instances repeats_ret repeats_lift repeats_refuse repeats_throw.

Ltac again :=
  repeat match goal with
  | |- Repeats (_ ≫= _) => apply repeats_bind; [|intros ?]
  | |- Repeats (match ?x with _ => _ end) => destruct x
  | |- Repeats _ => solve [typeclasses eauto]
  end.

Lemma live_row_remains d d' i : remains d d' -> live_row d' i = live_row d i.
Proof. intros [E _ _ _ _]. injection E as E1 E2 E3 E4 E5 _ _ _ _ _ _. unfold live_row. by rewrite E1, E2, E3, E4, E5. Qed.

#[export] Instance repeats_live_execution actor : Repeats (live_execution actor).
Proof.
  unfold live_execution. apply repeats_bind; [apply _|intros _]. destruct (actor_execution actor) as [i|]; [|apply _].
  apply repeats_bind; [apply repeats_ask; intros; by apply live_row_remains|]. intros [l|]; apply _.
Qed.

#[export] Instance repeats_policies repository k : Repeats (ask (fun d => stored_rows (covers d repository k) d)).
Proof.
  apply repeats_ask. intros d d' [E _ _ _ _]. injection E as _ _ _ _ _ _ _ _ E1 E2 _. unfold stored_rows, covers. cbn. by rewrite E1, E2.
Qed.

Lemma repeats_choose read_functions actor data standalone : Repeats (choose read_functions actor data standalone).
Proof.
  unfold choose, _maintainer, check_item, check_descriptor, same_project, in_project, project_of, project_of_forge_item, project_of_repository.
  again.
Qed.

(** ** Preparing again *)

Section again.
Context (read_prepared : string -> option PreparedManifest) (put_manifest : PreparedManifest -> Blob)
  (read_functions : string -> option (list (string * json))) (put_json : string -> Blob) (template : string -> list (string * string) -> string)
  (report_schema : json) (request_text : json_text -> string -> option string).

Abbreviation prepares := (_prepare read_prepared put_manifest read_functions put_json template report_schema request_text).

(** The manifest that a native preparation drafts. *)
Definition drafted_manifest (actor : Actor) (data : ReviewerPrepare) : M PreparedManifest :=
  s ← choose read_functions actor data false;
  descriptor_revision ← snapshot (se_descriptor s) (actor_id actor);
  policy_revision ← snapshot (se_policy s) (actor_id actor);
  '(m, _) ← draft put_json template report_schema request_text actor s data false descriptor_revision policy_revision;
  mret m.

Lemma extends_draft actor s data b dr pr : Keeps extends (draft put_json template report_schema request_text actor s data b dr pr).
Proof. unfold draft, harness_for, prepare_packet. frame. Qed.

Lemma extends_prepare_native actor s data m request limits dr key n :
  Keeps extends (prepare_native read_prepared put_manifest actor s data m request limits dr key n).
Proof.
  unfold prepare_native, save_manifest, _record_work, queue_state, newer_round, label_identity. frame.
Qed.

(** Without a retry, work that is not there is the first attempt. *)
Lemma existing_none x data key d n data' d' :
  _existing_work read_prepared x data key false d = Ok ((None, n, data'), d') -> vp_retry_of data = None -> data' = data.
Proof.
  unfold _existing_work. intros H Hr. apply bind_Ok in H as (found & ? & [_ ->]%ask_Ok & H). rewrite Hr in H. destruct found as [w|].
  - apply bind_Ok in H as (o & ? & _ & H). apply bind_Ok in H as (? & ? & _ & H). destruct o as [a|q].
    + by apply bind_Ok in H as ([? ?] & ? & _ & [[=] _]%ret_Ok).
    + apply bind_Ok in H as (? & ? & _ & H). by apply bind_Ok in H as ([? ?] & ? & _ & [[=] _]%ret_Ok).
  - by apply bind_Ok in H as (? & ? & _ & [[= -> ->] _]%ret_Ok).
Qed.

(** A native review that was found is the request which owns the work of its key. *)
Lemma existing_some x data key d n data' r d' :
  _existing_work read_prepared x data key false d = Ok ((Some r, n, data'), d') ->
  exists w i q p, tb_review_work d !! key = Some w /\ wk_provider_request_id w = Some i /\ tb_provider_request d !! i = Some q
    /\ r = ForNative p /\ nr_provider_request_id p = q_id q.
Proof.
  unfold _existing_work. intros H. apply bind_Ok in H as (found & ? & [Ef ->]%ask_Ok & H). destruct found as [w|].
  2: { by apply bind_Ok in H as (? & ? & _ & [[=] _]%ret_Ok). }
  apply bind_Ok in H as (o & ? & Ho & H). apply owner_of_Ok in Ho as [-> Ho]. destruct (vp_retry_of data).
  { skip H. apply bind_Ok in H as (? & ? & _ & H). skip H. skip H. by apply ret_Ok in H as [[=] _]. }
  apply bind_Ok in H as (? & ? & [Hr ->]%refuse_Ok & H). destruct o as [a|q]; [done|]. destruct Ho as [_ (i & Hi & Hq)].
  skip H. apply bind_Ok in H as ([y m] & ? & _ & [[= -> _ _] _]%ret_Ok). exists w, i, q. eexists. by split_and!.
Qed.

(** The answer once the selection, the revisions and the work are found. *)
Lemma prepare_found actor data d s dr pr n data' r :
  reviewer_prepare_valid data = true -> choose read_functions actor data false d = Ok (s, d) ->
  snapshot (se_descriptor s) (actor_id actor) d = Ok (dr, d) -> snapshot (se_policy s) (actor_id actor) d = Ok (pr, d) ->
  _existing_work read_prepared (lx_execution (se_live s)) data (_work_key (se_item s) dr pr) false d = Ok ((Some r, n, data'), d) ->
  prepares actor data false d = Ok (r, d).
Proof.
  intros Hv Hs Hdr Hpr He. unfold _prepare. rewrite Hv. apply bind_Ok. exists tt, d. split; [done|].
  apply bind_Ok. exists s, d. split; [done|]. apply bind_Ok. exists dr, d. split; [done|]. apply bind_Ok. exists pr, d. split; [done|].
  apply bind_Ok. exists (Some r, n, data'), d. split; [exact He|]. by apply ret_Ok.
Qed.

(** The request of the answer owns the work on this item and head, by this reviewer under this policy,
    for this branch. *)
Definition owned_work (actor : Actor) (data : ReviewerPrepare) (d d1 : DB) (r : PrepareResult) : Prop :=
  exists s dr pr w i q p, choose read_functions actor data false d = Ok (s, d)
    /\ revision_of (se_descriptor s) d1 dr /\ revision_of (se_policy s) d1 pr
    /\ tb_review_work d1 !! (fi_id (se_item s), default "" (fi_head_commit_oid (se_item s)), dr, pr, default "" (fi_target_branch (se_item s))) = Some w
    /\ wk_provider_request_id w = Some i /\ tb_provider_request d1 !! i = Some q /\ r = ForNative p /\ nr_provider_request_id p = q_id q.

(** C25. What was prepared is what is returned.  When a native review was prepared, or found prepared,
    without a retry, its provider request owns the work on this item, head, reviewer revision, policy
    revision and target branch; and the same request asked for again in the database that this left is
    answered with the same provider request, thread, prompt, options and manifest, and changes nothing:
    nothing new is started.  It is assumed that the store reads the drafted manifest back. *)
Theorem prepared_review_returned actor data d r d1 :
  prepares actor data false d = Ok (r, d1) -> vp_retry_of data = None -> rows_ok d ->
  (forall m d2, drafted_manifest actor data d = Ok (m, d2) -> read_prepared (bl_sha256 (put_manifest m)) = Some m) ->
  prepares actor data false d1 = Ok (r, d1)
  /\ owned_work actor data d d1 r.
Proof.
  unfold _prepare at 1. intros H Hd Hok Hstore. apply bind_Ok in H as (? & ? & [Hv ->]%lift_Ok & H).
  assert (reviewer_prepare_valid data = true) as Hvalid by (by destruct (reviewer_prepare_valid data)).
  apply bind_Ok in H as (s & d0 & Hs & H). destruct (repeats_choose read_functions actor data false d s d0 d Hs ltac:(reflexivity)) as [-> _].
  apply bind_Ok in H as (dr & da & Hdr & H). destruct (snapshot_Ok _ _ _ _ _ Hdr Hok) as (Hoka & Ra & Hda).
  apply bind_Ok in H as (pr & db & Hpr & H). destruct (snapshot_Ok _ _ _ _ _ Hpr Hoka) as (Hokb & Rb & Hpb).
  apply bind_Ok in H as ([[existing n] data'] & dc & He & H). pose proof He as Hc. apply read_only in Hc as ->; [|frame].
  assert (forall d' n' data'', rows_ok d' -> remains db d' ->
    _existing_work read_prepared (lx_execution (se_live s)) data (_work_key (se_item s) dr pr) false d' = Ok ((Some r, n', data''), d') ->
    prepares actor data false d' = Ok (r, d') /\ owned_work actor data d d' r) as Hagain.
  { intros d' n' data'' Hok' Hr He'. assert (revision_of (se_descriptor s) d' dr) as Hdr' by (eapply revision_of_remains; [|exact Hda]; by etransitivity).
    assert (revision_of (se_policy s) d' pr) as Hpr' by (by eapply revision_of_remains). split.
    - eapply prepare_found; [done| |by apply snapshot_again..|exact He'].
      eapply (repeats_choose read_functions); [exact Hs|by etransitivity; [exact Ra|]; etransitivity].
    - apply existing_some in He' as (w & k & q & p & Hw & Hi & Hq & -> & Hp). exists s, dr, pr, w, k, q, p. by split_and!. }
  destruct existing as [r'|]; [apply ret_Ok in H as [-> ->]; eapply Hagain; [done|reflexivity|exact He]|].
  apply existing_none in He as ->; [|done].
  apply bind_Ok in H as (limits & dd & Hl & H). apply read_only in Hl as ->; [|frame].
  apply bind_Ok in H as ([m request] & de & Hm & H).
  destruct (extends_draft _ _ _ _ _ _ _ _ _ Hm Hokb) as [Hoke Re]. destruct (extends_prepare_native _ _ _ _ _ _ _ _ _ _ _ _ H Hoke) as [Hok1 R1].
  eapply Hagain; [done|by etransitivity|].
  eapply prepared_work_found; [exact H| |intros k b Hb; by apply (artifact_ok _ Hoke k b)|exact Hd].
  eapply Hstore. unfold drafted_manifest. apply bind_Ok. exists s, d. split; [exact Hs|]. apply bind_Ok. exists dr, da. split; [exact Hdr|].
  apply bind_Ok. exists pr, db. split; [exact Hpr|]. apply bind_Ok. exists (m, request), de. split; [exact Hm|]. by apply ret_Ok.
Qed.
End again.

(** ** Witness *)

Definition below_next {A} (d : DB) (m : gmap uid A) : bool := forallb (fun p => (p.1 <? db_next d)%positive) (map_to_list m).

Definition rows_ok_check (d : DB) : bool :=
  keyed_rows ar_id (tb_artifact d) && below_next d (tb_artifact d) && below_next d (tb_provider_thread d) && below_next d (tb_record_revision d)
  && forallb (fun p => forallb (fun q => negb (is_revision (rr_object_id q.2) (rr_object_revision q.2) p.2) || bool_decide (p.1 = q.1))
       (map_to_list (tb_record_revision d))) (map_to_list (tb_record_revision d)).

Lemma all_rows {A} (f : uid * A -> bool) (m : gmap uid A) : forallb f (map_to_list m) = true -> forall i a, m !! i = Some a -> f (i, a) = true.
Proof. rewrite forallb_forall. intros H i a Ha. by apply H, list_elem_of_In, elem_of_map_to_list. Qed.

Lemma rows_ok_checked d : rows_ok_check d = true -> rows_ok d.
Proof.
  unfold rows_ok_check. rewrite !andb_true_iff. intros [[[[H1 H2] H3] H4] H5].
  assert (forall A (m : gmap uid A), below_next d m = true -> forall i a, m !! i = Some a -> (i < db_next d)%positive) as Hn
    by (intros A m Hm i a Ha; apply Pos.ltb_lt, (all_rows _ _ Hm i a Ha)).
  split.
  - intros i a Ha. split; [exact (keyed_rows_spec ar_id _ H1 i a Ha)|exact (Hn _ _ H2 i a Ha)].
  - exact (Hn _ _ H3).
  - exact (Hn _ _ H4).
  - intros i j r q Hi Hj E1 E2. pose proof (all_rows _ _ (all_rows _ _ H5 i r Hi) j q Hj) as H. cbn in H.
    apply orb_true_iff in H as [H%negb_true_iff|H%bool_decide_eq_true]; [|done]. apply not_true_iff_false in H. by destruct H; apply is_revision_true.
Qed.

Definition sample_draft : M PreparedManifest := drafted_manifest no_functions zero_digest prompt_name sample_schema no_text agent asked_review.

Definition kept_manifest (sha : string) : option PreparedManifest := match sample_draft maintainer_db with Ok (m, _) => Some m | Err _ => None end.

Definition prepare_once : M PrepareResult :=
  _prepare kept_manifest one_blob no_functions zero_digest prompt_name sample_schema no_text agent asked_review false.

Lemma prepared_review_returned_witness :
  exists r d1, prepare_once maintainer_db = Ok (ForNative r, d1) /\ prepare_once d1 = Ok (ForNative r, d1).
Proof.
  assert (match prepare_once maintainer_db with Ok (ForNative _, _) => True | _ => False end) as H by (by vm_compute).
  destruct (prepare_once maintainer_db) as [[[r|r] d1]|e] eqn:E; try destruct H. exists r, d1. split; [reflexivity|].
  apply (prepared_review_returned _ _ _ _ _ _ _ _ _ _ _ _ E eq_refl).
  - apply rows_ok_checked. by vm_compute.
  - intros m d2 Hm. unfold kept_manifest, sample_draft. by rewrite Hm.
Defined.
