(* ===== verification/CommunicationSafety.v ===== *)
(** * The safety of communications

    The theorems about Communications.v: a reply of a session answers exactly the revisions that the
    session has read; the first receipts in a discussion cover its whole window; and a message
    reaches the pending and running sessions that it mentions and the live subscribers of what it
    concerns, and no others. *)

From S2P Require Import Prelude Contracts WorkerContracts ReviewContracts Conditions Schema Records Auth Samples MissionTree Missions Ledger Usage Capacity Sessions Assignments Deliveries Workspaces Labels Launch AdmissionSafety Panel PanelSafety Decisions Packets Gates Communications Chat InvocationSafety.

Local Open Scope string_scope.
Local Open Scope Z_scope.

(** ** Reading steps *)

Section reading.
Context (R : relation DB) `{!PreOrder R}.

Lemma keeps_ledger_owner actor a s : Keeps R (require_ledger_owner actor a s).
Proof. unfold require_ledger_owner, scoped. frame. Qed.

Lemma keeps_validate_receipts project l : Keeps R (validate_receipts project l).
Proof. induction l as [|r l IH]; cbn [validate_receipts]; frame. Qed.

Lemma keeps_check_asserted x l : Keeps R (check_asserted x l).
Proof. induction l; cbn [check_asserted]; frame. Qed.

Lemma keeps_scoped_assignment a : Keeps R (scoped Kassignment a).
Proof. unfold scoped. frame. Qed.

Lemma keeps_reply_scope x a l : Keeps R (reply_scope x a l).
Proof. pose proof keeps_check_asserted. unfold reply_scope. frame. Qed.
End reading.
#[export] Hint Resolve keeps_ledger_owner keeps_validate_receipts keeps_check_asserted keeps_scoped_assignment keeps_reply_scope : frame.

Lemma keeps_follow R `{!PreOrder R, !Quiet R subscription} a x : Keeps R (follow_discussion a x).
Proof. unfold follow_discussion. frame. Qed.
#[export] Hint Extern 1 (Keeps _ (follow_discussion _ _)) => (apply keeps_follow; typeclasses eauto) : frame.

(** ** Replies *)

Section replies.
Context (put_json : json -> Blob).

Lemma reply_scope_Ok x a l d start revisions d' :
  reply_scope x a l d = Ok ((start, revisions), d') ->
  d' = d /\ start = read_start d x a /\ revisions = frozen_revisions d x a
  /\ forall i m, tb_message d !! i = Some m -> in_scope d x a m = true -> known d a m = true.
Proof.
  intros H. pose proof (keeps_reply_scope eq _ _ _ _ _ _ H) as <-. unfold reply_scope in H. skip H.
  apply bind_Ok in H as (u & ? & [-> ->]%ask_Ok & H). apply bind_Ok in H as (? & ? & [Hu ->]%refuse_Ok & H).
  apply bind_Ok in H as (? & ? & [-> ->]%ask_Ok & H). apply bind_Ok in H as (? & ? & [-> ->]%ask_Ok & H). apply ret_Ok in H as [[= -> ->] _].
  split; [done|]. split; [done|]. split; [done|]. intros i m Hm Hs.
  pose proof (existsb_stored (R := message) _ d i m Hu Hm) as Hf. cbv beta in Hf. rewrite Hs in Hf. by destruct (known d a m).
Qed.

(** C15. A session answers what it has read.  When its reply is queued, it has a receipt of the
    current revision of every message in scope: those from where its reading starts, and those that
    mention it, however old.  Delivery is bound to exactly these revisions. *)
Theorem reply_read_everything actor x a body asserted key d o d' :
  queue_reply put_json actor x (Some a) body asserted false key d = Ok (o, d') ->
  exists p, ob_payload o = PPost p /\ ob_status o = OutPending /\ po_require_read_receipts p = true
    /\ po_read_start_remote_id p = read_start d x a
    /\ (forall i m, tb_message d !! i = Some m -> in_scope d x a m = true ->
          is_Some (tb_message_read d !! (a, ms_id m, ms_revision m)) /\ (ms_id m, ms_revision m) ∈ po_read_messages p)
    /\ (forall r, r ∈ po_read_messages p ->
          exists i m, tb_message d !! i = Some m /\ in_scope d x a m = true /\ r = (ms_id m, ms_revision m)).
Proof.
  unfold queue_reply. intros H. skip H. skip H. skip H. skip H. skip H. skip H.
  apply bind_Ok in H as ([start revisions] & ? & (-> & -> & -> & Hk)%reply_scope_Ok & H).
  apply bind_Ok in H as (? & d1 & E1 & H). apply bind_Ok in H as (blob & d2 & E2 & H). injection H as <- <-.
  eexists. split; [reflexivity|]. split; [done|]. split; [done|]. split; [done|]. cbn [po_read_messages]. unfold frozen_revisions. split.
  - intros i m Hm Hs. split; [pose proof (Hk _ _ Hm Hs) as Hp; unfold known in Hp; by destruct (tb_message_read d !! _)|].
    apply list_elem_of_fmap. exists m. split; [done|]. rewrite (sort_by_Permutation _ _). apply elem_of_stored. eauto.
  - intros r (m & -> & Hm)%list_elem_of_fmap. rewrite (sort_by_Permutation _ _) in Hm. apply elem_of_stored in Hm as [Hs [i Hi]]. eauto.
Qed.
End replies.

(** ** Receipts *)

Lemma validate_receipts_Ok project l d ms d' :
  validate_receipts project l d = Ok (ms, d') ->
  (forall i m, tb_message d !! i = Some m -> ms_id m = i) ->
  d' = d /\ Forall2 (fun r m => tb_message d !! r.1 = Some m /\ r = (ms_id m, ms_revision m)) l ms.
Proof.
  intros H Hk. pose proof (keeps_validate_receipts eq _ _ _ _ _ H) as <-. split; [done|]. revert ms H.
  induction l as [|r l IH]; intros ms H; cbn [validate_receipts] in H; [apply ret_Ok in H as [-> _]; constructor|].
  skip H. apply bind_Ok in H as (m & ? & (-> & Hm & _)%same_project_Ok & H). apply bind_Ok in H as (? & ? & [Hr ->]%refuse_Ok & H).
  apply bind_Ok in H as (rest & ? & E & H). pose proof (keeps_validate_receipts eq _ _ _ _ _ E) as <-. apply ret_Ok in H as [-> _].
  constructor; [|by apply IH]. cbn in Hm. split; [done|]. rewrite (Hk _ _ Hm). apply negb_false_iff, Z.eqb_eq in Hr. rewrite Hr. by destruct r.
Qed.

(** The receipts after some messages were read: the earlier ones and one for each message. *)
Lemma record_all_Ok a ms d u d' :
  for_each (record_read a) ms d = Ok (u, d') ->
  (forall k t, tb_message_read d !! k = Some t -> tb_message_read d' !! k = Some t)
  /\ (forall k, is_Some (tb_message_read d' !! k) <->
        is_Some (tb_message_read d !! k) \/ exists m, m ∈ ms /\ k = (a, ms_id m, ms_revision m)).
Proof.
  revert d. induction ms as [|m ms IH]; intros d H; cbn in H.
  { injection H as _ <-. split; [done|]. intros k. split; [by left|]. intros [?|(m & Hm & _)]; [done|]. by apply not_elem_of_nil in Hm. }
  apply bind_Ok in H as ([] & d1 & E & H). destruct (IH _ H) as [H1 H2]. clear IH H.
  unfold record_read in E. apply bind_Ok in E as ([] & d0 & E0 & E). leaves tb_message_read E. rewrite E in H1, H2. clear E.
  injection E0 as <-. cbv zeta in H1, H2. set (k0 := (a, ms_id m, ms_revision m)) in *.
  destruct (tb_message_read d !! k0) as [t0|] eqn:Ek; cbn [present] in H1, H2.
  - split; [done|]. intros k. rewrite H2. split; intros [?|(n & Hn & ->)]; [by left|right; exists n; split; [by right|done]|by left|].
    apply elem_of_cons in Hn as [->|Hn]; [left; fold k0; eauto|right; eauto].
  - split.
    + intros k t Hk. apply H1. cbn. rewrite lookup_insert_ne; [done|]. intros <-. congruence.
    + intros k. rewrite H2. cbn. destruct (decide (k0 = k)) as [<-|Hne].
      * rewrite lookup_insert_eq. split; [right; exists m; split; [by left|done]|left; eauto].
      * rewrite lookup_insert_ne by done. split; intros [?|(n & Hn & ->)]; [by left|right; exists n; split; [by right|done]|by left|].
        apply elem_of_cons in Hn as [->|Hn]; [done|right; eauto].
Qed.

(** C20. Receipts are exact.  When a session's receipts are accepted, each one is of the current
    revision of its message; the receipts of the session are the earlier ones and these, and no
    other; and a discussion in which the session takes part for the first time is acknowledged
    with the whole of its initial window. *)
Theorem first_read_covers_window actor a receipts d n d' :
  read_messages actor a receipts d = Ok (n, d') ->
  (forall i m, tb_message d !! i = Some m -> ms_id m = i) ->
  n = Z.of_nat (List.length receipts) /\ n <= 200
  /\ (forall r, r ∈ receipts -> exists m, tb_message d !! r.1 = Some m /\ ms_revision m = r.2
        /\ (participates d a (ms_discussion_id m) = false -> forall w, w ∈ initial_window d (ms_discussion_id m) -> known d' a w = true))
  /\ (forall k t, tb_message_read d !! k = Some t -> tb_message_read d' !! k = Some t)
  /\ (forall k, is_Some (tb_message_read d' !! k) <-> is_Some (tb_message_read d !! k) \/ exists r, r ∈ receipts /\ k = (a, r.1, r.2)).
Proof.
  unfold read_messages. intros H Hk. skip H. apply bind_Ok in H as (? & ? & [Hn ->]%refuse_Ok & H). skip H.
  apply bind_Ok in H as (ms & ? & [-> Hms]%validate_receipts_Ok & H); [|done].
  apply bind_Ok in H as (b & ? & [-> ->]%ask_Ok & H). apply bind_Ok in H as (? & ? & [Hw ->]%refuse_Ok & H).
  apply bind_Ok in H as ([] & d1 & E & H). apply ret_Ok in H as [-> ->]. destruct (record_all_Ok _ _ _ _ _ E) as [Hold Hnew].
  assert (forall k, (exists m, m ∈ ms /\ k = (a, ms_id m, ms_revision m)) <-> exists r, r ∈ receipts /\ k = (a, r.1, r.2)) as Hsame.
  { clear -Hms. intros k. induction Hms as [|r m l ms [_ ->] _ IH]; [split; intros (? & []%not_elem_of_nil & _)|].
    setoid_rewrite elem_of_cons. split; intros (y & [->|Hy] & ->); eauto;
      [destruct (proj1 IH) as (r & ? & ?); eauto|destruct (proj2 IH) as (r & ? & ?); eauto]. }
  split; [done|]. split; [apply Z.ltb_ge in Hn; lia|]. split; [|split; [done|intros k; by rewrite Hnew, Hsame]].
  intros r Hr. apply list_elem_of_lookup in Hr as [j Hj]. destruct (Forall2_lookup_l _ _ _ _ _ Hms Hj) as (m & Hm & Hmr & Er).
  exists m. split; [done|]. split; [by rewrite Er|]. intros Hp w Hin.
  assert (window_read d a ms (ms_discussion_id m) = true) as Hc.
  { apply not_true_iff_false in Hw. destruct (window_read d a ms (ms_discussion_id m)) eqn:E'; [done|]. exfalso. apply Hw, existsb_exists.
    exists (ms_discussion_id m). rewrite E'. split; [|done]. apply in_map, list_elem_of_In, list_elem_of_lookup. eauto. }
  unfold window_read in Hc. rewrite Hp in Hc. cbn [orb] in Hc.
  rewrite forallb_forall in Hc. apply list_elem_of_In, Hc, bool_decide_eq_true, list_elem_of_fmap in Hin as (q & Eq & Hq).
  apply list_elem_of_In, filter_In in Hq as [Hq _]. unfold known.
  assert (is_Some (tb_message_read d1 !! (a, ms_id w, ms_revision w))) as [t ->]; [|done].
  apply Hnew. right. exists q. split; [by apply list_elem_of_In|congruence].
Qed.

(** ** Routing *)

(** The subscriptions through which a message reaches a session: live, not muted, in the project,
    and without a mute of the topic. *)
Definition reaches (d : DB) (project discussion_id : uid) (selectors : list ObjectRef) (s : subscription) : Prop :=
  (exists i, tb_subscription d !! i = Some s) /\ live_subscription d selectors s = true /\ sb_mode s <> Muted
  /\ (forall i m, tb_subscription d !! i = Some m -> sb_assignment_id m = sb_assignment_id s -> live_subscription d selectors m = true ->
        topic_mute discussion_id m = false)
  /\ project_of Kassignment (sb_assignment_id s) d = Ok (Some project, d).

(** The file or directory that a path in a text names. *)
Definition path_subject (repository : uid) (raw : string) : ObjectRef :=
  let path := rstrip_chars trailing raw in
  PathRef (if ends_with "/" path then DirectoryPath else FilePath) repository (rstrip_chars ["/"%char] path).

(** What a mention refers to in the project: the session, node or mission with its number, or a path
    of a repository that is not archived. *)
Inductive refers (d : DB) (project : uid) : Mention -> ObjectRef -> Prop :=
| RefersSession run number i t : tb_assignment d !! i = Some t -> numbered_assignment d project run number t = true ->
    refers d project (MentionAssignment run number) (stored Kassignment i)
| RefersNode number i n : tb_node d !! i = Some n -> n_project_id n = project -> n_number n = number ->
    refers d project (MentionNode number) (stored Knode i)
| RefersMission number i m : tb_mission d !! i = Some m -> m_project_id m = project -> m_number m = number ->
    refers d project (MentionMission number) (stored Kmission i)
| RefersPath slug raw i r : tb_repository d !! i = Some r -> rp_project_id r = project -> rp_slug r = slug -> rp_archived_at r = None ->
    object_ref_valid (path_subject i raw) = true -> refers d project (MentionPath slug raw) (path_subject i raw).

(** The message that an event announces, unless it was deleted, and its mentions: the first hundred
    outside of code in its first 32000 characters. *)
Definition announced (d : DB) (e : event) (m : message) : Prop :=
  exists r, ev_subject_id e = Some (StoredRef r) /\ ref_kind r = Kmessage /\ tb_message d !! ref_id r = Some m.

Definition mentions_in (find : string -> list Mention) (d : DB) (e : event) (k : Mention) : Prop :=
  exists m, announced d e m /\ ms_deleted_at m = None /\ k ∈ take 100 (find (_mention_text (String.substring 0 (Z.to_nat 32000) (ms_body m)))).

(** A pending or running session that the message mentions by its numbers, and the author. *)
Definition addressed (find : string -> list Mention) (d : DB) (e : event) (project a : uid) : Prop :=
  exists run number t, mentions_in find d e (MentionAssignment run number) /\ tb_assignment d !! a = Some t
    /\ numbered_assignment d project run number t = true /\ (a_status t = Pending \/ a_status t = Running).

Definition wrote (d : DB) (e : event) (a : uid) : Prop := exists m, announced d e m /\ ms_source_assignment_id m = Some a.

(** Rows are kept under their identifiers, runs are numbered in the installation, and sessions in
    their runs. *)
Record names_ok (d : DB) : Prop := {
  session_id i t : tb_assignment d !! i = Some t -> a_id t = i;
  node_id i n : tb_node d !! i = Some n -> n_id n = i;
  mission_id i m : tb_mission d !! i = Some m -> m_id m = i;
  repository_id i r : tb_repository d !! i = Some r -> rp_id r = i;
  run_number i j r q : tb_run d !! i = Some r -> tb_run d !! j = Some q -> r_number r = r_number q -> i = j;
  session_number i j t q : tb_assignment d !! i = Some t -> tb_assignment d !! j = Some q -> a_run_id t = a_run_id q -> a_number t = a_number q -> i = j }.

(** The sessions that a message concerns: directly those that it addresses and those that asked to
    be prompted, by a digest the other subscribers, and never its author. *)
Definition audience (d : DB) (project discussion_id : uid) (selectors : list ObjectRef) (direct author : uid -> Prop)
    (a : uid) (u : urgency) : Prop :=
  let prompted := direct a \/ exists s, reaches d project discussion_id selectors s /\ sb_assignment_id s = a /\ sb_mode s = Prompt in
  ~ author a
  /\ (u = Direct /\ prompted
      \/ u = Routine /\ ~ prompted /\ exists s, reaches d project discussion_id selectors s /\ sb_assignment_id s = a).

(** The notifications of an event to an audience: nothing is lost or lowered, what is new belongs
    to the audience, and a digest is raised for those whom it concerns directly. *)
Definition fresh_notifications (d : DB) : Prop := forall i, is_Some (tb_notification d !! i) -> (i < db_next d)%positive.

Record told (e : uid) (P : uid -> urgency -> Prop) (d d' : DB) : Prop := {
  told_fresh : fresh_notifications d';
  told_old i n : tb_notification d !! i = Some n ->
    exists n', tb_notification d' !! i = Some n'
      /\ (n' = n \/ nt_urgency n = Routine /\ nt_event_id n = e /\ P (nt_assignment_id n) Direct
          /\ exists t, n' = touch t (n <| nt_urgency := Direct |>));
  told_new i n' : tb_notification d' !! i = Some n' ->
    is_Some (tb_notification d !! i) \/ nt_event_id n' = e /\ P (nt_assignment_id n') (nt_urgency n') }.

Section told.
Context (e : uid) (P : uid -> urgency -> Prop).

Lemma told_refl d d' :
  fresh_notifications d -> tb_notification d' = tb_notification d -> (db_next d <= db_next d')%positive -> told e P d d'.
Proof. intros F E N. split; unfold fresh_notifications; rewrite E; [intros i Hi%F; lia|eauto|eauto]. Qed.

Lemma told_trans d1 d2 d3 : told e P d1 d2 -> told e P d2 d3 -> told e P d1 d3.
Proof.
  intros [F1 O1 W1] [F2 O2 W2]. split; [done| |].
  - intros i n Hn. destruct (O1 _ _ Hn) as (n1 & Hn1 & C1). destruct (O2 _ _ Hn1) as (n2 & Hn2 & C2). exists n2. split; [done|].
    destruct C1 as [->|(? & ? & ? & ? & ->)]; destruct C2 as [->|(? & ? & ? & ? & ->)]; [by left|right; eauto 6..|done].
  - intros i n' Hn'. destruct (W2 _ _ Hn') as [[n1 Hn1]|?]; [|by right]. destruct (W1 _ _ Hn1) as [?|[E1 P1]]; [by left|]. right.
    destruct (O2 _ _ Hn1) as (n2 & Hn2 & [->|(? & ? & ? & ? & ->)]); rewrite Hn' in Hn2; injection Hn2 as ->; done.
Qed.

Lemma told_insert n d d' :
  fresh_notifications d -> nt_event_id n = e -> P (nt_assignment_id n) (nt_urgency n) ->
  tb_notification d' = <[db_next d := n]> (tb_notification d) -> (db_next d < db_next d')%positive -> told e P d d'.
Proof.
  intros F En Pn E N. assert (tb_notification d !! db_next d = None) as Hd.
  { destruct (tb_notification d !! db_next d) eqn:Ed; [|done]. specialize (F (db_next d)). rewrite Ed in F. specialize (F ltac:(eauto)). lia. }
  split; unfold fresh_notifications; rewrite E.
  - intros i Hi. apply lookup_insert_is_Some in Hi as [<-|[_ Hi]]; [lia|]. specialize (F _ Hi). lia.
  - intros i m Hm. exists m. split; [|by left]. rewrite lookup_insert_ne; [done|]. intros <-. congruence.
  - intros i m [[<- <-]|[_ Hm]]%lookup_insert_Some; [by right|left; eauto].
Qed.

Lemma told_raise a d d' :
  fresh_notifications d -> P a Direct ->
  tb_notification d' = (fun n => if notified a e n && bool_decide (nt_urgency n = Routine) then touch (db_now d) (n <| nt_urgency := Direct |>) else n)
    <$> tb_notification d -> (db_next d <= db_next d')%positive -> told e P d d'.
Proof.
  intros F Pa E N. split; unfold fresh_notifications; rewrite E.
  - intros i Hi. rewrite lookup_fmap, fmap_is_Some in Hi. specialize (F _ Hi). lia.
  - intros i n Hn. rewrite lookup_fmap, Hn. cbn. eexists. split; [reflexivity|]. destruct (notified a e n && _) eqn:En; [right|by left].
    apply andb_true_iff in En as [[Ha He]%andb_true_iff Hr]. apply bool_decide_eq_true in Ha, He, Hr. subst. eauto.
  - intros i n' Hn'. rewrite lookup_fmap in Hn'. destruct (tb_notification d !! i); [left; eauto|done].
Qed.

(** One notification. *)
Lemma notify_or_raise_told a u d x d' :
  notify_or_raise a e u d = Ok (x, d') -> fresh_notifications d -> P a u ->
  told e P d d' /\ exists i n, tb_notification d' !! i = Some n /\ notified a e n = true /\ (u = Direct -> nt_urgency n <> Routine).
Proof.
  unfold notify_or_raise. intros H F Pa. apply bind_Ok in H as (l & ? & [El ->]%select_Ok & H). destruct l as [|n0 l].
  - unfold notify in H. apply bind_Ok in H as (b & ? & [-> Hb]%any_Ok & H). destruct b.
    { destruct (proj1 Hb eq_refl) as (i & n & Hi & Hn). exfalso. apply (not_elem_of_nil n). rewrite El. apply elem_of_select. eauto. }
    injection H as _ <-. split; [eapply told_insert; [done| | |reflexivity|cbn; lia]; done|].
    eexists _, _. split; [cbn; apply lookup_insert_eq|]. split; [|by intros ->]. unfold notified. cbn. by rewrite !bool_decide_true.
  - assert (exists i, tb_notification d !! i = Some n0 /\ notified a e n0 = true) as (i & Hi & Hn).
    { assert (n0 ∈ n0 :: l) as Hin by by left. rewrite El in Hin. apply elem_of_select in Hin as [? [i ?]]. eauto. }
    unfold when in H. case_bool_decide as Hu; [|injection H as _ <-; split; [by apply told_refl|exists i, n0; by repeat split]].
    subst u. injection H as _ <-. split; [by eapply (told_raise a); [| |reflexivity|cbn; lia]|].
    exists i. eexists. split; [cbn; rewrite lookup_fmap, Hi; reflexivity|]. rewrite Hn. cbn [andb].
    case_bool_decide as Hr; split; done.
Qed.

(** All of them: everyone in the list is told, as urgently as it is due. *)
Lemma told_all l d x d' :
  for_each (fun r => notify_or_raise r.1 e r.2) l d = Ok (x, d') -> fresh_notifications d -> (forall r, r ∈ l -> P r.1 r.2) ->
  told e P d d' /\ forall r, r ∈ l ->
    exists i n, tb_notification d' !! i = Some n /\ notified r.1 e n = true /\ (r.2 = Direct -> nt_urgency n <> Routine).
Proof.
  revert d. induction l as [|r l IH]; intros d H F HP; cbn in H.
  { injection H as _ <-. split; [by apply told_refl|]. intros r []%not_elem_of_nil. }
  apply bind_Ok in H as ([] & d1 & E & H).
  destruct (notify_or_raise_told _ _ _ _ _ E F) as [T1 (i & n & Hi & Hn & Hu)]; [by apply HP; left|].
  destruct (IH _ H (told_fresh _ _ _ _ T1)) as [T2 HA]; [by intros q Hq; apply HP; right|]. split; [by eapply told_trans|].
  intros q [->|Hq]%elem_of_cons; [|by apply HA]. destruct (told_old _ _ _ _ T2 _ _ Hi) as (n' & Hn' & [->|(? & ? & ? & ? & ->)]); eauto 6.
Qed.
End told.

(** The recipients that the subscriptions add: [q] says which of them count. *)
Section gathering.
Context (project : uid) (muted : list uid) (d : DB).

Definition counts (s : subscription) : Prop :=
  sb_mode s <> Muted /\ (sb_assignment_id s ∉ muted) /\ project_of Kassignment (sb_assignment_id s) d = Ok (Some project, d).

Lemma gather_step s l r m d' :
  gather project muted (s :: l) r d = Ok (m, d') ->
  exists r', gather project muted l r' d = Ok (m, d')
    /\ ((counts s /\ r' = raise_to (sb_assignment_id s) (mode_urgency (sb_mode s)) r) \/ (~ counts s /\ r' = r)).
Proof.
  cbn [gather]. intros H. apply bind_Ok in H as (b & ? & E & H). unfold counts.
  destruct (bool_decide (sb_mode s = Muted) || mem (sb_assignment_id s) muted) eqn:Em.
  - injection E as <- <-. exists r. split; [done|]. right. split; [|done]. intros (H1 & H2 & _). apply orb_true_iff in Em as [Em|Em];
      unfold mem in *; by apply bool_decide_eq_true in Em.
  - apply orb_false_iff in Em as [H1%bool_decide_eq_false H2%bool_decide_eq_false].
    apply bind_Ok in E as (p & ? & E & [-> ->]%ret_Ok). pose proof (keeps_project_of eq _ _ _ _ _ E) as <-. eexists. split; [exact H|].
    rewrite E. case_bool_decide as Hp; [left|right]; split; [by rewrite Hp|done| |done]. intros (_ & _ & [= ->]). done.
Qed.

Definition known_urgency (r : gmap uid urgency) : Prop := forall a u, r !! a = Some u -> u = Direct \/ u = Routine.

Lemma raise_to_spec b v r :
  known_urgency r -> v = Direct \/ v = Routine ->
  known_urgency (raise_to b v r)
  /\ (forall a, raise_to b v r !! a = Some Direct <-> r !! a = Some Direct \/ (a = b /\ v = Direct))
  /\ (forall a, is_Some (raise_to b v r !! a) <-> is_Some (r !! a) \/ a = b).
Proof.
  intros K Hv. unfold raise_to. case_bool_decide as Hb.
  - split; [done|]. split; intros a; split; auto; [intros [?|[-> _]]|intros [?| ->]]; rewrite ?Hb; eauto.
  - split; [intros a u; rewrite lookup_insert_Some; naive_solver|].
    split; intros a; (destruct (decide (b = a)) as [<-|Hne]; [rewrite lookup_insert_eq|rewrite lookup_insert_ne by done]); naive_solver.
Qed.

Lemma gather_Ok l r m d' :
  gather project muted l r d = Ok (m, d') -> known_urgency r ->
  d' = d /\ known_urgency m
  /\ (forall a, m !! a = Some Direct <-> r !! a = Some Direct \/ exists s, s ∈ l /\ counts s /\ sb_assignment_id s = a /\ sb_mode s = Prompt)
  /\ (forall a, is_Some (m !! a) <-> is_Some (r !! a) \/ exists s, s ∈ l /\ counts s /\ sb_assignment_id s = a).
Proof.
  revert r. induction l as [|s l IH]; intros r H K.
  { injection H as <- <-. split; [done|]. split; [done|]. split; intros a; split; auto; intros [?|(s & []%not_elem_of_nil & _)]; done. }
  apply gather_step in H as (r' & H & C). setoid_rewrite elem_of_cons.
  destruct C as [[Cs ->]|[Cs ->]].
  - destruct (raise_to_spec (sb_assignment_id s) (mode_urgency (sb_mode s)) r K) as (K' & RD & RS); [unfold mode_urgency; case_bool_decide; auto|].
    destruct (IH _ H K') as (-> & Km & HD & HS). split; [done|]. split; [done|].
    assert (mode_urgency (sb_mode s) = Direct <-> sb_mode s = Prompt) as HM by (unfold mode_urgency; case_bool_decide; naive_solver).
    clear IH H K K' Km. split; intros a; [rewrite HD, RD, HM; clear HD RD HM HS RS|rewrite HS, RS; clear HD RD HM HS RS]; naive_solver.
  - destruct (IH _ H K) as (-> & Km & HD & HS). split; [done|]. split; [done|]. clear IH H K Km. split; intros a; [rewrite HD; clear HD HS|rewrite HS; clear HD HS]; naive_solver.
Qed.
End gathering.

(** ** Resolving mentions *)

Lemma one_session d project run number i j t q :
  names_ok d -> tb_assignment d !! i = Some t -> tb_assignment d !! j = Some q ->
  numbered_assignment d project run number t = true -> numbered_assignment d project run number q = true -> i = j.
Proof.
  intros Hn Ht Hq. unfold numbered_assignment. rewrite !andb_true_iff, !Z.eqb_eq. intros [Et Ht'] [Eq Hq'].
  destruct (tb_run d !! a_run_id t) as [r|] eqn:Er; [|done]. destruct (tb_run d !! a_run_id q) as [r'|] eqn:Er'; [|done].
  apply andb_true_iff in Ht' as [Nt%Z.eqb_eq _], Hq' as [Nq%Z.eqb_eq _].
  assert (a_run_id t = a_run_id q) by (eapply run_number; [exact Hn|exact Er|exact Er'|congruence]).
  eapply session_number; [exact Hn|exact Ht|exact Hq|done|congruence].
Qed.

(** A reference to a row that is selected alone. *)
Lemma resolve_row {R} `{Table R} (p : R -> bool) (f : R -> ObjectRef) e d l (subjects : list ObjectRef) (direct : list uid) :
  l = List.filter p (map snd (map_to_list (rows d))) ->
  match l with [] => Ok ([], []) | [r] => Ok ([f r], []) | _ => Err e end = Ok (subjects, direct) ->
  direct = [] /\ forall o, o ∈ subjects <-> exists i r, rows d !! i = Some r /\ p r = true /\ o = f r.
Proof.
  intros E HR. assert (forall q, q ∈ l <-> p q = true /\ exists i, rows d !! i = Some q) as Hl by (intros q; rewrite E; apply elem_of_select).
  destruct l as [|r [|? ?]]; [injection HR as <- <-..|done]; (split; [done|]); intros o.
  - rewrite elem_of_nil. split; [done|]. intros (i & r & Hr & Hp & _). apply (not_elem_of_nil r), Hl. eauto.
  - rewrite list_elem_of_singleton. split.
    + intros ->. destruct (proj1 (Hl r)) as [Hp [i Hi]]; [by left|]. eauto.
    + intros (i & q & Hq & Hp & ->). f_equal. apply list_elem_of_singleton, Hl. eauto.
Qed.

(** The session that a mention calls. *)
Definition calls (d : DB) (project : uid) (k : Mention) (a : uid) : Prop :=
  exists run number t, k = MentionAssignment run number /\ tb_assignment d !! a = Some t
    /\ numbered_assignment d project run number t = true /\ (a_status t = Pending \/ a_status t = Running).

Lemma resolve_session project run number d found :
  found = stored_rows (numbered_assignment d project run number) d -> names_ok d ->
  match found with
  | t :: _ => tb_assignment d !! a_id t = Some t /\ numbered_assignment d project run number t = true
      /\ forall j q, tb_assignment d !! j = Some q -> numbered_assignment d project run number q = true -> j = a_id t
  | [] => forall i q, tb_assignment d !! i = Some q -> numbered_assignment d project run number q <> true
  end.
Proof.
  intros E Hn. assert (forall q, q ∈ found <-> numbered_assignment d project run number q = true /\ exists i, tb_assignment d !! i = Some q) as Hf
    by (intros q; rewrite E, elem_of_stored; done).
  destruct found as [|t l]; [intros i q Hq Hp; apply (not_elem_of_nil q), Hf; eauto|].
  destruct (proj1 (Hf t)) as [Hp [i Hi]]; [by left|]. pose proof (session_id _ Hn _ _ Hi) as <-. split_and!; [done..|].
  intros j q Hj Hq. by eapply one_session.
Qed.

Lemma scoped_subject_Ok o project d o' d' : scoped_subject o project d = Ok (o', d') -> o' = o.
Proof. unfold scoped_subject. intros H. skip H. skip H. apply bind_Ok in H as (? & ? & _ & H). by apply ret_Ok in H as [-> _]. Qed.

(** A path names its subject in the repository that is selected, when it is a valid reference. *)
Lemma resolve_path (p : repository -> bool) (f : repository -> ObjectRef) project d l subjects (direct : list uid) d' :
  l = List.filter p (map snd (map_to_list (rows d))) ->
  match l with
  | [] => mret ([], [])
  | [r] => if object_ref_valid (f r) then o ← scoped_subject (f r) project; mret ([o], []) else mret ([], [])
  | _ => throw (RuntimeFailure "MultipleResultsFound")
  end d = Ok ((subjects, direct), d') ->
  direct = [] /\ forall o, o ∈ subjects <-> exists i r, tb_repository d !! i = Some r /\ (p r = true /\ object_ref_valid (f r) = true) /\ o = f r.
Proof.
  intros E H. destruct l as [|r [|? ?]]; [| |done].
  - destruct (resolve_row p f (RuntimeFailure "") _ _ [] [] E eq_refl) as [_ Ho]. injection H as <- <- _. split; [done|]. intros o.
    split; [by intros ?%elem_of_nil|]. intros (i & q & Hi & [Hp _] & ->). apply Ho. eauto.
  - destruct (resolve_row p f (RuntimeFailure "") _ _ [f r] [] E eq_refl) as [_ Ho]. setoid_rewrite list_elem_of_singleton in Ho.
    destruct (object_ref_valid (f r)) eqn:Ev.
    + apply bind_Ok in H as (o & ? & E2 & H). apply ret_Ok in H as [[= -> ->] _]. apply scoped_subject_Ok in E2 as ->. split; [done|].
      intros o. rewrite list_elem_of_singleton. split; [|intros (i & q & Hi & [Hp _] & ->); apply Ho; eauto].
      intros Hx. destruct (proj1 (Ho o) Hx) as (i & q & Hi & Hp & Eq). exists i, q. by rewrite <- Eq, Hx.
    + apply ret_Ok in H as [[= -> ->] _]. split; [done|]. intros o. rewrite elem_of_nil. split; [done|]. intros (i & q & Hi & [Hp Hv] & ->).
      assert (f q = f r) as Eq by (apply Ho; eauto). congruence.
Qed.

(** A mention is resolved to what it refers to, and calls the session while it is pending or running. *)
Lemma resolve_mention_Ok project k d subjects direct d' :
  resolve_mention project k d = Ok ((subjects, direct), d') -> names_ok d ->
  d' = d /\ (forall o, o ∈ subjects <-> refers d project k o) /\ forall a, a ∈ direct <-> calls d project k a.
Proof.
  intros H Hn. assert (d' = d) as -> by (symmetry; revert H; by apply (keeps_resolve_mention eq)). split; [done|]. unfold calls.
  destruct k as [run number|number|number|slug raw]; cbn [resolve_mention] in H.
  - apply bind_Ok in H as (found & ? & [E ->]%ask_Ok & H). apply ret_Ok in H as [H _]. apply resolve_session in E; [|done].
    destruct found as [|t l]; injection H as -> ->.
    { split; [intros o|intros a]; rewrite elem_of_nil; (split; [done|]); [inversion 1; subst; by eapply E|].
      intros (? & ? & t & [= <- <-] & Ht & Hp & _). by eapply E. }
    destruct E as (Hi & Hp & Hone). split; [intros o; rewrite list_elem_of_singleton|intros a].
    + split; [intros ->; by econstructor|]. inversion 1; subst. f_equal. by eapply Hone.
    + transitivity (a = a_id t /\ (a_status t = Pending \/ a_status t = Running)).
      { destruct (mem (a_status t) [Pending; Running]) eqn:Es; [apply mem_true in Es|apply not_true_iff_false in Es; rewrite mem_true in Es];
          rewrite !elem_of_cons, elem_of_nil in Es; rewrite ?list_elem_of_singleton, ?elem_of_nil; tauto. }
      split; [intros [-> Hs]; eauto 8|]. intros (? & ? & q & [= <- <-] & Hq & Hqp & Hs). pose proof (Hone _ _ Hq Hqp) as ->.
      rewrite Hi in Hq. by injection Hq as <-.
  - apply bind_Ok in H as (found & ? & [E ->]%select_Ok & H). apply lift_Ok in H as [H _]. destruct (resolve_row _ _ _ _ _ _ _ E H) as [-> Ho].
    split; [|intros a; rewrite elem_of_nil; naive_solver]. intros o. rewrite Ho. cbn. split.
    + intros (i & n & Hi & Hp & ->). bools. rewrite (node_id _ Hn _ _ Hi). by econstructor.
    + inversion 1 as [|? i n Hi Hp Hnum| |]; subst. exists i, n. by rewrite bool_decide_true, Z.eqb_refl, (node_id _ Hn _ _ Hi).
  - apply bind_Ok in H as (found & ? & [E ->]%select_Ok & H). apply lift_Ok in H as [H _]. destruct (resolve_row _ _ _ _ _ _ _ E H) as [-> Ho].
    split; [|intros a; rewrite elem_of_nil; naive_solver]. intros o. rewrite Ho. cbn. split.
    + intros (i & n & Hi & Hp & ->). bools. rewrite (mission_id _ Hn _ _ Hi). by econstructor.
    + inversion 1 as [| |? i n Hi Hp Hnum|]; subst. exists i, n. by rewrite bool_decide_true, Z.eqb_refl, (mission_id _ Hn _ _ Hi).
  - apply bind_Ok in H as (found & ? & [E ->]%select_Ok & H).
    set (p := fun r : repository => _) in E. set (f := fun r => path_subject (rp_id r) raw).
    assert (direct = [] /\ forall o, o ∈ subjects <-> exists i r, tb_repository d !! i = Some r /\ (p r = true /\ object_ref_valid (f r) = true) /\ o = f r) as [-> Ho].
    { by eapply resolve_path. }
    split; [|intros a; rewrite elem_of_nil; naive_solver]. intros o. rewrite Ho. subst p f. cbn beta. split.
    + intros (i & n & Hi & [Hp Hv] & ->). bools. pose proof (repository_id _ Hn _ _ Hi) as E'. rewrite E' in *. econstructor; try done. by destruct (rp_archived_at n).
    + inversion 1 as [| | |? ? i n Hi Hp Hs Ha Hv]; subst. exists i, n. by rewrite !bool_decide_true, Ha, (repository_id _ Hn _ _ Hi), Hv.
Qed.

Lemma resolve_all_Ok project l d subjects direct d' :
  resolve_all project l d = Ok ((subjects, direct), d') -> names_ok d ->
  d' = d /\ (forall o, o ∈ subjects <-> exists k, k ∈ l /\ refers d project k o) /\ forall a, a ∈ direct <-> exists k, k ∈ l /\ calls d project k a.
Proof.
  intros H Hn. revert subjects direct H. induction l as [|k l IH]; intros subjects direct H; cbn [resolve_all] in H.
  { injection H as <- <- <-. split; [done|]. setoid_rewrite elem_of_nil. naive_solver. }
  apply bind_Ok in H as ([s1 d1] & ? & E & H). apply resolve_mention_Ok in E as (-> & Hs1 & Hd1); [|done].
  apply bind_Ok in H as ([s2 d2] & ? & E & H). apply ret_Ok in H as [[= -> ->] ->]. destruct (IH _ _ E) as (-> & Hs2 & Hd2). split; [done|].
  setoid_rewrite elem_of_app. setoid_rewrite elem_of_cons. setoid_rewrite Hs1. setoid_rewrite Hs2. setoid_rewrite Hd1. setoid_rewrite Hd2.
  clear. split; naive_solver.
Qed.

(** The references recorded for mentions: those of the announced message are what it mentions, and the
    others stay. *)
Definition recorded_mentions (find : string -> list Mention) (d : DB) (e : event) (project : uid) (recorded : list (uid * ObjectRef * message_purpose)) : Prop :=
  forall i o p, let own := p = MentionPurpose /\ exists m, announced d e m /\ ms_deleted_at m = None /\ ms_id m = i in
    (i, o, p) ∈ recorded <-> own /\ (exists k, mentions_in find d e k /\ refers d project k o) \/ ~ own /\ (i, o, p) ∈ tb_message_reference d.

Lemma announced_one d e m n : announced d e m -> announced d e n -> n = m.
Proof. intros (r & Er & _ & Hr) (q & Eq & _ & Hq). congruence. Qed.

(** The branches of [message_mentions]. *)
Lemma message_mentions_branches find e x project d mentions direct source d' :
  message_mentions find e x project d = Ok ((mentions, direct, source), d') ->
  (exists m, announced d e m /\ source = ms_source_assignment_id m
     /\ if present (ms_deleted_at m) then mentions = [] /\ direct = [] /\ d' = d
        else exists d1, resolve_mentions find project (ms_body m) d = Ok ((mentions, direct), d1)
          /\ d' = d1 <| tb_message_reference := (map (fun o => (ms_id m, o, MentionPurpose)) (remove_dups mentions)
             ++ List.filter (fun r => negb (bool_decide (r.1.1 = ms_id m) && bool_decide (r.2 = MentionPurpose))) (tb_message_reference d1))%list |>)
  \/ (forall m, ~ announced d e m) /\ source = None /\ mentions = [] /\ direct = [] /\ d' = d.
Proof.
  unfold message_mentions. intros H. destruct (ev_subject_id e) as [[r|? ? ?]|] eqn:Ee.
  2-3: injection H as <- <- <- <-; right; split; [|done]; intros m (q & Eq & _); congruence.
  case_bool_decide as Hk.
  2: { injection H as <- <- <- <-. right. split; [|done]. intros m (q & Eq & Hq & _). rewrite Ee in Eq. by injection Eq as <-. }
  apply bind_Ok in H as (m & ? & [Hm ->]%get_Ok & H). skip H. left. exists m. split; [by exists r|].
  destruct (present (ms_deleted_at m)); [by injection H as <- <- <- <-|].
  apply bind_Ok in H as ([mentions' direct'] & d1 & E & H). apply bind_Ok in H as ([] & ? & E1 & H). injection H as <- <- <- <-. injection E1 as <-.
  split; [done|]. by exists d1.
Qed.

(** What an event mentions: the subjects, the sessions that are called and the author. *)
Lemma message_mentions_Ok find e x project d mentions direct source d' :
  message_mentions find e x project d = Ok ((mentions, direct, source), d') -> names_ok d ->
  (exists l, d' = d <| tb_message_reference := l |> /\ recorded_mentions find d e project l)
  /\ (forall o, o ∈ mentions <-> exists k, mentions_in find d e k /\ refers d project k o)
  /\ (forall a, a ∈ direct <-> addressed find d e project a) /\ forall a, source = Some a <-> wrote d e a.
Proof.
  intros H Hn. assert (d = d <| tb_message_reference := tb_message_reference d |>) as Hd by (by destruct d).
  assert ((forall m, announced d e m -> ms_deleted_at m <> None) -> d' = d -> mentions = [] -> direct = [] ->
    (exists l, d' = d <| tb_message_reference := l |> /\ recorded_mentions find d e project l)
    /\ (forall o, o ∈ mentions <-> exists k, mentions_in find d e k /\ refers d project k o)
    /\ forall a, a ∈ direct <-> addressed find d e project a) as Hnone.
  { intros Hno -> -> ->. unfold recorded_mentions, addressed, mentions_in. setoid_rewrite elem_of_nil. split_and!.
    - eexists. split; [exact Hd|]. intros i o p. cbn. split; [intros Hi; right; split; [|done]|]; naive_solver.
    - naive_solver.
    - naive_solver. }
  apply message_mentions_branches in H as [(m & Ha & -> & H)|(Ha & -> & -> & -> & ->)].
  2: { destruct Hnone as (? & ? & ?); [by intros m Hm%Ha|done..|]. split_and!; [done..|]. intros a. split; [done|]. by intros (m & Hm%Ha & _). }
  assert (forall a, ms_source_assignment_id m = Some a <-> wrote d e a) as Hw.
  { intros a. split; [intros E; by exists m|]. intros (n & Hn' & E). by rewrite <- (announced_one _ _ _ _ Ha Hn'). }
  destruct (ms_deleted_at m) as [t|] eqn:Et; cbn [present] in H.
  { destruct H as (-> & -> & ->). destruct Hnone as (? & ? & ?); [|done..|by split_and!]. intros n Hn'. rewrite (announced_one _ _ _ _ Ha Hn'). congruence. }
  clear Hnone. destruct H as (d1 & E & ->). unfold resolve_mentions in E. apply resolve_all_Ok in E as (-> & Hs & Hc); [|done].
  assert (forall k, k ∈ take 100 (find (_mention_text (String.substring 0 (Z.to_nat 32000) (ms_body m)))) <-> mentions_in find d e k) as Hk.
  { intros k. split; [intros Hk; by exists m|]. intros (n & Hn' & _ & Hk). by rewrite (announced_one _ _ _ _ Ha Hn') in Hk. }
  setoid_rewrite Hk in Hs. setoid_rewrite Hk in Hc. clear Hk. split_and!; [|done| |done].
  - eexists. split; [reflexivity|]. intros i o p. cbn zeta. rewrite elem_of_app, list_elem_of_fmap, elem_of_filter_list. cbn [fst snd].
    setoid_rewrite elem_of_remove_dups.
    assert ((p = MentionPurpose /\ exists m', announced d e m' /\ ms_deleted_at m' = None /\ ms_id m' = i) <-> p = MentionPurpose /\ i = ms_id m) as ->.
    { split; [|intros [-> ->]; split; [done|]; by exists m]. intros [-> (n & Hn' & _ & <-)]. by rewrite (announced_one _ _ _ _ Ha Hn'). }
    rewrite <- Hs, negb_true_iff, andb_false_iff, !bool_decide_eq_false. split.
    + intros [(q & [= -> -> ->] & Hq)|[Hne Hin]]; [by left|]. right. split; [|done]. intros [-> ->]. by destruct Hne.
    + intros [[[-> ->] Hq]|[Hne Hin]]; [left; by exists o|right]. split; [|done]. destruct (decide (i = ms_id m)); [right|by left]. intros ->. by apply Hne.
  - intros a. rewrite Hc. unfold calls, addressed. clear. naive_solver.
Qed.

(** Those whom a message mentions. *)
Lemma mentioned_lookup (direct : list uid) (a : uid) u :
  (list_to_map (map (fun b => (b, Direct)) direct) : gmap uid urgency) !! a = Some u <-> a ∈ direct /\ u = Direct.
Proof.
  induction direct as [|b l IH]; cbn; [rewrite elem_of_nil; naive_solver|]. rewrite elem_of_cons.
  destruct (decide (b = a)) as [<-|Hne]; [rewrite lookup_insert_eq|rewrite lookup_insert_ne by done; rewrite IH]; naive_solver.
Qed.

(** The subscriptions that count are those through which the message reaches a session. *)
Lemma counts_reaches d project x selectors s (l := stored_rows (live_subscription d selectors) d) :
  s ∈ l /\ counts project (map sb_assignment_id (List.filter (topic_mute x) l)) d s <-> reaches d project x selectors s.
Proof.
  unfold counts, reaches, l. rewrite elem_of_stored, list_elem_of_fmap. setoid_rewrite elem_of_filter_list. setoid_rewrite elem_of_stored.
  split.
  - intros ((HL & HS) & HM & HT & HP). split; [done|]. split; [done|]. split; [done|]. split; [|done].
    intros i m Hm Ha HLm. destruct (topic_mute x m) eqn:E; [|done]. exfalso. apply HT. exists m. eauto.
  - intros (HS & HL & HM & HT & HP). split; [done|]. split; [done|]. split; [|done].
    intros (m & Ha & Hmute & HLm & i & Hm). rewrite (HT i m) in Hmute; done.
Qed.

(** The members of the routed audience. *)
Lemma recipients_audience d project x selectors direct source m (l := stored_rows (live_subscription d selectors) d) :
  gather project (map sb_assignment_id (List.filter (topic_mute x) l)) l (list_to_map (map (fun a => (a, Direct)) direct)) d = Ok (m, d) ->
  forall a u, (if source is Some b then delete b m else m) !! a = Some u <-> audience d project x selectors (fun a => a ∈ direct) (fun a => source = Some a) a u.
Proof.
  intros H. destruct (gather_Ok _ _ _ _ _ _ _ H) as (_ & K & HD & HS); [intros a u []%mentioned_lookup; by left|].
  assert (forall a, m !! a = Some Direct <->
    a ∈ direct \/ exists s, reaches d project x selectors s /\ sb_assignment_id s = a /\ sb_mode s = Prompt) as HD'.
  { intros a. rewrite HD, mentioned_lookup. setoid_rewrite <- counts_reaches. naive_solver. }
  assert (forall a, is_Some (m !! a) <-> a ∈ direct \/ exists s, reaches d project x selectors s /\ sb_assignment_id s = a) as HS'.
  { intros a. rewrite HS. unfold is_Some at 1. setoid_rewrite mentioned_lookup. setoid_rewrite <- counts_reaches. naive_solver. }
  clear H HD HS. intros a u. unfold audience. rewrite <- HD'. transitivity (source <> Some a /\ m !! a = Some u).
  { destruct source as [b|]; [rewrite lookup_delete_Some|]; naive_solver. }
  apply and_iff_compat_l. split.
  - intros Hu. destruct (K _ _ Hu) as [->| ->]; [by left|]. right. split; [done|]. split; [by rewrite Hu|].
    destruct (proj1 (HS' a)) as [Ha|?]; [eauto| |done]. rewrite (proj2 (HD' a)) in Hu by (by left). done.
  - intros [[-> ?]|(-> & Hn & He)]; [done|]. destruct (proj2 (HS' a)) as [v Hv]; [by right|]. destruct (K _ _ Hv) as [->| ->]; done.
Qed.

(** The audience depends only on who is meant. *)
Lemma audience_iff d project x selectors (P P' Q Q' : uid -> Prop) a u :
  (forall a, P a <-> P' a) -> (forall a, Q a <-> Q' a) -> audience d project x selectors P Q a u <-> audience d project x selectors P' Q' a u.
Proof. intros HP HQ. unfold audience. by rewrite (HP a), (HQ a). Qed.

(** C18. A message reaches its audience and nobody else.  What the message mentions outside of code
    is recorded; then every pending or running session that it mentions by number, and every live
    subscriber that asked to be prompted, is notified directly; the other live subscribers of the
    topic, of its subjects, of what is referred to or mentioned, and of the directories above, by a
    digest.  A mute of the topic silences every subscription of its session but not a mention, the
    author is not notified, no earlier notification is lost or lowered, and all that is new is for this
    audience.  A mention of a session that is neither pending nor running only makes it a subject. *)
Theorem message_reaches_audience find e x referenced d u d' :
  route_message find e x referenced d = Ok (u, d') -> fresh_notifications d -> names_ok d ->
  (forall i y, tb_discussion d !! i = Some y -> ds_id y = i) ->
  exists project given mentions recorded,
    let dm := d <| tb_message_reference := recorded |> in
    let subjects := stored Kdiscussion x :: (map snd (List.filter (fun r => bool_decide (r.1 = x)) (tb_discussion_subject d)) ++ given ++ mentions)%list in
    let A := audience dm project x (subjects ++ concat (map ancestors subjects))%list (addressed find d e project) (wrote d e) in
    ev_project_id e = Some project /\ referenced_in project referenced d = Ok (given, d)
    /\ (forall o, o ∈ mentions <-> exists k, mentions_in find d e k /\ refers d project k o)
    /\ recorded_mentions find d e project recorded
    /\ told (ev_id e) A d d'
    /\ forall a u, A a u -> exists i n, tb_notification d' !! i = Some n /\ notified a (ev_id e) n = true /\ (u = Direct -> nt_urgency n <> Routine).
Proof.
  unfold route_message. intros H F Hn Hk. apply bind_Ok in H as (project & ? & [Ep ->]%lift_Ok & H).
  apply bind_Ok in H as (y & ? & (-> & Hy & _)%same_project_Ok & H). apply bind_Ok in H as (linked & ? & [-> ->]%ask_Ok & H).
  apply bind_Ok in H as (given & ? & Eg & H). pose proof (keeps_referenced_in eq _ _ _ _ _ Eg) as <-.
  apply bind_Ok in H as ([[mentions direct] source] & dm & Em & H).
  destruct (message_mentions_Ok _ _ _ _ _ _ _ _ _ Em Hn) as ((recorded & -> & Hrec) & Hs & Hc & Hw).
  apply bind_Ok in H as (candidates & ? & [-> ->]%ask_Ok & H). apply bind_Ok in H as (recipients & ? & Er & H).
  destruct (gather_Ok _ _ _ _ _ _ _ Er) as (-> & _); [intros a v []%mentioned_lookup; by left|].
  pose proof (recipients_audience _ _ _ _ _ source _ Er) as HA.
  assert (forall a v, _ <-> audience _ project x _ (addressed find d e project) (wrote d e) a v) as HA'
    by (intros a v; rewrite <- (audience_iff _ _ _ _ _ _ _ _ a v Hc Hw); apply HA). clear HA.
  eapply told_all in H as [HT HN]; [|exact F|intros [a v] Hr; apply HA'; by apply elem_of_map_to_list in Hr].
  exists project, given, mentions, recorded. split; [by destruct (ev_project_id e); simplify_eq|]. do 3 (split; [done|]).
  split; [|intros a v Ha; apply (HN (a, v)), elem_of_map_to_list, HA', Ha].
  by destruct HT as [T1 T2 T3]; split.
Qed.

(** ** The text outside of code *)

Lemma after_backticks_length k l r : after_backticks k l = Some r -> (List.length r <= List.length l)%nat.
Proof.
  revert r. induction l as [|c l IH]; intros r H; cbn [after_backticks] in H; destruct (k <=? _)%nat; [injection H as <-|done|injection H as <-|].
  - rewrite length_drop. lia.
  - rewrite length_drop. lia.
  - specialize (IH _ H). cbn. lia.
Qed.

Lemma close_span_length k l r : close_span k l = Some r -> (List.length r < List.length l)%nat.
Proof.
  induction k as [|k IH]; [done|]. cbn [close_span]. destruct (after_backticks (S k) (drop (S k) l)) as [q|] eqn:E; [|done].
  intros [= <-]. destruct l as [|c l]; [done|]. apply after_backticks_length in E. rewrite length_drop in E. cbn in *. lia.
Qed.

(** The length of a line is fuel enough to drop its inline code: every step shortens the rest. *)
Lemma drop_spans_enough n m l : (List.length l <= n)%nat -> (List.length l <= m)%nat -> drop_spans n l = drop_spans m l.
Proof.
  revert m l. induction n as [|n IH]; intros m l Hn Hm; destruct l as [|c l]; [by destruct m|cbn in Hn; lia|by destruct m|].
  destruct m as [|m]; [cbn in Hm; lia|]. cbn [drop_spans]. destruct (close_span _ _) as [r|] eqn:E.
  - apply close_span_length in E. cbn in *. apply IH; lia.
  - f_equal. cbn in *. apply IH; lia.
Qed.

Example inline_code_dropped : _mention_text "ask `@N1` and @N2" = "ask  and @N2".
Proof. by vm_compute. Qed.

(** ** Witnesses *)

(** Discussion 30 with messages 31 and 32; the second mentions session 6, which reads both. *)
Definition sample_message (i : uid) (remote body : string) : message :=
  {| ms_id := i; ms_created_at := 0; ms_updated_at := 0; ms_revision := 1; ms_discussion_id := 30; ms_remote_id := remote;
     ms_remote_author_id := "7"; ms_author_principal_id := None; ms_source_assignment_id := None; ms_body := body; ms_posted_at := 0;
     ms_edited_at := None; ms_deleted_at := None |}.

Definition talk_db : DB :=
  sample_db <| tb_discussion := {[30%positive := new_discussion 2 40 "5" "proofs" 30 0]} |>
    <| tb_message := <[32%positive := sample_message 32 "11" "see R1-A6"]> {[31%positive := sample_message 31 "10" "hello"]} |>.

Definition sample_read : M Z := read_messages admin 6 [(31%positive, 1); (32%positive, 1)].
Definition read_db : DB := match sample_read talk_db with Ok (_, d) => d | Err _ => talk_db end.

Definition body_blob (j : json) : Blob := {| bl_sha256 := zeros 64; bl_size := 1; bl_media_type := "application/json" |}.
Definition mention_six (s : string) : list Mention := if contains "R1-A6" s then [MentionAssignment 1 6] else [].

Definition message_event : event :=
  {| ev_id := 60; ev_created_at := 0; ev_project_id := Some 2%positive; ev_subject_id := Some (stored Kmessage 32);
     ev_actor_principal_id := None; ev_execution_id := None; ev_schema_version := 1; ev_source := "zulip"; ev_source_event_id := Some "11";
     ev_occurred_at := 0; ev_payload := RecordChanged 1 [] None |}.

Lemma first_read_covers_window_witness :
  exists d', sample_read talk_db = Ok (2, d') /\ known d' 6 (sample_message 31 "10" "hello") = true.
Proof.
  destruct (is_ok_true (sample_read talk_db)) as [[n d'] E]; [by vm_compute|].
  destruct (first_read_covers_window _ _ _ _ _ _ E (keyed_rows_spec ms_id (tb_message talk_db) ltac:(by vm_compute))) as (-> & _ & _ & _ & H).
  exists d'. split; [exact E|]. unfold known.
  destruct (proj2 (H (6%positive, 31%positive, 1))) as [t Ht]; [|by cbn [ms_id ms_revision sample_message]; rewrite Ht].
  right. exists (31%positive, 1). split; [by left|done].
Defined.

Lemma reply_read_everything_witness :
  exists o d' p, queue_reply body_blob admin 30 (Some 6%positive) "done" [] false "key" read_db = Ok (o, d')
    /\ ob_payload o = PPost p /\ (32%positive, 1) ∈ po_read_messages p.
Proof.
  destruct (is_ok_true (queue_reply body_blob admin 30 (Some 6%positive) "done" [] false "key" read_db)) as [[o d'] E]; [by vm_compute|].
  destruct (reply_read_everything _ _ _ _ _ _ _ _ _ _ E) as (p & Hp & _ & _ & _ & H & _).
  exists o, d', p. split; [exact E|]. split; [exact Hp|].
  exact (proj2 (H 32%positive (sample_message 32 "11" "see R1-A6") ltac:(by vm_compute) ltac:(by vm_compute))).
Defined.

Lemma talk_names_ok : names_ok talk_db.
Proof.
  split.
  - exact (keyed_rows_spec a_id (tb_assignment talk_db) ltac:(by vm_compute)).
  - exact (keyed_rows_spec n_id (tb_node talk_db) ltac:(by vm_compute)).
  - exact (keyed_rows_spec m_id (tb_mission talk_db) ltac:(by vm_compute)).
  - exact (keyed_rows_spec rp_id (tb_repository talk_db) ltac:(by vm_compute)).
  - intros i j r q. cbn. by intros [<- _]%lookup_singleton_Some [<- _]%lookup_singleton_Some.
  - intros i j t q. cbn. by intros [<- _]%lookup_singleton_Some [<- _]%lookup_singleton_Some.
Qed.

Lemma message_reaches_audience_witness :
  exists d', route_message mention_six message_event 30 [] talk_db = Ok (tt, d')
    /\ exists i n, tb_notification d' !! i = Some n /\ notified 6 60 n = true /\ nt_urgency n <> Routine.
Proof.
  destruct (is_ok_true (route_message mention_six message_event 30 [] talk_db)) as [[[] d'] E]; [by vm_compute|].
  exists d'. split; [exact E|]. assert (fresh_notifications talk_db) as F by (intros i [n Hn]; by vm_compute in Hn).
  destruct (message_reaches_audience _ _ _ _ _ _ _ E F talk_names_ok (keyed_rows_spec ds_id (tb_discussion talk_db) ltac:(by vm_compute)))
    as (project & given & mentions & recorded & H).
  cbv zeta in H. destruct H as (Ep & _ & _ & _ & _ & HA). injection Ep as <-.
  assert (announced talk_db message_event (sample_message 32 "11" "see R1-A6")) as Ha by (eexists; split_and!; reflexivity).
  destruct (HA 6%positive Direct) as (i & n & Hi & Hn & Hu).
  - split; [intros (m & Hm & Ew); rewrite (announced_one _ _ _ _ Ha Hm) in Ew; discriminate Ew|]. left. split; [reflexivity|]. left.
    exists 1, 6, (sample_assignment 6 5 3 Running). split; [|split; [reflexivity|split; [by vm_compute|by right]]].
    eexists. split; [exact Ha|]. split; [reflexivity|].
    assert (forall (k : Mention) l, l = [k] -> k ∈ l) as Hl by (intros k l ->; by left). apply (Hl (MentionAssignment 1 6)). by vm_compute.
  - exists i, n. split; [exact Hi|]. split; [exact Hn|]. by apply Hu.
Defined.
