(* ===== verification/OutboxSafety.v ===== *)
(** * The safety of the outbox

    The theorems about Outbox.v: deliveries of one target are claimed in order, only the holder of
    the current lease settles, a delivery whose outcome is unknown is only reconciled, and an item
    that is closed again stays labelled. *)

From S2P Require Import Prelude Contracts ReviewContracts Conditions Schema Records Auth Samples MissionTree Missions Ledger Usage Capacity Sessions Assignments Deliveries Settlement Runs Workspaces Labels Objectives Demand Launch WorkerEvents Panel PanelSafety Decisions Gates Communications Chat Outbox GateSafety.

Local Open Scope Z_scope.

(** ** Claims *)

Definition operations_keyed (d : DB) : Prop :=
  forall i o, tb_outbox_operation d !! i = Some o -> ob_id o = i /\ (i < db_next d)%positive.

(** The row that a claim writes. *)
Definition claimed_row (owner : string) (d : DB) (o : outbox_operation) : outbox_operation :=
  touch (db_now d) (o <| ob_status := OutRunning |> <| ob_lease_owner := Some owner |> <| ob_lease_epoch := ob_lease_epoch o + 1 |>
    <| ob_lease_expires_at := Some (db_clock d + LEASE) |> <| ob_retry_count := ob_retry_count o + 1 |>).

Definition reconciling (o : outbox_operation) : bool := mem (ob_status o) [OutUncertain; OutRunning].

Lemma claim_order_iff a b :
  claim_order a b = true <->
  (background a = false /\ background b = true)
  \/ (background a = background b /\ (ob_created_at a < ob_created_at b \/ (ob_created_at a = ob_created_at b /\ (ob_id a <= ob_id b)%positive))).
Proof.
  unfold claim_order. rewrite !orb_true_iff, !andb_true_iff, !orb_true_iff, !andb_true_iff, negb_true_iff, Z.ltb_lt, Z.eqb_eq, Pos.leb_le.
  rewrite Bool.eqb_true_iff. tauto.
Qed.

#[export] Instance claim_order_trans : Transitive (fun a b => Is_true (claim_order a b)).
Proof. intros a b c. rewrite !Is_true_true, !claim_order_iff. destruct (background a), (background b), (background c); intuition (try congruence; lia). Qed.

#[export] Instance claim_order_total : Total (fun a b => Is_true (claim_order a b)).
Proof. intros a b. rewrite !Is_true_true, !claim_order_iff. destruct (background a), (background b); intuition lia. Qed.

Lemma claim_Some owner d c d' :
  _claim_operation owner d = Ok (Some c, d') -> operations_keyed d ->
  exists i o, tb_outbox_operation d !! i = Some o /\ claimable d (db_clock d) o = true
    /\ (forall j p, tb_outbox_operation d !! j = Some p -> claimable d (db_clock d) p = true -> claim_order o p = true)
    /\ c = {| co_operation := claimed_row owner d o; co_reconcile_only := reconciling o |}
    /\ d' = d <| tb_outbox_operation := <[i := claimed_row owner d o]> (tb_outbox_operation d) |>.
Proof.
  unfold _claim_operation. intros H Hk. apply bind_Ok in H as (now & ? & [-> ->]%ask_Ok & H).
  apply bind_Ok in H as (found & ? & [Hf ->]%ask_Ok & H). destruct found as [o|]; [|by apply ret_Ok in H as [[=] _]].
  apply bind_Ok in H as (row & d1 & Hc & [[= ->] ->]%ret_Ok). symmetry in Hf. pose proof Hf as Hin.
  apply first_by_Some, elem_of_stored in Hin as [Hcl [i Hi]]. cbn in Hi. destruct (Hk _ _ Hi) as [<- _].
  apply change_Ok in Hc as (o' & Ho' & _ & -> & ->). cbn in Ho'. rewrite Hi in Ho'. injection Ho' as <-.
  exists (ob_id o), o. split_and!; try done. intros j p Hj Hp. apply (first_by_least claim_order _ _ _ Hf). apply elem_of_stored. eauto.
Qed.

Lemma unblocked d o j p :
  blocked d o = false -> tb_outbox_operation d !! j = Some p -> same_target p o = true -> precedes p o = true -> unsettled_delivery p = false.
Proof.
  unfold blocked. intros Hb Hp Ht Hpre. apply not_true_iff_false. intros Hu. apply not_true_iff_false in Hb. apply Hb.
  apply existsb_exists. exists p. rewrite Hu, Ht, Hpre. split; [|done]. apply list_elem_of_In, list_elem_of_fmap. exists (j, p).
  split; [done|]. by apply elem_of_map_to_list.
Qed.

(** C14. Deliveries of one target are sent in order.  A claim takes a due delivery of a connector
    such that every earlier delivery with the same target is settled, and no delivery that could
    be claimed comes before it (background repairs last).  It becomes the only change: the row
    runs under the claiming owner, one epoch later, with a lease of five minutes and one more
    attempt; the claim says to reconcile exactly when the outcome of an earlier attempt is open.
    When nothing is claimed, every delivery of a connector that is due waits for an earlier one with
    its target that is not settled. *)
Theorem claims_in_order owner d answer d' :
  _claim_operation owner d = Ok (answer, d') -> operations_keyed d ->
  match answer with
  | None => d' = d /\ forall i o, tb_outbox_operation d !! i = Some o -> connector_kind (ob_kind o) = true -> due (db_clock d) o = true ->
      exists j p, tb_outbox_operation d !! j = Some p /\ same_target p o = true /\ precedes p o = true /\ unsettled_delivery p = true
  | Some c => exists i o, tb_outbox_operation d !! i = Some o /\ due (db_clock d) o = true /\ connector_kind (ob_kind o) = true
      /\ (forall j p, tb_outbox_operation d !! j = Some p -> same_target p o = true -> precedes p o = true -> unsettled_delivery p = false)
      /\ (forall j p, tb_outbox_operation d !! j = Some p -> claimable d (db_clock d) p = true -> claim_order o p = true)
      /\ c = {| co_operation := claimed_row owner d o; co_reconcile_only := reconciling o |}
      /\ d' = d <| tb_outbox_operation := <[i := claimed_row owner d o]> (tb_outbox_operation d) |>
  end.
Proof.
  intros H Hk. destruct answer as [c|].
  - apply claim_Some in H as (i & o & Hi & Hc & Hmin & -> & ->); [|done]. exists i, o. unfold claimable in Hc. bools.
    split_and!; try done. intros j p. by apply unblocked.
  - unfold _claim_operation in H. apply bind_Ok in H as (now & ? & [-> ->]%ask_Ok & H). apply bind_Ok in H as (found & ? & [Hf ->]%ask_Ok & H).
    destruct found as [o|]; [by apply bind_Ok in H as (? & ? & _ & [[=] _]%ret_Ok)|]. apply ret_Ok in H as [_ ->]. split; [done|].
    intros i o Ho Hkind Hdue. symmetry in Hf. apply first_by_None in Hf.
    assert (blocked d o = true) as Hb.
    { apply not_false_iff_true. intros Hb. assert (o ∈ stored_rows (claimable d (db_clock d)) d) as Hin.
      { apply elem_of_stored. split; [|eauto]. unfold claimable. by rewrite Hkind, Hdue, Hb. }
      rewrite Hf in Hin. by apply elem_of_nil in Hin. }
    apply existsb_exists in Hb as (p & Hp & Hu). apply list_elem_of_In, list_elem_of_fmap in Hp as ([j p'] & -> & Hj%elem_of_map_to_list). bools. by exists j, p'.
Qed.

(** ** What a settlement leaves alone *)

(** The same delivery, at the same point of its life. *)
Definition standing (o o' : outbox_operation) : Prop :=
  ob_id o' = ob_id o /\ ob_kind o' = ob_kind o /\ ob_status o' = ob_status o /\ ob_lease_owner o' = ob_lease_owner o
  /\ ob_lease_epoch o' = ob_lease_epoch o /\ ob_lease_expires_at o' = ob_lease_expires_at o.

Lemma standing_refl o : standing o o.
Proof. by split_and!. Qed.

(** Operations are only added, or rewritten without moving them on. *)
Definition kept (d d' : DB) : Prop :=
  operations_keyed d -> operations_keyed d'
  /\ forall i o, tb_outbox_operation d !! i = Some o -> exists o', tb_outbox_operation d' !! i = Some o' /\ standing o o'.

#[export] Instance kept_preorder : PreOrder kept.
Proof.
  split.
  - intros d Hk. split; [done|]. intros i o Ho. exists o. split; [done|apply standing_refl].
  - intros d1 d2 d3 H12 H23 Hk. destruct (H12 Hk) as [Hk2 H2]. destruct (H23 Hk2) as [Hk3 H3]. split; [done|]. intros i o Ho.
    destruct (H2 i o Ho) as (o2 & Ho2 & Hs2). destruct (H3 i o2 Ho2) as (o3 & Ho3 & Hs3). exists o3. split; [done|].
    unfold standing in *. naive_solver congruence.
Qed.

Lemma kept_same d d' : tb_outbox_operation d' = tb_outbox_operation d -> (db_next d <= db_next d')%positive -> kept d d'.
Proof.
  intros Ho Hn Hk. unfold operations_keyed. rewrite Ho. split; [|intros i o H; exists o; split; [done|apply standing_refl]].
  intros i o H. destruct (Hk i o H). split; [done|lia].
Qed.

#[export] Hint Extern 0 (Quiet kept _) => (split; intros; apply kept_same; cbn; (reflexivity || lia)) : typeclass_instances.
#[export] Hint Extern 1 (Keeps kept (modify _)) => (apply keeps_modify; intros; apply kept_same; cbn; (reflexivity || lia)) : frame.

#[export] Instance kept_new_operations : NewOperations kept.
Proof.
  intros v Hid d o d' H Hk. unfold create in H. injection H as <- <-. cbn. split.
  - intros i o. cbn. intros [[<- <-]|[_ Ho]]%lookup_insert_Some; [split; [apply Hid|lia]|]. destruct (Hk i o Ho). split; [done|lia].
  - intros i o Ho. cbn. exists o. rewrite lookup_insert_ne; [split; [done|apply standing_refl]|]. destruct (Hk i o Ho). lia.
Qed.

Lemma kept_change i e f : (forall o, standing o (f o)) -> Keeps kept (change (R := outbox_operation) i e f).
Proof.
  intros Hf d r d' (o & Ho & _ & -> & ->)%change_Ok Hk. cbn in Ho. assert (standing o (touch (db_now d) (f o))) as Hs by exact (Hf o). split.
  - intros j x. cbn. intros [[<- <-]|[_ Hx]]%lookup_insert_Some; [|by apply Hk]. destruct Hs as [Hid _], (Hk _ _ Ho) as [Hi Hn].
    split; [by rewrite <- Hi|done].
  - intros j x Hx. cbn. destruct (decide (j = i)) as [->|Hne]; [|exists x; rewrite lookup_insert_ne; [split; [done|apply standing_refl]|done]].
    rewrite Ho in Hx. injection Hx as <-. eexists. by rewrite lookup_insert_eq.
Qed.
#[export] Hint Extern 2 (Keeps kept (change _ _ _)) => (apply kept_change; intros; by split_and!) : frame.

Lemma system_actor_kept : Keeps kept system_actor.
Proof. unfold system_actor. frame. Qed.
#[export] Hint Resolve system_actor_kept : frame.
#[export] Hint Extern 1 (Keeps _ (finish_item _ _ _ _ _)) => (apply keeps_finish_item; typeclasses eauto) : frame.

Lemma record_result_kept read_manifest casefold find_mentions o s r : Keeps kept (record_result read_manifest casefold find_mentions o s r).
Proof.
  assert (forall i, Keeps kept (_invalidate_gate read_manifest i)) as Hg by (intros; unfold _invalidate_gate; frame).
  assert (forall a p i, Keeps kept (withdraw_acceptance a p i)) as Hw by (intros; unfold withdraw_acceptance; frame).
  assert (forall a p o b i c v, Keeps kept (judge_gate a p o b i c v)) as Hj.
  { intros. unfold judge_gate, policy_pin. frame. }
  assert (forall s o p r, Keeps kept (_record_review read_manifest casefold s o p r)) as Hr.
  { intros. unfold _record_review, _activate_gate, connector_failure. frame. }
  assert (forall x r a q b, Keeps kept (record_post find_mentions x r a q b)) as Hp
    by (intros; apply keeps_record_post; try typeclasses eauto; intros; by apply kept_same).
  unfold record_result, record_change, record_creation, publish_branch, check_target, locate, fail_when, connector_failure. frame.
Qed.

(** ** Settlement *)

Section settling.
Context (read_manifest : string -> option ReviewManifest) (casefold : string -> string) (find_mentions : string -> list Mention).
Context (max_delivery_attempts : Z) (wait : Z -> Z).

Abbreviation settle owner c outcome := (_settle_operation read_manifest casefold find_mentions owner max_delivery_attempts wait c outcome).

Definition outcome_status (c : Claimed) (outcome : DeliveryError + (Snapshot * remote_result)) : outbox_status :=
  match outcome with inl e => failed_status max_delivery_attempts c e | inr _ => OutCompleted end.

(** The settled row: its status is the outcome's, its lease is released, its epoch stays. *)
Definition released (s : outbox_status) (o o' : outbox_operation) : Prop :=
  ob_id o' = ob_id o /\ ob_kind o' = ob_kind o /\ ob_status o' = s /\ ob_lease_owner o' = None /\ ob_lease_expires_at o' = None
  /\ ob_lease_epoch o' = ob_lease_epoch o.

Lemma change_settled i st retry f ref n d r d' o :
  change i None (settled st retry f ref n) d = Ok (r, d') -> tb_outbox_operation d !! i = Some o -> operations_keyed d ->
  operations_keyed d' /\ (exists o', tb_outbox_operation d' !! i = Some o' /\ released st o o')
  /\ forall j p, j <> i -> tb_outbox_operation d !! j = Some p -> tb_outbox_operation d' !! j = Some p.
Proof.
  intros (o0 & Ho & _ & -> & ->)%change_Ok Hi Hk. cbn in Ho. rewrite Hi in Ho. injection Ho as <-. split; [|split].
  - intros j x. cbn. intros [[<- <-]|[_ Hx]]%lookup_insert_Some; [|by apply Hk]. exact (Hk _ _ Hi).
  - eexists. cbn. rewrite lookup_insert_eq. split; [done|]. by split_and!.
  - intros j p Hne Hp. cbn. by rewrite lookup_insert_ne.
Qed.

Lemma settle_Ok owner c outcome d s d' :
  settle owner c outcome d = Ok (s, d') -> operations_keyed d ->
  s = outcome_status c outcome /\ operations_keyed d'
  /\ (exists o o', tb_outbox_operation d !! ob_id (co_operation c) = Some o /\ holds_lease owner c (db_clock d) o = true
        /\ tb_outbox_operation d' !! ob_id (co_operation c) = Some o' /\ released s o o')
  /\ forall j p, j <> ob_id (co_operation c) -> tb_outbox_operation d !! j = Some p ->
       exists p', tb_outbox_operation d' !! j = Some p' /\ standing p p'.
Proof.
  unfold _settle_operation. intros H Hk. apply bind_Ok in H as (o & ? & [Ho ->]%get_Ok & H). cbn in Ho.
  apply bind_Ok in H as (clock & ? & [-> ->]%ask_Ok & H). apply bind_Ok in H as (? & d1 & Hf & H).
  unfold fail_when in Hf. destruct (negb _) eqn:Hl; [done|]. apply ret_Ok in Hf as [_ ->]. apply negb_false_iff in Hl.
  destruct outcome as [e|[sn r]].
  - apply bind_Ok in H as (row & d2 & Hc & H). destruct (change_settled _ _ _ _ _ _ _ _ _ _ Hc Ho Hk) as (Hk2 & (o' & Ho' & Hr) & Hrest).
    apply bind_Ok in H as (? & d3 & Hfail & [-> ->]%ret_Ok). within kept Hfail. destruct (Hfail Hk2) as [Hk3 H3]. split; [done|]. split; [done|].
    split; [|intros j p Hne Hp; apply H3, Hrest; done]. destruct (H3 _ _ Ho') as (o2 & Ho2 & Hs2). exists o, o2. split_and!; try done.
    unfold released, standing in *. cbn. naive_solver congruence.
  - apply bind_Ok in H as (ref & d2 & Hrec & H). apply record_result_kept in Hrec. destruct (Hrec Hk) as [Hk2 H2].
    destruct (H2 _ _ Ho) as (o1 & Ho1 & Hs1). apply bind_Ok in H as (row & d3 & Hc & [-> ->]%ret_Ok).
    destruct (change_settled _ _ _ _ _ _ _ _ _ _ Hc Ho1 Hk2) as (Hk3 & (o' & Ho' & Hr) & Hrest). split; [done|]. split; [done|]. split.
    + exists o, o'. split_and!; try done. unfold released, standing in *. cbn. naive_solver congruence.
    + intros j p Hne Hp. destruct (H2 _ _ Hp) as (p' & Hp' & Hs'). exists p'. split; [by apply Hrest|done].
Qed.

(** Only the holder of the lease settles.  A settlement goes through only if the row is leased
    to its owner at the epoch of its claim and the lease has not expired; otherwise it fails as
    fenced, before anything is recorded.  One that goes through gives the row the status of the
    outcome, releases the lease and keeps the epoch, and leaves every other delivery where it
    stands. *)
Theorem only_lease_holder_settles owner c outcome d :
  operations_keyed d ->
  match settle owner c outcome d with
  | Ok (s, d') => s = outcome_status c outcome
      /\ (exists o o' t, tb_outbox_operation d !! ob_id (co_operation c) = Some o /\ ob_lease_owner o = Some owner
            /\ ob_lease_epoch o = ob_lease_epoch (co_operation c) /\ ob_lease_expires_at o = Some t /\ db_clock d < t
            /\ tb_outbox_operation d' !! ob_id (co_operation c) = Some o' /\ released s o o')
      /\ forall j p, j <> ob_id (co_operation c) -> tb_outbox_operation d !! j = Some p ->
           exists p', tb_outbox_operation d' !! j = Some p' /\ standing p p'
  | Err e => forall o, tb_outbox_operation d !! ob_id (co_operation c) = Some o -> holds_lease owner c (db_clock d) o = false ->
      e = ConnectorFailure "delivery_fenced" false false 0
  end.
Proof.
  intros Hk. destruct (settle owner c outcome d) as [[s d']|e] eqn:E.
  - apply settle_Ok in E as (Hs & _ & (o & o' & Ho & Hl & Ho' & Hr) & Hrest); [|done]. split; [done|]. split; [|done].
    unfold holds_lease in Hl. destruct (ob_lease_expires_at o) as [t|] eqn:Et; [|by rewrite andb_false_r in Hl]. bools.
    exists o, o', t. split_and!; try done; lia.
  - intros o Ho Hl. unfold _settle_operation, get, ask, mbind, M_bind in E. cbn in E. rewrite Ho in E. unfold fail_when in E. rewrite Hl in E.
    cbn in E. by injection E.
Qed.

(** ** Open outcomes *)

(** The life of deliveries, with the claims that were handed out: a delivery is claimed, a claim is
    settled, an operator recovers a delivery, or another transaction keeps every delivery where it
    stands.  The one thing left out is that an administrator confirms the absence of [i]. *)
Inductive delivery_step (i : uid) : relation (DB * list Claimed) :=
| DeliverClaim owner c cs d d' : _claim_operation owner d = Ok (Some c, d') -> delivery_step i (d, cs) (d', c :: cs)
| DeliverSettle owner c cs outcome s d d' : c ∈ cs -> settle owner c outcome d = Ok (s, d') -> delivery_step i (d, cs) (d', cs)
| DeliverRecover actor command j n note row cs d d' :
    recover_delivery actor command j n note d = Ok (row, d') -> ~ (j = i /\ command = ReconcileDeliveryAbsent) ->
    delivery_step i (d, cs) (d', cs)
| DeliverOther cs d d' : kept d d' -> delivery_step i (d, cs) (d', cs).

(** The outcome of [i] is open, or known to be done: it waits with no owner, or its current claim
    only reconciles. *)
Definition open_outcome (i : uid) (w : DB * list Claimed) : Prop :=
  operations_keyed w.1 /\ exists o, tb_outbox_operation w.1 !! i = Some o
    /\ (forall c, c ∈ w.2 -> ob_id (co_operation c) = i -> ob_lease_epoch (co_operation c) <= ob_lease_epoch o)
    /\ ((mem (ob_status o) [OutUncertain; OutCompleted] = true /\ ob_lease_owner o = None)
        \/ (ob_status o = OutRunning /\ forall c, c ∈ w.2 -> ob_id (co_operation c) = i ->
              ob_lease_epoch (co_operation c) = ob_lease_epoch o -> co_reconcile_only c = true)).

(** Every claim of [i] after [cs] only reconciles. *)
Definition reconciles (i : uid) (cs cs' : list Claimed) : Prop :=
  forall c, c ∈ cs' -> ob_id (co_operation c) = i -> c ∈ cs \/ co_reconcile_only c = true.

Lemma claim_open i owner c d d' cs :
  _claim_operation owner d = Ok (Some c, d') -> open_outcome i (d, cs) ->
  open_outcome i (d', c :: cs) /\ (ob_id (co_operation c) = i -> co_reconcile_only c = true).
Proof.
  intros H [Hk (o & Ho & He & Hst)]. cbn in *. apply claim_Some in H as (j & r & Hj & Hc & _ & -> & ->); [|done].
  destruct (Hk _ _ Hj) as [Hid Hn]. cbn in *.
  assert (operations_keyed (d <| tb_outbox_operation := <[j := claimed_row owner d r]> (tb_outbox_operation d) |>)) as Hk'.
  { intros x y. cbn. intros [[<- <-]|[_ Hx]]%lookup_insert_Some; [by split|by apply Hk]. }
  destruct (decide (j = i)) as [->|Hne].
  - rewrite Ho in Hj. injection Hj as <-. assert (reconciling o = true) as Hre.
    { unfold reconciling. destruct Hst as [[Hm _]|[-> _]]; [|done]. unfold claimable, due in Hc.
      destruct (ob_status o); try done. cbn in Hc. by rewrite andb_false_r in Hc. }
    split; [|done]. split; [done|]. cbn. eexists. rewrite lookup_insert_eq. split; [done|]. cbn. split.
    + intros c [->|Hin]%elem_of_cons Hci; cbn; [lia|]. specialize (He c Hin Hci). lia.
    + right. split; [done|]. intros c [->|Hin]%elem_of_cons Hci Hce; [done|]. specialize (He c Hin Hci). lia.
  - split; [|intros Heq; cbn in Heq; congruence]. split; [done|]. cbn. exists o. rewrite lookup_insert_ne by done. split; [done|]. split.
    + intros c [->|Hin]%elem_of_cons Hci; [cbn in Hci; congruence|by apply He].
    + destruct Hst as [Hst|[Hr Hst]]; [by left|right]. split; [done|]. intros c [->|Hin]%elem_of_cons Hci Hce; [cbn in Hci; congruence|by apply Hst].
Qed.

Lemma standing_open i d d' cs o o' :
  open_outcome i (d, cs) -> operations_keyed d' -> tb_outbox_operation d !! i = Some o -> tb_outbox_operation d' !! i = Some o' -> standing o o' ->
  open_outcome i (d', cs).
Proof.
  intros [_ (x & Hx & He & Hst)] Hk Ho Ho' (_ & _ & Hs & Hl & Hep & _). cbn in *. rewrite Ho in Hx. injection Hx as <-.
  split; [done|]. exists o'. split; [done|]. cbn. rewrite Hep, Hs, Hl. done.
Qed.

Lemma settle_open i owner c outcome s d d' cs :
  settle owner c outcome d = Ok (s, d') -> c ∈ cs -> open_outcome i (d, cs) -> open_outcome i (d', cs).
Proof.
  intros H Hin Hopen. pose proof Hopen as [Hk (o & Ho & He & Hst)]. cbn in *.
  apply settle_Ok in H as (-> & Hk' & (x & x' & Hx & Hl & Hx' & Hr) & Hrest); [|done].
  destruct (decide (i = ob_id (co_operation c))) as [->|Hne].
  - rewrite Ho in Hx. injection Hx as <-. unfold holds_lease in Hl. bools. destruct Hst as [[_ Hnone]|[_ Hst]]; [congruence|].
    assert (co_reconcile_only c = true) as Hre by (apply Hst; [done|done|lia]). destruct Hr as (_ & _ & Hs & Hown & _ & Hep).
    split; [done|]. exists x'. cbn. rewrite Hep. split; [done|]. split; [done|]. left. rewrite Hs. split; [|done].
    destruct outcome; [|done]. cbn. unfold failed_status. by rewrite Hre, orb_true_r.
  - destruct (Hrest i o Hne Ho) as (o' & Ho' & Hs'). by eapply standing_open.
Qed.

(** A command of an operator leaves an open outcome open. *)
Lemma recover_open i actor command j n note row d d' cs :
  recover_delivery actor command j n note d = Ok (row, d') -> ~ (j = i /\ command = ReconcileDeliveryAbsent) ->
  open_outcome i (d, cs) -> open_outcome i (d', cs).
Proof.
  intros H Hne Hopen. pose proof Hopen as [Hk (o & Ho & _ & Hst)]. cbn in *.
  assert (db_next d <= db_next d')%positive as Hnext.
  { assert (Keeps (grows (fun _ => tt)) (recover_delivery actor command j n note)) as K; [unfold recover_delivery; frame|].
    apply K in H. apply H. }
  apply recover_delivery_spec in H as (old & Hj & _ & _ & E & _ & _ & _ & _ & Hid & Hc & _).
  assert (j <> i) as Hji.
  { intros ->. rewrite Ho in Hj. injection Hj as <-.
    destruct command; [destruct Hc as [Hs _]..|by apply Hne]; destruct Hst as [[Hm _]|[Hm _]]; destruct (ob_status o); done. }
  eapply (standing_open i d d' cs o o); [done| |done| |apply standing_refl].
  - intros k x. rewrite E. intros [[<- <-]|[_ Hx]]%lookup_insert_Some; [|destruct (Hk _ _ Hx); split; [done|lia]].
    destruct (Hk _ _ Hj) as [Hi Hn]. split; [by rewrite Hid|lia].
  - by rewrite E, lookup_insert_ne.
Qed.

(** C13. A delivery whose outcome is unknown is only reconciled.  From the moment a delivery is
    uncertain, whatever managers claim and settle, leases expire, operators retry or cancel and
    other transactions record, every later claim of it orders a reconciliation, and it stays
    uncertain, under such a claim, or completed; it is never pending, failed or cancelled again
    unless an administrator confirms that nothing was delivered.  What a reconciling delivery does on
    the forge is not part of the statement. *)
Theorem uncertain_only_reconciled i o d cs d' cs' :
  rtc (delivery_step i) (d, cs) (d', cs') -> operations_keyed d -> tb_outbox_operation d !! i = Some o -> ob_status o = OutUncertain ->
  ob_lease_owner o = None -> (forall c, c ∈ cs -> ob_id (co_operation c) = i -> ob_lease_epoch (co_operation c) <= ob_lease_epoch o) ->
  reconciles i cs cs' /\ exists o', tb_outbox_operation d' !! i = Some o' /\ ob_status o' ∈ [OutUncertain; OutRunning; OutCompleted].
Proof.
  intros Hs Hk Ho Hu Hn He. assert (open_outcome i (d, cs)) as Hopen.
  { split; [done|]. exists o. split_and!; try done. left. by rewrite Hu. }
  clear Hk Ho Hu Hn He. assert (forall w w', rtc (delivery_step i) w w' -> open_outcome i w -> open_outcome i w' /\ reconciles i w.2 w'.2) as Hmain.
  { clear. intros w w' Hs. induction Hs as [w|w1 w2 w3 Hstep _ IH]; intros Hw; [by split; [|intros c Hc _; left]|].
    assert (open_outcome i w2 /\ reconciles i w1.2 w2.2) as [Hw2 Hr12].
    { destruct Hstep as [owner c cs d d' H|owner c cs outcome s d d' Hin H|actor command j n note row cs d d' H Hne|cs d d' Hkept].
      - destruct (claim_open i _ _ _ _ _ H Hw) as [Hw2 Hc]. split; [done|]. intros x [->|Hx]%elem_of_cons Hxi; [right; by apply Hc|by left].
      - split; [by eapply settle_open|]. intros x Hx _. by left.
      - split; [by eapply recover_open|]. intros x Hx _. by left.
      - pose proof Hw as [Hk (o & Ho & _)]. destruct (Hkept Hk) as [Hk' H']. destruct (H' i o Ho) as (o' & Ho' & Hs').
        split; [by eapply standing_open|]. intros x Hx _. by left. }
    destruct (IH Hw2) as [Hw3 Hr23]. split; [done|]. intros c Hc Hi. destruct (Hr23 c Hc Hi) as [Hc2|]; [by apply Hr12|by right]. }
  destruct (Hmain _ _ Hs Hopen) as [[_ (o' & Ho' & _ & Hst)] Hr]. split; [exact Hr|]. exists o'. split; [done|].
  destruct Hst as [[Hm _]|[Hm _]]; [apply mem_true in Hm|rewrite Hm]; set_solver.
Qed.
End settling.

(** Observing an item and queueing a merge are such other transactions. *)
Lemma observe_item_kept read_manifest casefold integration repo r : Keeps kept (observe_item read_manifest casefold integration repo r).
Proof.
  assert (forall i, Keeps kept (_invalidate_gate read_manifest i)) as Hg by (intros; unfold _invalidate_gate; frame).
  unfold observe_item, emit_from. frame.
Qed.

Lemma queue_merge_kept actor data key : Keeps kept (queue_merge actor data key).
Proof.
  unfold queue_merge, queue_operation, _validate_carries.
  frame.
Qed.

(** ** Witnesses *)

Definition label_operation (i : uid) (created : instant) (s : outbox_status) : outbox_operation :=
  (sample_outbox i 1 ForgeLabelOp s) <| ob_payload := PLabel 60 ["topic"%string] [] None None |> <| ob_created_at := created |>
    <| ob_lease_owner := None |> <| ob_lease_expires_at := None |>.

(** Two deliveries to pull request 60: the outcome of 50 is unknown, 51 waits. *)
Definition labelling_db : DB :=
  labels_db <| tb_outbox_operation := <[51%positive := label_operation 51 20 OutPending]> {[50%positive := label_operation 50 10 OutUncertain]} |>.

Lemma labelling_keyed : operations_keyed labelling_db.
Proof. intros i o. cbn. by intros [[<- <-]|[_ [<- <-]%lookup_singleton_Some]]%lookup_insert_Some. Qed.

Lemma claims_in_order_witness :
  exists c d', _claim_operation "relay" labelling_db = Ok (Some c, d') /\ ob_id (co_operation c) = 50%positive /\ co_reconcile_only c = true
    /\ exists i o, tb_outbox_operation labelling_db !! i = Some o /\ due (db_clock labelling_db) o = true
      /\ d' = labelling_db <| tb_outbox_operation := <[i := claimed_row "relay" labelling_db o]> (tb_outbox_operation labelling_db) |>.
Proof.
  destruct (is_ok_true (_claim_operation "relay" labelling_db)) as [[answer d'] E]; [by vm_compute|].
  pose proof (claims_in_order "relay" labelling_db answer d' E labelling_keyed) as H.
  destruct answer as [c|]; [|vm_compute in E; discriminate E]. destruct H as (i & o & Hi & Hd & _ & _ & _ & _ & Hd').
  exists c, d'. split; [exact E|]. split; [vm_compute in E; by injection E as <- _|]. split; [vm_compute in E; by injection E as <- _|].
  by exists i, o.
Defined.

Definition lost : DeliveryError := {| dv_code := "timeout"; dv_transient := true; dv_uncertain := true; dv_retry_after := 0 |}.

(** The manager that took over cannot be settled for by the one that lost its lease. *)
Lemma only_lease_holder_settles_witness :
  operations_keyed approving_db
  /\ (exists s d', _settle_operation no_manifest fold_ascii no_mentions "relay" 5 (fun _ => 0) {| co_operation := approving; co_reconcile_only := false |}
        (inl lost) approving_db = Ok (s, d') /\ s = OutUncertain)
  /\ _settle_operation no_manifest fold_ascii no_mentions "other" 5 (fun _ => 0) {| co_operation := approving; co_reconcile_only := false |}
        (inl lost) approving_db = Err (ConnectorFailure "delivery_fenced" false false 0).
Proof.
  assert (operations_keyed approving_db) as Hk.
  { intros i o. cbn. intros [[<- <-]|[_ [[<- <-]|[_ [<- <-]%lookup_singleton_Some]]%lookup_insert_Some]]%lookup_insert_Some; by split. }
  split; [exact Hk|]. split.
  - pose proof (only_lease_holder_settles no_manifest fold_ascii no_mentions 5 (fun _ => 0) "relay" {| co_operation := approving; co_reconcile_only := false |}
      (inl lost) approving_db Hk) as H.
    destruct (_settle_operation _ _ _ _ _ _ _ _ _) as [[s d']|e] eqn:E; [|vm_compute in E; discriminate E].
    exists s, d'. split; [reflexivity|]. by destruct H as [-> _].
  - pose proof (only_lease_holder_settles no_manifest fold_ascii no_mentions 5 (fun _ => 0) "other" {| co_operation := approving; co_reconcile_only := false |}
      (inl lost) approving_db Hk) as H.
    destruct (_settle_operation _ _ _ _ _ _ _ _ _) as [[s d']|e] eqn:E; [vm_compute in E; discriminate E|].
    by rewrite (H approving eq_refl eq_refl).
Defined.

Lemma uncertain_only_reconciled_witness :
  exists c1 d1 s d2 c2 d3, _claim_operation "relay" labelling_db = Ok (Some c1, d1)
    /\ _settle_operation no_manifest fold_ascii no_mentions "relay" 5 (fun _ => 0) c1 (inl lost) d1 = Ok (s, d2)
    /\ _claim_operation "second" d2 = Ok (Some c2, d3) /\ ob_id (co_operation c2) = 50%positive /\ reconciles 50 [] [c2; c1].
Proof.
  destruct (_claim_operation "relay" labelling_db) as [[[c1|] d1]|e] eqn:E1; [|vm_compute in E1; discriminate E1..].
  destruct (_settle_operation no_manifest fold_ascii no_mentions "relay" 5 (fun _ => 0) c1 (inl lost) d1) as [[s d2]|e] eqn:E2.
  2: { vm_compute in E1. injection E1 as <- <-. vm_compute in E2. discriminate E2. }
  destruct (_claim_operation "second" d2) as [[[c2|] d3]|e] eqn:E3.
  2-3: (vm_compute in E1; injection E1 as <- <-; vm_compute in E2; injection E2 as _ <-; vm_compute in E3; discriminate E3).
  exists c1, d1, s, d2, c2, d3. split; [reflexivity|]. split; [exact E2|]. split; [exact E3|].
  destruct (uncertain_only_reconciled no_manifest fold_ascii no_mentions 5 (fun _ => 0) 50 (label_operation 50 10 OutUncertain) labelling_db [] d3 [c2; c1])
    as [Hr _]; [|exact labelling_keyed|reflexivity|reflexivity|reflexivity|by intros c ?%elem_of_nil|].
  - eapply rtc_l; [by eapply DeliverClaim|]. eapply rtc_l; [eapply DeliverSettle; [by left|exact E2]|]. eapply rtc_once, DeliverClaim. exact E3.
  - split; [|exact Hr]. vm_compute in E1. injection E1 as <- <-. vm_compute in E2. injection E2 as _ <-. vm_compute in E3. by injection E3 as <- _.
Defined.

(** ** An item that is closed again *)

(** The forge shows pull request 60, without a head, open or closed, with these labels. *)
Definition shown_as (open : bool) (labels : list string) : RemoteItem :=
  {| rt_kind := PullRequest; rt_number := 4; rt_title := "Add the lemma"; rt_open := open; rt_merged := false; rt_head := None;
     rt_base := Some "main"; rt_user := None; rt_labels := labels |}.

(** The forge takes a label operation over. *)
Definition label_delivery (c : Claimed) (s : Snapshot) : result remote_result :=
  match sn_item s with
  | Some item => Ok (LabelResult (fi_labels (relabelled item (sn_labels s))))
  | None => Err (RuntimeFailure "item")
  end.

Definition observes (r : RemoteItem) : M unit := observe_item no_manifest fold_ascii 80 sample_repository r.

Definition dispatches : M (option outbox_status) :=
  dispatch_one no_manifest fold_ascii no_mentions "relay" 5 (fun _ => 0) false label_delivery.

Definition tracked_db : DB :=
  labels_db <| tb_integration := {[80%positive := sample_integration]} |> <| tb_forge_item := {[60%positive := closed_item <| fi_status := ItemOpen |>]} |>.

(** The state that a transaction leaves. *)
Definition then_ {A} (m : M A) (d : DB) : DB := match m d with Ok (_, d') => d' | Err _ => d end.

Definition outcome {A} (m : M A) (d : DB) : option A := match m d with Ok (a, _) => Some a | Err _ => None end.

Lemma then_Ok {A} (m : M A) d a : outcome m d = Some a -> m d = Ok (a, then_ m d).
Proof. unfold then_, outcome. destruct (m d) as [[b d']|e]; [|done]. by intros [= ->]. Qed.

Definition closed_db : DB := then_ (observes (shown_as false ["awaiting-review"])) tracked_db.
Definition cleaned_db : DB := then_ dispatches closed_db.
Definition reopened_db : DB := then_ (observes (shown_as true ["awaiting-review"; "review/closed"])) cleaned_db.
Definition reclosed_db : DB := then_ (observes (shown_as false ["awaiting-review"; "review/closed"])) reopened_db.
Definition seen_again_db : DB := then_ (observes (shown_as false ["awaiting-review"; "review/closed"])) reclosed_db.


Lemma closed_Ok : outcome (observes (shown_as false ["awaiting-review"])) tracked_db = Some tt.
Proof. by vm_compute. Qed.

Lemma cleaned_Ok : outcome dispatches closed_db = Some (Some OutCompleted).
Proof. by vm_compute. Qed.

Lemma reopened_Ok : outcome (observes (shown_as true ["awaiting-review"; "review/closed"])) cleaned_db = Some tt.
Proof. by vm_compute. Qed.

Lemma reclosed_Ok : outcome (observes (shown_as false ["awaiting-review"; "review/closed"])) reopened_db = Some tt.
Proof. by vm_compute. Qed.

Lemma seen_again_Ok : outcome (observes (shown_as false ["awaiting-review"; "review/closed"])) reclosed_db = Some tt.
Proof. by vm_compute. Qed.

Definition cleaned_item : forge_item := default closed_item (tb_forge_item cleaned_db !! 60%positive).
Definition reclosed_item : forge_item := default closed_item (tb_forge_item reclosed_db !! 60%positive).

Lemma items_stored :
  tb_forge_item cleaned_db !! 60%positive = Some cleaned_item /\ fi_labels cleaned_item = ["review/closed"]
  /\ tb_forge_item reclosed_db !! 60%positive = Some reclosed_item /\ fi_status reclosed_item = ItemClosed
  /\ fi_labels reclosed_item = ["awaiting-review"; "review/closed"] /\ tb_forge_item seen_again_db !! 60%positive = Some reclosed_item.
Proof. by vm_compute. Qed.

Lemma nothing_queued :
  tb_outbox_operation reclosed_db = tb_outbox_operation cleaned_db /\ dispatches reclosed_db = Ok (None, reclosed_db)
  /\ tb_outbox_operation seen_again_db = tb_outbox_operation cleaned_db.
Proof. by vm_compute. Qed.

(** C40. A finding: an item that is closed again stays labelled.  Pull request 60 is seen closed while it
    awaits a review; the operation that is queued is delivered and takes the label away.  The item is
    seen reopened and labelled for review again, and then closed again with the label: it stays closed
    and labelled, no operation is queued or sent, and seeing it once more changes nothing of this,
    because the delivered operation of the first closure has the same key. *)
Theorem reclosed_item_stays_labelled :
  exists d1 d2 d3 d4 d5 f2 f4, observes (shown_as false ["awaiting-review"]) tracked_db = Ok (tt, d1)
    /\ dispatches d1 = Ok (Some OutCompleted, d2)
    /\ tb_forge_item d2 !! 60%positive = Some f2 /\ fi_labels f2 = ["review/closed"]
    /\ observes (shown_as true ["awaiting-review"; "review/closed"]) d2 = Ok (tt, d3)
    /\ observes (shown_as false ["awaiting-review"; "review/closed"]) d3 = Ok (tt, d4)
    /\ tb_forge_item d4 !! 60%positive = Some f4 /\ fi_status f4 = ItemClosed /\ fi_labels f4 = ["awaiting-review"; "review/closed"]
    /\ tb_outbox_operation d4 = tb_outbox_operation d2 /\ dispatches d4 = Ok (None, d4)
    /\ observes (shown_as false ["awaiting-review"; "review/closed"]) d4 = Ok (tt, d5) /\ tb_outbox_operation d5 = tb_outbox_operation d2
    /\ tb_forge_item d5 !! 60%positive = Some f4.
Proof.
  exists closed_db, cleaned_db, reopened_db, reclosed_db, seen_again_db, cleaned_item, reclosed_item.
  destruct items_stored as (H1 & H2 & H3 & H4 & H5 & H6). destruct nothing_queued as (Q1 & Q2 & Q3).
  exact (conj (then_Ok _ _ _ closed_Ok) (conj (then_Ok _ _ _ cleaned_Ok) (conj H1 (conj H2 (conj (then_Ok _ _ _ reopened_Ok)
    (conj (then_Ok _ _ _ reclosed_Ok) (conj H3 (conj H4 (conj H5 (conj Q1 (conj Q2 (conj (then_Ok _ _ _ seen_again_Ok) (conj Q3 H6))))))))))))).
Qed.
