(* ===== verification/Sync.v ===== *)
(** * Synchronisation of the connectors

    [ConnectorManager] of src/archon_horizon/pipeline/integrations/connectors.py: the observation of
    chat topics ([_cursor], [_sync_zulip], [sync_zulip]) and of forge repositories ([sync_forge]),
    and the round over the integrations ([_unavailable], [sync_all]).

    A synchronisation is not one transaction: it reads the server between transactions, and what a
    transaction committed stays when a later one fails.  It is a [Job]: a result and the database
    that it leaves.  Before each of its transactions the other processes may commit ([others]).

    Arguments: the two servers, whose answers are already parsed ([ChatServer], [list_items]); the
    signal to stop ([should_stop]); the arguments of Communications.v and Gates.v. *)

From S2P Require Import Prelude Contracts ReviewContracts Conditions Schema Records Auth Samples MissionTree Missions Ledger Usage Capacity Sessions Assignments Deliveries Settlement Runs Workspaces Labels Objectives Demand Launch Panel Decisions Packets Gates Communications Chat.

Local Open Scope string_scope.
Local Open Scope Z_scope.

(** ** Jobs *)

Definition Job (A : Type) : Type := DB -> result A * DB.

#[export] Instance Job_ret : MRet Job := fun A a d => (Ok a, d).
#[export] Instance Job_bind : MBind Job := fun A B k m d =>
  match m d with
  | (Ok a, d') => k a d'
  | (Err e, d') => (Err e, d')
  end.

Definition raise {A} (e : error) : Job A := fun d => (Err e, d).

(** An answer of a server. *)
Definition answered {A} (r : result A) : Job A := fun d => (r, d).

(** [except]: the handler runs on what was committed. *)
Definition or_else_job {A} (m : Job A) (handler : error -> Job A) : Job A := fun d =>
  match m d with
  | (Err e, d') => handler e d'
  | r => r
  end.

(** [range(0, max(1, len(l)), 100)]: slices of at most a hundred, and one empty slice of no items. *)
Fixpoint slices {A} (room : nat) (current : list A) (l : list A) : list (list A) :=
  match l with
  | [] => [rev current]
  | a :: l => match room with O => rev current :: slices 99 [a] l | S room => slices room (a :: current) l end
  end.

Definition batches {A} (l : list A) : list (list A) := slices 100 [] l.

(** ** Cursors *)

Definition cursor_of (integration : uid) (consumer : string) (c : connector_cursor) : bool :=
  bool_decide (cc_integration_id c = integration) && bool_decide (cc_consumer c = consumer).

(** [_cursor]. *)
Definition _cursor (integration : uid) (consumer : string) : M connector_cursor :=
  found ← select (cursor_of integration consumer);
  match found with
  | c :: _ => mret c
  | [] => create (fun i now =>
      {| cc_id := i; cc_created_at := now; cc_updated_at := now; cc_revision := 1; cc_integration_id := integration; cc_consumer := consumer;
         cc_queue_remote_id := None; cc_last_event_remote_id := None; cc_last_message_remote_id := None; cc_status := SyncReconciling;
         cc_last_synced_at := None |})
  end.

Definition transient (code : string) : error := ConnectorFailure code true false 0.

(** The cursor is still as it was read. *)
Definition unmoved (c : connector_cursor) : M bool :=
  now ← (get (cc_id c) : M connector_cursor); mret (cc_revision now =? cc_revision c).

Definition same_cursor (c : connector_cursor) : M unit :=
  same ← unmoved c; if (same : bool) then mret tt else throw (transient "concurrent_connector_observation").

Definition set_status (c : connector_cursor) (s : sync_status) : M connector_cursor :=
  change (cc_id c) None (fun c => c <| cc_status := s |>).

(** ** The chat server *)

(** An event of the queue, with the fields that the synchronisation reads. *)
Record ChatEvent := {
  ce_id : Z;
  ce_type : string;
  ce_message : option RemoteMessage;
  ce_message_ids : option (list Z);
  ce_message_id : option Z;
  ce_stream_id : option Z;
  ce_orig_subject : option string;
  ce_subject : option string;
  ce_propagate_mode : option string }.

Record ChatServer := {
  sv_register : result (string * Z);
  sv_topic_messages : string -> string -> result (list RemoteMessage);
  sv_events : string -> string -> result (list ChatEvent);
  sv_message : Z -> result RemoteMessage }.

(** [event.get("message_ids", [event.get("message_id")])] without the missing one. *)
Definition event_ids (e : ChatEvent) : list Z :=
  match ce_message_ids e with Some l => l | None => option_list (ce_message_id e) end.

Definition deletion (i : Z) : ChatEvent :=
  {| ce_id := 0; ce_type := "delete_message"; ce_message := None; ce_message_ids := Some [i]; ce_message_id := None; ce_stream_id := None;
     ce_orig_subject := None; ce_subject := None; ce_propagate_mode := None |}.

Definition failure_code (e : error) : option string := match e with ConnectorFailure code _ _ _ => Some code | _ => None end.

Definition has_code (code : string) (e : error) : bool := bool_decide (failure_code e = Some code).

(** An event and the message that it shows; without one, its messages are gone. *)
Definition Observation : Type := ChatEvent * option RemoteMessage.

(** An updated message is read again; one that is gone counts as deleted. *)
Definition look_up (s : ChatServer) (e : ChatEvent) (i : Z) : result Observation :=
  match sv_message s i with
  | Ok m => Ok (e, Some m)
  | Err x => if has_code "http_404" x then Ok (deletion i, None) else Err x
  end.

Definition observe_event (s : ChatServer) (e : ChatEvent) : result (list Observation) :=
  if String.eqb (ce_type e) "message" then
    match ce_message e with Some m => Ok [(e, Some m)] | None => Err (RuntimeFailure "KeyError") end
  else if String.eqb (ce_type e) "update_message" then rmap (look_up s e) (event_ids e)
  else if String.eqb (ce_type e) "delete_message" then Ok [(e, None)]
  else Ok [].

Definition observations (s : ChatServer) (l : list ChatEvent) : result (list Observation) :=
  match rmap (observe_event s) l with Ok parts => Ok (concat parts) | Err e => Err e end.

(** ** The index of the discussions *)

Definition TopicKey : Type := string * option string.

Record Index := {
  by_id : gmap uid discussion;
  by_topic : gmap TopicKey (list discussion) }.

Definition topic_key (x : discussion) : TopicKey := (ds_channel_remote_id x, Some (ds_topic x)).

Definition index_of (l : list discussion) : Index :=
  {| by_id := list_to_map (map (fun x => (ds_id x, x)) l);
     by_topic := List.fold_left (fun m x => <[topic_key x := (default [] (m !! topic_key x) ++ [x])%list]> m) l ∅ |}.

(** [str] of a number that may be missing. *)
Definition str_of (n : option Z) : string := match n with Some n => pretty n | None => "None" end.

Definition old_key (e : ChatEvent) : TopicKey := (str_of (ce_stream_id e), ce_orig_subject e).
Definition new_key (m : RemoteMessage) : TopicKey := (str_of (rm_stream_id m), rm_subject m).

(** A confirmed rename of a whole topic within its channel. *)
Definition renames (e : ChatEvent) (m : RemoteMessage) (x : Index) : bool :=
  bool_decide (ce_propagate_mode e = Some "change_all") && negb (bool_decide (old_key e = new_key m))
  && bool_decide ((old_key e).1 = (new_key m).1) && bool_decide (ce_subject e = (new_key m).2)
  && present (by_topic x !! old_key e) && negb (present (by_topic x !! new_key m)).

Definition discussion_row_subject (x : discussion) : Subject :=
  {| sub_ref := Some (stored Kdiscussion (ds_id x)); sub_revision := ds_revision x; sub_status := ""; sub_note := None |}.

Fixpoint rename_all (source topic : string) (l : list discussion) (ids : gmap uid discussion) : M (list discussion * gmap uid discussion) :=
  match l with
  | [] => mret ([], ids)
  | x :: l =>
      row ← change (ds_id x) None (fun x => x <| ds_topic := topic |>);
      _ ← emit_from source None (Some (ds_project_id x)) (discussion_row_subject row) ["topic"];
      '(rows, ids) ← rename_all source topic l (<[ds_id x := row]> ids);
      mret (row :: rows, ids)
  end.

Definition rename_topic (integration : uid) (e : ChatEvent) (m : RemoteMessage) (x : Index) : M Index :=
  if renames e m x then
    topic ← lift match rm_subject m with Some t => Ok t | None => Err (RuntimeFailure "topic") end;
    '(rows, ids) ← rename_all ("zulip:" +:+ uuid_str integration) topic (default [] (by_topic x !! old_key e)) (by_id x);
    mret {| by_id := ids; by_topic := <[new_key m := rows]> (delete (old_key e) (by_topic x)) |}
  else mret x.

(** The discussions in which the messages of a batch are alive. *)
Abbreviation Memberships := (gmap string (gset uid)).

Definition batch_ids (l : list Observation) : list string :=
  concat (map (fun o => match o.2 with Some m => [remote_name m] | None => map pretty (event_ids o.1) end) l).

Definition known_members (d : DB) (x : Index) (names : list string) : Memberships :=
  List.fold_left (fun (m : Memberships) r => <[ms_remote_id r := {[ms_discussion_id r]} ∪ default ∅ (m !! ms_remote_id r)]> m)
    (stored_rows (fun r : message => mem (ms_remote_id r) names && present (by_id x !! ms_discussion_id r) && negb (present (ms_deleted_at r))) d) ∅.

(** ** Synchronising the chat *)

Section chat_sync.
Context (find_mentions : string -> list Mention) (others : DB -> DB) (should_stop : DB -> bool).

Definition atomically {A} (m : M A) : Job A := fun d =>
  let d := others d in
  match m d with
  | Ok (a, d') => (Ok a, d')
  | Err e => (Err e, d)
  end.

Definition continue_ : Job unit := fun d => if should_stop d then (Err (transient "connector_stopping"), d) else (Ok tt, d).

(** What a listing changes: a message that it shows or one that it no longer shows. *)
Inductive Change : Type :=
| Shown (r : RemoteMessage)
| Gone (remote : string).

Definition apply_change (x : discussion) (c : Change) : M unit :=
  match c with
  | Shown r => _ ← _upsert_message find_mentions x r None None; mret tt
  | Gone remote => _delete_message find_mentions x remote
  end.

(** The live messages of the discussion that the listing does not show. *)
Definition missing (d : DB) (x : uid) (names : list string) : list string :=
  map ms_remote_id (stored_rows (fun m => bool_decide (ms_discussion_id m = x) && negb (present (ms_deleted_at m)) && negb (mem (ms_remote_id m) names)) d).

Definition reconcile_batch (x : discussion) (c : connector_cursor) (l : list Change) : M connector_cursor :=
  same_cursor c ;;
  for_each (apply_change x) l ;;
  set_status c SyncReconciling.

Fixpoint reconcile_batches (x : discussion) (c : connector_cursor) (l : list (list Change)) : Job connector_cursor :=
  match l with
  | [] => mret c
  | b :: l =>
      continue_ ;;
      c ← atomically (reconcile_batch x c b);
      reconcile_batches x c l
  end.

(** One discussion, compared with the listing of its topic. *)
Definition reconcile_discussion (s : ChatServer) (x : discussion) (c : connector_cursor) : Job connector_cursor :=
  messages ← answered (sv_topic_messages s (ds_channel_remote_id x) (ds_topic x));
  gone ← atomically (same_cursor c ;; ask (fun d => missing d (ds_id x) (map remote_name messages)));
  reconcile_batches x c (batches (map Shown messages ++ map Gone gone)%list).

Fixpoint reconcile_all (s : ChatServer) (all : bool) (l : list discussion) (c : connector_cursor) : Job connector_cursor :=
  match l with
  | [] => mret c
  | x :: l =>
      c ← (if all || negb (bool_decide (ds_sync_status x = SyncCurrent)) then reconcile_discussion s x c else mret c);
      reconcile_all s all l c
  end.

Definition delete_in (x : Index) (remote : string) (i : uid) : M unit :=
  match by_id x !! i with
  | Some y => _delete_message find_mentions y remote
  | None => throw (RuntimeFailure "KeyError")
  end.

Fixpoint delete_named (x : Index) (names : list string) (members : Memberships) : M Memberships :=
  match names with
  | [] => mret members
  | n :: names =>
      for_each (delete_in x n) (elements (default ∅ (members !! n))) ;;
      delete_named x names (delete n members)
  end.

(** One observation of the queue: a message lives in the discussions of its topic and nowhere else. *)
Definition apply_observation (integration : uid) (o : Observation) (x : Index) (members : Memberships) : M (Index * Memberships) :=
  match o.2 with
  | Some m =>
      x ← rename_topic integration o.1 m x;
      let matching := default [] (by_topic x !! new_key m) in
      let destinations := list_to_set (map ds_id matching) : gset uid in
      for_each (delete_in x (remote_name m)) (elements (default ∅ (members !! remote_name m) ∖ destinations)) ;;
      for_each (fun y => _ ← _upsert_message find_mentions y m None None; mret tt) matching ;;
      mret (x, <[remote_name m := destinations]> members)
  | None =>
      members ← delete_named x (map pretty (event_ids o.1)) members;
      mret (x, members)
  end.

Fixpoint apply_observations (integration : uid) (l : list Observation) (x : Index) (members : Memberships) : M Index :=
  match l with
  | [] => mret x
  | o :: l =>
      '(x, members) ← apply_observation integration o x members;
      apply_observations integration l x members
  end.

(** [int] of the number of the last event. *)
Definition event_number (s : option string) : Z :=
  match s with
  | Some s => match chars s with
              | [] => -1
              | c :: l => if Ascii.eqb c "-"%char then - bigint (string_of_list_ascii l) else bigint s
              end
  | None => -1
  end.

Definition last_event (c : connector_cursor) (l : list ChatEvent) : Z := List.fold_left Z.max (map ce_id l) (event_number (cc_last_event_remote_id c)).

Definition event_batch (integration : uid) (discussions : list discussion) (events : list ChatEvent) (c : connector_cursor) (complete : bool)
    (l : list Observation) (x : Index) : M (connector_cursor * Index) :=
  latest ← (get (cc_id c) : M connector_cursor);
  (if negb (bool_decide (cc_queue_remote_id latest = cc_queue_remote_id c)) || negb (cc_revision latest =? cc_revision c)
   then throw (transient "zulip_queue_replaced") else mret tt) ;;
  members ← ask (fun d => known_members d x (batch_ids l));
  x ← apply_observations integration l x members;
  now ← ask db_now;
  c ← change (cc_id c) None (fun r => r <| cc_status := if complete then SyncCurrent else SyncReconciling |>
        <| cc_last_event_remote_id := if complete then Some (pretty (last_event c events)) else cc_last_event_remote_id c |>
        <| cc_last_synced_at := if complete then Some now else cc_last_synced_at c |>);
  when complete
    (for_each (fun y => _ ← change (ds_id y) None (fun y : discussion => y <| ds_sync_status := SyncCurrent |> <| ds_observed_at := now |>); mret tt) discussions) ;;
  mret (c, x).

Fixpoint event_batches (integration : uid) (discussions : list discussion) (events : list ChatEvent) (c : connector_cursor)
    (l : list (list Observation)) (x : Index) : Job unit :=
  match l with
  | [] => mret tt
  | b :: l =>
      continue_ ;;
      '(c, x) ← atomically (event_batch integration discussions events c (negb (nonempty l)) b x);
      event_batches integration discussions events c l x
  end.

(** A queue that the server no longer has is forgotten. *)
Definition forget_queue (integration : uid) (c : connector_cursor) : M unit :=
  same ← unmoved c;
  when same
    (_ ← change (cc_id c) None (fun c => c <| cc_queue_remote_id := None |> <| cc_last_event_remote_id := None |> <| cc_status := SyncReconciling |>);
     update_where (fun x => bool_decide (ds_integration_id x = integration)) (fun x => x <| ds_sync_status := SyncReconciling |>)).

Definition open_queue (s : ChatServer) (c : connector_cursor) : Job connector_cursor :=
  match cc_queue_remote_id c with
  | Some (String _ _) => mret c
  | _ =>
      '(queue, last) ← answered (sv_register s);
      atomically (same_cursor c ;;
        change (cc_id c) None (fun c => c <| cc_queue_remote_id := Some queue |> <| cc_last_event_remote_id := Some (pretty last) |>
                                          <| cc_status := SyncReconciling |>))
  end.

Definition poll (s : ChatServer) (integration : uid) (c : connector_cursor) : Job (list ChatEvent) :=
  or_else_job
    (answered (sv_events s (default "" (cc_queue_remote_id c)) (match cc_last_event_remote_id c with Some (String a r) => String a r | _ => "-1" end)))
    (fun e => (if has_code "BAD_EVENT_QUEUE_ID" e then atomically (forget_queue integration c) else mret tt) ;; raise e).

(** [_sync_zulip]. *)
Definition _sync_zulip (s : ChatServer) (integration : uid) : Job unit :=
  '(c, discussions) ← atomically (c ← _cursor integration "zulip";
                                   l ← select (fun x => bool_decide (ds_integration_id x = integration));
                                   mret (c, l));
  c ← open_queue s c;
  c ← reconcile_all s (negb (bool_decide (cc_status c = SyncCurrent))) discussions c;
  events ← poll s integration c;
  seen ← answered (observations s events);
  event_batches integration discussions events c (batches seen) (index_of discussions).

(** [sync_zulip]: a queue that was lost is replaced once; [s false] and [s true] are the server at
    the two attempts. *)
Definition sync_zulip (s : bool -> ChatServer) (integration : uid) : Job unit :=
  or_else_job (_sync_zulip (s false) integration)
    (fun e => if has_code "BAD_EVENT_QUEUE_ID" e then
                or_else_job (_sync_zulip (s true) integration)
                  (fun e => raise (if has_code "BAD_EVENT_QUEUE_ID" e then transient "zulip_queue_replaced" else e))
              else raise e).

(** ** Synchronising the forge *)

Context (read_manifest : string -> option ReviewManifest) (casefold : string -> string).

(** Answers that cannot be read. *)
Definition malformed (e : error) : bool :=
  match e with
  | RuntimeFailure r => mem r ["KeyError"; "ValueError"; "TypeError"]
  | ValidationError _ => true
  | _ => false
  end.

Definition observable (e : error) : bool := present (failure_code e) || malformed e.

Definition as_failure (e : error) : error := if present (failure_code e) then e else ConnectorFailure "malformed_observation" false false 0.

Fixpoint item_batches (integration : uid) (r : repository) (c : connector_cursor) (l : list (list RemoteItem)) : Job unit :=
  match l with
  | [] => mret tt
  | b :: l =>
      continue_ ;;
      c ← atomically (same_cursor c ;;
            for_each (observe_item read_manifest casefold integration r) b ;;
            now ← ask db_now;
            change (cc_id c) None (fun k => k <| cc_status := if nonempty l then SyncReconciling else SyncCurrent |>
                                              <| cc_last_synced_at := if nonempty l then cc_last_synced_at c else Some now |>));
      item_batches integration r c l
  end.

Definition remote_path_of (r : repository) : string := match rp_remote_path r with Some (String a p) => String a p | _ => rp_remote_id r end.

Section forge_sync.
Context (list_items : string -> result (list RemoteItem)).

(** One repository; an unreadable listing is noted and the others are still observed. *)
Definition sync_repository (integration : uid) (r : repository) : Job (list error) :=
  c ← atomically (_cursor integration ("forge:" +:+ uuid_str (rp_id r)));
  match list_items (remote_path_of r) with
  | Ok items => item_batches integration r c (batches items) ;; mret []
  | Err e =>
      if observable e && negb (has_code "connector_stopping" e) then
        atomically (same ← unmoved c; when same (_ ← set_status c SyncUnavailable; mret tt)) ;;
        mret [as_failure e]
      else raise e
  end.

Fixpoint sync_repositories (integration : uid) (l : list repository) : Job (list error) :=
  match l with
  | [] => mret []
  | r :: l =>
      failed ← sync_repository integration r;
      rest ← sync_repositories integration l;
      mret (failed ++ rest)%list
  end.

(** [sync_forge]. *)
Definition sync_forge (integration : uid) : Job unit :=
  '(c, repositories) ← atomically (c ← _cursor integration "forge";
      l ← select (fun r => bool_decide (rp_integration_id r = integration) && negb (present (rp_archived_at r)));
      mret (c, l));
  failures ← sync_repositories integration repositories;
  atomically (same_cursor c ;;
    now ← ask db_now;
    _ ← change (cc_id c) None (fun k => k <| cc_status := if nonempty failures then SyncUnavailable else SyncCurrent |>
                                      <| cc_last_synced_at := if nonempty failures then cc_last_synced_at c else Some now |>);
    mret tt) ;;
  match failures with e :: _ => raise e | [] => mret tt end.
End forge_sync.

(** ** All integrations *)

Definition kind_name (k : integration_kind) : string := match k with ForgeIntegration => "forge" | ZulipIntegration => "zulip" end.

(** [_unavailable]. *)
Definition _unavailable (i : integration) : M unit :=
  c ← _cursor (ig_id i) (kind_name (ig_kind i));
  _ ← set_status c SyncUnavailable;
  when (bool_decide (ig_kind i = ZulipIntegration))
    (update_where (fun x => bool_decide (ds_integration_id x = ig_id i)) (fun x => x <| ds_sync_status := SyncUnavailable |>)).

(** Failures that say nothing about the server. *)
Definition interrupted (e : error) : bool :=
  match failure_code e with
  | Some code => mem code ["concurrent_connector_observation"; "zulip_queue_replaced"; "connector_stopping"]
  | None => false
  end.

Context (chat : uid -> bool -> ChatServer) (forge : uid -> string -> result (list RemoteItem)).

Definition sync_one (i : integration) : Job string :=
  or_else_job
    (match ig_kind i with
     | ForgeIntegration => sync_forge (forge (ig_id i)) (ig_id i)
     | ZulipIntegration => sync_zulip (chat (ig_id i)) (ig_id i)
     end ;; mret "current")
    (fun e => if observable e then
                (if interrupted e then mret tt else atomically (_unavailable i)) ;;
                mret (default "malformed_observation" (failure_code e))
              else raise e).

Fixpoint sync_each (l : list integration) : Job (list (uid * string)) := fun d =>
  match l with
  | [] => (Ok [], d)
  | i :: l =>
      if should_stop d then (Ok [], d)
      else (state ← sync_one i; rest ← sync_each l; mret ((ig_id i, state) :: rest)) d
  end.

(** [sync_all]. *)
Definition sync_all (kind : option integration_kind) : Job (list (uid * string)) :=
  l ← atomically (select (fun i => ig_enabled i && match kind with Some k => bool_decide (ig_kind i = k) | None => true end));
  sync_each l.
End chat_sync.
