(* ===== verification/SyncSafety.v ===== *)
(** * The safety of synchronisation

    The theorems about Chat.v and Sync.v: after a discussion is reconciled its live messages are
    exactly those of the listing of its topic, whatever was known before and however the changes
    were batched; an unchanged message changes nothing; and an observed message lives in the
    discussions whose rows have its topic and nowhere else. *)

From S2P Require Import Prelude Contracts ReviewContracts Conditions Schema Records Auth Samples MissionTree Missions Ledger Usage Capacity Sessions Assignments Deliveries Settlement Runs Workspaces Labels Objectives Demand Launch AdmissionSafety Panel PanelSafety Decisions Packets Gates Communications Chat InvocationSafety CommunicationSafety Sync.

Local Open Scope string_scope.
Local Open Scope Z_scope.

(** ** Jobs *)

Lemma job_bind_Ok {A B} (m : Job A) (k : A -> Job B) d b d' :
  (m ≫= k) d = (Ok b, d') <-> exists a d1, m d = (Ok a, d1) /\ k a d1 = (Ok b, d').
Proof. unfold mbind, Job_bind. destruct (m d) as [[a|e] d1]; naive_solver. Qed.

Lemma atomically_Ok {A} others (m : M A) d a d' : atomically others m d = (Ok a, d') <-> m (others d) = Ok (a, d').
Proof. unfold atomically. destruct (m (others d)) as [[a1 d1]|e]; naive_solver. Qed.

Lemma answered_Ok {A} (r : result A) d a d' : answered r d = (Ok a, d') <-> r = Ok a /\ d' = d.
Proof. unfold answered. naive_solver. Qed.

Lemma continue_Ok stop d u d' : continue_ stop d = (Ok u, d') -> d' = d.
Proof. unfold continue_. destruct (stop d); naive_solver. Qed.

Lemma same_cursor_Ok c d u d' : same_cursor c d = Ok (u, d') -> d' = d.
Proof. assert (Keeps eq (same_cursor c)) as K by (unfold same_cursor, unmoved; frame). by intros <-%K. Qed.

(** ** The table of messages *)

(** Every message is kept under its identifier, identifiers are drawn in order, and a discussion has
    one row for a remote message. *)
Record messages_ok (d : DB) : Prop := {
  message_keyed i m : tb_message d !! i = Some m -> ms_id m = i;
  message_fresh i m : tb_message d !! i = Some m -> (i < db_next d)%positive;
  message_unique i j m n : tb_message d !! i = Some m -> tb_message d !! j = Some n ->
    ms_discussion_id m = ms_discussion_id n -> ms_remote_id m = ms_remote_id n -> i = j }.

Lemma messages_ok_same d d' : tb_message d' = tb_message d -> (db_next d <= db_next d')%positive -> messages_ok d -> messages_ok d'.
Proof. intros E N [K F U]. split; rewrite E; [exact K|intros i m Hm%F; lia|exact U]. Qed.

(** Only rows of this remote message in this discussion may differ. *)
Definition only (x : uid) (name : string) (d d' : DB) : Prop :=
  forall i m, remote_row x name m = false -> (tb_message d' !! i = Some m <-> tb_message d !! i = Some m).

(** The row shows the remote message. *)
Definition shows (r : RemoteMessage) (m : message) : Prop :=
  ms_remote_id m = remote_name r /\ ms_remote_author_id m = pretty (rm_sender_id r) /\ ms_body m = rm_content r
  /\ ms_posted_at m = seconds (rm_timestamp r) /\ ms_edited_at m = edited_time r /\ ms_deleted_at m = None.

Lemma remote_row_true x n m : remote_row x n m = true <-> ms_discussion_id m = x /\ ms_remote_id m = n.
Proof. unfold remote_row. rewrite andb_true_iff, !bool_decide_eq_true. done. Qed.

Section chat.
Context (find : string -> list Mention).

Lemma announce_messages x m l d u d' :
  announce_message find x m l d = Ok (u, d') -> tb_message d' = tb_message d /\ (db_next d <= db_next d')%positive.
Proof.
  intros H. eapply (keeps_announce_message (grows tb_message)) in H; [exact H|split; [done|cbn; lia]].
Qed.

(** Writing the only row of a remote message. *)
Lemma put_row_ok x name d d' i m :
  messages_ok d -> tb_message d' = <[i := m]> (tb_message d) -> remote_row x name m = true -> ms_id m = i ->
  (i < db_next d')%positive -> (db_next d <= db_next d')%positive ->
  (forall j n, tb_message d !! j = Some n -> remote_row x name n = true <-> j = i) ->
  messages_ok d' /\ only x name d d'.
Proof.
  intros [K F U] E Hm Hi Hn N Hs. apply remote_row_true in Hm as [Hx Hr]. split; [split|]; unfold only; rewrite ?E.
  - intros j n [[<- <-]|[_ Hj]]%lookup_insert_Some; [done|by apply K].
  - intros j n [[<- <-]|[_ Hj]]%lookup_insert_Some; [done|]. specialize (F _ _ Hj). lia.
  - intros j k a b [[<- <-]|[Hj Ha]]%lookup_insert_Some [[<- <-]|[Hk Hb]]%lookup_insert_Some H1 H2; [done| | |by eapply U].
    + symmetry. apply (Hs _ _ Hb). apply remote_row_true. split; congruence.
    + apply (Hs _ _ Ha). apply remote_row_true. split; congruence.
  - intros j n Hn'. rewrite lookup_insert_Some. split; [intros [[<- <-]|[_ ?]]|].
    + exfalso. apply not_true_iff_false in Hn'. by apply Hn', remote_row_true.
    + done.
    + intros Hj. right. split; [|done]. intros <-. rewrite (proj2 (Hs _ _ Hj) eq_refl) in Hn'. done.
Qed.

Lemma shows_values r a s m : ms_remote_id m = remote_name r -> shows r (message_values r a s m).
Proof. intros E. unfold shows, message_values. by destruct a, s. Qed.

Lemma values_row x n r a s m : remote_row x n (message_values r a s m) = remote_row x n m.
Proof. unfold remote_row, message_values. by destruct a, s. Qed.

Lemma values_id r a s m : ms_id (message_values r a s m) = ms_id m.
Proof. unfold message_values. by destruct a, s. Qed.

(** Nothing changed in a row that shows the message already. *)
Lemma unchanged_shows r a s m : ms_remote_id m = remote_name r -> changed_in m (message_values r a s m) = [] -> shows r m.
Proof.
  unfold changed_in. rewrite !app_nil. intros E (H1 & H2 & H3 & H4 & H5 & _).
  unfold shows. destruct a, s; cbn in *; repeat case_bool_decide; by simplify_eq.
Qed.

(** The row of a remote message in the table. *)
Lemma row_slot x n d i m j q :
  messages_ok d -> tb_message d !! i = Some m -> remote_row x n m = true -> tb_message d !! j = Some q -> remote_row x n q = true <-> j = i.
Proof.
  intros [K F U] Hm Hr Hq. apply remote_row_true in Hr as [Hx Hn]. split; [intros [Hx' Hn']%remote_row_true|intros ->].
  - eapply (U _ _ q m); [done..| |]; congruence.
  - rewrite Hm in Hq. injection Hq as <-. by apply remote_row_true.
Qed.

(** After an observation, the message has its row and no other row differs. *)
Lemma upsert_Ok x r a s d row d' :
  _upsert_message find x r a s d = Ok (row, d') -> messages_ok d ->
  messages_ok d' /\ only (ds_id x) (remote_name r) d d'
  /\ exists i, tb_message d' !! i = Some row /\ ms_discussion_id row = ds_id x /\ shows r row.
Proof.
  unfold _upsert_message. intros H Hok. apply bind_Ok in H as (l & ? & [El ->]%select_Ok & H). destruct l as [|m l].
  - apply bind_Ok in H as (row' & d1 & E & H). apply bind_Ok in H as (? & d2 & Ha & H). apply ret_Ok in H as [<- <-].
    apply announce_messages in Ha as [E2 N2]. unfold create in E. injection E as <- <-. cbn [db_next] in N2.
    assert (forall j n, tb_message d !! j = Some n -> remote_row (ds_id x) (remote_name r) n = false) as Hnone.
    { intros j n Hn. destruct (remote_row (ds_id x) (remote_name r) n) eqn:E; [|done]. exfalso. apply (not_elem_of_nil n). rewrite El.
      apply elem_of_select. split; [exact E|]. by exists j. }
    destruct (put_row_ok (ds_id x) (remote_name r) d d' (db_next d) (new_message (ds_id x) r a s (db_next d) (db_now d))) as [H1 H2]; try done.
    + unfold new_message. rewrite values_row. by apply remote_row_true.
    + unfold new_message. by rewrite values_id.
    + cbn in N2. lia.
    + cbn in N2. lia.
    + intros j n Hn. rewrite (Hnone _ _ Hn). apply (message_fresh _ Hok) in Hn. split; [done|lia].
    + split; [done|]. split; [done|]. exists (db_next d). rewrite E2. split; [cbn; apply lookup_insert_eq|].
      split; [unfold new_message, message_values; by destruct a, s|by apply shows_values].
  - assert (m ∈ m :: l) as Hin by by left. rewrite El in Hin. apply elem_of_select in Hin as [Hr [i Hi]]. cbn in Hi. clear El l.
    assert (ms_remote_id m = remote_name r /\ ms_discussion_id m = ds_id x) as [En Ex] by (by apply remote_row_true in Hr as [? ?]).
    destruct (nonempty (changed_in m (message_values r a s m))) eqn:Ec.
    + apply bind_Ok in H as (row' & d1 & E & H). apply bind_Ok in H as (? & d2 & Ha & H). apply ret_Ok in H as [<- <-].
      apply announce_messages in Ha as [E2 N2]. apply change_Ok in E as (m0 & Hm0 & _ & -> & ->). cbn in Hm0, N2.
      rewrite (message_keyed _ Hok _ _ Hi), Hi in Hm0. injection Hm0 as <-.
      destruct (put_row_ok (ds_id x) (remote_name r) d d' i (touch (db_now d) (message_values r a s m))) as [H1 H2]; try done.
      * rewrite E2. cbn. by rewrite (message_keyed _ Hok _ _ Hi).
      * rewrite <- (values_row _ _ r a s) in Hr. exact Hr.
      * transitivity (ms_id (message_values r a s m)); [done|]. rewrite values_id. by eapply message_keyed.
      * apply (message_fresh _ Hok) in Hi. lia.
      * intros j n Hn. by eapply row_slot.
      * split; [done|]. split; [done|]. exists i. rewrite E2. cbn. rewrite (message_keyed _ Hok _ _ Hi). split; [apply lookup_insert_eq|].
        split; [transitivity (ms_discussion_id (message_values r a s m)); [done|]; unfold message_values; by destruct a, s|].
        exact (shows_values r a s m En).
    + apply ret_Ok in H as [<- <-]. split; [done|]. split; [done|]. exists i. split; [done|]. split; [done|].
      eapply (unchanged_shows _ a s); [done|]. by destruct (changed_in _ _).
Qed.

(** After a deletion, the message is not alive and no other row differs. *)
Lemma delete_Ok x n d u d' :
  _delete_message find x n d = Ok (u, d') -> messages_ok d ->
  messages_ok d' /\ only (ds_id x) n d d' /\ forall i m, tb_message d' !! i = Some m -> live_row (ds_id x) n m = false.
Proof.
  unfold _delete_message. intros H Hok. apply bind_Ok in H as (l & ? & [El ->]%select_Ok & H). destruct l as [|m l].
  - injection H as _ <-. split; [done|]. split; [done|]. intros i m Hm. destruct (live_row (ds_id x) n m) eqn:E; [|done].
    exfalso. apply (not_elem_of_nil m). rewrite El. apply elem_of_select. split; [exact E|]. by exists i.
  - assert (m ∈ m :: l) as Hin by by left. rewrite El in Hin. apply elem_of_select in Hin as [Hl [i Hi]]. cbn in Hi. clear El l.
    apply andb_true_iff in Hl as [Hr _].
    apply bind_Ok in H as (now & ? & [-> ->]%ask_Ok & H). apply bind_Ok in H as (row & d1 & E & Ha).
    apply announce_messages in Ha as [E2 N2]. apply change_Ok in E as (m0 & Hm0 & _ & -> & ->). cbn in Hm0, N2.
    rewrite (message_keyed _ Hok _ _ Hi), Hi in Hm0. injection Hm0 as <-.
    destruct (put_row_ok (ds_id x) n d d' i (touch (db_now d) (m <| ms_deleted_at := Some (db_now d) |>))) as [H1 H2]; try done.
    + rewrite E2. cbn. by rewrite (message_keyed _ Hok _ _ Hi).
    + transitivity (ms_id m); [done|]. by eapply message_keyed.
    + apply (message_fresh _ Hok) in Hi. lia.
    + intros j q Hq. by eapply row_slot.
    + split; [done|]. split; [done|]. intros j q Hq. destruct (live_row (ds_id x) n q) eqn:E; [|done]. apply andb_true_iff in E as [Er Ed].
      assert (tb_message d' !! i = Some (touch (db_now d) (m <| ms_deleted_at := Some (db_now d) |>))) as Hi'.
      { rewrite E2. cbn. rewrite (message_keyed _ Hok _ _ Hi). apply lookup_insert_eq. }
      assert (j = i) as ->; [eapply (row_slot (ds_id x) n d' i _ j q); try done|]. rewrite Hi' in Hq. by injection Hq as <-.
Qed.
End chat.

(** ** Reconciling a discussion *)

Definition change_name (c : Change) : string := match c with Shown r => remote_name r | Gone n => n end.

(** The effect of a change. *)
Definition effected (x : uid) (c : Change) (d : DB) : Prop :=
  match c with
  | Shown r => exists i m, tb_message d !! i = Some m /\ ms_discussion_id m = x /\ shows r m
  | Gone n => forall i m, tb_message d !! i = Some m -> live_row x n m = false
  end.

Lemma effected_only x c n d d' : only x n d d' -> change_name c <> n -> effected x c d -> effected x c d'.
Proof.
  intros Ho Hne. destruct c as [r|q]; cbn in *.
  - intros (i & m & Hm & Hx & Hs). exists i, m. split; [|done]. apply Ho; [|done]. apply not_true_iff_false.
    intros [_ E]%remote_row_true. destruct Hs as [Hs _]. congruence.
  - intros He i m Hm. destruct (live_row x q m) eqn:E; [|done]. rewrite <- E. apply (He i), Ho; [|done].
    apply andb_true_iff in E as [[_ E]%remote_row_true _]. apply not_true_iff_false. intros [_ E']%remote_row_true. congruence.
Qed.

Lemma effected_same x c d d' : tb_message d' = tb_message d -> effected x c d -> effected x c d'.
Proof. intros E. unfold effected. by rewrite E. Qed.

Section reconciling.
Context (find : string -> list Mention) (x : discussion).
(** All changes, one for each message; [d0] is the database in which they were found. *)
Context (L : list Change) (L_functional : forall c c', c ∈ L -> c' ∈ L -> change_name c = change_name c' -> c = c') (d0 : DB).

(** The changes of [l] have their effect, and no other message differs. *)
Record progressed (l : list Change) (d : DB) : Prop := {
  progressed_ok : messages_ok d;
  progressed_done c : c ∈ l -> effected (ds_id x) c d;
  progressed_rest i m : (forall c, c ∈ L -> remote_row (ds_id x) (change_name c) m = false) ->
    tb_message d !! i = Some m <-> tb_message d0 !! i = Some m }.

Lemma progressed_same l d d' : tb_message d' = tb_message d -> (db_next d <= db_next d')%positive -> progressed l d -> progressed l d'.
Proof.
  intros E N [H1 H2 H3]. split; [by eapply messages_ok_same|intros c Hc; eapply effected_same; [exact E|by apply H2]|by rewrite E].
Qed.

Lemma progressed_change l c d u d' :
  apply_change find x c d = Ok (u, d') -> (forall k, k ∈ l -> k ∈ L) -> c ∈ L -> progressed l d -> progressed (c :: l) d'.
Proof.
  intros H Hl Hc [H1 H2 H3].
  assert (messages_ok d' /\ only (ds_id x) (change_name c) d d' /\ effected (ds_id x) c d') as (Hok & Ho & He).
  { destruct c as [r|n]; cbn in H; [|by eapply delete_Ok]. apply bind_Ok in H as (row & d1 & E & H). injection H as _ <-.
    destruct (upsert_Ok _ _ _ _ _ _ _ _ E H1) as (? & ? & i & ? & ? & ?). split; [done|]. split; [done|]. exists i, row. done. }
  split; [done| |intros i m Hm; rewrite (Ho i m); [by apply H3|by apply Hm]].
  intros k [->|Hk]%elem_of_cons; [done|]. destruct (decide (change_name k = change_name c)) as [E|Hne].
  - by rewrite (L_functional k c (Hl _ Hk) Hc E).
  - by eapply effected_only; [..|apply H2].
Qed.

Lemma progressed_changes b l d u d' :
  for_each (apply_change find x) b d = Ok (u, d') -> (forall k, k ∈ l -> k ∈ L) -> (forall k, k ∈ b -> k ∈ L) ->
  progressed l d -> progressed (rev b ++ l) d'.
Proof.
  revert l d. induction b as [|c b IH]; intros l d H Hl Hb Hp; cbn in H; [injection H as _ <-; done|].
  apply bind_Ok in H as ([] & d1 & E & H). cbn. rewrite <- app_assoc. cbn. eapply IH; [exact H| |intros k Hk; apply Hb; by right|].
  - intros k [->|Hk]%elem_of_cons; [apply Hb; by left|by apply Hl].
  - eapply progressed_change; [exact E|done|apply Hb; by left|done].
Qed.

Context (others : DB -> DB) (stop : DB -> bool).
Context (others_messages : forall d, tb_message (others d) = tb_message d) (others_next : forall d, (db_next d <= db_next (others d))%positive).

Lemma progressed_batch c b l d c' d' :
  reconcile_batch find x c b d = Ok (c', d') -> (forall k, k ∈ l -> k ∈ L) -> (forall k, k ∈ b -> k ∈ L) ->
  progressed l d -> progressed (rev b ++ l) d'.
Proof.
  unfold reconcile_batch. intros H Hl Hb Hp. apply bind_Ok in H as (? & ? & ->%same_cursor_Ok & H).
  apply bind_Ok in H as ([] & d1 & E & H). apply (progressed_changes b l) in E; [|done..].
  unfold set_status in H. grown tb_message H. destruct H as [E1 N]. by eapply progressed_same.
Qed.

Lemma progressed_batches bs c l d c' d' :
  reconcile_batches find others stop x c bs d = (Ok c', d') -> (forall k, k ∈ l -> k ∈ L) -> (forall k, k ∈ concat bs -> k ∈ L) ->
  progressed l d -> exists l', progressed l' d' /\ forall k, k ∈ l \/ k ∈ concat bs -> k ∈ l'.
Proof.
  revert c l d. induction bs as [|b bs IH]; intros c l d H Hl Hb Hp.
  { injection H as _ <-. exists l. split; [done|]. intros k [?|[]%not_elem_of_nil]; done. }
  cbn [reconcile_batches] in H. apply job_bind_Ok in H as (? & ? & ->%continue_Ok & H).
  apply job_bind_Ok in H as (c1 & d1 & E%atomically_Ok & H).
  cbn in Hb. eapply progressed_batch in E; [|exact Hl|intros k Hk; apply Hb, elem_of_app; by left|eapply progressed_same; [..|exact Hp]; done].
  assert (forall k, k ∈ rev b <-> k ∈ b) as Hrev by (intros k; by rewrite !list_elem_of_In, <- in_rev).
  destruct (IH c1 (rev b ++ l)%list d1 H) as (l' & Hp' & Hl'); [|intros k Hk; apply Hb, elem_of_app; by right|exact E|].
  - intros k [Hk%Hrev|Hk]%elem_of_app; [apply Hb, elem_of_app; by left|by apply Hl].
  - exists l'. split; [done|]. intros k Hk. apply Hl'. cbn in Hk. rewrite !elem_of_app, Hrev in *. tauto.
Qed.
End reconciling.

(** ** Listings *)

Lemma slices_concat {A} room (current l : list A) : concat (slices room current l) = (rev current ++ l)%list.
Proof.
  revert room current. induction l as [|a l IH]; intros room current; cbn; [by rewrite app_nil_r|].
  destruct room; cbn; rewrite IH; cbn; [done|]. by rewrite <- app_assoc.
Qed.

Lemma batches_concat {A} (l : list A) : concat (batches l) = l.
Proof. apply slices_concat. Qed.

Lemma slices_bounded {A} room (current l : list A) :
  (List.length current + room = 100)%nat -> Forall (fun b => List.length b <= 100)%nat (slices room current l).
Proof.
  revert room current. induction l as [|a l IH]; intros room current H; cbn.
  - constructor; [rewrite length_rev; lia|constructor].
  - destruct room as [|room].
    + constructor; [rewrite length_rev; lia|apply IH; done].
    + apply IH. cbn. lia.
Qed.

Lemma remote_name_inj r r' : remote_name r = remote_name r' -> rm_id r = rm_id r'.
Proof. unfold remote_name. apply (inj pretty). Qed.

(** The messages that a listing leaves out. *)
Lemma elem_of_missing d x names n :
  n ∈ missing d x names <-> (n ∉ names) /\ exists i m, tb_message d !! i = Some m /\ ms_discussion_id m = x /\ ms_deleted_at m = None /\ ms_remote_id m = n.
Proof.
  unfold missing. rewrite list_elem_of_fmap. setoid_rewrite elem_of_stored. split.
  - intros (m & -> & Hp & i & Hi). apply andb_true_iff in Hp as [[Hx%bool_decide_eq_true Hd]%andb_true_iff Hn].
    apply negb_true_iff in Hd, Hn. split; [by apply bool_decide_eq_false in Hn|]. exists i, m. by destruct (ms_deleted_at m).
  - intros (Hn & i & m & Hi & Hx & Hd & <-). exists m. split; [done|]. split; [|eauto]. rewrite Hd. cbn. unfold mem.
    by rewrite (bool_decide_true _ Hx), (bool_decide_false _ Hn).
Qed.

Section mirror.
Context (find : string -> list Mention) (others : DB -> DB) (stop : DB -> bool).

(** C16. A reconciled discussion mirrors its topic.  When the listing of the topic was applied, in
    batches between which other processes may write anything but messages, every message of the listing
    has a row that shows its author, text and times, every live message of the discussion is in the
    listing, and the messages of all other discussions are as they were. *)
Theorem reconciled_topic_mirrored s x c d c' d' listing :
  reconcile_discussion find others stop s x c d = (Ok c', d') ->
  sv_topic_messages s (ds_channel_remote_id x) (ds_topic x) = Ok listing ->
  (forall r r', r ∈ listing -> r' ∈ listing -> rm_id r = rm_id r' -> r = r') ->
  (forall d, tb_message (others d) = tb_message d /\ (db_next d <= db_next (others d))%positive) ->
  messages_ok d ->
  messages_ok d'
  /\ (forall r, r ∈ listing -> exists i m, tb_message d' !! i = Some m /\ ms_discussion_id m = ds_id x /\ shows r m)
  /\ (forall i m, tb_message d' !! i = Some m -> ms_discussion_id m = ds_id x -> ms_deleted_at m = None -> exists r, r ∈ listing /\ shows r m)
  /\ (forall i m, ms_discussion_id m <> ds_id x -> tb_message d' !! i = Some m <-> tb_message d !! i = Some m).
Proof.
  intros H Hs Hlist Hothers Hok. unfold reconcile_discussion in H.
  apply job_bind_Ok in H as (listing' & ? & [Hs' ->]%answered_Ok & H). rewrite Hs in Hs'. injection Hs' as <-.
  apply job_bind_Ok in H as (gone & d1 & E%atomically_Ok & H). apply bind_Ok in E as (? & ? & ->%same_cursor_Ok & [Hgone ->]%ask_Ok).
  destruct (Hothers d) as [Em En]. set (L := (map Shown listing ++ map Gone gone)%list) in *.
  assert (forall k, k ∈ L <-> (exists r, k = Shown r /\ r ∈ listing) \/ (exists n, k = Gone n /\ n ∈ gone)) as HL.
  { intros k. unfold L. rewrite elem_of_app, !list_elem_of_fmap. done. }
  assert (forall k k', k ∈ L -> k' ∈ L -> change_name k = change_name k' -> k = k') as HF.
  { intros k k' Hk Hk' Hn. apply HL in Hk, Hk'. destruct Hk as [(r & -> & Hr)|(n & -> & Hr)], Hk' as [(r' & -> & Hr')|(n' & -> & Hr')]; cbn in Hn.
    - f_equal. apply Hlist; [done..|]. by apply remote_name_inj.
    - exfalso. subst n' gone. apply elem_of_missing in Hr' as [Hr' _]. apply Hr', list_elem_of_fmap. eauto.
    - exfalso. subst n gone. apply elem_of_missing in Hr as [Hr _]. apply Hr, list_elem_of_fmap. eauto.
    - by subst. }
  eapply (progressed_batches find x L HF (others d) others stop) with (l := []) in H as (l & [P1 P2 P3] & Hl);
    [|apply Hothers|apply Hothers|by intros k []%not_elem_of_nil|by rewrite batches_concat|].
  2: { split; [by eapply messages_ok_same|by intros k []%not_elem_of_nil|done]. }
  assert (forall k, k ∈ L -> effected (ds_id x) k d') as HE by (intros k Hk; apply P2, Hl; right; by rewrite batches_concat).
  clear P2 Hl. split; [done|]. split; [intros r Hr; apply (HE (Shown r)), HL; eauto|]. split.
  - intros i m Hm Hx Hd. destruct (decide (ms_remote_id m ∈ map remote_name listing)) as [Hin|Hin].
    + apply list_elem_of_fmap in Hin as (r & Er & Hr). exists r. split; [done|].
      destruct (HE (Shown r)) as (j & q & Hq & Hqx & Hqs); [apply HL; eauto|].
      assert (j = i) as ->; [|by rewrite Hm in Hq; injection Hq as <-]. eapply (message_unique _ P1 _ _ q m); [done..|congruence|].
      destruct Hqs as [-> _]. done.
    + exfalso. assert (ms_remote_id m ∉ gone) as Hng.
      { intros Hg. specialize (HE (Gone (ms_remote_id m)) ltac:(apply HL; eauto)). cbn in HE. specialize (HE _ _ Hm).
        unfold live_row in HE. rewrite Hd in HE. cbn in HE. rewrite andb_true_r in HE. apply not_true_iff_false in HE. by apply HE, remote_row_true. }
      apply Hng. rewrite Hgone. apply elem_of_missing. split; [done|]. exists i, m. split; [|done]. apply P3; [|done].
      intros k Hk. apply not_true_iff_false. intros [_ E]%remote_row_true. apply HL in Hk as [(r & -> & Hr)|(n & -> & Hr)]; cbn in E.
      * apply Hin, list_elem_of_fmap. eauto.
      * by subst n.
  - intros i m Hx. rewrite P3, Em; [done|]. intros k _. apply not_true_iff_false. intros [E _]%remote_row_true. done.
Qed.
End mirror.

(** ** Observing again *)

(** C19. A message that is observed again and has not changed leaves everything as it is: its revision
    and so the receipts of it, its events and its notifications. *)
Theorem reobserved_message_unchanged find x r d row d' :
  _upsert_message find x r None None d = Ok (row, d') -> messages_ok d ->
  _upsert_message find x r None None d' = Ok (row, d').
Proof.
  intros H Hok. destruct (upsert_Ok _ _ _ _ _ _ _ _ H Hok) as (Hok' & _ & i & Hi & Hx & Hs). unfold _upsert_message.
  assert (remote_row (ds_id x) (remote_name r) row = true) as Hr by (apply remote_row_true; split; [done|by destruct Hs]).
  unfold mbind, M_bind, select, ask. destruct (List.filter _ _) as [|m l] eqn:El.
  { exfalso. apply (not_elem_of_nil row). rewrite <- El. apply elem_of_select. split; [done|]. by exists i. }
  assert (m = row) as ->.
  { assert (m ∈ m :: l) as Hin by by left. rewrite <- El in Hin. apply elem_of_select in Hin as [Hm [j Hj]].
    apply (row_slot _ _ _ _ _ _ _ Hok' Hi Hr Hj) in Hm as ->. cbn in Hj. rewrite Hi in Hj. by injection Hj. }
  assert (changed_in row (message_values r None None row) = []) as ->; [|done].
  destruct Hs as (_ & E1 & E2 & E3 & E4 & E5). unfold changed_in, message_values. cbn. by rewrite !bool_decide_true.
Qed.

(** ** Where messages live *)

Definition lives (d : DB) (x : uid) (n : string) : Prop := exists i m, tb_message d !! i = Some m /\ live_row x n m = true.

Lemma live_row_true x n m : live_row x n m = true <-> ms_discussion_id m = x /\ ms_remote_id m = n /\ ms_deleted_at m = None.
Proof. unfold live_row. rewrite andb_true_iff, remote_row_true, negb_true_iff. destruct (ms_deleted_at m); naive_solver. Qed.

Lemma lives_same d d' x n : tb_message d' = tb_message d -> lives d' x n <-> lives d x n.
Proof. intros E. unfold lives. by rewrite E. Qed.

Lemma lives_only x n d d' y k : only x n d d' -> ~ (y = x /\ k = n) -> lives d' y k <-> lives d y k.
Proof.
  intros Ho Hne. unfold lives. split; intros (i & m & Hm & Hl); exists i, m; (split; [|done]); apply Ho; try done;
    apply live_row_true in Hl as (<- & <- & _); apply not_true_iff_false; intros Hr%remote_row_true; by apply Hne.
Qed.

(** What the connector relies on between its steps. *)
Record chat_ok (d : DB) : Prop := {
  chat_messages : messages_ok d;
  chat_discussions i y : tb_discussion d !! i = Some y -> ds_id y = i }.

Section placing.
Context (find : string -> list Mention).

Lemma upsert_lives x r d row d' :
  _upsert_message find x r None None d = Ok (row, d') -> chat_ok d ->
  chat_ok d' /\ tb_discussion d' = tb_discussion d /\ forall y k, lives d' y k <-> lives d y k \/ (y = ds_id x /\ k = remote_name r).
Proof.
  intros H [Hm Hd]. destruct (upsert_Ok _ _ _ _ _ _ _ _ H Hm) as (Hok & Ho & i & Hi & Hx & Hs).
  eapply (keeps_upsert (same_part tb_discussion)) in H; [|done..]. split; [split; [done|by rewrite H]|]. split; [exact H|].
  intros y k. destruct (decide (y = ds_id x /\ k = remote_name r)) as [[-> ->]|Hne]; [|rewrite (lives_only _ _ _ _ _ _ Ho Hne); tauto].
  split; [by right|]. intros _. exists i, row. split; [done|]. apply live_row_true. destruct Hs as (? & _ & _ & _ & _ & ?). done.
Qed.

Lemma delete_lives x n d u d' :
  _delete_message find x n d = Ok (u, d') -> chat_ok d ->
  chat_ok d' /\ tb_discussion d' = tb_discussion d /\ forall y k, lives d' y k <-> lives d y k /\ ~ (y = ds_id x /\ k = n).
Proof.
  intros H [Hm Hd]. destruct (delete_Ok _ _ _ _ _ _ H Hm) as (Hok & Ho & Hgone).
  eapply (keeps_delete (same_part tb_discussion)) in H; [|done..]. split; [split; [done|by rewrite H]|]. split; [exact H|].
  intros y k. destruct (decide (y = ds_id x /\ k = n)) as [[-> ->]|Hne]; [|rewrite (lives_only _ _ _ _ _ _ Ho Hne); tauto].
  split; [|tauto]. intros (i & m & Hi & Hl). by rewrite (Hgone _ _ Hi) in Hl.
Qed.

Lemma upserts_live r l d u d' :
  for_each (fun y => _ ← _upsert_message find y r None None; mret tt) l d = Ok (u, d') -> chat_ok d ->
  chat_ok d' /\ tb_discussion d' = tb_discussion d /\ forall y k, lives d' y k <-> lives d y k \/ (y ∈ map ds_id l /\ k = remote_name r).
Proof.
  revert d. induction l as [|x l IH]; intros d H Hok; cbn [for_each] in H.
  { injection H as _ <-. split; [done|]. split; [done|]. intros y k. cbn. rewrite elem_of_nil. tauto. }
  apply bind_Ok in H as ([] & d1 & E & H). apply bind_Ok in E as (row & d2 & E & E'). injection E' as <-.
  destruct (upsert_lives _ _ _ _ _ E Hok) as (Hok1 & E1 & H1). destruct (IH _ H Hok1) as (Hok2 & E2 & H2). split; [done|]. split; [congruence|].
  intros y k. rewrite H2, H1. cbn. rewrite elem_of_cons. tauto.
Qed.

(** The channel and topic of a stored discussion. *)
Definition topic_of (d : DB) (i : uid) : option TopicKey := topic_key <$> tb_discussion d !! i.

(** The index names discussions by their identifiers, and under a topic exactly those of its
    discussions that the database has in that topic. *)
Record index_ok (d : DB) (x : Index) : Prop := {
  index_id i y : by_id x !! i = Some y -> ds_id y = i;
  index_topic i k : i ∈ map ds_id (default [] (by_topic x !! k)) <-> is_Some (by_id x !! i) /\ topic_of d i = Some k }.

Lemma index_ok_same d d' x : tb_discussion d' = tb_discussion d -> index_ok d x -> index_ok d' x.
Proof. intros E [H1 H2]. split; [done|]. unfold topic_of. by rewrite E. Qed.

Lemma deletes_live x n l d u d' :
  for_each (delete_in find x n) l d = Ok (u, d') -> chat_ok d -> (forall i y, by_id x !! i = Some y -> ds_id y = i) ->
  chat_ok d' /\ tb_discussion d' = tb_discussion d /\ forall y k, lives d' y k <-> lives d y k /\ ~ (y ∈ l /\ k = n).
Proof.
  intros H Hok Hx. revert d H Hok. induction l as [|i l IH]; intros d H Hok; cbn [for_each] in H.
  { injection H as _ <-. split; [done|]. split; [done|]. intros y k. rewrite elem_of_nil. tauto. }
  apply bind_Ok in H as ([] & d1 & E & H). unfold delete_in in E. destruct (by_id x !! i) as [z|] eqn:Ez; [|done].
  destruct (delete_lives _ _ _ _ _ E Hok) as (Hok1 & E1 & H1). destruct (IH _ H Hok1) as (Hok2 & E2 & H2). split; [done|]. split; [congruence|].
  intros y k. rewrite H2, H1, (Hx _ _ Ez), elem_of_cons. tauto.
Qed.

(** The memberships say where the messages of the batch live. *)
Definition accurate (d : DB) (x : Index) (members : Memberships) (names : list string) : Prop :=
  forall n i, n ∈ names -> i ∈ default ∅ (members !! n) <-> lives d i n /\ is_Some (by_id x !! i).

Lemma known_members_accurate d x names : accurate d x (known_members d x names) names.
Proof.
  intros n i Hn. unfold known_members.
  set (rows := stored_rows _ d).
  assert (forall l (m : Memberships), i ∈ default ∅ (List.fold_left (fun (m : Memberships) (r : message) =>
      <[ms_remote_id r := {[ms_discussion_id r]} ∪ default ∅ (m !! ms_remote_id r)]> m) l m !! n)
    <-> i ∈ default ∅ (m !! n) \/ exists r, r ∈ l /\ ms_remote_id r = n /\ ms_discussion_id r = i) as Hfold.
  { induction l as [|r l IH]; intros m; cbn; [setoid_rewrite elem_of_nil; naive_solver|]. rewrite IH. setoid_rewrite elem_of_cons.
    destruct (decide (ms_remote_id r = n)) as [<-|Hne]; [rewrite lookup_insert_eq; cbn|rewrite lookup_insert_ne by done]; [|naive_solver].
    rewrite elem_of_union, elem_of_singleton. naive_solver. }
  rewrite Hfold, lookup_empty. cbn [default]. subst rows. setoid_rewrite elem_of_stored. unfold lives. setoid_rewrite live_row_true. split.
  - intros [[]%elem_of_empty|(r & (Hp & j & Hj) & Hr & Hi)]. apply andb_true_iff in Hp as [[_ Hid]%andb_true_iff Hdel].
    subst. split; [exists j, r; split; [done|]; split; [done|]; split; [done|]; by destruct (ms_deleted_at r)|]. by destruct (by_id x !! _).
  - intros [(j & m & Hj & Hi & Hr & Hdel) [y Hy]]. right. exists m. split; [|done]. split; [|eauto]. subst. unfold mem.
    rewrite Hdel, Hy, bool_decide_true by done. done.
Qed.

(** A rename moves the discussions of the list to the topic, and changes no other. *)
Lemma rename_all_Ok source t l ids d rows ids' d' :
  rename_all source t l ids d = Ok ((rows, ids'), d') -> chat_ok d -> (forall i y, ids !! i = Some y -> ds_id y = i) ->
  chat_ok d' /\ tb_message d' = tb_message d /\ (forall i y, ids' !! i = Some y -> ds_id y = i) /\ map ds_id rows = map ds_id l
  /\ (forall i, is_Some (ids' !! i) <-> is_Some (ids !! i) \/ i ∈ map ds_id l)
  /\ forall i, topic_of d' i = if decide (i ∈ map ds_id l) then (fun k => (k.1, Some t)) <$> topic_of d i else topic_of d i.
Proof.
  revert ids d rows. induction l as [|x l IH]; intros ids d rows H Hok Hids; cbn [rename_all] in H.
  { injection H as <- <- <-. do 4 (split; [done|]). split; [intros i; cbn; rewrite elem_of_nil; tauto|done]. }
  apply bind_Ok in H as (row & d1 & E1 & H). apply bind_Ok in H as (e & d2 & E2 & H). apply bind_Ok in H as ([rows1 ids1] & d3 & E3 & H).
  injection H as <- <- <-. apply change_Ok in E1 as (y & Hy & _ & -> & ->). unfold emit_from in E2.
  pose proof E2 as E2'. grown tb_message E2. leaves tb_discussion E2'. destruct E2 as [Em2 En2]. cbn in Hy, Em2, En2, E2'.
  pose proof (chat_discussions _ Hok _ _ Hy) as Hid. set (row := touch _ _) in *. assert (ds_id row = ds_id x) as Hrow by exact Hid.
  assert (forall i, topic_of d2 i = if decide (i = ds_id x) then (fun k => (k.1, Some t)) <$> topic_of d i else topic_of d i) as Htop.
  { intros i. unfold topic_of. rewrite E2'. cbn. case_decide as Hi; [subst i; by rewrite lookup_insert_eq, Hy|by rewrite lookup_insert_ne]. }
  apply IH in E3 as (H1 & H2 & H3 & H4 & H5 & H6).
  - split; [done|]. split; [congruence|]. split; [done|]. split; [cbn; congruence|]. split.
    + intros i. rewrite H5, lookup_insert_is_Some'. cbn. rewrite elem_of_cons. naive_solver.
    + intros i. rewrite H6, Htop. cbn [map]. repeat case_decide; rewrite ?elem_of_cons in *; try tauto. by destruct (topic_of d i).
  - destruct Hok as [Hm Hd]. split; [by eapply messages_ok_same|]. rewrite E2'. intros i z Hz. cbn in Hz. apply lookup_insert_Some in Hz as [[<- <-]|[_ Hz]]; [exact Hid|by apply Hd].
  - intros i z [[<- <-]|[_ Hz]]%lookup_insert_Some; [done|by apply Hids].
Qed.

Lemma rename_topic_Ok integration e m x d x' d' :
  rename_topic integration e m x d = Ok (x', d') -> chat_ok d -> index_ok d x ->
  chat_ok d' /\ tb_message d' = tb_message d /\ index_ok d' x' /\ forall i, is_Some (by_id x' !! i) <-> is_Some (by_id x !! i).
Proof.
  unfold rename_topic. intros H Hok [Hx1 Hx2]. destruct (renames e m x) eqn:Er; [|by injection H as <- <-].
  apply bind_Ok in H as (t & ? & [Ht ->]%lift_Ok & H). apply bind_Ok in H as ([rows ids] & d1 & E & H). injection H as <- <-.
  apply rename_all_Ok in E as (H1 & H2 & H3 & H4 & H5 & H6); [|done..]. set (l := default [] (by_topic x !! old_key e)) in *.
  assert (forall i, i ∈ map ds_id l <-> is_Some (by_id x !! i) /\ topic_of d i = Some (old_key e)) as Hl by (intros i; apply Hx2).
  assert (forall i, is_Some (ids !! i) <-> is_Some (by_id x !! i)) as Hids by (intros i; rewrite H5, Hl; tauto).
  unfold renames in Er. bools. assert (((old_key e).1, Some t) = new_key m) as Hnew.
  { unfold new_key in *. cbn in *. destruct (rm_subject m) as [s|]; [|done]. injection Ht as ->. congruence. }
  assert (forall i, topic_of d i = Some (old_key e) -> (fun k => (k.1, Some t)) <$> topic_of d i = Some (new_key m)) as Hmoved by (intros i ->; by rewrite <- Hnew).
  split; [done|]. split; [done|]. split; [|done]. split; [done|]. intros i k. cbn [by_id by_topic]. rewrite Hids, H6.
  assert (is_Some (by_id x !! i) -> topic_of d i <> Some (new_key m)) as Hnone.
  { intros Hi Ei. pose proof (proj2 (Hx2 i (new_key m)) (conj Hi Ei)) as Hin. destruct (by_topic x !! new_key m); [done|by apply elem_of_nil in Hin]. }
  destruct (decide (k = new_key m)) as [->|Hk]; [rewrite lookup_insert_eq; cbn; rewrite H4|rewrite lookup_insert_ne by done].
  - case_decide as Hi; [|naive_solver]. split; [|done]. intros _. apply Hl in Hi as [Hi Ei]. split; [done|by apply Hmoved].
  - destruct (decide (k = old_key e)) as [->|Ho]; [rewrite lookup_delete_eq|rewrite lookup_delete_ne by done].
    + cbn. rewrite elem_of_nil. case_decide as Hi; [apply Hl in Hi as [Hi Ei]; rewrite (Hmoved i Ei); split; [done|intros [_ E%(inj Some)]; congruence]|].
      rewrite <- Hl. tauto.
    + rewrite Hx2. case_decide as Hi; [|done]. apply Hl in Hi as [Hi Ei]. rewrite (Hmoved i Ei), Ei.
      split; intros [_ E%(inj Some)]; congruence.
Qed.

(** What the loop over a batch keeps. *)
Record placed (names : list string) (d : DB) (x : Index) (members : Memberships) : Prop := {
  placed_chat : chat_ok d;
  placed_index : index_ok d x;
  placed_members : accurate d x members names }.

Lemma delete_named_Ok x l names d members members' d' :
  delete_named find x l members d = Ok (members', d') -> placed names d x members -> placed names d' x members'.
Proof.
  revert members d. induction l as [|n l IH]; intros members d H Hp; cbn [delete_named] in H; [by injection H as <- <-|].
  apply bind_Ok in H as ([] & d1 & E & H). eapply IH; [exact H|]. destruct Hp as [Hc Hx Ha].
  apply deletes_live in E as (Hc1 & E1 & H1); [|done|by destruct Hx]. split; [done|by eapply index_ok_same|]. intros k i Hk. rewrite H1, elem_of_elements.
  destruct (decide (k = n)) as [->|Hne]; [rewrite lookup_delete_eq|rewrite lookup_delete_ne by done]; cbn; [|rewrite (Ha _ _ Hk); tauto].
  rewrite elem_of_empty. rewrite (Ha _ _ Hk). tauto.
Qed.

(** A message lives where its topic is followed. *)
Definition in_its_topic (d : DB) (x : Index) (m : RemoteMessage) : Prop :=
  forall i, is_Some (by_id x !! i) -> lives d i (remote_name m) <-> topic_of d i = Some (new_key m).

Lemma apply_observation_Ok integration o names x members d x' members' d' :
  apply_observation find integration o x members d = Ok ((x', members'), d') ->
  (forall m, o.2 = Some m -> remote_name m ∈ names) -> placed names d x members ->
  placed names d' x' members' /\ (forall i, is_Some (by_id x' !! i) <-> is_Some (by_id x !! i)) /\ forall m, o.2 = Some m -> in_its_topic d' x' m.
Proof.
  unfold apply_observation. intros H Hn Hp. destruct o as [e [m|]]; cbn [fst snd] in *.
  - apply bind_Ok in H as (x1 & d1 & Er & H). destruct Hp as [Hc Hx Ha]. apply rename_topic_Ok in Er as (Hc1 & Em & Hx1 & Hids); [|done..].
    apply bind_Ok in H as ([] & d2 & Ed & H). apply bind_Ok in H as ([] & d3 & Eu & H). injection H as <- <- <-.
    apply deletes_live in Ed as (Hc2 & Ed2 & H2); [|done|by destruct Hx1]. apply upserts_live in Eu as (Hc3 & Ed3 & H3); [|done].
    assert (index_ok d3 x1) as Hx3 by (eapply index_ok_same; [|exact Hx1]; congruence).
    set (matching := default [] (by_topic x1 !! new_key m)) in *. specialize (Hn m eq_refl).
    assert (forall i, i ∈ map ds_id matching -> is_Some (by_id x1 !! i)) as Hin.
    { intros i Hi. by apply (index_topic _ _ Hx1) in Hi as [Hi _]. }
    assert (forall i, is_Some (by_id x1 !! i) -> lives d3 i (remote_name m) <-> i ∈ map ds_id matching) as Hplace.
    { intros i Hi. rewrite H3, H2, (lives_same _ _ _ _ Em), elem_of_elements, elem_of_difference, elem_of_list_to_set, (Ha _ _ Hn), Hids in *.
      destruct (decide (i ∈ map ds_id matching)); tauto. }
    split; [|split; [exact Hids|intros ? [= <-] i Hi; rewrite (Hplace i Hi); unfold matching; rewrite (index_topic _ _ Hx3); tauto]].
    split; [done|done|]. intros k i Hk. destruct (decide (k = remote_name m)) as [->|Hne].
    + rewrite lookup_insert_eq. cbn. rewrite elem_of_list_to_set. split; [intros Hi; specialize (Hin _ Hi); by rewrite (Hplace _ Hin)|].
      intros [Hl Hi]. by apply Hplace.
    + rewrite lookup_insert_ne by done. rewrite (Ha _ _ Hk), H3, H2, (lives_same _ _ _ _ Em), Hids. tauto.
  - apply bind_Ok in H as (members1 & d1 & E & H). injection H as <- <- <-. split; [by eapply delete_named_Ok|by split].
Qed.

Lemma apply_observations_Ok integration l names x members d x' d' :
  apply_observations find integration l x members d = Ok (x', d') ->
  (forall o m, o ∈ l -> o.2 = Some m -> remote_name m ∈ names) -> placed names d x members ->
  chat_ok d' /\ index_ok d' x' /\ (forall i, is_Some (by_id x' !! i) <-> is_Some (by_id x !! i))
  /\ forall l1 e m, l = (l1 ++ [(e, Some m)])%list -> in_its_topic d' x' m.
Proof.
  revert x members d. induction l as [|o l IH]; intros x members d H Hn Hp; cbn [apply_observations] in H.
  { injection H as <- <-. split; [by destruct Hp|]. split; [by destruct Hp|]. split; [done|]. intros [|? ?] ?? E; discriminate E. }
  apply bind_Ok in H as ([x1 members1] & d1 & E & H).
  apply (apply_observation_Ok _ _ names) in E as (Hp1 & Hi1 & Hlast); [|intros m; apply Hn; by left|done].
  destruct (IH _ _ _ H) as (H1 & H2 & Hi2 & H3); [intros q m Hq; apply Hn; by right|done|]. split; [done|]. split; [done|].
  split; [intros i; by rewrite Hi2|]. intros l1 e m El. destruct l1 as [|o1 l1]; [|injection El as _ ->; by eapply H3].
  injection El as -> ->. cbn in H. injection H as <- <-. by apply Hlast.
Qed.

Lemma batch_ids_elem l o m : o ∈ l -> o.2 = Some m -> remote_name m ∈ batch_ids l.
Proof.
  intros Ho Em. unfold batch_ids. apply list_elem_of_In, in_concat. exists [remote_name m].
  split; [|by left]. apply in_map_iff. exists o. rewrite Em. split; [done|]. by apply list_elem_of_In.
Qed.

(** C17. A message lives in its topic.  A batch of events is applied with what the database knew of
    its messages at the start and an index of the integration's discussions that agreed with their
    rows; when its last event shows a message, also after renames of topics, moves between them and
    deletions earlier in the batch, then among the discussions of the integration the message is alive
    in exactly those whose rows now have its channel and topic, and the index agrees with the rows
    again. *)
Theorem observed_message_placed integration l e m x d x' d' :
  apply_observations find integration (l ++ [(e, Some m)]) x (known_members d x (batch_ids (l ++ [(e, Some m)]))) d = Ok (x', d') ->
  messages_ok d -> (forall i y, tb_discussion d !! i = Some y -> ds_id y = i) -> index_ok d x ->
  messages_ok d' /\ index_ok d' x'
  /\ forall i, is_Some (by_id x !! i) ->
       (exists j r, tb_message d' !! j = Some r /\ ms_discussion_id r = i /\ ms_remote_id r = remote_name m /\ ms_deleted_at r = None)
       <-> exists y, tb_discussion d' !! i = Some y /\ topic_key y = new_key m.
Proof.
  intros H Hm Hd Hx. eapply apply_observations_Ok in H as (H1 & H2 & Hids & H3); [|by intros o q Ho Hq; eapply batch_ids_elem|split; [by split|done|]].
  - split; [by destruct H1|]. split; [done|]. intros i Hi. transitivity (lives d' i (remote_name m)).
    + unfold lives. by setoid_rewrite live_row_true.
    + rewrite (H3 _ _ _ eq_refl i (proj2 (Hids i) Hi)). unfold topic_of. rewrite fmap_Some. naive_solver.
  - apply known_members_accurate.
Qed.
End placing.

(** The index of a list is exact. *)
Lemma index_of_topic l i k : i ∈ map ds_id (default [] (by_topic (index_of l) !! k)) <-> exists y, y ∈ l /\ ds_id y = i /\ topic_key y = k.
Proof.
  assert (forall q (m : gmap TopicKey (list discussion)),
    i ∈ map ds_id (default [] (List.fold_left (fun m x => <[topic_key x := (default [] (m !! topic_key x) ++ [x])%list]> m) q m !! k))
    <-> i ∈ map ds_id (default [] (m !! k)) \/ exists y, y ∈ q /\ ds_id y = i /\ topic_key y = k) as Hfold.
  { clear. induction q as [|x q IH]; intros m; cbn [List.fold_left]; [setoid_rewrite elem_of_nil; naive_solver|].
    rewrite IH. setoid_rewrite elem_of_cons. destruct (decide (topic_key x = k)) as [<-|Hne].
    - rewrite lookup_insert_eq. cbn. rewrite map_app, elem_of_app. cbn. rewrite list_elem_of_singleton. split; [intros [[?| ->]|(y & ? & ?)]|intros [?|(y & [->|?] & [? ?])]]; eauto 8.
    - rewrite lookup_insert_ne by done. naive_solver. }
  cbn [by_topic index_of]. rewrite Hfold, lookup_empty. cbn. rewrite elem_of_nil. naive_solver.
Qed.

(** The index of the discussions that were read agrees with their rows. *)
Lemma index_of_ok d l : NoDup (map ds_id l) -> (forall y, y ∈ l -> tb_discussion d !! ds_id y = Some y) -> index_ok d (index_of l).
Proof.
  intros Hn Hd. assert (forall i y, by_id (index_of l) !! i = Some y <-> ds_id y = i /\ y ∈ l) as Hid.
  { intros i y. cbn. rewrite <- elem_of_list_to_map by (rewrite <- list_fmap_compose; exact Hn). rewrite list_elem_of_fmap. naive_solver. }
  split; [intros i y Hy; by apply Hid|]. intros i k. rewrite index_of_topic. unfold topic_of. split.
  - intros (y & Hy & <- & <-). rewrite (Hd y Hy). split; [|done]. exists y. by apply Hid.
  - intros [[y [<- Hy]%Hid] E]. rewrite (Hd y Hy) in E. injection E as <-. by exists y.
Qed.

(** ** Witnesses *)

Definition remote_message (i : Z) (topic content : string) : RemoteMessage :=
  {| rm_id := i; rm_sender_id := 7; rm_sender_email := "ada@example.org"; rm_content := content; rm_timestamp := 1; rm_last_edit_timestamp := None;
     rm_stream_id := Some 5; rm_subject := Some topic |}.

(** The topic of discussion 30 now shows 11, edited, and 12. *)
Definition sample_listing : list RemoteMessage := [remote_message 11 "proofs" "see the file"; remote_message 12 "proofs" "done"].

Definition sample_server : ChatServer :=
  {| sv_register := Ok ("queue", 0); sv_topic_messages := fun _ _ => Ok sample_listing; sv_events := fun _ _ => Ok [];
     sv_message := fun _ => Err (transient "http_404") |}.

Definition sample_cursor : connector_cursor :=
  {| cc_id := 41; cc_created_at := 0; cc_updated_at := 0; cc_revision := 1; cc_integration_id := 40; cc_consumer := "zulip";
     cc_queue_remote_id := Some "queue"; cc_last_event_remote_id := Some "0"; cc_last_message_remote_id := None; cc_status := SyncReconciling;
     cc_last_synced_at := None |}.

Definition topic_row (i : uid) (topic : string) : discussion := new_discussion 2 40 "5" topic i 0.

Definition chat_db : DB :=
  talk_db <| tb_connector_cursor := {[41%positive := sample_cursor]} |>
    <| tb_discussion := <[33%positive := topic_row 33 "other"]> {[30%positive := topic_row 30 "proofs"]} |>.

Definition alone (d : DB) : DB := d.
Definition never (d : DB) : bool := false.

Lemma chat_db_ok : messages_ok chat_db.
Proof.
  assert (forall i m, tb_message chat_db !! i = Some m -> i = 32%positive /\ ms_remote_id m = "11" \/ i = 31%positive /\ ms_remote_id m = "10") as Hrows.
  { intros i m. cbn. intros [[<- <-]|[_ [<- <-]%lookup_singleton_Some]]%lookup_insert_Some; [by left|by right]. }
  split.
  - exact (keyed_rows_spec ms_id (tb_message chat_db) ltac:(by vm_compute)).
  - intros i m Hm. destruct (Hrows _ _ Hm) as [[-> _]|[-> _]]; by vm_compute.
  - intros i j m n Hm Hn _ E. destruct (Hrows _ _ Hm) as [[-> Em]|[-> Em]], (Hrows _ _ Hn) as [[-> En]|[-> En]]; congruence.
Qed.

Lemma reconciled_topic_mirrored_witness :
  exists c' d', reconcile_discussion mention_six alone never sample_server (topic_row 30 "proofs") sample_cursor chat_db = (Ok c', d')
    /\ (exists i m, tb_message d' !! i = Some m /\ shows (remote_message 12 "proofs" "done") m)
    /\ forall i m, tb_message d' !! i = Some m -> ms_remote_id m = "10" -> ms_discussion_id m = 30%positive -> ms_deleted_at m <> None.
Proof.
  destruct (reconcile_discussion mention_six alone never sample_server (topic_row 30 "proofs") sample_cursor chat_db) as [[c'|e] d'] eqn:E.
  2: { exfalso. assert (is_ok (reconcile_discussion mention_six alone never sample_server (topic_row 30 "proofs") sample_cursor chat_db).1 = true)
         as H by (by vm_compute). by rewrite E in H. }
  assert (forall r r', r ∈ sample_listing -> r' ∈ sample_listing -> rm_id r = rm_id r' -> r = r') as Hl.
  { intros r r' Hr Hr' Hid. unfold sample_listing in Hr, Hr'. rewrite !elem_of_cons, elem_of_nil in Hr, Hr'.
    destruct Hr as [->|[->|[]]], Hr' as [->|[->|[]]]; done. }
  destruct (reconciled_topic_mirrored mention_six alone never sample_server _ _ _ _ _ sample_listing E eq_refl Hl) as (_ & H1 & H2 & _);
    [intros d; split; [done|unfold alone; lia]|exact chat_db_ok|].
  exists c', d'. split; [reflexivity|]. split.
  - destruct (H1 (remote_message 12 "proofs" "done")) as (i & m & Hi & _ & Hs); [right; left|]. exists i, m. split; [exact Hi|exact Hs].
  - intros i m Hm Hn Hx Hd. destruct (H2 i m Hm Hx Hd) as (r & Hr & Hs & _). unfold sample_listing in Hr.
    rewrite !elem_of_cons, elem_of_nil in Hr. destruct Hr as [->|[->|[]]]; by rewrite Hn in Hs.
Defined.

Lemma reobserved_message_unchanged_witness :
  exists row d', _upsert_message mention_six (topic_row 30 "proofs") (remote_message 12 "proofs" "done") None None chat_db = Ok (row, d')
    /\ _upsert_message mention_six (topic_row 30 "proofs") (remote_message 12 "proofs" "done") None None d' = Ok (row, d').
Proof.
  destruct (is_ok_true (_upsert_message mention_six (topic_row 30 "proofs") (remote_message 12 "proofs" "done") None None chat_db)) as [[row d'] E];
    [by vm_compute|].
  exists row, d'. split; [exact E|]. exact (reobserved_message_unchanged _ _ _ _ _ _ E chat_db_ok).
Defined.

(** Message 11 moves from the topic of discussion 30 to that of 33. *)
Definition moved_event : ChatEvent :=
  {| ce_id := 1; ce_type := "update_message"; ce_message := None; ce_message_ids := Some [11]; ce_message_id := None; ce_stream_id := Some 5;
     ce_orig_subject := Some "proofs"; ce_subject := Some "other"; ce_propagate_mode := Some "change_one" |}.

Definition sample_moves : list Observation := [(moved_event, Some (remote_message 11 "other" "see R1-A6"))].
Definition sample_index : Index := index_of [topic_row 30 "proofs"; topic_row 33 "other"].

Lemma sample_index_ok : index_ok chat_db sample_index.
Proof.
  apply index_of_ok; [by apply NoDup_cons_2; [rewrite list_elem_of_singleton|apply NoDup_singleton]|].
  intros y. rewrite elem_of_cons, list_elem_of_singleton. by intros [->| ->]; vm_compute.
Qed.

Lemma observed_message_placed_witness :
  exists x' d', apply_observations mention_six 40 sample_moves sample_index (known_members chat_db sample_index (batch_ids sample_moves)) chat_db = Ok (x', d')
    /\ exists j r, tb_message d' !! j = Some r /\ ms_discussion_id r = 33%positive /\ ms_remote_id r = "11" /\ ms_deleted_at r = None.
Proof.
  destruct (is_ok_true (apply_observations mention_six 40 sample_moves sample_index
    (known_members chat_db sample_index (batch_ids sample_moves)) chat_db)) as [[x' d'] E]; [by vm_compute|].
  assert (match apply_observations mention_six 40 sample_moves sample_index (known_members chat_db sample_index (batch_ids sample_moves)) chat_db with
          | Ok (_, d) => topic_key <$> tb_discussion d !! 33%positive = Some (new_key (remote_message 11 "other" "see R1-A6"))
          | Err _ => False end) as H by (by vm_compute).
  rewrite E in H. apply fmap_Some in H as (y & Hy & Ht).
  destruct (observed_message_placed mention_six 40 [] moved_event (remote_message 11 "other" "see R1-A6") sample_index chat_db x' d' E chat_db_ok
    (keyed_rows_spec ds_id (tb_discussion chat_db) ltac:(by vm_compute)) sample_index_ok) as (_ & _ & Hp).
  exists x', d'. split; [exact E|]. apply (Hp 33%positive); [by vm_compute; eexists|]. exists y. split; [exact Hy|by symmetry].
Defined.
